(* ===== verification/_CoqProject ===== *)
-Q . S2P
Prelude.v
Memory.v
StateMonad.v
OpenFlow.v
ByteOrder.v
LinkedList.v
DList.v
EventHandler.v
Timer.v
Buffer.v
HashTable.v
Codes.v
Actions.v
Validate.v
Utility.v
Management.v
Stat.v
MessageBuffer.v
Messenger.v
Delivery.v
Match.v
MatchTable.v
ErrorMap.v
TransactionId.v
PacketInfo.v
PacketParser.v
MatchPacket.v
PacketFields.v
XidTable.v
MessageQueue.v
SecureChannel.v
CookieTable.v
Create.v
Roundtrip.v
Accept.v
SwitchInfo.v
OfpMsgSend.v
Switch.v
OfpMsgRecv.v
EventForward.v
Daemon.v
Evolution.v
Transactions.v
States.v
ApplicationInterface.v
ApplicationMessages.v
Applications.v
InPlace.v
SwitchInterface.v
SwitchMessages.v
SwitchContexts.v
EventForwardInterface.v
ForwardRequests.v
ForwardTransactions.v
PacketinFilter.v
Filtering.v
Ether.v
FilterInterface.v
SwitchChannel.v
ChannelPhases.v
ChannelRuns.v
