(* ===== verification/Prelude.v ===== *)
(** Trema, an OpenFlow 1.0 controller framework: a verification library.

    * The program

    Trema is a set of processes that talk OpenFlow 1.0 on one side and messages
    of their own on the other.  For every switch that connects there is a daemon
    (src/src/switch_manager/) that owns the connection; applications are
    programs linked with the library (src/src/lib/); a packet-in filter
    (src/src/packetin_filter/) stands between the daemons and the applications
    that want some of the packets only.  The processes exchange messages over
    UNIX sockets (messenger.c).  A message from a switch goes

      socket -> secure_channel_receiver.c -> ofpmsg_recv.c -> service_interface.c
        -> messenger.c -> (packetin_filter.c ->) openflow_application_interface.c
        -> the handler of the application,

    and a message to a switch the other way, through
    openflow_application_interface.c, messenger.c, ofpmsg_send.c and
    secure_channel_sender.c.  openflow_message.c builds and checks every message
    on both ways; xid_table.c and cookie_table.c remember whose request or flow
    it was.

    * The files

    The basis.
    - Prelude: results ([res], a value or a fault), integers of 8 to 64 bits,
      tactics.  StateMonad: functions that thread a state.
    - Memory: bytes of C objects, host and network byte order (<arpa/inet.h>,
      byteorder.h).  The byte order of the host is the parameter [Host].
    - OpenFlow: <openflow/openflow.h>, its structures and their wire images.

    Containers, src/src/lib/: linked_list.c (LinkedList), doubly_linked_list.c
    (DList), hash_table.c (HashTable), buffer.c (Buffer), utility.c (Utility),
    stat.c (Stat), message_queue.c (MessageQueue).  Pointers are addresses of
    explicit heaps where the code frees, shares or compares them.

    Messages of OpenFlow, src/src/lib/: byteorder.c (ByteOrder),
    openflow_message.c (Codes, Actions, Validate, Create, ErrorMap,
    TransactionId, MatchPacket), match.h and match_table.c (Match, MatchTable),
    packet_info.c (PacketInfo), packet_parser.c (PacketParser; PacketFields has
    the widths of what it leaves).  Roundtrip and Accept compare the
    constructors with the validators.

    Processes and their messages, src/src/lib/: event_handler.c (EventHandler),
    timer.c (Timer), messenger.c (MessageBuffer, Messenger); Delivery puts the
    messenger of a sender and that of a receiver on the two ends of a socket.

    The daemon of a switch, src/src/switch_manager/: xid_table.c (XidTable),
    cookie_table.c (CookieTable), secure_channel_receiver.c and
    secure_channel_sender.c (SecureChannel), switchinfo.h (SwitchInfo),
    ofpmsg_send.c (OfpMsgSend), ofpmsg_recv.c (OfpMsgRecv), switch.c (Switch),
    event_forward_entry_manipulation.c (EventForward), service_interface.c and
    the event handlers (Daemon, whose [step] is one event).  Evolution,
    Transactions and States are theorems about sequences of steps.

    Applications: openflow_application_interface.c (ApplicationInterface), what
    reaches its handlers (ApplicationMessages), what it sends to a daemon
    (Applications); packetin_filter.c (PacketinFilter) and its filters as a
    list of registrations (Filtering); packetin_filter_interface.c, the requests
    of its clients (FilterInterface).

    Management: management_interface.c and management_service_interface.c
    (Management), which every process answers with; event_forward_interface.c
    (EventForwardInterface), its requests as the daemons serve them
    (ForwardRequests) and its requests to all switches (ForwardTransactions).

    Programs that play a switch: openflow_switch_interface.c (SwitchInterface),
    what reaches its handlers (SwitchMessages, with the conversions of InPlace)
    and where their answers go (SwitchContexts); secure_channel.c, the connection
    to the controller (SwitchChannel), as a machine of five phases
    (ChannelPhases), and its runs (ChannelRuns); ether.c (Ether).

    A definition has the name of the function that it translates; a static
    variable is a field of the state that the function takes and returns.  Where
    a name is not that of the code, it is a loop, a branch or a piece of the
    function whose name is next to it, or a definition of a specification.

    * What a function returns

    [res A] is [Ok] with a value or [Fault].  The faults say why the process
    stops or may do anything: an access outside an object ([OutOfBounds]), of
    NULL ([NullPointer]) or of freed memory ([UseAfterFree]), a failed [assert]
    ([AssertFailed]), [die] ([Died]), and [OutOfFuel].  A theorem that a call is
    [Ok] says that none of this happens.  Functions that thread a state use the
    monad of StateMonad.  Error codes of the code are values, not faults.

    * Loops and fuel

    A loop over a list is a [Fixpoint] on it.  Other loops have fuel, chosen so
    that it cannot run out: the number of cells of the heap, plus one, for a walk
    over linked nodes; the number of elements of a table, plus one, for an
    iteration; the length of the message or of the buffer, plus one, where each
    turn consumes a byte or more (messages of a stream, tags of a frame, entries
    of a statistics reply); 2^16 + 1 for an offset of 16 bits that grows; the
    number of the cookies in use, plus one, for the search of a free one; for the
    turn of the event loop, the size of an fd_set plus one for every socket that
    waits ([serve_fuel]).  The theorems give [Ok], so that the fuel was enough, or
    say that no fuel is: [validate_actions_diverges] is about a loop of the code
    that does not end.  [start_event_handler], which is meant to run for ever,
    takes the number of its turns.

    * What the theorems show

    - Containers refine lists, maps and queues, leak nothing and end:
      [linked_list_refines], [delete_dlist_refines], [hash_table_refines] (for
      any keys whose comparison and hash agree, the class [HashKeyOk]),
      [hash_iteration], [buffer_refines], [message_buffer_refines],
      [message_queue_refines], [stat_counts].  Where a function does not do what
      its documentation says the list is that of the code: [insert_before] never
      inserts before the head.
    - Messages: the constructors make the bytes of the specification
      ([create_message_ok]), which the validators accept
      ([created_message_accepted]); the validators find the first error of a
      list of actions ([validate_actions_complete]) and what they accept is
      valid ([validate_action_sound]); each error is answered by its OpenFlow
      error ([header_error_mapped], [action_error_mapped]); transaction ids and
      cookies count ([identifiers_count]).
    - Packets: the parser stays inside the frame ([parse_packet_bounds]), finds
      what a frame was made of ([parse_packet_roundtrip]), and aborts on some
      frames ([parse_packet_aborts]).  The match of a packet covers it
      ([set_match_from_packet_covers]) and its normal form covers the same
      packets ([normalize_match_covers]).
    - Matching: the comparisons decide what they are for
      ([compare_filter_match_subsumes]); the table refines a map and a sorted
      list ([match_table_refines]) and finds the entry of the highest priority
      ([lookup_highest_priority]).
    - Processes: a turn of the event loop serves the sockets that are ready
      ([run_event_handler_once_serves]) whatever the callbacks add and remove,
      and the timers that are due ([execute_timer_events_serves]); messages
      arrive once and in order ([messages_delivered_in_order], with
      [ends_set_up] for its hypotheses).
    - The daemon: its tables refine maps ([xid_table_refines],
      [cookie_table_refines]); the stream is cut into the messages it is made of
      ([reads_deliver_messages]) and messages are written once and in order
      ([sent_messages_written]); through any events in between, a reply
      without cookies that are translated comes back to the application that
      asked, with its own id ([reply_reaches_application]), and the report of a removed flow, with its
      own cookie ([flow_removed_reaches_application]); the notifications follow
      the connection ([notifications_follow_connection]); applications choose
      which events they get ([service_requests]).
    - Applications: a message of a switch reaches the handler set for it, with
      the arguments it was made from ([switch_message_reaches_handler]), and what
      an application sends reaches the daemon as it was
      ([sent_message_received]).
    - The packet-in filter: it answers requests as the list of registrations says
      ([filters_follow_requests]) and sends a packet to the services of the best
      registration that it matches, as long as no sending fails
      ([packets_follow_requests]); a request of a client comes back to it with
      what became of it, or reads behind the end of a short name
      ([filter_call_served]).
    - Event forwarding: a request about the services of a switch is served and
      its reply understood ([forward_request_served]); a request to all the
      switches is answered once, when each has answered or timed out
      ([to_all_answered_once]).
    - Programs that play a switch: a message of the controller reaches the
      handler set for it, with the arguments it was made from
      ([controller_message_reaches_handler]); the contexts are a map from
      transaction ids to who asked ([events_follow_routes]); an answer goes to
      who asked as long as the context is there ([answers_go_back]), and an error
      has the request with it ([error_carries_request]).  What is sent to an
      application this way is dropped there ([local_message_dropped]).  Their
      channel to the controller does what the machine of five phases does
      ([secure_channel_refines]), opens again whenever the controller takes a
      connection ([connection_opened_again]), and never writes any more after a
      connection that ends with a message waiting
      ([waiting_message_blocks_channel]).

    Reference definitions are written next to the theorems: [wire_message] for
    the bytes of a message, [covers] for matches, [actions_error] for lists of
    actions, [spec_calls] and their like for the containers, [registration] for
    filters.

    * Interfaces

    Code that is not modelled, or modelled elsewhere, is a class of functions on
    the state of the world: [System] for the system calls of messenger.c,
    [Messaging] for the messenger as an application sees it (implemented by
    Messenger and Stat, which ApplicationMessages proves), [Answering] for its
    replies, [Chibach] for the secure channel and the timer of a program that
    plays a switch, [Managed] and [Requesting] for what the management and the
    event forwarding interfaces call, [HashKey] for the keys of hash tables,
    [Sockets] for what the channel of a switch asks of the system,
    [FilterMessaging] for what a client of the packet-in filter calls,
    [WireStruct] for structures with a layout.  Their laws are classes too, or
    hypotheses of a Section.  The daemon of a switch calls the messenger and the event handler through the
    fields of [environment].  A callback of the program is a value that the
    client interprets; what it does during a call is an argument, or the call is
    logged and what the callback does comes next.

    * What is not modelled

    - Threads: every public function holds its mutex during its body and is one
      step.  TransactionId has the exception, where a value is read after the
      mutex is released.
    - Logging, allocation failure (the wrappers of wrapper.c end the process) and
      usage messages.
    - Processes, signals, files and sockets: trema.c, daemon.c, log.c,
      persistent_storage.c, chibach.c, dpid_table.c, secure_channel_listener.c,
      switch_manager.c; the system calls of messenger.c and of both secure
      channels are parameters.
    - The Ruby bindings (src/ruby/), the Wireshark dissector and tremashark
      (src/src/tremashark/), the examples and the vendored programs.
    - [message] of Create is the reference of the messages with a constructor that
      takes fixed arguments; the replies with flow statistics, the description of
      a switch and the configuration of queues are created and validated in
      Create and Validate, and converted in ByteOrder, without a place in it. *)

From Stdlib Require Import ZArith Lia Bool.
From coqutil Require Import Byte Word.LittleEndianList.
From stdpp Require Import base list.

#[global] Open Scope Z_scope.
#[export] Set Default Goal Selector "!".

(** * Outcomes of C code

    A C function either returns ([Ok]) or stops the process or leaves the
    defined behaviour of C ([Fault]). *)

Inductive fault : Type :=
| OutOfBounds      (** a load or store outside the bytes of the object *)
| NullPointer      (** a NULL pointer is dereferenced *)
| AssertFailed     (** [assert] aborts *)
| Died             (** [die] aborts, utility.c *)
| DivideByZero     (** a remainder by zero *)
| SignedOverflow   (** an [int] leaves its range *)
| UseAfterFree     (** memory that has been freed is used *)
| OutOfFuel.       (** the loop still runs after the fuel given *)

Inductive res (A : Type) : Type :=
| Ok (a : A)
| Fault (f : fault).
Arguments Ok {A} _.
Arguments Fault {A} _.

#[export] Instance fault_eq_dec : EqDecision fault.
Proof. solve_decision. Defined.

Definition bind {A B} (r : res A) (k : A -> res B) : res B :=
  match r with
  | Ok a => k a
  | Fault f => Fault f
  end.

(** [assert( c )]: aborts when the condition is false. *)
Definition assert (c : bool) : res unit := if c then Ok tt else Fault AssertFailed.

Declare Scope res_scope.
Delimit Scope res_scope with res.
Notation "'let*' x := e 'in' k" := (bind e (fun x => k))
  (at level 10, x pattern, e at level 200, k at level 200,
   format "'[v' 'let*'  x  :=  e  'in' '//' k ']'") : res_scope.
(** [ret = e; if ( ret < 0 ) { return ret; } k] *)
Notation "'check*' e 'in' k" :=
  (bind e (fun ret => if Z.ltb ret 0 then Ok ret else k))
  (at level 10, e at level 200, k at level 200,
   format "'[v' 'check*'  e  'in' '//' k ']'") : res_scope.
#[global] Open Scope res_scope.

Definition is_ok {A} (r : res A) : Prop := exists a, r = Ok a.

Lemma bind_Ok {A B} (a : A) (k : A -> res B) : bind (Ok a) k = k a.
Proof. reflexivity. Qed.

(** Run a [bind] whose first part is done.  Rewriting keeps the kernel from
    evaluating that part again to compare the two sides, as [cbn] would. *)
Ltac bind_ok := repeat (rewrite bind_Ok; cbv beta).

Lemma bind_Fault {A B} f (k : A -> res B) : bind (Fault f) k = Fault f.
Proof. reflexivity. Qed.

Lemma bind_bind {A B C} (r : res A) (k : A -> res B) (h : B -> res C) :
  bind (bind r k) h = bind r (fun a => bind (k a) h).
Proof. by destruct r. Qed.

Lemma bind_inv {A B} (r : res A) (k : A -> res B) b :
  bind r k = Ok b -> exists a, r = Ok a /\ k a = Ok b.
Proof. destruct r; simpl; [eauto | discriminate]. Qed.

Lemma bind_is_ok {A B} (r : res A) (k : A -> res B) :
  is_ok r -> (forall a, r = Ok a -> is_ok (k a)) -> is_ok (bind r k).
Proof. intros [a ->] Hk. by apply Hk. Qed.

(** The outcome is defined and passes a test: to evaluate a run and to name
    its result, without the result ever being written out. *)
Definition is_okb {A} (r : res A) (P : A -> bool) : bool := match r with Ok a => P a | Fault _ => false end.

Lemma is_okb_ok {A} (r : res A) P : is_okb r P = true -> exists a, r = Ok a /\ P a = true.
Proof. destruct r as [a |]; [by exists a | done]. Qed.

(** * Machine integers: values of unsigned C types as [Z], conversions wrap. *)

Definition u8 (x : Z) : Z := x mod 2 ^ 8.
Definition u16 (x : Z) : Z := x mod 2 ^ 16.
Definition u32 (x : Z) : Z := x mod 2 ^ 32.
Definition u64 (x : Z) : Z := x mod 2 ^ 64.

Definition UINT16_MAX : Z := 65535.
Definition UINT32_MAX : Z := 4294967295.

(** [( uint32_t ) ~x] *)
Definition not32 (x : Z) : Z := u32 (Z.lnot x).

(** A C integer used as a condition. *)
Definition truth (x : Z) : bool := negb (x =? 0).

(** * Bits *)

Lemma testbit_above x n k : 0 <= x < 2 ^ n -> 0 <= n <= k -> Z.testbit x k = false.
Proof.
  intros Hx Hk. rewrite Z.testbit_odd, Z.shiftr_div_pow2 by lia. rewrite Z.div_small; [done |].
  split; [lia |]. eapply Z.lt_le_trans; [apply Hx | apply Z.pow_le_mono_r; lia].
Qed.

(** A number in the low [n] bits beside one above them. *)
Lemma lor_shiftl x y n : 0 <= n -> 0 <= x < 2 ^ n -> Z.lor x (Z.shiftl y n) = x + y * 2 ^ n.
Proof.
  intros Hn Hx. rewrite <- Z.shiftl_mul_pow2 by done.
  assert (E : Z.land x (Z.shiftl y n) = 0).
  { apply Z.bits_inj'. intros k Hk. rewrite Z.land_spec, Z.bits_0.
    destruct (Z.ltb_spec k n).
    - by rewrite Z.shiftl_spec_low, andb_false_r by lia.
    - by rewrite (testbit_above x n) by lia. }
  rewrite Z.add_nocarry_lxor by done. by apply Z.lxor_lor in E.
Qed.
