(* ===== verification/Memory.v ===== *)
(** Byte memory: the bytes of a C object, loads and stores of integers in the
    byte order of the host, and the network byte order conversions of
    <arpa/inet.h> and byteorder.h.

    An object is a [list byte]; a pointer into it is an offset.  An access
    that leaves the object is [Fault OutOfBounds].  The byte order of the host
    is a parameter (class [Host]): byteorder.h supports both, and every
    theorem of the library holds for both. *)

From Stdlib Require Import ZArith Lia Bool.
From coqutil Require Import Byte Word.LittleEndianList.
From stdpp Require Import base list.
From S2P Require Import Prelude.
Import LittleEndianList.

Abbreviation bytes := (list byte).

Definition zero : byte := Byte.x00.
Definition zeros (n : nat) : bytes := replicate n zero.

(** The length of an object as a C [size_t]. *)
Definition blen (m : bytes) : Z := Z.of_nat (length m).

(** * Loads and stores of byte ranges ([memcpy], [bcopy]) *)

Definition ld_bytes (m : bytes) (off : Z) (n : nat) : res bytes :=
  if (0 <=? off) && (off + Z.of_nat n <=? blen m)
  then Ok (take n (drop (Z.to_nat off) m))
  else Fault OutOfBounds.

Definition st_bytes (m : bytes) (off : Z) (bs : bytes) : res bytes :=
  if (0 <=? off) && (off + blen bs <=? blen m)
  then Ok (take (Z.to_nat off) m ++ bs ++ drop (Z.to_nat off + length bs) m)
  else Fault OutOfBounds.

(** [memcpy] of a length computed at run time. *)
Definition ld_range (m : bytes) (off n : Z) : res bytes :=
  if (0 <=? n) && (off + n <=? blen m)
  then ld_bytes m off (Z.to_nat n)
  else Fault OutOfBounds.

(** * Host and network byte order *)

Inductive byte_order : Type := LittleEndian | BigEndian.
Class Host : Type := host_order : byte_order.

(** [bswap_16], [bswap_32], [bswap_64]. *)
Definition bswap (n : nat) (x : Z) : Z := le_combine (rev (le_split n x)).

Definition be_decode (bs : bytes) : Z := le_combine (rev bs).
Definition be_encode (n : nat) (x : Z) : bytes := rev (le_split n x).

Section HostOrder.
Context {host : Host}.

Definition host_decode (bs : bytes) : Z :=
  match host_order with
  | LittleEndian => le_combine bs
  | BigEndian => be_decode bs
  end.

Definition host_encode (n : nat) (x : Z) : bytes :=
  match host_order with
  | LittleEndian => le_split n x
  | BigEndian => be_encode n x
  end.

(** [ntohs] and [htons] for n = 2, [ntohl] and [htonl] for 4, [ntohll] and
    [htonll] for 8. *)
Definition ntoh (n : nat) (x : Z) : Z :=
  match host_order with
  | LittleEndian => bswap n x
  | BigEndian => x
  end.

Definition ntohs := ntoh 2.
Definition ntohl := ntoh 4.
Definition ntohll := ntoh 8.
Definition htons := ntoh 2.
Definition htonl := ntoh 4.
Definition htonll := ntoh 8.

(** Load and store of an unsigned integer of [n] bytes. *)
Definition ld (n : nat) (m : bytes) (off : Z) : res Z :=
  let* bs := ld_bytes m off n in Ok (host_decode bs).

Definition st (n : nat) (m : bytes) (off : Z) (x : Z) : res bytes :=
  st_bytes m off (host_encode n x).

(** [ntohs( p->field )] and [p->field = htons( x )]. *)
Definition ld_ntoh (n : nat) (m : bytes) (off : Z) : res Z :=
  let* x := ld n m off in Ok (ntoh n x).

Definition st_hton (n : nat) (m : bytes) (off : Z) (x : Z) : res bytes :=
  st n m off (ntoh n x).
End HostOrder.

#[global] Arguments ld_bytes : simpl never.
#[global] Arguments st_bytes : simpl never.
#[global] Arguments ld_range : simpl never.
#[global] Arguments ld {host} n m off : simpl never.
#[global] Arguments st {host} n m off x : simpl never.
#[global] Arguments ld_ntoh {host} n m off : simpl never.
#[global] Arguments st_hton {host} n m off x : simpl never.
#[global] Arguments ntoh {host} n x : simpl never.
#[global] Arguments ntohs {host} x : simpl never.
#[global] Arguments ntohl {host} x : simpl never.
#[global] Arguments ntohll {host} x : simpl never.
#[global] Arguments htons {host} x : simpl never.
#[global] Arguments htonl {host} x : simpl never.
#[global] Arguments htonll {host} x : simpl never.
#[global] Arguments be_encode n x : simpl never.
#[global] Arguments be_decode bs : simpl never.
#[global] Arguments zeros n : simpl never.
#[global] Arguments blen m : simpl never.

Abbreviation ld8 := (ld 1).
Abbreviation ld16 := (ld 2).
Abbreviation ld32 := (ld 4).
Abbreviation st8 := (st 1).
Abbreviation st16 := (st 2).
Abbreviation st32 := (st 4).

(** [x] is the value of an unsigned integer of [n] bytes. *)
Definition fits (n : nat) (x : Z) : Prop := 0 <= x < 2 ^ (Z.of_nat n * 8).

#[export] Instance fits_dec n x : Decision (fits n x).
Proof. unfold fits. apply _. Defined.

(** * Lengths *)

Create Rewrite HintDb len.

Lemma length_be_encode n x : length (be_encode n x) = n.
Proof. unfold be_encode. by rewrite length_rev, length_le_split. Qed.

Lemma length_host_encode {host : Host} n x : length (host_encode n x) = n.
Proof.
  unfold host_encode. destruct host_order; [apply length_le_split | apply length_be_encode].
Qed.

Lemma length_zeros n : length (zeros n) = n.
Proof. apply length_replicate. Qed.

Lemma blen_app a b : blen (a ++ b) = blen a + blen b.
Proof. unfold blen. rewrite length_app. lia. Qed.

Lemma blen_nil : blen [] = 0.
Proof. reflexivity. Qed.

Lemma blen_cons b l : blen (b :: l) = 1 + blen l.
Proof. unfold blen. cbn [length]. lia. Qed.

Lemma blen_be_encode n x : blen (be_encode n x) = Z.of_nat n.
Proof. unfold blen. by rewrite length_be_encode. Qed.

Lemma blen_host_encode {host : Host} n x : blen (host_encode n x) = Z.of_nat n.
Proof. unfold blen. by rewrite length_host_encode. Qed.

Lemma blen_zeros n : blen (zeros n) = Z.of_nat n.
Proof. unfold blen. by rewrite length_zeros. Qed.

Lemma blen_nonneg m : 0 <= blen m.
Proof. unfold blen. lia. Qed.

#[export] Hint Rewrite length_be_encode @length_host_encode length_zeros blen_app blen_nil
  blen_cons blen_be_encode @blen_host_encode blen_zeros @length_app @length_nil @length_cons : len.

(** Goals on lengths and offsets. *)
Ltac len :=
  autorewrite with len; unfold blen; autorewrite with len;
  first [ lia | progress autorewrite with len in *; unfold blen in *; lia
        | unfold blen in *; autorewrite with len in *; lia ].

(** * Byte order: conversions cancel against the host's layout *)

Lemma be_decode_encode n x : be_decode (be_encode n x) = x mod 2 ^ (Z.of_nat n * 8).
Proof. unfold be_decode, be_encode. by rewrite rev_involutive, le_combine_split. Qed.

Lemma be_encode_decode bs : be_encode (length bs) (be_decode bs) = bs.
Proof.
  unfold be_decode, be_encode.
  rewrite split_le_combine' by apply length_rev. apply rev_involutive.
Qed.

Lemma be_decode_bound bs : 0 <= be_decode bs < 2 ^ (8 * blen bs).
Proof.
  pose proof (le_combine_bound (rev bs)) as H. rewrite length_rev in H. exact H.
Qed.

Lemma bswap_involutive n x : bswap n (bswap n x) = x mod 2 ^ (Z.of_nat n * 8).
Proof.
  unfold bswap.
  rewrite split_le_combine' by (rewrite length_rev; apply length_le_split).
  rewrite rev_involutive. apply le_combine_split.
Qed.

Section HostOrderLemmas.
Context {host : Host}.

Lemma ntoh_host_decode bs : ntoh (length bs) (host_decode bs) = be_decode bs.
Proof.
  unfold ntoh, host_decode, bswap. destruct host_order; [| reflexivity].
  by rewrite split_le_combine.
Qed.

Lemma host_encode_hton n x : host_encode n (ntoh n x) = be_encode n x.
Proof.
  unfold ntoh, host_encode, bswap. destruct host_order; [| reflexivity].
  by rewrite split_le_combine' by (rewrite length_rev; apply length_le_split).
Qed.

Lemma host_decode_encode n x : host_decode (host_encode n x) = x mod 2 ^ (Z.of_nat n * 8).
Proof.
  unfold host_decode, host_encode. destruct host_order; [| apply be_decode_encode].
  apply le_combine_split.
Qed.

(** Converting to network byte order and back is the identity on n bytes. *)
Lemma ntoh_involutive n x :
  fits n x -> ntoh n (ntoh n x) = x.
Proof.
  unfold ntoh, fits. destruct host_order; [| done].
  intros Hx. rewrite bswap_involutive. by apply Z.mod_small.
Qed.

Lemma ntoh_range n x :
  fits n x -> fits n (ntoh n x).
Proof.
  unfold fits. intros Hx. unfold ntoh. destruct host_order; [| done]. unfold bswap.
  pose proof (le_combine_bound (rev (le_split n x))) as H.
  rewrite length_rev, length_le_split in H. by rewrite Z.mul_comm.
Qed.
End HostOrderLemmas.

(** * Reading a sequence of segments

    A message is a concatenation of segments.  A load skips the segments
    before its offset and reads the segment that starts there. *)

Section Segments.
Implicit Types m s r : bytes.

Lemma ld_bytes_skip s r off n :
  blen s <= off -> ld_bytes (s ++ r) off n = ld_bytes r (off - blen s) n.
Proof.
  intros Hs. unfold ld_bytes. rewrite blen_app. pose proof (blen_nonneg s) as H0.
  replace (0 <=? off) with true by lia.
  replace (0 <=? off - blen s) with true by lia.
  replace (off + Z.of_nat n <=? blen s + blen r)
    with (off - blen s + Z.of_nat n <=? blen r) by lia.
  rewrite drop_app_ge by len.
  replace (Z.to_nat off - length s)%nat with (Z.to_nat (off - blen s)) by len.
  reflexivity.
Qed.

Lemma ld_bytes_within s r off n :
  off + Z.of_nat n <= blen s -> ld_bytes (s ++ r) off n = ld_bytes s off n.
Proof.
  intros Hs. unfold ld_bytes. rewrite blen_app. pose proof (blen_nonneg r) as H0.
  replace (off + Z.of_nat n <=? blen s + blen r) with true by lia.
  replace (off + Z.of_nat n <=? blen s) with true by lia.
  destruct (0 <=? off) eqn:E; [| done]. cbn [andb].
  rewrite drop_app_le by len. rewrite take_app_le by (rewrite length_drop; len). done.
Qed.

Lemma ld_bytes_all s : ld_bytes s 0 (length s) = Ok s.
Proof.
  unfold ld_bytes, blen. rewrite Z.add_0_l, !Z.leb_refl.
  cbn. by rewrite firstn_all.
Qed.

Lemma ld_bytes_whole s n : length s = n -> ld_bytes s 0 n = Ok s.
Proof. intros <-. apply ld_bytes_all. Qed.

Lemma ld_bytes_here s r n : length s = n -> ld_bytes (s ++ r) 0 n = Ok s.
Proof.
  intros <-. rewrite ld_bytes_within by (unfold blen; lia). apply ld_bytes_all.
Qed.

Lemma ld_bytes_in m off n :
  0 <= off -> off + Z.of_nat n <= blen m ->
  ld_bytes m off n = Ok (take n (drop (Z.to_nat off) m)).
Proof.
  intros H0 H1. unfold ld_bytes.
  replace (0 <=? off) with true by lia. by replace (off + Z.of_nat n <=? blen m) with true by lia.
Qed.

Lemma ld_bytes_out m off n :
  blen m < off + Z.of_nat n -> ld_bytes m off n = Fault OutOfBounds.
Proof.
  intros H. unfold ld_bytes. replace (off + Z.of_nat n <=? blen m) with false by lia.
  by rewrite andb_false_r.
Qed.

Lemma ld_bytes_length m off n bs : ld_bytes m off n = Ok bs -> length bs = n.
Proof.
  unfold ld_bytes. destruct (0 <=? off) eqn:E0; [| done]. cbn [andb].
  destruct (off + _ <=? _) eqn:E1; [| done]. intros [= <-].
  rewrite length_take, length_drop. unfold blen in *. lia.
Qed.

Lemma ld_bytes_range m off n bs :
  ld_bytes m off n = Ok bs -> 0 <= off /\ off + Z.of_nat n <= blen m.
Proof.
  unfold ld_bytes. destruct (0 <=? off) eqn:E0; [| done]. cbn [andb].
  destruct (off + _ <=? _) eqn:E1; [| done]. lia.
Qed.

(** ** Integers *)
Context {host : Host}.

Lemma ld_skip n s r off : blen s <= off -> ld n (s ++ r) off = ld n r (off - blen s).
Proof. intros H. unfold ld. by rewrite ld_bytes_skip. Qed.

Lemma ld_ntoh_skip n s r off :
  blen s <= off -> ld_ntoh n (s ++ r) off = ld_ntoh n r (off - blen s).
Proof. intros H. unfold ld_ntoh. by rewrite ld_skip. Qed.

Lemma ld_ntoh_bytes n m off :
  ld_ntoh n m off = (let* bs := ld_bytes m off n in Ok (be_decode bs)).
Proof.
  unfold ld_ntoh, ld. rewrite bind_bind. destruct (ld_bytes m off n) eqn:E; [| done].
  apply ld_bytes_length in E. subst n. cbn. by rewrite ntoh_host_decode.
Qed.

Lemma ld_ntoh_here n x r :
  ld_ntoh n (be_encode n x ++ r) 0 = Ok (x mod 2 ^ (Z.of_nat n * 8)).
Proof.
  rewrite ld_ntoh_bytes, ld_bytes_here by apply length_be_encode.
  cbn [bind]. by rewrite be_decode_encode.
Qed.

(** One byte reads the same in every byte order. *)
Lemma ld8_bytes m off : ld8 m off = (let* bs := ld_bytes m off 1 in Ok (be_decode bs)).
Proof.
  unfold ld. destruct (ld_bytes m off 1) as [[| b [|]] |] eqn:E; [| | |];
    try (apply ld_bytes_length in E; discriminate); [| done].
  cbn [bind]. unfold host_decode. by destruct host_order.
Qed.

Lemma ld8_here x r : ld8 (be_encode 1 x ++ r) 0 = Ok (x mod 2 ^ 8).
Proof.
  rewrite ld8_bytes, ld_bytes_here by apply length_be_encode.
  cbn [bind]. by rewrite be_decode_encode.
Qed.

Lemma ld_in n m off :
  0 <= off -> off + Z.of_nat n <= blen m ->
  ld n m off = Ok (host_decode (take n (drop (Z.to_nat off) m))).
Proof. intros H0 H1. unfold ld. by rewrite ld_bytes_in. Qed.

Lemma ld_out n m off : blen m < off + Z.of_nat n -> ld n m off = Fault OutOfBounds.
Proof. intros H. unfold ld. by rewrite ld_bytes_out. Qed.

Lemma ld_ntoh_out n m off :
  blen m < off + Z.of_nat n -> ld_ntoh n m off = Fault OutOfBounds.
Proof. intros H. unfold ld_ntoh. by rewrite ld_out. Qed.

Lemma ld_ntoh_range n m off x :
  ld_ntoh n m off = Ok x -> 0 <= off /\ off + Z.of_nat n <= blen m.
Proof.
  rewrite ld_ntoh_bytes. intros (bs & Hbs & _)%bind_inv. by apply ld_bytes_range in Hbs.
Qed.

Lemma ld_ntoh_bound n m off x :
  ld_ntoh n m off = Ok x -> 0 <= x < 2 ^ (8 * Z.of_nat n).
Proof.
  rewrite ld_ntoh_bytes. intros (bs & Hbs & [= <-])%bind_inv.
  apply ld_bytes_length in Hbs. rewrite <- Hbs. apply be_decode_bound.
Qed.
End Segments.

Lemma ld_range_in m off n :
  0 <= off -> 0 <= n -> off + n <= blen m ->
  exists bs, ld_range m off n = Ok bs /\ blen bs = n.
Proof.
  intros H0 H1 H2. unfold ld_range. replace (0 <=? n) with true by lia.
  replace (off + n <=? blen m) with true by lia. cbn [andb].
  destruct (ld_bytes m off (Z.to_nat n)) as [bs |] eqn:E.
  - exists bs. split; [done |]. apply ld_bytes_length in E. unfold blen. lia.
  - by rewrite ld_bytes_in in E by lia.
Qed.

(** ** Loaded values are in range *)

Section LoadedValues.
Context {host : Host}.

Lemma host_decode_bound bs : 0 <= host_decode bs < 2 ^ (8 * blen bs).
Proof.
  unfold host_decode. destruct host_order; [| apply be_decode_bound].
  pose proof (le_combine_bound bs). exact H.
Qed.

Lemma ld_fits n m off x : ld n m off = Ok x -> fits n x.
Proof.
  intros (bs & Hb & [= <-])%bind_inv. apply ld_bytes_length in Hb. subst n.
  pose proof (host_decode_bound bs). unfold fits, blen in *. by rewrite Z.mul_comm.
Qed.

Lemma ld_ntoh_fits n m off x : ld_ntoh n m off = Ok x -> fits n x.
Proof. intros (y & Hy%ld_fits & [= <-])%bind_inv. by apply ntoh_range. Qed.

Lemma fits_lor n x y : fits n x -> fits n y -> fits n (Z.lor x y).
Proof.
  unfold fits. intros Hx Hy. set (k := Z.of_nat n * 8) in *. assert (0 <= k) by lia. assert (E : Z.lor x y = Z.lor x y mod 2 ^ k).
  { rewrite <- Z.land_ones, Z.land_lor_distr_l, !Z.land_ones, !Z.mod_small by lia. done. }
  rewrite E. apply Z.mod_pos_bound. lia.
Qed.
End LoadedValues.

(** * Writing fields into zeroed memory

    A created message starts as zeros; a constructor fills it from the front,
    so that at each store the object is what is already written followed by
    zeros. *)

Section Writer.
Implicit Types P : bytes.

Lemma zeros_add a b : zeros (a + b) = zeros a ++ zeros b.
Proof. apply replicate_add. Qed.

Lemma st_bytes_zeros P bs k off :
  off = blen P -> (length bs <= k)%nat ->
  st_bytes (P ++ zeros k) off bs = Ok ((P ++ bs) ++ zeros (k - length bs)).
Proof.
  intros -> Hk. unfold st_bytes. pose proof (blen_nonneg P).
  replace (0 <=? blen P) with true by lia.
  replace (blen P + blen bs <=? blen (P ++ zeros k)) with true by len. cbn [andb].
  f_equal. unfold blen. rewrite Nat2Z.id, take_app_length, <- app_assoc. do 2 f_equal.
  rewrite drop_app_ge by lia.
  replace (length P + length bs - length P)%nat with (length bs) by lia.
  unfold zeros. apply drop_replicate.
Qed.

(** Padding that the code leaves at zero. *)
Lemma writer_skip P k n :
  (n <= k)%nat -> P ++ zeros k = (P ++ zeros n) ++ zeros (k - n).
Proof. intros Hk. rewrite <- app_assoc, <- zeros_add. do 2 f_equal. lia. Qed.

Context {host : Host}.

Lemma st_hton_zeros n P x k off :
  off = blen P -> (n <= k)%nat ->
  st_hton n (P ++ zeros k) off x = Ok ((P ++ be_encode n x) ++ zeros (k - n)).
Proof.
  intros Hoff Hk. unfold st_hton, st. rewrite host_encode_hton.
  rewrite st_bytes_zeros by (rewrite ?length_be_encode; done).
  by rewrite length_be_encode.
Qed.

Lemma st_ntoh_zeros n P x k off :
  off = blen P -> (n <= k)%nat ->
  st n (P ++ zeros k) off (ntoh n x) = Ok ((P ++ be_encode n x) ++ zeros (k - n)).
Proof. apply st_hton_zeros. Qed.

Lemma host_encode_1 x : host_encode 1 x = be_encode 1 x.
Proof. unfold host_encode. by destruct host_order. Qed.

Lemma st8_zeros P x k off :
  off = blen P -> (1 <= k)%nat ->
  st8 (P ++ zeros k) off x = Ok ((P ++ be_encode 1 x) ++ zeros (k - 1)).
Proof.
  intros Hoff Hk. unfold st. rewrite host_encode_1.
  rewrite st_bytes_zeros by (rewrite ?length_be_encode; done).
  by rewrite length_be_encode.
Qed.
End Writer.

(** ** Raw loads of big-endian segments *)

(** ** Ranges whose length is computed *)

Lemma ld_range_skip s r off n :
  blen s <= off -> ld_range (s ++ r) off n = ld_range r (off - blen s) n.
Proof.
  intros Hs. unfold ld_range. pose proof (blen_nonneg s). rewrite blen_app.
  replace (off + n <=? blen s + blen r) with (off - blen s + n <=? blen r) by lia.
  by rewrite ld_bytes_skip.
Qed.

Lemma ld_range_wire s r off n : off = 0 -> n = blen s -> ld_range (s ++ r) off n = Ok s.
Proof.
  intros -> ->. unfold ld_range. pose proof (blen_nonneg s). pose proof (blen_nonneg r).
  rewrite blen_app. replace (0 <=? blen s) with true by lia.
  replace (0 + blen s <=? blen s + blen r) with true by lia. cbn [andb].
  apply ld_bytes_here. unfold blen. by rewrite Nat2Z.id.
Qed.

Lemma ld_range_all s n : n = blen s -> ld_range s 0 n = Ok s.
Proof. intros Hn. rewrite <- (app_nil_r s) at 1. by apply ld_range_wire. Qed.

Section WireLoads.
Context {host : Host}.

Lemma ld_wire n x r off :
  off = 0 -> fits n x ->
  ld n (be_encode n x ++ r) off = Ok (ntoh n x).
Proof.
  intros -> Hx. unfold ld. rewrite ld_bytes_here by apply length_be_encode.
  cbn [bind]. rewrite <- (host_encode_hton n x), host_decode_encode.
  f_equal. apply Z.mod_small. by apply ntoh_range.
Qed.

Lemma ld_ntoh_wire n x r off :
  off = 0 -> fits n x ->
  ld_ntoh n (be_encode n x ++ r) off = Ok x.
Proof.
  intros -> Hx. rewrite ld_ntoh_here. f_equal. by apply Z.mod_small.
Qed.

Lemma ld8_wire x r off :
  off = 0 -> fits 1 x -> ld8 (be_encode 1 x ++ r) off = Ok x.
Proof. intros -> Hx. rewrite ld8_here. f_equal. by apply Z.mod_small. Qed.

(** The same for the last segment. *)
Lemma ld_ntoh_last n x off : off = 0 -> fits n x -> ld_ntoh n (be_encode n x) off = Ok x.
Proof. intros H0 Hx. rewrite <- (app_nil_r (be_encode n x)). by apply ld_ntoh_wire. Qed.

Lemma ld8_last x off : off = 0 -> fits 1 x -> ld8 (be_encode 1 x) off = Ok x.
Proof. intros H0 Hx. rewrite <- (app_nil_r (be_encode 1 x)). by apply ld8_wire. Qed.

Lemma ld_bytes_wire s r off n :
  off = 0 -> length s = n -> ld_bytes (s ++ r) off n = Ok s.
Proof. intros -> Hn. by apply ld_bytes_here. Qed.
End WireLoads.

(** * Loads after stores *)

Section Stores.
Implicit Types (m bs : bytes).

Lemma st_bytes_inv m off bs m' : st_bytes m off bs = Ok m' ->
  0 <= off /\ off + blen bs <= blen m /\ blen m' = blen m /\
  forall i, m' !! i = if decide (off <= Z.of_nat i < off + blen bs) then bs !! (i - Z.to_nat off)%nat else m !! i.
Proof.
  unfold st_bytes. destruct ((0 <=? off) && (off + blen bs <=? blen m)) eqn:E; [| discriminate].
  intros [= <-]. unfold blen in *. assert (Hl : 0 <= off /\ off + Z.of_nat (length bs) <= Z.of_nat (length m)) by lia.
  split_and!; [lia | lia | |].
  - rewrite !length_app, length_take, length_drop. lia.
  - intros i. destruct (decide _) as [Hi | Hi].
    + rewrite lookup_app_r by (rewrite length_take; lia). rewrite length_take, lookup_app_l by lia. f_equal. lia.
    + destruct (decide (Z.of_nat i < off)).
      * rewrite lookup_app_l by (rewrite length_take; lia). apply lookup_take_lt. lia.
      * rewrite lookup_app_r by (rewrite length_take; lia). rewrite length_take, lookup_app_r by lia.
        rewrite lookup_drop. f_equal. lia.
Qed.

(** A store does not change what is loaded beside it. *)
(** A store over the middle of an object. *)
Lemma st_bytes_middle a b c bs off : length b = length bs -> off = blen a -> st_bytes (a ++ b ++ c) off bs = Ok (a ++ bs ++ c).
Proof.
  intros Hb ->. pose proof (blen_nonneg a). unfold st_bytes. replace (0 <=? blen a) with true by lia.
  replace (blen a + blen bs <=? blen (a ++ b ++ c)) with true by (symmetry; apply Z.leb_le; rewrite !blen_app; unfold blen; lia).
  cbn [andb]. f_equal. unfold blen. rewrite Nat2Z.id, take_app_length, <- Hb. do 2 f_equal.
  rewrite app_assoc, drop_app_length'; [done |]. by rewrite length_app.
Qed.

Lemma ld_st_other m off bs m' off' n :
  st_bytes m off bs = Ok m' -> off' + Z.of_nat n <= off \/ off + blen bs <= off' -> ld_bytes m' off' n = ld_bytes m off' n.
Proof.
  intros (Ho & _ & Hl & Hm)%st_bytes_inv Hd. unfold ld_bytes. rewrite Hl. destruct (_ && _) eqn:E; [| done]. f_equal.
  apply list_eq. intros i. destruct (decide (i < n)%nat); [| by rewrite !lookup_take_ge by lia].
  rewrite !lookup_take_lt, !lookup_drop by lia. rewrite Hm. destruct (decide _); [lia | done].
Qed.

Lemma ld_st_same m off bs m' : st_bytes m off bs = Ok m' -> ld_bytes m' off (length bs) = Ok bs.
Proof.
  intros (Ho & Hb & Hl & Hm)%st_bytes_inv. unfold ld_bytes. rewrite Hl.
  replace ((0 <=? off) && (off + Z.of_nat (length bs) <=? blen m)) with true by (unfold blen in *; lia). f_equal.
  apply list_eq. intros i. destruct (decide (i < length bs)%nat).
  - rewrite lookup_take_lt, lookup_drop, Hm by lia. unfold blen. destruct (decide _); [f_equal; lia | lia].
  - rewrite lookup_take_ge by lia. symmetry. apply lookup_ge_None. lia.
Qed.
Context {host : Host}.

Lemma ld_ntoh_st_other n m off x m' k off' :
  st_hton n m off x = Ok m' -> off' + Z.of_nat k <= off \/ off + Z.of_nat n <= off' -> ld_ntoh k m' off' = ld_ntoh k m off'.
Proof.
  intros Hs Hd. rewrite !ld_ntoh_bytes. unfold st_hton, st in Hs.
  rewrite (ld_st_other m off (host_encode n (ntoh n x)) m') ; [done | done |]. by rewrite blen_host_encode.
Qed.

Lemma ld_st_hton_other n m off x m' k off' :
  st_hton n m off x = Ok m' -> off' + Z.of_nat k <= off \/ off + Z.of_nat n <= off' -> ld k m' off' = ld k m off'.
Proof.
  intros Hs Hd. unfold ld, st_hton, st in *.
  rewrite (ld_st_other m off (host_encode n (ntoh n x)) m') ; [done | done |]. by rewrite blen_host_encode.
Qed.

Lemma ld_ntoh_st_same n m off x m' : st_hton n m off x = Ok m' -> fits n x -> ld_ntoh n m' off = Ok x.
Proof.
  intros Hs Hx. unfold st_hton, st in Hs. rewrite host_encode_hton in Hs.
  apply ld_st_same in Hs. rewrite length_be_encode in Hs.
  rewrite ld_ntoh_bytes, Hs. bind_ok. by rewrite be_decode_encode, Z.mod_small.
Qed.

Lemma st_hton_ok n m off x : 0 <= off -> off + Z.of_nat n <= blen m -> exists m', st_hton n m off x = Ok m' /\ blen m' = blen m.
Proof.
  intros Ho Hb. unfold st_hton, st. destruct (st_bytes m off (host_encode n (ntoh n x))) as [m' |] eqn:E.
  - exists m'. split; [done |]. by apply st_bytes_inv in E as (_ & _ & ? & _).
  - unfold st_bytes in E. rewrite blen_host_encode in E. replace (_ && _) with true in E by lia. discriminate.
Qed.

Lemma st_hton_blen n m off x m' : st_hton n m off x = Ok m' -> blen m' = blen m.
Proof. intros H. unfold st_hton, st in H. by apply st_bytes_inv in H as (_ & _ & ? & _). Qed.
End Stores.

(** Side conditions of the wire lemmas: lengths by [len], ranges from the
    context. *)
Ltac wire_side := solve [assumption | len].

(** Evaluate the first load of the goal against a concatenation of segments. *)
Ltac rd1 :=
  first
    [ rewrite ld8_wire by wire_side
    | rewrite ld_ntoh_wire by wire_side
    | rewrite ld_ntoh_last by wire_side
    | rewrite ld8_last by wire_side
    | rewrite ld_wire by wire_side
    | rewrite ld_bytes_wire by wire_side
    | rewrite ld_skip by wire_side
    | rewrite ld_ntoh_skip by wire_side
    | rewrite ld_bytes_skip by wire_side ].
Ltac rd := repeat (rd1; bind_ok).

(** Run the first store of the goal against [P ++ zeros k]. *)
Ltac wr1 :=
  first
    [ rewrite st8_zeros by wire_side
    | rewrite st_hton_zeros by wire_side
    | rewrite st_ntoh_zeros by wire_side
    | rewrite st_bytes_zeros by wire_side ];
  bind_ok.
Ltac wr_done :=
  rewrite <- ?app_assoc;
  repeat match goal with
  | |- Ok _ = Ok _ => apply (f_equal Ok)
  | |- ?s ++ _ = ?s ++ _ => apply (f_equal (app s))
  | |- zeros _ = zeros _ => apply (f_equal zeros)
  end;
  first [ reflexivity | len | idtac ].
Ltac wr := repeat wr1; wr_done.
