(* ===== verification/StateMonad.v ===== *)
(** Functions that thread a state and can stop the process: a state and error
    monad, with its steps for proofs. *)

From Stdlib Require Import ZArith Bool.
From stdpp Require Import base tactics.
From S2P Require Import Prelude.

Section StateMonad.
Context {S : Type}.

Definition M (A : Type) : Type := S -> res (A * S).

Definition ret {A} (a : A) : M A := fun s => Ok (a, s).
Definition mbind {A B} (x : M A) (k : A -> M B) : M B := fun s => let* (a, s) := x s in k a s.
Definition fault {A} (f : fault) : M A := fun _ => Fault f.
Definition lift {A} (r : res A) : M A := fun s => let* a := r in Ok (a, s).

Lemma bind_run {A B} (x : M A) (k : A -> M B) s a s' : x s = Ok (a, s') -> mbind x k s = k a s'.
Proof. intros E. unfold mbind. by rewrite E. Qed.

Lemma mbind_inv {A B} (x : M A) (k : A -> M B) s b s2 : mbind x k s = Ok (b, s2) -> exists a s1, x s = Ok (a, s1) /\ k a s1 = Ok (b, s2).
Proof. unfold mbind. destruct (x s) as [[a s1] |]; [| done]. intros E. by exists a, s1. Qed.

Lemma lift_run {A} (r : res A) a s : r = Ok a -> lift r s = Ok (a, s).
Proof. intros ->. done. Qed.
End StateMonad.

Notation "'let!' x := e 'in' k" := (mbind e (fun x => k))
  (at level 10, x pattern, e at level 200, k at level 200, format "'[v' 'let!'  x  :=  e  'in' '//' k ']'") : res_scope.
