(* ===== verification/OpenFlow.v ===== *)
(** The OpenFlow 1.0 protocol as trema includes it: constants, structures and
    their layout from <openflow.h>.

    The build unpacks that header from vendor/openflow-1.0.0.tar.gz; the values
    below are the ones of its include/openflow/openflow.h.  For a structure [X],
    the record [X] holds its fields (integers in [Z], byte arrays in [bytes]),
    [ld_X] and [st_X] read and write it in memory in the byte order of the
    host, and [wire_X] is its image on the wire, the reference the encoders
    are compared with.  Padding the code never reads is not a field. *)

From Stdlib Require Import ZArith Lia Bool.
From coqutil Require Import Byte.
From stdpp Require Import base list.
From S2P Require Import Prelude Memory.

(** * Constants *)

Definition OFP_VERSION := 0x01.
Definition OFP_ETH_ALEN : nat := 6.
Definition OFP_MAX_PORT_NAME_LEN : nat := 16.
Definition OFP_MAX_TABLE_NAME_LEN : nat := 32.
Definition DESC_STR_LEN : nat := 256.
Definition SERIAL_NUM_LEN : nat := 32.

Definition OFPP_MAX := 0xff00.
Definition OFPP_IN_PORT := 0xfff8.
Definition OFPP_LOCAL := 0xfffe.
Definition OFPP_NONE := 0xffff.

Definition OFPT_HELLO := 0.
Definition OFPT_ERROR := 1.
Definition OFPT_ECHO_REQUEST := 2.
Definition OFPT_ECHO_REPLY := 3.
Definition OFPT_VENDOR := 4.
Definition OFPT_FEATURES_REQUEST := 5.
Definition OFPT_FEATURES_REPLY := 6.
Definition OFPT_GET_CONFIG_REQUEST := 7.
Definition OFPT_GET_CONFIG_REPLY := 8.
Definition OFPT_SET_CONFIG := 9.
Definition OFPT_PACKET_IN := 10.
Definition OFPT_FLOW_REMOVED := 11.
Definition OFPT_PORT_STATUS := 12.
Definition OFPT_PACKET_OUT := 13.
Definition OFPT_FLOW_MOD := 14.
Definition OFPT_PORT_MOD := 15.
Definition OFPT_STATS_REQUEST := 16.
Definition OFPT_STATS_REPLY := 17.
Definition OFPT_BARRIER_REQUEST := 18.
Definition OFPT_BARRIER_REPLY := 19.
Definition OFPT_QUEUE_GET_CONFIG_REQUEST := 20.
Definition OFPT_QUEUE_GET_CONFIG_REPLY := 21.

Definition OFPC_FRAG_MASK := 3.
Definition OFPR_ACTION := 1.
Definition OFPRR_DELETE := 2.
Definition OFPPR_MODIFY := 2.

Definition OFPFC_ADD := 0.
Definition OFPFC_DELETE := 3.
Definition OFPFC_DELETE_STRICT := 4.

Definition OFPAT_OUTPUT := 0.
Definition OFPAT_SET_VLAN_VID := 1.
Definition OFPAT_SET_VLAN_PCP := 2.
Definition OFPAT_STRIP_VLAN := 3.
Definition OFPAT_SET_DL_SRC := 4.
Definition OFPAT_SET_DL_DST := 5.
Definition OFPAT_SET_NW_SRC := 6.
Definition OFPAT_SET_NW_DST := 7.
Definition OFPAT_SET_NW_TOS := 8.
Definition OFPAT_SET_TP_SRC := 9.
Definition OFPAT_SET_TP_DST := 10.
Definition OFPAT_ENQUEUE := 11.
Definition OFPAT_VENDOR := 0xffff.

Definition OFPFW_IN_PORT := Z.shiftl 1 0.
Definition OFPFW_DL_VLAN := Z.shiftl 1 1.
Definition OFPFW_DL_SRC := Z.shiftl 1 2.
Definition OFPFW_DL_DST := Z.shiftl 1 3.
Definition OFPFW_DL_TYPE := Z.shiftl 1 4.
Definition OFPFW_NW_PROTO := Z.shiftl 1 5.
Definition OFPFW_TP_SRC := Z.shiftl 1 6.
Definition OFPFW_TP_DST := Z.shiftl 1 7.
Definition OFPFW_NW_SRC_SHIFT := 8.
Definition OFPFW_NW_SRC_MASK := Z.shiftl (Z.shiftl 1 6 - 1) OFPFW_NW_SRC_SHIFT.
Definition OFPFW_NW_SRC_ALL := Z.shiftl 32 OFPFW_NW_SRC_SHIFT.
Definition OFPFW_NW_DST_SHIFT := 14.
Definition OFPFW_NW_DST_MASK := Z.shiftl (Z.shiftl 1 6 - 1) OFPFW_NW_DST_SHIFT.
Definition OFPFW_NW_DST_ALL := Z.shiftl 32 OFPFW_NW_DST_SHIFT.
Definition OFPFW_DL_VLAN_PCP := Z.shiftl 1 20.
Definition OFPFW_NW_TOS := Z.shiftl 1 21.
Definition OFPFW_ALL := Z.shiftl 1 22 - 1.
Definition OFPFW_ICMP_TYPE := OFPFW_TP_SRC.
Definition OFPFW_ICMP_CODE := OFPFW_TP_DST.

Definition OFPST_DESC := 0.
Definition OFPST_FLOW := 1.
Definition OFPST_AGGREGATE := 2.
Definition OFPST_TABLE := 3.
Definition OFPST_PORT := 4.
Definition OFPST_QUEUE := 5.
Definition OFPST_VENDOR := 0xffff.
Definition OFPSF_REPLY_MORE := 1.

Definition OFPQT_NONE := 0.
Definition OFPQT_MIN_RATE := 1.

Definition OFPET_HELLO_FAILED := 0.
Definition OFPET_BAD_REQUEST := 1.
Definition OFPET_BAD_ACTION := 2.
Definition OFPET_FLOW_MOD_FAILED := 3.
Definition OFPET_PORT_MOD_FAILED := 4.
Definition OFPET_QUEUE_OP_FAILED := 5.
Definition OFPHFC_INCOMPATIBLE := 0.
Definition OFPBRC_BAD_VERSION := 0.
Definition OFPBRC_BAD_TYPE := 1.
Definition OFPBRC_BAD_STAT := 2.
Definition OFPBRC_EPERM := 5.
Definition OFPBRC_BAD_LEN := 6.
Definition OFPBAC_BAD_TYPE := 0.
Definition OFPBAC_BAD_LEN := 1.
Definition OFPBAC_BAD_OUT_PORT := 4.
Definition OFPBAC_BAD_ARGUMENT := 5.
Definition OFPFMFC_EPERM := 2.
Definition OFPFMFC_BAD_COMMAND := 4.
Definition OFPPMFC_BAD_PORT := 0.
Definition OFPQOFC_BAD_PORT := 0.

(** [sizeof] and [offsetof] of the message structures. *)
Definition sizeof_ofp_header := 8.
Definition sizeof_ofp_switch_config := 12.
Definition sizeof_ofp_match := 40.
Definition sizeof_ofp_phy_port := 48.
Definition sizeof_ofp_switch_features := 32.
Definition sizeof_ofp_port_status := 64.
Definition sizeof_ofp_port_mod := 32.
Definition offsetof_packet_in_data := 18.
Definition sizeof_ofp_flow_removed := 88.
Definition offsetof_packet_out_actions := 16.
Definition offsetof_flow_mod_actions := 72.
Definition sizeof_ofp_action_header := 8.
Definition sizeof_ofp_action_output := 8.
Definition sizeof_ofp_action_vlan_vid := 8.
Definition sizeof_ofp_action_vlan_pcp := 8.
Definition sizeof_ofp_action_dl_addr := 16.
Definition sizeof_ofp_action_nw_addr := 8.
Definition sizeof_ofp_action_nw_tos := 8.
Definition sizeof_ofp_action_tp_port := 8.
Definition sizeof_ofp_action_enqueue := 16.
Definition sizeof_ofp_action_vendor_header := 8.
Definition sizeof_ofp_error_msg := 12.
Definition sizeof_ofp_vendor_header := 12.
Definition sizeof_ofp_stats_request := 12.
Definition offsetof_stats_request_body := 12.
Definition offsetof_stats_reply_body := 12.
Definition sizeof_ofp_desc_stats := 1056.
Definition sizeof_ofp_flow_stats_request := 44.
Definition sizeof_ofp_aggregate_stats_request := 44.
Definition sizeof_ofp_port_stats_request := 8.
Definition sizeof_ofp_queue_stats_request := 8.
Definition offsetof_flow_stats_actions := 88.
Definition sizeof_ofp_aggregate_stats_reply := 24.
Definition sizeof_ofp_table_stats := 64.
Definition sizeof_ofp_port_stats := 104.
Definition sizeof_ofp_queue_stats := 32.
Definition sizeof_ofp_queue_prop_header := 8.
Definition sizeof_ofp_queue_prop_min_rate := 16.
Definition sizeof_ofp_packet_queue := 8.
Definition offsetof_packet_queue_properties := 8.
Definition sizeof_ofp_queue_get_config_request := 12.
Definition sizeof_ofp_queue_get_config_reply := 16.
Definition offsetof_queue_get_config_reply_queues := 16.

(** * Structures *)

Section Structures.
Context {host : Host}.
Implicit Types (m : bytes) (off : Z).

(** ** struct ofp_match (40 bytes) *)
Record ofp_match : Type := {
  wildcards : Z;
  in_port : Z;
  dl_src : bytes;
  dl_dst : bytes;
  dl_vlan : Z;
  dl_vlan_pcp : Z;
  pad1 : bytes;
  dl_type : Z;
  nw_tos : Z;
  nw_proto : Z;
  pad2 : bytes;
  nw_src : Z;
  nw_dst : Z;
  tp_src : Z;
  tp_dst : Z
}.

Definition ld_match m off : res ofp_match :=
  let* wildcards := ld32 m off in
  let* in_port := ld16 m (off + 4) in
  let* dl_src := ld_bytes m (off + 6) 6 in
  let* dl_dst := ld_bytes m (off + 12) 6 in
  let* dl_vlan := ld16 m (off + 18) in
  let* dl_vlan_pcp := ld8 m (off + 20) in
  let* pad1 := ld_bytes m (off + 21) 1 in
  let* dl_type := ld16 m (off + 22) in
  let* nw_tos := ld8 m (off + 24) in
  let* nw_proto := ld8 m (off + 25) in
  let* pad2 := ld_bytes m (off + 26) 2 in
  let* nw_src := ld32 m (off + 28) in
  let* nw_dst := ld32 m (off + 32) in
  let* tp_src := ld16 m (off + 36) in
  let* tp_dst := ld16 m (off + 38) in
  Ok (Build_ofp_match wildcards in_port dl_src dl_dst dl_vlan dl_vlan_pcp pad1
        dl_type nw_tos nw_proto pad2 nw_src nw_dst tp_src tp_dst).

Definition st_match m off (x : ofp_match) : res bytes :=
  let* m := st32 m off (wildcards x) in
  let* m := st16 m (off + 4) (in_port x) in
  let* m := st_bytes m (off + 6) (dl_src x) in
  let* m := st_bytes m (off + 12) (dl_dst x) in
  let* m := st16 m (off + 18) (dl_vlan x) in
  let* m := st8 m (off + 20) (dl_vlan_pcp x) in
  let* m := st_bytes m (off + 21) (pad1 x) in
  let* m := st16 m (off + 22) (dl_type x) in
  let* m := st8 m (off + 24) (nw_tos x) in
  let* m := st8 m (off + 25) (nw_proto x) in
  let* m := st_bytes m (off + 26) (pad2 x) in
  let* m := st32 m (off + 28) (nw_src x) in
  let* m := st32 m (off + 32) (nw_dst x) in
  let* m := st16 m (off + 36) (tp_src x) in
  st16 m (off + 38) (tp_dst x).

Definition wire_match (x : ofp_match) : bytes :=
  be_encode 4 (wildcards x) ++ be_encode 2 (in_port x) ++ dl_src x ++ dl_dst x ++
  be_encode 2 (dl_vlan x) ++ be_encode 1 (dl_vlan_pcp x) ++ zeros 1 ++
  be_encode 2 (dl_type x) ++ be_encode 1 (nw_tos x) ++ be_encode 1 (nw_proto x) ++
  zeros 2 ++ be_encode 4 (nw_src x) ++ be_encode 4 (nw_dst x) ++
  be_encode 2 (tp_src x) ++ be_encode 2 (tp_dst x).

(** The values a [struct ofp_match] can hold. *)
Record wf_match (x : ofp_match) : Prop := {
  wf_wildcards : fits 4 (wildcards x);
  wf_in_port : fits 2 (in_port x);
  wf_dl_src : length (dl_src x) = 6%nat;
  wf_dl_dst : length (dl_dst x) = 6%nat;
  wf_dl_vlan : fits 2 (dl_vlan x);
  wf_dl_vlan_pcp : fits 1 (dl_vlan_pcp x);
  wf_pad1 : length (pad1 x) = 1%nat;
  wf_dl_type : fits 2 (dl_type x);
  wf_nw_tos : fits 1 (nw_tos x);
  wf_nw_proto : fits 1 (nw_proto x);
  wf_pad2 : length (pad2 x) = 2%nat;
  wf_nw_src : fits 4 (nw_src x);
  wf_nw_dst : fits 4 (nw_dst x);
  wf_tp_src : fits 2 (tp_src x);
  wf_tp_dst : fits 2 (tp_dst x)
}.

(** ** struct ofp_phy_port (48 bytes) *)
Record ofp_phy_port : Type := {
  pp_port_no : Z;
  pp_hw_addr : bytes;
  pp_name : bytes;
  pp_config : Z;
  pp_state : Z;
  pp_curr : Z;
  pp_advertised : Z;
  pp_supported : Z;
  pp_peer : Z
}.

Definition ld_phy_port m off : res ofp_phy_port :=
  let* port_no := ld16 m off in
  let* hw_addr := ld_bytes m (off + 2) 6 in
  let* name := ld_bytes m (off + 8) 16 in
  let* config := ld32 m (off + 24) in
  let* state := ld32 m (off + 28) in
  let* curr := ld32 m (off + 32) in
  let* advertised := ld32 m (off + 36) in
  let* supported := ld32 m (off + 40) in
  let* peer := ld32 m (off + 44) in
  Ok (Build_ofp_phy_port port_no hw_addr name config state curr advertised supported peer).

Definition st_phy_port m off (x : ofp_phy_port) : res bytes :=
  let* m := st16 m off (pp_port_no x) in
  let* m := st_bytes m (off + 2) (pp_hw_addr x) in
  let* m := st_bytes m (off + 8) (pp_name x) in
  let* m := st32 m (off + 24) (pp_config x) in
  let* m := st32 m (off + 28) (pp_state x) in
  let* m := st32 m (off + 32) (pp_curr x) in
  let* m := st32 m (off + 36) (pp_advertised x) in
  let* m := st32 m (off + 40) (pp_supported x) in
  st32 m (off + 44) (pp_peer x).

Definition wire_phy_port (x : ofp_phy_port) : bytes :=
  be_encode 2 (pp_port_no x) ++ pp_hw_addr x ++ pp_name x ++
  be_encode 4 (pp_config x) ++ be_encode 4 (pp_state x) ++ be_encode 4 (pp_curr x) ++
  be_encode 4 (pp_advertised x) ++ be_encode 4 (pp_supported x) ++ be_encode 4 (pp_peer x).

Record wf_phy_port (x : ofp_phy_port) : Prop := {
  wf_pp_port_no : fits 2 (pp_port_no x);
  wf_pp_hw_addr : length (pp_hw_addr x) = 6%nat;
  wf_pp_name : length (pp_name x) = 16%nat;
  wf_pp_config : fits 4 (pp_config x);
  wf_pp_state : fits 4 (pp_state x);
  wf_pp_curr : fits 4 (pp_curr x);
  wf_pp_advertised : fits 4 (pp_advertised x);
  wf_pp_supported : fits 4 (pp_supported x);
  wf_pp_peer : fits 4 (pp_peer x)
}.

(** ** struct ofp_action_output (8 bytes) *)
Record ofp_action_output : Type := {
  ao_type : Z;
  ao_len : Z;
  ao_port : Z;
  ao_max_len : Z
}.

Definition ld_action_output m off : res ofp_action_output :=
  let* type := ld16 m off in
  let* len := ld16 m (off + 2) in
  let* port := ld16 m (off + 4) in
  let* max_len := ld16 m (off + 6) in
  Ok (Build_ofp_action_output type len port max_len).

Definition st_action_output m off (x : ofp_action_output) : res bytes :=
  let* m := st16 m off (ao_type x) in
  let* m := st16 m (off + 2) (ao_len x) in
  let* m := st16 m (off + 4) (ao_port x) in
  st16 m (off + 6) (ao_max_len x).

Definition wire_action_output (x : ofp_action_output) : bytes :=
  be_encode 2 (ao_type x) ++ be_encode 2 (ao_len x) ++ be_encode 2 (ao_port x) ++
  be_encode 2 (ao_max_len x).

Record wf_action_output (x : ofp_action_output) : Prop := {
  wf_ao_type : fits 2 (ao_type x);
  wf_ao_len : fits 2 (ao_len x);
  wf_ao_port : fits 2 (ao_port x);
  wf_ao_max_len : fits 2 (ao_max_len x)
}.

(** ** struct ofp_action_vlan_vid (8 bytes) *)
Record ofp_action_vlan_vid : Type := {
  avv_type : Z;
  avv_len : Z;
  avv_vlan_vid : Z
}.

Definition ld_action_vlan_vid m off : res ofp_action_vlan_vid :=
  let* type := ld16 m off in
  let* len := ld16 m (off + 2) in
  let* vlan_vid := ld16 m (off + 4) in
  Ok (Build_ofp_action_vlan_vid type len vlan_vid).

Definition st_action_vlan_vid m off (x : ofp_action_vlan_vid) : res bytes :=
  let* m := st16 m off (avv_type x) in
  let* m := st16 m (off + 2) (avv_len x) in
  let* m := st16 m (off + 4) (avv_vlan_vid x) in
  st_bytes m (off + 6) (zeros 2).

Definition wire_action_vlan_vid (x : ofp_action_vlan_vid) : bytes :=
  be_encode 2 (avv_type x) ++ be_encode 2 (avv_len x) ++ be_encode 2 (avv_vlan_vid x) ++
  zeros 2.

Record wf_action_vlan_vid (x : ofp_action_vlan_vid) : Prop := {
  wf_avv_type : fits 2 (avv_type x);
  wf_avv_len : fits 2 (avv_len x);
  wf_avv_vlan_vid : fits 2 (avv_vlan_vid x)
}.

(** ** struct ofp_action_vlan_pcp (8 bytes) *)
Record ofp_action_vlan_pcp : Type := {
  avp_type : Z;
  avp_len : Z;
  avp_vlan_pcp : Z
}.

Definition ld_action_vlan_pcp m off : res ofp_action_vlan_pcp :=
  let* type := ld16 m off in
  let* len := ld16 m (off + 2) in
  let* vlan_pcp := ld8 m (off + 4) in
  Ok (Build_ofp_action_vlan_pcp type len vlan_pcp).

Definition st_action_vlan_pcp m off (x : ofp_action_vlan_pcp) : res bytes :=
  let* m := st16 m off (avp_type x) in
  let* m := st16 m (off + 2) (avp_len x) in
  let* m := st8 m (off + 4) (avp_vlan_pcp x) in
  st_bytes m (off + 5) (zeros 3).

Definition wire_action_vlan_pcp (x : ofp_action_vlan_pcp) : bytes :=
  be_encode 2 (avp_type x) ++ be_encode 2 (avp_len x) ++ be_encode 1 (avp_vlan_pcp x) ++
  zeros 3.

Record wf_action_vlan_pcp (x : ofp_action_vlan_pcp) : Prop := {
  wf_avp_type : fits 2 (avp_type x);
  wf_avp_len : fits 2 (avp_len x);
  wf_avp_vlan_pcp : fits 1 (avp_vlan_pcp x)
}.

(** ** struct ofp_action_header (8 bytes) *)
Record ofp_action_header : Type := {
  ah_type : Z;
  ah_len : Z
}.

Definition ld_action_header m off : res ofp_action_header :=
  let* type := ld16 m off in
  let* len := ld16 m (off + 2) in
  Ok (Build_ofp_action_header type len).

Definition st_action_header m off (x : ofp_action_header) : res bytes :=
  let* m := st16 m off (ah_type x) in
  let* m := st16 m (off + 2) (ah_len x) in
  st_bytes m (off + 4) (zeros 4).

Definition wire_action_header (x : ofp_action_header) : bytes :=
  be_encode 2 (ah_type x) ++ be_encode 2 (ah_len x) ++ zeros 4.

Record wf_action_header (x : ofp_action_header) : Prop := {
  wf_ah_type : fits 2 (ah_type x);
  wf_ah_len : fits 2 (ah_len x)
}.

(** ** struct ofp_action_dl_addr (16 bytes) *)
Record ofp_action_dl_addr : Type := {
  ada_type : Z;
  ada_len : Z;
  ada_dl_addr : bytes
}.

Definition ld_action_dl_addr m off : res ofp_action_dl_addr :=
  let* type := ld16 m off in
  let* len := ld16 m (off + 2) in
  let* dl_addr := ld_bytes m (off + 4) 6 in
  Ok (Build_ofp_action_dl_addr type len dl_addr).

Definition st_action_dl_addr m off (x : ofp_action_dl_addr) : res bytes :=
  let* m := st16 m off (ada_type x) in
  let* m := st16 m (off + 2) (ada_len x) in
  let* m := st_bytes m (off + 4) (ada_dl_addr x) in
  st_bytes m (off + 10) (zeros 6).

Definition wire_action_dl_addr (x : ofp_action_dl_addr) : bytes :=
  be_encode 2 (ada_type x) ++ be_encode 2 (ada_len x) ++ ada_dl_addr x ++ zeros 6.

Record wf_action_dl_addr (x : ofp_action_dl_addr) : Prop := {
  wf_ada_type : fits 2 (ada_type x);
  wf_ada_len : fits 2 (ada_len x);
  wf_ada_dl_addr : length (ada_dl_addr x) = 6%nat
}.

(** ** struct ofp_action_nw_addr (8 bytes) *)
Record ofp_action_nw_addr : Type := {
  ana_type : Z;
  ana_len : Z;
  ana_nw_addr : Z
}.

Definition ld_action_nw_addr m off : res ofp_action_nw_addr :=
  let* type := ld16 m off in
  let* len := ld16 m (off + 2) in
  let* nw_addr := ld32 m (off + 4) in
  Ok (Build_ofp_action_nw_addr type len nw_addr).

Definition st_action_nw_addr m off (x : ofp_action_nw_addr) : res bytes :=
  let* m := st16 m off (ana_type x) in
  let* m := st16 m (off + 2) (ana_len x) in
  st32 m (off + 4) (ana_nw_addr x).

Definition wire_action_nw_addr (x : ofp_action_nw_addr) : bytes :=
  be_encode 2 (ana_type x) ++ be_encode 2 (ana_len x) ++ be_encode 4 (ana_nw_addr x).

Record wf_action_nw_addr (x : ofp_action_nw_addr) : Prop := {
  wf_ana_type : fits 2 (ana_type x);
  wf_ana_len : fits 2 (ana_len x);
  wf_ana_nw_addr : fits 4 (ana_nw_addr x)
}.

(** ** struct ofp_action_nw_tos (8 bytes) *)
Record ofp_action_nw_tos : Type := {
  ant_type : Z;
  ant_len : Z;
  ant_nw_tos : Z
}.

Definition ld_action_nw_tos m off : res ofp_action_nw_tos :=
  let* type := ld16 m off in
  let* len := ld16 m (off + 2) in
  let* nw_tos := ld8 m (off + 4) in
  Ok (Build_ofp_action_nw_tos type len nw_tos).

Definition st_action_nw_tos m off (x : ofp_action_nw_tos) : res bytes :=
  let* m := st16 m off (ant_type x) in
  let* m := st16 m (off + 2) (ant_len x) in
  let* m := st8 m (off + 4) (ant_nw_tos x) in
  st_bytes m (off + 5) (zeros 3).

Definition wire_action_nw_tos (x : ofp_action_nw_tos) : bytes :=
  be_encode 2 (ant_type x) ++ be_encode 2 (ant_len x) ++ be_encode 1 (ant_nw_tos x) ++
  zeros 3.

Record wf_action_nw_tos (x : ofp_action_nw_tos) : Prop := {
  wf_ant_type : fits 2 (ant_type x);
  wf_ant_len : fits 2 (ant_len x);
  wf_ant_nw_tos : fits 1 (ant_nw_tos x)
}.

(** ** struct ofp_action_tp_port (8 bytes) *)
Record ofp_action_tp_port : Type := {
  atp_type : Z;
  atp_len : Z;
  atp_tp_port : Z
}.

Definition ld_action_tp_port m off : res ofp_action_tp_port :=
  let* type := ld16 m off in
  let* len := ld16 m (off + 2) in
  let* tp_port := ld16 m (off + 4) in
  Ok (Build_ofp_action_tp_port type len tp_port).

Definition st_action_tp_port m off (x : ofp_action_tp_port) : res bytes :=
  let* m := st16 m off (atp_type x) in
  let* m := st16 m (off + 2) (atp_len x) in
  let* m := st16 m (off + 4) (atp_tp_port x) in
  st_bytes m (off + 6) (zeros 2).

Definition wire_action_tp_port (x : ofp_action_tp_port) : bytes :=
  be_encode 2 (atp_type x) ++ be_encode 2 (atp_len x) ++ be_encode 2 (atp_tp_port x) ++
  zeros 2.

Record wf_action_tp_port (x : ofp_action_tp_port) : Prop := {
  wf_atp_type : fits 2 (atp_type x);
  wf_atp_len : fits 2 (atp_len x);
  wf_atp_tp_port : fits 2 (atp_tp_port x)
}.

(** ** struct ofp_action_enqueue (16 bytes) *)
Record ofp_action_enqueue : Type := {
  ae_type : Z;
  ae_len : Z;
  ae_port : Z;
  ae_queue_id : Z
}.

Definition ld_action_enqueue m off : res ofp_action_enqueue :=
  let* type := ld16 m off in
  let* len := ld16 m (off + 2) in
  let* port := ld16 m (off + 4) in
  let* queue_id := ld32 m (off + 12) in
  Ok (Build_ofp_action_enqueue type len port queue_id).

Definition st_action_enqueue m off (x : ofp_action_enqueue) : res bytes :=
  let* m := st16 m off (ae_type x) in
  let* m := st16 m (off + 2) (ae_len x) in
  let* m := st16 m (off + 4) (ae_port x) in
  let* m := st_bytes m (off + 6) (zeros 6) in
  st32 m (off + 12) (ae_queue_id x).

Definition wire_action_enqueue (x : ofp_action_enqueue) : bytes :=
  be_encode 2 (ae_type x) ++ be_encode 2 (ae_len x) ++ be_encode 2 (ae_port x) ++
  zeros 6 ++ be_encode 4 (ae_queue_id x).

Record wf_action_enqueue (x : ofp_action_enqueue) : Prop := {
  wf_ae_type : fits 2 (ae_type x);
  wf_ae_len : fits 2 (ae_len x);
  wf_ae_port : fits 2 (ae_port x);
  wf_ae_queue_id : fits 4 (ae_queue_id x)
}.

(** ** struct ofp_action_vendor_header (8 bytes) *)
Record ofp_action_vendor_header : Type := {
  av_type : Z;
  av_len : Z;
  av_vendor : Z
}.

Definition ld_action_vendor_header m off : res ofp_action_vendor_header :=
  let* type := ld16 m off in
  let* len := ld16 m (off + 2) in
  let* vendor := ld32 m (off + 4) in
  Ok (Build_ofp_action_vendor_header type len vendor).

Definition st_action_vendor_header m off (x : ofp_action_vendor_header) : res bytes :=
  let* m := st16 m off (av_type x) in
  let* m := st16 m (off + 2) (av_len x) in
  st32 m (off + 4) (av_vendor x).

Definition wire_action_vendor_header (x : ofp_action_vendor_header) : bytes :=
  be_encode 2 (av_type x) ++ be_encode 2 (av_len x) ++ be_encode 4 (av_vendor x).

Record wf_action_vendor_header (x : ofp_action_vendor_header) : Prop := {
  wf_av_type : fits 2 (av_type x);
  wf_av_len : fits 2 (av_len x);
  wf_av_vendor : fits 4 (av_vendor x)
}.

(** ** struct ofp_aggregate_stats_reply (24 bytes) *)
Record ofp_aggregate_stats_reply : Type := {
  as_packet_count : Z;
  as_byte_count : Z;
  as_flow_count : Z
}.

Definition ld_aggregate_stats m off : res ofp_aggregate_stats_reply :=
  let* packet_count := ld 8 m off in
  let* byte_count := ld 8 m (off + 8) in
  let* flow_count := ld32 m (off + 16) in
  Ok (Build_ofp_aggregate_stats_reply packet_count byte_count flow_count).

Definition st_aggregate_stats m off (x : ofp_aggregate_stats_reply) : res bytes :=
  let* m := st 8 m off (as_packet_count x) in
  let* m := st 8 m (off + 8) (as_byte_count x) in
  let* m := st32 m (off + 16) (as_flow_count x) in
  st_bytes m (off + 20) (zeros 4).

Definition wire_aggregate_stats (x : ofp_aggregate_stats_reply) : bytes :=
  be_encode 8 (as_packet_count x) ++ be_encode 8 (as_byte_count x) ++
  be_encode 4 (as_flow_count x) ++ zeros 4.

Record wf_aggregate_stats (x : ofp_aggregate_stats_reply) : Prop := {
  wf_as_packet_count : fits 8 (as_packet_count x);
  wf_as_byte_count : fits 8 (as_byte_count x);
  wf_as_flow_count : fits 4 (as_flow_count x)
}.

(** ** struct ofp_table_stats (64 bytes) *)
Record ofp_table_stats : Type := {
  ts_table_id : Z;
  ts_name : bytes;
  ts_wildcards : Z;
  ts_max_entries : Z;
  ts_active_count : Z;
  ts_lookup_count : Z;
  ts_matched_count : Z
}.

Definition ld_table_stats m off : res ofp_table_stats :=
  let* table_id := ld8 m off in
  let* name := ld_bytes m (off + 4) 32 in
  let* wildcards := ld32 m (off + 36) in
  let* max_entries := ld32 m (off + 40) in
  let* active_count := ld32 m (off + 44) in
  let* lookup_count := ld 8 m (off + 48) in
  let* matched_count := ld 8 m (off + 56) in
  Ok (Build_ofp_table_stats table_id name wildcards max_entries active_count lookup_count
        matched_count).

Definition st_table_stats m off (x : ofp_table_stats) : res bytes :=
  let* m := st8 m off (ts_table_id x) in
  let* m := st_bytes m (off + 1) (zeros 3) in
  let* m := st_bytes m (off + 4) (ts_name x) in
  let* m := st32 m (off + 36) (ts_wildcards x) in
  let* m := st32 m (off + 40) (ts_max_entries x) in
  let* m := st32 m (off + 44) (ts_active_count x) in
  let* m := st 8 m (off + 48) (ts_lookup_count x) in
  st 8 m (off + 56) (ts_matched_count x).

Definition wire_table_stats (x : ofp_table_stats) : bytes :=
  be_encode 1 (ts_table_id x) ++ zeros 3 ++ ts_name x ++ be_encode 4 (ts_wildcards x) ++
  be_encode 4 (ts_max_entries x) ++ be_encode 4 (ts_active_count x) ++
  be_encode 8 (ts_lookup_count x) ++ be_encode 8 (ts_matched_count x).

Record wf_table_stats (x : ofp_table_stats) : Prop := {
  wf_ts_table_id : fits 1 (ts_table_id x);
  wf_ts_name : length (ts_name x) = 32%nat;
  wf_ts_wildcards : fits 4 (ts_wildcards x);
  wf_ts_max_entries : fits 4 (ts_max_entries x);
  wf_ts_active_count : fits 4 (ts_active_count x);
  wf_ts_lookup_count : fits 8 (ts_lookup_count x);
  wf_ts_matched_count : fits 8 (ts_matched_count x)
}.

(** ** struct ofp_port_stats (104 bytes) *)
Record ofp_port_stats : Type := {
  ps_port_no : Z;
  ps_rx_packets : Z;
  ps_tx_packets : Z;
  ps_rx_bytes : Z;
  ps_tx_bytes : Z;
  ps_rx_dropped : Z;
  ps_tx_dropped : Z;
  ps_rx_errors : Z;
  ps_tx_errors : Z;
  ps_rx_frame_err : Z;
  ps_rx_over_err : Z;
  ps_rx_crc_err : Z;
  ps_collisions : Z
}.

Definition ld_port_stats m off : res ofp_port_stats :=
  let* port_no := ld16 m off in
  let* rx_packets := ld 8 m (off + 8) in
  let* tx_packets := ld 8 m (off + 16) in
  let* rx_bytes := ld 8 m (off + 24) in
  let* tx_bytes := ld 8 m (off + 32) in
  let* rx_dropped := ld 8 m (off + 40) in
  let* tx_dropped := ld 8 m (off + 48) in
  let* rx_errors := ld 8 m (off + 56) in
  let* tx_errors := ld 8 m (off + 64) in
  let* rx_frame_err := ld 8 m (off + 72) in
  let* rx_over_err := ld 8 m (off + 80) in
  let* rx_crc_err := ld 8 m (off + 88) in
  let* collisions := ld 8 m (off + 96) in
  Ok (Build_ofp_port_stats port_no rx_packets tx_packets rx_bytes tx_bytes rx_dropped
        tx_dropped rx_errors tx_errors rx_frame_err rx_over_err rx_crc_err collisions).

Definition st_port_stats m off (x : ofp_port_stats) : res bytes :=
  let* m := st16 m off (ps_port_no x) in
  let* m := st_bytes m (off + 2) (zeros 6) in
  let* m := st 8 m (off + 8) (ps_rx_packets x) in
  let* m := st 8 m (off + 16) (ps_tx_packets x) in
  let* m := st 8 m (off + 24) (ps_rx_bytes x) in
  let* m := st 8 m (off + 32) (ps_tx_bytes x) in
  let* m := st 8 m (off + 40) (ps_rx_dropped x) in
  let* m := st 8 m (off + 48) (ps_tx_dropped x) in
  let* m := st 8 m (off + 56) (ps_rx_errors x) in
  let* m := st 8 m (off + 64) (ps_tx_errors x) in
  let* m := st 8 m (off + 72) (ps_rx_frame_err x) in
  let* m := st 8 m (off + 80) (ps_rx_over_err x) in
  let* m := st 8 m (off + 88) (ps_rx_crc_err x) in
  st 8 m (off + 96) (ps_collisions x).

Definition wire_port_stats (x : ofp_port_stats) : bytes :=
  be_encode 2 (ps_port_no x) ++ zeros 6 ++ be_encode 8 (ps_rx_packets x) ++
  be_encode 8 (ps_tx_packets x) ++ be_encode 8 (ps_rx_bytes x) ++
  be_encode 8 (ps_tx_bytes x) ++ be_encode 8 (ps_rx_dropped x) ++
  be_encode 8 (ps_tx_dropped x) ++ be_encode 8 (ps_rx_errors x) ++
  be_encode 8 (ps_tx_errors x) ++ be_encode 8 (ps_rx_frame_err x) ++
  be_encode 8 (ps_rx_over_err x) ++ be_encode 8 (ps_rx_crc_err x) ++
  be_encode 8 (ps_collisions x).

Record wf_port_stats (x : ofp_port_stats) : Prop := {
  wf_ps_port_no : fits 2 (ps_port_no x);
  wf_ps_rx_packets : fits 8 (ps_rx_packets x);
  wf_ps_tx_packets : fits 8 (ps_tx_packets x);
  wf_ps_rx_bytes : fits 8 (ps_rx_bytes x);
  wf_ps_tx_bytes : fits 8 (ps_tx_bytes x);
  wf_ps_rx_dropped : fits 8 (ps_rx_dropped x);
  wf_ps_tx_dropped : fits 8 (ps_tx_dropped x);
  wf_ps_rx_errors : fits 8 (ps_rx_errors x);
  wf_ps_tx_errors : fits 8 (ps_tx_errors x);
  wf_ps_rx_frame_err : fits 8 (ps_rx_frame_err x);
  wf_ps_rx_over_err : fits 8 (ps_rx_over_err x);
  wf_ps_rx_crc_err : fits 8 (ps_rx_crc_err x);
  wf_ps_collisions : fits 8 (ps_collisions x)
}.

(** ** struct ofp_queue_stats (32 bytes) *)
Record ofp_queue_stats : Type := {
  qs_port_no : Z;
  qs_queue_id : Z;
  qs_tx_bytes : Z;
  qs_tx_packets : Z;
  qs_tx_errors : Z
}.

Definition ld_queue_stats m off : res ofp_queue_stats :=
  let* port_no := ld16 m off in
  let* queue_id := ld32 m (off + 4) in
  let* tx_bytes := ld 8 m (off + 8) in
  let* tx_packets := ld 8 m (off + 16) in
  let* tx_errors := ld 8 m (off + 24) in
  Ok (Build_ofp_queue_stats port_no queue_id tx_bytes tx_packets tx_errors).

Definition st_queue_stats m off (x : ofp_queue_stats) : res bytes :=
  let* m := st16 m off (qs_port_no x) in
  let* m := st_bytes m (off + 2) (zeros 2) in
  let* m := st32 m (off + 4) (qs_queue_id x) in
  let* m := st 8 m (off + 8) (qs_tx_bytes x) in
  let* m := st 8 m (off + 16) (qs_tx_packets x) in
  st 8 m (off + 24) (qs_tx_errors x).

Definition wire_queue_stats (x : ofp_queue_stats) : bytes :=
  be_encode 2 (qs_port_no x) ++ zeros 2 ++ be_encode 4 (qs_queue_id x) ++
  be_encode 8 (qs_tx_bytes x) ++ be_encode 8 (qs_tx_packets x) ++
  be_encode 8 (qs_tx_errors x).

Record wf_queue_stats (x : ofp_queue_stats) : Prop := {
  wf_qs_port_no : fits 2 (qs_port_no x);
  wf_qs_queue_id : fits 4 (qs_queue_id x);
  wf_qs_tx_bytes : fits 8 (qs_tx_bytes x);
  wf_qs_tx_packets : fits 8 (qs_tx_packets x);
  wf_qs_tx_errors : fits 8 (qs_tx_errors x)
}.

(** ** struct ofp_flow_stats (88 bytes before its actions) *)
Record ofp_flow_stats : Type := {
  fs_length : Z;
  fs_table_id : Z;
  fs_match : ofp_match;
  fs_duration_sec : Z;
  fs_duration_nsec : Z;
  fs_priority : Z;
  fs_idle_timeout : Z;
  fs_hard_timeout : Z;
  fs_cookie : Z;
  fs_packet_count : Z;
  fs_byte_count : Z
}.

Definition ld_flow_stats m off : res ofp_flow_stats :=
  let* length := ld16 m off in
  let* table_id := ld8 m (off + 2) in
  let* match_ := ld_match m (off + 4) in
  let* duration_sec := ld32 m (off + 44) in
  let* duration_nsec := ld32 m (off + 48) in
  let* priority := ld16 m (off + 52) in
  let* idle_timeout := ld16 m (off + 54) in
  let* hard_timeout := ld16 m (off + 56) in
  let* cookie := ld 8 m (off + 64) in
  let* packet_count := ld 8 m (off + 72) in
  let* byte_count := ld 8 m (off + 80) in
  Ok (Build_ofp_flow_stats length table_id match_ duration_sec duration_nsec priority
        idle_timeout hard_timeout cookie packet_count byte_count).

Definition st_flow_stats m off (x : ofp_flow_stats) : res bytes :=
  let* m := st16 m off (fs_length x) in
  let* m := st8 m (off + 2) (fs_table_id x) in
  let* m := st_bytes m (off + 3) (zeros 1) in
  let* m := st_match m (off + 4) (fs_match x) in
  let* m := st32 m (off + 44) (fs_duration_sec x) in
  let* m := st32 m (off + 48) (fs_duration_nsec x) in
  let* m := st16 m (off + 52) (fs_priority x) in
  let* m := st16 m (off + 54) (fs_idle_timeout x) in
  let* m := st16 m (off + 56) (fs_hard_timeout x) in
  let* m := st_bytes m (off + 58) (zeros 6) in
  let* m := st 8 m (off + 64) (fs_cookie x) in
  let* m := st 8 m (off + 72) (fs_packet_count x) in
  st 8 m (off + 80) (fs_byte_count x).

Definition wire_flow_stats (x : ofp_flow_stats) : bytes :=
  be_encode 2 (fs_length x) ++ be_encode 1 (fs_table_id x) ++ zeros 1 ++
  wire_match (fs_match x) ++ be_encode 4 (fs_duration_sec x) ++
  be_encode 4 (fs_duration_nsec x) ++ be_encode 2 (fs_priority x) ++
  be_encode 2 (fs_idle_timeout x) ++ be_encode 2 (fs_hard_timeout x) ++ zeros 6 ++
  be_encode 8 (fs_cookie x) ++ be_encode 8 (fs_packet_count x) ++
  be_encode 8 (fs_byte_count x).

Record wf_flow_stats (x : ofp_flow_stats) : Prop := {
  wf_fs_length : fits 2 (fs_length x);
  wf_fs_table_id : fits 1 (fs_table_id x);
  wf_fs_match : wf_match (fs_match x);
  wf_fs_duration_sec : fits 4 (fs_duration_sec x);
  wf_fs_duration_nsec : fits 4 (fs_duration_nsec x);
  wf_fs_priority : fits 2 (fs_priority x);
  wf_fs_idle_timeout : fits 2 (fs_idle_timeout x);
  wf_fs_hard_timeout : fits 2 (fs_hard_timeout x);
  wf_fs_cookie : fits 8 (fs_cookie x);
  wf_fs_packet_count : fits 8 (fs_packet_count x);
  wf_fs_byte_count : fits 8 (fs_byte_count x)
}.
End Structures.
