(* ===== verification/ByteOrder.v ===== *)
(** byteorder.c: conversion of OpenFlow structures between host and network
    byte order.

    A converter of a fixed structure is a function on its record; a converter
    of a variable-length structure (actions, flow statistics) works on memory,
    with a destination and a source object.  [hton_X] is [ntoh_X] where
    byteorder.h defines it so. *)

From Stdlib Require Import ZArith Lia Bool.
From coqutil Require Import Byte.
From stdpp Require Import base list.
From S2P Require Import Prelude Memory OpenFlow.

Section ByteOrder.
Context {host : Host}.

(** * Fixed structures *)

Definition ntoh_match (src : ofp_match) : ofp_match := {|
  wildcards := ntohl (wildcards src);
  in_port := ntohs (in_port src);
  dl_src := dl_src src;
  dl_dst := dl_dst src;
  dl_vlan := ntohs (dl_vlan src);
  dl_vlan_pcp := dl_vlan_pcp src;
  dl_type := ntohs (dl_type src);
  nw_tos := nw_tos src;
  nw_proto := nw_proto src;
  pad1 := zeros 1;
  pad2 := zeros 2;
  nw_src := ntohl (nw_src src);
  nw_dst := ntohl (nw_dst src);
  tp_src := ntohs (tp_src src);
  tp_dst := ntohs (tp_dst src)
|}.
Definition hton_match := ntoh_match.

Definition ntoh_phy_port (src : ofp_phy_port) : ofp_phy_port := {|
  pp_port_no := ntohs (pp_port_no src);
  pp_hw_addr := pp_hw_addr src;
  pp_name := pp_name src;
  pp_config := ntohl (pp_config src);
  pp_state := ntohl (pp_state src);
  pp_curr := ntohl (pp_curr src);
  pp_advertised := ntohl (pp_advertised src);
  pp_supported := ntohl (pp_supported src);
  pp_peer := ntohl (pp_peer src)
|}.
Definition hton_phy_port := ntoh_phy_port.

Definition ntoh_action_output (src : ofp_action_output) : ofp_action_output := {|
  ao_type := ntohs (ao_type src);
  ao_len := ntohs (ao_len src);
  ao_port := ntohs (ao_port src);
  ao_max_len := ntohs (ao_max_len src)
|}.
Definition hton_action_output := ntoh_action_output.

Definition ntoh_action_vlan_vid (src : ofp_action_vlan_vid) : ofp_action_vlan_vid := {|
  avv_type := ntohs (avv_type src);
  avv_len := ntohs (avv_len src);
  avv_vlan_vid := ntohs (avv_vlan_vid src)
|}.
Definition hton_action_vlan_vid := ntoh_action_vlan_vid.

Definition ntoh_action_vlan_pcp (src : ofp_action_vlan_pcp) : ofp_action_vlan_pcp := {|
  avp_type := ntohs (avp_type src);
  avp_len := ntohs (avp_len src);
  avp_vlan_pcp := avp_vlan_pcp src
|}.
Definition hton_action_vlan_pcp := ntoh_action_vlan_pcp.

Definition ntoh_action_strip_vlan (src : ofp_action_header) : ofp_action_header := {|
  ah_type := ntohs (ah_type src);
  ah_len := ntohs (ah_len src)
|}.
Definition hton_action_strip_vlan := ntoh_action_strip_vlan.

Definition ntoh_action_dl_addr (src : ofp_action_dl_addr) : ofp_action_dl_addr := {|
  ada_type := ntohs (ada_type src);
  ada_len := ntohs (ada_len src);
  ada_dl_addr := ada_dl_addr src
|}.
Definition hton_action_dl_addr := ntoh_action_dl_addr.

Definition ntoh_action_nw_addr (src : ofp_action_nw_addr) : ofp_action_nw_addr := {|
  ana_type := ntohs (ana_type src);
  ana_len := ntohs (ana_len src);
  ana_nw_addr := ntohl (ana_nw_addr src)
|}.
Definition hton_action_nw_addr := ntoh_action_nw_addr.

Definition ntoh_action_nw_tos (src : ofp_action_nw_tos) : ofp_action_nw_tos := {|
  ant_type := ntohs (ant_type src);
  ant_len := ntohs (ant_len src);
  ant_nw_tos := ant_nw_tos src
|}.
Definition hton_action_nw_tos := ntoh_action_nw_tos.

Definition ntoh_action_tp_port (src : ofp_action_tp_port) : ofp_action_tp_port := {|
  atp_type := ntohs (atp_type src);
  atp_len := ntohs (atp_len src);
  atp_tp_port := ntohs (atp_tp_port src)
|}.
Definition hton_action_tp_port := ntoh_action_tp_port.

Definition ntoh_action_enqueue (src : ofp_action_enqueue) : ofp_action_enqueue := {|
  ae_type := ntohs (ae_type src);
  ae_len := ntohs (ae_len src);
  ae_port := ntohs (ae_port src);
  ae_queue_id := ntohl (ae_queue_id src)
|}.
Definition hton_action_enqueue := ntoh_action_enqueue.

Definition ntoh_aggregate_stats (src : ofp_aggregate_stats_reply) : ofp_aggregate_stats_reply := {|
  as_packet_count := ntohll (as_packet_count src);
  as_byte_count := ntohll (as_byte_count src);
  as_flow_count := ntohl (as_flow_count src)
|}.
Definition hton_aggregate_stats := ntoh_aggregate_stats.

Definition ntoh_table_stats (src : ofp_table_stats) : ofp_table_stats := {|
  ts_table_id := ts_table_id src;
  ts_name := ts_name src;
  ts_wildcards := ntohl (ts_wildcards src);
  ts_max_entries := ntohl (ts_max_entries src);
  ts_active_count := ntohl (ts_active_count src);
  ts_lookup_count := ntohll (ts_lookup_count src);
  ts_matched_count := ntohll (ts_matched_count src)
|}.
Definition hton_table_stats := ntoh_table_stats.

Definition ntoh_port_stats (src : ofp_port_stats) : ofp_port_stats := {|
  ps_port_no := ntohs (ps_port_no src);
  ps_rx_packets := ntohll (ps_rx_packets src);
  ps_tx_packets := ntohll (ps_tx_packets src);
  ps_rx_bytes := ntohll (ps_rx_bytes src);
  ps_tx_bytes := ntohll (ps_tx_bytes src);
  ps_rx_dropped := ntohll (ps_rx_dropped src);
  ps_tx_dropped := ntohll (ps_tx_dropped src);
  ps_rx_errors := ntohll (ps_rx_errors src);
  ps_tx_errors := ntohll (ps_tx_errors src);
  ps_rx_frame_err := ntohll (ps_rx_frame_err src);
  ps_rx_over_err := ntohll (ps_rx_over_err src);
  ps_rx_crc_err := ntohll (ps_rx_crc_err src);
  ps_collisions := ntohll (ps_collisions src)
|}.
Definition hton_port_stats := ntoh_port_stats.

Definition ntoh_queue_stats (src : ofp_queue_stats) : ofp_queue_stats := {|
  qs_port_no := ntohs (qs_port_no src);
  qs_queue_id := ntohl (qs_queue_id src);
  qs_tx_bytes := ntohll (qs_tx_bytes src);
  qs_tx_packets := ntohll (qs_tx_packets src);
  qs_tx_errors := ntohll (qs_tx_errors src)
|}.
Definition hton_queue_stats := ntoh_queue_stats.

(** * Actions *)

(** [copy_action_vendor_body]: [body_length] is a [size_t]. *)
Definition copy_action_vendor_body (dst : bytes) (doff : Z) (src : bytes) (soff : Z)
    (body_length : Z) : res bytes :=
  if 0 <? body_length then
    let* body := ld_range src (soff + 8) body_length in
    st_bytes dst (doff + 8) body
  else Ok dst.

(** The members of a vendor action before its body. *)
Definition ntoh_action_vendor_header (a : ofp_action_vendor_header)
    : ofp_action_vendor_header := {|
  av_type := ntohs (av_type a);
  av_len := ntohs (av_len a);
  av_vendor := ntohl (av_vendor a)
|}.

Definition ntoh_action_vendor (dst : bytes) (doff : Z) (src : bytes) (soff : Z) : res bytes :=
  let* a := ld_action_vendor_header src soff in
  let* dst := st_action_vendor_header dst doff (ntoh_action_vendor_header a) in
  copy_action_vendor_body dst doff src soff (u64 (ntohs (av_len a) - 8)).

Definition hton_action_vendor (dst : bytes) (doff : Z) (src : bytes) (soff : Z) : res bytes :=
  let* a := ld_action_vendor_header src soff in
  let* dst := st_action_vendor_header dst doff (ntoh_action_vendor_header a) in
  copy_action_vendor_body dst doff src soff (u64 (av_len a - 8)).

(** The conversion the switch statements of [ntoh_action] and [hton_action]
    select on [type]; both end in [die] on an undefined type. *)
Definition convert_action (type : Z)
    (vendor : bytes -> Z -> bytes -> Z -> res bytes)
    (dst : bytes) (doff : Z) (src : bytes) (soff : Z) : res bytes :=
  if type =? OFPAT_OUTPUT then
    let* a := ld_action_output src soff in st_action_output dst doff (ntoh_action_output a)
  else if type =? OFPAT_SET_VLAN_VID then
    let* a := ld_action_vlan_vid src soff in st_action_vlan_vid dst doff (ntoh_action_vlan_vid a)
  else if type =? OFPAT_SET_VLAN_PCP then
    let* a := ld_action_vlan_pcp src soff in st_action_vlan_pcp dst doff (ntoh_action_vlan_pcp a)
  else if type =? OFPAT_STRIP_VLAN then
    let* a := ld_action_header src soff in st_action_header dst doff (ntoh_action_strip_vlan a)
  else if (type =? OFPAT_SET_DL_SRC) || (type =? OFPAT_SET_DL_DST) then
    let* a := ld_action_dl_addr src soff in st_action_dl_addr dst doff (ntoh_action_dl_addr a)
  else if (type =? OFPAT_SET_NW_SRC) || (type =? OFPAT_SET_NW_DST) then
    let* a := ld_action_nw_addr src soff in st_action_nw_addr dst doff (ntoh_action_nw_addr a)
  else if type =? OFPAT_SET_NW_TOS then
    let* a := ld_action_nw_tos src soff in st_action_nw_tos dst doff (ntoh_action_nw_tos a)
  else if (type =? OFPAT_SET_TP_SRC) || (type =? OFPAT_SET_TP_DST) then
    let* a := ld_action_tp_port src soff in st_action_tp_port dst doff (ntoh_action_tp_port a)
  else if type =? OFPAT_ENQUEUE then
    let* a := ld_action_enqueue src soff in st_action_enqueue dst doff (ntoh_action_enqueue a)
  else if type =? OFPAT_VENDOR then vendor dst doff src soff
  else Fault Died.

Definition ntoh_action (dst : bytes) (doff : Z) (src : bytes) (soff : Z) : res bytes :=
  let* type := ld_ntoh 2 src soff in
  convert_action type ntoh_action_vendor dst doff src soff.

Definition hton_action (dst : bytes) (doff : Z) (src : bytes) (soff : Z) : res bytes :=
  let* type := ld16 src soff in
  convert_action type hton_action_vendor dst doff src soff.

(** * Flow statistics: a fixed part and a list of actions *)

(** The members of [ntoh_flow_stats] before the actions. *)
Definition ntoh_flow_stats_body (fs : ofp_flow_stats) : ofp_flow_stats := {|
  fs_length := ntohs (fs_length fs);
  fs_table_id := fs_table_id fs;
  fs_match := ntoh_match (fs_match fs);
  fs_duration_sec := ntohl (fs_duration_sec fs);
  fs_duration_nsec := ntohl (fs_duration_nsec fs);
  fs_priority := ntohs (fs_priority fs);
  fs_idle_timeout := ntohs (fs_idle_timeout fs);
  fs_hard_timeout := ntohs (fs_hard_timeout fs);
  fs_cookie := ntohll (fs_cookie fs);
  fs_packet_count := ntohll (fs_packet_count fs);
  fs_byte_count := ntohll (fs_byte_count fs)
|}.

(** The loop over the actions: [fs] is the copy of the source, [ah_src] and
    [ah_dst] the offsets of the two pointers.  A pass that gets past the
    source faults, so the loop makes at most [actions_length] passes unless an
    action has length 0. *)
Fixpoint ntoh_flow_stats_actions (fuel : nat) (actions_length : Z)
    (dst : bytes) (ah_dst : Z) (fs : bytes) (ah_src : Z) : res bytes :=
  match fuel with
  | O => Fault OutOfFuel
  | S fuel =>
    if sizeof_ofp_action_header <=? actions_length then
      let* dst := ntoh_action dst ah_dst fs ah_src in
      let* len := ld16 dst (ah_dst + 2) in
      ntoh_flow_stats_actions fuel (u16 (actions_length - len))
        dst (ah_dst + len) fs (ah_src + len)
    else Ok dst
  end.

Fixpoint hton_flow_stats_actions (fuel : nat) (actions_length : Z)
    (dst : bytes) (ah_dst : Z) (fs : bytes) (ah_src : Z) : res bytes :=
  match fuel with
  | O => Fault OutOfFuel
  | S fuel =>
    if sizeof_ofp_action_header <=? actions_length then
      let* dst := hton_action dst ah_dst fs ah_src in
      let* len := ld16 fs (ah_src + 2) in
      hton_flow_stats_actions fuel (u16 (actions_length - len))
        dst (ah_dst + len) fs (ah_src + len)
    else Ok dst
  end.

Definition ntoh_flow_stats (dst : bytes) (doff : Z) (src : bytes) (soff : Z) : res bytes :=
  let* length := ld_ntoh 2 src soff in
  let* fs := ld_range src soff length in
  let* x := ld_flow_stats fs 0 in
  let* dst := st_flow_stats dst doff (ntoh_flow_stats_body x) in
  let actions_length := u16 (ntohs (fs_length x) - offsetof_flow_stats_actions) in
  ntoh_flow_stats_actions (S (Z.to_nat actions_length)) actions_length
    dst (doff + offsetof_flow_stats_actions) fs offsetof_flow_stats_actions.

Definition hton_flow_stats (dst : bytes) (doff : Z) (src : bytes) (soff : Z) : res bytes :=
  let* length := ld16 src soff in
  let* fs := ld_range src soff length in
  let* x := ld_flow_stats fs 0 in
  let* dst := st_flow_stats dst doff (ntoh_flow_stats_body x) in
  let actions_length := u16 (fs_length x - offsetof_flow_stats_actions) in
  hton_flow_stats_actions (S (Z.to_nat actions_length)) actions_length
    dst (doff + offsetof_flow_stats_actions) fs offsetof_flow_stats_actions.

(** * Queue descriptions: a fixed part and a list of properties *)

Definition ntoh_queue_property (dst : bytes) (doff : Z) (src : bytes) (soff : Z) : res bytes :=
  let* property := ld_ntoh 2 src soff in
  let* _ := assert (property <=? OFPQT_MIN_RATE) in
  let* len := ld_ntoh 2 src (soff + 2) in
  let* _ := assert (negb (len =? 0)) in
  let* ph := ld_range src soff len in
  let* property := ld_ntoh 2 ph 0 in
  let* dst := st16 dst doff property in
  let* len := ld_ntoh 2 ph 2 in
  let* dst := st16 dst (doff + 2) len in
  if property =? OFPQT_MIN_RATE then
    let* rate := ld_ntoh 2 ph 8 in
    st16 dst (doff + 8) rate
  else Ok dst.

Definition hton_queue_property (dst : bytes) (doff : Z) (src : bytes) (soff : Z) : res bytes :=
  let* property := ld16 src soff in
  let* _ := assert (property <=? OFPQT_MIN_RATE) in
  let* len := ld16 src (soff + 2) in
  let* _ := assert (negb (len =? 0)) in
  let* ph := ld_range src soff len in
  let* ph_property := ld16 ph 0 in
  let* dst := st_hton 2 dst doff ph_property in
  let* ph_len := ld16 ph 2 in
  let* dst := st_hton 2 dst (doff + 2) ph_len in
  if property =? OFPQT_MIN_RATE then
    let* rate := ld16 ph 8 in
    st_hton 2 dst (doff + 8) rate
  else Ok dst.

(** The loops over the properties; a property has a length other than 0, so
    [properties_length] passes are enough. *)
Fixpoint ntoh_packet_queue_properties (fuel : nat) (properties_length : Z)
    (dst : bytes) (ph_dst : Z) (pq : bytes) (ph_src : Z) : res bytes :=
  match fuel with
  | O => Fault OutOfFuel
  | S fuel =>
    if sizeof_ofp_queue_prop_header <=? properties_length then
      let* dst := ntoh_queue_property dst ph_dst pq ph_src in
      let* len := ld16 dst (ph_dst + 2) in
      ntoh_packet_queue_properties fuel (u16 (properties_length - len))
        dst (ph_dst + len) pq (ph_src + len)
    else Ok dst
  end.

Fixpoint hton_packet_queue_properties (fuel : nat) (properties_length : Z)
    (dst : bytes) (ph_dst : Z) (pq : bytes) (ph_src : Z) : res bytes :=
  match fuel with
  | O => Fault OutOfFuel
  | S fuel =>
    if sizeof_ofp_queue_prop_header <=? properties_length then
      let* dst := hton_queue_property dst ph_dst pq ph_src in
      let* len := ld16 pq (ph_src + 2) in
      hton_packet_queue_properties fuel (u16 (properties_length - len))
        dst (ph_dst + len) pq (ph_src + len)
    else Ok dst
  end.

Definition ntoh_packet_queue (dst : bytes) (doff : Z) (src : bytes) (soff : Z) : res bytes :=
  let* len := ld_ntoh 2 src (soff + 4) in
  let* _ := assert (negb (len =? 0)) in
  let* pq := ld_range src soff len in
  let* queue_id := ld_ntoh 4 pq 0 in
  let* dst := st32 dst doff queue_id in
  let* len := ld_ntoh 2 pq 4 in
  let* dst := st16 dst (doff + 4) len in
  let* dst := st_bytes dst (doff + 6) (zeros 2) in
  let offset := offsetof_packet_queue_properties in
  let properties_length := u16 (len - offset) in
  ntoh_packet_queue_properties (S (Z.to_nat properties_length)) properties_length
    dst (doff + offset) pq offset.

(** [src->len] is read again after [dst] has been written; [dst] and [src] are
    different objects here. *)
Definition hton_packet_queue (dst : bytes) (doff : Z) (src : bytes) (soff : Z) : res bytes :=
  let* len := ld16 src (soff + 4) in
  let* _ := assert (negb (len =? 0)) in
  let* pq := ld_range src soff len in
  let* queue_id := ld32 pq 0 in
  let* dst := st_hton 4 dst doff queue_id in
  let* pq_len := ld16 pq 4 in
  let* dst := st_hton 2 dst (doff + 4) pq_len in
  let* dst := st_bytes dst (doff + 6) (zeros 2) in
  let offset := offsetof_packet_queue_properties in
  let properties_length := u16 (len - offset) in
  hton_packet_queue_properties (S (Z.to_nat properties_length)) properties_length
    dst (doff + offset) pq offset.
End ByteOrder.

Create HintDb wire.
#[export] Hint Unfold ntohs ntohl ntohll htons htonl htonll : wire.
#[export] Hint Unfold
  ld_match st_match wire_match ld_phy_port st_phy_port wire_phy_port ld_action_output
  st_action_output wire_action_output ld_action_vlan_vid st_action_vlan_vid
  wire_action_vlan_vid ld_action_vlan_pcp st_action_vlan_pcp wire_action_vlan_pcp
  ld_action_header st_action_header wire_action_header ld_action_dl_addr st_action_dl_addr
  wire_action_dl_addr ld_action_nw_addr st_action_nw_addr wire_action_nw_addr
  ld_action_nw_tos st_action_nw_tos wire_action_nw_tos ld_action_tp_port st_action_tp_port
  wire_action_tp_port ld_action_enqueue st_action_enqueue wire_action_enqueue
  ld_action_vendor_header st_action_vendor_header wire_action_vendor_header
  ld_aggregate_stats st_aggregate_stats wire_aggregate_stats ld_table_stats st_table_stats
  wire_table_stats ld_port_stats st_port_stats wire_port_stats ld_queue_stats
  st_queue_stats wire_queue_stats ntoh_match ntoh_phy_port ntoh_action_output
  ntoh_action_vlan_vid ntoh_action_vlan_pcp ntoh_action_strip_vlan ntoh_action_dl_addr
  ntoh_action_nw_addr ntoh_action_nw_tos ntoh_action_tp_port ntoh_action_enqueue
  ntoh_aggregate_stats ntoh_table_stats ntoh_port_stats ntoh_queue_stats
  ntoh_action_vendor_header ld_flow_stats st_flow_stats wire_flow_stats
  ntoh_flow_stats_body : wire.

(** * The interface of a fixed structure

    Every fixed structure converts the same way: [ws_st] after [ws_ntoh]
    writes its wire image, [ws_ld] of a wire image yields the swapped
    structure, and swapping twice gives the structure back ([ws_norm] clears
    the padding the converter clears).  Encoders and decoders of messages are
    proved against this interface. *)

Class WireStruct (A : Type) : Type := {
  ws_size : nat;
  ws_ld : bytes -> Z -> res A;
  ws_st : bytes -> Z -> A -> res bytes;
  ws_ntoh : A -> A;
  ws_wire : A -> bytes;
  ws_wf : A -> Prop;
  ws_norm : A -> A
}.

Class WireStructOk (A : Type) {ws : WireStruct A} : Prop := {
  ws_length x : ws_wf x -> length (ws_wire x) = ws_size;
  ws_ld_skip s r off : blen s <= off -> ws_ld (s ++ r) off = ws_ld r (off - blen s);
  ws_ld_wire x r off : off = 0 -> ws_wf x -> ws_ld (ws_wire x ++ r) off = Ok (ws_ntoh x);
  ws_ld_ok m off : 0 <= off -> off + Z.of_nat ws_size <= blen m -> is_ok (ws_ld m off);
  ws_st_zeros x P k off :
    off = blen P -> (ws_size <= k)%nat -> ws_wf x ->
    ws_st (P ++ zeros k) off (ws_ntoh x) = Ok ((P ++ ws_wire x) ++ zeros (k - ws_size));
  ws_ntoh_ntoh x : ws_wf x -> ws_ntoh (ws_ntoh x) = ws_norm x;
  ws_wf_ntoh x : ws_wf x -> ws_wf (ws_ntoh x);
  ws_ld_wf m off x : ws_ld m off = Ok x -> ws_wf x
}.

(** The laws by computation on the fields. *)
Ltac ws_open :=
  match goal with H : context [ws_wf _] |- _ => cbn in H; destruct H | |- _ => idtac end;
  repeat match goal with H : wf_match _ |- _ => destruct H end.

Ltac solve_ws_length := intros x Hx; ws_open; cbn; autounfold with wire; autorewrite with len; lia.

Ltac solve_ws_ld_skip :=
  intros s r off Hs; pose proof (blen_nonneg s); cbn; autounfold with wire;
  rewrite ?ld_skip, ?ld_bytes_skip by lia; rewrite ?Z.add_sub_swap; reflexivity.

Ltac solve_ws_ld_wire :=
  intros x r off -> Hx; ws_open; cbn; autounfold with wire; rewrite <- ?app_assoc; rd; reflexivity.

Ltac solve_ws_ld_ok :=
  intros m off H0 H1; cbn in *; autounfold with wire;
  repeat (first [rewrite ld_in by (cbn; lia) | rewrite ld_bytes_in by (cbn; lia)]; bind_ok);
  eexists; reflexivity.

Ltac solve_ws_st_zeros :=
  intros x P k off -> Hk Hx; ws_open; cbn in *; autounfold with wire; cbn; wr.

Ltac solve_ws_ntoh :=
  intros x Hx; ws_open; destruct x; cbn in *; autounfold with wire; cbn;
  unfold ntohs, ntohl, ntohll; rewrite ?ntoh_involutive by assumption; reflexivity.

Ltac solve_wf :=
  first [ assumption | apply ntoh_range; assumption | reflexivity | split; cbn; unfold ntohs, ntohl, ntohll; solve_wf ].
Ltac solve_ws_wf := intros x Hx; ws_open; cbn; unfold ntohs, ntohl, ntohll; solve_wf.

Ltac bind_open :=
  repeat match goal with
  | H : bind _ _ = Ok _ |- _ => apply bind_inv in H as (? & ? & H)
  | H : Ok _ = Ok _ |- _ => injection H as <-
  end.
Ltac solve_loaded :=
  first [ eapply ld_fits; eassumption | eapply ld_bytes_length; eassumption
        | split; cbn; solve_loaded ].
Ltac solve_ws_ld_wf :=
  intros m off x Hx; cbn in *; autounfold with wire in Hx; bind_open; solve_loaded.

Ltac solve_ws :=
  split; [ solve_ws_length | solve_ws_ld_skip | solve_ws_ld_wire | solve_ws_ld_ok
         | solve_ws_st_zeros | solve_ws_ntoh | solve_ws_wf | solve_ws_ld_wf ].

Section WireInstances.
Context {host : Host}.

#[export] Instance ws_match : WireStruct ofp_match := {|
  ws_size := 40; ws_ld := ld_match; ws_st := st_match; ws_ntoh := ntoh_match;
  ws_wire := wire_match; ws_wf := wf_match;
  ws_norm x := {|
    wildcards := wildcards x; in_port := in_port x; dl_src := dl_src x; dl_dst := dl_dst x;
    dl_vlan := dl_vlan x; dl_vlan_pcp := dl_vlan_pcp x; pad1 := zeros 1;
    dl_type := dl_type x; nw_tos := nw_tos x; nw_proto := nw_proto x; pad2 := zeros 2;
    nw_src := nw_src x; nw_dst := nw_dst x; tp_src := tp_src x; tp_dst := tp_dst x |}
|}.

#[export] Instance ws_phy_port : WireStruct ofp_phy_port := {|
  ws_size := 48; ws_ld := ld_phy_port; ws_st := st_phy_port;
  ws_ntoh := ntoh_phy_port; ws_wire := wire_phy_port;
  ws_wf := wf_phy_port; ws_norm x := x |}.

#[export] Instance ws_action_output : WireStruct ofp_action_output := {|
  ws_size := 8; ws_ld := ld_action_output; ws_st := st_action_output;
  ws_ntoh := ntoh_action_output; ws_wire := wire_action_output;
  ws_wf := wf_action_output; ws_norm x := x |}.

#[export] Instance ws_action_vlan_vid : WireStruct ofp_action_vlan_vid := {|
  ws_size := 8; ws_ld := ld_action_vlan_vid; ws_st := st_action_vlan_vid;
  ws_ntoh := ntoh_action_vlan_vid; ws_wire := wire_action_vlan_vid;
  ws_wf := wf_action_vlan_vid; ws_norm x := x |}.

#[export] Instance ws_action_vlan_pcp : WireStruct ofp_action_vlan_pcp := {|
  ws_size := 8; ws_ld := ld_action_vlan_pcp; ws_st := st_action_vlan_pcp;
  ws_ntoh := ntoh_action_vlan_pcp; ws_wire := wire_action_vlan_pcp;
  ws_wf := wf_action_vlan_pcp; ws_norm x := x |}.

#[export] Instance ws_action_header : WireStruct ofp_action_header := {|
  ws_size := 8; ws_ld := ld_action_header; ws_st := st_action_header;
  ws_ntoh := ntoh_action_strip_vlan; ws_wire := wire_action_header;
  ws_wf := wf_action_header; ws_norm x := x |}.

#[export] Instance ws_action_dl_addr : WireStruct ofp_action_dl_addr := {|
  ws_size := 16; ws_ld := ld_action_dl_addr; ws_st := st_action_dl_addr;
  ws_ntoh := ntoh_action_dl_addr; ws_wire := wire_action_dl_addr;
  ws_wf := wf_action_dl_addr; ws_norm x := x |}.

#[export] Instance ws_action_nw_addr : WireStruct ofp_action_nw_addr := {|
  ws_size := 8; ws_ld := ld_action_nw_addr; ws_st := st_action_nw_addr;
  ws_ntoh := ntoh_action_nw_addr; ws_wire := wire_action_nw_addr;
  ws_wf := wf_action_nw_addr; ws_norm x := x |}.

#[export] Instance ws_action_nw_tos : WireStruct ofp_action_nw_tos := {|
  ws_size := 8; ws_ld := ld_action_nw_tos; ws_st := st_action_nw_tos;
  ws_ntoh := ntoh_action_nw_tos; ws_wire := wire_action_nw_tos;
  ws_wf := wf_action_nw_tos; ws_norm x := x |}.

#[export] Instance ws_action_tp_port : WireStruct ofp_action_tp_port := {|
  ws_size := 8; ws_ld := ld_action_tp_port; ws_st := st_action_tp_port;
  ws_ntoh := ntoh_action_tp_port; ws_wire := wire_action_tp_port;
  ws_wf := wf_action_tp_port; ws_norm x := x |}.

#[export] Instance ws_action_enqueue : WireStruct ofp_action_enqueue := {|
  ws_size := 16; ws_ld := ld_action_enqueue; ws_st := st_action_enqueue;
  ws_ntoh := ntoh_action_enqueue; ws_wire := wire_action_enqueue;
  ws_wf := wf_action_enqueue; ws_norm x := x |}.

(** The header of a vendor action; its body follows. *)
#[export] Instance ws_action_vendor_header : WireStruct ofp_action_vendor_header := {|
  ws_size := 8; ws_ld := ld_action_vendor_header; ws_st := st_action_vendor_header;
  ws_ntoh := ntoh_action_vendor_header; ws_wire := wire_action_vendor_header;
  ws_wf := wf_action_vendor_header; ws_norm x := x |}.

#[export] Instance ws_flow_stats : WireStruct ofp_flow_stats := {|
  ws_size := 88; ws_ld := ld_flow_stats; ws_st := st_flow_stats;
  ws_ntoh := ntoh_flow_stats_body; ws_wire := wire_flow_stats;
  ws_wf := wf_flow_stats;
  ws_norm x := {|
    fs_length := fs_length x; fs_table_id := fs_table_id x; fs_match := ws_norm (fs_match x);
    fs_duration_sec := fs_duration_sec x; fs_duration_nsec := fs_duration_nsec x;
    fs_priority := fs_priority x; fs_idle_timeout := fs_idle_timeout x;
    fs_hard_timeout := fs_hard_timeout x; fs_cookie := fs_cookie x;
    fs_packet_count := fs_packet_count x; fs_byte_count := fs_byte_count x |} |}.

#[export] Instance ws_aggregate_stats : WireStruct ofp_aggregate_stats_reply := {|
  ws_size := 24; ws_ld := ld_aggregate_stats; ws_st := st_aggregate_stats;
  ws_ntoh := ntoh_aggregate_stats; ws_wire := wire_aggregate_stats;
  ws_wf := wf_aggregate_stats; ws_norm x := x |}.

#[export] Instance ws_table_stats : WireStruct ofp_table_stats := {|
  ws_size := 64; ws_ld := ld_table_stats; ws_st := st_table_stats;
  ws_ntoh := ntoh_table_stats; ws_wire := wire_table_stats;
  ws_wf := wf_table_stats; ws_norm x := x |}.

#[export] Instance ws_port_stats : WireStruct ofp_port_stats := {|
  ws_size := 104; ws_ld := ld_port_stats; ws_st := st_port_stats;
  ws_ntoh := ntoh_port_stats; ws_wire := wire_port_stats;
  ws_wf := wf_port_stats; ws_norm x := x |}.

#[export] Instance ws_queue_stats : WireStruct ofp_queue_stats := {|
  ws_size := 32; ws_ld := ld_queue_stats; ws_st := st_queue_stats;
  ws_ntoh := ntoh_queue_stats; ws_wire := wire_queue_stats;
  ws_wf := wf_queue_stats; ws_norm x := x |}.

#[export] Instance ws_match_ok : WireStructOk ofp_match.
Proof. solve_ws. Qed.

#[export] Instance ws_phy_port_ok : WireStructOk ofp_phy_port.
Proof. solve_ws. Qed.

#[export] Instance ws_action_output_ok : WireStructOk ofp_action_output.
Proof. solve_ws. Qed.

#[export] Instance ws_action_vlan_vid_ok : WireStructOk ofp_action_vlan_vid.
Proof. solve_ws. Qed.

#[export] Instance ws_action_vlan_pcp_ok : WireStructOk ofp_action_vlan_pcp.
Proof. solve_ws. Qed.

#[export] Instance ws_action_header_ok : WireStructOk ofp_action_header.
Proof. solve_ws. Qed.

#[export] Instance ws_action_dl_addr_ok : WireStructOk ofp_action_dl_addr.
Proof. solve_ws. Qed.

#[export] Instance ws_action_nw_addr_ok : WireStructOk ofp_action_nw_addr.
Proof. solve_ws. Qed.

#[export] Instance ws_action_nw_tos_ok : WireStructOk ofp_action_nw_tos.
Proof. solve_ws. Qed.

#[export] Instance ws_action_tp_port_ok : WireStructOk ofp_action_tp_port.
Proof. solve_ws. Qed.

#[export] Instance ws_action_enqueue_ok : WireStructOk ofp_action_enqueue.
Proof. solve_ws. Qed.

#[export] Instance ws_action_vendor_header_ok : WireStructOk ofp_action_vendor_header.
Proof. solve_ws. Qed.

#[export] Instance ws_flow_stats_ok : WireStructOk ofp_flow_stats.
Proof. solve_ws. Qed.

#[export] Instance ws_aggregate_stats_ok : WireStructOk ofp_aggregate_stats_reply.
Proof. solve_ws. Qed.

#[export] Instance ws_table_stats_ok : WireStructOk ofp_table_stats.
Proof. solve_ws. Qed.

#[export] Instance ws_port_stats_ok : WireStructOk ofp_port_stats.
Proof. solve_ws. Qed.

#[export] Instance ws_queue_stats_ok : WireStructOk ofp_queue_stats.
Proof. solve_ws. Qed.
End WireInstances.

(** * Host images

    [ws_host x] is the image of [x] in memory, in the byte order of the
    host. *)

Definition ws_host {A} `{WireStruct A} (x : A) : bytes := ws_wire (ws_ntoh x).

Section HostImages.
Context {host : Host} {A : Type} `{WireStructOk A}.
Implicit Types x : A.

Lemma ws_host_length x : ws_wf x -> length (ws_host x) = ws_size.
Proof. intros Hx. by apply ws_length, ws_wf_ntoh. Qed.

(** Loading and storing a structure without conversion. *)
Lemma ws_ld_host x r : ws_wf x -> ws_ld (ws_host x ++ r) 0 = Ok (ws_norm x).
Proof.
  intros Hx. unfold ws_host. rewrite ws_ld_wire by (done || by apply ws_wf_ntoh).
  by rewrite ws_ntoh_ntoh.
Qed.

Lemma ws_st_host x P k off :
  off = blen P -> (ws_size <= k)%nat -> ws_wf x -> ws_norm x = x ->
  ws_st (P ++ zeros k) off x = Ok ((P ++ ws_host x) ++ zeros (k - ws_size)).
Proof.
  intros Ho Hk Hx Hn. rewrite <- Hn at 1. rewrite <- (ws_ntoh_ntoh x) by done.
  apply ws_st_zeros; [done | done | by apply ws_wf_ntoh].
Qed.

Lemma ws_st_fresh x k :
  k = ws_size -> ws_wf x -> ws_norm x = x -> ws_st (zeros k) 0 x = Ok (ws_host x).
Proof.
  intros -> Hx Hn. pose proof (ws_st_host x [] ws_size 0) as E.
  rewrite Nat.sub_diag, app_nil_r in E. by apply E.
Qed.

Lemma ws_ld_at x P r off :
  off = blen P -> ws_wf x -> ws_ld (P ++ ws_wire x ++ r) off = Ok (ws_ntoh x).
Proof.
  intros -> Hx. pose proof (blen_nonneg P).
  rewrite ws_ld_skip by lia. apply ws_ld_wire; [lia | done].
Qed.

(** Loading, converting and storing a structure turns one image into the
    other. *)
Lemma ws_convert_host x P k Q r doff off :
  ws_wf x -> ws_norm x = x -> (ws_size <= k)%nat -> doff = blen P -> off = blen Q ->
  (let* a := ws_ld (Q ++ ws_host x ++ r) off in ws_st (P ++ zeros k) doff (ws_ntoh a))
  = Ok ((P ++ ws_wire x) ++ zeros (k - ws_size)).
Proof.
  intros Hx Hn Hk -> ->. unfold ws_host. rewrite ws_ld_at by (done || by apply ws_wf_ntoh).
  cbn [bind]. rewrite (ws_ntoh_ntoh x), Hn by done. by apply ws_st_zeros.
Qed.

Lemma ws_convert_wire x P k Q r doff off :
  ws_wf x -> ws_norm x = x -> (ws_size <= k)%nat -> doff = blen P -> off = blen Q ->
  (let* a := ws_ld (Q ++ ws_wire x ++ r) off in ws_st (P ++ zeros k) doff (ws_ntoh a))
  = Ok ((P ++ ws_host x) ++ zeros (k - ws_size)).
Proof.
  intros Hx Hn Hk -> ->. rewrite ws_ld_at by done. cbn [bind].
  by apply ws_st_zeros; [| | apply ws_wf_ntoh].
Qed.
End HostImages.

(** Write the operations of structure [A] as those of its instance. *)
Ltac fold_ws A :=
  let ws := constr:(_ : WireStruct A) in
  let ld := eval cbn in (@ws_ld A ws) in
  let st := eval cbn in (@ws_st A ws) in
  let nt := eval cbn in (@ws_ntoh A ws) in
  let wr := eval cbn in (@ws_wire A ws) in
  change ld with (@ws_ld A ws); change st with (@ws_st A ws);
  change nt with (@ws_ntoh A ws); change wr with (@ws_wire A ws).
