(* ===== verification/LinkedList.v ===== *)
(** linked_list.c: singly linked lists, on an explicit heap of nodes.

    A node is a [list_element]; a pointer is an optional address, [None] is
    NULL.  The functions take the heap and, where the code takes
    [list_element **], the head pointer, and return both.  [data] pointers are
    values of any type with decidable equality ([==] in the code).

    The theorems state that every operation refines the operation on Coq
    lists named in its statement, touches nothing but the nodes of the list,
    and leaks no node: [rep h p l hf] says that [h] is the nodes of [l], headed
    by [p], and the rest of the heap [hf]. *)

From Stdlib Require Import ZArith Lia Bool.
From stdpp Require Import base list gmap fin_maps.
From S2P Require Import Prelude.

Section LinkedList.
Context {A : Type} `{EqDecision A}.

Abbreviation addr := positive.
Abbreviation ptr := (option addr).

Record list_element : Type := ListElement {
  next : ptr;
  data : A
}.

Abbreviation heap := (gmap addr list_element).

Definition deref (h : heap) (p : ptr) : res list_element :=
  match p with
  | None => Fault NullPointer
  | Some a => match h !! a with Some e => Ok e | None => Fault OutOfBounds end
  end.

(** [p->next = next] *)
Definition set_next (h : heap) (p : ptr) (nx : ptr) : res heap :=
  let* e := deref h p in
  match p with
  | Some a => Ok (<[a := ListElement nx (data e)]> h)
  | None => Fault NullPointer
  end.

(** [xmalloc] of a node, and its initialisation. *)
Definition new_element (h : heap) (nx : ptr) (x : A) : addr * heap :=
  let a := fresh (dom h) in (a, <[a := ListElement nx x]> h).

Definition xfree (h : heap) (p : ptr) : heap :=
  match p with Some a => delete a h | None => h end.

(** Loops follow [next]; in a heap of n nodes a list has at most n. *)
Definition fuel_of (h : heap) : nat := S (size h).

(** * Operations *)

Definition create_list (h : heap) : bool * ptr * heap := (true, None, h).

Definition insert_in_front (h : heap) (head : ptr) (x : A) : bool * ptr * heap :=
  let '(new_head, h) := new_element h head x in (true, Some new_head, h).

Fixpoint insert_before_loop (fuel : nat) (h : heap) (e : ptr) (sibling x : A)
    : res (bool * heap) :=
  match fuel with
  | O => Fault OutOfFuel
  | S fuel =>
    let* el := deref h e in
    match next el with
    | None => Ok (false, h)
    | Some _ =>
      let* nx := deref h (next el) in
      if decide (data nx = sibling) then
        let '(a, h) := new_element h (next el) x in
        let* h := set_next h e (Some a) in
        Ok (true, h)
      else insert_before_loop fuel h (next el) sibling x
    end
  end.

Definition insert_before (h : heap) (head : ptr) (sibling x : A) : res (bool * ptr * heap) :=
  let* (b, h) := insert_before_loop (fuel_of h) h head sibling x in
  Ok (b, head, h).

Fixpoint find_tail (fuel : nat) (h : heap) (e : ptr) : res ptr :=
  match fuel with
  | O => Fault OutOfFuel
  | S fuel =>
    let* el := deref h e in
    match next el with
    | None => Ok e
    | Some _ => find_tail fuel h (next el)
    end
  end.

Definition append_to_tail (h : heap) (head : ptr) (x : A) : res (bool * ptr * heap) :=
  let '(new_tail, h) := new_element h None x in
  match head with
  | None => Ok (true, Some new_tail, h)
  | Some _ =>
    let* e := find_tail (fuel_of h) h head in
    let* h := set_next h e (Some new_tail) in
    Ok (true, head, h)
  end.

Fixpoint list_length_of_loop (fuel : nat) (h : heap) (e : ptr) (length : Z) : res Z :=
  match fuel with
  | O => Fault OutOfFuel
  | S fuel =>
    match e with
    | None => Ok length
    | Some _ =>
      let* el := deref h e in
      list_length_of_loop fuel h (next el) (u32 (length + 1))
    end
  end.

Definition list_length_of (h : heap) (head : ptr) : res Z :=
  match head with
  | None => Ok 0
  | Some _ =>
    let* el := deref h head in
    list_length_of_loop (fuel_of h) h (next el) 1
  end.

(** [function] updates the state that [user_data] points to. *)
Fixpoint iterate_list_loop {S : Type} (fuel : nat) (h : heap) (e : ptr)
    (function : A -> S -> S) (user_data : S) : res S :=
  match fuel with
  | O => Fault OutOfFuel
  | Datatypes.S fuel =>
    match e with
    | None => Ok user_data
    | Some _ =>
      let* el := deref h e in
      iterate_list_loop fuel h (next el) function (function (data el) user_data)
    end
  end.

Definition iterate_list {S : Type} (h : heap) (head : ptr) (function : option (A -> S -> S))
    (user_data : S) : res S :=
  match function with
  | None => Ok user_data
  | Some function => iterate_list_loop (fuel_of h) h head function user_data
  end.

Fixpoint find_list_custom_loop (fuel : nat) (h : heap) (e : ptr) (function : A -> bool)
    : res (option A) :=
  match fuel with
  | O => Fault OutOfFuel
  | S fuel =>
    match e with
    | None => Ok None
    | Some _ =>
      let* el := deref h e in
      if function (data el) then Ok (Some (data el))
      else find_list_custom_loop fuel h (next el) function
    end
  end.

Definition find_list_custom (h : heap) (head : ptr) (function : option (A -> bool))
    : res (option A) :=
  match head, function with
  | None, _ => Fault Died
  | _, None => Fault Died
  | Some _, Some function => find_list_custom_loop (fuel_of h) h head function
  end.

Fixpoint delete_element_loop (fuel : nat) (h : heap) (e : ptr) (x : A) : res (bool * heap) :=
  match fuel with
  | O => Fault OutOfFuel
  | S fuel =>
    let* el := deref h e in
    match next el with
    | None => Ok (false, h)
    | Some _ =>
      let* nx := deref h (next el) in
      if decide (data nx = x) then
        let* h := set_next h e (next nx) in
        Ok (true, xfree h (next el))
      else delete_element_loop fuel h (next el) x
    end
  end.

Definition delete_element (h : heap) (head : ptr) (x : A) : res (bool * ptr * heap) :=
  let* e := deref h head in
  if decide (data e = x) then Ok (true, next e, xfree h head)
  else
    let* (b, h) := delete_element_loop (fuel_of h) h head x in
    Ok (b, head, h).

Fixpoint delete_list_loop (fuel : nat) (h : heap) (e : ptr) : res heap :=
  match fuel with
  | O => Fault OutOfFuel
  | S fuel =>
    match e with
    | None => Ok h
    | Some _ =>
      let* el := deref h e in
      delete_list_loop fuel (xfree h e) (next el)
    end
  end.

Definition delete_list (h : heap) (head : ptr) : res (bool * heap) :=
  let* h := delete_list_loop (fuel_of h) h head in
  Ok (true, h).

(** * Representation *)

(** The pointer to the first of the nodes [ns], [q] if there is none. *)
Definition head_ptr (ns : list (addr * A)) (q : ptr) : ptr :=
  match ns with [] => q | (a, _) :: _ => Some a end.

(** The nodes [ns] linked one to the next, the last to [q]. *)
Fixpoint cells (ns : list (addr * A)) (q : ptr) : heap :=
  match ns with
  | [] => ∅
  | (a, x) :: ns => <[a := ListElement (head_ptr ns q) x]> (cells ns q)
  end.

(** [h] is the list of nodes [ns] and the rest [hf]. *)
Record nodes (h : heap) (ns : list (addr * A)) (hf : heap) : Prop := {
  nodes_nodup : NoDup ns.*1;
  nodes_frame : forall a, a ∈ ns.*1 -> hf !! a = None;
  nodes_heap : h = cells ns None ∪ hf
}.

Definition rep (h : heap) (p : ptr) (l : list A) (hf : heap) : Prop :=
  exists ns, nodes h ns hf /\ p = head_ptr ns None /\ ns.*2 = l.

(** ** What the operations do to the list *)

Fixpoint insert_before_in (sibling x : A) (l : list A) : list A :=
  match l with
  | [] => []
  | y :: l => if decide (y = sibling) then x :: y :: l else y :: insert_before_in sibling x l
  end.

Fixpoint remove_first (x : A) (l : list A) : list A :=
  match l with
  | [] => []
  | y :: l => if decide (y = x) then l else y :: remove_first x l
  end.

(** ** Lemmas on cells *)

Lemma dom_cells ns q : dom (cells ns q) = list_to_set ns.*1.
Proof.
  induction ns as [| [a x] ns IH]; [apply dom_empty_L |].
  cbn. by rewrite dom_insert_L, IH.
Qed.

Lemma cells_None ns q a : a ∉ ns.*1 -> cells ns q !! a = None.
Proof. intros H. apply not_elem_of_dom. rewrite dom_cells. set_solver. Qed.

Lemma size_cells ns q : NoDup ns.*1 -> size (cells ns q) = length ns.
Proof.
  intros H. rewrite <- size_dom, dom_cells, size_list_to_set by done. apply length_fmap.
Qed.

Lemma cells_middle pre a x suf q :
  a ∉ pre.*1 ->
  cells (pre ++ (a, x) :: suf) q
  = <[a := ListElement (head_ptr suf q) x]> (cells pre (Some a) ∪ cells suf q).
Proof.
  induction pre as [| [b y] pre IH]; intros Ha; cbn [cells app].
  - by rewrite (left_id_L ∅ (∪)).
  - cbn in Ha. rewrite IH by set_solver. rewrite <- insert_union_l.
    rewrite insert_insert_ne by set_solver. do 3 f_equal. by destruct pre as [| [] ?].
Qed.

Lemma nodes_size h ns hf : nodes h ns hf -> (length ns <= size h)%nat.
Proof.
  intros [Hnd Hf ->]. rewrite <- (size_cells ns None) by done.
  rewrite <- !size_dom. apply subseteq_size. rewrite dom_union_L. set_solver.
Qed.

Lemma nodes_lookup h pre a x suf hf :
  nodes h (pre ++ (a, x) :: suf) hf -> h !! a = Some (ListElement (head_ptr suf None) x).
Proof.
  intros [Hnd Hf ->]. rewrite fmap_app in Hnd. apply NoDup_app in Hnd as (_ & Hd & Hnd).
  rewrite lookup_union_l'; rewrite cells_middle by (cbn in Hd; set_solver).
  - by rewrite lookup_insert_eq.
  - rewrite lookup_insert_eq. eauto.
Qed.

Lemma nodes_deref h pre a x suf hf :
  nodes h (pre ++ (a, x) :: suf) hf -> deref h (Some a) = Ok (ListElement (head_ptr suf None) x).
Proof. intros H. cbn. by rewrite (nodes_lookup _ _ _ _ _ _ H). Qed.
Lemma nodes_fresh h ns hf b :
  nodes h ns hf -> h !! b = None -> b ∉ ns.*1 /\ hf !! b = None.
Proof.
  intros [_ _ ->] [H1 H2]%lookup_union_None. split; [| done].
  apply not_elem_of_dom in H1. rewrite dom_cells in H1. set_solver.
Qed.

Lemma nodes_cons h ns hf b y :
  nodes h ns hf -> h !! b = None ->
  nodes (<[b := ListElement (head_ptr ns None) y]> h) ((b, y) :: ns) hf.
Proof.
  intros H Hb. destruct (nodes_fresh _ _ _ _ H Hb). destruct H as [Hnd Hf ->]. split; cbn.
  - by constructor.
  - set_solver.
  - by rewrite insert_union_l.
Qed.

Lemma nodes_insert h pre a x suf hf b y :
  nodes h (pre ++ (a, x) :: suf) hf -> h !! b = None ->
  nodes (<[a := ListElement (Some b) x]> (<[b := ListElement (head_ptr suf None) y]> h))
    (pre ++ (a, x) :: (b, y) :: suf) hf.
Proof.
  intros H Hb. destruct (nodes_fresh _ _ _ _ H Hb) as [Hbn Hbf].
  destruct H as [Hnd Hf ->]. rewrite fmap_app in *. cbn in *.
  apply NoDup_app in Hnd as (Hp & Hd & [Ha Hs]%NoDup_cons). split.
  - rewrite fmap_app. cbn. apply NoDup_app. split_and!; [done | set_solver |].
    rewrite !NoDup_cons. set_solver.
  - rewrite fmap_app. cbn. set_solver.
  - rewrite !cells_middle by set_solver. cbn [cells head_ptr].
    rewrite <- insert_union_r by (apply cells_None; set_solver).
    rewrite <- !insert_union_l, (insert_insert_ne _ b a) by set_solver.
    by rewrite insert_insert_eq.
Qed.

Lemma nodes_remove_head h b y suf hf :
  nodes h ((b, y) :: suf) hf -> nodes (delete b h) suf hf.
Proof.
  intros [Hnd Hf ->]. cbn in *. apply NoDup_cons in Hnd as [Hb Hnd]. split; [done | set_solver |].
  rewrite <- insert_union_l, delete_insert_id; [done |].
  apply lookup_union_None. split; [by apply cells_None | set_solver].
Qed.

Lemma nodes_remove_next h pre a x b y suf hf :
  nodes h (pre ++ (a, x) :: (b, y) :: suf) hf ->
  nodes (delete b (<[a := ListElement (head_ptr suf None) x]> h)) (pre ++ (a, x) :: suf) hf.
Proof.
  intros [Hnd Hf ->]. rewrite fmap_app in *. cbn in *.
  apply NoDup_app in Hnd as (Hp & Hd & [Ha [Hb Hs]%NoDup_cons]%NoDup_cons). split.
  - rewrite fmap_app. cbn. apply NoDup_app. split_and!; [done | set_solver |].
    rewrite !NoDup_cons. set_solver.
  - rewrite fmap_app. cbn. set_solver.
  - rewrite !cells_middle by set_solver. cbn [cells head_ptr].
    rewrite <- insert_union_r by (apply cells_None; set_solver).
    rewrite <- !insert_union_l, insert_insert_eq.
    rewrite (insert_insert_ne _ a b), delete_insert_id; [done | | set_solver].
    rewrite lookup_insert_ne by set_solver.
    rewrite !lookup_union_None. repeat split; [apply cells_None .. |]; set_solver.
Qed.
Lemma nodes_alloc h ns hf b c :
  nodes h ns hf -> h !! b = None -> nodes (<[b := c]> h) ns (<[b := c]> hf).
Proof.
  intros H Hb. destruct (nodes_fresh _ _ _ _ H Hb). destruct H as [Hnd Hf ->]. split; [done | |].
  - intros a Ha. rewrite lookup_insert_ne by (intros ->; done). by apply Hf.
  - by rewrite insert_union_r by by apply cells_None.
Qed.

(** ** Loops *)

Lemma set_next_insert h pre a x suf hf b y :
  nodes h (pre ++ (a, x) :: suf) hf -> h !! b = None ->
  exists h', set_next (<[b := ListElement (head_ptr suf None) y]> h) (Some a) (Some b) = Ok h'
    /\ nodes h' (pre ++ (a, x) :: (b, y) :: suf) hf.
Proof.
  intros H Hb. pose proof (nodes_lookup _ _ _ _ _ _ H) as Ha.
  unfold set_next, deref. rewrite lookup_insert_ne, Ha by congruence. cbn [bind data].
  eexists. split; [done |]. by apply nodes_insert.
Qed.

Lemma insert_before_loop_ok fuel h pre a z suf hf s x :
  nodes h (pre ++ (a, z) :: suf) hf -> (length suf < fuel)%nat ->
  exists h' suf', insert_before_loop fuel h (Some a) s x = Ok (bool_decide (s ∈ suf.*2), h')
    /\ nodes h' (pre ++ (a, z) :: suf') hf /\ suf'.*2 = insert_before_in s x suf.*2.
Proof.
  revert pre a z suf. induction fuel as [| fuel IH]; intros pre a z suf H Hf; [lia |].
  cbn [insert_before_loop]. rewrite (nodes_deref _ _ _ _ _ _ H). cbn [bind next].
  destruct suf as [| [b y] suf]; cbn [head_ptr].
  - rewrite bool_decide_eq_false_2 by (cbn; set_solver). eauto.
  - assert (H' : nodes h ((pre ++ [(a, z)]) ++ (b, y) :: suf) hf) by (by rewrite <- app_assoc).
    rewrite (nodes_deref _ _ _ _ _ _ H'). cbn [bind next data fmap list_fmap snd insert_before_in].
    destruct (decide (y = s)) as [-> |].
    + rewrite bool_decide_eq_true_2 by set_solver. unfold new_element.
      destruct (set_next_insert h pre a z ((b, s) :: suf) hf (fresh (dom h)) x H)
        as (h' & Heq & Hn); [apply not_elem_of_dom, is_fresh |].
      cbn [head_ptr] in Heq. rewrite Heq. cbn [bind]. eauto.
    + cbn in Hf. destruct (IH _ _ _ _ H' ltac:(lia)) as (h' & suf' & -> & Hn & Hs).
      rewrite <- app_assoc in Hn. exists h', ((b, y) :: suf'). cbn. rewrite Hs.
      split_and!; [| done | done]. f_equal. f_equal. apply bool_decide_ext. set_solver.
Qed.

Lemma find_tail_ok fuel h pre a x suf hf :
  nodes h (pre ++ (a, x) :: suf) hf -> (length suf < fuel)%nat ->
  exists pre' b y, find_tail fuel h (Some a) = Ok (Some b)
    /\ pre ++ (a, x) :: suf = pre' ++ [(b, y)].
Proof.
  revert pre a x suf. induction fuel as [| fuel IH]; intros pre a x suf H Hf; [lia |].
  cbn [find_tail]. rewrite (nodes_deref _ _ _ _ _ _ H). cbn [bind next].
  destruct suf as [| [b y] suf]; cbn [head_ptr]; [eauto |].
  destruct (IH (pre ++ [(a, x)]) b y suf) as (pre' & c & w & -> & Hs).
  - by rewrite <- app_assoc.
  - cbn in Hf. lia.
  - exists pre', c, w. by rewrite <- Hs, <- app_assoc.
Qed.

Lemma list_length_of_loop_ok fuel h pre suf hf n :
  nodes h (pre ++ suf) hf -> (length suf < fuel)%nat -> 0 <= n < 2 ^ 32 ->
  list_length_of_loop fuel h (head_ptr suf None) n = Ok (u32 (n + Z.of_nat (length suf))).
Proof.
  revert pre suf n. induction fuel as [| fuel IH]; intros pre suf n H Hf Hn; [lia |].
  cbn [list_length_of_loop]. destruct suf as [| [a x] suf]; cbn [head_ptr].
  - cbn. rewrite Z.add_0_r. unfold u32. by rewrite Z.mod_small.
  - rewrite (nodes_deref _ _ _ _ _ _ H). cbn [bind next].
    rewrite (IH (pre ++ [(a, x)])).
    + f_equal. unfold u32. rewrite Zplus_mod_idemp_l. f_equal. cbn. lia.
    + by rewrite <- app_assoc.
    + cbn in Hf. lia.
    + unfold u32. by apply Z.mod_pos_bound.
Qed.

Lemma iterate_list_loop_ok {S} fuel h pre suf hf (f : A -> S -> S) s :
  nodes h (pre ++ suf) hf -> (length suf < fuel)%nat ->
  iterate_list_loop fuel h (head_ptr suf None) f s = Ok (foldl (fun s x => f x s) s suf.*2).
Proof.
  revert pre suf s. induction fuel as [| fuel IH]; intros pre suf s H Hf; [lia |].
  cbn [iterate_list_loop]. destruct suf as [| [a x] suf]; cbn [head_ptr]; [done |].
  rewrite (nodes_deref _ _ _ _ _ _ H). cbn [bind next data].
  rewrite (IH (pre ++ [(a, x)])); [done | by rewrite <- app_assoc | cbn in Hf; lia].
Qed.

Lemma find_list_custom_loop_ok fuel h pre suf hf (f : A -> bool) :
  nodes h (pre ++ suf) hf -> (length suf < fuel)%nat ->
  find_list_custom_loop fuel h (head_ptr suf None) f = Ok (List.find f suf.*2).
Proof.
  revert pre suf. induction fuel as [| fuel IH]; intros pre suf H Hf; [lia |].
  cbn [find_list_custom_loop]. destruct suf as [| [a x] suf]; cbn [head_ptr]; [done |].
  rewrite (nodes_deref _ _ _ _ _ _ H). cbn [bind next data fmap list_fmap snd List.find].
  destruct (f x); [done |].
  apply (IH (pre ++ [(a, x)])); [by rewrite <- app_assoc | cbn in Hf; lia].
Qed.

Lemma delete_element_loop_ok fuel h pre a z suf hf x :
  nodes h (pre ++ (a, z) :: suf) hf -> (length suf < fuel)%nat ->
  exists h' suf', delete_element_loop fuel h (Some a) x = Ok (bool_decide (x ∈ suf.*2), h')
    /\ nodes h' (pre ++ (a, z) :: suf') hf /\ suf'.*2 = remove_first x suf.*2.
Proof.
  revert pre a z suf. induction fuel as [| fuel IH]; intros pre a z suf H Hf; [lia |].
  cbn [delete_element_loop]. rewrite (nodes_deref _ _ _ _ _ _ H). cbn [bind next].
  destruct suf as [| [b y] suf]; cbn [head_ptr].
  - rewrite bool_decide_eq_false_2 by (cbn; set_solver). eauto.
  - assert (H' : nodes h ((pre ++ [(a, z)]) ++ (b, y) :: suf) hf) by (by rewrite <- app_assoc).
    rewrite (nodes_deref _ _ _ _ _ _ H'). cbn [bind next data fmap list_fmap snd remove_first].
    destruct (decide (y = x)) as [-> |].
    + rewrite bool_decide_eq_true_2 by set_solver. unfold set_next.
      rewrite (nodes_deref _ _ _ _ _ _ H). cbn [bind data xfree].
      eexists _, suf. split_and!; [done | | done]. by eapply nodes_remove_next.
    + cbn in Hf. destruct (IH _ _ _ _ H' ltac:(lia)) as (h' & suf' & -> & Hn & Hs).
      rewrite <- app_assoc in Hn. exists h', ((b, y) :: suf'). cbn. rewrite Hs.
      split_and!; [| done | done]. f_equal. f_equal. apply bool_decide_ext. set_solver.
Qed.

Lemma delete_list_loop_ok fuel h ns hf :
  nodes h ns hf -> (length ns < fuel)%nat ->
  delete_list_loop fuel h (head_ptr ns None) = Ok hf.
Proof.
  revert h ns. induction fuel as [| fuel IH]; intros h ns H Hf; [lia |].
  cbn [delete_list_loop]. destruct ns as [| [a x] ns]; cbn [head_ptr].
  - destruct H as [_ _ ->]. cbn [cells]. by rewrite (left_id_L ∅ (∪)).
  - rewrite (nodes_deref _ [] _ _ _ _ H). cbn [bind next].
    apply IH; [by eapply nodes_remove_head | cbn in Hf; lia].
Qed.
Lemma rep_nil hf : rep hf None [] hf.
Proof.
  exists []. split_and!; [split; cbn | done | done].
  - constructor.
  - set_solver.
  - by rewrite (left_id_L ∅ (∪)).
Qed.

Lemma rep_fuel h ns hf : nodes h ns hf -> (length ns < fuel_of h)%nat.
Proof. intros H%nodes_size. unfold fuel_of. lia. Qed.
End LinkedList.

(** * Refinement of the list operations *)

Section Refinement.
Context {A : Type} `{EqDecision A}.
Implicit Types (h hf : gmap positive (@list_element A)) (p : option positive) (l : list A).

(** [insert_in_front] and [append_to_tail] succeed on every list; the list
    they leave is the old one with the new datum at its head, or at its end,
    and no other node of the heap changes. *)
Lemma insert_append_refine h p l hf x :
  rep h p l hf ->
  (exists p' h', insert_in_front h p x = (true, p', h') /\ rep h' p' (x :: l) hf) /\
  (exists p' h', append_to_tail h p x = Ok (true, p', h') /\ rep h' p' (l ++ [x]) hf).
Proof.
  intros (ns & H & -> & <-).
  assert (Hfresh : h !! fresh (dom h) = None) by apply not_elem_of_dom, is_fresh.
  split; unfold insert_in_front, append_to_tail, new_element.
  - do 2 eexists. split; [done |]. eexists. split; [by apply nodes_cons | done].
  - destruct ns as [| [a y] ns]; cbn [head_ptr].
    + do 2 eexists. split; [done |]. exists [(fresh (dom h), x)].
      split; [by apply (nodes_cons _ _ _ _ _ H) | done].
    + pose proof (nodes_alloc _ _ _ _ (ListElement None x) H Hfresh) as Ha.
      pose proof (rep_fuel _ _ _ Ha) as Hl. cbn [length] in Hl.
      destruct (find_tail_ok _ _ [] a y ns _ Ha (Nat.lt_succ_l _ _ Hl)) as (pre & b & z & -> & Hs).
      cbn [app] in Hs. rewrite Hs in H. cbn [bind].
      destruct (set_next_insert h pre b z [] hf _ x H Hfresh) as (h' & Heq & Hn).
      cbn [head_ptr] in Heq. rewrite Heq. cbn [bind]. do 2 eexists. split; [done |].
      eexists. split; [exact Hn |]. rewrite Hs, !fmap_app. split; [| by rewrite <- app_assoc].
      by destruct pre as [| []]; simplify_eq/=.
Qed.

(** [delete_element] on a list with an element removes the first element
    that holds the datum, frees its node, and tells whether there was one. *)
Lemma delete_element_refines h p l hf x :
  rep h p l hf -> l <> [] ->
  exists p' h', delete_element h p x = Ok (bool_decide (x ∈ l), p', h')
    /\ rep h' p' (remove_first x l) hf.
Proof.
  intros (ns & H & -> & <-) Hl. destruct ns as [| [a z] ns]; [done |].
  unfold delete_element. cbn [head_ptr]. rewrite (nodes_deref _ [] _ _ _ _ H).
  cbn [bind data next fmap list_fmap snd remove_first]. destruct (decide (z = x)) as [-> |].
  - rewrite bool_decide_eq_true_2 by set_solver. do 2 eexists. split; [done |].
    exists ns. split; [by eapply nodes_remove_head | done].
  - pose proof (rep_fuel _ _ _ H) as Hf.
    destruct (delete_element_loop_ok (fuel_of h) h [] a z ns hf x H) as (h' & suf' & -> & Hn & Hs).
    { cbn in Hf. lia. }
    cbn [bind]. exists (Some a), h'. split.
    + do 3 f_equal. apply bool_decide_ext. set_solver.
    + exists ((a, z) :: suf'). split_and!; [done | done |]. cbn. by rewrite Hs.
Qed.

(** [insert_before] looks for the sibling after the head element only: it
    inserts before the first such element, and it changes nothing and says so
    when the sibling is absent or is the head element. *)
Lemma insert_before_refines h p y l hf s x :
  rep h p (y :: l) hf ->
  exists h', insert_before h p s x = Ok (bool_decide (s ∈ l), p, h')
    /\ rep h' p (y :: insert_before_in s x l) hf.
Proof.
  intros (ns & H & -> & Hns). destruct ns as [| [a z] ns]; [done |].
  injection Hns as -> <-. pose proof (rep_fuel _ _ _ H) as Hf.
  destruct (insert_before_loop_ok (fuel_of h) h [] a y ns hf s x H) as (h' & suf' & Heq & Hn & Hs).
  { cbn in Hf. lia. }
  unfold insert_before. cbn [head_ptr]. rewrite Heq. cbn [bind].
  exists h'. split; [done |]. exists ((a, y) :: suf'). split_and!; [done | done |].
  cbn. by rewrite Hs.
Qed.

(** The traversals compute the list functions they are named after, on
    every list, and [delete_list] frees every node and no other. *)
Lemma traversals_refine {S : Type} h p l hf (f : A -> S -> S) s (g : A -> bool) :
  rep h p l hf ->
  list_length_of h p = Ok (u32 (Z.of_nat (length l))) /\
  iterate_list h p (Some f) s = Ok (foldl (fun s x => f x s) s l) /\
  (l <> [] -> find_list_custom h p (Some g) = Ok (List.find g l)) /\
  delete_list h p = Ok (true, hf).
Proof.
  intros (ns & H & -> & <-). pose proof (rep_fuel _ _ _ H) as Hf. rewrite length_fmap.
  split_and!.
  - unfold list_length_of. destruct ns as [| [a x] ns]; [done |]. cbn [head_ptr].
    rewrite (nodes_deref _ [] _ _ _ _ H). cbn [bind next].
    rewrite (list_length_of_loop_ok _ h [(a, x)] ns hf) by (done || cbn in Hf; lia).
    do 2 f_equal. cbn. lia.
  - unfold iterate_list. by apply (iterate_list_loop_ok _ h [] ns hf).
  - intros Hl. unfold find_list_custom. rewrite <- (find_list_custom_loop_ok (fuel_of h) h [] ns hf) by done.
    by destruct ns as [| []].
  - unfold delete_list. by rewrite (delete_list_loop_ok _ h ns hf).
Qed.

(** ** Any calls *)

Inductive list_call : Type :=
| InsertInFront (x : A)
| InsertBefore (sibling x : A)
| AppendToTail (x : A)
| DeleteElement (x : A).

Definition run_list_call h p (c : list_call) : res (bool * option positive * gmap positive (@list_element A)) :=
  match c with
  | InsertInFront x => Ok (insert_in_front h p x)
  | InsertBefore sibling x => insert_before h p sibling x
  | AppendToTail x => append_to_tail h p x
  | DeleteElement x => delete_element h p x
  end.

Fixpoint run_list_calls h p (cs : list list_call) : res (list bool * option positive * gmap positive (@list_element A)) :=
  match cs with
  | [] => Ok ([], p, h)
  | c :: cs =>
    let* (r, p, h) := run_list_call h p c in
    let* (rs, p, h) := run_list_calls h p cs in
    Ok (r :: rs, p, h)
  end.

(** What [insert_before] is documented to do: the element goes before the first
    [sibling], wherever that is. *)
Definition documented_insert_before (sibling x : A) l : bool * list A := (bool_decide (sibling ∈ l), insert_before_in sibling x l).

(** The empty list is NULL, which two of the functions dereference.
    [insert_before] does not do what it is documented to do at the head: it
    looks for the sibling behind it only, so nothing is ever inserted before the
    head. *)
Definition spec_list_call l (c : list_call) : res (bool * list A) :=
  match c with
  | InsertInFront x => Ok (true, x :: l)
  | AppendToTail x => Ok (true, l ++ [x])
  | InsertBefore sibling x =>
    match l with
    | [] => Fault NullPointer
    | y :: l => Ok (bool_decide (sibling ∈ l), y :: insert_before_in sibling x l)
    end
  | DeleteElement x =>
    match l with
    | [] => Fault NullPointer
    | _ :: _ => Ok (bool_decide (x ∈ l), remove_first x l)
    end
  end.

(** It does unless the sibling is the head. *)
Lemma insert_before_documented sibling x y l : sibling <> y ->
  spec_list_call (y :: l) (InsertBefore sibling x) = Ok (documented_insert_before sibling x (y :: l)).
Proof.
  intros Hne. cbn. unfold documented_insert_before. cbn. rewrite decide_False by done. do 2 f_equal.
  apply bool_decide_ext. rewrite elem_of_cons. naive_solver.
Qed.

Fixpoint spec_list_calls l (cs : list list_call) : res (list bool * list A) :=
  match cs with
  | [] => Ok ([], l)
  | c :: cs =>
    let* (r, l) := spec_list_call l c in
    let* (rs, l) := spec_list_calls l cs in
    Ok (r :: rs, l)
  end.

Lemma rep_empty h p hf : rep h p [] hf -> p = None.
Proof. intros (ns & _ & -> & Hns). by destruct ns. Qed.

Lemma run_list_call_ok h p l hf c : rep h p l hf ->
  match spec_list_call l c with
  | Ok (r, l') => exists p' h', run_list_call h p c = Ok (r, p', h') /\ rep h' p' l' hf
  | Fault f => run_list_call h p c = Fault f
  end.
Proof.
  intros H. destruct c as [x | s x | x | x]; cbn [spec_list_call run_list_call].
  - destruct (insert_append_refine h p l hf x H) as [(p' & h' & -> & H') _]. by exists p', h'.
  - destruct l as [| y l]; [by rewrite (rep_empty _ _ _ H) |].
    destruct (insert_before_refines h p y l hf s x H) as (h' & -> & H'). by exists p, h'.
  - destruct (insert_append_refine h p l hf x H) as [_ (p' & h' & -> & H')]. by exists p', h'.
  - destruct l as [| y l]; [by rewrite (rep_empty _ _ _ H) |].
    destruct (delete_element_refines h p (y :: l) hf x H) as (p' & h' & -> & H'); [done |]. by exists p', h'.
Qed.

Lemma run_list_calls_ok h p l hf cs : rep h p l hf ->
  match spec_list_calls l cs with
  | Ok (rs, l') => exists p' h', run_list_calls h p cs = Ok (rs, p', h') /\ rep h' p' l' hf
  | Fault f => run_list_calls h p cs = Fault f
  end.
Proof.
  revert h p l. induction cs as [| c cs IH]; intros h p l H; cbn [spec_list_calls run_list_calls]; [by exists p, h |].
  pose proof (run_list_call_ok h p l hf c H) as Hc. destruct (spec_list_call l c) as [[r l1] | f]; cbn [bind]; [| by rewrite Hc].
  destruct Hc as (p1 & h1 & -> & H1). cbn [bind]. specialize (IH h1 p1 l1 H1).
  destruct (spec_list_calls l1 cs) as [[rs l2] | f]; cbn [bind]; [| by rewrite IH].
  destruct IH as (p2 & h2 & -> & H2). cbn [bind]. by exists p2, h2.
Qed.

Lemma nothing_rep h : rep h None [] h.
Proof.
  exists []. split; [| done]. split.
  - constructor.
  - intros a Ha. by apply elem_of_nil in Ha.
  - symmetry. apply (left_id_L ∅ (∪)).
Qed.
End Refinement.

(** * Property *)

(** C25. The functions of linked_list.c on lists. From [create_list] in any heap,
    any insertions and deletions return what they return on a list, and stop the
    process where the list is empty and the function does not expect it. This
    is the behaviour of the code: contrary to its documentation, [insert_before]
    looks for the sibling behind the head only, so that it inserts nothing before
    the head, and on an empty list it stops the process. The list
    they leave has the length that [list_length_of] counts, is visited in order by
    [iterate_list], is searched by [find_list_custom], and [delete_list] frees its
    nodes and nothing else. All the loops end. *)
Theorem linked_list_refines {A S : Type} `{EqDecision A} (h0 : gmap positive list_element) (cs : list (list_call (A := A)))
    (f : A -> S -> S) s (g : A -> bool) :
  match spec_list_calls [] cs with
  | Ok (rs, l) => exists p h, run_list_calls h0 (create_list h0).1.2 cs = Ok (rs, p, h) /\
      list_length_of h p = Ok (u32 (Z.of_nat (length l))) /\
      iterate_list h p (Some f) s = Ok (foldl (fun s x => f x s) s l) /\
      find_list_custom h p (Some g) = (if decide (p = None) then Fault Died else Ok (List.find g l)) /\
      (p = None <-> l = []) /\
      delete_list h p = Ok (true, h0)
  | Fault e => run_list_calls h0 (create_list h0).1.2 cs = Fault e
  end.
Proof.
  pose proof (run_list_calls_ok h0 None [] h0 cs (nothing_rep h0)) as H. cbn [create_list fst snd].
  destruct (spec_list_calls [] cs) as [[rs l] | e]; [| done]. destruct H as (p & h & E & H). exists p, h.
  destruct (traversals_refine h p l h0 f s g H) as (Hlen & Hit & Hfind & Hdel).
  assert (Hp : p = None <-> l = []) by (destruct H as (ns & _ & -> & <-); by destruct ns as [| []]).
  split_and!; try done. destruct (decide (p = None)) as [-> | Hne]; [done |]. apply Hfind. by rewrite <- Hp.
Qed.

(** The head is not a place to insert before; a deleted head moves the list. *)
Example sample_list_calls :
  spec_list_calls [] [AppendToTail 10; AppendToTail 20; InsertBefore 20 15; InsertBefore 10 5; DeleteElement 10]
    = Ok ([true; true; true; false; true], [15; 20]).
Proof. reflexivity. Qed.
