(* ===== verification/DList.v ===== *)
(** doubly_linked_list.c: doubly linked lists, on an explicit heap of elements.

    A pointer is an optional address, [None] is NULL; [data] is NULL or a
    pointer of any type with decidable equality.  Every list has a recursive
    mutex that the functions take around their body; it does not show in the
    result of a single call and is left out.

    [dseg h pp ns nn] says that the elements [ns], addresses with data, are
    linked in [h] in both directions, the first to [pp] and the last to [nn];
    [drep h ns hf] that [h] is the list [ns] and the rest of the heap [hf].  An
    operation takes any element of a list, so its theorem splits the list
    there. *)

From Stdlib Require Import ZArith Lia Bool.
From stdpp Require Import base list gmap fin_maps.
From S2P Require Import Prelude.

Section DList.
Context {A : Type} `{EqDecision A}.

Abbreviation addr := positive.
Abbreviation ptr := (option addr).

Record dlist_element : Type := DListElement {
  data : option A;
  prev : ptr;
  next : ptr
}.

Abbreviation heap := (gmap addr dlist_element).
Implicit Types (h hf : heap) (p : ptr) (x : option A).

(** [die( "element must not be NULL" )] *)
Definition not_null p : res unit := match p with Some _ => Ok tt | None => Fault Died end.

Definition deref h p : res dlist_element :=
  match p with
  | None => Fault NullPointer
  | Some a => match h !! a with Some e => Ok e | None => Fault OutOfBounds end
  end.

(** An assignment to a member of the element at [p]. *)
Definition update h p (f : dlist_element -> dlist_element) : res heap :=
  let* e := deref h p in
  match p with
  | Some a => Ok (<[a := f e]> h)
  | None => Fault NullPointer
  end.

Definition set_data x (e : dlist_element) := DListElement x (prev e) (next e).
Definition set_prev p (e : dlist_element) := DListElement (data e) p (next e).
Definition set_next p (e : dlist_element) := DListElement (data e) (prev e) p.

Definition create_dlist_with_mutex h : ptr * heap :=
  let a := fresh (dom h) in (Some a, <[a := DListElement None None None]> h).

Definition create_dlist h : ptr * heap := create_dlist_with_mutex h.

Definition insert_before_dlist h (element : ptr) x : res (ptr * heap) :=
  let* _ := not_null element in
  let '(new_prev, h) := create_dlist_with_mutex h in
  let* e := deref h element in
  let* h :=
    match prev e with
    | Some _ =>
      let old_prev := prev e in
      let* h := update h new_prev (set_prev old_prev) in
      update h old_prev (set_next new_prev)
    | None => Ok h
    end in
  let* h := update h element (set_prev new_prev) in
  let* h := update h new_prev (set_next element) in
  let* h := update h new_prev (set_data x) in
  Ok (new_prev, h).

Definition insert_after_dlist h (element : ptr) x : res (ptr * heap) :=
  let* _ := not_null element in
  let '(new_next, h) := create_dlist_with_mutex h in
  let* e := deref h element in
  let* h :=
    match next e with
    | Some _ =>
      let old_next := next e in
      let* h := update h new_next (set_next old_next) in
      update h old_next (set_prev new_next)
    | None => Ok h
    end in
  let* h := update h element (set_next new_next) in
  let* h := update h new_next (set_prev element) in
  let* h := update h new_next (set_data x) in
  Ok (new_next, h).

(** Loops follow [next] or [prev]; in a heap of n elements a list has at
    most n. *)
Definition fuel_of h : nat := S (size h).

Fixpoint first_loop (fuel : nat) h (element : ptr) : res ptr :=
  match fuel with
  | O => Fault OutOfFuel
  | S fuel =>
    let* e := deref h element in
    match prev e with
    | Some _ => first_loop fuel h (prev e)
    | None => Ok element
    end
  end.

Definition get_first_element h (element : ptr) : res ptr :=
  let* _ := not_null element in
  first_loop (fuel_of h) h element.

Fixpoint last_loop (fuel : nat) h (element : ptr) : res ptr :=
  match fuel with
  | O => Fault OutOfFuel
  | S fuel =>
    let* e := deref h element in
    match next e with
    | Some _ => last_loop fuel h (next e)
    | None => Ok element
    end
  end.

Definition get_last_element h (element : ptr) : res ptr :=
  let* _ := not_null element in
  last_loop (fuel_of h) h element.

(** Both loops of [find_element]: [link] is the member they follow. *)
Fixpoint find_loop (fuel : nat) h (link : dlist_element -> ptr) (e : ptr) x : res ptr :=
  match fuel with
  | O => Fault OutOfFuel
  | S fuel =>
    match e with
    | None => Ok None
    | Some _ =>
      let* el := deref h e in
      if decide (data el = x) then Ok e else find_loop fuel h link (link el) x
    end
  end.

Definition find_element h (element : ptr) x : res ptr :=
  let* _ := not_null element in
  let* e := find_loop (fuel_of h) h next element x in
  match e with
  | Some _ => Ok e
  | None =>
    let* el := deref h element in
    find_loop (fuel_of h) h prev (prev el) x
  end.

Definition xfree h p : heap := match p with Some a => delete a h | None => h end.

Definition delete_dlist_element h (element : ptr) : res (bool * heap) :=
  let* _ := not_null element in
  let* e := deref h element in
  let* h := match prev e with Some _ => update h (prev e) (set_next (next e)) | None => Ok h end in
  let* e := deref h element in
  let* h := match next e with Some _ => update h (next e) (set_prev (prev e)) | None => Ok h end in
  Ok (true, xfree h element).

Fixpoint delete_loop (fuel : nat) h (e : ptr) : res heap :=
  match fuel with
  | O => Fault OutOfFuel
  | S fuel =>
    match e with
    | None => Ok h
    | Some _ =>
      let* el := deref h e in
      delete_loop fuel (xfree h e) (next el)
    end
  end.

Definition delete_dlist h (element : ptr) : res (bool * heap) :=
  let* _ := not_null element in
  let* element := first_loop (fuel_of h) h element in
  let* h := delete_loop (fuel_of h) h element in
  Ok (true, h).

(** * Representation *)

Implicit Types ns l : list (addr * option A).

Definition head_ptr ns (q : ptr) : ptr := match ns with [] => q | (a, _) :: _ => Some a end.
Definition last_ptr ns (q : ptr) : ptr := match last ns with Some (a, _) => Some a | None => q end.

Fixpoint dseg h (pp : ptr) ns (nn : ptr) : Prop :=
  match ns with
  | [] => True
  | (a, x) :: ns => h !! a = Some (DListElement x pp (head_ptr ns nn)) /\ dseg h (Some a) ns nn
  end.

Record drep h ns hf : Prop := {
  drep_nodup : NoDup ns.*1;
  drep_dseg : dseg h None ns None;
  drep_frame : forall a, a ∉ ns.*1 -> h !! a = hf !! a;
  drep_disjoint : forall a, a ∈ ns.*1 -> hf !! a = None
}.

(** ** Lemmas on segments *)

Lemma last_ptr_app ns a x q : last_ptr (ns ++ [(a, x)]) q = Some a.
Proof. unfold last_ptr. by rewrite last_snoc. Qed.

Lemma last_ptr_cons ns a x q : last_ptr ((a, x) :: ns) q = last_ptr ns (Some a).
Proof. unfold last_ptr. rewrite last_cons. by destruct (last ns) as [[]|]. Qed.

Lemma dseg_app h pp l1 l2 nn :
  dseg h pp (l1 ++ l2) nn <-> dseg h pp l1 (head_ptr l2 nn) /\ dseg h (last_ptr l1 pp) l2 nn.
Proof.
  revert pp. induction l1 as [| [a x] l1 IH]; intros pp; cbn; [tauto |].
  rewrite IH, last_ptr_cons.
  assert (head_ptr (l1 ++ l2) nn = head_ptr l1 (head_ptr l2 nn)) as ->; [by destruct l1 as [| []] | tauto].
Qed.

Lemma dseg_frame h h' pp ns nn :
  (forall a, a ∈ ns.*1 -> h' !! a = h !! a) -> dseg h pp ns nn -> dseg h' pp ns nn.
Proof.
  revert pp. induction ns as [| [a x] ns IH]; intros pp Hh; cbn; [done |].
  intros [Ha Hs]. split; [rewrite Hh by set_solver; done |].
  apply IH; [| done]. set_solver.
Qed.

Lemma update_ok h a e f : h !! a = Some e -> update h (Some a) f = Ok (<[a := f e]> h).
Proof. intros H. unfold update, deref. by rewrite H. Qed.

Lemma deref_ok h a e : h !! a = Some e -> deref h (Some a) = Ok e.
Proof. intros H. unfold deref. by rewrite H. Qed.

Lemma drep_fresh h ns hf a : drep h ns hf -> h !! a = None -> a ∉ ns.*1 /\ hf !! a = None.
Proof.
  intros [_ Hd Hf _] Ha.
  assert (a ∉ ns.*1).
  { intros (l1 & l2 & E)%list_elem_of_split. revert Hd. clear Hf.
    generalize (@None addr) at 1. induction ns as [| [b x] ns IH] in l1, E |- *; [by destruct l1 |].
    intros pp [Hb Hs]. destruct l1 as [| c l1]; simplify_eq/=. by eapply IH. }
  split; [done |]. by rewrite <- Hf.
Qed.

Lemma drep_size h ns hf : drep h ns hf -> (length ns <= size h)%nat.
Proof.
  intros [Hnd Hd _ _]. rewrite <- size_dom, <- (length_fmap fst ns), <- (size_list_to_set (C := gset addr)) by done.
  apply subseteq_size. intros a Ha%elem_of_list_to_set. apply elem_of_dom. clear Hnd.
  revert Ha Hd. generalize (@None addr) at 1.
  induction ns as [| [b x] ns IH]; intros pp Ha Hd; [by inversion Ha |].
  cbn in *. apply elem_of_cons in Ha as [-> | Ha]; [destruct Hd; eauto | by eapply IH, Hd].
Qed.

(** What the heap holds around an element. *)
Lemma drep_focus h l1 a x l2 hf :
  drep h (l1 ++ (a, x) :: l2) hf ->
  h !! a = Some (DListElement x (last_ptr l1 None) (head_ptr l2 None)) /\
  dseg h None l1 (Some a) /\ dseg h (Some a) l2 None /\
  a ∉ l1.*1 /\ a ∉ l2.*1 /\ NoDup l1.*1 /\ NoDup l2.*1 /\ (forall b, b ∈ l1.*1 -> b ∉ l2.*1).
Proof.
  intros [Hnd (H1 & Ha & H2)%dseg_app _ _].
  rewrite fmap_app in Hnd. apply NoDup_app in Hnd as (Hn1 & Hd & Hn2). cbn in *.
  apply NoDup_cons in Hn2 as []. split_and!; try done; set_solver.
Qed.

Lemma drep_focus2 h l1 a x c y l2 hf :
  drep h (l1 ++ (a, x) :: (c, y) :: l2) hf ->
  h !! a = Some (DListElement x (last_ptr l1 None) (Some c)) /\
  h !! c = Some (DListElement y (Some a) (head_ptr l2 None)) /\
  dseg h None l1 (Some a) /\ dseg h (Some c) l2 None /\
  a <> c /\ a ∉ l1.*1 /\ a ∉ l2.*1 /\ c ∉ l1.*1 /\ c ∉ l2.*1.
Proof.
  intros H. destruct (drep_focus _ _ _ _ _ _ H) as (Ha & H1 & [Hc H2] & Ha1 & Ha2 & _ & Hn2 & Hd).
  cbn in Ha2, Hn2, Hd. apply NoDup_cons in Hn2 as [Hc2 _]. apply not_elem_of_cons in Ha2 as [Hac Ha2].
  split_and!; try done. intros Hc1. apply (Hd c Hc1). by left.
Qed.

(** ** Operations *)

(** Run the updates of an operation on a heap whose lookups are known. *)
Ltac run_bind :=
  repeat progress (rewrite ?bind_Ok; cbv beta zeta; cbn [set_data set_prev set_next data prev next]).
Ltac run :=
  repeat (run_bind;
    first
      [ erewrite deref_ok by (simplify_map_eq; reflexivity)
      | erewrite update_ok by (simplify_map_eq; reflexivity) ]);
  run_bind.

(** One element more, one element less. *)
Lemma drep_grow h h' ns ns' hf n :
  drep h ns hf -> h !! n = None -> ns'.*1 ≡ₚ n :: ns.*1 ->
  (forall b, b ∉ ns.*1 -> b <> n -> h' !! b = h !! b) -> dseg h' None ns' None -> drep h' ns' hf.
Proof.
  intros H Hn Hp Hh Hs. destruct (drep_fresh _ _ _ _ H Hn) as [Hnn Hnf]. destruct H as [Hnd _ Hf Hd].
  split; [rewrite Hp; by apply NoDup_cons | done | |].
  - intros b. rewrite Hp, not_elem_of_cons. intros []. rewrite Hh by done. by apply Hf.
  - intros b. rewrite Hp. intros [-> | ?]%elem_of_cons; [done | by apply Hd].
Qed.

Lemma drep_shrink h h' ns ns' hf a :
  drep h ns hf -> ns.*1 ≡ₚ a :: ns'.*1 ->
  (forall b, b ∉ ns.*1 -> h' !! b = h !! b) -> h' !! a = None -> dseg h' None ns' None ->
  drep h' ns' hf.
Proof.
  intros [Hnd _ Hf Hd] Hp Hh Ha Hs. rewrite Hp in Hnd. apply NoDup_cons in Hnd as [Han Hnd].
  split; [done | done | |].
  - intros b Hb. destruct (decide (b = a)) as [-> | Hne].
    + rewrite Ha. symmetry. apply Hd. rewrite Hp. by left.
    + assert (b ∉ ns.*1) by (rewrite Hp, not_elem_of_cons; done). rewrite Hh by done. by apply Hf.
  - intros b Hb. apply Hd. rewrite Hp. by right.
Qed.

(** Look an address up outside of the updates of an operation. *)
Ltac outside :=
  repeat first
    [ rewrite lookup_insert_ne by (intros ->; contradiction)
    | rewrite lookup_delete_ne by (intros ->; contradiction) ].
Ltac frame := eapply dseg_frame; [| eassumption]; intros ? ?; by outside.
Ltac list_addrs := rewrite ?fmap_app; cbn [fmap list_fmap fst]; rewrite ?fmap_app; cbn [fmap list_fmap fst].
Ltac not_in H :=
  repeat first [rewrite fmap_app in H | progress cbn [fmap list_fmap fst] in H
    | rewrite not_elem_of_app in H | rewrite not_elem_of_cons in H]; destruct_and?.

Lemma insert_after_ok h l1 a d l2 hf x :
  drep h (l1 ++ (a, d) :: l2) hf ->
  exists n h', insert_after_dlist h (Some a) x = Ok (Some n, h') /\ h !! n = None /\
    drep h' (l1 ++ (a, d) :: (n, x) :: l2) hf.
Proof.
  intros H. assert (Hn : h !! fresh (dom h) = None) by apply not_elem_of_dom, is_fresh.
  unfold insert_after_dlist, create_dlist_with_mutex. revert Hn. generalize (fresh (dom h)). intros n Hn.
  exists n. destruct (drep_fresh _ _ _ _ H Hn) as [Hnn _]. cbn [not_null].
  destruct l2 as [| [c y] l2].
  - destruct (drep_focus _ _ _ _ _ _ H) as (Ha & S1 & _ & Ha1 & _). cbn [head_ptr] in Ha.
    not_in Hnn. run. eexists. split_and!; [done | done |]. eapply drep_grow; [exact H | exact Hn | | |].
    + list_addrs. solve_Permutation.
    + intros b Hb Hbn. not_in Hb. by outside.
    + rewrite dseg_app. split; [frame | cbn; by simplify_map_eq].
  - destruct (drep_focus2 _ _ _ _ _ _ _ _ H) as (Ha & Hc & S1 & S2 & Hac & Ha1 & Ha2 & Hc1 & Hc2).
    not_in Hnn. run. eexists. split_and!; [done | done |]. eapply drep_grow; [exact H | exact Hn | | |].
    + list_addrs. solve_Permutation.
    + intros b Hb Hbn. not_in Hb. by outside.
    + rewrite dseg_app. split; [frame |]. cbn. split_and!; [by simplify_map_eq.. | frame].
Qed.

Lemma insert_before_ok h l1 a d l2 hf x :
  drep h (l1 ++ (a, d) :: l2) hf ->
  exists n h', insert_before_dlist h (Some a) x = Ok (Some n, h') /\ h !! n = None /\
    drep h' (l1 ++ (n, x) :: (a, d) :: l2) hf.
Proof.
  intros H. assert (Hn : h !! fresh (dom h) = None) by apply not_elem_of_dom, is_fresh.
  unfold insert_before_dlist, create_dlist_with_mutex. revert Hn. generalize (fresh (dom h)). intros n Hn.
  exists n. destruct (drep_fresh _ _ _ _ H Hn) as [Hnn _]. cbn [not_null].
  destruct l1 as [| [c y] l1 _] using rev_ind.
  - destruct (drep_focus _ [] _ _ _ _ H) as (Ha & _ & S2 & _ & Ha2 & _). cbn in Ha.
    not_in Hnn. run. eexists. split_and!; [done | done |]. eapply drep_grow; [exact H | exact Hn | | |].
    + list_addrs. solve_Permutation.
    + intros b Hb Hbn. not_in Hb. by outside.
    + cbn. split_and!; [by simplify_map_eq.. | frame].
  - rewrite <- app_assoc in *. cbn [app] in *.
    destruct (drep_focus2 _ _ _ _ _ _ _ _ H) as (Hc & Ha & S1 & S2 & Hac & Hc1 & Hc2 & Ha1 & Ha2).
    not_in Hnn. run. eexists. split_and!; [done | done |]. eapply drep_grow; [exact H | exact Hn | | |].
    + list_addrs. solve_Permutation.
    + intros b Hb Hbn. not_in Hb. by outside.
    + rewrite dseg_app. split; [frame |]. cbn. split_and!; [by simplify_map_eq.. | frame].
Qed.

Lemma delete_element_ok h l1 a d l2 hf :
  drep h (l1 ++ (a, d) :: l2) hf ->
  exists h', delete_dlist_element h (Some a) = Ok (true, h') /\ drep h' (l1 ++ l2) hf.
Proof.
  intros H. unfold delete_dlist_element. cbn [not_null].
  assert (Hp : (l1 ++ (a, d) :: l2).*1 ≡ₚ a :: (l1 ++ l2).*1)
    by (list_addrs; solve_Permutation).
  destruct l1 as [| [b x] l1 _] using rev_ind; destruct l2 as [| [c y] l2];
    rewrite <- ?app_assoc in *; cbn [app] in *.
  - destruct (drep_focus _ [] _ _ _ _ H) as (Ha & _). cbn in Ha. run. eexists. split; [done |].
    eapply drep_shrink; [exact H | exact Hp | | apply lookup_delete_eq | done].
    intros e He. not_in He. cbn [xfree]. by outside.
  - destruct (drep_focus2 _ [] _ _ _ _ _ _ H) as (Ha & Hc & _ & S2 & Hac & _ & Ha2 & _ & Hc2).
    cbn in Ha. run. eexists. split; [done |].
    eapply drep_shrink; [exact H | exact Hp | | apply lookup_delete_eq |]; cbn [xfree].
    + intros e He. not_in He. by outside.
    + cbn. split; [by simplify_map_eq | frame].
  - destruct (drep_focus2 _ _ _ _ _ _ _ _ H) as (Hb & Ha & S1 & _ & Hba & Hb1 & _ & Ha1 & _).
    run. eexists. split; [done |].
    eapply drep_shrink; [exact H | exact Hp | | apply lookup_delete_eq |]; cbn [xfree].
    + intros e He. not_in He. by outside.
    + rewrite dseg_app. split; [frame | cbn; by simplify_map_eq].
  - destruct (drep_focus2 _ _ _ _ _ _ _ _ H) as (Hb & Ha & S1 & _ & Hba & Hb1 & Hb2 & Ha1 & Ha2).
    replace (l1 ++ (b, x) :: (a, d) :: (c, y) :: l2) with ((l1 ++ [(b, x)]) ++ (a, d) :: (c, y) :: l2) in H
      by by rewrite <- app_assoc.
    destruct (drep_focus2 _ _ _ _ _ _ _ _ H) as (_ & Hc & _ & S2 & Hac & _ & _ & Hc1 & Hc2).
    not_in Hb2. not_in Ha2. not_in Hc1. cbn [head_ptr] in *.
    run. eexists. split; [done |]. rewrite <- app_assoc in H.
    eapply drep_shrink; [exact H | exact Hp | | apply lookup_delete_eq |]; cbn [xfree app].
    + intros e He. not_in He. by outside.
    + rewrite dseg_app. split; [frame |]. cbn. split_and!; [by simplify_map_eq.. | frame].
Qed.

(** The first element of [ns] that holds [x]. *)
Fixpoint find_in x ns : ptr :=
  match ns with
  | [] => None
  | (a, d) :: ns => if decide (d = x) then Some a else find_in x ns
  end.

Lemma first_loop_ok fuel h l1 a d l2 hf :
  drep h (l1 ++ (a, d) :: l2) hf -> (length l1 < fuel)%nat ->
  first_loop fuel h (Some a) = Ok (head_ptr (l1 ++ [(a, d)]) None).
Proof.
  revert l1 a d l2. induction fuel as [| fuel IH]; intros l1 a d l2 H Hf; [lia |]. cbn [first_loop].
  destruct (drep_focus _ _ _ _ _ _ H) as (Ha & _). run.
  destruct l1 as [| [c y] l1 _] using rev_ind; [done |]. rewrite last_ptr_app.
  rewrite length_app in Hf. cbn [length] in Hf. rewrite <- app_assoc in H.
  rewrite (IH l1 c y _ H) by lia. f_equal. by destruct l1 as [| []].
Qed.

Lemma last_loop_ok fuel h l1 a d l2 hf :
  drep h (l1 ++ (a, d) :: l2) hf -> (length l2 < fuel)%nat ->
  last_loop fuel h (Some a) = Ok (last_ptr ((a, d) :: l2) None).
Proof.
  revert l1 a d l2. induction fuel as [| fuel IH]; intros l1 a d l2 H Hf; [lia |]. cbn [last_loop].
  destruct (drep_focus _ _ _ _ _ _ H) as (Ha & _). run.
  destruct l2 as [| [c y] l2]; [done |]. cbn [head_ptr length] in *.
  rewrite (IH (l1 ++ [(a, d)]) c y l2) by first [by rewrite <- app_assoc | lia].
  by rewrite !last_ptr_cons.
Qed.

Lemma find_next_ok fuel h pp ns x :
  dseg h pp ns None -> (length ns < fuel)%nat ->
  find_loop fuel h next (head_ptr ns None) x = Ok (find_in x ns).
Proof.
  revert pp ns. induction fuel as [| fuel IH]; intros pp ns Hs Hf; [lia |].
  destruct ns as [| [a d] ns]; [done |]. destruct Hs as [Ha Hs]. cbn [find_loop head_ptr find_in].
  run. destruct (decide (d = x)); [done |]. eapply IH; [done |]. cbn in Hf. lia.
Qed.

Lemma find_prev_ok fuel h ns nn x :
  dseg h None ns nn -> (length ns < fuel)%nat ->
  find_loop fuel h prev (last_ptr ns None) x = Ok (find_in x (reverse ns)).
Proof.
  revert ns nn. induction fuel as [| fuel IH]; intros ns nn Hs Hf; [lia |].
  destruct ns as [| [a d] ns _] using rev_ind; [done |].
  apply dseg_app in Hs as [Hs [Ha _]]. rewrite last_ptr_app, reverse_app. cbn [find_loop].
  run. cbn. destruct (decide (d = x)); [done |]. eapply IH; [done |].
  rewrite length_app in Hf. cbn in Hf. lia.
Qed.

Lemma delete_loop_ok fuel h pp ns :
  dseg h pp ns None -> NoDup ns.*1 -> (length ns < fuel)%nat ->
  exists h', delete_loop fuel h (head_ptr ns None) = Ok h' /\
    forall b, h' !! b = if decide (b ∈ ns.*1) then None else h !! b.
Proof.
  revert h pp ns. induction fuel as [| fuel IH]; intros h pp ns Hs Hn Hf; [lia |].
  destruct ns as [| [a d] ns]; [by exists h |].
  destruct Hs as [Ha Hs]. cbn in Hn. apply NoDup_cons in Hn as [Han Hn].
  cbn [delete_loop head_ptr]. run. cbn [xfree].
  destruct (IH (delete a h) (Some a) ns) as (h' & -> & Hh'); [frame | done | cbn in Hf; lia |].
  exists h'. split; [done |]. intros b. rewrite Hh'. cbn.
  destruct (decide (b ∈ ns.*1)) as [Hb | Hb], (decide (b ∈ a :: ns.*1)) as [Hc | Hc]; try done;
    rewrite elem_of_cons in Hc.
  - tauto.
  - destruct Hc as [-> | Hc]; [by rewrite lookup_delete_eq | done].
  - rewrite lookup_delete_ne; [done | intros ->; tauto].
Qed.

Lemma drep_fuel h l1 a d l2 hf :
  drep h (l1 ++ (a, d) :: l2) hf -> (length l1 + S (length l2) < fuel_of h)%nat.
Proof. intros H%drep_size. rewrite length_app in H. cbn in H. unfold fuel_of. lia. Qed.
End DList.

Section Refinement.
Context {A : Type} `{EqDecision A}.
Implicit Types (h hf : gmap positive (@dlist_element A)) (x d : option A).

(** Inserting before or after an element of a list returns the address of
    a fresh element that holds the datum; the list is the old one with that
    element on the side asked for, linked in both directions, and nothing else
    in the heap changes. *)
Theorem insert_dlist_refines h l1 a d l2 hf x :
  drep h (l1 ++ (a, d) :: l2) hf ->
  (exists n h', insert_before_dlist h (Some a) x = Ok (Some n, h') /\ h !! n = None /\
     drep h' (l1 ++ (n, x) :: (a, d) :: l2) hf) /\
  (exists n h', insert_after_dlist h (Some a) x = Ok (Some n, h') /\ h !! n = None /\
     drep h' (l1 ++ (a, d) :: (n, x) :: l2) hf).
Proof. intros H. split; [by apply insert_before_ok | by apply insert_after_ok]. Qed.

(** Deleting an element unlinks and frees that element only; deleting the
    list from any of its elements frees all of them and nothing else. *)
Theorem delete_dlist_refines h l1 a d l2 hf :
  drep h (l1 ++ (a, d) :: l2) hf ->
  (exists h', delete_dlist_element h (Some a) = Ok (true, h') /\ drep h' (l1 ++ l2) hf) /\
  delete_dlist h (Some a) = Ok (true, hf).
Proof.
  intros H. split; [by apply (delete_element_ok _ _ _ d) |]. pose proof (drep_fuel _ _ _ _ _ _ H) as Hf.
  unfold delete_dlist. cbn [not_null]. bind_ok.
  rewrite (first_loop_ok _ _ _ _ d l2 hf H) by lia. bind_ok.
  replace (head_ptr (l1 ++ [(a, d)]) None) with (head_ptr (l1 ++ (a, d) :: l2) None)
    by by destruct l1 as [| []].
  pose proof H as [Hnd Hs Hfr Hd].
  destruct (delete_loop_ok (fuel_of h) h None _ Hs Hnd) as (h' & -> & Hh'); [rewrite length_app; cbn; lia |].
  bind_ok. do 2 f_equal. apply map_eq. intros b. rewrite Hh'.
  destruct (decide _) as [Hb | Hb]; [by rewrite Hd | by apply Hfr].
Qed.

(** From any element, the ends of the list are found, and [find_element]
    returns the first element after it that holds the datum, itself included,
    and otherwise the nearest one before it; the loops end. *)
Theorem find_dlist_refines h l1 a d l2 hf x :
  drep h (l1 ++ (a, d) :: l2) hf ->
  get_first_element h (Some a) = Ok (head_ptr (l1 ++ [(a, d)]) None) /\
  get_last_element h (Some a) = Ok (last_ptr ((a, d) :: l2) None) /\
  find_element h (Some a) x =
    Ok (match find_in x ((a, d) :: l2) with Some b => Some b | None => find_in x (reverse l1) end).
Proof.
  intros H. pose proof (drep_fuel _ _ _ _ _ _ H) as Hf.
  pose proof (drep_focus _ _ _ _ _ _ H) as (Ha & S1 & S2 & _).
  pose proof (drep_dseg _ _ _ H) as [_ S3]%dseg_app.
  unfold get_first_element, get_last_element, find_element. cbn [not_null]. bind_ok.
  rewrite (first_loop_ok _ _ _ _ d l2 hf H), (last_loop_ok _ _ l1 _ d l2 hf H) by lia.
  split_and!; [done.. |].
  change (Some a) with (head_ptr ((a, d) :: l2) None) at 1.
  rewrite (find_next_ok (fuel_of h) h _ ((a, d) :: l2) x S3) by (cbn [length]; lia). bind_ok.
  destruct (find_in x ((a, d) :: l2)); [done |]. rewrite (deref_ok _ _ _ Ha). bind_ok. cbn [prev].
  by rewrite (find_prev_ok (fuel_of h) h l1 (Some a) x S1) by lia.
Qed.
End Refinement.

(** * The theorems at a list of three elements, from its second *)

Definition three_elements : gmap positive (@dlist_element Z) :=
  <[1%positive := DListElement None None (Some 2%positive)]>
  (<[2%positive := DListElement (Some 10) (Some 1%positive) (Some 3%positive)]>
  (<[3%positive := DListElement (Some 20) (Some 2%positive) None]> ∅)).

Lemma three_elements_drep :
  drep three_elements
    ([(1%positive, None)] ++ (2%positive, Some 10) :: [(3%positive, Some 20)]) ∅.
Proof.
  split.
  - cbn. repeat constructor; set_solver.
  - done.
  - intros a. cbn. rewrite !not_elem_of_cons. intros (? & ? & ? & _).
    unfold three_elements. by rewrite !lookup_insert_ne by done.
  - done.
Qed.

Lemma insert_dlist_refines_witness :
  drep three_elements ([(1%positive, None)] ++ (2%positive, Some 10) :: [(3%positive, Some 20)]) ∅ /\
  (exists n h', insert_before_dlist three_elements (Some 2%positive) (Some 5) = Ok (Some n, h') /\
     three_elements !! n = None /\
     drep h' ([(1%positive, None)] ++ (n, Some 5) :: (2%positive, Some 10) :: [(3%positive, Some 20)]) ∅).
Proof.
  split; [exact three_elements_drep |].
  exact (proj1 (insert_dlist_refines _ _ _ _ _ _ (Some 5) three_elements_drep)).
Defined.

Lemma delete_dlist_refines_witness :
  drep three_elements ([(1%positive, None)] ++ (2%positive, Some 10) :: [(3%positive, Some 20)]) ∅ /\
  delete_dlist three_elements (Some 2%positive) = Ok (true, ∅).
Proof.
  split; [exact three_elements_drep |].
  exact (proj2 (delete_dlist_refines _ _ _ _ _ _ three_elements_drep)).
Defined.

Lemma find_dlist_refines_witness :
  drep three_elements ([(1%positive, None)] ++ (2%positive, Some 10) :: [(3%positive, Some 20)]) ∅ /\
  find_element three_elements (Some 2%positive) None = Ok (Some 1%positive).
Proof.
  split; [exact three_elements_drep |].
  exact (proj2 (proj2 (find_dlist_refines _ _ _ _ _ _ None three_elements_drep))).
Defined.
