(* ===== verification/EventHandler.v ===== *)
(** event_handler.c: which callback serves which file descriptor, and one turn
    of the event loop.

    A callback is a function pointer with its data, of a type of the client;
    what it does is an argument of the turn.  The entries of [event_list] from
    [event_last] on are unused, so the array is the list of the others, and a
    pointer into it is an index.  [select] is an argument.  The messages of
    [error], [warn] and [debug] are left out. *)

From Stdlib Require Import ZArith Lia Bool.
From stdpp Require Import base list gmap fin_sets.
From S2P Require Import Prelude.

Definition FD_SETSIZE : Z := 1024.

Definition EVENT_HANDLER_INITIALIZED : Z := 1.
Definition EVENT_HANDLER_RUNNING : Z := 2.
Definition EVENT_HANDLER_STOP : Z := 4.
Definition EVENT_HANDLER_FINALIZED : Z := 8.

Section EventHandler.
Context {C : Type}.

Record event_fd : Type := EventFd {
  fd : Z;
  read_callback : option C;
  write_callback : option C
}.

Record event_handler : Type := EventHandler {
  event_handler_state : Z;
  event_list : list event_fd;
  event_fd_set : list (option nat);
  event_read_set : gset Z;
  event_write_set : gset Z;
  current_read_set : gset Z;
  current_write_set : gset Z;
  fd_set_size : Z;
  external_callback : option C
}.

Implicit Types (h : event_handler) (e : event_fd) (f : Z).

(** ** Fields *)

Definition set_handler_state h (x : Z) : event_handler :=
  EventHandler x (event_list h) (event_fd_set h) (event_read_set h) (event_write_set h) (current_read_set h)
    (current_write_set h) (fd_set_size h) (external_callback h).
Definition set_events h (l : list event_fd) (s : list (option nat)) (n : Z) : event_handler :=
  EventHandler (event_handler_state h) l s (event_read_set h) (event_write_set h) (current_read_set h)
    (current_write_set h) n (external_callback h).
Definition set_read_sets h (r c : gset Z) : event_handler :=
  EventHandler (event_handler_state h) (event_list h) (event_fd_set h) r (event_write_set h) c
    (current_write_set h) (fd_set_size h) (external_callback h).
Definition set_write_sets h (w c : gset Z) : event_handler :=
  EventHandler (event_handler_state h) (event_list h) (event_fd_set h) (event_read_set h) w (current_read_set h)
    c (fd_set_size h) (external_callback h).
Definition put_external_callback h (c : option C) : event_handler :=
  EventHandler (event_handler_state h) (event_list h) (event_fd_set h) (event_read_set h) (event_write_set h)
    (current_read_set h) (current_write_set h) (fd_set_size h) c.

(** [event_fd_set[ fd ]] and an assignment to it. *)
Definition get_event h f : res (option nat) :=
  if (0 <=? f) && (f <? FD_SETSIZE) then
    match event_fd_set h !! Z.to_nat f with Some p => Ok p | None => Fault OutOfBounds end
  else Fault OutOfBounds.

Definition put_event (s : list (option nat)) f (p : option nat) : list (option nat) := <[Z.to_nat f := p]> s.

(** ** Start and stop

    The static variables are zero before: [zero_event_handler]. The other
    fields keep their values: [fd_set_size] is not reset. *)
Definition zero_event_handler : event_handler :=
  EventHandler 0 [] (replicate (Z.to_nat FD_SETSIZE) None) ∅ ∅ ∅ ∅ 0 None.

Definition init_event_handler h : event_handler :=
  EventHandler EVENT_HANDLER_INITIALIZED [] (replicate (Z.to_nat FD_SETSIZE) None) ∅ ∅ (current_read_set h) (current_write_set h)
    (fd_set_size h) (external_callback h).

Definition finalize_event_handler h : event_handler :=
  match event_list h with
  | [] => set_handler_state h EVENT_HANDLER_FINALIZED
  | _ => h
  end.

Definition stop_event_handler h : event_handler := set_handler_state h (Z.lor (event_handler_state h) EVENT_HANDLER_STOP).

(** ** Handlers *)

Definition set_fd_handler h f (read_callback write_callback : option C) : res event_handler :=
  let* p := get_event h f in
  match p with
  | Some _ => Ok h
  | None =>
    if (f <? 0) || (FD_SETSIZE <=? f) then Ok h
    else if FD_SETSIZE <=? Z.of_nat (length (event_list h)) then Ok h
    else
      Ok (set_events h (event_list h ++ [EventFd f read_callback write_callback])
            (put_event (event_fd_set h) f (Some (length (event_list h))))
            (if fd_set_size h <=? f then f + 1 else fd_set_size h))
  end.

(** The search of [delete_fd_handler]. *)
Fixpoint find_event (l : list event_fd) f : option nat :=
  match l with
  | [] => None
  | e :: l => if fd e =? f then Some O else S <$> find_event l f
  end.

(** [event_fd_set[ i ] != NULL] for [i] from [n - 1] down to 0. *)
Fixpoint highest_event (s : list (option nat)) (n : nat) : Z :=
  match n with
  | O => -1
  | S n => match s !! n with Some (Some _) => Z.of_nat n | _ => highest_event s n end
  end.

(** The last entry moves to the place of the deleted one. *)
Definition remove_event (l : list event_fd) (s : list (option nat)) (i : nat) : res (list event_fd * list (option nat)) :=
  match last l with
  | None => Fault OutOfBounds
  | Some e =>
    let n := (length l - 1)%nat in
    if Nat.eqb i n then Ok (take n l, s) else Ok (take n (<[i := e]> l), put_event s (fd e) (Some i))
  end.

Definition delete_fd_handler h f : res event_handler :=
  match find_event (event_list h) f with
  | None => Ok h
  | Some i =>
    let* p := get_event h f in
    match p with
    | None => Ok h
    | Some _ =>
      let h := set_read_sets h (event_read_set h ∖ {[f]}) (current_read_set h ∖ {[f]}) in
      let h := set_write_sets h (event_write_set h ∖ {[f]}) (current_write_set h ∖ {[f]}) in
      let* (l, s) := remove_event (event_list h) (put_event (event_fd_set h) f None) i in
      let n := if f =? fd_set_size h - 1 then highest_event s (Z.to_nat (fd_set_size h - 1)) + 1 else fd_set_size h in
      Ok (set_events h l s n)
    end
  end.

(** [event_fd_set[ fd ]->callback], NULL when there is no entry. *)
Definition get_callback h f (callback : event_fd -> option C) : res (option C) :=
  let* p := get_event h f in
  match p with
  | None => Ok None
  | Some i => match event_list h !! i with Some e => Ok (callback e) | None => Fault OutOfBounds end
  end.

Definition set_readable h f (state : bool) : res event_handler :=
  if (f <? 0) || (FD_SETSIZE <=? f) then Ok h
  else
    let* callback := get_callback h f read_callback in
    match callback with
    | None => Ok h
    | Some _ =>
      Ok (if state then set_read_sets h ({[f]} ∪ event_read_set h) (current_read_set h)
          else set_read_sets h (event_read_set h ∖ {[f]}) (current_read_set h ∖ {[f]}))
    end.

Definition set_writable h f (state : bool) : res event_handler :=
  if (f <? 0) || (FD_SETSIZE <=? f) then Ok h
  else
    let* callback := get_callback h f write_callback in
    match callback with
    | None => Ok h
    | Some _ =>
      Ok (if state then set_write_sets h ({[f]} ∪ event_write_set h) (current_write_set h)
          else set_write_sets h (event_write_set h ∖ {[f]}) (current_write_set h ∖ {[f]}))
    end.

Definition readable h f : bool := bool_decide (f ∈ event_read_set h).
Definition writable h f : bool := bool_decide (f ∈ event_write_set h).

Definition set_external_callback h (callback : C) : bool * event_handler :=
  match external_callback h with
  | Some _ => (false, h)
  | None => (true, put_external_callback h (Some callback))
  end.

(** ** A turn of the loop *)

Section Turn.
(** The rest of the process, what a callback does to both and what [select]
    returns: an error, with whether it is [EINTR], or the descriptors ready. *)
Context {W : Type} (call : C -> Z -> event_handler -> W -> res (event_handler * W)).
Context (call_external : C -> event_handler -> W -> res (event_handler * W)).

Inductive select_result : Type :=
| SelectError (interrupted : bool)
| Ready (reads writes : gset Z).
Context (select : Z -> gset Z -> gset Z -> select_result).

Definition call_ready (ready : bool) (callback : option C) f h (w : W) : res (event_handler * W) :=
  if ready then match callback with Some c => call c f h w | None => Fault NullPointer end else Ok (h, w).

(** A place beyond the entries has been cleared: its descriptor is -1. *)
Definition same_event h (i : nat) e : bool :=
  match event_list h !! i with Some e' => fd e =? fd e' | None => false end.

Fixpoint serve_loop (fuel : nat) h (w : W) (i : nat) : res (event_handler * W) :=
  match fuel with
  | O => Fault OutOfFuel
  | S fuel =>
    match event_list h !! i with
    | None => Ok (h, w)
    | Some current_event =>
      let f := fd current_event in
      let* (h, w) := call_ready (bool_decide (f ∈ current_write_set h)) (write_callback current_event) f h w in
      let* (h, w) := call_ready (bool_decide (f ∈ current_read_set h)) (read_callback current_event) f h w in
      serve_loop fuel h w (if same_event h i current_event then S i else i)
    end
  end.

(** Each ready descriptor is served once, and no more entries are passed over
    in between than the array has. *)
Definition serve_fuel h : nat :=
  ((size (current_read_set h ∪ current_write_set h) + 1) * (Z.to_nat FD_SETSIZE + 1))%nat.

Definition run_event_handler_once h (w : W) : res (bool * event_handler * W) :=
  let* (h, w) :=
    match external_callback h with
    | Some callback => call_external callback (put_external_callback h None) w
    | None => Ok (h, w)
    end in
  let h := set_read_sets h (event_read_set h) (event_read_set h) in
  let h := set_write_sets h (event_write_set h) (event_write_set h) in
  match select (fd_set_size h) (current_read_set h) (current_write_set h) with
  | SelectError interrupted => Ok (interrupted, h, w)
  | Ready reads writes =>
    let h := set_read_sets h (event_read_set h) reads in
    let h := set_write_sets h (event_write_set h) writes in
    if decide (reads ∪ writes = ∅) then Ok (true, h, w)
    else let* (h, w) := serve_loop (serve_fuel h) h w 0 in Ok (true, h, w)
  end.

(** The loop of [start_event_handler]: the timers, then a turn, until a callback
    stops it. [select] waits as long as [execute_timer_events] says. *)
Fixpoint run_until_stopped (execute_timer_events : event_handler -> W -> res (event_handler * W)) (fuel : nat) h (w : W)
    : res (bool * event_handler * W) :=
  match fuel with
  | O => Fault OutOfFuel
  | S fuel =>
    if truth (Z.land (event_handler_state h) EVENT_HANDLER_STOP) then
      Ok (true, set_handler_state h (Z.land (event_handler_state h) (Z.lnot EVENT_HANDLER_RUNNING)), w)
    else
      let* (h, w) := execute_timer_events h w in
      let* (ok, h, w) := run_event_handler_once h w in
      if ok : bool then run_until_stopped execute_timer_events fuel h w else Ok (false, h, w)
  end.

Definition start_event_handler (execute_timer_events : event_handler -> W -> res (event_handler * W)) (fuel : nat) h (w : W)
    : res (bool * event_handler * W) :=
  run_until_stopped execute_timer_events fuel (set_handler_state h (Z.lor (event_handler_state h) EVENT_HANDLER_RUNNING)) w.
End Turn.
End EventHandler.

#[global] Arguments event_fd : clear implicits.
#[global] Arguments event_handler : clear implicits.
#[global] Arguments select_result : clear implicits.

(** * Invariant *)

Section Invariant.
Context {C : Type}.
Implicit Types (h : event_handler C) (e : event_fd C) (l : list (event_fd C)) (s : list (option nat)) (f : Z).

Definition valid_fd f : Prop := 0 <= f < FD_SETSIZE.

(** The index of the entry of a descriptor. *)
Definition position s f : option nat := if decide (0 <= f) then s !! Z.to_nat f ≫= fun p => p else None.

(** [event_fd_set] points exactly to the entries. *)
Record indexed l s : Prop := {
  ix_length : length s = Z.to_nat FD_SETSIZE;
  ix_entry i e : l !! i = Some e -> valid_fd (fd e) /\ position s (fd e) = Some i;
  ix_position f i : position s f = Some i -> exists e, l !! i = Some e /\ fd e = f
}.

(** The entry of a descriptor. *)
Definition lookup_event h f : option (event_fd C) := position (event_fd_set h) f ≫= fun i => event_list h !! i.

Definition served_by h f (callback : event_fd C -> option C) : Prop :=
  exists e, lookup_event h f = Some e /\ is_Some (callback e).

Record wf_handler h : Prop := {
  wh_indexed : indexed (event_list h) (event_fd_set h);
  wh_size f : is_Some (lookup_event h f) -> f < fd_set_size h;
  wh_size_range : 0 <= fd_set_size h <= FD_SETSIZE;
  wh_read f : f ∈ event_read_set h -> served_by h f read_callback;
  wh_write f : f ∈ event_write_set h -> served_by h f write_callback
}.

Lemma position_insert s f p f' : length s = Z.to_nat FD_SETSIZE -> valid_fd f ->
  position (put_event s f p) f' = if decide (f = f') then p else position s f'.
Proof.
  intros Hs Hf. unfold position, put_event, valid_fd in *. destruct (decide (f = f')) as [<- | Hne].
  - rewrite decide_True by lia. rewrite list_lookup_insert_eq by lia. done.
  - destruct (decide (0 <= f')); [| done]. by rewrite list_lookup_insert_ne by lia.
Qed.

Lemma get_event_ok h f : length (event_fd_set h) = Z.to_nat FD_SETSIZE -> valid_fd f ->
  get_event h f = Ok (position (event_fd_set h) f).
Proof.
  intros Hs Hf. unfold get_event, position, valid_fd in *. replace ((0 <=? f) && (f <? FD_SETSIZE)) with true by lia.
  rewrite decide_True by lia. destruct (lookup_lt_is_Some_2 (event_fd_set h) (Z.to_nat f)) as [p ->]; [lia | done].
Qed.

Lemma indexed_unique l s i j e e' : indexed l s -> l !! i = Some e -> l !! j = Some e' -> fd e = fd e' -> i = j.
Proof.
  intros H Hi Hj E. apply (ix_entry _ _ H) in Hi as [_ Hi]. apply (ix_entry _ _ H) in Hj as [_ Hj]. congruence.
Qed.

Lemma position_valid l s f i : indexed l s -> position s f = Some i -> valid_fd f.
Proof. intros H Hp. destruct (ix_position _ _ H _ _ Hp) as (e & He & <-). by apply (ix_entry _ _ H) in He as [? _]. Qed.

Lemma find_event_ok l s f : indexed l s -> find_event l f = position s f.
Proof.
  intros H. assert (Hf : forall i, find_event l f = Some i <-> exists e, l !! i = Some e /\ fd e = f).
  { assert (Hnd : forall i j e e', l !! i = Some e -> l !! j = Some e' -> fd e = fd e' -> i = j)
      by (intros i j e e'; by eapply indexed_unique).
    clear H. induction l as [| e l IH]; intros i; cbn [find_event].
    - split; [done | by intros (e & ? & _)].
    - destruct (Z.eqb_spec (fd e) f) as [E | E].
      + split.
        * intros [= <-]. by exists e.
        * intros (e' & Hi & E'). f_equal. apply (Hnd 0%nat i e e'); [done | done | congruence].
      + rewrite fmap_Some. split.
        * intros (j & Hj & ->). apply IH in Hj; [done |]. intros i1 j1 e1 e2 H1 H2 H3.
          by apply (Nat.succ_inj), (Hnd (S i1) (S j1) e1 e2).
        * intros (e' & Hi & E'). destruct i as [| i]; [by injection Hi as -> |]. exists i. split; [| done]. apply IH; [| by exists e'].
          intros i1 j1 e1 e2 H1 H2 H3. by apply (Nat.succ_inj), (Hnd (S i1) (S j1) e1 e2). }
  destruct (position s f) as [i |] eqn:Ep.
  - apply Hf. by apply (ix_position _ _ H).
  - destruct (find_event l f) as [i |]; [| done]. destruct (proj1 (Hf i) eq_refl) as (e & He & <-).
    apply (ix_entry _ _ H) in He as [_ He]. congruence.
Qed.

(** ** One entry more *)

Lemma indexed_add l s f r w : indexed l s -> valid_fd f -> position s f = None ->
  indexed (l ++ [EventFd f r w]) (put_event s f (Some (length l))).
Proof.
  intros H Hf Hp. pose proof (ix_length _ _ H) as Hs. split.
  - unfold put_event. by rewrite length_insert.
  - intros i e He. apply lookup_app_Some in He as [He | [Hi He]].
    + destruct (ix_entry _ _ H _ _ He) as [Hv Hi]. split; [done |]. rewrite position_insert by done.
      rewrite decide_False; [done |]. intros ->. congruence.
    + apply list_lookup_singleton_Some in He as [Hz <-]. cbn [fd]. split; [done |]. rewrite position_insert by done.
      rewrite decide_True by done. f_equal. lia.
  - intros f' i Hi. rewrite position_insert in Hi by done. destruct (decide (f = f')) as [<- |].
    + injection Hi as <-. exists (EventFd f r w). by rewrite lookup_app_r, Nat.sub_diag by lia.
    + destruct (ix_position _ _ H _ _ Hi) as (e & He & <-). exists e. by rewrite lookup_app_l by by eapply lookup_lt_Some.
Qed.

(** ** One entry less *)

Lemma last_entry l e : last l = Some e -> l !! (length l - 1)%nat = Some e.
Proof. rewrite last_lookup. by rewrite <- Nat.sub_1_r. Qed.

(** Where the entry at [j] is when that at [i] is deleted. *)
Definition moved l (i j : nat) : nat := if decide (j = length l - 1)%nat then i else j.

Lemma remove_event_ok l s i e : indexed l s -> l !! i = Some e ->
  exists l' s', remove_event l (put_event s (fd e) None) i = Ok (l', s') /\
    length s' = length s /\ S (length l') = length l /\
    (forall j, l' !! j = if decide (S j < length l)%nat then l !! (if decide (j = i) then length l - 1 else j)%nat else None) /\
    (forall f, position s' f = if decide (f = fd e) then None else moved l i <$> position s f).
Proof.
  intros H Hi. pose proof (lookup_lt_Some _ _ _ Hi) as Hlt. destruct (ix_entry _ _ H _ _ Hi) as [Hv Hp].
  pose proof (ix_length _ _ H) as Hs.
  destruct (lookup_lt_is_Some_2 l (length l - 1)) as [e' He']; [lia |]. destruct (ix_entry _ _ H _ _ He') as [Hv' Hp'].
  assert (Hlast : last l = Some e') by (rewrite last_lookup, <- He'; f_equal; lia). unfold remove_event. rewrite Hlast.
  assert (Hput : length (put_event s (fd e) None) = Z.to_nat FD_SETSIZE) by (unfold put_event; by rewrite length_insert).
  destruct (Nat.eqb_spec i (length l - 1)) as [Hn | Hn].
  - eexists _, _. split; [reflexivity |]. split; [congruence |]. split; [rewrite length_take; lia |]. split.
    + intros j. rewrite lookup_take. destruct (decide (j < length l - 1)%nat), (decide (S j < length l)%nat); try lia; [| done].
      by destruct (decide (j = i)); [lia |].
    + intros f. rewrite position_insert by done. destruct (decide (fd e = f)) as [<- | Hne]; [by rewrite decide_True |].
      rewrite decide_False by congruence. destruct (position s f) as [j |] eqn:Ej; [| done]. cbn. f_equal. unfold moved.
      destruct (decide _) as [Hj | Hj]; [| done]. destruct (ix_position _ _ H _ _ Ej) as (e1 & He1 & <-). exfalso. apply Hne. congruence.
  - eexists _, _. split; [reflexivity |]. split; [unfold put_event; rewrite !length_insert; congruence |].
    split; [rewrite length_take, length_insert; lia |]. split.
    + intros j. rewrite lookup_take. destruct (decide (j < length l - 1)%nat), (decide (S j < length l)%nat); try lia; [| done].
      destruct (decide (j = i)) as [-> |]; [by rewrite list_lookup_insert_eq | by rewrite list_lookup_insert_ne by congruence].
    + intros f. rewrite !position_insert by done. assert (fd e <> fd e').
      { intros E. apply Hn. by apply (indexed_unique l s i (length l - 1) e e' H). }
      destruct (decide (fd e' = f)) as [<- | Hne].
      * rewrite decide_False by congruence. rewrite Hp'. cbn. unfold moved. by rewrite decide_True.
      * destruct (decide (fd e = f)) as [<- | Hne2]; [by rewrite decide_True |]. rewrite decide_False by congruence.
        destruct (position s f) as [j |] eqn:Ej; [| done]. cbn. f_equal. unfold moved.
        destruct (decide _) as [Hj | Hj]; [| done]. destruct (ix_position _ _ H _ _ Ej) as (e1 & He1 & <-). exfalso. apply Hne. congruence.
Qed.

Lemma indexed_remove l s i e l' s' : indexed l s -> l !! i = Some e -> remove_event l (put_event s (fd e) None) i = Ok (l', s') ->
  indexed l' s'.
Proof.
  intros H Hi Hr. destruct (remove_event_ok l s i e H Hi) as (l1 & s1 & Hr1 & Hs & Hlen & Hl & Hp).
  rewrite Hr in Hr1. injection Hr1 as <- <-. pose proof (lookup_lt_Some _ _ _ Hi) as Hlt. split.
  - rewrite Hs. by apply (ix_length _ _ H).
  - intros j e1 He1. rewrite Hl in He1. destruct (decide (S j < length l)%nat) as [Hj |]; [| done].
    destruct (ix_entry _ _ H _ _ He1) as [Hv Hpos]. split; [done |]. rewrite Hp. rewrite decide_False.
    + rewrite Hpos. cbn. f_equal. unfold moved. destruct (decide (j = i)) as [-> |]; [by rewrite decide_True | by rewrite decide_False by lia].
    + intros E. pose proof (indexed_unique _ _ _ _ _ _ H He1 Hi E) as Ej. destruct (decide (j = i)); lia.
  - intros f j Hj. rewrite Hp in Hj. destruct (decide (f = fd e)) as [|Hne]; [done |].
    destruct (position s f) as [k |] eqn:Ek; [| done]. injection Hj as <-. destruct (ix_position _ _ H _ _ Ek) as (e1 & He1 & <-).
    exists e1. split; [| done]. rewrite Hl. pose proof (lookup_lt_Some _ _ _ He1). unfold moved.
    assert (k <> i) by (intros ->; congruence).
    destruct (decide (k = length l - 1)%nat) as [-> |].
    + rewrite !decide_True by lia. done.
    + rewrite decide_True, decide_False by lia. done.
Qed.
End Invariant.

(** ** Each call *)

Section Calls.
Context {C : Type}.
Implicit Types (h : event_handler C) (e : event_fd C) (l : list (event_fd C)) (s : list (option nat)) (f : Z).

Inductive fd_call : Type :=
| SetFdHandler f (r w : option C)
| DeleteFdHandler f
| SetReadable f (state : bool)
| SetWritable f (state : bool)
| StopEventHandler
| SetExternalCallback (c : C).

Definition run_fd_call h (c : fd_call) : res (event_handler C) :=
  match c with
  | SetFdHandler f r w => set_fd_handler h f r w
  | DeleteFdHandler f => delete_fd_handler h f
  | SetReadable f state => set_readable h f state
  | SetWritable f state => set_writable h f state
  | StopEventHandler => Ok (stop_event_handler h)
  | SetExternalCallback c => Ok (set_external_callback h c).2
  end.

Fixpoint run_fd_calls h (cs : list fd_call) : res (event_handler C) :=
  match cs with
  | [] => Ok h
  | c :: cs => let* h := run_fd_call h c in run_fd_calls h cs
  end.

(** [set_fd_handler] uses its argument as an index before it checks it. *)
Definition fd_call_ok (c : fd_call) : Prop := match c with SetFdHandler f _ _ => valid_fd f | _ => True end.

Definition add_to (b : bool) f (x : gset Z) : gset Z := if b then {[f]} ∪ x else x ∖ {[f]}.

(** What the calls mean: a map from descriptors to callbacks, and the sets of
    those that wait. *)
Record spec_handler : Type := SpecHandler {
  sp_callbacks : gmap Z (option C * option C);
  sp_read : gset Z;
  sp_write : gset Z
}.

Definition spec_fd_call (sp : spec_handler) (c : fd_call) : spec_handler :=
  let '(SpecHandler m r w) := sp in
  match c with
  | SetFdHandler f rc wc => match m !! f with Some _ => sp | None => SpecHandler (<[f := (rc, wc)]> m) r w end
  | DeleteFdHandler f => match m !! f with Some _ => SpecHandler (delete f m) (r ∖ {[f]}) (w ∖ {[f]}) | None => sp end
  | SetReadable f b => match m !! f with Some (Some _, _) => SpecHandler m (add_to b f r) w | _ => sp end
  | SetWritable f b => match m !! f with Some (_, Some _) => SpecHandler m r (add_to b f w) | _ => sp end
  | StopEventHandler | SetExternalCallback _ => sp
  end.

Definition callbacks_of e : option C * option C := (read_callback e, write_callback e).

Record represents h (sp : spec_handler) : Prop := {
  rp_callbacks f : sp_callbacks sp !! f = callbacks_of <$> lookup_event h f;
  rp_read : event_read_set h = sp_read sp;
  rp_write : event_write_set h = sp_write sp
}.

(** What a turn of the loop relies on: a descriptor that it has still to serve
    keeps its entry, which can only move towards the front. *)
Record later h h' : Prop := {
  lt_read : current_read_set h' ⊆ current_read_set h;
  lt_write : current_write_set h' ⊆ current_write_set h;
  lt_place f i : f ∈ current_read_set h' ∪ current_write_set h' -> position (event_fd_set h) f = Some i ->
    exists i', position (event_fd_set h') f = Some i' /\ (i' <= i)%nat /\ event_list h' !! i' = event_list h !! i
}.

Lemma later_refl h : later h h.
Proof. split; [done | done |]. intros f i _ Hi. by exists i. Qed.

Lemma later_trans h h1 h2 : later h h1 -> later h1 h2 -> later h h2.
Proof.
  intros H1 H2. split; [etrans; [apply H2 | apply H1] | etrans; [apply H2 | apply H1] |]. intros f i Hf Hi.
  destruct (lt_place _ _ H1 f i) as (i1 & Hi1 & Hle1 & E1); [| done |].
  - pose proof (lt_read _ _ H2). pose proof (lt_write _ _ H2). set_solver.
  - destruct (lt_place _ _ H2 f i1 Hf Hi1) as (i2 & Hi2 & Hle2 & E2). exists i2. split; [done |]. split; [lia | congruence].
Qed.

Lemma lookup_event_fd h f e : indexed (event_list h) (event_fd_set h) -> lookup_event h f = Some e -> fd e = f.
Proof.
  intros H. unfold lookup_event. destruct (position _ f) as [i |] eqn:Ei; [| done]. cbn. intros He.
  destruct (ix_position _ _ H _ _ Ei) as (e' & He' & <-). congruence.
Qed.

Lemma lookup_event_position h f i : indexed (event_list h) (event_fd_set h) -> position (event_fd_set h) f = Some i ->
  exists e, lookup_event h f = Some e /\ event_list h !! i = Some e /\ fd e = f.
Proof.
  intros H Hi. destruct (ix_position _ _ H _ _ Hi) as (e & He & Hf). exists e. unfold lookup_event. rewrite Hi. by split_and!.
Qed.

(** There is room for a descriptor that has no entry. *)
Lemma room l s f : indexed l s -> valid_fd f -> position s f = None -> Z.of_nat (length l) < FD_SETSIZE.
Proof.
  intros H Hf Hp.
  assert (Hnd : NoDup (f :: (fd <$> l))).
  { constructor.
    - intros Hin. apply list_elem_of_fmap in Hin as (e & -> & He). apply list_elem_of_lookup in He as [i Hi].
      apply (ix_entry _ _ H) in Hi as [_ Hi]. congruence.
    - apply NoDup_alt. intros i j x Hi Hj. apply list_lookup_fmap_Some in Hi as (e & -> & He). apply list_lookup_fmap_Some in Hj as (e' & E & He').
      by eapply indexed_unique. }
  assert (Hsub : f :: (fd <$> l) ⊆ seqZ 0 FD_SETSIZE).
  { intros x [-> | Hin]%elem_of_cons; apply elem_of_seqZ; unfold valid_fd in *; [lia |].
    apply list_elem_of_fmap in Hin as (e & -> & He). apply list_elem_of_lookup in He as [i Hi].
    apply (ix_entry _ _ H) in Hi as [Hv _]. unfold valid_fd in Hv. lia. }
  apply (NoDup_submseteq _ _ Hnd) in Hsub. apply submseteq_length in Hsub. rewrite length_seqZ in Hsub. cbn [length] in Hsub.
  rewrite length_fmap in Hsub. unfold FD_SETSIZE in *. lia.
Qed.

Lemma set_fd_handler_ok h f r w : wf_handler h -> valid_fd f ->
  exists h', set_fd_handler h f r w = Ok h' /\ wf_handler h' /\ later h h' /\
    (forall f', lookup_event h' f' = match lookup_event h f' with Some e => Some e | None => if decide (f' = f) then Some (EventFd f r w) else None end) /\
    event_read_set h' = event_read_set h /\ event_write_set h' = event_write_set h /\
    current_read_set h' = current_read_set h /\ current_write_set h' = current_write_set h.
Proof.
  intros H Hf. pose proof (wh_indexed _ H) as Hx. unfold set_fd_handler. rewrite get_event_ok by (done || apply (ix_length _ _ Hx)).
  bind_ok. destruct (position (event_fd_set h) f) as [i |] eqn:Ep.
  - exists h. split_and!; try done; [apply later_refl |]. intros f'. destruct (lookup_event h f') eqn:E; [done |].
    destruct (decide (f' = f)) as [-> |]; [| done]. destruct (lookup_event_position _ _ _ Hx Ep) as (e & ? & _). congruence.
  - pose proof (room _ _ _ Hx Hf Ep) as Hroom. pose proof Hf as Hf'. unfold valid_fd, FD_SETSIZE in Hf'.
    replace ((f <? 0) || (FD_SETSIZE <=? f)) with false by (unfold FD_SETSIZE; lia).
    replace (FD_SETSIZE <=? Z.of_nat (length (event_list h))) with false by lia.
    pose proof (indexed_add _ _ f r w Hx Hf Ep) as Hx'. eexists. split; [reflexivity |].
    assert (Hl : forall f', lookup_event (set_events h (event_list h ++ [EventFd f r w])
        (put_event (event_fd_set h) f (Some (length (event_list h)))) (if fd_set_size h <=? f then f + 1 else fd_set_size h)) f' =
      match lookup_event h f' with Some e => Some e | None => if decide (f' = f) then Some (EventFd f r w) else None end).
    { intros f'. unfold lookup_event. cbn [set_events event_list event_fd_set]. rewrite position_insert by (done || apply (ix_length _ _ Hx)).
      destruct (decide (f = f')) as [<- | Hne].
      - rewrite Ep. cbn. rewrite decide_True by done. by rewrite list_lookup_middle.
      - rewrite decide_False by congruence. destruct (position (event_fd_set h) f') as [j |] eqn:Ej; [| done]. cbn.
        destruct (ix_position _ _ Hx _ _ Ej) as (e & He & _). rewrite lookup_app_l by by eapply lookup_lt_Some. by rewrite He. }
    assert (Hs : forall f' g, served_by h f' g -> served_by (set_events h (event_list h ++ [EventFd f r w])
        (put_event (event_fd_set h) f (Some (length (event_list h)))) (if fd_set_size h <=? f then f + 1 else fd_set_size h)) f' g).
    { intros f' g (e & He & Hg). exists e. by rewrite Hl, He. }
    split_and!; try done.
    + split; [done | | | |].
      * intros f' [e He]. rewrite Hl in He. pose proof (wh_size _ H f'). cbn [set_events fd_set_size].
        destruct (lookup_event h f'); [| destruct (decide (f' = f)); [| done]];
          destruct (Z.leb_spec (fd_set_size h) f); try lia.
        all: match goal with H : is_Some (Some _) -> _ |- _ => specialize (H ltac:(by eexists)); lia end.
      * pose proof (wh_size_range _ H). cbn [set_events fd_set_size]. unfold FD_SETSIZE in *. destruct (Z.leb_spec (fd_set_size h) f); lia.
      * intros f' Hr. apply Hs. by apply (wh_read _ H).
      * intros f' Hw. apply Hs. by apply (wh_write _ H).
    + split; [done | done |]. intros f' i _ Hi. exists i. cbn [set_events event_list event_fd_set].
      destruct (ix_position _ _ Hx _ _ Hi) as (e & He & _). rewrite position_insert by (done || apply (ix_length _ _ Hx)).
      rewrite decide_False by congruence. split; [done |]. split; [done |]. apply lookup_app_l. by eapply lookup_lt_Some.
Qed.

Lemma highest_event_range s n : -1 <= highest_event s n < Z.of_nat n.
Proof. induction n as [| n IH]; cbn [highest_event]; [lia |]. destruct (s !! n) as [[|] |]; lia. Qed.

Lemma highest_event_bound s n f i : 0 <= f < Z.of_nat n -> position s f = Some i -> f <= highest_event s n.
Proof.
  intros Hf Hi. induction n as [| n IH]; [lia |]. cbn [highest_event].
  destruct (decide (f = Z.of_nat n)) as [-> |].
  - unfold position in Hi. rewrite decide_True, Nat2Z.id in Hi by lia. destruct (s !! n) as [[|] |]; [lia | done | done].
  - pose proof (highest_event_range s n). destruct (s !! n) as [[|] |]; [lia | lia | lia].
Qed.

Lemma delete_fd_handler_ok h f : wf_handler h ->
  exists h', delete_fd_handler h f = Ok h' /\ wf_handler h' /\ later h h' /\
    (forall f', lookup_event h' f' = if decide (f' = f) then None else lookup_event h f') /\
    match lookup_event h f with
    | Some _ => event_read_set h' = event_read_set h ∖ {[f]} /\ event_write_set h' = event_write_set h ∖ {[f]} /\
        current_read_set h' = current_read_set h ∖ {[f]} /\ current_write_set h' = current_write_set h ∖ {[f]}
    | None => h' = h
    end.
Proof.
  intros H. pose proof (wh_indexed _ H) as Hx. unfold delete_fd_handler. rewrite (find_event_ok _ _ f Hx).
  destruct (position (event_fd_set h) f) as [i |] eqn:Ep.
  2: { assert (E : lookup_event h f = None) by (unfold lookup_event; by rewrite Ep). rewrite E. exists h. split_and!; try done.
       - apply later_refl.
       - intros f'. by destruct (decide (f' = f)) as [-> |]. }
  destruct (lookup_event_position _ _ _ Hx Ep) as (e & He & Hi & <-). rewrite He.
  destruct (ix_entry _ _ Hx _ _ Hi) as [Hv _]. rewrite get_event_ok, Ep by (done || apply (ix_length _ _ Hx)). bind_ok.
  cbn [set_write_sets set_read_sets event_list event_fd_set event_read_set event_write_set current_read_set current_write_set fd_set_size].
  destruct (remove_event_ok _ _ _ _ Hx Hi) as (l' & s' & Hr & Hs & Hlen & Hl & Hp). rewrite Hr. bind_ok. eexists. split; [reflexivity |].
  pose proof (indexed_remove _ _ _ _ _ _ Hx Hi Hr) as Hx'.
  set (n := if fd e =? fd_set_size h - 1 then _ else _).
  set (h' := set_events _ l' s' n).
  assert (Hplace : forall f j, f <> fd e -> position (event_fd_set h) f = Some j -> l' !! moved (event_list h) i j = event_list h !! j).
  { intros f' j Hne Hj. destruct (ix_position _ _ Hx _ _ Hj) as (e1 & He1 & <-). pose proof (lookup_lt_Some _ _ _ He1).
    assert (j <> i) by (intros ->; congruence). pose proof (lookup_lt_Some _ _ _ Hi).
    rewrite Hl. unfold moved. destruct (decide (j = length (event_list h) - 1)%nat) as [-> |].
    - by rewrite decide_True, decide_True by lia.
    - by rewrite decide_True, decide_False by lia. }
  assert (Hlook : forall f', lookup_event h' f' = if decide (f' = fd e) then None else lookup_event h f').
  { intros f'. unfold lookup_event. change (event_fd_set h') with s'. change (event_list h') with l'. rewrite Hp.
    destruct (decide (f' = fd e)) as [| Hne]; [done |]. destruct (position (event_fd_set h) f') as [j |] eqn:Ej; [| done].
    cbn [fmap option_fmap option_map mbind option_bind]. by apply (Hplace f'). }
  assert (Hsv : forall f' g, f' <> fd e -> served_by h f' g -> served_by h' f' g).
  { intros f' g Hne (e1 & He1 & Hg). exists e1. rewrite Hlook. by rewrite decide_False. }
  split_and!; try done.
  - split; [done | | | |].
    + intros f' [e1 He1]. pose proof He1 as He2. rewrite Hlook in He1. destruct (decide (f' = fd e)) as [| Hne]; [done |].
      pose proof (wh_size _ H f' ltac:(by eexists)) as Hsz. cbn [h' set_events fd_set_size]. unfold n.
      destruct (Z.eqb_spec (fd e) (fd_set_size h - 1)) as [E | E]; [| done].
      destruct (position (event_fd_set h') f') as [j |] eqn:Ej; [| unfold lookup_event in He2; by rewrite Ej in He2].
      pose proof (position_valid _ _ _ _ Hx' Ej) as Hv'. unfold valid_fd in Hv'. unfold n in Ej.
      enough (f' <= highest_event s' (Z.to_nat (fd_set_size h - 1))) by lia.
      apply (highest_event_bound s' _ f' j); [lia | exact Ej].
    + pose proof (wh_size_range _ H). cbn [h' set_events fd_set_size]. unfold n. destruct (_ =? _); [| done].
      pose proof (highest_event_range s' (Z.to_nat (fd_set_size h - 1))). unfold valid_fd in Hv.
      pose proof (wh_size _ H (fd e) ltac:(by eexists)). lia.
    + intros f' Hf'. change (f' ∈ event_read_set h ∖ {[fd e]}) in Hf'. apply elem_of_difference in Hf' as [Hf' Hne].
      apply Hsv; [set_solver |]. by apply (wh_read _ H).
    + intros f' Hf'. change (f' ∈ event_write_set h ∖ {[fd e]}) in Hf'. apply elem_of_difference in Hf' as [Hf' Hne].
      apply Hsv; [set_solver |]. by apply (wh_write _ H).
  - split; [cbn; set_solver | cbn; set_solver |]. intros f' j Hf' Hj.
    change (current_read_set h') with (current_read_set h ∖ {[fd e]}) in Hf'.
    change (current_write_set h') with (current_write_set h ∖ {[fd e]}) in Hf'.
    assert (Hne : f' <> fd e) by set_solver. exists (moved (event_list h) i j). split_and!.
    + change (event_fd_set h') with s'. rewrite Hp, decide_False by done. by rewrite Hj.
    + unfold moved. pose proof (lookup_lt_Some _ _ _ Hi). destruct (decide _); lia.
    + by apply (Hplace f').
Qed.

Lemma get_callback_ok h f g : wf_handler h -> valid_fd f -> get_callback h f g = Ok (lookup_event h f ≫= g).
Proof.
  intros H Hf. pose proof (wh_indexed _ H) as Hx. unfold get_callback. rewrite get_event_ok by (done || apply (ix_length _ _ Hx)). bind_ok.
  unfold lookup_event. destruct (position (event_fd_set h) f) as [i |] eqn:Ep; [| done].
  destruct (ix_position _ _ Hx _ _ Ep) as (e & He & _). cbn. by rewrite He.
Qed.

(** A call that changes the sets of one direction. *)
Lemma sets_wf h h' : wf_handler h -> event_list h' = event_list h -> event_fd_set h' = event_fd_set h -> fd_set_size h' = fd_set_size h ->
  (forall f, f ∈ event_read_set h' -> served_by h f read_callback) ->
  (forall f, f ∈ event_write_set h' -> served_by h f write_callback) -> wf_handler h'.
Proof.
  intros H El Es En Hr Hw. assert (E : forall f, lookup_event h' f = lookup_event h f) by (intros f; unfold lookup_event; by rewrite El, Es).
  split.
  - rewrite El, Es. apply H.
  - intros f. rewrite E, En. apply H.
  - rewrite En. apply H.
  - intros f Hf. destruct (Hr f Hf) as (e & He & Hg). exists e. by rewrite E.
  - intros f Hf. destruct (Hw f Hf) as (e & He & Hg). exists e. by rewrite E.
Qed.

Lemma sets_later h h' : event_list h' = event_list h -> event_fd_set h' = event_fd_set h ->
  current_read_set h' ⊆ current_read_set h -> current_write_set h' ⊆ current_write_set h -> later h h'.
Proof. intros El Es Hr Hw. split; [done | done |]. intros f i _ Hi. exists i. by rewrite El, Es. Qed.

Lemma set_readable_ok h f b : wf_handler h ->
  exists h', set_readable h f b = Ok h' /\ wf_handler h' /\ later h h' /\ (forall f', lookup_event h' f' = lookup_event h f') /\
    event_write_set h' = event_write_set h /\
    event_read_set h' = match lookup_event h f ≫= read_callback with Some _ => add_to b f (event_read_set h) | None => event_read_set h end.
Proof.
  intros H. unfold set_readable. destruct (_ || _) eqn:Ef.
  - assert (E : lookup_event h f = None).
    { unfold lookup_event. destruct (position (event_fd_set h) f) as [i |] eqn:Ep; [| done].
      apply (position_valid _ _ _ _ (wh_indexed _ H)) in Ep. unfold valid_fd in Ep. lia. }
    rewrite E. exists h. split_and!; [done | done | apply later_refl | done..].
  - rewrite get_callback_ok by (done || (unfold valid_fd; lia)). bind_ok. destruct (lookup_event h f ≫= read_callback) eqn:E.
    2: { exists h. split_and!; [done | done | apply later_refl | done..]. }
    apply bind_Some in E as (e & He & Hg).
    eexists. split; [reflexivity |]. split_and!; try (by destruct b).
    + apply (sets_wf h); try by destruct b.
      * intros f' Hf'. destruct (decide (f' = f)) as [-> |]; [exists e; by rewrite Hg |].
        destruct b; cbn in Hf'; apply (wh_read _ H); set_solver.
      * intros f' Hf'. apply (wh_write _ H). by destruct b.
    + apply sets_later; [by destruct b | by destruct b | |]; destruct b; cbn; set_solver.
Qed.

Lemma set_writable_ok h f b : wf_handler h ->
  exists h', set_writable h f b = Ok h' /\ wf_handler h' /\ later h h' /\ (forall f', lookup_event h' f' = lookup_event h f') /\
    event_read_set h' = event_read_set h /\
    event_write_set h' = match lookup_event h f ≫= write_callback with Some _ => add_to b f (event_write_set h) | None => event_write_set h end.
Proof.
  intros H. unfold set_writable. destruct (_ || _) eqn:Ef.
  - assert (E : lookup_event h f = None).
    { unfold lookup_event. destruct (position (event_fd_set h) f) as [i |] eqn:Ep; [| done].
      apply (position_valid _ _ _ _ (wh_indexed _ H)) in Ep. unfold valid_fd in Ep. lia. }
    rewrite E. exists h. split_and!; [done | done | apply later_refl | done..].
  - rewrite get_callback_ok by (done || (unfold valid_fd; lia)). bind_ok. destruct (lookup_event h f ≫= write_callback) eqn:E.
    2: { exists h. split_and!; [done | done | apply later_refl | done..]. }
    apply bind_Some in E as (e & He & Hg).
    eexists. split; [reflexivity |]. split_and!; try (by destruct b).
    + apply (sets_wf h); try by destruct b.
      * intros f' Hf'. apply (wh_read _ H). by destruct b.
      * intros f' Hf'. destruct (decide (f' = f)) as [-> |]; [exists e; by rewrite Hg |].
        destruct b; cbn in Hf'; apply (wh_write _ H); set_solver.
    + apply sets_later; [by destruct b | by destruct b | |]; destruct b; cbn; set_solver.
Qed.

Lemma fd_call_sound h sp c : wf_handler h -> represents h sp -> fd_call_ok c ->
  exists h', run_fd_call h c = Ok h' /\ wf_handler h' /\ later h h' /\ represents h' (spec_fd_call sp c).
Proof.
  intros H [Hm Hr Hw] Hc. destruct sp as [m r w]. cbn in Hm, Hr, Hw. destruct c as [f rc wc | f | f b | f b | | c]; cbn [run_fd_call spec_fd_call].
  - destruct (set_fd_handler_ok h f rc wc H Hc) as (h' & E & Hwf & Hl & Hlook & Er & Ew & _). exists h'. split_and!; try done.
    rewrite Hm. destruct (lookup_event h f) as [e |] eqn:Ef; cbn [fmap option_fmap option_map].
    + split; cbn; [| congruence | congruence]. intros f'. rewrite Hm, Hlook. destruct (lookup_event h f') eqn:E'; [done |].
      by destruct (decide (f' = f)) as [-> |]; [congruence |].
    + split; cbn; [| congruence | congruence]. intros f'. rewrite Hlook. destruct (decide (f' = f)) as [-> | Hne].
      * by rewrite lookup_insert_eq, Ef.
      * rewrite lookup_insert_ne by congruence. rewrite Hm. by destruct (lookup_event h f').
  - destruct (delete_fd_handler_ok h f H) as (h' & E & Hwf & Hl & Hlook & Hsets). exists h'. split_and!; try done.
    rewrite Hm. destruct (lookup_event h f) as [e |] eqn:Ef; cbn [fmap option_fmap option_map].
    + destruct Hsets as (Er & Ew & _). split; cbn; [| congruence | congruence]. intros f'. rewrite Hlook.
      destruct (decide (f' = f)) as [-> | Hne]; [by rewrite lookup_delete_eq | rewrite lookup_delete_ne by congruence; apply Hm].
    + subst h'. by split.
  - destruct (set_readable_ok h f b H) as (h' & E & Hwf & Hl & Hlook & Ew & Er). exists h'. split_and!; try done.
    rewrite Hm. destruct (lookup_event h f) as [[f1 [rc |] wc] |]; cbn in *; split; cbn; try congruence; intros f'; by rewrite Hlook.
  - destruct (set_writable_ok h f b H) as (h' & E & Hwf & Hl & Hlook & Er & Ew). exists h'. split_and!; try done.
    rewrite Hm. destruct (lookup_event h f) as [[f1 rc [wc |]] |]; cbn in *; split; cbn; try congruence; intros f'; by rewrite Hlook.
  - exists (stop_event_handler h). split_and!; [done | by apply (sets_wf h); try apply H | by apply sets_later | by split].
  - unfold set_external_callback. destruct (external_callback h); cbn [snd].
    + exists h. split_and!; [done | done | apply later_refl | by split].
    + exists (put_external_callback h (Some c)). split_and!; [done | by apply (sets_wf h); try apply H | by apply sets_later | by split].
Qed.

Lemma fd_calls_sound h sp cs : wf_handler h -> represents h sp -> Forall fd_call_ok cs ->
  exists h', run_fd_calls h cs = Ok h' /\ wf_handler h' /\ later h h' /\ represents h' (foldl spec_fd_call sp cs).
Proof.
  revert h sp. induction cs as [| c cs IH]; intros h sp H Hrep Hall; cbn [run_fd_calls foldl].
  - exists h. split_and!; [done | done | apply later_refl | done].
  - apply Forall_cons in Hall as [Hc Hall]. destruct (fd_call_sound h sp c H Hrep Hc) as (h1 & E1 & H1 & L1 & R1).
    destruct (IH h1 _ H1 R1 Hall) as (h2 & E2 & H2 & L2 & R2). exists h2. rewrite E1. bind_ok. split_and!; try done. by eapply later_trans.
Qed.
End Calls.

(** * A turn of the loop *)

Section TurnOk.
Context {C W : Type}.
Implicit Types (h : event_handler C) (e : event_fd C) (f g : Z) (w : W) (log : list Z).

(** A callback changes the registrations by any of the calls. *)
Definition does_calls h (r : res (event_handler C * W)) : Prop :=
  exists h' w' cs, r = Ok (h', w') /\ Forall fd_call_ok cs /\ run_fd_calls h cs = Ok h'.

(** The descriptors to serve have callbacks. *)
Record serving h : Prop := {
  sv_read f : f ∈ current_read_set h -> served_by h f read_callback;
  sv_write f : f ∈ current_write_set h -> served_by h f write_callback
}.

Lemma does_calls_ok h r : wf_handler h -> does_calls h r -> exists h' w', r = Ok (h', w') /\ wf_handler h' /\ later h h'.
Proof.
  intros H (h' & w' & cs & -> & Hok & Hrun). exists h', w'. split; [done |].
  destruct (fd_calls_sound h (SpecHandler (list_to_map ((fun e => (fd e, callbacks_of e)) <$> event_list h)) (event_read_set h) (event_write_set h)) cs H)
    as (h1 & E & H1 & L1 & _); [| done |].
  2: { rewrite Hrun in E. by injection E as ->. }
  split; [| done | done]. intros f. cbn. pose proof (wh_indexed _ H) as Hx. symmetry.
  assert (Hnd : NoDup (fd <$> event_list h)).
  { apply NoDup_alt. intros i j x Hi Hj. apply list_lookup_fmap_Some in Hi as (e & -> & He). apply list_lookup_fmap_Some in Hj as (e' & E & He').
    by eapply indexed_unique. }
  destruct (lookup_event h f) as [e |] eqn:E; cbn.
  - symmetry. apply elem_of_list_to_map_1.
    + by rewrite <- list_fmap_compose.
    + apply list_elem_of_fmap. exists e. pose proof (lookup_event_fd _ _ _ Hx E) as <-. split; [done |].
      unfold lookup_event in E. destruct (position _ _) as [i |]; [| done]. by eapply list_elem_of_lookup_2.
  - symmetry. apply not_elem_of_list_to_map_1. rewrite <- list_fmap_compose. intros Hin.
    apply list_elem_of_fmap in Hin as (e & -> & He). apply list_elem_of_lookup in He as [i Hi].
    destruct (ix_entry _ _ Hx _ _ Hi) as [_ Hp]. unfold lookup_event in E. cbn in E. rewrite Hp in E. cbn in E. congruence.
Qed.

Lemma serving_later h h' : wf_handler h -> serving h -> later h h' -> serving h'.
Proof.
  intros H [Hr Hw] [Lr Lw Lp]. split; intros f Hf.
  - destruct (Hr f) as (e & He & Hg); [set_solver |]. unfold lookup_event in He. destruct (position (event_fd_set h) f) as [i |] eqn:Ei; [| done].
    destruct (Lp f i) as (j & Hj & _ & Ej); [set_solver | done |]. exists e. unfold lookup_event. rewrite Hj. cbn in *. by rewrite Ej.
  - destruct (Hw f) as (e & He & Hg); [set_solver |]. unfold lookup_event in He. destruct (position (event_fd_set h) f) as [i |] eqn:Ei; [| done].
    destruct (Lp f i) as (j & Hj & _ & Ej); [set_solver | done |]. exists e. unfold lookup_event. rewrite Hj. cbn in *. by rewrite Ej.
Qed.

(** The descriptors that are still to be served from place [i] on. *)
Definition at_or_after h (i : nat) f : bool := match position (event_fd_set h) f with Some j => Nat.leb i j | None => false end.
Definition waiting h (i : nat) : gset Z := filter (fun f => at_or_after h i f = true) (current_read_set h ∪ current_write_set h).
Definition pending h (i : nat) f : nat :=
  if at_or_after h i f then (if decide (f ∈ current_read_set h) then 1 else 0) + (if decide (f ∈ current_write_set h) then 1 else 0) else 0.

Lemma at_or_after_later h h' i j f : wf_handler h -> serving h -> later h h' -> (i <= j)%nat ->
  f ∈ current_read_set h' ∪ current_write_set h' -> at_or_after h' j f = true -> at_or_after h i f = true.
Proof.
  intros H Hs L Hij Hf. unfold at_or_after. assert (exists k, position (event_fd_set h) f = Some k) as [k Hk].
  { assert (exists e, lookup_event h f = Some e) as [e He].
    { pose proof (lt_read _ _ L). pose proof (lt_write _ _ L). apply elem_of_union in Hf as [Hf | Hf].
      - destruct (sv_read _ Hs f) as (e & He & _); [set_solver | by exists e].
      - destruct (sv_write _ Hs f) as (e & He & _); [set_solver | by exists e]. }
    unfold lookup_event in He. destruct (position (event_fd_set h) f) as [k |]; [by exists k | done]. }
  rewrite Hk. destruct (lt_place _ _ L f k Hf Hk) as (k' & -> & Hle & _). intros Hj. apply Nat.leb_le in Hj. apply Nat.leb_le. lia.
Qed.

Lemma waiting_later h h' i j : wf_handler h -> serving h -> later h h' -> (i <= j)%nat -> waiting h' j ⊆ waiting h i.
Proof.
  intros H Hs L Hij f Hf. unfold waiting in *. apply elem_of_filter in Hf as [Ha Hf]. apply elem_of_filter. split.
  - by eapply at_or_after_later.
  - pose proof (lt_read _ _ L). pose proof (lt_write _ _ L). set_solver.
Qed.

Lemma pending_later h h' i j f : wf_handler h -> serving h -> later h h' -> (i <= j)%nat -> (pending h' j f <= pending h i f)%nat.
Proof.
  intros H Hs L Hij. unfold pending. destruct (at_or_after h' j f) eqn:Ea; [| lia].
  pose proof (lt_read _ _ L) as Lr. pose proof (lt_write _ _ L) as Lw.
  destruct (decide (f ∈ current_read_set h')) as [Hr | Hr], (decide (f ∈ current_write_set h')) as [Hw | Hw]; try lia.
  all: rewrite (at_or_after_later h h' i j f) by (done || set_solver).
  all: repeat match goal with |- context [decide (?x ∈ ?s)] => destruct (decide (x ∈ s)) end; try lia; exfalso; set_solver.
Qed.

(** The loop does not come back to the place it has served. *)
Lemma served_not_pending h h' i e : wf_handler h -> serving h -> later h h' -> event_list h !! i = Some e ->
  let j := if same_event h' i e then S i else i in
  (i <= j)%nat /\ fd e ∉ waiting h' j /\ pending h' j (fd e) = O.
Proof.
  intros H Hs L Hi j. pose proof (wh_indexed _ H) as Hx. destruct (ix_entry _ _ Hx _ _ Hi) as [_ Hp].
  assert (Hij : (i <= j)%nat) by (unfold j; destruct (same_event h' i e); lia). split; [done |].
  assert (Hno : fd e ∈ current_read_set h' ∪ current_write_set h' -> at_or_after h' j (fd e) = false).
  { intros Hf. destruct (lt_place _ _ L _ _ Hf Hp) as (k & Hk & Hle & E). unfold at_or_after. rewrite Hk. apply Nat.leb_gt.
    unfold j, same_event. destruct (decide (k = i)) as [-> |].
    - rewrite E, Hi, Z.eqb_refl. lia.
    - destruct (event_list h' !! i) as [e' |]; [destruct (fd e =? fd e') |]; lia. }
  split.
  - unfold waiting. intros Hf. apply elem_of_filter in Hf as [Ha Hf]. rewrite Hno in Ha by done. done.
  - unfold pending. destruct (at_or_after h' j (fd e)) eqn:Ea; [| done].
    repeat match goal with |- context [decide (?f ∈ ?s)] => destruct (decide (f ∈ s)) end; try done.
    all: exfalso; enough (true = false) by done; apply Hno; set_solver.
Qed.

Context (call : C -> Z -> event_handler C -> W -> res (event_handler C * W)).
Context (call_ok : forall c f h w, wf_handler h -> does_calls h (call c f h w)).

(** The same callbacks, with a record of the descriptors they are called for. *)
Definition logged (c : C) f h (s : W * list Z) : res (event_handler C * (W * list Z)) :=
  let* (h, w) := call c f h s.1 in Ok (h, (w, s.2 ++ [f])).

Lemma call_ready_ok (ready : bool) callback f h (s : W * list Z) : wf_handler h -> (ready = true -> is_Some callback) ->
  exists h' w', call_ready logged ready callback f h s = Ok (h', (w', s.2 ++ (if ready then [f] else []))) /\ wf_handler h' /\ later h h' /\
    (ready = false -> h' = h).
Proof.
  intros H Hc. destruct ready; cbn [call_ready].
  - destruct (Hc eq_refl) as [c ->]. destruct (does_calls_ok h _ H (call_ok c f h s.1 H)) as (h' & w' & E & H' & L). exists h', w'.
    unfold logged. rewrite E. by bind_ok.
  - exists h, s.1. rewrite app_nil_r. destruct s. split; [done |]. split; [done |]. by split; [apply later_refl |].
Qed.

Lemma entries_length h : wf_handler h -> (length (event_list h) <= Z.to_nat FD_SETSIZE)%nat.
Proof.
  intros H. pose proof (wh_indexed _ H) as Hx.
  assert (Hnd : NoDup (fd <$> event_list h)).
  { apply NoDup_alt. intros i j x Hi Hj. apply list_lookup_fmap_Some in Hi as (e & -> & He). apply list_lookup_fmap_Some in Hj as (e' & E & He').
    by eapply indexed_unique. }
  assert (Hsub : fd <$> event_list h ⊆ seqZ 0 FD_SETSIZE).
  { intros x Hin. apply elem_of_seqZ. apply list_elem_of_fmap in Hin as (e & -> & He). apply list_elem_of_lookup in He as [i Hi].
    apply (ix_entry _ _ Hx) in Hi as [Hv _]. unfold valid_fd in Hv. lia. }
  apply (NoDup_submseteq _ _ Hnd) in Hsub. apply submseteq_length in Hsub. rewrite length_seqZ, length_fmap in Hsub. done.
Qed.

Lemma serve_loop_ok fuel h w log i (quota : Z -> nat) : wf_handler h -> serving h ->
  (size (waiting h i) * S (Z.to_nat FD_SETSIZE) + (length (event_list h) - i) < fuel)%nat ->
  (forall f, (count_occ Z.eq_dec log f + pending h i f <= quota f)%nat) ->
  exists h' w' log', serve_loop logged fuel h (w, log) i = Ok (h', (w', log')) /\ wf_handler h' /\
    forall f, (count_occ Z.eq_dec log' f <= quota f)%nat.
Proof.
  revert h w log i. induction fuel as [| fuel IH]; intros h w log i H Hs Hfuel Hq; [lia |]. cbn [serve_loop].
  destruct (event_list h !! i) as [e |] eqn:Hi.
  2: { exists h, w, log. split; [done |]. split; [done |]. intros f. specialize (Hq f). lia. }
  pose proof (wh_indexed _ H) as Hx. destruct (ix_entry _ _ Hx _ _ Hi) as [Hv Hp].
  assert (He : lookup_event h (fd e) = Some e) by (unfold lookup_event; by rewrite Hp).
  set (rw := bool_decide (fd e ∈ current_write_set h)).
  destruct (call_ready_ok rw (write_callback e) (fd e) h (w, log) H) as (h1 & w1 & E1 & H1 & L1 & S1).
  { intros Hr. apply bool_decide_eq_true_1 in Hr. destruct (sv_write _ Hs _ Hr) as (e' & He' & Hg). congruence. }
  rewrite E1. bind_ok. cbn [snd]. pose proof (serving_later _ _ H Hs L1) as Hs1. set (rr := bool_decide (fd e ∈ current_read_set h1)).
  destruct (call_ready_ok rr (read_callback e) (fd e) h1 (w1, log ++ if rw then [fd e] else []) H1) as (h2 & w2 & E2 & H2 & L2 & S2).
  { intros Hr. apply bool_decide_eq_true_1 in Hr. pose proof (lt_read _ _ L1). destruct (sv_read _ Hs (fd e)) as (e' & He' & Hg); [set_solver |]. congruence. }
  rewrite E2. bind_ok. cbn [snd]. pose proof (later_trans _ _ _ L1 L2) as L. pose proof (serving_later _ _ H1 Hs1 L2) as Hs2.
  destruct (served_not_pending h h2 i e H Hs L Hi) as (Hij & Hw & Hpend).
  set (j := if same_event h2 i e then S i else i) in *. pose proof (lookup_lt_Some _ _ _ Hi) as Hlt.
  apply IH; [done | done | |].
  - pose proof (entries_length h2 H2). pose proof (waiting_later h h2 i j H Hs L Hij) as Hsub.
    destruct (rw || rr) eqn:Er.
    + assert (Hin : fd e ∈ waiting h i).
      { unfold waiting. apply elem_of_filter. unfold at_or_after. rewrite Hp. split; [by apply Nat.leb_le |].
        apply orb_true_iff in Er as [Hr | Hr]; apply bool_decide_eq_true_1 in Hr; [set_solver |]. pose proof (lt_read _ _ L1). set_solver. }
      assert (Hlt2 : (size (waiting h2 j) < size (waiting h i))%nat) by (apply subset_size; set_solver). nia.
    + apply orb_false_iff in Er as [Hrw Hrr]. assert (E12 : h2 = h) by (rewrite S2 by done; by apply S1).
      assert (Ej : j = S i) by (unfold j, same_event; by rewrite E12, Hi, Z.eqb_refl).
      pose proof (subseteq_size _ _ Hsub). rewrite Ej, E12 in *. nia.
  - intros f. rewrite !count_occ_app. specialize (Hq f). destruct (decide (f = fd e)) as [-> | Hne].
    + rewrite Hpend. unfold pending, at_or_after in Hq. rewrite Hp, Nat.leb_refl in Hq.
      assert (Hc : forall b : bool, count_occ Z.eq_dec (if b then [fd e] else []) (fd e) = if b then 1%nat else O).
      { intros []; [| done]. cbn. by destruct (Z.eq_dec (fd e) (fd e)). }
      rewrite !Hc. unfold rw, rr. pose proof (lt_read _ _ L1).
      repeat case_bool_decide; repeat match goal with H : context [decide (?f ∈ ?s)] |- _ => destruct (decide (f ∈ s)) end; try lia; exfalso; set_solver.
    + assert (Hc : forall b : bool, count_occ Z.eq_dec (if b then [fd e] else []) f = O).
      { intros []; [| done]. cbn. by destruct (Z.eq_dec (fd e) f). }
      rewrite !Hc. pose proof (pending_later h h2 i j f H Hs L Hij). lia.
Qed.

(** ** Callbacks that keep the registrations *)

Definition keeps_events : Prop := forall c f h w h' w', call c f h w = Ok (h', w') ->
  event_list h' = event_list h /\ current_read_set h' = current_read_set h /\ current_write_set h' = current_write_set h.

Definition served_in_order (reads writes : gset Z) (l : list (event_fd C)) : list Z :=
  l ≫= fun e => (if bool_decide (fd e ∈ writes) then [fd e] else []) ++ (if bool_decide (fd e ∈ reads) then [fd e] else []).

Lemma call_ready_keeps (ready : bool) callback f h s h' s' : keeps_events -> call_ready logged ready callback f h s = Ok (h', s') ->
  event_list h' = event_list h /\ current_read_set h' = current_read_set h /\ current_write_set h' = current_write_set h /\
  s'.2 = s.2 ++ (if ready then [f] else []).
Proof.
  intros Hk. destruct ready; cbn [call_ready].
  - destruct callback as [c |]; [| done]. unfold logged. intros H. apply bind_inv in H as ([h1 w1] & H & [= <- <-]).
    destruct (Hk _ _ _ _ _ _ H) as (-> & -> & ->). by split_and!.
  - intros [= <- <-]. by rewrite app_nil_r.
Qed.

Lemma serve_loop_keeps fuel h w log i h' w' log' : keeps_events -> serve_loop logged fuel h (w, log) i = Ok (h', (w', log')) ->
  log' = log ++ served_in_order (current_read_set h) (current_write_set h) (drop i (event_list h)).
Proof.
  intros Hk. revert h w log i. induction fuel as [| fuel IH]; intros h w log i H; [done |]. cbn [serve_loop] in H.
  destruct (event_list h !! i) as [e |] eqn:Hi.
  2: { injection H as <- <- <-. rewrite drop_ge by by apply lookup_ge_None. by rewrite app_nil_r. }
  apply bind_inv in H as ([h1 [w1 log1]] & H1 & H). apply bind_inv in H as ([h2 [w2 log2]] & H2 & H).
  destruct (call_ready_keeps _ _ _ _ _ _ _ Hk H1) as (El1 & Er1 & Ew1 & E1).
  destruct (call_ready_keeps _ _ _ _ _ _ _ Hk H2) as (El2 & Er2 & Ew2 & E2). cbn [snd] in E1, E2.
  assert (Esame : same_event h2 i e = true) by (unfold same_event; by rewrite El2, El1, Hi, Z.eqb_refl). rewrite Esame in H.
  apply IH in H. rewrite H, E2, E1, El2, El1, Er2, Er1, Ew2, Ew1, (drop_S _ e i Hi). unfold served_in_order. cbn [mbind list_bind].
  by rewrite <- !app_assoc.
Qed.

(** ** The whole turn *)

Definition ready_count (reads writes : gset Z) f : nat := (if decide (f ∈ reads) then 1 else 0) + (if decide (f ∈ writes) then 1 else 0).

Lemma serve_fuel_enough h : wf_handler h ->
  (size (waiting h 0) * S (Z.to_nat FD_SETSIZE) + (length (event_list h) - 0) < serve_fuel h)%nat.
Proof.
  intros H. unfold serve_fuel. pose proof (entries_length h H).
  assert (Hs : (size (waiting h 0) <= size (current_read_set h ∪ current_write_set h))%nat).
  { apply subseteq_size. unfold waiting. intros f Hf. by apply elem_of_filter in Hf as [_ Hf]. }
  replace (Z.to_nat FD_SETSIZE + 1)%nat with (S (Z.to_nat FD_SETSIZE)) by lia. nia.
Qed.

Lemma turn_ready h w reads writes : wf_handler h -> reads ⊆ event_read_set h -> writes ⊆ event_write_set h ->
  let h1 := set_write_sets (set_read_sets h (event_read_set h) reads) (event_write_set h) writes in
  exists h' w' log, serve_loop logged (serve_fuel h1) h1 (w, []) 0 = Ok (h', (w', log)) /\ wf_handler h' /\
    (forall f, (count_occ Z.eq_dec log f <= ready_count reads writes f)%nat) /\
    (keeps_events -> log = served_in_order reads writes (event_list h)).
Proof.
  intros H Hr Hw h1. assert (H1 : wf_handler h1) by (by apply (sets_wf h); try apply H).
  assert (Hs1 : serving h1).
  { split; intros f Hf; [apply (wh_read _ H1) | apply (wh_write _ H1)]; cbn in Hf |- *; set_solver. }
  destruct (serve_loop_ok (serve_fuel h1) h1 w [] 0 (ready_count reads writes) H1 Hs1 (serve_fuel_enough h1 H1))
    as (h' & w' & log & E & H' & Hq).
  { intros f. cbn [count_occ]. unfold pending, ready_count. destruct (at_or_after h1 0 f); cbn; lia. }
  exists h', w', log. split; [done |]. split; [done |]. split; [done |]. intros Hk. by apply (serve_loop_keeps _ _ _ _ _ _ _ _ Hk) in E.
Qed.

Context (call_external : C -> event_handler C -> W -> res (event_handler C * W)).
Context (external_ok : forall c h w, wf_handler h -> does_calls h (call_external c h w)).

Definition external_logged (c : C) h (s : W * list Z) : res (event_handler C * (W * list Z)) :=
  let* (h, w) := call_external c h s.1 in Ok (h, (w, s.2)).

Definition after_external h w h1 w1 : Prop :=
  match external_callback h with
  | None => h1 = h /\ w1 = w
  | Some c => call_external c (put_external_callback h None) w = Ok (h1, w1)
  end.

Lemma external_phase h w : wf_handler h ->
  exists h1 w1, after_external h w h1 w1 /\ wf_handler h1 /\
    match external_callback h with
    | Some callback => external_logged callback (put_external_callback h None) (w, [])
    | None => Ok (h, (w, []))
    end = Ok (h1, (w1, [])).
Proof.
  intros H. unfold after_external. destruct (external_callback h) as [c |].
  - assert (H0 : wf_handler (put_external_callback h None)) by (by apply (sets_wf h); try apply H).
    destruct (does_calls_ok _ _ H0 (external_ok c _ w H0)) as (h1 & w1 & E & H1 & _). exists h1, w1. split; [done |]. split; [done |].
    unfold external_logged. cbn [fst snd]. rewrite E. by bind_ok.
  - by exists h, w.
Qed.
End TurnOk.

(** * Properties *)

Lemma init_handler_wf {C : Type} : wf_handler (init_event_handler (C := C) zero_event_handler).
Proof.
  split; cbn; try done.
  - split; [by rewrite length_replicate | done |]. intros f i. unfold position. destruct (decide (0 <= f)); [| done].
    intros Hi. apply bind_Some in Hi as (p & Hp & ->). by apply lookup_replicate in Hp as [? _].
  - intros f [e He]. apply bind_Some in He as (i & _ & He). done.
Qed.

(** The registrations of descriptors. From the start, any calls with
    descriptors below FD_SETSIZE succeed, and what is registered is what the
    same calls leave in a map from descriptors to callbacks and in two sets of
    descriptors that wait: a descriptor that has callbacks keeps them until it
    is deleted, a deleted one waits no longer, and only one that has the callback
    can wait. The array of entries, the pointers into it and the bound given to
    select stay consistent. *)
Theorem event_handler_refines {C : Type} (cs : list (fd_call (C := C))) :
  Forall fd_call_ok cs ->
  exists h, run_fd_calls (init_event_handler zero_event_handler) cs = Ok h /\ wf_handler h /\
    represents h (foldl spec_fd_call (SpecHandler ∅ ∅ ∅) cs).
Proof.
  intros Hcs. destruct (fd_calls_sound (init_event_handler zero_event_handler) (SpecHandler ∅ ∅ ∅) cs) as (h & E & H & _ & R); [| | done |].
  - apply init_handler_wf.
  - split; [| done | done]. intros f. cbn. rewrite lookup_empty. unfold lookup_event. cbn. by destruct (position _ f).
  - by exists h.
Qed.

(** C22. One turn of the event loop ends, whatever the callbacks do: they may
    register and delete any descriptors, their own and others that are ready, and
    the entries move while the loop goes over them. It serves only descriptors
    that select reported, each at most once for reading and once for writing, and
    keeps the registrations consistent. If the callbacks leave the registrations
    as they are, it serves all that are ready, in the order of the entries, for
    writing before reading. *)
Theorem run_event_handler_once_serves {C W : Type} (call : C -> Z -> event_handler C -> W -> res (event_handler C * W))
    (call_external : C -> event_handler C -> W -> res (event_handler C * W)) (select : Z -> gset Z -> gset Z -> select_result) h w :
  (forall c f h w, wf_handler h -> does_calls h (call c f h w)) ->
  (forall c h w, wf_handler h -> does_calls h (call_external c h w)) ->
  (forall n r w, match select n r w with Ready reads writes => reads ⊆ r /\ writes ⊆ w | SelectError _ => True end) ->
  wf_handler h ->
  exists ret h' w' log, run_event_handler_once (logged call) (external_logged call_external) select h (w, []) = Ok (ret, h', (w', log)) /\
    wf_handler h' /\
    exists h1 w1, after_external call_external h w h1 w1 /\
      match select (fd_set_size h1) (event_read_set h1) (event_write_set h1) with
      | SelectError interrupted => ret = interrupted /\ log = []
      | Ready reads writes => ret = true /\ (forall f, (count_occ Z.eq_dec log f <= ready_count reads writes f)%nat) /\
          (keeps_events call -> log = served_in_order reads writes (event_list h1))
      end.
Proof.
  intros Hcall Hext Hselect H. destruct (external_phase call_external Hext h w H) as (h1 & w1 & Ha & H1 & E).
  unfold run_event_handler_once. rewrite E. bind_ok.
  cbn [set_write_sets set_read_sets event_read_set event_write_set current_read_set current_write_set fd_set_size].
  pose proof (Hselect (fd_set_size h1) (event_read_set h1) (event_write_set h1)) as Hsel.
  assert (Hwf : forall a b, wf_handler (set_write_sets (set_read_sets h1 (event_read_set h1) a) (event_write_set h1) b))
    by (intros; by apply (sets_wf h1); try apply H1).
  destruct (select _ _ _) as [interrupted | reads writes] eqn:Es.
  - eexists _, _, w1, []. split; [reflexivity |]. split; [apply Hwf |]. exists h1, w1. rewrite Es. by split_and!.
  - destruct Hsel as [Hr Hw]. destruct (decide (reads ∪ writes = ∅)) as [Hempty |].
    + eexists _, _, w1, []. split; [reflexivity |]. split; [apply (Hwf reads writes) |]. exists h1, w1. rewrite Es. split; [done |].
      split; [done |]. split; [intros f; cbn; lia |]. intros _. symmetry. unfold served_in_order.
      replace reads with (∅ : gset Z) by set_solver. replace writes with (∅ : gset Z) by set_solver.
      clear. induction (event_list h1) as [| e l IH]; [done |]. cbn [mbind list_bind]. rewrite !bool_decide_eq_false_2 by set_solver. done.
    + destruct (turn_ready call Hcall h1 w1 reads writes H1 Hr Hw) as (h' & w' & log & El & H' & Hq & Hk).
      eexists _, h', w', log. split; [| split; [done |]].
      * cbv zeta in El. cbn [set_write_sets set_read_sets event_read_set event_write_set] in El |- *.
        unfold set_write_sets, set_read_sets in El |- *. cbn in El |- *. rewrite El. by bind_ok.
      * exists h1, w1. rewrite Es. by split_and!.
Qed.

(** * Witnesses *)

Definition sample_fd_calls : list (fd_call (C := Z)) :=
  [SetFdHandler 3 (Some 1) (Some 2); SetFdHandler 5 (Some 4) None; SetReadable 3 true; SetReadable 5 true; SetWritable 3 true;
   SetWritable 5 true; SetFdHandler 3 None None].

Lemma event_handler_refines_witness :
  Forall fd_call_ok sample_fd_calls /\
  exists h, run_fd_calls (init_event_handler zero_event_handler) sample_fd_calls = Ok h /\ wf_handler h /\
    represents h (SpecHandler (<[5 := (Some 4, None)]> (<[3 := (Some 1, Some 2)]> ∅)) {[5; 3]} {[3]}).
Proof.
  assert (Hok : Forall fd_call_ok sample_fd_calls) by (repeat constructor; done).
  split; [exact Hok |]. destruct (event_handler_refines sample_fd_calls Hok) as (h & E & H & R). exists h. split; [exact E |].
  split; [exact H |]. assert (Es : foldl spec_fd_call (SpecHandler ∅ ∅ ∅) sample_fd_calls =
    SpecHandler (<[5 := (Some 4, None)]> (<[3 := (Some 1, Some 2)]> ∅)) {[5; 3]} {[3]}) by (vm_compute; reflexivity).
  rewrite <- Es. exact R.
Defined.

(** A callback that deletes its own descriptor. *)
Definition sample_callback (c f : Z) (h : event_handler Z) (w : Z) : res (event_handler Z * Z) :=
  let* h := delete_fd_handler h f in Ok (h, w + c).
Definition sample_external (c : Z) (h : event_handler Z) (w : Z) : res (event_handler Z * Z) := Ok (h, w).
Definition select_all (n : Z) (r w : gset Z) : select_result := Ready r w.
Definition sample_handler : event_handler Z :=
  match run_fd_calls (init_event_handler zero_event_handler) sample_fd_calls with Ok h => h | Fault _ => zero_event_handler end.

(** Descriptor 5 is served once, 3 for writing only: it is deleted then. *)
Lemma run_event_handler_once_serves_witness :
  exists ret h' w' log, run_event_handler_once (logged sample_callback) (external_logged sample_external) select_all sample_handler (0, []) =
      Ok (ret, h', (w', log)) /\ wf_handler h' /\ (ret, event_list h', w', log) = (true, [], 6, [3; 5]).
Proof.
  assert (H : wf_handler sample_handler).
  { destruct event_handler_refines_witness as (_ & h & E & Hw & _). unfold sample_handler. rewrite E. exact Hw. }
  destruct (run_event_handler_once_serves sample_callback sample_external select_all sample_handler 0) as (ret & h' & w' & log & E & Hw & _).
  - intros c f h w Hh. destruct (delete_fd_handler_ok h f Hh) as (h' & E & _). exists h', (w + c), [DeleteFdHandler f].
    unfold sample_callback. cbn. rewrite E. split; [reflexivity |]. split; [by repeat constructor | reflexivity].
  - intros c h w Hh. exists h, w, []. split; [reflexivity |]. split; [constructor | reflexivity].
  - intros n r w. by split.
  - exact H.
  - exists ret, h', w', log. split; [exact E |]. split; [exact Hw |].
    assert (Hrun : is_okb (run_event_handler_once (logged sample_callback) (external_logged sample_external) select_all sample_handler (0, []))
      (fun p => let '(ret, h', (w', log)) := p in
        bool_decide ((ret, length (event_list h'), w', log) = (true, O, 6, [3; 5]))) = true) by (vm_compute; reflexivity).
    rewrite E in Hrun. cbn [is_okb] in Hrun. apply bool_decide_eq_true_1 in Hrun. injection Hrun as -> Hl -> ->.
    by destruct (event_list h').
Defined.
