(* ===== verification/Timer.v ===== *)
(** timer.c: callbacks that run when their time comes.

    The elements of the list keep their addresses: the loop of
    [execute_timer_events] holds pointers to elements while callbacks change the
    list.  A callback is a function pointer with its user data, of a type of the
    client.  The clock is an argument.  Seconds are a [time_t] of 64 bits, which
    no sum of the file leaves; the conversion to the [int] of microseconds wraps.
    DList.v has the functions of the list on its nodes. *)

From Stdlib Require Import ZArith Lia Bool Sorted Permutation.
From stdpp Require Import base list gmap.
From S2P Require Import Prelude.

Record timespec : Type := Timespec { tv_sec : Z; tv_nsec : Z }.

#[export] Instance timespec_eq_dec : EqDecision timespec.
Proof. solve_decision. Defined.

Implicit Types (t u now : timespec).

Definition VALID_TIMESPEC t : bool := (0 <? tv_sec t) || (0 <? tv_nsec t).

Definition ADD_TIMESPEC t u : timespec :=
  let sec := tv_sec t + tv_sec u in
  let nsec := tv_nsec t + tv_nsec u in
  if 1000000000 <=? nsec then Timespec (sec + 1) (nsec - 1000000000) else Timespec sec nsec.

Definition SUB_TIMESPEC t u : timespec :=
  let sec := tv_sec t - tv_sec u in
  let nsec := tv_nsec t - tv_nsec u in
  if nsec <? 0 then Timespec (sec - 1) (nsec + 1000000000) else Timespec sec nsec.

Definition TIMESPEC_LESS_THEN t u : bool :=
  if tv_sec t =? tv_sec u then tv_nsec t <? tv_nsec u else tv_sec t <? tv_sec u.

(** [( int ) x] *)
Definition int_of (x : Z) : Z := (x + 2 ^ 31) mod 2 ^ 32 - 2 ^ 31.

Definition TIMESPEC_TO_MICROSECONDS t : Z :=
  let round := ADD_TIMESPEC t (Timespec 0 999) in
  int_of (tv_sec round * 1000000 + tv_nsec round / 1000).

Section Timer.
Context {C : Type} `{EqDecision C}.

Record timer_callback_info : Type := TimerCallbackInfo {
  function : option C;
  expires_at : timespec;
  interval : timespec
}.

(** The elements after the head of [timer_callbacks]. *)
Abbreviation elements := (list (positive * timer_callback_info)).
Implicit Types (l : elements) (a : positive) (cb : timer_callback_info) (timer_callbacks : option elements).

Definition init_timer timer_callbacks : bool * option elements :=
  match timer_callbacks with
  | Some l => (false, Some l)
  | None => (true, Some [])
  end.

Definition finalize_timer timer_callbacks : bool * option elements := (true, None).

(** [element->data] *)
Fixpoint find_element l a : option timer_callback_info :=
  match l with
  | [] => None
  | (b, cb) :: l => if decide (b = a) then Some cb else find_element l a
  end.

Definition data l a : res timer_callback_info :=
  match find_element l a with Some cb => Ok cb | None => Fault OutOfBounds end.

(** [element->next] *)
Fixpoint next_element l a : option positive :=
  match l with
  | [] => None
  | (b, _) :: l => if decide (b = a) then fst <$> head l else next_element l a
  end.

(** A store to the data of an element. *)
Fixpoint set_data l a cb : elements :=
  match l with
  | [] => []
  | (b, cb0) :: l => if decide (b = a) then (b, cb) :: l else (b, cb0) :: set_data l a cb
  end.

Fixpoint delete_element l a : elements :=
  match l with
  | [] => []
  | (b, cb) :: l => if decide (b = a) then l else (b, cb) :: delete_element l a
  end.

(** Before the first element that expires later; [a] is the new element. *)
Fixpoint insert_at l a new_cb : elements :=
  match l with
  | [] => [(a, new_cb)]
  | (b, cb) :: l =>
    if TIMESPEC_LESS_THEN (expires_at new_cb) (expires_at cb) then (a, new_cb) :: (b, cb) :: l
    else (b, cb) :: insert_at l a new_cb
  end.

Definition insert_timer_callback l new_cb : elements := insert_at l (fresh (list_to_set l.*1 : gset positive)) new_cb.

(** [clock] is [None] when [clock_gettime] fails. *)
Definition add_timer_event_callback timer_callbacks (clock : option timespec) (it_interval it_value : timespec) (callback : C)
    : res (bool * option elements) :=
  match clock with
  | None => Ok (false, timer_callbacks)
  | Some now =>
    let new_cb expires_at := TimerCallbackInfo (Some callback) expires_at it_interval in
    let insert cb :=
      match timer_callbacks with
      | None => Fault AssertFailed
      | Some l => Ok (true, Some (insert_timer_callback l cb))
      end in
    if VALID_TIMESPEC it_value then insert (new_cb (ADD_TIMESPEC now it_value))
    else if VALID_TIMESPEC it_interval then insert (new_cb (ADD_TIMESPEC now it_interval))
    else Ok (false, timer_callbacks)
  end.

Definition add_periodic_event_callback timer_callbacks (clock : option timespec) (seconds : Z) (callback : C)
    : res (bool * option elements) :=
  add_timer_event_callback timer_callbacks clock (Timespec seconds 0) (Timespec 0 0) callback.

(** The element stays in the list, without a function. *)
Definition cleared : timer_callback_info := TimerCallbackInfo None (Timespec 0 0) (Timespec 0 0).

Fixpoint clear_first l (callback : C) : bool * elements :=
  match l with
  | [] => (false, [])
  | (b, cb) :: l =>
    if decide (function cb = Some callback) then (true, (b, cleared) :: l)
    else let '(found, l) := clear_first l callback in (found, (b, cb) :: l)
  end.

Definition delete_timer_event timer_callbacks (callback : C) : bool * option elements :=
  match timer_callbacks with
  | None => (false, None)
  | Some l => let '(found, l) := clear_first l callback in (found, Some l)
  end.

(** ** Execution *)

Section Execute.
(** The rest of the process, and what a callback does to both. *)
Context {W : Type} (call : C -> elements -> W -> res (elements * W)).

(** The callback can change its own element. *)
Definition on_timer l a now (w : W) : res (elements * W) :=
  let* callback := data l a in
  match function callback with
  | None => Fault AssertFailed
  | Some f =>
    if VALID_TIMESPEC (expires_at callback) then
      let* (l, w) := call f l w in
      let* callback := data l a in
      if VALID_TIMESPEC (interval callback) then
        let expires_at := ADD_TIMESPEC (expires_at callback) (interval callback) in
        let expires_at := if TIMESPEC_LESS_THEN expires_at now then now else expires_at in
        Ok (set_data l a (TimerCallbackInfo (function callback) expires_at (interval callback)), w)
      else Ok (set_data l a (TimerCallbackInfo None (Timespec 0 0) (interval callback)), w)
    else Ok (l, w)
  end.

Definition due cb now : bool :=
  match function cb with None => true | Some _ => negb (TIMESPEC_LESS_THEN now (expires_at cb)) end.

Fixpoint execute_loop (fuel : nat) l (element : option positive) now (w : W) : res (elements * W) :=
  match fuel with
  | O => Fault OutOfFuel
  | S fuel =>
    match element with
    | None => Ok (l, w)
    | Some a =>
      let element_next := next_element l a in
      let* callback := data l a in
      if negb (due callback now) then Ok (l, w)
      else
        let* (l, w) := match function callback with Some _ => on_timer l a now w | None => Ok (l, w) end in
        let* callback := data l a in
        let l := delete_element l a in
        let l := match function callback with None => l | Some _ => insert_timer_callback l callback end in
        execute_loop fuel l element_next now w
    end
  end.

Definition INT_MAX_SECONDS : Z := 2147.

Definition next_timeout l now : Z :=
  let max_timeout := Timespec INT_MAX_SECONDS 0 in
  let min_timeout := Timespec 0 0 in
  match l with
  | [] => TIMESPEC_TO_MICROSECONDS max_timeout
  | (_, callback) :: _ =>
    if TIMESPEC_LESS_THEN (expires_at callback) now then TIMESPEC_TO_MICROSECONDS min_timeout
    else
      let timeout := SUB_TIMESPEC (expires_at callback) now in
      if TIMESPEC_LESS_THEN timeout max_timeout then TIMESPEC_TO_MICROSECONDS timeout
      else TIMESPEC_TO_MICROSECONDS max_timeout
  end.

(** The microseconds to wait, the timers and the process. *)
Definition execute_timer_events (fuel : nat) timer_callbacks (clock : option timespec) (w : W) : res (Z * option elements * W) :=
  match clock, timer_callbacks with
  | Some now, Some l =>
    let* (l, w) := execute_loop fuel l (fst <$> head l) now w in
    Ok (next_timeout l now, Some l, w)
  | _, _ => Fault AssertFailed
  end.
End Execute.
End Timer.

#[global] Arguments timer_callback_info : clear implicits.

(** * Times *)

Definition normal t : Prop := 0 <= tv_sec t /\ 0 <= tv_nsec t < 1000000000.
Definition to_ns t : Z := tv_sec t * 1000000000 + tv_nsec t.

Lemma less_than_ns t u : normal t -> normal u -> TIMESPEC_LESS_THEN t u = (to_ns t <? to_ns u).
Proof.
  unfold normal, TIMESPEC_LESS_THEN, to_ns. intros Ht Hu. destruct (Z.eqb_spec (tv_sec t) (tv_sec u)) as [-> |]; lia.
Qed.

Lemma add_timespec_ns t u : normal t -> normal u -> normal (ADD_TIMESPEC t u) /\ to_ns (ADD_TIMESPEC t u) = to_ns t + to_ns u.
Proof.
  unfold normal, ADD_TIMESPEC, to_ns. intros Ht Hu. destruct (Z.leb_spec 1000000000 (tv_nsec t + tv_nsec u)); cbn [tv_sec tv_nsec]; lia.
Qed.

Lemma sub_timespec_ns t u : normal t -> normal u -> to_ns u <= to_ns t ->
  normal (SUB_TIMESPEC t u) /\ to_ns (SUB_TIMESPEC t u) = to_ns t - to_ns u.
Proof.
  unfold normal, SUB_TIMESPEC, to_ns. intros Ht Hu Hle. destruct (Z.ltb_spec (tv_nsec t - tv_nsec u) 0); cbn [tv_sec tv_nsec]; lia.
Qed.

Lemma valid_timespec_ns t : normal t -> VALID_TIMESPEC t = (0 <? to_ns t).
Proof. unfold normal, VALID_TIMESPEC, to_ns. intros Ht. lia. Qed.

Lemma microseconds_ns t : normal t -> tv_sec t <= INT_MAX_SECONDS -> to_ns t <= INT_MAX_SECONDS * 1000000000 ->
  let us := TIMESPEC_TO_MICROSECONDS t in 0 <= us /\ us * 1000 - 1000 < to_ns t <= us * 1000.
Proof.
  intros Ht Hs Hns us. assert (Hr : normal (Timespec 0 999)) by (unfold normal; cbn; lia).
  destruct (add_timespec_ns t (Timespec 0 999) Ht Hr) as [Hn E]. unfold us, TIMESPEC_TO_MICROSECONDS.
  set (r := ADD_TIMESPEC t (Timespec 0 999)) in *. unfold normal, to_ns, INT_MAX_SECONDS in *. cbn [tv_sec tv_nsec] in E.
  pose proof (Z.div_mod (tv_nsec r) 1000 ltac:(lia)). pose proof (Z.mod_pos_bound (tv_nsec r) 1000 ltac:(lia)).
  pose proof (Z.div_lt_upper_bound (tv_nsec r) 1000 1000000 ltac:(lia) ltac:(lia)). pose proof (Z.div_pos (tv_nsec r) 1000 ltac:(lia) ltac:(lia)).
  assert (E2 : int_of (tv_sec r * 1000000 + tv_nsec r / 1000) = tv_sec r * 1000000 + tv_nsec r / 1000).
  { unfold int_of. rewrite Z.mod_small; [lia |]. split; [lia |]. change (2 ^ 31) with 2147483648. change (2 ^ 32) with 4294967296. lia. }
  rewrite E2. lia.
Qed.

(** * Invariant *)

Section Invariant.
Context {C : Type} `{EqDecision C}.
Abbreviation elements := (list (positive * timer_callback_info C)).
Implicit Types (l : elements) (a b : positive) (cb : timer_callback_info C) (f g : C).

Definition live cb : Prop := is_Some (function cb).

Definition cb_ok cb : Prop :=
  match function cb with
  | Some _ => normal (expires_at cb) /\ 0 < to_ns (expires_at cb) /\ normal (interval cb)
  | None => expires_at cb = Timespec 0 0
  end.

(** The elements that have a function expire in the order of the list. *)
Definition in_order (x y : positive * timer_callback_info C) : Prop :=
  live x.2 -> live y.2 -> to_ns (expires_at x.2) <= to_ns (expires_at y.2).

Record wf_timers l : Prop := {
  wt_nodup : NoDup l.*1;
  wt_ok : Forall (fun x => cb_ok x.2) l;
  wt_sorted : StronglySorted in_order l
}.

Lemma cleared_ok : cb_ok (cleared (C := C)).
Proof. done. Qed.

(** ** Lists up to order *)

Lemma perm_NoDup l l' : l ≡ₚ l' -> NoDup l'.*1 -> NoDup l.*1.
Proof. intros H. apply (NoDup_Permutation_proper _ _ (fmap_Permutation fst _ _ H)). Qed.

Lemma perm_Forall (P : positive * timer_callback_info C -> Prop) l l' : l ≡ₚ l' -> Forall P l' -> Forall P l.
Proof. rewrite !Forall_forall. intros H Hall x Hx. apply Hall. by apply (elem_of_Permutation_proper x _ _ H). Qed.

(** ** Insertion *)

Lemma insert_at_elements l a cb : insert_at l a cb ≡ₚ (a, cb) :: l.
Proof.
  induction l as [| [b cb0] l IH]; [done |]. cbn [insert_at]. destruct (TIMESPEC_LESS_THEN _ _); [done |].
  etransitivity; [apply perm_skip, IH | apply perm_swap].
Qed.

(** The element goes in the first part of the list or in the second, behind
    the first element of the second. *)
Lemma insert_at_split pre post a cb : exists pre' post', insert_at (pre ++ post) a cb = pre' ++ post' /\
  fst <$> head post' = fst <$> head post /\
  (pre' = insert_at pre a cb /\ post' = post \/ pre' = pre ++ [(a, cb)] /\ post' = post \/ pre' = pre /\ post' ≡ₚ (a, cb) :: post).
Proof.
  induction pre as [| [b cb0] pre IH]; cbn [insert_at app].
  - destruct post as [| [b cb0] post]; cbn [insert_at].
    + exists [(a, cb)], []. split; [done |]. split; [done |]. by left.
    + destruct (TIMESPEC_LESS_THEN _ _) eqn:E.
      * exists [(a, cb)], ((b, cb0) :: post). split; [done |]. split; [done |]. by left.
      * exists [], ((b, cb0) :: insert_at post a cb). split; [done |]. split; [done |]. right. right. split; [done |].
        etransitivity; [apply perm_skip, insert_at_elements | apply perm_swap].
  - destruct (TIMESPEC_LESS_THEN _ _) eqn:E.
    + exists ((a, cb) :: (b, cb0) :: pre), post. split; [done |]. split; [done |]. by left.
    + destruct IH as (pre' & post' & E' & Eh & IH). exists ((b, cb0) :: pre'), post'. rewrite E'. split; [done |]. split; [done |].
      destruct IH as [[-> ->] | [[-> ->] | [-> Hp]]]; [by left | by right; left | by right; right].
Qed.

Lemma insert_at_sorted l a cb : Forall (fun x => cb_ok x.2) l -> StronglySorted in_order l -> cb_ok cb -> live cb ->
  StronglySorted in_order (insert_at l a cb).
Proof.
  intros Hok Hs Hcb Hlive. unfold cb_ok in Hcb. destruct (function cb) as [f |] eqn:Ef; [| destruct Hlive; congruence].
  destruct Hcb as (Hn & Hpos & _). induction Hs as [| [b cb0] l Hs IH Hall]; cbn [insert_at]; [by repeat constructor |].
  apply Forall_cons in Hok as [Hok0 Hok]. cbn [snd] in Hok0. specialize (IH Hok).
  assert (Hless : forall cb1, cb_ok cb1 -> live cb1 -> TIMESPEC_LESS_THEN (expires_at cb) (expires_at cb1) = (to_ns (expires_at cb) <? to_ns (expires_at cb1))).
  { intros cb1 Hcb1 [g Hg]. unfold cb_ok in Hcb1. rewrite Hg in Hcb1. destruct Hcb1 as (? & _). by apply less_than_ns. }
  destruct (TIMESPEC_LESS_THEN (expires_at cb) (expires_at cb0)) eqn:E.
  - assert (Hl0 : live cb0).
    { destruct (function cb0) as [g |] eqn:Eg; [by exists g |]. unfold cb_ok in Hok0. rewrite Eg in Hok0. rewrite Hok0 in E.
      unfold TIMESPEC_LESS_THEN in E. unfold normal in Hn. cbn in E. destruct (tv_sec (expires_at cb) =? 0); lia. }
    rewrite Hless in E by done. constructor; [by constructor |]. constructor; [intros _ _; cbn; lia |].
    eapply Forall_impl; [exact Hall |]. intros [c cb1] H1 _ Hl1. cbn in *. specialize (H1 Hl0 Hl1). cbn in H1. lia.
  - constructor; [done |]. eapply perm_Forall; [apply insert_at_elements |]. constructor; [| done]. intros Hl0 _. cbn [snd] in *. rewrite Hless in E by done. lia.
Qed.

Lemma fresh_element l : fresh (list_to_set l.*1 : gset positive) ∉ l.*1.
Proof. intros H. apply (is_fresh (list_to_set l.*1 : gset positive)). by apply elem_of_list_to_set. Qed.

Lemma insert_timer_wf l cb : wf_timers l -> cb_ok cb -> live cb -> wf_timers (insert_timer_callback l cb).
Proof.
  intros [Hnd Hok Hs] Hcb Hlive. unfold insert_timer_callback. set (a := fresh _). pose proof (insert_at_elements l a cb) as Hp. split.
  - apply (perm_NoDup _ _ Hp). cbn. constructor; [apply fresh_element | done].
  - apply (perm_Forall _ _ _ Hp). by constructor.
  - by apply insert_at_sorted.
Qed.

(** ** Deletion *)

Lemma clear_first_spec l f : exists l', (clear_first l f).2 = l' /\ l'.*1 = l.*1 /\
  Forall2 (fun x y => y = x \/ function x.2 = Some f /\ y.2 = cleared) l l'.
Proof.
  induction l as [| [b cb] l IH]; cbn [clear_first]; [by exists [] |].
  destruct (decide (function cb = Some f)) as [E | E].
  - exists ((b, cleared) :: l). split; [done |]. split; [done |]. constructor; [by right |]. clear. induction l as [| x l IHl]; constructor; [by left | done].
  - destruct IH as (l' & E' & Ed & Hf). destruct (clear_first l f) as [found l1]. cbn [snd] in E'. subst l1.
    exists ((b, cb) :: l'). cbn. split; [done |]. split; [by rewrite Ed |]. constructor; [by left | done].
Qed.

Lemma cleared_sorted l l' f : Forall2 (fun x y => y = x \/ function x.2 = Some f /\ y.2 = cleared) l l' ->
  StronglySorted in_order l -> StronglySorted in_order l'.
Proof.
  intros H Hs. induction H as [| x y l l' Hxy H IH]; [constructor |]. apply StronglySorted_inv in Hs as [Hs Hall]. constructor; [by apply IH |].
  clear IH Hs. induction H as [| x1 y1 l l' H1 H IH]; [constructor |]. apply Forall_cons in Hall as [Hx1 Hall]. constructor; [| by apply IH].
  intros Hly Hly1. destruct Hxy as [-> | [_ E]]; [| by rewrite E in Hly; destruct Hly].
  destruct H1 as [-> | [_ E]]; [by apply Hx1 | by rewrite E in Hly1; destruct Hly1].
Qed.

Lemma clear_first_wf l f : wf_timers l -> wf_timers (clear_first l f).2.
Proof.
  intros [Hnd Hok Hs]. destruct (clear_first_spec l f) as (l' & -> & Ed & Hf). split.
  - by rewrite Ed.
  - clear -Hf Hok. induction Hf as [| x y l l' Hxy H IH]; [constructor |]. apply Forall_cons in Hok as [Hx Hok].
    constructor; [| by apply IH]. destruct Hxy as [-> | [_ ->]]; [done | apply cleared_ok].
  - by eapply cleared_sorted.
Qed.

(** ** An element by its address *)

Lemma elem_keys l x : x ∈ l -> x.1 ∈ l.*1.
Proof. intros H. apply list_elem_of_fmap. by exists x. Qed.

Lemma find_element_Some l a cb : NoDup l.*1 -> find_element l a = Some cb <-> (a, cb) ∈ l.
Proof.
  induction l as [| [b cb0] l IH]; intros Hnd; cbn [find_element]; [split; [done | by intros ?%elem_of_nil] |].
  apply NoDup_cons in Hnd as [Hb Hnd]. rewrite elem_of_cons. destruct (decide (b = a)) as [-> |].
  - split; [intros [= ->]; by left |]. intros [[= ->] | H]; [done |]. by apply elem_keys in H.
  - rewrite IH by done. split; [by right |]. by intros [[= ->] | H].
Qed.

Lemma delete_element_spec l a cb : NoDup l.*1 -> (a, cb) ∈ l -> l ≡ₚ (a, cb) :: delete_element l a.
Proof.
  induction l as [| [b cb0] l IH]; intros Hnd Hin; [by apply elem_of_nil in Hin |]. cbn [delete_element]. apply NoDup_cons in Hnd as [Hb Hnd].
  apply elem_of_cons in Hin as [[= <- <-] | Hin]; [by rewrite decide_True |]. rewrite decide_False.
  - etransitivity; [apply perm_skip, (IH Hnd Hin) | apply perm_swap].
  - intros ->. by apply elem_keys in Hin.
Qed.

Lemma delete_element_sublist l a : delete_element l a `sublist_of` l.
Proof. induction l as [| [b cb] l IH]; cbn [delete_element]; [constructor |]. destruct (decide (b = a)); by constructor. Qed.

Lemma delete_element_app l1 l2 a : a ∈ l1.*1 -> delete_element (l1 ++ l2) a = delete_element l1 a ++ l2.
Proof.
  induction l1 as [| [b cb] l1 IH]; [by intros ?%elem_of_nil |]. intros Hin. cbn [app delete_element]. destruct (decide (b = a)); [done |].
  cbn [app]. f_equal. apply IH. by apply elem_of_cons in Hin as [-> |].
Qed.

Lemma sublist_Forall (P : positive * timer_callback_info C -> Prop) l l' : l' `sublist_of` l -> Forall P l -> Forall P l'.
Proof. rewrite !Forall_forall. intros H Hall x Hx. apply Hall. by eapply elem_of_sublist. Qed.

Lemma sublist_sorted l l' : l' `sublist_of` l -> StronglySorted in_order l -> StronglySorted in_order l'.
Proof.
  induction 1 as [| x l' l H IH | x l' l H IH]; intros Hs; [constructor | |]; apply StronglySorted_inv in Hs as [Hs Hall].
  - constructor; [by apply IH |]. by eapply sublist_Forall.
  - by apply IH.
Qed.

Lemma delete_element_wf l a : wf_timers l -> wf_timers (delete_element l a).
Proof.
  intros [Hnd Hok Hs]. pose proof (delete_element_sublist l a) as Hsub. split.
  - eapply sublist_NoDup; [exact Hnd |]. clear -Hsub. induction Hsub; by constructor.
  - by eapply sublist_Forall.
  - by eapply sublist_sorted.
Qed.

Lemma next_element_split pre a cb post : a ∉ pre.*1 -> next_element (pre ++ (a, cb) :: post) a = fst <$> head post.
Proof.
  induction pre as [| [b cb0] pre IH]; intros Hn; cbn [app next_element]; [by rewrite decide_True |].
  apply not_elem_of_cons in Hn as [Hb Hn]. cbn in Hb. rewrite decide_False by congruence. by apply IH.
Qed.

Lemma set_data_delete l a cb : delete_element (set_data l a cb) a = delete_element l a.
Proof.
  induction l as [| [b cb0] l IH]; [done |]. cbn [set_data]. destruct (decide (b = a)) as [-> |] eqn:E; cbn [delete_element].
  - by rewrite !decide_True.
  - rewrite !decide_False by done. by rewrite IH.
Qed.

Lemma set_data_find l a cb cb' : find_element l a = Some cb -> find_element (set_data l a cb') a = Some cb'.
Proof.
  induction l as [| [b cb0] l IH]; [done |]. cbn [find_element set_data]. destruct (decide (b = a)) as [-> |]; cbn [find_element].
  - by rewrite decide_True.
  - rewrite decide_False by done. apply IH.
Qed.
End Invariant.

(** * What callbacks do to the timers *)

Section Calls.
Context {C : Type} `{EqDecision C}.
Abbreviation elements := (list (positive * timer_callback_info C)).
Implicit Types (l pre post : elements) (a b : positive) (cb : timer_callback_info C) (f g : C).

Inductive timer_call : Type :=
| AddTimer (clock : option timespec) (it_interval it_value : timespec) (callback : C)
| DeleteTimer (callback : C).

Definition run_timer_call l (c : timer_call) : res elements :=
  match c with
  | AddTimer clock it_interval it_value callback =>
    let* (_, timer_callbacks) := add_timer_event_callback (Some l) clock it_interval it_value callback in Ok (default [] timer_callbacks)
  | DeleteTimer callback => Ok (default [] (delete_timer_event (Some l) callback).2)
  end.

Fixpoint run_timer_calls l (cs : list timer_call) : res elements :=
  match cs with
  | [] => Ok l
  | c :: cs => let* l := run_timer_call l c in run_timer_calls l cs
  end.

(** The clock does not go back, and the times are normal. *)
Definition timer_call_ok now (c : timer_call) : Prop :=
  match c with
  | AddTimer clock it_interval it_value _ =>
    normal it_interval /\ normal it_value /\ match clock with Some u => normal u /\ to_ns now <= to_ns u | None => True end
  | DeleteTimer _ => True
  end.

(** A part of the list after calls that delete functions of [D]. *)
Record segment now (D : C -> Prop) l l' : Prop := {
  sg_old b cb' : (b, cb') ∈ l' -> (exists cb, (b, cb) ∈ l /\ (cb' = cb \/ cb' = cleared)) \/ (live cb' -> to_ns now < to_ns (expires_at cb')) /\ cb_ok cb';
  sg_kept b cb : (b, cb) ∈ l -> (b, cb) ∈ l' \/ exists f, function cb = Some f /\ D f /\ (b, cleared) ∈ l'
}.

Lemma segment_refl now D l : segment now D l l.
Proof. split; [intros b cb H; left; exists cb; by split; [| left] | by left]. Qed.

Lemma segment_trans now D l l1 l2 : segment now D l l1 -> segment now D l1 l2 -> segment now D l l2.
Proof.
  intros [O1 K1] [O2 K2]. split.
  - intros b cb2 H2. destruct (O2 _ _ H2) as [(cb1 & H1 & E2) |]; [| by right].
    destruct (O1 _ _ H1) as [(cb & H & E1) | [Hn Hok]].
    + left. exists cb. split; [done |]. destruct E2 as [-> | ->]; [done | by right].
    + right. destruct E2 as [-> | ->]; [done |]. split; [by intros [? ?] | done].
  - intros b cb H. destruct (K1 _ _ H) as [H1 | (f & Hf & HD & H1)].
    + by apply K2.
    + right. exists f. split; [done |]. split; [done |]. destruct (K2 _ _ H1) as [H2 | (g & Hg & _)]; done.
Qed.

(** How often an element can still run at the time [now]. *)
Definition runs now cb : nat :=
  match function cb with
  | None => 0
  | Some _ => if to_ns (expires_at cb) <? to_ns now then 2 else if to_ns (expires_at cb) =? to_ns now then 1 else 0
  end.

(** The same for all the elements but [a]. *)
Definition other_runs now a l : nat := sum_list_with (fun x => if decide (x.1 = a) then O else runs now x.2) l.

Lemma other_runs_perm now a l l' : l ≡ₚ l' -> other_runs now a l = other_runs now a l'.
Proof. unfold other_runs. induction 1; cbn; lia. Qed.

Lemma other_runs_app now a l l' : other_runs now a (l ++ l') = (other_runs now a l + other_runs now a l')%nat.
Proof. apply sum_list_with_app. Qed.

Lemma head_address l l' : l.*1 = l'.*1 -> fst <$> head l = fst <$> head l'.
Proof. destruct l as [| [] l], l' as [| [] l']; cbn; congruence. Qed.

(** What calls do to two parts of the list; the second keeps its first address. *)
Definition splits now (D : C -> Prop) pre post (r : res elements) : Prop :=
  exists pre' post', r = Ok (pre' ++ post') /\ wf_timers (pre' ++ post') /\ fst <$> head post' = fst <$> head post /\
    segment now D pre pre' /\ segment now D post post' /\
    forall a, (other_runs now a (pre' ++ post') <= other_runs now a (pre ++ post))%nat.

Lemma splits_nothing now D pre post : wf_timers (pre ++ post) -> splits now D pre post (Ok (pre ++ post)).
Proof. intros H. exists pre, post. split_and!; try done; apply segment_refl. Qed.

Lemma segment_insert now D l l' a cb : l' ≡ₚ (a, cb) :: l -> cb_ok cb -> to_ns now < to_ns (expires_at cb) -> segment now D l l'.
Proof.
  intros Hp Hok Hlt. split.
  - intros b cb' H. apply (elem_of_Permutation_proper _ _ _ Hp), elem_of_cons in H as [[= -> ->] | H].
    + by right.
    + left. exists cb'. by split; [| left].
  - intros b cb' H. left. apply (elem_of_Permutation_proper _ _ _ Hp). by right.
Qed.

Lemma insert_splits now D pre post cb : wf_timers (pre ++ post) -> cb_ok cb -> live cb -> to_ns now < to_ns (expires_at cb) ->
  splits now D pre post (Ok (insert_timer_callback (pre ++ post) cb)).
Proof.
  intros H Hok Hlive Hlt. pose proof (insert_timer_wf _ _ H Hok Hlive) as H'. revert H'. unfold insert_timer_callback.
  set (a := fresh _). destruct (insert_at_split pre post a cb) as (pre' & post' & E & Eh & Hcase). intros H'. exists pre', post'.
  split; [by rewrite E |]. split; [by rewrite <- E |]. split; [done |].
  assert (Hruns : runs now cb = O).
  { unfold runs. destruct (function cb); [| done]. replace (to_ns (expires_at cb) <? to_ns now) with false by lia.
    by replace (to_ns (expires_at cb) =? to_ns now) with false by lia. }
  split; [| split].
  - destruct Hcase as [[-> ->] | [[-> ->] | [-> Hp]]]; [| | apply segment_refl]; eapply segment_insert; try done.
    + apply insert_at_elements.
    + symmetry. apply Permutation_cons_append.
  - destruct Hcase as [[-> ->] | [[-> ->] | [-> Hp]]]; [apply segment_refl.. |]. by eapply segment_insert.
  - intros x. rewrite <- E. rewrite (other_runs_perm _ _ _ _ (insert_at_elements (pre ++ post) a cb)). cbn. rewrite Hruns.
    destruct (decide (a = x)); done.
Qed.

Lemma cleared_segment now f l l' : Forall2 (fun x y => y = x \/ function x.2 = Some f /\ y.2 = cleared) l l' -> l'.*1 = l.*1 ->
  segment now (fun g => g = f) l l' /\ forall a, (other_runs now a l' <= other_runs now a l)%nat.
Proof.
  induction 1 as [| [b cb] [b' cb'] l l' Hxy H IH]; [by split; [apply segment_refl |] |]. cbn. intros [= -> E].
  destruct (IH E) as [[O K] Hr]. split.
  - split.
    + intros c x [[= -> ->] | Hx]%elem_of_cons.
      * left. exists cb. split; [by left |]. destruct Hxy as [[= ->] | [_ Ex]]; [by left | by right].
      * destruct (O _ _ Hx) as [(y & Hy & Hxy') |]; [| by right]. left. exists y. split; [by right | done].
    + intros c x [[= -> ->] | Hx]%elem_of_cons.
      * destruct Hxy as [[= ->] | [Hf Ex]]; [left; by left |]. cbn in Hf, Ex. subst cb'. right. exists f. split_and!; [done | done | by left].
      * destruct (K _ _ Hx) as [Hk | (g & Hg & -> & Hk)]; [left; by right |]. right. exists f. split_and!; [done | done | by right].
  - intros a. specialize (Hr a). cbn. destruct (decide (b = a)); [done |]. destruct Hxy as [[= ->] | [_ Ex]]; [unfold other_runs in *; lia |]. cbn in Ex. subst cb'. cbn. unfold other_runs in *. lia.
Qed.

Lemma clear_splits now pre post f : wf_timers (pre ++ post) -> splits now (fun g => g = f) pre post (Ok (clear_first (pre ++ post) f).2).
Proof.
  intros H. pose proof (clear_first_wf _ f H) as H'. destruct (clear_first_spec (pre ++ post) f) as (l' & E & Ed & Hf). rewrite E in *.
  apply Forall2_app_inv_l in Hf as (pre' & post' & Hpre & Hpost & ->). rewrite !fmap_app in Ed.
  apply app_inj_1 in Ed as [Ed1 Ed2]; [| rewrite !length_fmap; symmetry; by eapply Forall2_length].
  destruct (cleared_segment now f _ _ Hpre Ed1) as [S1 R1], (cleared_segment now f _ _ Hpost Ed2) as [S2 R2].
  exists pre', post'. split_and!; try done; [by apply head_address |]. intros a. rewrite !other_runs_app. specialize (R1 a). specialize (R2 a). lia.
Qed.

Definition deletes (c : timer_call) f : Prop := match c with DeleteTimer g => g = f | AddTimer _ _ _ _ => False end.

Lemma segment_weaken now (D D' : C -> Prop) l l' : (forall f, D f -> D' f) -> segment now D l l' -> segment now D' l l'.
Proof.
  intros H [O K]. split; [done |]. intros b cb Hb. destruct (K _ _ Hb) as [| (f & Hf & HD & Hk)]; [by left |]. right. exists f. by auto.
Qed.

Lemma splits_weaken now (D D' : C -> Prop) pre post r : (forall f, D f -> D' f) -> splits now D pre post r -> splits now D' pre post r.
Proof.
  intros H (pre' & post' & E & Hw & Eh & S1 & S2 & R). exists pre', post'. split_and!; try done; by eapply segment_weaken.
Qed.

Lemma timer_call_splits now (D : C -> Prop) pre post c : 0 <= to_ns now -> wf_timers (pre ++ post) -> timer_call_ok now c -> (forall f, deletes c f -> D f) ->
  splits now D pre post (run_timer_call (pre ++ post) c).
Proof.
  intros Hnow H Hc HD. destruct c as [clock i v f | f]; cbn [run_timer_call].
  - destruct Hc as (Hi & Hv & Hclock). unfold add_timer_event_callback. destruct clock as [u |]; [| by apply splits_nothing].
    destruct Hclock as [Hu Hle]. rewrite !valid_timespec_ns by done.
    assert (Hadd : forall x, normal x -> (0 <? to_ns x) = true -> splits now D pre post
      (Ok (insert_timer_callback (pre ++ post) (TimerCallbackInfo (Some f) (ADD_TIMESPEC u x) i)))).
    { intros x Hx Hpos. destruct (add_timespec_ns u x Hu Hx) as [Hn E]. apply insert_splits; [done | | by eexists |]; cbn [expires_at cb_ok function interval]; [| lia].
      unfold cb_ok. cbn. split_and!; [done | lia | done]. }
    destruct (0 <? to_ns v) eqn:E1; [bind_ok; cbn; by apply Hadd |]. destruct (0 <? to_ns i) eqn:E2; [bind_ok; cbn; by apply Hadd |].
    bind_ok. by apply splits_nothing.
  - unfold delete_timer_event. destruct (clear_first (pre ++ post) f) as [found l] eqn:E. cbn. pose proof (clear_splits now pre post f H) as Hs.
    rewrite E in Hs. eapply splits_weaken; [| exact Hs]. intros g ->. by apply HD.
Qed.

Lemma timer_calls_split now (D : C -> Prop) pre post cs : 0 <= to_ns now -> wf_timers (pre ++ post) -> Forall (timer_call_ok now) cs ->
  (forall c f, c ∈ cs -> deletes c f -> D f) -> splits now D pre post (run_timer_calls (pre ++ post) cs).
Proof.
  intros Hnow H Hcs. revert pre post H. induction Hcs as [| c cs Hc Hcs IH]; intros pre post H HD; cbn [run_timer_calls]; [by apply splits_nothing |].
  destruct (timer_call_splits now D pre post c Hnow H Hc) as (pre1 & post1 & E1 & H1 & Eh1 & S1 & T1 & R1); [intros f; apply HD; by left |].
  rewrite E1. bind_ok. destruct (IH pre1 post1 H1) as (pre2 & post2 & E2 & H2 & Eh2 & S2 & T2 & R2); [intros c' f Hin; apply HD; by right |].
  exists pre2, post2. split_and!; try done; [congruence | by eapply segment_trans | by eapply segment_trans |].
  intros a. specialize (R1 a). specialize (R2 a). lia.
Qed.
End Calls.

(** * Execution *)

Section Execution.
Context {C W : Type} `{EqDecision C}.
Abbreviation elements := (list (positive * timer_callback_info C)).
Implicit Types (l pre post : elements) (a b : positive) (cb : timer_callback_info C) (f g : C) (w : W) (log : list C).

Definition total_runs now l : nat := sum_list_with (fun x => runs now x.2) l.

Lemma total_runs_perm now l l' : l ≡ₚ l' -> total_runs now l = total_runs now l'.
Proof. unfold total_runs. induction 1; cbn; lia. Qed.

Lemma other_runs_absent now a l : a ∉ l.*1 -> other_runs now a l = total_runs now l.
Proof.
  unfold other_runs, total_runs. induction l as [| [b cb] l IH]; [done |]. intros [Hb Hn]%not_elem_of_cons. cbn in *.
  rewrite decide_False by congruence. by rewrite IH.
Qed.

Lemma runs_without now l a cb : NoDup l.*1 -> (a, cb) ∈ l ->
  total_runs now (delete_element l a) = other_runs now a l /\ total_runs now l = (runs now cb + other_runs now a l)%nat.
Proof.
  intros Hnd Hin. pose proof (delete_element_spec l a cb Hnd Hin) as Hp.
  pose proof (proj1 (NoDup_Permutation_proper _ _ (fmap_Permutation fst _ _ Hp)) Hnd) as Hnd'. cbn in Hnd'. apply NoDup_cons in Hnd' as [Ha _].
  assert (E : other_runs now a l = total_runs now (delete_element l a)).
  { rewrite (other_runs_perm _ _ _ _ Hp). cbn. rewrite decide_True by done. by apply (other_runs_absent now a). }
  split; [done |]. rewrite E, (total_runs_perm _ _ _ Hp). done.
Qed.

Lemma deleted_absent l a cb : NoDup l.*1 -> (a, cb) ∈ l -> a ∉ (delete_element l a).*1.
Proof.
  intros Hnd Hin. pose proof (delete_element_spec l a cb Hnd Hin) as Hp.
  pose proof (proj1 (NoDup_Permutation_proper _ _ (fmap_Permutation fst _ _ Hp)) Hnd) as Hnd'. by apply NoDup_cons in Hnd' as [Ha _].
Qed.

Lemma same_data l a cb cb' : NoDup l.*1 -> (a, cb) ∈ l -> (a, cb') ∈ l -> cb = cb'.
Proof. intros Hnd H1 H2. apply (find_element_Some l a _ Hnd) in H1, H2. congruence. Qed.

(** Not due, or without a function. *)
Definition late now (x : positive * timer_callback_info C) : Prop := live x.2 -> to_ns now <= to_ns (expires_at x.2).

Definition due_function now l f : Prop := exists x, x ∈ l /\ function x.2 = Some f /\ to_ns (expires_at x.2) <= to_ns now.

Section Run.
Context (call : C -> elements -> W -> res (elements * W)) (now : timespec) (D : C -> Prop).
Context (now_normal : normal now).

(** A callback adds timers and deletes those of [D]. *)
Definition does_timer_calls l (r : res (elements * W)) : Prop :=
  exists l' w' cs, r = Ok (l', w') /\ Forall (timer_call_ok now) cs /\ (forall c f, c ∈ cs -> deletes c f -> D f) /\
    run_timer_calls l cs = Ok l'.
Context (call_ok : forall f l w, wf_timers l -> does_timer_calls l (call f l w)).

Definition logged_timer (f : C) l (s : W * list C) : res (elements * (W * list C)) :=
  let* (l, w) := call f l s.1 in Ok (l, (w, s.2 ++ [f])).

Lemma now_nonneg : 0 <= to_ns now.
Proof. unfold normal in now_normal. unfold to_ns. lia. Qed.

(** ** The data of an element after its function has run *)

Definition rescheduled cb : timer_callback_info C :=
  if VALID_TIMESPEC (interval cb) then
    let expires_at := ADD_TIMESPEC (expires_at cb) (interval cb) in
    TimerCallbackInfo (function cb) (if TIMESPEC_LESS_THEN expires_at now then now else expires_at) (interval cb)
  else TimerCallbackInfo None (Timespec 0 0) (interval cb).

Lemma rescheduled_ok cb : cb_ok cb -> function cb <> None -> to_ns (expires_at cb) <= to_ns now ->
  cb_ok (rescheduled cb) /\ late now (1%positive, rescheduled cb) /\ (runs now (rescheduled cb) < runs now cb)%nat /\
  (function (rescheduled cb) = None \/ function (rescheduled cb) = function cb).
Proof.
  intros Hok Hf Hle. unfold cb_ok in Hok. destruct (function cb) as [f |] eqn:Ef; [| done]. destruct Hok as (Hn & Hpos & Hi).
  unfold rescheduled. rewrite valid_timespec_ns by done.
  assert (Hruns : (0 < runs now cb)%nat) by (unfold runs; rewrite Ef; destruct (Z.ltb_spec (to_ns (expires_at cb)) (to_ns now)); [lia |];
    destruct (Z.eqb_spec (to_ns (expires_at cb)) (to_ns now)); lia).
  destruct (Z.ltb_spec 0 (to_ns (interval cb))) as [Hpi | Hpi].
  2: { split_and!; [done | by intros [? ?] | done | by left]. }
  destruct (add_timespec_ns _ _ Hn Hi) as [Hadd Ens]. rewrite less_than_ns by done. rewrite Ef.
  destruct (Z.ltb_spec (to_ns (ADD_TIMESPEC (expires_at cb) (interval cb))) (to_ns now)) as [Hlt | Hlt].
  - split_and!; [| by intros _; cbn | | by right].
    + unfold cb_ok. cbn. split_and!; [done | lia | done].
    + unfold runs. rewrite Ef. cbn. rewrite Z.ltb_irrefl, Z.eqb_refl. replace (to_ns (expires_at cb) <? to_ns now) with true by lia. lia.
  - split_and!; [| by intros _; cbn | | by right].
    + unfold cb_ok. cbn. split_and!; [done | lia | done].
    + unfold runs. rewrite Ef. cbn. replace (to_ns (ADD_TIMESPEC (expires_at cb) (interval cb)) <? to_ns now) with false by lia.
      destruct (Z.ltb_spec (to_ns (expires_at cb)) (to_ns now)); destruct (Z.eqb_spec (to_ns (ADD_TIMESPEC (expires_at cb) (interval cb))) (to_ns now)); try lia.
      all: destruct (Z.eqb_spec (to_ns (expires_at cb)) (to_ns now)); lia.
Qed.

(** ** A visit of an element that is due *)

(** The list after the visit, in two parts: what has been gone over, and what is
    still to be, from the element that followed. *)
Record visited l post l3 pre3 post3 : Prop := {
  vs_list : l3 = pre3 ++ post3;
  vs_wf : wf_timers l3;
  vs_head : fst <$> head post3 = fst <$> head post;
  vs_late : Forall (late now) pre3;
  vs_kept b cb : (b, cb) ∈ post -> (b, cb) ∈ post3 \/ exists f, function cb = Some f /\ D f;
  vs_due f : due_function now l3 f -> due_function now l f
}.

Definition put_back l a cb : elements :=
  match function cb with None => delete_element l a | Some _ => insert_timer_callback (delete_element l a) cb end.

Lemma put_back_visited l pre a cb post l1 pre1 post1 x cb1 :
  l = pre ++ (a, cb) :: post -> wf_timers l -> Forall (late now) pre -> wf_timers l1 -> l1 = pre1 ++ post1 ->
  fst <$> head post1 = fst <$> head post -> segment now D (pre ++ [(a, cb)]) pre1 -> segment now D post post1 ->
  (a, cb1) ∈ pre1 -> cb_ok x -> late now (a, x) ->
  (forall f, function x = Some f -> function cb = Some f /\ to_ns (expires_at cb) <= to_ns now) ->
  exists pre3 post3, visited l post (put_back (set_data l1 a x) a x) pre3 post3 /\
    total_runs now (put_back (set_data l1 a x) a x) = (runs now x + other_runs now a l1)%nat.
Proof.
  intros El H Hlate H1 E1 Eh S1 S2 Ha Hok Hlx Hfx.
  assert (Hin1 : (a, cb1) ∈ l1) by (rewrite E1; apply elem_of_app; by left).
  destruct (runs_without now l1 a cb1 (wt_nodup _ H1) Hin1) as [Er _].
  assert (Ed : delete_element l1 a = delete_element pre1 a ++ post1).
  { rewrite E1. apply delete_element_app. by apply elem_keys in Ha. }
  pose proof (delete_element_wf l1 a H1) as Hd. pose proof (deleted_absent l1 a cb1 (wt_nodup _ H1) Hin1) as Habs. rewrite Ed in Habs, Hd.
  assert (Hpre1 : forall b c, (b, c) ∈ delete_element pre1 a -> late now (b, c) /\
    (live c -> to_ns (expires_at c) <= to_ns now -> (b, c) ∈ l)).
  { intros b c Hc. assert (Hba : b <> a). { intros ->. apply Habs. rewrite fmap_app. apply elem_of_app. left. by apply elem_keys in Hc. }
    assert (Hc' : (b, c) ∈ pre1) by (eapply elem_of_sublist; [exact Hc | apply delete_element_sublist]).
    destruct (sg_old _ _ _ _ S1 _ _ Hc') as [(c0 & Hc0 & Ec) | [Hnew _]].
    - apply elem_of_app in Hc0 as [Hc0 | Hc0%list_elem_of_singleton]; [| by injection Hc0 as -> _].
      destruct Ec as [-> | ->]; [| split; by intros [? ?]]. rewrite Forall_forall in Hlate. split; [by apply Hlate |].
      intros _ _. rewrite El. apply elem_of_app. by left.
    - split; [intros Hl; specialize (Hnew Hl); cbn; lia |]. intros Hl Hle. specialize (Hnew Hl). lia. }
  assert (Hpost1 : forall b c, (b, c) ∈ post1 -> live c -> to_ns (expires_at c) <= to_ns now -> (b, c) ∈ l).
  { intros b c Hc Hl Hle. destruct (sg_old _ _ _ _ S2 _ _ Hc) as [(c0 & Hc0 & Ec) | [Hnew _]]; [| specialize (Hnew Hl); lia].
    destruct Ec as [-> | ->]; [| by destruct Hl]. rewrite El. apply elem_of_app. right. by right. }
  assert (Hkept : forall b c, (b, c) ∈ post -> (b, c) ∈ post1 \/ exists f, function c = Some f /\ D f).
  { intros b c Hc. destruct (sg_kept _ _ _ _ S2 _ _ Hc) as [| (f & Hf & HD & _)]; [by left | right; by exists f]. }
  assert (Hlate1 : Forall (late now) (delete_element pre1 a)) by (apply Forall_forall; intros [b c] Hc; by apply Hpre1).
  unfold put_back. rewrite set_data_delete, Ed. rewrite Ed in Er. destruct (function x) as [f |] eqn:Ef.
  - assert (Hlive : live x) by by exists f. destruct (insert_at_split (delete_element pre1 a) post1
      (fresh (list_to_set (delete_element pre1 a ++ post1).*1 : gset positive)) x) as (pre3 & post3 & E3 & Eh3 & Hcase).
    exists pre3, post3. unfold insert_timer_callback. rewrite E3. split.
    + assert (Hp3 : forall y, y ∈ pre3 ++ post3 -> y.2 = x \/ y ∈ delete_element pre1 a \/ y ∈ post1).
      { intros y Hy. rewrite <- E3 in Hy. apply (elem_of_Permutation_proper _ _ _ (insert_at_elements _ _ _)), elem_of_cons in Hy as [-> | Hy]; [by left |].
        right. by apply elem_of_app. }
      split; [done | | congruence | | |].
      * rewrite <- E3. by apply insert_timer_wf.
      * destruct Hcase as [[-> _] | [[-> _] | [-> _]]]; [| apply Forall_app; by split; [| constructor] | done].
        eapply perm_Forall; [apply insert_at_elements |]. by constructor.
      * intros b c Hc. destruct (Hkept _ _ Hc) as [Hk |]; [| by right]. left.
        destruct Hcase as [[_ ->] | [[_ ->] | [_ Hp]]]; [done | done |]. apply (elem_of_Permutation_proper _ _ _ Hp). by right.
      * intros g ([b c] & Hy & Hg & Hle). cbn in Hg, Hle. destruct (Hp3 _ Hy) as [Ex | [Hy1 | Hy1]].
        -- cbn in Ex. subst c. rewrite Ef in Hg. injection Hg as <-. destruct (Hfx f eq_refl) as [Hfc Hlec]. exists (a, cb). split_and!; [| done | done].
           rewrite El. apply elem_of_app. right. by left.
        -- exists (b, c). split_and!; [| done | done]. apply Hpre1; [done | by exists g | done].
        -- exists (b, c). split_and!; [| done | done]. apply Hpost1; [done | by exists g | done].
    + rewrite <- E3. rewrite (total_runs_perm _ _ _ (insert_at_elements _ _ _)). cbn. f_equal. exact Er.
  - exists (delete_element pre1 a), post1. split.
    + split; [done | done | done | done | done |]. intros g ([b c] & Hy & Hg & Hle). cbn in Hg, Hle. exists (b, c). split_and!; [| done | done].
      apply elem_of_app in Hy as [Hy | Hy]; [apply Hpre1 | apply Hpost1]; try done; by exists g.
    + unfold runs. rewrite Ef. exact Er.
Qed.

(** The function of the element runs. *)
Lemma fire_ok l pre a cb post f w log :
  l = pre ++ (a, cb) :: post -> wf_timers l -> Forall (late now) pre -> function cb = Some f -> to_ns (expires_at cb) <= to_ns now ->
  exists l1 w1 x pre3 post3, on_timer logged_timer l a now (w, log) = Ok (set_data l1 a x, (w1, log ++ [f])) /\
    data (set_data l1 a x) a = Ok x /\
    visited l post (put_back (set_data l1 a x) a x) pre3 post3 /\ (total_runs now (put_back (set_data l1 a x) a x) < total_runs now l)%nat.
Proof.
  intros El H Hlate Hf Hle. assert (Hin : (a, cb) ∈ l) by (rewrite El; apply elem_of_app; right; by left).
  pose proof (wt_ok _ H) as Hok. rewrite Forall_forall in Hok. pose proof (Hok _ Hin) as Hcb. cbn in Hcb.
  pose proof (proj2 (find_element_Some l a cb (wt_nodup _ H)) Hin) as Hd.
  unfold on_timer, data. rewrite Hd. bind_ok. rewrite Hf.
  assert (Hv : VALID_TIMESPEC (expires_at cb) = true).
  { unfold cb_ok in Hcb. rewrite Hf in Hcb. rewrite valid_timespec_ns by apply Hcb. lia. }
  rewrite Hv. destruct (call_ok f l w H) as (l1 & w1 & cs & Ec & Hcs & HD & Hrun). unfold logged_timer at 1. cbn [fst snd]. rewrite Ec. bind_ok.
  assert (El2 : l = (pre ++ [(a, cb)]) ++ post) by (by rewrite <- app_assoc).
  destruct (timer_calls_split now D (pre ++ [(a, cb)]) post cs now_nonneg) as (pre1 & post1 & E1 & H1 & Eh & S1 & S2 & R); [by rewrite <- El2 | done | done |].
  rewrite <- El2, Hrun in E1. injection E1 as E1. rewrite <- E1 in H1, R. rewrite <- El2 in R. specialize (R a).
  assert (Ha : exists cb1, (a, cb1) ∈ pre1 /\ (cb1 = cb \/ cb1 = cleared)).
  { destruct (sg_kept _ _ _ _ S1 a cb) as [Hk | (g & _ & _ & Hk)]; [apply elem_of_app; right; by left | by exists cb; split; [| left] | by exists cleared; split; [| right]]. }
  destruct Ha as (cb1 & Ha & Hcb1). assert (Hin1 : (a, cb1) ∈ l1) by (rewrite E1; apply elem_of_app; by left).
  pose proof (proj2 (find_element_Some l1 a cb1 (wt_nodup _ H1)) Hin1) as Hd1. rewrite Hd1. bind_ok.
  assert (Hx : (if VALID_TIMESPEC (interval cb1) then
      Ok (set_data l1 a (TimerCallbackInfo (function cb1) (if TIMESPEC_LESS_THEN (ADD_TIMESPEC (expires_at cb1) (interval cb1)) now then now
        else ADD_TIMESPEC (expires_at cb1) (interval cb1)) (interval cb1)), (w1, log ++ [f]))
      else Ok (set_data l1 a (TimerCallbackInfo None (Timespec 0 0) (interval cb1)), (w1, log ++ [f]))) =
    Ok (set_data l1 a (rescheduled cb1), (w1, log ++ [f]))) by (unfold rescheduled; by destruct (VALID_TIMESPEC (interval cb1))).
  cbv zeta. rewrite Hx. exists l1, w1, (rescheduled cb1).
  destruct (runs_without now l a cb (wt_nodup _ H) Hin) as [_ Er].
  assert (Hr : cb_ok (rescheduled cb1) /\ late now (a, rescheduled cb1) /\ (runs now (rescheduled cb1) < runs now cb)%nat /\
    (forall g, function (rescheduled cb1) = Some g -> function cb = Some g /\ to_ns (expires_at cb) <= to_ns now)).
  { destruct (rescheduled_ok cb Hcb) as (Ho & Hl & Hn & Hfn); [by rewrite Hf | done |]. destruct Hcb1 as [-> | ->].
    - split_and!; [done | done | done |]. intros g Hg. destruct Hfn as [E | E]; [by rewrite E in Hg | by rewrite E in Hg].
    - split_and!; [done | by intros [? ?] | | done]. cbn. lia. }
  destruct Hr as (Ho & Hl & Hn & Hfn).
  destruct (put_back_visited l pre a cb post l1 pre1 post1 (rescheduled cb1) cb1) as (pre3 & post3 & Hvis & Et); try done.
  exists pre3, post3. split; [done |]. split; [by rewrite (set_data_find _ _ cb1) |]. split; [done |]. rewrite Et, Er. lia.
Qed.

(** An element without a function is dropped. *)
Lemma drop_ok l pre a cb post : l = pre ++ (a, cb) :: post -> wf_timers l -> Forall (late now) pre -> function cb = None ->
  visited l post (delete_element l a) pre post /\ total_runs now (delete_element l a) = total_runs now l /\
  S (length (delete_element l a)) = length l.
Proof.
  intros El H Hlate Hf. assert (Hin : (a, cb) ∈ l) by (rewrite El; apply elem_of_app; right; by left).
  pose proof (delete_element_wf l a H) as Hd. destruct (runs_without now l a cb (wt_nodup _ H) Hin) as [Er1 Er2].
  assert (Ed : delete_element l a = pre ++ post).
  { pose proof (wt_nodup _ H) as Hnd. rewrite El in Hnd |- *. rewrite fmap_app in Hnd. clear -Hnd. apply NoDup_app in Hnd as (_ & Hnd & _).
    induction pre as [| [b c] pre IH]; cbn [app delete_element]; [by rewrite decide_True |].
    rewrite decide_False; [f_equal; apply IH; intros x Hx; apply Hnd; by right |]. intros ->. apply (Hnd a); by left. }
  split; [split; try done | split].
  - intros b c Hc. by left.
  - intros g (y & Hy & Hg). exists y. split; [| done]. rewrite Ed in Hy. rewrite El. apply elem_of_app in Hy as [Hy | Hy]; apply elem_of_app; [by left | right; by right].
  - rewrite Er1, Er2. unfold runs. by rewrite Hf.
  - rewrite Ed, El, !length_app. cbn. lia.
Qed.

(** ** The loop *)

Record executed l0 (suf : elements) log l' log' : Prop := {
  ex_wf : wf_timers l';
  ex_late : Forall (late now) l';
  ex_sound f : f ∈ log' -> f ∈ log \/ due_function now l0 f;
  ex_complete b cb f : (b, cb) ∈ suf -> function cb = Some f -> to_ns (expires_at cb) <= to_ns now -> f ∈ log' \/ D f;
  ex_more : log `prefix_of` log'
}.

Lemma after_visit l pre a cb post l3 pre3 post3 log log3 l' log' :
  l = pre ++ (a, cb) :: post -> visited l post l3 pre3 post3 -> executed l3 post3 log3 l' log' ->
  (log3 = log \/ exists f, log3 = log ++ [f] /\ due_function now l f) -> (forall f, function cb = Some f -> f ∈ log3) ->
  executed l ((a, cb) :: post) log l' log'.
Proof.
  intros El V [Hw Hl Hs Hc Hm] Hlog Hcb. split; [done | done | | |].
  - intros f Hf. destruct (Hs f Hf) as [H3 | H3]; [| right; by apply (vs_due _ _ _ _ _ V)].
    destruct Hlog as [-> | (g & -> & Hg)]; [by left |]. apply elem_of_app in H3 as [| ->%list_elem_of_singleton]; [by left | by right].
  - intros b c f [[= -> ->] | Hin]%elem_of_cons Hf Hle.
    + left. destruct Hm as [k ->]. apply elem_of_app. left. by apply Hcb.
    + destruct (vs_kept _ _ _ _ _ V _ _ Hin) as [H3 | (g & Hg & HD)]; [by apply (Hc b c) |]. right. congruence.
  - etrans; [| exact Hm]. destruct Hlog as [-> | (g & -> & _)]; [done | by exists [g]].
Qed.

Lemma execute_loop_ok runs_bound length_bound : forall l pre suf w log,
  (total_runs now l <= runs_bound)%nat -> (length l <= length_bound)%nat -> l = pre ++ suf -> wf_timers l -> Forall (late now) pre ->
  exists n l' w' log', (forall fuel, (n <= fuel)%nat -> execute_loop logged_timer fuel l (fst <$> head suf) now (w, log) = Ok (l', (w', log'))) /\
    executed l suf log l' log'.
Proof.
  revert length_bound. induction (lt_wf runs_bound) as [runs_bound _ IHr]. intros length_bound.
  induction (lt_wf length_bound) as [length_bound _ IHl]. intros l pre suf w log Hr Hlen El H Hlate.
  destruct suf as [| [a cb] post].
  { exists 1%nat, l, w, log. split; [intros fuel Hfuel; destruct fuel; [lia | done] |]. rewrite app_nil_r in El. subst pre.
    split; [done | done | by left | by intros b c f ?%elem_of_nil | done]. }
  assert (Hin : (a, cb) ∈ l) by (rewrite El; apply elem_of_app; right; by left).
  pose proof (wt_ok _ H) as Hok. rewrite Forall_forall in Hok. pose proof (Hok _ Hin) as Hcb. cbn in Hcb.
  assert (Hd : data l a = Ok cb) by (unfold data; by rewrite (proj2 (find_element_Some l a cb (wt_nodup _ H)) Hin)).
  assert (Hn : next_element l a = fst <$> head post).
  { rewrite El. apply next_element_split. pose proof (wt_nodup _ H) as Hnd. rewrite El, fmap_app in Hnd. apply NoDup_app in Hnd as (_ & Hnd & _).
    intros Ha. apply (Hnd a Ha). by left. }
  cbn [head fmap option_fmap option_map fst]. destruct (function cb) as [f |] eqn:Ef.
  - assert (Hless : TIMESPEC_LESS_THEN now (expires_at cb) = (to_ns now <? to_ns (expires_at cb))).
    { unfold cb_ok in Hcb. rewrite Ef in Hcb. apply less_than_ns; [done | apply Hcb]. }
    destruct (Z.ltb_spec (to_ns now) (to_ns (expires_at cb))) as [Hlt | Hle].
    + exists 1%nat, l, w, log. split.
      { intros fuel Hfuel. destruct fuel as [| fuel]; [lia |]. cbn [execute_loop]. rewrite Hd. bind_ok. unfold due. rewrite Ef, Hless. done. }
      assert (Hafter : forall y, y ∈ (a, cb) :: post -> live y.2 -> to_ns now < to_ns (expires_at y.2)).
      { intros y [-> | Hy]%elem_of_cons Hly; [done |]. pose proof (wt_sorted _ H) as Hs. rewrite El in Hs.
        clear -Hs Hy Hly Hlt Ef. assert (Hs2 : StronglySorted in_order ((a, cb) :: post)).
        { clear -Hs. induction pre as [| x pre IH]; [done |]. apply IH. by apply StronglySorted_inv in Hs as [Hs _]. }
        apply StronglySorted_inv in Hs2 as [_ Hall]. rewrite Forall_forall in Hall. specialize (Hall y Hy ltac:(by exists f) Hly). cbn in Hall. lia. }
      split; [done | | by left | | done].
      * rewrite El. apply Forall_app. split; [done |]. apply Forall_forall. intros y Hy Hly. specialize (Hafter y Hy Hly). lia.
      * intros b c g Hc Hg Hle. specialize (Hafter _ Hc ltac:(by exists g)). cbn in Hafter. lia.
    + destruct (fire_ok l pre a cb post f w log El H Hlate Ef Hle) as (l1 & w1 & x & pre3 & post3 & Eo & Ex & V & Ht).
      set (l3 := put_back (set_data l1 a x) a x) in *.
      destruct (IHr (total_runs now l3) ltac:(lia) (length l3) l3 pre3 post3 w1 (log ++ [f])) as (n & l' & w' & log' & En & X);
        [done | done | apply V | apply V | apply V |].
      exists (S n), l', w', log'. split.
      { intros fuel Hfuel. destruct fuel as [| fuel]; [lia |]. cbn [execute_loop]. rewrite Hd, Hn. bind_ok. unfold due. rewrite Ef, Hless.
        replace (to_ns now <? to_ns (expires_at cb)) with false by lia. cbn [negb]. rewrite Eo. bind_ok. rewrite Ex. bind_ok.
        rewrite <- (vs_head _ _ _ _ _ V). apply En. lia. }
      eapply after_visit; [exact El | exact V | exact X | | ].
      * right. exists f. split; [done |]. by exists (a, cb).
      * intros g Hg. rewrite Ef in Hg. injection Hg as <-. apply elem_of_app. right. by left.
  - destruct (drop_ok l pre a cb post El H Hlate Ef) as (V & Et & Elen).
    destruct (IHl (length (delete_element l a)) ltac:(lia) (delete_element l a) pre post w log) as (n & l' & w' & log' & En & X);
      [lia | done | apply V | apply V | apply V |].
    exists (S n), l', w', log'. split.
    { intros fuel Hfuel. destruct fuel as [| fuel]; [lia |]. cbn [execute_loop]. rewrite Hd, Hn. bind_ok. unfold due. rewrite Ef. cbn [negb]. bind_ok.
      rewrite Hd. bind_ok. rewrite Ef. apply En. lia. }
    eapply after_visit; [exact El | exact V | exact X | by left | intros g Hg; congruence].
Qed.
End Run.
End Execution.

(** ** How long to wait *)

Section Timeout.
Context {C : Type} `{EqDecision C}.
Abbreviation elements := (list (positive * timer_callback_info C)).
Implicit Types (l : elements).

Definition MAX_TIMEOUT : Z := INT_MAX_SECONDS * 1000000.

Lemma next_timeout_ok l now : normal now -> wf_timers l -> Forall (late now) l ->
  let usec := next_timeout l now in
  0 <= usec <= MAX_TIMEOUT /\
  (forall x, x ∈ l -> live x.2 -> usec * 1000 < to_ns (expires_at x.2) - to_ns now + 1000) /\
  match head l with
  | Some x => live x.2 -> to_ns (expires_at x.2) - to_ns now <= usec * 1000 \/ usec = MAX_TIMEOUT
  | None => usec = MAX_TIMEOUT
  end.
Proof.
  intros Hnow H Hlate usec. unfold usec, next_timeout. destruct l as [| [a cb] l]; [split_and!; [done | done | by intros x ?%elem_of_nil | done] |].
  assert (Hall : forall x, x ∈ (a, cb) :: l -> live x.2 -> live cb -> to_ns (expires_at cb) <= to_ns (expires_at x.2)).
  { intros x Hx Hlx Hlc. apply elem_of_cons in Hx as [-> | Hx]; [done |]. pose proof (wt_sorted _ H) as Hs. apply StronglySorted_inv in Hs as [_ Hs].
    rewrite Forall_forall in Hs. by apply (Hs x Hx). }
  pose proof (wt_ok _ H) as Hok. apply Forall_cons in Hok as [Hcb _]. unfold cb_ok in Hcb. cbn [snd] in Hcb.
  assert (Hmax : normal (Timespec INT_MAX_SECONDS 0)) by (unfold normal; cbn; unfold INT_MAX_SECONDS; lia).
  assert (Hl : forall x, x ∈ (a, cb) :: l -> live x.2 -> to_ns now <= to_ns (expires_at x.2)).
  { rewrite Forall_forall in Hlate. intros x Hx. by apply Hlate. }
  cbn [head]. destruct (function cb) as [f |] eqn:Ef.
  - destruct Hcb as (Hn & Hpos & _). assert (Hlive : live cb) by by exists f. pose proof (Hl (a, cb) ltac:(by left) Hlive) as Hle. cbn in Hle.
    rewrite less_than_ns by done. replace (to_ns (expires_at cb) <? to_ns now) with false by lia.
    destruct (sub_timespec_ns _ _ Hn Hnow Hle) as [Hsub Es]. rewrite less_than_ns by done. change (to_ns (Timespec INT_MAX_SECONDS 0)) with 2147000000000.
    destruct (Z.ltb_spec (to_ns (SUB_TIMESPEC (expires_at cb) now)) 2147000000000) as [Hlt | Hge].
    + destruct (microseconds_ns (SUB_TIMESPEC (expires_at cb) now) Hsub) as [Hr Hu].
      { unfold to_ns, normal, INT_MAX_SECONDS in *. lia. } { unfold INT_MAX_SECONDS. lia. }
      set (u := TIMESPEC_TO_MICROSECONDS _) in *. split; [unfold MAX_TIMEOUT, INT_MAX_SECONDS; lia |]. split; [| intros _; left; cbn; lia].
      intros x Hx Hlx. specialize (Hall x Hx Hlx Hlive). lia.
    + change (TIMESPEC_TO_MICROSECONDS (Timespec INT_MAX_SECONDS 0)) with MAX_TIMEOUT. split; [done |]. split; [| intros _; by right].
      intros x Hx Hlx. specialize (Hall x Hx Hlx Hlive). unfold MAX_TIMEOUT, INT_MAX_SECONDS. lia.
  - assert (Hz : forall v : Z, v = 0 -> 0 <= v <= MAX_TIMEOUT /\ (forall x, x ∈ (a, cb) :: l -> live x.2 -> v * 1000 < to_ns (expires_at x.2) - to_ns now + 1000) /\
      (live cb -> to_ns (expires_at cb) - to_ns now <= v * 1000 \/ v = MAX_TIMEOUT)).
    { intros v ->. split; [done |]. split; [intros x Hx Hlx; specialize (Hl x Hx Hlx); lia | intros [? ?]; congruence]. }
    apply Hz. rewrite Hcb. assert (H0 : normal (Timespec 0 0)) by (unfold normal; cbn; lia). rewrite less_than_ns by done.
    change (to_ns (Timespec 0 0)) with 0. destruct (Z.ltb_spec 0 (to_ns now)) as [| Hle]; [done |].
    assert (En : now = Timespec 0 0) by (destruct now; unfold normal, to_ns in *; cbn in *; f_equal; lia). by rewrite En.
Qed.

Lemma timer_calls_wf l cs : wf_timers l -> Forall (timer_call_ok (Timespec 0 0)) cs ->
  exists l', run_timer_calls l cs = Ok l' /\ wf_timers l'.
Proof.
  intros H Hcs. destruct (timer_calls_split (Timespec 0 0) (fun _ => True) l [] cs) as (pre & post & E & Hw & _); try done; [by rewrite app_nil_r |].
  rewrite app_nil_r in E. by exists (pre ++ post).
Qed.

Lemma no_timers_wf : wf_timers (C := C) [].
Proof. split; constructor. Qed.
End Timeout.

(** * Property *)

(** C21. One execution of the timers ends, whatever the callbacks do: they may add
    timers and delete any, their own too. It runs only functions whose time had
    come, all of them but those that a callback deletes, and leaves the timers in
    the order of their times, none of them before the present. The time to wait
    that it returns lets no timer pass by a microsecond or more, and is not
    shorter than the time to the first timer, up to 2147 seconds. *)
Theorem execute_timer_events_serves {C W : Type} `{EqDecision C} (call : C -> list (positive * timer_callback_info C) -> W -> res (list (positive * timer_callback_info C) * W))
    now (D : C -> Prop) l w :
  normal now -> (forall f l w, wf_timers l -> does_timer_calls now D l (call f l w)) -> wf_timers l ->
  exists n usec l' w' log,
    (forall fuel, (n <= fuel)%nat ->
      execute_timer_events (logged_timer call) fuel (Some l) (Some now) (w, []) = Ok (usec, Some l', (w', log))) /\
    wf_timers l' /\ Forall (late now) l' /\
    (forall f, f ∈ log -> due_function now l f) /\ (forall f, due_function now l f -> f ∈ log \/ D f) /\
    0 <= usec <= MAX_TIMEOUT /\
    (forall x, x ∈ l' -> live x.2 -> usec * 1000 < to_ns (expires_at x.2) - to_ns now + 1000) /\
    match head l' with
    | Some x => live x.2 -> to_ns (expires_at x.2) - to_ns now <= usec * 1000 \/ usec = MAX_TIMEOUT
    | None => usec = MAX_TIMEOUT
    end.
Proof.
  intros Hnow Hcall H.
  destruct (execute_loop_ok call now D Hnow Hcall (total_runs now l) (length l) l [] l w []) as (n & l' & w' & log & E & [Hw Hl Hs Hc _]); try done.
  destruct (next_timeout_ok l' now Hnow Hw Hl) as (Hu & Hx & Hh). exists n, (next_timeout l' now), l', w', log. split_and!; try done; try apply Hu.
  - intros fuel Hfuel. unfold execute_timer_events. rewrite (E fuel Hfuel). by bind_ok.
  - intros f Hf. by destruct (Hs f Hf) as [?%elem_of_nil |].
  - intros f ([b cb] & Hin & Hf & Hle). by apply (Hc b cb).
Qed.

(** * Witness *)

(** At 10 s: two timers of every second, the first overdue, and one of 30 s; the
    callback of the first deletes the last. *)
Definition sample_timers : list (positive * timer_callback_info Z) :=
  match run_timer_calls [] [AddTimer (Some (Timespec 7 0)) (Timespec 1 0) (Timespec 0 0) 1; AddTimer (Some (Timespec 9 0)) (Timespec 1 0) (Timespec 0 0) 2;
    AddTimer (Some (Timespec 9 0)) (Timespec 0 0) (Timespec 30 0) 3] with Ok l => l | Fault _ => [] end.
Definition sample_timer (f : Z) (l : list (positive * timer_callback_info Z)) (w : unit) : res (list (positive * timer_callback_info Z) * unit) :=
  Ok (if f =? 1 then (clear_first l 3).2 else l, w).

Example sample_execution : is_okb (execute_timer_events (logged_timer sample_timer) 10 (Some sample_timers) (Some (Timespec 10 0)) (tt, []))
  (fun p => let '(usec, _, (_, log)) := p in bool_decide ((usec, log) = (1000000, [1; 2; 1]))) = true.
Proof. vm_compute. reflexivity. Qed.

Lemma execute_timer_events_serves_witness :
  exists n usec l' w' log,
    (forall fuel, (n <= fuel)%nat ->
      execute_timer_events (logged_timer sample_timer) fuel (Some sample_timers) (Some (Timespec 10 0)) (tt, []) = Ok (usec, Some l', (w', log))) /\
    (1 ∈ log \/ 1 = 3) /\ Forall (late (Timespec 10 0)) l'.
Proof.
  destruct (execute_timer_events_serves sample_timer (Timespec 10 0) (fun f => f = 3) sample_timers tt)
    as (n & usec & l' & w' & log & E & _ & Hlate & _ & Hc & _).
  - unfold normal. cbn. lia.
  - intros f l w Hl. unfold sample_timer. destruct (f =? 1).
    + exists (clear_first l 3).2, w, [DeleteTimer 3]. split; [reflexivity |]. split; [by repeat constructor |]. split.
      * intros c g Hc Hg. apply list_elem_of_singleton in Hc as ->. cbn in Hg. by subst.
      * cbn. destruct (clear_first l 3). reflexivity.
    + exists l, w, []. split; [reflexivity |]. split; [constructor |]. split; [by intros c g ?%elem_of_nil | reflexivity].
  - unfold sample_timers. destruct (timer_calls_wf [] [AddTimer (Some (Timespec 7 0)) (Timespec 1 0) (Timespec 0 0) 1;
      AddTimer (Some (Timespec 9 0)) (Timespec 1 0) (Timespec 0 0) 2; AddTimer (Some (Timespec 9 0)) (Timespec 0 0) (Timespec 30 0) 3] no_timers_wf) as (l & -> & Hl).
    + repeat (apply Forall_cons; split; [unfold timer_call_ok, normal, to_ns; cbn; lia |]). by apply Forall_nil.
    + exact Hl.
  - exists n, usec, l', w', log. split; [exact E |]. split; [| exact Hlate]. apply Hc.
    exists (1%positive, TimerCallbackInfo (Some 1) (Timespec 8 0) (Timespec 1 0)). split; [vm_compute; repeat constructor |]. split; [reflexivity |].
    vm_compute. discriminate.
Defined.
