(* ===== verification/Buffer.v ===== *)
(** buffer.c: a byte buffer that grows at both ends.

    A cell of memory is indeterminate ([None]) from its allocation until it is
    written.  A buffer owns one block, [top]; [data] points into it and is
    modelled by its distance [front] from [top].  The pointer that an operation
    returns is the offset in the block.  Mutexes are held during each call; a
    call is one step. *)

From Stdlib Require Import ZArith Lia Bool.
From coqutil Require Import Byte.
From stdpp Require Import base list.
From S2P Require Import Prelude Memory.

Abbreviation cell := (option byte).

Section Buffer.
Context {U : Type}.

(** [buffer] and [private_buffer]; [user_data_free_function] is only tested. *)
Record private_buffer : Type := PrivateBuffer {
  top : option (list cell);
  front : Z;
  data_length : Z;
  real_length : Z;
  user_data : option U;
  user_data_free_function : bool
}.

Implicit Types (b : private_buffer) (m : list cell) (n : Z).

(** [xmalloc] *)
Definition xmalloc n : list cell := replicate (Z.to_nat n) None.

(** [memcpy] or [memmove] from a block, and into one. *)
Definition read m (off n : Z) : res (list cell) :=
  if (0 <=? off) && (0 <=? n) && (off + n <=? Z.of_nat (length m))
  then Ok (take (Z.to_nat n) (drop (Z.to_nat off) m))
  else Fault OutOfBounds.

Definition write m (off : Z) (cs : list cell) : res (list cell) :=
  if (0 <=? off) && (off + Z.of_nat (length cs) <=? Z.of_nat (length m))
  then Ok (take (Z.to_nat off) m ++ cs ++ drop (Z.to_nat off + length cs) m)
  else Fault OutOfBounds.

(** The block of a buffer that has one. *)
Definition block b : res (list cell) :=
  match top b with Some m => Ok m | None => Fault NullPointer end.

Definition front_length_of b : Z := front b.

Definition already_allocated b n : bool :=
  let required_length := u64 (u64 (front_length_of b + data_length b) + n) in
  required_length <=? real_length b.

Definition alloc_new_data b n : private_buffer :=
  PrivateBuffer (Some (xmalloc n)) 0 n n (user_data b) (user_data_free_function b).

Definition alloc_private_buffer : private_buffer := PrivateBuffer None 0 0 0 None false.

Definition append_front b n : res private_buffer :=
  let new_length := u64 (u64 (front_length_of b + data_length b) + n) in
  let new_data := xmalloc new_length in
  let* m := block b in
  let* cs := read m (front b) (data_length b) in
  let* new_data := write new_data (front_length_of b + n) cs in
  Ok (PrivateBuffer (Some new_data) (front_length_of b) (data_length b) new_length
        (user_data b) (user_data_free_function b)).

Definition append_back b n : res private_buffer :=
  let new_length := u64 (u64 (front_length_of b + data_length b) + n) in
  let new_data := xmalloc new_length in
  let* m := block b in
  let* cs := read m (front b) (data_length b) in
  let* new_data := write new_data (front_length_of b) cs in
  Ok (PrivateBuffer (Some new_data) (front_length_of b) (data_length b) new_length
        (user_data b) (user_data_free_function b)).

Definition alloc_buffer : private_buffer := alloc_private_buffer.

Definition alloc_buffer_with_length n : res private_buffer :=
  let* _ := assert (negb (n =? 0)) in
  Ok (PrivateBuffer (Some (xmalloc n)) 0 0 n None false).

(** [free] is [user_data_free_function]; the memory is not used again. *)
Definition free_buffer (free : private_buffer -> private_buffer) b : res unit :=
  match user_data b with
  | Some _ =>
    if user_data_free_function b then
      let b := free b in
      let* _ := assert (match user_data b with None => true | Some _ => false end) in
      assert (negb (user_data_free_function b))
    else Ok tt
  | None => Ok tt
  end.

Definition set_length b n : private_buffer :=
  PrivateBuffer (top b) (front b) n (real_length b) (user_data b) (user_data_free_function b).

Definition append_front_buffer b n : res (Z * private_buffer) :=
  let* _ := assert (negb (n =? 0)) in
  match top b with
  | None => Ok (0, alloc_new_data b n)
  | Some m =>
    let* b :=
      if already_allocated b n then
        let* cs := read m (front b) (data_length b) in
        let* m := write m (front b + n) cs in
        let* m := write m (front b) (replicate (Z.to_nat n) (Some zero)) in
        Ok (PrivateBuffer (Some m) (front b) (data_length b) (real_length b)
              (user_data b) (user_data_free_function b))
      else append_front b n in
    let b := set_length b (u64 (data_length b + n)) in
    Ok (front b, b)
  end.

Definition remove_front_buffer b n : res (Z * private_buffer) :=
  let* _ := assert (negb (n =? 0)) in
  let* _ := assert (n <=? data_length b) in
  let b := PrivateBuffer (top b) (front b + n) (data_length b - n) (real_length b)
             (user_data b) (user_data_free_function b) in
  Ok (front b, b).

Definition append_back_buffer b n : res (Z * private_buffer) :=
  let* _ := assert (negb (n =? 0)) in
  if real_length b =? 0 then Ok (0, alloc_new_data b n)
  else
    let* b := if negb (already_allocated b n) then append_back b n else Ok b in
    let appended := front b + data_length b in
    Ok (appended, set_length b (u64 (data_length b + n))).

(** The new buffer. *)
Definition duplicate_buffer b : res private_buffer :=
  let new_buffer := alloc_private_buffer in
  if real_length b =? 0 then Ok new_buffer
  else
    let new_buffer := alloc_new_data new_buffer (real_length b) in
    let* old := block b in
    let* cs := read old 0 (real_length b) in
    let* new := block new_buffer in
    let* new := write new 0 cs in
    Ok (PrivateBuffer (Some new) (front_length_of b) (data_length b) (real_length new_buffer)
          (user_data b) false).

(** * What a buffer holds *)

Definition contents b : list cell :=
  match top b with
  | Some m => take (Z.to_nat (data_length b)) (drop (Z.to_nat (front b)) m)
  | None => []
  end.

Record wf_buffer b : Prop := {
  wf_front : 0 <= front b;
  wf_data : 0 <= data_length b;
  wf_fits : front b + data_length b <= real_length b;
  wf_real : real_length b < 2 ^ 64;
  wf_top : match top b with
           | Some m => real_length b = Z.of_nat (length m) /\ 0 < real_length b
           | None => real_length b = 0
           end
}.

(** * Lemmas *)

Lemma u64_small x : 0 <= x < 2 ^ 64 -> u64 x = x.
Proof. apply Z.mod_small. Qed.

Lemma length_xmalloc n : 0 <= n -> Z.of_nat (length (xmalloc n)) = n.
Proof. intros Hn. unfold xmalloc. rewrite length_replicate. lia. Qed.

Lemma read_ok m off n :
  0 <= off -> 0 <= n -> off + n <= Z.of_nat (length m) ->
  read m off n = Ok (take (Z.to_nat n) (drop (Z.to_nat off) m)).
Proof. intros. unfold read. by replace ((0 <=? off) && (0 <=? n) && (off + n <=? Z.of_nat (length m))) with true by lia. Qed.

Lemma write_ok m off cs :
  0 <= off -> off + Z.of_nat (length cs) <= Z.of_nat (length m) ->
  write m off cs = Ok (take (Z.to_nat off) m ++ cs ++ drop (Z.to_nat off + length cs) m).
Proof. intros. unfold write. by replace ((0 <=? off) && (off + Z.of_nat (length cs) <=? Z.of_nat (length m))) with true by lia. Qed.

Lemma length_write m off (cs : list cell) :
  0 <= off -> off + Z.of_nat (length cs) <= Z.of_nat (length m) ->
  length (take (Z.to_nat off) m ++ cs ++ drop (Z.to_nat off + length cs) m) = length m.
Proof. intros. rewrite !length_app, length_take, length_drop. lia. Qed.

(** What is written is read back. *)
Lemma take_drop_write m off (cs : list cell) :
  0 <= off -> off + Z.of_nat (length cs) <= Z.of_nat (length m) ->
  take (length cs) (drop (Z.to_nat off) (take (Z.to_nat off) m ++ cs ++ drop (Z.to_nat off + length cs) m)) = cs.
Proof.
  intros H0 H1. rewrite drop_app_length' by (rewrite length_take; lia). by rewrite take_app_length.
Qed.

Lemma length_contents b : wf_buffer b -> Z.of_nat (length (contents b)) = data_length b.
Proof.
  intros [Hf Hd Hs _ Ht]. unfold contents. destruct (top b) as [m |]; [| cbn; lia].
  rewrite length_take, length_drop. lia.
Qed.

Lemma contents_read b m : wf_buffer b -> top b = Some m -> read m (front b) (data_length b) = Ok (contents b).
Proof.
  intros [Hf Hd Hs _ Ht] E. rewrite E in Ht. rewrite read_ok by lia. unfold contents. by rewrite E.
Qed.

Lemma no_block b : wf_buffer b -> top b = None -> front b = 0 /\ data_length b = 0 /\ contents b = [].
Proof. intros [Hf Hd Hs _ Ht] E. rewrite E in Ht. unfold contents. rewrite E. split_and!; [lia | lia | done]. Qed.

(** A block as what comes before the contents, the contents, and the rest. *)
Lemma layout b m : wf_buffer b -> top b = Some m ->
  exists pre post, m = pre ++ contents b ++ post /\ Z.of_nat (length pre) = front b.
Proof.
  intros [Hf Hd Hs _ Ht] E. rewrite E in Ht. unfold contents. rewrite E.
  exists (take (Z.to_nat (front b)) m), (drop (Z.to_nat (data_length b)) (drop (Z.to_nat (front b)) m)).
  rewrite !take_drop. split; [done |]. rewrite length_take. lia.
Qed.

Lemma of_layout (pre c post : list cell) f n r ud uf :
  Z.of_nat (length pre) = f -> Z.of_nat (length c) = n -> r < 2 ^ 64 -> 0 < r ->
  r = Z.of_nat (length (pre ++ c ++ post)) ->
  let b := PrivateBuffer (Some (pre ++ c ++ post)) f n r ud uf in wf_buffer b /\ contents b = c.
Proof.
  intros Hf Hn Hr H0 E b. rewrite !length_app in E. split.
  - split; cbn; rewrite ?length_app; try lia.
  - unfold contents. cbn. rewrite drop_app_length' by lia. by rewrite take_app_length' by lia.
Qed.

Lemma write_layout (pre c post cs : list cell) off :
  Z.of_nat (length pre) = off -> length cs = length c ->
  write (pre ++ c ++ post) off cs = Ok (pre ++ cs ++ post).
Proof.
  intros Ho Hc. rewrite write_ok by (rewrite ?length_app; lia).
  rewrite take_app_length' by lia. do 3 f_equal.
  rewrite <- drop_drop, drop_app_length' by lia. by rewrite drop_app_length'.
Qed.

(** ** Growing at the end *)

Lemma replicate_split {A} (x : A) (n k : nat) : (k <= n)%nat -> replicate n x = replicate k x ++ replicate (n - k) x.
Proof. intros H. rewrite <- replicate_add. f_equal. lia. Qed.

Lemma append_back_ok b n :
  wf_buffer b -> 0 < n -> front b + data_length b + n < 2 ^ 64 ->
  exists b' cs, append_back_buffer b n = Ok (front b + data_length b, b') /\ wf_buffer b' /\
    contents b' = contents b ++ cs /\ Z.of_nat (length cs) = n /\ is_Some (top b') /\
    user_data b' = user_data b /\ front b' = front b.
Proof.
  intros Hb Hn Hs. pose proof Hb as [Hf Hd Hfit Hr Ht]. unfold append_back_buffer.
  replace (n =? 0) with false by lia. unfold Prelude.assert at 1. cbn [negb]. bind_ok.
  destruct (top b) as [m |] eqn:E.
  2:{ destruct (no_block b Hb E) as (H0 & H1 & H2). replace (real_length b =? 0) with true by lia.
      exists (alloc_new_data b n), (xmalloc n). rewrite H0, H1, H2. unfold alloc_new_data, xmalloc. cbn [front].
      split; [done |]. pose proof (length_xmalloc n ltac:(lia)) as Hx. unfold xmalloc in Hx.
      destruct (of_layout [] (replicate (Z.to_nat n) None) [] 0 n n (user_data b) (user_data_free_function b))
        as [W C]; [done | done | lia | lia | by rewrite app_nil_r |].
      cbn [app] in W, C. rewrite app_nil_r in W, C. split_and!; done. }
  replace (real_length b =? 0) with false by lia.
  destruct (layout b m Hb E) as (pre & post & -> & Hp). pose proof (length_contents b Hb) as Hc.
  destruct (already_allocated b n) eqn:Ha; cbn [negb]; bind_ok.
  - unfold already_allocated, front_length_of in Ha. rewrite (u64_small (front b + _)), u64_small in Ha by lia.
    apply Z.leb_le in Ha. rewrite !length_app in Ht.
    eexists _, (take (Z.to_nat n) post). unfold set_length. rewrite E. split; [done |].
    rewrite u64_small by lia.
    destruct (of_layout pre (contents b ++ take (Z.to_nat n) post) (drop (Z.to_nat n) post) (front b)
      (data_length b + n) (real_length b) (user_data b) (user_data_free_function b)) as [W C].
    { done. } { rewrite length_app, length_take. lia. } { done. } { lia. }
    { rewrite <- app_assoc, take_drop, !length_app. lia. }
    rewrite <- app_assoc, take_drop in W, C. split_and!; try done.
    rewrite length_take. lia.
  - unfold append_back. unfold block. rewrite E. bind_ok. rewrite (contents_read b _ Hb E). bind_ok.
    unfold front_length_of. rewrite (u64_small (front b + data_length b)), u64_small by lia.
    set (k := Z.to_nat (front b)). set (new := xmalloc _).
    assert (Hnew : new = replicate k None ++ replicate (length (contents b)) None ++ xmalloc n).
    { unfold new, xmalloc. rewrite (replicate_split _ _ k) by lia. f_equal.
      rewrite (replicate_split _ _ (length (contents b))) by lia. f_equal. f_equal. lia. }
    rewrite Hnew, (write_layout _ _ _ (contents b)) by (rewrite length_replicate; lia). bind_ok.
    eexists _, (xmalloc n). unfold set_length. cbn [top front data_length real_length user_data user_data_free_function].
    split; [done |]. rewrite u64_small by lia. pose proof (length_xmalloc n ltac:(lia)) as Hx.
    destruct (of_layout (replicate k None) (contents b ++ xmalloc n) [] (front b)
      (data_length b + n) (front b + data_length b + n) (user_data b) (user_data_free_function b)) as [W C].
    { rewrite length_replicate. lia. } { rewrite length_app. lia. } { lia. } { lia. }
    { rewrite app_nil_r, !length_app, length_replicate. lia. }
    rewrite app_nil_r in W, C. split_and!; done.
Qed.

(** ** Growing at the front *)

Lemma append_front_ok b n :
  wf_buffer b -> 0 < n -> front b + data_length b + n < 2 ^ 64 ->
  exists b' cs, append_front_buffer b n = Ok (front b, b') /\ wf_buffer b' /\
    contents b' = cs ++ contents b /\ Z.of_nat (length cs) = n /\ is_Some (top b') /\
    user_data b' = user_data b /\ front b' = front b.
Proof.
  intros Hb Hn Hs. pose proof Hb as [Hf Hd Hfit Hr Ht]. unfold append_front_buffer.
  replace (n =? 0) with false by lia. unfold Prelude.assert at 1. cbn [negb]. bind_ok.
  pose proof (length_xmalloc n ltac:(lia)) as Hx.
  destruct (top b) as [m |] eqn:E.
  2:{ destruct (no_block b Hb E) as (H0 & H1 & H2).
      exists (alloc_new_data b n), (xmalloc n). rewrite H0, H2. unfold alloc_new_data, xmalloc. cbn [front].
      split; [done |]. unfold xmalloc in Hx.
      destruct (of_layout [] (replicate (Z.to_nat n) None) [] 0 n n (user_data b) (user_data_free_function b))
        as [W C]; [done | done | lia | lia | by rewrite app_nil_r |].
      cbn [app] in W, C. rewrite app_nil_r in W, C |- *. split_and!; done. }
  destruct (layout b m Hb E) as (pre & post & -> & Hp). pose proof (length_contents b Hb) as Hc.
  destruct (already_allocated b n) eqn:Ha.
  - unfold already_allocated, front_length_of in Ha. rewrite (u64_small (front b + _)), u64_small in Ha by lia.
    apply Z.leb_le in Ha. rewrite !length_app in Ht. rewrite (contents_read b _ Hb E). bind_ok.
    set (old := take (Z.to_nat n) (contents b ++ post)).
    assert (Hold : Z.of_nat (length old) = n) by (unfold old; rewrite length_take, length_app; lia).
    set (rest := drop (Z.to_nat n) (contents b ++ post)).
    assert (Em : pre ++ contents b ++ post = (pre ++ old) ++ take (length (contents b)) rest ++ drop (length (contents b)) rest).
    { rewrite take_drop, <- app_assoc. unfold old, rest. by rewrite take_drop. }
    assert (Hrest : (length (contents b) <= length rest)%nat).
    { unfold rest. rewrite length_drop, length_app. lia. }
    rewrite Em, (write_layout _ _ _ (contents b)) by (rewrite ?length_app, ?length_take; lia). bind_ok.
    rewrite <- app_assoc. rewrite (write_layout pre old) by (rewrite ?length_replicate; lia). bind_ok.
    eexists _, (replicate (Z.to_nat n) (Some zero)). unfold set_length.
    cbn [top front data_length real_length user_data user_data_free_function].
    split; [done |]. rewrite u64_small by lia.
    destruct (of_layout pre (replicate (Z.to_nat n) (Some zero) ++ contents b) (drop (length (contents b)) rest) (front b)
      (data_length b + n) (real_length b) (user_data b) (user_data_free_function b)) as [W C].
    { done. } { rewrite length_app, length_replicate. lia. } { lia. } { lia. }
    { apply (f_equal length) in Em. rewrite !length_app in Em. rewrite !length_app, length_replicate.
      rewrite length_take in Em. lia. }
    rewrite <- app_assoc in W, C. split_and!; try done. rewrite length_replicate. lia.
  - unfold append_front. unfold block. rewrite E. bind_ok. rewrite (contents_read b _ Hb E). bind_ok.
    unfold front_length_of. rewrite (u64_small (front b + data_length b)), u64_small by lia.
    set (k := Z.to_nat (front b)). set (new := xmalloc (front b + data_length b + n)).
    assert (Hnew : new = (replicate k None ++ xmalloc n) ++ replicate (length (contents b)) None ++ []).
    { unfold new, xmalloc. rewrite app_nil_r, (replicate_split _ _ k), <- app_assoc by lia. f_equal.
      rewrite (replicate_split _ _ (Z.to_nat n)) by lia. f_equal. f_equal. lia. }
    rewrite Hnew, (write_layout _ _ _ (contents b)) by (rewrite ?length_app, ?length_replicate; lia). bind_ok.
    eexists _, (xmalloc n). unfold set_length. cbn [top front data_length real_length user_data user_data_free_function].
    split; [done |]. rewrite u64_small by lia. rewrite app_nil_r, <- app_assoc.
    destruct (of_layout (replicate k None) (xmalloc n ++ contents b) [] (front b)
      (data_length b + n) (front b + data_length b + n) (user_data b) (user_data_free_function b)) as [W C].
    { rewrite length_replicate. lia. } { rewrite length_app. lia. } { lia. } { lia. }
    { rewrite app_nil_r, !length_app, length_replicate. lia. }
    rewrite app_nil_r in W, C. split_and!; done.
Qed.

Lemma remove_front_ok b n :
  wf_buffer b -> 0 < n ->
  if n <=? data_length b then
    exists b', remove_front_buffer b n = Ok (front b + n, b') /\ wf_buffer b' /\
      contents b' = drop (Z.to_nat n) (contents b) /\ front b' = front b + n
  else remove_front_buffer b n = Fault AssertFailed.
Proof.
  intros Hb Hn. pose proof Hb as [Hf Hd Hfit Hr Ht]. unfold remove_front_buffer.
  replace (n =? 0) with false by lia. unfold Prelude.assert at 1 2. cbn [negb]. bind_ok.
  destruct (Z.leb_spec n (data_length b)); [bind_ok | done]. eexists. split; [done |]. cbn [front].
  split_and!; [| | done].
  - split; cbn; try lia. destruct (top b); [| lia]. done.
  - unfold contents. cbn. destruct (top b) as [m |]; [| by rewrite drop_nil].
    rewrite skipn_firstn_comm, drop_drop. f_equal; [lia |]. f_equal. lia.
Qed.

Lemma duplicate_ok b :
  wf_buffer b ->
  exists b', duplicate_buffer b = Ok b' /\ wf_buffer b' /\ contents b' = contents b /\
    data_length b' = data_length b.
Proof.
  intros Hb. pose proof Hb as [Hf Hd Hfit Hr Ht]. unfold duplicate_buffer.
  destruct (top b) as [m |] eqn:E.
  - replace (real_length b =? 0) with false by lia. unfold block. rewrite E. bind_ok.
    rewrite read_ok by lia. bind_ok. cbn [alloc_new_data alloc_private_buffer top real_length]. bind_ok.
    rewrite drop_0, (take_ge m) by lia.
    pose proof (write_layout [] (xmalloc (real_length b)) [] m 0) as Hw. cbn [app] in Hw.
    pose proof (length_xmalloc (real_length b) ltac:(lia)) as Hx.
    rewrite !app_nil_r in Hw. rewrite Hw by (first [done | lia]). bind_ok. eexists. split; [done |].
    unfold contents, front_length_of. cbn. rewrite E. split_and!; [| done | done]. split; cbn; try lia.
  - replace (real_length b =? 0) with true by lia. exists alloc_private_buffer.
    destruct (no_block b Hb E) as (H0 & H1 & ->). split_and!; [done | | done | by rewrite H1]. by split.
Qed.
End Buffer.

(** * Clients

    A client of [append_*_buffer] fills the room it is given. *)

Section Refinement.
Context {U : Type}.
Implicit Types (b : @private_buffer U) (l bs : bytes).

(** [memcpy] of [cs] to the pointer returned. *)
Definition store b (p : Z) (cs : list cell) : res (@private_buffer U) :=
  let* m := block b in
  let* m := write m p cs in
  Ok (PrivateBuffer (Some m) (front b) (data_length b) (real_length b) (user_data b)
        (user_data_free_function b)).

Inductive op : Type :=
| PutBack bs
| PutFront bs
| RemoveFront (n : Z)
| Duplicate.

Definition run_op b (o : op) : res (@private_buffer U) :=
  match o with
  | PutBack bs => let* (p, b) := append_back_buffer b (blen bs) in store b p (map Some bs)
  | PutFront bs => let* (p, b) := append_front_buffer b (blen bs) in store b p (map Some bs)
  | RemoveFront n => let* (_, b) := remove_front_buffer b n in Ok b
  | Duplicate => duplicate_buffer b
  end.

Fixpoint run_ops b (os : list op) : res (@private_buffer U) :=
  match os with
  | [] => Ok b
  | o :: os => let* b := run_op b o in run_ops b os
  end.

(** The specification: a list of bytes, and an abort for an empty request or
    for one beyond the contents. *)
Definition spec_op l (o : op) : res bytes :=
  match o with
  | PutBack bs => let* _ := assert (negb (blen bs =? 0)) in Ok (l ++ bs)
  | PutFront bs => let* _ := assert (negb (blen bs =? 0)) in Ok (bs ++ l)
  | RemoveFront n =>
    let* _ := assert (negb (n =? 0)) in
    let* _ := assert (n <=? blen l) in
    Ok (drop (Z.to_nat n) l)
  | Duplicate => Ok l
  end.

Fixpoint spec_ops l (os : list op) : res bytes :=
  match os with
  | [] => Ok l
  | o :: os => let* l := spec_op l o in spec_ops l os
  end.

(** How many bytes are added; lengths are unsigned. *)
Definition op_bytes (o : op) : Z :=
  match o with PutBack bs | PutFront bs => blen bs | RemoveFront _ | Duplicate => 0 end.
Definition ops_bytes (os : list op) : Z := foldr (fun o n => op_bytes o + n) 0 os.
Definition op_ok (o : op) : Prop := match o with RemoveFront n => 0 <= n | _ => True end.

Lemma op_bytes_nonneg o : 0 <= op_bytes o.
Proof. destruct o; cbn [op_bytes]; first [apply blen_nonneg | done]. Qed.

Lemma ops_bytes_nonneg os : 0 <= ops_bytes os.
Proof. induction os as [| o os IH]; [done |]. cbn [ops_bytes foldr]. fold (ops_bytes os). pose proof (op_bytes_nonneg o). lia. Qed.

(** [b] holds [l] and reaches at most [n] cells from the start of its block. *)
Definition holds b l (n : Z) : Prop :=
  wf_buffer b /\ contents b = map Some l /\ front b + data_length b <= n.

Lemma store_ok b (pre cs post new : list cell) :
  wf_buffer b -> is_Some (top b) -> contents b = pre ++ cs ++ post -> length new = length cs ->
  exists b', store b (front b + Z.of_nat (length pre)) new = Ok b' /\ wf_buffer b' /\
    contents b' = pre ++ new ++ post /\ front b' = front b /\ data_length b' = data_length b.
Proof.
  intros Hb [m E] Hc Hn. destruct (layout b m Hb E) as (p & q & -> & Hp). pose proof (length_contents b Hb) as Hl.
  pose proof Hb as [Hf Hd Hfit Hr Ht]. rewrite E in Ht.
  unfold store, block. rewrite E. bind_ok. rewrite Hc in *.
  replace (p ++ (pre ++ cs ++ post) ++ q) with ((p ++ pre) ++ cs ++ (post ++ q)) by (by rewrite <- !app_assoc).
  rewrite (write_layout _ _ _ new) by (rewrite ?length_app; lia). bind_ok. eexists. split; [done |].
  replace ((p ++ pre) ++ new ++ post ++ q) with (p ++ (pre ++ new ++ post) ++ q) by (by rewrite <- !app_assoc).
  rewrite !length_app in *. destruct (of_layout p (pre ++ new ++ post) q (front b) (data_length b) (real_length b)
    (user_data b) (user_data_free_function b)) as [W C]; rewrite ?length_app; try lia. done.
Qed.

Lemma put_back_ok b l n bs :
  holds b l n -> 0 < blen bs -> n + blen bs < 2 ^ 64 ->
  exists b', run_op b (PutBack bs) = Ok b' /\ holds b' (l ++ bs) (n + blen bs).
Proof.
  intros (Hb & Hc & Hn) H0 H1. destruct (append_back_ok b (blen bs) Hb H0) as (b1 & cs & Ha & Hb1 & Hc1 & Hl & Ht & _ & Hf); [lia |].
  pose proof (length_contents b Hb) as Hlen. pose proof (length_contents b1 Hb1) as Hlen1.
  unfold run_op. rewrite Ha. bind_ok.
  destruct (store_ok b1 (contents b) cs [] (map Some bs) Hb1 Ht) as (b2 & Hs & Hb2 & Hc2 & Hf2 & Hd2).
  { by rewrite app_nil_r. } { rewrite length_map. unfold blen in Hl. lia. }
  rewrite <- Hlen, <- Hf, Hs. exists b2. split; [done |]. split; [done |].
  rewrite Hc2, app_nil_r, Hc, map_app. split; [done |]. rewrite Hf2, Hd2, Hf, <- Hlen1, Hc1, length_app.
  unfold blen in *. lia.
Qed.

Lemma put_front_ok b l n bs :
  holds b l n -> 0 < blen bs -> n + blen bs < 2 ^ 64 ->
  exists b', run_op b (PutFront bs) = Ok b' /\ holds b' (bs ++ l) (n + blen bs).
Proof.
  intros (Hb & Hc & Hn) H0 H1. destruct (append_front_ok b (blen bs) Hb H0) as (b1 & cs & Ha & Hb1 & Hc1 & Hl & Ht & _ & Hf); [lia |].
  pose proof (length_contents b Hb) as Hlen. pose proof (length_contents b1 Hb1) as Hlen1.
  unfold run_op. rewrite Ha. bind_ok.
  destruct (store_ok b1 [] cs (contents b) (map Some bs) Hb1 Ht) as (b2 & Hs & Hb2 & Hc2 & Hf2 & Hd2).
  { done. } { rewrite length_map. unfold blen in Hl. lia. }
  cbn [length] in Hs. change (Z.of_nat 0) with 0 in Hs. rewrite Z.add_0_r in Hs.
  rewrite <- Hf, Hs. exists b2. split; [done |]. split; [done |].
  rewrite Hc2, Hc, map_app. split; [done |]. rewrite Hf2, Hd2, Hf, <- Hlen1, Hc1, length_app.
  unfold blen in *. lia.
Qed.

Lemma run_op_ok b l n o :
  holds b l n -> op_ok o -> n + op_bytes o < 2 ^ 64 ->
  match spec_op l o with
  | Ok l' => exists b', run_op b o = Ok b' /\ holds b' l' (n + op_bytes o)
  | Fault f => run_op b o = Fault f
  end.
Proof.
  intros H Ho Hn. pose proof H as (Hb & Hc & Hle). pose proof (length_contents b Hb) as Hlen.
  rewrite Hc, length_map in Hlen. destruct o as [bs | bs | k |]; cbn [spec_op op_bytes op_ok] in *.
  - destruct (Z.eqb_spec (blen bs) 0) as [E | E].
    + unfold run_op, append_back_buffer. by rewrite E.
    + apply put_back_ok; [done | pose proof (blen_nonneg bs); lia | done].
  - destruct (Z.eqb_spec (blen bs) 0) as [E | E].
    + unfold run_op, append_front_buffer. by rewrite E.
    + apply put_front_ok; [done | pose proof (blen_nonneg bs); lia | done].
  - destruct (Z.eqb_spec k 0) as [-> | E]; [done |]. unfold blen. rewrite Hlen.
    pose proof (remove_front_ok b k Hb ltac:(lia)) as Hr. unfold run_op.
    destruct (k <=? data_length b) eqn:Ek; [| by rewrite Hr].
    destruct Hr as (b' & -> & Hb' & Hc' & Hf'). cbn. exists b'. split; [done |]. split; [done |].
    rewrite Hc', Hc. split; [by rewrite skipn_map |].
    pose proof (length_contents b' Hb') as Hlen'. rewrite Hc', Hc, length_drop, length_map in Hlen'. lia.
  - destruct (duplicate_ok b Hb) as (b' & Hd & Hb' & Hc' & Hd'). exists b'. split; [done |]. split; [done |].
    rewrite Hc', Hc. split; [done |]. revert Hd. unfold duplicate_buffer. cbn.
    destruct (real_length b =? 0); [intros [= <-]; cbn; unfold blen in *; destruct Hb; lia |].
    destruct (block b); [| done]. cbn. destruct (read _ _ _); [| done]. cbn. destruct (write _ _ _); [| done].
    cbn. intros [= <-]. cbn. unfold front_length_of. lia.
Qed.

(** C32. Refinement: from an empty buffer, any sequence of appended, prepended
    and removed bytes and of copies leaves in the buffer exactly the bytes of
    a list under the same operations, or aborts where the list does, provided
    fewer than 2^64 bytes are added. *)
Theorem buffer_refines (os : list op) :
  Forall op_ok os -> ops_bytes os < 2 ^ 64 ->
  match spec_ops [] os with
  | Ok l => exists b, run_ops alloc_buffer os = Ok b /\ wf_buffer b /\ contents b = map Some l /\ data_length b = blen l
  | Fault f => run_ops alloc_buffer os = Fault f
  end.
Proof.
  assert (G : forall os b l n, holds b l n -> 0 <= n -> Forall op_ok os -> n + ops_bytes os < 2 ^ 64 ->
    match spec_ops l os with
    | Ok l => exists b', run_ops b os = Ok b' /\ wf_buffer b' /\ contents b' = map Some l /\ data_length b' = blen l
    | Fault f => run_ops b os = Fault f
    end).
  { clear os. intros os.
    induction os as [| o os IH]; intros b l n H H0 Hos Hn; cbn [spec_ops run_ops].
    - destruct H as (Hb & Hc & _). exists b. pose proof (length_contents b Hb) as Hl. rewrite Hc, length_map in Hl. by unfold blen.
    - inversion Hos as [| ? ? Ho Hos']; subst. cbn [ops_bytes foldr] in Hn. fold (ops_bytes os) in Hn. pose proof (ops_bytes_nonneg os). pose proof (op_bytes_nonneg o).
      pose proof (run_op_ok b l n o H Ho ltac:(lia)) as Hr. destruct (spec_op l o) as [l' | f]; [| by rewrite Hr].
      destruct Hr as (b' & -> & H'). bind_ok. apply (IH b' l' (n + op_bytes o)); [done | lia | done | lia]. }
  intros Hos Hn. apply (G os alloc_buffer [] 0); [| done | done | done]. split; [by split |]. by split.
Qed.
End Refinement.

Lemma buffer_refines_witness :
  let os := [PutBack [Byte.x01; Byte.x02; Byte.x03]; PutFront [Byte.x00]; RemoveFront 2; PutFront [Byte.x07]; Duplicate] in
  Forall op_ok os /\ ops_bytes os < 2 ^ 64 /\
  exists b, run_ops (U := unit) alloc_buffer os = Ok b /\ wf_buffer b /\
    contents b = map Some [Byte.x07; Byte.x02; Byte.x03] /\ data_length b = 3.
Proof.
  intros os. assert (H1 : Forall op_ok os) by (repeat constructor; done).
  assert (H2 : ops_bytes os < 2 ^ 64) by reflexivity.
  split; [exact H1 | split; [exact H2 | exact (buffer_refines os H1 H2)]].
Defined.
