(* ===== verification/HashTable.v ===== *)
(** hash_table.c: hash tables with chained buckets.

    The keys are non-NULL pointers, compared and hashed by the functions the
    table is created with: a class [HashKey], whose laws [HashKeyOk] are what
    hash_table.h asks of the two functions.  A client proves the laws for its
    keys; the theorems here are proved from them.

    A doubly linked list is modelled by the list of the elements after its
    head (DList.v proves that the operations of doubly_linked_list.c are these
    operations on lists).  The elements of the index of nonempty buckets keep
    their addresses, since a bucket points at its element there.  The mutex of
    the table is recursive and is held during each call; a call is one step. *)

From Stdlib Require Import ZArith Lia Bool.
From stdpp Require Import base list gmap fin_maps sorting.
From S2P Require Import Prelude.

(** [compare_function] and [hash_function]. *)
Class HashKey (K : Type) : Type := {
  compare : K -> K -> bool;
  hash : K -> Z
}.

(** [ok] are the keys that a client inserts; it may look up others. *)
Class HashKeyOk (K : Type) `{HashKey K} (ok : K -> Prop) : Prop := {
  compare_refl k : ok k -> compare k k = true;
  compare_ok k k' : ok k' -> compare k k' = true -> ok k;
  compare_sym k k' : ok k -> ok k' -> compare k k' = true -> compare k' k = true;
  compare_trans k1 k2 k3 : ok k2 -> ok k3 ->
    compare k1 k2 = true -> compare k2 k3 = true -> compare k1 k3 = true;
  compare_hash k k' : ok k -> ok k' -> compare k k' = true -> hash k = hash k';
  hash_range k : 0 <= hash k < 2 ^ 32
}.

(** * compare_atom and hash_atom: pointers as keys *)

Definition compare_atom (x y : Z) : bool := x =? y.
Definition hash_atom (key : Z) : Z := u32 (Z.shiftr key 2).

#[export] Instance atom_key : HashKey Z := {| compare := compare_atom; hash := hash_atom |}.

#[export] Instance atom_key_ok : HashKeyOk Z (fun _ => True).
Proof.
  split; cbn; unfold compare_atom, hash_atom, u32; intros.
  - apply Z.eqb_refl.
  - done.
  - by rewrite Z.eqb_sym.
  - by rewrite (proj1 (Z.eqb_eq k1 k2)).
  - by rewrite (proj1 (Z.eqb_eq k k')).
  - by apply Z.mod_pos_bound.
Qed.

Section HashTable.
Context {K V : Type} `{HashKey K} (NULL : V).

Abbreviation addr := positive.

Record hash_entry : Type := HashEntry { key : K; value : V }.

(** A bucket: the data of its head, the element of the index; its entries. *)
Record bucket : Type := Bucket { index_element : option addr; entries : list hash_entry }.

Record hash_table : Type := HashTable {
  number_of_buckets : Z;
  table_length : Z;
  buckets : list (option bucket);
  nonempty_bucket_index : list (addr * Z)
}.
Implicit Types (t : hash_table) (k : K) (v : V) (l : list hash_entry).

Definition default_hash_size : Z := 65521.

Definition create_hash_with_size (size : Z) : hash_table :=
  HashTable size 0 (replicate (Z.to_nat size) None) [].

Definition create_hash : hash_table := create_hash_with_size default_hash_size.

Definition get_bucket_index t k : res Z :=
  if number_of_buckets t =? 0 then Fault DivideByZero
  else Ok (hash k mod number_of_buckets t).

(** [table->buckets[ i ]] *)
Definition get_bucket t (i : Z) : res (option bucket) :=
  match buckets t !! Z.to_nat i with Some b => Ok b | None => Fault OutOfBounds end.

Definition set_bucket t (i : Z) (b : option bucket) : hash_table :=
  HashTable (number_of_buckets t) (table_length t) (<[Z.to_nat i := b]> (buckets t))
    (nonempty_bucket_index t).

Definition set_length t (n : Z) : hash_table :=
  HashTable (number_of_buckets t) n (buckets t) (nonempty_bucket_index t).

Definition new_bucket t (bucket_index : Z) : hash_table :=
  let a := fresh (list_to_set (nonempty_bucket_index t).*1 : gset addr) in
  set_bucket
    (HashTable (number_of_buckets t) (table_length t) (buckets t)
      ((a, bucket_index) :: nonempty_bucket_index t))
    bucket_index (Some (Bucket (Some a) [])).

Definition delete_bucket t (bucket_index : Z) (b : bucket) : hash_table :=
  let index :=
    match index_element b with
    | Some a => filter (fun e => e.1 <> a) (nonempty_bucket_index t)
    | None => nonempty_bucket_index t
    end in
  set_bucket (HashTable (number_of_buckets t) (table_length t) (buckets t) index) bucket_index None.

(** The loop over the entries of a bucket. *)
Fixpoint find_entry k l : option hash_entry :=
  match l with
  | [] => None
  | e :: l => if compare k (key e) then Some e else find_entry k l
  end.

(** [delete_dlist_element] of the entry found. *)
Fixpoint remove_entry k l : list hash_entry :=
  match l with
  | [] => []
  | e :: l => if compare k (key e) then l else e :: remove_entry k l
  end.

Definition delete_hash_entry t k : res (V * hash_table) :=
  let* i := get_bucket_index t k in
  let* b := get_bucket t i in
  match b with
  | None => Ok (NULL, t)
  | Some b =>
    let '(deleted, b, t) :=
      match find_entry k (entries b) with
      | Some e =>
        let b := Bucket (index_element b) (remove_entry k (entries b)) in
        (value e, b, set_length (set_bucket t i (Some b)) (u32 (table_length t - 1)))
      | None => (NULL, b, t)
      end in
    match entries b with
    | [] => Ok (deleted, delete_bucket t i b)
    | _ :: _ => Ok (deleted, t)
    end
  end.

(** The end of [insert_hash_entry]: a bucket if there is none, and the entry
    at its head. *)
Definition put_entry t (i : Z) k v : res hash_table :=
  let* b := get_bucket t i in
  let t := match b with None => new_bucket t i | Some _ => t end in
  let* b := get_bucket t i in
  match b with
  | None => Fault NullPointer
  | Some b =>
    let t := set_bucket t i (Some (Bucket (index_element b) (HashEntry k v :: entries b))) in
    Ok (set_length t (u32 (table_length t + 1)))
  end.

Definition insert_hash_entry t k v : res (V * hash_table) :=
  let* i := get_bucket_index t k in
  let* b := get_bucket t i in
  let* (old_value, t) :=
    match b with
    | None => Ok (NULL, t)
    | Some b =>
      match find_entry k (entries b) with
      | Some old => let* (_, t) := delete_hash_entry t k in Ok (value old, t)
      | None => Ok (NULL, t)
      end
    end in
  let* t := put_entry t i k v in
  Ok (old_value, t).

Definition lookup_hash_entry t k : res V :=
  let* i := get_bucket_index t k in
  let* b := get_bucket t i in
  match b with
  | None => Ok NULL
  | Some b => Ok (match find_entry k (entries b) with Some e => value e | None => NULL end)
  end.

(** [function] does not change the table. *)
Fixpoint foreach_loop {S : Type} t (function : K -> V -> S -> S) (nonempty : list (addr * Z)) (s : S)
    : res S :=
  match nonempty with
  | [] => Ok s
  | (_, i) :: nonempty =>
    let* b := get_bucket t i in
    match b with
    | None => foreach_loop t function nonempty s
    | Some b => foreach_loop t function nonempty (foldl (fun s e => function (key e) (value e) s) s (entries b))
    end
  end.

Definition foreach_hash {S : Type} t (function : K -> V -> S -> S) (s : S) : res S :=
  foreach_loop t function (nonempty_bucket_index t) s.

(** An iterator: pointers into the index and into a bucket are the elements
    from there on; [None] is NULL. *)
Record hash_iterator : Type := HashIterator {
  it_bucket_index : option (addr * Z);
  it_next_bucket_index : list (addr * Z);
  it_element : list hash_entry
}.

(** [iterator->buckets[ i ]->next] after [assert( iterator->buckets[ i ] != NULL )] *)
Definition bucket_entries t (i : Z) : res (list hash_entry) :=
  let* b := get_bucket t i in
  match b with Some b => Ok (entries b) | None => Fault AssertFailed end.

Definition init_hash_iterator t : res hash_iterator :=
  match nonempty_bucket_index t with
  | (a, i) :: next =>
    let* es := bucket_entries t i in
    Ok (HashIterator (Some (a, i)) next es)
  | [] => Ok (HashIterator None [] [])
  end.

(** The [for ( ;; )] loop is a recursion on the rest of the index. *)
Fixpoint iterate_loop t (current : addr * Z) (next : list (addr * Z)) (es : list hash_entry)
    : res (option hash_entry * hash_iterator) :=
  match es with
  | e :: es => Ok (Some e, HashIterator (Some current) next es)
  | [] =>
    match next with
    | (a, i) :: next =>
      let* es := bucket_entries t i in
      iterate_loop t (a, i) next es
    | [] => Ok (None, HashIterator (Some current) [] [])
    end
  end.

Definition iterate_hash_next t (iterator : hash_iterator) : res (option hash_entry * hash_iterator) :=
  match it_bucket_index iterator with
  | None => Ok (None, iterator)
  | Some current => iterate_loop t current (it_next_bucket_index iterator) (it_element iterator)
  end.

(** The memory of the table itself is freed after the loop. *)
Fixpoint delete_hash_loop t (nonempty : list (addr * Z)) : res hash_table :=
  match nonempty with
  | [] => Ok t
  | (_, i) :: nonempty =>
    let* b := get_bucket t i in
    match b with
    | None => delete_hash_loop t nonempty
    | Some b => delete_hash_loop (delete_bucket t i b) nonempty
    end
  end.

Definition delete_hash t : res hash_table := delete_hash_loop t (nonempty_bucket_index t).
End HashTable.

#[global] Arguments HashEntry {K V} _ _.
#[global] Arguments key {K V} _.
#[global] Arguments value {K V} _.
#[global] Arguments Bucket {K V} _ _.
#[global] Arguments index_element {K V} _.
#[global] Arguments entries {K V} _.
#[global] Arguments hash_table : clear implicits.
#[global] Arguments hash_entry : clear implicits.
#[global] Arguments bucket : clear implicits.

(** * Invariant *)

Section Invariant.
Context {K V : Type} `{HashKeyOk K ok} (NULL : V).
Implicit Types (t : hash_table K V) (k : K) (v : V) (l : list (hash_entry K V))
  (bs : list (option (bucket K V))) (ix : list (positive * Z)).

(** No two entries have equal keys. *)
Fixpoint distinct l : Prop :=
  match l with
  | [] => True
  | e :: l => Forall (fun e' => compare (key e) (key e') = false) l /\ distinct l
  end.

Definition index_of bs (j : nat) : option positive := b ← bs !! j; b ← b; index_element b.

(** The index holds one element for each bucket, which points at it. *)
Record index_ok ix bs : Prop := {
  index_nodup : NoDup ix.*1;
  index_elem a i : (a, i) ∈ ix <-> 0 <= i /\ index_of bs (Z.to_nat i) = Some a;
  index_some j b : bs !! j = Some (Some b) -> is_Some (index_element b)
}.

Definition bucket_ok (n : Z) (j : nat) l : Prop :=
  l <> [] /\ Forall (fun e => ok (key e) /\ hash (key e) mod n = Z.of_nat j) l /\ distinct l.

Definition entry_count bs : nat := sum_list_with (fun b => from_option (fun b => length (entries b)) O b) bs.

Record wf_table t : Prop := {
  wf_size : 0 < number_of_buckets t;
  wf_buckets : length (buckets t) = Z.to_nat (number_of_buckets t);
  wf_index : index_ok (nonempty_bucket_index t) (buckets t);
  wf_entries j b : buckets t !! j = Some (Some b) -> bucket_ok (number_of_buckets t) j (entries b);
  wf_length : table_length t = u32 (Z.of_nat (entry_count (buckets t)))
}.

(** The abstract table: a partial function on keys. *)
Definition slot t k : nat := Z.to_nat (hash k mod number_of_buckets t).
Definition bucket_list t (j : nat) : list (hash_entry K V) :=
  match buckets t !! j with Some (Some b) => entries b | _ => [] end.
Definition table_map t k : option V := value <$> find_entry k (bucket_list t (slot t k)).

(** ** Entries of a bucket *)

Definition ok_entries l : Prop := Forall (fun e => ok (key e)) l.

Lemma find_entry_Some k l e :
  find_entry k l = Some e -> e ∈ l /\ compare k (key e) = true.
Proof.
  induction l as [| e' l IH]; [done |]. cbn. destruct (compare k (key e')) eqn:E.
  - intros [= ->]. split; [by left | done].
  - intros []%IH. split; [by right | done].
Qed.

Lemma find_entry_None k l e : find_entry k l = None -> e ∈ l -> compare k (key e) = false.
Proof.
  induction l as [| e' l IH]; [by inversion 2 |]. cbn. destruct (compare k (key e')) eqn:E; [done |].
  intros Hn [-> | He]%elem_of_cons; [done | by apply IH].
Qed.

(** Equal keys find the same entry. *)
Lemma compare_cong k k' k2 : ok k -> ok k' -> ok k2 -> compare k k' = true -> compare k k2 = compare k' k2.
Proof.
  intros Hk Hk' Hk2 E. destruct (compare k k2) eqn:E1; symmetry.
  - apply (compare_trans k' k k2); [done.. | by apply compare_sym | done].
  - apply not_true_iff_false. intros E2. apply not_true_iff_false in E1. apply E1.
    by apply (compare_trans k k' k2).
Qed.

Lemma find_entry_cong k k' l :
  ok k' -> ok_entries l -> compare k k' = true -> find_entry k l = find_entry k' l.
Proof.
  intros Hk' Hl E. assert (ok k) by by apply (compare_ok k k').
  induction Hl as [| e l He Hl IH]; [done |]. cbn. by rewrite (compare_cong k k'), IH.
Qed.

Lemma find_entry_remove k k' l :
  ok k -> ok_entries l -> distinct l ->
  find_entry k' (remove_entry k l) = if compare k' k then None else find_entry k' l.
Proof.
  intros Hk Hl. induction Hl as [| e l He Hl IH]; intros Hd; [by destruct (compare _ _) |].
  destruct Hd as [Hd1 Hd]. cbn. destruct (compare k (key e)) eqn:E.
  - destruct (compare k' k) eqn:E'.
    + assert (ok k') by by apply (compare_ok k' k).
      destruct (find_entry k' l) as [e' |] eqn:F; [| done]. exfalso.
      apply find_entry_Some in F as [Hin F]. rewrite Forall_forall in Hd1, Hl.
      apply Hd1 in Hin as Hne. apply Hl in Hin. apply not_true_iff_false in Hne. apply Hne.
      apply (compare_trans _ k' (key e')); [done | done | | done].
      apply (compare_trans _ k k'); [done | done | by apply compare_sym | by apply compare_sym].
    + destruct (compare k' (key e)) eqn:E2; [| done]. exfalso.
      assert (ok k') by by apply (compare_ok k' (key e)). apply not_true_iff_false in E'. apply E'.
      apply (compare_trans k' (key e) k); [done | done | done | by apply compare_sym].
  - cbn. rewrite IH by done. destruct (compare k' (key e)) eqn:E2; [| done].
    destruct (compare k' k) eqn:E'; [| done]. exfalso. apply not_true_iff_false in E. apply E.
    assert (ok k') by by apply (compare_ok k' k).
    apply (compare_trans k k' (key e)); [done | done | by apply compare_sym | done].
Qed.

Lemma remove_entry_sub k l e : e ∈ remove_entry k l -> e ∈ l.
Proof.
  induction l as [| e' l IH]; [done |]. cbn. destruct (compare _ _); [by right |].
  intros [-> | ?]%elem_of_cons; [by left | right; by apply IH].
Qed.

Lemma remove_entry_distinct k l : distinct l -> distinct (remove_entry k l).
Proof.
  induction l as [| e l IH]; [done |]. intros [H1 H2]. cbn. destruct (compare _ _); [done |].
  split; [| by apply IH]. rewrite Forall_forall in H1 |- *. intros e' He'%remove_entry_sub. by apply H1.
Qed.

Lemma remove_entry_Forall (P : hash_entry K V -> Prop) k l : Forall P l -> Forall P (remove_entry k l).
Proof. rewrite !Forall_forall. intros HP e He%remove_entry_sub. by apply HP. Qed.

Lemma remove_entry_length k l e :
  find_entry k l = Some e -> length l = S (length (remove_entry k l)).
Proof.
  induction l as [| e' l IH]; [done |]. cbn. destruct (compare _ _); [done |].
  intros F. cbn. by rewrite (IH F).
Qed.

Lemma remove_entry_None k l : find_entry k l = None -> remove_entry k l = l.
Proof.
  induction l as [| e' l IH]; [done |]. cbn. destruct (compare _ _); [done |].
  intros F. by rewrite (IH F).
Qed.

(** ** Index *)

Lemma index_of_insert bs j b j' :
  (j < length bs)%nat ->
  index_of (<[j := b]> bs) j' = if decide (j' = j) then b ≫= index_element else index_of bs j'.
Proof.
  intros Hj. unfold index_of. destruct (decide (j' = j)) as [-> | Hne].
  - by rewrite list_lookup_insert_eq.
  - by rewrite list_lookup_insert_ne.
Qed.

Lemma index_ok_put ix bs j b l :
  bs !! j = Some (Some b) -> index_ok ix bs ->
  index_ok ix (<[j := Some (Bucket (index_element b) l)]> bs).
Proof.
  intros Hb [Hnd He Hs]. pose proof (lookup_lt_Some _ _ _ Hb) as Hj. split; [done | |].
  - intros a i. rewrite He, index_of_insert by done. destruct (decide _) as [Hi |]; [| done].
    unfold index_of. by rewrite Hi, Hb.
  - intros j' b'. destruct (decide (j = j')) as [-> |].
    + rewrite list_lookup_insert_eq by done. intros [= <-]. by apply (Hs j' b).
    + rewrite list_lookup_insert_ne by done. apply Hs.
Qed.

Lemma index_ok_new ix bs j a l :
  bs !! j = Some None -> a ∉ ix.*1 -> index_ok ix bs ->
  index_ok ((a, Z.of_nat j) :: ix) (<[j := Some (Bucket (Some a) l)]> bs).
Proof.
  intros Hb Ha [Hnd He Hs]. pose proof (lookup_lt_Some _ _ _ Hb) as Hj. split.
  - by constructor.
  - intros a' i. rewrite elem_of_cons, He, index_of_insert by done.
    assert (index_of bs j = None) as Hn by (unfold index_of; by rewrite Hb).
    destruct (decide _) as [Hi | Hne].
    + rewrite Hi, Hn. cbn. split; [intros [[= -> ->] | [_ [=]]]; split; [lia | done] |].
      intros [Hi0 [= ->]]. left. by rewrite <- Hi, Z2Nat.id.
    + split; [intros [[= -> ->] | ?]; [by rewrite Nat2Z.id in Hne | done] | by right].
  - intros j' b'. destruct (decide (j = j')) as [-> |].
    + rewrite list_lookup_insert_eq by done. intros [= <-]. by eexists.
    + rewrite list_lookup_insert_ne by done. apply Hs.
Qed.

Lemma index_ok_del ix bs j b a :
  bs !! j = Some (Some b) -> index_element b = Some a -> index_ok ix bs ->
  index_ok (filter (fun e => e.1 <> a) ix) (<[j := None]> bs).
Proof.
  intros Hb Ha [Hnd He Hs]. pose proof (lookup_lt_Some _ _ _ Hb) as Hj. split.
  - eapply sublist_NoDup; [exact Hnd |]. apply fmap_sublist, sublist_filter.
  - intros a' i. rewrite list_elem_of_filter, He, index_of_insert by done. cbn.
    assert (index_of bs j = Some a) as Hjn by (unfold index_of; by rewrite Hb).
    destruct (decide _) as [Hi | Hne]; cbn.
    + rewrite Hi, Hjn. split; [intros (? & _ & [=]); congruence | intros [_ [=]]].
    + split; [tauto |]. intros [Hi Hia]. split; [| done]. intros ->.
      assert (H1 : (a, i) ∈ ix) by by apply He.
      assert (H2 : (a, Z.of_nat j) ∈ ix) by (apply He; split; [lia | by rewrite Nat2Z.id]).
      apply Hne. enough (i = Z.of_nat j) as -> by apply Nat2Z.id.
      apply list_elem_of_lookup in H1 as [n1 H1], H2 as [n2 H2].
      assert (n1 = n2) as ->; [| rewrite H1 in H2; by injection H2].
      eapply NoDup_lookup; [exact Hnd | |]; rewrite list_lookup_fmap; [by rewrite H1 | by rewrite H2].
  - intros j' b'. destruct (decide (j = j')) as [-> |].
    + by rewrite list_lookup_insert_eq.
    + rewrite list_lookup_insert_ne by done. apply Hs.
Qed.

(** ** Counting *)

Lemma entry_count_insert bs j b b' :
  bs !! j = Some b ->
  (entry_count (<[j := b']> bs) + length (from_option entries [] b)
   = entry_count bs + length (from_option entries [] b'))%nat.
Proof.
  unfold entry_count. revert j. induction bs as [| c bs IH]; intros [| j] Hb; simplify_eq/=.
  - destruct b, b'; cbn; lia.
  - apply IH in Hb. lia.
Qed.

Lemma u32_count n d : u32 (u32 n + d) = u32 (n + d).
Proof. unfold u32. by rewrite Zplus_mod_idemp_l. Qed.

(** ** The bucket of a key *)

Lemma slot_bound t k : wf_table t -> (slot t k < length (buckets t))%nat.
Proof.
  intros [Hn Hl _ _ _]. unfold slot. rewrite Hl. pose proof (Z.mod_pos_bound (hash k) _ Hn). lia.
Qed.

Lemma slot_eq t k k' : ok k -> compare k' k = true -> slot t k' = slot t k.
Proof.
  intros Hk E. unfold slot. by rewrite (compare_hash k' k) by first [done | by apply (compare_ok k' k)].
Qed.

Lemma get_bucket_ok t k :
  wf_table t ->
  exists b, buckets t !! slot t k = Some b /\ get_bucket_index t k = Ok (Z.of_nat (slot t k)) /\
    get_bucket t (Z.of_nat (slot t k)) = Ok b.
Proof.
  intros Hw. destruct (lookup_lt_is_Some_2 _ _ (slot_bound t k Hw)) as [b Hb].
  exists b. split; [done |]. unfold get_bucket_index, get_bucket. pose proof (wf_size _ Hw) as Hn.
  replace (number_of_buckets t =? 0) with false by lia. rewrite Nat2Z.id, Hb. split; [| done].
  f_equal. unfold slot. rewrite Z2Nat.id; [done |]. by apply Z.mod_pos_bound.
Qed.

Lemma table_map_bucket t k b :
  buckets t !! slot t k = Some b -> table_map t k = value <$> find_entry k (from_option entries [] b).
Proof. intros Hb. unfold table_map, bucket_list. rewrite Hb. by destruct b. Qed.

Lemma table_map_set t t' k b k' :
  wf_table t -> number_of_buckets t' = number_of_buckets t ->
  buckets t' = <[slot t k := b]> (buckets t) ->
  table_map t' k' = if decide (slot t k' = slot t k)
    then value <$> find_entry k' (from_option entries [] b) else table_map t k'.
Proof.
  intros Hw Hn Hb. pose proof (slot_bound t k Hw). unfold table_map, bucket_list.
  replace (slot t' k') with (slot t k') by (unfold slot; by rewrite Hn). rewrite Hb.
  destruct (decide _) as [-> | Hne].
  - rewrite list_lookup_insert_eq by done. by destruct b.
  - by rewrite list_lookup_insert_ne.
Qed.

Lemma bucket_entries_ok t j b :
  wf_table t -> buckets t !! j = Some b ->
  ok_entries (from_option entries [] b) /\ distinct (from_option entries [] b) /\
  Forall (fun e => ok (key e) /\ hash (key e) mod number_of_buckets t = Z.of_nat j) (from_option entries [] b).
Proof.
  intros Hw Hb. destruct b as [b |]; [| split_and!; [constructor | done | constructor]].
  destruct (wf_entries _ Hw _ _ Hb) as (_ & Hf & Hd). split_and!; [| done..].
  eapply Forall_impl; [exact Hf |]. by intros e [].
Qed.

(** Equal keys have the same value. *)
Lemma table_map_cong t k k' : wf_table t -> ok k -> compare k' k = true -> table_map t k' = table_map t k.
Proof.
  intros Hw Hk E. destruct (get_bucket_ok t k Hw) as (b & Hb & _).
  destruct (bucket_entries_ok _ _ _ Hw Hb) as (Hok & _).
  rewrite (table_map_bucket _ _ _ Hb), (table_map_bucket t k' b) by by rewrite (slot_eq t k k').
  by rewrite (find_entry_cong k' k).
Qed.

(** Replacing the bucket of a key. *)
Lemma wf_set t t' k b b' :
  wf_table t -> buckets t !! slot t k = Some b ->
  number_of_buckets t' = number_of_buckets t ->
  buckets t' = <[slot t k := b']> (buckets t) ->
  index_ok (nonempty_bucket_index t') (buckets t') ->
  (forall c, b' = Some c -> bucket_ok (number_of_buckets t) (slot t k) (entries c)) ->
  table_length t' = u32 (table_length t + Z.of_nat (length (from_option entries [] b'))
    - Z.of_nat (length (from_option entries [] b))) ->
  wf_table t'.
Proof.
  intros [Hn Hl Hi He Hc] Hb Hn' Hb' Hi' He' Hlen. split.
  - by rewrite Hn'.
  - by rewrite Hn', Hb', length_insert.
  - done.
  - intros j c. rewrite Hn', Hb'. pose proof (lookup_lt_Some _ _ _ Hb).
    destruct (decide (slot t k = j)) as [<- | Hne].
    + rewrite list_lookup_insert_eq by done. intros [= ->]. by apply He'.
    + rewrite list_lookup_insert_ne by done. apply He.
  - rewrite Hlen, Hc, Hb'. pose proof (entry_count_insert _ _ _ b' Hb) as E.
    rewrite <- Z.add_sub_assoc, u32_count. f_equal. lia.
Qed.

(** ** Operations *)

Lemma lookup_ok t k :
  wf_table t -> lookup_hash_entry NULL t k = Ok (default NULL (table_map t k)).
Proof.
  intros Hw. destruct (get_bucket_ok t k Hw) as (b & Hb & Hi & Hg).
  unfold lookup_hash_entry. rewrite Hi. bind_ok. rewrite Hg. bind_ok.
  rewrite (table_map_bucket _ _ _ Hb). destruct b as [b |]; cbn [from_option]; [| done].
  by destruct (find_entry k (entries b)).
Qed.

Lemma delete_ok t k :
  wf_table t -> ok k ->
  exists t', delete_hash_entry NULL t k = Ok (default NULL (table_map t k), t') /\ wf_table t' /\
    number_of_buckets t' = number_of_buckets t /\
    forall k', table_map t' k' = if compare k' k then None else table_map t k'.
Proof.
  intros Hw Hk. destruct (get_bucket_ok t k Hw) as (b & Hb & Hi & Hg).
  pose proof (slot_bound t k Hw) as Hj.
  destruct (bucket_entries_ok _ _ _ Hw Hb) as (Hok & Hd & Hf).
  unfold delete_hash_entry. rewrite Hi. bind_ok. rewrite Hg. bind_ok.
  rewrite (table_map_bucket _ _ _ Hb).
  assert (Hnone : forall k', table_map t k = None -> compare k' k = true -> table_map t k' = None).
  { intros k' Hn E. by rewrite (table_map_cong t k k'). }
  rewrite (table_map_bucket _ _ _ Hb) in Hnone.
  destruct b as [b |]; cbn [from_option] in *.
  2:{ exists t. split_and!; [done.. |]. intros k'. destruct (compare k' k) eqn:E; [by apply Hnone | done]. }
  destruct (wf_entries _ Hw _ _ Hb) as (Hne & _).
  destruct (find_entry k (entries b)) as [e |] eqn:F; cbn [fmap option_fmap option_map default] in *.
  2:{ destruct (entries b) eqn:E; [done |]. exists t. split_and!; [done.. |].
      intros k'. destruct (compare k' k) eqn:E'; [by apply Hnone | done]. }
  pose proof (remove_entry_length _ _ _ F) as Hlen. cbn [entries].
  assert (Hmap : forall t', number_of_buckets t' = number_of_buckets t ->
    forall b', buckets t' = <[slot t k := b']> (buckets t) ->
    from_option entries [] b' = remove_entry k (entries b) ->
    forall k', table_map t' k' = if compare k' k then None else table_map t k').
  { intros t' Hn' b' Hb' Eb k'. rewrite (table_map_set t t' k b') by done. rewrite Eb.
    destruct (decide _) as [Hs | Hs].
    - rewrite find_entry_remove by done. destruct (compare k' k); [done |].
      rewrite (table_map_bucket t k' (Some b)); [done | by rewrite Hs].
    - destruct (compare k' k) eqn:E; [| done]. by rewrite (slot_eq t k k') in Hs. }
  destruct (remove_entry k (entries b)) as [| e' l'] eqn:Er.
  - destruct (index_some _ _ (wf_index _ Hw) _ _ Hb) as [a Ha].
    eexists. split; [done |]. unfold delete_bucket, set_length, set_bucket.
    cbn [index_element buckets nonempty_bucket_index number_of_buckets table_length]. rewrite Ha, Nat2Z.id, list_insert_insert_eq.
    assert (Hs : forall c : bucket K V, None = Some c -> bucket_ok (number_of_buckets t) (slot t k) (entries c)) by done.
    split_and!; [| done | by eapply Hmap].
    apply (wf_set t _ k (Some b) None); try done; cbn; [| rewrite Hlen; f_equal; cbn; lia].
    by eapply index_ok_del; [| | apply Hw].
  - eexists. split; [done |]. unfold set_length, set_bucket. rewrite Nat2Z.id.
    split_and!; [| done | by eapply Hmap].
    apply (wf_set t _ k (Some b) (Some (Bucket (index_element b) (e' :: l')))); try done; cbn.
    + apply index_ok_put; [done | apply Hw].
    + intros c [= <-]. cbn. rewrite <- Er. split_and!; [by rewrite Er | by apply remove_entry_Forall |].
      by apply remove_entry_distinct.
    + rewrite Hlen. f_equal. cbn. lia.
Qed.

Lemma put_entry_ok t k v :
  wf_table t -> ok k -> table_map t k = None ->
  exists t', put_entry t (Z.of_nat (slot t k)) k v = Ok t' /\ wf_table t' /\
    number_of_buckets t' = number_of_buckets t /\
    forall k', table_map t' k' = if compare k' k then Some v else table_map t k'.
Proof.
  intros Hw Hk Hm. destruct (get_bucket_ok t k Hw) as (b & Hb & _ & Hg).
  pose proof (slot_bound t k Hw) as Hj.
  destruct (bucket_entries_ok _ _ _ Hw Hb) as (Hok & Hd & Hf).
  rewrite (table_map_bucket _ _ _ Hb) in Hm. apply fmap_None in Hm.
  set (l := from_option entries [] b) in *.
  assert (Hmap : forall t' e, number_of_buckets t' = number_of_buckets t ->
    buckets t' = <[slot t k := Some (Bucket e (HashEntry k v :: l))]> (buckets t) ->
    forall k', table_map t' k' = if compare k' k then Some v else table_map t k').
  { intros t' e Hn' Hb' k'. rewrite (table_map_set t t' k _ k' Hw Hn' Hb'). cbn.
    destruct (decide _) as [Hs | Hs].
    - destruct (compare k' k); [done |]. by rewrite (table_map_bucket t k' b) by by rewrite Hs.
    - destruct (compare k' k) eqn:E; [| done]. by rewrite (slot_eq t k k') in Hs. }
  assert (Hbk : forall e c, Some (Bucket e (HashEntry k v :: l)) = Some c ->
    bucket_ok (number_of_buckets t) (slot t k) (entries c)).
  { intros e c [= <-]. cbn. split_and!; [done | |].
    - constructor; [| exact Hf]. cbn. split; [done |]. unfold slot.
      rewrite Z2Nat.id; [done |]. apply Z.mod_pos_bound, Hw.
    - split; [| done]. apply Forall_forall. intros e' He'. cbn. by eapply find_entry_None. }
  unfold put_entry. rewrite Hg. bind_ok. destruct b as [b |].
  - rewrite Hg. bind_ok. eexists. split; [done |]. unfold set_length, set_bucket. rewrite Nat2Z.id.
    split_and!; [| done | by eapply Hmap].
    eapply (wf_set t _ k (Some b)); [done | done | done | done | | by apply Hbk |].
    + apply index_ok_put; [done | apply Hw].
    + cbn. f_equal. lia.
  - unfold get_bucket, new_bucket, set_bucket. rewrite Nat2Z.id. cbn [buckets].
    rewrite list_lookup_insert_eq by done. bind_ok. eexists. split; [done |].
    unfold set_length. cbn [buckets nonempty_bucket_index number_of_buckets table_length index_element entries].
    rewrite ?Nat2Z.id, list_insert_insert_eq.
    split_and!; [| done | by eapply Hmap].
    eapply (wf_set t _ k None); [done | done | done | done | | by apply Hbk |].
    + cbn. apply index_ok_new; [done | | apply Hw].
      intros Ha. eapply (is_fresh (list_to_set (nonempty_bucket_index t).*1 : gset positive)).
      by apply elem_of_list_to_set.
    + cbn. f_equal. lia.
Qed.

Lemma insert_ok t k v :
  wf_table t -> ok k ->
  exists t', insert_hash_entry NULL t k v = Ok (default NULL (table_map t k), t') /\ wf_table t' /\
    number_of_buckets t' = number_of_buckets t /\
    forall k', table_map t' k' = if compare k' k then Some v else table_map t k'.
Proof.
  intros Hw Hk. destruct (get_bucket_ok t k Hw) as (b & Hb & Hi & Hg).
  unfold insert_hash_entry. rewrite Hi. bind_ok. rewrite Hg. bind_ok.
  destruct (table_map t k) as [old |] eqn:Hm; rewrite (table_map_bucket _ _ _ Hb) in Hm.
  - destruct b as [b |]; [| done]. cbn in Hm.
    destruct (find_entry k (entries b)) as [e |]; [| done]. injection Hm as <-.
    destruct (delete_ok t k Hw Hk) as (t1 & -> & Hw1 & Hn1 & Hm1). bind_ok.
    assert (slot t1 k = slot t k) as Hs by (unfold slot; by rewrite Hn1). rewrite <- Hs.
    destruct (put_entry_ok t1 k v Hw1 Hk) as (t' & -> & Hw' & Hn' & Hm').
    { by rewrite Hm1, compare_refl. }
    bind_ok. exists t'. split_and!; [done | done | by rewrite Hn' |].
    intros k'. rewrite Hm', Hm1. by destruct (compare k' k).
  - assert (match b with
      | Some b => match find_entry k (entries b) with
        | Some old => let* (_, t0) := delete_hash_entry NULL t k in Ok (value old, t0)
        | None => Ok (NULL, t) end
      | None => Ok (NULL, t) end = Ok (NULL, t)) as ->.
    { destruct b as [b |]; [| done]. cbn in Hm. by destruct (find_entry k (entries b)). }
    bind_ok. destruct (put_entry_ok t k v Hw Hk) as (t' & -> & ? & ? & ?).
    { by rewrite (table_map_bucket _ _ _ Hb). }
    bind_ok. by exists t'.
Qed.

Lemma create_ok size :
  0 < size -> wf_table (create_hash_with_size size) /\
  forall k, table_map (create_hash_with_size size) k = None.
Proof.
  intros Hs. assert (Hr : forall j b, replicate (Z.to_nat size) (@None (bucket K V)) !! j = Some b -> b = None).
  { by intros j b [-> _]%lookup_replicate. }
  split; [split |]; cbn.
  - done.
  - apply length_replicate.
  - split.
    + constructor.
    + intros a i. unfold index_of. split; [by inversion 1 |]. intros [_ E].
      destruct (replicate _ _ !! _) as [b |] eqn:Eb; [| done]. apply Hr in Eb. by subst b.
    + intros j b [=]%Hr.
  - intros j b [=]%Hr.
  - replace (entry_count _) with O; [done |]. unfold entry_count.
    clear. induction (Z.to_nat size) as [| n IH]; cbn; [done | exact IH].
  - intros k. unfold table_map, bucket_list. cbn [create_hash_with_size buckets].
    destruct (replicate _ _ !! _) as [b |] eqn:Eb; [| done]. apply Hr in Eb. by subst b.
Qed.

(** ** Iteration *)

(** The entries in the order of the index. *)
Definition listed t ix : list (hash_entry K V) := ix ≫= fun p => bucket_list t (Z.to_nat p.2).
Definition visited t : list (hash_entry K V) := listed t (nonempty_bucket_index t).

(** Elements of the index of [t]. *)
Definition indexed t ix : Prop := Forall (fun p => p ∈ nonempty_bucket_index t) ix.

Lemma indexed_bucket t a i :
  wf_table t -> (a, i) ∈ nonempty_bucket_index t ->
  exists b, buckets t !! Z.to_nat i = Some (Some b) /\ get_bucket t i = Ok (Some b) /\
    bucket_list t (Z.to_nat i) = entries b /\ 0 <= i /\ index_element b = Some a.
Proof.
  intros Hw Hin. apply (index_elem _ _ (wf_index _ Hw)) in Hin as [Hi Ha]. unfold index_of in Ha.
  destruct (buckets t !! Z.to_nat i) as [[b |] |] eqn:Hb; try done. exists b.
  unfold get_bucket, bucket_list. by rewrite Hb.
Qed.

Lemma foreach_loop_ok {S : Type} t (f : K -> V -> S -> S) ix s :
  wf_table t -> indexed t ix ->
  foreach_loop t f ix s = Ok (foldl (fun s e => f (key e) (value e) s) s (listed t ix)).
Proof.
  intros Hw Hix. revert s. induction Hix as [| [a i] ix Hin _ IH]; intros s; [done |].
  destruct (indexed_bucket _ _ _ Hw Hin) as (b & _ & Hg & Hl & _). cbn [foreach_loop].
  rewrite Hg. bind_ok. rewrite IH. cbn [listed mbind list_bind snd]. by rewrite Hl, foldl_app.
Qed.

(** What the iterator has still to return. *)
Definition remaining t (it : hash_iterator) : list (hash_entry K V) :=
  match it_bucket_index it with
  | None => []
  | Some _ => it_element it ++ listed t (it_next_bucket_index it)
  end.

Lemma iterate_loop_ok t cur ix (es : list (hash_entry K V)) :
  wf_table t -> indexed t ix ->
  exists e it, iterate_loop t cur ix es = Ok (e, it) /\ indexed t (it_next_bucket_index it) /\
    es ++ listed t ix = match e with Some e => e :: remaining t it | None => [] end.
Proof.
  intros Hw Hix. revert cur es. induction Hix as [| [a i] ix Hin Hix IH]; intros cur [| e es]; cbn [iterate_loop].
  - do 2 eexists. split_and!; [done | constructor | done].
  - do 2 eexists. split_and!; [done | constructor | done].
  - destruct (indexed_bucket _ _ _ Hw Hin) as (b & _ & Hg & Hl & _). unfold bucket_entries.
    rewrite Hg. bind_ok. destruct (IH (a, i) (entries b)) as (e & it & -> & Hit & Heq).
    exists e, it. split_and!; [done.. |]. cbn. by rewrite Hl.
  - exists (Some e). eexists. split_and!; [done | by constructor | done].
Qed.

(** [while ( ( e = iterate_hash_next( &iter ) ) != NULL )], at most [n] times. *)
Fixpoint iterate_all (n : nat) t (it : hash_iterator) : res (list (hash_entry K V)) :=
  match n with
  | O => Fault OutOfFuel
  | S n =>
    let* (e, it) := iterate_hash_next t it in
    match e with
    | None => Ok []
    | Some e => let* l := iterate_all n t it in Ok (e :: l)
    end
  end.

Lemma iterate_all_ok n t it :
  wf_table t -> indexed t (it_next_bucket_index it) -> (length (remaining t it) < n)%nat ->
  iterate_all n t it = Ok (remaining t it).
Proof.
  intros Hw. revert it. induction n as [| n IH]; intros it Hix Hn; [lia |].
  cbn [iterate_all]. unfold iterate_hash_next. unfold remaining in *.
  destruct (it_bucket_index it) as [cur |]; [| done].
  destruct (iterate_loop_ok t cur _ (it_element it) Hw Hix) as (e & it' & -> & Hix' & Heq).
  bind_ok. rewrite Heq in *. destruct e as [e |]; [| done]. cbn [length] in Hn.
  rewrite IH by first [done | unfold remaining in *; lia]. done.
Qed.

Lemma distinct_app l1 l2 :
  distinct (l1 ++ l2) <->
  distinct l1 /\ distinct l2 /\
  forall e1 e2, e1 ∈ l1 -> e2 ∈ l2 -> compare (key e1) (key e2) = false.
Proof.
  induction l1 as [| e l1 IH]; cbn.
  - split; [intros ?; split_and!; [done.. | by inversion 1] | tauto].
  - rewrite Forall_app, IH, !Forall_forall. split.
    + intros [[H1 H2] (H3 & H4 & H5)]. split_and!; try done.
      intros e1 e2 [-> | He1]%elem_of_cons He2; [by apply H2 | by apply H5].
    + intros [[H1 H2] [H3 H4]]. split_and!; try done.
      * intros e2 He2. apply H4; [by left | done].
      * intros e1 e2 He1 He2. apply H4; [by right | done].
Qed.

Lemma elem_of_listed t ix e :
  e ∈ listed t ix <-> exists a i, (a, i) ∈ ix /\ e ∈ bucket_list t (Z.to_nat i).
Proof.
  unfold listed. rewrite list_elem_of_bind. split; [intros ([a i] & ? & ?); by exists a, i |].
  intros (a & i & ? & ?). by exists (a, i).
Qed.

Lemma indexed_entry t a i e :
  wf_table t -> (a, i) ∈ nonempty_bucket_index t -> e ∈ bucket_list t (Z.to_nat i) ->
  ok (key e) /\ hash (key e) mod number_of_buckets t = i.
Proof.
  intros Hw Hin He. destruct (indexed_bucket _ _ _ Hw Hin) as (b & Hb & _ & Hl & Hi & _).
  rewrite Hl in He. destruct (wf_entries _ Hw _ _ Hb) as (_ & Hf & _).
  rewrite Forall_forall in Hf. rewrite Z2Nat.id in Hf by done. by apply Hf.
Qed.

Lemma listed_distinct t ix : wf_table t -> indexed t ix -> NoDup ix -> distinct (listed t ix).
Proof.
  intros Hw Hix. induction Hix as [| [a i] ix Hin Hix IH]; intros Hnd; [done |].
  apply NoDup_cons in Hnd as [Hni Hnd]. cbn [listed mbind list_bind snd]. apply distinct_app. split_and!.
  - destruct (indexed_bucket _ _ _ Hw Hin) as (b & Hb & _ & -> & _). by destruct (wf_entries _ Hw _ _ Hb) as (_ & _ & ?).
  - by apply IH.
  - intros e1 e2 H1 (a2 & i2 & Hin2 & H2)%elem_of_listed.
    unfold indexed in Hix. rewrite Forall_forall in Hix. pose proof (Hix _ Hin2) as Hin2'.
    destruct (indexed_entry _ _ _ _ Hw Hin H1) as [Hk1 E1].
    destruct (indexed_entry _ _ _ _ Hw Hin2' H2) as [Hk2 E2].
    apply not_true_iff_false. intros E. rewrite (compare_hash _ _ Hk1 Hk2 E), E2 in E1. subst i2.
    apply Hni. enough (a2 = a) as -> by done.
    destruct (indexed_bucket _ _ _ Hw Hin) as (b & Hb & _ & _ & _ & Hb1).
    destruct (indexed_bucket _ _ _ Hw Hin2') as (b2 & Hb2 & _ & _ & _ & Hb3). congruence.
Qed.

Lemma find_entry_distinct k l e :
  ok k -> ok_entries l -> distinct l -> e ∈ l -> compare k (key e) = true -> find_entry k l = Some e.
Proof.
  intros Hk Hl. induction Hl as [| e' l He' Hl IH]; intros Hd Hin E; [by inversion Hin |].
  destruct Hd as [Hd1 Hd]. cbn. apply elem_of_cons in Hin as [-> | Hin]; [by rewrite E |].
  destruct (compare k (key e')) eqn:E'; [| by apply IH].
  unfold ok_entries in Hl. rewrite Forall_forall in Hd1, Hl. pose proof (Hl _ Hin).
  apply Hd1 in Hin. apply not_true_iff_false in Hin. exfalso. apply Hin.
  apply (compare_trans _ k (key e)); [done | done | by apply compare_sym | done].
Qed.

(** The entries visited are those of the abstract table. *)
Lemma visited_map t k v :
  wf_table t -> ok k ->
  table_map t k = Some v <-> exists e, e ∈ visited t /\ compare k (key e) = true /\ value e = v.
Proof.
  intros Hw Hk. destruct (get_bucket_ok t k Hw) as (b & Hb & _).
  destruct (bucket_entries_ok _ _ _ Hw Hb) as (Hok & Hd & _).
  rewrite (table_map_bucket _ _ _ Hb). split.
  - intros (e & [Hin E]%find_entry_Some & ->)%fmap_Some. exists e. split_and!; [| done | done].
    destruct b as [b |]; [| by inversion Hin]. cbn in Hin.
    destruct (index_some _ _ (wf_index _ Hw) _ _ Hb) as [a Ha].
    apply elem_of_listed. exists a, (Z.of_nat (slot t k)). rewrite Nat2Z.id. split.
    + apply (index_elem _ _ (wf_index _ Hw)). split; [lia |]. unfold index_of. by rewrite Nat2Z.id, Hb.
    + unfold bucket_list. by rewrite Hb.
  - intros (e & (a & i & Hin & He)%elem_of_listed & E & <-).
    destruct (indexed_entry _ _ _ _ Hw Hin He) as [Hke Hi].
    assert (Hs : Z.to_nat i = slot t k) by (unfold slot; by rewrite <- Hi, (compare_hash k (key e))).
    rewrite Hs in He. unfold bucket_list in He. rewrite Hb in He.
    destruct b as [b |]; [| by inversion He]. cbn. by rewrite (find_entry_distinct k _ e).
Qed.

Lemma delete_hash_ok t :
  index_ok (nonempty_bucket_index t) (buckets t) ->
  exists t', delete_hash t = Ok t' /\ nonempty_bucket_index t' = [] /\
    forall j b, buckets t' !! j = Some b -> b = None.
Proof.
  unfold delete_hash. remember (nonempty_bucket_index t) as ix eqn:E. revert t E.
  induction ix as [| [a i] ix IH]; intros t E Hi; cbn [delete_hash_loop].
  - exists t. split_and!; [done | done |]. intros j [b |] Hb; [| done].
    destruct (index_some _ _ Hi _ _ Hb) as [a Ha].
    assert (Hin : (a, Z.of_nat j) ∈ []); [| by inversion Hin].
    apply (index_elem _ _ Hi). split; [lia |]. unfold index_of. by rewrite Nat2Z.id, Hb.
  - destruct (proj1 (index_elem _ _ Hi a i)) as [Hi0 Ha]; [by left |]. unfold index_of in Ha.
    destruct (buckets t !! Z.to_nat i) as [[b |] |] eqn:Hb; try done. cbn in Ha.
    unfold get_bucket. rewrite Hb. bind_ok.
    pose proof (index_ok_del _ _ _ _ _ Hb Ha Hi) as Hi'.
    assert (Hf : filter (fun e => e.1 <> a) ((a, i) :: ix) = ix).
    { pose proof (index_nodup _ _ Hi) as Hn. cbn in Hn. apply NoDup_cons in Hn as [Hn _].
      rewrite filter_cons_False by (cbn; tauto). clear -Hn. induction ix as [| [a' i'] ix IH]; [done |].
      cbn in Hn. apply not_elem_of_cons in Hn as [Hne Hn].
      rewrite filter_cons_True by (cbn; congruence). by rewrite IH. }
    rewrite Hf in Hi'. apply IH; unfold delete_bucket, set_bucket; cbn [nonempty_bucket_index buckets];
      [by rewrite Ha, <- E, Hf | exact Hi'].
Qed.

Lemma visited_distinct t : wf_table t -> distinct (visited t).
Proof.
  intros Hw. apply listed_distinct; [done | apply Forall_forall; tauto |].
  eapply NoDup_fmap_1, (index_nodup _ _ (wf_index _ Hw)).
Qed.

(** ** Deleting while iterating *)

(** The bucket index of an iterator, as a slot. *)
Definition bucket_at (p : positive * Z) : nat := Z.to_nat p.2.

(** The entries to return from the current bucket are its own; it is not one of
    those that follow. *)
Record iterating t (it : @hash_iterator K V) : Prop := {
  iterating_next : indexed t (it_next_bucket_index it);
  iterating_nodup : NoDup (bucket_at <$> it_next_bucket_index it);
  iterating_current p : it_bucket_index it = Some p -> bucket_at p ∉ bucket_at <$> it_next_bucket_index it /\
    Forall (fun e : hash_entry K V => ok (key e) /\ slot t (key e) = bucket_at p) (it_element it)
}.

Lemma index_slots_nodup t : wf_table t -> NoDup (bucket_at <$> nonempty_bucket_index t).
Proof.
  intros Hw. apply NoDup_fmap_2_strong; [| eapply NoDup_fmap_1, (index_nodup _ _ (wf_index _ Hw))].
  intros [a i] [b j] Ha Hb E. unfold bucket_at in E. cbn in E.
  destruct (indexed_bucket _ _ _ Hw Ha) as (c & Hc & _ & _ & Hi & Ec), (indexed_bucket _ _ _ Hw Hb) as (d & Hd & _ & _ & Hj & Ed).
  assert (i = j) as <- by lia. congruence.
Qed.

Lemma bucket_slots t a i e :
  wf_table t -> (a, i) ∈ nonempty_bucket_index t -> e ∈ bucket_list t (Z.to_nat i) ->
  ok (key e) /\ slot t (key e) = Z.to_nat i.
Proof. intros Hw Hin He. destruct (indexed_entry _ _ _ _ Hw Hin He) as [Hk <-]. by split. Qed.

Lemma init_iterating t :
  wf_table t -> exists it, init_hash_iterator t = Ok it /\ iterating t it /\ remaining t it = visited t.
Proof.
  intros Hw. pose proof (index_slots_nodup t Hw) as Hnd. unfold init_hash_iterator, visited.
  assert (Hix : indexed t (nonempty_bucket_index t)) by (apply Forall_forall; tauto).
  destruct (nonempty_bucket_index t) as [| [a i] ix] eqn:E.
  - eexists. split; [done |]. split; [| done]. split; [constructor | constructor | done].
  - assert (Hin : (a, i) ∈ nonempty_bucket_index t) by (rewrite E; by left).
    destruct (indexed_bucket _ _ _ Hw Hin) as (b & _ & Hg & Hl & _). unfold bucket_entries. rewrite Hg. bind_ok.
    eexists. split; [done |]. split; [| cbn; by rewrite Hl]. cbn [fmap list_fmap] in Hnd. apply NoDup_cons in Hnd as [Hni Hnd].
    unfold indexed in Hix. apply Forall_cons in Hix as [_ Hix]. split; cbn [it_next_bucket_index it_element it_bucket_index]; [done | done |].
    intros p [= <-]. split; [done |]. apply Forall_forall. intros e He. apply (bucket_slots t a i e Hw Hin). by rewrite Hl.
Qed.

Lemma iterate_loop_iterating t cur ix (es : list (hash_entry K V)) :
  wf_table t -> iterating t (HashIterator (Some cur) ix es) ->
  exists e it, iterate_loop t cur ix es = Ok (e, it) /\ iterating t it /\
    match e with
    | Some e => es ++ listed t ix = e :: remaining t it /\ ok (key e) /\
        exists p, it_bucket_index it = Some p /\ slot t (key e) = bucket_at p
    | None => es ++ listed t ix = []
    end.
Proof.
  intros Hw. revert cur es. induction ix as [| [a i] ix IH]; intros cur [| e es] [Hix Hnd Hc]; cbn [iterate_loop];
    cbn [it_next_bucket_index it_element it_bucket_index] in *; destruct (Hc cur eq_refl) as [Hcn Hce].
  - do 2 eexists. split; [done |]. by split.
  - apply Forall_cons in Hce as [[Hk Hs] Hce]. do 2 eexists. split; [done |]. split; [| by split_and!; [| | exists cur]].
    split; [done | done |]. intros p [= <-]. by split.
  - unfold indexed in Hix. apply Forall_cons in Hix as [Hin Hix]. cbn [fmap list_fmap] in Hnd. apply NoDup_cons in Hnd as [Hni Hnd].
    destruct (indexed_bucket _ _ _ Hw Hin) as (b & _ & Hg & Hl & _). unfold bucket_entries. rewrite Hg. bind_ok.
    destruct (IH (a, i) (entries b)) as (e & it & -> & Hit & Heq); [| by (exists e, it; cbn; rewrite Hl)].
    split; cbn [it_next_bucket_index it_element it_bucket_index]; [done | done |]. intros p [= <-]. split; [done |].
    apply Forall_forall. intros e He. apply (bucket_slots t a i e Hw Hin). by rewrite Hl.
  - apply Forall_cons in Hce as [[Hk Hs] Hce]. do 2 eexists. split; [done |]. split; [| by split_and!; [| | exists cur]].
    split; [done | done |]. intros p [= <-]. by split.
Qed.

Lemma iterate_next_ok t it :
  wf_table t -> iterating t it ->
  exists e it', iterate_hash_next t it = Ok (e, it') /\ iterating t it' /\
    match e with
    | Some e => remaining t it = e :: remaining t it' /\ ok (key e) /\
        exists p, it_bucket_index it' = Some p /\ slot t (key e) = bucket_at p
    | None => remaining t it = []
    end.
Proof.
  intros Hw Hit. unfold iterate_hash_next, remaining at 1 3. destruct it as [[cur |] ix es]; cbn [it_bucket_index it_next_bucket_index it_element].
  - by apply iterate_loop_iterating.
  - do 2 eexists. split; [done |]. by split.
Qed.

Lemma delete_other_buckets t k v t' :
  wf_table t -> delete_hash_entry NULL t k = Ok (v, t') ->
  number_of_buckets t' = number_of_buckets t /\ forall j, j <> slot t k -> buckets t' !! j = buckets t !! j.
Proof.
  intros Hw. destruct (get_bucket_ok t k Hw) as (b & _ & Hi & Hg). unfold delete_hash_entry. rewrite Hi. bind_ok. rewrite Hg. bind_ok.
  destruct b as [b |]; [| by intros [= _ <-]]. destruct (find_entry k (entries b)) as [e |].
  - destruct (entries (Bucket _ _)); intros [= _ <-]; unfold delete_bucket, set_length, set_bucket;
      cbn [number_of_buckets buckets]; (split; [done |]); intros j Hj; rewrite !list_lookup_insert_ne by (rewrite Nat2Z.id; done); done.
  - destruct (entries b); intros [= _ <-]; unfold delete_bucket, set_bucket; cbn [number_of_buckets buckets]; [| done].
    split; [done |]. intros j Hj. by rewrite list_lookup_insert_ne by (rewrite Nat2Z.id; done).
Qed.

(** The entry just returned can be deleted: the iteration goes on as before. *)
Lemma delete_iterating t k v t' it p :
  wf_table t -> wf_table t' -> iterating t it -> it_bucket_index it = Some p -> slot t k = bucket_at p ->
  delete_hash_entry NULL t k = Ok (v, t') -> iterating t' it /\ remaining t' it = remaining t it.
Proof.
  intros Hw Hw' [Hix Hnd Hc] Hp Hs Hdel. destruct (delete_other_buckets t k v t' Hw Hdel) as [Hn Hb].
  destruct (Hc p Hp) as [Hcn Hce]. rewrite Hs in Hb.
  assert (Hother : forall q, q ∈ it_next_bucket_index it -> bucket_at q <> bucket_at p).
  { intros q Hq E. apply Hcn. rewrite <- E. by apply list_elem_of_fmap_2. }
  split.
  - split; [| done |].
    + unfold indexed in *. rewrite Forall_forall in Hix |- *. intros [a i] Hq. pose proof (Hix _ Hq) as Hin.
      apply (index_elem _ _ (wf_index _ Hw)) in Hin. apply (index_elem _ _ (wf_index _ Hw')).
      unfold index_of in *. by rewrite (Hb (Z.to_nat i) (Hother _ Hq)).
    + intros q Hq. rewrite Hp in Hq. injection Hq as <-. split; [done |]. unfold slot in *. by rewrite Hn.
  - unfold remaining. rewrite Hp. f_equal. unfold listed. clear -Hother Hb.
    induction (it_next_bucket_index it) as [| q ix IH]; [done |]. cbn [mbind list_bind]. f_equal.
    + unfold bucket_list. by rewrite (Hb (Z.to_nat q.2) (Hother q ltac:(by left))).
    + apply IH. intros q' Hq'. apply Hother. by right.
Qed.
End Invariant.

(** * Theorems *)

Section Theorems.
Context {K V : Type} `{HashKeyOk K ok} (NULL : V).
Implicit Types (t : hash_table K V) (k : K) (v : V).
Abbreviation wf := (wf_table (ok := ok)).

(** Calls of the table, and what they do to a partial function on keys. *)
Inductive table_call : Type :=
| Insert (k : K) (v : V)
| Lookup (k : K)
| Delete (k : K).

Definition call_ok (c : table_call) : Prop :=
  match c with Insert k _ | Delete k => ok k | Lookup _ => True end.

Definition run_call t (c : table_call) : res (V * hash_table K V) :=
  match c with
  | Insert k v => insert_hash_entry NULL t k v
  | Lookup k => let* v := lookup_hash_entry NULL t k in Ok (v, t)
  | Delete k => delete_hash_entry NULL t k
  end.

Fixpoint run_calls t (cs : list table_call) : res (list V * hash_table K V) :=
  match cs with
  | [] => Ok ([], t)
  | c :: cs =>
    let* (v, t) := run_call t c in
    let* (vs, t) := run_calls t cs in
    Ok (v :: vs, t)
  end.

Definition spec_update (m : K -> option V) (c : table_call) : K -> option V :=
  match c with
  | Insert k v => fun k' => if compare k' k then Some v else m k'
  | Lookup _ => m
  | Delete k => fun k' => if compare k' k then None else m k'
  end.

Definition spec_result (m : K -> option V) (c : table_call) : V :=
  match c with Insert k _ | Lookup k | Delete k => default NULL (m k) end.

Fixpoint spec_results (m : K -> option V) (cs : list table_call) : list V :=
  match cs with
  | [] => []
  | c :: cs => spec_result m c :: spec_results (spec_update m c) cs
  end.

Lemma spec_update_ext m m' c k : (forall k, m k = m' k) -> spec_update m c k = spec_update m' c k.
Proof. intros E. destruct c; cbn; rewrite ?E; done. Qed.

Lemma spec_results_ext m m' cs : (forall k, m k = m' k) -> spec_results m cs = spec_results m' cs.
Proof.
  revert m m'. induction cs as [| c cs IH]; intros m m' E; [done |]. cbn. f_equal.
  - destruct c; cbn; by rewrite E.
  - apply IH. intros k. by apply spec_update_ext.
Qed.

Lemma spec_foldl_ext m m' cs k :
  (forall k, m k = m' k) -> foldl spec_update m cs k = foldl spec_update m' cs k.
Proof.
  revert m m'. induction cs as [| c cs IH]; intros m m' E; [apply E |]. cbn. apply IH.
  intros k'. by apply spec_update_ext.
Qed.

Lemma run_call_ok t c :
  wf t -> call_ok c ->
  exists t', run_call t c = Ok (spec_result (table_map t) c, t') /\ wf t' /\
    forall k, table_map t' k = spec_update (table_map t) c k.
Proof.
  intros Hw Hc. destruct c as [k v | k | k]; cbn in *.
  - destruct (insert_ok NULL t k v Hw Hc) as (t' & ? & ? & _ & ?). by exists t'.
  - exists t. by rewrite (lookup_ok NULL t k Hw).
  - destruct (delete_ok NULL t k Hw Hc) as (t' & ? & ? & _ & ?). by exists t'.
Qed.

Lemma run_calls_ok t cs :
  wf t -> Forall call_ok cs ->
  exists t', run_calls t cs = Ok (spec_results (table_map t) cs, t') /\ wf t' /\
    forall k, table_map t' k = foldl spec_update (table_map t) cs k.
Proof.
  intros Hw Hcs. revert t Hw. induction Hcs as [| c cs Hc Hcs IH]; intros t Hw; [by exists t |].
  cbn [run_calls spec_results foldl]. destruct (run_call_ok t c Hw Hc) as (t1 & -> & Hw1 & Hm1).
  bind_ok. destruct (IH t1 Hw1) as (t2 & -> & Hw2 & Hm2). bind_ok.
  exists t2. split_and!; [| done |].
  - by rewrite (spec_results_ext (table_map t1) (spec_update (table_map t) c)).
  - intros k. rewrite Hm2. by apply spec_foldl_ext.
Qed.

(** C28. Refinement: from an empty table, any sequence of insertions, lookups
    and deletions returns what the same calls return on a partial function
    from keys to values, the old value or NULL. *)
Theorem hash_table_refines size cs :
  0 < size -> Forall call_ok cs ->
  exists t, run_calls (create_hash_with_size size) cs = Ok (spec_results (fun _ => None) cs, t) /\
    forall k, table_map t k = foldl spec_update (fun _ => None) cs k.
Proof.
  intros Hs Hcs. destruct (create_ok (K := K) (V := V) (ok := ok) size Hs) as [Hw Hm].
  destruct (run_calls_ok _ cs Hw Hcs) as (t & Hr & _ & Ht). exists t. split.
  - rewrite Hr. by rewrite (spec_results_ext _ (fun _ => None)).
  - intros k. rewrite Ht. by apply spec_foldl_ext.
Qed.

(** Invariant: insertion and deletion keep the buckets, the index of
    nonempty buckets and the length consistent, whatever the state of the
    table, and an insertion or a deletion changes the value of its key only. *)
Theorem hash_table_invariant t k v :
  wf t -> ok k ->
  (exists t', insert_hash_entry NULL t k v = Ok (default NULL (table_map t k), t') /\ wf t' /\
     forall k', table_map t' k' = if compare k' k then Some v else table_map t k') /\
  (exists t', delete_hash_entry NULL t k = Ok (default NULL (table_map t k), t') /\ wf t' /\
     forall k', table_map t' k' = if compare k' k then None else table_map t k').
Proof.
  intros Hw Hk. split.
  - destruct (insert_ok NULL t k v Hw Hk) as (t' & ? & ? & _ & ?). by exists t'.
  - destruct (delete_ok NULL t k Hw Hk) as (t' & ? & ? & _ & ?). by exists t'.
Qed.

(** The iterator returns, and [foreach_hash] visits, the same entries in
    the same order: each key of the table once, with its value; then the
    iterator returns NULL. *)
Theorem hash_iteration {S : Type} t (f : K -> V -> S -> S) s :
  wf t ->
  exists l, foreach_hash t f s = Ok (foldl (fun s e => f (key e) (value e) s) s l) /\
    (exists it, init_hash_iterator t = Ok it /\
       forall n, (length l < n)%nat -> iterate_all n t it = Ok l) /\
    distinct l /\
    forall k v, ok k -> table_map t k = Some v <-> exists e, e ∈ l /\ compare k (key e) = true /\ value e = v.
Proof.
  intros Hw. exists (visited t).
  assert (Hix : indexed t (nonempty_bucket_index t)) by (apply Forall_forall; tauto).
  split_and!.
  - by apply (foreach_loop_ok (ok := ok)).
  - unfold init_hash_iterator, visited. destruct (nonempty_bucket_index t) as [| [a i] ix] eqn:E.
    + eexists. split; [done |]. intros [| n] Hn; [lia | done].
    + destruct (indexed_bucket t a i Hw) as (b & _ & Hg & Hl & _); [rewrite E; by left |].
      unfold bucket_entries. rewrite Hg. bind_ok. eexists. split; [done |]. intros n Hn.
      apply Forall_inv_tail in Hix.
      replace (listed t ((a, i) :: ix)) with (remaining t (HashIterator (Some (a, i)) ix (entries b))) in *
        by (cbn; by rewrite Hl).
      by apply (iterate_all_ok (ok := ok)).
  - by apply visited_distinct.
  - intros k v Hk. by apply visited_map.
Qed.

(** [delete_hash] reaches every bucket through the index: no bucket and no
    element of the index is left allocated. *)
Theorem delete_hash_complete t :
  wf t -> exists t', delete_hash t = Ok t' /\ nonempty_bucket_index t' = [] /\
    forall j b, buckets t' !! j = Some b -> b = None.
Proof. intros Hw. by apply delete_hash_ok, Hw. Qed.
End Theorems.

(** * Witnesses: a table of two buckets with pointers as keys *)

Definition sample_calls : list (table_call (K := Z) (V := Z)) :=
  [Insert 8 80; Insert 16 160; Insert 8 81; Lookup 16; Delete 8; Lookup 8].

Lemma sample_calls_ok : Forall (call_ok (ok := fun _ => True)) sample_calls.
Proof. by repeat constructor. Qed.

Lemma hash_table_refines_witness :
  Forall (call_ok (ok := fun _ => True)) sample_calls /\
  exists t, run_calls 0 (create_hash_with_size 2) sample_calls = Ok ([0; 0; 80; 160; 81; 0], t) /\
    forall k, table_map t k = foldl spec_update (fun _ => None) sample_calls k.
Proof.
  split; [exact sample_calls_ok |].
  exact (hash_table_refines (ok := fun _ => True) 0 2 sample_calls ltac:(lia) sample_calls_ok).
Defined.

Lemma hash_table_invariant_witness :
  wf_table (ok := fun _ => True) (create_hash_with_size (K := Z) (V := Z) 2) /\
  exists t', insert_hash_entry 0 (create_hash_with_size 2) 8 80 = Ok (0, t') /\ wf_table (ok := fun _ => True) t' /\
    forall k', table_map t' k' = if compare k' 8 then Some 80 else table_map (create_hash_with_size 2) k'.
Proof.
  pose proof (proj1 (create_ok (K := Z) (V := Z) (ok := fun _ => True) 2 ltac:(lia))) as Hw.
  split; [exact Hw |].
  exact (proj1 (hash_table_invariant (ok := fun _ => True) 0 _ 8 80 Hw I)).
Defined.

Lemma hash_iteration_witness :
  wf_table (ok := fun _ => True) (create_hash_with_size (K := Z) (V := Z) 2) /\
  exists l, foreach_hash (create_hash_with_size (K := Z) (V := Z) 2) (fun k _ s => k + s) 0
    = Ok (foldl (fun s (e : hash_entry Z Z) => key e + s) 0 l).
Proof.
  pose proof (proj1 (create_ok (K := Z) (V := Z) (ok := fun _ => True) 2 ltac:(lia))) as Hw.
  split; [exact Hw |].
  destruct (hash_iteration (ok := fun _ => True) _ (fun k _ s => k + s) 0 Hw) as (l & Hl & _).
  exists l. exact Hl.
Defined.

Lemma delete_hash_complete_witness :
  exists t, insert_hash_entry 0 (create_hash_with_size (K := Z) (V := Z) 2) 8 80 = Ok (0, t) /\
    exists t', delete_hash t = Ok t' /\ nonempty_bucket_index t' = [].
Proof.
  pose proof (proj1 (create_ok (K := Z) (V := Z) (ok := fun _ => True) 2 ltac:(lia))) as Hw.
  destruct (insert_ok (ok := fun _ => True) 0 _ 8 80 Hw I) as (t & Hi & Hw' & _). exists t. split; [exact Hi |].
  destruct (delete_hash_complete (ok := fun _ => True) t Hw') as (t' & Hd & Hn & _). exists t'. split; [exact Hd | exact Hn].
Defined.
