(* ===== verification/Codes.v ===== *)
(** openflow_message.h and openflow_message.c: result codes of the validators
    and the masks of the fields.

    The codes are written as the C compiler numbers the enumerators: each is
    one more than the one before. *)

From Stdlib Require Import ZArith.
From S2P Require Import Prelude OpenFlow.

Definition SUCCESS := 0.
Definition ERROR_UNSUPPORTED_VERSION := -60.
Definition ERROR_INVALID_LENGTH := ERROR_UNSUPPORTED_VERSION + 1.
Definition ERROR_TOO_SHORT_MESSAGE := ERROR_INVALID_LENGTH + 1.
Definition ERROR_TOO_LONG_MESSAGE := ERROR_TOO_SHORT_MESSAGE + 1.
Definition ERROR_INVALID_TYPE := ERROR_TOO_LONG_MESSAGE + 1.
Definition ERROR_UNDEFINED_TYPE := ERROR_INVALID_TYPE + 1.
Definition ERROR_UNSUPPORTED_TYPE := ERROR_UNDEFINED_TYPE + 1.
Definition ERROR_NO_TABLE_AVAILABLE := ERROR_UNSUPPORTED_TYPE + 1.
Definition ERROR_INVALID_PORT_NO := ERROR_NO_TABLE_AVAILABLE + 1.
Definition ERROR_INVALID_PORT_CONFIG := ERROR_INVALID_PORT_NO + 1.
Definition ERROR_INVALID_PORT_STATE := ERROR_INVALID_PORT_CONFIG + 1.
Definition ERROR_INVALID_PORT_FEATURES := ERROR_INVALID_PORT_STATE + 1.
Definition ERROR_INVALID_SWITCH_CONFIG := ERROR_INVALID_PORT_FEATURES + 1.
Definition ERROR_INVALID_PACKET_IN_REASON := ERROR_INVALID_SWITCH_CONFIG + 1.
Definition ERROR_INVALID_FLOW_REMOVED_REASON := ERROR_INVALID_PACKET_IN_REASON + 1.
Definition ERROR_INVALID_WILDCARDS := ERROR_INVALID_FLOW_REMOVED_REASON + 1.
Definition ERROR_INVALID_VLAN_VID := ERROR_INVALID_WILDCARDS + 1.
Definition ERROR_INVALID_VLAN_PCP := ERROR_INVALID_VLAN_VID + 1.
Definition ERROR_INVALID_NW_TOS := ERROR_INVALID_VLAN_PCP + 1.
Definition ERROR_INVALID_PORT_STATUS_REASON := ERROR_INVALID_NW_TOS + 1.
Definition ERROR_TOO_SHORT_QUEUE_DESCRIPTION := ERROR_INVALID_PORT_STATUS_REASON + 1.
Definition ERROR_TOO_SHORT_QUEUE_PROPERTY := ERROR_TOO_SHORT_QUEUE_DESCRIPTION + 1.
Definition ERROR_TOO_LONG_QUEUE_PROPERTY := ERROR_TOO_SHORT_QUEUE_PROPERTY + 1.
Definition ERROR_UNDEFINED_QUEUE_PROPERTY := ERROR_TOO_LONG_QUEUE_PROPERTY + 1.
Definition ERROR_TOO_SHORT_ACTION := ERROR_UNDEFINED_QUEUE_PROPERTY + 1.
Definition ERROR_UNDEFINED_ACTION_TYPE := ERROR_TOO_SHORT_ACTION + 1.
Definition ERROR_INVALID_ACTION_TYPE := ERROR_UNDEFINED_ACTION_TYPE + 1.
Definition ERROR_TOO_SHORT_ACTION_OUTPUT := ERROR_INVALID_ACTION_TYPE + 1.
Definition ERROR_TOO_LONG_ACTION_OUTPUT := ERROR_TOO_SHORT_ACTION_OUTPUT + 1.
Definition ERROR_TOO_SHORT_ACTION_VLAN_VID := ERROR_TOO_LONG_ACTION_OUTPUT + 1.
Definition ERROR_TOO_LONG_ACTION_VLAN_VID := ERROR_TOO_SHORT_ACTION_VLAN_VID + 1.
Definition ERROR_TOO_SHORT_ACTION_VLAN_PCP := ERROR_TOO_LONG_ACTION_VLAN_VID + 1.
Definition ERROR_TOO_LONG_ACTION_VLAN_PCP := ERROR_TOO_SHORT_ACTION_VLAN_PCP + 1.
Definition ERROR_TOO_SHORT_ACTION_STRIP_VLAN := ERROR_TOO_LONG_ACTION_VLAN_PCP + 1.
Definition ERROR_TOO_LONG_ACTION_STRIP_VLAN := ERROR_TOO_SHORT_ACTION_STRIP_VLAN + 1.
Definition ERROR_TOO_SHORT_ACTION_DL_SRC := ERROR_TOO_LONG_ACTION_STRIP_VLAN + 1.
Definition ERROR_TOO_LONG_ACTION_DL_SRC := ERROR_TOO_SHORT_ACTION_DL_SRC + 1.
Definition ERROR_TOO_SHORT_ACTION_DL_DST := ERROR_TOO_LONG_ACTION_DL_SRC + 1.
Definition ERROR_TOO_LONG_ACTION_DL_DST := ERROR_TOO_SHORT_ACTION_DL_DST + 1.
Definition ERROR_TOO_SHORT_ACTION_NW_SRC := ERROR_TOO_LONG_ACTION_DL_DST + 1.
Definition ERROR_TOO_LONG_ACTION_NW_SRC := ERROR_TOO_SHORT_ACTION_NW_SRC + 1.
Definition ERROR_TOO_SHORT_ACTION_NW_DST := ERROR_TOO_LONG_ACTION_NW_SRC + 1.
Definition ERROR_TOO_LONG_ACTION_NW_DST := ERROR_TOO_SHORT_ACTION_NW_DST + 1.
Definition ERROR_TOO_SHORT_ACTION_NW_TOS := ERROR_TOO_LONG_ACTION_NW_DST + 1.
Definition ERROR_TOO_LONG_ACTION_NW_TOS := ERROR_TOO_SHORT_ACTION_NW_TOS + 1.
Definition ERROR_TOO_SHORT_ACTION_TP_SRC := ERROR_TOO_LONG_ACTION_NW_TOS + 1.
Definition ERROR_TOO_LONG_ACTION_TP_SRC := ERROR_TOO_SHORT_ACTION_TP_SRC + 1.
Definition ERROR_TOO_SHORT_ACTION_TP_DST := ERROR_TOO_LONG_ACTION_TP_SRC + 1.
Definition ERROR_TOO_LONG_ACTION_TP_DST := ERROR_TOO_SHORT_ACTION_TP_DST + 1.
Definition ERROR_TOO_SHORT_ACTION_ENQUEUE := ERROR_TOO_LONG_ACTION_TP_DST + 1.
Definition ERROR_TOO_LONG_ACTION_ENQUEUE := ERROR_TOO_SHORT_ACTION_ENQUEUE + 1.
Definition ERROR_TOO_SHORT_ACTION_VENDOR := ERROR_TOO_LONG_ACTION_ENQUEUE + 1.
Definition ERROR_INVALID_LENGTH_ACTION_VENDOR := ERROR_TOO_SHORT_ACTION_VENDOR + 1.
Definition ERROR_UNSUPPORTED_STATS_TYPE := ERROR_INVALID_LENGTH_ACTION_VENDOR + 1.
Definition ERROR_INVALID_STATS_REPLY_FLAGS := ERROR_UNSUPPORTED_STATS_TYPE + 1.
Definition ERROR_INVALID_FLOW_PRIORITY := ERROR_INVALID_STATS_REPLY_FLAGS + 1.
Definition ERROR_INVALID_FLOW_MOD_FLAGS := ERROR_INVALID_FLOW_PRIORITY + 1.
Definition ERROR_INVALID_PORT_MASK := ERROR_INVALID_FLOW_MOD_FLAGS + 1.
Definition ERROR_INVALID_STATS_TYPE := ERROR_INVALID_PORT_MASK + 1.
Definition ERROR_INVALID_STATS_REQUEST_FLAGS := ERROR_INVALID_STATS_TYPE + 1.
Definition ERROR_UNDEFINED_FLOW_MOD_COMMAND := ERROR_INVALID_STATS_REQUEST_FLAGS + 1.
Definition ERROR_UNEXPECTED_ERROR := -255.

Definition VLAN_VID_MASK := 0x0fff.
Definition VLAN_PCP_MASK := 0x07.
Definition NW_TOS_MASK := 0xfc.
Definition ARP_OP_MASK := 0x00ff.
Definition ICMP_TYPE_MASK := 0x00ff.
Definition ICMP_CODE_MASK := 0x00ff.

(** The masks of openflow_message.c: the bits that enum ofp_port_config,
    ofp_port_state, ofp_port_features and ofp_flow_mod_flags define. *)
Definition PORT_CONFIG := 0x7f.
Definition PORT_STATE := 0x301.
Definition PORT_FEATURES := 0xfff.
Definition FLOW_MOD_FLAGS := 0x7.

Definition ETH_ETHTYPE_IPV4 := 0x0800.
Definition ETH_ETHTYPE_ARP := 0x0806.
Definition IPPROTO_ICMP := 1.
Definition IPPROTO_TCP := 6.
Definition IPPROTO_UDP := 17.
