(* ===== verification/Actions.v ===== *)
(** openflow_message.c: lists of OpenFlow actions, their construction
    ([append_action_*]) and their validation ([validate_action*]).

    The data of a list element is the host-order image of an action structure,
    as the constructor allocates it.  [action] is the reference: what an action
    says, independent of any layout; [host_action] and [wire_action] are its
    images in memory and on the wire. *)

From Stdlib Require Import ZArith Lia Bool.
From coqutil Require Import Byte.
From stdpp Require Import base list.
From S2P Require Import Prelude Memory OpenFlow Codes ByteOrder.

Section Actions.
Context {host : Host}.

(** * Lists of actions *)

(** [list] holds what the elements point to, in order. *)
Record openflow_actions : Type := OpenflowActions {
  n_actions : Z;
  actions_list : list bytes
}.

Definition create_actions : openflow_actions := OpenflowActions 0 [].

(** [ret = append_to_tail( &actions->list, data ); if ( ret ) { actions->n_actions++; }]:
    [append_to_tail] adds at the end and returns true (LinkedList). *)
Definition append_data (actions : openflow_actions) (d : bytes) : bool * openflow_actions :=
  (true, OpenflowActions (n_actions actions + 1) (actions_list actions ++ [d])).

Definition append_action_output (actions : openflow_actions) (port max_len : Z)
    : res (bool * openflow_actions) :=
  let* d := st_action_output (zeros 8) 0
    (Build_ofp_action_output OFPAT_OUTPUT sizeof_ofp_action_output port max_len) in
  Ok (append_data actions d).

Definition append_action_set_vlan_vid (actions : openflow_actions) (vlan_vid : Z)
    : res (bool * openflow_actions) :=
  let* _ := assert (Z.land vlan_vid (Z.lnot VLAN_VID_MASK) =? 0) in
  let* d := st_action_vlan_vid (zeros 8) 0
    (Build_ofp_action_vlan_vid OFPAT_SET_VLAN_VID sizeof_ofp_action_vlan_vid vlan_vid) in
  Ok (append_data actions d).

Definition append_action_set_vlan_pcp (actions : openflow_actions) (vlan_pcp : Z)
    : res (bool * openflow_actions) :=
  let* _ := assert (Z.land vlan_pcp (Z.lnot VLAN_PCP_MASK) =? 0) in
  let* d := st_action_vlan_pcp (zeros 8) 0
    (Build_ofp_action_vlan_pcp OFPAT_SET_VLAN_PCP sizeof_ofp_action_vlan_pcp vlan_pcp) in
  Ok (append_data actions d).

Definition append_action_strip_vlan (actions : openflow_actions)
    : res (bool * openflow_actions) :=
  let* d := st_action_header (zeros 8) 0
    (Build_ofp_action_header OFPAT_STRIP_VLAN sizeof_ofp_action_header) in
  Ok (append_data actions d).

Definition append_action_set_dl_addr (actions : openflow_actions) (type : Z) (hw_addr : bytes)
    : res (bool * openflow_actions) :=
  let* d := st_action_dl_addr (zeros 16) 0
    (Build_ofp_action_dl_addr type sizeof_ofp_action_dl_addr hw_addr) in
  Ok (append_data actions d).

Definition append_action_set_dl_src (actions : openflow_actions) (hw_addr : bytes) :=
  append_action_set_dl_addr actions OFPAT_SET_DL_SRC hw_addr.

Definition append_action_set_dl_dst (actions : openflow_actions) (hw_addr : bytes) :=
  append_action_set_dl_addr actions OFPAT_SET_DL_DST hw_addr.

Definition append_action_set_nw_addr (actions : openflow_actions) (type nw_addr : Z)
    : res (bool * openflow_actions) :=
  let* d := st_action_nw_addr (zeros 8) 0
    (Build_ofp_action_nw_addr type sizeof_ofp_action_nw_addr nw_addr) in
  Ok (append_data actions d).

Definition append_action_set_nw_src (actions : openflow_actions) (nw_addr : Z) :=
  append_action_set_nw_addr actions OFPAT_SET_NW_SRC nw_addr.

Definition append_action_set_nw_dst (actions : openflow_actions) (nw_addr : Z) :=
  append_action_set_nw_addr actions OFPAT_SET_NW_DST nw_addr.

Definition append_action_set_nw_tos (actions : openflow_actions) (nw_tos : Z)
    : res (bool * openflow_actions) :=
  let* _ := assert (Z.land nw_tos (Z.lnot NW_TOS_MASK) =? 0) in
  let* d := st_action_nw_tos (zeros 8) 0
    (Build_ofp_action_nw_tos OFPAT_SET_NW_TOS sizeof_ofp_action_nw_tos nw_tos) in
  Ok (append_data actions d).

Definition append_action_set_tp_port (actions : openflow_actions) (type tp_port : Z)
    : res (bool * openflow_actions) :=
  let* d := st_action_tp_port (zeros 8) 0
    (Build_ofp_action_tp_port type sizeof_ofp_action_tp_port tp_port) in
  Ok (append_data actions d).

Definition append_action_set_tp_src (actions : openflow_actions) (tp_port : Z) :=
  append_action_set_tp_port actions OFPAT_SET_TP_SRC tp_port.

Definition append_action_set_tp_dst (actions : openflow_actions) (tp_port : Z) :=
  append_action_set_tp_port actions OFPAT_SET_TP_DST tp_port.

Definition append_action_enqueue (actions : openflow_actions) (port queue_id : Z)
    : res (bool * openflow_actions) :=
  let* d := st_action_enqueue (zeros 16) 0
    (Build_ofp_action_enqueue OFPAT_ENQUEUE sizeof_ofp_action_enqueue port queue_id) in
  Ok (append_data actions d).

(** A [buffer *] argument is NULL or the bytes of a buffer.
    [n = 0; if ( ( b != NULL ) && ( b->length > 0 ) ) { n = ( uint16_t ) b->length; }] *)
Definition length16 (b : option bytes) : Z :=
  match b with
  | Some b => if 0 <? blen b then u16 (blen b) else 0
  | None => 0
  end.

(** [if ( n > 0 ) { memcpy( m + off, b->data, n ); }] *)
Definition copy_data (m : bytes) (off : Z) (b : option bytes) (n : Z) : res bytes :=
  if 0 <? n then
    match b with
    | None => Fault NullPointer
    | Some b =>
      let* data := ld_range b 0 n in
      st_bytes m off data
    end
  else Ok m.

Definition append_action_vendor (actions : openflow_actions) (vendor : Z) (body : option bytes)
    : res (bool * openflow_actions) :=
  let body_length := length16 body in
  let* _ := assert (body_length mod 8 =? 0) in
  let* d := st_action_vendor_header (zeros (Z.to_nat (sizeof_ofp_action_vendor_header + body_length))) 0
    (Build_ofp_action_vendor_header OFPAT_VENDOR
      (u16 (sizeof_ofp_action_vendor_header + body_length)) vendor) in
  let* d := copy_data d sizeof_ofp_action_vendor_header body body_length in
  Ok (append_data actions d).

(** * Validation of fields *)

Definition validate_phy_port_no (port_no : Z) : Z :=
  if (port_no =? 0) || ((OFPP_MAX <? port_no) && (port_no <? OFPP_IN_PORT))
  then ERROR_INVALID_PORT_NO
  else 0.

Definition validate_wildcards (wildcards : Z) : Z :=
  if negb (Z.land wildcards (not32 OFPFW_ALL) =? 0) then ERROR_INVALID_WILDCARDS else 0.

Definition validate_vlan_vid (vid : Z) : Z :=
  if negb (vid =? UINT16_MAX) && negb (Z.land vid (Z.lnot VLAN_VID_MASK) =? 0)
  then ERROR_INVALID_VLAN_VID
  else 0.

Definition validate_vlan_pcp (pcp : Z) : Z :=
  if negb (Z.land pcp (Z.lnot VLAN_PCP_MASK) =? 0) then ERROR_INVALID_VLAN_PCP else 0.

Definition validate_nw_tos (tos : Z) : Z :=
  if negb (Z.land tos (Z.lnot NW_TOS_MASK) =? 0) then ERROR_INVALID_NW_TOS else 0.

(** * Validation of actions

    [action] is the offset of the structure in the bytes [m] of the message. *)

Definition validate_action_output (m : bytes) (action : Z) : res Z :=
  let* x := ld_action_output m action in
  let x := ntoh_action_output x in
  if negb (ao_type x =? OFPAT_OUTPUT) then Ok ERROR_INVALID_ACTION_TYPE
  else if ao_len x <? sizeof_ofp_action_output then Ok ERROR_TOO_SHORT_ACTION_OUTPUT
  else if sizeof_ofp_action_output <? ao_len x then Ok ERROR_TOO_LONG_ACTION_OUTPUT
  else check* Ok (validate_phy_port_no (ao_port x)) in Ok 0.

Definition validate_action_set_vlan_vid (m : bytes) (action : Z) : res Z :=
  let* x := ld_action_vlan_vid m action in
  let x := ntoh_action_vlan_vid x in
  if negb (avv_type x =? OFPAT_SET_VLAN_VID) then Ok ERROR_INVALID_ACTION_TYPE
  else if avv_len x <? sizeof_ofp_action_vlan_vid then Ok ERROR_TOO_SHORT_ACTION_VLAN_VID
  else if sizeof_ofp_action_vlan_vid <? avv_len x then Ok ERROR_TOO_LONG_ACTION_VLAN_VID
  else check* Ok (validate_vlan_vid (avv_vlan_vid x)) in Ok 0.

Definition validate_action_set_vlan_pcp (m : bytes) (action : Z) : res Z :=
  let* x := ld_action_vlan_pcp m action in
  let x := ntoh_action_vlan_pcp x in
  if negb (avp_type x =? OFPAT_SET_VLAN_PCP) then Ok ERROR_INVALID_ACTION_TYPE
  else if avp_len x <? sizeof_ofp_action_vlan_pcp then Ok ERROR_TOO_SHORT_ACTION_VLAN_PCP
  else if sizeof_ofp_action_vlan_pcp <? avp_len x then Ok ERROR_TOO_LONG_ACTION_VLAN_PCP
  else check* Ok (validate_vlan_pcp (avp_vlan_pcp x)) in Ok 0.

Definition validate_action_strip_vlan (m : bytes) (action : Z) : res Z :=
  let* x := ld_action_header m action in
  let x := ntoh_action_strip_vlan x in
  if negb (ah_type x =? OFPAT_STRIP_VLAN) then Ok ERROR_INVALID_ACTION_TYPE
  else if ah_len x <? sizeof_ofp_action_header then Ok ERROR_TOO_SHORT_ACTION_STRIP_VLAN
  else if sizeof_ofp_action_header <? ah_len x then Ok ERROR_TOO_LONG_ACTION_STRIP_VLAN
  else Ok 0.

Definition validate_action_set_dl_src (m : bytes) (action : Z) : res Z :=
  let* x := ld_action_dl_addr m action in
  let x := ntoh_action_dl_addr x in
  if negb (ada_type x =? OFPAT_SET_DL_SRC) then Ok ERROR_INVALID_ACTION_TYPE
  else if ada_len x <? sizeof_ofp_action_dl_addr then Ok ERROR_TOO_SHORT_ACTION_DL_SRC
  else if sizeof_ofp_action_dl_addr <? ada_len x then Ok ERROR_TOO_LONG_ACTION_DL_SRC
  else Ok 0.

Definition validate_action_set_dl_dst (m : bytes) (action : Z) : res Z :=
  let* x := ld_action_dl_addr m action in
  let x := ntoh_action_dl_addr x in
  if negb (ada_type x =? OFPAT_SET_DL_DST) then Ok ERROR_INVALID_ACTION_TYPE
  else if ada_len x <? sizeof_ofp_action_dl_addr then Ok ERROR_TOO_SHORT_ACTION_DL_DST
  else if sizeof_ofp_action_dl_addr <? ada_len x then Ok ERROR_TOO_LONG_ACTION_DL_DST
  else Ok 0.

Definition validate_action_set_nw_src (m : bytes) (action : Z) : res Z :=
  let* x := ld_action_nw_addr m action in
  let x := ntoh_action_nw_addr x in
  if negb (ana_type x =? OFPAT_SET_NW_SRC) then Ok ERROR_INVALID_ACTION_TYPE
  else if ana_len x <? sizeof_ofp_action_nw_addr then Ok ERROR_TOO_SHORT_ACTION_NW_SRC
  else if sizeof_ofp_action_nw_addr <? ana_len x then Ok ERROR_TOO_LONG_ACTION_NW_SRC
  else Ok 0.

Definition validate_action_set_nw_dst (m : bytes) (action : Z) : res Z :=
  let* x := ld_action_nw_addr m action in
  let x := ntoh_action_nw_addr x in
  if negb (ana_type x =? OFPAT_SET_NW_DST) then Ok ERROR_INVALID_ACTION_TYPE
  else if ana_len x <? sizeof_ofp_action_nw_addr then Ok ERROR_TOO_SHORT_ACTION_NW_DST
  else if sizeof_ofp_action_nw_addr <? ana_len x then Ok ERROR_TOO_LONG_ACTION_NW_DST
  else Ok 0.

Definition validate_action_set_nw_tos (m : bytes) (action : Z) : res Z :=
  let* x := ld_action_nw_tos m action in
  let x := ntoh_action_nw_tos x in
  if negb (ant_type x =? OFPAT_SET_NW_TOS) then Ok ERROR_INVALID_ACTION_TYPE
  else if ant_len x <? sizeof_ofp_action_nw_addr then Ok ERROR_TOO_SHORT_ACTION_NW_TOS
  else if sizeof_ofp_action_nw_addr <? ant_len x then Ok ERROR_TOO_LONG_ACTION_NW_TOS
  else check* Ok (validate_nw_tos (ant_nw_tos x)) in Ok 0.

Definition validate_action_set_tp_src (m : bytes) (action : Z) : res Z :=
  let* x := ld_action_tp_port m action in
  let x := ntoh_action_tp_port x in
  if negb (atp_type x =? OFPAT_SET_TP_SRC) then Ok ERROR_INVALID_ACTION_TYPE
  else if atp_len x <? sizeof_ofp_action_tp_port then Ok ERROR_TOO_SHORT_ACTION_TP_SRC
  else if sizeof_ofp_action_tp_port <? atp_len x then Ok ERROR_TOO_LONG_ACTION_TP_SRC
  else Ok 0.

Definition validate_action_set_tp_dst (m : bytes) (action : Z) : res Z :=
  let* x := ld_action_tp_port m action in
  let x := ntoh_action_tp_port x in
  if negb (atp_type x =? OFPAT_SET_TP_DST) then Ok ERROR_INVALID_ACTION_TYPE
  else if atp_len x <? sizeof_ofp_action_tp_port then Ok ERROR_TOO_SHORT_ACTION_TP_DST
  else if sizeof_ofp_action_tp_port <? atp_len x then Ok ERROR_TOO_LONG_ACTION_TP_DST
  else Ok 0.

Definition validate_action_enqueue (m : bytes) (action : Z) : res Z :=
  let* x := ld_action_enqueue m action in
  let x := ntoh_action_enqueue x in
  if negb (ae_type x =? OFPAT_ENQUEUE) then Ok ERROR_INVALID_ACTION_TYPE
  else if ae_len x <? sizeof_ofp_action_enqueue then Ok ERROR_TOO_SHORT_ACTION_ENQUEUE
  else if sizeof_ofp_action_enqueue <? ae_len x then Ok ERROR_TOO_LONG_ACTION_ENQUEUE
  else check* Ok (validate_phy_port_no (ae_port x)) in Ok 0.

Definition validate_action_vendor (m : bytes) (action : Z) : res Z :=
  let* type := ld_ntoh 2 m action in
  if negb (type =? OFPAT_VENDOR) then Ok ERROR_INVALID_ACTION_TYPE
  else
    let* len := ld_ntoh 2 m (action + 2) in
    if len <? sizeof_ofp_action_vendor_header then Ok ERROR_TOO_SHORT_ACTION_VENDOR
    else if negb (len mod 8 =? 0) then Ok ERROR_INVALID_LENGTH_ACTION_VENDOR
    else Ok 0.

Definition validate_action (m : bytes) (action : Z) : res Z :=
  let* len := ld_ntoh 2 m (action + 2) in
  if len <? sizeof_ofp_action_header then Ok ERROR_TOO_SHORT_ACTION
  else
    let* type := ld_ntoh 2 m action in
    if type =? OFPAT_OUTPUT then validate_action_output m action
    else if type =? OFPAT_SET_VLAN_VID then validate_action_set_vlan_vid m action
    else if type =? OFPAT_SET_VLAN_PCP then validate_action_set_vlan_pcp m action
    else if type =? OFPAT_STRIP_VLAN then validate_action_strip_vlan m action
    else if type =? OFPAT_SET_DL_SRC then validate_action_set_dl_src m action
    else if type =? OFPAT_SET_DL_DST then validate_action_set_dl_dst m action
    else if type =? OFPAT_SET_NW_SRC then validate_action_set_nw_src m action
    else if type =? OFPAT_SET_NW_DST then validate_action_set_nw_dst m action
    else if type =? OFPAT_SET_NW_TOS then validate_action_set_nw_tos m action
    else if type =? OFPAT_SET_TP_SRC then validate_action_set_tp_src m action
    else if type =? OFPAT_SET_TP_DST then validate_action_set_tp_dst m action
    else if type =? OFPAT_ENQUEUE then validate_action_enqueue m action
    else if type =? OFPAT_VENDOR then validate_action_vendor m action
    else Ok ERROR_UNDEFINED_ACTION_TYPE.

(** [offset] is a [uint16_t] and every pass depends on it alone, so a loop
    that makes more than 2^16 passes never ends. *)
Definition offset_fuel : nat := Z.to_nat (2 ^ 16).

Fixpoint validate_actions_loop (fuel : nat) (m : bytes) (actions_head length offset : Z) : res Z :=
  match fuel with
  | O => Fault OutOfFuel
  | S fuel =>
    if offset <? length then
      let action := actions_head + offset in
      check* validate_action m action in
      let* len := ld_ntoh 2 m (action + 2) in
      validate_actions_loop fuel m actions_head length (u16 (offset + len))
    else Ok 0
  end.

Definition validate_actions (m : bytes) (actions_head length : Z) : res Z :=
  validate_actions_loop (S offset_fuel) m actions_head length 0.
(** * The reference: what an action says *)

Inductive action : Type :=
| Output (port max_len : Z)
| SetVlanVid (vlan_vid : Z)
| SetVlanPcp (vlan_pcp : Z)
| StripVlan
| SetDlSrc (dl_addr : bytes)
| SetDlDst (dl_addr : bytes)
| SetNwSrc (nw_addr : Z)
| SetNwDst (nw_addr : Z)
| SetNwTos (nw_tos : Z)
| SetTpSrc (tp_port : Z)
| SetTpDst (tp_port : Z)
| Enqueue (port queue_id : Z)
| Vendor (vendor : Z) (body : bytes).

Definition action_type (a : action) : Z :=
  match a with
  | Output _ _ => OFPAT_OUTPUT | SetVlanVid _ => OFPAT_SET_VLAN_VID
  | SetVlanPcp _ => OFPAT_SET_VLAN_PCP | StripVlan => OFPAT_STRIP_VLAN
  | SetDlSrc _ => OFPAT_SET_DL_SRC | SetDlDst _ => OFPAT_SET_DL_DST
  | SetNwSrc _ => OFPAT_SET_NW_SRC | SetNwDst _ => OFPAT_SET_NW_DST
  | SetNwTos _ => OFPAT_SET_NW_TOS | SetTpSrc _ => OFPAT_SET_TP_SRC
  | SetTpDst _ => OFPAT_SET_TP_DST | Enqueue _ _ => OFPAT_ENQUEUE
  | Vendor _ _ => OFPAT_VENDOR
  end.

Definition action_len (a : action) : Z :=
  match a with
  | SetDlSrc _ | SetDlDst _ | Enqueue _ _ => 16
  | Vendor _ body => 8 + blen body
  | _ => 8
  end.

(** The structure of an action and the bytes after it. *)
Definition with_struct {R : Type} (k : forall A, WireStruct A -> A -> bytes -> R) (a : action) : R :=
  let type := action_type a in
  let len := action_len a in
  match a with
  | Output port max_len => k _ _ (Build_ofp_action_output type len port max_len) []
  | SetVlanVid vlan_vid => k _ _ (Build_ofp_action_vlan_vid type len vlan_vid) []
  | SetVlanPcp vlan_pcp => k _ _ (Build_ofp_action_vlan_pcp type len vlan_pcp) []
  | StripVlan => k _ _ (Build_ofp_action_header type len) []
  | SetDlSrc dl_addr | SetDlDst dl_addr => k _ _ (Build_ofp_action_dl_addr type len dl_addr) []
  | SetNwSrc nw_addr | SetNwDst nw_addr => k _ _ (Build_ofp_action_nw_addr type len nw_addr) []
  | SetNwTos nw_tos => k _ _ (Build_ofp_action_nw_tos type len nw_tos) []
  | SetTpSrc tp_port | SetTpDst tp_port => k _ _ (Build_ofp_action_tp_port type len tp_port) []
  | Enqueue port queue_id => k _ _ (Build_ofp_action_enqueue type len port queue_id) []
  | Vendor vendor body => k _ _ (Build_ofp_action_vendor_header type len vendor) body
  end.

Definition wire_action : action -> bytes :=
  with_struct (fun A ws x tail => ws_wire x ++ tail).
Definition host_action : action -> bytes :=
  with_struct (fun A ws x tail => ws_wire (ws_ntoh x) ++ tail).

(** The arguments fit the fields, the length fits 16 bits. *)
Definition wf_action (a : action) : Prop :=
  with_struct (fun A ws x tail => ws_wf x) a.

(** The first error a validator reports for an action that is laid out
    correctly, 0 if there is none. *)
Definition action_error (a : action) : Z :=
  match a with
  | Output port _ | Enqueue port _ => validate_phy_port_no port
  | SetVlanVid vlan_vid => validate_vlan_vid vlan_vid
  | SetVlanPcp vlan_pcp => validate_vlan_pcp vlan_pcp
  | SetNwTos nw_tos => validate_nw_tos nw_tos
  | Vendor _ body => if blen body mod 8 =? 0 then 0 else ERROR_INVALID_LENGTH_ACTION_VENDOR
  | _ => 0
  end.

(** The constructor of each kind of action. *)
Definition append_action (actions : openflow_actions) (a : action) : res (bool * openflow_actions) :=
  match a with
  | Output port max_len => append_action_output actions port max_len
  | SetVlanVid vlan_vid => append_action_set_vlan_vid actions vlan_vid
  | SetVlanPcp vlan_pcp => append_action_set_vlan_pcp actions vlan_pcp
  | StripVlan => append_action_strip_vlan actions
  | SetDlSrc dl_addr => append_action_set_dl_src actions dl_addr
  | SetDlDst dl_addr => append_action_set_dl_dst actions dl_addr
  | SetNwSrc nw_addr => append_action_set_nw_src actions nw_addr
  | SetNwDst nw_addr => append_action_set_nw_dst actions nw_addr
  | SetNwTos nw_tos => append_action_set_nw_tos actions nw_tos
  | SetTpSrc tp_port => append_action_set_tp_src actions tp_port
  | SetTpDst tp_port => append_action_set_tp_dst actions tp_port
  | Enqueue port queue_id => append_action_enqueue actions port queue_id
  | Vendor vendor body => append_action_vendor actions vendor (Some body)
  end.

(** The assertions of the constructors. *)
Definition appendable (a : action) : bool :=
  match a with
  | SetVlanVid vlan_vid => Z.land vlan_vid (Z.lnot VLAN_VID_MASK) =? 0
  | SetVlanPcp vlan_pcp => Z.land vlan_pcp (Z.lnot VLAN_PCP_MASK) =? 0
  | SetNwTos nw_tos => Z.land nw_tos (Z.lnot NW_TOS_MASK) =? 0
  | Vendor _ body => blen body mod 8 =? 0
  | _ => true
  end.
End Actions.

#[global] Arguments validate_actions {host} m actions_head length : simpl never.
#[global] Arguments offset_fuel : simpl never.

Lemma offset_fuel_eq : Z.of_nat offset_fuel = 2 ^ 16.
Proof. unfold offset_fuel. by rewrite Z2Nat.id. Qed.
#[global] Opaque offset_fuel.

(** * Lists of actions: the reference *)

Section ActionLists.
Context {host : Host}.

Definition wire_actions (l : list action) : bytes := concat (map wire_action l).
Definition actions_len (l : list action) : Z := foldr (fun a n => action_len a + n) 0 l.

(** The first error in the list. *)
Fixpoint actions_error (l : list action) : Z :=
  match l with
  | [] => 0
  | a :: l => if action_error a <? 0 then action_error a else actions_error l
  end.

(** The object [create_actions] and the constructors build for [l]. *)
Definition host_actions (l : list action) : openflow_actions :=
  OpenflowActions (Z.of_nat (length l)) (map host_action l).

Fixpoint append_all (actions : openflow_actions) (l : list action) : res openflow_actions :=
  match l with
  | [] => Ok actions
  | a :: l => let* (_, actions) := append_action actions a in append_all actions l
  end.
End ActionLists.

Create HintDb action_size.
#[export] Hint Unfold sizeof_ofp_action_header sizeof_ofp_action_output sizeof_ofp_action_vlan_vid
  sizeof_ofp_action_vlan_pcp sizeof_ofp_action_dl_addr sizeof_ofp_action_nw_addr
  sizeof_ofp_action_nw_tos sizeof_ofp_action_tp_port sizeof_ofp_action_enqueue
  sizeof_ofp_action_vendor_header : action_size.

(** * Layout of actions *)

(** Write the structures of actions with the operations of their instances. *)
Ltac fold_action :=
  fold_ws ofp_action_output; fold_ws ofp_action_vlan_vid; fold_ws ofp_action_vlan_pcp;
  fold_ws ofp_action_header; fold_ws ofp_action_dl_addr; fold_ws ofp_action_nw_addr;
  fold_ws ofp_action_nw_tos; fold_ws ofp_action_tp_port; fold_ws ofp_action_enqueue;
  fold_ws ofp_action_vendor_header.

(** Decide which action a type number selects. *)
Ltac select_type :=
  repeat match goal with
  | |- context [?x =? ?y] =>
    let b := eval vm_compute in (x =? y) in
    match b with true => idtac | false => idtac end; change (x =? y) with b; cbn [orb]
  end;
  cbv iota.

Section Layout.
Context {host : Host}.
Implicit Types a : action.

Lemma wf_action_len a : wf_action a -> 8 <= action_len a < 2 ^ 16.
Proof.
  destruct a as [| | | | | | | | | | | | v body]; cbn; try lia.
  intros [_ H _]. cbn in H. unfold fits in H. pose proof (blen_nonneg body). lia.
Qed.

Lemma length_wire_action a : wf_action a -> blen (wire_action a) = action_len a.
Proof.
  destruct a; intros H; unfold wire_action, with_struct; rewrite blen_app;
    unfold blen at 1; rewrite (ws_length _ H); cbn; rewrite ?Z.add_0_r; done.
Qed.

Lemma length_host_action a : wf_action a -> blen (host_action a) = action_len a.
Proof.
  destruct a; intros H; unfold host_action, with_struct; rewrite blen_app;
    unfold blen at 1; rewrite (ws_length _ (ws_wf_ntoh _ H)); cbn; rewrite ?Z.add_0_r; done.
Qed.
(** ** Construction *)

Lemma length16_small b : blen b < 2 ^ 16 -> length16 (Some b) = blen b.
Proof.
  intros H. pose proof (blen_nonneg b). unfold length16.
  destruct (0 <? blen b) eqn:E; [apply Z.mod_small; lia | lia].
Qed.

(** The data fill the rest of a fresh object. *)
Lemma copy_data_ok P b k off n :
  off = blen P -> n = blen b -> (length b <= k)%nat ->
  copy_data (P ++ zeros k) off (Some b) n = Ok ((P ++ b) ++ zeros (k - length b)).
Proof.
  intros -> -> Hk. unfold copy_data. destruct (0 <? blen b) eqn:E.
  - rewrite ld_range_all by done. cbn [bind]. by apply st_bytes_zeros.
  - destruct b; [| cbn in E; discriminate]. cbn [length]. by rewrite app_nil_r, Nat.sub_0_r.
Qed.

Lemma append_action_vendor_ok actions v body :
  wf_action (Vendor v body) -> blen body mod 8 = 0 ->
  append_action_vendor actions v (Some body)
  = Ok (append_data actions (host_action (Vendor v body))).
Proof.
  intros Hw Hm. pose proof (wf_action_len _ Hw) as Hl. cbn in Hl, Hw.
  pose proof (blen_nonneg body) as H0.
  unfold append_action_vendor. rewrite length16_small, Hm by lia. cbn [assert bind Z.eqb].
  change sizeof_ofp_action_vendor_header with 8. fold_action.
  replace (u16 (8 + blen body)) with (8 + blen body) by (symmetry; apply Z.mod_small; lia).
  match goal with |- context [ws_st (zeros ?k) 0 ?x] =>
    pose proof (ws_st_host x [] k 0) as E; pose proof (ws_host_length x) as El end.
  cbn [app] in E. rewrite E by (done || cbn; lia). cbn [bind]. clear E.
  replace (Z.to_nat (8 + blen body) - ws_size)%nat with (length body)
    by (unfold blen; cbn [ws_size ws_action_vendor_header]; lia).
  rewrite copy_data_ok by first [done | unfold blen; by rewrite El].
  by rewrite Nat.sub_diag, app_nil_r.
Qed.

(** A constructor adds the host image of its action, or fails its assertion. *)
Lemma append_action_ok actions a :
  wf_action a ->
  append_action actions a =
  if appendable a then Ok (append_data actions (host_action a)) else Fault AssertFailed.
Proof.
  intros Hw. pose proof (wf_action_len _ Hw) as Hl.
  destruct (appendable a) eqn:Ha; destruct a; cbn in Hw, Ha, Hl |- *;
    try (apply append_action_vendor_ok; [done | lia]);
    unfold append_action_set_dl_src, append_action_set_dl_dst, append_action_set_nw_src,
      append_action_set_nw_dst, append_action_set_tp_src, append_action_set_tp_dst,
      append_action_output, append_action_set_vlan_vid, append_action_set_vlan_pcp,
      append_action_strip_vlan, append_action_set_dl_addr, append_action_set_nw_addr,
      append_action_set_nw_tos, append_action_set_tp_port, append_action_enqueue;
    rewrite ?Ha; cbn [assert bind]; try discriminate; fold_action;
    try (rewrite ws_st_fresh by done; cbn [bind]; by rewrite app_nil_r);
    try reflexivity.
  unfold append_action_vendor.
  by rewrite length16_small, Ha by lia.
Qed.

(** ** Conversion *)

(** The first two members of every action, on the wire and in memory. *)
Lemma wire_action_header a :
  exists t, wire_action a = be_encode 2 (action_type a) ++ be_encode 2 (action_len a) ++ t.
Proof. destruct a; eexists; unfold wire_action, with_struct; cbn; by autounfold with wire. Qed.

Lemma host_action_header a :
  exists t, host_action a
    = be_encode 2 (ntoh 2 (action_type a)) ++ be_encode 2 (ntoh 2 (action_len a)) ++ t.
Proof. destruct a; eexists; unfold host_action, with_struct; cbn; by autounfold with wire. Qed.

Lemma fits_action_type a : fits 2 (action_type a).
Proof. by destruct a. Qed.

Lemma fits_action_len a : wf_action a -> fits 2 (action_len a).
Proof. intros H%wf_action_len. unfold fits. lia. Qed.

Section Header.
Context (a : action) (Ha : wf_action a) (P r : bytes).

Let Ht := fits_action_type a.
Let Hl := fits_action_len a Ha.
Let Ht' := ntoh_range _ _ Ht.
Let Hl' := ntoh_range _ _ Hl.

Lemma ld_type_wire off :
  off = blen P -> ld_ntoh 2 (P ++ wire_action a ++ r) off = Ok (action_type a).
Proof.
  intros ->. destruct (wire_action_header a) as [t ->]. rewrite <- !app_assoc.
  pose proof (blen_nonneg P). pose proof Ht. by rd.
Qed.

Lemma ld_len_wire off :
  off = blen P + 2 -> ld_ntoh 2 (P ++ wire_action a ++ r) off = Ok (action_len a).
Proof.
  intros ->. destruct (wire_action_header a) as [t ->]. rewrite <- !app_assoc.
  pose proof (blen_nonneg P). pose proof Hl. by rd.
Qed.

Lemma ld_type_host off :
  off = blen P -> ld16 (P ++ host_action a ++ r) off = Ok (action_type a).
Proof.
  intros ->. destruct (host_action_header a) as [t ->]. rewrite <- !app_assoc.
  pose proof (blen_nonneg P). pose proof Ht'. rd. by rewrite ntoh_involutive.
Qed.

Lemma ld_len_host off :
  off = blen P + 2 -> ld16 (P ++ host_action a ++ r) off = Ok (action_len a).
Proof.
  intros ->. destruct (host_action_header a) as [t ->]. rewrite <- !app_assoc.
  pose proof (blen_nonneg P). pose proof Hl'. rd. by rewrite ntoh_involutive.
Qed.
End Header.

Lemma action_len_size a : wf_action a -> Z.of_nat (Z.to_nat (action_len a)) = action_len a.
Proof. intros H%wf_action_len. lia. Qed.

(** Copying the body of a vendor action. *)
Lemma copy_body_ok P H k Q H' body r doff off n :
  blen H = 8 -> blen H' = 8 -> doff = blen P -> off = blen Q -> n = blen body ->
  (length body <= k)%nat ->
  copy_action_vendor_body ((P ++ H) ++ zeros k) doff (Q ++ H' ++ body ++ r) off n
  = Ok ((P ++ H ++ body) ++ zeros (k - length body)).
Proof.
  intros HH HH' -> -> -> Hk. unfold copy_action_vendor_body.
  pose proof (blen_nonneg Q).
  destruct (0 <? blen body) eqn:E.
  - rewrite ld_range_skip, ld_range_skip, ld_range_wire by len. cbn [bind].
    rewrite st_bytes_zeros by len. by rewrite <- (app_assoc P H body).
  - destruct body; [| cbn in E; discriminate]. cbn [app]. rewrite app_nil_r. do 3 f_equal. cbn. lia.
Qed.

(** Open both images of an action and fold the operations on its structure. *)
Ltac open_action :=
  select_type; fold_action; unfold host_action, wire_action, with_struct;
  cbn [action_type action_len] in *; rewrite ?app_nil_r;
  repeat match goal with
  | |- context [ws_wire (ws_ntoh ?x)] => change (ws_wire (ws_ntoh x)) with (ws_host x)
  end.

Definition vendor_header (v : Z) (body : bytes) : ofp_action_vendor_header :=
  Build_ofp_action_vendor_header OFPAT_VENDOR (8 + blen body) v.

Section Vendor.
Context (v : Z) (body : bytes) (Hw : wf_action (Vendor v body)).
Context (P Q r : bytes) (k : nat) (Hk : 8 + blen body <= Z.of_nat k).
Abbreviation h := (vendor_header v body).

Lemma body_length_u64 : u64 (8 + blen body - 8) = blen body.
Proof.
  pose proof (wf_action_len _ Hw) as Hl. cbn in Hl. pose proof (blen_nonneg body).
  unfold u64. rewrite Z.mod_small; lia.
Qed.

Lemma vendor_room n : (n = k - 8 - length body)%nat -> n = (k - Z.to_nat (8 + blen body))%nat.
Proof. intros ->. unfold blen. lia. Qed.

Lemma hton_action_vendor_ok doff off :
  doff = blen P -> off = blen Q ->
  hton_action_vendor (P ++ zeros k) doff (Q ++ ws_host h ++ body ++ r) off
  = Ok ((P ++ ws_wire h ++ body) ++ zeros (k - Z.to_nat (8 + blen body))).
Proof.
  intros -> ->. pose proof (blen_nonneg body). unfold hton_action_vendor. fold_action. unfold ws_host at 1.
  rewrite ws_ld_at by (done || by apply ws_wf_ntoh). cbn [bind].
  rewrite (ws_ntoh_ntoh h) by exact Hw. change (ws_norm h) with h.
  rewrite (ws_st_zeros h) by first [exact Hw | done | cbn; lia]. cbn [bind av_len vendor_header].
  rewrite body_length_u64, copy_body_ok; try done.
  - do 3 f_equal. by apply vendor_room.
  - unfold blen in Hk. cbn. lia.
Qed.

Lemma ntoh_action_vendor_ok doff off :
  doff = blen P -> off = blen Q ->
  ntoh_action_vendor (P ++ zeros k) doff (Q ++ ws_wire h ++ body ++ r) off
  = Ok ((P ++ ws_host h ++ body) ++ zeros (k - Z.to_nat (8 + blen body))).
Proof.
  intros -> ->. pose proof (blen_nonneg body). unfold ntoh_action_vendor. fold_action. rewrite ws_ld_at by done. cbn [bind].
  rewrite (ws_st_zeros (ws_ntoh h)) by first [apply ws_wf_ntoh; exact Hw | done | cbn; lia].
  cbn [bind]. replace (ntohs (av_len (ws_ntoh h))) with (8 + blen body).
  2: { symmetry. apply ntoh_involutive, (fits_action_len _ Hw). }
  rewrite body_length_u64, copy_body_ok; try done.
  - do 3 f_equal. by apply vendor_room.
  - unfold blen in Hk. cbn. lia.
Qed.
End Vendor.

(** [hton_action] turns the image in memory of an action into the one on the
    wire, [ntoh_action] turns it back. *)
Lemma hton_action_ok a P k Q r doff off :
  wf_action a -> action_len a <= Z.of_nat k -> doff = blen P -> off = blen Q ->
  hton_action (P ++ zeros k) doff (Q ++ host_action a ++ r) off
  = Ok ((P ++ wire_action a) ++ zeros (k - Z.to_nat (action_len a))).
Proof.
  intros H Hk Hd Ho. unfold hton_action. rewrite ld_type_host by done. cbn [bind].
  unfold convert_action.
  destruct a; cbn [action_type]; open_action;
    try (match goal with |- context [ws_host ?x] =>
           let E := fresh in pose proof (ws_convert_host x P k Q r doff off) as E; apply E end;
         first [exact H | done | cbn; lia]).
  rewrite <- (app_assoc _ body r). by apply hton_action_vendor_ok.
Qed.

Lemma ntoh_action_ok a P k Q r doff off :
  wf_action a -> action_len a <= Z.of_nat k -> doff = blen P -> off = blen Q ->
  ntoh_action (P ++ zeros k) doff (Q ++ wire_action a ++ r) off
  = Ok ((P ++ host_action a) ++ zeros (k - Z.to_nat (action_len a))).
Proof.
  intros H Hk Hd Ho. unfold ntoh_action. rewrite ld_type_wire by done. cbn [bind].
  unfold convert_action.
  destruct a; cbn [action_type]; open_action;
    try (match goal with |- context [ws_host ?x] =>
           let E := fresh in pose proof (ws_convert_wire x P k Q r doff off) as E; apply E end;
         first [exact H | done | cbn; lia]).
  rewrite <- (app_assoc _ body r). by apply ntoh_action_vendor_ok.
Qed.

(** ** Validation of a laid out action *)

(** A validator of one field returns 0 or its error. *)
Lemma check_field e : e <= 0 -> (check* Ok e in Ok 0) = Ok e.
Proof. intros H. cbn. destruct (e <? 0) eqn:E; [done | f_equal; lia]. Qed.

Lemma action_error_neg a : action_error a <= 0.
Proof.
  destruct a; cbn; unfold validate_phy_port_no, validate_vlan_vid, validate_vlan_pcp, validate_nw_tos;
    repeat case_match; done.
Qed.

Lemma validate_action_ok a P r off :
  wf_action a -> off = blen P ->
  validate_action (P ++ wire_action a ++ r) off = Ok (action_error a).
Proof.
  intros H ->. unfold validate_action. rewrite ld_len_wire by done. cbn [bind].
  pose proof (wf_action_len a H) as Hl. unfold sizeof_ofp_action_header.
  replace (action_len a <? 8) with false by lia.
  rewrite ld_type_wire by done. cbn [bind].
  pose proof (action_error_neg a) as Hneg.
  destruct a; cbn [action_type]; select_type;
    unfold validate_action_output, validate_action_set_vlan_vid, validate_action_set_vlan_pcp,
      validate_action_strip_vlan, validate_action_set_dl_src, validate_action_set_dl_dst,
      validate_action_set_nw_src, validate_action_set_nw_dst, validate_action_set_nw_tos,
      validate_action_set_tp_src, validate_action_set_tp_dst, validate_action_enqueue;
    try (open_action; rewrite ws_ld_at by done; cbn [bind]; rewrite ws_ntoh_ntoh by done;
         first [reflexivity | by apply check_field]).
  unfold validate_action_vendor. rewrite ld_type_wire, ld_len_wire by done.
  cbn [bind]. select_type. cbn [negb action_len action_error] in *.
  unfold sizeof_ofp_action_vendor_header. replace (8 + blen body <? 8) with false by lia.
  replace ((8 + blen body) mod 8) with (blen body mod 8)
    by (rewrite Z.add_comm; symmetry; apply (Z.mod_add (blen body) 1 8); lia).
  by destruct (blen body mod 8 =? 0).
Qed.

(** ** What an accepted action is *)

(** [a] is the action at [off]: its length, and what [ntoh_action] reads. *)
Definition action_at (m : bytes) (off : Z) (a : action) : Prop :=
  wf_action a /\ action_error a = 0 /\ ld_ntoh 2 m (off + 2) = Ok (action_len a) /\
  (off + action_len a <= blen m ->
   ntoh_action (zeros (Z.to_nat (action_len a))) 0 m off = Ok (host_action a)).

Lemma field_ok e : e <= 0 -> (check* Ok e in Ok 0) = Ok 0 -> e = 0.
Proof. intros He. rewrite check_field by done. congruence. Qed.

(** Turn the tests of a validator that returned 0 into facts. *)
Ltac passed H :=
  repeat match type of H with
  | (if negb (?x =? ?y) then _ else _) = Ok 0 =>
    let E := fresh "E" in destruct (x =? y) eqn:E; cbn [negb] in H; [apply Z.eqb_eq in E | discriminate]
  | (if ?c then Ok ?e else _) = Ok 0 =>
    let E := fresh "E" in destruct c eqn:E; [discriminate |]
  | bind (Ok _) _ = _ => cbn [bind] in H
  end.

(** A fixed structure [x] that was loaded at [off], whose conversion is the
    structure of [a], is [a]. *)
Lemma fixed_action_at {A} `{WireStructOk A} m off (x y : A) a :
  ld_ntoh 2 m off = Ok (action_type a) ->
  ws_ld m off = Ok x -> ws_ntoh x = y -> ws_norm x = x -> ws_norm y = y ->
  ws_size = Z.to_nat (action_len a) ->
  ld_ntoh 2 m (off + 2) = Ok (action_len a) ->
  (ws_wf y -> wf_action a) -> host_action a = ws_host y -> action_error a = 0 ->
  (forall dst doff, convert_action (action_type a) ntoh_action_vendor dst doff m off
    = let* x := ws_ld m off in ws_st dst doff (ws_ntoh x)) ->
  action_at m off a.
Proof.
  intros Ht Hx Hy Hnx Hny Hs Hl Hw Hh He Hc.
  assert (Hwy : ws_wf y) by (rewrite <- Hy; eapply ws_wf_ntoh, ws_ld_wf, Hx).
  split_and!; [by apply Hw | done | done |].
  intros _. unfold ntoh_action. rewrite Ht. cbn [bind]. rewrite Hc, Hx. cbn [bind].
  rewrite Hy, Hh. by apply ws_st_fresh.
Qed.

(** The length a fixed structure holds is what is at its third byte. *)
Ltac len_at := intros H; autounfold with wire in H; bind_open; unfold ld_ntoh;
  match goal with H : ld16 _ (_ + 2) = _ |- _ => by rewrite H end.

(** Close the case of one fixed structure: [mk] is the action of the loaded
    structure, [len] its length member. *)
Ltac solve_at mk len :=
  let Ht := fresh "Ht" in let Hx := fresh "Hx" in let Hlen := fresh "Hlen" in
  let Hl8 := fresh "Hl8" in let Hf := fresh "Hf" in
  intros Ht (x & Hx & H)%bind_inv; cbv zeta in H; passed H; cbn in *;
  let ty := type of x in
  match type of Hx with ?f ?m ?off = _ =>
    assert (Hlen : ld_ntoh 2 m (off + 2) = Ok (ntohs (len x))) by (revert Hx; clear; len_at);
    change (ws_ld (A := ty) m off = Ok x) in Hx;
    let a := eval cbv beta in (mk x) in
    exists a;
    assert (Hl8 : ntohs (len x) = action_len a)
      by (cbn [action_len]; autounfold with action_size in *; lia);
    pose proof (fun y => fixed_action_at m off x y a Ht Hx) as Hf; eapply Hf; clear Hf;
    [ cbn; autounfold with wire in *; repeat match goal with E : ntoh 2 _ = _ |- _ => rewrite E end; reflexivity
    | reflexivity | reflexivity | reflexivity
    | by rewrite Hlen, Hl8
    | intros Hwf; exact Hwf
    | unfold host_action, with_struct; apply app_nil_r
    | first [ reflexivity | apply field_ok; [exact (action_error_neg a) | exact H] ]
    | intros; reflexivity ]
  end.

Lemma output_at m off :
  ld_ntoh 2 m off = Ok OFPAT_OUTPUT ->
  validate_action_output m off = Ok 0 -> exists a, action_at m off a.
Proof. solve_at (fun x => Output (ntohs (ao_port x)) (ntohs (ao_max_len x))) ao_len. Qed.

Lemma set_vlan_vid_at m off :
  ld_ntoh 2 m off = Ok OFPAT_SET_VLAN_VID ->
  validate_action_set_vlan_vid m off = Ok 0 -> exists a, action_at m off a.
Proof. solve_at (fun x => SetVlanVid (ntohs (avv_vlan_vid x))) avv_len. Qed.

Lemma set_vlan_pcp_at m off :
  ld_ntoh 2 m off = Ok OFPAT_SET_VLAN_PCP ->
  validate_action_set_vlan_pcp m off = Ok 0 -> exists a, action_at m off a.
Proof. solve_at (fun x => SetVlanPcp (avp_vlan_pcp x)) avp_len. Qed.

Lemma strip_vlan_at m off :
  ld_ntoh 2 m off = Ok OFPAT_STRIP_VLAN ->
  validate_action_strip_vlan m off = Ok 0 -> exists a, action_at m off a.
Proof. solve_at (fun x : ofp_action_header => StripVlan) ah_len. Qed.

Lemma set_dl_src_at m off :
  ld_ntoh 2 m off = Ok OFPAT_SET_DL_SRC ->
  validate_action_set_dl_src m off = Ok 0 -> exists a, action_at m off a.
Proof. solve_at (fun x => SetDlSrc (ada_dl_addr x)) ada_len. Qed.

Lemma set_dl_dst_at m off :
  ld_ntoh 2 m off = Ok OFPAT_SET_DL_DST ->
  validate_action_set_dl_dst m off = Ok 0 -> exists a, action_at m off a.
Proof. solve_at (fun x => SetDlDst (ada_dl_addr x)) ada_len. Qed.

Lemma set_nw_src_at m off :
  ld_ntoh 2 m off = Ok OFPAT_SET_NW_SRC ->
  validate_action_set_nw_src m off = Ok 0 -> exists a, action_at m off a.
Proof. solve_at (fun x => SetNwSrc (ntohl (ana_nw_addr x))) ana_len. Qed.

Lemma set_nw_dst_at m off :
  ld_ntoh 2 m off = Ok OFPAT_SET_NW_DST ->
  validate_action_set_nw_dst m off = Ok 0 -> exists a, action_at m off a.
Proof. solve_at (fun x => SetNwDst (ntohl (ana_nw_addr x))) ana_len. Qed.

Lemma set_nw_tos_at m off :
  ld_ntoh 2 m off = Ok OFPAT_SET_NW_TOS ->
  validate_action_set_nw_tos m off = Ok 0 -> exists a, action_at m off a.
Proof. solve_at (fun x => SetNwTos (ant_nw_tos x)) ant_len. Qed.

Lemma set_tp_src_at m off :
  ld_ntoh 2 m off = Ok OFPAT_SET_TP_SRC ->
  validate_action_set_tp_src m off = Ok 0 -> exists a, action_at m off a.
Proof. solve_at (fun x => SetTpSrc (ntohs (atp_tp_port x))) atp_len. Qed.

Lemma set_tp_dst_at m off :
  ld_ntoh 2 m off = Ok OFPAT_SET_TP_DST ->
  validate_action_set_tp_dst m off = Ok 0 -> exists a, action_at m off a.
Proof. solve_at (fun x => SetTpDst (ntohs (atp_tp_port x))) atp_len. Qed.

Lemma enqueue_at m off :
  ld_ntoh 2 m off = Ok OFPAT_ENQUEUE ->
  validate_action_enqueue m off = Ok 0 -> exists a, action_at m off a.
Proof. solve_at (fun x => Enqueue (ntohs (ae_port x)) (ntohl (ae_queue_id x))) ae_len. Qed.

(** The length in the header counts the body; a body outside the message is
    never looked at. *)
Lemma vendor_at m off :
  ld_ntoh 2 m off = Ok OFPAT_VENDOR ->
  validate_action_vendor m off = Ok 0 -> exists a, action_at m off a.
Proof.
  intros Ht H. unfold validate_action_vendor in H. rewrite Ht in H. cbn [bind] in H.
  rewrite Z.eqb_refl in H. apply bind_inv in H as (len & Hl & H). passed H.
  autounfold with action_size in *.
  pose proof (ld_ntoh_range _ _ _ _ Ht). pose proof (ld_ntoh_fits _ _ _ _ Hl) as Hf.
  assert (Hm : (len - 8) mod 8 = 0) by (rewrite Zminus_mod, E0; done).
  destruct (decide (off + len <= blen m)) as [Hin | Hout].
  2: { exists (Vendor 0 (zeros (Z.to_nat (len - 8)))). split_and!.
       - cbn. split; cbn; [done | | done]. unfold fits in *. rewrite blen_zeros. lia.
       - cbn. rewrite blen_zeros, Z2Nat.id, Hm by lia. done.
       - rewrite Hl. f_equal. cbn. len.
       - cbn. rewrite blen_zeros, Z2Nat.id by lia. lia. }
  destruct (ws_ld_ok (A := ofp_action_vendor_header) m off) as [x Hx]; [lia | cbn; lia |].
  destruct (ld_range_in m (off + 8) (len - 8)) as (body & Hb & Hbl); [lia .. |].
  exists (Vendor (ntohl (av_vendor x)) body).
  set (y := vendor_header (ntohl (av_vendor x)) body).
  assert (Hlen : ld_ntoh 2 m (off + 2) = Ok (ntohs (av_len x))) by (revert Hx; clear; cbn; len_at).
  assert (Hty : ld_ntoh 2 m off = Ok (ntohs (av_type x))).
  { revert Hx. clear. cbn. intros H. autounfold with wire in H. bind_open. unfold ld_ntoh.
    match goal with H : ld16 _ off = _ |- _ => by rewrite H end. }
  assert (Hy : ws_ntoh x = y).
  { cbn. unfold ntoh_action_vendor_header, y, vendor_header. f_equal; [congruence |].
    rewrite Hbl. replace (8 + (len - 8)) with len by lia. congruence. }
  assert (Hw : ws_wf y) by (rewrite <- Hy; eapply ws_wf_ntoh, ws_ld_wf, Hx).
  split_and!; [exact Hw | cbn; by rewrite Hbl, Hm | rewrite Hl; cbn; f_equal; lia |].
  intros _. cbn [action_len]. rewrite Hbl. replace (8 + (len - 8)) with len by lia.
  unfold ntoh_action. rewrite Ht. cbn [bind]. unfold convert_action. select_type.
  unfold ntoh_action_vendor. fold_action. rewrite Hx. cbn [bind]. rewrite Hy.
  replace (ntohs (av_len x)) with len by congruence.
  pose proof (ws_st_host y [] (Z.to_nat len) 0) as Es. cbn [app] in Es.
  rewrite Es by first [exact Hw | done | cbn; lia]. cbn [bind]. clear Es.
  unfold copy_action_vendor_body, u64. rewrite Z.mod_small by (unfold fits in Hf; lia).
  destruct (0 <? len - 8) eqn:E8.
  - rewrite Hb. cbn [bind].
    rewrite st_bytes_zeros; [| by unfold blen; rewrite (ws_host_length y)
                             | unfold blen in Hbl; cbn; lia].
    replace (Z.to_nat len - ws_size - length body)%nat with 0%nat
      by (unfold blen in Hbl; cbn; lia).
    by rewrite app_nil_r.
  - assert (body = []) as -> by (destruct body; [done |]; rewrite blen_cons in Hbl;
      pose proof (blen_nonneg body); lia).
    replace (Z.to_nat len - ws_size)%nat with 0%nat by (cbn; lia). done.
Qed.
End Layout.

Section Lists.
Context {host : Host}.
Implicit Types (a : action) (l : list action).

Lemma actions_len_cons a l : actions_len (a :: l) = action_len a + actions_len l.
Proof. done. Qed.

Lemma wire_actions_cons a l : wire_actions (a :: l) = wire_action a ++ wire_actions l.
Proof. done. Qed.

Lemma actions_len_nonneg l : Forall wf_action l -> 0 <= actions_len l.
Proof.
  induction 1 as [| a l Ha%wf_action_len _ IH]; [done | rewrite actions_len_cons; lia].
Qed.

Lemma blen_wire_actions l : Forall wf_action l -> blen (wire_actions l) = actions_len l.
Proof.
  induction 1 as [| a l Ha _ IH]; [done |].
  rewrite wire_actions_cons, actions_len_cons, blen_app, length_wire_action by done. lia.
Qed.

(** Every action is at least 8 bytes long. *)
Lemma length_le_actions_len l :
  Forall wf_action l -> 8 * Z.of_nat (length l) <= actions_len l.
Proof.
  induction 1 as [| a l Ha%wf_action_len _ IH]; [done |].
  rewrite actions_len_cons. cbn [length]. lia.
Qed.

Lemma validate_actions_loop_ok fuel l P Q r head length_ :
  Forall wf_action l -> (length l < fuel)%nat -> head = blen P ->
  length_ = blen Q + actions_len l -> length_ < 2 ^ 16 ->
  validate_actions_loop fuel (P ++ Q ++ wire_actions l ++ r) head length_ (blen Q)
  = Ok (actions_error l).
Proof.
  intros Hl. revert fuel Q. induction Hl as [| a l Ha Hl IH]; intros fuel Q Hf -> Hlen H16.
  - destruct fuel; [cbn in Hf; lia |]. unfold actions_len in Hlen. cbn in *. by replace (blen Q <? length_) with false by lia.
  - destruct fuel as [| fuel]; [cbn in Hf; lia |]. cbn [validate_actions_loop].
    pose proof (wf_action_len _ Ha). pose proof (actions_len_nonneg _ Hl).
    rewrite actions_len_cons in Hlen.
    pose proof (blen_nonneg Q).
    replace (blen Q <? length_) with true by lia.
    rewrite wire_actions_cons, <- app_assoc, (app_assoc P Q).
    rewrite validate_action_ok by (done || by rewrite blen_app). cbn [bind actions_error].
    destruct (action_error a <? 0); [done |].
    rewrite ld_len_wire by (done || by rewrite blen_app). cbn [bind].
    unfold u16. rewrite Z.mod_small by lia.
    rewrite <- (length_wire_action a), <- (blen_app Q) by done.
    specialize (IH fuel (Q ++ wire_action a)). rewrite <- !app_assoc in IH |- *.
    apply IH; [cbn in Hf; lia | done | | done].
    rewrite blen_app, length_wire_action by done. lia.
Qed.

Lemma validate_actions_ok l P r head length_ :
  Forall wf_action l -> head = blen P -> length_ = actions_len l -> length_ < 2 ^ 16 ->
  validate_actions (P ++ wire_actions l ++ r) head length_ = Ok (actions_error l).
Proof.
  intros Hl -> -> H16. unfold validate_actions.
  apply (validate_actions_loop_ok _ l P [] r); try done.
  pose proof (length_le_actions_len l Hl). pose proof offset_fuel_eq. lia.
Qed.

(** C23. [validate_actions] on a list of actions laid out one after the other
    returns the error of the first invalid action, 0 when every action is
    valid: no valid list is refused, and the loop ends. *)
Theorem validate_actions_complete l P r :
  Forall wf_action l -> actions_len l < 2 ^ 16 ->
  validate_actions (P ++ wire_actions l ++ r) (blen P) (actions_len l) = Ok (actions_error l).
Proof. intros Hl H16. by apply validate_actions_ok. Qed.

(** C24. An action that [validate_action] accepts is a valid action of the
    reference grammar with the length its header says, and when it lies within
    the message [ntoh_action] converts it without a fault into the image in
    memory of that action. *)
Theorem validate_action_sound m off :
  validate_action m off = Ok 0 ->
  exists a, wf_action a /\ action_error a = 0 /\ ld_ntoh 2 m (off + 2) = Ok (action_len a) /\
    (off + action_len a <= blen m ->
     ntoh_action (zeros (Z.to_nat (action_len a))) 0 m off = Ok (host_action a)).
Proof.
  intros (len & Hlen & H)%bind_inv.
  destruct (len <? sizeof_ofp_action_header); [discriminate |].
  apply bind_inv in H as (type & Ht & H).
  repeat match type of H with
  | (if ?x =? ?y then _ else _) = _ =>
    let E := fresh "E" in destruct (x =? y) eqn:E; [apply Z.eqb_eq in E; subst x |]
  end;
  eauto using output_at, set_vlan_vid_at, set_vlan_pcp_at, strip_vlan_at, set_dl_src_at,
    set_dl_dst_at, set_nw_src_at, set_nw_dst_at, set_nw_tos_at, set_tp_src_at, set_tp_dst_at,
    enqueue_at, vendor_at.
  discriminate.
Qed.

(** The constructors build from [create_actions] the list of the host
    images of the actions, in order and counted, provided the assertions on
    the arguments hold; otherwise the process aborts. *)
Theorem append_all_ok l :
  Forall wf_action l ->
  append_all create_actions l =
  if forallb appendable l then Ok (host_actions l) else Fault AssertFailed.
Proof.
  intros Hl. enough (E : forall n d, append_all (OpenflowActions n d) l =
    if forallb appendable l then Ok (OpenflowActions (n + Z.of_nat (length l)) (d ++ map host_action l))
    else Fault AssertFailed) by apply E.
  induction Hl as [| a l Ha Hl IH]; intros n d; cbn [append_all forallb map].
  - by rewrite Z.add_0_r, app_nil_r.
  - rewrite append_action_ok by done. destruct (appendable a); [| done].
    cbn [bind andb append_data n_actions actions_list]. rewrite IH.
    destruct (forallb appendable l); [| done]. do 2 f_equal; [cbn; lia |]. by rewrite <- app_assoc.
Qed.

(** A vendor action whose header claims 65528 bytes. *)
Definition long_vendor (v : Z) : bytes :=
  wire_action_vendor_header (Build_ofp_action_vendor_header OFPAT_VENDOR 65528 v).

Lemma long_vendor_header P v r :
  fits 4 v ->
  ld_ntoh 2 (P ++ long_vendor v ++ r) (blen P) = Ok OFPAT_VENDOR /\
  ld_ntoh 2 (P ++ long_vendor v ++ r) (blen P + 2) = Ok 65528.
Proof.
  intros Hv. pose proof (blen_nonneg P).
  assert (fits 2 OFPAT_VENDOR) by done. assert (fits 2 65528) by done.
  unfold long_vendor. autounfold with wire. cbn. rewrite <- !app_assoc. split; by rd.
Qed.

(** C26. The offset of [validate_actions] is 16 bits wide: a vendor action whose
    length is 65528, after an action of 8 bytes, takes the offset back to 0, and
    the loop never ends, whatever follows in the message. *)
Theorem validate_actions_diverges P v r length_ fuel :
  fits 4 v -> 8 < length_ ->
  validate_actions_loop fuel (P ++ wire_action StripVlan ++ long_vendor v ++ r) (blen P) length_ 0
  = Fault OutOfFuel.
Proof.
  intros Hv Hlen.
  enough (H : validate_actions_loop fuel (P ++ wire_action StripVlan ++ long_vendor v ++ r)
                (blen P) length_ 0 = Fault OutOfFuel /\
              validate_actions_loop fuel (P ++ wire_action StripVlan ++ long_vendor v ++ r)
                (blen P) length_ 8 = Fault OutOfFuel) by apply H.
  assert (Hw : wf_action StripVlan) by done.
  destruct (long_vendor_header (P ++ wire_action StripVlan) v r Hv) as [Ht Hl].
  rewrite <- app_assoc, blen_app, (length_wire_action StripVlan Hw) in Ht, Hl.
  cbn [action_len] in Ht, Hl.
  induction fuel as [| fuel [IH0 IH8]]; [done |]. cbn [validate_actions_loop].
  replace (0 <? length_) with true by lia. replace (8 <? length_) with true by lia. split.
  - rewrite Z.add_0_r, validate_action_ok by done. cbn [bind action_error Z.ltb Z.compare].
    rewrite ld_len_wire by done. exact IH8.
  - unfold validate_action. rewrite Hl. cbn [bind]. change (65528 <? sizeof_ofp_action_header) with false.
    rewrite Ht. cbn [bind]. select_type. unfold validate_action_vendor. rewrite Ht, Hl.
    cbn [bind]. rewrite Z.eqb_refl. cbn [negb]. exact IH0.
Qed.
End Lists.

Section ActionWitnesses.
Let host : Host := LittleEndian.
#[local] Existing Instance host.

(** Two valid actions, after two bytes of something else. *)
Definition sample_actions : list action :=
  [SetVlanVid 100; SetDlDst (zeros 6); Vendor 7 (zeros 8); Output 0xfffd 0xffff].

Lemma sample_actions_wf : Forall wf_action sample_actions.
Proof. repeat constructor; cbn; repeat split; done. Qed.

Lemma validate_actions_complete_witness :
  Forall wf_action sample_actions /\
  validate_actions (zeros 2 ++ wire_actions sample_actions ++ []) 2 48 = Ok 0.
Proof.
  split; [exact sample_actions_wf |].
  exact (validate_actions_complete sample_actions (zeros 2) [] sample_actions_wf ltac:(done)).
Defined.

Lemma append_all_ok_witness :
  Forall wf_action sample_actions /\
  append_all create_actions sample_actions = Ok (host_actions sample_actions).
Proof. split; [exact sample_actions_wf | exact (append_all_ok sample_actions sample_actions_wf)]. Defined.

Lemma validate_action_sound_witness :
  validate_action (zeros 2 ++ wire_action (Output 1 128)) 2 = Ok 0 /\
  exists a, wf_action a /\ action_error a = 0 /\
    ld_ntoh 2 (zeros 2 ++ wire_action (Output 1 128)) 4 = Ok (action_len a) /\
    (2 + action_len a <= blen (zeros 2 ++ wire_action (Output 1 128)) ->
     ntoh_action (zeros (Z.to_nat (action_len a))) 0 (zeros 2 ++ wire_action (Output 1 128)) 2
     = Ok (host_action a)).
Proof.
  assert (H : validate_action (zeros 2 ++ wire_action (Output 1 128)) 2 = Ok 0) by (vm_compute; reflexivity).
  split; [exact H | exact (validate_action_sound _ _ H)].
Defined.

Lemma validate_actions_diverges_witness :
  fits 4 0x2320 /\ 8 < 16 /\
  validate_actions_loop 1000 (zeros 72 ++ wire_action StripVlan ++ long_vendor 0x2320 ++ []) 72 16 0
  = Fault OutOfFuel.
Proof.
  split; [done | split; [done |]].
  exact (validate_actions_diverges (zeros 72) 0x2320 [] 16 1000 ltac:(done) ltac:(done)).
Defined.
End ActionWitnesses.
