(* ===== verification/Validate.v ===== *)
(** openflow_message.c: validation of OpenFlow messages ([validate_*]).

    A message is the bytes of its buffer; [message->length] is their number.
    A validator returns 0 or a negative error code, or faults where the code
    reads past the end of the message. *)

From Stdlib Require Import ZArith Lia Bool.
From coqutil Require Import Byte.
From stdpp Require Import base list.
From S2P Require Import Prelude Memory OpenFlow Codes ByteOrder Actions.

Section Validate.
Context {host : Host}.
Implicit Types message m : bytes.

(** * The header *)

Definition valid_message_version (type version : Z) : bool :=
  if negb (type =? OFPT_HELLO) then version =? OFP_VERSION
  else (OFP_VERSION <=? version) && (version <=? 0x04).

Definition validate_header message (type min_length max_length : Z) : res Z :=
  if blen message <? sizeof_ofp_header then Ok ERROR_TOO_SHORT_MESSAGE
  else
    let* version := ld8 message 0 in
    if negb (valid_message_version type version) then Ok ERROR_UNSUPPORTED_VERSION
    else
      let* header_type := ld8 message 1 in
      if OFPT_QUEUE_GET_CONFIG_REPLY <? header_type then Ok ERROR_UNDEFINED_TYPE
      else if negb (header_type =? type) then Ok ERROR_INVALID_TYPE
      else
        let* length := ld_ntoh 2 message 2 in
        if max_length <? length then Ok ERROR_TOO_LONG_MESSAGE
        else if length <? min_length then Ok ERROR_TOO_SHORT_MESSAGE
        else if length <? blen message then Ok ERROR_TOO_LONG_MESSAGE
        else if blen message <? length then Ok ERROR_TOO_SHORT_MESSAGE
        else if max_length <? blen message then Ok ERROR_TOO_LONG_MESSAGE
        else Ok 0.

Definition validate_hello message : res Z :=
  validate_header message OFPT_HELLO sizeof_ofp_header sizeof_ofp_header.

Definition validate_error message : res Z :=
  check* validate_header message OFPT_ERROR sizeof_ofp_error_msg UINT16_MAX in
  Ok 0.

Definition validate_echo_request message : res Z :=
  check* validate_header message OFPT_ECHO_REQUEST sizeof_ofp_header UINT16_MAX in
  let* length := ld_ntoh 2 message 2 in
  if negb (blen message =? length) then Ok ERROR_INVALID_LENGTH else Ok 0.

Definition validate_echo_reply message : res Z :=
  check* validate_header message OFPT_ECHO_REPLY sizeof_ofp_header UINT16_MAX in
  let* length := ld_ntoh 2 message 2 in
  if negb (blen message =? length) then Ok ERROR_INVALID_LENGTH else Ok 0.

Definition validate_vendor message : res Z :=
  check* validate_header message OFPT_VENDOR sizeof_ofp_vendor_header UINT16_MAX in
  let* length := ld_ntoh 2 message 2 in
  if negb (blen message =? length) then Ok ERROR_INVALID_LENGTH else Ok 0.

Definition validate_features_request message : res Z :=
  validate_header message OFPT_FEATURES_REQUEST sizeof_ofp_header sizeof_ofp_header.

(** * Ports *)

Definition validate_phy_port m (port : Z) : res Z :=
  let* x := ld_phy_port m port in
  let port_h := ntoh_phy_port x in
  check* Ok (validate_phy_port_no (pp_port_no port_h)) in
  if negb (Z.land (pp_config port_h) (not32 PORT_CONFIG) =? 0) then Ok ERROR_INVALID_PORT_CONFIG
  else if negb (Z.land (pp_state port_h) (not32 PORT_STATE) =? 0) then Ok ERROR_INVALID_PORT_STATE
  else if negb (Z.land (pp_curr port_h) (not32 PORT_FEATURES) =? 0)
       || negb (Z.land (pp_advertised port_h) (not32 PORT_FEATURES) =? 0)
       || negb (Z.land (pp_supported port_h) (not32 PORT_FEATURES) =? 0)
       || negb (Z.land (pp_peer port_h) (not32 PORT_FEATURES) =? 0)
  then Ok ERROR_INVALID_PORT_FEATURES
  else Ok 0.

(** [for ( i = 0; i < n; i++ ) { ret = f( p ); if ( ret < 0 ) { return ret; } p++; }]
    for elements of [size] bytes. *)
Fixpoint validate_each (f : bytes -> Z -> res Z) (size : Z) (n : nat) m (p : Z) : res Z :=
  match n with
  | O => Ok 0
  | S n => check* f m p in validate_each f size n m (p + size)
  end.

Definition validate_phy_ports m (ports n_ports : Z) : res Z :=
  let* _ := assert (negb (n_ports =? 0)) in
  validate_each validate_phy_port sizeof_ofp_phy_port (Z.to_nat n_ports) m ports.

Definition validate_features_reply message : res Z :=
  check* validate_header message OFPT_FEATURES_REPLY sizeof_ofp_switch_features UINT16_MAX in
  let* n_tables := ld8 message 20 in
  if n_tables =? 0 then Ok ERROR_NO_TABLE_AVAILABLE
  else
    let* length := ld_ntoh 2 message 2 in
    let port_length := u16 (length - sizeof_ofp_switch_features) in
    if negb (port_length mod sizeof_ofp_phy_port =? 0) then Ok ERROR_INVALID_LENGTH
    else if 0 <? port_length then
      let n_ports := port_length / sizeof_ofp_phy_port in
      check* validate_phy_ports message 32 n_ports in
      Ok 0
    else Ok 0.

Definition validate_get_config_request message : res Z :=
  validate_header message OFPT_GET_CONFIG_REQUEST sizeof_ofp_header sizeof_ofp_header.

Definition validate_switch_config message (type : Z) : res Z :=
  let* _ := assert ((type =? OFPT_GET_CONFIG_REPLY) || (type =? OFPT_SET_CONFIG)) in
  check* validate_header message type sizeof_ofp_switch_config sizeof_ofp_switch_config in
  let* flags := ld_ntoh 2 message 8 in
  if OFPC_FRAG_MASK <? flags then Ok ERROR_INVALID_SWITCH_CONFIG else Ok 0.

Definition validate_get_config_reply message : res Z :=
  validate_switch_config message OFPT_GET_CONFIG_REPLY.

Definition validate_set_config message : res Z :=
  validate_switch_config message OFPT_SET_CONFIG.

Definition validate_packet_in message : res Z :=
  check* validate_header message OFPT_PACKET_IN offsetof_packet_in_data UINT16_MAX in
  let* in_port := ld_ntoh 2 message 14 in
  check* Ok (validate_phy_port_no in_port) in
  let* reason := ld8 message 16 in
  if OFPR_ACTION <? reason then Ok ERROR_INVALID_PACKET_IN_REASON else Ok 0.

(** * Flows *)

Definition validate_match (match_ : ofp_match) : Z :=
  let ret := validate_wildcards (wildcards match_) in
  if ret <? 0 then ret
  else
    let ret := validate_vlan_vid (dl_vlan match_) in
    if ret <? 0 then ret
    else
      let ret := validate_vlan_pcp (dl_vlan_pcp match_) in
      if ret <? 0 then ret
      else
        let ret := validate_nw_tos (nw_tos match_) in
        if ret <? 0 then ret else 0.

Definition validate_flow_removed message : res Z :=
  check* validate_header message OFPT_FLOW_REMOVED sizeof_ofp_flow_removed sizeof_ofp_flow_removed in
  let* x := ld_match message 8 in
  let match_ := ntoh_match x in
  check* Ok (validate_match match_) in
  let* priority := ld_ntoh 2 message 56 in
  if (Z.land (wildcards match_) OFPFW_ALL =? 0) && negb (priority =? UINT16_MAX)
  then Ok ERROR_INVALID_FLOW_PRIORITY
  else
    let* reason := ld8 message 58 in
    if OFPRR_DELETE <? reason then Ok ERROR_INVALID_FLOW_REMOVED_REASON else Ok 0.

Definition validate_port_status message : res Z :=
  check* validate_header message OFPT_PORT_STATUS sizeof_ofp_port_status sizeof_ofp_port_status in
  let* reason := ld8 message 8 in
  if OFPPR_MODIFY <? reason then Ok ERROR_INVALID_PORT_STATUS_REASON
  else
    check* validate_phy_port message 16 in
    Ok 0.

Definition validate_packet_out message : res Z :=
  check* validate_header message OFPT_PACKET_OUT offsetof_packet_out_actions UINT16_MAX in
  let* in_port := ld_ntoh 2 message 12 in
  check* Ok (validate_phy_port_no in_port) in
  let* actions_len := ld_ntoh 2 message 14 in
  if 0 <? actions_len then
    check* validate_actions message offsetof_packet_out_actions actions_len in
    Ok 0
  else Ok 0.

Definition validate_flow_mod message : res Z :=
  check* validate_header message OFPT_FLOW_MOD offsetof_flow_mod_actions UINT16_MAX in
  let* x := ld_match message 8 in
  let match_ := ntoh_match x in
  check* Ok (validate_match match_) in
  let* command := ld_ntoh 2 message 56 in
  if OFPFC_DELETE_STRICT <? command then Ok ERROR_UNDEFINED_FLOW_MOD_COMMAND
  else
    let* priority := ld_ntoh 2 message 62 in
    if (Z.land (wildcards match_) OFPFW_ALL =? 0) && negb (priority =? UINT16_MAX)
    then Ok ERROR_INVALID_FLOW_PRIORITY
    else
      let* out_port := ld_ntoh 2 message 68 in
      check*
        (if (command =? OFPFC_DELETE) || (command =? OFPFC_DELETE_STRICT) then
           if negb (out_port =? OFPP_NONE) then Ok (validate_phy_port_no out_port) else Ok 0
         else Ok 0) in
      let* flags := ld_ntoh 2 message 70 in
      if negb (Z.land flags (Z.lnot FLOW_MOD_FLAGS) =? 0) then Ok ERROR_INVALID_FLOW_MOD_FLAGS
      else
        let* length := ld_ntoh 2 message 2 in
        let actions_length := u16 (length - offsetof_flow_mod_actions) in
        if 0 <? actions_length then
          check* validate_actions message offsetof_flow_mod_actions actions_length in
          Ok 0
        else Ok 0.

Definition validate_port_mod message : res Z :=
  check* validate_header message OFPT_PORT_MOD sizeof_ofp_port_mod sizeof_ofp_port_mod in
  let* port_no := ld_ntoh 2 message 8 in
  check* Ok (validate_phy_port_no port_no) in
  if (OFPP_MAX <? port_no) && negb (port_no =? OFPP_LOCAL) then Ok ERROR_INVALID_PORT_NO
  else
    let* config := ld_ntoh 4 message 16 in
    if negb (Z.land config (not32 PORT_CONFIG) =? 0) then Ok ERROR_INVALID_PORT_CONFIG
    else
      let* mask := ld_ntoh 4 message 20 in
      if negb (Z.land mask (not32 PORT_CONFIG) =? 0) then Ok ERROR_INVALID_PORT_MASK
      else
        let* advertise := ld_ntoh 4 message 24 in
        if negb (Z.land advertise (not32 PORT_FEATURES) =? 0) then Ok ERROR_INVALID_PORT_FEATURES
        else Ok 0.

(** * Statistics requests *)

(** The first lines of every statistics request validator. *)
Definition validate_stats_request_header message (stats_type min_length max_length : Z) : res Z :=
  check* validate_header message OFPT_STATS_REQUEST min_length max_length in
  let* type := ld_ntoh 2 message 8 in
  if negb (type =? stats_type) then Ok ERROR_INVALID_STATS_TYPE
  else
    let* flags := ld_ntoh 2 message 10 in
    if negb (flags =? 0) then Ok ERROR_INVALID_STATS_REQUEST_FLAGS else Ok 0.

Definition validate_desc_stats_request message : res Z :=
  validate_stats_request_header message OFPST_DESC sizeof_ofp_stats_request sizeof_ofp_stats_request.

Definition validate_flow_stats_request message : res Z :=
  let length := offsetof_stats_request_body + sizeof_ofp_flow_stats_request in
  check* validate_stats_request_header message OFPST_FLOW length length in
  let* x := ld_match message offsetof_stats_request_body in
  check* Ok (validate_match (ntoh_match x)) in
  let* out_port := ld_ntoh 2 message (offsetof_stats_request_body + 42) in
  check* Ok (validate_phy_port_no out_port) in
  Ok 0.

Definition validate_aggregate_stats_request message : res Z :=
  let length := offsetof_stats_request_body + sizeof_ofp_aggregate_stats_request in
  check* validate_stats_request_header message OFPST_AGGREGATE length length in
  let* x := ld_match message offsetof_stats_request_body in
  check* Ok (validate_match (ntoh_match x)) in
  let* out_port := ld_ntoh 2 message (offsetof_stats_request_body + 42) in
  check* Ok (validate_phy_port_no out_port) in
  Ok 0.

Definition validate_table_stats_request message : res Z :=
  validate_stats_request_header message OFPST_TABLE offsetof_stats_request_body
    offsetof_stats_request_body.

Definition validate_port_stats_request message : res Z :=
  let length := offsetof_stats_request_body + sizeof_ofp_port_stats_request in
  check* validate_stats_request_header message OFPST_PORT length length in
  let* port_no := ld_ntoh 2 message offsetof_stats_request_body in
  check* Ok (validate_phy_port_no port_no) in
  if (OFPP_MAX <? port_no) && negb (port_no =? OFPP_NONE) && negb (port_no =? OFPP_LOCAL)
  then Ok ERROR_INVALID_PORT_NO
  else Ok 0.

Definition validate_queue_stats_request message : res Z :=
  let length := offsetof_stats_request_body + sizeof_ofp_queue_stats_request in
  check* validate_stats_request_header message OFPST_QUEUE length length in
  let* port_no := ld_ntoh 2 message offsetof_stats_request_body in
  check* Ok (validate_phy_port_no port_no) in
  Ok 0.

Definition validate_vendor_stats_request message : res Z :=
  validate_stats_request_header message OFPST_VENDOR (offsetof_stats_request_body + 4) UINT16_MAX.

(** The type is read before the header is checked. *)
Definition validate_stats_request message : res Z :=
  let* type := ld_ntoh 2 message 8 in
  if type =? OFPST_DESC then validate_desc_stats_request message
  else if type =? OFPST_FLOW then validate_flow_stats_request message
  else if type =? OFPST_AGGREGATE then validate_aggregate_stats_request message
  else if type =? OFPST_TABLE then validate_table_stats_request message
  else if type =? OFPST_PORT then validate_port_stats_request message
  else if type =? OFPST_QUEUE then validate_queue_stats_request message
  else if type =? OFPST_VENDOR then validate_vendor_stats_request message
  else Ok ERROR_UNSUPPORTED_STATS_TYPE.

(** * Statistics replies *)

(** The first lines of every statistics reply validator; [allowed] are the
    flags that may be set. *)
Definition validate_stats_reply_header message (max_length allowed : Z) : res Z :=
  check* validate_header message OFPT_STATS_REPLY offsetof_stats_reply_body max_length in
  let* flags := ld_ntoh 2 message 10 in
  if negb (Z.land flags (Z.lnot allowed) =? 0) then Ok ERROR_INVALID_STATS_REPLY_FLAGS else Ok 0.

Definition validate_desc_stats_reply message : res Z :=
  validate_stats_reply_header message (offsetof_stats_reply_body + sizeof_ofp_desc_stats) 0.

Definition validate_flow_stats m (flow_stats : Z) : res Z :=
  let* x := ld_match m (flow_stats + 4) in
  let match_ := ntoh_match x in
  check* Ok (validate_match match_) in
  let* priority := ld_ntoh 2 m (flow_stats + 52) in
  if (Z.land (wildcards match_) OFPFW_ALL =? 0) && (priority <? UINT16_MAX)
  then Ok ERROR_INVALID_FLOW_PRIORITY
  else
    let* length := ld_ntoh 2 m flow_stats in
    let actions_length := u16 (length - offsetof_flow_stats_actions) in
    if 0 <? actions_length then
      check* validate_actions m (flow_stats + offsetof_flow_stats_actions) actions_length in
      Ok 0
    else Ok 0.

(** An entry of a length other than 0 takes [flow_length] down, or takes
    [flow_stats] past the end of the message, where the next pass faults; so
    [flow_length + 1] passes are enough unless an entry has length 0. *)
Fixpoint validate_flow_stats_loop (fuel : nat) m (flow_stats flow_length : Z) : res Z :=
  match fuel with
  | O => Fault OutOfFuel
  | S fuel =>
    if 0 <? flow_length then
      check* validate_flow_stats m flow_stats in
      let* length := ld_ntoh 2 m flow_stats in
      validate_flow_stats_loop fuel m (flow_stats + length) (u16 (flow_length - length))
    else Ok 0
  end.

Definition validate_flow_stats_reply message : res Z :=
  check* validate_stats_reply_header message UINT16_MAX OFPSF_REPLY_MORE in
  let* length := ld_ntoh 2 message 2 in
  let flow_length := u16 (length - offsetof_stats_reply_body) in
  validate_flow_stats_loop (S (S (Z.to_nat flow_length))) message offsetof_stats_reply_body flow_length.

Definition validate_aggregate_stats_reply message : res Z :=
  validate_stats_reply_header message
    (offsetof_stats_reply_body + sizeof_ofp_aggregate_stats_reply) 0.

(** The replies that are arrays of entries of [size] bytes. *)
Definition validate_stats_array message (size : Z) (entry : bytes -> Z -> res Z) : res Z :=
  check* validate_stats_reply_header message UINT16_MAX OFPSF_REPLY_MORE in
  let* length := ld_ntoh 2 message 2 in
  let entries_length := u16 (length - offsetof_stats_reply_body) in
  if negb (entries_length mod size =? 0) then Ok ERROR_INVALID_LENGTH
  else validate_each entry size (Z.to_nat (entries_length / size)) message offsetof_stats_reply_body.

Definition validate_table_stats_reply message : res Z :=
  validate_stats_array message sizeof_ofp_table_stats (fun m table_stats =>
    let* w := ld_ntoh 4 m (table_stats + 36) in Ok (validate_wildcards w)).

Definition validate_port_stats_reply message : res Z :=
  validate_stats_array message sizeof_ofp_port_stats (fun m port_stats =>
    let* port_no := ld_ntoh 2 m port_stats in Ok (validate_phy_port_no port_no)).

Definition validate_queue_stats_reply message : res Z :=
  validate_stats_array message sizeof_ofp_queue_stats (fun m queue_stats =>
    let* port_no := ld_ntoh 2 m queue_stats in Ok (validate_phy_port_no port_no)).

Definition validate_vendor_stats_reply message : res Z :=
  validate_stats_reply_header message UINT16_MAX OFPSF_REPLY_MORE.

Definition validate_stats_reply message : res Z :=
  let* type := ld_ntoh 2 message 8 in
  if type =? OFPST_DESC then validate_desc_stats_reply message
  else if type =? OFPST_FLOW then validate_flow_stats_reply message
  else if type =? OFPST_AGGREGATE then validate_aggregate_stats_reply message
  else if type =? OFPST_TABLE then validate_table_stats_reply message
  else if type =? OFPST_PORT then validate_port_stats_reply message
  else if type =? OFPST_QUEUE then validate_queue_stats_reply message
  else if type =? OFPST_VENDOR then validate_vendor_stats_reply message
  else Ok ERROR_UNSUPPORTED_STATS_TYPE.

(** * Barriers and queues *)

Definition validate_barrier_request message : res Z :=
  validate_header message OFPT_BARRIER_REQUEST sizeof_ofp_header sizeof_ofp_header.

Definition validate_barrier_reply message : res Z :=
  validate_header message OFPT_BARRIER_REPLY sizeof_ofp_header sizeof_ofp_header.

Definition validate_queue_get_config_request message : res Z :=
  check* validate_header message OFPT_QUEUE_GET_CONFIG_REQUEST
    sizeof_ofp_queue_get_config_request sizeof_ofp_queue_get_config_request in
  let* port := ld_ntoh 2 message 8 in
  check* Ok (validate_phy_port_no port) in
  Ok 0.

Definition validate_queue_property m (property : Z) : res Z :=
  let* property_length := ld_ntoh 2 m (property + 2) in
  if property_length <? sizeof_ofp_queue_prop_header then Ok ERROR_TOO_SHORT_QUEUE_PROPERTY
  else
    let* kind := ld_ntoh 2 m property in
    if kind =? OFPQT_NONE then
      if property_length <? sizeof_ofp_queue_prop_header then Ok ERROR_TOO_SHORT_QUEUE_PROPERTY
      else if sizeof_ofp_queue_prop_header <? property_length then Ok ERROR_TOO_LONG_QUEUE_PROPERTY
      else Ok 0
    else if kind =? OFPQT_MIN_RATE then
      if property_length <? sizeof_ofp_queue_prop_min_rate then Ok ERROR_TOO_SHORT_QUEUE_PROPERTY
      else if sizeof_ofp_queue_prop_min_rate <? property_length then Ok ERROR_TOO_LONG_QUEUE_PROPERTY
      else Ok 0
    else Ok ERROR_UNDEFINED_QUEUE_PROPERTY.

Fixpoint validate_queue_properties_loop (fuel : nat) m (prop_head properties_length offset : Z)
    : res Z :=
  match fuel with
  | O => Fault OutOfFuel
  | S fuel =>
    if offset <? properties_length then
      let property := prop_head + offset in
      check* validate_queue_property m property in
      let* len := ld_ntoh 2 m (property + 2) in
      validate_queue_properties_loop fuel m prop_head properties_length (u16 (offset + len))
    else Ok 0
  end.

Definition validate_queue_properties m (prop_head properties_length : Z) : res Z :=
  validate_queue_properties_loop (S offset_fuel) m prop_head properties_length 0.

Definition validate_packet_queue m (queue : Z) : res Z :=
  let* len := ld_ntoh 2 m (queue + 4) in
  if len <? offsetof_packet_queue_properties + sizeof_ofp_queue_prop_header
  then Ok ERROR_TOO_SHORT_QUEUE_DESCRIPTION
  else
    let prop_head := queue + offsetof_packet_queue_properties in
    let properties_length := u16 (len - offsetof_packet_queue_properties) in
    check* validate_queue_properties m prop_head properties_length in
    Ok 0.

Fixpoint validate_packet_queues m (queue : Z) (n_queues : nat) : res Z :=
  match n_queues with
  | O => Ok 0
  | S n =>
    check* validate_packet_queue m queue in
    let* len := ld_ntoh 2 m (queue + 4) in
    validate_packet_queues m (queue + len) n
  end.

(** The loop that counts the queues; fuel as for [validate_flow_stats_loop].
    The result is what is left of [queues_length], and [n_queues]. *)
Fixpoint count_queues (fuel : nat) m (queue queues_length : Z) (n_queues : nat) : res (Z * nat) :=
  match fuel with
  | O => Fault OutOfFuel
  | S fuel =>
    if offsetof_packet_queue_properties <? queues_length then
      let* len := ld_ntoh 2 m (queue + 4) in
      count_queues fuel m (queue + len) (u16 (queues_length - len)) (S n_queues)
    else Ok (queues_length, n_queues)
  end.

Definition validate_queue_get_config_reply message : res Z :=
  check* validate_header message OFPT_QUEUE_GET_CONFIG_REPLY
    (sizeof_ofp_queue_get_config_reply + sizeof_ofp_packet_queue) UINT16_MAX in
  let* port := ld_ntoh 2 message 8 in
  check* Ok (validate_phy_port_no port) in
  let* length := ld_ntoh 2 message 2 in
  let queues_length := u16 (length - offsetof_queue_get_config_reply_queues) in
  let queue_head := offsetof_queue_get_config_reply_queues in
  let* (queues_length, n_queues) :=
    count_queues (S (S (Z.to_nat queues_length))) message queue_head queues_length 0 in
  if negb (queues_length =? 0) then Ok ERROR_INVALID_LENGTH
  else if (0 <? n_queues)%nat then
    check* validate_packet_queues message queue_head n_queues in
    Ok 0
  else Ok 0.

(** * Dispatch *)

(** The header is read before its length is checked. *)
Definition validate_openflow_message message : res Z :=
  let* _ := ld8 message 0 in
  let* type := ld8 message 1 in
  let* _ := ld_ntoh 2 message 2 in
  let* _ := ld_ntoh 4 message 4 in
  if type =? OFPT_HELLO then validate_hello message
  else if type =? OFPT_ERROR then validate_error message
  else if type =? OFPT_ECHO_REQUEST then validate_echo_request message
  else if type =? OFPT_ECHO_REPLY then validate_echo_reply message
  else if type =? OFPT_VENDOR then validate_vendor message
  else if type =? OFPT_FEATURES_REQUEST then validate_features_request message
  else if type =? OFPT_FEATURES_REPLY then validate_features_reply message
  else if type =? OFPT_GET_CONFIG_REQUEST then validate_get_config_request message
  else if type =? OFPT_GET_CONFIG_REPLY then validate_get_config_reply message
  else if type =? OFPT_SET_CONFIG then validate_set_config message
  else if type =? OFPT_PACKET_IN then validate_packet_in message
  else if type =? OFPT_FLOW_REMOVED then validate_flow_removed message
  else if type =? OFPT_PORT_STATUS then validate_port_status message
  else if type =? OFPT_PACKET_OUT then validate_packet_out message
  else if type =? OFPT_FLOW_MOD then validate_flow_mod message
  else if type =? OFPT_PORT_MOD then validate_port_mod message
  else if type =? OFPT_STATS_REQUEST then validate_stats_request message
  else if type =? OFPT_STATS_REPLY then validate_stats_reply message
  else if type =? OFPT_BARRIER_REQUEST then validate_barrier_request message
  else if type =? OFPT_BARRIER_REPLY then validate_barrier_reply message
  else if type =? OFPT_QUEUE_GET_CONFIG_REQUEST then validate_queue_get_config_request message
  else if type =? OFPT_QUEUE_GET_CONFIG_REPLY then validate_queue_get_config_reply message
  else Ok ERROR_UNDEFINED_TYPE.

Definition valid_openflow_message message : res bool :=
  let* ret := validate_openflow_message message in
  Ok (negb (ret <? 0)).
End Validate.
