(* ===== verification/Utility.v ===== *)
(** utility.c: comparison and hash functions, the keys they make for
    hash_table.c, and MAC addresses as numbers; and what several components do
    with the bytes of names and buffers.

    The keys of one kind are objects of one size, so their bytes or their
    value stand for the pointer the C functions receive. *)

From Stdlib Require Import ZArith Lia Bool.
From coqutil Require Import Byte Word.LittleEndianList.
From stdpp Require Import base list.
From S2P Require Import Prelude Memory OpenFlow HashTable.

#[export] Instance byte_eq_dec : EqDecision byte := Byte.byte_eq_dec.

(** * FNV-1a *)

Definition offset_basis : Z := 0x811c9dc5.
Definition prime : Z := 0x01000193.

(** The [for] loop over the bytes [c]. *)
Fixpoint hash_core_loop (c : bytes) (hash_value : Z) : Z :=
  match c with
  | [] => hash_value
  | b :: c => hash_core_loop c (u32 (Z.lxor hash_value (byte.unsigned b) * prime))
  end.

Definition hash_core (key : bytes) : Z := hash_core_loop key offset_basis.

(** * Comparison and hash functions *)

(** [memcmp( x, y, 6 ) == 0] *)
Definition compare_mac (x y : bytes) : bool := bool_decide (take 6 x = take 6 y).

Definition hash_mac (mac : bytes) : Z := hash_core (take 6 mac).

Definition compare_uint32 (x y : Z) : bool := x =? y.

Definition hash_uint32 (key : Z) : Z := key mod UINT32_MAX.

Definition compare_datapath_id (x y : Z) : bool := x =? y.

Definition hash_datapath_id {host : Host} (key : Z) : Z := hash_core (host_encode 8 key).

(** The bytes before the first NUL, of a string that has one. *)
Fixpoint c_string (s : bytes) : bytes :=
  match s with
  | [] => []
  | b :: s => if decide (b = zero) then [] else b :: c_string s
  end.

Definition compare_string (x y : bytes) : bool := bool_decide (c_string x = c_string y).

Definition hash_string (key : bytes) : Z := hash_core (c_string key).

(** [( uint64_t ) mac[ 0 ] << 40] and so on; an index outside the array is a fault. *)
Definition mac_to_uint64 (mac : bytes) : res Z :=
  match mac with
  | m0 :: m1 :: m2 :: m3 :: m4 :: m5 :: _ =>
    let u := byte.unsigned in
    Ok (u64 (u64 (Z.shiftl (u m0) 40) + u64 (Z.shiftl (u m1) 32) + u64 (Z.shiftl (u m2) 24)
             + u64 (Z.shiftl (u m3) 16) + u64 (Z.shiftl (u m4) 8) + u m5))
  | _ => Fault OutOfBounds
  end.

(** * Bytes, as several components use them *)

Definition hex_digit (d : Z) : byte := byte.of_Z (if d <? 10 then 48 + d else 87 + d).

Fixpoint hex_digits (fuel : nat) (n : Z) (digits : bytes) : bytes :=
  match fuel with
  | O => digits
  | S fuel => if n =? 0 then digits else hex_digits fuel (n / 16) (hex_digit (n mod 16) :: digits)
  end.

(** [snprintf] with [%#] PRIx64, of at most 16 digits; 0 has no prefix. *)
Definition print_hex (n : Z) : bytes :=
  if n =? 0 then [hex_digit 0] else map byte.of_Z [48; 120] ++ hex_digits 16 n [].

(** [remove_front_buffer], which checks the length. *)
Definition remove_front (buf : bytes) (n : Z) : res bytes :=
  let* _ := assert (negb (n =? 0)) in
  let* _ := assert (n <=? blen buf) in
  Ok (drop (Z.to_nat n) buf).

(** * The hash functions are functions of the compared value *)

Lemma hash_core_loop_range c h : 0 <= h < 2 ^ 32 -> 0 <= hash_core_loop c h < 2 ^ 32.
Proof.
  revert h. induction c as [| b c IH]; intros h Hh; [done |]. cbn [hash_core_loop]. apply IH.
  unfold u32. by apply Z.mod_pos_bound.
Qed.

Lemma hash_core_range key : 0 <= hash_core key < 2 ^ 32.
Proof. by apply hash_core_loop_range. Qed.

(** Keys compared by a projection and hashed through it. *)
Lemma projection_key_ok {K B : Type} `{EqDecision B} `{HashKey K} (f : K -> B) (h : B -> Z) :
  (forall k k', compare k k' = bool_decide (f k = f k')) -> (forall k, hash k = h (f k)) ->
  (forall k, 0 <= hash k < 2 ^ 32) -> HashKeyOk K (fun _ => True).
Proof.
  intros Hc Hh Hr.
  split; intros *; rewrite ?Hc, ?bool_decide_eq_true; try done; try congruence.
  all: idtac.
Qed.

Definition mac_key : HashKey bytes := {| compare := compare_mac; hash := hash_mac |}.
Definition uint32_key : HashKey Z := {| compare := compare_uint32; hash := hash_uint32 |}.
Definition string_key : HashKey bytes := {| compare := compare_string; hash := hash_string |}.
Definition datapath_id_key {host : Host} : HashKey Z :=
  {| compare := compare_datapath_id; hash := hash_datapath_id |}.

Lemma mac_key_ok : @HashKeyOk bytes mac_key (fun _ => True).
Proof.
  apply (projection_key_ok (H := mac_key) (take 6) hash_core); [done | done |].
  intros k. apply hash_core_range.
Qed.

Lemma string_key_ok : @HashKeyOk bytes string_key (fun _ => True).
Proof.
  apply (projection_key_ok (H := string_key) c_string hash_core); [done | done |].
  intros k. apply hash_core_range.
Qed.

Lemma eqb_bool_decide (x y : Z) : (x =? y) = bool_decide (x = y).
Proof. destruct (Z.eqb_spec x y) as [-> |]; symmetry; [by apply bool_decide_eq_true_2 | by apply bool_decide_eq_false_2]. Qed.

Lemma uint32_key_ok : @HashKeyOk Z uint32_key (fun _ => True).
Proof.
  apply (projection_key_ok (H := uint32_key) (fun x => x) hash_uint32); [by intros; apply eqb_bool_decide | done |].
  intros k. cbn. unfold hash_uint32. pose proof (Z.mod_pos_bound k UINT32_MAX eq_refl) as Hk.
  unfold UINT32_MAX in *. lia.
Qed.

Lemma datapath_id_key_ok {host : Host} : @HashKeyOk Z datapath_id_key (fun _ => True).
Proof.
  apply (projection_key_ok (H := datapath_id_key) (fun x => x) hash_datapath_id);
    [by intros; apply eqb_bool_decide | done |].
  intros k. apply hash_core_range.
Qed.

(** * MAC addresses as numbers *)

Lemma byte_range b : 0 <= byte.unsigned b < 256.
Proof. apply byte.unsigned_range. Qed.

Lemma mac_to_uint64_sum m0 m1 m2 m3 m4 m5 r :
  let u := byte.unsigned in
  mac_to_uint64 (m0 :: m1 :: m2 :: m3 :: m4 :: m5 :: r) =
  Ok (u m0 * 2 ^ 40 + u m1 * 2 ^ 32 + u m2 * 2 ^ 24 + u m3 * 2 ^ 16 + u m4 * 2 ^ 8 + u m5).
Proof.
  pose proof (byte_range m0); pose proof (byte_range m1); pose proof (byte_range m2).
  pose proof (byte_range m3); pose proof (byte_range m4); pose proof (byte_range m5).
  cbv zeta. unfold mac_to_uint64, u64. rewrite !Z.shiftl_mul_pow2 by lia.
  rewrite (Z.mod_small (byte.unsigned m0 * _)), (Z.mod_small (byte.unsigned m1 * _)),
    (Z.mod_small (byte.unsigned m2 * _)), (Z.mod_small (byte.unsigned m3 * _)),
    (Z.mod_small (byte.unsigned m4 * _)) by lia.
  rewrite Z.mod_small by lia. done.
Qed.

Lemma le_combine_cons b l : le_combine (b :: l) = byte.unsigned b + le_combine l * 2 ^ 8.
Proof. apply lor_shiftl; [done | apply byte_range]. Qed.

Lemma mac_to_uint64_decode x : length x = 6%nat -> mac_to_uint64 x = Ok (be_decode x).
Proof.
  intros Hx. do 6 (destruct x as [| ? x]; [discriminate Hx |]). destruct x; [| discriminate Hx].
  rewrite mac_to_uint64_sum. f_equal. unfold be_decode. cbn [rev app].
  rewrite !le_combine_cons. change (le_combine []) with 0. lia.
Qed.

(** [mac_to_uint64] reads a MAC address as the big-endian number of its
    six bytes, which is below 2^48; two addresses have the same number exactly
    when [compare_mac] finds them equal. *)
Theorem mac_to_uint64_injective x y :
  length x = 6%nat -> length y = 6%nat ->
  mac_to_uint64 x = Ok (be_decode x) /\ 0 <= be_decode x < 2 ^ 48 /\
  (mac_to_uint64 x = mac_to_uint64 y <-> compare_mac x y = true).
Proof.
  intros Hx Hy. rewrite !mac_to_uint64_decode by done. split; [done |]. split.
  { pose proof (be_decode_bound x) as B. unfold blen in B. by rewrite Hx in B. }
  unfold compare_mac. rewrite bool_decide_eq_true, !take_ge by lia. split; [| by intros ->].
  intros [= E]. rewrite <- (be_encode_decode x), <- (be_encode_decode y), E. by rewrite Hx, Hy.
Qed.

Lemma mac_to_uint64_injective_witness :
  mac_to_uint64 [Byte.x00; Byte.x00; Byte.x00; Byte.x00; Byte.x01; Byte.x02] = Ok 258.
Proof.
  exact (proj1 (mac_to_uint64_injective [Byte.x00; Byte.x00; Byte.x00; Byte.x00; Byte.x01; Byte.x02]
    [Byte.x00; Byte.x00; Byte.x00; Byte.x00; Byte.x01; Byte.x02] eq_refl eq_refl)).
Defined.
