(* ===== verification/Management.v ===== *)
(** management_interface.c and management_service_interface.c: the requests that
    every process answers, and those that it hands on to its program.

    A request is its bytes; the context handle of the messenger says where the
    reply goes.  What a handler of the program is called with is logged.  The
    messenger, the clock, the log and the counters are an interface. *)

From Stdlib Require Import ZArith Lia Bool.
From coqutil Require Import Byte.
From stdpp Require Import base list.
From S2P Require Import Prelude Memory StateMonad Utility.

Record messenger_context_handle : Type := ContextHandle { context_transaction_id : Z; context_service_name : bytes }.

(** * What the interface asks of the rest

    [clock_gettime] is [None] when it fails.  [foreach_stat] gives the keys and
    the values of the counters, in order. *)
Class Managed (W : Type) : Type := {
  get_trema_name : M (S := W) bytes;
  add_message_requested_callback : bytes -> M (S := W) bool;
  delete_message_requested_callback : bytes -> M (S := W) bool;
  send_reply_message : messenger_context_handle -> Z -> bytes -> M (S := W) bool;
  clock_gettime : M (S := W) (option (Z * Z));
  valid_logging_level : bytes -> M (S := W) bool;
  set_logging_level : bytes -> M (S := W) bool;
  foreach_stat : M (S := W) (list (bytes * Z))
}.

(** * Data *)

Definition MESSENGER_MANAGEMENT_REQUEST : Z := 0x20.
Definition MESSENGER_MANAGEMENT_REPLY : Z := 0x21.

Definition MANAGEMENT_REQUEST_SUCCEEDED : Z := 0.
Definition MANAGEMENT_REQUEST_FAILED : Z := 1.

Definition MANAGEMENT_ECHO_REQUEST : Z := 0.
Definition MANAGEMENT_ECHO_REPLY : Z := 1.
Definition MANAGEMENT_SET_LOGGING_LEVEL_REQUEST : Z := 2.
Definition MANAGEMENT_SET_LOGGING_LEVEL_REPLY : Z := 3.
Definition MANAGEMENT_SHOW_STATS_REQUEST : Z := 4.
Definition MANAGEMENT_SHOW_STATS_REPLY : Z := 5.
Definition MANAGEMENT_APPLICATION_REQUEST : Z := 6.
Definition MANAGEMENT_APPLICATION_REPLY : Z := 7.

Definition MESSENGER_SERVICE_NAME_LENGTH : Z := 32.
Definition LOGGING_LEVEL_STR_LENGTH : Z := 12.
Definition STAT_KEY_LENGTH : Z := 256.

Definition sizeof_management_request_header : Z := 6.
Definition sizeof_management_echo_request : Z := 14.
Definition sizeof_management_echo_reply : Z := 24.
Definition sizeof_management_set_logging_level_request : Z := sizeof_management_request_header + LOGGING_LEVEL_STR_LENGTH.
Definition sizeof_management_set_logging_level_reply : Z := 8.
Definition sizeof_management_show_stats_request : Z := 6.
Definition offsetof_management_show_stats_reply_entries : Z := 8.
Definition offsetof_management_application_request_data : Z := 10.
Definition sizeof_stat_entry : Z := STAT_KEY_LENGTH + 8.

(** A call of the handler of the program. *)
Record application_call : Type := ApplicationCall {
  call_handle : messenger_context_handle;
  call_application_id : Z;
  call_data : option bytes;
  call_length : Z;
  called_function : Z;
  call_user_data : Z
}.

(** The static variables, and the log of the calls. *)
Record management : Type := Management {
  initialized : bool;
  application_callback : option Z;
  application_user_data : Z;
  application_calls : list application_call
}.

Definition zero_management : management := Management false None 0 [].

(** * Replies *)

Section Replies.
Context {host : Host}.

Definition reply_header (type status length : Z) : bytes :=
  host_encode 2 (htons type) ++ host_encode 1 status ++ zeros 1 ++ host_encode 4 (htonl length).

Definition create_management_application_reply (status application_id : Z) (data : option bytes) : bytes :=
  let data := default [] data in
  host_encode 2 (htons MANAGEMENT_APPLICATION_REPLY) ++ host_encode 1 status ++ zeros 1
    ++ host_encode 4 (htonl (12 + blen data)) ++ host_encode 4 (htonl application_id) ++ data.

Definition get_management_service_name (service_name : option bytes) : res bytes :=
  match service_name with
  | None => Fault Died
  | Some service_name =>
    if blen service_name =? 0 then Fault Died
    else if MESSENGER_SERVICE_NAME_LENGTH - 2 <=? blen service_name then Fault Died
    else Ok (service_name ++ map byte.of_Z [46; 109])
  end.

(** What [append_stat] makes of a counter: the key with the zeros behind it. *)
Definition append_stat (stats : list bytes) (stat : bytes * Z) : list bytes :=
  stats ++ [take (Z.to_nat STAT_KEY_LENGTH) (stat.1 ++ zeros (Z.to_nat STAT_KEY_LENGTH)) ++ host_encode 8 (htonll stat.2)].
End Replies.

(** * Requests *)

Section Requests.
Context {host : Host} {W : Type} `{Managed W}.
Implicit Types (data request : bytes) (handle : messenger_context_handle).
#[local] Abbreviation M := (M (S := management * W)).

Definition get {A} (f : management -> A) : M A := fun s => Ok (f s.1, s).
Definition put (f : management -> management) : M unit := fun s => Ok (tt, (f s.1, s.2)).
Definition ext {A} (x : StateMonad.M (S := W) A) : M A := fun s => let* (a, w) := x s.2 in Ok (a, (s.1, w)).

Definition send_management_application_reply (handle : option messenger_context_handle) (reply : option bytes) : M bool :=
  match handle, reply with
  | Some handle, Some reply =>
    let! length := lift (ld_ntoh 4 reply 4) in
    let! reply := lift (ld_range reply 0 length) in
    ext (send_reply_message handle MESSENGER_MANAGEMENT_REPLY reply)
  | _, _ => ret false
  end.

(** The type and the length in the header are asserted. *)
Definition assert_request request (type : Z) (ok : Z -> bool) : M unit :=
  let! request_type := lift (ld_ntoh 2 request 0) in
  let! _ := lift (assert (request_type =? type)) in
  let! length := lift (ld_ntoh 4 request 2) in
  lift (assert (ok length)).

Definition handle_echo_request handle request : M unit :=
  let! _ := assert_request request MANAGEMENT_ECHO_REQUEST (Z.eqb sizeof_management_echo_request) in
  let! sent_at := lift (ld_bytes request 6 8) in
  let! now := ext clock_gettime in
  let (tv_sec, tv_nsec) := default (0, 0) now in
  let status := match now with Some _ => MANAGEMENT_REQUEST_SUCCEEDED | None => MANAGEMENT_REQUEST_FAILED end in
  let! _ := ext (send_reply_message handle MESSENGER_MANAGEMENT_REPLY
    (reply_header MANAGEMENT_ECHO_REPLY status sizeof_management_echo_reply ++ sent_at
      ++ host_encode 4 (htonl (u32 tv_sec)) ++ host_encode 4 (htonl (u32 tv_nsec)))) in
  ret tt.

(** The last byte of the level is set to zero. *)
Definition handle_set_logging_level_request handle request : M unit :=
  let! _ := assert_request request MANAGEMENT_SET_LOGGING_LEVEL_REQUEST (Z.eqb sizeof_management_set_logging_level_request) in
  let! request := lift (st8 request (6 + LOGGING_LEVEL_STR_LENGTH - 1) 0) in
  let! level := lift (ld_bytes request 6 (Z.to_nat LOGGING_LEVEL_STR_LENGTH)) in
  let! valid := ext (valid_logging_level (c_string level)) in
  let! ok := if valid : bool then ext (set_logging_level (c_string level)) else ret false in
  let status := if ok : bool then MANAGEMENT_REQUEST_SUCCEEDED else MANAGEMENT_REQUEST_FAILED in
  let! _ := ext (send_reply_message handle MESSENGER_MANAGEMENT_REPLY
    (reply_header MANAGEMENT_SET_LOGGING_LEVEL_REPLY status sizeof_management_set_logging_level_reply)) in
  ret tt.

(** [n_stats] is an [unsigned int]. *)
Definition handle_show_stats_request handle request : M unit :=
  let! _ := assert_request request MANAGEMENT_SHOW_STATS_REQUEST (Z.eqb sizeof_management_show_stats_request) in
  let! counters := ext foreach_stat in
  let stats := fold_left append_stat counters [] in
  let n_stats := u32 (Z.of_nat (length stats)) in
  let n_max_entries := u32 (400000 - 256) / sizeof_stat_entry in
  let reply :=
    if n_stats <=? n_max_entries then
      reply_header MANAGEMENT_SHOW_STATS_REPLY MANAGEMENT_REQUEST_SUCCEEDED
        (u32 (offsetof_management_show_stats_reply_entries + sizeof_stat_entry * n_stats)) ++ concat stats
    else
      reply_header MANAGEMENT_SHOW_STATS_REPLY MANAGEMENT_REQUEST_FAILED offsetof_management_show_stats_reply_entries in
  let! _ := ext (send_reply_message handle MESSENGER_MANAGEMENT_REPLY reply) in
  ret tt.

Definition set_management_application_request_handler (callback : option Z) (user_data : Z) : M unit :=
  put (fun m => Management (initialized m) callback user_data (application_calls m)).

Definition handle_application_request handle request : M unit :=
  let! _ := assert_request request MANAGEMENT_APPLICATION_REQUEST (Z.leb offsetof_management_application_request_data) in
  let! callback := get application_callback in
  match callback with
  | Some function =>
    let! request_length := lift (ld_ntoh 4 request 2) in
    let length := request_length - offsetof_management_application_request_data in
    let! p := lift (if 0 <? length then let* p := ld_range request offsetof_management_application_request_data length in Ok (Some p) else Ok None) in
    let! application_id := lift (ld_ntoh 4 request 6) in
    put (fun m => Management (initialized m) (application_callback m) (application_user_data m)
      (application_calls m ++ [ApplicationCall handle application_id p length function (application_user_data m)]))
  | None =>
    let! application_id := lift (ld_ntoh 4 request 6) in
    let! _ := send_management_application_reply (Some handle) (Some (create_management_application_reply MANAGEMENT_REQUEST_FAILED application_id None)) in
    ret tt
  end.

Definition handle_management_request handle data : M unit :=
  let! _ := lift (assert (sizeof_management_request_header <=? blen data)) in
  let! length := lift (ld_ntoh 4 data 2) in
  let! _ := lift (assert (blen data =? length)) in
  let! type := lift (ld_ntoh 2 data 0) in
  if type =? MANAGEMENT_ECHO_REQUEST then
    if negb (blen data =? sizeof_management_echo_request) then ret tt else handle_echo_request handle data
  else if type =? MANAGEMENT_SET_LOGGING_LEVEL_REQUEST then
    if negb (blen data =? sizeof_management_set_logging_level_request) then ret tt else handle_set_logging_level_request handle data
  else if type =? MANAGEMENT_SHOW_STATS_REQUEST then
    if negb (blen data =? sizeof_management_show_stats_request) then ret tt else handle_show_stats_request handle data
  else if type =? MANAGEMENT_APPLICATION_REQUEST then
    if blen data <? offsetof_management_application_request_data then ret tt else handle_application_request handle data
  else ret tt.

Definition handle_request handle (tag : Z) data : M unit :=
  if tag =? MESSENGER_MANAGEMENT_REQUEST then
    if blen data <? sizeof_management_request_header then ret tt else handle_management_request handle data
  else ret tt.

Definition init_management_interface : M bool :=
  let! done := get initialized in
  if done : bool then ret false
  else
    let! trema_name := ext get_trema_name in
    let! name := lift (get_management_service_name (Some trema_name)) in
    let! _ := ext (add_message_requested_callback name) in
    let! _ := put (fun m => Management true (application_callback m) (application_user_data m) (application_calls m)) in
    ret true.

Definition finalize_management_interface : M bool :=
  let! done := get initialized in
  if negb done then ret false
  else
    let! trema_name := ext get_trema_name in
    let! name := lift (get_management_service_name (Some trema_name)) in
    let! _ := ext (delete_message_requested_callback name) in
    let! _ := put (fun m => Management false (application_callback m) (application_user_data m) (application_calls m)) in
    ret true.
End Requests.
