(* ===== verification/Stat.v ===== *)
(** stat.c: counters by name.

    The entries live on a heap; the table has pointers to them by their keys.
    The mutex of the table is not modelled: each function is atomic. *)

From Stdlib Require Import ZArith Lia Bool.
From Stdlib Require Strings.Byte.
From coqutil Require Import Byte.
From stdpp Require Import base list gmap.
From S2P Require Import Prelude Memory HashTable Utility.

Definition STAT_KEY_LENGTH : Z := 256.

Record stat_entry : Type := StatEntry { stat_key : bytes; stat_value : Z }.

Record stat_state : Type := StatState {
  stats : option (hash_table bytes (option positive));
  stat_heap : gmap positive stat_entry
}.

Implicit Types (st : stat_state) (key k : bytes).

#[local] Existing Instances string_key string_key_ok.
Abbreviation wf_stats := (wf_table (K := bytes) (V := option positive) (ok := fun _ => True)).

(** [assert( stats != NULL )] *)
Definition the_stats st : res (hash_table bytes (option positive)) :=
  match stats st with Some t => Ok t | None => Fault AssertFailed end.

Definition load_stat st (a : positive) : res stat_entry :=
  match stat_heap st !! a with Some e => Ok e | None => Fault OutOfBounds end.

Definition create_stats_table st : res stat_state :=
  match stats st with
  | Some _ => Fault AssertFailed
  | None => Ok (StatState (Some create_hash) (stat_heap st))
  end.

(** An entry is deleted by its key and freed. *)
Definition remove_stat st (t : hash_table bytes (option positive)) key : res (stat_state * hash_table bytes (option positive)) :=
  let* (v, t) := delete_hash_entry None t key in
  Ok (StatState (Some t) (match v with Some a => delete a (stat_heap st) | None => stat_heap st end), t).

Fixpoint delete_stats_loop (fuel : nat) st (t : hash_table bytes (option positive)) (iter : hash_iterator (K := bytes) (V := option positive)) : res stat_state :=
  match fuel with
  | O => Fault OutOfFuel
  | S fuel =>
    let* (e, iter) := iterate_hash_next t iter in
    match e with
    | None => Ok st
    | Some e =>
      let* (st, t) := remove_stat st t (HashTable.key e) in
      delete_stats_loop fuel st t iter
    end
  end.

Definition delete_stats_table st : res stat_state :=
  let* t := the_stats st in
  let* iter := init_hash_iterator t in
  let* st := delete_stats_loop (S (size (stat_heap st))) st t iter in
  let* t := the_stats st in
  let* _ := delete_hash t in
  Ok (StatState None (stat_heap st)).

Definition finalize_stat st : res (bool * stat_state) :=
  let* st := delete_stats_table st in Ok (true, st).

Definition init_stat st : res (bool * stat_state) :=
  let* st := match stats st with Some _ => let* (_, st) := finalize_stat st in Ok st | None => Ok st end in
  let* st := create_stats_table st in
  Ok (true, st).

Definition add_stat_entry st key : res (bool * stat_state) :=
  let* t := the_stats st in
  let* p := lookup_hash_entry None t key in
  match p with
  | Some _ => Ok (false, st)
  | None =>
    let a := fresh (dom (stat_heap st)) in
    let e := StatEntry (take (Z.to_nat (STAT_KEY_LENGTH - 1)) (c_string key)) 0 in
    let* (_, t) := insert_hash_entry None t (stat_key e) (Some a) in
    Ok (true, StatState (Some t) (<[a := e]> (stat_heap st)))
  end.

Definition increment_stat st key : res stat_state :=
  let* t := the_stats st in
  let* p := lookup_hash_entry None t key in
  let* (added, st) := match p with Some _ => Ok (true, st) | None => add_stat_entry st key end in
  if negb added then Ok st
  else
    let* t := the_stats st in
    let* p := match p with Some _ => Ok p | None => lookup_hash_entry None t key end in
    match p with
    | None => Fault AssertFailed
    | Some a =>
      let* e := load_stat st a in
      Ok (StatState (stats st) (<[a := StatEntry (stat_key e) (u64 (stat_value e + 1))]> (stat_heap st)))
    end.

Fixpoint reset_loop (fuel : nat) st (t : hash_table bytes (option positive)) (iter : hash_iterator (K := bytes) (V := option positive)) : res stat_state :=
  match fuel with
  | O => Fault OutOfFuel
  | S fuel =>
    let* (e, iter) := iterate_hash_next t iter in
    match e with
    | None => Ok st
    | Some e =>
      match value e with
      | None => reset_loop fuel st t iter
      | Some a =>
        let* entry := load_stat st a in
        let* (st, t) := remove_stat st t (stat_key entry) in
        reset_loop fuel st t iter
      end
    end
  end.

Definition reset_stats st : res stat_state :=
  let* t := the_stats st in
  let* iter := init_hash_iterator t in
  reset_loop (S (size (stat_heap st))) st t iter.

Fixpoint foreach_stat_loop {U} (fuel : nat) st (t : hash_table bytes (option positive)) (iter : hash_iterator (K := bytes) (V := option positive)) (function : bytes -> Z -> U -> U) (user_data : U) : res U :=
  match fuel with
  | O => Fault OutOfFuel
  | S fuel =>
    let* (e, iter) := iterate_hash_next t iter in
    match e with
    | None => Ok user_data
    | Some e =>
      match value e with
      | None => foreach_stat_loop fuel st t iter function user_data
      | Some a =>
        let* entry := load_stat st a in
        foreach_stat_loop fuel st t iter function (function (stat_key entry) (stat_value entry) user_data)
      end
    end
  end.

Definition foreach_stat {U} st (function : bytes -> Z -> U -> U) (user_data : U) : res U :=
  let* t := the_stats st in
  let* iter := init_hash_iterator t in
  foreach_stat_loop (S (size (stat_heap st))) st t iter function user_data.

(** The statics before [init_stat]. *)
Definition zero_stat : stat_state := StatState None ∅.

(** * Specification: a map from names to counts *)

#[export] Instance byte_countable : Countable byte := inj_countable Strings.Byte.to_N Strings.Byte.of_N Strings.Byte.of_to_N.

Inductive stat_call : Type :=
| AddStat key
| IncrementStat key
| ResetStats.

(** A name that fits in an entry with its terminator. *)
Definition stat_call_ok (c : stat_call) : Prop :=
  match c with AddStat key | IncrementStat key => blen (c_string key) < STAT_KEY_LENGTH | ResetStats => True end.

Definition run_stat_call st (c : stat_call) : res (bool * stat_state) :=
  match c with
  | AddStat key => add_stat_entry st key
  | IncrementStat key => let* st := increment_stat st key in Ok (true, st)
  | ResetStats => let* st := reset_stats st in Ok (true, st)
  end.

Fixpoint run_stat_calls st (cs : list stat_call) : res (list bool * stat_state) :=
  match cs with
  | [] => Ok ([], st)
  | c :: cs =>
    let* (r, st) := run_stat_call st c in
    let* (rs, st) := run_stat_calls st cs in
    Ok (r :: rs, st)
  end.

Definition spec_stat_call (m : gmap bytes Z) (c : stat_call) : bool * gmap bytes Z :=
  match c with
  | AddStat key => match m !! c_string key with Some _ => (false, m) | None => (true, <[c_string key := 0]> m) end
  | IncrementStat key => (true, <[c_string key := u64 (default 0 (m !! c_string key) + 1)]> m)
  | ResetStats => (true, ∅)
  end.

Fixpoint spec_stat_calls (m : gmap bytes Z) (cs : list stat_call) : list bool * gmap bytes Z :=
  match cs with
  | [] => ([], m)
  | c :: cs =>
    let '(r, m) := spec_stat_call m c in
    let '(rs, m) := spec_stat_calls m cs in
    (r :: rs, m)
  end.

(** * Representation *)

Lemma c_string_idem k : c_string (c_string k) = c_string k.
Proof. induction k as [| b k IH]; [done |]. cbn. destruct (decide (b = zero)); [done |]. cbn. rewrite decide_False by done. by rewrite IH. Qed.

Lemma string_compare k1 k2 : compare k1 k2 = true <-> c_string k1 = c_string k2.
Proof. cbn. unfold compare_string. by rewrite bool_decide_eq_true. Qed.

Record rep st (m : gmap bytes Z) t : Prop := {
  r_stats : stats st = Some t;
  r_wf : wf_stats t;
  r_some k p : table_map t k = Some p ->
    exists a e, p = Some a /\ stat_heap st !! a = Some e /\ stat_key e = c_string k /\ m !! c_string k = Some (stat_value e);
  r_none k : table_map t k = None -> m !! c_string k = None;
  r_keys k v : m !! k = Some v -> c_string k = k;
  r_heap a e : stat_heap st !! a = Some e -> table_map t (stat_key e) = Some (Some a) /\ c_string (stat_key e) = stat_key e
}.

Lemma stat_lookup st m t k : rep st m t ->
  match m !! c_string k with
  | Some v => exists a e, lookup_hash_entry None t k = Ok (Some a) /\ stat_heap st !! a = Some e /\ stat_key e = c_string k /\ stat_value e = v
  | None => lookup_hash_entry None t k = Ok None
  end.
Proof.
  intros H. rewrite (lookup_ok None t k (r_wf _ _ _ H)). destruct (table_map t k) as [p |] eqn:E; cbn [default].
  - destruct (r_some _ _ _ H _ _ E) as (a & e & -> & Ha & Hk & ->). by exists a, e.
  - by rewrite (r_none _ _ _ H _ E).
Qed.

Lemma create_rep heap : heap = ∅ -> exists st, create_stats_table (StatState None heap) = Ok st /\ rep st ∅ create_hash.
Proof.
  intros ->. eexists. split; [reflexivity |]. destruct (create_ok (K := bytes) (V := option positive) (ok := fun _ => True) default_hash_size ltac:(done)) as [Hw He].
  split; cbn; try done.
  - intros k p. unfold create_hash. by rewrite He.
Qed.

(** ** Counting *)

Lemma rep_increment st m t a e : rep st m t -> stat_heap st !! a = Some e ->
  rep (StatState (stats st) (<[a := StatEntry (stat_key e) (u64 (stat_value e + 1))]> (stat_heap st))) (<[stat_key e := u64 (stat_value e + 1)]> m) t.
Proof.
  intros H Ha. destruct (r_heap _ _ _ H _ _ Ha) as [Hta Hka]. split; cbn.
  - apply (r_stats _ _ _ H).
  - apply (r_wf _ _ _ H).
  - intros k p Hk. destruct (r_some _ _ _ H _ _ Hk) as (b & f & -> & Hb & Hkb & Hm). destruct (decide (a = b)) as [<- | Hne].
    + assert (e = f) as <- by congruence. exists a, (StatEntry (stat_key e) (u64 (stat_value e + 1))). rewrite lookup_insert_eq, Hkb, lookup_insert_eq. by split_and!.
    + exists b, f. rewrite lookup_insert_ne by done. split_and!; try done. rewrite lookup_insert_ne; [done |]. intros E.
      apply Hne. destruct (r_heap _ _ _ H _ _ Hb) as [Htb _]. rewrite Hkb, <- E in Htb. congruence.
  - intros k Hk. rewrite lookup_insert_ne; [by apply (r_none _ _ _ H) |]. intros E.
    rewrite (table_map_cong t k (stat_key e)) in Hta; [congruence | apply (r_wf _ _ _ H) | done |]. apply string_compare. congruence.
  - intros k v [[<- <-] | [_ Hv]]%lookup_insert_Some; [done | by apply (r_keys _ _ _ H) in Hv].
  - intros b f [[<- <-] | [_ Hb]]%lookup_insert_Some; [done | by apply (r_heap _ _ _ H)].
Qed.

Lemma add_stat_ok st m t key : rep st m t -> blen (c_string key) < STAT_KEY_LENGTH ->
  exists st' t', add_stat_entry st key = Ok ((spec_stat_call m (AddStat key)).1, st') /\ rep st' (spec_stat_call m (AddStat key)).2 t'.
Proof.
  intros H Hlen. unfold add_stat_entry, the_stats. rewrite (r_stats _ _ _ H). bind_ok.
  pose proof (stat_lookup _ _ _ key H) as Hl. cbn [spec_stat_call]. destruct (m !! c_string key) as [v |] eqn:Em.
  { destruct Hl as (a & e & -> & _). bind_ok. by exists st, t. }
  rewrite Hl. bind_ok. set (a := fresh _). cbn [stat_key].
  assert (Hkey : take (Z.to_nat (STAT_KEY_LENGTH - 1)) (c_string key) = c_string key) by (apply take_ge; unfold blen in Hlen; lia). rewrite Hkey.
  destruct (insert_ok None t (c_string key) (Some a) (r_wf _ _ _ H) I) as (t' & -> & Hw' & _ & Hmap). bind_ok.
  eexists _, t'. split; [reflexivity |]. assert (Ha : stat_heap st !! a = None) by (apply not_elem_of_dom, is_fresh).
  split; cbn; try done.
  - intros k p. rewrite Hmap. destruct (compare k (c_string key)) eqn:Ec.
    + apply string_compare in Ec. rewrite c_string_idem in Ec. intros [= <-]. exists a, (StatEntry (c_string key) 0).
      rewrite Ec, !lookup_insert_eq. by split_and!.
    + intros Hk. destruct (r_some _ _ _ H _ _ Hk) as (b & e & -> & Hb & Hkb & Hm). exists b, e. rewrite lookup_insert_ne by congruence.
      split_and!; try done. rewrite lookup_insert_ne; [done |]. intros E. apply not_true_iff_false in Ec. apply Ec, string_compare. by rewrite c_string_idem.
  - intros k. rewrite Hmap. destruct (compare k (c_string key)) eqn:Ec; [done |]. intros Hk. rewrite lookup_insert_ne; [by apply (r_none _ _ _ H) |].
    intros E. apply not_true_iff_false in Ec. apply Ec, string_compare. by rewrite c_string_idem.
  - intros k v [[<- <-] | [_ Hv]]%lookup_insert_Some; [apply c_string_idem | by apply (r_keys _ _ _ H) in Hv].
  - intros b e [[<- <-] | [Hne Hb]]%lookup_insert_Some; cbn [stat_key]; rewrite Hmap.
    + split; [| apply c_string_idem]. by rewrite (proj2 (string_compare _ _) eq_refl).
    + destruct (r_heap _ _ _ H _ _ Hb) as [Htb Hkb]. split; [| done]. destruct (compare (stat_key e) (c_string key)) eqn:Ec; [| done].
      apply string_compare in Ec. rewrite c_string_idem, Hkb in Ec. destruct (r_some _ _ _ H _ _ Htb) as (? & ? & _ & _ & _ & Hme). rewrite Hkb, Ec in Hme. congruence.
Qed.

Lemma increment_ok st m t key : rep st m t -> blen (c_string key) < STAT_KEY_LENGTH ->
  exists st' t', increment_stat st key = Ok st' /\ rep st' (spec_stat_call m (IncrementStat key)).2 t'.
Proof.
  intros H Hlen. unfold increment_stat. unfold the_stats at 1. rewrite (r_stats _ _ _ H). bind_ok.
  pose proof (stat_lookup _ _ _ key H) as Hl. cbn [spec_stat_call]. destruct (m !! c_string key) as [v |] eqn:Em.
  - destruct Hl as (a & e & -> & Ha & Hk & <-). bind_ok. cbn [negb]. unfold the_stats. rewrite (r_stats _ _ _ H). bind_ok.
    unfold load_stat. rewrite Ha. bind_ok. eexists _, t. split; [reflexivity |]. cbn [default]. rewrite <- Hk. rewrite <- (r_stats _ _ _ H). by apply rep_increment.
  - rewrite Hl. bind_ok. destruct (add_stat_ok st m t key H Hlen) as (st1 & t1 & -> & H1). cbn [spec_stat_call] in *. rewrite Em in *. cbn [fst snd] in *. bind_ok.
    cbn [negb]. unfold the_stats. rewrite (r_stats _ _ _ H1). bind_ok. pose proof (stat_lookup _ _ _ key H1) as Hl1. rewrite lookup_insert_eq in Hl1.
    destruct Hl1 as (a & e & -> & Ha & Hk & Hv). bind_ok. unfold load_stat. rewrite Ha. bind_ok. eexists _, t1. split; [reflexivity |].
    pose proof (rep_increment _ _ _ _ _ H1 Ha) as H2. rewrite Hk, Hv, insert_insert_eq in H2. by rewrite Hk, Hv, <- (r_stats _ _ _ H1).
Qed.

(** ** Removing *)

Lemma remove_ok st m t k : rep st m t ->
  exists st' t' v, remove_stat st t k = Ok (st', t') /\ delete_hash_entry None t k = Ok (v, t') /\ rep st' (delete (c_string k) m) t' /\
    forall k', table_map t' k' = if compare k' k then None else table_map t k'.
Proof.
  intros H. unfold remove_stat. destruct (delete_ok None t k (r_wf _ _ _ H) I) as (t' & E & Hw' & _ & Hmap). rewrite E. bind_ok.
  eexists _, t', _. split; [reflexivity |]. split; [reflexivity |]. split; [| exact Hmap].
  assert (Hkept : forall b f, stat_heap st !! b = Some f -> stat_key f <> c_string k -> table_map t' (stat_key f) = Some (Some b) /\ c_string (stat_key f) = stat_key f).
  { intros b f Hb Hne. destruct (r_heap _ _ _ H _ _ Hb) as [Htb Hkb]. split; [| done]. rewrite Hmap. destruct (compare (stat_key f) k) eqn:Ec; [| done].
    apply string_compare in Ec. by rewrite Hkb in Ec. }
  split; cbn; try done.
  - intros k2 p. rewrite Hmap. destruct (compare k2 k) eqn:Ec; [done |]. apply not_true_iff_false in Ec. rewrite string_compare in Ec. intros Hk2.
    destruct (r_some _ _ _ H _ _ Hk2) as (b & e & -> & Hb & Hkb & Hm). exists b, e. split; [done |]. split; [| split; [done | by rewrite lookup_delete_ne by congruence]].
    destruct (table_map t k) as [[a |] |] eqn:Et; cbn; try done.
    destruct (r_some _ _ _ H _ _ Et) as (a' & f & [= <-] & Ha & Hka & _). rewrite lookup_delete_ne; [done |]. intros <-. rewrite Ha in Hb. injection Hb as <-. congruence.
  - intros k2. rewrite Hmap. destruct (compare k2 k) eqn:Ec; [apply string_compare in Ec; by rewrite Ec, lookup_delete_eq |].
    intros Hn%(r_none _ _ _ H). apply lookup_delete_None. by right.
  - intros k2 v [_ Hv]%lookup_delete_Some. by apply (r_keys _ _ _ H) in Hv.
  - intros b f. destruct (table_map t k) as [[a |] |] eqn:Et; cbn.
    + destruct (r_some _ _ _ H _ _ Et) as (a' & e & [= <-] & Ha & Hka & _). intros [Hne Hb]%lookup_delete_Some. apply Hkept; [done |].
      intros Hkf. destruct (r_heap _ _ _ H _ _ Hb) as [Htb _]. destruct (r_heap _ _ _ H _ _ Ha) as [Hta _]. rewrite Hkf, <- Hka in Htb. congruence.
    + by destruct (r_some _ _ _ H _ _ Et) as (? & ? & ? & _).
    + intros Hb. apply Hkept; [done |]. intros Hkf. destruct (r_heap _ _ _ H _ _ Hb) as [Htb Hkb].
      rewrite (table_map_cong t (stat_key f) k) in Et; [congruence | apply (r_wf _ _ _ H) | done |]. apply string_compare. congruence.
Qed.

(** An entry that an iteration has still to return. *)
Definition in_table (t : hash_table bytes (option positive)) (e : hash_entry bytes (option positive)) : Prop :=
  table_map t (HashTable.key e) = Some (value e).

Abbreviation iterating_stats := (iterating (K := bytes) (V := option positive) (ok := fun _ => True)).

(** The entry just returned is removed by a key that compares equal. *)
Lemma remove_step st m t iter p e k l : rep st m t -> iterating_stats t iter -> it_bucket_index iter = Some p ->
  slot t (HashTable.key e) = bucket_at p -> remaining t iter = l -> distinct (e :: l) -> Forall (in_table t) l -> c_string k = c_string (HashTable.key e) ->
  exists st' t', remove_stat st t k = Ok (st', t') /\ rep st' (delete (c_string (HashTable.key e)) m) t' /\ iterating_stats t' iter /\
    remaining t' iter = l /\ Forall (in_table t') l.
Proof.
  intros H Hit Hp Hs <- [Hd _] Hl Hk. destruct (remove_ok st m t k H) as (st' & t' & v & E & Ed & H' & Hmap). exists st', t'.
  assert (Hsk : slot t k = bucket_at p) by (rewrite <- Hs; apply slot_eq; [done | by apply string_compare]).
  destruct (delete_iterating None t k v t' iter p (r_wf _ _ _ H) (r_wf _ _ _ H') Hit Hp Hsk Ed) as [Hit' Hr']. rewrite <- Hk. split_and!; try done.
  rewrite Forall_forall in *. intros e' He'. unfold in_table. rewrite Hmap. specialize (Hd e' He'). specialize (Hl e' He').
  destruct (compare (HashTable.key e') k) eqn:Ec; [| done]. exfalso. apply not_true_iff_false in Hd. apply Hd. apply string_compare. apply string_compare in Ec. congruence.
Qed.

(** What is left after the entries [l] are removed. *)
Definition cleared (m m' : gmap bytes Z) (l : list (hash_entry bytes (option positive))) : Prop :=
  m' ⊆ m /\ Forall (fun e => m' !! c_string (HashTable.key e) = None) l.

Lemma cleared_cons m m' e l : cleared (delete (c_string (HashTable.key e)) m) m' l -> cleared m m' (e :: l).
Proof.
  intros [Hsub Hl]. split; [transitivity (delete (c_string (HashTable.key e)) m); [done | apply delete_subseteq] |]. constructor; [| done].
  destruct (m' !! c_string (HashTable.key e)) as [v |] eqn:E; [| done]. apply (lookup_weaken _ _ _ _ E) in Hsub. by rewrite lookup_delete_eq in Hsub.
Qed.

Lemma delete_stats_loop_ok fuel st m t iter l : rep st m t -> iterating_stats t iter -> remaining t iter = l -> distinct l -> Forall (in_table t) l ->
  (length l < fuel)%nat -> exists st' m' t', delete_stats_loop fuel st t iter = Ok st' /\ rep st' m' t' /\ cleared m m' l.
Proof.
  revert st m t iter l. induction fuel as [| fuel IH]; intros st m t iter l H Hit Hr Hd Hl Hf; [lia |]. cbn [delete_stats_loop].
  destruct (iterate_next_ok t iter (r_wf _ _ _ H) Hit) as (e & iter' & -> & Hit' & He). bind_ok. destruct e as [e |].
  2: { assert (l = []) as -> by congruence. exists st, m, t. split_and!; try done. }
  destruct He as (Hr' & _ & p & Hp & Hs). rewrite Hr in Hr'. subst l. rewrite Hr' in *. apply Forall_cons in Hl as [_ Hl].
  destruct (remove_step st m t iter' p e (HashTable.key e) _ H Hit' Hp Hs eq_refl Hd Hl eq_refl) as (st1 & t1 & -> & H1 & Hit1 & Hr1 & Hl1). bind_ok.
  destruct Hd as [_ Hd]. cbn [length] in Hf. destruct (IH st1 _ t1 iter' _ H1 Hit1 Hr1 Hd Hl1) as (st2 & m2 & t2 & -> & H2 & Hc); [lia |].
  exists st2, m2, t2. split_and!; try done. by apply cleared_cons.
Qed.

Lemma reset_loop_ok fuel st m t iter l : rep st m t -> iterating_stats t iter -> remaining t iter = l -> distinct l -> Forall (in_table t) l ->
  (length l < fuel)%nat -> exists st' m' t', reset_loop fuel st t iter = Ok st' /\ rep st' m' t' /\ cleared m m' l.
Proof.
  revert st m t iter l. induction fuel as [| fuel IH]; intros st m t iter l H Hit Hr Hd Hl Hf; [lia |]. cbn [reset_loop].
  destruct (iterate_next_ok t iter (r_wf _ _ _ H) Hit) as (e & iter' & -> & Hit' & He). bind_ok. destruct e as [e |].
  2: { assert (l = []) as -> by congruence. exists st, m, t. split_and!; try done. }
  destruct He as (Hr' & _ & p & Hp & Hs). rewrite Hr in Hr'. subst l. rewrite Hr' in *. apply Forall_cons in Hl as [He Hl].
  destruct (r_some _ _ _ H _ _ He) as (a & f & Ev & Ha & Hk & _). rewrite Ev. unfold load_stat. rewrite Ha. bind_ok.
  destruct (remove_step st m t iter' p e (stat_key f) _ H Hit' Hp Hs eq_refl Hd Hl) as (st1 & t1 & -> & H1 & Hit1 & Hr1 & Hl1); [by rewrite Hk, c_string_idem |]. bind_ok.
  destruct Hd as [_ Hd]. cbn [length] in Hf. destruct (IH st1 _ t1 iter' _ H1 Hit1 Hr1 Hd Hl1) as (st2 & m2 & t2 & -> & H2 & Hc); [lia |].
  exists st2, m2, t2. split_and!; try done. by apply cleared_cons.
Qed.

(** ** The entries of the table *)

Lemma visited_in_table st m t : rep st m t -> Forall (in_table t) (visited t).
Proof.
  intros H. apply Forall_forall. intros e He. apply (visited_map _ _ _ (r_wf _ _ _ H) I). exists e. split_and!; try done. by apply string_compare.
Qed.

Lemma entries_fit st m t : rep st m t -> (length (visited t) <= size (stat_heap st))%nat.
Proof.
  intros H. pose proof (visited_in_table _ _ _ H) as Hin. pose proof (visited_distinct t (r_wf _ _ _ H)) as Hd.
  assert (Hnd : NoDup (value <$> visited t)).
  { induction (visited t) as [| e l IH]; [constructor |]. apply Forall_cons in Hin as [He Hin]. destruct Hd as [Hd Hl]. cbn [fmap list_fmap].
    apply NoDup_cons. split; [| by apply IH]. intros (e' & E & Hin')%list_elem_of_fmap. rewrite Forall_forall in *.
    specialize (Hd e' Hin'). pose proof (Hin e' Hin') as He'. destruct (r_some _ _ _ H _ _ He) as (a & f & Ea & Ha & Hk & _).
    destruct (r_some _ _ _ H _ _ He') as (a' & f' & Ea' & Ha' & Hk' & _). assert (a = a') as <- by congruence. assert (f = f') as <- by congruence.
    apply not_true_iff_false in Hd. apply Hd. apply string_compare. congruence. }
  assert (Hsub : value <$> visited t ⊆ Some <$> (map_to_list (stat_heap st)).*1).
  { intros p (e & -> & He)%list_elem_of_fmap. rewrite Forall_forall in Hin. destruct (r_some _ _ _ H _ _ (Hin e He)) as (a & f & -> & Ha & _).
    apply list_elem_of_fmap. exists a. split; [done |]. apply list_elem_of_fmap. exists (a, f). split; [done |]. by apply elem_of_map_to_list. }
  pose proof (submseteq_length _ _ (NoDup_submseteq _ _ Hnd Hsub)) as Hle. by rewrite !length_fmap, length_map_to_list in Hle.
Qed.

Lemma cleared_all st m t m' : rep st m t -> cleared m m' (visited t) -> m' = ∅.
Proof.
  intros H [Hsub Hl]. apply map_empty. intros k. destruct (m' !! k) as [v |] eqn:E; [| done]. pose proof (lookup_weaken _ _ _ _ E Hsub) as Hm.
  pose proof (r_keys _ _ _ H _ _ Hm) as Hk. destruct (table_map t k) as [p |] eqn:Et; [| apply (r_none _ _ _ H) in Et; congruence].
  apply (visited_map _ _ _ (r_wf _ _ _ H) I) in Et as (e & He & Ec & _). apply string_compare in Ec. rewrite Forall_forall in Hl. specialize (Hl e He).
  rewrite <- Ec, Hk, E in Hl. done.
Qed.

Lemma reset_ok st m t : rep st m t -> exists st' t', reset_stats st = Ok st' /\ rep st' ∅ t'.
Proof.
  intros H. unfold reset_stats, the_stats. rewrite (r_stats _ _ _ H). bind_ok. destruct (init_iterating t (r_wf _ _ _ H)) as (iter & -> & Hit & Hr). bind_ok.
  pose proof (entries_fit _ _ _ H). destruct (reset_loop_ok (S (size (stat_heap st))) st m t iter _ H Hit Hr (visited_distinct t (r_wf _ _ _ H)) (visited_in_table _ _ _ H))
    as (st' & m' & t' & -> & H' & Hc); [lia |]. rewrite (cleared_all _ _ _ _ H Hc) in H'. by exists st', t'.
Qed.

(** Nothing is left on the heap. *)
Lemma finalize_stat_ok st m t : rep st m t -> finalize_stat st = Ok (true, zero_stat).
Proof.
  intros H. unfold finalize_stat, delete_stats_table. unfold the_stats at 1. rewrite (r_stats _ _ _ H). bind_ok. destruct (init_iterating t (r_wf _ _ _ H)) as (iter & -> & Hit & Hr). bind_ok.
  pose proof (entries_fit _ _ _ H). destruct (delete_stats_loop_ok (S (size (stat_heap st))) st m t iter _ H Hit Hr (visited_distinct t (r_wf _ _ _ H)) (visited_in_table _ _ _ H))
    as (st' & m' & t' & -> & H' & Hc); [lia |]. rewrite (cleared_all _ _ _ _ H Hc) in H'. bind_ok. unfold the_stats. rewrite (r_stats _ _ _ H'). bind_ok.
  destruct (delete_hash_ok t' (wf_index _ (r_wf _ _ _ H'))) as (t2 & -> & _). bind_ok. unfold zero_stat. do 3 f_equal. apply map_empty. intros a.
  destruct (stat_heap st' !! a) as [e |] eqn:E; [| done]. destruct (r_heap _ _ _ H' _ _ E) as [Ht _]. by destruct (r_some _ _ _ H' _ _ Ht) as (? & ? & _ & _ & _ & ?).
Qed.

(** ** Iteration *)

Lemma foreach_loop_entries {U} (f : bytes -> Z -> U -> U) fuel st m t iter l u : rep st m t -> iterating_stats t iter -> remaining t iter = l -> Forall (in_table t) l ->
  (length l < fuel)%nat ->
  exists es, foreach_stat_loop fuel st t iter f u = Ok (fold_left (fun u (p : bytes * Z) => f p.1 p.2 u) es u) /\
    es.*1 = (fun e => c_string (HashTable.key e)) <$> l /\ Forall (fun p => m !! p.1 = Some p.2) es.
Proof.
  revert iter l u. induction fuel as [| fuel IH]; intros iter l u H Hit Hr Hl Hf; [lia |]. cbn [foreach_stat_loop].
  destruct (iterate_next_ok t iter (r_wf _ _ _ H) Hit) as (e & iter' & -> & Hit' & He). bind_ok. destruct e as [e |].
  2: { assert (l = []) as -> by congruence. exists []. by split_and!. }
  destruct He as (Hr' & _ & _). rewrite Hr in Hr'. subst l. rewrite Hr' in *. apply Forall_cons in Hl as [He Hl].
  destruct (r_some _ _ _ H _ _ He) as (a & g & Ev & Ha & Hk & Hm). rewrite Ev. unfold load_stat. rewrite Ha. bind_ok. cbn [length] in Hf.
  destruct (IH iter' _ (f (stat_key g) (stat_value g) u) H Hit' eq_refl Hl ltac:(lia)) as (es & -> & Hkeys & Hvals).
  exists ((stat_key g, stat_value g) :: es). split; [done |]. cbn [fmap list_fmap fst]. rewrite Hkeys, Hk. split; [done |]. constructor; [done | done].
Qed.

Lemma foreach_stat_ok {U} (f : bytes -> Z -> U -> U) st m t u : rep st m t ->
  exists es, foreach_stat st f u = Ok (fold_left (fun u (p : bytes * Z) => f p.1 p.2 u) es u) /\ es ≡ₚ map_to_list m.
Proof.
  intros H. unfold foreach_stat, the_stats. rewrite (r_stats _ _ _ H). bind_ok. destruct (init_iterating t (r_wf _ _ _ H)) as (iter & -> & Hit & Hr). bind_ok.
  pose proof (entries_fit _ _ _ H). pose proof (visited_distinct t (r_wf _ _ _ H)) as Hd.
  destruct (foreach_loop_entries f (S (size (stat_heap st))) st m t iter _ u H Hit Hr (visited_in_table _ _ _ H) ltac:(lia)) as (es & -> & Hkeys & Hvals).
  exists es. split; [done |].
  assert (Hnd : NoDup es.*1).
  { rewrite Hkeys. clear -Hd. induction (visited t) as [| e l IH]; [constructor |]. destruct Hd as [Hd Hl]. cbn [fmap list_fmap]. apply NoDup_cons. split; [| by apply IH].
    intros (e' & E & Hin)%list_elem_of_fmap. rewrite Forall_forall in Hd. specialize (Hd e' Hin). apply not_true_iff_false in Hd. by apply Hd, string_compare. }
  apply NoDup_Permutation; [by eapply NoDup_fmap_1 | apply NoDup_map_to_list |]. intros [k v]. rewrite elem_of_map_to_list. rewrite Forall_forall in Hvals. split.
  - apply (Hvals (k, v)).
  - intros Hm. pose proof (r_keys _ _ _ H _ _ Hm) as Hk. destruct (table_map t k) as [p |] eqn:Et; [| apply (r_none _ _ _ H) in Et; congruence].
    apply (visited_map _ _ _ (r_wf _ _ _ H) I) in Et as (e & He & Ec & _). apply string_compare in Ec.
    assert (Hin : k ∈ es.*1) by (rewrite Hkeys; apply list_elem_of_fmap; exists e; split; [congruence | done]).
    apply list_elem_of_fmap in Hin as ([k' v'] & E & Hin). cbn in E. subst k'. specialize (Hvals _ Hin). cbn in Hvals. congruence.
Qed.

(** * Property *)

Lemma stat_calls_ok st m t cs : rep st m t -> Forall stat_call_ok cs ->
  exists st' t', run_stat_calls st cs = Ok ((spec_stat_calls m cs).1, st') /\ rep st' (spec_stat_calls m cs).2 t'.
Proof.
  intros H Hcs. revert st m t H. induction Hcs as [| c cs Hc Hcs IH]; intros st m t H; cbn [run_stat_calls spec_stat_calls]; [by exists st, t |].
  assert (Hstep : exists st1 t1, run_stat_call st c = Ok ((spec_stat_call m c).1, st1) /\ rep st1 (spec_stat_call m c).2 t1).
  { destruct c as [key | key |]; cbn [run_stat_call].
    - by apply (add_stat_ok _ _ t).
    - destruct (increment_ok st m t key H Hc) as (st1 & t1 & -> & H1). by exists st1, t1.
    - destruct (reset_ok st m t H) as (st1 & t1 & -> & H1). by exists st1, t1. }
  destruct Hstep as (st1 & t1 & -> & H1). bind_ok. destruct (spec_stat_call m c) as [r m1]. cbn [fst snd] in *.
  destruct (IH st1 m1 t1 H1) as (st2 & t2 & -> & H2). bind_ok. destruct (spec_stat_calls m1 cs) as [rs m2]. by exists st2, t2.
Qed.

(** After [init_stat] the counters are a map from names to 64-bit counts:
    whatever is added, incremented and reset, no call fails on a name of at most
    255 bytes and each returns what it returns on the map; [foreach_stat] gives
    every name once with its count; and [finalize_stat] frees every entry, so
    that the statics are those of the start. *)
Theorem stat_counts {U} cs (f : bytes -> Z -> U -> U) u :
  Forall stat_call_ok cs ->
  let '(rs, m) := spec_stat_calls ∅ cs in
  exists st0 st es, init_stat zero_stat = Ok (true, st0) /\ run_stat_calls st0 cs = Ok (rs, st) /\
    foreach_stat st f u = Ok (fold_left (fun u (p : bytes * Z) => f p.1 p.2 u) es u) /\ es ≡ₚ map_to_list m /\
    finalize_stat st = Ok (true, zero_stat).
Proof.
  intros Hcs. destruct (create_rep ∅ eq_refl) as (st0 & E0 & H0). destruct (stat_calls_ok st0 ∅ _ cs H0 Hcs) as (st & t & E & H).
  destruct (spec_stat_calls ∅ cs) as [rs m]. cbn [fst snd] in *. destruct (foreach_stat_ok f st m t u H) as (es & Ef & Hes).
  exists st0, st, es. unfold init_stat. cbn [stats zero_stat bind]. fold zero_stat in E0. unfold zero_stat in *. rewrite E0. bind_ok. split_and!; try done.
  by apply (finalize_stat_ok _ _ _ H).
Qed.

(** "a" twice, then "b" is added twice. *)
Definition sample_stat_calls : list stat_call := [IncrementStat [Byte.x61]; IncrementStat [Byte.x61]; AddStat [Byte.x62]; AddStat [Byte.x62]].

Lemma stat_counts_witness : Forall stat_call_ok sample_stat_calls /\
  exists st0 st es, init_stat zero_stat = Ok (true, st0) /\ run_stat_calls st0 sample_stat_calls = Ok ([true; true; true; false], st) /\
    foreach_stat st (fun k v l => (k, v) :: l) [] = Ok (fold_left (fun u (p : bytes * Z) => (p.1, p.2) :: u) es []) /\
    es ≡ₚ map_to_list (<[[Byte.x62] := 0]> (<[[Byte.x61] := 2]> ∅)) /\ finalize_stat st = Ok (true, zero_stat).
Proof.
  assert (H : Forall stat_call_ok sample_stat_calls) by (repeat constructor).
  split; [exact H |]. exact (stat_counts sample_stat_calls (fun k v l => (k, v) :: l) [] H).
Defined.

(** A longer name is kept cut: the entry just added is not found again. *)
Lemma long_stat_aborts st m t key : rep st m t -> m !! c_string key = None -> STAT_KEY_LENGTH <= blen (c_string key) ->
  m !! take (Z.to_nat (STAT_KEY_LENGTH - 1)) (c_string key) = None -> increment_stat st key = Fault AssertFailed.
Proof.
  intros H Hm Hlen Hcut. unfold increment_stat. unfold the_stats at 1. rewrite (r_stats _ _ _ H). bind_ok. pose proof (stat_lookup _ _ _ key H) as Hl. rewrite Hm in Hl.
  rewrite Hl. bind_ok. unfold add_stat_entry, the_stats at 1. rewrite (r_stats _ _ _ H). bind_ok. rewrite Hl. bind_ok. cbn [stat_key].
  destruct (insert_ok None t (take (Z.to_nat (STAT_KEY_LENGTH - 1)) (c_string key)) (Some (fresh (dom (stat_heap st)))) (r_wf _ _ _ H) I) as (t' & -> & Hw' & _ & Hmap). bind_ok.
  cbn [negb the_stats stats bind]. rewrite (lookup_ok None t' key Hw'), Hmap. destruct (compare key _) eqn:Ec.
  - exfalso. apply string_compare in Ec. apply (f_equal blen) in Ec. assert (Hle : forall k, blen (c_string k) <= blen k).
    { clear. intros k. induction k as [| b k IH]; [done |]. cbn [c_string]. destruct (decide (b = zero)); unfold blen in *; cbn [length] in *; lia. }
    specialize (Hle (take (Z.to_nat (STAT_KEY_LENGTH - 1)) (c_string key))). unfold blen, STAT_KEY_LENGTH in *. rewrite length_take in Hle. lia.
  - rewrite (lookup_ok None t key (r_wf _ _ _ H)) in Hl. injection Hl as ->. done.
Qed.
