(* ===== verification/MessageBuffer.v ===== *)
(** The message buffers of messenger.c: bytes in a block of memory, written at
    their end and removed at their beginning.

    [buffer] is the whole block; what [xmalloc] leaves in it is an argument. *)

From Stdlib Require Import ZArith Lia Bool.
From coqutil Require Import Byte.
From stdpp Require Import base list.
From S2P Require Import Prelude Memory.

Record message_buffer : Type := MessageBuffer {
  buffer : bytes;
  data_length : Z;
  buffer_size : Z;
  head_offset : Z
}.

Implicit Types (buf : message_buffer) (block data l : bytes) (len : Z).

(** [block] is the memory allocated, of [size] bytes. *)
Definition create_message_buffer block (size : Z) : message_buffer := MessageBuffer block 0 size 0.

Definition message_buffer_remain_bytes buf : Z := u64 (buffer_size buf - data_length buf).

Definition write_message_buffer buf data : res (bool * message_buffer) :=
  let len := blen data in
  if message_buffer_remain_bytes buf <? len then Ok (false, buf)
  else if u64 (head_offset buf + data_length buf + len) <=? buffer_size buf then
    let* block := st_bytes (buffer buf) (head_offset buf + data_length buf) data in
    Ok (true, MessageBuffer block (u64 (data_length buf + len)) (buffer_size buf) (head_offset buf))
  else
    let* kept := ld_range (buffer buf) (head_offset buf) (data_length buf) in
    let* block := st_bytes (buffer buf) 0 kept in
    let* block := st_bytes block (data_length buf) data in
    Ok (true, MessageBuffer block (u64 (data_length buf + len)) (buffer_size buf) 0).

Definition truncate_message_buffer buf len : res message_buffer :=
  if (len =? 0) || (data_length buf =? 0) then Ok buf
  else
    let len := if data_length buf <? len then data_length buf else len in
    if u64 (head_offset buf + len) <=? buffer_size buf then
      Ok (MessageBuffer (buffer buf) (data_length buf - len) (buffer_size buf) (head_offset buf + len))
    else
      let* kept := ld_range (buffer buf) (head_offset buf + len) (data_length buf - len) in
      let* block := st_bytes (buffer buf) 0 kept in
      Ok (MessageBuffer block (data_length buf - len) (buffer_size buf) 0).

(** [get_message_buffer_head], [n] bytes from [offset] on. *)
Definition get_message_buffer_head buf (offset n : Z) : res bytes := ld_range (buffer buf) (head_offset buf + offset) n.

(** * The bytes that a buffer holds *)

(** [pre] and [post] are the parts of the block before and behind the data. *)
Definition holds buf l (n : Z) : Prop :=
  exists pre post, buffer buf = pre ++ l ++ post /\ head_offset buf = blen pre /\ data_length buf = blen l /\
    buffer_size buf = n /\ blen (buffer buf) = n /\ n < 2 ^ 63.

Lemma u64_id x : 0 <= x < 2 ^ 64 -> u64 x = x.
Proof. apply Z.mod_small. Qed.

Lemma create_holds block n : blen block = n -> n < 2 ^ 63 -> holds (create_message_buffer block n) [] n.
Proof. intros Hb Hn. exists [], block. by split_and!. Qed.

Lemma holds_length buf l n : holds buf l n -> data_length buf = blen l /\ blen l <= n /\ 0 <= n < 2 ^ 63.
Proof.
  intros (pre & post & Hb & _ & Hl & _ & Hn & H63). rewrite Hb, !blen_app in Hn.
  pose proof (blen_nonneg pre). pose proof (blen_nonneg post). pose proof (blen_nonneg l). lia.
Qed.

Lemma holds_remain buf l n : holds buf l n -> message_buffer_remain_bytes buf = n - blen l.
Proof.
  intros H. pose proof (holds_length _ _ _ H) as (Hl & Hle & Hn). destruct H as (pre & post & _ & _ & _ & Hs & _).
  unfold message_buffer_remain_bytes. rewrite Hl, Hs. pose proof (blen_nonneg l). apply u64_id. lia.
Qed.

Lemma split_length l (k : Z) : 0 <= k <= blen l -> exists l1 l2, l = l1 ++ l2 /\ blen l1 = k.
Proof.
  intros Hk. exists (take (Z.to_nat k) l), (drop (Z.to_nat k) l). rewrite take_drop. split; [done |].
  unfold blen in *. rewrite length_take. lia.
Qed.

Lemma write_message_ok buf l n data : holds buf l n ->
  write_message_buffer buf data = Ok (false, buf) /\ n < blen l + blen data \/
  exists buf', write_message_buffer buf data = Ok (true, buf') /\ holds buf' (l ++ data) n /\ blen l + blen data <= n.
Proof.
  intros H. pose proof (holds_length _ _ _ H) as (Hl & Hle & Hn). pose proof (holds_remain _ _ _ H) as Hr.
  destruct H as (pre & post & Hb & Hh & _ & Hs & Hbn & _).
  assert (Hsum : n = blen pre + blen l + blen post) by (rewrite <- Hbn, Hb, !blen_app; lia).
  pose proof (blen_nonneg pre). pose proof (blen_nonneg post). pose proof (blen_nonneg l). pose proof (blen_nonneg data).
  unfold write_message_buffer. rewrite Hr. destruct (Z.ltb_spec (n - blen l) (blen data)) as [Hlt | Hfit]; [left; split; [done | lia] |].
  right. rewrite Hh, Hl, Hs. rewrite (u64_id (blen l + blen data)) by lia. rewrite u64_id by lia.
  destruct (Z.leb_spec (blen pre + blen l + blen data) n) as [Hroom | Hfull].
  - destruct (split_length post (blen data)) as (p1 & p2 & -> & Hp1); [lia |]. rewrite Hb.
    rewrite app_assoc, (st_bytes_middle (pre ++ l) p1 p2 data) by (rewrite ?blen_app; unfold blen in *; lia). bind_ok.
    eexists. split; [reflexivity |]. split; [| lia]. exists pre, p2. cbn. rewrite blen_app in *. rewrite !blen_app.
    split_and!; try done; try lia. by rewrite <- !app_assoc.
  - rewrite Hb. unfold ld_range. replace ((0 <=? blen l) && (blen pre + blen l <=? blen (pre ++ l ++ post))) with true by (rewrite !blen_app; lia).
    rewrite ld_bytes_skip by done. rewrite Z.sub_diag. rewrite ld_bytes_here by (unfold blen; lia). bind_ok.
    destruct (split_length (pre ++ l ++ post) (blen l)) as (q1 & q2 & Eq & Hq1); [rewrite !blen_app; lia |]. rewrite Eq.
    change (q1 ++ q2) with ([] ++ q1 ++ q2). rewrite (st_bytes_middle [] q1 q2 l 0) by (done || (unfold blen in *; lia)). bind_ok. cbn [app].
    assert (Hq2 : blen q2 = n - blen l) by (apply (f_equal blen) in Eq; rewrite !blen_app in Eq; lia).
    destruct (split_length q2 (blen data)) as (r1 & r2 & -> & Hr1); [lia |].
    rewrite (st_bytes_middle l r1 r2 data) by (done || (unfold blen in *; lia)). bind_ok.
    eexists. split; [reflexivity |]. split; [| lia]. exists [], r2. cbn. rewrite blen_app in Hq2. rewrite !blen_app.
    split_and!; try done; try lia. by rewrite <- !app_assoc.
Qed.

Lemma truncate_message_ok buf l n len : holds buf l n -> 0 <= len < 2 ^ 64 ->
  exists buf', truncate_message_buffer buf len = Ok buf' /\ holds buf' (drop (Z.to_nat len) l) n.
Proof.
  intros H Hlen. pose proof (holds_length _ _ _ H) as (Hl & Hle & Hn). pose proof H as (pre & post & Hb & Hh & _ & Hs & Hbn & H63).
  assert (Hsum : n = blen pre + blen l + blen post) by (rewrite <- Hbn, Hb, !blen_app; lia).
  pose proof (blen_nonneg pre). pose proof (blen_nonneg post). pose proof (blen_nonneg l).
  unfold truncate_message_buffer. destruct ((len =? 0) || (data_length buf =? 0)) eqn:E0.
  - exists buf. split; [done |]. destruct (Z.eqb_spec len 0) as [-> |]; [done |].
    assert (l = []) as -> by (destruct l; [done | unfold blen in *; cbn in *; lia]). by rewrite drop_nil.
  - rewrite Hl. set (k := if blen l <? len then blen l else len). rewrite Hh, Hs.
    assert (Hk : 0 <= k <= blen l) by (unfold k; destruct (Z.ltb_spec (blen l) len); lia).
    rewrite u64_id by lia. replace (blen pre + k <=? n) with true by lia. eexists. split; [reflexivity |].
    destruct (split_length l k Hk) as (l1 & l2 & -> & Hl1).
    assert (Ed : drop (Z.to_nat len) (l1 ++ l2) = l2).
    { unfold k in Hl1. rewrite blen_app in Hl1. destruct (Z.ltb_spec (blen l1 + blen l2) len) as [Hlt | Hge].
      - pose proof (blen_nonneg l2). assert (l2 = []) as -> by (destruct l2; [done | unfold blen in *; cbn in *; lia]).
        rewrite app_nil_r. apply drop_ge. unfold blen in *. lia.
      - rewrite drop_app_length' by (unfold blen in *; lia). done. }
    rewrite Ed. exists (pre ++ l1), post. cbn. rewrite Hb, !blen_app in *. split_and!; try done; try lia. by rewrite <- !app_assoc.
Qed.

Lemma head_bytes_ok buf l1 l2 l3 n offset k : holds buf (l1 ++ l2 ++ l3) n -> offset = blen l1 -> k = blen l2 ->
  get_message_buffer_head buf offset k = Ok l2.
Proof.
  intros (pre & post & Hb & Hh & _) -> ->. unfold get_message_buffer_head. rewrite Hb, Hh. pose proof (blen_nonneg pre). pose proof (blen_nonneg l1).
  rewrite <- !app_assoc, ld_range_skip by lia. rewrite ld_range_skip by lia. apply ld_range_wire; lia.
Qed.

(** * Property *)

(** What a client asks of a buffer. *)
Inductive buffer_call : Type :=
| Write (data : bytes)
| Truncate (len : Z).

Definition buffer_call_ok (c : buffer_call) : Prop := match c with Write _ => True | Truncate len => 0 <= len < 2 ^ 64 end.

Definition run_buffer_call buf (c : buffer_call) : res (bool * message_buffer) :=
  match c with
  | Write data => write_message_buffer buf data
  | Truncate len => let* buf := truncate_message_buffer buf len in Ok (true, buf)
  end.

Fixpoint run_buffer_calls buf (cs : list buffer_call) : res (list bool * message_buffer) :=
  match cs with
  | [] => Ok ([], buf)
  | c :: cs =>
    let* (r, buf) := run_buffer_call buf c in
    let* (rs, buf) := run_buffer_calls buf cs in
    Ok (r :: rs, buf)
  end.

(** The same on the bytes, of which there are at most [n]. *)
Definition spec_buffer_call (n : Z) l (c : buffer_call) : bool * bytes :=
  match c with
  | Write data => if n <? blen l + blen data then (false, l) else (true, l ++ data)
  | Truncate len => (true, drop (Z.to_nat len) l)
  end.

Fixpoint spec_buffer_calls (n : Z) l (cs : list buffer_call) : list bool * bytes :=
  match cs with
  | [] => ([], l)
  | c :: cs =>
    let '(r, l) := spec_buffer_call n l c in
    let '(rs, l) := spec_buffer_calls n l cs in
    (r :: rs, l)
  end.

Lemma buffer_calls_ok buf l n cs : holds buf l n -> Forall buffer_call_ok cs ->
  exists buf', run_buffer_calls buf cs = Ok ((spec_buffer_calls n l cs).1, buf') /\ holds buf' (spec_buffer_calls n l cs).2 n.
Proof.
  intros H Hcs. revert buf l H. induction Hcs as [| c cs Hc Hcs IH]; intros buf l H; cbn [run_buffer_calls spec_buffer_calls]; [by exists buf |].
  assert (Hstep : exists buf1, run_buffer_call buf c = Ok ((spec_buffer_call n l c).1, buf1) /\ holds buf1 (spec_buffer_call n l c).2 n).
  { destruct c as [data | len]; cbn [run_buffer_call spec_buffer_call].
    - destruct (write_message_ok buf l n data H) as [[E Hlt] | (buf1 & E & H1 & Hle)].
      + exists buf. rewrite (proj2 (Z.ltb_lt _ _) Hlt). by split.
      + exists buf1. rewrite (proj2 (Z.ltb_ge _ _) Hle). by split.
    - destruct (truncate_message_ok buf l n len H Hc) as (buf1 & -> & H1). exists buf1. by split. }
  destruct Hstep as (buf1 & -> & H1). bind_ok. destruct (spec_buffer_call n l c) as [r l1]. cbn [fst snd] in *.
  destruct (IH buf1 l1 H1) as (buf2 & -> & H2). bind_ok. destruct (spec_buffer_calls n l1 cs) as [rs l2]. by exists buf2.
Qed.

(** A message buffer is a queue of bytes. Whatever is in the memory that it
    gets, and in whatever order bytes are written and removed, a write succeeds
    exactly when the bytes fit in the size of the buffer with those it holds, the
    bytes that are held are those written and not removed, in order, and no
    access leaves the memory: data is moved to the front when it would. *)
Theorem message_buffer_refines block n cs k :
  blen block = n -> n < 2 ^ 63 -> Forall buffer_call_ok cs ->
  let '(rs, l) := spec_buffer_calls n [] cs in
  exists buf, run_buffer_calls (create_message_buffer block n) cs = Ok (rs, buf) /\
    data_length buf = blen l /\ message_buffer_remain_bytes buf = n - blen l /\
    (0 <= k <= blen l -> get_message_buffer_head buf 0 k = Ok (take (Z.to_nat k) l)).
Proof.
  intros Hb Hn Hcs. destruct (buffer_calls_ok (create_message_buffer block n) [] n cs (create_holds block n Hb Hn) Hcs) as (buf & E & H).
  destruct (spec_buffer_calls n [] cs) as [rs l]. exists buf. split; [done |]. cbn [snd] in H.
  split; [by apply (holds_length _ _ n) |]. split; [by apply holds_remain |]. intros Hk.
  apply (head_bytes_ok buf [] (take (Z.to_nat k) l) (drop (Z.to_nat k) l) n); [by rewrite take_drop | done |].
  unfold blen in *. rewrite length_take. lia.
Qed.

Lemma message_buffer_refines_witness :
  exists buf, run_buffer_calls (create_message_buffer (zeros 4) 4) [Write (zeros 3); Truncate 2; Write [Byte.x01; Byte.x02]; Write (zeros 2)]
      = Ok ([true; true; true; false], buf) /\
    data_length buf = 3 /\ message_buffer_remain_bytes buf = 1 /\
    (0 <= 3 <= 3 -> get_message_buffer_head buf 0 3 = Ok [Byte.x00; Byte.x01; Byte.x02]).
Proof.
  refine (message_buffer_refines (zeros 4) 4 [Write (zeros 3); Truncate 2; Write [Byte.x01; Byte.x02]; Write (zeros 2)] 3 _ _ _).
  - reflexivity.
  - reflexivity.
  - repeat constructor; discriminate.
Defined.
