(* ===== verification/Messenger.v ===== *)
(** messenger.c: messages between processes.

    A service is a listening socket and a queue of the bytes received; a process
    has a queue of bytes for each service it sends to, and contexts for the
    requests it has made.  The queues are in hash tables by the name of the
    service and live on heaps, as handlers and timers point to them.

    The state is threaded by a monad [M] over the messenger and the rest of the
    world.  The functions of the system are a class [System]; what [xmalloc]
    leaves in memory is one of them.  A message handed to a callback is logged:
    what the callback does is what the process does next.  Lists of callbacks and
    of sockets are the elements after their heads; [insert_after_dlist] puts a new
    one first.  Logging is left out. *)

From Stdlib Require Import ZArith Lia Bool.
From coqutil Require Import Byte.
From stdpp Require Import base list gmap.
From S2P Require Import Prelude Memory StateMonad HashTable Utility EventHandler Timer MessageBuffer.

Definition MESSENGER_SERVICE_NAME_LENGTH : Z := 32.
Definition MESSENGER_RECV_BUFFER : Z := 100000.
Definition messenger_send_queue_length : Z := MESSENGER_RECV_BUFFER * 4.
Definition messenger_send_length_for_flush : Z := MESSENGER_RECV_BUFFER.
Definition messenger_bucket_size : Z := MESSENGER_RECV_BUFFER.
Definition messenger_recv_queue_length : Z := MESSENGER_RECV_BUFFER * 2.
Definition messenger_recv_queue_reserved : Z := MESSENGER_RECV_BUFFER.

Definition MESSAGE_TYPE_NOTIFY : Z := 0.
Definition MESSAGE_TYPE_REQUEST : Z := 1.
Definition MESSAGE_TYPE_REPLY : Z := 2.

Definition MESSENGER_DUMP_SENT : Z := 0.
Definition MESSENGER_DUMP_RECEIVED : Z := 1.
Definition MESSENGER_DUMP_RECV_CONNECTED : Z := 2.
Definition MESSENGER_DUMP_RECV_OVERFLOW : Z := 3.
Definition MESSENGER_DUMP_RECV_CLOSED : Z := 4.
Definition MESSENGER_DUMP_SEND_CONNECTED : Z := 5.
Definition MESSENGER_DUMP_SEND_REFUSED : Z := 6.
Definition MESSENGER_DUMP_SEND_OVERFLOW : Z := 7.
Definition MESSENGER_DUMP_SEND_CLOSED : Z := 8.

Definition sizeof_message_header : Z := 8.
Definition sizeof_messenger_context_handle : Z := 8.

(** * The system *)

Inductive recv_result : Type :=
| RecvFailed (again : bool)
| Recv (data : bytes).

Inductive send_error : Type := Again | TooLong | OtherError.
Inductive send_result : Type :=
| SendFailed (error : send_error)
| Sent (len : Z).

(** A descriptor, or [None] on failure; [true] on success. *)
Class System (W : Type) : Type := {
  xmalloc : Z -> W -> bytes * W;
  socket : W -> option Z * W;
  is_root : W -> bool * W;
  set_buffer_size : Z -> W -> bool * W;
  set_nonblock : Z -> W -> bool * W;
  bind_socket : Z -> bytes -> W -> bool * W;
  listen : Z -> W -> bool * W;
  unlink : bytes -> W -> unit * W;
  accept : Z -> W -> option Z * W;
  connect : Z -> bytes -> W -> bool * W;
  get_send_buffer_size : Z -> W -> option Z * W;
  get_send_buffer_used : Z -> W -> option Z * W;
  recv : Z -> Z -> W -> recv_result * W;
  send : Z -> bytes -> W -> send_result * W;
  close : Z -> W -> unit * W;
  clock_monotonic : W -> option timespec * W;
  clock_realtime : W -> option timespec * W
}.

(** * Data *)

(** Who is called: functions with their data. *)
Inductive fd_callback : Type :=
| on_accept_of (rq : positive)
| on_recv_of (rq : positive)
| on_send_read_of (sq : positive)
| on_send_write_of (sq : positive).

Inductive timer_function : Type :=
| send_queue_connect_timeout_of (sq : positive)
| age_context_db_timer.

#[export] Instance timer_function_eq_dec : EqDecision timer_function.
Proof. solve_decision. Defined.

Record receive_queue_callback : Type := ReceiveQueueCallback { callback_function : Z; callback_type : Z }.

Record receive_queue : Type := ReceiveQueue {
  rq_service_name : bytes;
  message_callbacks : list receive_queue_callback;
  listen_socket : Z;
  listen_addr : bytes;
  client_sockets : list Z;
  rq_buffer : message_buffer
}.

Record send_queue : Type := SendQueue {
  sq_service_name : bytes;
  server_socket : Z;
  refused_count : Z;
  reconnect_interval : timespec;
  server_addr : bytes;
  sq_buffer : option message_buffer;
  running_timer : bool;
  overflow : Z;
  overflow_total_length : Z;
  socket_buffer_size : Z
}.

Record messenger_context : Type := MessengerContext { context_id : Z; life_count : Z; context_user_data : Z }.

(** A message that a callback gets; [len] is the length it is told. *)
Inductive callback_call : Type :=
| Received (function tag : Z) (data : bytes) (len : Z)
| Requested (function transaction_id service_name_len : Z) (service_name : bytes) (tag : Z) (data : bytes) (len : Z)
| Replied (function tag : Z) (data : bytes) (len user_data : Z).

Abbreviation queue_table := (hash_table bytes (option positive)).
Abbreviation context_table := (hash_table Z (option positive)).

(** The static variables, the memory they point to, the event handler and the
    timers, and the log of the callbacks. [dump_names] are the names of the dump
    service and of the application, both set or both NULL. *)
Record messenger : Type := Messenger {
  initialized : bool;
  finalized : bool;
  socket_directory : bytes;
  receive_queues : option queue_table;
  rq_heap : gmap positive receive_queue;
  send_queues : option queue_table;
  sq_heap : gmap positive send_queue;
  context_db : option context_table;
  context_heap : gmap positive messenger_context;
  dump_names : option (bytes * bytes);
  last_transaction_id : Z;
  events : event_handler fd_callback;
  timers : option (list (positive * timer_callback_info timer_function));
  called : list callback_call
}.

(** ** Fields *)

Section Fields.
Implicit Types (m : messenger) (q : send_queue) (r : receive_queue).

Definition set_receive_queues m t h : messenger :=
  Messenger (initialized m) (finalized m) (socket_directory m) t h (send_queues m) (sq_heap m) (context_db m) (context_heap m)
    (dump_names m) (last_transaction_id m) (events m) (timers m) (called m).
Definition set_send_queues m t h : messenger :=
  Messenger (initialized m) (finalized m) (socket_directory m) (receive_queues m) (rq_heap m) t h (context_db m) (context_heap m)
    (dump_names m) (last_transaction_id m) (events m) (timers m) (called m).
Definition set_contexts m t h id : messenger :=
  Messenger (initialized m) (finalized m) (socket_directory m) (receive_queues m) (rq_heap m) (send_queues m) (sq_heap m) t h
    (dump_names m) id (events m) (timers m) (called m).
Definition set_dump_names m d : messenger :=
  Messenger (initialized m) (finalized m) (socket_directory m) (receive_queues m) (rq_heap m) (send_queues m) (sq_heap m)
    (context_db m) (context_heap m) d (last_transaction_id m) (events m) (timers m) (called m).
Definition set_event_handler m e : messenger :=
  Messenger (initialized m) (finalized m) (socket_directory m) (receive_queues m) (rq_heap m) (send_queues m) (sq_heap m)
    (context_db m) (context_heap m) (dump_names m) (last_transaction_id m) e (timers m) (called m).
Definition set_messenger_timers m t : messenger :=
  Messenger (initialized m) (finalized m) (socket_directory m) (receive_queues m) (rq_heap m) (send_queues m) (sq_heap m)
    (context_db m) (context_heap m) (dump_names m) (last_transaction_id m) (events m) t (called m).
Definition log_call m c : messenger :=
  Messenger (initialized m) (finalized m) (socket_directory m) (receive_queues m) (rq_heap m) (send_queues m) (sq_heap m)
    (context_db m) (context_heap m) (dump_names m) (last_transaction_id m) (events m) (timers m) (called m ++ [c]).

Definition set_server_socket q f : send_queue :=
  SendQueue (sq_service_name q) f (refused_count q) (reconnect_interval q) (server_addr q) (sq_buffer q) (running_timer q)
    (overflow q) (overflow_total_length q) (socket_buffer_size q).
Definition set_refused q n i : send_queue :=
  SendQueue (sq_service_name q) (server_socket q) n i (server_addr q) (sq_buffer q) (running_timer q)
    (overflow q) (overflow_total_length q) (socket_buffer_size q).
Definition set_sq_buffer q b : send_queue :=
  SendQueue (sq_service_name q) (server_socket q) (refused_count q) (reconnect_interval q) (server_addr q) b (running_timer q)
    (overflow q) (overflow_total_length q) (socket_buffer_size q).
Definition set_sq_timer q b : send_queue :=
  SendQueue (sq_service_name q) (server_socket q) (refused_count q) (reconnect_interval q) (server_addr q) (sq_buffer q) b
    (overflow q) (overflow_total_length q) (socket_buffer_size q).
Definition set_overflow q n total : send_queue :=
  SendQueue (sq_service_name q) (server_socket q) (refused_count q) (reconnect_interval q) (server_addr q) (sq_buffer q) (running_timer q)
    n total (socket_buffer_size q).
Definition set_socket_buffer_size q n : send_queue :=
  SendQueue (sq_service_name q) (server_socket q) (refused_count q) (reconnect_interval q) (server_addr q) (sq_buffer q) (running_timer q)
    (overflow q) (overflow_total_length q) n.

Definition set_message_callbacks r l : receive_queue :=
  ReceiveQueue (rq_service_name r) l (listen_socket r) (listen_addr r) (client_sockets r) (rq_buffer r).
Definition set_client_sockets r l : receive_queue :=
  ReceiveQueue (rq_service_name r) (message_callbacks r) (listen_socket r) (listen_addr r) l (rq_buffer r).
Definition set_rq_buffer r b : receive_queue :=
  ReceiveQueue (rq_service_name r) (message_callbacks r) (listen_socket r) (listen_addr r) (client_sockets r) b.
End Fields.

(** * The monad *)

Section Monad.
Context {W : Type}.

#[local] Abbreviation M := (M (S := messenger * W)).

Definition gets {A} (f : messenger -> A) : M A := fun s => Ok (f s.1, s).
Definition modify (f : messenger -> messenger) : M unit := fun s => Ok (tt, (f s.1, s.2)).
Definition sys {A} (f : W -> A * W) : M A := fun s => let '(a, w) := f s.2 in Ok (a, (s.1, w)).
End Monad.

Section Messenger.
Context {host : Host} {W : Type} `{System W}.
Implicit Types (name path data : bytes) (sq rq : positive) (tag len : Z).
#[local] Abbreviation M := (M (S := messenger * W)).

(** ** Access to the state *)

Definition event (f : event_handler fd_callback -> res (event_handler fd_callback)) : M unit :=
  let! e := gets events in
  let! e := lift (f e) in
  modify (fun m => set_event_handler m e).

Definition load_sq sq : M send_queue :=
  let! h := gets sq_heap in lift (match h !! sq with Some q => Ok q | None => Fault OutOfBounds end).
Definition store_sq sq (q : send_queue) : M unit := modify (fun m => set_send_queues m (send_queues m) (<[sq := q]> (sq_heap m))).
Definition free_sq sq : M unit := modify (fun m => set_send_queues m (send_queues m) (delete sq (sq_heap m))).
Definition update_sq sq (f : send_queue -> send_queue) : M unit := let! q := load_sq sq in store_sq sq (f q).

Definition load_rq rq : M receive_queue :=
  let! h := gets rq_heap in lift (match h !! rq with Some r => Ok r | None => Fault OutOfBounds end).
Definition store_rq rq (r : receive_queue) : M unit := modify (fun m => set_receive_queues m (receive_queues m) (<[rq := r]> (rq_heap m))).
Definition free_rq rq : M unit := modify (fun m => set_receive_queues m (receive_queues m) (delete rq (rq_heap m))).

(** [assert( table != NULL )] and a look in the table. *)
Definition lookup_queue (table : option queue_table) name : M (option positive) :=
  match table with
  | None => fault AssertFailed
  | Some t => lift (lookup_hash_entry (H := string_key) None t name)
  end.

(** The string in an array of the queue: one that fills it has no end. *)
Definition string_of_name name : res bytes :=
  if blen name <? MESSENGER_SERVICE_NAME_LENGTH then Ok name else Fault OutOfBounds.

(** [strncpy] into the array. *)
Definition copy_name name : bytes := take (Z.to_nat MESSENGER_SERVICE_NAME_LENGTH) (c_string name).

(** "/trema." and ".sock"; [sun_path] holds 108 bytes. *)
Definition TREMA_PREFIX : bytes := map byte.of_Z [47; 116; 114; 101; 109; 97; 46].
Definition SOCK_SUFFIX : bytes := map byte.of_Z [46; 115; 111; 99; 107].
Definition sizeof_sun_path : Z := 108.

Definition socket_path (directory name : bytes) : res bytes :=
  let path := directory ++ TREMA_PREFIX ++ c_string name ++ SOCK_SUFFIX in
  if blen path <? sizeof_sun_path then Ok path else Fault OutOfBounds.

Definition remove_fd (fd : Z) (writable : bool) : M unit :=
  let! _ := event (fun e => EventHandler.set_readable e fd false) in
  let! _ := if writable then event (fun e => EventHandler.set_writable e fd false) else ret tt in
  let! _ := event (fun e => delete_fd_handler e fd) in
  sys (close fd).

(** ** Contexts of requests *)

(** Returns the heap and the table; the address is that of the context. *)
Definition delete_context (context : positive) : M unit :=
  let! h := gets context_heap in
  match h !! context with
  | None => fault OutOfBounds
  | Some c =>
    let! db := gets context_db in
    match db with
    | None => fault AssertFailed
    | Some t =>
      let! (_, t) := lift (delete_hash_entry (H := uint32_key) None t (context_id c)) in
      modify (fun m => set_contexts m (Some t) (delete context (context_heap m)) (last_transaction_id m))
    end
  end.

Definition _age_context (context : positive) : M unit :=
  let! h := gets context_heap in
  match h !! context with
  | None => fault OutOfBounds
  | Some c =>
    let c := MessengerContext (context_id c) (life_count c - 1) (context_user_data c) in
    let! _ := modify (fun m => set_contexts m (context_db m) (<[context := c]> (context_heap m)) (last_transaction_id m)) in
    if life_count c <=? 0 then delete_context context else ret tt
  end.

(** [foreach_hash] keeps pointers to the next element and to the next bucket,
    so the function may delete the entry it gets: the entries of a bucket are
    those it has when the loop comes to it. *)
Fixpoint foreach_entry (function : positive -> M unit) (es : list (hash_entry Z (option positive))) : M unit :=
  match es with
  | [] => ret tt
  | e :: es =>
    let! _ := match value e with Some context => function context | None => fault AssertFailed end in
    foreach_entry function es
  end.

Fixpoint foreach_bucket (function : positive -> M unit) (nonempty : list (positive * Z)) : M unit :=
  match nonempty with
  | [] => ret tt
  | (_, i) :: nonempty =>
    let! db := gets context_db in
    match db with
    | None => fault AssertFailed
    | Some t =>
      let! b := lift (get_bucket t i) in
      let! _ := match b with Some b => foreach_entry function (entries b) | None => ret tt end in
      foreach_bucket function nonempty
    end
  end.

Definition foreach_context (function : positive -> M unit) : M unit :=
  let! db := gets context_db in
  match db with
  | None => fault AssertFailed
  | Some t => foreach_bucket function (nonempty_bucket_index t)
  end.

Definition age_context_db : M unit := foreach_context _age_context.

Definition delete_context_db : M unit :=
  let! db := gets context_db in
  match db with
  | None => ret tt
  | Some _ =>
    let! _ := foreach_context delete_context in
    let! db := gets context_db in
    let! _ := match db with Some t => let! _ := lift (delete_hash t) in ret tt | None => fault AssertFailed end in
    modify (fun m => set_contexts m None (context_heap m) (last_transaction_id m))
  end.

Definition insert_context (user_data : Z) : M Z :=
  let! id := gets last_transaction_id in
  let id := u32 (id + 1) in
  let! h := gets context_heap in
  let context := fresh (dom h) in
  let! db := gets context_db in
  match db with
  | None => fault AssertFailed
  | Some t =>
    let! (old, t) := lift (insert_hash_entry (H := uint32_key) None t id (Some context)) in
    let! _ := modify (fun m => set_contexts m (Some t) (<[context := MessengerContext id 10 user_data]> (context_heap m)) id) in
    let! _ := match old with Some old => delete_context old | None => ret tt end in
    ret id
  end.

Definition get_context (transaction_id : Z) : M (option positive) :=
  let! db := gets context_db in
  match db with
  | None => fault AssertFailed
  | Some t => lift (lookup_hash_entry (H := uint32_key) None t transaction_id)
  end.

(** ** Queues of messages to send

    [dump] is [send_dump_message], which sends in its turn. *)

Section Send.
Context (dump : Z -> bytes -> bytes -> M unit).

(** -1 on failure, 0 when the connection is refused, 1 when it is made. *)
Definition send_queue_connect sq : M Z :=
  let! _ := update_sq sq (fun q => set_sq_timer q false) in
  let! fd := sys socket in
  match fd with
  | None => let! _ := update_sq sq (fun q => set_server_socket q (-1)) in ret (-1)
  | Some fd =>
    let! _ := update_sq sq (fun q => set_server_socket q fd) in
    let! root := sys is_root in
    let! ok := if root : bool then sys (set_buffer_size fd) else ret true in
    let! ok := if ok : bool then sys (set_nonblock fd) else ret false in
    if negb ok then
      let! _ := sys (close fd) in
      let! _ := update_sq sq (fun q => set_server_socket q (-1)) in
      ret (-1)
    else
      let! q := load_sq sq in
      let! connected := sys (connect fd (server_addr q)) in
      if negb connected then
        let! _ := dump MESSENGER_DUMP_SEND_REFUSED (sq_service_name q) [] in
        let! _ := sys (close fd) in
        let! _ := update_sq sq (fun q => set_server_socket q (-1)) in
        ret 0
      else
        let! _ := event (fun e => set_fd_handler e fd (Some (on_send_read_of sq)) (Some (on_send_write_of sq))) in
        let! _ := event (fun e => EventHandler.set_readable e fd true) in
        let! q := load_sq sq in
        let! _ :=
          match sq_buffer q with
          | Some b => if sizeof_message_header <=? data_length b then event (fun e => EventHandler.set_writable e fd true) else ret tt
          | None => ret tt
          end in
        let! size := sys (get_send_buffer_size fd) in
        let! _ := update_sq sq (fun q => set_socket_buffer_size q (default 0 size)) in
        let! _ := dump MESSENGER_DUMP_SEND_CONNECTED (sq_service_name q) [] in
        ret 1
  end.

Definition add_timer (it_interval it_value : timespec) (f : timer_function) : M unit :=
  let! clock := sys clock_monotonic in
  let! t := gets timers in
  let! (_, t) := lift (add_timer_event_callback t clock it_interval it_value f) in
  modify (fun m => set_messenger_timers m t).

Definition delete_timer (f : timer_function) : M unit :=
  modify (fun m => set_messenger_timers m (Timer.delete_timer_event (timers m) f).2).

(** [1 << ( n > 4 ? 4 : n - 1 )] *)
Definition reconnect_seconds (n : Z) : Z := Z.shiftl 1 (if 4 <? n then 4 else n - 1).

Definition send_queue_connect_timer sq : M Z :=
  let! q := load_sq sq in
  if negb (server_socket q =? -1) then ret 1
  else
    let! _ :=
      if running_timer q then
        let! _ := store_sq sq (set_sq_timer q false) in delete_timer (send_queue_connect_timeout_of sq)
      else ret tt in
    let! r := send_queue_connect sq in
    let! q := load_sq sq in
    if r =? -1 then
      let! _ := store_sq sq (set_refused q (refused_count q) (Timespec (-1) 0)) in ret (-1)
    else if r =? 0 then
      let n := refused_count q + 1 in
      let interval := Timespec (reconnect_seconds n) (tv_nsec (reconnect_interval q)) in
      let! _ := store_sq sq (set_refused q n interval) in
      let! _ := add_timer (Timespec 0 0) interval (send_queue_connect_timeout_of sq) in
      let! _ := update_sq sq (fun q => set_sq_timer q true) in
      ret 0
    else let! _ := store_sq sq (set_refused q 0 (Timespec 0 0)) in ret 1.

Definition send_queue_connect_timeout sq : M Z :=
  let! _ := update_sq sq (fun q => set_sq_timer q false) in send_queue_connect_timer sq.

Definition send_queue_try_connect sq : M Z :=
  let! q := load_sq sq in
  if negb (tv_sec (reconnect_interval q) =? 0) then ret 0 else send_queue_connect_timer sq.

Definition allocate_message_buffer (size : Z) : M message_buffer :=
  let! block := sys (xmalloc size) in ret (create_message_buffer block size).

(** NULL when the connection fails. *)
Definition create_send_queue name : M (option positive) :=
  let! table := gets send_queues in
  let! found := lookup_queue table name in
  match found with
  | Some sq => ret (Some sq)
  | None =>
    let! h := gets sq_heap in
    let sq := fresh (dom h) in
    let! directory := gets socket_directory in
    let! path := lift (socket_path directory name) in
    let! _ := store_sq sq (SendQueue (copy_name name) (-1) 0 (Timespec 0 0) path None false 0 0 0) in
    let! r := send_queue_try_connect sq in
    if r =? -1 then let! _ := free_sq sq in ret None
    else
      let! b := allocate_message_buffer messenger_send_queue_length in
      let! _ := update_sq sq (fun q => set_sq_buffer q (Some b)) in
      let! q := load_sq sq in
      let! key := lift (string_of_name (sq_service_name q)) in
      let! table := gets send_queues in
      match table with
      | None => fault AssertFailed
      | Some t =>
        let! (_, t) := lift (insert_hash_entry (H := string_key) None t key (Some sq)) in
        let! _ := modify (fun m => set_send_queues m (Some t) (sq_heap m)) in
        ret (Some sq)
      end
  end.

(** A buffer that the queue has: the code uses it without a check, or asserts
    that there is one. *)
Definition the_buffer (q : send_queue) : M message_buffer :=
  match sq_buffer q with Some b => ret b | None => fault NullPointer end.
Definition checked_buffer (q : send_queue) : M message_buffer :=
  match sq_buffer q with Some b => ret b | None => fault AssertFailed end.

Definition truncate_sq sq len : M unit :=
  let! q := load_sq sq in
  let! b := checked_buffer q in
  let! b := lift (truncate_message_buffer b len) in
  store_sq sq (set_sq_buffer q (Some b)).

(** The loop of [get_send_data]: whole messages, as many as fit in the bucket,
    and at least one. *)
Fixpoint send_data_loop (fuel : nat) (b : message_buffer) (bucket_size offset length : Z) : res Z :=
  match fuel with
  | O => Fault OutOfFuel
  | S fuel =>
    if u64 (data_length b - offset) <? sizeof_message_header then Ok length
    else
      let* header := get_message_buffer_head b offset sizeof_message_header in
      let* message_length := ld_ntoh 4 header 4 in
      let* _ := assert (negb (message_length =? 0)) in
      let* _ := assert (message_length <? messenger_recv_queue_length) in
      if bucket_size <? u32 (length + message_length) then Ok (if length =? 0 then message_length else length)
      else send_data_loop fuel b bucket_size (u64 (offset + message_length)) (u32 (length + message_length))
  end.

(** The bytes to send at once: what the socket has room for, twice. *)
Definition bucket_size_of (q : send_queue) : M Z :=
  if negb (socket_buffer_size q =? 0) then
    let! used := sys (get_send_buffer_used (server_socket q)) in
    match used with
    | Some used =>
      if used <? socket_buffer_size q then
        let bucket_size := u32 (Z.shiftl (u32 (socket_buffer_size q - used)) 1) in
        ret (if messenger_bucket_size <? bucket_size then messenger_bucket_size else bucket_size)
      else ret 1
    | None => ret messenger_bucket_size
    end
  else ret messenger_bucket_size.

Definition get_send_data sq (offset : Z) : M Z :=
  let! q := load_sq sq in
  let! bucket_size := bucket_size_of q in
  let! b := the_buffer q in
  lift (send_data_loop (S (Z.to_nat (data_length b))) b bucket_size offset 0).

Definition send_failed sq (err : send_error) (sent_total : Z) : M unit :=
  let! _ :=
    match err with
    | Again => ret tt
    | _ =>
      let! q := load_sq sq in
      let! _ := dump MESSENGER_DUMP_SEND_CLOSED (sq_service_name q) [] in
      let! q := load_sq sq in
      let! _ := remove_fd (server_socket q) true in
      let! _ := update_sq sq (fun q => set_refused (set_server_socket q (-1)) 0 (reconnect_interval q)) in
      let! _ := send_queue_try_connect sq in
      ret tt
    end in
  let! _ := truncate_sq sq sent_total in
  match err with
  | TooLong =>
    let! q := load_sq sq in
    let! b := the_buffer q in
    truncate_sq sq (data_length b)
  | _ => ret tt
  end.

(** [Some sent_total] when all is sent, [None] when the function returns. *)
Fixpoint send_loop (fuel : nat) sq (fd sent_total : Z) : M (option Z) :=
  match fuel with
  | O => fault OutOfFuel
  | S fuel =>
    let! send_len := get_send_data sq sent_total in
    if send_len =? 0 then ret (Some sent_total)
    else
      let! q := load_sq sq in
      let! b := the_buffer q in
      let! send_data := lift (get_message_buffer_head b sent_total send_len) in
      let! r := sys (send fd send_data) in
      match r with
      | SendFailed err => let! _ := send_failed sq err sent_total in ret None
      | Sent sent_len =>
        let! _ := lift (assert (negb (sent_len =? 0))) in
        let! _ := lift (assert (send_len =? u64 sent_len)) in
        let! _ := dump MESSENGER_DUMP_SENT (sq_service_name q) send_data in
        send_loop fuel sq fd (u64 (sent_total + sent_len))
      end
  end.

Definition on_send_write (fd : Z) sq : M unit :=
  let! q := load_sq sq in
  let! b := the_buffer q in
  if data_length b <? sizeof_message_header then event (fun e => EventHandler.set_writable e (server_socket q) false)
  else
    let! sent := send_loop (S (Z.to_nat (data_length b))) sq fd 0 in
    match sent with
    | None => ret tt
    | Some sent_total =>
      let! _ := truncate_sq sq sent_total in
      let! q := load_sq sq in
      let! b := the_buffer q in
      if data_length b =? 0 then event (fun e => EventHandler.set_writable e (server_socket q) false) else ret tt
    end.

(** The header that is stored in the bytes of a message. *)
Definition message_header (message_type tag length : Z) : bytes :=
  host_encode 1 0 ++ host_encode 1 message_type ++ host_encode 2 (htons tag) ++ host_encode 4 (htonl length).

(** Two writes of a message that fits. *)
Definition write_message (b : message_buffer) (message_type tag length : Z) data : res message_buffer :=
  let* (_, b) := write_message_buffer b (message_header message_type tag length) in
  let* (_, b) := write_message_buffer b data in
  Ok b.

Definition push_message_to_send_queue name (message_type tag : Z) data : M bool :=
  let! table := gets send_queues in
  match table with
  | None => ret false
  | Some _ =>
    let! found := lookup_queue table name in
    let! found := match found with Some sq => ret (Some sq) | None => create_send_queue name end in
    match found with
    | None => fault AssertFailed
    | Some sq =>
      let length := u32 (sizeof_message_header + blen data) in
      let! q := load_sq sq in
      let! b := checked_buffer q in
      if message_buffer_remain_bytes b <? length then
        let! _ := store_sq sq (set_overflow q (u32 (overflow q + 1)) (u64 (overflow_total_length q + length))) in
        let! _ := dump MESSENGER_DUMP_SEND_OVERFLOW (sq_service_name q) [] in
        ret false
      else
        let! b := lift (write_message b message_type tag length data) in
        let q := set_sq_buffer (set_overflow q 0 0) (Some b) in
        let! _ := store_sq sq q in
        if server_socket q =? -1 then let! _ := send_queue_try_connect sq in ret true
        else
          let! _ := event (fun e => EventHandler.set_writable e (server_socket q) true) in
          let! _ := if messenger_send_length_for_flush <? data_length b then on_send_write (server_socket q) sq else ret tt in
          ret true
    end
  end.
End Send.

(** ** Dump

    What is sent to the dump service is not dumped, so the recursion is two
    deep: [dump_fuel]. *)

Definition message_dump (now : timespec) (app_name service_name data : bytes) : bytes :=
  host_encode 4 (htonl (u32 (tv_sec now))) ++ host_encode 4 (htonl (u32 (tv_nsec now)))
    ++ host_encode 2 (htons (u16 (blen app_name + 1))) ++ host_encode 2 (htons (u16 (blen service_name + 1)))
    ++ host_encode 4 (htonl (u32 (blen data))) ++ (app_name ++ [zero]) ++ (service_name ++ [zero]) ++ data.

Fixpoint send_dump_message (fuel : nat) (dump_type : Z) name data : M unit :=
  let! names := gets dump_names in
  match names with
  | None => ret tt
  | Some (dump_service_name, dump_app_name) =>
    if bool_decide (name = dump_service_name) then ret tt
    else
      match fuel with
      | O => fault OutOfFuel
      | S fuel =>
        let! now := sys clock_realtime in
        match now with
        | None => ret tt
        | Some now =>
          let! _ := push_message_to_send_queue (send_dump_message fuel) dump_service_name MESSAGE_TYPE_NOTIFY dump_type
                      (message_dump now dump_app_name name data) in
          ret tt
        end
      end
  end.

Definition dump_fuel : nat := 1.
Definition dump : Z -> bytes -> bytes -> M unit := send_dump_message dump_fuel.
(** ** The interface to send *)

Definition send_message name tag data : M bool := push_message_to_send_queue dump name MESSAGE_TYPE_NOTIFY tag data.

Definition context_handle (transaction_id service_name_len : Z) : bytes :=
  host_encode 4 (htonl transaction_id) ++ host_encode 2 (htons service_name_len) ++ zeros 2.

(** The padding of a handle is not set: zeros stand for what [xmalloc] leaves. *)
Definition send_request_message (to_service_name from_service_name : bytes) tag data (user_data : Z) : M bool :=
  let! transaction_id := insert_context user_data in
  push_message_to_send_queue dump to_service_name MESSAGE_TYPE_REQUEST tag
    (context_handle transaction_id (u16 (blen (c_string from_service_name) + 1)) ++ (c_string from_service_name ++ [zero]) ++ data).

Definition send_reply_message (transaction_id : Z) name tag data : M bool :=
  push_message_to_send_queue dump name MESSAGE_TYPE_REPLY tag (context_handle transaction_id 0 ++ data).

Definition clear_send_queue name : M bool :=
  let! table := gets send_queues in
  match table with
  | None => ret false
  | Some _ =>
    let! found := lookup_queue table name in
    match found with
    | None => ret false
    | Some sq =>
      let! q := load_sq sq in
      match sq_buffer q with
      | None => ret false
      | Some b =>
        let! _ := if 0 <? data_length b then event (fun e => EventHandler.set_writable e (server_socket q) false) else ret tt in
        let! _ := store_sq sq (set_sq_buffer q (Some (MessageBuffer (buffer b) 0 (buffer_size b) 0))) in
        ret true
      end
    end
  end.

Definition delete_send_queue sq : M unit :=
  let! q := load_sq sq in
  let! _ := checked_buffer q in
  let! _ := if server_socket q =? -1 then ret tt else remove_fd (server_socket q) true in
  let! table := gets send_queues in
  let! _ :=
    match table with
    | None => ret tt
    | Some t =>
      let! (_, t) := lift (delete_hash_entry (H := string_key) None t (sq_service_name q)) in
      modify (fun m => set_send_queues m (Some t) (sq_heap m))
    end in
  free_sq sq.

(** The peer closes, or sends what a queue does not expect. *)
Definition on_send_read sq : M unit :=
  let! q := load_sq sq in
  let! r := sys (recv (server_socket q) 256) in
  let closed := match r with RecvFailed _ => true | Recv data => blen data =? 0 end in
  if negb closed then ret tt
  else
    let! _ := dump MESSENGER_DUMP_SEND_CLOSED (sq_service_name q) [] in
    let! _ := remove_fd (server_socket q) true in
    let! _ := update_sq sq (fun q => set_server_socket q (-1)) in
    let! q := load_sq sq in
    let! b := the_buffer q in
    if 0 <? data_length b then let! _ := send_queue_try_connect dump sq in ret tt else delete_send_queue sq.

(** An iterator over the table while the queues are deleted. *)
Fixpoint delete_all_loop (fuel : nat) (iter : hash_iterator (K := bytes) (V := option positive)) : M unit :=
  match fuel with
  | O => fault OutOfFuel
  | S fuel =>
    let! table := gets send_queues in
    match table with
    | None => fault AssertFailed
    | Some t =>
      let! (e, iter) := lift (iterate_hash_next t iter) in
      match e with
      | None => ret tt
      | Some e =>
        let! _ := match value e with Some sq => delete_send_queue sq | None => fault NullPointer end in
        delete_all_loop fuel iter
      end
    end
  end.

Definition delete_all_send_queues : M unit :=
  let! table := gets send_queues in
  match table with
  | None => ret tt
  | Some t =>
    let! iter := lift (init_hash_iterator t) in
    let! h := gets sq_heap in
    let! _ := delete_all_loop (S (size h)) iter in
    let! table := gets send_queues in
    let! _ := match table with Some t => let! _ := lift (delete_hash t) in ret tt | None => fault AssertFailed end in
    modify (fun m => set_send_queues m None (sq_heap m))
  end.

(** Counts of connected, sending, reconnecting and closed queues. *)
Record queue_counts : Type := QueueCounts { connected_count : Z; sending_count : Z; reconnecting_count : Z; closed_count : Z }.

Definition count_queue (h : gmap positive send_queue) (value : option positive) (c : res queue_counts) : res queue_counts :=
  let* c := c in
  match value ≫= fun sq => h !! sq with
  | None => Fault OutOfBounds
  | Some q =>
    let '(QueueCounts connected sending reconnecting closed) := c in
    if server_socket q =? -1 then Ok (QueueCounts connected sending reconnecting (closed + 1))
    else
      match sq_buffer q with
      | None => Fault NullPointer
      | Some b =>
        if data_length b =? 0 then Ok (QueueCounts (connected + 1) sending reconnecting closed)
        else if 0 <? refused_count q then Ok (QueueCounts connected sending (reconnecting + 1) closed)
        else Ok (QueueCounts connected (sending + 1) reconnecting closed)
      end
  end.

Definition number_of_send_queue : M queue_counts :=
  let! table := gets send_queues in
  let! h := gets sq_heap in
  match table with
  | None => ret (QueueCounts 0 0 0 0)
  | Some t => lift (let* c := foreach_hash t (fun _ value c => count_queue h value c) (Ok (QueueCounts 0 0 0 0)) in c)
  end.

(** [run_event_handler_once] is an argument: it calls the functions below. *)
Fixpoint flush_messenger (run_event_handler_once : M unit) (fuel : nat) : M Z :=
  match fuel with
  | O => fault OutOfFuel
  | S fuel =>
    let! c := number_of_send_queue in
    if sending_count c =? 0 then ret (reconnecting_count c)
    else let! _ := run_event_handler_once in flush_messenger run_event_handler_once fuel
  end.

(** ** Queues of received messages *)

Fixpoint close_clients name (fds : list Z) : M unit :=
  match fds with
  | [] => ret tt
  | fd :: fds =>
    let! _ := remove_fd fd false in
    let! _ := dump MESSENGER_DUMP_RECV_CLOSED name [] in
    close_clients name fds
  end.

Definition delete_receive_queue rq : M unit :=
  let! r := load_rq rq in
  let! _ := close_clients (rq_service_name r) (client_sockets r) in
  let! _ := remove_fd (listen_socket r) false in
  let! _ := sys (unlink (listen_addr r)) in
  let! table := gets receive_queues in
  let! _ :=
    match table with
    | None => ret tt
    | Some t =>
      let! (_, t) := lift (delete_hash_entry (H := string_key) None t (rq_service_name r)) in
      modify (fun m => set_receive_queues m (Some t) (rq_heap m))
    end in
  free_rq rq.

(** [foreach_hash], as for the contexts. *)
Fixpoint delete_receive_entries (es : list (hash_entry bytes (option positive))) : M unit :=
  match es with
  | [] => ret tt
  | e :: es =>
    let! _ := match value e with Some rq => delete_receive_queue rq | None => fault AssertFailed end in
    delete_receive_entries es
  end.

Fixpoint delete_receive_buckets (nonempty : list (positive * Z)) : M unit :=
  match nonempty with
  | [] => ret tt
  | (_, i) :: nonempty =>
    let! table := gets receive_queues in
    match table with
    | None => fault AssertFailed
    | Some t =>
      let! b := lift (get_bucket t i) in
      let! _ := match b with Some b => delete_receive_entries (entries b) | None => ret tt end in
      delete_receive_buckets nonempty
    end
  end.

Definition delete_all_receive_queues : M unit :=
  let! table := gets receive_queues in
  match table with
  | None => ret tt
  | Some t =>
    let! _ := delete_receive_buckets (nonempty_bucket_index t) in
    let! table := gets receive_queues in
    let! _ := match table with Some t => let! _ := lift (delete_hash t) in ret tt | None => fault AssertFailed end in
    modify (fun m => set_receive_queues m None (rq_heap m))
  end.

(** The socket that listens at [path]. *)
Definition open_listen_socket path : M (option Z) :=
  let! fd := sys socket in
  match fd with
  | None => ret None
  | Some fd =>
    let! _ := sys (unlink path) in
    let! ok := sys (bind_socket fd path) in
    let! ok := if ok : bool then sys (listen fd) else ret false in
    let! ok := if ok : bool then sys (set_nonblock fd) else ret false in
    if ok : bool then ret (Some fd) else let! _ := sys (close fd) in ret None
  end.

Definition create_receive_queue name : M (option positive) :=
  let! _ := lift (assert (blen (c_string name) <? MESSENGER_SERVICE_NAME_LENGTH)) in
  let! table := gets receive_queues in
  let! found := lookup_queue table name in
  match found with
  | Some rq => ret (Some rq)
  | None =>
    let! h := gets rq_heap in
    let rq := fresh (dom h) in
    let! directory := gets socket_directory in
    let! path := lift (socket_path directory name) in
    let! fd := open_listen_socket path in
    match fd with
    | None => ret None
    | Some fd =>
      let! _ := event (fun e => set_fd_handler e fd (Some (on_accept_of rq)) None) in
      let! _ := event (fun e => EventHandler.set_readable e fd true) in
      let! b := allocate_message_buffer messenger_recv_queue_length in
      let! _ := store_rq rq (ReceiveQueue (copy_name name) [] fd path [] b) in
      match table with
      | None => fault AssertFailed
      | Some t =>
        let! (_, t) := lift (insert_hash_entry (H := string_key) None t (copy_name name) (Some rq)) in
        let! _ := modify (fun m => set_receive_queues m (Some t) (rq_heap m)) in
        ret (Some rq)
      end
    end
  end.

Definition add_message_callback name (message_type callback : Z) : M bool :=
  let! table := gets receive_queues in
  let! found := lookup_queue table name in
  let! found := match found with Some rq => ret (Some rq) | None => create_receive_queue name end in
  match found with
  | None => ret false
  | Some rq =>
    let! r := load_rq rq in
    let! _ := store_rq rq (set_message_callbacks r (ReceiveQueueCallback callback message_type :: message_callbacks r)) in
    ret true
  end.

Fixpoint remove_callback (l : list receive_queue_callback) (message_type callback : Z) : option (list receive_queue_callback) :=
  match l with
  | [] => None
  | cb :: l =>
    if (callback_function cb =? callback) && (callback_type cb =? message_type) then Some l
    else cons cb <$> remove_callback l message_type callback
  end.

Definition delete_message_callback name (message_type callback : Z) : M bool :=
  let! table := gets receive_queues in
  match table with
  | None => ret false
  | Some _ =>
    let! found := lookup_queue table name in
    match found with
    | None => ret false
    | Some rq =>
      let! r := load_rq rq in
      match remove_callback (message_callbacks r) message_type callback with
      | None => ret false
      | Some l =>
        let! _ := store_rq rq (set_message_callbacks r l) in
        let! _ := match l with [] => delete_receive_queue rq | _ => ret tt end in
        ret true
      end
    end
  end.

Fixpoint add_callbacks name (l : list receive_queue_callback) : M unit :=
  match l with
  | [] => ret tt
  | cb :: l =>
    let! _ := add_message_callback name (callback_type cb) (callback_function cb) in
    add_callbacks name l
  end.

Definition rename_message_callback (old_service_name new_service_name : bytes) : M bool :=
  let! table := gets receive_queues in
  let! old_rq := lookup_queue table old_service_name in
  let! new_rq := lookup_queue table new_service_name in
  match old_rq, new_rq with
  | None, _ => ret false
  | Some _, Some _ => ret false
  | Some old_rq, None =>
    let! r := load_rq old_rq in
    let! _ := add_callbacks new_service_name (message_callbacks r) in
    let! _ := delete_receive_queue old_rq in
    ret true
  end.

(** The interface, by the type of message. *)
Definition add_message_received_callback name (callback : Z) : M bool := add_message_callback name MESSAGE_TYPE_NOTIFY callback.
Definition add_message_requested_callback name (callback : Z) : M bool := add_message_callback name MESSAGE_TYPE_REQUEST callback.
Definition add_message_replied_callback name (callback : Z) : M bool := add_message_callback name MESSAGE_TYPE_REPLY callback.
Definition delete_message_received_callback name (callback : Z) : M bool := delete_message_callback name MESSAGE_TYPE_NOTIFY callback.
Definition delete_message_requested_callback name (callback : Z) : M bool := delete_message_callback name MESSAGE_TYPE_REQUEST callback.
Definition delete_message_replied_callback name (callback : Z) : M bool := delete_message_callback name MESSAGE_TYPE_REPLY callback.
Definition rename_message_received_callback (old_service_name new_service_name : bytes) : M bool :=
  rename_message_callback old_service_name new_service_name.
Definition rename_message_requested_callback (old_service_name new_service_name : bytes) : M bool :=
  rename_message_callback old_service_name new_service_name.

(** *** Connections *)

Definition add_recv_queue_client_fd rq (fd : Z) : M unit :=
  let! _ := lift (assert (0 <=? fd)) in
  let! r := load_rq rq in
  let! _ := store_rq rq (set_client_sockets r (fd :: client_sockets r)) in
  let! _ := event (fun e => set_fd_handler e fd (Some (on_recv_of rq)) None) in
  event (fun e => EventHandler.set_readable e fd true).

Definition on_accept (fd : Z) rq : M unit :=
  let! client := sys (accept fd) in
  match client with
  | None => ret tt
  | Some client_fd =>
    let! root := sys is_root in
    let! ok := if root : bool then sys (set_buffer_size client_fd) else ret true in
    let! ok := if ok : bool then sys (set_nonblock client_fd) else ret false in
    if negb ok then sys (close client_fd)
    else
      let! _ := add_recv_queue_client_fd rq client_fd in
      let! r := load_rq rq in
      dump MESSENGER_DUMP_RECV_CONNECTED (rq_service_name r) []
  end.

Fixpoint remove_client (fd : Z) (l : list Z) : option (list Z) :=
  match l with
  | [] => None
  | x :: l => if x =? fd then Some l else cons x <$> remove_client fd l
  end.

Definition del_recv_queue_client_fd rq (fd : Z) : M Z :=
  let! _ := lift (assert (0 <=? fd)) in
  let! r := load_rq rq in
  match remove_client fd (client_sockets r) with
  | None => ret 0
  | Some l =>
    let! _ := event (fun e => EventHandler.set_readable e fd false) in
    let! _ := event (fun e => delete_fd_handler e fd) in
    let! _ := store_rq rq (set_client_sockets r l) in
    ret 1
  end.

(** *** Messages *)

(** The length is that of the message, the data at most [maxlen] bytes of it. *)
Definition pull_from_recv_queue (b : message_buffer) (maxlen : Z) : res (option (Z * Z * bytes * Z) * message_buffer) :=
  if data_length b <? sizeof_message_header then Ok (None, b)
  else
    let* header := get_message_buffer_head b 0 sizeof_message_header in
    let* length := ld_ntoh 4 header 4 in
    let* _ := assert (negb (length =? 0)) in
    let* _ := assert (length <? messenger_recv_queue_length) in
    if data_length b <? length then Ok (None, b)
    else
      let* message_type := ld8 header 1 in
      let* tag := ld_ntoh 2 header 2 in
      let len := u64 (length - sizeof_message_header) in
      let* data := get_message_buffer_head b sizeof_message_header (if maxlen <? len then maxlen else len) in
      let* b := truncate_message_buffer b length in
      Ok (Some (message_type, tag, data, len), b).

(** The fields of a handle, converted in place. *)
Definition convert_handle data : res (Z * Z * bytes) :=
  let* transaction_id := ld_ntoh 4 data 0 in
  let* service_name_len := ld_ntoh 2 data 4 in
  let* data := st 4 data 0 transaction_id in
  let* data := st 2 data 4 service_name_len in
  Ok (transaction_id, service_name_len, data).

Definition call_callback (function message_type tag : Z) data len : M bytes :=
  if message_type =? MESSAGE_TYPE_NOTIFY then
    let! _ := modify (fun m => log_call m (Received function tag data len)) in ret data
  else if message_type =? MESSAGE_TYPE_REQUEST then
    let! (transaction_id, service_name_len, data) := lift (convert_handle data) in
    let header_len := sizeof_messenger_context_handle + service_name_len in
    let! _ := modify (fun m => log_call m (Requested function transaction_id service_name_len
                (c_string (drop (Z.to_nat sizeof_messenger_context_handle) data)) tag (drop (Z.to_nat header_len) data) (u64 (len - header_len)))) in
    ret data
  else if message_type =? MESSAGE_TYPE_REPLY then
    let! (transaction_id, _, data) := lift (convert_handle data) in
    let! context := get_context transaction_id in
    match context with
    | None => ret data
    | Some context =>
      let! h := gets context_heap in
      let! c := lift (match h !! context with Some c => Ok c | None => Fault OutOfBounds end) in
      let! _ := modify (fun m => log_call m (Replied function tag (drop (Z.to_nat sizeof_messenger_context_handle) data)
                  (u64 (len - sizeof_messenger_context_handle)) (context_user_data c))) in
      let! _ := delete_context context in
      ret data
    end
  else fault AssertFailed.

Fixpoint call_callbacks (l : list receive_queue_callback) (message_type tag : Z) data len : M unit :=
  match l with
  | [] => ret tt
  | cb :: l =>
    let! data := if callback_type cb =? message_type then call_callback (callback_function cb) message_type tag data len else ret data in
    call_callbacks l message_type tag data len
  end.

Definition call_message_callbacks rq (message_type tag : Z) data len : M unit :=
  let! r := load_rq rq in call_callbacks (message_callbacks r) message_type tag data len.

(** The first loop of [on_recv]: each [recv] gives a byte at least, and stops
    when half of the queue is full. *)
Fixpoint recv_loop (fuel : nat) (fd : Z) rq : M unit :=
  match fuel with
  | O => fault OutOfFuel
  | S fuel =>
    let! r := load_rq rq in
    let buf_len := message_buffer_remain_bytes (rq_buffer r) in
    if buf_len <=? messenger_recv_queue_reserved then ret tt
    else
      let buf_len := if MESSENGER_RECV_BUFFER <? buf_len then MESSENGER_RECV_BUFFER else buf_len in
      let! result := sys (recv fd buf_len) in
      let closed := 
        let! _ := dump MESSENGER_DUMP_RECV_CLOSED (rq_service_name r) [] in
        let! _ := del_recv_queue_client_fd rq fd in
        sys (close fd) in
      match result with
      | RecvFailed again => if again then ret tt else closed
      | Recv data =>
        if blen data =? 0 then closed
        else
          let! (written, b) := lift (write_message_buffer (rq_buffer r) data) in
          let! _ := store_rq rq (set_rq_buffer r b) in
          let! _ := dump (if written : bool then MESSENGER_DUMP_RECEIVED else MESSENGER_DUMP_RECV_OVERFLOW) (rq_service_name r) data in
          recv_loop fuel fd rq
      end
  end.

Fixpoint pull_loop (fuel : nat) rq : M unit :=
  match fuel with
  | O => fault OutOfFuel
  | S fuel =>
    let! r := load_rq rq in
    let! (message, b) := lift (pull_from_recv_queue (rq_buffer r) MESSENGER_RECV_BUFFER) in
    match message with
    | None => ret tt
    | Some (message_type, tag, data, len) =>
      let! _ := store_rq rq (set_rq_buffer r b) in
      let! _ := call_message_callbacks rq message_type tag data len in
      pull_loop fuel rq
    end
  end.

Definition on_recv (fd : Z) rq : M unit :=
  let! _ := lift (assert (0 <=? fd)) in
  let! _ := recv_loop (S (Z.to_nat messenger_recv_queue_length)) fd rq in
  pull_loop (S (Z.to_nat messenger_recv_queue_length)) rq.

(** ** Start and end *)

Definition stop_messenger_dump : M unit :=
  let! names := gets dump_names in
  match names with
  | None => fault AssertFailed
  | Some (dump_service_name, _) =>
    let! table := gets send_queues in
    let! found := lookup_queue table dump_service_name in
    let! _ := match found with Some sq => delete_send_queue sq | None => ret tt end in
    modify (fun m => set_dump_names m None)
  end.

Definition messenger_dump_enabled : M bool :=
  let! names := gets dump_names in ret (match names with Some _ => true | None => false end).

Definition start_messenger_dump (dump_app_name dump_service_name : bytes) : M unit :=
  let! enabled := messenger_dump_enabled in
  let! _ := if enabled : bool then stop_messenger_dump else ret tt in
  modify (fun m => set_dump_names m (Some (c_string dump_service_name, c_string dump_app_name))).

(** [age_context_db] runs every 10 seconds. *)
Definition start_messenger : M bool :=
  let! _ := add_timer (Timespec 10 0) (Timespec 0 0) age_context_db_timer in ret true.

Definition stop_messenger : M bool := ret true.

Definition init_messenger (working_directory : bytes) : M bool :=
  let! _ := event (fun e => Ok (init_event_handler e)) in
  let! already := gets initialized in
  if already : bool then ret true
  else
    let! _ := modify (fun m => Messenger true false (c_string working_directory) (Some (create_hash_with_size 8)) (rq_heap m)
      (Some (create_hash_with_size 8)) (sq_heap m) (Some (create_hash_with_size 128)) (context_heap m) (dump_names m)
      (last_transaction_id m) (events m) (timers m) (called m)) in
    ret true.

Definition finalize_messenger : M bool :=
  let! i := gets initialized in
  let! f := gets finalized in
  if negb i then ret false
  else if f : bool then ret true
  else
    let! enabled := messenger_dump_enabled in
    let! _ := if enabled : bool then stop_messenger_dump else ret tt in
    let! _ := delete_all_receive_queues in
    let! _ := delete_all_send_queues in
    let! _ := delete_context_db in
    let! _ := modify (fun m => Messenger false true (socket_directory m) (receive_queues m) (rq_heap m) (send_queues m) (sq_heap m)
      (context_db m) (context_heap m) (dump_names m) (last_transaction_id m) (events m) (timers m) (called m)) in
    let! _ := event (fun e => Ok (finalize_event_handler e)) in
    ret true.

(** ** Who is called *)

Definition call_fd_callback (c : fd_callback) (fd : Z) : M unit :=
  match c with
  | on_accept_of rq => on_accept fd rq
  | on_recv_of rq => on_recv fd rq
  | on_send_read_of sq => on_send_read sq
  | on_send_write_of sq => on_send_write dump fd sq
  end.

Definition call_timer (f : timer_function) : M unit :=
  match f with
  | send_queue_connect_timeout_of sq => let! _ := send_queue_connect_timeout dump sq in ret tt
  | age_context_db_timer => age_context_db
  end.
End Messenger.

(** The static variables before [init_messenger]. *)
Definition zero_messenger : messenger :=
  Messenger false false [] None ∅ None ∅ None ∅ None 0 zero_event_handler None [].
