(* ===== verification/Delivery.v ===== *)
(** Messages from one process to another: messenger.c on both sides of a
    socket.

    The socket is a sequence of packets, as [SOCK_SEQPACKET] gives: the sender
    puts whole packets in while there is room for them, the receiver takes them
    out one by one, cut to the length it asks for.  The theorem is about
    notifications; the states of the two processes are what messenger.c leaves
    when the connection has been made and the dump service is off. *)

From Stdlib Require Import ZArith Lia Bool.
From coqutil Require Import Byte.
From stdpp Require Import base list gmap.
From S2P Require Import Prelude Memory StateMonad HashTable Utility EventHandler Timer MessageBuffer Messenger.

(** * Messages on the wire *)

Record notification : Type := Notification { n_tag : Z; n_data : bytes }.

Implicit Types (n : notification) (ns : list notification).

Definition message_length n : Z := sizeof_message_header + blen (n_data n).

Section Wire.
Context {host : Host}.

Definition wire n : bytes := message_header MESSAGE_TYPE_NOTIFY (n_tag n) (message_length n) ++ n_data n.
Definition wires ns : bytes := concat (map wire ns).

(** A message that fits in the buffer that the receiver reads into. *)
Definition sendable n : Prop := fits 2 (n_tag n) /\ message_length n <= MESSENGER_RECV_BUFFER.

Lemma message_length_bounds n : sendable n -> 8 <= message_length n <= 100000.
Proof. intros [_ H]. unfold message_length, sizeof_message_header, MESSENGER_RECV_BUFFER in *. pose proof (blen_nonneg (n_data n)). lia. Qed.

Lemma wire_layout n : wire n = be_encode 1 0 ++ be_encode 1 MESSAGE_TYPE_NOTIFY ++ be_encode 2 (n_tag n) ++ be_encode 4 (message_length n) ++ n_data n.
Proof. unfold wire, message_header. rewrite !host_encode_1. unfold htons, htonl. rewrite !host_encode_hton. by rewrite <- !app_assoc. Qed.

Lemma blen_header type tag length : blen (message_header type tag length) = sizeof_message_header.
Proof. unfold message_header. rewrite !blen_app, !blen_host_encode. done. Qed.

Lemma blen_wire n : blen (wire n) = message_length n.
Proof. unfold wire. by rewrite blen_app, blen_header. Qed.

Lemma wires_cons n ns : wires (n :: ns) = wire n ++ wires ns.
Proof. done. Qed.

Lemma wires_app ns1 ns2 : wires (ns1 ++ ns2) = wires ns1 ++ wires ns2.
Proof. unfold wires. by rewrite map_app, concat_app. Qed.

Lemma wires_last ns n : blen (wires (ns ++ [n])) = blen (wires ns) + message_length n.
Proof. rewrite wires_app, blen_app. unfold wires at 2. cbn [map concat]. by rewrite app_nil_r, blen_wire. Qed.

Lemma header_length n : sendable n -> ld_ntoh 4 (message_header MESSAGE_TYPE_NOTIFY (n_tag n) (message_length n)) 4 = Ok (message_length n).
Proof.
  intros H. pose proof (message_length_bounds n H). unfold message_header. rewrite !host_encode_1. unfold htons, htonl. rewrite !host_encode_hton.
  do 3 (rewrite ld_ntoh_skip by (rewrite ?blen_be_encode; lia)). rewrite !blen_be_encode. apply ld_ntoh_last; [lia |]. unfold fits. lia.
Qed.

Lemma header_tag n : sendable n -> ld_ntoh 2 (message_header MESSAGE_TYPE_NOTIFY (n_tag n) (message_length n)) 2 = Ok (n_tag n).
Proof.
  intros [Ht _]. unfold message_header. rewrite !host_encode_1. unfold htons, htonl. rewrite !host_encode_hton.
  do 2 (rewrite ld_ntoh_skip by (rewrite ?blen_be_encode; lia)). rewrite !blen_be_encode. by apply ld_ntoh_wire.
Qed.

Lemma header_type n : ld8 (message_header MESSAGE_TYPE_NOTIFY (n_tag n) (message_length n)) 1 = Ok MESSAGE_TYPE_NOTIFY.
Proof.
  unfold message_header. rewrite !host_encode_1. rewrite ld_skip by (rewrite blen_be_encode; lia). rewrite blen_be_encode. by apply ld8_wire.
Qed.

(** ** The receiver takes a message out of the buffer *)

Lemma pull_ok b n ns : sendable n -> holds b (wires (n :: ns)) messenger_recv_queue_length ->
  exists b', pull_from_recv_queue b MESSENGER_RECV_BUFFER = Ok (Some (MESSAGE_TYPE_NOTIFY, n_tag n, n_data n, blen (n_data n)), b') /\
    holds b' (wires ns) messenger_recv_queue_length.
Proof.
  intros Hn H. pose proof (message_length_bounds n Hn) as Hb. pose proof (holds_length _ _ _ H) as (Hl & Hle & _).
  rewrite wires_cons, blen_app, blen_wire in Hl, Hle. pose proof (blen_nonneg (wires ns)). pose proof (blen_nonneg (n_data n)).
  unfold pull_from_recv_queue. rewrite Hl. replace (message_length n + blen (wires ns) <? sizeof_message_header) with false by (unfold sizeof_message_header; lia).
  rewrite (head_bytes_ok b [] (message_header MESSAGE_TYPE_NOTIFY (n_tag n) (message_length n)) (n_data n ++ wires ns) messenger_recv_queue_length);
    [| cbn [app]; by rewrite app_assoc | done | by rewrite blen_header].
  bind_ok. rewrite header_length by done. bind_ok. unfold assert.
  replace (negb (message_length n =? 0)) with true by lia. bind_ok.
  replace (message_length n <? messenger_recv_queue_length) with true by (unfold messenger_recv_queue_length, MESSENGER_RECV_BUFFER; lia). bind_ok.
  replace (message_length n + blen (wires ns) <? message_length n) with false by lia.
  rewrite header_type, header_tag by done. bind_ok.
  assert (Elen : message_length n - sizeof_message_header = blen (n_data n)) by (unfold message_length; lia).
  rewrite Elen, u64_id by (unfold sizeof_message_header in Elen; lia). destruct Hn as [_ Hmax].
  replace (MESSENGER_RECV_BUFFER <? blen (n_data n)) with false by (unfold message_length, sizeof_message_header in Hmax; lia).
  rewrite (head_bytes_ok b (message_header MESSAGE_TYPE_NOTIFY (n_tag n) (message_length n)) (n_data n) (wires ns) messenger_recv_queue_length);
    [| by rewrite wires_cons in H; unfold wire in H; rewrite <- app_assoc in H | by rewrite blen_header | done].
  bind_ok. destruct (truncate_message_ok b _ _ (message_length n) H) as (b' & -> & H'); [lia |]. bind_ok. exists b'. split; [done |].
  rewrite wires_cons in H'. replace (Z.to_nat (message_length n)) with (length (wire n)) in H' by (rewrite <- blen_wire; unfold blen; lia).
  by rewrite drop_app_length in H'.
Qed.

Lemma pull_nothing b : holds b [] messenger_recv_queue_length -> pull_from_recv_queue b MESSENGER_RECV_BUFFER = Ok (None, b).
Proof. intros H. unfold pull_from_recv_queue. by rewrite (proj1 (holds_length _ _ _ H)). Qed.

(** ** The sender chooses whole messages *)

Lemma blen_wires_lower ns : Forall sendable ns -> 8 * Z.of_nat (length ns) <= blen (wires ns).
Proof.
  induction 1 as [| n ns Hn _ IH]; [done |]. rewrite wires_cons, blen_app, blen_wire. pose proof (message_length_bounds n Hn). cbn [length]. lia.
Qed.

(** [before] is what has been sent already, [chosen] what has been chosen. *)
Lemma send_data_loop_ok fuel b bucket before chosen ns :
  holds b (wires (before ++ chosen ++ ns)) messenger_send_queue_length -> Forall sendable (before ++ chosen ++ ns) ->
  bucket <= messenger_bucket_size -> (chosen <> [] -> blen (wires chosen) <= bucket) -> (length ns < fuel)%nat ->
  exists more rest, ns = more ++ rest /\
    send_data_loop fuel b bucket (blen (wires (before ++ chosen))) (blen (wires chosen)) = Ok (blen (wires (chosen ++ more))) /\
    blen (wires (chosen ++ more)) <= messenger_bucket_size /\ (chosen ++ ns <> [] -> chosen ++ more <> []).
Proof.
  intros H Hall Hbucket Hchosen. revert chosen ns H Hall Hchosen.
  induction fuel as [| fuel IH]; intros chosen ns H Hall Hchosen Hfuel; [lia |]. cbn [send_data_loop].
  pose proof (holds_length _ _ _ H) as (Hl & Hle & _). rewrite app_assoc, wires_app, blen_app in Hl, Hle.
  pose proof (blen_nonneg (wires (before ++ chosen))). pose proof (blen_nonneg (wires ns)). unfold messenger_send_queue_length, MESSENGER_RECV_BUFFER in Hle.
  rewrite Hl, u64_id by lia. replace (_ + blen (wires ns) - _) with (blen (wires ns)) by lia.
  unfold messenger_bucket_size, MESSENGER_RECV_BUFFER in *.
  destruct ns as [| n ns].
  { exists [], []. split; [done |]. rewrite !app_nil_r. split; [done |]. split; [| done].
    destruct chosen as [| x chosen]; [done |]. specialize (Hchosen ltac:(done)). lia. }
  assert (Hn : sendable n) by (apply Forall_app in Hall as [_ Hall]; apply Forall_app in Hall as [_ Hall]; by apply Forall_cons in Hall as [? _]).
  pose proof (message_length_bounds n Hn) as Hb. rewrite wires_cons, blen_app, blen_wire in *. pose proof (blen_nonneg (wires ns)).
  replace (message_length n + blen (wires ns) <? sizeof_message_header) with false by (unfold sizeof_message_header; lia).
  rewrite (head_bytes_ok b (wires (before ++ chosen)) (message_header MESSAGE_TYPE_NOTIFY (n_tag n) (message_length n)) (n_data n ++ wires ns) messenger_send_queue_length);
    [| rewrite app_assoc, wires_app, wires_cons in H; unfold wire in H; by rewrite <- app_assoc in H | done | by rewrite blen_header].
  bind_ok. rewrite header_length by done. bind_ok. unfold assert. replace (negb (message_length n =? 0)) with true by lia. bind_ok.
  replace (message_length n <? messenger_recv_queue_length) with true by (unfold messenger_recv_queue_length, MESSENGER_RECV_BUFFER; lia). bind_ok.
  pose proof (blen_nonneg (wires chosen)).
  assert (Hcb : blen (wires chosen) <= 100000) by (destruct chosen; [cbn; unfold blen; cbn; lia | specialize (Hchosen ltac:(done)); lia]).
  unfold u32. rewrite Z.mod_small by lia.
  pose proof (wires_last chosen n) as Esum.
  destruct (Z.ltb_spec bucket (blen (wires chosen) + message_length n)) as [Hfull | Hroom].
  - destruct (Z.eqb_spec (blen (wires chosen)) 0) as [E0 | E0].
    + assert (chosen = []) as ->.
      { destruct chosen as [| x chosen]; [done |]. apply Forall_app in Hall as [_ Hall]. apply Forall_app in Hall as [Hall _].
        pose proof (blen_wires_lower _ Hall). cbn [length] in *. lia. }
      exists [n], ns. split; [done |]. cbn [app]. split; [f_equal; by cbn in Esum |]. cbn [app] in Esum. rewrite Esum. split; [lia | done].
    + exists [], (n :: ns). split; [done |]. rewrite app_nil_r. split; [done |]. split; [lia |]. intros _ ->. done.
  - assert (E1 : u64 (blen (wires (before ++ chosen)) + message_length n) = blen (wires (before ++ chosen ++ [n]))).
    { rewrite u64_id by lia. by rewrite (app_assoc before), wires_last. }
    rewrite E1, <- Esum. destruct (IH (chosen ++ [n]) ns) as (more & rest & -> & E & Hsize & Hne).
    + by rewrite <- app_assoc.
    + by rewrite <- app_assoc.
    + intros _. lia.
    + cbn [length] in Hfuel. lia.
    + exists (n :: more), rest. split; [done |]. rewrite <- app_assoc in E, Hsize, Hne. cbn [app] in *. split; [exact E |]. split; [done |].
      intros _ Hnil. by apply app_nil in Hnil as [_ Hnil].
Qed.
End Wire.

(** ** Steps of the monad *)

Section Run.
Context {host : Host} {W : Type} `{System W}.

Lemma dump_off type name data (s : messenger * W) : dump_names s.1 = None -> dump type name data s = Ok (tt, s).
Proof. intros E. unfold dump, dump_fuel. cbn [send_dump_message]. unfold mbind, gets. cbn [bind]. by rewrite E. Qed.

Lemma load_sq_run sq q (s : messenger * W) : sq_heap s.1 !! sq = Some q -> load_sq sq s = Ok (q, s).
Proof. intros E. unfold load_sq, mbind, gets, lift. cbn [bind]. by rewrite E. Qed.

Lemma store_sq_run sq q m (w : W) : store_sq sq q (m, w) = Ok (tt, (set_send_queues m (send_queues m) (<[sq := q]> (sq_heap m)), w)).
Proof. done. Qed.

Lemma load_rq_run rq r (s : messenger * W) : rq_heap s.1 !! rq = Some r -> load_rq rq s = Ok (r, s).
Proof. intros E. unfold load_rq, mbind, gets, lift. cbn [bind]. by rewrite E. Qed.

Lemma store_rq_run rq r m (w : W) : store_rq rq r (m, w) = Ok (tt, (set_receive_queues m (receive_queues m) (<[rq := r]> (rq_heap m)), w)).
Proof. done. Qed.

Lemma event_run f m (w : W) h : f (events m) = Ok h -> event f (m, w) = Ok (tt, (set_event_handler m h, w)).
Proof. intros E. unfold event, mbind, gets, lift, modify. cbn [bind fst snd]. by rewrite E. Qed.
End Run.

(** * The socket between the two *)

Record link : Type := Link { packets : list bytes; room : nat }.

Section Link.
Context {host : Host} (used : link -> option Z).
Implicit Types (m : messenger) (l : link) (gs : list (list notification)).

(** What the proof does not use fails. *)
#[local] Instance link_system : System link := {|
  xmalloc k l := (zeros (Z.to_nat k), l);
  socket l := (None, l);
  is_root l := (false, l);
  set_buffer_size _ l := (false, l);
  set_nonblock _ l := (false, l);
  bind_socket _ _ l := (false, l);
  listen _ l := (false, l);
  unlink _ l := (tt, l);
  accept _ l := (None, l);
  connect _ _ l := (false, l);
  get_send_buffer_size _ l := (None, l);
  get_send_buffer_used _ l := (used l, l);
  recv _ k l := match packets l with
                | [] => (RecvFailed true, l)
                | p :: ps => (Recv (take (Z.to_nat k) p), Link ps (room l))
                end;
  send _ data l := match room l with
                   | O => (SendFailed Again, l)
                   | S r => (Sent (blen data), Link (packets l ++ [data]) r)
                   end;
  close _ l := (tt, l);
  clock_monotonic l := (None, l);
  clock_realtime l := (None, l)
|}.

Abbreviation state := (messenger * link)%type.

(** A packet: messages, at least one, that fit in the buffer of the receiver. *)
Definition packet (g : list notification) : Prop := g <> [] /\ Forall sendable g /\ blen (wires g) <= MESSENGER_RECV_BUFFER.

(** ** The sender *)

Record sending m (name : bytes) (sq : positive) (fd : Z) ns : Prop := {
  sd_table : exists t, send_queues m = Some t /\ lookup_hash_entry (H := string_key) None t name = Ok (Some sq);
  sd_queue : exists q b, sq_heap m !! sq = Some q /\ sq_buffer q = Some b /\ server_socket q = fd /\
    holds b (wires ns) messenger_send_queue_length;
  sd_fd : fd <> -1;
  sd_dump : dump_names m = None;
  sd_events : wf_handler (events m);
  sd_sendable : Forall sendable ns
}.

(** The queue after a store of its buffer. *)
Lemma store_sending m name sq fd ns ns' q b : sending m name sq fd ns -> sq_buffer q = Some b -> server_socket q = fd ->
  holds b (wires ns') messenger_send_queue_length -> Forall sendable ns' ->
  sending (set_send_queues m (send_queues m) (<[sq := q]> (sq_heap m))) name sq fd ns'.
Proof.
  intros [Ht Hq Hfd Hd He Hs] Hb Hsock Hh Hs'. split; cbn; try done. exists q, b. by rewrite lookup_insert_eq.
Qed.

Lemma set_writable_run m name sq fd ns f (b : bool) l : sending m name sq fd ns ->
  exists m', event (fun e => EventHandler.set_writable e f b) (m, l) = Ok (tt, (m', l)) /\ sending m' name sq fd ns /\
    sq_heap m' = sq_heap m.
Proof.
  intros [Ht Hq Hfd Hd He Hs]. destruct (set_writable_ok (events m) f b He) as (e & E & Hw & _).
  exists (set_event_handler m e). unfold event, mbind, gets, lift, modify. cbn [bind fst]. rewrite E. bind_ok. cbn [bind]. split; [done |].
  by split.
Qed.

Lemma truncate_sending m name sq fd before ns l : sending m name sq fd (before ++ ns) ->
  exists m', truncate_sq sq (blen (wires before)) (m, l) = Ok (tt, (m', l)) /\ sending m' name sq fd ns.
Proof.
  intros H. pose proof H as [Ht (q & b & Hq & Hb & Hfd & Hh) _ Hd He Hs]. unfold truncate_sq.
  rewrite (bind_run _ _ _ q (m, l)) by by apply load_sq_run. unfold checked_buffer. rewrite Hb. unfold mbind, ret, lift. cbn [bind].
  pose proof (holds_length _ _ _ Hh) as (_ & Hle & _). rewrite wires_app, blen_app in Hle.
  pose proof (blen_nonneg (wires before)). pose proof (blen_nonneg (wires ns)). unfold messenger_send_queue_length, MESSENGER_RECV_BUFFER in Hle.
  destruct (truncate_message_ok b _ _ (blen (wires before)) Hh) as (b' & -> & Hh'); [lia |]. bind_ok. rewrite store_sq_run.
  eexists. split; [reflexivity |]. eapply store_sending; try done.
  - rewrite wires_app in Hh'. unfold blen in Hh'. rewrite Nat2Z.id, drop_app_length in Hh'. done.
  - by apply Forall_app in Hs as [_ Hs].
Qed.

(** The data to send next, from the messages that are not sent. *)
Lemma bucket_run q m l : exists bucket, bucket_size_of q (m, l) = Ok (bucket, (m, l)) /\ bucket <= messenger_bucket_size.
Proof.
  unfold bucket_size_of. destruct (negb _); [| by exists messenger_bucket_size].
  unfold mbind, sys. cbn. destruct (used l) as [u |]; cbn [bind]; [| by exists messenger_bucket_size].
  destruct (u <? socket_buffer_size q); [| by exists 1].
  destruct (Z.ltb_spec messenger_bucket_size (u32 (Z.shiftl (u32 (socket_buffer_size q - u)) 1))); eexists; (split; [reflexivity | lia]).
Qed.

Lemma get_send_data_run m name sq fd sent ns l : sending m name sq fd (sent ++ ns) ->
  exists g rest, ns = g ++ rest /\ get_send_data sq (blen (wires sent)) (m, l) = Ok (blen (wires g), (m, l)) /\
    blen (wires g) <= MESSENGER_RECV_BUFFER /\ (ns <> [] -> g <> []).
Proof.
  intros H. pose proof H as [Ht (q & b & Hq & Hb & Hfd & Hh) _ Hd He Hs]. unfold get_send_data.
  rewrite (bind_run _ _ _ q (m, l)) by by apply load_sq_run. destruct (bucket_run q m l) as (bucket & E & Hle).
  rewrite (bind_run _ _ _ _ _ E). unfold the_buffer. rewrite Hb, (bind_run _ _ _ b (m, l)) by done.
  destruct (send_data_loop_ok (S (Z.to_nat (data_length b))) b bucket sent [] ns) as (g & rest & -> & Eg & Hsize & Hne); try done.
  - rewrite (proj1 (holds_length _ _ _ Hh)). pose proof (blen_wires_lower _ Hs). rewrite length_app in *. lia.
  - exists g, rest. split; [done |]. rewrite app_nil_r in Eg. cbn [app] in *. unfold lift. change (blen (wires [])) with 0 in Eg. rewrite Eg.
    split; [done |]. by split.
Qed.

(** The packets that the queue sends: [gs] of them, the last one first to be
    refused when the socket has no room. *)
Lemma send_loop_ok fuel m name sq fd sent ns l : sending m name sq fd (sent ++ ns) -> (length ns < fuel)%nat ->
  exists r gs rest m' l', send_loop dump fuel sq fd (blen (wires sent)) (m, l) = Ok (r, (m', l')) /\
    ns = concat gs ++ rest /\ Forall packet gs /\ packets l' = packets l ++ map wires gs /\ room l = (room l' + length gs)%nat /\
    (r = Some (blen (wires (sent ++ ns))) /\ rest = [] /\ sending m' name sq fd (sent ++ ns) \/
     r = None /\ room l' = O /\ sending m' name sq fd rest).
Proof.
  revert sent ns l. induction fuel as [| fuel IH]; intros sent ns l H Hfuel; [lia |]. cbn [send_loop].
  destruct (get_send_data_run _ _ _ _ _ _ l H) as (g & rest & -> & E & Hsize & Hne).
  rewrite (bind_run _ _ _ _ _ E). pose proof H as [Ht (q & b & Hq & Hb & Hfd & Hh) _ Hd He Hs].
  assert (Hg : Forall sendable g) by (apply Forall_app in Hs as [_ Hs]; by apply Forall_app in Hs as [Hs _]).
  pose proof (blen_wires_lower _ Hg) as Hlow. destruct (Z.eqb_spec (blen (wires g)) 0) as [E0 | E0].
  { assert (g = []) as -> by (destruct g; [done | cbn [length] in Hlow; lia]).
    assert (rest = []) as -> by (destruct rest; [done | by destruct (Hne ltac:(done))]).
    exists (Some (blen (wires sent))), [], [], m, l. rewrite !app_nil_r. cbn. split; [done |]. split; [done |]. split; [done |].
    split; [done |]. split; [lia |]. left. by rewrite app_nil_r in H. }
  rewrite (bind_run _ _ _ q (m, l)) by by apply load_sq_run. unfold the_buffer. rewrite Hb, (bind_run _ _ _ b (m, l)) by done.
  unfold lift at 1. rewrite (head_bytes_ok b (wires sent) (wires g) (wires rest) messenger_send_queue_length); [| by rewrite <- !wires_app | done | done].
  unfold mbind at 1. cbn [bind]. destruct l as [ps r]. destruct r as [| r].
  - unfold mbind at 1, sys. cbn [send link_system room bind snd fst]. unfold mbind at 1, send_failed.
    unfold mbind at 1. unfold ret at 1. cbn [bind]. unfold mbind at 1.
    destruct (truncate_sending _ _ _ _ _ _ (Link ps 0) H) as (m' & -> & H'). cbn [bind ret]. unfold ret.
    exists None, [], (g ++ rest), m', (Link ps 0). cbn. rewrite app_nil_r. split_and!; try done. by right.
  - unfold mbind at 1, sys. cbn [send link_system room packets bind snd fst].
    assert (Hu : u64 (blen (wires g)) = blen (wires g)) by (apply u64_id; pose proof (blen_nonneg (wires g)); unfold MESSENGER_RECV_BUFFER in Hsize; lia).
    unfold assert. rewrite (proj2 (Z.eqb_neq _ _) E0), Hu, Z.eqb_refl. unfold mbind at 1 2, lift. cbn [negb bind].
    rewrite (bind_run _ _ _ tt _ (dump_off _ _ _ (m, _) Hd)).
    assert (Hgne : g <> []) by (intros ->; done).
    assert (Hsum : u64 (blen (wires sent) + blen (wires g)) = blen (wires (sent ++ g))).
    { pose proof (holds_length _ _ _ Hh) as (_ & Hle & _). rewrite !wires_app, !blen_app in *. apply u64_id.
      pose proof (blen_nonneg (wires sent)). pose proof (blen_nonneg (wires g)). pose proof (blen_nonneg (wires rest)).
      unfold messenger_send_queue_length, MESSENGER_RECV_BUFFER in Hle. lia. }
    rewrite Hsum. rewrite app_assoc in H. destruct (IH (sent ++ g) rest (Link (ps ++ [wires g]) r) H) as (res & gs & rest' & m' & l' & Er & -> & Hgs & Hp & Hr & Hcase).
    { rewrite length_app in Hfuel. destruct g; [done |]. cbn [length] in Hfuel. lia. }
    exists res, (g :: gs), rest', m', l'. split; [exact Er |]. cbn [concat map packets room length] in *. split; [by rewrite app_assoc |].
    split; [by constructor |]. split; [by rewrite Hp, <- app_assoc |]. split; [lia |]. by rewrite <- (app_assoc sent) in Hcase.
Qed.

Lemma on_send_write_ok m name sq fd ns l : sending m name sq fd ns ->
  exists gs rest m' l', on_send_write dump fd sq (m, l) = Ok (tt, (m', l')) /\
    ns = concat gs ++ rest /\ Forall packet gs /\ packets l' = packets l ++ map wires gs /\ room l = (room l' + length gs)%nat /\
    sending m' name sq fd rest /\ (rest = [] \/ room l' = O).
Proof.
  intros H. pose proof H as [Ht (q & b & Hq & Hb & Hfd & Hh) _ Hd He Hs]. unfold on_send_write.
  rewrite (bind_run _ _ _ q (m, l)) by by apply load_sq_run. unfold the_buffer at 1. rewrite Hb, (bind_run _ _ _ b (m, l)) by done.
  pose proof (holds_length _ _ _ Hh) as (Hl & _ & _). pose proof (blen_wires_lower _ Hs) as Hlow. rewrite Hl.
  destruct (Z.ltb_spec (blen (wires ns)) sizeof_message_header) as [Hlt | Hge].
  { assert (ns = []) as -> by (destruct ns; [done | unfold sizeof_message_header in Hlt; cbn [length] in Hlow; lia]).
    destruct (set_writable_run _ _ _ _ _ (server_socket q) false l H) as (m' & E & H' & _). exists [], [], m', l.
    cbn. rewrite app_nil_r. split_and!; try done; try lia. by left. }
  destruct (send_loop_ok (S (Z.to_nat (blen (wires ns)))) m name sq fd [] ns l H) as (r & gs & rest & m' & l' & E & -> & Hgs & Hp & Hr & Hcase); [lia |].
  change (blen (wires [])) with 0 in E. rewrite (bind_run _ _ _ _ _ E). cbn [app] in Hcase. destruct Hcase as [(-> & -> & H') | (-> & Hroom & H')].
  - rewrite app_nil_r in *. assert (H'' : sending m' name sq fd (concat gs ++ [])) by by rewrite app_nil_r.
    destruct (truncate_sending _ _ _ _ _ _ l' H'') as (m1 & E1 & H1). rewrite (bind_run _ _ _ _ _ E1).
    pose proof H1 as [_ (q1 & b1 & Hq1 & Hb1 & Hfd1 & Hh1) _ _ _ _]. rewrite (bind_run _ _ _ q1 (m1, l')) by by apply load_sq_run.
    unfold the_buffer. rewrite Hb1, (bind_run _ _ _ b1 (m1, l')) by done. rewrite (proj1 (holds_length _ _ _ Hh1)). change (blen (wires []) =? 0) with true.
    destruct (set_writable_run _ _ _ _ _ (server_socket q1) false l' H1) as (m2 & E2 & H2 & _). exists gs, [], m2, l'.
    rewrite app_nil_r. cbn. split_and!; try done. by left.
  - exists gs, rest, m', l'. split_and!; try done. by right.
Qed.

(** ** A message is pushed *)

Lemma write_message_holds b ns n : holds b (wires ns) messenger_send_queue_length ->
  blen (wires ns) + message_length n <= messenger_send_queue_length ->
  exists b', write_message b MESSAGE_TYPE_NOTIFY (n_tag n) (message_length n) (n_data n) = Ok b' /\
    holds b' (wires (ns ++ [n])) messenger_send_queue_length.
Proof.
  intros H Hroom. unfold write_message. unfold message_length in Hroom. pose proof (blen_nonneg (n_data n)).
  destruct (write_message_ok b _ _ (message_header MESSAGE_TYPE_NOTIFY (n_tag n) (message_length n)) H) as [[_ Hlt] | (b1 & -> & H1 & _)];
    [rewrite blen_header in Hlt; lia |]. bind_ok.
  destruct (write_message_ok b1 _ _ (n_data n) H1) as [[_ Hlt] | (b2 & -> & H2 & _)]; [rewrite blen_app, blen_header in Hlt; lia |]. bind_ok.
  exists b2. split; [done |]. rewrite wires_app. unfold wires at 2. cbn [map concat]. rewrite app_nil_r. unfold wire. by rewrite app_assoc.
Qed.

Lemma push_ok m name sq fd ns n l : sending m name sq fd ns -> sendable n ->
  exists m' l' r gs rest, send_message name (n_tag n) (n_data n) (m, l) = Ok (r, (m', l')) /\
    ns ++ (if r then [n] else []) = concat gs ++ rest /\ Forall packet gs /\ packets l' = packets l ++ map wires gs /\ sending m' name sq fd rest /\
    (r = false -> messenger_send_queue_length < blen (wires ns) + message_length n).
Proof.
  intros H Hn. pose proof H as [(t & Ht & Hlook) (q & b & Hq & Hb & Hfd & Hh) Hne Hd He Hs]. pose proof (message_length_bounds n Hn) as Hbound.
  unfold send_message, push_message_to_send_queue.
  rewrite (bind_run (gets send_queues) _ (m, l) (Some t) (m, l)) by by rewrite <- Ht. rewrite (bind_run (lookup_queue _ _) _ (m, l) (Some sq) (m, l)) by (unfold lookup_queue, lift; by rewrite Hlook).
  rewrite (bind_run (ret _) _ (m, l) (Some sq) (m, l)) by done. change (sizeof_message_header + blen (n_data n)) with (message_length n). unfold u32. rewrite Z.mod_small by lia.
  rewrite (bind_run _ _ _ q (m, l)) by by apply load_sq_run. unfold checked_buffer. rewrite Hb, (bind_run _ _ _ b (m, l)) by done.
  rewrite (holds_remain _ _ _ Hh). destruct (Z.ltb_spec (messenger_send_queue_length - blen (wires ns)) (message_length n)) as [Hfull | Hroom].
  - rewrite (bind_run _ _ _ _ _ (store_sq_run _ _ _ _)), (bind_run _ _ _ tt _ (dump_off _ _ _ (set_send_queues m _ _, l) Hd)).
    eexists _, l, false, [], ns. split; [reflexivity |]. rewrite !app_nil_r. cbn. split_and!; try done.
    + by eapply store_sending.
    + intros _. lia.
  - destruct (write_message_holds b ns n Hh) as (b' & Ew & Hw); [lia |]. unfold lift at 1. rewrite Ew. unfold mbind at 1. cbn [bind].
    rewrite (bind_run _ _ _ _ _ (store_sq_run _ _ _ _)). set (q' := set_sq_buffer _ _). assert (Hfd' : server_socket q' = fd) by done.
    assert (H1 : sending (set_send_queues m (send_queues m) (<[sq := q']> (sq_heap m))) name sq fd (ns ++ [n])).
    { eapply store_sending; try done. apply Forall_app. split; [done | by apply Forall_singleton]. }
    rewrite Hfd', (proj2 (Z.eqb_neq _ _) Hne). destruct (set_writable_run _ _ _ _ _ fd true l H1) as (m2 & E2 & H2 & _). rewrite (bind_run _ _ _ _ _ E2).
    destruct (messenger_send_length_for_flush <? data_length b').
    + destruct (on_send_write_ok m2 name sq fd _ l H2) as (gs & rest & m3 & l3 & E3 & Es & Hgs & Hp & _ & H3 & _). rewrite (bind_run _ _ _ _ _ E3).
      exists m3, l3, true, gs, rest. by split_and!.
    + rewrite (bind_run (ret tt) _ (m2, l) tt (m2, l)) by done. exists m2, l, true, [], (ns ++ [n]). rewrite app_nil_r. by split_and!.
Qed.

(** ** The receiver *)

(** What the callbacks of a queue get for a notification. *)
Definition deliver (cbs : list receive_queue_callback) n : list callback_call :=
  map (fun cb => Received (callback_function cb) (n_tag n) (n_data n) (blen (n_data n)))
    (List.filter (fun cb => callback_type cb =? MESSAGE_TYPE_NOTIFY) cbs).
Definition deliveries cbs ns : list callback_call := concat (map (deliver cbs) ns).

(** [ns] are the messages read and not yet handed over. *)
Record receiving m (rq : positive) (cbs : list receive_queue_callback) ns : Prop := {
  rc_queue : exists r, rq_heap m !! rq = Some r /\ message_callbacks r = cbs /\ holds (rq_buffer r) (wires ns) messenger_recv_queue_length;
  rc_dump : dump_names m = None
}.

Lemma store_receiving m rq cbs ns ns' r b : receiving m rq cbs ns -> message_callbacks r = cbs -> holds b (wires ns') messenger_recv_queue_length ->
  receiving (set_receive_queues m (receive_queues m) (<[rq := set_rq_buffer r b]> (rq_heap m))) rq cbs ns'.
Proof. intros [_ Hd] Hcbs Hb. split; [| done]. exists (set_rq_buffer r b). cbn. by rewrite lookup_insert_eq. Qed.

Lemma wires_packets gs : Forall packet gs -> Forall sendable (concat gs).
Proof. induction 1 as [| g gs (_ & Hg & _) _ IH]; [done |]. cbn. by apply Forall_app. Qed.

(** It reads packets as long as half of the buffer is free. *)
Lemma recv_loop_ok fuel m rq cbs ns fd gs r : receiving m rq cbs ns -> Forall packet gs ->
  messenger_recv_queue_length - blen (wires ns) < Z.of_nat fuel ->
  exists m' read rest, recv_loop fuel fd rq (m, Link (map wires gs) r) = Ok (tt, (m', Link (map wires rest) r)) /\
    gs = read ++ rest /\ receiving m' rq cbs (ns ++ concat read) /\ called m' = called m /\ (blen (wires ns) < MESSENGER_RECV_BUFFER -> gs <> [] -> read <> []).
Proof.
  revert m ns gs. induction fuel as [| fuel IH]; intros m ns gs H Hgs Hfuel.
  { exfalso. destruct H as [(q & _ & _ & Hb) _]. pose proof (holds_length _ _ _ Hb). lia. }
  cbn [recv_loop]. pose proof H as [(q & Hq & Hcbs & Hb) Hd]. rewrite (bind_run _ _ _ q (m, _)) by by apply load_rq_run.
  rewrite (holds_remain _ _ _ Hb). pose proof (blen_nonneg (wires ns)).
  unfold messenger_recv_queue_length, messenger_recv_queue_reserved, MESSENGER_RECV_BUFFER in *.
  destruct (Z.leb_spec (100000 * 2 - blen (wires ns)) 100000) as [Hfull | Hroom].
  { exists m, [], gs. cbn [concat]. rewrite app_nil_r. split_and!; try done. intros. lia. }
  rewrite (proj2 (Z.ltb_lt 100000 _)) by lia. destruct gs as [| g gs].
  { exists m, [], []. cbn [concat]. rewrite app_nil_r. split; [reflexivity |]. split_and!; try done. by rewrite app_nil_r. }
  apply Forall_cons in Hgs as [(Hne & Hg & Hsize) Hgs]. unfold MESSENGER_RECV_BUFFER in Hsize.
  unfold mbind at 1, sys. cbn [recv link_system packets map room bind fst snd].
  assert (Etake : take (Z.to_nat 100000) (wires g) = wires g) by (apply take_ge; unfold blen in Hsize; lia). rewrite Etake.
  assert (Hlow : 8 <= blen (wires g)) by (pose proof (blen_wires_lower _ Hg); destruct g; [done | cbn [length] in *; lia]).
  rewrite (proj2 (Z.eqb_neq (blen (wires g)) 0)) by lia.
  destruct (write_message_ok _ _ _ (wires g) Hb) as [[_ Hlt] | (b' & Ew & Hb' & _)]; [lia |].
  unfold mbind at 1, lift. rewrite Ew. cbn [bind]. rewrite <- wires_app in Hb'.
  rewrite (bind_run _ _ _ _ _ (store_rq_run _ _ _ _)). rewrite (bind_run _ _ _ tt _ (dump_off _ _ _ (set_receive_queues m _ _, _) Hd)).
  destruct (IH _ (ns ++ g) gs (store_receiving m rq cbs ns (ns ++ g) q b' H Hcbs Hb') Hgs) as (m' & read & rest & E & -> & H' & Hcalled & _).
  { rewrite wires_app, blen_app. lia. }
  exists m', (g :: read), rest. split; [exact E |]. split; [done |]. cbn [concat]. rewrite app_assoc. by split_and!.
Qed.

(** It hands over every message that it has read. *)
Lemma call_callbacks_run cbs n m l : call_callbacks cbs MESSAGE_TYPE_NOTIFY (n_tag n) (n_data n) (blen (n_data n)) (m, l)
  = Ok (tt, (fold_left log_call (deliver cbs n) m, l)).
Proof.
  revert m. induction cbs as [| cb cbs IH]; intros m; [done |]. cbn [call_callbacks]. unfold deliver. cbn [List.filter map].
  destruct (callback_type cb =? MESSAGE_TYPE_NOTIFY); [| apply IH].
  rewrite (bind_run (call_callback _ _ _ _ _) _ (m, l) (n_data n) (log_call m (Received (callback_function cb) (n_tag n) (n_data n) (blen (n_data n))), l)) by done.
  apply IH.
Qed.

Lemma log_calls cs m : called (fold_left log_call cs m) = called m ++ cs /\ rq_heap (fold_left log_call cs m) = rq_heap m /\
  dump_names (fold_left log_call cs m) = dump_names m.
Proof.
  revert m. induction cs as [| c cs IH]; intros m; cbn [fold_left]; [by rewrite app_nil_r |].
  destruct (IH (log_call m c)) as (-> & -> & ->). cbn. by rewrite <- app_assoc.
Qed.

Lemma pull_loop_ok fuel m rq cbs ns l : receiving m rq cbs ns -> Forall sendable ns -> (length ns < fuel)%nat ->
  exists m', pull_loop fuel rq (m, l) = Ok (tt, (m', l)) /\ receiving m' rq cbs [] /\ called m' = called m ++ deliveries cbs ns.
Proof.
  revert m ns. induction fuel as [| fuel IH]; intros m ns H Hns Hfuel; [lia |]. cbn [pull_loop].
  pose proof H as [(q & Hq & Hcbs & Hb) Hd]. rewrite (bind_run _ _ _ q (m, l)) by by apply load_rq_run. destruct ns as [| n ns].
  { unfold mbind at 1, lift. rewrite pull_nothing by done. cbn [bind]. exists m. split; [done |]. split; [done |]. cbn. by rewrite app_nil_r. }
  apply Forall_cons in Hns as [Hn Hns]. destruct (pull_ok _ _ _ Hn Hb) as (b' & Ep & Hb'). unfold mbind at 1, lift. rewrite Ep. cbn [bind].
  rewrite (bind_run _ _ _ _ _ (store_rq_run _ _ _ _)). pose proof (store_receiving m rq cbs _ ns q b' H Hcbs Hb') as H1.
  set (m1 := set_receive_queues _ _ _) in *. unfold call_message_callbacks.
  assert (Hq1 : rq_heap m1 !! rq = Some (set_rq_buffer q b')) by (cbn; by rewrite lookup_insert_eq).
  rewrite (bind_run _ _ (m1, l) tt (fold_left log_call (deliver cbs n) m1, l)).
  2:{ rewrite (bind_run _ _ _ _ (m1, l)) by by apply load_rq_run. cbn [message_callbacks set_rq_buffer]. rewrite Hcbs. apply call_callbacks_run. }
  destruct (log_calls (deliver cbs n) m1) as (Ec & Eq & Ed).
  destruct (IH (fold_left log_call (deliver cbs n) m1) ns) as (m' & E & H' & Hcalled); [| done | cbn [length] in Hfuel; lia |].
  - destruct H1 as [Hr Hd1]. split; [by rewrite Eq | by rewrite Ed].
  - exists m'. split; [exact E |]. split; [done |]. rewrite Hcalled, Ec. unfold deliveries. cbn [map concat]. by rewrite app_assoc.
Qed.

Lemma on_recv_ok m rq cbs fd gs r : receiving m rq cbs [] -> Forall packet gs -> 0 <= fd ->
  exists m' read rest, on_recv fd rq (m, Link (map wires gs) r) = Ok (tt, (m', Link (map wires rest) r)) /\
    gs = read ++ rest /\ receiving m' rq cbs [] /\ called m' = called m ++ deliveries cbs (concat read) /\ (gs <> [] -> read <> []).
Proof.
  intros H Hgs Hfd. unfold on_recv, assert. rewrite (proj2 (Z.leb_le 0 fd) Hfd). rewrite (bind_run (lift _) _ _ tt (m, Link (map wires gs) r)) by done.
  destruct (recv_loop_ok (S (Z.to_nat messenger_recv_queue_length)) m rq cbs [] fd gs r H Hgs) as (m1 & read & rest & E & -> & H1 & Hc & Hne).
  { change (blen (wires [])) with 0. lia. }
  rewrite (bind_run _ _ _ _ _ E). cbn [app] in H1. assert (Hread : Forall sendable (concat read)) by (apply wires_packets; by apply Forall_app in Hgs as [? _]).
  destruct (pull_loop_ok (S (Z.to_nat messenger_recv_queue_length)) m1 rq cbs (concat read) (Link (map wires rest) r) H1 Hread) as (m2 & E2 & H2 & Hc2).
  { destruct H1 as [(q & _ & _ & Hb) _]. pose proof (holds_length _ _ _ Hb) as (_ & Hle & _). pose proof (blen_wires_lower _ Hread). lia. }
  exists m2, read, rest. rewrite Hc in Hc2. split_and!; try done. apply Hne. change (blen (wires [])) with 0. unfold MESSENGER_RECV_BUFFER. lia.
Qed.

(** * The two processes *)

Inductive step : Type :=
| Push (n : notification)
| Writable
| Readable
| SetRoom (k : nat).

Record processes : Type := Processes { sender : messenger; receiver : messenger; between : link }.

Definition pushes (es : list step) : list notification := omap (fun e => match e with Push n => Some n | _ => None end) es.

(** The queues of the two, the descriptors of the connection and the callbacks. *)
Context (name : bytes) (sq rq : positive) (fd rfd : Z) (cbs : list receive_queue_callback).
Implicit Types (w : processes) (es : list step) (accepted waiting : list notification).

(** The notifications that the sender is told are accepted, and what is then. *)
Definition do_step w (e : step) : res (list notification * processes) :=
  match e with
  | Push n =>
    let* (r, (m, l)) := send_message name (n_tag n) (n_data n) (sender w, between w) in
    Ok (if r : bool then [n] else [], Processes m (receiver w) l)
  | Writable =>
    let* (_, (m, l)) := on_send_write dump fd sq (sender w, between w) in Ok ([], Processes m (receiver w) l)
  | Readable =>
    let* (_, (m, l)) := on_recv rfd rq (receiver w, between w) in Ok ([], Processes (sender w) m l)
  | SetRoom k => Ok ([], Processes (sender w) (receiver w) (Link (packets (between w)) k))
  end.

Fixpoint run_steps w es : res (list notification * processes) :=
  match es with
  | [] => Ok ([], w)
  | e :: es =>
    let* (ns1, w) := do_step w e in
    let* (ns2, w) := run_steps w es in
    Ok (ns1 ++ ns2, w)
  end.

(** [delivered] have been handed over, [accepted] are all that were accepted. *)
Record connected w (log : list callback_call) delivered accepted : Prop := {
  cn_log : called (receiver w) = log ++ deliveries cbs delivered;
  cn_way : exists gs ns, accepted = delivered ++ concat gs ++ ns /\ packets (between w) = map wires gs /\ Forall packet gs /\
    sending (sender w) name sq fd ns;
  cn_receiving : receiving (receiver w) rq cbs []
}.

Lemma deliveries_app ns1 ns2 : deliveries cbs (ns1 ++ ns2) = deliveries cbs ns1 ++ deliveries cbs ns2.
Proof. unfold deliveries. by rewrite map_app, concat_app. Qed.

Lemma blen_wires_app ns1 ns2 : blen (wires (ns1 ++ ns2)) = blen (wires ns1) + blen (wires ns2).
Proof. by rewrite wires_app, blen_app. Qed.

(** A packet is put on the way, or more of them. *)
Lemma sent_connected w log delivered accepted more gs0 gs rest m l :
  called (receiver w) = log ++ deliveries cbs delivered -> receiving (receiver w) rq cbs [] ->
  accepted ++ more = delivered ++ concat gs0 ++ concat gs ++ rest -> packets l = map wires gs0 ++ map wires gs ->
  Forall packet gs0 -> Forall packet gs -> sending m name sq fd rest ->
  connected (Processes m (receiver w) l) log delivered (accepted ++ more).
Proof.
  intros Hlog Hr Ha Hp Hg0 Hg Hs. split; [done | | done]. exists (gs0 ++ gs), rest. cbn. rewrite concat_app, map_app, <- app_assoc.
  split_and!; try done. by apply Forall_app.
Qed.

Lemma step_ok w log delivered accepted e : connected w log delivered accepted -> 0 <= rfd -> Forall sendable (pushes [e]) ->
  exists acc w' delivered', do_step w e = Ok (acc, w') /\ connected w' log delivered' (accepted ++ acc) /\
    (acc = pushes [e] \/ acc = [] /\ messenger_send_queue_length < blen (wires (accepted ++ pushes [e]))).
Proof.
  intros H Hrfd He. pose proof H as [Hlog (gs0 & ns & -> & Hp & Hg & Hs) Hr]. destruct e as [n | | | k]; cbn [pushes omap list_omap do_step] in *.
  - apply Forall_cons in He as [Hn _]. destruct (push_ok _ _ _ _ _ n (between w) Hs Hn) as (m & l & r & gs & rest & -> & Ensr & Hgs & Hpk & Hs' & Hfull).
    bind_ok. eexists _, _, delivered. split; [reflexivity |]. split.
    + eapply (sent_connected _ _ _ _ _ gs0 gs); try done; [| by rewrite Hpk, Hp]. by rewrite <- !app_assoc, Ensr.
    + destruct r; [by left |]. right. split; [done |]. rewrite !blen_wires_app. unfold wires at 4. cbn [map concat]. rewrite app_nil_r, blen_wire.
      specialize (Hfull eq_refl). pose proof (blen_nonneg (wires delivered)). pose proof (blen_nonneg (wires (concat gs0))). lia.
  - destruct (on_send_write_ok _ _ _ _ _ (between w) Hs) as (gs & rest & m & l & -> & -> & Hgs & Hpk & _ & Hs' & _). bind_ok.
    eexists _, _, delivered. split; [reflexivity |]. split; [| by left].
    eapply (sent_connected _ _ _ _ _ gs0 gs); try done; [| by rewrite Hpk, Hp]. by rewrite app_nil_r.
  - destruct w as [ms mr [ps r]]. cbn in *. subst ps.
    destruct (on_recv_ok mr rq cbs rfd gs0 r Hr Hg Hrfd) as (m & read & rest & -> & -> & Hr' & Hc & _). bind_ok.
    eexists _, _, (delivered ++ concat read). split; [reflexivity |]. split; [| by left]. apply Forall_app in Hg as [_ Hg]. split; cbn.
    + by rewrite Hc, Hlog, deliveries_app, app_assoc.
    + exists rest, ns. rewrite concat_app, app_nil_r, <- !app_assoc. by split_and!.
    + done.
  - eexists _, _, delivered. split; [reflexivity |]. split; [| by left]. rewrite app_nil_r. split; try done. by exists gs0, ns.
Qed.

Lemma pushes_cons e es : pushes (e :: es) = pushes [e] ++ pushes es.
Proof. by destruct e. Qed.

Lemma steps_ok w log delivered accepted es : connected w log delivered accepted -> 0 <= rfd -> Forall sendable (pushes es) ->
  exists acc w' delivered', run_steps w es = Ok (acc, w') /\ connected w' log delivered' (accepted ++ acc) /\ acc `sublist_of` pushes es /\
    (blen (wires (accepted ++ pushes es)) <= messenger_send_queue_length -> acc = pushes es).
Proof.
  intros H Hrfd. revert w delivered accepted H. induction es as [| e es IH]; intros w delivered accepted H Hes; cbn [run_steps].
  { exists [], w, delivered. rewrite app_nil_r. split_and!; try done. }
  rewrite pushes_cons in *. apply Forall_app in Hes as [He Hes].
  destruct (step_ok _ _ _ _ e H Hrfd He) as (acc1 & w1 & delivered1 & -> & H1 & Hacc). bind_ok.
  destruct (IH _ _ _ H1 Hes) as (acc2 & w2 & delivered2 & -> & H2 & Hsub & Hall). bind_ok.
  exists (acc1 ++ acc2), w2, delivered2. split; [done |]. rewrite app_assoc. split; [done |]. split.
  - apply sublist_app; [| done]. destruct Hacc as [-> | [-> _]]; [done | apply sublist_nil_l].
  - intros Hroom. rewrite app_assoc in Hroom. destruct Hacc as [-> | [-> Hfull]]; [by rewrite Hall |].
    rewrite blen_wires_app in Hroom. pose proof (blen_nonneg (wires (pushes es))). lia.
Qed.

(** *** What is on the way arrives *)

Definition drain (k : nat) : list step := SetRoom k :: Writable :: repeat Readable k.

Lemma run_app w es1 es2 acc1 w1 acc2 w2 : run_steps w es1 = Ok (acc1, w1) -> run_steps w1 es2 = Ok (acc2, w2) ->
  run_steps w (es1 ++ es2) = Ok (acc1 ++ acc2, w2).
Proof.
  revert w acc1. induction es1 as [| e es1 IH]; intros w acc1 H1 H2; cbn [run_steps app] in *; [by simplify_eq |].
  destruct (do_step w e) as [[acc w'] |]; [| done]. cbn [bind] in *. destruct (run_steps w' es1) as [[acc' w''] |] eqn:E; [| done]. cbn [bind] in *.
  simplify_eq. rewrite (IH w' acc' E H2). cbn [bind]. by rewrite app_assoc.
Qed.

(** Each event takes a packet at least. *)
Lemma read_all k w log delivered gs : called (receiver w) = log ++ deliveries cbs delivered -> receiving (receiver w) rq cbs [] ->
  packets (between w) = map wires gs -> Forall packet gs -> (length gs <= k)%nat -> 0 <= rfd ->
  exists w', run_steps w (repeat Readable k) = Ok ([], w') /\ called (receiver w') = log ++ deliveries cbs (delivered ++ concat gs).
Proof.
  intros Hlog Hr Hp Hg Hk Hrfd. revert w delivered gs Hlog Hr Hp Hg Hk. induction k as [| k IH]; intros w delivered gs Hlog Hr Hp Hg Hk; cbn [repeat run_steps].
  { destruct gs; [| cbn in Hk; lia]. exists w. cbn. by rewrite app_nil_r. }
  destruct w as [ms mr [ps r]]. cbn in *. subst ps.
  destruct (on_recv_ok mr rq cbs rfd gs r Hr Hg Hrfd) as (m & read & rest & -> & -> & Hr' & Hc & Hne). bind_ok.
  apply Forall_app in Hg as [_ Hg]. destruct (IH (Processes ms m (Link (map wires rest) r)) (delivered ++ concat read) rest) as (w' & -> & Hlog'); try done.
  - cbn. by rewrite Hc, Hlog, deliveries_app, app_assoc.
  - rewrite length_app in Hk. destruct read as [| g read]; [| cbn in Hk; lia]. destruct rest; [cbn; lia |]. by destruct (Hne ltac:(done)).
  - bind_ok. exists w'. split; [done |]. by rewrite concat_app, app_assoc.
Qed.

Lemma packets_length gs : Forall packet gs -> (length gs <= length (concat gs))%nat.
Proof. induction 1 as [| g gs (Hne & _) _ IH]; [done |]. cbn. rewrite length_app. destruct g; [done | cbn; lia]. Qed.

Lemma drain_ok w log delivered accepted k : connected w log delivered accepted -> 0 <= rfd -> (length accepted <= k)%nat ->
  exists w', run_steps w (drain k) = Ok ([], w') /\ called (receiver w') = log ++ deliveries cbs accepted.
Proof.
  intros [Hlog (gs0 & ns & -> & Hp & Hg & Hs) Hr] Hrfd Hk. rewrite !length_app in Hk. pose proof (packets_length _ Hg).
  unfold drain. cbn [run_steps do_step bind]. 
  destruct (on_send_write_ok _ _ _ _ _ (Link (packets (between w)) k) Hs) as (gs & rest & m & l & E & -> & Hgs & Hpk & Hroom & Hs' & Hdone).
  cbn [sender receiver between packets room] in *. rewrite E. bind_ok. pose proof (packets_length _ Hgs).
  rewrite length_app in Hk.
  destruct (read_all k (Processes m (receiver w) l) log delivered (gs0 ++ gs)) as (w' & -> & Hall); try done.
  - cbn. by rewrite Hpk, Hp, map_app.
  - by apply Forall_app.
  - rewrite length_app. lia.
  - bind_ok. exists w'. split; [done |]. assert (rest = []) as ->.
    { destruct Hdone as [? | Hzero]; [done |]. destruct rest; [done | cbn in Hk; lia]. }
    rewrite app_nil_r. by rewrite concat_app in Hall.
Qed.

(** C6. Messages arrive once and in order. For any interleaving of messages that
    a process sends, of its socket becoming writable, of the other's becoming
    readable and of changes of the room in the socket, no step fails; the
    callbacks of the receiver have then been called for the first of the messages
    that the sender was told are accepted, whole and with their tags, and for
    nothing else; messages are accepted in the order of the calls, all of them
    unless they exceed the send queue; and once there is room and the sockets are
    served, for each message at most once, those that were on the way arrive. *)
Theorem messages_delivered_in_order ms mr l es :
  sending ms name sq fd [] -> receiving mr rq cbs [] -> packets l = [] -> 0 <= rfd -> Forall sendable (pushes es) ->
  exists accepted w delivered waiting,
    run_steps (Processes ms mr l) es = Ok (accepted, w) /\
    called (receiver w) = called mr ++ deliveries cbs delivered /\ accepted = delivered ++ waiting /\
    accepted `sublist_of` pushes es /\ (blen (wires (pushes es)) <= messenger_send_queue_length -> accepted = pushes es) /\
    forall k, (length es <= k)%nat ->
      exists w', run_steps w (drain k) = Ok ([], w') /\ called (receiver w') = called mr ++ deliveries cbs accepted.
Proof.
  intros Hs Hr Hp Hrfd Hes.
  assert (H : connected (Processes ms mr l) (called mr) [] []).
  { split; cbn; [by rewrite app_nil_r | exists [], []; by split_and! | done]. }
  destruct (steps_ok _ _ _ _ es H Hrfd Hes) as (accepted & w & delivered & E & H' & Hsub & Hall). cbn [app] in *.
  pose proof H' as [Hlog (gs & ns & Ha & _) _]. exists accepted, w, delivered, (concat gs ++ ns). split_and!; try done.
  intros k Hk. apply (drain_ok w _ delivered); [done | done |]. apply sublist_length in Hsub.
  assert (length (pushes es) <= length es)%nat by (clear; induction es as [| e es IH]; [done | rewrite pushes_cons, length_app; destruct e; cbn in *; lia]). lia.
Qed.
End Link.

(** * The two ends are set up

    The invariants of the theorem are those that messenger.c leaves when the
    functions of the system succeed. *)

Section Setup.
Context {host : Host} (fd : Z).
Implicit Types (m : messenger) (name path : bytes).

#[local] Instance ready_system : System unit := {|
  xmalloc k _ := (zeros (Z.to_nat k), tt);
  socket _ := (Some fd, tt);
  is_root _ := (false, tt);
  set_buffer_size _ _ := (true, tt);
  set_nonblock _ _ := (true, tt);
  bind_socket _ _ _ := (true, tt);
  listen _ _ := (true, tt);
  unlink _ _ := (tt, tt);
  accept _ _ := (Some fd, tt);
  connect _ _ _ := (true, tt);
  get_send_buffer_size _ _ := (Some 212992, tt);
  get_send_buffer_used _ _ := (Some 0, tt);
  recv _ _ _ := (RecvFailed true, tt);
  send _ data _ := (Sent (blen data), tt);
  close _ _ := (tt, tt);
  clock_monotonic _ := (None, tt);
  clock_realtime _ := (None, tt)
|}.

#[local] Existing Instances string_key string_key_ok.
Abbreviation wf_queues := (wf_table (K := bytes) (V := option positive) (ok := fun _ => True)).

(** A name that a service can have. *)
Record service_name name directory path : Prop := {
  sn_path : socket_path directory name = Ok path;
  sn_string : c_string name = name;
  sn_length : blen name < MESSENGER_SERVICE_NAME_LENGTH
}.

(** What both ends have before. *)
Record ready m (table : option queue_table) name path : Prop := {
  rd_table : exists t, table = Some t /\ wf_queues t /\ table_map t name = None;
  rd_name : service_name name (socket_directory m) path;
  rd_events : wf_handler (events m);
  rd_dump : dump_names m = None
}.

Lemma copy_name_id name directory path : service_name name directory path -> copy_name name = name.
Proof.
  intros [_ Hs Hl]. unfold copy_name. rewrite Hs. apply take_ge. unfold blen in Hl. lia.
Qed.

Lemma zeros_length k : 0 <= k -> blen (zeros (Z.to_nat k)) = k.
Proof. intros Hk. unfold zeros, blen. rewrite length_replicate. lia. Qed.

Lemma lookup_queue_run table t name (m : messenger) : table = Some t -> wf_queues t ->
  lookup_queue table name (m, tt) = Ok (default None (table_map t name), (m, tt)).
Proof. intros -> Hw. unfold lookup_queue, lift. by rewrite (lookup_ok None t name Hw). Qed.

Ltac run_step := erewrite bind_run; [| reflexivity]; cbn [fst snd].

Lemma update_sq_run sq q f m : sq_heap m !! sq = Some q ->
  update_sq sq f (m, tt) = Ok (tt, (set_send_queues m (send_queues m) (<[sq := f q]> (sq_heap m)), tt)).
Proof. intros Hq. unfold update_sq. by rewrite (bind_run _ _ _ q (m, tt)) by by apply load_sq_run. Qed.

(** A queue that has not been connected. *)
Definition fresh_queue name path : send_queue := SendQueue name (-1) 0 (Timespec 0 0) path None false 0 0 0.

Lemma send_queue_connect_ok m sq name path : sq_heap m !! sq = Some (fresh_queue name path) -> wf_handler (events m) -> dump_names m = None -> valid_fd fd ->
  exists m' q, send_queue_connect dump sq (m, tt) = Ok (1, (m', tt)) /\ sq_heap m' !! sq = Some q /\ server_socket q = fd /\ sq_service_name q = name /\
    send_queues m' = send_queues m /\ wf_handler (events m') /\ dump_names m' = None.
Proof.
  intros Hq He Hd Hfd. unfold send_queue_connect. rewrite (bind_run _ _ _ _ _ (update_sq_run _ _ _ _ Hq)).
  run_step. set (m1 := set_send_queues m _ _).
  assert (Hq1 : sq_heap m1 !! sq = Some (fresh_queue name path)) by (cbn; by rewrite lookup_insert_eq).
  rewrite (bind_run _ _ _ _ _ (update_sq_run _ _ _ _ Hq1)). set (m2 := set_send_queues m1 _ _). run_step. run_step. run_step. cbn [negb].
  set (q2 := set_server_socket _ fd) in m2. assert (Hq2 : sq_heap m2 !! sq = Some q2) by (cbn; by rewrite lookup_insert_eq).
  rewrite (bind_run _ _ _ _ _ (load_sq_run _ _ (m2, tt) Hq2)). run_step. cbn [negb].
  destruct (set_fd_handler_ok (events m2) fd (Some (on_send_read_of sq)) (Some (on_send_write_of sq)) He Hfd) as (h3 & E3 & H3 & _).
  rewrite (bind_run _ _ _ _ _ (event_run _ _ _ _ E3)). set (m3 := set_event_handler m2 h3).
  destruct (set_readable_ok (events m3) fd true H3) as (h4 & E4 & H4 & _). rewrite (bind_run _ _ _ _ _ (event_run _ _ _ _ E4)). set (m4 := set_event_handler m3 h4).
  rewrite (bind_run _ _ _ _ _ (load_sq_run sq q2 (m4, tt) Hq2)). cbn [sq_buffer q2 set_server_socket fresh_queue]. run_step. run_step.
  assert (Hq4 : sq_heap m4 !! sq = Some q2) by done. rewrite (bind_run _ _ _ _ _ (update_sq_run _ _ _ _ Hq4)). set (m5 := set_send_queues m4 _ _).
  rewrite (bind_run _ _ _ tt _ (dump_off _ _ _ (m5, tt) Hd)). eexists m5, _. split; [reflexivity |]. cbn. rewrite lookup_insert_eq. by split_and!.
Qed.

Lemma try_connect_ok m sq name path : sq_heap m !! sq = Some (fresh_queue name path) -> wf_handler (events m) -> dump_names m = None -> valid_fd fd ->
  exists m' q, send_queue_try_connect dump sq (m, tt) = Ok (1, (m', tt)) /\ sq_heap m' !! sq = Some q /\ server_socket q = fd /\ sq_service_name q = name /\
    send_queues m' = send_queues m /\ wf_handler (events m') /\ dump_names m' = None.
Proof.
  intros Hq He Hd Hfd. unfold send_queue_try_connect, send_queue_connect_timer. rewrite (bind_run _ _ _ _ _ (load_sq_run sq _ (m, tt) Hq)). cbn [fresh_queue reconnect_interval tv_sec Z.eqb negb].
  rewrite (bind_run _ _ _ _ _ (load_sq_run sq _ (m, tt) Hq)). cbn [fresh_queue server_socket running_timer Z.eqb negb Pos.eqb]. run_step.
  destruct (send_queue_connect_ok m sq name path Hq He Hd Hfd) as (m1 & q & E & Hq1 & Hfd1 & Hname & Ht & He1 & Hd1). rewrite (bind_run _ _ _ _ _ E).
  rewrite (bind_run _ _ _ _ _ (load_sq_run sq q (m1, tt) Hq1)). cbn [Z.eqb Pos.eqb]. rewrite (bind_run _ _ _ _ _ (store_sq_run _ _ _ _)).
  eexists _, _. split; [reflexivity |]. cbn. rewrite lookup_insert_eq. by split_and!.
Qed.

Lemma string_self name : compare_string name name = true.
Proof. unfold compare_string. by apply bool_decide_eq_true_2. Qed.

Lemma create_send_queue_ok m name path : ready m (send_queues m) name path -> valid_fd fd ->
  exists sq m', create_send_queue dump name (m, tt) = Ok (Some sq, (m', tt)) /\ sending m' name sq fd [].
Proof.
  intros [(t & Ht & Hw & Hnone) Hn He Hd] Hfd. unfold create_send_queue. run_step.
  rewrite (bind_run _ _ _ _ _ (lookup_queue_run _ _ _ _ Ht Hw)), Hnone. cbn [default]. run_step. run_step. set (sq := fresh _).
  pose proof Hn as [Hpath Hs Hl]. rewrite (bind_run (lift _) _ _ path (m, tt)) by (unfold lift; by rewrite Hpath).
  rewrite (copy_name_id _ _ _ Hn). fold (fresh_queue name path). rewrite (bind_run _ _ _ _ _ (store_sq_run _ _ _ _)). set (m1 := set_send_queues m _ _).
  destruct (try_connect_ok m1 sq name path) as (m2 & q & E & Hq & Hfd2 & Hname & Ht2 & He2 & Hd2); [cbn; by rewrite lookup_insert_eq | done | done | done |].
  rewrite (bind_run _ _ _ _ _ E). cbn [Z.eqb Pos.eqb]. unfold allocate_message_buffer. rewrite (bind_run _ _ _ (create_message_buffer (zeros (Z.to_nat messenger_send_queue_length)) messenger_send_queue_length) (m2, tt)) by reflexivity.
  rewrite (bind_run _ _ _ _ _ (update_sq_run _ _ _ _ Hq)). set (m3 := set_send_queues m2 _ _). set (q3 := set_sq_buffer q _) in m3.
  assert (Hq3 : sq_heap m3 !! sq = Some q3) by (cbn; by rewrite lookup_insert_eq). rewrite (bind_run _ _ _ _ _ (load_sq_run sq q3 (m3, tt) Hq3)).
  change (sq_service_name q3) with (sq_service_name q). rewrite Hname. unfold string_of_name. rewrite (proj2 (Z.ltb_lt _ _) Hl). run_step.
  rewrite (bind_run (gets send_queues) _ (m3, tt) (Some t) (m3, tt)) by (unfold gets; cbn; by rewrite Ht2, <- Ht).
  destruct (insert_ok None t name (Some sq) Hw I) as (t' & Ei & Hw' & _ & Hmap). rewrite (bind_run (lift _) _ _ (default None (table_map t name), t') (m3, tt)) by (unfold lift; by rewrite Ei).
  run_step. exists sq. eexists. split; [reflexivity |]. split; cbn; try done.
  - exists t'. split; [done |]. rewrite (lookup_ok None t' name Hw'), Hmap. change (compare name name) with (compare_string name name). by rewrite string_self.
  - exists q3, (create_message_buffer (zeros (Z.to_nat messenger_send_queue_length)) messenger_send_queue_length). split_and!; try done.
    apply create_holds; [by apply zeros_length | done].
  - intros ->. by destruct Hfd.
Qed.

Lemma open_listen_socket_ok m path : open_listen_socket path (m, tt) = Ok (Some fd, (m, tt)).
Proof. reflexivity. Qed.

Lemma create_receive_queue_ok m name path : ready m (receive_queues m) name path -> valid_fd fd ->
  exists rq m' r, create_receive_queue name (m, tt) = Ok (Some rq, (m', tt)) /\ rq_heap m' !! rq = Some r /\ message_callbacks r = [] /\
    holds (rq_buffer r) [] messenger_recv_queue_length /\ dump_names m' = None /\ called m' = called m.
Proof.
  intros [(t & Ht & Hw & Hnone) Hn He Hd] Hfd. pose proof Hn as [Hpath Hs Hl]. unfold create_receive_queue.
  rewrite (bind_run (lift _) _ _ tt (m, tt)) by (unfold assert; by rewrite Hs, (proj2 (Z.ltb_lt _ _) Hl)). run_step.
  rewrite (bind_run _ _ _ _ _ (lookup_queue_run _ _ _ _ Ht Hw)), Hnone. cbn [default]. run_step. run_step. set (rq := fresh _).
  rewrite (bind_run (lift _) _ _ path (m, tt)) by (unfold lift; by rewrite Hpath). rewrite (bind_run _ _ _ _ _ (open_listen_socket_ok m path)).
  destruct (set_fd_handler_ok (events m) fd (Some (on_accept_of rq)) None He Hfd) as (h1 & E1 & H1 & _).
  rewrite (bind_run _ _ _ _ _ (event_run _ _ _ _ E1)). set (m1 := set_event_handler m h1).
  destruct (set_readable_ok (events m1) fd true H1) as (h2 & E2 & H2 & _). rewrite (bind_run _ _ _ _ _ (event_run _ _ _ _ E2)). set (m2 := set_event_handler m1 h2).
  unfold allocate_message_buffer. rewrite (bind_run _ _ _ (create_message_buffer (zeros (Z.to_nat messenger_recv_queue_length)) messenger_recv_queue_length) (m2, tt)) by reflexivity.
  rewrite (bind_run _ _ _ _ _ (store_rq_run _ _ _ _)), Ht.
  destruct (insert_ok None t (copy_name name) (Some rq) Hw I) as (t' & Ei & _). rewrite (bind_run (lift _) _ _ (default None (table_map t (copy_name name)), t') (set_receive_queues m2 (receive_queues m2) _, tt)) by (unfold lift; by rewrite Ei).
  run_step. exists rq. eexists _, _. split; [reflexivity |]. cbn. rewrite lookup_insert_eq. split_and!; try done.
  apply create_holds; [by apply zeros_length | done].
Qed.

Lemma add_message_callback_ok m name path f : ready m (receive_queues m) name path -> valid_fd fd ->
  exists rq m', add_message_callback name MESSAGE_TYPE_NOTIFY f (m, tt) = Ok (true, (m', tt)) /\
    receiving m' rq [ReceiveQueueCallback f MESSAGE_TYPE_NOTIFY] [] /\ called m' = called m.
Proof.
  intros H Hfd. pose proof H as [(t & Ht & Hw & Hnone) Hn He Hd]. unfold add_message_callback. run_step.
  rewrite (bind_run _ _ _ _ _ (lookup_queue_run _ _ _ _ Ht Hw)), Hnone. cbn [default].
  destruct (create_receive_queue_ok m name path H Hfd) as (rq & m1 & r & E & Hr & Hcbs & Hb & Hd1 & Hc). rewrite (bind_run _ _ _ _ _ E).
  rewrite (bind_run _ _ _ _ _ (load_rq_run rq r (m1, tt) Hr)), Hcbs, (bind_run _ _ _ _ _ (store_rq_run _ _ _ _)).
  exists rq. eexists. split; [reflexivity |]. split; [| done]. split; [| done]. eexists. cbn. rewrite lookup_insert_eq. by split_and!.
Qed.

(** A messenger that has been initialised is ready for any name. *)
Lemma init_ready directory name path : service_name name (c_string directory) path ->
  exists m, init_messenger directory (zero_messenger, tt) = Ok (true, (m, tt)) /\ ready m (send_queues m) name path /\
    ready m (receive_queues m) name path /\ called m = [].
Proof.
  intros Hn. eexists. split; [reflexivity |]. pose proof (create_ok (K := bytes) (V := option positive) (ok := fun _ => True) 8 ltac:(lia)) as [Hw Hempty].
  split_and!; [| | done]; (split; [eexists; split_and!; [reflexivity | done | apply Hempty] | done | apply init_handler_wf | done]).
Qed.

(** The two ends are set up as the delivery of messages needs them. Whatever
    the name of the service, if its path fits in a socket address and the name in
    a queue, then after [init_messenger] the first message to the service makes a
    queue that is connected, empty and found by its name, and the first callback
    makes a queue that has it and has read nothing. *)
Theorem ends_set_up directory name path f : service_name name (c_string directory) path -> valid_fd fd ->
  exists m, init_messenger directory (zero_messenger, tt) = Ok (true, (m, tt)) /\
    (exists sq ms, create_send_queue dump name (m, tt) = Ok (Some sq, (ms, tt)) /\ sending ms name sq fd []) /\
    (exists rq mr, add_message_callback name MESSAGE_TYPE_NOTIFY f (m, tt) = Ok (true, (mr, tt)) /\
      receiving mr rq [ReceiveQueueCallback f MESSAGE_TYPE_NOTIFY] [] /\ called mr = []).
Proof.
  intros Hn Hfd. destruct (init_ready directory name path Hn) as (m & E & Hs & Hr & Hc). exists m. split; [done |].
  split; [by apply (create_send_queue_ok m name path) |].
  destruct (add_message_callback_ok m name path f Hr Hfd) as (rq & mr & Ea & Hrc & Hc'). exists rq, mr. by rewrite Hc', Hc.
Qed.
End Setup.

(** * Witness *)

(** The service "a" in "/t", and two messages of which the second stays behind
    when the socket has room for one packet. *)
Definition sample_name : bytes := map byte.of_Z [97].
Definition sample_directory : bytes := map byte.of_Z [47; 116].
Definition sample_path : bytes := map byte.of_Z [47; 116; 47; 116; 114; 101; 109; 97; 46; 97; 46; 115; 111; 99; 107].
Definition sample_steps : list step :=
  [Push (Notification 7 [Byte.x01]); SetRoom 1; Writable; Push (Notification 8 []); Writable; Readable; Readable].

Lemma sample_sendable : Forall sendable (pushes sample_steps).
Proof.
  cbn. do 2 (constructor; [split; vm_compute; [by split | done] |]). constructor.
Qed.

Lemma sample_service : service_name sample_name (c_string sample_directory) sample_path.
Proof. by split; vm_compute. Qed.

#[local] Instance sample_host : Host := LittleEndian.
#[local] Instance sample_system : System unit := ready_system 5.

Lemma ends_set_up_witness : exists m, init_messenger sample_directory (zero_messenger, tt) = Ok (true, (m, tt)) /\
  (exists sq ms, create_send_queue dump sample_name (m, tt) = Ok (Some sq, (ms, tt)) /\ sending ms sample_name sq 5 []) /\
  (exists rq mr, add_message_callback sample_name MESSAGE_TYPE_NOTIFY 1 (m, tt) = Ok (true, (mr, tt)) /\
    receiving mr rq [ReceiveQueueCallback 1 MESSAGE_TYPE_NOTIFY] [] /\ called mr = []).
Proof. exact (ends_set_up 5 sample_directory sample_name sample_path 1 sample_service ltac:(unfold valid_fd, FD_SETSIZE; lia)). Defined.

Lemma messages_delivered_in_order_witness : exists ms mr sq rq accepted w delivered waiting,
  run_steps (fun _ => None) sample_name sq rq 5 6 (Processes ms mr (Link [] 0)) sample_steps = Ok (accepted, w) /\
  called (receiver w) = [] ++ deliveries [ReceiveQueueCallback 1 MESSAGE_TYPE_NOTIFY] delivered /\ accepted = delivered ++ waiting /\
  accepted = pushes sample_steps /\
  exists w', run_steps (fun _ => None) sample_name sq rq 5 6 w (drain 7) = Ok ([], w') /\
    called (receiver w') = [] ++ deliveries [ReceiveQueueCallback 1 MESSAGE_TYPE_NOTIFY] accepted.
Proof.
  destruct (init_ready sample_directory sample_name sample_path sample_service) as (m & _ & Hs & Hr & Hc).
  destruct (create_send_queue_ok 5 m sample_name sample_path Hs ltac:(unfold valid_fd, FD_SETSIZE; lia)) as (sq & ms & _ & Hsend).
  destruct (add_message_callback_ok 5 m sample_name sample_path 1 Hr ltac:(unfold valid_fd, FD_SETSIZE; lia)) as (rq & mr & _ & Hrecv & Hc').
  exists ms, mr, sq, rq. rewrite Hc in Hc'. rewrite <- Hc'.
  destruct (messages_delivered_in_order (fun _ => None) sample_name sq rq 5 6 [ReceiveQueueCallback 1 MESSAGE_TYPE_NOTIFY] ms mr (Link [] 0) sample_steps
    Hsend Hrecv eq_refl ltac:(lia) sample_sendable) as (accepted & w & delivered & waiting & E & Hlog & Ha & _ & Hall & Hdrain).
  exists accepted, w, delivered, waiting. split; [exact E |]. split; [exact Hlog |]. split; [exact Ha |]. split.
  - apply Hall. vm_compute. discriminate.
  - apply (Hdrain 7%nat). cbn. lia.
Defined.
