(* ===== verification/Match.v ===== *)
(** match.h and the comparison functions of match_table.c: OpenFlow matches.

    [covers] is the reference: a match covers a packet (a match without
    wildcards) when every field is a wildcard or equal, and the addresses
    agree on the prefix that is not wildcarded. *)

From Stdlib Require Import ZArith Lia Bool.
From coqutil Require Import Byte.
From stdpp Require Import base list.
From S2P Require Import Prelude Memory OpenFlow HashTable Utility.

Implicit Types (x y p : ofp_match) (w : Z).

(** * match.h *)

(** [( ( uint16_t * ) &( x ) )[ i ]]; the values are only compared, and two
    are equal when their two bytes are. *)
Definition half (x : bytes) (i : nat) : bytes := take 2 (drop (2 * i) x).

Definition COMPARE_MAC (x y : bytes) : bool :=
  bool_decide (half x 0 = half y 0) && bool_decide (half x 1 = half y 1)
  && bool_decide (half x 2 = half y 2).

Definition create_nw_src_mask w : Z :=
  let _m := Z.shiftr (Z.land w OFPFW_NW_SRC_MASK) OFPFW_NW_SRC_SHIFT in
  if 32 <=? _m then 0 else u32 (Z.shiftl 0xffffffff _m).

Definition create_nw_dst_mask w : Z :=
  let _m := Z.shiftr (Z.land w OFPFW_NW_DST_MASK) OFPFW_NW_DST_SHIFT in
  if 32 <=? _m then 0 else u32 (Z.shiftl 0xffffffff _m).

Definition compare_match x y : bool :=
  let _w := Z.lor (wildcards x) (wildcards y) in
  let _sm := Z.land (create_nw_src_mask (wildcards x)) (create_nw_src_mask (wildcards y)) in
  let _dm := Z.land (create_nw_dst_mask (wildcards x)) (create_nw_dst_mask (wildcards y)) in
  (truth (Z.land _w OFPFW_IN_PORT) || (in_port x =? in_port y))
  && (truth (Z.land _w OFPFW_DL_VLAN) || (dl_vlan x =? dl_vlan y))
  && (truth (Z.land _w OFPFW_DL_VLAN_PCP) || (dl_vlan_pcp x =? dl_vlan_pcp y))
  && (truth (Z.land _w OFPFW_DL_SRC) || COMPARE_MAC (dl_src x) (dl_src y))
  && (truth (Z.land _w OFPFW_DL_DST) || COMPARE_MAC (dl_dst x) (dl_dst y))
  && (truth (Z.land _w OFPFW_DL_TYPE) || (dl_type x =? dl_type y))
  && negb (truth (Z.land (Z.lxor (nw_src x) (nw_src y)) _sm))
  && negb (truth (Z.land (Z.lxor (nw_dst x) (nw_dst y)) _dm))
  && (truth (Z.land _w OFPFW_NW_TOS) || (nw_tos x =? nw_tos y))
  && (truth (Z.land _w OFPFW_NW_PROTO) || (nw_proto x =? nw_proto y))
  && (truth (Z.land _w OFPFW_TP_SRC) || (tp_src x =? tp_src y))
  && (truth (Z.land _w OFPFW_TP_DST) || (tp_dst x =? tp_dst y)).

Definition compare_match_strict x y : bool :=
  (Z.land (Z.lxor (wildcards x) (wildcards y)) OFPFW_ALL =? 0) && compare_match x y.

(** * match_table.c *)

Definition exact_match x : bool := Z.land (wildcards x) OFPFW_ALL =? 0.

Definition compare_filter_match x y : bool :=
  let w_x := Z.land (wildcards x) OFPFW_ALL in
  let w_y := Z.land (wildcards y) OFPFW_ALL in
  let sm_x := create_nw_src_mask w_x in
  let dm_x := create_nw_dst_mask w_x in
  let sm_y := create_nw_src_mask w_y in
  let dm_y := create_nw_dst_mask w_y in
  let w_x := Z.land w_x (not32 (Z.lor OFPFW_NW_SRC_MASK OFPFW_NW_DST_MASK)) in
  let w_y := Z.land w_y (not32 (Z.lor OFPFW_NW_SRC_MASK OFPFW_NW_DST_MASK)) in
  if negb (Z.land (not32 w_x) w_y =? 0) then false
  else if sm_y <? sm_x then false
  else if dm_y <? dm_x then false
  else
    (truth (Z.land w_x OFPFW_IN_PORT) || (in_port x =? in_port y))
    && (truth (Z.land w_x OFPFW_DL_VLAN) || (dl_vlan x =? dl_vlan y))
    && (truth (Z.land w_x OFPFW_DL_VLAN_PCP) || (dl_vlan_pcp x =? dl_vlan_pcp y))
    && (truth (Z.land w_x OFPFW_DL_SRC) || COMPARE_MAC (dl_src x) (dl_src y))
    && (truth (Z.land w_x OFPFW_DL_DST) || COMPARE_MAC (dl_dst x) (dl_dst y))
    && (truth (Z.land w_x OFPFW_DL_TYPE) || (dl_type x =? dl_type y))
    && negb (truth (Z.land (Z.lxor (nw_src x) (nw_src y)) sm_x))
    && negb (truth (Z.land (Z.lxor (nw_dst x) (nw_dst y)) dm_x))
    && (truth (Z.land w_x OFPFW_NW_TOS) || (nw_tos x =? nw_tos y))
    && (truth (Z.land w_x OFPFW_NW_PROTO) || (nw_proto x =? nw_proto y))
    && (truth (Z.land w_x OFPFW_TP_SRC) || (tp_src x =? tp_src y))
    && (truth (Z.land w_x OFPFW_TP_DST) || (tp_dst x =? tp_dst y)).

Definition compare_exact_match_entry x y : bool := compare_match_strict x y.

(** [dl_vlan] and the others are promoted to [int]; a shift that would leave
    its range is taken as the wrap-around the compilers make it.  [hash] is an
    [unsigned int], to which the operands are converted. *)
Definition hash_exact_match_entry (key : ofp_match) : Z :=
  let vlan := if negb (dl_vlan key =? UINT16_MAX) then u16 (Z.land (dl_vlan key) 0x0fff) else dl_vlan key in
  let vlan_pcp := u8 (Z.land (dl_vlan_pcp key) 0x07) in
  let tos := u8 (Z.land (nw_tos key) 0x3f) in
  let hash := Z.lxor 0 (u32 (Z.shiftl (in_port key) 16)) in
  let hash := Z.lxor hash (hash_mac (dl_src key)) in
  let hash := Z.lxor hash (hash_mac (dl_dst key)) in
  let hash := Z.lxor hash vlan in
  let hash := Z.lxor hash (u32 (Z.shiftl vlan_pcp 24)) in
  let hash := Z.lxor hash (u32 (Z.shiftl (dl_type key) 8)) in
  let hash := Z.lxor hash tos in
  let hash := Z.lxor hash (u32 (Z.shiftl (nw_proto key) 24)) in
  let hash := Z.lxor hash (nw_src key) in
  let hash := Z.lxor hash (nw_dst key) in
  let hash := Z.lxor hash (u32 (Z.shiftl (tp_src key) 16)) in
  u32 (Z.lxor hash (tp_dst key)).

#[export] Instance match_key : HashKey ofp_match :=
  {| compare := compare_exact_match_entry; hash := hash_exact_match_entry |}.

(** * Reference semantics *)

Inductive field : Type :=
| FInPort | FDlVlan | FDlSrc | FDlDst | FDlType | FNwProto | FTpSrc | FTpDst | FDlVlanPcp | FNwTos.

(** The bit of [wildcards] for a field. *)
Definition bit (f : field) : Z :=
  match f with
  | FInPort => 0 | FDlVlan => 1 | FDlSrc => 2 | FDlDst => 3 | FDlType => 4 | FNwProto => 5
  | FTpSrc => 6 | FTpDst => 7 | FDlVlanPcp => 20 | FNwTos => 21
  end.

Definition same (f : field) x y : Prop :=
  match f with
  | FInPort => in_port x = in_port y
  | FDlVlan => dl_vlan x = dl_vlan y
  | FDlSrc => dl_src x = dl_src y
  | FDlDst => dl_dst x = dl_dst y
  | FDlType => dl_type x = dl_type y
  | FNwProto => nw_proto x = nw_proto y
  | FTpSrc => tp_src x = tp_src y
  | FTpDst => tp_dst x = tp_dst y
  | FDlVlanPcp => dl_vlan_pcp x = dl_vlan_pcp y
  | FNwTos => nw_tos x = nw_tos y
  end.

Definition wild w (f : field) : bool := Z.testbit w (bit f).

(** How many low bits of the addresses are wildcarded. *)
Definition src_bits w : Z := Z.min 32 (Z.shiftr w 8 mod 2 ^ 6).
Definition dst_bits w : Z := Z.min 32 (Z.shiftr w 14 mod 2 ^ 6).

Definition same_prefix (n a b : Z) : Prop := Z.shiftr a n = Z.shiftr b n.

(** [p] is a packet: its wildcards do not count. *)
Record covers x p : Prop := {
  covers_field f : wild (wildcards x) f = false -> same f x p;
  covers_src : same_prefix (src_bits (wildcards x)) (nw_src x) (nw_src p);
  covers_dst : same_prefix (dst_bits (wildcards x)) (nw_dst x) (nw_dst p)
}.

(** * Bits and masks *)

Lemma land_bit w i : 0 <= i -> truth (Z.land w (Z.shiftl 1 i)) = Z.testbit w i.
Proof.
  intros Hi. unfold truth. destruct (Z.testbit w i) eqn:E.
  - apply negb_true_iff, Z.eqb_neq. intros H. apply (f_equal (fun z => Z.testbit z i)) in H.
    rewrite Z.land_spec, E, Z.shiftl_spec, Z.sub_diag, Z.bits_0 in H by lia. done.
  - apply negb_false_iff, Z.eqb_eq. apply Z.bits_inj'. intros n Hn.
    rewrite Z.land_spec, Z.bits_0. destruct (Z.eq_dec n i) as [-> | Hne]; [by rewrite E |].
    rewrite Z.shiftl_1_l, Z.pow2_bits_false by done. apply andb_false_r.
Qed.

Lemma wildcard_bits (f : field) w :
  match f with
  | FInPort => truth (Z.land w OFPFW_IN_PORT)
  | FDlVlan => truth (Z.land w OFPFW_DL_VLAN)
  | FDlSrc => truth (Z.land w OFPFW_DL_SRC)
  | FDlDst => truth (Z.land w OFPFW_DL_DST)
  | FDlType => truth (Z.land w OFPFW_DL_TYPE)
  | FNwProto => truth (Z.land w OFPFW_NW_PROTO)
  | FTpSrc => truth (Z.land w OFPFW_TP_SRC)
  | FTpDst => truth (Z.land w OFPFW_TP_DST)
  | FDlVlanPcp => truth (Z.land w OFPFW_DL_VLAN_PCP)
  | FNwTos => truth (Z.land w OFPFW_NW_TOS)
  end = wild w f.
Proof. unfold wild. destruct f; by apply land_bit. Qed.

Lemma land_ones_bit w n i : 0 <= i < n -> Z.testbit (Z.land w (Z.ones n)) i = Z.testbit w i.
Proof. intros Hi. rewrite Z.land_spec, Z.ones_spec_low, andb_true_r by lia. done. Qed.

Lemma shiftr_land_mask w n s :
  0 <= n -> 0 <= s -> Z.shiftr (Z.land w (Z.shiftl (Z.ones n) s)) s = Z.shiftr w s mod 2 ^ n.
Proof.
  intros Hn Hs. rewrite Z.shiftr_land, Z.shiftr_shiftl_l, Z.sub_diag, Z.shiftl_0_r by lia.
  by apply Z.land_ones.
Qed.

(** The mask of an address whose [m] low bits are wildcarded. *)
Definition mask (m : Z) : Z := if 32 <=? m then 0 else u32 (Z.shiftl 0xffffffff m).

Lemma create_nw_src_mask_eq w : create_nw_src_mask w = mask (src_bits w).
Proof.
  unfold create_nw_src_mask, src_bits, mask. cbv zeta.
  change OFPFW_NW_SRC_MASK with (Z.shiftl (Z.ones 6) 8). change OFPFW_NW_SRC_SHIFT with 8.
  rewrite shiftr_land_mask by lia. destruct (Z.leb_spec 32 (Z.shiftr w 8 mod 2 ^ 6)).
  - by rewrite Z.min_l by lia.
  - rewrite Z.min_r by lia. by destruct (Z.leb_spec 32 (Z.shiftr w 8 mod 2 ^ 6)); [lia |].
Qed.

Lemma create_nw_dst_mask_eq w : create_nw_dst_mask w = mask (dst_bits w).
Proof.
  unfold create_nw_dst_mask, dst_bits, mask. cbv zeta.
  change OFPFW_NW_DST_MASK with (Z.shiftl (Z.ones 6) 14). change OFPFW_NW_DST_SHIFT with 14.
  rewrite shiftr_land_mask by lia. destruct (Z.leb_spec 32 (Z.shiftr w 14 mod 2 ^ 6)).
  - by rewrite Z.min_l by lia.
  - rewrite Z.min_r by lia. by destruct (Z.leb_spec 32 (Z.shiftr w 14 mod 2 ^ 6)); [lia |].
Qed.

Lemma mask_spec m i : 0 <= m <= 32 -> 0 <= i -> Z.testbit (mask m) i = (m <=? i) && (i <? 32).
Proof.
  intros Hm Hi. unfold mask. destruct (Z.leb_spec 32 m).
  - rewrite Z.bits_0. destruct (Z.leb_spec m i), (Z.ltb_spec i 32); cbn; try done; lia.
  - unfold u32. change 4294967295 with (Z.ones 32). destruct (Z.ltb_spec i 32).
    + rewrite Z.mod_pow2_bits_low, Z.shiftl_spec, andb_true_r by lia.
      destruct (Z.leb_spec m i); [by rewrite Z.ones_spec_low by lia | by rewrite Z.testbit_neg_r by lia].
    + by rewrite Z.mod_pow2_bits_high, andb_false_r by lia.
Qed.

Lemma mask_le m n : 0 <= m <= 32 -> 0 <= n <= 32 -> mask m <= mask n <-> n <= m.
Proof.
  assert (E : forall k, 0 <= k <= 32 -> mask k = 2 ^ 32 - 2 ^ k).
  { intros k Hk. unfold mask. destruct (Z.leb_spec 32 k) as [| Hk'].
    - by replace k with 32 by lia.
    - unfold u32. rewrite Z.shiftl_mul_pow2 by lia.
      assert (P : 2 ^ k < 2 ^ 32) by (apply Z.pow_lt_mono_r; lia).
      assert (P0 : 0 < 2 ^ k) by (apply Z.pow_pos_nonneg; lia).
      symmetry. apply (Z.mod_unique _ _ (2 ^ k - 1)); [left |]; nia. }
  intros Hm Hn. rewrite !E by done. split; intros H.
  - apply Z.pow_le_mono_r_iff with (a := 2); lia.
  - enough (2 ^ n <= 2 ^ m) by lia. apply Z.pow_le_mono_r; lia.
Qed.

Lemma same_prefix_bits n a b :
  fits 4 a -> fits 4 b -> 0 <= n ->
  same_prefix n a b <-> forall i, n <= i < 32 -> Z.testbit a i = Z.testbit b i.
Proof.
  intros Ha Hb Hn. unfold fits in *. split.
  - intros H i Hi. apply (f_equal (fun z => Z.testbit z (i - n))) in H.
    rewrite !Z.shiftr_spec in H by lia. by replace (i - n + n) with i in H by lia.
  - intros H. apply Z.bits_inj'. intros i Hi. rewrite !Z.shiftr_spec by lia.
    destruct (Z.ltb_spec (i + n) 32); [apply H; lia |].
    by rewrite !(testbit_above _ 32) by (cbn in *; lia).
Qed.

(** The comparison of addresses under one mask or under two. *)
Lemma masked_equal a b m n :
  fits 4 a -> fits 4 b -> 0 <= m <= 32 -> 0 <= n <= 32 ->
  negb (truth (Z.land (Z.lxor a b) (Z.land (mask m) (mask n)))) = true <-> same_prefix (Z.max m n) a b.
Proof.
  intros Ha Hb Hm Hn. unfold truth. rewrite negb_involutive, Z.eqb_eq, same_prefix_bits by first [done | lia].
  split.
  - intros H i Hi. apply (f_equal (fun z => Z.testbit z i)) in H.
    rewrite !Z.land_spec, Z.lxor_spec, !mask_spec, Z.bits_0 in H by lia.
    replace (m <=? i) with true in H by lia. replace (n <=? i) with true in H by lia.
    replace (i <? 32) with true in H by lia.
    destruct (Z.testbit a i), (Z.testbit b i); done.
  - intros H. apply Z.bits_inj'. intros i Hi.
    rewrite !Z.land_spec, Z.lxor_spec, !mask_spec, Z.bits_0 by lia.
    destruct (Z.leb_spec m i), (Z.leb_spec n i), (Z.ltb_spec i 32); rewrite ?andb_false_r; try done.
    rewrite H by lia. by rewrite xorb_nilpotent.
Qed.

Lemma src_bits_range w : 0 <= src_bits w <= 32.
Proof. unfold src_bits. pose proof (Z.mod_pos_bound (Z.shiftr w 8) (2 ^ 6) eq_refl). lia. Qed.

Lemma dst_bits_range w : 0 <= dst_bits w <= 32.
Proof. unfold dst_bits. pose proof (Z.mod_pos_bound (Z.shiftr w 14) (2 ^ 6) eq_refl). lia. Qed.

(** * The comparisons decide the reference *)

Lemma COMPARE_MAC_take a b : COMPARE_MAC a b = true <-> take 6 a = take 6 b.
Proof.
  unfold COMPARE_MAC, half. rewrite !andb_true_iff, !bool_decide_eq_true.
  assert (E : forall c : bytes, take 6 c = take 2 (drop 0 c) ++ take 2 (drop 2 c) ++ take 2 (drop 4 c)).
  { intros c. do 6 (destruct c as [| ? c]; [done |]). done. }
  split.
  - intros [[H0 H1] H2]. rewrite !E. change (2 * 0)%nat with 0%nat in H0.
    change (2 * 1)%nat with 2%nat in H1. change (2 * 2)%nat with 4%nat in H2. congruence.
  - intros H. assert (P : forall i, (i <= 2)%nat -> take 2 (drop (2 * i) a) = take 2 (drop (2 * i) b)).
    { intros i Hi. assert (D : forall c : bytes, take 2 (drop (2 * i) (take 6 c)) = take 2 (drop (2 * i) c)).
      { intros c. rewrite skipn_firstn_comm, take_take. f_equal. lia. }
      by rewrite <- (D a), <- (D b), H. }
    split; [split |]; apply P; lia.
Qed.

Lemma COMPARE_MAC_true a b : length a = 6%nat -> length b = 6%nat -> COMPARE_MAC a b = true <-> a = b.
Proof. intros Ha Hb. rewrite COMPARE_MAC_take, !take_ge by lia. done. Qed.

(** [same] as the code computes it. *)
Definition sameb (f : field) x y : bool :=
  match f with
  | FInPort => in_port x =? in_port y
  | FDlVlan => dl_vlan x =? dl_vlan y
  | FDlSrc => COMPARE_MAC (dl_src x) (dl_src y)
  | FDlDst => COMPARE_MAC (dl_dst x) (dl_dst y)
  | FDlType => dl_type x =? dl_type y
  | FNwProto => nw_proto x =? nw_proto y
  | FTpSrc => tp_src x =? tp_src y
  | FTpDst => tp_dst x =? tp_dst y
  | FDlVlanPcp => dl_vlan_pcp x =? dl_vlan_pcp y
  | FNwTos => nw_tos x =? nw_tos y
  end.

Lemma sameb_true f x y : wf_match x -> wf_match y -> sameb f x y = true <-> same f x y.
Proof.
  intros Hx Hy. destruct f; cbn; rewrite ?Z.eqb_eq; try done; apply COMPARE_MAC_true;
    first [apply Hx | apply Hy].
Qed.

Lemma wild_lor w w' f : wild (Z.lor w w') f = wild w f || wild w' f.
Proof. apply Z.lor_spec. Qed.

Lemma forall_fields (P : field -> Prop) :
  (forall f, P f) <-> P FInPort /\ P FDlVlan /\ P FDlVlanPcp /\ P FDlSrc /\ P FDlDst /\ P FDlType /\
    P FNwTos /\ P FNwProto /\ P FTpSrc /\ P FTpDst.
Proof. split; [by auto 11 | by intros ?; intros []; tauto]. Qed.

Lemma compare_match_true x y :
  wf_match x -> wf_match y ->
  compare_match x y = true <->
  (forall f, wild (wildcards x) f || wild (wildcards y) f = true \/ same f x y) /\
  same_prefix (Z.max (src_bits (wildcards x)) (src_bits (wildcards y))) (nw_src x) (nw_src y) /\
  same_prefix (Z.max (dst_bits (wildcards x)) (dst_bits (wildcards y))) (nw_dst x) (nw_dst y).
Proof.
  intros Hx Hy. pose proof (wildcard_bits) as W.
  rewrite <- !masked_equal by first [apply Hx | apply Hy | apply src_bits_range | apply dst_bits_range].
  rewrite forall_fields. rewrite <- !wild_lor, <- !sameb_true by done. rewrite <- !orb_true_iff.
  rewrite <- !W. cbn [sameb]. unfold compare_match. cbv zeta.
  rewrite !create_nw_src_mask_eq, !create_nw_dst_mask_eq, !andb_true_iff. tauto.
Qed.

Lemma exact_wild x f : exact_match x = true -> wild (wildcards x) f = false.
Proof.
  unfold exact_match, wild. intros H%Z.eqb_eq.
  apply (f_equal (fun z => Z.testbit z (bit f))) in H. rewrite Z.bits_0 in H.
  change OFPFW_ALL with (Z.ones 22) in H. rewrite land_ones_bit in H; [done |]. destruct f; cbn; lia.
Qed.

Lemma exact_bits x : exact_match x = true -> src_bits (wildcards x) = 0 /\ dst_bits (wildcards x) = 0.
Proof.
  unfold exact_match, src_bits, dst_bits. intros H%Z.eqb_eq. change OFPFW_ALL with (Z.ones 22) in H.
  assert (E : forall s, 0 <= s <= 16 -> Z.shiftr (wildcards x) s mod 2 ^ 6 = 0); [| by rewrite !E by lia].
  intros s Hs. apply Z.bits_inj'. intros i Hi. rewrite Z.bits_0.
  destruct (Z.ltb_spec i 6); [| by rewrite Z.mod_pow2_bits_high by lia].
  rewrite Z.mod_pow2_bits_low, Z.shiftr_spec by lia.
  apply (f_equal (fun z => Z.testbit z (i + s))) in H. rewrite Z.bits_0 in H.
  by rewrite land_ones_bit in H by lia.
Qed.

(** On a packet the macro decides whether the match covers it. *)
Lemma compare_match_covers x p :
  wf_match x -> wf_match p -> exact_match p = true -> compare_match x p = true <-> covers x p.
Proof.
  intros Hx Hp He. rewrite compare_match_true by done. destruct (exact_bits p He) as [-> ->].
  pose proof (src_bits_range (wildcards x)). pose proof (dst_bits_range (wildcards x)).
  rewrite !Z.max_l by lia. split.
  - intros (H1 & H2 & H3). split; [| done | done]. intros f Hf. destruct (H1 f) as [Hw |]; [| done].
    by rewrite Hf, (exact_wild p f He) in Hw.
  - intros [H1 H2 H3]. split; [| done]. intros f. destruct (wild (wildcards x) f) eqn:E; [by left | right; auto].
Qed.

(** ** The filter *)

Lemma not32_bit w i : 0 <= i < 32 -> Z.testbit (not32 w) i = negb (Z.testbit w i).
Proof. intros Hi. unfold not32, u32. by rewrite Z.mod_pow2_bits_low, Z.lnot_spec by lia. Qed.

Definition all_fields : list field :=
  [FInPort; FDlVlan; FDlSrc; FDlDst; FDlType; FNwProto; FTpSrc; FTpDst; FDlVlanPcp; FNwTos].

Definition is_field_bit (i : Z) : bool := existsb (fun f => bit f =? i) all_fields.

(** What remains of [wildcards] in [w_x] and [w_y]: the bits of the fields. *)
Definition field_wildcards w : Z :=
  Z.land (Z.land w OFPFW_ALL) (not32 (Z.lor OFPFW_NW_SRC_MASK OFPFW_NW_DST_MASK)).

Lemma field_wildcards_bit w i :
  0 <= i -> Z.testbit (field_wildcards w) i = Z.testbit w i && is_field_bit i.
Proof.
  intros Hi. unfold field_wildcards. rewrite <- Z.land_assoc, Z.land_spec. f_equal.
  destruct (Z.ltb_spec i 32) as [Hlt | Hge].
  - assert (Hc : forallb (fun i => eqb (Z.testbit (Z.land OFPFW_ALL
        (not32 (Z.lor OFPFW_NW_SRC_MASK OFPFW_NW_DST_MASK))) i) (is_field_bit i)) (seqZ 0 32) = true)
      by (by vm_compute).
    rewrite forallb_forall in Hc. apply eqb_prop, Hc, list_elem_of_In, elem_of_seqZ. lia.
  - rewrite (testbit_above _ 32) by (first [lia | vm_compute; by split]). symmetry.
    apply not_true_iff_false. unfold is_field_bit. rewrite existsb_exists.
    intros (f & _ & E%Z.eqb_eq). destruct f; cbn in E; lia.
Qed.

Lemma wild_field_wildcards w f : wild (field_wildcards w) f = wild w f.
Proof.
  unfold wild. rewrite field_wildcards_bit by (destruct f; done).
  replace (is_field_bit (bit f)) with true by (by destruct f). apply andb_true_r.
Qed.

Lemma field_wildcards_subset w w' :
  Z.land (not32 (field_wildcards w)) (field_wildcards w') = 0 <->
  forall f, wild w' f = true -> wild w f = true.
Proof.
  split.
  - intros H f Hf. apply (f_equal (fun z => Z.testbit z (bit f))) in H. rewrite Z.bits_0, Z.land_spec in H.
    rewrite not32_bit in H by (destruct f; done).
    change (Z.testbit (field_wildcards w) (bit f)) with (wild (field_wildcards w) f) in H.
    change (Z.testbit (field_wildcards w') (bit f)) with (wild (field_wildcards w') f) in H.
    rewrite !wild_field_wildcards, Hf, andb_true_r in H. by apply negb_false_iff.
  - intros H. apply Z.bits_inj'. intros i Hi. rewrite Z.bits_0, Z.land_spec, field_wildcards_bit by done.
    destruct (is_field_bit i) eqn:E; [| by rewrite !andb_false_r].
    apply existsb_exists in E as (f & _ & <-%Z.eqb_eq).
    rewrite not32_bit, field_wildcards_bit by (destruct f; done).
    specialize (H f). unfold wild in H. destruct (Z.testbit w' (bit f)); [| by rewrite andb_false_r].
    rewrite H by done. replace (is_field_bit (bit f)) with true by (by destruct f). done.
Qed.

Lemma src_bits_all w : src_bits (Z.land w OFPFW_ALL) = src_bits w.
Proof.
  unfold src_bits. f_equal. change OFPFW_ALL with (Z.ones 22). apply Z.bits_inj'. intros i Hi.
  destruct (Z.ltb_spec i 6); [| by rewrite !Z.mod_pow2_bits_high by lia].
  by rewrite !Z.mod_pow2_bits_low, !Z.shiftr_spec, land_ones_bit by lia.
Qed.

Lemma dst_bits_all w : dst_bits (Z.land w OFPFW_ALL) = dst_bits w.
Proof.
  unfold dst_bits. f_equal. change OFPFW_ALL with (Z.ones 22). apply Z.bits_inj'. intros i Hi.
  destruct (Z.ltb_spec i 6); [| by rewrite !Z.mod_pow2_bits_high by lia].
  by rewrite !Z.mod_pow2_bits_low, !Z.shiftr_spec, land_ones_bit by lia.
Qed.

Lemma compare_filter_match_true x y :
  wf_match x -> wf_match y ->
  compare_filter_match x y = true <->
  (forall f, wild (wildcards y) f = true -> wild (wildcards x) f = true) /\
  src_bits (wildcards y) <= src_bits (wildcards x) /\
  dst_bits (wildcards y) <= dst_bits (wildcards x) /\
  covers x y.
Proof.
  intros Hx Hy. pose proof (wildcard_bits) as W.
  pose proof (src_bits_range (wildcards x)). pose proof (dst_bits_range (wildcards x)).
  pose proof (src_bits_range (wildcards y)). pose proof (dst_bits_range (wildcards y)).
  unfold compare_filter_match. cbv zeta.
  rewrite !create_nw_src_mask_eq, !create_nw_dst_mask_eq, !src_bits_all, !dst_bits_all.
  fold (field_wildcards (wildcards x)) (field_wildcards (wildcards y)).
  rewrite <- (field_wildcards_subset (wildcards x)).
  destruct (Z.eqb_spec (Z.land (not32 (field_wildcards (wildcards x))) (field_wildcards (wildcards y))) 0);
    cbn [negb]; [| by split; [| tauto]].
  destruct (Z.ltb_spec (mask (src_bits (wildcards y))) (mask (src_bits (wildcards x)))) as [Hs | Hs].
  { split; [done |]. intros (_ & Hc & _). apply mask_le in Hc; lia. }
  rewrite mask_le in Hs by done.
  destruct (Z.ltb_spec (mask (dst_bits (wildcards y))) (mask (dst_bits (wildcards x)))) as [Hd | Hd].
  { split; [done |]. intros (_ & _ & Hc & _). apply mask_le in Hc; lia. }
  rewrite mask_le in Hd by done.
  trans ((forall f, wild (wildcards x) f = true \/ same f x y) /\
    same_prefix (src_bits (wildcards x)) (nw_src x) (nw_src y) /\
    same_prefix (dst_bits (wildcards x)) (nw_dst x) (nw_dst y)).
  - rewrite forall_fields. rewrite <- !(wild_field_wildcards (wildcards x)), <- !sameb_true by done.
    rewrite <- !orb_true_iff, <- !W. cbn [sameb].
    rewrite <- (Z.max_id (src_bits (wildcards x))), <- (Z.max_id (dst_bits (wildcards x))).
    rewrite <- !masked_equal by first [apply Hx | apply Hy | apply src_bits_range | apply dst_bits_range].
    rewrite !Z.land_diag, !Z.max_id, !andb_true_iff. tauto.
  - split.
    + intros (Hf & Hsp & Hdp). split_and!; try done. split; try done.
      intros f Hw. destruct (Hf f) as [E |]; [| done]. by rewrite Hw in E.
    + intros (_ & _ & _ & [Hf Hsp Hdp]). split_and!; try done. intros f.
      destruct (wild (wildcards x) f) eqn:E; [by left | right; auto].
Qed.

(** ** Packets that tell two matches apart *)

Definition set_wildcards x w : ofp_match := {|
  wildcards := w; in_port := in_port x; dl_src := dl_src x; dl_dst := dl_dst x;
  dl_vlan := dl_vlan x; dl_vlan_pcp := dl_vlan_pcp x; pad1 := pad1 x; dl_type := dl_type x;
  nw_tos := nw_tos x; nw_proto := nw_proto x; pad2 := pad2 x; nw_src := nw_src x;
  nw_dst := nw_dst x; tp_src := tp_src x; tp_dst := tp_dst x |}.

Definition other (n : Z) : Z := if n =? 0 then 1 else 0.
Definition other_mac (a : bytes) : bytes :=
  if bool_decide (a = zeros 6) then replicate 6 Byte.x01 else zeros 6.

(** [x] with another value of the field. *)
Definition change (f : field) x : ofp_match :=
  let at_ g old new := match f, g with
    | FInPort, FInPort | FDlVlan, FDlVlan | FDlType, FDlType | FNwProto, FNwProto
    | FTpSrc, FTpSrc | FTpDst, FTpDst | FDlVlanPcp, FDlVlanPcp | FNwTos, FNwTos => new
    | _, _ => old end in
  {|
  wildcards := wildcards x;
  in_port := at_ FInPort (in_port x) (other (in_port x));
  dl_src := match f with FDlSrc => other_mac (dl_src x) | _ => dl_src x end;
  dl_dst := match f with FDlDst => other_mac (dl_dst x) | _ => dl_dst x end;
  dl_vlan := at_ FDlVlan (dl_vlan x) (other (dl_vlan x));
  dl_vlan_pcp := at_ FDlVlanPcp (dl_vlan_pcp x) (other (dl_vlan_pcp x));
  pad1 := pad1 x;
  dl_type := at_ FDlType (dl_type x) (other (dl_type x));
  nw_tos := at_ FNwTos (nw_tos x) (other (nw_tos x));
  nw_proto := at_ FNwProto (nw_proto x) (other (nw_proto x));
  pad2 := pad2 x; nw_src := nw_src x; nw_dst := nw_dst x;
  tp_src := at_ FTpSrc (tp_src x) (other (tp_src x));
  tp_dst := at_ FTpDst (tp_dst x) (other (tp_dst x)) |}.

(** [x] with one bit of an address changed. *)
Definition flip_src (i : Z) x : ofp_match := {|
  wildcards := wildcards x; in_port := in_port x; dl_src := dl_src x; dl_dst := dl_dst x;
  dl_vlan := dl_vlan x; dl_vlan_pcp := dl_vlan_pcp x; pad1 := pad1 x; dl_type := dl_type x;
  nw_tos := nw_tos x; nw_proto := nw_proto x; pad2 := pad2 x;
  nw_src := Z.lxor (nw_src x) (2 ^ i); nw_dst := nw_dst x; tp_src := tp_src x; tp_dst := tp_dst x |}.
Definition flip_dst (i : Z) x : ofp_match := {|
  wildcards := wildcards x; in_port := in_port x; dl_src := dl_src x; dl_dst := dl_dst x;
  dl_vlan := dl_vlan x; dl_vlan_pcp := dl_vlan_pcp x; pad1 := pad1 x; dl_type := dl_type x;
  nw_tos := nw_tos x; nw_proto := nw_proto x; pad2 := pad2 x;
  nw_src := nw_src x; nw_dst := Z.lxor (nw_dst x) (2 ^ i); tp_src := tp_src x; tp_dst := tp_dst x |}.

Lemma other_ok n k : (1 <= k)%nat -> fits k n -> fits k (other n) /\ n <> other n.
Proof.
  intros Hk Hn. unfold other, fits in *. destruct (Z.eqb_spec n 0); split; try lia.
  split; [lia |]. apply Z.pow_gt_1; lia.
Qed.

Lemma other_mac_ok a : length (other_mac a) = 6%nat /\ a <> other_mac a.
Proof. unfold other_mac. case_bool_decide as E; [subst a; by split | by split]. Qed.

Lemma wf_set_wildcards x w : wf_match x -> fits 4 w -> wf_match (set_wildcards x w).
Proof. intros [] Hw. by split. Qed.

Lemma wf_change f x : wf_match x -> wf_match (change f x).
Proof.
  intros []. destruct f; split; cbn; try assumption; first [apply other_ok; [lia | assumption] | apply other_mac_ok].
Qed.

Lemma change_same f x g : wf_match x -> same g x (change f x) <-> g <> f.
Proof.
  intros []. destruct f, g; cbn; split; try done; intros E; exfalso; revert E;
    first [ eapply other_ok; [| eassumption]; lia | apply other_mac_ok ].
Qed.

Lemma fits_flip a i : fits 4 a -> 0 <= i < 32 -> fits 4 (Z.lxor a (2 ^ i)).
Proof.
  unfold fits. intros Ha Hi. split; [apply Z.lxor_nonneg; split; intros _; [lia | apply Ha] |].
  destruct (Z.eq_dec (Z.lxor a (2 ^ i)) 0) as [-> | Hne]; [lia |].
  assert (0 <= Z.lxor a (2 ^ i)) by (apply Z.lxor_nonneg; split; intros _; [lia | apply Ha]).
  apply Z.log2_lt_pow2; [lia |]. eapply Z.le_lt_trans; [apply Z.log2_lxor; lia |].
  apply Z.max_lub_lt; [| rewrite Z.log2_pow2 by lia; cbn; lia].
  destruct (Z.eq_dec a 0) as [-> | Ha0]; [cbn; lia |]. apply Z.log2_lt_pow2; cbn in *; lia.
Qed.

Lemma flip_prefix n a i : fits 4 a -> 0 <= i < 32 -> 0 <= n <= 32 ->
  same_prefix n a (Z.lxor a (2 ^ i)) <-> i < n.
Proof.
  intros Ha Hi Hn. rewrite same_prefix_bits by first [done | lia | by apply fits_flip]. split.
  - intros H. destruct (Z.ltb_spec i n); [done |]. exfalso.
    specialize (H i ltac:(lia)). rewrite Z.lxor_spec, Z.pow2_bits_true in H by lia.
    by destruct (Z.testbit a i).
  - intros Hin j Hj. rewrite Z.lxor_spec, Z.pow2_bits_false, xorb_false_r by lia. done.
Qed.

Lemma wf_flip i x : wf_match x -> 0 <= i < 32 -> wf_match (flip_src i x) /\ wf_match (flip_dst i x).
Proof. intros [] Hi. split; (split; cbn; try assumption; by apply fits_flip). Qed.

Lemma covers_trans x y p :
  (forall f, wild (wildcards y) f = true -> wild (wildcards x) f = true) ->
  src_bits (wildcards y) <= src_bits (wildcards x) ->
  dst_bits (wildcards y) <= dst_bits (wildcards x) ->
  covers x y -> covers y p -> covers x p.
Proof.
  intros Hw Hs Hd [F1 S1 D1] [F2 S2 D2].
  assert (T : forall n m a b c, 0 <= n <= m -> same_prefix m a b -> same_prefix n b c -> same_prefix m a c).
  { intros n m a b c Hn E1 E2. unfold same_prefix in *. rewrite E1.
    replace m with (n + (m - n)) by lia. rewrite <- !Z.shiftr_shiftr by lia. by rewrite E2. }
  pose proof (src_bits_range (wildcards y)). pose proof (dst_bits_range (wildcards y)). split.
  - intros f Hf. assert (wild (wildcards y) f = false) as Hf'.
    { destruct (wild (wildcards y) f) eqn:E; [| done]. apply Hw in E. congruence. }
    specialize (F1 f Hf). specialize (F2 f Hf'). destruct f; cbn in *; congruence.
  - eapply T; [| exact S1 | exact S2]. lia.
  - eapply T; [| exact D1 | exact D2]. lia.
Qed.

Lemma covers_refl x : covers x x.
Proof. by split; [intros [] | |]. Qed.

(** A match that covers every packet another covers has the wildcards of the other. *)
Lemma covers_all x y :
  wf_match x -> wf_match y ->
  (forall p, wf_match p -> exact_match p = true -> covers y p -> covers x p) ->
  (forall f, wild (wildcards y) f = true -> wild (wildcards x) f = true) /\
  src_bits (wildcards y) <= src_bits (wildcards x) /\
  dst_bits (wildcards y) <= dst_bits (wildcards x) /\ covers x y.
Proof.
  intros Hx Hy Hall. set (p := set_wildcards y 0).
  assert (Hp : wf_match p) by (by apply wf_set_wildcards).
  assert (Hyp : covers y p) by (destruct (covers_refl y); split; [intros [] | |]; done).
  assert (Hxp : covers x p) by by apply Hall.
  pose proof (src_bits_range (wildcards x)). pose proof (src_bits_range (wildcards y)).
  pose proof (dst_bits_range (wildcards x)). pose proof (dst_bits_range (wildcards y)).
  split_and!.
  - intros f Hf. destruct (wild (wildcards x) f) eqn:E; [done |]. exfalso.
    assert (Hc : covers x (change f p)).
    { apply Hall; [by apply wf_change | done |]. split; [| done | done]. intros g Hg.
      assert (g <> f) as Hne by congruence.
      assert (Hs : same g p (change f p)) by by apply change_same. by destruct g. }
    apply (covers_field _ _ Hc) in E as E1. apply (covers_field _ _ Hxp) in E as E2.
    assert (same f p (change f p)) as Hs by (destruct f; cbn in *; congruence).
    by apply change_same in Hs.
  - destruct (Z.leb_spec (src_bits (wildcards y)) (src_bits (wildcards x))) as [| Hlt]; [done | exfalso].
    set (i := src_bits (wildcards x)) in *. destruct (wf_flip i p Hp ltac:(lia)) as [Hwf _].
    assert (Hc : covers x (flip_src i p)).
    { apply Hall; [done | done |]. destruct Hyp as [F _ D]. split; [intros f Hf; by specialize (F f Hf); destruct f | | done].
      apply flip_prefix; [apply Hy | lia | lia | lia]. }
    enough (i < i) by lia. eapply flip_prefix; [apply (wf_nw_src _ Hp) | lia | lia |].
    exact (eq_trans (eq_sym (covers_src _ _ Hxp)) (covers_src _ _ Hc)).
  - destruct (Z.leb_spec (dst_bits (wildcards y)) (dst_bits (wildcards x))) as [| Hlt]; [done | exfalso].
    set (i := dst_bits (wildcards x)) in *. destruct (wf_flip i p Hp ltac:(lia)) as [_ Hwf].
    assert (Hc : covers x (flip_dst i p)).
    { apply Hall; [done | done |]. destruct Hyp as [F S _]. split; [intros f Hf; by specialize (F f Hf); destruct f | done |].
      apply flip_prefix; [apply Hy | lia | lia | lia]. }
    enough (i < i) by lia. eapply flip_prefix; [apply (wf_nw_dst _ Hp) | lia | lia |].
    exact (eq_trans (eq_sym (covers_dst _ _ Hxp)) (covers_dst _ _ Hc)).
  - destruct Hxp as [F S D]. split; [intros f Hf; by specialize (F f Hf); destruct f | done | done].
Qed.

(** C29. The filter of map_match_table selects exactly the entries below its
    match: [compare_filter_match x y] holds exactly when every packet that
    [compare_match] accepts for [y] it accepts for [x]. *)
Theorem compare_filter_match_subsumes x y :
  wf_match x -> wf_match y ->
  compare_filter_match x y = true <->
  forall p, wf_match p -> exact_match p = true -> compare_match y p = true -> compare_match x p = true.
Proof.
  intros Hx Hy. rewrite compare_filter_match_true by done. split.
  - intros (Hw & Hs & Hd & Hc) p Hp He. rewrite !compare_match_covers by done. by apply covers_trans.
  - intros Hall. apply covers_all; [done | done |]. intros p Hp He.
    rewrite <- !compare_match_covers by done. auto.
Qed.

(** Against a packet, [compare_match] decides what a match covers: every
    field is wildcarded or equal, and the addresses agree above the number of
    low bits that the wildcards give, at most 32. *)
Theorem compare_match_spec x p :
  wf_match x -> wf_match p -> exact_match p = true -> compare_match x p = true <-> covers x p.
Proof. apply compare_match_covers. Qed.

(** * Exact matches as keys *)

Lemma u32_lxor a b : u32 (Z.lxor a b) = Z.lxor (u32 a) (u32 b).
Proof.
  unfold u32. apply Z.bits_inj'. intros i Hi. rewrite Z.lxor_spec.
  destruct (Z.ltb_spec i 32).
  - by rewrite !Z.mod_pow2_bits_low, Z.lxor_spec by lia.
  - by rewrite !Z.mod_pow2_bits_high by lia.
Qed.

(** The fields that tell exact matches apart. *)
Definition exact_view x :=
  (in_port x, dl_vlan x, dl_vlan_pcp x, take 6 (dl_src x), take 6 (dl_dst x), dl_type x,
   u32 (nw_src x), u32 (nw_dst x), nw_tos x, nw_proto x, tp_src x, tp_dst x).

Lemma exact_masked a b :
  negb (truth (Z.land (Z.lxor a b) (Z.land (mask 0) (mask 0)))) = true <-> u32 a = u32 b.
Proof.
  unfold truth. rewrite negb_involutive, Z.eqb_eq. rewrite Z.land_diag.
  change (mask 0) with (Z.ones 32). rewrite Z.land_ones by lia. change ((Z.lxor a b) mod 2 ^ 32) with (u32 (Z.lxor a b)).
  rewrite u32_lxor. apply Z.lxor_eq_0_iff.
Qed.

Lemma compare_exact x y :
  exact_match x = true -> exact_match y = true ->
  compare_exact_match_entry x y = true <-> exact_view x = exact_view y.
Proof.
  intros Hx Hy. unfold compare_exact_match_entry, compare_match_strict, exact_match in *.
  assert (Hw : (Z.land (Z.lxor (wildcards x) (wildcards y)) OFPFW_ALL =? 0) = true).
  { apply Z.eqb_eq in Hx, Hy. apply Z.eqb_eq. apply Z.bits_inj'. intros i Hi.
    apply (f_equal (fun z => Z.testbit z i)) in Hx, Hy.
    rewrite !Z.land_spec, Z.bits_0, ?Z.lxor_spec in *.
    destruct (Z.testbit (wildcards x) i), (Z.testbit (wildcards y) i), (Z.testbit OFPFW_ALL i); done. }
  rewrite Hw. cbn [andb]. unfold compare_match. cbv zeta.
  rewrite !create_nw_src_mask_eq, !create_nw_dst_mask_eq.
  destruct (exact_bits x Hx) as [-> ->], (exact_bits y Hy) as [-> ->].
  pose proof (fun f => wildcard_bits f (Z.lor (wildcards x) (wildcards y))) as W.
  assert (F : forall f, wild (Z.lor (wildcards x) (wildcards y)) f = false).
  { intros f. by rewrite wild_lor, !exact_wild. }
  rewrite (W FInPort), (W FDlVlan), (W FDlVlanPcp), (W FDlSrc), (W FDlDst), (W FDlType), (W FNwTos),
    (W FNwProto), (W FTpSrc), (W FTpDst), !F. cbn [orb].
  rewrite !andb_true_iff, !COMPARE_MAC_take, !exact_masked, !Z.eqb_eq. unfold exact_view.
  split; [intros (((((((((((-> & ->) & ->) & ->) & ->) & ->) & ->) & ->) & ->) & ->) & ->) & ->); done |].
  intros [= -> -> -> -> -> -> -> -> -> -> -> ->]. tauto.
Qed.

Lemma exact_of_compare k k' :
  exact_match k' = true -> compare_exact_match_entry k k' = true -> exact_match k = true.
Proof.
  unfold compare_exact_match_entry, compare_match_strict, exact_match.
  intros Hk'%Z.eqb_eq [Hw%Z.eqb_eq _]%andb_true_iff. apply Z.eqb_eq, Z.bits_inj'. intros i Hi.
  apply (f_equal (fun z => Z.testbit z i)) in Hw, Hk'. rewrite !Z.land_spec, Z.bits_0, ?Z.lxor_spec in *.
  destruct (Z.testbit (wildcards k) i), (Z.testbit (wildcards k') i), (Z.testbit OFPFW_ALL i); done.
Qed.

#[export] Instance match_key_ok : HashKeyOk ofp_match (fun x => exact_match x = true).
Proof.
  split; cbn.
  - intros k Hk. by apply compare_exact.
  - apply exact_of_compare.
  - intros k k' Hk Hk'. by rewrite !compare_exact.
  - intros k1 k2 k3 Hk2 Hk3 E1 E2. assert (Hk1 : exact_match k1 = true) by by apply (exact_of_compare k1 k2).
    apply compare_exact in E1, E2; try done. apply compare_exact; [done.. | congruence].
  - intros k k' Hk Hk'. rewrite compare_exact by done. unfold exact_view.
    intros [= E1 E2 E3 E4 E5 E6 E7 E8 E9 E10 E11 E12]. unfold hash_exact_match_entry, hash_mac. cbv zeta.
    rewrite !u32_lxor, E1, E2, E3, E4, E5, E6, E7, E8, E9, E10, E11, E12. done.
  - intros k. unfold hash_exact_match_entry. by apply Z.mod_pos_bound.
Qed.

(** * Witnesses: hosts below 10.0.0.0/8 *)

Definition base_match w (dst : Z) : ofp_match := {|
  wildcards := w; in_port := 1; dl_src := zeros 6; dl_dst := zeros 6; dl_vlan := 65535;
  dl_vlan_pcp := 0; pad1 := zeros 1; dl_type := 2048; nw_tos := 0; nw_proto := 6; pad2 := zeros 2;
  nw_src := 0; nw_dst := dst; tp_src := 80; tp_dst := 80 |}.

Lemma base_match_wf w dst : fits 4 w -> fits 4 dst -> wf_match (base_match w dst).
Proof. intros Hw Hd. split; cbn; try done. Qed.

(** 10.0.0.0/8 and 10.1.2.3/32, from any port. *)
Definition net10 : ofp_match := base_match (24 * 2 ^ 14 + 1) 0x0a000000.
Definition host10 : ofp_match := base_match 1 0x0a010203.
Definition packet10 : ofp_match := base_match 0 0x0a010203.

Lemma compare_filter_match_subsumes_witness :
  wf_match net10 /\ wf_match host10 /\ compare_filter_match net10 host10 = true /\
  forall p, wf_match p -> exact_match p = true -> compare_match host10 p = true ->
    compare_match net10 p = true.
Proof.
  assert (H1 : wf_match net10) by (apply base_match_wf; split; done).
  assert (H2 : wf_match host10) by (apply base_match_wf; split; done).
  assert (H3 : compare_filter_match net10 host10 = true) by reflexivity.
  split_and!; [exact H1 | exact H2 | exact H3 |].
  exact (proj1 (compare_filter_match_subsumes net10 host10 H1 H2) H3).
Defined.

Lemma compare_match_spec_witness :
  wf_match net10 /\ wf_match packet10 /\ compare_match net10 packet10 = true /\ covers net10 packet10.
Proof.
  assert (H1 : wf_match net10) by (apply base_match_wf; split; done).
  assert (H2 : wf_match packet10) by (apply base_match_wf; split; done).
  assert (H3 : compare_match net10 packet10 = true) by reflexivity.
  split_and!; [exact H1 | exact H2 | exact H3 |].
  exact (proj1 (compare_match_spec net10 packet10 H1 H2 eq_refl) H3).
Defined.
