(* ===== verification/MatchTable.v ===== *)
(** match_table.c: the table of OpenFlow matches, a hash table of the matches
    without wildcards and a list of the others in the order of their priority.

    A [match_entry] is an object of a heap: the hash table and the list hold
    pointers to it, and an update writes its data in place.  Its match is never
    written, so the key of the hash table, a pointer into the entry, is the
    match itself.  The linked list is the list of the pointers it holds, and
    its functions are what LinkedList.v proves of linked_list.c.  The mutex is
    held during each call; a call is one step.  Log messages are left out. *)

From Stdlib Require Import ZArith Lia Bool Sorting.Sorted.
From stdpp Require Import base list gmap.
From S2P Require Import Prelude OpenFlow LinkedList HashTable Match.

Section MatchTable.
Context {V : Type} (NULL : V).

Record match_entry : Type := MatchEntry { me_match : ofp_match; me_priority : Z; me_data : V }.

Abbreviation heap := (gmap positive match_entry).
Abbreviation exact_hash := (hash_table ofp_match (option positive)).

Record match_table : Type := MatchTable {
  entry_heap : heap;
  exact_table : exact_hash;
  wildcards_table : list positive
}.

Implicit Types (h : heap) (x : exact_hash) (l : list positive) (m : ofp_match) (pr : Z) (d : V)
  (t : match_table).

Definition load h (a : positive) : res match_entry :=
  match h !! a with Some e => Ok e | None => Fault OutOfBounds end.

Definition allocate_match_entry h m pr d : positive * heap :=
  let a := fresh (dom h) in (a, <[a := MatchEntry m pr d]> h).

Definition free_match_entry h (a : positive) : heap := delete a h.

(** [entry->data = data] *)
Definition set_data h (a : positive) d : res heap :=
  let* e := load h a in Ok (<[a := MatchEntry (me_match e) (me_priority e) d]> h).

(** * The table of exact matches *)

Definition insert_exact_match_entry h x m d : res (bool * heap * exact_hash) :=
  let* entry := lookup_hash_entry None x m in
  match entry with
  | Some _ => Ok (false, h, x)
  | None =>
    let '(a, h) := allocate_match_entry h m 0 d in
    let* (conflict_entry, x) := insert_hash_entry None x m (Some a) in
    let* _ := assert (bool_decide (conflict_entry = None)) in
    Ok (true, h, x)
  end.

Definition lookup_exact_match_strict_entry x m : res (option positive) := lookup_hash_entry None x m.

Definition update_exact_match_entry h x m d : res (bool * heap) :=
  let* entry := lookup_exact_match_strict_entry x m in
  match entry with
  | None => Ok (false, h)
  | Some a => let* h := set_data h a d in Ok (true, h)
  end.

Definition delete_exact_match_strict_entry h x m : res (V * heap * exact_hash) :=
  let* entry := lookup_hash_entry None x m in
  match entry with
  | None => Ok (NULL, h, x)
  | Some a =>
    let* e := load h a in
    let* (_, x) := delete_hash_entry None x m in
    Ok (me_data e, free_match_entry h a, x)
  end.

(** A callback sees a match, a priority and data, and updates the state [S]
    that [user_data] points to; it does not change the table. *)
Definition callback (S : Type) : Type := ofp_match -> Z -> V -> S -> S.

Definition exact_match_table_walker {S} h (match_ : option ofp_match) (function : callback S)
    (_ : ofp_match) (value : option positive) (s : res S) : res S :=
  let* s := s in
  match value with
  | None => Fault AssertFailed
  | Some a =>
    let* entry := load h a in
    match match_ with
    | Some m =>
      if negb (compare_filter_match m (me_match entry)) then Ok s
      else Ok (function (me_match entry) (me_priority entry) (me_data entry) s)
    | None => Ok (function (me_match entry) (me_priority entry) (me_data entry) s)
    end
  end.

Definition map_exact_match_table {S} h x (match_ : option ofp_match) (function : callback S) (s : S)
    : res S :=
  let* s := foreach_hash x (exact_match_table_walker h match_ function) (Ok s) in s.

(** * The table of matches with wildcards *)

(** The first loop of [insert_wildcards_match_entry]: a duplicate, or the
    element it stops at, with those after it. *)
Inductive scan : Type := Duplicate | StopAt (element : list positive).

Fixpoint insert_scan h l m pr : res scan :=
  match l with
  | [] => Ok (StopAt [])
  | a :: rest =>
    let* entry := load h a in
    if me_priority entry <? pr then Ok (StopAt l)
    else if (me_priority entry =? pr) && compare_match_strict (me_match entry) m then Ok Duplicate
    else insert_scan h rest m pr
  end.

(** [insert_before] looks for the sibling after the first element. *)
Definition insert_before_list l (sibling x : positive) : list positive :=
  match l with [] => [] | y :: l => y :: insert_before_in sibling x l end.

(** [element] is the head when it is followed by all the list. *)
Definition insert_wildcards_match_entry h l m pr d : res (bool * heap * list positive) :=
  let* s := insert_scan h l m pr in
  match s with
  | Duplicate => Ok (false, h, l)
  | StopAt element =>
    let '(a, h) := allocate_match_entry h m pr d in
    match element with
    | [] => Ok (true, h, l ++ [a])
    | e :: _ =>
      if (length element =? length l)%nat then Ok (true, h, a :: l)
      else Ok (true, h, insert_before_list l e a)
    end
  end.

Fixpoint lookup_wildcards_match_strict_entry h l m pr : res (option positive) :=
  match l with
  | [] => Ok None
  | a :: l =>
    let* entry := load h a in
    if me_priority entry <? pr then Ok None
    else if (me_priority entry =? pr) && compare_match_strict (me_match entry) m then Ok (Some a)
    else lookup_wildcards_match_strict_entry h l m pr
  end.

Fixpoint lookup_wildcards_match_entry h l m : res (option positive) :=
  match l with
  | [] => Ok None
  | a :: l =>
    let* entry := load h a in
    if compare_match (me_match entry) m then Ok (Some a) else lookup_wildcards_match_entry h l m
  end.

Definition update_wildcards_match_entry h l m pr d : res (bool * heap) :=
  let* entry := lookup_wildcards_match_strict_entry h l m pr in
  match entry with
  | None => Ok (false, h)
  | Some a => let* h := set_data h a d in Ok (true, h)
  end.

Definition delete_wildcards_match_strict_entry h l m pr : res (V * heap * list positive) :=
  let* entry := lookup_wildcards_match_strict_entry h l m pr in
  match entry with
  | None => Ok (NULL, h, l)
  | Some a => let* e := load h a in Ok (me_data e, free_match_entry h a, remove_first a l)
  end.

Fixpoint map_wildcards_match_table {S} h l (match_ : option ofp_match) (function : callback S) (s : S)
    : res S :=
  match l with
  | [] => Ok s
  | a :: l =>
    let* entry := load h a in
    let skip := match match_ with
      | Some m => negb (compare_filter_match m (me_match entry))
      | None => false
      end in
    if skip then map_wildcards_match_table h l match_ function s
    else map_wildcards_match_table h l match_ function
           (function (me_match entry) (me_priority entry) (me_data entry) s)
  end.

(** * The interface of match_table.h

    [head] is [_match_table_head]; [None] is NULL. *)

Definition init_match_table (head : option match_table) : res (option match_table) :=
  match head with
  | Some _ => Fault Died
  | None => Ok (Some (MatchTable ∅ create_hash []))
  end.

(** The memory freed is not reused. *)
Definition finalize_match_table (head : option match_table) : res (option match_table) :=
  match head with
  | None => Fault Died
  | Some _ => Ok None
  end.

Definition insert_match_entry (head : option match_table) m pr d : res (bool * option match_table) :=
  match head with
  | None => Fault Died
  | Some (MatchTable h x l) =>
    if exact_match m then
      let* (result, h, x) := insert_exact_match_entry h x m d in
      Ok (result, Some (MatchTable h x l))
    else
      let* (result, h, l) := insert_wildcards_match_entry h l m pr d in
      Ok (result, Some (MatchTable h x l))
  end.

(** [entry != NULL ? entry->data : NULL] *)
Definition data_of h (entry : option positive) : res V :=
  match entry with
  | Some a => let* e := load h a in Ok (me_data e)
  | None => Ok NULL
  end.

Definition lookup_match_strict_entry (head : option match_table) m pr : res V :=
  match head with
  | None => Fault Died
  | Some (MatchTable h x l) =>
    let* entry :=
      if exact_match m then lookup_exact_match_strict_entry x m
      else lookup_wildcards_match_strict_entry h l m pr in
    data_of h entry
  end.

Definition lookup_match_entry (head : option match_table) m : res V :=
  match head with
  | None => Fault Died
  | Some (MatchTable h x l) =>
    let* entry := lookup_exact_match_strict_entry x m in
    let* entry :=
      match entry with
      | Some _ => Ok entry
      | None => lookup_wildcards_match_entry h l m
      end in
    data_of h entry
  end.

Definition update_match_entry (head : option match_table) m pr d : res (bool * option match_table) :=
  match head with
  | None => Fault Died
  | Some (MatchTable h x l) =>
    if exact_match m then
      let* (result, h) := update_exact_match_entry h x m d in
      Ok (result, Some (MatchTable h x l))
    else
      let* (result, h) := update_wildcards_match_entry h l m pr d in
      Ok (result, Some (MatchTable h x l))
  end.

Definition delete_match_strict_entry (head : option match_table) m pr : res (V * option match_table) :=
  match head with
  | None => Fault Died
  | Some (MatchTable h x l) =>
    if exact_match m then
      let* (data, h, x) := delete_exact_match_strict_entry h x m in
      Ok (data, Some (MatchTable h x l))
    else
      let* (data, h, l) := delete_wildcards_match_strict_entry h l m pr in
      Ok (data, Some (MatchTable h x l))
  end.

Definition _map_match_table {S} (head : option match_table) (match_ : option ofp_match)
    (function : option (callback S)) (s : S) : res S :=
  match head, function with
  | None, _ => Fault Died
  | _, None => Fault Died
  | Some (MatchTable h x l), Some function =>
    let* s := map_exact_match_table h x match_ function s in
    map_wildcards_match_table h l match_ function s
  end.

Definition foreach_match_table {S} (head : option match_table) (function : option (callback S)) (s : S) :=
  _map_match_table head None function s.

Definition map_match_table {S} (head : option match_table) m (function : option (callback S)) (s : S) :=
  _map_match_table head (Some m) function s.
End MatchTable.

#[global] Arguments match_entry : clear implicits.
#[global] Arguments match_table : clear implicits.

(** * Specification

    An exact part, a function from matches, and the entries with wildcards in
    the order in which a lookup tries them. *)

Section Spec.
Context {V : Type} (NULL : V).
Abbreviation entry := (match_entry V).

Record spec : Type := Spec { sp_exact : ofp_match -> option V; sp_wild : list entry }.

Implicit Types (e : entry) (es : list entry) (sp : spec) (m : ofp_match) (pr : Z) (d : V).

Definition same_entry m pr e : bool :=
  (me_priority e =? pr) && compare_match_strict (me_match e) m.

(** After the entries of the same priority and of higher ones. *)
Fixpoint insert_sorted e es : list entry :=
  match es with
  | [] => [e]
  | e' :: es => if me_priority e' <? me_priority e then e :: e' :: es else e' :: insert_sorted e es
  end.

Fixpoint update_first (f : entry -> bool) d es : list entry :=
  match es with
  | [] => []
  | e :: es => if f e then MatchEntry (me_match e) (me_priority e) d :: es else e :: update_first f d es
  end.

Fixpoint delete_first (f : entry -> bool) es : list entry :=
  match es with
  | [] => []
  | e :: es => if f e then es else e :: delete_first f es
  end.

Definition data_or_null (o : option entry) : V := from_option me_data NULL o.

(** A call, its result and its effect. *)
Inductive table_call : Type :=
| Insert m pr d
| LookupStrict m pr
| Lookup m
| Update m pr d
| Delete m pr.

Inductive table_result : Type := RBool (b : bool) | RData (d : V).

Definition spec_call sp (c : table_call) : table_result * spec :=
  match c with
  | Insert m pr d =>
    if exact_match m then
      match sp_exact sp m with
      | Some _ => (RBool false, sp)
      | None => (RBool true, Spec (fun k => if compare k m then Some d else sp_exact sp k) (sp_wild sp))
      end
    else if existsb (same_entry m pr) (sp_wild sp) then (RBool false, sp)
    else (RBool true, Spec (sp_exact sp) (insert_sorted (MatchEntry m pr d) (sp_wild sp)))
  | LookupStrict m pr =>
    (RData (if exact_match m then default NULL (sp_exact sp m)
            else data_or_null (List.find (same_entry m pr) (sp_wild sp))), sp)
  | Lookup m =>
    (RData (match sp_exact sp m with
            | Some d => d
            | None => data_or_null (List.find (fun e => compare_match (me_match e) m) (sp_wild sp))
            end), sp)
  | Update m pr d =>
    if exact_match m then
      match sp_exact sp m with
      | Some _ => (RBool true, Spec (fun k => if compare k m then Some d else sp_exact sp k) (sp_wild sp))
      | None => (RBool false, sp)
      end
    else if existsb (same_entry m pr) (sp_wild sp)
    then (RBool true, Spec (sp_exact sp) (update_first (same_entry m pr) d (sp_wild sp)))
    else (RBool false, sp)
  | Delete m pr =>
    if exact_match m then
      (RData (default NULL (sp_exact sp m)),
       Spec (fun k => if compare k m then None else sp_exact sp k) (sp_wild sp))
    else
      (RData (data_or_null (List.find (same_entry m pr) (sp_wild sp))),
       Spec (sp_exact sp) (delete_first (same_entry m pr) (sp_wild sp)))
  end.

Definition run_call (head : option (match_table V)) (c : table_call)
    : res (table_result * option (match_table V)) :=
  match c with
  | Insert m pr d => let* (b, head) := insert_match_entry head m pr d in Ok (RBool b, head)
  | LookupStrict m pr => let* d := lookup_match_strict_entry NULL head m pr in Ok (RData d, head)
  | Lookup m => let* d := lookup_match_entry NULL head m in Ok (RData d, head)
  | Update m pr d => let* (b, head) := update_match_entry head m pr d in Ok (RBool b, head)
  | Delete m pr => let* (d, head) := delete_match_strict_entry NULL head m pr in Ok (RData d, head)
  end.

(** * Invariant *)

(** [e] is tried before [e'] and is not the same entry. *)
Definition before e e' : Prop :=
  me_priority e' <= me_priority e /\
  (me_priority e = me_priority e' -> compare_match_strict (me_match e) (me_match e') = false).

Record sp_wf sp : Prop := {
  sp_sorted : StronglySorted before (sp_wild sp);
  sp_inexact : Forall (fun e => exact_match (me_match e) = false) (sp_wild sp)
}.

Definition exact_data (t : match_table V) (k : ofp_match) : option V :=
  match table_map (exact_table t) k with
  | Some (Some a) => me_data <$> entry_heap t !! a
  | _ => None
  end.

(** The values of the hash table point to entries with the match of their key,
    which are not in the list. *)
Definition exact_ok (h : gmap positive entry) (x : hash_table ofp_match (option positive))
    (l : list positive) : Prop :=
  forall k v, table_map x k = Some v ->
    exists a e, v = Some a /\ h !! a = Some e /\ exact_match (me_match e) = true /\
      compare k (me_match e) = true /\ a ∉ l.

(** The table represents the specification's state. *)
Record repr (t : match_table V) sp : Prop := {
  r_hash : wf_table (ok := fun m => exact_match m = true) (exact_table t);
  r_entry : exact_ok (entry_heap t) (exact_table t) (wildcards_table t);
  r_exact k : exact_data t k = sp_exact sp k;
  r_wild : Forall2 (fun a e => entry_heap t !! a = Some e) (wildcards_table t) (sp_wild sp);
  r_nodup : NoDup (wildcards_table t);
  r_wf : sp_wf sp
}.

(** ** The list of the specification *)

(** How many entries have at least the priority. *)
Fixpoint rank pr es : nat :=
  match es with
  | [] => O
  | e :: es => if me_priority e <? pr then O else S (rank pr es)
  end.

Lemma insert_sorted_rank e es :
  insert_sorted e es = take (rank (me_priority e) es) es ++ e :: drop (rank (me_priority e) es) es.
Proof. induction es as [| e' es IH]; [done |]. cbn. case_match; [done |]. cbn. by rewrite IH. Qed.

Lemma rank_le pr es : (rank pr es <= length es)%nat.
Proof. induction es as [| e es IH]; cbn; [lia |]. case_match; lia. Qed.

Lemma lower_not_same e es m pr :
  StronglySorted before (e :: es) -> me_priority e < pr -> existsb (same_entry m pr) (e :: es) = false.
Proof.
  intros Hs Hlt. apply not_true_iff_false. rewrite existsb_exists. intros (e' & Hin & E).
  apply andb_true_iff in E as [Hp%Z.eqb_eq _]. inversion Hs as [| ? ? _ Hf]; subst.
  destruct Hin as [-> | Hin]; [lia |]. rewrite Forall_forall in Hf.
  apply list_elem_of_In, Hf in Hin as [Hle _]. lia.
Qed.

Lemma find_existsb {A} (f : A -> bool) l : existsb f l = match List.find f l with Some _ => true | None => false end.
Proof. induction l as [| a l IH]; [done |]. cbn. by destruct (f a). Qed.

Lemma insert_sorted_Forall (P : entry -> Prop) e es : P e -> Forall P es -> Forall P (insert_sorted e es).
Proof.
  intros He. induction 1 as [| e' es He' Hes IH]; cbn; [by repeat constructor |].
  case_match; by repeat constructor.
Qed.

Lemma insert_sorted_sorted m pr d es :
  StronglySorted before es -> existsb (same_entry m pr) es = false ->
  StronglySorted before (insert_sorted (MatchEntry m pr d) es).
Proof.
  induction 1 as [| e es Hes IH Hf]; intros Hd; cbn; [by repeat constructor |].
  cbn in Hd. apply orb_false_iff in Hd as [Hde Hd].
  destruct (Z.ltb_spec (me_priority e) pr) as [Hlt | Hge].
  - constructor; [by constructor |]. constructor; [split; cbn; [lia | lia] |].
    eapply Forall_impl; [exact Hf |]. intros e' [Hle _]. split; cbn; lia.
  - constructor; [by apply IH |]. apply insert_sorted_Forall; [| done]. split; cbn; [lia |].
    intros Hp. unfold same_entry in Hde. by rewrite Hp, Z.eqb_refl in Hde.
Qed.

Lemma delete_first_sub f es e : e ∈ delete_first f es -> e ∈ es.
Proof.
  induction es as [| e' es IH]; [done |]. cbn. case_match; [by right |].
  intros [-> | Hin]%elem_of_cons; [by left | right; auto].
Qed.

Lemma delete_first_sorted f es : StronglySorted before es -> StronglySorted before (delete_first f es).
Proof.
  induction 1 as [| e es Hes IH Hf]; cbn; [constructor |]. case_match; [done |].
  constructor; [done |]. rewrite Forall_forall in Hf |- *. intros e' Hin%delete_first_sub. auto.
Qed.

Lemma update_first_sorted f d es : StronglySorted before es -> StronglySorted before (update_first f d es).
Proof.
  assert (B : forall e1 e2 d, before e1 e2 -> before (MatchEntry (me_match e1) (me_priority e1) d) e2
    /\ before e1 (MatchEntry (me_match e2) (me_priority e2) d)) by (intros e1 e2 d'; by split).
  induction 1 as [| e es Hes IH Hf]; cbn; [constructor |]. case_match.
  - constructor; [done |]. eapply Forall_impl; [exact Hf |]. intros e'. by apply B.
  - constructor; [done |]. clear -Hf B. induction Hf as [| e' es He Hf IH]; cbn; [constructor |].
    case_match; constructor; try done.
Qed.

Lemma update_first_inexact f d es :
  Forall (fun e => exact_match (me_match e) = false) es ->
  Forall (fun e => exact_match (me_match e) = false) (update_first f d es).
Proof. induction 1 as [| e es He Hes IH]; cbn; [constructor |]. case_match; by constructor. Qed.

Lemma spec_call_wf sp c : sp_wf sp -> sp_wf (spec_call sp c).2.
Proof.
  intros [Hs Hi]. destruct c as [m pr d | m pr | m | m pr d | m pr]; cbn; repeat case_match; cbn; try done; split; cbn; try done.
  - by apply insert_sorted_sorted.
  - by apply insert_sorted_Forall.
  - by apply update_first_sorted.
  - by apply update_first_inexact.
  - by apply delete_first_sorted.
  - rewrite Forall_forall in Hi |- *. intros e Hin%delete_first_sub. auto.
Qed.
End Spec.

(** * Refinement *)

Section Refinement.
Context {V : Type} (NULL : V).
Abbreviation heap := (gmap positive (match_entry V)).
Abbreviation points h := (fun a e => h !! a = Some e).
Implicit Types (h : heap) (l : list positive) (e : match_entry V) (es : list (match_entry V))
  (m : ofp_match) (pr : Z) (d : V) (f : match_entry V -> bool) (t : match_table V)
  (x : hash_table ofp_match (option positive)) (sp : spec (V := V)).

Lemma load_ok h a e : h !! a = Some e -> load h a = Ok e.
Proof. unfold load. by intros ->. Qed.

Lemma points_frame h h' l es :
  Forall2 (points h) l es -> (forall a, a ∈ l -> h' !! a = h !! a) -> Forall2 (points h') l es.
Proof.
  induction 1 as [| a e l es Ha Hl IH]; intros E; constructor.
  - rewrite E; [done | by left].
  - apply IH. intros b Hb. apply E. by right.
Qed.

Lemma points_elem h l es a : Forall2 (points h) l es -> a ∈ l -> is_Some (h !! a).
Proof.
  intros H [i Hi]%list_elem_of_lookup. destruct (Forall2_lookup_l _ _ _ _ _ H Hi) as (e & _ & He).
  by exists e.
Qed.

(** The first entry that a test accepts, and its pointer. *)
Lemma first_split f h l es e :
  Forall2 (points h) l es -> List.find f es = Some e ->
  exists l1 a l2 es1 es2, l = l1 ++ a :: l2 /\ es = es1 ++ e :: es2 /\ Forall2 (points h) l1 es1 /\
    Forall2 (points h) l2 es2 /\ h !! a = Some e /\ Forall (fun e => f e = false) es1 /\ f e = true.
Proof.
  induction 1 as [| a e' l es Ha Hl IH]; [done |]. cbn. destruct (f e') eqn:E.
  - intros [= <-]. exists [], a, l, [], es. split_and!; try done; constructor.
  - intros Hf. destruct (IH Hf) as (l1 & b & l2 & es1 & es2 & -> & -> & H1 & H2 & Hb & Hn & He).
    exists (a :: l1), b, l2, (e' :: es1), es2. split_and!; try done; by constructor.
Qed.

Lemma delete_first_split f es1 e es2 :
  Forall (fun e => f e = false) es1 -> f e = true -> delete_first f (es1 ++ e :: es2) = es1 ++ es2.
Proof. intros H1 He. induction H1 as [| e' es1 Hf H1 IH]; cbn; [by rewrite He | by rewrite Hf, IH]. Qed.

Lemma update_first_split f d es1 e es2 :
  Forall (fun e => f e = false) es1 -> f e = true ->
  update_first f d (es1 ++ e :: es2) = es1 ++ MatchEntry (me_match e) (me_priority e) d :: es2.
Proof. intros H1 He. induction H1 as [| e' es1 Hf H1 IH]; cbn; [by rewrite He | by rewrite Hf, IH]. Qed.

Lemma remove_first_split (l1 l2 : list positive) a : a ∉ l1 -> remove_first a (l1 ++ a :: l2) = l1 ++ l2.
Proof.
  induction l1 as [| b l1 IH]; intros Ha; cbn; [by rewrite decide_True |].
  apply not_elem_of_cons in Ha as [Hab Ha]. rewrite decide_False by done. by rewrite IH.
Qed.

Lemma insert_before_split (l1 l2 : list positive) (e a : positive) :
  NoDup (l1 ++ e :: l2) -> l1 <> [] -> insert_before_list (l1 ++ e :: l2) e a = l1 ++ a :: e :: l2.
Proof.
  destruct l1 as [| b l1]; [done |]. intros Hn _. cbn in Hn |- *. apply NoDup_cons in Hn as [_ Hn].
  f_equal. induction l1 as [| c l1 IH]; cbn; [by rewrite decide_True |].
  cbn in Hn. apply NoDup_cons in Hn as [Hc Hn]. rewrite decide_False by set_solver. by rewrite IH.
Qed.

(** ** The loops over the list *)

Lemma insert_scan_ok h l es m pr :
  Forall2 (points h) l es -> StronglySorted before es ->
  insert_scan h l m pr = Ok (if existsb (same_entry m pr) es then Duplicate else StopAt (drop (rank pr es) l)).
Proof.
  induction 1 as [| a e l es Ha Hl IH]; intros Hs; [done |]. cbn [insert_scan]. rewrite (load_ok _ _ _ Ha).
  bind_ok. destruct (Z.ltb_spec (me_priority e) pr) as [Hlt | Hge].
  - rewrite (lower_not_same e es m pr) by done. cbn [rank]. by replace (me_priority e <? pr) with true by lia.
  - inversion Hs; subst. rewrite IH by done. cbn [existsb rank].
    replace (me_priority e <? pr) with false by lia. unfold same_entry at 2. cbn [drop].
    by destruct (_ && _).
Qed.

Lemma strict_none h l es m pr :
  Forall2 (points h) l es -> List.find (same_entry m pr) es = None ->
  lookup_wildcards_match_strict_entry h l m pr = Ok None.
Proof.
  induction 1 as [| a e l es Ha Hl IH]; [done |]. cbn [lookup_wildcards_match_strict_entry List.find].
  rewrite (load_ok _ _ _ Ha). bind_ok. destruct (me_priority e <? pr); [done |].
  unfold same_entry at 1. destruct (_ && _); [done | exact IH].
Qed.

Lemma strict_some h l1 a l2 es1 e es2 m pr :
  Forall2 (points h) l1 es1 -> h !! a = Some e -> StronglySorted before (es1 ++ e :: es2) ->
  Forall (fun e => same_entry m pr e = false) es1 -> same_entry m pr e = true ->
  lookup_wildcards_match_strict_entry h (l1 ++ a :: l2) m pr = Ok (Some a).
Proof.
  intros H1 Ha Hs Hn He. assert (Hp : me_priority e = pr) by (by apply andb_true_iff in He as [?%Z.eqb_eq _]).
  induction H1 as [| b e1 l1 es1 Hb H1 IH]; cbn [app lookup_wildcards_match_strict_entry].
  - rewrite (load_ok _ _ _ Ha). bind_ok. replace (me_priority e <? pr) with false by lia.
    unfold same_entry in He. by rewrite He.
  - rewrite (load_ok _ _ _ Hb). bind_ok. inversion Hs as [| ? ? Hs' Hf]; subst. inversion Hn as [| ? ? He1 Hn']; subst.
    rewrite Forall_forall in Hf. destruct (Hf e) as [Hle _]; [set_solver |].
    replace (me_priority e1 <? me_priority e) with false by lia. unfold same_entry in He1. rewrite He1.
    by apply IH.
Qed.

Lemma lookup_none h l es m :
  Forall2 (points h) l es -> List.find (fun e => compare_match (me_match e) m) es = None ->
  lookup_wildcards_match_entry h l m = Ok None.
Proof.
  induction 1 as [| a e l es Ha Hl IH]; [done |]. cbn [lookup_wildcards_match_entry List.find].
  rewrite (load_ok _ _ _ Ha). bind_ok. destruct (compare_match _ _); [done | exact IH].
Qed.

Lemma lookup_some h l1 a l2 es1 e m :
  Forall2 (points h) l1 es1 -> h !! a = Some e ->
  Forall (fun e => compare_match (me_match e) m = false) es1 -> compare_match (me_match e) m = true ->
  lookup_wildcards_match_entry h (l1 ++ a :: l2) m = Ok (Some a).
Proof.
  intros H1 Ha Hn He. induction H1 as [| b e1 l1 es1 Hb H1 IH]; cbn [app lookup_wildcards_match_entry].
  - rewrite (load_ok _ _ _ Ha). bind_ok. by rewrite He.
  - rewrite (load_ok _ _ _ Hb). bind_ok. inversion Hn as [| ? ? He1 Hn']; subst. rewrite He1. by apply IH.
Qed.

(** ** Changes of the heap *)

Lemma repr_not_wild (t : match_table V) sp k a :
  repr t sp -> table_map (exact_table t) k = Some (Some a) -> a ∉ wildcards_table t.
Proof. intros Hr Hk. by destruct (r_entry _ _ Hr _ _ Hk) as (b & e & [= <-] & _ & _ & _ & ?). Qed.

Lemma fresh_entry (t : match_table V) sp :
  repr t sp ->
  fresh (dom (entry_heap t)) ∉ wildcards_table t /\
  forall k, table_map (exact_table t) k <> Some (Some (fresh (dom (entry_heap t)))).
Proof.
  intros Hr. assert (Hf : entry_heap t !! fresh (dom (entry_heap t)) = None) by apply not_elem_of_dom, is_fresh.
  split.
  - intros Hin. destruct (points_elem _ _ _ _ (r_wild _ _ Hr) Hin) as [e He]. congruence.
  - intros k Hk. destruct (r_entry _ _ Hr _ _ Hk) as (b & e & [= <-] & He & _). congruence.
Qed.

(** The exact part when the heap changes outside its entries. *)
Lemma exact_frame h h' x l l' :
  exact_ok h x l ->
  (forall k a, table_map x k = Some (Some a) -> h' !! a = h !! a /\ a ∉ l') ->
  exact_ok h' x l' /\
  forall k, exact_data (MatchTable h' x l') k = exact_data (MatchTable h x l) k.
Proof.
  intros Hr Hh. split.
  - intros k v Hk. destruct (Hr _ _ Hk) as (a & e & -> & He & Hx & Hc & _).
    destruct (Hh _ _ Hk) as [E Hl]. exists a, e. by rewrite E.
  - intros k. unfold exact_data. cbn. destruct (table_map x k) as [[a |] |] eqn:Hk; [| done..].
    by destruct (Hh _ _ Hk) as [-> _].
Qed.

(** ** The operations *)

(** What the hash table knows of a match. *)
Lemma exact_lookup (t : match_table V) sp k :
  repr t sp ->
  (sp_exact sp k = None /\ table_map (exact_table t) k = None) \/
  exists a e, sp_exact sp k = Some (me_data e) /\ table_map (exact_table t) k = Some (Some a) /\
    entry_heap t !! a = Some e.
Proof.
  intros [_ He Hx _ _ _]. rewrite <- Hx. unfold exact_data.
  destruct (table_map (exact_table t) k) as [v |] eqn:Hk; [right | by left].
  destruct (He _ _ Hk) as (a & e & -> & Ha & _). exists a, e. by rewrite Ha.
Qed.

Definition refines (t : match_table V) sp (c : table_call) : Prop :=
  exists t', run_call NULL (Some t) c = Ok ((spec_call NULL sp c).1, Some t') /\
    repr t' (spec_call NULL sp c).2.

Lemma insert_exact_ok t sp m pr d :
  repr t sp -> exact_match m = true -> refines t sp (Insert m pr d).
Proof.
  intros Hr Hm. pose proof (spec_call_wf NULL sp (Insert m pr d) (r_wf _ _ Hr)) as Hs'.
  destruct (exact_lookup t sp m Hr) as [[Hsp Hk] | (a & e & Hsp & Hk & Ha)];
    destruct (fresh_entry _ _ Hr) as [Hfl Hfx]; pose proof Hr as [Hw He Hx Hl Hn Hs];
    unfold refines, run_call, insert_match_entry, insert_exact_match_entry; destruct t as [h x l];
    cbn [exact_table entry_heap wildcards_table spec_call] in *;
    rewrite Hm, Hsp in *; rewrite (lookup_ok None x m Hw), Hk; bind_ok; cbn [default from_option id].
  - unfold allocate_match_entry. set (a := fresh (dom h)) in *.
    destruct (insert_ok None x m (Some a) Hw Hm) as (x' & Hi & Hw' & _ & Hx'). rewrite Hi, Hk. bind_ok.
    cbn [default from_option id]. rewrite bool_decide_eq_true_2 by done. unfold Prelude.assert. bind_ok.
    eexists. split; [done |].
    assert (Hframe : forall k b, table_map x k = Some (Some b) ->
      <[a := MatchEntry m 0 d]> h !! b = h !! b /\ b ∉ l).
    { intros k b Hb. split; [apply lookup_insert_ne; intros ->; by apply (Hfx k) |].
      by destruct (He _ _ Hb) as (b' & e & [= <-] & _ & _ & _ & ?). }
    destruct (exact_frame _ _ _ _ _ He Hframe) as [He' Hd].
    split; cbn [exact_table entry_heap wildcards_table snd sp_exact sp_wild]; try done.
    + intros k v. rewrite Hx'. destruct (compare k m) eqn:E; [| apply He'].
      intros [= <-]. exists a, (MatchEntry m 0 d). rewrite lookup_insert_eq. done.
    + intros k. unfold exact_data. cbn [exact_table entry_heap]. rewrite Hx'.
      destruct (compare k m); [by rewrite lookup_insert_eq | rewrite <- Hx; apply Hd].
    + apply (points_frame h); [done |]. intros b Hb. apply lookup_insert_ne. by intros ->.
  - eexists. split; [done | done].
Qed.

Lemma insert_wild_ok t sp m pr d :
  repr t sp -> exact_match m = false -> refines t sp (Insert m pr d).
Proof.
  intros Hr Hm. pose proof (spec_call_wf NULL sp (Insert m pr d) (r_wf _ _ Hr)) as Hs'.
  destruct (fresh_entry _ _ Hr) as [Hfl Hfx]; pose proof Hr as [Hw He Hx Hl Hn Hs].
  unfold refines, run_call, insert_match_entry, insert_wildcards_match_entry; destruct t as [h x l].
  cbn [exact_table entry_heap wildcards_table spec_call] in *. rewrite Hm in *.
  rewrite (insert_scan_ok h l (sp_wild sp) m pr Hl (sp_sorted _ Hs)). bind_ok.
  destruct (existsb _ _) eqn:Hdup; bind_ok; [eexists; split; [done | done] |].
  unfold allocate_match_entry. set (a := fresh (dom h)) in *. set (n := rank pr (sp_wild sp)).
  assert (Hlist : match drop n l with
      | [] => Ok (true, <[a := MatchEntry m pr d]> h, l ++ [a])
      | e :: _ => if (length (drop n l) =? length l)%nat then Ok (true, <[a := MatchEntry m pr d]> h, a :: l)
                  else Ok (true, <[a := MatchEntry m pr d]> h, insert_before_list l e a)
      end = Ok (true, <[a := MatchEntry m pr d]> h, take n l ++ a :: drop n l)).
  { pose proof (take_drop n l) as Htd. destruct (drop n l) as [| b r] eqn:Hd.
    - rewrite app_nil_r in Htd. by rewrite Htd.
    - destruct (Nat.eqb_spec (length (b :: r)) (length l)) as [E | E].
      + assert (take n l = []) as Ht.
        { apply nil_length_inv. apply (f_equal length) in Htd. rewrite length_app in Htd. lia. }
        rewrite Ht in *. by rewrite <- Htd.
      + rewrite <- Htd at 1. rewrite insert_before_split; [done | by rewrite Htd |].
        intros Ht. rewrite Ht in Htd. cbn [app] in Htd. by rewrite Htd in E. }
  rewrite Hlist. bind_ok. eexists. split; [done |].
  assert (Hal : a ∉ take n l ++ drop n l) by by rewrite take_drop.
  assert (Hframe : forall k b, table_map x k = Some (Some b) ->
    <[a := MatchEntry m pr d]> h !! b = h !! b /\ b ∉ take n l ++ a :: drop n l).
  { intros k b Hb. assert (b <> a) by (intros ->; by apply (Hfx k)).
    split; [by apply lookup_insert_ne |].
    destruct (He _ _ Hb) as (b' & e & [= <-] & _ & _ & _ & Hbl). rewrite <- (take_drop n l) in Hbl. set_solver. }
  destruct (exact_frame _ _ _ _ _ He Hframe) as [He' Hd].
  split; cbn [exact_table entry_heap wildcards_table snd sp_exact sp_wild]; try done.
  - intros k. rewrite Hd. apply Hx.
  - rewrite insert_sorted_rank. cbn [me_priority]. fold n.
    assert (Hf : Forall2 (points (<[a := MatchEntry m pr d]> h)) l (sp_wild sp)).
    { apply (points_frame h); [done |]. intros b Hb. apply lookup_insert_ne. by intros ->. }
    apply Forall2_app; [by apply Forall2_take |]. constructor; [apply lookup_insert_eq | by apply Forall2_drop].
  - apply NoDup_app. rewrite <- (take_drop n l) in Hn. apply NoDup_app in Hn as (Hn1 & Hn2 & Hn3).
    split_and!; [done | | constructor; [set_solver | done]].
    intros b Hb [-> | Hb2]%elem_of_cons; [set_solver | by apply (Hn2 b)].
Qed.

Lemma data_of_ok h a e : h !! a = Some e -> data_of NULL h (Some a) = Ok (me_data e).
Proof. intros Ha. cbn. by rewrite (load_ok _ _ _ Ha). Qed.

Lemma strict_lookup_ok t sp m pr : repr t sp -> refines t sp (LookupStrict m pr).
Proof.
  intros Hr. pose proof Hr as [Hw He Hx Hl Hn Hs]. exists t. split; [| done].
  unfold run_call, lookup_match_strict_entry. destruct t as [h x l].
  cbn [exact_table entry_heap wildcards_table spec_call fst] in *. destruct (exact_match m).
  - unfold lookup_exact_match_strict_entry. rewrite (lookup_ok None x m Hw). bind_ok.
    destruct (exact_lookup _ sp m Hr) as [[-> Hk] | (a & e & -> & Hk & Ha)]; cbn in Hk; rewrite Hk; [done |].
    cbn [default from_option id]. cbn in Ha. by rewrite (data_of_ok _ _ _ Ha).
  - destruct (List.find _ _) as [e |] eqn:Hf.
    + destruct (first_split _ _ _ _ _ Hl Hf) as (l1 & a & l2 & es1 & es2 & -> & Hes & H1 & _ & Ha & Hno & Hyes).
      destruct Hs as [Hs _]. rewrite Hes in Hs. rewrite (strict_some h l1 a l2 es1 e es2) by done. bind_ok.
      by rewrite (data_of_ok _ _ _ Ha).
    + by rewrite (strict_none _ _ _ _ _ Hl Hf).
Qed.

Lemma lookup_entry_ok t sp m : repr t sp -> refines t sp (Lookup m).
Proof.
  intros Hr. pose proof Hr as [Hw He Hx Hl Hn Hs]. exists t. split; [| done].
  unfold run_call, lookup_match_entry, lookup_exact_match_strict_entry. destruct t as [h x l].
  cbn [exact_table entry_heap wildcards_table spec_call fst] in *.
  rewrite (lookup_ok None x m Hw). bind_ok.
  destruct (exact_lookup _ sp m Hr) as [[-> Hk] | (a & e & -> & Hk & Ha)]; cbn in Hk; rewrite Hk;
    cbn [default from_option id]; bind_ok.
  - destruct (List.find _ _) as [e |] eqn:Hf.
    + destruct (first_split _ _ _ _ _ Hl Hf) as (l1 & a & l2 & es1 & es2 & -> & Hes & H1 & _ & Ha & Hno & Hyes).
      rewrite (lookup_some h l1 a l2 es1 e) by done. bind_ok. by rewrite (data_of_ok _ _ _ Ha).
    + by rewrite (lookup_none _ _ _ _ Hl Hf).
  - cbn in Ha. by rewrite (data_of_ok _ _ _ Ha).
Qed.

Lemma update_exact_ok t sp m pr d :
  repr t sp -> exact_match m = true -> refines t sp (Update m pr d).
Proof.
  intros Hr Hm. pose proof (spec_call_wf NULL sp (Update m pr d) (r_wf _ _ Hr)) as Hs'.
  destruct (exact_lookup t sp m Hr) as [[Hsp Hk] | (a & e & Hsp & Hk & Ha)];
    pose proof Hr as [Hw He Hx Hl Hn Hs];
    unfold refines, run_call, update_match_entry, update_exact_match_entry, lookup_exact_match_strict_entry;
    destruct t as [h x l]; cbn [exact_table entry_heap wildcards_table spec_call] in *;
    rewrite Hm, Hsp in *; rewrite (lookup_ok None x m Hw), Hk; bind_ok; cbn [default from_option id].
  - eexists. by split.
  - unfold set_data. rewrite (load_ok _ _ _ Ha). bind_ok. eexists. split; [done |].
    set (e' := MatchEntry (me_match e) (me_priority e) d).
    assert (Hsame : forall k, table_map x k = Some (Some a) <-> compare k m = true).
    { destruct (He _ _ Hk) as (a' & e1 & [= <-] & He1 & Hex & Hcm & _). rewrite Ha in He1. injection He1 as <-.
      intros k. split.
      - intros Hk'. destruct (He _ _ Hk') as (a' & e2 & [= <-] & He2 & _ & Hck & _). rewrite Ha in He2. injection He2 as <-.
        apply (compare_trans k (me_match e) m); [done | done | done |]. by apply compare_sym.
      - intros Hck. rewrite <- Hk. by apply (table_map_cong (ok := fun m => exact_match m = true)). }
    split; cbn [exact_table entry_heap wildcards_table snd sp_exact sp_wild]; try done.
    + intros k v Hk'. destruct (He _ _ Hk') as (b & e2 & -> & Hb & Hex & Hc & Hbl).
      destruct (decide (b = a)) as [-> | Hne].
      * exists a, e'. rewrite lookup_insert_eq. rewrite Ha in Hb. injection Hb as <-. done.
      * exists b, e2. rewrite lookup_insert_ne by done. done.
    + intros k. unfold exact_data. cbn [exact_table entry_heap]. destruct (compare k m) eqn:E.
      * apply Hsame in E. by rewrite E, lookup_insert_eq.
      * rewrite <- Hx. unfold exact_data. cbn [exact_table entry_heap].
        destruct (table_map x k) as [[b |] |] eqn:Hk'; [| done..]. rewrite lookup_insert_ne; [done |].
        intros ->. apply Hsame in Hk'. congruence.
    + apply (points_frame h); [done |]. intros b Hb. apply lookup_insert_ne. intros <-.
      by apply (repr_not_wild _ _ _ _ Hr Hk).
Qed.

(** An address of the list is no value of the hash table. *)
Lemma wild_not_exact t sp a k b :
  repr t sp -> a ∈ wildcards_table t -> table_map (exact_table t) k = Some (Some b) -> b <> a.
Proof. intros Hr Ha Hk ->. by apply (repr_not_wild _ _ _ _ Hr Hk). Qed.

Lemma update_wild_ok t sp m pr d :
  repr t sp -> exact_match m = false -> refines t sp (Update m pr d).
Proof.
  intros Hr Hm. pose proof (spec_call_wf NULL sp (Update m pr d) (r_wf _ _ Hr)) as Hs'.
  pose proof Hr as [Hw He Hx Hl Hn Hs].
  unfold refines, run_call, update_match_entry, update_wildcards_match_entry. destruct t as [h x l].
  cbn [exact_table entry_heap wildcards_table spec_call] in *. rewrite Hm, find_existsb in *.
  destruct (List.find _ _) as [e |] eqn:Hf.
  2:{ rewrite (strict_none _ _ _ _ _ Hl Hf). bind_ok. eexists. by split. }
  destruct (first_split _ _ _ _ _ Hl Hf) as (l1 & a & l2 & es1 & es2 & -> & Hes & H1 & H2 & Ha & Hno & Hyes).
  destruct Hs as [Hs _]. rewrite Hes in Hs. rewrite (strict_some h l1 a l2 es1 e es2) by done. bind_ok.
  unfold set_data. rewrite (load_ok _ _ _ Ha). bind_ok. eexists. split; [done |].
  destruct (exact_frame h (<[a := MatchEntry (me_match e) (me_priority e) d]> h) x _ (l1 ++ a :: l2) He) as [He' Hd].
  { intros k b Hb. split; [apply lookup_insert_ne; symmetry |]; [| by apply (repr_not_wild _ _ _ _ Hr Hb)].
    apply (wild_not_exact _ _ a k b Hr); [set_solver | done]. }
  apply NoDup_app in Hn as Hn'. destruct Hn' as (Hn1 & Hn2 & Hn3). apply NoDup_cons in Hn3 as [Hn3 Hn4].
  split; cbn [exact_table entry_heap wildcards_table snd sp_exact sp_wild] in *; try done.
  - intros k. rewrite Hd. apply Hx.
  - rewrite Hes, update_first_split by done. apply Forall2_app; [| constructor; [apply lookup_insert_eq |]].
    + apply (points_frame h); [done |]. intros b Hb. apply lookup_insert_ne. intros ->. apply (Hn2 b Hb). by left.
    + apply (points_frame h); [done |]. intros b Hb. apply lookup_insert_ne. by intros ->.
Qed.

Lemma delete_exact_ok t sp m pr :
  repr t sp -> exact_match m = true -> refines t sp (Delete m pr).
Proof.
  intros Hr Hm. pose proof (spec_call_wf NULL sp (Delete m pr) (r_wf _ _ Hr)) as Hs'.
  pose proof Hr as [Hw He Hx Hl Hn Hs].
  destruct (delete_ok None (exact_table t) m Hw Hm) as (x' & Hdel & Hw' & _ & Hx').
  destruct (exact_lookup t sp m Hr) as [[Hsp Hk] | (a & e & Hsp & Hk & Ha)];
    unfold refines, run_call, delete_match_strict_entry, delete_exact_match_strict_entry;
    destruct t as [h x l]; cbn [exact_table entry_heap wildcards_table spec_call] in *;
    rewrite Hm, Hsp in *; rewrite (lookup_ok None x m Hw), Hk; bind_ok; cbn [default from_option id].
  - eexists. split; [done |]. split; cbn [exact_table entry_heap wildcards_table snd sp_exact sp_wild]; try done.
    intros k. rewrite <- Hx. destruct (compare k m) eqn:E; [| done]. unfold exact_data. cbn [exact_table entry_heap].
    by rewrite (table_map_cong (ok := fun m => exact_match m = true) x m k), Hk.
  - rewrite (load_ok _ _ _ Ha). bind_ok. rewrite Hdel. bind_ok. eexists. split; [done |].
    assert (Hsame : forall k, table_map x k = Some (Some a) -> compare k m = true).
    { intros k Hk'. destruct (He _ _ Hk) as (b & e1 & [= <-] & He1 & Hex & Hcm & _).
      destruct (He _ _ Hk') as (b & e2 & [= <-] & He2 & _ & Hck & _). rewrite He1 in He2. injection He2 as <-.
      apply (compare_trans k (me_match e1) m); [done | done | done |]. by apply compare_sym. }
    assert (Hframe : forall k b, table_map x' k = Some (Some b) -> delete a h !! b = h !! b /\ b ∉ l).
    { intros k b. rewrite Hx'. destruct (compare k m) eqn:E; [done |]. intros Hb.
      split; [apply lookup_delete_ne; intros <-; apply Hsame in Hb; congruence |].
      by apply (repr_not_wild _ _ _ _ Hr Hb). }
    assert (He1 : exact_ok h x' l).
    { intros k v. rewrite Hx'. destruct (compare k m); [done | apply He]. }
    destruct (exact_frame _ _ _ _ _ He1 Hframe) as [He' Hd].
    split; cbn [exact_table entry_heap wildcards_table snd sp_exact sp_wild]; try done.
    + intros k. rewrite Hd, <- Hx. unfold exact_data. cbn [exact_table entry_heap]. rewrite Hx'.
      by destruct (compare k m).
    + apply (points_frame h); [done |]. intros b Hb. apply lookup_delete_ne. intros <-.
      by apply (repr_not_wild _ _ _ _ Hr Hk).
Qed.

Lemma delete_wild_ok t sp m pr :
  repr t sp -> exact_match m = false -> refines t sp (Delete m pr).
Proof.
  intros Hr Hm. pose proof (spec_call_wf NULL sp (Delete m pr) (r_wf _ _ Hr)) as Hs'.
  pose proof Hr as [Hw He Hx Hl Hn Hs].
  unfold refines, run_call, delete_match_strict_entry, delete_wildcards_match_strict_entry. destruct t as [h x l].
  cbn [exact_table entry_heap wildcards_table spec_call] in *. rewrite Hm in *.
  destruct (List.find _ _) as [e |] eqn:Hf.
  2:{ rewrite (strict_none _ _ _ _ _ Hl Hf). bind_ok. eexists. split; [done |].
      assert (Hnone : delete_first (same_entry m pr) (sp_wild sp) = sp_wild sp).
      { clear -Hf. induction (sp_wild sp) as [| e es IH]; [done |]. cbn in *.
        destruct (same_entry m pr e); [done |]. by rewrite IH. }
      cbn [snd] in *. rewrite Hnone in *. by destruct sp. }
  destruct (first_split _ _ _ _ _ Hl Hf) as (l1 & a & l2 & es1 & es2 & -> & Hes & H1 & H2 & Ha & Hno & Hyes).
  destruct Hs as [Hs _]. rewrite Hes in Hs. rewrite (strict_some h l1 a l2 es1 e es2) by done. bind_ok.
  rewrite (load_ok _ _ _ Ha). bind_ok. eexists. split; [done |].
  apply NoDup_app in Hn as (Hn1 & Hn2 & Hn3). apply NoDup_cons in Hn3 as [Hn3 Hn4].
  assert (Ha1 : a ∉ l1) by (intros Hin; apply (Hn2 a Hin); by left).
  rewrite remove_first_split by done.
  destruct (exact_frame h (delete a h) x _ (l1 ++ l2) He) as [He' Hd].
  { intros k b Hb. split; [apply lookup_delete_ne; symmetry; apply (wild_not_exact _ _ a k b Hr); [set_solver | done] |].
    pose proof (repr_not_wild _ _ _ _ Hr Hb) as Hbl. set_solver. }
  split; cbn [exact_table entry_heap wildcards_table snd sp_exact sp_wild] in *; try done.
  - intros k. rewrite Hd. apply Hx.
  - rewrite Hes, delete_first_split by done. apply Forall2_app.
    + apply (points_frame h); [done |]. intros b Hb. apply lookup_delete_ne. by intros ->.
    + apply (points_frame h); [done |]. intros b Hb. apply lookup_delete_ne. by intros ->.
  - apply NoDup_app. split_and!; [done | | done]. intros b Hb Hb2. apply (Hn2 b Hb). by right.
Qed.

Lemma call_ok t sp c : repr t sp -> refines t sp c.
Proof.
  intros Hr. destruct c as [m pr d | m pr | m | m pr d | m pr].
  - destruct (exact_match m) eqn:E; [by apply insert_exact_ok | by apply insert_wild_ok].
  - by apply strict_lookup_ok.
  - by apply lookup_entry_ok.
  - destruct (exact_match m) eqn:E; [by apply update_exact_ok | by apply update_wild_ok].
  - destruct (exact_match m) eqn:E; [by apply delete_exact_ok | by apply delete_wild_ok].
Qed.
End Refinement.

(** * Theorems *)

Section Theorems.
Context {V : Type} (NULL : V).
Implicit Types (t : match_table V) (sp : spec (V := V)) (c : table_call (V := V)) (m : ofp_match)
  (e : match_entry V) (es : list (match_entry V)).

Fixpoint run_calls (head : option (match_table V)) (cs : list table_call)
    : res (list table_result * option (match_table V)) :=
  match cs with
  | [] => Ok ([], head)
  | c :: cs =>
    let* (r, head) := run_call NULL head c in
    let* (rs, head) := run_calls head cs in
    Ok (r :: rs, head)
  end.

Fixpoint spec_calls sp (cs : list table_call) : list table_result * spec :=
  match cs with
  | [] => ([], sp)
  | c :: cs =>
    let (r, sp) := spec_call NULL sp c in
    let (rs, sp) := spec_calls sp cs in
    (r :: rs, sp)
  end.

Definition empty_spec : spec (V := V) := Spec (fun _ => None) [].

Lemma empty_repr : repr (MatchTable ∅ create_hash []) empty_spec.
Proof.
  destruct (create_ok (K := ofp_match) (V := option positive) (ok := fun m => exact_match m = true)
    default_hash_size ltac:(done)) as [Hw Hm].
  split; cbn [exact_table entry_heap wildcards_table sp_exact sp_wild empty_spec]; try done.
  - intros k v. unfold create_hash. by rewrite Hm.
  - intros k. unfold exact_data, create_hash. cbn [exact_table]. by rewrite Hm.
  - constructor.
  - by split; constructor.
Qed.

Lemma run_table_calls_ok t sp cs :
  repr t sp ->
  exists t', run_calls (Some t) cs = Ok ((spec_calls sp cs).1, Some t') /\ repr t' (spec_calls sp cs).2.
Proof.
  revert t sp. induction cs as [| c cs IH]; intros t sp Hr; [by exists t |]. cbn [run_calls spec_calls].
  destruct (call_ok NULL t sp c Hr) as (t1 & -> & Hr1). bind_ok. destruct (spec_call NULL sp c) as [r sp1].
  destruct (IH t1 sp1 Hr1) as (t2 & Hc & Hr2). cbn [fst snd] in *. rewrite Hc. bind_ok.
  destruct (spec_calls sp1 cs) as [rs sp2]. by exists t2.
Qed.

(** C30. Refinement: after [init_match_table] any sequence of insertions,
    lookups, updates and deletions returns what the same calls return on the
    specification: a function of exact matches, and a list of entries with
    wildcards in the order of their priority and, below the same priority, of
    their insertion. *)
Theorem match_table_refines cs :
  exists t0 t, init_match_table None = Ok (Some t0) /\
    run_calls (Some t0) cs = Ok ((spec_calls empty_spec cs).1, Some t) /\
    repr t (spec_calls empty_spec cs).2.
Proof.
  destruct (run_table_calls_ok _ empty_spec cs empty_repr) as (t & Hc & Hr). by exists (MatchTable ∅ create_hash []), t.
Qed.

(** The tables that the calls can make of an initialised one. *)
Inductive reachable : match_table V -> Prop :=
| reachable_init t : init_match_table None = Ok (Some t) -> reachable t
| reachable_call t c r t' : reachable t -> run_call NULL (Some t) c = Ok (r, Some t') -> reachable t'.

Lemma reachable_repr t : reachable t -> exists sp, repr t sp.
Proof.
  induction 1 as [t [= <-] | t c r t' _ [sp Hr] Hc].
  - exists empty_spec. apply empty_repr.
  - destruct (call_ok NULL t sp c Hr) as (t1 & Hc1 & Hr1). rewrite Hc1 in Hc. injection Hc as _ <-. eauto.
Qed.

(** Invariant: in every reachable table the list points to distinct
    allocated entries that have wildcards, in the order of decreasing
    priority, no two of the same priority with equal matches; the hash table
    is well formed and points to exact entries that are not in the list. *)
Theorem match_table_invariant t :
  reachable t ->
  (exists es, Forall2 (fun a e => entry_heap t !! a = Some e) (wildcards_table t) es /\
     StronglySorted before es /\ Forall (fun e => exact_match (me_match e) = false) es) /\
  NoDup (wildcards_table t) /\
  wf_table (ok := fun m => exact_match m = true) (exact_table t) /\
  exact_ok (entry_heap t) (exact_table t) (wildcards_table t).
Proof. intros [sp [Hw He Hx Hl Hn [Hs Hi]]]%reachable_repr. split_and!; eauto. Qed.

Lemma find_sorted (f : match_entry V -> bool) es e :
  StronglySorted before es -> e ∈ es -> f e = true ->
  exists e', List.find f es = Some e' /\ e' ∈ es /\ f e' = true /\ me_priority e <= me_priority e'.
Proof.
  induction 1 as [| e1 es Hes IH Hf]; intros Hin He; [by inversion Hin |]. cbn.
  destruct (f e1) eqn:E.
  - exists e1. split_and!; [done | by left | done |]. apply elem_of_cons in Hin as [-> | Hin]; [lia |].
    rewrite Forall_forall in Hf. by destruct (Hf e Hin).
  - apply elem_of_cons in Hin as [-> | Hin]; [congruence |].
    destruct (IH Hin He) as (e' & ? & ? & ? & ?). exists e'. split_and!; try done. by right.
Qed.

Lemma lookup_match_entry_spec t sp m :
  repr t sp ->
  lookup_match_entry NULL (Some t) m = Ok
    match sp_exact sp m with
    | Some d => d
    | None => data_or_null NULL (List.find (fun e => compare_match (me_match e) m) (sp_wild sp))
    end.
Proof.
  intros Hr. destruct (lookup_entry_ok NULL t sp m Hr) as (t' & Hc & _). unfold run_call in Hc.
  destruct (lookup_match_entry NULL (Some t) m) as [d | f]; [| done]. cbn in Hc. by injection Hc as ->.
Qed.

(** C31. A lookup returns the data of the exact entry equal to the packet when
    there is one, else the data of an entry that matches it and whose priority
    no other matching entry exceeds, and NULL when none matches. *)
Theorem lookup_highest_priority t sp m :
  repr t sp ->
  (forall d, sp_exact sp m = Some d -> lookup_match_entry NULL (Some t) m = Ok d) /\
  (sp_exact sp m = None -> forall e, e ∈ sp_wild sp -> compare_match (me_match e) m = true ->
     exists e', e' ∈ sp_wild sp /\ compare_match (me_match e') m = true /\
       me_priority e <= me_priority e' /\ lookup_match_entry NULL (Some t) m = Ok (me_data e')) /\
  (sp_exact sp m = None -> (forall e, e ∈ sp_wild sp -> compare_match (me_match e) m = false) ->
     lookup_match_entry NULL (Some t) m = Ok NULL).
Proof.
  intros Hr. rewrite (lookup_match_entry_spec t sp m Hr). destruct (r_wf _ _ Hr) as [Hs _]. split_and!.
  - by intros d ->.
  - intros -> e Hin He. destruct (find_sorted (fun e => compare_match (me_match e) m) _ e Hs Hin He) as (e' & -> & ? & ? & ?). by exists e'.
  - intros -> Hno. destruct (List.find _ _) as [e |] eqn:E; [| done].
    apply List.find_some in E as [Hin He]. apply list_elem_of_In, Hno in Hin. congruence.
Qed.

(** ** Iteration *)

Definition visit {S} (match_ : option ofp_match) (f : callback (V := V) S) (s : S) e : S :=
  let skip := match match_ with
    | Some m => negb (compare_filter_match m (me_match e))
    | None => false
    end in
  if skip then s else f (me_match e) (me_priority e) (me_data e) s.

Lemma map_wildcards_ok {S} (h : gmap positive (match_entry V)) l es mo (f : callback S) s :
  Forall2 (fun a e => h !! a = Some e) l es ->
  map_wildcards_match_table h l mo f s = Ok (foldl (visit mo f) s es).
Proof.
  intros H. revert s. induction H as [| a e l es Ha Hl IH]; intros s; [done |].
  cbn [map_wildcards_match_table foldl]. rewrite (load_ok _ _ _ Ha). bind_ok. cbv zeta. rewrite !IH.
  unfold visit at 4. cbv zeta. by destruct (match mo with Some _ => _ | None => _ end).
Qed.

Abbreviation hash_entries := (list (hash_entry ofp_match (option positive))).

(** [e] is what the value of an element of the hash table points to. *)
Definition element_entry (h : gmap positive (match_entry V)) (he : hash_entry ofp_match (option positive)) e : Prop :=
  exists a, value he = Some a /\ h !! a = Some e /\ exact_match (key he) = true /\
    exact_match (me_match e) = true /\ compare (key he) (me_match e) = true.

Lemma walk_ok {S} h (hes : hash_entries) es mo (f : callback S) s :
  Forall2 (element_entry h) hes es ->
  foldl (fun s he => exact_match_table_walker h mo f (key he) (value he) s) (Ok s) hes
  = Ok (foldl (visit mo f) s es).
Proof.
  intros H. revert s. induction H as [| he e hes es (a & Hv & Ha & _) Hl IH]; intros s; [done |].
  cbn [foldl]. rewrite <- IH. f_equal. unfold exact_match_table_walker, visit. bind_ok. rewrite Hv.
  rewrite (load_ok _ _ _ Ha). bind_ok. destruct mo as [m |]; [| done]. by destruct (negb _).
Qed.

Lemma visited_entries t sp :
  repr t sp -> exists es, Forall2 (element_entry (entry_heap t)) (visited (exact_table t)) es.
Proof.
  intros [Hw He _ _ _ _].
  assert (Hall : forall he, he ∈ visited (exact_table t) -> exists e, element_entry (entry_heap t) he e).
  { intros he Hin. pose proof Hin as (a & i & Hai & Hb)%elem_of_listed.
    destruct (indexed_entry _ _ _ _ Hw Hai Hb) as [Hk _].
    assert (Hm : table_map (exact_table t) (key he) = Some (value he)).
    { apply (visited_map (ok := fun m => exact_match m = true)); [done | done |].
      exists he. split_and!; [done | | done]. by apply (compare_refl (ok := fun m => exact_match m = true)). }
    destruct (He _ _ Hm) as (b & e & Hv & Hb' & Hx & Hc & _). exists e, b. done. }
  induction (visited (exact_table t)) as [| he hes IH]; [by exists [] |].
  destruct (Hall he) as [e Hhe]; [by left |]. destruct IH as [es Hes]; [intros; apply Hall; by right |].
  exists (e :: es). by constructor.
Qed.

Lemma entries_distinct h (hes : hash_entries) es :
  Forall2 (element_entry h) hes es -> distinct hes ->
  StronglySorted (fun e e' => compare (me_match e) (me_match e') = false) es.
Proof.
  induction 1 as [| he e hes es He Hes IH]; intros Hd; [constructor |]. destruct Hd as [Hd1 Hd].
  constructor; [by apply IH |]. destruct He as (a & _ & _ & Hk & Hx & Hc). clear IH Hd.
  induction Hes as [| he' e' hes es (a' & _ & _ & Hk' & Hx' & Hc') Hes IH]; [constructor |].
  inversion Hd1 as [| ? ? Hne Hd1']; subst. constructor; [| by apply IH].
  apply not_true_iff_false. intros E. apply not_true_iff_false in Hne. apply Hne.
  pose (P := fun m => exact_match m = true).
  apply (compare_trans (ok := P) _ (me_match e')); [done | done | | by apply (compare_sym (ok := P))].
  by apply (compare_trans (ok := P) _ (me_match e)).
Qed.

(** [foreach_match_table] visits every entry once: first the exact ones,
    each match of the table once with its data, then those with wildcards by
    decreasing priority; [map_match_table] visits those of them that
    [compare_filter_match] accepts, in the same order. *)
Theorem match_table_iteration {S} t sp mo (f : callback S) (s : S) :
  repr t sp ->
  exists es, _map_match_table (Some t) mo (Some f) s = Ok (foldl (visit mo f) s (es ++ sp_wild sp)) /\
    StronglySorted (fun e e' => compare (me_match e) (me_match e') = false) es /\
    forall k d, exact_match k = true ->
      sp_exact sp k = Some d <-> exists e, e ∈ es /\ compare k (me_match e) = true /\ me_data e = d.
Proof.
  intros Hr. destruct (visited_entries t sp Hr) as [es Hes]. pose proof Hr as [Hw He Hx Hl Hn Hs].
  exists es. split_and!.
  - destruct t as [h x l]. cbn [exact_table entry_heap wildcards_table] in *.
    unfold _map_match_table, map_exact_match_table, foreach_hash.
    rewrite (foreach_loop_ok (ok := fun m => exact_match m = true)); [| done | apply Forall_forall; tauto].
    bind_ok. fold (visited x). rewrite (walk_ok h (visited x) es mo f s Hes). bind_ok.
    rewrite (map_wildcards_ok _ _ _ _ _ _ Hl). by rewrite foldl_app.
  - eapply entries_distinct; [exact Hes |]. by apply (visited_distinct (ok := fun m => exact_match m = true)).
  - intros k d Hk. rewrite <- Hx. unfold exact_data. pose (P := fun m => exact_match m = true). split.
    + destruct (table_map (exact_table t) k) as [[a |] |] eqn:Hm; [| done..].
      intros (e & Ha & ->)%fmap_Some.
      apply (visited_map (ok := P)) in Hm as (he & Hin & Hc & Hv); [| done | done].
      apply list_elem_of_lookup in Hin as [i Hi].
      destruct (Forall2_lookup_l _ _ _ _ _ Hes Hi) as (e' & Hi' & a' & Hv' & Ha' & Hk' & Hx' & Hc').
      assert (a' = a) as -> by congruence. assert (e' = e) as -> by congruence.
      exists e. split_and!; [by apply list_elem_of_lookup_2 in Hi' | | done].
      by apply (compare_trans (ok := P) _ (key he)).
    + intros (e & Hin & Hc & <-). apply list_elem_of_lookup in Hin as [i Hi].
      destruct (Forall2_lookup_r _ _ _ _ _ Hes Hi) as (he & Hi' & a & Hv & Ha & Hk' & Hx' & Hc').
      assert (Hm : table_map (exact_table t) k = Some (Some a)).
      { apply (visited_map (ok := P)); [done | done |]. exists he.
        split_and!; [by apply list_elem_of_lookup_2 in Hi' | | done].
        apply (compare_trans (ok := P) _ (me_match e)); [done | done | done |]. by apply (compare_sym (ok := P)). }
      by rewrite Hm, Ha.
Qed.
End Theorems.

(** * Witnesses: two networks and a host *)

Definition any : ofp_match := base_match OFPFW_ALL 0.

Definition sample_calls : list (table_call (V := Z)) :=
  [Insert any 1 10; Insert net10 5 20; Insert packet10 0 30; Insert any 1 40; Delete packet10 0].

Lemma sample_results :
  spec_calls 0 empty_spec (sample_calls ++ [Lookup packet10; LookupStrict any 1; Update net10 5 50; Lookup packet10])
  = ([RBool true; RBool true; RBool true; RBool false; RData 30; RData 20; RData 10; RBool true; RData 50],
     (spec_calls 0 empty_spec (sample_calls ++ [Update net10 5 50])).2).
Proof. reflexivity. Qed.

Lemma match_table_invariant_witness :
  exists t, reachable 0 t /\ NoDup (wildcards_table t).
Proof.
  assert (H0 : reachable 0 (MatchTable (∅ : gmap positive (match_entry Z)) create_hash [])) by by constructor.
  destruct (call_ok 0 _ _ (Insert any 1 10) empty_repr) as (t & Hc & _).
  assert (Ht : reachable 0 t) by (eapply reachable_call; [exact H0 | exact Hc]).
  exists t. split; [exact Ht | exact (proj1 (proj2 (match_table_invariant 0 t Ht)))].
Defined.

Lemma lookup_highest_priority_witness :
  exists t, repr t (spec_calls 0 empty_spec sample_calls).2 /\
    exists e, compare_match (me_match e) packet10 = true /\ 5 <= me_priority e /\
      lookup_match_entry 0 (Some t) packet10 = Ok (me_data e).
Proof.
  destruct (run_table_calls_ok 0 _ _ sample_calls empty_repr) as (t & _ & Hr). exists t. split; [exact Hr |].
  destruct (proj1 (proj2 (lookup_highest_priority 0 t _ packet10 Hr)) eq_refl (MatchEntry net10 5 20))
    as (e & _ & Hc & Hp & Hl); [left | reflexivity |].
  exists e. split; [exact Hc | split; [exact Hp | exact Hl]].
Defined.

Lemma match_table_iteration_witness :
  exists t, repr t (spec_calls 0 empty_spec sample_calls).2 /\
    exists es, map_match_table (Some t) net10 (Some (fun _ _ d l => d :: l)) []
      = Ok (foldl (visit (Some net10) (fun _ _ d l => d :: l)) [] (es ++ sp_wild (spec_calls 0 empty_spec sample_calls).2)).
Proof.
  destruct (run_table_calls_ok 0 _ _ sample_calls empty_repr) as (t & _ & Hr). exists t. split; [exact Hr |].
  destruct (match_table_iteration t _ (Some net10) (fun _ _ d l => d :: l) [] Hr) as (es & He & _).
  exists es. exact He.
Defined.
