(* ===== verification/ErrorMap.v ===== *)
(** error_maps and get_error_type_and_code of openflow_message.c: the OpenFlow
    error that answers an error of the validators. *)

From Stdlib Require Import ZArith Lia Bool.
From coqutil Require Import Byte.
From stdpp Require Import base list.
From S2P Require Import Prelude Memory OpenFlow Codes Actions Validate.

(** [struct map] *)
Record map_entry : Type := MapEntry { error_no : Z; error_type : Z; error_code : Z }.

(** [struct error_map]; [maps] has 64 entries, those not written are 0. *)
Record error_map : Type := ErrorMap { map_type : Z; maps : list map_entry }.

Definition error_maps : list error_map := [
  ErrorMap OFPT_HELLO [
    MapEntry ERROR_UNSUPPORTED_VERSION OFPET_HELLO_FAILED OFPHFC_INCOMPATIBLE;
    MapEntry ERROR_TOO_SHORT_MESSAGE OFPET_BAD_REQUEST OFPBRC_BAD_LEN;
    MapEntry ERROR_TOO_LONG_MESSAGE OFPET_BAD_REQUEST OFPBRC_BAD_LEN;
    MapEntry ERROR_UNDEFINED_TYPE OFPET_BAD_REQUEST OFPBRC_BAD_TYPE;
    MapEntry ERROR_INVALID_TYPE OFPET_BAD_REQUEST OFPBRC_BAD_TYPE;
    MapEntry 0 0 0 ];
  ErrorMap OFPT_ERROR [
    MapEntry ERROR_UNSUPPORTED_VERSION OFPET_BAD_REQUEST OFPBRC_BAD_VERSION;
    MapEntry ERROR_TOO_SHORT_MESSAGE OFPET_BAD_REQUEST OFPBRC_BAD_LEN;
    MapEntry ERROR_TOO_LONG_MESSAGE OFPET_BAD_REQUEST OFPBRC_BAD_LEN;
    MapEntry ERROR_UNDEFINED_TYPE OFPET_BAD_REQUEST OFPBRC_BAD_TYPE;
    MapEntry ERROR_INVALID_TYPE OFPET_BAD_REQUEST OFPBRC_BAD_TYPE;
    MapEntry 0 0 0 ];
  ErrorMap OFPT_ECHO_REQUEST [
    MapEntry ERROR_UNSUPPORTED_VERSION OFPET_BAD_REQUEST OFPBRC_BAD_VERSION;
    MapEntry ERROR_TOO_SHORT_MESSAGE OFPET_BAD_REQUEST OFPBRC_BAD_LEN;
    MapEntry ERROR_TOO_LONG_MESSAGE OFPET_BAD_REQUEST OFPBRC_BAD_LEN;
    MapEntry ERROR_UNDEFINED_TYPE OFPET_BAD_REQUEST OFPBRC_BAD_TYPE;
    MapEntry ERROR_INVALID_TYPE OFPET_BAD_REQUEST OFPBRC_BAD_TYPE;
    MapEntry 0 0 0 ];
  ErrorMap OFPT_ECHO_REPLY [
    MapEntry ERROR_UNSUPPORTED_VERSION OFPET_BAD_REQUEST OFPBRC_BAD_VERSION;
    MapEntry ERROR_TOO_SHORT_MESSAGE OFPET_BAD_REQUEST OFPBRC_BAD_LEN;
    MapEntry ERROR_TOO_LONG_MESSAGE OFPET_BAD_REQUEST OFPBRC_BAD_LEN;
    MapEntry ERROR_UNDEFINED_TYPE OFPET_BAD_REQUEST OFPBRC_BAD_TYPE;
    MapEntry ERROR_INVALID_TYPE OFPET_BAD_REQUEST OFPBRC_BAD_TYPE;
    MapEntry 0 0 0 ];
  ErrorMap OFPT_VENDOR [
    MapEntry ERROR_UNSUPPORTED_VERSION OFPET_BAD_REQUEST OFPBRC_BAD_VERSION;
    MapEntry ERROR_TOO_SHORT_MESSAGE OFPET_BAD_REQUEST OFPBRC_BAD_LEN;
    MapEntry ERROR_TOO_LONG_MESSAGE OFPET_BAD_REQUEST OFPBRC_BAD_LEN;
    MapEntry ERROR_UNDEFINED_TYPE OFPET_BAD_REQUEST OFPBRC_BAD_TYPE;
    MapEntry ERROR_INVALID_TYPE OFPET_BAD_REQUEST OFPBRC_BAD_TYPE;
    MapEntry 0 0 0 ];
  ErrorMap OFPT_FEATURES_REQUEST [
    MapEntry ERROR_UNSUPPORTED_VERSION OFPET_BAD_REQUEST OFPBRC_BAD_VERSION;
    MapEntry ERROR_TOO_SHORT_MESSAGE OFPET_BAD_REQUEST OFPBRC_BAD_LEN;
    MapEntry ERROR_TOO_LONG_MESSAGE OFPET_BAD_REQUEST OFPBRC_BAD_LEN;
    MapEntry ERROR_UNDEFINED_TYPE OFPET_BAD_REQUEST OFPBRC_BAD_TYPE;
    MapEntry ERROR_INVALID_TYPE OFPET_BAD_REQUEST OFPBRC_BAD_TYPE;
    MapEntry 0 0 0 ];
  ErrorMap OFPT_FEATURES_REPLY [
    MapEntry ERROR_UNSUPPORTED_VERSION OFPET_BAD_REQUEST OFPBRC_BAD_VERSION;
    MapEntry ERROR_TOO_SHORT_MESSAGE OFPET_BAD_REQUEST OFPBRC_BAD_LEN;
    MapEntry ERROR_TOO_LONG_MESSAGE OFPET_BAD_REQUEST OFPBRC_BAD_LEN;
    MapEntry ERROR_UNDEFINED_TYPE OFPET_BAD_REQUEST OFPBRC_BAD_TYPE;
    MapEntry ERROR_INVALID_TYPE OFPET_BAD_REQUEST OFPBRC_BAD_TYPE;
    MapEntry 0 0 0 ];
  ErrorMap OFPT_GET_CONFIG_REQUEST [
    MapEntry ERROR_UNSUPPORTED_VERSION OFPET_BAD_REQUEST OFPBRC_BAD_VERSION;
    MapEntry ERROR_TOO_SHORT_MESSAGE OFPET_BAD_REQUEST OFPBRC_BAD_LEN;
    MapEntry ERROR_TOO_LONG_MESSAGE OFPET_BAD_REQUEST OFPBRC_BAD_LEN;
    MapEntry ERROR_UNDEFINED_TYPE OFPET_BAD_REQUEST OFPBRC_BAD_TYPE;
    MapEntry ERROR_INVALID_TYPE OFPET_BAD_REQUEST OFPBRC_BAD_TYPE;
    MapEntry 0 0 0 ];
  ErrorMap OFPT_GET_CONFIG_REPLY [
    MapEntry ERROR_UNSUPPORTED_VERSION OFPET_BAD_REQUEST OFPBRC_BAD_VERSION;
    MapEntry ERROR_TOO_SHORT_MESSAGE OFPET_BAD_REQUEST OFPBRC_BAD_LEN;
    MapEntry ERROR_TOO_LONG_MESSAGE OFPET_BAD_REQUEST OFPBRC_BAD_LEN;
    MapEntry ERROR_UNDEFINED_TYPE OFPET_BAD_REQUEST OFPBRC_BAD_TYPE;
    MapEntry ERROR_INVALID_TYPE OFPET_BAD_REQUEST OFPBRC_BAD_TYPE;
    MapEntry 0 0 0 ];
  ErrorMap OFPT_SET_CONFIG [
    MapEntry ERROR_UNSUPPORTED_VERSION OFPET_BAD_REQUEST OFPBRC_BAD_VERSION;
    MapEntry ERROR_TOO_SHORT_MESSAGE OFPET_BAD_REQUEST OFPBRC_BAD_LEN;
    MapEntry ERROR_TOO_LONG_MESSAGE OFPET_BAD_REQUEST OFPBRC_BAD_LEN;
    MapEntry ERROR_UNDEFINED_TYPE OFPET_BAD_REQUEST OFPBRC_BAD_TYPE;
    MapEntry ERROR_INVALID_TYPE OFPET_BAD_REQUEST OFPBRC_BAD_TYPE;
    MapEntry ERROR_INVALID_SWITCH_CONFIG OFPET_BAD_REQUEST OFPBRC_EPERM;
    MapEntry 0 0 0 ];
  ErrorMap OFPT_PACKET_IN [
    MapEntry ERROR_UNSUPPORTED_VERSION OFPET_BAD_REQUEST OFPBRC_BAD_VERSION;
    MapEntry ERROR_TOO_SHORT_MESSAGE OFPET_BAD_REQUEST OFPBRC_BAD_LEN;
    MapEntry ERROR_TOO_LONG_MESSAGE OFPET_BAD_REQUEST OFPBRC_BAD_LEN;
    MapEntry ERROR_UNDEFINED_TYPE OFPET_BAD_REQUEST OFPBRC_BAD_TYPE;
    MapEntry ERROR_INVALID_TYPE OFPET_BAD_REQUEST OFPBRC_BAD_TYPE;
    MapEntry ERROR_INVALID_PACKET_IN_REASON OFPET_BAD_REQUEST OFPBRC_EPERM;
    MapEntry 0 0 0 ];
  ErrorMap OFPT_FLOW_REMOVED [
    MapEntry ERROR_UNSUPPORTED_VERSION OFPET_BAD_REQUEST OFPBRC_BAD_VERSION;
    MapEntry ERROR_TOO_SHORT_MESSAGE OFPET_BAD_REQUEST OFPBRC_BAD_LEN;
    MapEntry ERROR_TOO_LONG_MESSAGE OFPET_BAD_REQUEST OFPBRC_BAD_LEN;
    MapEntry ERROR_UNDEFINED_TYPE OFPET_BAD_REQUEST OFPBRC_BAD_TYPE;
    MapEntry ERROR_INVALID_TYPE OFPET_BAD_REQUEST OFPBRC_BAD_TYPE;
    MapEntry ERROR_INVALID_FLOW_PRIORITY OFPET_BAD_REQUEST OFPBRC_EPERM;
    MapEntry ERROR_INVALID_FLOW_REMOVED_REASON OFPET_BAD_REQUEST OFPBRC_EPERM;
    MapEntry 0 0 0 ];
  ErrorMap OFPT_PORT_STATUS [
    MapEntry ERROR_UNSUPPORTED_VERSION OFPET_BAD_REQUEST OFPBRC_BAD_VERSION;
    MapEntry ERROR_TOO_SHORT_MESSAGE OFPET_BAD_REQUEST OFPBRC_BAD_LEN;
    MapEntry ERROR_TOO_LONG_MESSAGE OFPET_BAD_REQUEST OFPBRC_BAD_LEN;
    MapEntry ERROR_UNDEFINED_TYPE OFPET_BAD_REQUEST OFPBRC_BAD_TYPE;
    MapEntry ERROR_INVALID_TYPE OFPET_BAD_REQUEST OFPBRC_BAD_TYPE;
    MapEntry ERROR_INVALID_PORT_STATUS_REASON OFPET_BAD_REQUEST OFPBRC_EPERM;
    MapEntry 0 0 0 ];
  ErrorMap OFPT_PACKET_OUT [
    MapEntry ERROR_UNSUPPORTED_VERSION OFPET_BAD_REQUEST OFPBRC_BAD_VERSION;
    MapEntry ERROR_TOO_SHORT_MESSAGE OFPET_BAD_REQUEST OFPBRC_BAD_LEN;
    MapEntry ERROR_TOO_LONG_MESSAGE OFPET_BAD_REQUEST OFPBRC_BAD_LEN;
    MapEntry ERROR_UNDEFINED_TYPE OFPET_BAD_REQUEST OFPBRC_BAD_TYPE;
    MapEntry ERROR_INVALID_TYPE OFPET_BAD_REQUEST OFPBRC_BAD_TYPE;
    MapEntry ERROR_INVALID_ACTION_TYPE OFPET_BAD_ACTION OFPBAC_BAD_TYPE;
    MapEntry ERROR_TOO_SHORT_ACTION_OUTPUT OFPET_BAD_ACTION OFPBAC_BAD_LEN;
    MapEntry ERROR_TOO_LONG_ACTION_OUTPUT OFPET_BAD_ACTION OFPBAC_BAD_LEN;
    MapEntry ERROR_INVALID_PORT_NO OFPET_BAD_ACTION OFPBAC_BAD_OUT_PORT;
    MapEntry ERROR_TOO_SHORT_ACTION_VLAN_VID OFPET_BAD_ACTION OFPBAC_BAD_LEN;
    MapEntry ERROR_TOO_LONG_ACTION_VLAN_VID OFPET_BAD_ACTION OFPBAC_BAD_LEN;
    MapEntry ERROR_INVALID_VLAN_VID OFPET_BAD_ACTION OFPBAC_BAD_ARGUMENT;
    MapEntry ERROR_TOO_SHORT_ACTION_VLAN_PCP OFPET_BAD_ACTION OFPBAC_BAD_LEN;
    MapEntry ERROR_TOO_LONG_ACTION_VLAN_PCP OFPET_BAD_ACTION OFPBAC_BAD_LEN;
    MapEntry ERROR_INVALID_VLAN_PCP OFPET_BAD_ACTION OFPBAC_BAD_ARGUMENT;
    MapEntry ERROR_TOO_SHORT_ACTION_STRIP_VLAN OFPET_BAD_ACTION OFPBAC_BAD_LEN;
    MapEntry ERROR_TOO_LONG_ACTION_STRIP_VLAN OFPET_BAD_ACTION OFPBAC_BAD_LEN;
    MapEntry ERROR_TOO_SHORT_ACTION_DL_SRC OFPET_BAD_ACTION OFPBAC_BAD_LEN;
    MapEntry ERROR_TOO_LONG_ACTION_DL_SRC OFPET_BAD_ACTION OFPBAC_BAD_LEN;
    MapEntry ERROR_TOO_SHORT_ACTION_DL_DST OFPET_BAD_ACTION OFPBAC_BAD_LEN;
    MapEntry ERROR_TOO_LONG_ACTION_DL_DST OFPET_BAD_ACTION OFPBAC_BAD_LEN;
    MapEntry ERROR_TOO_SHORT_ACTION_NW_SRC OFPET_BAD_ACTION OFPBAC_BAD_LEN;
    MapEntry ERROR_TOO_LONG_ACTION_NW_SRC OFPET_BAD_ACTION OFPBAC_BAD_LEN;
    MapEntry ERROR_TOO_SHORT_ACTION_NW_DST OFPET_BAD_ACTION OFPBAC_BAD_LEN;
    MapEntry ERROR_TOO_LONG_ACTION_NW_DST OFPET_BAD_ACTION OFPBAC_BAD_LEN;
    MapEntry ERROR_TOO_SHORT_ACTION_NW_TOS OFPET_BAD_ACTION OFPBAC_BAD_LEN;
    MapEntry ERROR_TOO_LONG_ACTION_NW_TOS OFPET_BAD_ACTION OFPBAC_BAD_LEN;
    MapEntry ERROR_TOO_SHORT_ACTION_TP_SRC OFPET_BAD_ACTION OFPBAC_BAD_LEN;
    MapEntry ERROR_TOO_LONG_ACTION_TP_SRC OFPET_BAD_ACTION OFPBAC_BAD_LEN;
    MapEntry ERROR_TOO_SHORT_ACTION_TP_DST OFPET_BAD_ACTION OFPBAC_BAD_LEN;
    MapEntry ERROR_TOO_LONG_ACTION_TP_DST OFPET_BAD_ACTION OFPBAC_BAD_LEN;
    MapEntry ERROR_TOO_SHORT_ACTION_ENQUEUE OFPET_BAD_ACTION OFPBAC_BAD_LEN;
    MapEntry ERROR_TOO_LONG_ACTION_ENQUEUE OFPET_BAD_ACTION OFPBAC_BAD_LEN;
    MapEntry ERROR_INVALID_PORT_NO OFPET_BAD_ACTION OFPBAC_BAD_OUT_PORT;
    MapEntry ERROR_TOO_SHORT_ACTION_VENDOR OFPET_BAD_ACTION OFPBAC_BAD_LEN;
    MapEntry ERROR_INVALID_LENGTH_ACTION_VENDOR OFPET_BAD_ACTION OFPBAC_BAD_LEN;
    MapEntry ERROR_UNDEFINED_ACTION_TYPE OFPET_BAD_ACTION OFPBAC_BAD_TYPE;
    MapEntry 0 0 0 ];
  ErrorMap OFPT_FLOW_MOD [
    MapEntry ERROR_UNSUPPORTED_VERSION OFPET_BAD_REQUEST OFPBRC_BAD_VERSION;
    MapEntry ERROR_TOO_SHORT_MESSAGE OFPET_BAD_REQUEST OFPBRC_BAD_LEN;
    MapEntry ERROR_TOO_LONG_MESSAGE OFPET_BAD_REQUEST OFPBRC_BAD_LEN;
    MapEntry ERROR_UNDEFINED_TYPE OFPET_BAD_REQUEST OFPBRC_BAD_TYPE;
    MapEntry ERROR_INVALID_TYPE OFPET_BAD_REQUEST OFPBRC_BAD_TYPE;
    MapEntry ERROR_INVALID_ACTION_TYPE OFPET_BAD_ACTION OFPBAC_BAD_TYPE;
    MapEntry ERROR_TOO_SHORT_ACTION_OUTPUT OFPET_BAD_ACTION OFPBAC_BAD_LEN;
    MapEntry ERROR_TOO_LONG_ACTION_OUTPUT OFPET_BAD_ACTION OFPBAC_BAD_LEN;
    MapEntry ERROR_INVALID_PORT_NO OFPET_BAD_ACTION OFPBAC_BAD_OUT_PORT;
    MapEntry ERROR_TOO_SHORT_ACTION_VLAN_VID OFPET_BAD_ACTION OFPBAC_BAD_LEN;
    MapEntry ERROR_TOO_LONG_ACTION_VLAN_VID OFPET_BAD_ACTION OFPBAC_BAD_LEN;
    MapEntry ERROR_INVALID_VLAN_VID OFPET_BAD_ACTION OFPBAC_BAD_ARGUMENT;
    MapEntry ERROR_TOO_SHORT_ACTION_VLAN_PCP OFPET_BAD_ACTION OFPBAC_BAD_LEN;
    MapEntry ERROR_TOO_LONG_ACTION_VLAN_PCP OFPET_BAD_ACTION OFPBAC_BAD_LEN;
    MapEntry ERROR_INVALID_VLAN_PCP OFPET_BAD_ACTION OFPBAC_BAD_ARGUMENT;
    MapEntry ERROR_TOO_SHORT_ACTION_STRIP_VLAN OFPET_BAD_ACTION OFPBAC_BAD_LEN;
    MapEntry ERROR_TOO_LONG_ACTION_STRIP_VLAN OFPET_BAD_ACTION OFPBAC_BAD_LEN;
    MapEntry ERROR_TOO_SHORT_ACTION_DL_SRC OFPET_BAD_ACTION OFPBAC_BAD_LEN;
    MapEntry ERROR_TOO_LONG_ACTION_DL_SRC OFPET_BAD_ACTION OFPBAC_BAD_LEN;
    MapEntry ERROR_TOO_SHORT_ACTION_DL_DST OFPET_BAD_ACTION OFPBAC_BAD_LEN;
    MapEntry ERROR_TOO_LONG_ACTION_DL_DST OFPET_BAD_ACTION OFPBAC_BAD_LEN;
    MapEntry ERROR_TOO_SHORT_ACTION_NW_SRC OFPET_BAD_ACTION OFPBAC_BAD_LEN;
    MapEntry ERROR_TOO_LONG_ACTION_NW_SRC OFPET_BAD_ACTION OFPBAC_BAD_LEN;
    MapEntry ERROR_TOO_SHORT_ACTION_NW_DST OFPET_BAD_ACTION OFPBAC_BAD_LEN;
    MapEntry ERROR_TOO_LONG_ACTION_NW_DST OFPET_BAD_ACTION OFPBAC_BAD_LEN;
    MapEntry ERROR_TOO_SHORT_ACTION_NW_TOS OFPET_BAD_ACTION OFPBAC_BAD_LEN;
    MapEntry ERROR_TOO_LONG_ACTION_NW_TOS OFPET_BAD_ACTION OFPBAC_BAD_LEN;
    MapEntry ERROR_TOO_SHORT_ACTION_TP_SRC OFPET_BAD_ACTION OFPBAC_BAD_LEN;
    MapEntry ERROR_TOO_LONG_ACTION_TP_SRC OFPET_BAD_ACTION OFPBAC_BAD_LEN;
    MapEntry ERROR_TOO_SHORT_ACTION_TP_DST OFPET_BAD_ACTION OFPBAC_BAD_LEN;
    MapEntry ERROR_TOO_LONG_ACTION_TP_DST OFPET_BAD_ACTION OFPBAC_BAD_LEN;
    MapEntry ERROR_TOO_SHORT_ACTION_ENQUEUE OFPET_BAD_ACTION OFPBAC_BAD_LEN;
    MapEntry ERROR_TOO_LONG_ACTION_ENQUEUE OFPET_BAD_ACTION OFPBAC_BAD_LEN;
    MapEntry ERROR_INVALID_PORT_NO OFPET_BAD_ACTION OFPBAC_BAD_OUT_PORT;
    MapEntry ERROR_TOO_SHORT_ACTION_VENDOR OFPET_BAD_ACTION OFPBAC_BAD_LEN;
    MapEntry ERROR_INVALID_LENGTH_ACTION_VENDOR OFPET_BAD_ACTION OFPBAC_BAD_LEN;
    MapEntry ERROR_UNDEFINED_ACTION_TYPE OFPET_BAD_ACTION OFPBAC_BAD_TYPE;
    MapEntry ERROR_INVALID_WILDCARDS OFPET_FLOW_MOD_FAILED OFPFMFC_EPERM;
    MapEntry ERROR_UNDEFINED_FLOW_MOD_COMMAND OFPET_FLOW_MOD_FAILED OFPFMFC_BAD_COMMAND;
    MapEntry ERROR_INVALID_FLOW_PRIORITY OFPET_FLOW_MOD_FAILED OFPFMFC_EPERM;
    MapEntry ERROR_INVALID_FLOW_MOD_FLAGS OFPET_FLOW_MOD_FAILED OFPFMFC_EPERM;
    MapEntry 0 0 0 ];
  ErrorMap OFPT_PORT_MOD [
    MapEntry ERROR_UNSUPPORTED_VERSION OFPET_BAD_REQUEST OFPBRC_BAD_VERSION;
    MapEntry ERROR_TOO_SHORT_MESSAGE OFPET_BAD_REQUEST OFPBRC_BAD_LEN;
    MapEntry ERROR_TOO_LONG_MESSAGE OFPET_BAD_REQUEST OFPBRC_BAD_LEN;
    MapEntry ERROR_UNDEFINED_TYPE OFPET_BAD_REQUEST OFPBRC_BAD_TYPE;
    MapEntry ERROR_INVALID_TYPE OFPET_BAD_REQUEST OFPBRC_BAD_TYPE;
    MapEntry ERROR_INVALID_PORT_NO OFPET_PORT_MOD_FAILED OFPPMFC_BAD_PORT;
    MapEntry ERROR_INVALID_PORT_CONFIG OFPET_BAD_REQUEST OFPBRC_EPERM;
    MapEntry ERROR_INVALID_PORT_MASK OFPET_BAD_REQUEST OFPBRC_EPERM;
    MapEntry ERROR_INVALID_PORT_FEATURES OFPET_BAD_REQUEST OFPBRC_EPERM;
    MapEntry 0 0 0 ];
  ErrorMap OFPT_STATS_REQUEST [
    MapEntry ERROR_UNSUPPORTED_VERSION OFPET_BAD_REQUEST OFPBRC_BAD_VERSION;
    MapEntry ERROR_TOO_SHORT_MESSAGE OFPET_BAD_REQUEST OFPBRC_BAD_LEN;
    MapEntry ERROR_TOO_LONG_MESSAGE OFPET_BAD_REQUEST OFPBRC_BAD_LEN;
    MapEntry ERROR_UNDEFINED_TYPE OFPET_BAD_REQUEST OFPBRC_BAD_TYPE;
    MapEntry ERROR_INVALID_TYPE OFPET_BAD_REQUEST OFPBRC_BAD_TYPE;
    MapEntry ERROR_UNSUPPORTED_STATS_TYPE OFPET_BAD_REQUEST OFPBRC_BAD_STAT;
    MapEntry ERROR_INVALID_STATS_TYPE OFPET_BAD_REQUEST OFPBRC_BAD_STAT;
    MapEntry ERROR_INVALID_STATS_REQUEST_FLAGS OFPET_BAD_REQUEST OFPBRC_EPERM;
    MapEntry ERROR_INVALID_PORT_NO OFPET_BAD_REQUEST OFPBRC_EPERM;
    MapEntry ERROR_INVALID_WILDCARDS OFPET_BAD_REQUEST OFPBRC_EPERM;
    MapEntry ERROR_INVALID_VLAN_VID OFPET_BAD_REQUEST OFPBRC_EPERM;
    MapEntry ERROR_INVALID_VLAN_PCP OFPET_BAD_REQUEST OFPBRC_EPERM;
    MapEntry ERROR_INVALID_NW_TOS OFPET_BAD_REQUEST OFPBRC_EPERM;
    MapEntry 0 0 0 ];
  ErrorMap OFPT_STATS_REPLY [
    MapEntry ERROR_UNSUPPORTED_VERSION OFPET_BAD_REQUEST OFPBRC_BAD_VERSION;
    MapEntry ERROR_TOO_SHORT_MESSAGE OFPET_BAD_REQUEST OFPBRC_BAD_LEN;
    MapEntry ERROR_TOO_LONG_MESSAGE OFPET_BAD_REQUEST OFPBRC_BAD_LEN;
    MapEntry ERROR_UNDEFINED_TYPE OFPET_BAD_REQUEST OFPBRC_BAD_TYPE;
    MapEntry ERROR_INVALID_TYPE OFPET_BAD_REQUEST OFPBRC_BAD_TYPE;
    MapEntry 0 0 0 ];
  ErrorMap OFPT_BARRIER_REQUEST [
    MapEntry ERROR_UNSUPPORTED_VERSION OFPET_BAD_REQUEST OFPBRC_BAD_VERSION;
    MapEntry ERROR_TOO_SHORT_MESSAGE OFPET_BAD_REQUEST OFPBRC_BAD_LEN;
    MapEntry ERROR_TOO_LONG_MESSAGE OFPET_BAD_REQUEST OFPBRC_BAD_LEN;
    MapEntry ERROR_UNDEFINED_TYPE OFPET_BAD_REQUEST OFPBRC_BAD_TYPE;
    MapEntry ERROR_INVALID_TYPE OFPET_BAD_REQUEST OFPBRC_BAD_TYPE;
    MapEntry 0 0 0 ];
  ErrorMap OFPT_BARRIER_REPLY [
    MapEntry ERROR_UNSUPPORTED_VERSION OFPET_BAD_REQUEST OFPBRC_BAD_VERSION;
    MapEntry ERROR_TOO_SHORT_MESSAGE OFPET_BAD_REQUEST OFPBRC_BAD_LEN;
    MapEntry ERROR_TOO_LONG_MESSAGE OFPET_BAD_REQUEST OFPBRC_BAD_LEN;
    MapEntry ERROR_UNDEFINED_TYPE OFPET_BAD_REQUEST OFPBRC_BAD_TYPE;
    MapEntry ERROR_INVALID_TYPE OFPET_BAD_REQUEST OFPBRC_BAD_TYPE;
    MapEntry 0 0 0 ];
  ErrorMap OFPT_QUEUE_GET_CONFIG_REQUEST [
    MapEntry ERROR_UNSUPPORTED_VERSION OFPET_BAD_REQUEST OFPBRC_BAD_VERSION;
    MapEntry ERROR_TOO_SHORT_MESSAGE OFPET_BAD_REQUEST OFPBRC_BAD_LEN;
    MapEntry ERROR_TOO_LONG_MESSAGE OFPET_BAD_REQUEST OFPBRC_BAD_LEN;
    MapEntry ERROR_UNDEFINED_TYPE OFPET_BAD_REQUEST OFPBRC_BAD_TYPE;
    MapEntry ERROR_INVALID_TYPE OFPET_BAD_REQUEST OFPBRC_BAD_TYPE;
    MapEntry ERROR_INVALID_PORT_NO OFPET_QUEUE_OP_FAILED OFPQOFC_BAD_PORT;
    MapEntry 0 0 0 ];
  ErrorMap OFPT_QUEUE_GET_CONFIG_REPLY [
    MapEntry ERROR_UNSUPPORTED_VERSION OFPET_BAD_REQUEST OFPBRC_BAD_VERSION;
    MapEntry ERROR_TOO_SHORT_MESSAGE OFPET_BAD_REQUEST OFPBRC_BAD_LEN;
    MapEntry ERROR_TOO_LONG_MESSAGE OFPET_BAD_REQUEST OFPBRC_BAD_LEN;
    MapEntry ERROR_UNDEFINED_TYPE OFPET_BAD_REQUEST OFPBRC_BAD_TYPE;
    MapEntry ERROR_INVALID_TYPE OFPET_BAD_REQUEST OFPBRC_BAD_TYPE;
    MapEntry 0 0 0 ] ].

(** The loop that reads the entries up to the first whose [error_no] is 0. *)
Fixpoint find_map (l : list map_entry) (no : Z) : option (Z * Z) :=
  match l with
  | [] => None
  | e :: l =>
    if error_no e =? 0 then None
    else if no =? error_no e then Some (error_type e, error_code e)
    else find_map l no
  end.

(** [None] is the result [false], the arguments unchanged; [type] is a
    [uint8_t]. *)
Definition get_error_type_and_code (type no : Z) : res (option (Z * Z)) :=
  if OFPT_QUEUE_GET_CONFIG_REPLY <? type then Ok (Some (OFPET_BAD_REQUEST, OFPBRC_BAD_TYPE))
  else
    match error_maps !! Z.to_nat type with
    | Some m => Ok (find_map (maps m) no)
    | None => Fault OutOfBounds
    end.

(** * The error that should answer a defective message *)

(** What OpenFlow 1.0 prescribes for a header that validate_header refuses. *)
Definition header_error (type no : Z) : Z * Z :=
  if no =? ERROR_UNSUPPORTED_VERSION then
    if type =? OFPT_HELLO then (OFPET_HELLO_FAILED, OFPHFC_INCOMPATIBLE)
    else (OFPET_BAD_REQUEST, OFPBRC_BAD_VERSION)
  else if (no =? ERROR_TOO_SHORT_MESSAGE) || (no =? ERROR_TOO_LONG_MESSAGE)
  then (OFPET_BAD_REQUEST, OFPBRC_BAD_LEN)
  else (OFPET_BAD_REQUEST, OFPBRC_BAD_TYPE).

(** The code of the OFPET_BAD_ACTION error for an action that validate_action
    refuses; none for the two results the maps forget. *)
Definition bad_action_code (no : Z) : option Z :=
  if (no =? ERROR_TOO_SHORT_ACTION) || (no =? ERROR_INVALID_NW_TOS) then None
  else if (no =? ERROR_UNDEFINED_ACTION_TYPE) || (no =? ERROR_INVALID_ACTION_TYPE)
  then Some OFPBAC_BAD_TYPE
  else if no =? ERROR_INVALID_PORT_NO then Some OFPBAC_BAD_OUT_PORT
  else if (no =? ERROR_INVALID_VLAN_VID) || (no =? ERROR_INVALID_VLAN_PCP)
  then Some OFPBAC_BAD_ARGUMENT
  else Some OFPBAC_BAD_LEN.

Definition header_errors : list Z := [
  ERROR_UNSUPPORTED_VERSION; ERROR_TOO_SHORT_MESSAGE; ERROR_TOO_LONG_MESSAGE;
  ERROR_UNDEFINED_TYPE; ERROR_INVALID_TYPE ].

Definition action_errors : list Z := [
  ERROR_TOO_SHORT_ACTION; ERROR_UNDEFINED_ACTION_TYPE; ERROR_INVALID_ACTION_TYPE;
  ERROR_INVALID_PORT_NO; ERROR_INVALID_VLAN_VID; ERROR_INVALID_VLAN_PCP; ERROR_INVALID_NW_TOS;
  ERROR_TOO_SHORT_ACTION_OUTPUT; ERROR_TOO_LONG_ACTION_OUTPUT;
  ERROR_TOO_SHORT_ACTION_VLAN_VID; ERROR_TOO_LONG_ACTION_VLAN_VID;
  ERROR_TOO_SHORT_ACTION_VLAN_PCP; ERROR_TOO_LONG_ACTION_VLAN_PCP;
  ERROR_TOO_SHORT_ACTION_STRIP_VLAN; ERROR_TOO_LONG_ACTION_STRIP_VLAN;
  ERROR_TOO_SHORT_ACTION_DL_SRC; ERROR_TOO_LONG_ACTION_DL_SRC;
  ERROR_TOO_SHORT_ACTION_DL_DST; ERROR_TOO_LONG_ACTION_DL_DST;
  ERROR_TOO_SHORT_ACTION_NW_SRC; ERROR_TOO_LONG_ACTION_NW_SRC;
  ERROR_TOO_SHORT_ACTION_NW_DST; ERROR_TOO_LONG_ACTION_NW_DST;
  ERROR_TOO_SHORT_ACTION_NW_TOS; ERROR_TOO_LONG_ACTION_NW_TOS;
  ERROR_TOO_SHORT_ACTION_TP_SRC; ERROR_TOO_LONG_ACTION_TP_SRC;
  ERROR_TOO_SHORT_ACTION_TP_DST; ERROR_TOO_LONG_ACTION_TP_DST;
  ERROR_TOO_SHORT_ACTION_ENQUEUE; ERROR_TOO_LONG_ACTION_ENQUEUE;
  ERROR_TOO_SHORT_ACTION_VENDOR; ERROR_INVALID_LENGTH_ACTION_VENDOR ].

(** Follow the branches of a validator to the results it can give. *)
Ltac in_list := vm_compute; repeat (first [left; reflexivity | right]).
Ltac validator_results :=
  repeat match goal with
  | H : bind _ _ = Ok _ |- _ => apply bind_inv in H as (? & ? & H)
  | H : Ok _ = Ok _ |- _ => injection H as <-
  | H : (if ?b then _ else _) = Ok _ |- _ => destruct b
  end.

Section Results.
Context {host : Host}.

Lemma header_results m type mn mx e :
  validate_header m type mn mx = Ok e -> e = 0 \/ In e header_errors.
Proof. unfold validate_header. intros H. validator_results; in_list. Qed.

Lemma check_result v c e :
  v = 0 \/ v = c -> In c action_errors ->
  (check* Ok v in Ok 0) = Ok e -> e = 0 \/ In e action_errors.
Proof.
  intros [-> | ->] Hc; cbn [bind]; [intros [= <-]; by left |].
  destruct (c <? 0); intros [= <-]; auto.
Qed.

Lemma port_no_result x : validate_phy_port_no x = 0 \/ validate_phy_port_no x = ERROR_INVALID_PORT_NO.
Proof. unfold validate_phy_port_no. case_match; auto. Qed.

Lemma vlan_vid_result x : validate_vlan_vid x = 0 \/ validate_vlan_vid x = ERROR_INVALID_VLAN_VID.
Proof. unfold validate_vlan_vid. case_match; auto. Qed.

Lemma vlan_pcp_result x : validate_vlan_pcp x = 0 \/ validate_vlan_pcp x = ERROR_INVALID_VLAN_PCP.
Proof. unfold validate_vlan_pcp. case_match; auto. Qed.

Lemma nw_tos_result x : validate_nw_tos x = 0 \/ validate_nw_tos x = ERROR_INVALID_NW_TOS.
Proof. unfold validate_nw_tos. case_match; auto. Qed.

#[local] Hint Resolve port_no_result vlan_vid_result vlan_pcp_result nw_tos_result : core.

Ltac action_result :=
  repeat match goal with
  | H : (check* Ok _ in Ok 0) = Ok _ |- _ => eapply check_result in H; [exact H | auto | in_list]
  | H : bind _ _ = Ok _ |- _ => apply bind_inv in H as (? & _ & H); cbv beta zeta in H
  | H : (if ?b then _ else _) = Ok _ |- _ => destruct b
  | H : Ok _ = Ok _ |- _ => injection H as <-; solve [left; reflexivity | right; in_list]
  end.

Lemma action_results m off e :
  validate_action m off = Ok e -> e = 0 \/ In e action_errors.
Proof.
  unfold validate_action. intros H. apply bind_inv in H as (len & _ & H).
  destruct (len <? _); [action_result |]. apply bind_inv in H as (type & _ & H).
  repeat match goal with
  | H : (if type =? _ then ?v _ _ _ else _) = _ |- _ => destruct (type =? _); [unfold v in H; action_result |]
  end.
  action_result.
Qed.

Lemma get_error_type_and_code_map type no m :
  error_maps !! Z.to_nat type = Some m -> type <= OFPT_QUEUE_GET_CONFIG_REPLY ->
  get_error_type_and_code type no = Ok (find_map (maps m) no).
Proof.
  intros Hm Ht. unfold get_error_type_and_code. rewrite Hm.
  by replace (OFPT_QUEUE_GET_CONFIG_REPLY <? type) with false by (symmetry; apply Z.ltb_ge; lia).
Qed.

Definition returns (r : res (option (Z * Z))) (v : option (Z * Z)) : bool :=
  match r with Ok x => bool_decide (x = v) | Fault _ => false end.

Lemma returns_ok r v : returns r v = true -> r = Ok v.
Proof. destruct r; cbn; [by intros ->%bool_decide_eq_true | done]. Qed.

(** Whatever the type of the message, an error of validate_header is
    answered by the OpenFlow error that the specification gives for it:
    an incompatible version, a bad length or a bad type. *)
Theorem header_error_mapped m type mn mx e :
  0 <= type <= OFPT_QUEUE_GET_CONFIG_REPLY -> validate_header m type mn mx = Ok e -> e < 0 ->
  get_error_type_and_code type e = Ok (Some (header_error type e)).
Proof.
  intros Ht [-> | He]%header_results Hneg; [lia |].
  assert (Hall : forallb (fun t => forallb (fun e =>
    returns (get_error_type_and_code t e) (Some (header_error t e))) header_errors)
    (seqZ 0 22) = true) by (by vm_compute).
  rewrite forallb_forall in Hall.
  specialize (Hall type). rewrite forallb_forall in Hall.
  apply returns_ok, Hall; [| done].
  apply list_elem_of_In, elem_of_seqZ. unfold OFPT_QUEUE_GET_CONFIG_REPLY in Ht. lia.
Qed.

Lemma action_error_mapped_map type e :
  type = OFPT_PACKET_OUT \/ type = OFPT_FLOW_MOD -> In e action_errors ->
  get_error_type_and_code type e = Ok (option_map (pair OFPET_BAD_ACTION) (bad_action_code e)).
Proof.
  assert (Hall : forallb (fun t => forallb (fun e =>
    returns (get_error_type_and_code t e)
            (option_map (pair OFPET_BAD_ACTION) (bad_action_code e))) action_errors)
    [OFPT_PACKET_OUT; OFPT_FLOW_MOD] = true) by (by vm_compute).
  rewrite forallb_forall in Hall.
  intros Ht He. specialize (Hall type). rewrite forallb_forall in Hall.
  apply returns_ok, Hall; [| done]. destruct Ht as [-> | ->]; cbn; auto.
Qed.

(** In a packet-out or a flow modification an action that
    validate_action refuses is answered by OFPET_BAD_ACTION with the code for
    its defect, except for the two results that the maps forget: an action
    shorter than its header and bits outside the type of service have no
    entry, and the caller's default is sent instead. *)
Theorem action_error_mapped m off e type :
  type = OFPT_PACKET_OUT \/ type = OFPT_FLOW_MOD ->
  validate_action m off = Ok e -> e < 0 ->
  get_error_type_and_code type e = Ok (option_map (pair OFPET_BAD_ACTION) (bad_action_code e)).
Proof.
  intros Ht [-> | He]%action_results Hneg; [lia |]. by apply action_error_mapped_map.
Qed.
End Results.

(** The enumerator ERROR_UNDEFINED_FLOW_MOD_COMMAND is 0, the value that
    ends a map: the entries that follow it for OFPT_FLOW_MOD are never read,
    and the errors of the priority and of the flags of a flow modification
    find no OpenFlow error although the map lists them. *)
Theorem flow_mod_entries_unreachable :
  exists m, error_maps !! Z.to_nat OFPT_FLOW_MOD = Some m /\ map_type m = OFPT_FLOW_MOD /\
    In (MapEntry ERROR_INVALID_FLOW_PRIORITY OFPET_FLOW_MOD_FAILED OFPFMFC_EPERM) (maps m) /\
    In (MapEntry ERROR_INVALID_FLOW_MOD_FLAGS OFPET_FLOW_MOD_FAILED OFPFMFC_EPERM) (maps m) /\
    get_error_type_and_code OFPT_FLOW_MOD ERROR_INVALID_FLOW_PRIORITY = Ok None /\
    get_error_type_and_code OFPT_FLOW_MOD ERROR_INVALID_FLOW_MOD_FLAGS = Ok None.
Proof.
  eexists. split; [reflexivity |]. split; [reflexivity |]. cbn [maps In].
  split_and!; [tauto | tauto | reflexivity | reflexivity].
Qed.

Section Witnesses.
Let host : Host := LittleEndian.
#[local] Existing Instance host.

(** An echo request of a later version, and an output to port 0. *)
Definition echo_v4 : bytes := [Byte.x04; Byte.x02; Byte.x00; Byte.x08] ++ zeros 4.
Definition output_to_0 : bytes := [Byte.x00; Byte.x00; Byte.x00; Byte.x08] ++ zeros 4.

Lemma header_error_mapped_witness :
  0 <= OFPT_ECHO_REQUEST <= OFPT_QUEUE_GET_CONFIG_REPLY /\
  validate_header echo_v4 OFPT_ECHO_REQUEST 8 65535 = Ok ERROR_UNSUPPORTED_VERSION /\
  get_error_type_and_code OFPT_ECHO_REQUEST ERROR_UNSUPPORTED_VERSION =
    Ok (Some (OFPET_BAD_REQUEST, OFPBRC_BAD_VERSION)).
Proof.
  assert (H1 : 0 <= OFPT_ECHO_REQUEST <= OFPT_QUEUE_GET_CONFIG_REPLY)
    by (vm_compute; split; discriminate).
  assert (H2 : validate_header echo_v4 OFPT_ECHO_REQUEST 8 65535 = Ok ERROR_UNSUPPORTED_VERSION)
    by reflexivity.
  split; [exact H1 | split; [exact H2 |]].
  exact (header_error_mapped _ _ _ _ _ H1 H2 eq_refl).
Defined.

Lemma action_error_mapped_witness :
  validate_action output_to_0 0 = Ok ERROR_INVALID_PORT_NO /\ get_error_type_and_code OFPT_FLOW_MOD ERROR_INVALID_PORT_NO =
    Ok (Some (OFPET_BAD_ACTION, OFPBAC_BAD_OUT_PORT)).
Proof.
  assert (H : validate_action output_to_0 0 = Ok ERROR_INVALID_PORT_NO) by reflexivity.
  split; [exact H | exact (action_error_mapped _ _ _ _ (or_intror eq_refl) H eq_refl)].
Defined.
End Witnesses.
