(* ===== verification/TransactionId.v ===== *)
(** init_openflow_message, get_transaction_id and get_cookie of
    openflow_message.c: the counters behind transaction ids and cookies.

    The identifier of the process fills the high 16 bits of both counters and
    the rest counts.  Each counter has a mutex; the value returned is read
    from the global variable again after the mutex is released, which the
    step relation of section [Threads] models. *)

From Stdlib Require Import ZArith Lia.
From stdpp Require Import base list gmap.
From S2P Require Import Prelude.

(** The static variables. *)
Record counters : Type := Counters { transaction_id : Z; cookie : Z }.

Definition init_openflow_message (pid : Z) : counters :=
  Counters (u32 (Z.shiftl (u32 pid) 16)) (u64 (Z.shiftl (u64 pid) 48)).

(** The critical sections. *)
Definition next_transaction_id (x : Z) : Z :=
  if Z.land x 0xffff =? 0xffff then Z.land x 0xffff0000 else u32 (x + 1).

Definition next_cookie (x : Z) : Z :=
  if Z.land x 0x0000ffffffffffff =? 0x0000ffffffffffff
  then Z.land x 0xffff000000000000 else u64 (x + 1).

(** The result and the new state, when no other thread intervenes. *)
Definition get_transaction_id (s : counters) : Z * counters :=
  let s := Counters (next_transaction_id (transaction_id s)) (cookie s) in
  (transaction_id s, s).

Definition get_cookie (s : counters) : Z * counters :=
  let s := Counters (transaction_id s) (next_cookie (cookie s)) in
  (cookie s, s).

(** * One thread *)

Inductive call : Type := GetTransactionId | GetCookie.

(** The transaction ids and the cookies that a sequence of calls returns. *)
Fixpoint run (l : list call) (s : counters) : list Z * list Z * counters :=
  match l with
  | [] => ([], [], s)
  | GetTransactionId :: l =>
    let (id, s) := get_transaction_id s in
    let '(ids, cs, s) := run l s in (id :: ids, cs, s)
  | GetCookie :: l =>
    let (c, s) := get_cookie s in
    let '(ids, cs, s) := run l s in (ids, c :: cs, s)
  end.

#[export] Instance call_eq_dec : EqDecision call.
Proof. solve_decision. Defined.

(** How many calls of one kind there are. *)
Definition calls (c : call) (l : list call) : nat := length (filter (eq c) l).

(** The values that [n] calls return after [k] calls: a counter of [w] bits
    under the high bits [p]. *)
Definition counted (w p : Z) (k n : nat) : list Z :=
  map (fun i => p * 2 ^ w + Z.of_nat i mod 2 ^ w) (seq (S k) n).

Section Cycle.
(** A counter of [w] bits below [h] bits that do not change. *)
Context (w h : Z) (Hw : 0 < w) (Hh : 0 <= h).

Definition next (x : Z) : Z :=
  if Z.land x (Z.ones w) =? Z.ones w then Z.land x (Z.shiftl (Z.ones h) w)
  else (x + 1) mod 2 ^ (w + h).

Lemma land_high x : 0 <= x < 2 ^ (w + h) -> Z.land x (Z.shiftl (Z.ones h) w) = x / 2 ^ w * 2 ^ w.
Proof.
  intros Hx. rewrite <- Z.shiftr_div_pow2, <- Z.shiftl_mul_pow2 by lia.
  apply Z.bits_inj'. intros n Hn. rewrite Z.land_spec, !Z.shiftl_spec by lia.
  destruct (Z.ltb_spec n w) as [Hl | Hl]; [by rewrite !(Z.testbit_neg_r _ (n - w)), andb_false_r by lia |].
  rewrite Z.shiftr_spec by lia. replace (n - w + w) with n by lia.
  destruct (Z.ltb_spec (n - w) h) as [Hk | Hk].
  - by rewrite Z.ones_spec_low, andb_true_r by lia.
  - rewrite Z.ones_spec_high, andb_false_r by lia. symmetry.
    rewrite Z.testbit_odd, Z.shiftr_div_pow2 by lia. rewrite Z.div_small; [done |].
    split; [lia |]. eapply Z.lt_le_trans; [apply Hx | apply Z.pow_le_mono_r; lia].
Qed.

Lemma next_counts p c :
  0 <= p < 2 ^ h -> 0 <= c < 2 ^ w -> next (p * 2 ^ w + c) = p * 2 ^ w + (c + 1) mod 2 ^ w.
Proof.
  intros Hp Hc. unfold next.
  assert (E : 2 ^ (w + h) = 2 ^ w * 2 ^ h) by (apply Z.pow_add_r; lia).
  assert (P : 0 < 2 ^ w) by (apply Z.pow_pos_nonneg; lia).
  rewrite Z.land_ones by lia.
  rewrite Z.add_comm, Z.mod_add, Z.mod_small by lia.
  rewrite Z.ones_equiv. destruct (Z.eqb_spec c (Z.pred (2 ^ w))) as [-> | Hne].
  - rewrite land_high by nia. rewrite Z.div_add, Z.div_small by lia.
    replace (Z.pred (2 ^ w) + 1) with (1 * 2 ^ w) by lia. rewrite Z.mod_mul by lia. lia.
  - rewrite (Z.mod_small (c + 1)) by lia. rewrite Z.mod_small by nia. lia.
Qed.

Lemma counted_NoDup p k n : Z.of_nat n <= 2 ^ w -> NoDup (counted w p k n).
Proof.
  intros Hn. assert (P : 0 < 2 ^ w) by (apply Z.pow_pos_nonneg; lia).
  apply NoDup_fmap_2_strong; [| apply NoDup_seq].
  intros i j Hi%elem_of_seq Hj%elem_of_seq H.
  assert (E : Z.of_nat i mod 2 ^ w = Z.of_nat j mod 2 ^ w) by lia.
  apply Z.cong_iff_0 in E. apply Z.mod_divide in E as [q Hq]; [| lia].
  assert (q = 0) by nia. lia.
Qed.
End Cycle.

Lemma next_transaction_id_next x : next_transaction_id x = next 16 16 x.
Proof. reflexivity. Qed.

Lemma next_cookie_next x : next_cookie x = next 48 16 x.
Proof. reflexivity. Qed.

(** The low 16 bits of the identifier of the process. *)
Lemma init_high pid :
  init_openflow_message pid = Counters (pid mod 2 ^ 16 * 2 ^ 16) (pid mod 2 ^ 16 * 2 ^ 48).
Proof.
  unfold init_openflow_message, u32, u64. rewrite !Z.shiftl_mul_pow2 by lia. f_equal.
  - change (2 ^ 32) with (2 ^ 16 * 2 ^ 16) at 2. rewrite Z.mul_mod_distr_r by lia. f_equal.
    apply Z.mod_mod_divide. by exists (2 ^ 16).
  - change (2 ^ 64) with (2 ^ 16 * 2 ^ 48) at 2. rewrite Z.mul_mod_distr_r by lia. f_equal.
    apply Z.mod_mod_divide. by exists (2 ^ 48).
Qed.

Lemma next_transaction_id_counts p k :
  0 <= p < 2 ^ 16 ->
  next_transaction_id (p * 2 ^ 16 + Z.of_nat k mod 2 ^ 16)
  = p * 2 ^ 16 + Z.of_nat (S k) mod 2 ^ 16.
Proof.
  intros Hp. pose proof (Z.mod_pos_bound (Z.of_nat k) (2 ^ 16) eq_refl).
  rewrite next_transaction_id_next, next_counts, Zplus_mod_idemp_l by lia. do 2 f_equal. lia.
Qed.

Lemma next_cookie_counts p k :
  0 <= p < 2 ^ 16 ->
  next_cookie (p * 2 ^ 48 + Z.of_nat k mod 2 ^ 48) = p * 2 ^ 48 + Z.of_nat (S k) mod 2 ^ 48.
Proof.
  intros Hp. pose proof (Z.mod_pos_bound (Z.of_nat k) (2 ^ 48) eq_refl).
  rewrite next_cookie_next, next_counts, Zplus_mod_idemp_l by lia. do 2 f_equal. lia.
Qed.

Lemma run_counted l p i j :
  0 <= p < 2 ^ 16 ->
  (run l (Counters (p * 2 ^ 16 + Z.of_nat i mod 2 ^ 16) (p * 2 ^ 48 + Z.of_nat j mod 2 ^ 48))).1 =
  (counted 16 p i (calls GetTransactionId l), counted 48 p j (calls GetCookie l)).
Proof.
  intros Hp. revert i j. induction l as [| [] l IH]; intros i j; [done | |]; cbn [run];
    unfold get_transaction_id, get_cookie; cbn [transaction_id cookie].
  - rewrite next_transaction_id_counts by done. specialize (IH (S i) j).
    destruct (run _ _) as [[ids cs] s]. cbn in IH |- *. by injection IH as -> ->.
  - rewrite next_cookie_counts by done. specialize (IH i (S j)).
    destruct (run _ _) as [[ids cs] s]. cbn in IH |- *. by injection IH as -> ->.
Qed.

(** After [init_openflow_message] any sequence of calls, made by one
    thread, returns transaction ids and cookies whose high 16 bits are the low
    bits of the process identifier and whose low 16 or 48 bits count from 1
    and wrap to 0 without touching the high ones; the values of up to 2^16
    successive calls of get_transaction_id differ, as do those of up to 2^48
    calls of get_cookie. *)
Theorem identifiers_count pid l :
  let p := pid mod 2 ^ 16 in
  let '(ids, cookies, _) := run l (init_openflow_message pid) in
  ids = counted 16 p 0 (calls GetTransactionId l) /\
  cookies = counted 48 p 0 (calls GetCookie l) /\
  (Z.of_nat (calls GetTransactionId l) <= 2 ^ 16 -> NoDup ids) /\
  (Z.of_nat (calls GetCookie l) <= 2 ^ 48 -> NoDup cookies).
Proof.
  intros p. pose proof (Z.mod_pos_bound pid (2 ^ 16) eq_refl) as Hp.
  pose proof (run_counted l p 0 0 Hp) as H. rewrite init_high. rewrite !Z.mod_0_l, !Z.add_0_r in H by lia.
  destruct (run _ _) as [[ids cs] s]. injection H as -> ->.
  split_and!; [done | done | by apply counted_NoDup | by apply counted_NoDup].
Qed.

Lemma identifiers_count_witness :
  (run [GetTransactionId; GetCookie; GetTransactionId] (init_openflow_message 4097)).1
    = ([268500993; 268500994], [1153202979583557633]) /\
  (Z.of_nat (calls GetTransactionId [GetTransactionId; GetCookie; GetTransactionId]) <= 2 ^ 16) /\
  NoDup (run [GetTransactionId; GetCookie; GetTransactionId] (init_openflow_message 4097)).1.1.
Proof.
  split; [reflexivity | split; [by vm_compute |]].
  pose proof (identifiers_count 4097 [GetTransactionId; GetCookie; GetTransactionId]) as H.
  exact (proj1 (proj2 (proj2 H)) ltac:(by vm_compute)).
Defined.

(** * Several threads *)

Section Threads.
(** A call of get_transaction_id: not begun, between the release of the mutex
    and the return, returned. *)
Inductive phase : Type := Idle | Unlocked | Returned (id : Z).

Record pool : Type := Pool { global : Z; threads : list phase }.

Inductive step : pool -> pool -> Prop :=
| step_locked x ts i :
    ts !! i = Some Idle -> step (Pool x ts) (Pool (next_transaction_id x) (<[i := Unlocked]> ts))
| step_return x ts i :
    ts !! i = Some Unlocked -> step (Pool x ts) (Pool x (<[i := Returned x]> ts)).

(** The mutex protects the update but not the result: whatever the
    process, two threads that call get_transaction_id for the first time can
    both return the id of the second, and the first id is lost. *)
Theorem transaction_id_race pid :
  let x := transaction_id (init_openflow_message pid) in
  let id := next_transaction_id (next_transaction_id x) in
  rtc step (Pool x [Idle; Idle]) (Pool id [Returned id; Returned id]).
Proof.
  intros x id. eapply rtc_l; [by apply (step_locked _ _ 0) |].
  eapply rtc_l; [by apply (step_locked _ _ 1) |].
  eapply rtc_l; [by apply (step_return _ _ 0) |].
  eapply rtc_l; [by apply (step_return _ _ 1) |]. reflexivity.
Qed.
End Threads.
