(* ===== verification/PacketInfo.v ===== *)
(** packet_info.h and packet_info.c: what the parser learns of a packet, and the
    predicates on it.

    The fields of [packet_info] are grouped by the header they come from; the
    names are those of the C structure.  [user_data] of a frame is a pointer to
    its [packet_info], or NULL. *)

From Stdlib Require Import ZArith Lia Bool.
From coqutil Require Import Byte.
From stdpp Require Import base list.
From S2P Require Import Prelude Memory.

(** * Formats *)

Definition ETH_DIX : Z := 0x1.
Definition ETH_8023_RAW : Z := 0x2.
Definition ETH_8023_LLC : Z := 0x4.
Definition ETH_8023_SNAP : Z := 0x8.
Definition ETH_8021Q : Z := 0x0010.
Definition NW_IPV4 : Z := 0x0100.
Definition NW_ICMPV4 : Z := 0x0200.
Definition NW_IPV6 : Z := 0x0400.
Definition NW_ICMPV6 : Z := 0x0800.
Definition NW_ARP : Z := 0x1000.
Definition NW_IGMP : Z := 0x2000.
Definition NW_LLDP : Z := 0x4000.
Definition NW_RARP : Z := 0x8000.
Definition TP_TCP : Z := 0x10000.
Definition TP_UDP : Z := 0x20000.
Definition TP_ETHERIP : Z := 0x40000.
Definition ETH_VTAG_DIX : Z := Z.lor ETH_8021Q ETH_DIX.
Definition ETH_VTAG_RAW : Z := Z.lor ETH_8021Q ETH_8023_RAW.
Definition ETH_VTAG_LLC : Z := Z.lor ETH_8021Q ETH_8023_LLC.
Definition ETH_VTAG_SNAP : Z := Z.lor ETH_8021Q ETH_8023_SNAP.
Definition ETH_ARP : Z := Z.lor ETH_DIX NW_ARP.
Definition ETH_LLDP : Z := Z.lor ETH_DIX NW_LLDP.
Definition ETH_RARP : Z := Z.lor ETH_DIX NW_RARP.
Definition ETH_IPV4 : Z := Z.lor ETH_DIX NW_IPV4.
Definition ETH_IPV4_ICMPV4 : Z := Z.lor ETH_IPV4 NW_ICMPV4.
Definition ETH_IPV4_IGMP : Z := Z.lor ETH_IPV4 NW_IGMP.
Definition ETH_IPV4_TCP : Z := Z.lor ETH_IPV4 TP_TCP.
Definition ETH_IPV4_UDP : Z := Z.lor ETH_IPV4 TP_UDP.
Definition ETH_IPV4_ETHERIP : Z := Z.lor ETH_IPV4 TP_ETHERIP.
Definition ETH_VTAG_ARP : Z := Z.lor ETH_VTAG_DIX NW_ARP.
Definition ETH_VTAG_IPV4 : Z := Z.lor ETH_VTAG_DIX NW_IPV4.
Definition ETH_VTAG_IPV4_ICMPV4 : Z := Z.lor ETH_VTAG_IPV4 NW_ICMPV4.
Definition ETH_VTAG_IPV4_TCP : Z := Z.lor ETH_VTAG_IPV4 TP_TCP.
Definition ETH_VTAG_IPV4_UDP : Z := Z.lor ETH_VTAG_IPV4 TP_UDP.
Definition ETH_SNAP_ARP : Z := Z.lor ETH_8023_SNAP NW_ARP.
Definition ETH_SNAP_IPV4 : Z := Z.lor ETH_8023_SNAP NW_IPV4.
Definition ETH_SNAP_IPV4_ICMPV4 : Z := Z.lor ETH_SNAP_IPV4 NW_ICMPV4.
Definition ETH_SNAP_IPV4_TCP : Z := Z.lor ETH_SNAP_IPV4 TP_TCP.
Definition ETH_SNAP_IPV4_UDP : Z := Z.lor ETH_SNAP_IPV4 TP_UDP.
Definition ETH_VTAG_SNAP_ARP : Z := Z.lor ETH_VTAG_SNAP NW_ARP.
Definition ETH_VTAG_SNAP_IPV4 : Z := Z.lor ETH_VTAG_SNAP NW_IPV4.
Definition ETH_VTAG_SNAP_IPV4_ICMPV4 : Z := Z.lor ETH_VTAG_SNAP_IPV4 NW_ICMPV4.
Definition ETH_VTAG_SNAP_IPV4_TCP : Z := Z.lor ETH_VTAG_SNAP_IPV4 TP_TCP.
Definition ETH_VTAG_SNAP_IPV4_UDP : Z := Z.lor ETH_VTAG_SNAP_IPV4 TP_UDP.

Definition ETH_ETHTYPE_RARP : Z := 0x8035.
Definition ETH_ETHTYPE_TPID : Z := 0x8100.
Definition ETH_ETHTYPE_IPV6 : Z := 0x86DD.
Definition ETH_ETHTYPE_LLDP : Z := 0x88cc.
Definition ARP_OP_REQUEST : Z := 1.
Definition ARP_OP_REPLY : Z := 2.
Definition ARP_OP_RREQUEST : Z := 3.
Definition ARP_OP_RREPLY : Z := 4.
Definition ICMP_TYPE_ECHOREP : Z := 0.
Definition ICMP_TYPE_UNREACH : Z := 3.
Definition ICMP_TYPE_REDIRECT : Z := 5.
Definition ICMP_TYPE_ECHOREQ : Z := 8.
Definition IGMP_TYPE_MEMBERSHIP_QUERY : Z := 0x11.
Definition IGMP_TYPE_V1_MEMBERSHIP_REPORT : Z := 0x12.
Definition IGMP_TYPE_V2_MEMBERSHIP_REPORT : Z := 0x16.
Definition IGMP_TYPE_V2_LEAVE_GROUP : Z := 0x17.
Definition IGMP_TYPE_V3_MEMBERSHIP_REPORT : Z := 0x22.
Definition IPPROTO_ETHERIP : Z := 97.

(** * The structure *)

(** The Ethernet header. *)
Record ether_info : Type := EtherInfo {
  eth_macda : bytes;
  eth_macsa : bytes;
  eth_type : Z
}.

(** The first VLAN tag. *)
Record vlan_info : Type := VlanInfo {
  vlan_tci : Z;
  vlan_tpid : Z;
  vlan_prio : Z;
  vlan_cfi : Z;
  vlan_vid : Z
}.

(** The SNAP header. *)
Record snap_info : Type := SnapInfo {
  snap_llc : bytes;
  snap_oui : bytes;
  snap_type : Z
}.

(** The ARP header. *)
Record arp_info : Type := ArpInfo {
  arp_ar_hrd : Z;
  arp_ar_pro : Z;
  arp_ar_hln : Z;
  arp_ar_pln : Z;
  arp_ar_op : Z;
  arp_sha : bytes;
  arp_spa : Z;
  arp_tha : bytes;
  arp_tpa : Z
}.

(** The IPv4 header. *)
Record ipv4_info : Type := Ipv4Info {
  ipv4_version : Z;
  ipv4_ihl : Z;
  ipv4_tos : Z;
  ipv4_tot_len : Z;
  ipv4_id : Z;
  ipv4_frag_off : Z;
  ipv4_ttl : Z;
  ipv4_protocol : Z;
  ipv4_checksum : Z;
  ipv4_saddr : Z;
  ipv4_daddr : Z
}.

(** The IPv6 header. *)
Record ipv6_info : Type := Ipv6Info {
  ipv6_version : Z;
  ipv6_tc : Z;
  ipv6_flowlabel : Z;
  ipv6_plen : Z;
  ipv6_nexthdr : Z;
  ipv6_hoplimit : Z;
  ipv6_saddr : bytes;
  ipv6_daddr : bytes
}.

(** The ICMP header. *)
Record icmpv4_info : Type := Icmpv4Info {
  icmpv4_type : Z;
  icmpv4_code : Z;
  icmpv4_checksum : Z;
  icmpv4_id : Z;
  icmpv4_seq : Z;
  icmpv4_gateway : Z
}.

(** The IGMP header. *)
Record igmp_info : Type := IgmpInfo {
  igmp_type : Z;
  igmp_code : Z;
  igmp_checksum : Z;
  igmp_group : Z
}.

(** The TCP header. *)
Record tcp_info : Type := TcpInfo {
  tcp_src_port : Z;
  tcp_dst_port : Z;
  tcp_seq_no : Z;
  tcp_ack_no : Z;
  tcp_offset : Z;
  tcp_flags : Z;
  tcp_window : Z;
  tcp_checksum : Z;
  tcp_urgent : Z
}.

(** The UDP header. *)
Record udp_info : Type := UdpInfo {
  udp_src_port : Z;
  udp_dst_port : Z;
  udp_len : Z;
  udp_checksum : Z
}.

(** The EtherIP header. *)
Record etherip_info : Type := EtheripInfo {
  etherip_version : Z;
  etherip_offset : Z
}.

(** Pointers into the packet, as offsets from its start; [None] is NULL. *)
Record layer_info : Type := LayerInfo {
  l2_header : option Z;
  l2_payload : option Z;
  l2_payload_length : Z;
  l3_header : option Z;
  l3_payload : option Z;
  l3_payload_length : Z;
  l4_header : option Z;
  l4_payload : option Z;
  l4_payload_length : Z
}.

Record packet_info : Type := PacketInfo {
  format : Z;
  eth : ether_info;
  vlan : vlan_info;
  snap : snap_info;
  arp : arp_info;
  ipv4 : ipv4_info;
  ipv6 : ipv6_info;
  icmpv4 : icmpv4_info;
  igmp : igmp_info;
  tcp : tcp_info;
  udp : udp_info;
  etherip : etherip_info;
  layers : layer_info
}.

Definition set_format (p : packet_info) (x : Z) : packet_info :=
  PacketInfo x (eth p) (vlan p) (snap p) (arp p) (ipv4 p) (ipv6 p) (icmpv4 p) (igmp p) (tcp p) (udp p) (etherip p) (layers p).
Definition set_eth (p : packet_info) (x : ether_info) : packet_info :=
  PacketInfo (format p) x (vlan p) (snap p) (arp p) (ipv4 p) (ipv6 p) (icmpv4 p) (igmp p) (tcp p) (udp p) (etherip p) (layers p).
Definition set_vlan (p : packet_info) (x : vlan_info) : packet_info :=
  PacketInfo (format p) (eth p) x (snap p) (arp p) (ipv4 p) (ipv6 p) (icmpv4 p) (igmp p) (tcp p) (udp p) (etherip p) (layers p).
Definition set_snap (p : packet_info) (x : snap_info) : packet_info :=
  PacketInfo (format p) (eth p) (vlan p) x (arp p) (ipv4 p) (ipv6 p) (icmpv4 p) (igmp p) (tcp p) (udp p) (etherip p) (layers p).
Definition set_arp (p : packet_info) (x : arp_info) : packet_info :=
  PacketInfo (format p) (eth p) (vlan p) (snap p) x (ipv4 p) (ipv6 p) (icmpv4 p) (igmp p) (tcp p) (udp p) (etherip p) (layers p).
Definition set_ipv4 (p : packet_info) (x : ipv4_info) : packet_info :=
  PacketInfo (format p) (eth p) (vlan p) (snap p) (arp p) x (ipv6 p) (icmpv4 p) (igmp p) (tcp p) (udp p) (etherip p) (layers p).
Definition set_ipv6 (p : packet_info) (x : ipv6_info) : packet_info :=
  PacketInfo (format p) (eth p) (vlan p) (snap p) (arp p) (ipv4 p) x (icmpv4 p) (igmp p) (tcp p) (udp p) (etherip p) (layers p).
Definition set_icmpv4 (p : packet_info) (x : icmpv4_info) : packet_info :=
  PacketInfo (format p) (eth p) (vlan p) (snap p) (arp p) (ipv4 p) (ipv6 p) x (igmp p) (tcp p) (udp p) (etherip p) (layers p).
Definition set_igmp (p : packet_info) (x : igmp_info) : packet_info :=
  PacketInfo (format p) (eth p) (vlan p) (snap p) (arp p) (ipv4 p) (ipv6 p) (icmpv4 p) x (tcp p) (udp p) (etherip p) (layers p).
Definition set_tcp (p : packet_info) (x : tcp_info) : packet_info :=
  PacketInfo (format p) (eth p) (vlan p) (snap p) (arp p) (ipv4 p) (ipv6 p) (icmpv4 p) (igmp p) x (udp p) (etherip p) (layers p).
Definition set_udp (p : packet_info) (x : udp_info) : packet_info :=
  PacketInfo (format p) (eth p) (vlan p) (snap p) (arp p) (ipv4 p) (ipv6 p) (icmpv4 p) (igmp p) (tcp p) x (etherip p) (layers p).
Definition set_etherip (p : packet_info) (x : etherip_info) : packet_info :=
  PacketInfo (format p) (eth p) (vlan p) (snap p) (arp p) (ipv4 p) (ipv6 p) (icmpv4 p) (igmp p) (tcp p) (udp p) x (layers p).
Definition set_layers (p : packet_info) (x : layer_info) : packet_info :=
  PacketInfo (format p) (eth p) (vlan p) (snap p) (arp p) (ipv4 p) (ipv6 p) (icmpv4 p) (igmp p) (tcp p) (udp p) (etherip p) x.

(** [packet_info->format |= f] *)
Definition add_format (p : packet_info) (f : Z) : packet_info := set_format p (Z.lor (format p) f).

(** [calloc_packet_info]: every byte is 0. *)
Definition calloc_packet_info : packet_info :=
  PacketInfo 0
    (EtherInfo (zeros 6) (zeros 6) 0)
    (VlanInfo 0 0 0 0 0)
    (SnapInfo (zeros 3) (zeros 3) 0)
    (ArpInfo 0 0 0 0 0 (zeros 6) 0 (zeros 6) 0)
    (Ipv4Info 0 0 0 0 0 0 0 0 0 0 0)
    (Ipv6Info 0 0 0 0 0 0 (zeros 16) (zeros 16))
    (Icmpv4Info 0 0 0 0 0 0)
    (IgmpInfo 0 0 0 0)
    (TcpInfo 0 0 0 0 0 0 0 0 0)
    (UdpInfo 0 0 0 0)
    (EtheripInfo 0 0)
    (LayerInfo None None 0 None None 0 None None 0).

(** * Predicates

    [frame] is a [const buffer *]: [None] is NULL, [Some user_data] a buffer. *)

Abbreviation frame := (option (option packet_info)).

Definition die_if_NULL {A} (p : option A) : res A :=
  match p with Some a => Ok a | None => Fault Died end.

Definition get_packet_info (f : frame) : res packet_info :=
  let* user_data := die_if_NULL f in
  match user_data with
  | Some info => Ok info
  | None => Ok calloc_packet_info
  end.

Definition free_packet_info (f : frame) : res frame :=
  let* user_data := die_if_NULL f in
  let* _ := die_if_NULL user_data in
  Ok (Some None).

Definition if_packet_type (f : frame) (type : Z) : res bool :=
  let* info := get_packet_info f in Ok (Z.land (format info) type =? type).

Definition if_arp_opcode (f : frame) (opcode : Z) : res bool :=
  let* info := get_packet_info f in Ok (arp_ar_op (arp info) =? opcode).

Definition if_icmpv4_type (f : frame) (type : Z) : res bool :=
  let* info := get_packet_info f in Ok (icmpv4_type (icmpv4 info) =? type).

Definition if_igmp_type (f : frame) (type : Z) : res bool :=
  let* info := get_packet_info f in Ok (igmp_type (igmp info) =? type).

Definition packet_type_eth_dix (f : frame) : res bool := if_packet_type f ETH_DIX.
Definition packet_type_eth_vtag (f : frame) : res bool := if_packet_type f ETH_8021Q.
Definition packet_type_eth_raw (f : frame) : res bool := if_packet_type f ETH_8023_RAW.
Definition packet_type_eth_llc (f : frame) : res bool := if_packet_type f ETH_8023_LLC.
Definition packet_type_ether (f : frame) : res bool :=
  let* a := if_packet_type f ETH_DIX in
  let* b := if_packet_type f ETH_8023_RAW in
  let* c := if_packet_type f ETH_8023_LLC in
  let* d := if_packet_type f ETH_8023_SNAP in
  Ok (a || b || c || d).
Definition packet_type_eth_snap (f : frame) : res bool := if_packet_type f ETH_8023_SNAP.
Definition packet_type_arp (f : frame) : res bool := if_packet_type f NW_ARP.
Definition packet_type_rarp (f : frame) : res bool := if_packet_type f NW_RARP.
Definition packet_type_ipv4 (f : frame) : res bool := if_packet_type f NW_IPV4.
Definition packet_type_ipv6 (f : frame) : res bool := if_packet_type f NW_IPV6.
Definition packet_type_lldp (f : frame) : res bool := if_packet_type f NW_LLDP.
Definition packet_type_icmpv4 (f : frame) : res bool := if_packet_type f NW_ICMPV4.
Definition packet_type_igmp (f : frame) : res bool := if_packet_type f NW_IGMP.
Definition packet_type_ipv4_tcp (f : frame) : res bool := if_packet_type f (Z.lor NW_IPV4 TP_TCP).
Definition packet_type_ipv6_tcp (f : frame) : res bool := if_packet_type f (Z.lor NW_IPV6 TP_TCP).
Definition packet_type_ipv4_udp (f : frame) : res bool := if_packet_type f (Z.lor NW_IPV4 TP_UDP).
Definition packet_type_ipv6_udp (f : frame) : res bool := if_packet_type f (Z.lor NW_IPV6 TP_UDP).
Definition packet_type_ipv4_etherip (f : frame) : res bool := if_packet_type f (Z.lor NW_IPV4 TP_ETHERIP).
Definition packet_type_arp_request (f : frame) : res bool :=
  let* a := if_packet_type f NW_ARP in
  let* b := if_arp_opcode f ARP_OP_REQUEST in
  Ok (a && b).
Definition packet_type_arp_reply (f : frame) : res bool :=
  let* a := if_packet_type f NW_ARP in
  let* b := if_arp_opcode f ARP_OP_REPLY in
  Ok (a && b).
Definition packet_type_rarp_request (f : frame) : res bool :=
  let* a := if_packet_type f NW_RARP in
  let* b := if_arp_opcode f ARP_OP_RREQUEST in
  Ok (a && b).
Definition packet_type_rarp_reply (f : frame) : res bool :=
  let* a := if_packet_type f NW_RARP in
  let* b := if_arp_opcode f ARP_OP_RREPLY in
  Ok (a && b).
Definition packet_type_icmpv4_echo_reply (f : frame) : res bool :=
  let* a := if_packet_type f NW_ICMPV4 in
  let* b := if_icmpv4_type f ICMP_TYPE_ECHOREP in
  Ok (a && b).
Definition packet_type_icmpv4_dst_unreach (f : frame) : res bool :=
  let* a := if_packet_type f NW_ICMPV4 in
  let* b := if_icmpv4_type f ICMP_TYPE_UNREACH in
  Ok (a && b).
Definition packet_type_icmpv4_redirect (f : frame) : res bool :=
  let* a := if_packet_type f NW_ICMPV4 in
  let* b := if_icmpv4_type f ICMP_TYPE_REDIRECT in
  Ok (a && b).
Definition packet_type_icmpv4_echo_request (f : frame) : res bool :=
  let* a := if_packet_type f NW_ICMPV4 in
  let* b := if_icmpv4_type f ICMP_TYPE_ECHOREQ in
  Ok (a && b).
Definition packet_type_igmp_membership_query (f : frame) : res bool :=
  let* a := if_packet_type f NW_IGMP in
  let* b := if_igmp_type f IGMP_TYPE_MEMBERSHIP_QUERY in
  Ok (a && b).
Definition packet_type_igmp_v1_membership_report (f : frame) : res bool :=
  let* a := if_packet_type f NW_IGMP in
  let* b := if_igmp_type f IGMP_TYPE_V1_MEMBERSHIP_REPORT in
  Ok (a && b).
Definition packet_type_igmp_v2_membership_report (f : frame) : res bool :=
  let* a := if_packet_type f NW_IGMP in
  let* b := if_igmp_type f IGMP_TYPE_V2_MEMBERSHIP_REPORT in
  Ok (a && b).
Definition packet_type_igmp_v2_leave_group (f : frame) : res bool :=
  let* a := if_packet_type f NW_IGMP in
  let* b := if_igmp_type f IGMP_TYPE_V2_LEAVE_GROUP in
  Ok (a && b).
Definition packet_type_igmp_v3_membership_report (f : frame) : res bool :=
  let* a := if_packet_type f NW_IGMP in
  let* b := if_igmp_type f IGMP_TYPE_V3_MEMBERSHIP_REPORT in
  Ok (a && b).
