(* ===== verification/PacketParser.v ===== *)
(** packet_parser.c: the headers of an Ethernet frame.

    [m] is the data of the buffer; a pointer into it is an offset, and the
    length that remains after it is [blen m - ptr].  Each function of the
    parser fills its part of the [packet_info]. *)

From Stdlib Require Import ZArith Lia Bool.
From coqutil Require Import Byte.
From stdpp Require Import base list.
From S2P Require Import Prelude Memory Codes PacketInfo.

Definition ETH_MTU : Z := 1518 - 14 - 4.
Definition IPPROTO_IGMP : Z := 2.
Definition IP_OFFMASK : Z := 0x1fff.

Definition TCI_GET_PRIO (tci : Z) : Z := u8 (Z.land (Z.shiftr tci 13) 7).
Definition TCI_GET_CFI (tci : Z) : Z := u8 (Z.land (Z.shiftr tci 12) 1).
Definition TCI_GET_VID (tci : Z) : Z := u16 (Z.land tci 0x0fff).

Definition sizeof_ether_header : Z := 14.
Definition sizeof_vlantag_header : Z := 4.
Definition sizeof_snap_header : Z := 8.
Definition sizeof_arp_header : Z := 28.
Definition sizeof_ipv4_header : Z := 20.
Definition sizeof_ipv6_header : Z := 40.
Definition sizeof_icmp_header : Z := 8.
Definition sizeof_udp_header : Z := 8.
Definition sizeof_tcp_header : Z := 20.
Definition sizeof_igmp_header : Z := 8.
Definition sizeof_etherip_header : Z := 2.

Section Parser.
Context {host : Host}.
Implicit Types (m : bytes) (p : packet_info) (ptr : Z).

Definition REMAINED_BUFFER_LENGTH m ptr : Z := u64 (blen m - ptr).

(** [assert( ptr != NULL )] *)
Definition assert_ptr (ptr : option Z) : res Z :=
  match ptr with Some ptr => Ok ptr | None => Fault AssertFailed end.

Definition set_eth_type p type : packet_info :=
  set_eth p (EtherInfo (eth_macda (eth p)) (eth_macsa (eth p)) type).

(** The payload of a layer, when there is one. *)
Definition set_l2_payload p ptr n : packet_info :=
  let l := layers p in
  set_layers p (LayerInfo (l2_header l) (Some ptr) n (l3_header l) (l3_payload l) (l3_payload_length l)
    (l4_header l) (l4_payload l) (l4_payload_length l)).
Definition set_l3_payload p ptr n : packet_info :=
  let l := layers p in
  set_layers p (LayerInfo (l2_header l) (l2_payload l) (l2_payload_length l) (l3_header l) (Some ptr) n
    (l4_header l) (l4_payload l) (l4_payload_length l)).
Definition set_l4_payload p ptr n : packet_info :=
  let l := layers p in
  set_layers p (LayerInfo (l2_header l) (l2_payload l) (l2_payload_length l) (l3_header l) (l3_payload l)
    (l3_payload_length l) (l4_header l) (Some ptr) n).
Definition set_l2_header p (ptr : option Z) : packet_info :=
  let l := layers p in
  set_layers p (LayerInfo ptr (l2_payload l) (l2_payload_length l) (l3_header l) (l3_payload l)
    (l3_payload_length l) (l4_header l) (l4_payload l) (l4_payload_length l)).
Definition set_l3_header p (ptr : option Z) : packet_info :=
  let l := layers p in
  set_layers p (LayerInfo (l2_header l) (l2_payload l) (l2_payload_length l) ptr (l3_payload l)
    (l3_payload_length l) (l4_header l) (l4_payload l) (l4_payload_length l)).
Definition set_l4_header p (ptr : option Z) : packet_info :=
  let l := layers p in
  set_layers p (LayerInfo (l2_header l) (l2_payload l) (l2_payload_length l) (l3_header l) (l3_payload l)
    (l3_payload_length l) ptr (l4_payload l) (l4_payload_length l)).

(** The [while] loop over nested tags; [None] is the [return] inside it. *)
Fixpoint skip_vlan (fuel : nat) m p ptr : res (packet_info * option Z) :=
  match fuel with
  | O => Fault OutOfFuel
  | S fuel =>
    if eth_type (eth p) =? ETH_ETHTYPE_TPID then
      if REMAINED_BUFFER_LENGTH m ptr <? sizeof_vlantag_header then Ok (p, None)
      else
        let* type := ld_ntoh 2 m (ptr + 2) in
        skip_vlan fuel m (set_eth_type p type) (ptr + sizeof_vlantag_header)
    else Ok (p, Some ptr)
  end.

(** The tags, when [type] says there are. *)
Definition parse_vlan m p ptr type : res (packet_info * option Z) :=
  if type =? ETH_ETHTYPE_TPID then
    if REMAINED_BUFFER_LENGTH m ptr <? sizeof_vlantag_header then Ok (p, None)
    else
      let* tci := ld_ntoh 2 m ptr in
      let p := set_vlan p (VlanInfo tci type (TCI_GET_PRIO tci) (TCI_GET_CFI tci) (TCI_GET_VID tci)) in
      let* type := ld_ntoh 2 m (ptr + 2) in
      let p := add_format (set_eth_type p type) ETH_8021Q in
      skip_vlan (S (length m)) m p (ptr + sizeof_vlantag_header)
  else Ok (p, Some ptr).

(** The SNAP header and the payload, after the tags. *)
Definition parse_ether_payload m p ptr : res packet_info :=
  let* next :=
    if eth_type (eth p) <=? ETH_MTU then
      if REMAINED_BUFFER_LENGTH m ptr <? sizeof_snap_header then Ok (p, None)
      else
        let* llc := ld_bytes m ptr 3 in
        let* oui := ld_bytes m (ptr + 3) 3 in
        let* type := ld_ntoh 2 m (ptr + 6) in
        Ok (add_format (set_snap p (SnapInfo llc oui type)) ETH_8023_SNAP,
            Some (ptr + sizeof_snap_header))
    else Ok (add_format p ETH_DIX, Some ptr) in
  match next with
  | (p, None) => Ok p
  | (p, Some ptr) =>
    let payload_length := REMAINED_BUFFER_LENGTH m ptr in
    if 0 <? payload_length then Ok (set_l2_payload p ptr payload_length) else Ok p
  end.

Definition parse_ether m p : res packet_info :=
  let* ptr := assert_ptr (l2_header (layers p)) in
  if REMAINED_BUFFER_LENGTH m ptr <? sizeof_ether_header then Ok p
  else
    let* macsa := ld_bytes m (ptr + 6) 6 in
    let* macda := ld_bytes m ptr 6 in
    let* type := ld_ntoh 2 m (ptr + 12) in
    let p := set_eth p (EtherInfo macda macsa type) in
    let ptr := ptr + sizeof_ether_header in
    let* next := parse_vlan m p ptr type in
    match next with
    | (p, None) => Ok p
    | (p, Some ptr) => parse_ether_payload m p ptr
    end.

Definition parse_arp m p (f : Z) : res packet_info :=
  let* ptr := assert_ptr (l3_header (layers p)) in
  if REMAINED_BUFFER_LENGTH m ptr <? sizeof_arp_header then Ok p
  else
    let* hrd := ld_ntoh 2 m ptr in
    let* pro := ld_ntoh 2 m (ptr + 2) in
    let* hln := ld8 m (ptr + 4) in
    let* pln := ld8 m (ptr + 5) in
    let* op := ld_ntoh 2 m (ptr + 6) in
    let* sha := ld_bytes m (ptr + 8) 6 in
    let* sip := ld_ntoh 4 m (ptr + 14) in
    let* tha := ld_bytes m (ptr + 18) 6 in
    let* tip := ld_ntoh 4 m (ptr + 24) in
    Ok (add_format (set_arp p (ArpInfo hrd pro hln pln op sha sip tha tip)) f).

(** The bit-fields [version] and [ihl] are the high and the low half of the
    first byte on hosts of either byte order. *)
Definition parse_ipv4 m p : res packet_info :=
  let* ptr := assert_ptr (l3_header (layers p)) in
  let length := REMAINED_BUFFER_LENGTH m ptr in
  if length <? sizeof_ipv4_header then Ok p
  else
    let* b := ld8 m ptr in
    let version := Z.shiftr b 4 in
    let ihl := Z.land b 15 in
    if ihl <? 5 then Ok p
    else if length <? ihl * 4 then Ok p
    else
      let* tos := ld8 m (ptr + 1) in
      let* tot_len := ld_ntoh 2 m (ptr + 2) in
      let* id := ld_ntoh 2 m (ptr + 4) in
      let* frag_off := ld_ntoh 2 m (ptr + 6) in
      let* ttl := ld8 m (ptr + 8) in
      let* protocol := ld8 m (ptr + 9) in
      let* csum := ld_ntoh 2 m (ptr + 10) in
      let* saddr := ld_ntoh 4 m (ptr + 12) in
      let* daddr := ld_ntoh 4 m (ptr + 16) in
      let p := set_ipv4 p (Ipv4Info version ihl tos tot_len id frag_off ttl protocol csum saddr daddr) in
      let ptr := ptr + ihl * 4 in
      let payload_length := REMAINED_BUFFER_LENGTH m ptr in
      let p := if 0 <? payload_length then set_l3_payload p ptr payload_length else p in
      Ok (add_format p NW_IPV4).

Definition parse_ipv6 m p : res packet_info :=
  let* ptr := assert_ptr (l3_header (layers p)) in
  if REMAINED_BUFFER_LENGTH m ptr <? sizeof_ipv6_header then Ok p
  else
    let* hdrctl := ld_ntoh 4 m ptr in
    let version := u8 (Z.shiftr hdrctl 28) in
    let tc := u8 (Z.land (Z.shiftr hdrctl 20) 0xff) in
    let flowlabel := Z.land hdrctl 0xfffff in
    let* plen := ld_ntoh 2 m (ptr + 4) in
    let* nexthdr := ld8 m (ptr + 6) in
    let* hoplimit := ld8 m (ptr + 7) in
    let* saddr := ld_bytes m (ptr + 8) 16 in
    let* daddr := ld_bytes m (ptr + 24) 16 in
    Ok (add_format (set_ipv6 p (Ipv6Info version tc flowlabel plen nexthdr hoplimit saddr daddr)) NW_IPV6).

Definition parse_lldp m p : res packet_info :=
  let* ptr := assert_ptr (l3_header (layers p)) in
  let payload_length := REMAINED_BUFFER_LENGTH m ptr in
  let p := if 0 <? payload_length then set_l3_payload p ptr payload_length else p in
  Ok (add_format p NW_LLDP).

(** The end of a header of the transport layer: payload and format. *)
Definition l4_end m p ptr (f : Z) : packet_info :=
  let payload_length := REMAINED_BUFFER_LENGTH m ptr in
  add_format (if 0 <? payload_length then set_l4_payload p ptr payload_length else p) f.

Definition parse_icmp m p : res packet_info :=
  let* ptr := assert_ptr (l4_header (layers p)) in
  if REMAINED_BUFFER_LENGTH m ptr <? sizeof_icmp_header then Ok p
  else
    let* type := ld8 m ptr in
    let* code := ld8 m (ptr + 1) in
    let* csum := ld_ntoh 2 m (ptr + 2) in
    let i := icmpv4 p in
    let* i :=
      if (type =? ICMP_TYPE_ECHOREP) || (type =? ICMP_TYPE_ECHOREQ) then
        let* ident := ld_ntoh 2 m (ptr + 4) in
        let* seq := ld_ntoh 2 m (ptr + 6) in
        Ok (Icmpv4Info type code csum ident seq (icmpv4_gateway i))
      else if type =? ICMP_TYPE_REDIRECT then
        let* gateway := ld_ntoh 4 m (ptr + 4) in
        Ok (Icmpv4Info type code csum (icmpv4_id i) (icmpv4_seq i) gateway)
      else Ok (Icmpv4Info type code csum (icmpv4_id i) (icmpv4_seq i) (icmpv4_gateway i)) in
    Ok (l4_end m (set_icmpv4 p i) (ptr + sizeof_icmp_header) NW_ICMPV4).

Definition parse_udp m p : res packet_info :=
  let* ptr := assert_ptr (l4_header (layers p)) in
  if REMAINED_BUFFER_LENGTH m ptr <? sizeof_udp_header then Ok p
  else
    let* src_port := ld_ntoh 2 m ptr in
    let* dst_port := ld_ntoh 2 m (ptr + 2) in
    let* len := ld_ntoh 2 m (ptr + 4) in
    let* csum := ld_ntoh 2 m (ptr + 6) in
    Ok (l4_end m (set_udp p (UdpInfo src_port dst_port len csum)) (ptr + sizeof_udp_header) TP_UDP).

(** [offset] is the high half of its byte on hosts of either byte order. *)
Definition parse_tcp m p : res packet_info :=
  let* ptr := assert_ptr (l4_header (layers p)) in
  let length := REMAINED_BUFFER_LENGTH m ptr in
  if length <? sizeof_tcp_header then Ok p
  else
    let* b := ld8 m (ptr + 12) in
    let offset := Z.shiftr b 4 in
    if offset <? 5 then Ok p
    else if length <? offset * 4 then Ok p
    else
      let* src_port := ld_ntoh 2 m ptr in
      let* dst_port := ld_ntoh 2 m (ptr + 2) in
      let* seq_no := ld_ntoh 4 m (ptr + 4) in
      let* ack_no := ld_ntoh 4 m (ptr + 8) in
      let* flags := ld8 m (ptr + 13) in
      let* window := ld_ntoh 2 m (ptr + 14) in
      let* csum := ld_ntoh 2 m (ptr + 16) in
      let* urgent := ld_ntoh 2 m (ptr + 18) in
      Ok (l4_end m (set_tcp p (TcpInfo src_port dst_port seq_no ack_no offset flags window csum urgent))
            (ptr + offset * 4) TP_TCP).

Definition parse_igmp m p : res packet_info :=
  let* ptr := assert_ptr (l4_header (layers p)) in
  if REMAINED_BUFFER_LENGTH m ptr <? sizeof_igmp_header then Ok p
  else
    let* type := ld8 m ptr in
    let* code := ld8 m (ptr + 1) in
    let* csum := ld_ntoh 2 m (ptr + 2) in
    let* group := ld_ntoh 4 m (ptr + 4) in
    Ok (add_format (set_igmp p (IgmpInfo type code csum group)) NW_IGMP).

Definition parse_etherip m p : res packet_info :=
  let* ptr := assert_ptr (l4_header (layers p)) in
  if REMAINED_BUFFER_LENGTH m ptr <? sizeof_etherip_header then Ok p
  else
    let* version := ld_ntoh 2 m ptr in
    let ptr := ptr + sizeof_etherip_header in
    let payload_length := REMAINED_BUFFER_LENGTH m ptr in
    if 0 <? payload_length
    then Ok (add_format (set_etherip (set_l4_payload p ptr payload_length) (EtheripInfo version (u16 ptr))) TP_ETHERIP)
    else Ok (add_format (set_etherip p (EtheripInfo version 0)) TP_ETHERIP).

(** The [switch] on the protocol of the network layer; [None] is [default]. *)
Definition parse_l3 m p : res (option packet_info) :=
  let type := eth_type (eth p) in
  let p := set_l3_header p (l2_payload (layers p)) in
  if type =? ETH_ETHTYPE_ARP then let* p := parse_arp m p NW_ARP in Ok (Some p)
  else if type =? ETH_ETHTYPE_RARP then let* p := parse_arp m p NW_RARP in Ok (Some p)
  else if type =? ETH_ETHTYPE_IPV4 then let* p := parse_ipv4 m p in Ok (Some p)
  else if type =? ETH_ETHTYPE_IPV6 then let* p := parse_ipv6 m p in Ok (Some p)
  else if type =? ETH_ETHTYPE_LLDP then let* p := parse_lldp m p in Ok (Some p)
  else Ok None.

Definition parse_l4 m p : res packet_info :=
  let protocol := ipv4_protocol (ipv4 p) in
  let q := set_l4_header p (l3_payload (layers p)) in
  if protocol =? IPPROTO_ICMP then parse_icmp m q
  else if protocol =? IPPROTO_TCP then parse_tcp m q
  else if protocol =? IPPROTO_UDP then parse_udp m q
  else if protocol =? IPPROTO_IGMP then parse_igmp m q
  else if protocol =? IPPROTO_ETHERIP then parse_etherip m q
  else Ok p.

(** [buf->data] is not NULL and the allocation succeeds: the result is
    [true] and the new [user_data]. *)
Definition parse_packet m : res packet_info :=
  let p := set_l2_header calloc_packet_info (Some 0) in
  let* p := parse_ether m p in
  let* l3 := parse_l3 m p in
  match l3 with
  | None => Ok p
  | Some p =>
    if Z.land (format p) NW_IPV4 =? 0 then Ok p
    else if negb (Z.land (ipv4_frag_off (ipv4 p)) IP_OFFMASK =? 0) then Ok p
    else parse_l4 m p
  end.
End Parser.

(** * Bounds

    The parser reads inside the frame only, and the pointers it leaves point
    into the frame with the length that remains there. *)

Definition header_in (m : bytes) (ptr : option Z) : Prop :=
  match ptr with Some ptr => 0 <= ptr <= blen m | None => True end.

Definition payload_in (m : bytes) (ptr : option Z) (n : Z) : Prop :=
  match ptr with Some ptr => 0 <= ptr /\ 0 < n /\ ptr + n = blen m | None => n = 0 end.

Record layers_in (m : bytes) (p : packet_info) : Prop := {
  in_l2_header : header_in m (l2_header (layers p));
  in_l2_payload : payload_in m (l2_payload (layers p)) (l2_payload_length (layers p));
  in_l3_header : header_in m (l3_header (layers p));
  in_l3_payload : payload_in m (l3_payload (layers p)) (l3_payload_length (layers p));
  in_l4_header : header_in m (l4_header (layers p));
  in_l4_payload : payload_in m (l4_payload (layers p)) (l4_payload_length (layers p))
}.

(** A result that satisfies [Q], or a failed assertion. *)
Definition safe {A} (Q : A -> Prop) (r : res A) : Prop :=
  match r with Ok a => Q a | Fault AssertFailed => True | Fault _ => False end.

Lemma safe_bind {A B} (Q : A -> Prop) (R : B -> Prop) (r : res A) (k : A -> res B) :
  safe Q r -> (forall a, Q a -> safe R (k a)) -> safe R (bind r k).
Proof. destruct r as [a | []]; cbn; auto. Qed.

Section Safety.
Context {host : Host} (m : bytes) (Hm : blen m < 2 ^ 64).
Implicit Types (p : packet_info) (ptr : Z).

Lemma remained ptr : 0 <= ptr <= blen m -> REMAINED_BUFFER_LENGTH m ptr = blen m - ptr.
Proof. intros H. unfold REMAINED_BUFFER_LENGTH, u64. apply Z.mod_small. lia. Qed.

Lemma safe_ld n off {A} (Q : A -> Prop) (k : Z -> res A) :
  0 <= off -> off + Z.of_nat n <= blen m -> (forall x, fits n x -> safe Q (k x)) ->
  safe Q (bind (ld n m off) k).
Proof.
  intros H0 H1 Hk. destruct (ld n m off) as [x | f] eqn:E; [| by rewrite ld_in in E].
  bind_ok. apply Hk. by eapply ld_fits.
Qed.

Lemma safe_ld_ntoh n off {A} (Q : A -> Prop) (k : Z -> res A) :
  0 <= off -> off + Z.of_nat n <= blen m -> (forall x, fits n x -> safe Q (k x)) ->
  safe Q (bind (ld_ntoh n m off) k).
Proof.
  intros H0 H1 Hk. unfold ld_ntoh. rewrite bind_bind. apply safe_ld; [done | done |]. intros x Hx.
  bind_ok. apply Hk. by apply ntoh_range.
Qed.

Lemma safe_ld_bytes n off {A} (Q : A -> Prop) (k : bytes -> res A) :
  0 <= off -> off + Z.of_nat n <= blen m -> (forall bs, safe Q (k bs)) -> safe Q (bind (ld_bytes m off n) k).
Proof. intros H0 H1 Hk. rewrite ld_bytes_in by done. bind_ok. apply Hk. Qed.

Lemma safe_assert_ptr o {A} (Q : A -> Prop) (k : Z -> res A) :
  header_in m o -> (forall ptr, 0 <= ptr <= blen m -> safe Q (k ptr)) -> safe Q (bind (assert_ptr o) k).
Proof. destruct o as [ptr |]; cbn; auto. Qed.

(** Parts of a [packet_info] other than the layers do not matter. *)
Lemma layers_in_eq p q : layers p = layers q -> layers_in m p -> layers_in m q.
Proof. intros E []. split; by rewrite <- E. Qed.

Lemma layers_in_l2 p ptr n : layers_in m p -> payload_in m (Some ptr) n -> layers_in m (set_l2_payload p ptr n).
Proof. intros [] H. by split. Qed.
Lemma layers_in_l3 p ptr n : layers_in m p -> payload_in m (Some ptr) n -> layers_in m (set_l3_payload p ptr n).
Proof. intros [] H. by split. Qed.
Lemma layers_in_l4 p ptr n : layers_in m p -> payload_in m (Some ptr) n -> layers_in m (set_l4_payload p ptr n).
Proof. intros [] H. by split. Qed.

Lemma header_of_payload o n : payload_in m o n -> header_in m o.
Proof. destruct o; cbn; lia. Qed.

Ltac safe_step :=
  match goal with
  | |- safe _ (bind (assert_ptr _) _) => apply safe_assert_ptr; [solve [eauto using in_l2_header, in_l3_header, in_l4_header] | intros ? ?]
  | |- safe _ (bind (ld_ntoh _ _ _) _) => apply safe_ld_ntoh; [lia | lia | intros ? ?]
  | |- safe _ (bind (ld _ _ _) _) => apply safe_ld; [lia | lia | intros ? ?]
  | |- safe _ (bind (ld_bytes _ _ _) _) => apply safe_ld_bytes; [lia | lia | intros ?]
  | |- safe _ (bind (Ok _) _) => bind_ok
  | |- safe _ (bind (bind _ _) _) => rewrite bind_bind
  | |- safe _ (if ?a <? ?b then _ else _) => destruct (Z.ltb_spec a b)
  | |- safe _ (bind (if _ then _ else _) _) => case_match
  | |- safe _ (if _ then _ else _) => case_match
  | |- safe _ (Ok _) => cbn [safe]
  end.

Ltac unfold_sizes :=
  unfold sizeof_ether_header, sizeof_vlantag_header, sizeof_snap_header, sizeof_arp_header,
    sizeof_ipv4_header, sizeof_ipv6_header, sizeof_icmp_header, sizeof_udp_header,
    sizeof_tcp_header, sizeof_igmp_header, sizeof_etherip_header in *.

Ltac safe_steps := repeat (cbv zeta; rewrite ?remained in * by lia; unfold_sizes; safe_step).

Lemma parse_arp_safe p f : layers_in m p -> safe (layers_in m) (parse_arp m p f).
Proof. intros H. unfold parse_arp. safe_steps; [done |]. by apply (layers_in_eq p). Qed.

Lemma l4_end_in p ptr f : layers_in m p -> 0 <= ptr <= blen m -> layers_in m (l4_end m p ptr f).
Proof.
  intros H Hp. unfold l4_end. rewrite remained by done. cbv zeta. destruct (Z.ltb_spec 0 (blen m - ptr)).
  - apply (layers_in_eq (set_l4_payload p ptr (blen m - ptr))); [done |]. apply layers_in_l4; [done | cbn; lia].
  - by apply (layers_in_eq p).
Qed.

Lemma l3_end_in p ptr f : layers_in m p -> 0 <= ptr <= blen m ->
  layers_in m (add_format (if 0 <? blen m - ptr then set_l3_payload p ptr (blen m - ptr) else p) f).
Proof.
  intros H Hp. destruct (Z.ltb_spec 0 (blen m - ptr)).
  - apply (layers_in_eq (set_l3_payload p ptr (blen m - ptr))); [done |]. apply layers_in_l3; [done | cbn; lia].
  - by apply (layers_in_eq p).
Qed.

Lemma parse_ipv4_safe p : layers_in m p -> safe (layers_in m) (parse_ipv4 m p).
Proof.
  intros H. unfold parse_ipv4. safe_steps; try done.
  apply l3_end_in; [by apply (layers_in_eq p) | lia].
Qed.

Lemma parse_ipv6_safe p : layers_in m p -> safe (layers_in m) (parse_ipv6 m p).
Proof. intros H. unfold parse_ipv6. safe_steps; [done |]. by apply (layers_in_eq p). Qed.

Lemma parse_lldp_safe p : layers_in m p -> safe (layers_in m) (parse_lldp m p).
Proof. intros H. unfold parse_lldp. safe_steps. by apply l3_end_in. Qed.

Lemma parse_icmp_safe p : layers_in m p -> safe (layers_in m) (parse_icmp m p).
Proof.
  intros H. unfold parse_icmp. safe_steps; try done;
    (apply l4_end_in; [by apply (layers_in_eq p) | lia]).
Qed.

Lemma parse_udp_safe p : layers_in m p -> safe (layers_in m) (parse_udp m p).
Proof. intros H. unfold parse_udp. safe_steps; [done |]. apply l4_end_in; [by apply (layers_in_eq p) | lia]. Qed.

Lemma parse_tcp_safe p : layers_in m p -> safe (layers_in m) (parse_tcp m p).
Proof.
  intros H. unfold parse_tcp. safe_steps; try done.
  apply l4_end_in; [by apply (layers_in_eq p) | lia].
Qed.

Lemma parse_igmp_safe p : layers_in m p -> safe (layers_in m) (parse_igmp m p).
Proof. intros H. unfold parse_igmp. safe_steps; [done |]. by apply (layers_in_eq p). Qed.

Lemma parse_etherip_safe p : layers_in m p -> safe (layers_in m) (parse_etherip m p).
Proof.
  intros H. unfold parse_etherip. safe_steps; try done.
  - eapply layers_in_eq; [| apply layers_in_l4; [exact H |]]; [done | cbn; lia].
  - by apply (layers_in_eq p).
Qed.

(** What the loop over the tags leaves. *)
Definition next_in (r : packet_info * option Z) : Prop :=
  layers_in m r.1 /\ match r.2 with Some ptr => 0 <= ptr <= blen m | None => True end.

Lemma skip_vlan_safe fuel p ptr :
  layers_in m p -> 0 <= ptr <= blen m -> blen m - ptr < 4 * Z.of_nat fuel -> safe next_in (skip_vlan fuel m p ptr).
Proof.
  revert p ptr. induction fuel as [| fuel IH]; intros p ptr H Hp Hf; [lia |]. cbn [skip_vlan].
  safe_steps; try done. apply IH; [by apply (layers_in_eq p) | lia | lia].
Qed.

Lemma parse_ether_payload_safe p ptr :
  layers_in m p -> 0 <= ptr <= blen m -> safe (layers_in m) (parse_ether_payload m p ptr).
Proof.
  intros H Hp. unfold parse_ether_payload. apply (safe_bind next_in).
  - safe_steps; try done; (split; cbn; [by apply (layers_in_eq p) | lia]).
  - intros [q [ptr' |]] [Hq Hp']; cbn in Hq, Hp'; [| done]. rewrite remained by done. cbv zeta.
    destruct (Z.ltb_spec 0 (blen m - ptr')); [| done]. cbn [safe]. apply layers_in_l2; [done | cbn; lia].
Qed.

Lemma parse_vlan_safe p ptr type :
  layers_in m p -> 0 <= ptr <= blen m -> safe next_in (parse_vlan m p ptr type).
Proof.
  intros H Hp. unfold parse_vlan. safe_steps; try done.
  apply skip_vlan_safe; [by apply (layers_in_eq p) | lia |]. unfold blen in *. lia.
Qed.

Lemma parse_ether_safe p : layers_in m p -> safe (layers_in m) (parse_ether m p).
Proof.
  intros H. unfold parse_ether. safe_steps; [done |]. apply (safe_bind next_in).
  - apply parse_vlan_safe; [by apply (layers_in_eq p) | lia].
  - intros [q [ptr' |]] [Hq Hp']; cbn in Hq, Hp'; [by apply parse_ether_payload_safe | done].
Qed.

Lemma layers_in_l3_header p : layers_in m p -> layers_in m (set_l3_header p (l2_payload (layers p))).
Proof. intros []. split; try done. by eapply header_of_payload. Qed.

Lemma layers_in_l4_header p : layers_in m p -> layers_in m (set_l4_header p (l3_payload (layers p))).
Proof. intros []. split; try done. by eapply header_of_payload. Qed.

Lemma parse_l3_safe p :
  layers_in m p -> safe (fun o => match o with Some q => layers_in m q | None => True end) (parse_l3 m p).
Proof.
  intros H%layers_in_l3_header. unfold parse_l3. cbv zeta.
  repeat case_match; try done; eapply safe_bind;
    eauto using parse_arp_safe, parse_ipv4_safe, parse_ipv6_safe, parse_lldp_safe.
Qed.

Lemma parse_l4_safe p : layers_in m p -> safe (layers_in m) (parse_l4 m p).
Proof.
  intros H. pose proof (layers_in_l4_header p H). unfold parse_l4. cbv zeta.
  repeat case_match; eauto using parse_icmp_safe, parse_tcp_safe, parse_udp_safe, parse_igmp_safe, parse_etherip_safe.
Qed.

Lemma parse_packet_safe : safe (layers_in m) (parse_packet m).
Proof.
  unfold parse_packet. cbv zeta. eapply safe_bind.
  - apply parse_ether_safe. split; cbn; try done. pose proof (blen_nonneg m). lia.
  - intros p Hp. eapply safe_bind; [by apply parse_l3_safe |]. intros [q |] Hq; [| done].
    repeat case_match; try done. by apply parse_l4_safe.
Qed.
End Safety.

(** C33. Safety: whatever the bytes of the frame, [parse_packet] reads only
    inside it and terminates; either it fails one of its assertions, or every
    header and payload pointer it leaves points into the frame, each payload
    is not empty and its length is what remains of the frame there. *)
Theorem parse_packet_bounds {host : Host} m :
  blen m < 2 ^ 64 ->
  parse_packet m = Fault AssertFailed \/ exists p, parse_packet m = Ok p /\ layers_in m p.
Proof.
  intros Hm. pose proof (parse_packet_safe m Hm) as H. destruct (parse_packet m) as [p | []]; cbn in H; eauto; done.
Qed.

(** * Frames on the wire *)

Definition wire_arp (a : arp_info) : bytes :=
  be_encode 2 (arp_ar_hrd a) ++ be_encode 2 (arp_ar_pro a) ++ be_encode 1 (arp_ar_hln a) ++
  be_encode 1 (arp_ar_pln a) ++ be_encode 2 (arp_ar_op a) ++ arp_sha a ++ be_encode 4 (arp_spa a) ++
  arp_tha a ++ be_encode 4 (arp_tpa a).

Definition wire_ipv4 (i : ipv4_info) : bytes :=
  be_encode 1 (ipv4_version i * 16 + ipv4_ihl i) ++ be_encode 1 (ipv4_tos i) ++
  be_encode 2 (ipv4_tot_len i) ++ be_encode 2 (ipv4_id i) ++ be_encode 2 (ipv4_frag_off i) ++
  be_encode 1 (ipv4_ttl i) ++ be_encode 1 (ipv4_protocol i) ++ be_encode 2 (ipv4_checksum i) ++
  be_encode 4 (ipv4_saddr i) ++ be_encode 4 (ipv4_daddr i).

Definition wire_tcp (t : tcp_info) : bytes :=
  be_encode 2 (tcp_src_port t) ++ be_encode 2 (tcp_dst_port t) ++ be_encode 4 (tcp_seq_no t) ++
  be_encode 4 (tcp_ack_no t) ++ be_encode 1 (tcp_offset t * 16) ++ be_encode 1 (tcp_flags t) ++
  be_encode 2 (tcp_window t) ++ be_encode 2 (tcp_checksum t) ++ be_encode 2 (tcp_urgent t).

Definition wire_udp (u : udp_info) : bytes :=
  be_encode 2 (udp_src_port u) ++ be_encode 2 (udp_dst_port u) ++ be_encode 2 (udp_len u) ++
  be_encode 2 (udp_checksum u).

Definition icmp_echo (i : icmpv4_info) : bool :=
  (icmpv4_type i =? ICMP_TYPE_ECHOREP) || (icmpv4_type i =? ICMP_TYPE_ECHOREQ).

Definition wire_icmp (i : icmpv4_info) : bytes :=
  be_encode 1 (icmpv4_type i) ++ be_encode 1 (icmpv4_code i) ++ be_encode 2 (icmpv4_checksum i) ++
  (if icmp_echo i then be_encode 2 (icmpv4_id i) ++ be_encode 2 (icmpv4_seq i)
   else be_encode 4 (icmpv4_gateway i)).

Record wf_arp (a : arp_info) : Prop := {
  wf_hrd : fits 2 (arp_ar_hrd a); wf_pro : fits 2 (arp_ar_pro a); wf_hln : fits 1 (arp_ar_hln a);
  wf_pln : fits 1 (arp_ar_pln a); wf_op : fits 2 (arp_ar_op a); wf_sha : length (arp_sha a) = 6%nat;
  wf_spa : fits 4 (arp_spa a); wf_tha : length (arp_tha a) = 6%nat; wf_tpa : fits 4 (arp_tpa a)
}.

Record wf_ipv4 (i : ipv4_info) (options : bytes) : Prop := {
  wf_version : 0 <= ipv4_version i < 16; wf_ihl : 5 <= ipv4_ihl i < 16;
  wf_options : blen options = ipv4_ihl i * 4 - 20;
  wf_tos : fits 1 (ipv4_tos i); wf_tot_len : fits 2 (ipv4_tot_len i); wf_id : fits 2 (ipv4_id i);
  wf_frag_off : fits 2 (ipv4_frag_off i); wf_ttl : fits 1 (ipv4_ttl i);
  wf_protocol : fits 1 (ipv4_protocol i); wf_csum : fits 2 (ipv4_checksum i);
  wf_saddr : fits 4 (ipv4_saddr i); wf_daddr : fits 4 (ipv4_daddr i)
}.

Record wf_tcp (t : tcp_info) (options : bytes) : Prop := {
  wf_tcp_src : fits 2 (tcp_src_port t); wf_tcp_dst : fits 2 (tcp_dst_port t);
  wf_seq : fits 4 (tcp_seq_no t); wf_ack : fits 4 (tcp_ack_no t); wf_offset : 5 <= tcp_offset t < 16;
  wf_tcp_options : blen options = tcp_offset t * 4 - 20; wf_flags : fits 1 (tcp_flags t);
  wf_window : fits 2 (tcp_window t); wf_tcp_csum : fits 2 (tcp_checksum t); wf_urgent : fits 2 (tcp_urgent t)
}.

Record wf_udp (u : udp_info) : Prop := {
  wf_udp_src : fits 2 (udp_src_port u); wf_udp_dst : fits 2 (udp_dst_port u);
  wf_udp_len : fits 2 (udp_len u); wf_udp_csum : fits 2 (udp_checksum u)
}.

(** Fields that the type of the message does not use are 0. *)
Record wf_icmp (i : icmpv4_info) : Prop := {
  wf_icmp_type : fits 1 (icmpv4_type i); wf_icmp_code : fits 1 (icmpv4_code i);
  wf_icmp_csum : fits 2 (icmpv4_checksum i); wf_icmp_id : fits 2 (icmpv4_id i);
  wf_icmp_seq : fits 2 (icmpv4_seq i); wf_icmp_gateway : fits 4 (icmpv4_gateway i);
  wf_icmp_echo : icmp_echo i = false -> icmpv4_id i = 0 /\ icmpv4_seq i = 0;
  wf_icmp_redirect : icmpv4_type i <> ICMP_TYPE_REDIRECT -> icmpv4_gateway i = 0
}.

Inductive transport : Type :=
| TCP (t : tcp_info) (options payload : bytes)
| UDP (u : udp_info) (payload : bytes)
| ICMP (i : icmpv4_info) (payload : bytes)
| OtherTransport (protocol : Z) (payload : bytes).

Definition transport_protocol (t : transport) : Z :=
  match t with
  | TCP _ _ _ => IPPROTO_TCP | UDP _ _ => IPPROTO_UDP | ICMP _ _ => IPPROTO_ICMP
  | OtherTransport protocol _ => protocol
  end.

Definition wire_transport (t : transport) : bytes :=
  match t with
  | TCP t options payload => wire_tcp t ++ options ++ payload
  | UDP u payload => wire_udp u ++ payload
  | ICMP i payload => wire_icmp i ++ payload
  | OtherTransport _ payload => payload
  end.

Definition wf_transport (t : transport) : Prop :=
  match t with
  | TCP t options _ => wf_tcp t options
  | UDP u _ => wf_udp u
  | ICMP i _ => wf_icmp i
  | OtherTransport protocol _ =>
    ~ In protocol [IPPROTO_TCP; IPPROTO_UDP; IPPROTO_ICMP; IPPROTO_IGMP; IPPROTO_ETHERIP]
  end.

Inductive network : Type :=
| ARP (a : arp_info) (trailer : bytes)
| RARP (a : arp_info) (trailer : bytes)
| IPv4 (i : ipv4_info) (options : bytes) (t : transport)
| Fragment (i : ipv4_info) (options payload : bytes)
| OtherNetwork (type : Z) (payload : bytes).

Definition network_type (n : network) : Z :=
  match n with
  | ARP _ _ => ETH_ETHTYPE_ARP | RARP _ _ => ETH_ETHTYPE_RARP
  | IPv4 _ _ _ | Fragment _ _ _ => ETH_ETHTYPE_IPV4
  | OtherNetwork type _ => type
  end.

Definition wire_network (n : network) : bytes :=
  match n with
  | ARP a trailer | RARP a trailer => wire_arp a ++ trailer
  | IPv4 i options t => wire_ipv4 i ++ options ++ wire_transport t
  | Fragment i options payload => wire_ipv4 i ++ options ++ payload
  | OtherNetwork _ payload => payload
  end.

Definition fragmented (i : ipv4_info) : bool := negb (Z.land (ipv4_frag_off i) IP_OFFMASK =? 0).

Definition wf_network (n : network) : Prop :=
  match n with
  | ARP a _ | RARP a _ => wf_arp a
  | IPv4 i options t =>
    wf_ipv4 i options /\ fragmented i = false /\ ipv4_protocol i = transport_protocol t /\ wf_transport t
  | Fragment i options _ => wf_ipv4 i options /\ fragmented i = true
  | OtherNetwork type _ =>
    fits 2 type /\ ETH_MTU < type /\ ~ In type [ETH_ETHTYPE_ARP; ETH_ETHTYPE_RARP; ETH_ETHTYPE_IPV4;
      ETH_ETHTYPE_IPV6; ETH_ETHTYPE_LLDP; ETH_ETHTYPE_TPID]
  end.

(** A frame: addresses, the TCIs of its tags and the packet in it. *)
Record ether_frame : Type := EtherFrame {
  fr_macda : bytes; fr_macsa : bytes; fr_tags : list Z; fr_network : network }.

Definition next_type (tags : list Z) (type : Z) : Z :=
  match tags with [] => type | _ :: _ => ETH_ETHTYPE_TPID end.

(** The bytes after a type field that announces [tags]. *)
Fixpoint after_type (tags : list Z) (type : Z) (body : bytes) : bytes :=
  match tags with
  | [] => body
  | tci :: tags => be_encode 2 tci ++ be_encode 2 (next_type tags type) ++ after_type tags type body
  end.

Definition wire_frame (f : ether_frame) : bytes :=
  let type := network_type (fr_network f) in
  fr_macda f ++ fr_macsa f ++ be_encode 2 (next_type (fr_tags f) type) ++
  after_type (fr_tags f) type (wire_network (fr_network f)).

Definition wf_frame (f : ether_frame) : Prop :=
  length (fr_macda f) = 6%nat /\ length (fr_macsa f) = 6%nat /\ Forall (fits 2) (fr_tags f) /\
  wf_network (fr_network f) /\ blen (wire_frame f) < 2 ^ 64.

(** ** What the parser should find *)

Definition l4_payload_info (p : packet_info) (ptr : Z) (payload : bytes) (f : Z) : packet_info :=
  add_format (if 0 <? blen payload then set_l4_payload p ptr (blen payload) else p) f.

(** At offset [ptr]. *)
Definition transport_info (p : packet_info) (ptr : Z) (t : transport) : packet_info :=
  let q := set_l4_header p (Some ptr) in
  match t with
  | TCP t _ payload => l4_payload_info (set_tcp q t) (ptr + tcp_offset t * 4) payload TP_TCP
  | UDP u payload => l4_payload_info (set_udp q u) (ptr + 8) payload TP_UDP
  | ICMP i payload => l4_payload_info (set_icmpv4 q i) (ptr + 8) payload NW_ICMPV4
  | OtherTransport _ _ => p
  end.

Definition ipv4_header_info (p : packet_info) (ptr : Z) (i : ipv4_info) (payload : bytes) : packet_info :=
  let p := set_ipv4 p i in
  add_format (if 0 <? blen payload then set_l3_payload p (ptr + ipv4_ihl i * 4) (blen payload) else p) NW_IPV4.

Definition network_info (p : packet_info) (ptr : Z) (n : network) : packet_info :=
  let q := set_l3_header p (Some ptr) in
  match n with
  | ARP a _ => add_format (set_arp q a) NW_ARP
  | RARP a _ => add_format (set_arp q a) NW_RARP
  | IPv4 i _ t =>
    transport_info (ipv4_header_info q ptr i (wire_transport t)) (ptr + ipv4_ihl i * 4) t
  | Fragment i _ payload => ipv4_header_info q ptr i payload
  | OtherNetwork _ _ => p
  end.

Definition ether_info_of (f : ether_frame) : packet_info :=
  let type := network_type (fr_network f) in
  let p := set_l2_header calloc_packet_info (Some 0) in
  let p := match fr_tags f with
    | [] => p
    | tci :: _ =>
      add_format (set_vlan p (VlanInfo tci ETH_ETHTYPE_TPID (TCI_GET_PRIO tci) (TCI_GET_CFI tci) (TCI_GET_VID tci)))
        ETH_8021Q
    end in
  let p := add_format (set_eth p (EtherInfo (fr_macda f) (fr_macsa f) type)) ETH_DIX in
  let body := wire_network (fr_network f) in
  if 0 <? blen body then set_l2_payload p (14 + 4 * Z.of_nat (length (fr_tags f))) (blen body) else p.

Definition frame_info (f : ether_frame) : packet_info :=
  network_info (ether_info_of f) (14 + 4 * Z.of_nat (length (fr_tags f))) (fr_network f).

(** ** Each header *)

Section Wire.
Context {host : Host}.
Implicit Types (p : packet_info) (P R options payload : bytes).

Lemma remained_app P R k :
  blen (P ++ R) < 2 ^ 64 -> 0 <= k <= blen R -> REMAINED_BUFFER_LENGTH (P ++ R) (blen P + k) = blen R - k.
Proof.
  intros Hm Hk. pose proof (blen_nonneg P). rewrite blen_app in Hm.
  rewrite remained by (rewrite ?blen_app; lia). rewrite blen_app. lia.
Qed.

Lemma remained_here P R : blen (P ++ R) < 2 ^ 64 -> REMAINED_BUFFER_LENGTH (P ++ R) (blen P) = blen R.
Proof. intros Hm. pose proof (blen_nonneg R). replace (blen P) with (blen P + 0) by lia. rewrite remained_app by lia. lia. Qed.

Lemma ltb_ge (a b : Z) : b <= a -> (a <? b) = false.
Proof. apply Z.ltb_ge. Qed.

(** Read the fields of a header at [blen P]. *)
Ltac fields :=
  rewrite <- ?app_assoc;
  repeat (first
    [ rewrite ld_ntoh_skip by wire_side | rewrite ld_skip by wire_side | rewrite ld_bytes_skip by wire_side
    | rewrite ld_ntoh_wire by wire_side | rewrite ld8_wire by wire_side | rewrite ld_bytes_wire by wire_side ];
    bind_ok).

Ltac wf H := pose proof H as []; unfold fits in *; cbn in * |-.

Lemma blen_wire_arp a : wf_arp a -> blen (wire_arp a) = 28.
Proof. intros []. unfold wire_arp. unfold blen in *. autorewrite with len. lia. Qed.

Lemma blen_wire_ipv4 i : blen (wire_ipv4 i) = 20.
Proof. unfold wire_ipv4. len. Qed.

Lemma blen_wire_tcp t : blen (wire_tcp t) = 20.
Proof. unfold wire_tcp. len. Qed.

Lemma blen_wire_udp u : blen (wire_udp u) = 8.
Proof. unfold wire_udp. len. Qed.

Lemma blen_wire_icmp i : blen (wire_icmp i) = 8.
Proof. unfold wire_icmp. destruct (icmp_echo i); len. Qed.

Lemma parse_arp_wire P a R p f :
  wf_arp a -> blen (P ++ wire_arp a ++ R) < 2 ^ 64 -> l3_header (layers p) = Some (blen P) ->
  parse_arp (P ++ wire_arp a ++ R) p f = Ok (add_format (set_arp p a) f).
Proof.
  intros Ha Hm Hp. pose proof (blen_wire_arp a Ha) as Hl. pose proof (blen_nonneg R).
  unfold parse_arp. rewrite Hp. cbn [assert_ptr]. bind_ok.
  rewrite remained_here, blen_app, ltb_ge by (unfold sizeof_arp_header; rewrite ?blen_app in *; lia).
  destruct Ha. unfold wire_arp. fields. by destruct a.
Qed.

Lemma l4_end_wire P R payload p k f :
  blen (P ++ R ++ payload) < 2 ^ 64 -> k = blen R ->
  l4_end (P ++ R ++ payload) p (blen P + k) f = l4_payload_info p (blen P + k) payload f.
Proof.
  intros Hm ->. pose proof (blen_nonneg payload). pose proof (blen_nonneg R).
  unfold l4_end, l4_payload_info. rewrite remained_app by (rewrite ?blen_app in *; lia).
  rewrite blen_app. by replace (blen R + blen payload - blen R) with (blen payload) by lia.
Qed.

Lemma parse_udp_wire P u payload p :
  wf_udp u -> blen (P ++ wire_udp u ++ payload) < 2 ^ 64 -> l4_header (layers p) = Some (blen P) ->
  parse_udp (P ++ wire_udp u ++ payload) p = Ok (l4_payload_info (set_udp p u) (blen P + 8) payload TP_UDP).
Proof.
  intros Hu Hm Hp. pose proof (blen_wire_udp u) as Hl. pose proof (blen_nonneg payload).
  unfold parse_udp. rewrite Hp. cbn [assert_ptr]. bind_ok.
  rewrite remained_here, blen_app, ltb_ge by (unfold sizeof_udp_header; rewrite ?blen_app in *; lia).
  unfold sizeof_udp_header. destruct Hu.
  rewrite <- (l4_end_wire P (wire_udp u) payload (set_udp p u) 8 TP_UDP) by done.
  unfold wire_udp. fields. by destruct u.
Qed.

Lemma parse_icmp_wire P i payload p :
  wf_icmp i -> blen (P ++ wire_icmp i ++ payload) < 2 ^ 64 -> l4_header (layers p) = Some (blen P) ->
  icmpv4 p = Icmpv4Info 0 0 0 0 0 0 ->
  parse_icmp (P ++ wire_icmp i ++ payload) p = Ok (l4_payload_info (set_icmpv4 p i) (blen P + 8) payload NW_ICMPV4).
Proof.
  intros Hi Hm Hp Hz. pose proof (blen_wire_icmp i) as Hl. pose proof (blen_nonneg payload).
  unfold parse_icmp. rewrite Hp. cbn [assert_ptr]. bind_ok.
  rewrite remained_here, blen_app, ltb_ge by (unfold sizeof_icmp_header; rewrite ?blen_app in *; lia).
  unfold sizeof_icmp_header. destruct Hi as [? ? ? ? ? ? He Hr].
  rewrite <- (l4_end_wire P (wire_icmp i) payload (set_icmpv4 p i) 8 NW_ICMPV4) by done.
  rewrite Hz. destruct i as [ty co cs id se gw]. unfold wire_icmp, icmp_echo in *.
  cbn [icmpv4_type icmpv4_code icmpv4_checksum icmpv4_id icmpv4_seq icmpv4_gateway] in *. fields.
  destruct (_ || _) eqn:E; fields.
  - assert (gw = 0) as -> by (apply Hr; intros ->; done). done.
  - destruct He as [-> ->]; [done |]. destruct (Z.eqb_spec ty ICMP_TYPE_REDIRECT) as [E' | E']; fields; [done |].
    by rewrite (Hr E').
Qed.

Lemma high_nibble x y : 0 <= y < 16 -> Z.shiftr (x * 16 + y) 4 = x.
Proof.
  intros Hy. rewrite Z.shiftr_div_pow2 by lia. change (2 ^ 4) with 16.
  rewrite Z.add_comm, Z.div_add, Z.div_small by lia. lia.
Qed.

Lemma low_nibble x y : 0 <= y < 16 -> Z.land (x * 16 + y) 15 = y.
Proof.
  intros Hy. change 15 with (Z.ones 4). rewrite Z.land_ones by lia. change (2 ^ 4) with 16.
  rewrite Z.add_comm, Z.mod_add, Z.mod_small by lia. done.
Qed.

Lemma parse_tcp_wire P t options payload p :
  wf_tcp t options -> blen (P ++ wire_tcp t ++ options ++ payload) < 2 ^ 64 -> l4_header (layers p) = Some (blen P) ->
  parse_tcp (P ++ wire_tcp t ++ options ++ payload) p
  = Ok (l4_payload_info (set_tcp p t) (blen P + tcp_offset t * 4) payload TP_TCP).
Proof.
  intros Ht Hm Hp. pose proof (blen_wire_tcp t) as Hl. pose proof (blen_nonneg payload). pose proof (blen_nonneg options).
  destruct Ht as [? ? ? ? Ho Hopt ? ? ? ?].
  unfold parse_tcp. rewrite Hp. cbn [assert_ptr]. bind_ok.
  rewrite remained_here, !blen_app by (rewrite ?blen_app in *; lia). cbv zeta.
  rewrite ltb_ge by (unfold sizeof_tcp_header; lia).
  rewrite <- (l4_end_wire P (wire_tcp t ++ options) payload (set_tcp p t) (tcp_offset t * 4) TP_TCP)
    by (rewrite <- ?app_assoc; rewrite ?blen_app in *; lia || done).
  assert (fits 1 (tcp_offset t * 16)) by (unfold fits; cbn; lia).
  rewrite <- app_assoc. unfold wire_tcp. fields.
  pose proof (high_nibble (tcp_offset t) 0 ltac:(lia)) as Hn. rewrite Z.add_0_r in Hn. rewrite Hn.
  rewrite !ltb_ge by (unfold wire_tcp in Hl; lia). fields. by destruct t.
Qed.

Lemma parse_ipv4_wire P i options payload p :
  wf_ipv4 i options -> blen (P ++ wire_ipv4 i ++ options ++ payload) < 2 ^ 64 -> l3_header (layers p) = Some (blen P) ->
  parse_ipv4 (P ++ wire_ipv4 i ++ options ++ payload) p = Ok (ipv4_header_info p (blen P) i payload).
Proof.
  intros Hi Hm Hp. pose proof (blen_wire_ipv4 i) as Hl. pose proof (blen_nonneg payload). pose proof (blen_nonneg options).
  destruct Hi as [? ? Hopt ? ? ? ? ? ? ? ? ?].
  unfold parse_ipv4. rewrite Hp. cbn [assert_ptr]. bind_ok.
  rewrite remained_here, !blen_app by (rewrite ?blen_app in *; lia). cbv zeta.
  rewrite ltb_ge by (unfold sizeof_ipv4_header; lia).
  assert (fits 1 (ipv4_version i * 16 + ipv4_ihl i)) by (unfold fits; cbn; lia).
  assert (Hr : REMAINED_BUFFER_LENGTH (P ++ wire_ipv4 i ++ options ++ payload) (blen P + ipv4_ihl i * 4) = blen payload).
  { rewrite remained_app by (rewrite ?blen_app in *; lia). rewrite !blen_app. lia. }
  revert Hr. unfold wire_ipv4. intros Hr. fields.
  rewrite high_nibble, low_nibble by lia.
  rewrite !ltb_ge by (unfold wire_ipv4 in Hl; lia). fields. rewrite <- ?app_assoc in Hr. rewrite Hr.
  unfold ipv4_header_info. by destruct i.
Qed.

(** ** Tags *)

Lemma blen_after_type tags type body : blen (after_type tags type body) = 4 * Z.of_nat (length tags) + blen body.
Proof.
  induction tags as [| tci tags IH]; [done |]. cbn [after_type length]. rewrite !blen_app, IH, !blen_be_encode. lia.
Qed.

Lemma fits_next_type tags type : fits 2 type -> fits 2 (next_type tags type).
Proof. destruct tags; [done |]. intros _. split; [done | reflexivity]. Qed.

Lemma set_eth_type_id p : set_eth_type p (eth_type (eth p)) = p.
Proof. by destruct p as [? [] ? ? ? ? ? ? ? ? ? ? ?]. Qed.

Lemma skip_vlan_wire fuel P tags type body p :
  fits 2 type -> type <> ETH_ETHTYPE_TPID -> Forall (fits 2) tags ->
  blen (P ++ after_type tags type body) < 2 ^ 64 ->
  eth_type (eth p) = next_type tags type -> (length tags < fuel)%nat ->
  skip_vlan fuel (P ++ after_type tags type body) p (blen P)
  = Ok (set_eth_type p type, Some (blen P + 4 * Z.of_nat (length tags))).
Proof.
  intros Hty Hne Htags. revert fuel P p. induction Htags as [| tci tags Htci Htags IH];
    intros [| fuel] P p Hm Hp Hf; try (cbn in Hf; lia); cbn [skip_vlan after_type next_type length] in *; rewrite Hp.
  - replace (type =? ETH_ETHTYPE_TPID) with false by lia. rewrite <- Hp, set_eth_type_id. do 3 f_equal. lia.
  - pose proof (blen_nonneg (after_type tags type body)). rewrite Z.eqb_refl.
    rewrite remained_here, !blen_app, !blen_be_encode by done. rewrite ltb_ge by (unfold sizeof_vlantag_header; lia).
    pose proof (fits_next_type tags type Hty). fields.
    replace (P ++ be_encode 2 tci ++ be_encode 2 (next_type tags type) ++ after_type tags type body)
      with ((P ++ be_encode 2 tci ++ be_encode 2 (next_type tags type)) ++ after_type tags type body) in *
      by (by rewrite <- !app_assoc).
    replace (blen P + sizeof_vlantag_header) with (blen (P ++ be_encode 2 tci ++ be_encode 2 (next_type tags type)))
      by (rewrite !blen_app, !blen_be_encode; unfold sizeof_vlantag_header; lia).
    rewrite IH; [| done | done | lia]. do 3 f_equal. rewrite !blen_app, !blen_be_encode. lia.
Qed.

Lemma parse_vlan_wire P tags type body p :
  fits 2 type -> type <> ETH_ETHTYPE_TPID -> Forall (fits 2) tags ->
  blen (P ++ after_type tags type body) < 2 ^ 64 -> eth_type (eth p) = next_type tags type ->
  parse_vlan (P ++ after_type tags type body) p (blen P) (next_type tags type)
  = Ok (match tags with
        | [] => p
        | tci :: _ =>
          add_format (set_eth_type (set_vlan p
            (VlanInfo tci ETH_ETHTYPE_TPID (TCI_GET_PRIO tci) (TCI_GET_CFI tci) (TCI_GET_VID tci))) type) ETH_8021Q
        end, Some (blen P + 4 * Z.of_nat (length tags))).
Proof.
  intros Hty Hne Htags Hm Hp. unfold parse_vlan. destruct Htags as [| tci tags Htci Htags]; cbn [next_type after_type length] in *.
  - replace (type =? ETH_ETHTYPE_TPID) with false by lia. do 3 f_equal. lia.
  - pose proof (blen_nonneg (after_type tags type body)). rewrite Z.eqb_refl.
    rewrite remained_here, !blen_app, !blen_be_encode by done. rewrite ltb_ge by (unfold sizeof_vlantag_header; lia).
    pose proof (fits_next_type tags type Hty). fields. cbv zeta. fields.
    replace (P ++ be_encode 2 tci ++ be_encode 2 (next_type tags type) ++ after_type tags type body)
      with ((P ++ be_encode 2 tci ++ be_encode 2 (next_type tags type)) ++ after_type tags type body) in *
      by (by rewrite <- !app_assoc).
    replace (blen P + sizeof_vlantag_header) with (blen (P ++ be_encode 2 tci ++ be_encode 2 (next_type tags type)))
      by (rewrite !blen_app, !blen_be_encode; unfold sizeof_vlantag_header; lia).
    rewrite skip_vlan_wire; [| done | done | done | done | done |].
    + do 3 f_equal. rewrite !blen_app, !blen_be_encode. lia.
    + pose proof (blen_after_type tags type body) as Hb. unfold blen in Hb. rewrite length_app. lia.
Qed.

(** ** The whole frame *)

Lemma network_type_ok n : wf_network n ->
  fits 2 (network_type n) /\ network_type n <> ETH_ETHTYPE_TPID /\ ETH_MTU < network_type n.
Proof.
  destruct n as [a r | a r | i o t | i o pl | type pl]; cbn [network_type wf_network];
    try (intros _; split_and!; [split; [done | reflexivity] | done | reflexivity]).
  intros (Hf & Hm & Hi). split_and!; [done | | done]. intros ->. apply Hi. cbn. tauto.
Qed.

Lemma parse_ether_payload_dix m p ptr :
  blen m < 2 ^ 64 -> 0 <= ptr <= blen m -> ETH_MTU < eth_type (eth p) ->
  parse_ether_payload m p ptr =
  Ok (let q := add_format p ETH_DIX in
      if 0 <? blen m - ptr then set_l2_payload q ptr (blen m - ptr) else q).
Proof.
  intros Hm Hp Ht. unfold parse_ether_payload. replace (_ <=? ETH_MTU) with false by lia. bind_ok. cbv zeta.
  rewrite remained by done. by destruct (0 <? blen m - ptr).
Qed.

(** A frame whose Ethernet header is well formed, whatever follows it. *)
Definition wf_ether (f : ether_frame) : Prop :=
  let type := network_type (fr_network f) in
  length (fr_macda f) = 6%nat /\ length (fr_macsa f) = 6%nat /\ Forall (fits 2) (fr_tags f) /\
  (fits 2 type /\ type <> ETH_ETHTYPE_TPID /\ ETH_MTU < type) /\ blen (wire_frame f) < 2 ^ 64.

Lemma wf_frame_ether f : wf_frame f -> wf_ether f.
Proof. intros (? & ? & ? & Hn & ?). pose proof (network_type_ok _ Hn). unfold wf_ether. tauto. Qed.

Lemma parse_ether_wire f :
  wf_ether f ->
  parse_ether (wire_frame f) (set_l2_header calloc_packet_info (Some 0)) = Ok (ether_info_of f).
Proof.
  intros (Hda & Hsa & Htags & (Hty & Hne & Hmtu) & Hm). destruct f as [da sa tags n].
  unfold wire_frame, ether_info_of in *. cbn [fr_macda fr_macsa fr_tags fr_network] in *. set (type := network_type n) in *.
  set (body := wire_network n) in *. pose proof (blen_after_type tags type body) as Hb.
  pose proof (blen_nonneg body). pose proof (fits_next_type tags type Hty).
  assert (Hl : blen da = 6 /\ blen sa = 6) by (unfold blen; lia).
  set (m := da ++ sa ++ be_encode 2 (next_type tags type) ++ after_type tags type body) in *.
  assert (Hlen : blen m = 14 + 4 * Z.of_nat (length tags) + blen body).
  { unfold m. rewrite !blen_app, blen_be_encode, Hb. lia. }
  unfold parse_ether. cbn [set_l2_header set_layers layers l2_header assert_ptr]. bind_ok.
  rewrite remained by lia. rewrite ltb_ge by (unfold sizeof_ether_header; lia).
  unfold m at 1 2 3. fields. cbv zeta.
  assert (Em : m = (da ++ sa ++ be_encode 2 (next_type tags type)) ++ after_type tags type body)
    by (unfold m; by rewrite <- !app_assoc).
  assert (Hr : blen m - (14 + 4 * Z.of_nat (length tags)) = blen body) by lia.
  rewrite Em in *. change (0 + sizeof_ether_header) with 14.
  replace 14 with (blen (da ++ sa ++ be_encode 2 (next_type tags type))) at 1
    by (rewrite !blen_app, blen_be_encode; lia).
  rewrite parse_vlan_wire by done. bind_ok. rewrite !blen_app, blen_be_encode.
  replace (blen da + (blen sa + Z.of_nat 2) + 4 * Z.of_nat (length tags)) with (14 + 4 * Z.of_nat (length tags)) by lia.
  destruct tags as [| tci tags']; rewrite parse_ether_payload_dix by first [exact Hm | exact Hmtu | lia]; by rewrite Hr.
Qed.

Lemma parse_l4_wire P t p :
  wf_transport t -> blen (P ++ wire_transport t) < 2 ^ 64 ->
  ipv4_protocol (ipv4 p) = transport_protocol t ->
  l3_payload (layers p) = (if 0 <? blen (wire_transport t) then Some (blen P) else None) ->
  icmpv4 p = Icmpv4Info 0 0 0 0 0 0 ->
  parse_l4 (P ++ wire_transport t) p = Ok (transport_info p (blen P) t).
Proof.
  intros Ht Hm Hp Hl Hz. unfold parse_l4. rewrite Hp. cbv zeta.
  destruct t as [t o pl | u pl | i pl | proto pl]; cbn [transport_protocol wire_transport transport_info wf_transport] in *.
  - pose proof (blen_wire_tcp t). pose proof (blen_nonneg o). pose proof (blen_nonneg pl).
    rewrite !blen_app in Hl. replace (0 <? _) with true in Hl by lia. rewrite Hl.
    change (IPPROTO_TCP =? IPPROTO_ICMP) with false. change (IPPROTO_TCP =? IPPROTO_TCP) with true. cbn match.
    by rewrite parse_tcp_wire.
  - pose proof (blen_wire_udp u). pose proof (blen_nonneg pl).
    rewrite !blen_app in Hl. replace (0 <? _) with true in Hl by lia. rewrite Hl.
    change (IPPROTO_UDP =? IPPROTO_ICMP) with false. change (IPPROTO_UDP =? IPPROTO_TCP) with false.
    change (IPPROTO_UDP =? IPPROTO_UDP) with true. cbn match. by rewrite parse_udp_wire.
  - pose proof (blen_wire_icmp i). pose proof (blen_nonneg pl).
    rewrite !blen_app in Hl. replace (0 <? _) with true in Hl by lia. rewrite Hl.
    change (IPPROTO_ICMP =? IPPROTO_ICMP) with true. cbn match. by rewrite parse_icmp_wire.
  - cbn [In] in Ht.
    replace (proto =? IPPROTO_ICMP) with false by (symmetry; apply Z.eqb_neq; tauto || (intros ->; tauto)).
    replace (proto =? IPPROTO_TCP) with false by (symmetry; apply Z.eqb_neq; intros ->; tauto).
    replace (proto =? IPPROTO_UDP) with false by (symmetry; apply Z.eqb_neq; intros ->; tauto).
    replace (proto =? IPPROTO_IGMP) with false by (symmetry; apply Z.eqb_neq; intros ->; tauto).
    by replace (proto =? IPPROTO_ETHERIP) with false by (symmetry; apply Z.eqb_neq; intros ->; tauto).
Qed.

Lemma after_type_app tags type body : after_type tags type body = after_type tags type [] ++ body.
Proof. induction tags as [| tci tags IH]; [done |]. cbn [after_type]. by rewrite IH, <- !app_assoc. Qed.

(** What comes before the packet in the frame. *)
Definition frame_prefix (f : ether_frame) : bytes :=
  let type := network_type (fr_network f) in
  fr_macda f ++ fr_macsa f ++ be_encode 2 (next_type (fr_tags f) type) ++ after_type (fr_tags f) type [].

Lemma wire_frame_prefix f : wire_frame f = frame_prefix f ++ wire_network (fr_network f).
Proof. unfold wire_frame, frame_prefix. rewrite after_type_app, <- !app_assoc. done. Qed.

Lemma blen_frame_prefix f : wf_ether f -> blen (frame_prefix f) = 14 + 4 * Z.of_nat (length (fr_tags f)).
Proof.
  intros (Hda & Hsa & _). unfold frame_prefix. rewrite !blen_app, blen_be_encode, blen_after_type, blen_nil.
  unfold blen. lia.
Qed.

Lemma ether_info_facts f :
  wf_ether f ->
  eth_type (eth (ether_info_of f)) = network_type (fr_network f) /\
  icmpv4 (ether_info_of f) = Icmpv4Info 0 0 0 0 0 0 /\
  l3_payload (layers (ether_info_of f)) = None /\
  Z.land (format (ether_info_of f)) NW_IPV4 = 0 /\
  (0 < blen (wire_network (fr_network f)) ->
     l2_payload (layers (ether_info_of f)) = Some (blen (frame_prefix f))).
Proof.
  intros Hf. rewrite blen_frame_prefix by done. unfold ether_info_of.
  destruct (fr_tags f) as [| tci tags]; (destruct (Z.ltb_spec 0 (blen (wire_network (fr_network f)))); split_and!; done || lia).
Qed.

Lemma land_lor_set a b c : Z.land a c = 0 -> Z.land b c <> 0 -> Z.land (Z.lor a b) c <> 0.
Proof. intros Ha Hb. by rewrite Z.land_lor_distr_l, Ha, Z.lor_0_l. Qed.

Lemma land_lor_clear a b c : Z.land a c = 0 -> Z.land b c = 0 -> Z.land (Z.lor a b) c = 0.
Proof. intros Ha Hb. by rewrite Z.land_lor_distr_l, Ha, Hb. Qed.

Lemma parse_packet_arp f a R fmt n :
  wf_frame f -> fr_network f = n -> wire_network n = wire_arp a ++ R -> wf_arp a -> Z.land fmt NW_IPV4 = 0 ->
  (network_type n = ETH_ETHTYPE_ARP /\ fmt = NW_ARP \/ network_type n = ETH_ETHTYPE_RARP /\ fmt = NW_RARP) ->
  parse_packet (wire_frame f) =
  Ok (add_format (set_arp (set_l3_header (ether_info_of f) (Some (blen (frame_prefix f)))) a) fmt).
Proof.
  intros Hf Hn Hw Ha Hfmt Hk. subst n. destruct (ether_info_facts f (wf_frame_ether f Hf)) as (Ht & _ & _ & Hz & Hl2).
  unfold parse_packet. cbv zeta. rewrite parse_ether_wire by auto using wf_frame_ether. bind_ok.
  unfold parse_l3. rewrite Ht. cbv zeta. rewrite Hl2 by (rewrite Hw, blen_app, blen_wire_arp by done; pose proof (blen_nonneg R); lia).
  destruct Hf as (_ & _ & _ & _ & Hm). rewrite wire_frame_prefix, Hw in *.
  assert (Hfin : forall q, Z.land (format q) NW_IPV4 = 0 ->
    (if Z.land (format (add_format (set_arp q a) fmt)) NW_IPV4 =? 0
     then Ok (add_format (set_arp q a) fmt)
     else if negb (Z.land (ipv4_frag_off (ipv4 (add_format (set_arp q a) fmt))) IP_OFFMASK =? 0)
          then Ok (add_format (set_arp q a) fmt)
          else parse_l4 (frame_prefix f ++ wire_arp a ++ R) (add_format (set_arp q a) fmt))
    = Ok (add_format (set_arp q a) fmt)).
  { intros q Hq. cbn [add_format set_format set_arp format]. by rewrite land_lor_clear. }
  destruct Hk as [[-> ->] | [-> ->]].
  - rewrite Z.eqb_refl. rewrite parse_arp_wire by done. bind_ok. by apply Hfin.
  - change (ETH_ETHTYPE_RARP =? ETH_ETHTYPE_ARP) with false. rewrite Z.eqb_refl.
    rewrite parse_arp_wire by done. bind_ok. by apply Hfin.
Qed.

Lemma parse_packet_ipv4 f i options R :
  wf_ether f -> network_type (fr_network f) = ETH_ETHTYPE_IPV4 ->
  wire_network (fr_network f) = wire_ipv4 i ++ options ++ R -> wf_ipv4 i options ->
  parse_packet (wire_frame f) =
    let p := ipv4_header_info (set_l3_header (ether_info_of f) (Some (blen (frame_prefix f)))) (blen (frame_prefix f)) i R in
    if fragmented i then Ok p else parse_l4 (wire_frame f) p.
Proof.
  intros Hf Hty Hw Hi. destruct (ether_info_facts f Hf) as (Ht & _ & _ & Hz & Hl2).
  unfold parse_packet. cbv zeta. rewrite parse_ether_wire by done. bind_ok.
  unfold parse_l3. rewrite Ht, Hty. cbv zeta.
  rewrite Hl2 by (rewrite Hw, blen_app, blen_wire_ipv4; pose proof (blen_nonneg (options ++ R)); lia).
  destruct Hf as (_ & _ & _ & _ & Hm). rewrite wire_frame_prefix, Hw in *.
  change (ETH_ETHTYPE_IPV4 =? ETH_ETHTYPE_ARP) with false. change (ETH_ETHTYPE_IPV4 =? ETH_ETHTYPE_RARP) with false.
  rewrite Z.eqb_refl, parse_ipv4_wire by done. bind_ok. unfold ipv4_header_info at 1 2 3.
  replace (_ =? 0) with false; [by unfold fragmented; destruct (0 <? blen R) |].
  symmetry. apply Z.eqb_neq. cbn [add_format set_format format]. apply land_lor_set; [| done].
  by destruct (0 <? blen R).
Qed.

Lemma parse_packet_frame f : wf_frame f -> parse_packet (wire_frame f) = Ok (frame_info f).
Proof.
  intros Hf. pose proof Hf as (_ & _ & _ & Hn & Hm). destruct (ether_info_facts f (wf_frame_ether f Hf)) as (Ht & Hic & Hl3 & Hz & _).
  unfold frame_info. rewrite <- blen_frame_prefix by auto using wf_frame_ether. unfold network_info. cbv zeta.
  destruct (fr_network f) as [a R | a R | i o t | i o pl | type pl] eqn:E; cbn [wf_network] in Hn.
  - apply (parse_packet_arp f a R NW_ARP _ Hf E); [done | done | done | by left].
  - apply (parse_packet_arp f a R NW_RARP _ Hf E); [done | done | done | by right].
  - destruct Hn as (Hi & Hfr & Hp & Ht'). rewrite (parse_packet_ipv4 f i o (wire_transport t)) by (rewrite ?E; auto using wf_frame_ether).
    rewrite Hfr. cbv zeta. pose proof (blen_wire_ipv4 i) as Hl.
    assert (Hihl : blen (frame_prefix f) + ipv4_ihl i * 4 = blen (frame_prefix f ++ wire_ipv4 i ++ o)).
    { rewrite !blen_app, Hl. destruct Hi as [? ? ->]. lia. }
    assert (Hw : wire_frame f = (frame_prefix f ++ wire_ipv4 i ++ o) ++ wire_transport t).
    { rewrite wire_frame_prefix, E. cbn [wire_network]. by rewrite <- !app_assoc. }
    rewrite Hw in *. unfold ipv4_header_info. rewrite Hihl. apply parse_l4_wire; try done.
    + cbn [add_format set_format ipv4]. by destruct (0 <? blen (wire_transport t)).
    + cbn [add_format set_format layers]. by destruct (0 <? blen (wire_transport t)).
    + cbn [add_format set_format icmpv4]. by destruct (0 <? blen (wire_transport t)).
  - destruct Hn as [Hi Hfr]. rewrite (parse_packet_ipv4 f i o pl) by (rewrite ?E; auto using wf_frame_ether). by rewrite Hfr.
  - destruct Hn as (_ & _ & Hno). unfold parse_packet. cbv zeta. rewrite parse_ether_wire by auto using wf_frame_ether. bind_ok.
    unfold parse_l3. rewrite Ht. cbv zeta. cbn [network_type In] in *.
    repeat match goal with |- context [type =? ?c] =>
      replace (type =? c) with false by (symmetry; apply Z.eqb_neq; intros ->; tauto) end.
    done.
Qed.
(** ** Headers announced but absent

    [parse_packet] points the header of the next layer at the payload, which is
    NULL when the frame ends there; the functions that follow assert that it
    is not. *)

Inductive headerless : network -> Prop :=
| headerless_network type :
    In type [ETH_ETHTYPE_ARP; ETH_ETHTYPE_RARP; ETH_ETHTYPE_IPV4; ETH_ETHTYPE_IPV6; ETH_ETHTYPE_LLDP] ->
    headerless (OtherNetwork type [])
| headerless_transport i options :
    wf_ipv4 i options -> fragmented i = false ->
    In (ipv4_protocol i) [IPPROTO_TCP; IPPROTO_UDP; IPPROTO_ICMP; IPPROTO_IGMP; IPPROTO_ETHERIP] ->
    headerless (IPv4 i options (OtherTransport (ipv4_protocol i) [])).

Lemma headerless_type n : headerless n ->
  fits 2 (network_type n) /\ network_type n <> ETH_ETHTYPE_TPID /\ ETH_MTU < network_type n.
Proof.
  intros [type Ht | i o Hi _ _]; cbn [network_type].
  - cbn [In] in Ht. repeat destruct Ht as [<- | Ht]; try done; by split_and!; [split | |].
  - by split_and!; [split | |].
Qed.

Lemma parse_l4_absent m p :
  In (ipv4_protocol (ipv4 p)) [IPPROTO_TCP; IPPROTO_UDP; IPPROTO_ICMP; IPPROTO_IGMP; IPPROTO_ETHERIP] ->
  l3_payload (layers p) = None -> parse_l4 m p = Fault AssertFailed.
Proof.
  intros Hp Hl. unfold parse_l4. rewrite Hl. cbn [In] in Hp. by repeat destruct Hp as [<- | Hp].
Qed.

Lemma parse_packet_headerless f :
  wf_ether f -> headerless (fr_network f) -> parse_packet (wire_frame f) = Fault AssertFailed.
Proof.
  intros Hf Hh. destruct (ether_info_facts f Hf) as (Ht & Hic & Hl3 & Hz & Hl2).
  inversion Hh as [type Hty E | i o Hi Hfr Hp E]; rewrite <- E in Ht; cbn [network_type] in Ht.
  - assert (Hnone : l2_payload (layers (ether_info_of f)) = None).
    { unfold ether_info_of. rewrite <- E. by destruct (fr_tags f). }
    unfold parse_packet. cbv zeta. rewrite parse_ether_wire by done. bind_ok.
    unfold parse_l3. rewrite Ht, Hnone. cbn [In] in Hty. by repeat destruct Hty as [<- | Hty].
  - rewrite (parse_packet_ipv4 f i o []); rewrite <- ?E; [| done | done | done | done].
    rewrite Hfr. cbv zeta. by apply parse_l4_absent.
Qed.
End Wire.

(** C34. Round trip: a frame built from its headers, with any number of VLAN
    tags, around an ARP or RARP packet, an IPv4 packet with options and a TCP,
    UDP, ICMP or unknown payload, a fragment, or a packet of an unknown type,
    is parsed back to exactly those headers and to the offsets of the
    payloads. *)
Theorem parse_packet_roundtrip {host : Host} f :
  wf_frame f -> parse_packet (wire_frame f) = Ok (frame_info f).
Proof. apply parse_packet_frame. Qed.

Definition sample_macda : bytes := be_encode 6 0x0000deadbeef.
Definition sample_macsa : bytes := be_encode 6 0x001122334455.

Definition sample_frame : ether_frame :=
  EtherFrame sample_macda sample_macsa [0x2064; 0x0007]
    (IPv4 (Ipv4Info 4 6 0x10 45 7 0x4000 64 IPPROTO_TCP 0xabcd 0x0a000001 0x0a000002) (be_encode 4 0x01010100)
       (TCP (TcpInfo 80 1024 1 2 5 0x18 4096 0x1234 0) [] (be_encode 1 0x2a))).

Lemma sample_frame_wf : wf_frame sample_frame.
Proof.
  assert (Hi : wf_ipv4 (Ipv4Info 4 6 0x10 45 7 0x4000 64 IPPROTO_TCP 0xabcd 0x0a000001 0x0a000002)
                 (be_encode 4 0x01010100)) by (constructor; done).
  assert (Ht : wf_tcp (TcpInfo 80 1024 1 2 5 0x18 4096 0x1234 0) []) by (constructor; done).
  unfold wf_frame. split_and!; try done. repeat constructor; done.
Qed.

Lemma parse_packet_bounds_witness :
  blen (wire_frame sample_frame) < 2 ^ 64 /\
  (@parse_packet LittleEndian (wire_frame sample_frame) = Fault AssertFailed \/
   exists p, @parse_packet LittleEndian (wire_frame sample_frame) = Ok p /\ layers_in (wire_frame sample_frame) p).
Proof. assert (H : blen (wire_frame sample_frame) < 2 ^ 64) by reflexivity. exact (conj H (@parse_packet_bounds LittleEndian _ H)). Defined.

Lemma parse_packet_roundtrip_witness :
  @parse_packet LittleEndian (wire_frame sample_frame) = Ok (frame_info sample_frame) /\
  l4_payload (layers (frame_info sample_frame)) = Some 66.
Proof. exact (conj (@parse_packet_roundtrip LittleEndian sample_frame sample_frame_wf) eq_refl). Defined.

(** C35. A frame that ends where its type announces an ARP, RARP, IPv4, IPv6 or
    LLDP header, or an IPv4 packet that ends where its protocol announces a
    transport header, fails an assertion of the parser: such a frame from the
    network stops the process. *)
Theorem parse_packet_aborts {host : Host} f :
  length (fr_macda f) = 6%nat -> length (fr_macsa f) = 6%nat -> Forall (fits 2) (fr_tags f) ->
  headerless (fr_network f) -> blen (wire_frame f) < 2 ^ 64 ->
  parse_packet (wire_frame f) = Fault AssertFailed.
Proof.
  intros Hd Hs Ht Hh Hm. apply parse_packet_headerless; [| done].
  repeat split; try done; by apply headerless_type.
Qed.

Lemma parse_packet_aborts_witness :
  let f := EtherFrame sample_macda sample_macsa [] (OtherNetwork ETH_ETHTYPE_IPV4 []) in
  headerless (fr_network f) /\ blen (wire_frame f) = 14 /\
  @parse_packet LittleEndian (wire_frame f) = Fault AssertFailed.
Proof.
  intros f. assert (H : headerless (fr_network f)) by (constructor; cbn; tauto).
  refine (conj H (conj eq_refl (@parse_packet_aborts LittleEndian f eq_refl eq_refl (List.Forall_nil _) H eq_refl))).
Defined.
