(* ===== verification/MatchPacket.v ===== *)
(** openflow_message.c: the match of a packet and the normal form of a match.

    A match is updated in place by the code; here each assignment to a field is
    an update of the record.  [icmp_type] and [icmp_code] are [tp_src] and
    [tp_dst], as openflow.h defines them. *)

From Stdlib Require Import ZArith Lia Bool.
From coqutil Require Import Byte.
From stdpp Require Import base list.
From S2P Require Import Prelude Memory OpenFlow Codes Actions Validate Match PacketInfo PacketParser.

Implicit Types (x p m : ofp_match) (w v : Z).

Definition set_in_port x (v : Z) : ofp_match :=
  Build_ofp_match (wildcards x) v (dl_src x) (dl_dst x) (dl_vlan x) (dl_vlan_pcp x) (pad1 x) (dl_type x) (nw_tos x) (nw_proto x) (pad2 x) (nw_src x) (nw_dst x) (tp_src x) (tp_dst x).
Definition set_dl_src x (v : bytes) : ofp_match :=
  Build_ofp_match (wildcards x) (in_port x) v (dl_dst x) (dl_vlan x) (dl_vlan_pcp x) (pad1 x) (dl_type x) (nw_tos x) (nw_proto x) (pad2 x) (nw_src x) (nw_dst x) (tp_src x) (tp_dst x).
Definition set_dl_dst x (v : bytes) : ofp_match :=
  Build_ofp_match (wildcards x) (in_port x) (dl_src x) v (dl_vlan x) (dl_vlan_pcp x) (pad1 x) (dl_type x) (nw_tos x) (nw_proto x) (pad2 x) (nw_src x) (nw_dst x) (tp_src x) (tp_dst x).
Definition set_dl_vlan x (v : Z) : ofp_match :=
  Build_ofp_match (wildcards x) (in_port x) (dl_src x) (dl_dst x) v (dl_vlan_pcp x) (pad1 x) (dl_type x) (nw_tos x) (nw_proto x) (pad2 x) (nw_src x) (nw_dst x) (tp_src x) (tp_dst x).
Definition set_dl_vlan_pcp x (v : Z) : ofp_match :=
  Build_ofp_match (wildcards x) (in_port x) (dl_src x) (dl_dst x) (dl_vlan x) v (pad1 x) (dl_type x) (nw_tos x) (nw_proto x) (pad2 x) (nw_src x) (nw_dst x) (tp_src x) (tp_dst x).
Definition set_pad1 x (v : bytes) : ofp_match :=
  Build_ofp_match (wildcards x) (in_port x) (dl_src x) (dl_dst x) (dl_vlan x) (dl_vlan_pcp x) v (dl_type x) (nw_tos x) (nw_proto x) (pad2 x) (nw_src x) (nw_dst x) (tp_src x) (tp_dst x).
Definition set_dl_type x (v : Z) : ofp_match :=
  Build_ofp_match (wildcards x) (in_port x) (dl_src x) (dl_dst x) (dl_vlan x) (dl_vlan_pcp x) (pad1 x) v (nw_tos x) (nw_proto x) (pad2 x) (nw_src x) (nw_dst x) (tp_src x) (tp_dst x).
Definition set_nw_tos x (v : Z) : ofp_match :=
  Build_ofp_match (wildcards x) (in_port x) (dl_src x) (dl_dst x) (dl_vlan x) (dl_vlan_pcp x) (pad1 x) (dl_type x) v (nw_proto x) (pad2 x) (nw_src x) (nw_dst x) (tp_src x) (tp_dst x).
Definition set_nw_proto x (v : Z) : ofp_match :=
  Build_ofp_match (wildcards x) (in_port x) (dl_src x) (dl_dst x) (dl_vlan x) (dl_vlan_pcp x) (pad1 x) (dl_type x) (nw_tos x) v (pad2 x) (nw_src x) (nw_dst x) (tp_src x) (tp_dst x).
Definition set_pad2 x (v : bytes) : ofp_match :=
  Build_ofp_match (wildcards x) (in_port x) (dl_src x) (dl_dst x) (dl_vlan x) (dl_vlan_pcp x) (pad1 x) (dl_type x) (nw_tos x) (nw_proto x) v (nw_src x) (nw_dst x) (tp_src x) (tp_dst x).
Definition set_nw_src x (v : Z) : ofp_match :=
  Build_ofp_match (wildcards x) (in_port x) (dl_src x) (dl_dst x) (dl_vlan x) (dl_vlan_pcp x) (pad1 x) (dl_type x) (nw_tos x) (nw_proto x) (pad2 x) v (nw_dst x) (tp_src x) (tp_dst x).
Definition set_nw_dst x (v : Z) : ofp_match :=
  Build_ofp_match (wildcards x) (in_port x) (dl_src x) (dl_dst x) (dl_vlan x) (dl_vlan_pcp x) (pad1 x) (dl_type x) (nw_tos x) (nw_proto x) (pad2 x) (nw_src x) v (tp_src x) (tp_dst x).
Definition set_tp_src x (v : Z) : ofp_match :=
  Build_ofp_match (wildcards x) (in_port x) (dl_src x) (dl_dst x) (dl_vlan x) (dl_vlan_pcp x) (pad1 x) (dl_type x) (nw_tos x) (nw_proto x) (pad2 x) (nw_src x) (nw_dst x) v (tp_dst x).
Definition set_tp_dst x (v : Z) : ofp_match :=
  Build_ofp_match (wildcards x) (in_port x) (dl_src x) (dl_dst x) (dl_vlan x) (dl_vlan_pcp x) (pad1 x) (dl_type x) (nw_tos x) (nw_proto x) (pad2 x) (nw_src x) (nw_dst x) (tp_src x) v.

(** * set_match_from_packet *)

(** [0xffffffff << len] *)
Definition prefix_mask (len : Z) : Z := u32 (Z.shiftl 0xffffffff len).

Definition set_transport_from_packet x w (i : packet_info) : ofp_match :=
  if nw_proto x =? IPPROTO_ICMP then
    let x := if negb (truth (Z.land w OFPFW_ICMP_TYPE)) then set_tp_src x (icmpv4_type (icmpv4 i)) else x in
    if negb (truth (Z.land w OFPFW_ICMP_CODE)) then set_tp_dst x (icmpv4_code (icmpv4 i)) else x
  else if nw_proto x =? IPPROTO_TCP then
    let x := if negb (truth (Z.land w OFPFW_TP_SRC)) then set_tp_src x (tcp_src_port (tcp i)) else x in
    if negb (truth (Z.land w OFPFW_TP_DST)) then set_tp_dst x (tcp_dst_port (tcp i)) else x
  else if nw_proto x =? IPPROTO_UDP then
    let x := if negb (truth (Z.land w OFPFW_TP_SRC)) then set_tp_src x (udp_src_port (udp i)) else x in
    if negb (truth (Z.land w OFPFW_TP_DST)) then set_tp_dst x (udp_dst_port (udp i)) else x
  else x.

(** [match->nw_src] and [match->nw_dst], for IPv4 and ARP alike. *)
Definition set_nw_src_from_packet x w (saddr : Z) : ofp_match :=
  let nw_src_mask_len := Z.shiftr (Z.land w OFPFW_NW_SRC_MASK) OFPFW_NW_SRC_SHIFT in
  if nw_src_mask_len <? 32 then set_nw_src x (Z.land saddr (prefix_mask nw_src_mask_len)) else x.

Definition set_nw_dst_from_packet x w (daddr : Z) : ofp_match :=
  let nw_dst_mask_len := Z.shiftr (Z.land w OFPFW_NW_DST_MASK) OFPFW_NW_DST_SHIFT in
  if nw_dst_mask_len <? 32 then set_nw_dst x (Z.land daddr (prefix_mask nw_dst_mask_len)) else x.

Definition set_nw_tos_from_packet x w (i : packet_info) : ofp_match :=
  if negb (truth (Z.land w OFPFW_NW_TOS)) then
    let x := set_nw_tos x (ipv4_tos (ipv4 i)) in
    if truth (Z.land (nw_tos x) (Z.lnot NW_TOS_MASK))
    then set_nw_tos x (u8 (Z.land (nw_tos x) NW_TOS_MASK)) else x
  else x.

Definition set_ipv4_from_packet x w (i : packet_info) : ofp_match :=
  let x := set_nw_tos_from_packet x w i in
  let x := if negb (truth (Z.land w OFPFW_NW_PROTO)) then set_nw_proto x (ipv4_protocol (ipv4 i)) else x in
  let x := set_nw_src_from_packet x w (ipv4_saddr (ipv4 i)) in
  let x := set_nw_dst_from_packet x w (ipv4_daddr (ipv4 i)) in
  set_transport_from_packet x w i.

Definition set_arp_from_packet x w (i : packet_info) : ofp_match :=
  let x := if negb (truth (Z.land w OFPFW_NW_PROTO))
           then set_nw_proto x (u8 (Z.land (arp_ar_op (arp i)) ARP_OP_MASK)) else x in
  let x := set_nw_src_from_packet x w (arp_spa (arp i)) in
  set_nw_dst_from_packet x w (arp_tpa (arp i)).

(** [memset( match, 0, sizeof( struct ofp_match ) )] *)
Definition zero_match : ofp_match :=
  Build_ofp_match 0 0 (zeros 6) (zeros 6) 0 0 (zeros 1) 0 0 0 (zeros 2) 0 0 0 0.

(** [vtag] is [packet_type_eth_vtag( packet )]. *)
Definition set_dl_vlan_from_packet x w (vtag : bool) (i : packet_info) : ofp_match :=
  if negb (truth (Z.land w OFPFW_DL_VLAN)) then
    if vtag then
      let x := set_dl_vlan x (vlan_vid (vlan i)) in
      if truth (Z.land (dl_vlan x) (Z.lnot VLAN_VID_MASK))
      then set_dl_vlan x (u16 (Z.land (dl_vlan x) VLAN_VID_MASK)) else x
    else set_dl_vlan x UINT16_MAX
  else x.

Definition set_dl_vlan_pcp_from_packet x w (vtag : bool) (i : packet_info) : ofp_match :=
  if negb (truth (Z.land w OFPFW_DL_VLAN_PCP)) then
    if vtag then
      let x := set_dl_vlan_pcp x (vlan_prio (vlan i)) in
      if truth (Z.land (dl_vlan_pcp x) (Z.lnot VLAN_PCP_MASK))
      then set_dl_vlan_pcp x (u8 (Z.land (dl_vlan_pcp x) VLAN_PCP_MASK)) else x
    else x
  else x.

Definition set_ether_from_packet x w (in_port_ : Z) (vtag : bool) (i : packet_info) : ofp_match :=
  let x := if negb (truth (Z.land w OFPFW_IN_PORT)) then set_in_port x in_port_ else x in
  let x := if negb (truth (Z.land w OFPFW_DL_SRC)) then set_dl_src x (eth_macsa (eth i)) else x in
  let x := if negb (truth (Z.land w OFPFW_DL_DST)) then set_dl_dst x (eth_macda (eth i)) else x in
  let x := set_dl_vlan_from_packet x w vtag i in
  let x := set_dl_vlan_pcp_from_packet x w vtag i in
  if negb (truth (Z.land w OFPFW_DL_TYPE)) then set_dl_type x (eth_type (eth i)) else x.

Definition set_match_from_packet (in_port_ w : Z) (packet : frame) : res ofp_match :=
  match packet with
  | Some (Some i) =>
    let x := set_wildcards zero_match w in
    let* vtag := packet_type_eth_vtag packet in
    let x := set_ether_from_packet x w in_port_ vtag i in
    let x := if dl_type x =? ETH_ETHTYPE_IPV4 then set_ipv4_from_packet x w i else x in
    Ok (if dl_type x =? ETH_ETHTYPE_ARP then set_arp_from_packet x w i else x)
  | _ => Fault AssertFailed
  end.

(** * normalize_match *)

(** [match->wildcards |= bits] *)
Definition add_wildcards x (bits : Z) : ofp_match := set_wildcards x (Z.lor (wildcards x) bits).

Definition clear_tp x : ofp_match :=
  set_tp_dst (set_tp_src (add_wildcards (add_wildcards x OFPFW_TP_SRC) OFPFW_TP_DST) 0) 0.

Definition clear_nw x : ofp_match :=
  let x := add_wildcards x OFPFW_NW_TOS in
  let x := add_wildcards x OFPFW_NW_PROTO in
  let x := add_wildcards x OFPFW_NW_SRC_MASK in
  let x := add_wildcards x OFPFW_NW_DST_MASK in
  let x := add_wildcards x OFPFW_TP_SRC in
  let x := add_wildcards x OFPFW_TP_DST in
  let x := set_nw_tos x 0 in
  let x := set_nw_proto x 0 in
  let x := set_nw_src x 0 in
  let x := set_nw_dst x 0 in
  let x := set_tp_src x 0 in
  set_tp_dst x 0.

Definition normalize_in_port x : ofp_match :=
  if truth (Z.land (wildcards x) OFPFW_IN_PORT) then set_in_port x 0 else x.

Definition normalize_dl_vlan x : ofp_match :=
  if truth (Z.land (wildcards x) OFPFW_DL_VLAN) then set_dl_vlan x 0
  else if dl_vlan x =? UINT16_MAX then set_dl_vlan_pcp (add_wildcards x OFPFW_DL_VLAN_PCP) 0
  else set_dl_vlan x (Z.land (dl_vlan x) VLAN_VID_MASK).

Definition normalize_dl_src x : ofp_match :=
  if truth (Z.land (wildcards x) OFPFW_DL_SRC) then set_dl_src x (zeros 6) else x.

Definition normalize_dl_dst x : ofp_match :=
  if truth (Z.land (wildcards x) OFPFW_DL_DST) then set_dl_dst x (zeros 6) else x.

Definition normalize_type x : ofp_match :=
  if truth (Z.land (wildcards x) OFPFW_DL_TYPE) then clear_nw (set_dl_type x 0)
  else if dl_type x =? ETH_ETHTYPE_ARP then
    set_nw_tos (clear_tp (add_wildcards x OFPFW_NW_TOS)) 0
  else if negb (dl_type x =? ETH_ETHTYPE_IPV4) then clear_nw x
  else x.

Definition normalize_proto x : ofp_match :=
  if truth (Z.land (wildcards x) OFPFW_NW_PROTO) then
    let x := set_nw_proto x 0 in
    if negb (dl_type x =? ETH_ETHTYPE_IPV4) then clear_tp x else x
  else
    let x := if dl_type x =? ETH_ETHTYPE_ARP then set_nw_proto x (Z.land (nw_proto x) ARP_OP_MASK) else x in
    if (dl_type x =? ETH_ETHTYPE_IPV4) && negb (nw_proto x =? IPPROTO_TCP)
       && negb (nw_proto x =? IPPROTO_UDP) && negb (nw_proto x =? IPPROTO_ICMP)
    then clear_tp x else x.

Definition normalize_nw_src x : ofp_match :=
  let nw_src_mask_len := Z.shiftr (Z.land (wildcards x) OFPFW_NW_SRC_MASK) OFPFW_NW_SRC_SHIFT in
  if 32 <=? nw_src_mask_len then
    let x := set_wildcards x (Z.land (wildcards x) (not32 OFPFW_NW_SRC_MASK)) in
    set_nw_src (add_wildcards x OFPFW_NW_SRC_ALL) 0
  else set_nw_src x (Z.land (nw_src x) (prefix_mask nw_src_mask_len)).

Definition normalize_nw_dst x : ofp_match :=
  let nw_dst_mask_len := Z.shiftr (Z.land (wildcards x) OFPFW_NW_DST_MASK) OFPFW_NW_DST_SHIFT in
  if 32 <=? nw_dst_mask_len then
    let x := set_wildcards x (Z.land (wildcards x) (not32 OFPFW_NW_DST_MASK)) in
    set_nw_dst (add_wildcards x OFPFW_NW_DST_ALL) 0
  else set_nw_dst x (Z.land (nw_dst x) (prefix_mask nw_dst_mask_len)).

Definition normalize_tp_src x : ofp_match :=
  if truth (Z.land (wildcards x) OFPFW_TP_SRC) then set_tp_src x 0
  else if nw_proto x =? IPPROTO_ICMP then set_tp_src x (Z.land (tp_src x) ICMP_TYPE_MASK) else x.

Definition normalize_tp_dst x : ofp_match :=
  if truth (Z.land (wildcards x) OFPFW_TP_DST) then set_tp_dst x 0
  else if nw_proto x =? IPPROTO_ICMP then set_tp_dst x (Z.land (tp_dst x) ICMP_CODE_MASK) else x.

Definition normalize_dl_vlan_pcp x : ofp_match :=
  if truth (Z.land (wildcards x) OFPFW_DL_VLAN_PCP) then set_dl_vlan_pcp x 0
  else set_dl_vlan_pcp x (Z.land (dl_vlan_pcp x) VLAN_PCP_MASK).

Definition normalize_nw_tos x : ofp_match :=
  if truth (Z.land (wildcards x) OFPFW_NW_TOS) then set_nw_tos x 0
  else set_nw_tos x (Z.land (nw_tos x) NW_TOS_MASK).

Definition normalize_match x : ofp_match :=
  let x := set_pad1 x (zeros 1) in
  let x := set_pad2 x (zeros 2) in
  let x := set_wildcards x (Z.land (wildcards x) OFPFW_ALL) in
  let x := normalize_in_port x in
  let x := normalize_dl_vlan x in
  let x := normalize_dl_src x in
  let x := normalize_dl_dst x in
  let x := normalize_type x in
  let x := normalize_proto x in
  let x := normalize_nw_src x in
  let x := normalize_nw_dst x in
  let x := normalize_tp_src x in
  let x := normalize_tp_dst x in
  let x := normalize_dl_vlan_pcp x in
  normalize_nw_tos x.

(** * The wildcards of a match *)

(** The six bits of the length of a prefix, as the code reads them. *)
Definition raw_src w : Z := Z.shiftr w 8 mod 2 ^ 6.
Definition raw_dst w : Z := Z.shiftr w 14 mod 2 ^ 6.

Lemma raw_src_eq w : Z.shiftr (Z.land w OFPFW_NW_SRC_MASK) OFPFW_NW_SRC_SHIFT = raw_src w.
Proof. by apply shiftr_land_mask. Qed.

Lemma raw_dst_eq w : Z.shiftr (Z.land w OFPFW_NW_DST_MASK) OFPFW_NW_DST_SHIFT = raw_dst w.
Proof. by apply shiftr_land_mask. Qed.

Lemma raw_src_range w : 0 <= raw_src w < 64.
Proof. by apply Z.mod_pos_bound. Qed.

Lemma raw_dst_range w : 0 <= raw_dst w < 64.
Proof. by apply Z.mod_pos_bound. Qed.

Lemma wild_land w v f : wild (Z.land w v) f = wild w f && wild v f.
Proof. apply Z.land_spec. Qed.

Lemma bits6_lor s a b :
  Z.shiftr (Z.lor a b) s mod 2 ^ 6 = Z.lor (Z.shiftr a s mod 2 ^ 6) (Z.shiftr b s mod 2 ^ 6).
Proof. by rewrite Z.shiftr_lor, <- !Z.land_ones, Z.land_lor_distr_l. Qed.

Lemma bits6_land s a b :
  Z.shiftr (Z.land a b) s mod 2 ^ 6 = Z.land (Z.shiftr a s mod 2 ^ 6) (Z.shiftr b s mod 2 ^ 6).
Proof.
  rewrite Z.shiftr_land, <- !Z.land_ones by done. apply Z.bits_inj'. intros i Hi.
  rewrite !Z.land_spec. by destruct (Z.testbit (Z.ones 6) i); rewrite ?andb_true_r, ?andb_false_r.
Qed.

Lemma raw_src_lor a b : raw_src (Z.lor a b) = Z.lor (raw_src a) (raw_src b).
Proof. apply bits6_lor. Qed.
Lemma raw_dst_lor a b : raw_dst (Z.lor a b) = Z.lor (raw_dst a) (raw_dst b).
Proof. apply bits6_lor. Qed.
Lemma raw_src_land a b : raw_src (Z.land a b) = Z.land (raw_src a) (raw_src b).
Proof. apply bits6_land. Qed.
Lemma raw_dst_land a b : raw_dst (Z.land a b) = Z.land (raw_dst a) (raw_dst b).
Proof. apply bits6_land. Qed.

Lemma land_63 a : 0 <= a < 64 -> Z.land a 63 = a.
Proof. intros Ha. change 63 with (Z.ones 6). rewrite Z.land_ones by done. by apply Z.mod_small. Qed.

Lemma lor_63 a : 0 <= a < 64 -> Z.lor a 63 = 63.
Proof.
  intros Ha. apply Z.bits_inj'. intros i Hi. rewrite Z.lor_spec. change 63 with (Z.ones 6).
  destruct (Z.ltb_spec i 6); [by rewrite Z.ones_spec_low, orb_true_r by lia |].
  rewrite Z.ones_spec_high, orb_false_r by lia. apply (testbit_above _ 6); cbn; lia.
Qed.

(** The wildcards are what the bits of the fields and the prefixes say. *)
Lemma wildcards_eq w v :
  0 <= w < 2 ^ 22 -> 0 <= v < 2 ^ 22 ->
  (forall f, wild w f = wild v f) -> raw_src w = raw_src v -> raw_dst w = raw_dst v -> w = v.
Proof.
  intros Hw Hv Hf Hs Hd. apply Z.bits_inj'. intros i Hi.
  assert (B : forall s, 0 <= s -> Z.shiftr w s mod 2 ^ 6 = Z.shiftr v s mod 2 ^ 6 ->
    forall k, s <= k < s + 6 -> Z.testbit w k = Z.testbit v k).
  { intros s Hs0 E k Hk. apply (f_equal (fun z => Z.testbit z (k - s))) in E.
    rewrite !Z.mod_pow2_bits_low, !Z.shiftr_spec in E by lia. by replace (k - s + s) with k in E by lia. }
  destruct (Z.ltb_spec i 22) as [Hlt |]; [| by rewrite !(testbit_above _ 22) by lia].
  destruct (Z.ltb_spec i 8) as [H8 |].
  - assert (Hc : forallb (fun i => is_field_bit i) (seqZ 0 8) = true) by (by vm_compute).
    rewrite forallb_forall in Hc. assert (In i (seqZ 0 8)) as Hin%Hc by (apply list_elem_of_In, elem_of_seqZ; lia).
    apply existsb_exists in Hin as (f & _ & <-%Z.eqb_eq). apply Hf.
  - destruct (Z.ltb_spec i 14); [by apply (B 8); [| | lia] |].
    destruct (Z.ltb_spec i 20); [by apply (B 14); [| | lia] |].
    assert (i = 20 \/ i = 21) as [-> | ->] by lia; [apply (Hf FDlVlanPcp) | apply (Hf FNwTos)].
Qed.

(** Evaluate what the constants of openflow.h say of wildcards. *)
Ltac is_flag c := first [is_const c | match c with not32 ?d => is_const d end].
Ltac const_bits :=
  repeat match goal with
  | |- context [wild ?c ?f] => is_flag c; let b := eval vm_compute in (wild c f) in change (wild c f) with b
  | |- context [raw_src ?c] => is_flag c; let b := eval vm_compute in (raw_src c) in change (raw_src c) with b
  | |- context [raw_dst ?c] => is_flag c; let b := eval vm_compute in (raw_dst c) in change (raw_dst c) with b
  end.

Ltac read_bits :=
  rewrite ?(wildcard_bits FInPort), ?(wildcard_bits FDlVlan), ?(wildcard_bits FDlSrc), ?(wildcard_bits FDlDst),
    ?(wildcard_bits FDlType), ?(wildcard_bits FNwProto), ?(wildcard_bits FTpSrc), ?(wildcard_bits FTpDst),
    ?(wildcard_bits FDlVlanPcp), ?(wildcard_bits FNwTos), ?raw_src_eq, ?raw_dst_eq.

Ltac write_bits :=
  rewrite ?wild_lor, ?wild_land, ?raw_src_lor, ?raw_dst_lor, ?raw_src_land, ?raw_dst_land; const_bits;
  rewrite ?orb_true_r, ?orb_false_r, ?andb_true_r, ?andb_false_r, ?Z.lor_0_r, ?Z.lor_0_l, ?Z.land_0_r,
    ?land_63, ?lor_63 by (apply raw_src_range || apply raw_dst_range).

(** * The normal form

    A field is dead when another field of the match makes it meaningless. *)

Definition not_ipv4 x : bool := wild (wildcards x) FDlType || negb (dl_type x =? ETH_ETHTYPE_IPV4).

Definition not_ip_nor_arp x : bool := not_ipv4 x && (wild (wildcards x) FDlType || negb (dl_type x =? ETH_ETHTYPE_ARP)).

Definition no_ports x : bool :=
  not_ipv4 x ||
  (negb (wild (wildcards x) FNwProto) && negb (nw_proto x =? IPPROTO_TCP) && negb (nw_proto x =? IPPROTO_UDP)
   && negb (nw_proto x =? IPPROTO_ICMP)).

Definition dead x (f : field) : bool :=
  match f with
  | FDlVlanPcp => negb (wild (wildcards x) FDlVlan) && (dl_vlan x =? UINT16_MAX)
  | FNwTos => not_ipv4 x
  | FNwProto => not_ip_nor_arp x
  | FTpSrc | FTpDst => no_ports x
  | _ => false
  end.

Definition ignored x (f : field) : bool := wild (wildcards x) f || dead x f.

(** The part of the value of a field that counts. *)
Definition vlan_value v : Z := if v =? UINT16_MAX then v else Z.land v VLAN_VID_MASK.
Definition proto_value x : Z :=
  if ignored x FNwProto then 0
  else if dl_type x =? ETH_ETHTYPE_ARP then Z.land (nw_proto x) ARP_OP_MASK else nw_proto x.
Definition port_value x v : Z := if proto_value x =? IPPROTO_ICMP then Z.land v 0xff else v.

(** ** Each step as an update of fields *)

Ltac setters :=
  cbn [wildcards in_port dl_src dl_dst dl_vlan dl_vlan_pcp pad1 dl_type nw_tos nw_proto pad2 nw_src nw_dst tp_src tp_dst
    set_wildcards set_in_port set_dl_src set_dl_dst set_dl_vlan set_dl_vlan_pcp set_pad1 set_dl_type set_nw_tos
    set_nw_proto set_pad2 set_nw_src set_nw_dst set_tp_src set_tp_dst add_wildcards clear_tp clear_nw].

Ltac step :=
  match goal with x : ofp_match |- _ => destruct x end; setters; read_bits; repeat (case_match; cbn in *); try done.

Lemma normalize_in_port_eq x :
  normalize_in_port x = set_in_port x (if wild (wildcards x) FInPort then 0 else in_port x).
Proof. unfold normalize_in_port. step. Qed.

Lemma normalize_dl_vlan_eq x :
  normalize_dl_vlan x =
  set_dl_vlan (set_dl_vlan_pcp (set_wildcards x
    (if dead x FDlVlanPcp then Z.lor (wildcards x) OFPFW_DL_VLAN_PCP else wildcards x))
    (if dead x FDlVlanPcp then 0 else dl_vlan_pcp x))
    (if wild (wildcards x) FDlVlan then 0 else vlan_value (dl_vlan x)).
Proof. unfold normalize_dl_vlan, dead, vlan_value. step. Qed.

Lemma normalize_dl_src_eq x :
  normalize_dl_src x = set_dl_src x (if wild (wildcards x) FDlSrc then zeros 6 else dl_src x).
Proof. unfold normalize_dl_src. step. Qed.

Lemma normalize_dl_dst_eq x :
  normalize_dl_dst x = set_dl_dst x (if wild (wildcards x) FDlDst then zeros 6 else dl_dst x).
Proof. unfold normalize_dl_dst. step. Qed.

Definition nw_wildcards w : Z :=
  Z.lor (Z.lor (Z.lor (Z.lor (Z.lor (Z.lor w OFPFW_NW_TOS) OFPFW_NW_PROTO) OFPFW_NW_SRC_MASK) OFPFW_NW_DST_MASK)
    OFPFW_TP_SRC) OFPFW_TP_DST.
Definition tp_wildcards w : Z := Z.lor (Z.lor w OFPFW_TP_SRC) OFPFW_TP_DST.

Lemma normalize_type_eq x :
  normalize_type x =
  set_wildcards (set_dl_type (set_nw_tos (set_nw_proto (set_nw_src (set_nw_dst (set_tp_src (set_tp_dst x
    (if not_ipv4 x then 0 else tp_dst x))
    (if not_ipv4 x then 0 else tp_src x))
    (if not_ip_nor_arp x then 0 else nw_dst x))
    (if not_ip_nor_arp x then 0 else nw_src x))
    (if not_ip_nor_arp x then 0 else nw_proto x))
    (if not_ipv4 x then 0 else nw_tos x))
    (if wild (wildcards x) FDlType then 0 else dl_type x))
    (if not_ip_nor_arp x then nw_wildcards (wildcards x)
     else if not_ipv4 x then tp_wildcards (Z.lor (wildcards x) OFPFW_NW_TOS) else wildcards x).
Proof.
  unfold normalize_type, not_ip_nor_arp, not_ipv4. destruct x as [w ? ? ? ? ? ? ty ? pr ? ? ? ? ?]; setters; read_bits.
  destruct (wild w FDlType); [done |]. cbn [orb].
  destruct (Z.eqb_spec ty ETH_ETHTYPE_ARP) as [-> |]; [done |].
  by destruct (Z.eqb_spec ty ETH_ETHTYPE_IPV4).
Qed.

(** After [normalize_type]: the protocol of a match without a type is a wildcard. *)
Definition other_transport x : bool :=
  (dl_type x =? ETH_ETHTYPE_IPV4) && negb (nw_proto x =? IPPROTO_TCP) && negb (nw_proto x =? IPPROTO_UDP)
  && negb (nw_proto x =? IPPROTO_ICMP).
Definition ports_cleared x : bool :=
  if wild (wildcards x) FNwProto then negb (dl_type x =? ETH_ETHTYPE_IPV4) else other_transport x.

Lemma normalize_proto_eq x :
  normalize_proto x =
  set_wildcards (set_nw_proto (set_tp_src (set_tp_dst x
    (if ports_cleared x then 0 else tp_dst x))
    (if ports_cleared x then 0 else tp_src x))
    (if wild (wildcards x) FNwProto then 0
     else if dl_type x =? ETH_ETHTYPE_ARP then Z.land (nw_proto x) ARP_OP_MASK else nw_proto x))
    (if ports_cleared x then tp_wildcards (wildcards x) else wildcards x).
Proof.
  unfold normalize_proto, ports_cleared, other_transport. destruct x as [w ? ? ? ? ? ? ty ? pr ? ? ? ? ?]; setters; read_bits.
  destruct (wild w FNwProto); [by destruct (ty =? ETH_ETHTYPE_IPV4) |].
  destruct (Z.eqb_spec ty ETH_ETHTYPE_ARP) as [-> |]; [done |]. setters.
  destruct (ty =? ETH_ETHTYPE_IPV4); [| done].
  by destruct (pr =? IPPROTO_TCP), (pr =? IPPROTO_UDP), (pr =? IPPROTO_ICMP).
Qed.

Lemma prefix_mask_eq r : r < 32 -> prefix_mask r = mask r.
Proof. intros H. unfold prefix_mask, mask. by replace (32 <=? r) with false by lia. Qed.

Definition src_wildcards w : Z :=
  if 32 <=? raw_src w then Z.lor (Z.land w (not32 OFPFW_NW_SRC_MASK)) OFPFW_NW_SRC_ALL else w.
Definition dst_wildcards w : Z :=
  if 32 <=? raw_dst w then Z.lor (Z.land w (not32 OFPFW_NW_DST_MASK)) OFPFW_NW_DST_ALL else w.

Lemma land_mask_32 a r : 32 <= r -> Z.land a (mask r) = 0.
Proof. intros H. unfold mask. replace (32 <=? r) with true by lia. apply Z.land_0_r. Qed.

Lemma normalize_nw_src_eq x :
  normalize_nw_src x =
  set_nw_src (set_wildcards x (src_wildcards (wildcards x))) (Z.land (nw_src x) (mask (raw_src (wildcards x)))).
Proof.
  unfold normalize_nw_src, src_wildcards. cbv zeta. rewrite raw_src_eq.
  destruct (Z.leb_spec 32 (raw_src (wildcards x))); [by rewrite land_mask_32 | by destruct x; rewrite prefix_mask_eq].
Qed.

Lemma normalize_nw_dst_eq x :
  normalize_nw_dst x =
  set_nw_dst (set_wildcards x (dst_wildcards (wildcards x))) (Z.land (nw_dst x) (mask (raw_dst (wildcards x)))).
Proof.
  unfold normalize_nw_dst, dst_wildcards. cbv zeta. rewrite raw_dst_eq.
  destruct (Z.leb_spec 32 (raw_dst (wildcards x))); [by rewrite land_mask_32 | by destruct x; rewrite prefix_mask_eq].
Qed.

Lemma normalize_tp_src_eq x :
  normalize_tp_src x = set_tp_src x (if wild (wildcards x) FTpSrc then 0
    else if nw_proto x =? IPPROTO_ICMP then Z.land (tp_src x) 0xff else tp_src x).
Proof. unfold normalize_tp_src. step. Qed.

Lemma normalize_tp_dst_eq x :
  normalize_tp_dst x = set_tp_dst x (if wild (wildcards x) FTpDst then 0
    else if nw_proto x =? IPPROTO_ICMP then Z.land (tp_dst x) 0xff else tp_dst x).
Proof. unfold normalize_tp_dst. step. Qed.

Lemma normalize_dl_vlan_pcp_eq x :
  normalize_dl_vlan_pcp x =
  set_dl_vlan_pcp x (if wild (wildcards x) FDlVlanPcp then 0 else Z.land (dl_vlan_pcp x) VLAN_PCP_MASK).
Proof. unfold normalize_dl_vlan_pcp. step. Qed.

Lemma normalize_nw_tos_eq x :
  normalize_nw_tos x = set_nw_tos x (if wild (wildcards x) FNwTos then 0 else Z.land (nw_tos x) NW_TOS_MASK).
Proof. unfold normalize_nw_tos. step. Qed.

(** ** The wildcards of the result *)

Lemma src_wildcards_bits w :
  (forall f, wild (src_wildcards w) f = wild w f) /\
  raw_src (src_wildcards w) = (if 32 <=? raw_src w then 32 else raw_src w) /\
  raw_dst (src_wildcards w) = raw_dst w.
Proof.
  unfold src_wildcards. destruct (32 <=? raw_src w); [| done].
  split_and!; [intros [] | |]; by write_bits.
Qed.

Lemma dst_wildcards_bits w :
  (forall f, wild (dst_wildcards w) f = wild w f) /\
  raw_dst (dst_wildcards w) = (if 32 <=? raw_dst w then 32 else raw_dst w) /\
  raw_src (dst_wildcards w) = raw_src w.
Proof.
  unfold dst_wildcards. destruct (32 <=? raw_dst w); [| done].
  split_and!; [intros [] | |]; by write_bits.
Qed.

(** The wildcards after each step. *)
Definition wildcards1 x : Z :=
  let w := Z.land (wildcards x) OFPFW_ALL in
  if dead x FDlVlanPcp then Z.lor w OFPFW_DL_VLAN_PCP else w.
Definition wildcards2 x : Z :=
  let w := wildcards1 x in
  if not_ip_nor_arp x then nw_wildcards w
  else if not_ipv4 x then tp_wildcards (Z.lor w OFPFW_NW_TOS) else w.
Definition wildcards3 x : Z :=
  let w := wildcards2 x in if no_ports x then tp_wildcards w else w.
Definition wildcards4 x : Z := dst_wildcards (src_wildcards (wildcards3 x)).

Lemma not_ipv4_no_ports x : not_ipv4 x = true -> no_ports x = true.
Proof. unfold no_ports. by intros ->. Qed.

Lemma not_ip_nor_arp_not_ipv4 x : not_ip_nor_arp x = true -> not_ipv4 x = true.
Proof. unfold not_ip_nor_arp. by intros [? _]%andb_true_iff. Qed.

(** Split on what is dead; the impossible combinations go away. *)
Ltac split_dead x :=
  pose proof (not_ipv4_no_ports x); pose proof (not_ip_nor_arp_not_ipv4 x);
  destruct (not_ip_nor_arp x), (not_ipv4 x), (no_ports x); try (by intuition discriminate); clear.

Lemma wildcards3_wild x f : wild (wildcards3 x) f = ignored x f.
Proof.
  unfold wildcards3, wildcards2, wildcards1, ignored, nw_wildcards, tp_wildcards. cbv zeta.
  destruct f; cbn [dead]; split_dead x;
    destruct (negb (wild (wildcards x) FDlVlan) && (dl_vlan x =? UINT16_MAX)); by write_bits.
Qed.

Lemma wildcards3_raw_src x :
  raw_src (wildcards3 x) = if not_ip_nor_arp x then 63 else raw_src (wildcards x).
Proof.
  unfold wildcards3, wildcards2, wildcards1, nw_wildcards, tp_wildcards. cbv zeta. split_dead x;
    destruct (dead x FDlVlanPcp); by write_bits.
Qed.

Lemma wildcards3_raw_dst x :
  raw_dst (wildcards3 x) = if not_ip_nor_arp x then 63 else raw_dst (wildcards x).
Proof.
  unfold wildcards3, wildcards2, wildcards1, nw_wildcards, tp_wildcards. cbv zeta. split_dead x;
    destruct (dead x FDlVlanPcp); by write_bits.
Qed.

Lemma wildcards4_spec x :
  (forall f, wild (wildcards4 x) f = ignored x f) /\
  raw_src (wildcards4 x) = (if not_ip_nor_arp x || (32 <=? raw_src (wildcards x)) then 32 else raw_src (wildcards x)) /\
  raw_dst (wildcards4 x) = (if not_ip_nor_arp x || (32 <=? raw_dst (wildcards x)) then 32 else raw_dst (wildcards x)).
Proof.
  unfold wildcards4. destruct (src_wildcards_bits (wildcards3 x)) as (S1 & S2 & S3).
  destruct (dst_wildcards_bits (src_wildcards (wildcards3 x))) as (D1 & D2 & D3).
  split_and!; [intros f; by rewrite D1, S1, wildcards3_wild | |].
  - rewrite D3, S2, wildcards3_raw_src. by destruct (not_ip_nor_arp x).
  - rewrite D2, S3, wildcards3_raw_dst. by destruct (not_ip_nor_arp x).
Qed.

Definition below22 w : Prop := 0 <= w < 2 ^ 22.

Lemma land_below (n a b : Z) : 0 <= n -> 0 <= b < 2 ^ n -> 0 <= Z.land a b < 2 ^ n.
Proof.
  intros Hn Hb. assert (0 <= Z.land a b) by (apply Z.land_nonneg; lia). split; [done |].
  destruct (Z.eq_dec (Z.land a b) 0) as [-> |]; [lia |].
  apply Z.log2_lt_pow2; [lia |]. destruct (Z.ltb_spec (Z.log2 (Z.land a b)) n) as [| Hge]; [done | exfalso].
  pose proof (Z.bit_log2 (Z.land a b) ltac:(lia)) as Hbit.
  rewrite Z.land_spec, (testbit_above b n), andb_false_r in Hbit by lia. done.
Qed.

Lemma below22_land w v : below22 v -> below22 (Z.land w v).
Proof. by apply land_below. Qed.

Lemma below22_lor w v : below22 w -> below22 v -> below22 (Z.lor w v).
Proof.
  intros Hw Hv. unfold below22 in *. assert (0 <= Z.lor w v) by (apply Z.lor_nonneg; lia). split; [done |].
  destruct (Z.eq_dec (Z.lor w v) 0) as [-> |]; [done |].
  apply Z.log2_lt_pow2; [lia |]. rewrite Z.log2_lor by lia.
  apply Z.max_lub_lt; [destruct (Z.eq_dec w 0) as [-> |] | destruct (Z.eq_dec v 0) as [-> |]];
    try done; by apply Z.log2_lt_pow2; lia.
Qed.

Lemma wildcards4_below22 x : below22 (wildcards4 x).
Proof.
  unfold wildcards4, dst_wildcards, src_wildcards, wildcards3, wildcards2, wildcards1, nw_wildcards, tp_wildcards.
  cbv zeta. assert (C : forall w v, below22 w -> below22 v -> below22 (Z.land w (not32 v))).
  { intros w v Hw Hv. rewrite Z.land_comm. by apply below22_land. }
  repeat case_match; repeat first [apply below22_lor | apply C | apply below22_land]; done.
Qed.

(** ** The composition of the steps *)

Lemma normalize_dl_eq x :
  let w := Z.land (wildcards x) OFPFW_ALL in
  normalize_dl_dst (normalize_dl_src (normalize_dl_vlan (normalize_in_port
    (set_wildcards (set_pad2 (set_pad1 x (zeros 1)) (zeros 2)) w)))) =
  Build_ofp_match (wildcards1 x)
    (if ignored x FInPort then 0 else in_port x)
    (if ignored x FDlSrc then zeros 6 else dl_src x)
    (if ignored x FDlDst then zeros 6 else dl_dst x)
    (if ignored x FDlVlan then 0 else vlan_value (dl_vlan x))
    (if dead x FDlVlanPcp then 0 else dl_vlan_pcp x) (zeros 1) (dl_type x) (nw_tos x) (nw_proto x) (zeros 2)
    (nw_src x) (nw_dst x) (tp_src x) (tp_dst x).
Proof.
  cbv zeta. set (w := Z.land (wildcards x) OFPFW_ALL).
  assert (E0 : forall f, wild w f = wild (wildcards x) f) by (intros []; unfold w; by write_bits).
  assert (E : forall f, f <> FDlVlanPcp -> wild (wildcards1 x) f = wild (wildcards x) f).
  { intros f Hf. rewrite <- E0. unfold wildcards1. fold w. cbv zeta. by destruct (dead x FDlVlanPcp), f; write_bits. }
  rewrite normalize_in_port_eq. setters. rewrite normalize_dl_vlan_eq. unfold dead at 1 2. setters. rewrite !E0.
  change (negb (wild (wildcards x) FDlVlan) && (dl_vlan x =? UINT16_MAX)) with (dead x FDlVlanPcp).
  change (if dead x FDlVlanPcp then Z.lor w OFPFW_DL_VLAN_PCP else w) with (wildcards1 x).
  rewrite normalize_dl_src_eq. setters. rewrite normalize_dl_dst_eq. setters. rewrite !E by done.
  unfold ignored. by rewrite !orb_false_r.
Qed.

Lemma lor_tp_absorb w v : tp_wildcards (tp_wildcards v) = tp_wildcards v /\
  tp_wildcards (nw_wildcards w) = nw_wildcards w.
Proof.
  unfold tp_wildcards, nw_wildcards.
  split; apply Z.bits_inj'; intros i _; rewrite !Z.lor_spec;
    by destruct (Z.testbit OFPFW_TP_SRC i), (Z.testbit OFPFW_TP_DST i); rewrite ?orb_true_r, ?orb_false_r.
Qed.

Lemma normalize_nw_eq x w vl pcp ip ds dd :
  (forall f, f <> FDlVlanPcp -> wild w f = wild (wildcards x) f) ->
  let w2 := if not_ip_nor_arp x then nw_wildcards w
            else if not_ipv4 x then tp_wildcards (Z.lor w OFPFW_NW_TOS) else w in
  normalize_proto (normalize_type (Build_ofp_match w ip ds dd vl pcp (zeros 1) (dl_type x) (nw_tos x) (nw_proto x) (zeros 2)
    (nw_src x) (nw_dst x) (tp_src x) (tp_dst x))) =
  Build_ofp_match (if no_ports x then tp_wildcards w2 else w2) ip ds dd vl pcp (zeros 1)
    (if ignored x FDlType then 0 else dl_type x) (if not_ipv4 x then 0 else nw_tos x) (proto_value x) (zeros 2)
    (if not_ip_nor_arp x then 0 else nw_src x) (if not_ip_nor_arp x then 0 else nw_dst x)
    (if no_ports x then 0 else tp_src x) (if no_ports x then 0 else tp_dst x).
Proof.
  intros E w2. rewrite normalize_type_eq. set (y := Build_ofp_match _ _ _ _ _ _ _ _ _ _ _ _ _ _ _).
  assert (N1 : not_ipv4 y = not_ipv4 x) by (unfold not_ipv4; cbn [y wildcards dl_type]; by rewrite E).
  assert (N2 : not_ip_nor_arp y = not_ip_nor_arp x).
  { unfold not_ip_nor_arp. rewrite N1. cbn [y wildcards dl_type]. by rewrite E. }
  rewrite N1, N2. subst y. setters. rewrite (E FDlType) by done. fold w2.
  rewrite normalize_proto_eq. unfold ports_cleared, other_transport. setters. subst w2.
  pose proof (E FNwProto ltac:(done)) as Ep.
  assert (P1 : wild (nw_wildcards w) FNwProto = true) by (unfold nw_wildcards; by write_bits).
  assert (P2 : wild (tp_wildcards (Z.lor w OFPFW_NW_TOS)) FNwProto = wild w FNwProto) by (unfold tp_wildcards; by write_bits).
  destruct (lor_tp_absorb w (Z.lor w OFPFW_NW_TOS)) as [A1 A2].
  unfold proto_value, no_ports, ignored, dead, not_ip_nor_arp, not_ipv4.
  destruct (wild (wildcards x) FDlType) eqn:Ew; cbn [orb andb].
  { rewrite P1, orb_true_r. by rewrite A2. }
  destruct (Z.eqb_spec (dl_type x) ETH_ETHTYPE_IPV4) as [Ei | Ei]; cbn [orb andb negb].
  { rewrite Ei. change (ETH_ETHTYPE_IPV4 =? ETH_ETHTYPE_ARP) with false. change (ETH_ETHTYPE_IPV4 =? ETH_ETHTYPE_IPV4) with true.
    rewrite Ep, !orb_false_r. cbn [negb andb].
    by destruct (wild (wildcards x) FNwProto), (nw_proto x =? IPPROTO_TCP), (nw_proto x =? IPPROTO_UDP), (nw_proto x =? IPPROTO_ICMP). }
  destruct (Z.eqb_spec (dl_type x) ETH_ETHTYPE_ARP) as [Ea | Ea]; cbn [orb andb negb].
  - rewrite P2, Ep, orb_false_r. destruct (wild (wildcards x) FNwProto); cbn [negb]; by rewrite ?A1.
  - rewrite P1, orb_true_r. cbn [negb]. by rewrite A2.
Qed.

Lemma normalize_match_eq x :
  let n := wildcards4 x in
  normalize_match x =
  Build_ofp_match n
    (if ignored x FInPort then 0 else in_port x)
    (if ignored x FDlSrc then zeros 6 else dl_src x)
    (if ignored x FDlDst then zeros 6 else dl_dst x)
    (if ignored x FDlVlan then 0 else vlan_value (dl_vlan x))
    (if ignored x FDlVlanPcp then 0 else Z.land (dl_vlan_pcp x) VLAN_PCP_MASK) (zeros 1)
    (if ignored x FDlType then 0 else dl_type x)
    (if ignored x FNwTos then 0 else Z.land (nw_tos x) NW_TOS_MASK) (proto_value x) (zeros 2)
    (Z.land (nw_src x) (mask (raw_src n))) (Z.land (nw_dst x) (mask (raw_dst n)))
    (if ignored x FTpSrc then 0 else port_value x (tp_src x))
    (if ignored x FTpDst then 0 else port_value x (tp_dst x)).
Proof.
  intros n. unfold normalize_match. cbv zeta. setters. rewrite normalize_dl_eq.
  rewrite normalize_nw_eq by (intros [] ?; try done; unfold wildcards1; cbv zeta; destruct (dead x FDlVlanPcp); by write_bits).
  cbv zeta. fold (wildcards2 x). fold (wildcards3 x).
  destruct (src_wildcards_bits (wildcards3 x)) as (S1 & S2 & S3).
  destruct (dst_wildcards_bits (src_wildcards (wildcards3 x))) as (D1 & D2 & D3).
  destruct (wildcards4_spec x) as (N1 & N2 & N3). fold n in N1, N2, N3.
  rewrite normalize_nw_src_eq. setters. rewrite normalize_nw_dst_eq. setters. fold n.
  rewrite normalize_tp_src_eq. setters. rewrite normalize_tp_dst_eq. setters.
  rewrite normalize_dl_vlan_pcp_eq. setters. rewrite normalize_nw_tos_eq. setters.
  change (dst_wildcards (src_wildcards (wildcards3 x))) with n. rewrite !N1, S3.
  assert (L : forall a (b : bool) r, Z.land (if b then 0 else a) (mask (if b then 63 else r)) =
    Z.land a (mask (if b || (32 <=? r) then 32 else r))).
  { intros a [] r; cbn [orb]; [by rewrite !land_mask_32 |].
    destruct (Z.leb_spec 32 r); [by rewrite !land_mask_32 by lia | done]. }
  rewrite wildcards3_raw_src, wildcards3_raw_dst, !L, <- N2, <- N3.
  assert (I : forall f v (g : Z -> Z), (if ignored x f then 0 else g (if dead x f then 0 else v)) =
    (if ignored x f then 0 else g v)).
  { intros f v g. unfold ignored. by destruct (wild (wildcards x) f), (dead x f). }
  pose proof (I FDlVlanPcp (dl_vlan_pcp x) (fun v => Z.land v VLAN_PCP_MASK)) as I1.
  pose proof (I FNwTos (nw_tos x) (fun v => Z.land v NW_TOS_MASK)) as I2.
  pose proof (I FTpSrc (tp_src x) (port_value x)) as I3. pose proof (I FTpDst (tp_dst x) (port_value x)) as I4.
  change (dead x FNwTos) with (not_ipv4 x) in I2. change (dead x FTpSrc) with (no_ports x) in I3.
  change (dead x FTpDst) with (no_ports x) in I4. unfold port_value in *. cbv beta in *. by rewrite I1, I2, I3, I4.
Qed.

(** * The normal form is valid and stable *)

Lemma land_fits (v m : Z) (k : nat) : fits k v -> fits k (Z.land v m).
Proof. intros Hv. rewrite Z.land_comm. apply land_below; [lia | exact Hv]. Qed.

Lemma land_land (v m : Z) : Z.land (Z.land v m) m = Z.land v m.
Proof. by rewrite <- Z.land_assoc, Z.land_diag. Qed.

Lemma land_lnot (v m : Z) : Z.land (Z.land v m) (Z.lnot m) = 0.
Proof. by rewrite <- Z.land_assoc, Z.land_lnot_diag, Z.land_0_r. Qed.

Lemma vlan_value_idem v : vlan_value (vlan_value v) = vlan_value v.
Proof.
  unfold vlan_value. destruct (Z.eqb_spec v UINT16_MAX) as [-> |]; [done |]. rewrite land_land. by case_match.
Qed.

Lemma vlan_value_max v : (vlan_value v =? UINT16_MAX) = (v =? UINT16_MAX).
Proof.
  unfold vlan_value. destruct (Z.eqb_spec v UINT16_MAX) as [-> |]; [done |].
  apply Z.eqb_neq. unfold VLAN_VID_MASK. change 0x0fff with (Z.ones 12). rewrite Z.land_ones by done.
  pose proof (Z.mod_pos_bound v (2 ^ 12)). unfold UINT16_MAX. lia.
Qed.

Lemma normalize_wf x : wf_match x -> wf_match (normalize_match x).
Proof.
  intros []. rewrite normalize_match_eq. pose proof (wildcards4_below22 x) as Hw. unfold below22 in Hw.
  assert (V : fits 2 (vlan_value (dl_vlan x))) by (unfold vlan_value; case_match; [done | by apply land_fits]).
  assert (M : forall r, 0 <= mask r) by (intros r; unfold mask; case_match; [done | by apply Z.mod_pos_bound]).
  assert (P : fits 1 (proto_value x)) by (unfold proto_value; repeat case_match; try done; by apply land_fits).
  assert (T : forall v, fits 2 v -> fits 2 (port_value x v)) by (intros v Hv; unfold port_value; case_match; [by apply land_fits | done]).
  split; setters; try done; repeat case_match; try done; try (by apply land_fits); auto.
  unfold fits. cbn in *. lia.
Qed.

Lemma normalize_valid x : validate_match (normalize_match x) = 0.
Proof.
  rewrite normalize_match_eq. unfold validate_match. setters.
  assert (W : validate_wildcards (wildcards4 x) = 0).
  { unfold validate_wildcards. replace (Z.land (wildcards4 x) (not32 OFPFW_ALL)) with 0; [done |]. symmetry.
    apply Z.bits_inj'. intros i Hi. rewrite Z.land_spec, Z.bits_0. destruct (Z.ltb_spec i 22).
    - rewrite not32_bit by lia. change OFPFW_ALL with (Z.ones 22). rewrite Z.ones_spec_low by lia. apply andb_false_r.
    - by rewrite (testbit_above (wildcards4 x) 22) by (try apply wildcards4_below22; lia). }
  assert (V : validate_vlan_vid (if ignored x FDlVlan then 0 else vlan_value (dl_vlan x)) = 0).
  { unfold validate_vlan_vid, vlan_value. destruct (ignored x FDlVlan); [done |].
    destruct (Z.eqb_spec (dl_vlan x) UINT16_MAX) as [-> |]; [done |]. by rewrite land_lnot, andb_false_r. }
  assert (P : validate_vlan_pcp (if ignored x FDlVlanPcp then 0 else Z.land (dl_vlan_pcp x) VLAN_PCP_MASK) = 0).
  { unfold validate_vlan_pcp. destruct (ignored x FDlVlanPcp); [done |]. by rewrite land_lnot. }
  assert (T : validate_nw_tos (if ignored x FNwTos then 0 else Z.land (nw_tos x) NW_TOS_MASK) = 0).
  { unfold validate_nw_tos. destruct (ignored x FNwTos); [done |]. by rewrite land_lnot. }
  by rewrite W, V, P, T.
Qed.

Lemma normalize_wild x f : wild (wildcards (normalize_match x)) f = ignored x f.
Proof. rewrite normalize_match_eq. setters. apply wildcards4_spec. Qed.

Lemma normalize_not_ipv4 x : not_ipv4 (normalize_match x) = not_ipv4 x.
Proof.
  unfold not_ipv4. rewrite normalize_wild, normalize_match_eq. setters. unfold ignored, dead. rewrite orb_false_r.
  by destruct (wild (wildcards x) FDlType).
Qed.

Lemma normalize_not_ip_nor_arp x : not_ip_nor_arp (normalize_match x) = not_ip_nor_arp x.
Proof.
  unfold not_ip_nor_arp. rewrite normalize_not_ipv4, normalize_wild, normalize_match_eq. setters.
  unfold ignored, dead. rewrite orb_false_r. by destruct (wild (wildcards x) FDlType).
Qed.

Lemma ipv4_type x : not_ipv4 x = false -> dl_type x = ETH_ETHTYPE_IPV4 /\ not_ip_nor_arp x = false.
Proof.
  unfold not_ip_nor_arp. intros H. rewrite H. split; [| done]. apply orb_false_iff in H as [_ H].
  by apply negb_false_iff, Z.eqb_eq in H.
Qed.

Lemma normalize_no_ports x : no_ports (normalize_match x) = no_ports x.
Proof.
  unfold no_ports. rewrite normalize_not_ipv4. destruct (not_ipv4 x) eqn:E; [done |]. cbn [orb].
  destruct (ipv4_type x E) as [Et En]. rewrite normalize_wild, normalize_match_eq. setters.
  unfold proto_value, ignored, dead. rewrite En, Et, orb_false_r. by destruct (wild (wildcards x) FNwProto).
Qed.

Lemma normalize_ignored x f : ignored (normalize_match x) f = ignored x f.
Proof.
  unfold ignored at 1. rewrite normalize_wild.
  assert (D : forall b, (b = true -> ignored x f = true) -> ignored x f || b = ignored x f).
  { intros [] Hb; [by rewrite Hb | apply orb_false_r]. }
  apply D. unfold ignored. destruct f; cbn [dead]; try done.
  - by rewrite normalize_not_ip_nor_arp, orb_true_iff; auto.
  - by rewrite normalize_no_ports, orb_true_iff; auto.
  - by rewrite normalize_no_ports, orb_true_iff; auto.
  - rewrite normalize_wild, normalize_match_eq. setters. unfold ignored. cbn [dead]. rewrite orb_false_r.
    destruct (wild (wildcards x) FDlVlan); [done |]. cbn [negb andb]. rewrite vlan_value_max. intros ->. apply orb_true_r.
  - by rewrite normalize_not_ipv4, orb_true_iff; auto.
Qed.

Lemma normalize_proto_value x : proto_value (normalize_match x) = proto_value x.
Proof.
  unfold proto_value at 1. rewrite normalize_ignored, normalize_match_eq. setters. unfold proto_value.
  destruct (ignored x FNwProto) eqn:E; [done |].
  assert (Et : ignored x FDlType = false).
  { unfold ignored, dead in *. rewrite orb_false_r. apply orb_false_iff in E as [_ E].
    unfold not_ip_nor_arp, not_ipv4 in E. by destruct (wild (wildcards x) FDlType). }
  rewrite Et. destruct (dl_type x =? ETH_ETHTYPE_ARP); [apply land_land | done].
Qed.

Lemma normalize_wildcards x : wildcards4 (normalize_match x) = wildcards4 x.
Proof.
  destruct (wildcards4_spec (normalize_match x)) as (A1 & A2 & A3), (wildcards4_spec x) as (B1 & B2 & B3).
  apply wildcards_eq; try apply wildcards4_below22.
  - intros f. by rewrite A1, B1, normalize_ignored.
  - rewrite A2, B2, normalize_not_ip_nor_arp, normalize_match_eq. setters. rewrite B2.
    destruct (not_ip_nor_arp x); [done |]. cbn [orb]. by destruct (32 <=? raw_src (wildcards x)) eqn:E; rewrite ?E.
  - rewrite A3, B3, normalize_not_ip_nor_arp, normalize_match_eq. setters. rewrite B3.
    destruct (not_ip_nor_arp x); [done |]. cbn [orb]. by destruct (32 <=? raw_dst (wildcards x)) eqn:E; rewrite ?E.
Qed.

Lemma normalize_idem x : normalize_match (normalize_match x) = normalize_match x.
Proof.
  rewrite (normalize_match_eq (normalize_match x)), normalize_wildcards, !normalize_ignored, normalize_proto_value.
  assert (P : forall v, port_value (normalize_match x) (port_value x v) = port_value x v).
  { intros v. unfold port_value. rewrite normalize_proto_value. case_match; [apply land_land | done]. }
  pose proof (normalize_match_eq x) as E. cbv zeta in E. set (n := normalize_match x) in *.
  rewrite (f_equal in_port E), (f_equal dl_src E), (f_equal dl_dst E), (f_equal dl_vlan E), (f_equal dl_vlan_pcp E),
    (f_equal dl_type E), (f_equal nw_tos E), (f_equal nw_src E), (f_equal nw_dst E), (f_equal tp_src E), (f_equal tp_dst E).
  setters. rewrite !land_land. etransitivity; [| symmetry; exact E].
  f_equal; try match goal with |- context [ignored x ?f] => destruct (ignored x f) end;
    by rewrite ?vlan_value_idem, ?land_land, ?P.
Qed.

(** * What the normal form covers *)

(** A packet with the fields that [set_match_from_packet] gives one. *)
Record canonical p : Prop := {
  can_vlan : dl_vlan p = UINT16_MAX /\ dl_vlan_pcp p = 0 \/ Z.land (dl_vlan p) VLAN_VID_MASK = dl_vlan p;
  can_pcp : Z.land (dl_vlan_pcp p) VLAN_PCP_MASK = dl_vlan_pcp p;
  can_tos : Z.land (nw_tos p) NW_TOS_MASK = nw_tos p;
  can_arp : dl_type p = ETH_ETHTYPE_ARP -> Z.land (nw_proto p) ARP_OP_MASK = nw_proto p;
  can_icmp : dl_type p = ETH_ETHTYPE_IPV4 -> nw_proto p = IPPROTO_ICMP ->
    Z.land (tp_src p) ICMP_TYPE_MASK = tp_src p /\ Z.land (tp_dst p) ICMP_CODE_MASK = tp_dst p
}.

(** The packet has the value that counts of a field. *)
Definition has (f : field) x p : Prop :=
  match f with
  | FDlVlan => vlan_value (dl_vlan x) = dl_vlan p
  | FDlVlanPcp => Z.land (dl_vlan_pcp x) VLAN_PCP_MASK = dl_vlan_pcp p
  | FNwTos => Z.land (nw_tos x) NW_TOS_MASK = nw_tos p
  | FNwProto => proto_value x = nw_proto p
  | FTpSrc => port_value x (tp_src x) = tp_src p
  | FTpDst => port_value x (tp_dst x) = tp_dst p
  | _ => same f x p
  end.

(** The fields that are neither wildcards nor dead agree. *)
Record meets x p : Prop := {
  meets_field f : ignored x f = false -> has f x p;
  meets_src : not_ip_nor_arp x = false -> same_prefix (src_bits (wildcards x)) (nw_src x) (nw_src p);
  meets_dst : not_ip_nor_arp x = false -> same_prefix (dst_bits (wildcards x)) (nw_dst x) (nw_dst p)
}.

Lemma masked_prefix a b r : fits 4 a -> fits 4 b -> 0 <= r ->
  same_prefix (Z.min 32 r) (Z.land a (mask r)) b <-> same_prefix (Z.min 32 r) a b.
Proof.
  intros Ha Hb Hr. rewrite !same_prefix_bits by first [done | by apply land_fits | lia].
  assert (E : mask r = mask (Z.min 32 r)).
  { unfold mask. destruct (Z.leb_spec 32 r); [by rewrite Z.min_l by lia |]. rewrite Z.min_r by lia.
    by replace (32 <=? r) with false by lia. }
  split; intros H i Hi; specialize (H i Hi); rewrite E, Z.land_spec, mask_spec in * by lia;
    replace (Z.min 32 r <=? i) with true in * by lia; replace (i <? 32) with true in * by lia;
    by rewrite andb_true_r in *.
Qed.

Lemma same_prefix_all a b : fits 4 a -> fits 4 b -> same_prefix 32 a b.
Proof. intros Ha Hb. apply same_prefix_bits; [done | done | done |]. intros i Hi. lia. Qed.

(** The prefix that remains of an address. *)
Lemma normal_prefix (b : bool) a c r r' :
  fits 4 a -> fits 4 c -> 0 <= r -> r' = (if b || (32 <=? r) then 32 else r) ->
  same_prefix (Z.min 32 r') (Z.land a (mask r')) c <-> (b = false -> same_prefix (Z.min 32 r) a c).
Proof.
  intros Ha Hc Hr ->. destruct b; cbn [orb].
  - split; [done |]. intros _. apply same_prefix_all; [by apply land_fits | done].
  - replace (if 32 <=? r then 32 else r) with (Z.min 32 r) by (destruct (Z.leb_spec 32 r); lia).
    rewrite masked_prefix by (done || lia). rewrite Z.min_assoc, Z.min_id. tauto.
Qed.

Lemma normalize_covers x p : wf_match x -> wf_match p -> covers (normalize_match x) p <-> meets x p.
Proof.
  intros Hx Hp. destruct (wildcards4_spec x) as (W & S & D).
  pose proof (raw_src_range (wildcards x)). pose proof (raw_dst_range (wildcards x)).
  pose proof (normal_prefix (not_ip_nor_arp x) (nw_src x) (nw_src p) (raw_src (wildcards x)) _ (wf_nw_src x Hx) (wf_nw_src p Hp) ltac:(lia) S) as PS.
  pose proof (normal_prefix (not_ip_nor_arp x) (nw_dst x) (nw_dst p) (raw_dst (wildcards x)) _ (wf_nw_dst x Hx) (wf_nw_dst p Hp) ltac:(lia) D) as PD.
  assert (F : forall f, ignored x f = false -> same f (normalize_match x) p <-> has f x p).
  { intros f Hf. rewrite normalize_match_eq. destruct f; cbn [same has]; setters; by rewrite ?Hf. }
  split.
  - intros [C1 C2 C3]. rewrite normalize_match_eq in C2, C3. split; [| by apply PS | by apply PD].
    intros f Hf. apply F; [done |]. apply C1. by rewrite normalize_wild.
  - intros [M1 M2 M3]. split.
    + intros f Hf. rewrite normalize_wild in Hf. apply F; auto.
    + rewrite normalize_match_eq. by apply PS.
    + rewrite normalize_match_eq. by apply PD.
Qed.

Lemma covers_meets x p : canonical p -> covers x p -> meets x p.
Proof.
  intros Hp [C1 C2 C3]. split; [| done | done]. intros f Hf. unfold ignored in Hf.
  apply orb_false_iff in Hf as [Hw Hd]. specialize (C1 f Hw) as Hs.
  assert (Ty : not_ip_nor_arp x = false -> dl_type x = dl_type p).
  { unfold not_ip_nor_arp, not_ipv4. intros H. apply (C1 FDlType).
    by destruct (wild (wildcards x) FDlType). }
  assert (Tp : no_ports x = false -> forall v u, v = u ->
    (nw_proto p = IPPROTO_ICMP -> dl_type p = ETH_ETHTYPE_IPV4 -> Z.land u 0xff = u) -> port_value x v = u).
  { intros Hn v u -> Hu. unfold no_ports in Hn. apply orb_false_iff in Hn as [Hi Hn].
    destruct (ipv4_type x Hi) as [Et En]. unfold port_value, proto_value, ignored, dead. rewrite En, Et, orb_false_r.
    change (ETH_ETHTYPE_IPV4 =? ETH_ETHTYPE_ARP) with false. cbn match.
    destruct (wild (wildcards x) FNwProto) eqn:Ew; [done |]. pose proof (C1 FNwProto Ew) as Epr. cbn in Epr.
    destruct (Z.eqb_spec (nw_proto x) IPPROTO_ICMP) as [E |]; [| done]. apply Hu; [congruence |].
    by rewrite <- (Ty En). }
  destruct f; cbn [same has dead] in *; try done.
  - unfold vlan_value. rewrite Hs. destruct (Z.eqb_spec (dl_vlan p) UINT16_MAX); [done |].
    destruct (can_vlan p Hp) as [[] |]; done.
  - unfold proto_value, ignored, dead. rewrite Hw, Hd, (Ty Hd), Hs. cbn [orb].
    destruct (Z.eqb_spec (dl_type p) ETH_ETHTYPE_ARP); [by apply can_arp | done].
  - apply Tp; [done | done |]. intros H1 H2. by apply can_icmp.
  - apply Tp; [done | done |]. intros H1 H2. by apply can_icmp.
  - rewrite Hs. apply can_pcp, Hp.
  - rewrite Hs. apply can_tos, Hp.
Qed.

(** * The match of a packet *)

(** The fields of the headers have the width they have in the frame. *)
Record wf_info (i : packet_info) : Prop := {
  info_macsa : length (eth_macsa (eth i)) = 6%nat;
  info_macda : length (eth_macda (eth i)) = 6%nat;
  info_type : fits 2 (eth_type (eth i));
  info_vid : fits 2 (vlan_vid (vlan i));
  info_prio : fits 1 (vlan_prio (vlan i));
  info_tos : fits 1 (ipv4_tos (ipv4 i));
  info_protocol : fits 1 (ipv4_protocol (ipv4 i));
  info_saddr : fits 4 (ipv4_saddr (ipv4 i));
  info_daddr : fits 4 (ipv4_daddr (ipv4 i));
  info_op : fits 2 (arp_ar_op (arp i));
  info_spa : fits 4 (arp_spa (arp i));
  info_tpa : fits 4 (arp_tpa (arp i));
  info_icmp_type : fits 1 (icmpv4_type (icmpv4 i));
  info_icmp_code : fits 1 (icmpv4_code (icmpv4 i));
  info_tcp_src : fits 2 (tcp_src_port (tcp i));
  info_tcp_dst : fits 2 (tcp_dst_port (tcp i));
  info_udp_src : fits 2 (udp_src_port (udp i));
  info_udp_dst : fits 2 (udp_dst_port (udp i))
}.

(** [v] masked when it has a bit outside the mask. *)
Lemma masked_if (v k : Z) (n : nat) : fits n v ->
  (if truth (Z.land v (Z.lnot k)) then Z.land v k mod 2 ^ (Z.of_nat n * 8) else v) = Z.land v k.
Proof.
  intros Hv. pose proof (land_fits v k n Hv) as Hf. unfold fits in Hf. rewrite Z.mod_small by done.
  unfold truth. destruct (Z.eqb_spec (Z.land v (Z.lnot k)) 0) as [E |]; [| done]. cbn [negb].
  apply Z.bits_inj'. intros b Hb. apply (f_equal (fun z => Z.testbit z b)) in E.
  rewrite Z.land_spec, Z.lnot_spec, Z.bits_0 in E by done. rewrite Z.land_spec.
  by destruct (Z.testbit v b), (Z.testbit k b).
Qed.

Definition vtagged (i : packet_info) : bool := Z.land (format i) ETH_8021Q =? ETH_8021Q.
Definition vlan_of (i : packet_info) : Z := if vtagged i then Z.land (vlan_vid (vlan i)) VLAN_VID_MASK else UINT16_MAX.
Definition pcp_of (i : packet_info) : Z := if vtagged i then Z.land (vlan_prio (vlan i)) VLAN_PCP_MASK else 0.

Lemma set_ether_eq w inp i : wf_info i ->
  set_ether_from_packet (set_wildcards zero_match w) w inp (vtagged i) i =
  Build_ofp_match w
    (if wild w FInPort then 0 else inp)
    (if wild w FDlSrc then zeros 6 else eth_macsa (eth i))
    (if wild w FDlDst then zeros 6 else eth_macda (eth i))
    (if wild w FDlVlan then 0 else vlan_of i)
    (if wild w FDlVlanPcp then 0 else pcp_of i) (zeros 1)
    (if wild w FDlType then 0 else eth_type (eth i)) 0 0 (zeros 2) 0 0 0 0.
Proof.
  intros Hi. unfold set_ether_from_packet, set_dl_vlan_from_packet, set_dl_vlan_pcp_from_packet, vlan_of, pcp_of.
  rewrite <- (masked_if (vlan_vid (vlan i)) VLAN_VID_MASK 2 (info_vid i Hi)).
  rewrite <- (masked_if (vlan_prio (vlan i)) VLAN_PCP_MASK 1 (info_prio i Hi)).
  read_bits. unfold zero_match.
cbv zeta.
  destruct (wild w FInPort), (wild w FDlSrc), (wild w FDlDst); cbn [negb]; setters.
  all: destruct (vtagged i); setters.
  all: repeat match goal with |- context [truth ?t] => destruct (truth t) end; setters; cbn [negb].
  all: by destruct (wild w FDlVlan), (wild w FDlVlanPcp), (wild w FDlType).
Qed.

(** The fields of the network and transport layer that a type gives. *)
Definition tos_of (i : packet_info) (type : Z) : Z :=
  if type =? ETH_ETHTYPE_IPV4 then Z.land (ipv4_tos (ipv4 i)) NW_TOS_MASK else 0.
Definition proto_of (i : packet_info) (type : Z) : Z :=
  if type =? ETH_ETHTYPE_IPV4 then ipv4_protocol (ipv4 i)
  else if type =? ETH_ETHTYPE_ARP then Z.land (arp_ar_op (arp i)) ARP_OP_MASK else 0.
Definition src_of (i : packet_info) (type : Z) : Z :=
  if type =? ETH_ETHTYPE_IPV4 then ipv4_saddr (ipv4 i)
  else if type =? ETH_ETHTYPE_ARP then arp_spa (arp i) else 0.
Definition dst_of (i : packet_info) (type : Z) : Z :=
  if type =? ETH_ETHTYPE_IPV4 then ipv4_daddr (ipv4 i)
  else if type =? ETH_ETHTYPE_ARP then arp_tpa (arp i) else 0.
Definition ports_of (i : packet_info) (type proto : Z) : Z * Z :=
  if type =? ETH_ETHTYPE_IPV4 then
    if proto =? IPPROTO_ICMP then (icmpv4_type (icmpv4 i), icmpv4_code (icmpv4 i))
    else if proto =? IPPROTO_TCP then (tcp_src_port (tcp i), tcp_dst_port (tcp i))
    else if proto =? IPPROTO_UDP then (udp_src_port (udp i), udp_dst_port (udp i))
    else (0, 0)
  else (0, 0).

Definition type_of w (i : packet_info) : Z := if wild w FDlType then 0 else eth_type (eth i).

(** The match built from [i] with the wildcards [w]. *)
Definition match_of w (inp : Z) (i : packet_info) : ofp_match :=
  let type := type_of w i in
  let proto := if wild w FNwProto then 0 else proto_of i type in
  Build_ofp_match w
    (if wild w FInPort then 0 else inp)
    (if wild w FDlSrc then zeros 6 else eth_macsa (eth i))
    (if wild w FDlDst then zeros 6 else eth_macda (eth i))
    (if wild w FDlVlan then 0 else vlan_of i)
    (if wild w FDlVlanPcp then 0 else pcp_of i) (zeros 1)
    type (if wild w FNwTos then 0 else tos_of i type) proto (zeros 2)
    (Z.land (src_of i type) (mask (raw_src w))) (Z.land (dst_of i type) (mask (raw_dst w)))
    (if wild w FTpSrc then 0 else fst (ports_of i type proto))
    (if wild w FTpDst then 0 else snd (ports_of i type proto)).

Lemma set_nw_src_eq x w a : nw_src x = 0 ->
  set_nw_src_from_packet x w a = set_nw_src x (Z.land a (mask (raw_src w))).
Proof.
  intros H. unfold set_nw_src_from_packet. cbv zeta. rewrite raw_src_eq. destruct (Z.ltb_spec (raw_src w) 32).
  - by rewrite prefix_mask_eq.
  - rewrite land_mask_32 by done. destruct x. cbn in *. by subst.
Qed.

Lemma set_nw_dst_eq x w a : nw_dst x = 0 ->
  set_nw_dst_from_packet x w a = set_nw_dst x (Z.land a (mask (raw_dst w))).
Proof.
  intros H. unfold set_nw_dst_from_packet. cbv zeta. rewrite raw_dst_eq. destruct (Z.ltb_spec (raw_dst w) 32).
  - by rewrite prefix_mask_eq.
  - rewrite land_mask_32 by done. destruct x. cbn in *. by subst.
Qed.

Lemma set_transport_eq x w i : tp_src x = 0 -> tp_dst x = 0 ->
  set_transport_from_packet x w i =
  set_tp_dst (set_tp_src x (if wild w FTpSrc then 0 else fst (ports_of i ETH_ETHTYPE_IPV4 (nw_proto x))))
    (if wild w FTpDst then 0 else snd (ports_of i ETH_ETHTYPE_IPV4 (nw_proto x))).
Proof.
  intros H1 H2. unfold set_transport_from_packet, ports_of. destruct x. cbn in H1, H2. subst.
  change OFPFW_ICMP_TYPE with OFPFW_TP_SRC. change OFPFW_ICMP_CODE with OFPFW_TP_DST. read_bits. setters.
  rewrite Z.eqb_refl. destruct (wild w FTpSrc), (wild w FTpDst); cbn [negb]; by repeat case_match.
Qed.

Lemma set_nw_tos_eq x w i : wf_info i -> nw_tos x = 0 ->
  set_nw_tos_from_packet x w i =
  set_nw_tos x (if wild w FNwTos then 0 else Z.land (ipv4_tos (ipv4 i)) NW_TOS_MASK).
Proof.
  intros Hi H. unfold set_nw_tos_from_packet. rewrite <- (masked_if (ipv4_tos (ipv4 i)) NW_TOS_MASK 1 (info_tos i Hi)).
  destruct x. cbn in H. subst. read_bits. setters. destruct (wild w FNwTos); cbn [negb]; by repeat case_match.
Qed.

Lemma set_match_eq w inp i : wf_info i ->
  set_match_from_packet inp w (Some (Some i)) = Ok (match_of w inp i).
Proof.
  intros Hi. unfold set_match_from_packet.
  change (packet_type_eth_vtag (Some (Some i))) with (@Ok bool (vtagged i)). bind_ok.
  rewrite set_ether_eq by done. setters. fold (type_of w i). cbv zeta.
  unfold match_of, tos_of, proto_of, src_of, dst_of. cbv zeta. f_equal.
  destruct (Z.eqb_spec (type_of w i) ETH_ETHTYPE_IPV4) as [-> | n].
  - unfold set_ipv4_from_packet. rewrite set_nw_tos_eq by done. read_bits.
    assert (P : forall x v, nw_proto x = 0 -> (if negb (wild w FNwProto) then set_nw_proto x v else x) =
      set_nw_proto x (if wild w FNwProto then 0 else v)).
    { intros [] v Hx. cbn in Hx. subst. by destruct (wild w FNwProto). }
    cbv zeta. rewrite P by done. rewrite set_nw_src_eq by done. rewrite set_nw_dst_eq by done.
    rewrite set_transport_eq by done. done.
  - destruct (Z.eqb_spec (type_of w i) ETH_ETHTYPE_ARP) as [-> | n0].
    + unfold set_arp_from_packet. read_bits. cbv zeta. unfold u8.
      rewrite Z.mod_small by (by apply land_below).
      destruct (wild w FNwProto), (wild w FNwTos), (wild w FTpSrc), (wild w FTpDst); cbn [negb];
        rewrite set_nw_src_eq by done; by rewrite set_nw_dst_eq.
    + rewrite !Z.land_0_l. unfold ports_of. setters.
      rewrite (proj2 (Z.eqb_neq _ _) n), (proj2 (Z.eqb_neq _ _) n0).
      by destruct (wild w FNwProto), (wild w FNwTos), (wild w FTpSrc), (wild w FTpDst).
Qed.

(** Wildcards that leave no field of a header whose kind is a wildcard. *)
Record consistent w : Prop := {
  con_type : wild w FDlType = true ->
    wild w FNwTos = true /\ wild w FNwProto = true /\ wild w FTpSrc = true /\ wild w FTpDst = true /\
    src_bits w = 32 /\ dst_bits w = 32;
  con_proto : wild w FNwProto = true -> wild w FTpSrc = true /\ wild w FTpDst = true
}.

Lemma ports_fit i type proto : wf_info i -> fits 2 (fst (ports_of i type proto)) /\ fits 2 (snd (ports_of i type proto)).
Proof.
  intros []. unfold ports_of. repeat case_match; split; try done; unfold fits in *; cbn in *; lia.
Qed.

Lemma addresses_fit i type : wf_info i -> fits 4 (src_of i type) /\ fits 4 (dst_of i type).
Proof. intros []. unfold src_of, dst_of. repeat case_match; by split. Qed.

Lemma proto_fit i type : wf_info i -> fits 1 (proto_of i type).
Proof. intros []. unfold proto_of. repeat case_match; try done. by apply land_below. Qed.

Lemma match_of_wf w inp i : wf_info i -> fits 4 w -> fits 2 inp -> wf_match (match_of w inp i).
Proof.
  intros Hi Hw Hp. pose proof Hi as [].
  assert (V : fits 2 (vlan_of i) /\ fits 1 (pcp_of i)).
  { unfold vlan_of, pcp_of. destruct (vtagged i); split; try done; by apply land_fits. }
  destruct V as [V P]. pose proof (addresses_fit i (type_of w i) Hi) as [A1 A2].
  assert (Ty : fits 2 (type_of w i)) by (unfold type_of; by case_match).
  split; unfold match_of; cbv zeta; setters; try done; try (by case_match).
  - unfold tos_of. repeat case_match; try done; by apply land_fits.
  - case_match; [done | by apply proto_fit].
  - by apply land_fits.
  - by apply land_fits.
  - case_match; [done | by apply ports_fit].
  - case_match; [done | by apply ports_fit].
Qed.

Lemma match_of_canonical inp i : wf_info i -> canonical (match_of 0 inp i).
Proof.
  intros Hi. assert (Byte : forall v, fits 1 v -> Z.land v 0xff = v).
  { intros v Hv. change 0xff with (Z.ones 8). rewrite Z.land_ones by done. by apply Z.mod_small. }
  split; unfold match_of; cbv zeta; setters; change (type_of 0 i) with (eth_type (eth i));
    repeat match goal with |- context [wild 0 ?f] => change (wild 0 f) with false end; cbn match.
  - unfold vlan_of, pcp_of. destruct (vtagged i); [right; by rewrite land_land | by left].
  - unfold pcp_of. destruct (vtagged i); [by rewrite land_land | done].
  - unfold tos_of. case_match; [by rewrite land_land | done].
  - intros ->. unfold proto_of. change (ETH_ETHTYPE_ARP =? ETH_ETHTYPE_IPV4) with false. rewrite Z.eqb_refl. apply land_land.
  - intros -> E. unfold ports_of. rewrite E, !Z.eqb_refl. split; apply Byte; apply Hi.
Qed.

Lemma land_mask_0 a : fits 4 a -> Z.land a (mask 0) = a.
Proof. intros Ha. change (mask 0) with (Z.ones 32). rewrite Z.land_ones by done. by apply Z.mod_small. Qed.

Lemma match_of_covers w inp i : wf_info i -> consistent w -> covers (match_of w inp i) (match_of 0 inp i).
Proof.
  intros Hi [Ct Cp]. pose proof (raw_src_range w). pose proof (raw_dst_range w).
  assert (F : forall a b n, fits 4 a -> fits 4 b -> 0 <= n -> (wild w FDlType = false -> a = b) ->
    (wild w FDlType = true -> Z.min 32 n = 32) ->
    same_prefix (Z.min 32 n) (Z.land a (mask n)) (Z.land b (mask (raw_src 0)))).
  { intros a b n Ha Hb Hn E1 E2. change (raw_src 0) with 0. rewrite land_mask_0, masked_prefix by done.
    destruct (wild w FDlType) eqn:E.
    - rewrite E2 by done. by apply same_prefix_all.
    - by rewrite E1. }
  pose proof (fun t => proj1 (addresses_fit i t Hi)) as A1. pose proof (fun t => proj2 (addresses_fit i t Hi)) as A2.
  assert (Ty : wild w FDlType = false -> type_of w i = type_of 0 i) by (intros E; unfold type_of; by rewrite E).
  split.
  - intros f Hf. unfold match_of in *. cbv zeta in *. cbn [wildcards] in Hf.
    destruct (wild w FDlType) eqn:Et.
    + destruct (Ct eq_refl) as (E1 & E2 & E3 & E4 & _). destruct f; try congruence; cbn [same]; setters; by rewrite Hf.
    + rewrite Ty by done. destruct f; cbn [same]; setters; rewrite ?Hf; try done.
      * destruct (wild w FNwProto) eqn:Ep; [| done]. destruct (Cp eq_refl). congruence.
      * destruct (wild w FNwProto) eqn:Ep; [| done]. destruct (Cp eq_refl). congruence.
  - apply F; [apply A1 | apply A1 | lia | by intros E; rewrite (Ty E) |]. intros E. by destruct (Ct E) as (_ & _ & _ & _ & ? & _).
  - apply F; [apply A2 | apply A2 | lia | by intros E; rewrite (Ty E) |]. intros E. by destruct (Ct E) as (_ & _ & _ & _ & _ & ?).
Qed.

(** * Properties *)

(** [normalize_match] makes of every match one that the validator of flow
    messages accepts, and does not change a match it has normalized. *)
Theorem normalize_match_stable x :
  wf_match x ->
  let n := normalize_match x in
  wf_match n /\ validate_match n = 0 /\ normalize_match n = n.
Proof. intros Hx. cbv zeta. split_and!; [by apply normalize_wf | apply normalize_valid | apply normalize_idem]. Qed.

(** C36. The normalized match covers exactly the packets that agree with the
    match on the fields that it does not wildcard and that another of its
    fields does not make meaningless; it loses no packet the match covers. *)
Theorem normalize_match_covers x p :
  wf_match x -> wf_match p -> exact_match p = true ->
  (compare_match (normalize_match x) p = true <-> meets x p) /\
  (canonical p -> compare_match x p = true -> compare_match (normalize_match x) p = true).
Proof.
  intros Hx Hp He. pose proof (normalize_wf x Hx) as Hn.
  rewrite (compare_match_covers x p), (compare_match_covers (normalize_match x) p), normalize_covers by done.
  split; [done | apply covers_meets].
Qed.

(** C37. The match made of a packet with consistent wildcards is well formed and
    covers the exact match made of the same packet, before and after it is
    normalized. *)
Theorem set_match_from_packet_covers w inp i :
  wf_info i -> fits 2 inp -> fits 4 w -> consistent w ->
  exists x p, set_match_from_packet inp w (Some (Some i)) = Ok x /\ set_match_from_packet inp 0 (Some (Some i)) = Ok p /\
    wildcards x = w /\ exact_match p = true /\ canonical p /\
    compare_match x p = true /\ compare_match (normalize_match x) p = true.
Proof.
  intros Hi Hinp Hw Hc. exists (match_of w inp i), (match_of 0 inp i). rewrite !set_match_eq by done.
  pose proof (match_of_wf w inp i Hi Hw Hinp) as Hx. pose proof (match_of_wf 0 inp i Hi ltac:(done) Hinp) as Hp.
  pose proof (match_of_canonical inp i Hi) as Hcan. pose proof (match_of_covers w inp i Hi Hc) as Hcov.
  pose proof (normalize_wf _ Hx) as Hn.
  split_and!; try done; [by apply compare_match_covers |]. apply compare_match_covers; [done.. |].
  apply normalize_covers; [done.. |]. by apply covers_meets.
Qed.

(** With the protocol a wildcard and the ports not, the ports of the match
    stay 0, and [normalize_match] leaves them as they are: the match does not
    cover the TCP packet it was made from. *)
Theorem set_match_from_packet_misses inp i :
  wf_info i -> fits 2 inp -> eth_type (eth i) = ETH_ETHTYPE_IPV4 -> ipv4_protocol (ipv4 i) = IPPROTO_TCP ->
  tcp_src_port (tcp i) <> 0 ->
  exists x p, set_match_from_packet inp OFPFW_NW_PROTO (Some (Some i)) = Ok x /\
    set_match_from_packet inp 0 (Some (Some i)) = Ok p /\
    compare_match x p = false /\ compare_match (normalize_match x) p = false.
Proof.
  intros Hi Hinp Ht Hp Hs. exists (match_of OFPFW_NW_PROTO inp i), (match_of 0 inp i). rewrite !set_match_eq by done.
  pose proof (match_of_wf OFPFW_NW_PROTO inp i Hi ltac:(done) Hinp) as Hx.
  pose proof (match_of_wf 0 inp i Hi ltac:(done) Hinp) as Hpk. pose proof (normalize_wf _ Hx) as Hn.
  assert (P : tp_src (match_of 0 inp i) = tcp_src_port (tcp i)).
  { unfold match_of, proto_of, ports_of. cbn [tp_src]. change (type_of 0 i) with (eth_type (eth i)). by rewrite Ht, Hp. }
  assert (X : tp_src (match_of OFPFW_NW_PROTO inp i) = 0 /\ ignored (match_of OFPFW_NW_PROTO inp i) FTpSrc = false).
  { unfold ignored, dead, no_ports, not_ipv4, match_of, ports_of. setters.
    change (type_of OFPFW_NW_PROTO i) with (eth_type (eth i)). by rewrite Ht. }
  destruct X as [X1 X2]. split_and!; try done; apply not_true_is_false; intros H;
    apply compare_match_covers in H; try done.
  - assert (same FTpSrc (match_of OFPFW_NW_PROTO inp i) (match_of 0 inp i)) by (by apply (covers_field _ _ H)).
    cbn [same] in *. congruence.
  - pose proof (covers_field _ _ H FTpSrc) as Hf. rewrite normalize_wild in Hf. specialize (Hf X2). cbn [same] in Hf.
    rewrite normalize_match_eq, P in Hf. cbn [tp_src] in Hf. rewrite X2, X1 in Hf. unfold port_value in Hf.
    by destruct (proto_value _ =? IPPROTO_ICMP).
Qed.

(** * Witnesses: the frame of the parser *)

Definition sample_info : packet_info := frame_info sample_frame.

Lemma sample_info_wf : wf_info sample_info.
Proof. by split. Qed.

(** 10.0.0.0/8 to any port, with reserved bits set. *)
Definition loose_match : ofp_match := {|
  wildcards := 0xffc00000 + 0x20 + 24 * 2 ^ 8; in_port := 1; dl_src := sample_macsa; dl_dst := sample_macda;
  dl_vlan := 0xf064; dl_vlan_pcp := 0x09; pad1 := zeros 1; dl_type := 2048; nw_tos := 0x13; nw_proto := 9;
  pad2 := zeros 2; nw_src := 0x0a010203; nw_dst := 0x0a000002; tp_src := 80; tp_dst := 1024 |}.

Lemma loose_match_wf : wf_match loose_match.
Proof. by split. Qed.

Lemma normalize_match_stable_witness :
  wf_match loose_match /\ validate_match loose_match <> 0 /\ validate_match (normalize_match loose_match) = 0.
Proof.
  pose proof (normalize_match_stable loose_match loose_match_wf) as (_ & H & _).
  split_and!; [exact loose_match_wf | intros E; vm_compute in E; discriminate E | exact H].
Defined.

Lemma normalize_match_covers_witness :
  let p := match_of 0 1 sample_info in
  wf_match p /\ exact_match p = true /\
  (compare_match (normalize_match loose_match) p = true <-> meets loose_match p).
Proof.
  intros p. assert (Hp : wf_match p) by (by apply match_of_wf; [apply sample_info_wf | |]).
  split_and!; [exact Hp | reflexivity |].
  exact (proj1 (normalize_match_covers loose_match p loose_match_wf Hp eq_refl)).
Defined.

(** Wildcards of the input port, the addresses and the source port. *)
Definition some_wildcards : Z := Z.lor OFPFW_IN_PORT (Z.lor OFPFW_TP_SRC OFPFW_NW_SRC_ALL).

Lemma some_wildcards_consistent : consistent some_wildcards.
Proof. split; vm_compute; discriminate. Qed.

Lemma set_match_from_packet_covers_witness :
  exists x p, set_match_from_packet 1 some_wildcards (Some (Some sample_info)) = Ok x /\
    set_match_from_packet 1 0 (Some (Some sample_info)) = Ok p /\ compare_match x p = true.
Proof.
  destruct (set_match_from_packet_covers some_wildcards 1 sample_info sample_info_wf ltac:(done) ltac:(done)
    some_wildcards_consistent) as (x & p & H1 & H2 & _ & _ & _ & H3 & _).
  exists x, p. exact (conj H1 (conj H2 H3)).
Defined.

Lemma set_match_from_packet_misses_witness :
  exists x p, set_match_from_packet 1 OFPFW_NW_PROTO (Some (Some sample_info)) = Ok x /\
    set_match_from_packet 1 0 (Some (Some sample_info)) = Ok p /\ compare_match x p = false.
Proof.
  assert (Hs : tcp_src_port (tcp sample_info) <> 0) by (vm_compute; discriminate).
  destruct (set_match_from_packet_misses 1 sample_info sample_info_wf ltac:(done) eq_refl eq_refl Hs)
    as (x & p & H1 & H2 & H3 & _).
  exists x, p. exact (conj H1 (conj H2 H3)).
Defined.
