(* ===== verification/PacketFields.v ===== *)
(** The type of what parse_packet leaves: every field of a [packet_info] is a
    value of the C type that it is declared with, whatever the frame has.

    The matches of packets are made of them (Filtering.v).  The fields of packet_info.c's structure are unbounded here; the loads of
    packet_parser.c and its macros keep them within their widths. *)

From Stdlib Require Import ZArith Lia Bool.
From coqutil Require Import Byte.
From stdpp Require Import base list.
From S2P Require Import Prelude Memory OpenFlow Codes PacketInfo PacketParser MatchPacket.

(** * The types of the fields *)

Definition typed_eth (x : ether_info) : Prop := length (eth_macda x) = 6%nat /\ length (eth_macsa x) = 6%nat /\ fits 2 (eth_type x).
Definition typed_vlan (x : vlan_info) : Prop :=
  fits 2 (vlan_tci x) /\ fits 2 (vlan_tpid x) /\ fits 1 (vlan_prio x) /\ fits 1 (vlan_cfi x) /\ fits 2 (vlan_vid x).
Definition typed_snap (x : snap_info) : Prop := length (snap_llc x) = 3%nat /\ length (snap_oui x) = 3%nat /\ fits 2 (snap_type x).
Definition typed_arp (x : arp_info) : Prop :=
  fits 2 (arp_ar_hrd x) /\ fits 2 (arp_ar_pro x) /\ fits 1 (arp_ar_hln x) /\ fits 1 (arp_ar_pln x) /\ fits 2 (arp_ar_op x) /\
  length (arp_sha x) = 6%nat /\ fits 4 (arp_spa x) /\ length (arp_tha x) = 6%nat /\ fits 4 (arp_tpa x).
Definition typed_ipv4 (x : ipv4_info) : Prop :=
  fits 1 (ipv4_version x) /\ fits 1 (ipv4_ihl x) /\ fits 1 (ipv4_tos x) /\ fits 2 (ipv4_tot_len x) /\ fits 2 (ipv4_id x) /\ fits 2 (ipv4_frag_off x) /\
  fits 1 (ipv4_ttl x) /\ fits 1 (ipv4_protocol x) /\ fits 2 (ipv4_checksum x) /\ fits 4 (ipv4_saddr x) /\ fits 4 (ipv4_daddr x).
Definition typed_ipv6 (x : ipv6_info) : Prop :=
  fits 1 (ipv6_version x) /\ fits 1 (ipv6_tc x) /\ fits 4 (ipv6_flowlabel x) /\ fits 2 (ipv6_plen x) /\ fits 1 (ipv6_nexthdr x) /\ fits 1 (ipv6_hoplimit x) /\
  length (ipv6_saddr x) = 16%nat /\ length (ipv6_daddr x) = 16%nat.
Definition typed_icmpv4 (x : icmpv4_info) : Prop :=
  fits 1 (icmpv4_type x) /\ fits 1 (icmpv4_code x) /\ fits 2 (icmpv4_checksum x) /\ fits 2 (icmpv4_id x) /\ fits 2 (icmpv4_seq x) /\ fits 4 (icmpv4_gateway x).
Definition typed_igmp (x : igmp_info) : Prop := fits 1 (igmp_type x) /\ fits 1 (igmp_code x) /\ fits 2 (igmp_checksum x) /\ fits 4 (igmp_group x).
Definition typed_tcp (x : tcp_info) : Prop :=
  fits 2 (tcp_src_port x) /\ fits 2 (tcp_dst_port x) /\ fits 4 (tcp_seq_no x) /\ fits 4 (tcp_ack_no x) /\ fits 1 (tcp_offset x) /\ fits 1 (tcp_flags x) /\
  fits 2 (tcp_window x) /\ fits 2 (tcp_checksum x) /\ fits 2 (tcp_urgent x).
Definition typed_udp (x : udp_info) : Prop := fits 2 (udp_src_port x) /\ fits 2 (udp_dst_port x) /\ fits 2 (udp_len x) /\ fits 2 (udp_checksum x).
Definition typed_etherip (x : etherip_info) : Prop := fits 2 (etherip_version x) /\ fits 2 (etherip_offset x).

Record typed (p : packet_info) : Prop := {
  ty_format : fits 4 (format p);
  ty_eth : typed_eth (eth p);
  ty_vlan : typed_vlan (vlan p);
  ty_snap : typed_snap (snap p);
  ty_arp : typed_arp (arp p);
  ty_ipv4 : typed_ipv4 (ipv4 p);
  ty_ipv6 : typed_ipv6 (ipv6 p);
  ty_icmpv4 : typed_icmpv4 (icmpv4 p);
  ty_igmp : typed_igmp (igmp p);
  ty_tcp : typed_tcp (tcp p);
  ty_udp : typed_udp (udp p);
  ty_etherip : typed_etherip (etherip p)
}.

(** The fields that matches are made of. *)
Lemma typed_wf_info p : typed p -> wf_info p.
Proof.
  intros [_ (? & ? & ?) (? & ? & ? & ? & ?) _ (? & ? & ? & ? & ? & ? & ? & ? & ?) (? & ? & ? & ? & ? & ? & ? & ? & ? & ? & ?) _ (? & ? & ? & ? & ? & ?) _
    (? & ? & ? & ? & ? & ? & ? & ? & ?) (? & ? & ? & ?) _]. by split.
Qed.

(** * Widths *)

Lemma fits_u8 x : fits 1 (u8 x).
Proof. unfold u8, fits. apply Z.mod_pos_bound. lia. Qed.
Lemma fits_u16 x : fits 2 (u16 x).
Proof. unfold u16, fits. apply Z.mod_pos_bound. lia. Qed.
Lemma fits_high x : fits 1 x -> fits 1 (Z.shiftr x 4).
Proof. unfold fits. intros H. rewrite Z.shiftr_div_pow2 by lia. change (2 ^ 4) with 16. pose proof (Z.div_pos x 16). pose proof (Z.div_le_upper_bound x 16 x). lia. Qed.

Create HintDb fits discriminated.
#[export] Hint Resolve fits_u8 fits_u16 fits_high land_fits fits_lor : fits.

(** * Functions whose result, if any, satisfies a predicate *)

Definition gives {A} (Q : A -> Prop) (r : res A) : Prop := match r with Ok a => Q a | Fault _ => True end.

Section Gives.
Context {A B : Type}.

Lemma gives_bind (Q : B -> Prop) (R : A -> Prop) (r : res B) (k : B -> res A) : gives Q r -> (forall b, Q b -> gives R (k b)) -> gives R (bind r k).
Proof. destruct r as [b | f]; [intros Hb H; by apply H | done]. Qed.

Lemma gives_ld {host : Host} n m off (Q : A -> Prop) k : (forall x, fits n x -> gives Q (k x)) -> gives Q (bind (ld n m off) k).
Proof. intros H. destruct (ld n m off) eqn:E; [apply H; by eapply ld_fits | done]. Qed.

Lemma gives_ld_ntoh {host : Host} n m off (Q : A -> Prop) k : (forall x, fits n x -> gives Q (k x)) -> gives Q (bind (ld_ntoh n m off) k).
Proof. intros H. destruct (ld_ntoh n m off) eqn:E; [apply H; by eapply ld_ntoh_fits | done]. Qed.

Lemma gives_ld_bytes m off n (Q : A -> Prop) k : (forall bs, length bs = n -> gives Q (k bs)) -> gives Q (bind (ld_bytes m off n) k).
Proof. intros H. destruct (ld_bytes m off n) eqn:E; [apply H; by eapply ld_bytes_length | done]. Qed.

Lemma gives_assert_ptr o (Q : A -> Prop) k : (forall ptr, gives Q (k ptr)) -> gives Q (bind (assert_ptr o) k).
Proof. intros H. destruct o; [apply H | done]. Qed.
End Gives.

(** Goes through the loads and the conditions of a function. *)
Ltac typed_step :=
  match goal with
  | |- gives _ (bind (assert_ptr _) _) => apply gives_assert_ptr; intros ?
  | |- gives _ (bind (ld_ntoh _ _ _) _) => apply gives_ld_ntoh; intros ? ?
  | |- gives _ (bind (ld _ _ _) _) => apply gives_ld; intros ? ?
  | |- gives _ (bind (ld_bytes _ _ _) _) => apply gives_ld_bytes; intros ? ?
  | |- gives _ (bind (Ok _) _) => cbn [bind]
  | |- gives _ (bind (bind _ _) _) => rewrite bind_bind
  | |- gives _ (bind (if _ then _ else _) _) => case_match
  | |- gives _ (if _ then _ else _) => case_match
  | |- gives _ (Ok _) => cbn [gives]
  end.
Ltac typed_steps := repeat (cbv zeta; typed_step).

Create HintDb typed.

(** * The steps of the parser *)

Section Steps.
Context {host : Host} (m : bytes).
Implicit Types (p : packet_info) (ptr : Z).

Lemma typed_format p f : typed p -> fits 4 f -> typed (add_format p f).
Proof. intros [] Hf. split; try done. by apply fits_lor. Qed.
Lemma typed_layers p l : typed p -> typed (set_layers p l).
Proof. intros []. by split. Qed.

Lemma typed_set_eth p x : typed p -> typed_eth x -> typed (set_eth p x).
Proof. intros [] H. by split. Qed.
Lemma typed_set_vlan p x : typed p -> typed_vlan x -> typed (set_vlan p x).
Proof. intros [] H. by split. Qed.
Lemma typed_set_snap p x : typed p -> typed_snap x -> typed (set_snap p x).
Proof. intros [] H. by split. Qed.
Lemma typed_set_arp p x : typed p -> typed_arp x -> typed (set_arp p x).
Proof. intros [] H. by split. Qed.
Lemma typed_set_ipv4 p x : typed p -> typed_ipv4 x -> typed (set_ipv4 p x).
Proof. intros [] H. by split. Qed.
Lemma typed_set_ipv6 p x : typed p -> typed_ipv6 x -> typed (set_ipv6 p x).
Proof. intros [] H. by split. Qed.
Lemma typed_set_icmpv4 p x : typed p -> typed_icmpv4 x -> typed (set_icmpv4 p x).
Proof. intros [] H. by split. Qed.
Lemma typed_set_igmp p x : typed p -> typed_igmp x -> typed (set_igmp p x).
Proof. intros [] H. by split. Qed.
Lemma typed_set_tcp p x : typed p -> typed_tcp x -> typed (set_tcp p x).
Proof. intros [] H. by split. Qed.
Lemma typed_set_udp p x : typed p -> typed_udp x -> typed (set_udp p x).
Proof. intros [] H. by split. Qed.
Lemma typed_set_etherip p x : typed p -> typed_etherip x -> typed (set_etherip p x).
Proof. intros [] H. by split. Qed.

Lemma typed_eth_type p type : typed p -> fits 2 type -> typed (set_eth_type p type).
Proof. intros Hp Ht. apply typed_set_eth; [done |]. by destruct (ty_eth _ Hp) as (? & ? & ?). Qed.

#[local] Hint Resolve typed_format typed_layers typed_eth_type : typed.
#[local] Hint Extern 1 (fits 4 _) => done : typed.
(** A header: its fields one by one. *)
#[local] Ltac header H := apply typed_format; [| done]; apply H; [done |]; red; cbn; split_and!; auto with fits.

Lemma l4_end_typed p ptr f : typed p -> fits 4 f -> typed (l4_end m p ptr f).
Proof. intros Hp Hf. unfold l4_end. apply typed_format; [| done]. case_match; [by apply typed_layers | done]. Qed.

Lemma parse_arp_typed p f : typed p -> fits 4 f -> gives typed (parse_arp m p f).
Proof. intros Hp Hf. unfold parse_arp. typed_steps; [done |]. header typed_set_arp. Qed.

Lemma parse_ipv4_typed p : typed p -> gives typed (parse_ipv4 m p).
Proof.
  intros Hp. unfold parse_ipv4. typed_steps; try done. apply typed_format; [| done]. case_match; [apply typed_layers |]; (apply typed_set_ipv4; [done |]); red; cbn; split_and!; auto with fits.
Qed.

Lemma parse_ipv6_typed p : typed p -> gives typed (parse_ipv6 m p).
Proof. intros Hp. unfold parse_ipv6. typed_steps; [done |]. header typed_set_ipv6. Qed.

Lemma parse_lldp_typed p : typed p -> gives typed (parse_lldp m p).
Proof. intros Hp. unfold parse_lldp. typed_steps. apply typed_format; [| done]. case_match; [by apply typed_layers | done]. Qed.

Lemma parse_icmp_typed p : typed p -> gives typed (parse_icmp m p).
Proof.
  intros Hp. unfold parse_icmp. destruct (ty_icmpv4 _ Hp) as (? & ? & ? & ? & ? & ?). typed_steps; [done | ..];
    apply l4_end_typed; try done; apply typed_set_icmpv4; try done; red; cbn; split_and!; auto with fits.
Qed.

Lemma parse_udp_typed p : typed p -> gives typed (parse_udp m p).
Proof. intros Hp. unfold parse_udp. typed_steps; [done |]. apply l4_end_typed; [| done]. apply typed_set_udp; [done |]. by red. Qed.

Lemma parse_tcp_typed p : typed p -> gives typed (parse_tcp m p).
Proof.
  intros Hp. unfold parse_tcp. typed_steps; try done. apply l4_end_typed; [| done]. apply typed_set_tcp; [done |]. red. cbn. split_and!; auto with fits.
Qed.

Lemma parse_igmp_typed p : typed p -> gives typed (parse_igmp m p).
Proof. intros Hp. unfold parse_igmp. typed_steps; [done |]. header typed_set_igmp. Qed.

Lemma parse_etherip_typed p : typed p -> gives typed (parse_etherip m p).
Proof.
  intros Hp. unfold parse_etherip. typed_steps; [done | |]; apply typed_format; try done; apply typed_set_etherip; try done; try by apply typed_layers.
  - red. cbn. split; auto with fits.
Qed.

Definition typed_next (r : packet_info * option Z) : Prop := typed r.1.

Lemma skip_vlan_typed fuel p ptr : typed p -> gives typed_next (skip_vlan fuel m p ptr).
Proof.
  revert p ptr. induction fuel as [| fuel IH]; intros p ptr Hp; cbn [skip_vlan]; [done |]. typed_steps; try done. apply IH. auto with typed.
Qed.

Lemma parse_vlan_typed p ptr type : typed p -> fits 2 type -> gives typed_next (parse_vlan m p ptr type).
Proof.
  intros Hp Ht. unfold parse_vlan. typed_steps; try done. apply skip_vlan_typed, typed_format; [| done]. apply typed_eth_type; [| done].
  apply typed_set_vlan; [done |]. red. cbn. unfold TCI_GET_PRIO, TCI_GET_CFI, TCI_GET_VID. split_and!; auto with fits.
Qed.

Lemma parse_ether_payload_typed p ptr : typed p -> gives typed (parse_ether_payload m p ptr).
Proof.
  intros Hp. unfold parse_ether_payload. typed_steps; try done; try apply typed_layers; try (by apply typed_format).
  all: header typed_set_snap.
Qed.

Lemma parse_ether_typed p : typed p -> gives typed (parse_ether m p).
Proof.
  intros Hp. unfold parse_ether. typed_steps; [done |]. eapply gives_bind; [apply parse_vlan_typed; [| done]; by apply typed_set_eth |].
  intros [q [ptr' |]] Hq; [by apply parse_ether_payload_typed | done].
Qed.

Lemma parse_l3_typed p : typed p -> gives (fun o => match o with Some q => typed q | None => True end) (parse_l3 m p).
Proof.
  intros Hp. unfold parse_l3. cbv zeta. repeat case_match; try done; eapply gives_bind;
    try (apply parse_arp_typed || apply parse_ipv4_typed || apply parse_ipv6_typed || apply parse_lldp_typed); try (by apply typed_layers); done.
Qed.

Lemma parse_l4_typed p : typed p -> gives typed (parse_l4 m p).
Proof.
  intros Hp. unfold parse_l4. cbv zeta. repeat case_match; try done;
    (apply parse_icmp_typed || apply parse_tcp_typed || apply parse_udp_typed || apply parse_igmp_typed || apply parse_etherip_typed); by apply typed_layers.
Qed.

Lemma calloc_typed : typed calloc_packet_info.
Proof. by split; red; cbn; split_and!. Qed.

Lemma parse_packet_gives : gives typed (parse_packet m).
Proof.
  unfold parse_packet. cbv zeta. eapply gives_bind; [apply parse_ether_typed, typed_layers, calloc_typed |].
  intros p Hp. eapply gives_bind; [by apply parse_l3_typed |]. intros [q |] Hq; [| done]. repeat case_match; try done. by apply parse_l4_typed.
Qed.
End Steps.
