(* ===== verification/XidTable.v ===== *)
(** xid_table.c of the switch daemon: transaction ids of the messages that
    applications send.

    Each message gets an id of the daemon; the entry remembers the id and the
    application it came from.  At most [XID_MAX_ENTRIES] entries live: they fill
    an array in turn, and a hash table finds them by id.  Both hold pointers to
    entries of a heap. *)

From Stdlib Require Import ZArith Lia Bool.
From stdpp Require Import base list gmap fin_maps.
From S2P Require Import Prelude Memory HashTable Utility.

Record xid_entry : Type := XidEntry {
  xid : Z;
  original_xid : Z;
  service_name : bytes;
  index : Z
}.

Abbreviation heap := (gmap positive xid_entry).
Abbreviation xid_hash := (hash_table Z (option positive)).

(** [xid_table] with the static [transaction_id] and the memory of the entries. *)
Record xid_table : Type := XidTable {
  transaction_id : Z;
  entry_heap : heap;
  slots : list (option positive);
  hash_of : xid_hash;
  next_index : Z
}.

Implicit Types (t : xid_table) (h : heap) (x : Z) (a : positive) (name : bytes).

Definition XID_MAX_ENTRIES : Z := 4096.

Definition load h (a : positive) : res xid_entry :=
  match h !! a with Some e => Ok e | None => Fault OutOfBounds end.

(** [xid_table.entries[ i ]], and an assignment to it. *)
Definition get_slot t (i : Z) : res (option positive) :=
  if i <? 0 then Fault OutOfBounds
  else match slots t !! Z.to_nat i with Some p => Ok p | None => Fault OutOfBounds end.

Definition set_slot t (i : Z) (p : option positive) : res xid_table :=
  if (0 <=? i) && (i <? Z.of_nat (length (slots t)))
  then Ok (XidTable (transaction_id t) (entry_heap t) (<[Z.to_nat i := p]> (slots t)) (hash_of t) (next_index t))
  else Fault OutOfBounds.

Definition set_transaction_id t (id : Z) : xid_table :=
  XidTable id (entry_heap t) (slots t) (hash_of t) (next_index t).
Definition set_heap t h : xid_table :=
  XidTable (transaction_id t) h (slots t) (hash_of t) (next_index t).
Definition set_hash t (hs : xid_hash) : xid_table :=
  XidTable (transaction_id t) (entry_heap t) (slots t) hs (next_index t).
Definition set_next_index t (i : Z) : xid_table :=
  XidTable (transaction_id t) (entry_heap t) (slots t) (hash_of t) i.

Definition lookup_xid_entry t x : res (option positive) :=
  lookup_hash_entry (H := uint32_key) None (hash_of t) x.

(** The loop of [generate_xid]; the entries are fewer than the ids, so one of
    the first [XID_MAX_ENTRIES + 1] is free. *)
Fixpoint generate_xid_loop (fuel : nat) t (initial_value : Z) : res xid_table :=
  match fuel with
  | O => Fault OutOfFuel
  | S fuel =>
    let* entry := lookup_xid_entry t (transaction_id t) in
    match entry with
    | None => Ok t
    | Some _ =>
      let t := set_transaction_id t (if negb (transaction_id t =? UINT32_MAX) then transaction_id t + 1 else 0) in
      if initial_value =? transaction_id t then Ok (set_transaction_id t 0)
      else generate_xid_loop fuel t initial_value
    end
  end.

Definition generate_xid t : res (Z * xid_table) :=
  let '(initial_value, t) :=
    if negb (transaction_id t =? UINT32_MAX)
    then (transaction_id t + 1, set_transaction_id t (transaction_id t + 1))
    else (0, t) in
  let* t := generate_xid_loop (S (S (Z.to_nat XID_MAX_ENTRIES))) t initial_value in
  Ok (transaction_id t, t).

Definition allocate_xid_entry t (original_xid : Z) name (i : Z) : res (positive * xid_table) :=
  let* (x, t) := generate_xid t in
  let a := fresh (dom (entry_heap t)) in
  Ok (a, set_heap t (<[a := XidEntry x original_xid name i]> (entry_heap t))).

Definition free_xid_entry t a : xid_table := set_heap t (delete a (entry_heap t)).

Definition init_xid_table (id : Z) : xid_table :=
  XidTable id ∅ (replicate (Z.to_nat XID_MAX_ENTRIES) None) create_hash 0.

(** The entries of the array from [i] on; the hash table is freed after them. *)
Fixpoint finalize_loop (n : nat) t (i : Z) : res xid_table :=
  match n with
  | O => Ok t
  | S n =>
    let* p := get_slot t i in
    match p with
    | Some a => let* t := set_slot (free_xid_entry t a) i None in finalize_loop n t (i + 1)
    | None => finalize_loop n t (i + 1)
    end
  end.

Definition finalize_xid_table t : res xid_table :=
  let* t := finalize_loop (Z.to_nat XID_MAX_ENTRIES) t 0 in
  let* hs := delete_hash (hash_of t) in
  Ok (set_next_index (set_hash t hs) 0).

Definition delete_xid_entry t (delete_entry : positive) : res xid_table :=
  let* e := load (entry_heap t) delete_entry in
  let* (deleted, hs) := delete_hash_entry (H := uint32_key) None (hash_of t) (xid e) in
  let t := set_hash t hs in
  match deleted with
  | None => Ok (free_xid_entry t delete_entry)
  | Some d =>
    let* e := load (entry_heap t) d in
    let* t := set_slot t (index e) None in
    Ok (free_xid_entry t d)
  end.

Definition insert_xid_entry t (original_xid : Z) name : res (Z * xid_table) :=
  let t := if XID_MAX_ENTRIES <=? next_index t then set_next_index t 0 else t in
  let* p := get_slot t (next_index t) in
  let* t := match p with Some a => delete_xid_entry t a | None => Ok t end in
  let* (new_entry, t) := allocate_xid_entry t original_xid name (next_index t) in
  let* e := load (entry_heap t) new_entry in
  let* (old, hs) := insert_hash_entry (H := uint32_key) None (hash_of t) (xid e) (Some new_entry) in
  let t := set_hash t hs in
  let* t :=
    match old with
    | None => Ok t
    | Some o =>
      let* oe := load (entry_heap t) o in
      let* t := set_slot t (index oe) None in
      Ok (free_xid_entry t o)
    end in
  let* t := set_slot t (next_index t) (Some new_entry) in
  let t := set_next_index t (next_index t + 1) in
  let* e := load (entry_heap t) new_entry in
  Ok (xid e, t).

(** * Specification: an array of entries *)

Record spec : Type := Spec {
  sp_id : Z;
  sp_slots : list (option xid_entry);
  sp_next : Z
}.

Definition has x (s : option xid_entry) : bool := match s with Some e => xid e =? x | None => false end.
Definition remove_id x (l : list (option xid_entry)) : list (option xid_entry) :=
  map (fun s => if has x s then None else s) l.
Definition find_id x (l : list (option xid_entry)) : option xid_entry := List.find (has x) l ≫= fun s => s.

(** The first id from [c] on that no entry has; 0 when it gets back to
    [initial_value]. *)
Fixpoint pick (n : nat) (l : list (option xid_entry)) (c initial_value : Z) : Z :=
  match n with
  | O => c
  | S n =>
    match find_id c l with
    | None => c
    | Some _ =>
      let c := if c =? UINT32_MAX then 0 else c + 1 in
      if initial_value =? c then 0 else pick n l c initial_value
    end
  end.

Definition next_id (l : list (option xid_entry)) (id : Z) : Z :=
  let '(initial_value, c) := if id =? UINT32_MAX then (0, id) else (id + 1, id + 1) in
  pick (S (S (Z.to_nat XID_MAX_ENTRIES))) l c initial_value.

Definition empty_spec (id : Z) : spec := Spec id (replicate (Z.to_nat XID_MAX_ENTRIES) None) 0.

(** The slot in turn is emptied; the entry is put there. *)
Definition spec_insert (sp : spec) (original : Z) name : Z * spec :=
  let i := if XID_MAX_ENTRIES <=? sp_next sp then 0 else sp_next sp in
  let l := <[Z.to_nat i := None]> (sp_slots sp) in
  let x := next_id l (sp_id sp) in
  (x, Spec x (<[Z.to_nat i := Some (XidEntry x original name i)]> (remove_id x l)) (i + 1)).

(** * Invariant *)

Definition abs t : spec :=
  Spec (transaction_id t) (map (fun p => p ≫= fun a => entry_heap t !! a) (slots t)) (next_index t).

#[local] Existing Instance uint32_key.
#[local] Existing Instance uint32_key_ok.

Record wf_xid_table t : Prop := {
  w_length : length (slots t) = Z.to_nat XID_MAX_ENTRIES;
  w_next : 0 <= next_index t <= XID_MAX_ENTRIES;
  w_id : 0 <= transaction_id t < 2 ^ 32;
  w_slot i a : slots t !! i = Some (Some a) ->
    exists e, entry_heap t !! a = Some e /\ index e = Z.of_nat i;
  w_heap a e : entry_heap t !! a = Some e -> 0 <= index e /\ slots t !! Z.to_nat (index e) = Some (Some a);
  w_hash : wf_table (ok := fun _ => True) (hash_of t);
  w_map x v : table_map (hash_of t) x = Some v <->
    exists a e, v = Some a /\ entry_heap t !! a = Some e /\ xid e = x
}.

Lemma compare_uint32_eqb (x y : Z) : compare x y = (x =? y).
Proof. done. Qed.

Lemma map_repeat_None n h : map (fun p => p ≫= fun a => h !! a) (replicate n None) = replicate n (@None xid_entry).
Proof. induction n as [| n IH]; [done |]. cbn. by rewrite IH. Qed.

Lemma init_wf id : 0 <= id < 2 ^ 32 -> wf_xid_table (init_xid_table id) /\ abs (init_xid_table id) = empty_spec id.
Proof.
  intros Hid. destruct (create_ok (ok := fun _ : Z => True) (V := option positive) default_hash_size eq_refl) as [Hw Hm].
  split.
  - split; cbn [init_xid_table slots entry_heap hash_of next_index transaction_id].
    + apply length_replicate.
    + done.
    + done.
    + intros i a [E _]%lookup_replicate. done.
    + done.
    + exact Hw.
    + intros x v. unfold create_hash. rewrite Hm. split; [done |]. intros (a & e & _ & He & _). done.
  - unfold abs, empty_spec, init_xid_table. cbn [transaction_id slots entry_heap next_index]. by rewrite map_repeat_None.
Qed.

Section Invariant.
Context (t : xid_table) (Hw : wf_xid_table t).

Lemma heap_inj a b e : entry_heap t !! a = Some e -> entry_heap t !! b = Some e -> a = b.
Proof. intros Ha Hb. destruct (w_heap t Hw a e Ha) as [_ E1], (w_heap t Hw b e Hb) as [_ E2]. congruence. Qed.

Lemma xid_inj a b e f : entry_heap t !! a = Some e -> entry_heap t !! b = Some f -> xid e = xid f -> a = b.
Proof.
  intros Ha Hb E. assert (H1 : table_map (hash_of t) (xid e) = Some (Some a)) by (apply (w_map t Hw); eauto).
  assert (H2 : table_map (hash_of t) (xid e) = Some (Some b)) by (rewrite E; apply (w_map t Hw); eauto).
  congruence.
Qed.

Lemma abs_slot i s : sp_slots (abs t) !! i = Some s <->
  exists p, slots t !! i = Some p /\ s = p ≫= fun a => entry_heap t !! a.
Proof. unfold abs. cbn [sp_slots]. rewrite list_lookup_fmap, fmap_Some. naive_solver. Qed.

Lemma abs_entry i e : sp_slots (abs t) !! i = Some (Some e) <->
  exists a, slots t !! i = Some (Some a) /\ entry_heap t !! a = Some e.
Proof.
  rewrite abs_slot. split.
  - intros ([a |] & Hp & E); [by exists a | done].
  - intros (a & Hs & He). exists (Some a). by rewrite Hs; cbn; rewrite He.
Qed.

Lemma find_id_spec x e : find_id x (sp_slots (abs t)) = Some e <-> exists a, entry_heap t !! a = Some e /\ xid e = x.
Proof.
  unfold find_id. split.
  - destruct (List.find _ _) as [[e' |] |] eqn:E; [| done | done]. intros [= ->].
    apply find_some in E as [Hin Hx]. apply list_elem_of_In, list_elem_of_lookup in Hin as [i Hi].
    apply abs_entry in Hi as (a & _ & Ha). exists a. cbn in Hx. by apply Z.eqb_eq in Hx.
  - intros (a & Ha & Hx). destruct (w_heap t Hw a e Ha) as [_ Hs].
    assert (Hin : In (Some e) (sp_slots (abs t))).
    { apply list_elem_of_In, list_elem_of_lookup. exists (Z.to_nat (index e)). apply abs_entry. by exists a. }
    destruct (List.find _ _) as [s |] eqn:E.
    + apply find_some in E as [Hin' Hh]. destruct s as [e' |]; [| done]. cbn in Hh. apply Z.eqb_eq in Hh.
      apply list_elem_of_In, list_elem_of_lookup in Hin' as [j Hj]. apply abs_entry in Hj as (b & _ & Hb).
      assert (a = b) as -> by (apply (xid_inj a b e e'); congruence). cbn. congruence.
    + apply (find_none _ _ E) in Hin. cbn in Hin. by rewrite Hx, Z.eqb_refl in Hin.
Qed.

Lemma lookup_xid_ok x :
  exists p, lookup_xid_entry t x = Ok p /\ (p ≫= fun a => entry_heap t !! a) = find_id x (sp_slots (abs t)) /\
    (forall a, p = Some a -> is_Some (entry_heap t !! a)).
Proof.
  unfold lookup_xid_entry. rewrite (lookup_ok (ok := fun _ => True)) by apply (w_hash t Hw).
  destruct (table_map (hash_of t) x) as [v |] eqn:E; cbn [default from_option].
  - apply (w_map t Hw) in E as (a & e & -> & Ha & Hx). exists (Some a). split_and!; [done | | by intros ? [= <-]; eauto].
    cbn. rewrite Ha. symmetry. apply find_id_spec. eauto.
  - exists None. split_and!; [done | | done]. cbn. destruct (find_id x (sp_slots (abs t))) as [e |] eqn:F; [| done].
    apply find_id_spec in F as (a & Ha & Hx). assert (table_map (hash_of t) x = Some (Some a)); [| congruence].
    apply (w_map t Hw). eauto.
Qed.

Lemma delete_xid_ok a e :
  entry_heap t !! a = Some e ->
  exists t', delete_xid_entry t a = Ok t' /\ wf_xid_table t' /\ transaction_id t' = transaction_id t /\
    next_index t' = next_index t /\ entry_heap t' = delete a (entry_heap t) /\
    slots t' = <[Z.to_nat (index e) := None]> (slots t) /\
    (forall k, table_map (hash_of t') k = if k =? xid e then None else table_map (hash_of t) k) /\
    sp_slots (abs t') = remove_id (xid e) (sp_slots (abs t)).
Proof.
  intros He. destruct (w_heap t Hw a e He) as [Hi Hs]. pose proof (lookup_lt_Some _ _ _ Hs) as Hlt.
  assert (Hm : table_map (hash_of t) (xid e) = Some (Some a)) by (apply (w_map t Hw); eauto).
  unfold delete_xid_entry, load. rewrite He. bind_ok.
  destruct (delete_ok (ok := fun _ => True) None (hash_of t) (xid e) (w_hash t Hw) I) as (hs & -> & Hwh & _ & Hmap).
  bind_ok. rewrite Hm. cbn [default from_option id set_hash entry_heap]. rewrite He. bind_ok.
  unfold set_slot. cbn [slots set_hash]. replace (_ && _) with true by lia. bind_ok. eexists. split; [done |].
  unfold free_xid_entry, set_heap. cbn [transaction_id entry_heap slots hash_of next_index].
  assert (Hne : forall j b, <[Z.to_nat (index e) := None]> (slots t) !! j = Some (Some b) ->
    slots t !! j = Some (Some b) /\ j <> Z.to_nat (index e) /\ b <> a).
  { intros j b Hj. destruct (decide (j = Z.to_nat (index e))) as [-> | Hn]; [by rewrite list_lookup_insert_eq in Hj |].
    rewrite list_lookup_insert_ne in Hj by done. split_and!; [done | done |]. intros ->.
    destruct (w_slot t Hw _ _ Hj) as (e' & He' & Ei). assert (e' = e) as -> by congruence. lia. }
  split_and!; try done.
  - split; cbn [transaction_id entry_heap slots hash_of next_index].
    + rewrite length_insert. apply (w_length t Hw).
    + apply (w_next t Hw).
    + apply (w_id t Hw).
    + intros j b (Hj & _ & Hb)%Hne. rewrite lookup_delete_ne by done. by apply (w_slot t Hw).
    + intros b f [Hb Hf]%lookup_delete_Some. destruct (w_heap t Hw b f Hf) as [Hfi Hfs]. split; [done |].
      rewrite list_lookup_insert_ne; [done |]. intros E. rewrite <- E in Hfs. congruence.
    + exact Hwh.
    + intros x v. rewrite Hmap, compare_uint32_eqb. destruct (Z.eqb_spec x (xid e)) as [-> | Hx].
      * split; [done |]. intros (b & f & _ & [Hb Hf]%lookup_delete_Some & Ef). by apply (xid_inj b a f e) in Ef.
      * rewrite (w_map t Hw). split; intros (b & f & -> & Hf & Ef); exists b, f; (split_and!; [done | | done]).
        -- apply lookup_delete_Some. split; [| done]. intros ->. congruence.
        -- by apply lookup_delete_Some in Hf as [_ Hf].
  - apply list_eq. intros j. unfold abs, remove_id. cbn [sp_slots slots entry_heap]. rewrite !list_lookup_fmap.
    destruct (decide (j = Z.to_nat (index e))) as [-> | Hn].
    + rewrite list_lookup_insert_eq, Hs by done. cbn. rewrite He. cbn. by rewrite Z.eqb_refl.
    + rewrite list_lookup_insert_ne by done. destruct (slots t !! j) as [[b |] |] eqn:Hj; [| done | done]. cbn.
      destruct (w_slot t Hw _ _ Hj) as (f & Hf & Ei). assert (b <> a) as Hb by (intros ->; assert (f = e) by congruence; subst; lia).
      rewrite lookup_delete_ne, Hf by done. cbn. destruct (Z.eqb_spec (xid f) (xid e)) as [E |]; [| done].
      by apply (xid_inj b a f e) in E.
Qed.

(** The id of an entry is in its slot only. *)
Lemma remove_id_one a e :
  entry_heap t !! a = Some e ->
  remove_id (xid e) (sp_slots (abs t)) = <[Z.to_nat (index e) := None]> (sp_slots (abs t)).
Proof.
  intros He. destruct (w_heap t Hw a e He) as [Hi Hs]. apply list_eq. intros j. unfold remove_id.
  rewrite list_lookup_fmap. destruct (decide (j = Z.to_nat (index e))) as [-> | Hn].
  - assert (Ha : sp_slots (abs t) !! Z.to_nat (index e) = Some (Some e)) by (apply abs_entry; eauto).
    rewrite Ha, list_lookup_insert_eq by (by eapply lookup_lt_Some). cbn. by rewrite Z.eqb_refl.
  - rewrite list_lookup_insert_ne by done. destruct (sp_slots (abs t) !! j) as [[f |] |] eqn:Hj; [| done | done]. cbn.
    destruct (Z.eqb_spec (xid f) (xid e)) as [E |]; [| done]. apply abs_entry in Hj as (b & Hj & Hf).
    apply (xid_inj b a f e) in E; [| done | done]. subst b. destruct (w_slot t Hw _ _ Hj) as (f' & Hf' & Ei).
    assert (f' = e) as -> by congruence. lia.
Qed.

Lemma remove_id_none x :
  (forall b e, entry_heap t !! b = Some e -> xid e <> x) -> remove_id x (sp_slots (abs t)) = sp_slots (abs t).
Proof.
  intros Hn. apply list_eq. intros j. unfold remove_id. rewrite list_lookup_fmap.
  destruct (sp_slots (abs t) !! j) as [[f |] |] eqn:Hj; [| done | done]. cbn. apply abs_entry in Hj as (b & _ & Hf).
  by destruct (Z.eqb_spec (xid f) x) as [E%(Hn b f Hf) |].
Qed.

(** A new entry in an empty slot. *)
Lemma put_ok x original name i a hs id :
  slots t !! i = Some None -> entry_heap t !! a = None ->
  (forall b e, entry_heap t !! b = Some e -> xid e <> x) ->
  wf_table (ok := fun _ => True) hs ->
  (forall k, table_map hs k = if k =? x then Some (Some a) else table_map (hash_of t) k) -> 0 <= id < 2 ^ 32 ->
  let e := XidEntry x original name (Z.of_nat i) in
  let t' := XidTable id (<[a := e]> (entry_heap t)) (<[i := Some a]> (slots t)) hs (Z.of_nat i + 1) in
  wf_xid_table t' /\ sp_slots (abs t') = <[i := Some e]> (sp_slots (abs t)).
Proof.
  intros Hi Ha Hx Hwh Hm Hid e t'. pose proof (lookup_lt_Some _ _ _ Hi) as Hlt.
  pose proof (w_length t Hw) as Hlen. split.
  - split; cbn [t' transaction_id entry_heap slots hash_of next_index].
    + by rewrite length_insert.
    + lia.
    + done.
    + intros j b Hj. destruct (decide (j = i)) as [-> | Hn].
      * rewrite list_lookup_insert_eq in Hj by done. injection Hj as <-. exists e. by rewrite lookup_insert_eq.
      * rewrite list_lookup_insert_ne in Hj by done. destruct (w_slot t Hw _ _ Hj) as (f & Hf & Ei). exists f.
        rewrite lookup_insert_ne; [done |]. intros ->. congruence.
    + intros b f [[<- <-] | [Hb Hf]]%lookup_insert_Some.
      * cbn. rewrite Nat2Z.id, list_lookup_insert_eq by done. split; [lia | done].
      * destruct (w_heap t Hw b f Hf) as [Hfi Hfs]. split; [done |].
        rewrite list_lookup_insert_ne; [done |]. intros E. rewrite <- E in Hfs. congruence.
    + exact Hwh.
    + intros k v. rewrite Hm. destruct (Z.eqb_spec k x) as [-> | Hk].
      * split.
        -- intros [= <-]. exists a, e. by rewrite lookup_insert_eq.
        -- intros (b & f & -> & [[<- <-] | [Hb Hf]]%lookup_insert_Some & Ef); [done |]. by apply Hx in Hf.
      * rewrite (w_map t Hw). split; intros (b & f & -> & Hf & Ef); exists b, f; (split_and!; [done | | done]).
        -- rewrite lookup_insert_ne; [done |]. intros ->. congruence.
        -- apply lookup_insert_Some in Hf as [[<- <-] | [_ Hf]]; [by cbn in Ef | done].
  - apply list_eq. intros j. unfold abs. cbn [t' sp_slots slots entry_heap]. rewrite list_lookup_fmap.
    destruct (decide (j = i)) as [-> | Hn].
    + rewrite !list_lookup_insert_eq by (try rewrite length_fmap; done). cbn. by rewrite lookup_insert_eq.
    + rewrite !list_lookup_insert_ne, list_lookup_fmap by done.
      destruct (slots t !! j) as [[b |] |] eqn:Hj; [| done | done]. cbn. rewrite lookup_insert_ne; [done |].
      intros ->. destruct (w_slot t Hw _ _ Hj) as (f & Hf & _). congruence.
Qed.

(** ** The next id *)

(** The [k]-th candidate after [c]. *)
Definition candidate (c : Z) (k : nat) : Z := (c + Z.of_nat k) mod 2 ^ 32.

Lemma candidate_step c k :
  0 <= c < 2 ^ 32 -> candidate (if c =? UINT32_MAX then 0 else c + 1) k = candidate c (S k).
Proof.
  intros Hc. unfold candidate, UINT32_MAX. destruct (Z.eqb_spec c 4294967295) as [-> |].
  - replace (4294967295 + Z.of_nat (S k)) with (0 + Z.of_nat k + 1 * 2 ^ 32) by lia. by rewrite Z.mod_add.
  - f_equal. lia.
Qed.

Lemma candidate_0 c : 0 <= c < 2 ^ 32 -> candidate c 0 = c.
Proof. intros Hc. unfold candidate. rewrite Z.add_0_r. by apply Z.mod_small. Qed.

Lemma candidate_inj c i j :
  (i < Z.to_nat (2 ^ 32))%nat -> (j < Z.to_nat (2 ^ 32))%nat -> candidate c i = candidate c j -> i = j.
Proof.
  intros Hi Hj E. unfold candidate in E.
  assert (Z.of_nat i mod 2 ^ 32 = Z.of_nat j mod 2 ^ 32) as E'.
  { replace (Z.of_nat i) with (c + Z.of_nat i - c) by lia. replace (Z.of_nat j) with (c + Z.of_nat j - c) by lia.
    rewrite (Zminus_mod (c + Z.of_nat i)), (Zminus_mod (c + Z.of_nat j)). by rewrite E. }
  rewrite !Z.mod_small in E' by lia. lia.
Qed.

(** The loop ends with [pick], unless every candidate is used. *)
Lemma generate_loop_ok fuel c initial :
  0 <= c < 2 ^ 32 ->
  (exists t', generate_xid_loop fuel (set_transaction_id t c) initial = Ok t' /\
     t' = set_transaction_id t (pick fuel (sp_slots (abs t)) c initial) /\
     0 <= pick fuel (sp_slots (abs t)) c initial < 2 ^ 32) \/
  (generate_xid_loop fuel (set_transaction_id t c) initial = Fault OutOfFuel /\
   forall k, (k < fuel)%nat -> is_Some (find_id (candidate c k) (sp_slots (abs t)))).
Proof.
  revert c. induction fuel as [| fuel IH]; intros c Hc; [right; split; [done | lia] |].
  cbn [generate_xid_loop pick]. destruct (lookup_xid_ok c) as (p & Hl & Hp & Hh).
  change (lookup_xid_entry (set_transaction_id t c) (transaction_id (set_transaction_id t c))) with (lookup_xid_entry t c).
  rewrite Hl. bind_ok. cbn [transaction_id set_transaction_id]. rewrite <- Hp. destruct p as [a |].
  - destruct (Hh a eq_refl) as [e He]. cbn [mbind option_bind]. rewrite He. cbv zeta. rewrite if_negb.
    set (c' := if c =? UINT32_MAX then 0 else c + 1).
    assert (Hc' : 0 <= c' < 2 ^ 32) by (unfold c', UINT32_MAX; destruct (Z.eqb_spec c 4294967295); lia).
    destruct (initial =? c'); [left; by eexists |]. destruct (IH c' Hc') as [IHl | [IHf Hall]]; [by left |].
    right. split; [exact IHf |]. intros [| k] Hk.
    + rewrite candidate_0 by done. rewrite <- Hp. cbn. by rewrite He.
    + rewrite <- candidate_step by done. apply Hall. lia.
  - left. by eexists.
Qed.
End Invariant.

(** Fewer ids are in use than the loop tries. *)
Lemma used_ids l c fuel :
  (fuel <= Z.to_nat (2 ^ 32))%nat ->
  (forall k, (k < fuel)%nat -> is_Some (find_id (candidate c k) l)) -> (fuel <= length l)%nat.
Proof.
  intros Hf Hall. set (ids := map (candidate c) (seq 0 fuel)). set (used := map (fun s => from_option xid (-1) s) l).
  assert (Hnd : NoDup ids).
  { unfold ids. apply NoDup_fmap_2_strong; [| apply NoDup_seq]. intros i j Hi Hj. apply elem_of_seq in Hi, Hj.
    apply candidate_inj; lia. }
  assert (Hin : forall x, x ∈ ids -> x ∈ used).
  { intros x (k & -> & Hk%elem_of_seq)%list_elem_of_fmap. destruct (Hall k ltac:(lia)) as [e He]. unfold find_id in He.
    destruct (List.find _ _) as [[e' |] |] eqn:E; [| done | done]. apply find_some in E as [Hl Hx]. cbn in Hx.
    apply Z.eqb_eq in Hx. apply list_elem_of_fmap. exists (Some e'). split; [by symmetry | by apply list_elem_of_In]. }
  pose proof (submseteq_length _ _ (NoDup_submseteq _ _ Hnd Hin)) as H.
  unfold ids, used in H. by rewrite !length_map, length_seq in H.
Qed.

Lemma length_abs t : length (sp_slots (abs t)) = length (slots t).
Proof. apply length_map. Qed.

Lemma generate_xid_ok t : wf_xid_table t ->
  let x := next_id (sp_slots (abs t)) (transaction_id t) in
  generate_xid t = Ok (x, set_transaction_id t x) /\ 0 <= x < 2 ^ 32.
Proof.
  intros Hw. pose proof (w_id t Hw) as Hid. unfold generate_xid, next_id.
  assert (G : forall initial c, 0 <= c < 2 ^ 32 ->
    let x := pick (S (S (Z.to_nat XID_MAX_ENTRIES))) (sp_slots (abs t)) c initial in
    (let* t' := generate_xid_loop (S (S (Z.to_nat XID_MAX_ENTRIES))) (set_transaction_id t c) initial in
     Ok (transaction_id t', t')) = Ok (x, set_transaction_id t x) /\ 0 <= x < 2 ^ 32).
  { intros initial c Hc. cbv zeta.
    destruct (generate_loop_ok t Hw (S (S (Z.to_nat XID_MAX_ENTRIES))) c initial Hc) as [(t' & -> & -> & Hr) | [_ Hall]].
    - bind_ok. by split.
    - apply used_ids in Hall; [| unfold XID_MAX_ENTRIES; lia]. rewrite length_abs, (w_length t Hw) in Hall. lia. }
  destruct (Z.eqb_spec (transaction_id t) UINT32_MAX) as [E | E]; cbn [negb].
  - pose proof (G 0 (transaction_id t) Hid) as G0. cbv zeta in G0.
    replace (set_transaction_id t (transaction_id t)) with t in G0 by by destruct t. exact G0.
  - apply G. unfold UINT32_MAX in E. lia.
Qed.

Lemma get_slot_ok t i p : slots t !! i = Some p -> get_slot t (Z.of_nat i) = Ok p.
Proof. intros H. unfold get_slot. destruct (Z.ltb_spec (Z.of_nat i) 0); [lia |]. by rewrite Nat2Z.id, H. Qed.

Lemma set_slot_ok t i p : (i < length (slots t))%nat -> set_slot t (Z.of_nat i) p =
  Ok (XidTable (transaction_id t) (entry_heap t) (<[i := p]> (slots t)) (hash_of t) (next_index t)).
Proof.
  intros H. unfold set_slot. replace ((0 <=? Z.of_nat i) && (Z.of_nat i <? Z.of_nat (length (slots t)))) with true by lia.
  by rewrite Nat2Z.id.
Qed.

(** The slot whose turn it is is emptied. *)
Lemma empty_slot_ok t i p :
  wf_xid_table t -> slots t !! i = Some p ->
  exists t1, match p with Some a => delete_xid_entry t a | None => Ok t end = Ok t1 /\
    wf_xid_table t1 /\ slots t1 !! i = Some None /\ next_index t1 = next_index t /\
    transaction_id t1 = transaction_id t /\ sp_slots (abs t1) = <[i := None]> (sp_slots (abs t)).
Proof.
  intros Hw Hp. destruct p as [a |].
  - destruct (w_slot t Hw _ _ Hp) as (e & He & Ei).
    destruct (delete_xid_ok t Hw a e He) as (t1 & Hd & Hw1 & Hid & Hn & _ & Hs & _ & Habs).
    exists t1. rewrite (remove_id_one t Hw a e He) in Habs. rewrite Ei, Nat2Z.id in *.
    split_and!; try done. rewrite Hs, list_lookup_insert_eq; [done | by eapply lookup_lt_Some].
  - exists t. split_and!; try done. symmetry. apply list_insert_id. apply abs_slot. by exists None.
Qed.

(** The entry is put there. *)
Lemma fill_slot_ok t original name i x :
  wf_xid_table t -> slots t !! i = Some None -> next_index t = Z.of_nat i -> 0 <= x < 2 ^ 32 ->
  let a := fresh (dom (entry_heap t)) in
  let e := XidEntry x original name (Z.of_nat i) in
  let u := set_heap (set_transaction_id t x) (<[a := e]> (entry_heap t)) in
  exists old hs t', insert_hash_entry None (hash_of t) x (Some a) = Ok (old, hs) /\
    match old with
    | None => Ok (set_hash u hs)
    | Some o =>
      let* oe := load (entry_heap (set_hash u hs)) o in
      let* u := set_slot (set_hash u hs) (index oe) None in
      Ok (free_xid_entry u o)
    end = Ok t' /\
    wf_xid_table (XidTable x (entry_heap t') (<[i := Some a]> (slots t')) (hash_of t') (Z.of_nat i + 1)) /\
    transaction_id t' = x /\ next_index t' = Z.of_nat i /\ (i < length (slots t'))%nat /\
    entry_heap t' !! a = Some e /\
    sp_slots (abs (XidTable x (entry_heap t') (<[i := Some a]> (slots t')) (hash_of t') (Z.of_nat i + 1))) =
      <[i := Some e]> (remove_id x (sp_slots (abs t))).
Proof.
  intros Hw Hi Hn Hx a e u. pose proof (lookup_lt_Some _ _ _ Hi) as Hlt.
  assert (Ha : entry_heap t !! a = None) by (apply not_elem_of_dom, is_fresh).
  destruct (insert_ok (ok := fun _ => True) None (hash_of t) x (Some a) (w_hash t Hw) I) as (hs & Hins & Hwh & _ & Hmap).
  destruct (table_map (hash_of t) x) as [v |] eqn:E.
  - apply (w_map t Hw) in E as (o & oe & -> & Ho & Ex). assert (Hao : o <> a) by congruence.
    destruct (delete_xid_ok t Hw o oe Ho) as (td & _ & Hwd & Hid & Hnd & Hhd & Hsd & Hmd & Habs).
    destruct (w_heap t Hw o oe Ho) as [Hoi Hos]. pose proof (lookup_lt_Some _ _ _ Hos) as Hol.
    destruct (put_ok td Hwd x original name i a hs x) as [Hf1 Hf2].
    + rewrite Hsd. destruct (decide (i = Z.to_nat (index oe))) as [-> |]; [by rewrite list_lookup_insert_eq |].
      by rewrite list_lookup_insert_ne.
    + rewrite Hhd. by rewrite lookup_delete_ne.
    + intros b f Hb. rewrite Hhd in Hb. apply lookup_delete_Some in Hb as [Hbo Hb]. intros Ef.
      apply Hbo. symmetry. apply (xid_inj t Hw b o f oe); congruence.
    + exact Hwh.
    + intros k. rewrite Hmap, Hmd, Ex, compare_uint32_eqb. by destruct (k =? x).
    + done.
    + eexists _, _, _. split; [exact Hins |]. cbn [default from_option id]. unfold load.
      cbn [u entry_heap set_heap set_hash]. rewrite lookup_insert_ne, Ho by done. bind_ok.
      replace (index oe) with (Z.of_nat (Z.to_nat (index oe))) by lia. rewrite set_slot_ok by done. bind_ok.
      unfold free_xid_entry, set_heap. cbn [set_hash set_transaction_id transaction_id entry_heap slots hash_of next_index].
      split; [done |]. cbn [entry_heap slots hash_of transaction_id next_index].
      change (entry_heap u) with (<[a := e]> (entry_heap t)). change (slots u) with (slots t).
      rewrite delete_insert_ne, <- Hhd, <- Hsd, <- Ex, <- Habs by done. rewrite Ex.
      split_and!; [exact Hf1 | done | done | by rewrite Hsd, length_insert | apply lookup_insert_eq | exact Hf2].
  - assert (Hnx : forall b f, entry_heap t !! b = Some f -> xid f <> x).
    { intros b f Hb Ef. assert (table_map (hash_of t) x = Some (Some b)); [| congruence]. apply (w_map t Hw). eauto. }
    destruct (put_ok t Hw x original name i a hs x Hi Ha Hnx Hwh) as [Hf1 Hf2]; [| done |].
    + intros k. by rewrite Hmap, compare_uint32_eqb.
    + eexists _, _, _. split; [exact Hins |]. cbn [default from_option id]. split; [done |].
      cbn [u set_hash set_heap set_transaction_id entry_heap slots hash_of transaction_id next_index].
      rewrite (remove_id_none t x Hnx).
      split_and!; [exact Hf1 | done | done | done | apply lookup_insert_eq | exact Hf2].
Qed.

Lemma set_next_index_wf t i : wf_xid_table t -> 0 <= i <= XID_MAX_ENTRIES -> wf_xid_table (set_next_index t i).
Proof. intros [] Hi. by split. Qed.

Lemma insert_xid_ok t original name :
  wf_xid_table t ->
  exists t', insert_xid_entry t original name = Ok ((spec_insert (abs t) original name).1, t') /\
    wf_xid_table t' /\ abs t' = (spec_insert (abs t) original name).2.
Proof.
  intros Hw. pose proof (w_next t Hw) as Hn. unfold insert_xid_entry, spec_insert. cbv zeta.
  change (sp_next (abs t)) with (next_index t).
  set (n := if XID_MAX_ENTRIES <=? next_index t then 0 else next_index t).
  assert (E0 : (if XID_MAX_ENTRIES <=? next_index t then set_next_index t 0 else t) = set_next_index t n).
  { unfold n. destruct (XID_MAX_ENTRIES <=? next_index t); [done | by destruct t]. }
  assert (Hn0 : 0 <= n < XID_MAX_ENTRIES).
  { unfold n. destruct (Z.leb_spec XID_MAX_ENTRIES (next_index t)); unfold XID_MAX_ENTRIES in *; lia. }
  rewrite E0. pose proof (set_next_index_wf t n Hw ltac:(lia)) as Hw0. set (t0 := set_next_index t n) in *.
  set (i := Z.to_nat n). assert (Ei : next_index t0 = Z.of_nat i) by (cbn [t0 set_next_index next_index]; lia).
  destruct (lookup_lt_is_Some_2 (slots t0) i) as [p Hp]; [rewrite (w_length t0 Hw0); unfold i; lia |].
  destruct (empty_slot_ok t0 i p Hw0 Hp) as (t1 & Ht1 & Hw1 & Hi1 & Hn1 & Hid1 & Habs1).
  rewrite Ei, (get_slot_ok t0 i p Hp). bind_ok. rewrite Ht1. bind_ok.
  unfold allocate_xid_entry. destruct (generate_xid_ok t1 Hw1) as [-> Hx]. rewrite Habs1, Hid1 in *.
  change (sp_slots (abs t0)) with (sp_slots (abs t)) in *. change (transaction_id t0) with (sp_id (abs t)) in *.
  set (x := next_id (<[i := None]> (sp_slots (abs t))) (sp_id (abs t))) in *. bind_ok. rewrite Hn1, Ei.
  destruct (fill_slot_ok t1 original name i x Hw1 Hi1 ltac:(congruence) Hx)
    as (old & hs & t' & Hins & Hold & Hw' & Hid' & Hn' & Hl' & Hh' & Habs').
  cbn [set_transaction_id entry_heap] in *. unfold load at 1. cbn [set_heap entry_heap]. rewrite lookup_insert_eq. bind_ok.
  cbn [xid set_heap hash_of set_transaction_id]. rewrite Hins. bind_ok.
  rewrite Hold. bind_ok. rewrite Hn'. rewrite set_slot_ok by done. bind_ok.
  unfold load. cbn [set_next_index entry_heap next_index]. rewrite Hh', Hn'. bind_ok.
  unfold set_next_index. cbn [transaction_id entry_heap slots hash_of next_index]. rewrite Hid'.
  replace n with (Z.of_nat i) by lia. eexists. split; [done |]. split; [exact Hw' |].
  cbn [snd]. rewrite Habs1 in Habs'. rewrite <- Habs'. reflexivity.
Qed.

(** * Calls *)

(** What the daemon does with the table: [Generate] for a message of its own,
    [Insert] for a message of an application, [Reply] for the last reply, whose
    entry it deletes, [Lookup] for a reply that others follow. *)
Inductive xid_call : Type :=
| Generate
| Insert (original : Z) (name : bytes)
| Lookup (x : Z)
| Reply (x : Z).

Inductive xid_result : Type :=
| NewXid (x : Z)
| Found (e : option (Z * bytes)).

Definition origin (e : xid_entry) : Z * bytes := (original_xid e, service_name e).

Definition run_call t (c : xid_call) : res (xid_result * xid_table) :=
  match c with
  | Generate => let* (x, t) := generate_xid t in Ok (NewXid x, t)
  | Insert original name => let* (x, t) := insert_xid_entry t original name in Ok (NewXid x, t)
  | Lookup x =>
    let* p := lookup_xid_entry t x in
    match p with
    | None => Ok (Found None, t)
    | Some a => let* e := load (entry_heap t) a in Ok (Found (Some (origin e)), t)
    end
  | Reply x =>
    let* p := lookup_xid_entry t x in
    match p with
    | None => Ok (Found None, t)
    | Some a =>
      let* e := load (entry_heap t) a in
      let* t := delete_xid_entry t a in
      Ok (Found (Some (origin e)), t)
    end
  end.

Fixpoint run_xid_calls t (cs : list xid_call) : res (list xid_result * xid_table) :=
  match cs with
  | [] => Ok ([], t)
  | c :: cs =>
    let* (r, t) := run_call t c in
    let* (rs, t) := run_xid_calls t cs in
    Ok (r :: rs, t)
  end.

Definition spec_call (sp : spec) (c : xid_call) : xid_result * spec :=
  match c with
  | Generate => let x := next_id (sp_slots sp) (sp_id sp) in (NewXid x, Spec x (sp_slots sp) (sp_next sp))
  | Insert original name => let '(x, sp) := spec_insert sp original name in (NewXid x, sp)
  | Lookup x => (Found (origin <$> find_id x (sp_slots sp)), sp)
  | Reply x => (Found (origin <$> find_id x (sp_slots sp)), Spec (sp_id sp) (remove_id x (sp_slots sp)) (sp_next sp))
  end.

Fixpoint spec_calls (sp : spec) (cs : list xid_call) : list xid_result * spec :=
  match cs with
  | [] => ([], sp)
  | c :: cs => let '(r, sp) := spec_call sp c in let '(rs, sp) := spec_calls sp cs in (r :: rs, sp)
  end.

Lemma remove_id_absent x l : find_id x l = None -> remove_id x l = l.
Proof.
  unfold find_id, remove_id. induction l as [| s l IH]; [done |]. cbn.
  destruct (has x s) eqn:E; [by destruct s | intros H; by rewrite IH].
Qed.

Lemma run_call_spec t c :
  wf_xid_table t ->
  exists t', run_call t c = Ok ((spec_call (abs t) c).1, t') /\ wf_xid_table t' /\ abs t' = (spec_call (abs t) c).2.
Proof.
  intros Hw. destruct c as [| original name | x | x]; cbn [run_call spec_call].
  - destruct (generate_xid_ok t Hw) as [-> Hx]. bind_ok. eexists. split; [done |]. split; [| done].
    destruct Hw as [H1 H2 _ H4 H5 H6 H7]. by split.
  - destruct (insert_xid_ok t original name Hw) as (t' & -> & Hw' & Ha). bind_ok. exists t'.
    by destruct (spec_insert (abs t) original name).
  - destruct (lookup_xid_ok t Hw x) as ([a |] & -> & Hf & Hh); bind_ok; cbn [mbind option_bind] in Hf; rewrite <- Hf.
    + destruct (Hh a eq_refl) as [e He]. unfold load. rewrite He. bind_ok. by exists t.
    + by exists t.
  - destruct (lookup_xid_ok t Hw x) as ([a |] & -> & Hf & Hh); bind_ok; cbn [mbind option_bind] in Hf; rewrite <- Hf.
    + destruct (Hh a eq_refl) as [e He]. unfold load. rewrite He in *. bind_ok.
      destruct (delete_xid_ok t Hw a e He) as (t' & -> & Hw' & Hid & Hn & _ & _ & _ & Ha). bind_ok.
      exists t'. split_and!; [done | done |]. symmetry in Hf. apply (find_id_spec t Hw) in Hf as (b & Hb & Hx).
      cbn [snd]. rewrite <- Hx, <- Ha. unfold abs. by rewrite Hid, Hn.
    + exists t. split_and!; [done | done |]. cbn [snd]. rewrite remove_id_absent by done. by destruct (abs t).
Qed.

Lemma run_xid_calls_ok t cs :
  wf_xid_table t ->
  exists t', run_xid_calls t cs = Ok ((spec_calls (abs t) cs).1, t') /\ wf_xid_table t' /\
    abs t' = (spec_calls (abs t) cs).2.
Proof.
  revert t. induction cs as [| c cs IH]; intros t Hw; [by exists t |]. cbn [run_xid_calls spec_calls].
  destruct (run_call_spec t c Hw) as (t1 & -> & Hw1 & Ha1). bind_ok.
  destruct (IH t1 Hw1) as (t2 & -> & Hw2 & Ha2). bind_ok. exists t2. rewrite Ha1 in *.
  destruct (spec_call (abs t) c) as [r sp]. cbn [fst snd] in *. by destruct (spec_calls sp cs).
Qed.

Lemma run_xid_calls_app t cs ds :
  run_xid_calls t (cs ++ ds) =
    let* (rs, t) := run_xid_calls t cs in let* (ss, t) := run_xid_calls t ds in Ok (rs ++ ss, t).
Proof.
  revert t. induction cs as [| c cs IH]; intros t; cbn [run_xid_calls app].
  - bind_ok. by destruct (run_xid_calls t ds) as [[] |].
  - destruct (run_call t c) as [[r t1] |]; [| done]. cbn [bind]. rewrite IH.
    destruct (run_xid_calls t1 cs) as [[rs t2] |]; [| done]. cbn [bind].
    by destruct (run_xid_calls t2 ds) as [[ss t3] |].
Qed.

Lemma reachable_wf id cs :
  0 <= id < 2 ^ 32 ->
  exists t, run_xid_calls (init_xid_table id) cs = Ok ((spec_calls (empty_spec id) cs).1, t) /\ wf_xid_table t.
Proof.
  intros Hid. destruct (init_wf id Hid) as [Hw Ha]. destruct (run_xid_calls_ok _ cs Hw) as (t & Hr & Hw' & _).
  rewrite Ha in Hr. by exists t.
Qed.

(** ** An id stays until its reply *)

(** An id picked is free, or the fallback 0. *)
Lemma pick_free fuel l c initial :
  0 <= c < 2 ^ 32 ->
  (pick fuel l c initial = 0 \/ find_id (pick fuel l c initial) l = None) \/
  (forall k, (k < fuel)%nat -> is_Some (find_id (candidate c k) l)).
Proof.
  revert c. induction fuel as [| fuel IH]; intros c Hc; [right; lia |]. cbn [pick].
  destruct (find_id c l) as [e |] eqn:E; [| by left; right].
  set (c' := if c =? UINT32_MAX then 0 else c + 1).
  assert (Hc' : 0 <= c' < 2 ^ 32) by (unfold c', UINT32_MAX; destruct (Z.eqb_spec c 4294967295); lia).
  cbv zeta. destruct (initial =? c'); [by left; left |]. destruct (IH c' Hc') as [? | Hall]; [by left |].
  right. intros [| k] Hk; [by rewrite candidate_0, E |]. rewrite <- candidate_step by done. apply Hall. lia.
Qed.

Lemma pick_at_maximum n l : pick (S n) l UINT32_MAX 0 = if find_id UINT32_MAX l then 0 else UINT32_MAX.
Proof. cbn [pick]. by destruct (find_id UINT32_MAX l). Qed.

Lemma next_id_free l id :
  (length l <= Z.to_nat XID_MAX_ENTRIES)%nat -> 0 <= id < 2 ^ 32 -> next_id l id = 0 \/ find_id (next_id l id) l = None.
Proof.
  intros Hl Hid. assert (G : forall c initial, 0 <= c < 2 ^ 32 ->
    let x := pick (S (S (Z.to_nat XID_MAX_ENTRIES))) l c initial in x = 0 \/ find_id x l = None).
  { intros c initial Hc. destruct (pick_free (S (S (Z.to_nat XID_MAX_ENTRIES))) l c initial Hc) as [? | Hall]; [done |].
    apply used_ids in Hall; [| unfold XID_MAX_ENTRIES]; lia. }
  unfold next_id. destruct (Z.eqb_spec id UINT32_MAX) as [E | E]; apply G; [lia |]. unfold UINT32_MAX in E. lia.
Qed.

Lemma remove_id_lookup x l i e : l !! i = Some (Some e) -> xid e <> x -> remove_id x l !! i = Some (Some e).
Proof. intros Hi Hx. unfold remove_id. rewrite list_lookup_fmap, Hi. cbn. by destruct (Z.eqb_spec (xid e) x). Qed.

Lemma find_id_None x l i e : find_id x l = None -> l !! i = Some (Some e) -> xid e <> x.
Proof.
  unfold find_id. intros Hf Hi Hx. destruct (List.find (has x) l) as [s |] eqn:E.
  - apply find_some in E as [_ Hh]. by destruct s.
  - assert (Hin : In (Some e) l) by (apply list_elem_of_In, list_elem_of_lookup; by exists i).
    apply (find_none _ _ E) in Hin. cbn in Hin. by rewrite Hx, Z.eqb_refl in Hin.
Qed.

Definition is_insert (c : xid_call) : bool := match c with Insert _ _ => true | _ => false end.
Definition inserts (cs : list xid_call) : Z := Z.of_nat (length (List.filter is_insert cs)).

(** The slots in turn go round. *)
Lemma spec_insert_next sp original name :
  0 <= sp_next sp <= XID_MAX_ENTRIES ->
  (if XID_MAX_ENTRIES <=? sp_next sp then 0 else sp_next sp) = sp_next sp mod XID_MAX_ENTRIES /\
  sp_next (spec_insert sp original name).2 mod XID_MAX_ENTRIES = (sp_next sp + 1) mod XID_MAX_ENTRIES.
Proof.
  intros Hn. unfold spec_insert. cbn [snd sp_next]. unfold XID_MAX_ENTRIES in *.
  destruct (Z.leb_spec 4096 (sp_next sp)).
  - by replace (sp_next sp) with 4096 by lia.
  - split; [symmetry; apply Z.mod_small; lia | done].
Qed.

Lemma call_keeps t c i e :
  wf_xid_table t -> sp_slots (abs t) !! i = Some (Some e) -> xid e <> 0 -> c <> Reply (xid e) ->
  (is_insert c = true -> Z.to_nat (sp_next (abs t) mod XID_MAX_ENTRIES) <> i) ->
  let sp := (spec_call (abs t) c).2 in
  sp_slots sp !! i = Some (Some e) /\
  sp_next sp mod XID_MAX_ENTRIES = (sp_next (abs t) + inserts [c]) mod XID_MAX_ENTRIES.
Proof.
  intros Hw Hi H0 Hc Hn. destruct c as [| original name | x | x]; cbn [spec_call inserts is_insert List.filter length].
  - cbv zeta. cbn [snd sp_slots sp_next]. split; [done |]. by rewrite Z.add_0_r.
  - specialize (Hn eq_refl). destruct (spec_insert_next (abs t) original name (w_next t Hw)) as [En Em].
    destruct (spec_insert (abs t) original name) as [x sp] eqn:E. unfold spec_insert in E. rewrite En in E.
    injection E as Ex Es. cbn [snd] in *. split; [| exact Em]. rewrite <- Es. cbn [sp_slots].
    rewrite list_lookup_insert_ne by done. apply remove_id_lookup; [by rewrite list_lookup_insert_ne |].
    set (l := <[_ := None]> _) in *.
    assert (Hl : l !! i = Some (Some e)) by (unfold l; by rewrite list_lookup_insert_ne).
    destruct (next_id_free l (transaction_id t)) as [H | H].
    + unfold l. rewrite length_insert, length_map, (w_length t Hw). lia.
    + apply (w_id t Hw).
    + cbn [sp_id abs] in *. congruence.
    + by apply (find_id_None _ l i e) in H.
  - cbv zeta. cbn [snd]. split; [done |]. by rewrite Z.add_0_r.
  - cbv zeta. cbn [snd sp_slots sp_next]. split; [| by rewrite Z.add_0_r]. apply remove_id_lookup; congruence.
Qed.

Lemma inserts_cons c cs : inserts (c :: cs) = inserts [c] + inserts cs.
Proof. unfold inserts. cbn. destruct (is_insert c); cbn [length]; lia. Qed.

Lemma inserts_nonneg cs : 0 <= inserts cs.
Proof. unfold inserts. lia. Qed.

Lemma calls_keep cs t i e :
  wf_xid_table t -> sp_slots (abs t) !! i = Some (Some e) -> xid e <> 0 -> Reply (xid e) ∉ cs ->
  forall m, 0 <= m -> sp_next (abs t) mod XID_MAX_ENTRIES = (Z.of_nat i + 1 + m) mod XID_MAX_ENTRIES ->
  m + inserts cs < XID_MAX_ENTRIES -> Z.of_nat i < XID_MAX_ENTRIES ->
  exists rs t', run_xid_calls t cs = Ok (rs, t') /\ wf_xid_table t' /\ sp_slots (abs t') !! i = Some (Some e).
Proof.
  revert t. induction cs as [| c cs IH]; intros t Hw Hi H0 Hc m Hm Hn Hlt Hmax; [by exists [], t |].
  rewrite inserts_cons in Hlt. pose proof (inserts_nonneg cs) as Hcs. apply not_elem_of_cons in Hc as [Hc Hcs'].
  destruct (call_keeps t c i e Hw Hi H0) as [Hk Hkn]; [by apply not_eq_sym | |].
  - intros Hins E. rewrite Hn in E. unfold inserts in Hlt. cbn in Hlt. rewrite Hins in Hlt. cbn [length] in Hlt.
    unfold XID_MAX_ENTRIES in *. pose proof (Z.mod_pos_bound (Z.of_nat i + 1 + m) 4096 eq_refl).
    assert (Hmod : (Z.of_nat i + 1 + m) mod 4096 = Z.of_nat i) by lia.
    assert (Hsum : (Z.of_nat i + 1 + m - Z.of_nat i) mod 4096 = 0).
    { by rewrite Zminus_mod, Hmod, (Z.mod_small (Z.of_nat i)), Z.sub_diag by lia. }
    replace (Z.of_nat i + 1 + m - Z.of_nat i) with (1 + m) in Hsum by lia. rewrite Z.mod_small in Hsum by lia. lia.
  - destruct (run_call_spec t c Hw) as (t1 & Hr & Hw1 & Ha). cbn [run_xid_calls]. rewrite Hr. bind_ok.
    rewrite <- Ha in Hk, Hkn. pose proof (inserts_nonneg [c]).
    destruct (IH t1 Hw1 Hk H0 Hcs' (m + inserts [c])) as (rs & t' & -> & Hw' & Hi'); [lia | | lia | done |].
    + rewrite Hkn, <- (Zplus_mod_idemp_l (sp_next (abs t))), Hn, Zplus_mod_idemp_l. f_equal. lia.
    + bind_ok. eexists _, _. by split.
Qed.

Lemma insert_puts t original name x t' :
  wf_xid_table t -> insert_xid_entry t original name = Ok (x, t') ->
  let i := Z.to_nat (sp_next (abs t) mod XID_MAX_ENTRIES) in
  sp_slots (abs t') !! i = Some (Some (XidEntry x original name (Z.of_nat i))) /\
  sp_next (abs t') mod XID_MAX_ENTRIES = (Z.of_nat i + 1) mod XID_MAX_ENTRIES.
Proof.
  intros Hw Hr. destruct (insert_xid_ok t original name Hw) as (t1 & Hr' & Hw' & Ha). rewrite Hr in Hr'.
  destruct (spec_insert_next (abs t) original name (w_next t Hw)) as [En Em].
  destruct (spec_insert (abs t) original name) as [y sp] eqn:E. cbn [fst snd] in *. injection Hr' as <- <-.
  cbv zeta. rewrite Ha, Em.
  unfold spec_insert in E. rewrite En in E. injection E as Ex <-. rewrite Ex. cbn [sp_slots].
  pose proof (Z.mod_pos_bound (sp_next (abs t)) XID_MAX_ENTRIES eq_refl) as Hb. rewrite Z2Nat.id by lia.
  split; [| by rewrite Zplus_mod_idemp_l]. apply list_lookup_insert_eq. unfold remove_id.
  rewrite length_map, length_insert, length_map, (w_length t Hw). change (sp_next (abs t)) with (next_index t) in Hb. lia.
Qed.

(** ** Finalization *)

Lemma finalize_loop_ok n i t :
  length (slots t) = (i + n)%nat ->
  exists t', finalize_loop n t (Z.of_nat i) = Ok t' /\ hash_of t' = hash_of t /\ next_index t' = next_index t /\
    slots t' = take i (slots t) ++ replicate n None /\
    forall a e, entry_heap t' !! a = Some e -> entry_heap t !! a = Some e /\ Some a ∉ drop i (slots t).
Proof.
  revert i t. induction n as [| n IH]; intros i t Hl; cbn [finalize_loop].
  - exists t. split_and!; try done.
    + cbn. rewrite app_nil_r. symmetry. apply take_ge. lia.
    + intros a e Ha. split; [done |]. rewrite drop_ge by lia. by apply not_elem_of_nil.
  - destruct (lookup_lt_is_Some_2 (slots t) i) as [p Hp]; [lia |]. rewrite (get_slot_ok t i p Hp). bind_ok.
    rewrite (drop_S _ p i Hp). replace (Z.of_nat i + 1) with (Z.of_nat (S i)) by lia. destruct p as [b |].
    + rewrite set_slot_ok by (cbn; lia). bind_ok. unfold free_xid_entry, set_heap. cbn [transaction_id entry_heap slots hash_of next_index].
      match goal with |- context [finalize_loop n ?u _] => destruct (IH (S i) u) as (t' & -> & Hh & Hn & Hs & He) end.
      { cbn. rewrite length_insert. lia. }
      cbn [entry_heap slots hash_of next_index] in *. exists t'. split_and!; [done | done | done | |].
      * rewrite Hs, (take_S_r _ _ None), take_insert_ge by (rewrite ?list_lookup_insert_eq by lia; done || lia).
        by rewrite <- app_assoc.
      * intros a e Ha. apply He in Ha as [[Hab Ha]%lookup_delete_Some Hd]. split; [done |].
        rewrite drop_insert_lt in Hd by lia. apply not_elem_of_cons. split; [congruence | done].
    + destruct (IH (S i) t) as (t' & -> & Hh & Hn & Hs & He); [lia |]. exists t'. split_and!; [done | done | done | |].
      * by rewrite Hs, (take_S_r _ _ None Hp), <- app_assoc.
      * intros a e Ha. apply He in Ha as [Ha Hd]. split; [done |]. apply not_elem_of_cons. by split.
Qed.

Lemma finalize_ok t :
  wf_xid_table t ->
  exists t', finalize_xid_table t = Ok t' /\ entry_heap t' = ∅ /\
    slots t' = replicate (Z.to_nat XID_MAX_ENTRIES) None /\ nonempty_bucket_index (hash_of t') = [] /\
    (forall j b, buckets (hash_of t') !! j = Some b -> b = None) /\ next_index t' = 0.
Proof.
  intros Hw. unfold finalize_xid_table.
  destruct (finalize_loop_ok (Z.to_nat XID_MAX_ENTRIES) 0 t) as (t1 & Hf & Hh & _ & Hs & He); [by rewrite (w_length t Hw) |].
  change (Z.of_nat 0) with 0 in Hf. rewrite Hf. bind_ok. rewrite Hh.
  destruct (delete_hash_ok (hash_of t)) as (hs & -> & Hn & Hb); [apply (w_hash t Hw) |]. bind_ok.
  eexists. split; [done |]. cbn [set_next_index set_hash entry_heap slots hash_of next_index]. split_and!; [| | done | done | done].
  - apply map_empty. intros a. destruct (entry_heap t1 !! a) as [e |] eqn:E; [| done]. apply He in E as [Ha Hd].
    destruct (w_heap t Hw a e Ha) as [_ Hsl]. exfalso. apply Hd. rewrite drop_0. apply list_elem_of_lookup. eauto.
  - by rewrite Hs, take_0.
Qed.

(** * Properties *)

(** Whatever calls the daemon makes on a fresh table, none of them fails,
    and they return what they return on the array of 4096 entries of the
    specification: the hash table, the array of pointers and the heap agree. *)
Theorem xid_table_refines id cs :
  0 <= id < 2 ^ 32 ->
  exists t, run_xid_calls (init_xid_table id) cs = Ok ((spec_calls (empty_spec id) cs).1, t).
Proof. intros Hid. destruct (reachable_wf id cs Hid) as (t & Hr & _). by exists t. Qed.

(** The id of a message is good for its replies: after any calls, an id
    given to a message of an application (other than the fallback 0) finds that
    application and its own id until the last reply deletes it or 4095 further
    messages are sent. *)
Theorem xid_reply_finds_origin id before original name after :
  0 <= id < 2 ^ 32 -> inserts after < XID_MAX_ENTRIES ->
  exists x rs t,
    run_xid_calls (init_xid_table id) (before ++ [Insert original name]) = Ok (rs ++ [NewXid x], t) /\
    (x <> 0 -> Reply x ∉ after -> exists ss t',
       run_xid_calls t (after ++ [Reply x]) = Ok (ss ++ [Found (Some (original, name))], t')).
Proof.
  intros Hid Hn. destruct (reachable_wf id before Hid) as (t0 & Hr & Hw).
  destruct (insert_xid_ok t0 original name Hw) as (t & Hi & Hw' & _).
  rewrite run_xid_calls_app, Hr. bind_ok. cbn [run_xid_calls run_call]. rewrite Hi. bind_ok.
  eexists _, _, _. split; [done |]. intros H0 Hrep.
  destruct (insert_puts t0 original name _ t Hw Hi) as [Hs Hnx]. rewrite run_xid_calls_app.
  pose proof (Z.mod_pos_bound (sp_next (abs t0)) XID_MAX_ENTRIES eq_refl) as Hb.
  destruct (calls_keep after t _ _ Hw' Hs H0 Hrep 0) as (ss & t' & -> & Hw2 & Hk);
    [done | by rewrite Z.add_0_r | done | lia |]. bind_ok.
  destruct (run_call_spec t' (Reply (spec_insert (abs t0) original name).1) Hw2) as (t2 & Hc & _).
  cbn [run_xid_calls]. rewrite Hc. bind_ok. eexists _, _. cbn [spec_call fst].
  apply (abs_entry t' ) in Hk as (a & _ & Ha).
  pose proof (proj2 (find_id_spec t' Hw2 _ _) (ex_intro _ a (conj Ha eq_refl))) as Hf. cbn [xid] in Hf. by rewrite Hf.
Qed.

(** [finalize_xid_table] frees every entry and the hash table, whatever the
    daemon has done with the table. *)
Theorem finalize_xid_table_frees id cs :
  0 <= id < 2 ^ 32 ->
  exists rs t t', run_xid_calls (init_xid_table id) cs = Ok (rs, t) /\ finalize_xid_table t = Ok t' /\
    entry_heap t' = ∅ /\ slots t' = replicate (Z.to_nat XID_MAX_ENTRIES) None /\
    nonempty_bucket_index (hash_of t') = [].
Proof.
  intros Hid. destruct (reachable_wf id cs Hid) as (t & Hr & Hw).
  destruct (finalize_ok t Hw) as (t' & Hf & He & Hs & Hn & _). by eexists _, t, t'.
Qed.

(** The ids do not go round: once the counter is at its maximum and that id
    is in use, the next id is 0 without a look whether a message still has it;
    [initial_value] is 0 while the search starts at the maximum. *)
Theorem generate_xid_wraps t :
  wf_xid_table t -> transaction_id t = UINT32_MAX ->
  generate_xid t = Ok (if find_id UINT32_MAX (sp_slots (abs t)) then 0 else UINT32_MAX,
    set_transaction_id t (if find_id UINT32_MAX (sp_slots (abs t)) then 0 else UINT32_MAX)).
Proof.
  intros Hw E. destruct (generate_xid_ok t Hw) as [-> _]. unfold next_id. rewrite E, Z.eqb_refl.
  by rewrite pick_at_maximum.
Qed.

(** ** Witnesses *)

Definition sample_calls : list xid_call := [Insert 7 [Byte.x61]; Generate; Insert 8 [Byte.x62]; Reply 1; Reply 1; Lookup 2; Insert 7 [Byte.x63]].

Lemma xid_table_refines_witness :
  0 <= 0 < 2 ^ 32 /\
  (spec_calls (empty_spec 0) sample_calls).1 =
    [NewXid 1; NewXid 2; NewXid 3; Found (Some (7, [Byte.x61])); Found None; Found None; NewXid 4] /\
  exists t, run_xid_calls (init_xid_table 0) sample_calls = Ok ((spec_calls (empty_spec 0) sample_calls).1, t).
Proof. split; [lia |]. split; [vm_compute; reflexivity |]. apply (xid_table_refines 0 sample_calls). lia. Defined.

Lemma xid_reply_finds_origin_witness :
  exists x rs t,
    run_xid_calls (init_xid_table 41) ([Insert 7 [Byte.x61]] ++ [Insert 9 [Byte.x62]]) = Ok (rs ++ [NewXid x], t) /\
    (x <> 0 -> Reply x ∉ [Lookup 43; Insert 1 [Byte.x63]; Reply 42] -> exists ss t',
       run_xid_calls t ([Lookup 43; Insert 1 [Byte.x63]; Reply 42] ++ [Reply x]) = Ok (ss ++ [Found (Some (9, [Byte.x62]))], t')).
Proof.
  apply (xid_reply_finds_origin 41 [Insert 7 [Byte.x61]] 9 [Byte.x62] [Lookup 43; Insert 1 [Byte.x63]; Reply 42]).
  - lia.
  - vm_compute. reflexivity.
Defined.

Lemma finalize_xid_table_frees_witness :
  exists rs t t', run_xid_calls (init_xid_table 0) sample_calls = Ok (rs, t) /\ finalize_xid_table t = Ok t' /\
    entry_heap t' = ∅ /\ slots t' = replicate (Z.to_nat XID_MAX_ENTRIES) None /\
    nonempty_bucket_index (hash_of t') = [].
Proof. apply (finalize_xid_table_frees 0 sample_calls). lia. Defined.

Lemma generate_xid_wraps_witness :
  exists t, wf_xid_table t /\ transaction_id t = UINT32_MAX /\ generate_xid t = Ok (UINT32_MAX, set_transaction_id t UINT32_MAX).
Proof.
  destruct (init_wf UINT32_MAX ltac:(unfold UINT32_MAX; lia)) as [Hw Ha].
  exists (init_xid_table UINT32_MAX). split; [exact Hw |]. split; [reflexivity |].
  rewrite (generate_xid_wraps (init_xid_table UINT32_MAX) Hw eq_refl), Ha.
  assert (find_id UINT32_MAX (sp_slots (empty_spec UINT32_MAX)) = None) as -> by (vm_compute; reflexivity). reflexivity.
Defined.
