(* ===== verification/MessageQueue.v ===== *)
(** message_queue.c: a FIFO of messages.

    A queue is a linked list that always has a node before the first message:
    [divider] is the last node whose message has been taken, the nodes from
    [head] to it are garbage that the next [enqueue_message] frees.  The nodes
    are those of a linked list whose [data] is a pointer to a message, [None]
    is NULL; a message is a pointer to a buffer, of any type here. *)

From Stdlib Require Import ZArith Lia Bool.
From stdpp Require Import base list gmap fin_maps.
From S2P Require Import Prelude LinkedList.

Section MessageQueue.
Context {M : Type}.

Abbreviation addr := positive.
Abbreviation ptr := (option addr).
Abbreviation message_queue_element := (@list_element (option M)).
Abbreviation heap := (gmap addr message_queue_element).

Record message_queue : Type := MessageQueue {
  head : ptr;
  divider : ptr;
  tail : ptr;
  length : Z
}.

Implicit Types (h hf : heap) (q : message_queue) (m : M) (l : list M).

(** * Operations *)

Definition create_message_queue h : message_queue * heap :=
  let '(a, h) := new_element h None None in
  (MessageQueue (Some a) (Some a) (Some a) 0, h).

(** The messages given to [free_buffer], in order. *)
Fixpoint delete_loop (fuel : nat) h (head : ptr) (freed : list M) : res (list M * heap) :=
  match fuel with
  | O => Fault OutOfFuel
  | S fuel =>
    match head with
    | None => Ok (freed, h)
    | Some _ =>
      let* element := deref h head in
      let freed := match data element with Some m => freed ++ [m] | None => freed end in
      delete_loop fuel (xfree h head) (next element) freed
    end
  end.

Definition delete_message_queue h (queue : option message_queue) : res (bool * list M * heap) :=
  match queue with
  | None => Fault Died
  | Some q => let* (freed, h) := delete_loop (fuel_of h) h (head q) [] in Ok (true, freed, h)
  end.

Fixpoint collect_garbage (fuel : nat) h q : res (message_queue * heap) :=
  match fuel with
  | O => Fault OutOfFuel
  | S fuel =>
    if decide (head q = divider q) then Ok (q, h)
    else
      let* element := deref h (head q) in
      collect_garbage fuel (xfree h (head q)) (MessageQueue (next element) (divider q) (tail q) (length q))
  end.

Definition enqueue_message h (queue : option message_queue) (message : option M) : res (bool * message_queue * heap) :=
  match queue, message with
  | None, _ => Fault Died
  | _, None => Fault Died
  | Some q, Some _ =>
    let '(new_tail, h) := new_element h None message in
    let* h := set_next h (tail q) (Some new_tail) in
    let q := MessageQueue (head q) (divider q) (Some new_tail) (u32 (length q + 1)) in
    let* (q, h) := collect_garbage (fuel_of h) h q in
    Ok (true, q, h)
  end.

(** [p->data = x] *)
Definition set_data h (p : ptr) (x : option M) : res heap :=
  let* e := deref h p in
  match p with
  | Some a => Ok (<[a := ListElement (next e) x]> h)
  | None => Fault NullPointer
  end.

Definition dequeue_message h (queue : option message_queue) : res (option M * message_queue * heap) :=
  match queue with
  | None => Fault Died
  | Some q =>
    if decide (divider q = tail q) then Ok (None, q, h)
    else
      let* d := deref h (divider q) in
      let nx := next d in
      let* e := deref h nx in
      let message := data e in
      let* h := set_data h nx None in
      Ok (message, MessageQueue (head q) nx (tail q) (u32 (length q - 1)), h)
  end.

Definition peek_message h (queue : option message_queue) : res (option M) :=
  match queue with
  | None => Fault Died
  | Some q =>
    if decide (divider q = tail q) then Ok None
    else
      let* d := deref h (divider q) in
      let* e := deref h (next d) in
      Ok (data e)
  end.

(** [function] updates the state that [user_data] points to. *)
Fixpoint foreach_loop {S : Type} (fuel : nat) h (element : ptr) (function : M -> S -> bool * S) (user_data : S) : res S :=
  match fuel with
  | O => Fault OutOfFuel
  | Datatypes.S fuel =>
    match element with
    | None => Ok user_data
    | Some _ =>
      let* e := deref h element in
      match data e with
      | None => Fault AssertFailed
      | Some message =>
        let '(more, user_data) := function message user_data in
        if more then foreach_loop fuel h (next e) function user_data else Ok user_data
      end
    end
  end.

Definition foreach_message_queue {S : Type} h (queue : option message_queue) (function : M -> S -> bool * S) (user_data : S) : res S :=
  match queue with
  | None => Fault NullPointer
  | Some q =>
    if decide (divider q = tail q) then Ok user_data
    else
      let* d := deref h (divider q) in
      foreach_loop (fuel_of h) h (next d) function user_data
  end.

(** * Representation *)

(** The nodes of the messages [l]. *)
Definition messages (ns : list (addr * option M)) l : Prop := ns.*2 = Some <$> l.

(** The heap holds the queue with the messages [l], and [hf]: garbage, the
    divider, the messages. *)
Definition queue_rep h q l hf : Prop :=
  exists gs d ns,
    nodes h (gs ++ (d, None) :: ns) hf /\ messages ns l /\ Forall (fun n => n.2 = None) gs /\
    head q = head_ptr (gs ++ [(d, None)]) None /\ divider q = Some d /\
    tail q = fst <$> last ((d, None) :: ns) /\ length q = u32 (Z.of_nat (List.length l)).

(** ** Lemmas *)

Lemma nodes_set_data h pre a (x y : option M) suf hf :
  nodes h (pre ++ (a, x) :: suf) hf ->
  nodes (<[a := ListElement (head_ptr suf None) y]> h) (pre ++ (a, y) :: suf) hf.
Proof.
  intros [Hnd Hf ->]. rewrite fmap_app in *. cbn in *.
  apply NoDup_app in Hnd as (Hp & Hd & Hnd). split.
  - rewrite fmap_app. cbn. by apply NoDup_app.
  - by rewrite fmap_app.
  - rewrite !cells_middle by set_solver. by rewrite insert_union_l, insert_insert_eq.
Qed.

Lemma set_data_ok h pre a (x y : option M) suf hf :
  nodes h (pre ++ (a, x) :: suf) hf ->
  exists h', set_data h (Some a) y = Ok h' /\ nodes h' (pre ++ (a, y) :: suf) hf.
Proof.
  intros H. unfold set_data. rewrite (nodes_deref _ _ _ _ _ _ H). bind_ok. cbn [next].
  eexists. split; [done |]. by eapply nodes_set_data.
Qed.

Lemma nodes_distinct h (pre : list (addr * option M)) a x mid b y suf hf :
  nodes h (pre ++ (a, x) :: mid ++ (b, y) :: suf) hf -> a <> b.
Proof.
  intros [Hnd _ _] ->. rewrite fmap_app in Hnd. apply NoDup_app in Hnd as (_ & _ & Hnd).
  cbn in Hnd. apply NoDup_cons in Hnd as [Hn _]. apply Hn. rewrite fmap_app. set_solver.
Qed.

Lemma collect_garbage_ok fuel h gs d ns hf dv tl n :
  nodes h (gs ++ (d, None) :: ns) hf -> (List.length gs < fuel)%nat -> dv = Some d ->
  exists h', collect_garbage fuel h (MessageQueue (head_ptr (gs ++ [(d, None)]) None) dv tl n) =
      Ok (MessageQueue (Some d) dv tl n, h') /\ nodes h' ((d, None) :: ns) hf.
Proof.
  intros H Hf ->. revert h gs H Hf. induction fuel as [| fuel IH]; intros h gs H Hf; [lia |].
  cbn [collect_garbage head divider]. destruct gs as [| [g x] gs].
  - rewrite decide_True by done. by exists h.
  - rewrite decide_False by (cbn; intros [= ->]; by apply (nodes_distinct h [] d x gs d None ns hf H)).
    change (head_ptr (((g, x) :: gs) ++ [(d, None)]) None) with (Some g).
    rewrite (nodes_deref h [] g x (gs ++ (d, None) :: ns) hf H). bind_ok. cbn [next tail length divider].
    replace (head_ptr (gs ++ (d, None) :: ns) None) with (head_ptr (gs ++ [(d, None)]) None) by by destruct gs as [| [] ?].
    apply IH; [by eapply nodes_remove_head | cbn in Hf; lia].
Qed.

Lemma queue_last h q l hf :
  queue_rep h q l hf ->
  exists gs d ns pre t x, nodes h (gs ++ (d, None) :: ns) hf /\ messages ns l /\ Forall (fun n => n.2 = None) gs /\
    head q = head_ptr (gs ++ [(d, None)]) None /\ divider q = Some d /\ length q = u32 (Z.of_nat (List.length l)) /\
    (d, None) :: ns = pre ++ [(t, x)] /\ tail q = Some t.
Proof.
  intros (gs & d & ns & H & Hm & Hg & Hh & Hd & Ht & Hl).
  destruct (exists_last (l := (d, None) :: ns)) as (pre & [t x] & E); [done |].
  exists gs, d, ns, pre, t, x. split_and!; try done. by rewrite Ht, E, last_snoc.
Qed.

Lemma enqueue_ok h q l hf m :
  queue_rep h q l hf ->
  exists q' h', enqueue_message h (Some q) (Some m) = Ok (true, q', h') /\ queue_rep h' q' (l ++ [m]) hf.
Proof.
  intros (gs & d & ns & pre & t & x & H & Hm & Hg & Hh & Hd & Hl & E & Ht)%queue_last.
  unfold enqueue_message, new_element. rewrite Ht.
  rewrite E, app_assoc in H.
  destruct (set_next_insert h (gs ++ pre) t x [] hf (fresh (dom h)) (Some m) H) as (h1 & Hs & H1).
  { apply not_elem_of_dom, is_fresh. }
  cbn [head_ptr] in Hs. rewrite Hs. bind_ok. rewrite Hh.
  assert (E1 : (gs ++ pre) ++ (t, x) :: [(fresh (dom h), Some m)] = gs ++ (d, None) :: ns ++ [(fresh (dom h), Some m)]).
  { change (d, None) with ((d, None) : addr * option M). rewrite app_comm_cons, E. by rewrite <- !app_assoc. }
  rewrite E1 in H1. pose proof (nodes_size _ _ _ H1) as Hsz. rewrite length_app in Hsz. cbn in Hsz.
  destruct (collect_garbage_ok (fuel_of h1) h1 gs d (ns ++ [(fresh (dom h), Some m)]) hf (divider q)
    (Some (fresh (dom h))) (u32 (length q + 1)) H1) as (h2 & -> & H2); [unfold fuel_of; lia | done |].
  bind_ok. eexists _, _. split; [done |]. exists [], d, (ns ++ [(fresh (dom h), Some m)]).
  cbn [head divider tail length app head_ptr]. split_and!; try done.
  - unfold messages in *. by rewrite !fmap_app, Hm.
  - by rewrite app_comm_cons, last_snoc.
  - rewrite length_app, Hl. cbn. unfold u32. rewrite Zplus_mod_idemp_l. f_equal. lia.
Qed.

Lemma divider_is_tail h q l hf : queue_rep h q l hf -> divider q = tail q <-> l = [].
Proof.
  intros (gs & d & ns & H & Hm & _ & _ & Hd & Ht & _). rewrite Hd, Ht. unfold messages in Hm. split.
  - destruct ns as [| [a x] ns]; [by destruct l |]. intros E. exfalso.
    destruct (exists_last (l := (a, x) :: ns)) as (pre & [t y] & E'); [done |]. rewrite E' in E, H.
    rewrite app_comm_cons, last_snoc in E. injection E as ->. by apply (nodes_distinct h gs t None pre t y [] hf H).
  - intros ->. by destruct ns.
Qed.

Lemma dequeue_ok h q l hf :
  queue_rep h q l hf ->
  exists q' h', dequeue_message h (Some q) = Ok (hd_error l, q', h') /\ queue_rep h' q' (List.tl l) hf.
Proof.
  intros Hr. pose proof (divider_is_tail _ _ _ _ Hr) as Ht. unfold dequeue_message. destruct l as [| m l].
  - rewrite decide_True by (by apply Ht). by exists q, h.
  - rewrite decide_False by (by intros ?%Ht). clear Ht.
    destruct Hr as (gs & d & ns & H & Hm & Hg & Hh & Hd & Ht & Hl). unfold messages in Hm.
    destruct ns as [| [a x] ns]; [done |]. cbn in Hm. injection Hm as -> Hm.
    rewrite Hd, (nodes_deref h gs d None _ hf H). bind_ok. cbn [next head_ptr].
    replace (gs ++ (d, None) :: (a, Some m) :: ns) with ((gs ++ [(d, None)]) ++ (a, Some m) :: ns) in H by by rewrite <- app_assoc.
    rewrite (nodes_deref h _ a (Some m) _ hf H). bind_ok. cbn [data].
    destruct (set_data_ok h _ a (Some m) None ns hf H) as (h' & -> & H'). bind_ok.
    eexists _, _. split; [done |]. exists (gs ++ [(d, None)]), a, ns. cbn [head divider tail length List.tl].
    split_and!; try done.
    + apply Forall_app. by split; [| constructor].
    + rewrite Hh. by destruct gs as [| [] ?].
    + rewrite Ht. by destruct ns.
    + rewrite Hl. cbn [List.length]. unfold u32. rewrite Zminus_mod_idemp_l. f_equal. lia.
Qed.

Lemma peek_ok h q l hf : queue_rep h q l hf -> peek_message h (Some q) = Ok (hd_error l).
Proof.
  intros Hr. pose proof (divider_is_tail _ _ _ _ Hr) as Ht. unfold peek_message. destruct l as [| m l].
  - by rewrite decide_True by (by apply Ht).
  - rewrite decide_False by (by intros ?%Ht). destruct Hr as (gs & d & ns & H & Hm & Hg & Hh & Hd & _). unfold messages in Hm.
    destruct ns as [| [a x] ns]; [done |]. cbn in Hm. injection Hm as -> Hm.
    rewrite Hd, (nodes_deref h gs d None _ hf H). bind_ok. cbn [next head_ptr].
    replace (gs ++ (d, None) :: (a, Some m) :: ns) with ((gs ++ [(d, None)]) ++ (a, Some m) :: ns) in H by by rewrite <- app_assoc.
    by rewrite (nodes_deref h _ a (Some m) _ hf H).
Qed.

(** The messages visited until [function] returns false. *)
Fixpoint foreach_in {S : Type} (function : M -> S -> bool * S) l (s : S) : S :=
  match l with
  | [] => s
  | m :: l => let '(more, s) := function m s in if more then foreach_in function l s else s
  end.

Lemma foreach_queue_loop_ok {S} fuel h pre ns l hf (f : M -> S -> bool * S) s :
  nodes h (pre ++ ns) hf -> messages ns l -> (List.length ns < fuel)%nat ->
  foreach_loop fuel h (head_ptr ns None) f s = Ok (foreach_in f l s).
Proof.
  unfold messages. revert pre ns l s. induction fuel as [| fuel IH]; intros pre ns l s H Hm Hf; [lia |].
  cbn [foreach_loop]. destruct ns as [| [a x] ns], l as [| m l]; try done. cbn in Hm. injection Hm as -> Hm. cbn [head_ptr].
  rewrite (nodes_deref _ _ _ _ _ _ H). bind_ok. cbn [data next foreach_in]. destruct (f m s) as [[] s']; [| done].
  apply (IH (pre ++ [(a, Some m)])); [by rewrite <- app_assoc | done | cbn in Hf; lia].
Qed.

Lemma foreach_ok {S} h q l hf (f : M -> S -> bool * S) s :
  queue_rep h q l hf -> foreach_message_queue h (Some q) f s = Ok (foreach_in f l s).
Proof.
  intros Hr. pose proof (divider_is_tail _ _ _ _ Hr) as Ht. unfold foreach_message_queue. destruct l as [| m l].
  - by rewrite decide_True by (by apply Ht).
  - rewrite decide_False by (by intros ?%Ht). destruct Hr as (gs & d & ns & H & Hm & Hg & Hh & Hd & _).
    rewrite Hd, (nodes_deref h gs d None _ hf H). bind_ok. cbn [next].
    pose proof (nodes_size _ _ _ H) as Hsz. rewrite length_app in Hsz. cbn in Hsz.
    replace (gs ++ (d, None) :: ns) with ((gs ++ [(d, None)]) ++ ns) in H by by rewrite <- app_assoc.
    eapply foreach_queue_loop_ok; [exact H | exact Hm | unfold fuel_of; lia].
Qed.

Lemma delete_queue_loop_ok fuel h (ns : list (addr * option M)) hf freed :
  nodes h ns hf -> (List.length ns < fuel)%nat ->
  delete_loop fuel h (head_ptr ns None) freed = Ok (freed ++ omap id ns.*2, hf).
Proof.
  revert h ns freed. induction fuel as [| fuel IH]; intros h ns freed H Hf; [lia |]. cbn [delete_loop].
  destruct ns as [| [a x] ns]; cbn [head_ptr].
  - destruct H as [_ _ ->]. cbn. by rewrite app_nil_r, (left_id_L ∅ (∪)).
  - rewrite (nodes_deref h [] a x _ hf H). bind_ok. cbn [data next].
    rewrite IH; [| by eapply nodes_remove_head | cbn in Hf; lia]. do 2 f_equal.
    destruct x; cbn; [by rewrite <- app_assoc | done].
Qed.

Lemma omap_messages (ns : list (addr * option M)) l : messages ns l -> omap id ns.*2 = l.
Proof.
  unfold messages. intros ->. induction l as [| m l IH]; [done |]. cbn. by rewrite IH.
Qed.

Lemma omap_garbage (gs : list (addr * option M)) : Forall (fun n => n.2 = None) gs -> omap id gs.*2 = [].
Proof. induction 1 as [| [g x] gs E _ IH]; [done |]. cbn in *. by rewrite E. Qed.

Lemma delete_queue_ok h q l hf : queue_rep h q l hf -> delete_message_queue h (Some q) = Ok (true, l, hf).
Proof.
  intros (gs & d & ns & H & Hm & Hg & Hh & _). unfold delete_message_queue. rewrite Hh.
  replace (head_ptr (gs ++ [(d, None)]) None) with (head_ptr (gs ++ (d, None) :: ns) None) by by destruct gs as [| [] ?].
  rewrite (delete_queue_loop_ok _ h _ hf) by (done || (pose proof (nodes_size _ _ _ H); unfold fuel_of; lia)).
  bind_ok. rewrite fmap_app, omap_app, omap_garbage by done. cbn. by rewrite (omap_messages _ _ Hm).
Qed.

Lemma create_queue_ok h : let '(q, h') := create_message_queue h in queue_rep h' q [] h.
Proof.
  unfold create_message_queue, new_element. exists [], (fresh (dom h)), []. cbn. split_and!; try done.
  apply (nodes_cons h [] h (fresh (dom h)) None); [| apply not_elem_of_dom, is_fresh].
  split; [apply NoDup_nil_2 | set_solver | by cbn; rewrite (left_id_L ∅ (∪))].
Qed.

(** * Calls *)

Inductive queue_call : Type :=
| Enqueue (m : M)
| Dequeue
| Peek.

Inductive queue_result : Type :=
| Done (b : bool)
| Message (m : option M).

Definition run_call h q (c : queue_call) : res (queue_result * message_queue * heap) :=
  match c with
  | Enqueue m => let* (b, q, h) := enqueue_message h (Some q) (Some m) in Ok (Done b, q, h)
  | Dequeue => let* (message, q, h) := dequeue_message h (Some q) in Ok (Message message, q, h)
  | Peek => let* message := peek_message h (Some q) in Ok (Message message, q, h)
  end.

Fixpoint run_calls h q (cs : list queue_call) : res (list queue_result * message_queue * heap) :=
  match cs with
  | [] => Ok ([], q, h)
  | c :: cs =>
    let* (r, q, h) := run_call h q c in
    let* (rs, q, h) := run_calls h q cs in
    Ok (r :: rs, q, h)
  end.

(** The same on a list. *)
Definition fifo_call l (c : queue_call) : queue_result * list M :=
  match c with
  | Enqueue m => (Done true, l ++ [m])
  | Dequeue => (Message (hd_error l), List.tl l)
  | Peek => (Message (hd_error l), l)
  end.

Fixpoint fifo_calls l (cs : list queue_call) : list queue_result * list M :=
  match cs with
  | [] => ([], l)
  | c :: cs => let '(r, l) := fifo_call l c in let '(rs, l) := fifo_calls l cs in (r :: rs, l)
  end.

Lemma run_queue_calls_ok h q l hf cs :
  queue_rep h q l hf ->
  exists q' h', run_calls h q cs = Ok ((fifo_calls l cs).1, q', h') /\ queue_rep h' q' (fifo_calls l cs).2 hf.
Proof.
  revert h q l. induction cs as [| c cs IH]; intros h q l H; [by exists q, h |]. cbn [run_calls fifo_calls].
  assert (Hc : exists q' h', run_call h q c = Ok ((fifo_call l c).1, q', h') /\ queue_rep h' q' (fifo_call l c).2 hf).
  { destruct c as [m | |]; cbn [run_call fifo_call fst snd].
    - destruct (enqueue_ok h q l hf m H) as (q' & h' & -> & H'). bind_ok. by exists q', h'.
    - destruct (dequeue_ok h q l hf H) as (q' & h' & -> & H'). bind_ok. by exists q', h'.
    - rewrite (peek_ok h q l hf H). bind_ok. by exists q, h. }
  destruct Hc as (q1 & h1 & -> & H1). bind_ok. destruct (fifo_call l c) as [r l1]. cbn [fst snd] in *.
  destruct (IH _ _ _ H1) as (q2 & h2 & -> & H2). bind_ok. exists q2, h2.
  by destruct (fifo_calls l1 cs).
Qed.

(** * Property *)

(** A message queue is a FIFO: after its creation any calls return what the
    same calls return on a list, [foreach_message_queue] visits the messages of
    that list in order until the function refuses one, [length] counts them
    modulo 2^32, and [delete_message_queue] frees exactly them and gives every
    node back. *)
Theorem message_queue_refines h (cs : list queue_call) :
  let '(q, h1) := create_message_queue h in
  let '(rs, l) := fifo_calls [] cs in
  exists q' h', run_calls h1 q cs = Ok (rs, q', h') /\ length q' = u32 (Z.of_nat (List.length l)) /\
    (forall (S : Type) (f : M -> S -> bool * S) s, foreach_message_queue h' (Some q') f s = Ok (foreach_in f l s)) /\
    delete_message_queue h' (Some q') = Ok (true, l, h).
Proof.
  pose proof (create_queue_ok h) as H. destruct (create_message_queue h) as [q h1].
  destruct (run_queue_calls_ok h1 q [] h cs H) as (q' & h' & Hr & H'). destruct (fifo_calls [] cs) as [rs l].
  cbn [fst snd] in *. exists q', h'. split_and!; [done | | | by apply delete_queue_ok].
  - by destruct H' as (gs & d & ns & _ & _ & _ & _ & _ & _ & Hl).
  - intros S f s. by apply (foreach_ok h' q' l h).
Qed.
End MessageQueue.

Example queue_example :
  let '(q, h) := create_message_queue (M := Z) ∅ in
  match run_calls h q [Dequeue; Enqueue 1; Enqueue 2; Peek; Dequeue; Enqueue 3] with
  | Ok (rs, q', h') => rs = [Message None; Done true; Done true; Message (Some 1); Message (Some 1); Done true]
      /\ length q' = 2 /\ size h' = 3%nat
  | Fault _ => False
  end.
Proof. vm_compute. done. Qed.
