(* ===== verification/SecureChannel.v ===== *)
(** secure_channel_receiver.c and secure_channel_sender.c of the switch daemon:
    OpenFlow messages over the stream of a socket.

    The receiver keeps the bytes of an incomplete message in [fragment_buf] and
    queues complete messages; the sender queues messages and writes them when
    the socket takes them.  [read] and [writev] are arguments, functions of the
    length asked for or of the bytes offered, and of the state of the world.
    A message in [recv_queue] is its bytes; one in [send_queue] is a pointer to
    them, as the sender removes written bytes in place. *)

From Stdlib Require Import ZArith Lia Bool.
From coqutil Require Import Byte.
From stdpp Require Import base list gmap fin_maps.
From S2P Require Import Prelude Memory OpenFlow Codes ByteOrder Actions Validate Buffer LinkedList MessageQueue.

Abbreviation queue_heap M := (gmap positive (list_element (A := option M))).
Abbreviation buffer := (private_buffer (U := unit)).

(** * The receiver *)

Section Receiver.
Context {host : Host}.

(** The fields of [switch_info] that the receiver uses. *)
Record receiver : Type := Receiver {
  recv_heap : queue_heap bytes;
  recv_queue : option message_queue;
  fragment_buf : option buffer
}.

Implicit Types (r : receiver) (b : buffer) (s : bytes).

Definition RECEIVE_BUFFFER_SIZE : Z := UINT16_MAX + 20 - 2.

(** What [read] returns: an error, with whether [errno] says to try again, or
    the bytes it has stored (none at the end of the stream). *)
Inductive read_result : Type :=
| ReadError (again : bool)
| Received (bs : bytes).

(** The cells as bytes; reading one that is not initialised is a fault. *)
Fixpoint initialized (cs : list cell) : res bytes :=
  match cs with
  | [] => Ok []
  | Some c :: cs => let* l := initialized cs in Ok (c :: l)
  | None :: _ => Fault OutOfBounds
  end.

(** The [n] bytes at the data of a buffer. *)
Definition data_bytes b (n : Z) : res (list cell) :=
  let* m := block b in read m (front b) n.

(** [alloc_buffer_with_length], [append_back_buffer] and [memcpy]. *)
Definition new_message (cs : list cell) (message_length : Z) : res bytes :=
  let* message := alloc_buffer_with_length message_length in
  let* (p, message) := append_back_buffer message message_length in
  let* message := store (U := unit) message p cs in
  initialized (contents message).

(** A complete message is moved to the queue; [None] when a header has a wrong
    version. *)
Fixpoint receive_loop (fuel : nat) r b (read_total : Z) : res (option Z * receiver * buffer) :=
  match fuel with
  | O => Fault OutOfFuel
  | S fuel =>
    if data_length b <? sizeof_ofp_header then Ok (Some read_total, r, b)
    else
      let* cs := data_bytes b sizeof_ofp_header in
      let* header := initialized cs in
      let* type := ld8 header 1 in
      let* version := ld8 header 0 in
      if negb (valid_message_version type version) then Ok (None, r, b)
      else
        let* message_length := ld_ntoh 2 header 2 in
        if data_length b <? message_length then Ok (Some read_total, r, b)
        else
          let* cs := data_bytes b message_length in
          let* message := new_message cs message_length in
          let* (_, b) := remove_front_buffer b message_length in
          let* (_, q, h) := enqueue_message (recv_heap r) (recv_queue r) (Some message) in
          receive_loop fuel (Receiver h (Some q) (fragment_buf r)) b (read_total + message_length)
  end.

(** [memmove] to where the data began before this call. *)
Definition remove_headroom b (read_total : Z) : res buffer :=
  if 0 <? read_total then
    let* m := block b in
    let* cs := read m (front b) (data_length b) in
    let* m := write m (front b - read_total) cs in
    Ok (PrivateBuffer (Some m) (front b - read_total) (data_length b) (real_length b)
          (user_data b) (user_data_free_function b))
  else Ok b.

(** The result is what the function returns and, when the version of a message
    is wrong, the data of the error to send. *)
Definition recv_from_secure_channel {W : Type} (read_fd : Z -> W -> read_result * W) r (w : W)
    : res (Z * receiver * option bytes * W) :=
  match recv_queue r with
  | None => Fault AssertFailed
  | Some q =>
    if 0 <? length q then Ok (0, r, None, w)
    else
      let* b := match fragment_buf r with
                | Some b => Ok b
                | None => alloc_buffer_with_length RECEIVE_BUFFFER_SIZE
                end in
      let r := Receiver (recv_heap r) (recv_queue r) (Some b) in
      let remaining_length := RECEIVE_BUFFFER_SIZE - data_length b in
      let '(result, w) := read_fd remaining_length w in
      match result with
      | ReadError again => if again then Ok (0, r, None, w) else Ok (-1, r, None, w)
      | Received bs =>
        if blen bs =? 0 then Ok (-1, r, None, w)
        else
          let* m := block b in
          let* m := write m (front b + data_length b) (map Some bs) in
          let b := PrivateBuffer (Some m) (front b) (data_length b + blen bs) (real_length b)
                     (user_data b) (user_data_free_function b) in
          let* (total, r, b) := receive_loop (S (Z.to_nat (data_length b))) r b 0 in
          match total with
          | None =>
            let* cs := data_bytes b (data_length b) in
            let* data := initialized cs in
            Ok (-1, Receiver (recv_heap r) (recv_queue r) (Some b), Some data, w)
          | Some read_total =>
            let* b := remove_headroom b read_total in
            Ok (0, Receiver (recv_heap r) (recv_queue r) (Some b), None, w)
          end
      end
  end.

(** ** Handling *)

Section Handler.
Context {S : Type} (ofpmsg_recv : bytes -> S -> res (Z * S)).

Fixpoint handle_loop (fuel : nat) r (st : S) (errors : Z) : res (Z * receiver * S) :=
  match fuel with
  | O => Fault OutOfFuel
  | Datatypes.S fuel =>
    let* (message, q, h) := dequeue_message (recv_heap r) (recv_queue r) in
    let r := Receiver h (Some q) (fragment_buf r) in
    match message with
    | None => Ok (errors, r, st)
    | Some message =>
      let* (ret, st) := ofpmsg_recv message st in
      handle_loop fuel r st (if ret <? 0 then errors + 1 else errors)
    end
  end.

Definition handle_messages_from_secure_channel r (st : S) : res (Z * receiver * S) :=
  match recv_queue r with
  | None => Fault AssertFailed
  | Some _ =>
    let* (errors, r, st) := handle_loop (fuel_of (recv_heap r)) r st 0 in
    Ok (if errors =? 0 then 0 else -1, r, st)
  end.

(** [secure_channel_read] of switch.c, up to the disconnection that follows an
    error of the channel and the end of the event loop that follows one of a
    message. *)
Inductive read_outcome : Type :=
| Continue
| Disconnect (error_data : option bytes)
| Stop.

Definition secure_channel_read {W : Type} (read_fd : Z -> W -> read_result * W) r (st : S) (w : W)
    : res (read_outcome * receiver * S * W) :=
  let* (ret, r, error_data, w) := recv_from_secure_channel read_fd r w in
  if ret <? 0 then Ok (Disconnect error_data, r, st, w)
  else
    match recv_queue r with
    | None => Fault NullPointer
    | Some q =>
      if 0 <? length q then
        let* (ret, r, st) := handle_messages_from_secure_channel r st in
        Ok (if ret <? 0 then Stop else Continue, r, st, w)
      else Ok (Continue, r, st, w)
    end.
End Handler.
End Receiver.

(** * Messages on the wire *)

Section ReceiverProofs.
Context {host : Host}.
Implicit Types (r : receiver) (b : buffer) (s m part : bytes).

(** The header of [s] says version [version] of type [type] and [len] bytes. *)
Definition header_of s (version type len : Z) : Prop :=
  8 <= blen s /\ ld8 (take 8 s) 1 = Ok type /\ ld8 (take 8 s) 0 = Ok version /\ ld_ntoh 2 (take 8 s) 2 = Ok len.

(** A message of any type the protocol version allows, of the length it says. *)
Definition wire_message m : Prop :=
  exists version type, header_of m version type (blen m) /\ valid_message_version type version = true.

(** Less than the message it begins. *)
Definition incomplete part : Prop :=
  blen part < 8 \/
  exists version type len, header_of part version type len /\ valid_message_version type version = true /\ blen part < len.

(** The fragment buffer holds [part], from [f] cells into its block on. *)
Record fragment b part (f : Z) : Prop := {
  fragment_wf : wf_buffer b;
  fragment_contents : contents b = map Some part;
  fragment_front : front b = f;
  fragment_real : real_length b = RECEIVE_BUFFFER_SIZE
}.

Lemma fragment_length b part f : fragment b part f -> data_length b = blen part.
Proof. intros [Hw Hc _ _]. rewrite <- (length_contents b Hw), Hc, length_map. done. Qed.

Lemma fragment_block b part f : fragment b part f -> exists mem, top b = Some mem /\ Z.of_nat (List.length mem) = RECEIVE_BUFFFER_SIZE.
Proof.
  intros [Hw _ _ Hr]. pose proof (wf_top b Hw) as Ht. destruct (top b) as [mem |]; [| by rewrite Hr in Ht].
  exists mem. split; [done |]. by destruct Ht as [<- _].
Qed.

Lemma fragment_fits b part f : fragment b part f -> 0 <= f /\ f + blen part <= RECEIVE_BUFFFER_SIZE.
Proof.
  intros H. pose proof (fragment_length _ _ _ H) as Hl. destruct H as [Hw _ Hf Hr].
  rewrite <- Hf, <- Hl, <- Hr. split; [apply (wf_front b Hw) | apply (wf_fits b Hw)].
Qed.

Lemma initialized_bytes s : initialized (map Some s) = Ok s.
Proof. induction s as [| c s IH]; [done |]. cbn. by rewrite IH. Qed.

Lemma data_bytes_ok b part f n :
  fragment b part f -> 0 <= n <= blen part -> data_bytes b n = Ok (map Some (take (Z.to_nat n) part)).
Proof.
  intros H Hn. pose proof (fragment_length _ _ _ H) as Hl. pose proof (fragment_fits _ _ _ H) as Hfit.
  destruct (fragment_block _ _ _ H) as (mem & Ht & Hm). destruct H as [Hw Hc Hf Hr].
  unfold data_bytes, block. rewrite Ht. bind_ok. rewrite read_ok by lia.
  unfold contents in Hc. rewrite Ht in Hc. rewrite <- (firstn_map Some), <- Hc, take_take. do 2 f_equal. lia.
Qed.

Lemma fragment_append b part f bs :
  fragment b part f -> 0 <= f + blen part + blen bs <= RECEIVE_BUFFFER_SIZE ->
  exists mem mem', block b = Ok mem /\ write mem (front b + data_length b) (map Some bs) = Ok mem' /\
    fragment (PrivateBuffer (Some mem') (front b) (data_length b + blen bs) (real_length b)
      (user_data b) (user_data_free_function b)) (part ++ bs) f.
Proof.
  intros H Hfit. pose proof (fragment_length _ _ _ H) as Hl. destruct (fragment_block _ _ _ H) as (mem & Ht & Hm).
  destruct H as [Hw Hc Hf Hr]. destruct (layout b mem Hw Ht) as (pre & post & -> & Hp).
  assert (Hpost : (List.length bs <= List.length post)%nat).
  { rewrite Hc, !length_app, length_map in Hm. unfold blen in *. lia. }
  eexists _, _. unfold block. rewrite Ht. split; [done |].
  rewrite <- (take_drop (List.length bs) post) at 1. rewrite (app_assoc pre).
  rewrite (write_layout _ (take _ post) _ (map Some bs)).
  3: { rewrite length_map, length_take. lia. }
  2: { rewrite Hc, length_app, length_map. unfold blen in *. lia. }
  split; [done |].
  destruct (of_layout pre (contents b ++ map Some bs) (drop (List.length bs) post) (front b) (data_length b + blen bs)
    (real_length b) (user_data b) (user_data_free_function b)) as [W C].
  { lia. } { rewrite Hc, length_app, !length_map. unfold blen in *. lia. } { rewrite Hr. done. } { rewrite Hr. done. }
  { rewrite Hr, <- Hm, !length_app, length_drop, length_map. lia. }
  rewrite <- !app_assoc in *. split; [exact W | | done | done]. rewrite C, Hc. by rewrite map_app.
Qed.

Lemma fragment_remove_front b m rest f :
  fragment b (m ++ rest) f -> 0 < blen m ->
  exists p b', remove_front_buffer b (blen m) = Ok (p, b') /\ fragment b' rest (f + blen m).
Proof.
  intros H Hm. pose proof (fragment_length _ _ _ H) as Hl. destruct H as [Hw Hc Hf Hr].
  pose proof (remove_front_ok b (blen m) Hw Hm) as Hrm. rewrite Hl, blen_app in Hrm.
  replace (blen m <=? blen m + blen rest) with true in Hrm by (pose proof (blen_nonneg rest); lia).
  destruct Hrm as (b' & Hb' & Hw' & Hc' & Hf'). exists (front b + blen m), b'. split; [done |]. split; [done | | lia |].
  - rewrite Hc', Hc. unfold blen. rewrite Nat2Z.id, map_app, drop_app_length' by (by rewrite length_map). done.
  - unfold remove_front_buffer in Hb'. destruct (Prelude.assert _); [| done].
    destruct (Prelude.assert (blen m <=? data_length b)); [| done]. injection Hb' as <-. done.
Qed.

Lemma remove_headroom_ok b part f :
  fragment b part f -> exists b', remove_headroom b f = Ok b' /\ fragment b' part 0.
Proof.
  intros H. pose proof (fragment_fits _ _ _ H) as Hfit. pose proof (fragment_length _ _ _ H) as Hl.
  unfold remove_headroom. destruct (Z.ltb_spec 0 f) as [Hf0 | Hf0].
  2: { exists b. split; [done |]. by replace 0 with f by lia. }
  destruct (fragment_block _ _ _ H) as (mem & Ht & Hm). destruct H as [Hw Hc Hf Hr].
  unfold block. rewrite Ht. bind_ok. rewrite (contents_read b mem Hw Ht). bind_ok.
  rewrite Hf, Z.sub_diag.
  pose proof (length_contents b Hw) as Hlen. assert (Hsplit := take_drop (List.length (contents b)) mem).
  pose proof (write_layout [] (take (List.length (contents b)) mem) (drop (List.length (contents b)) mem) (contents b) 0) as Hwr.
  cbn [app] in Hwr. rewrite Hsplit in Hwr. rewrite Hwr; [| done | rewrite length_take; lia]. bind_ok.
  eexists. split; [done |].
  destruct (of_layout [] (contents b) (drop (List.length (contents b)) mem) 0 (data_length b) (real_length b)
    (user_data b) (user_data_free_function b)) as [W C].
  { done. } { done. } { by rewrite Hr. } { by rewrite Hr. } { cbn [app]. rewrite length_app, length_drop. lia. }
  cbn [app] in W, C. split; [exact W | by rewrite C | done | done].
Qed.

Lemma new_message_ok m : 0 < blen m < 2 ^ 64 -> new_message (map Some m) (blen m) = Ok m.
Proof.
  intros Hm. unfold new_message, alloc_buffer_with_length. replace (blen m =? 0) with false by lia.
  unfold Prelude.assert at 1. cbn [negb]. bind_ok.
  set (b0 := PrivateBuffer (Some (xmalloc (blen m))) 0 0 (blen m) None false : buffer).
  assert (H0 : holds b0 [] 0).
  { pose proof (length_xmalloc (blen m)) as Hx. split; [split; cbn; lia |]. by split. }
  destruct (put_back_ok b0 [] 0 m H0) as (b' & Hr & Hb'); [lia | lia |].
  unfold run_op in Hr. destruct (append_back_buffer b0 (blen m)) as [[p b1] |] eqn:E; [| done].
  rewrite bind_Ok in Hr. cbv beta in Hr. bind_ok. rewrite Hr. bind_ok. destruct Hb' as (_ & -> & _). cbn [app].
  apply initialized_bytes.
Qed.

(** ** One pass of the loop *)

Lemma header_take s t version type len :
  header_of s version type len -> header_of (s ++ t) version type len.
Proof.
  intros (H8 & H). split; [rewrite blen_app; pose proof (blen_nonneg t); lia |].
  by rewrite take_app_le by (unfold blen in H8; lia).
Qed.

(** The queue of the receiver holds [l]; there is nothing else in its memory. *)
Definition queued r (l : list bytes) : Prop :=
  exists q, recv_queue r = Some q /\ queue_rep (recv_heap r) q l ∅.

Lemma receive_loop_part fuel r b part f total :
  fragment b part f -> incomplete part -> receive_loop (S fuel) r b total = Ok (Some total, r, b).
Proof.
  intros H Hi. cbn [receive_loop]. rewrite (fragment_length _ _ _ H).
  destruct Hi as [Hi | (version & type & len & (H8 & Hty & Hv & Hlen) & Hok & Hlt)].
  - unfold sizeof_ofp_header. by replace (blen part <? 8) with true by lia.
  - unfold sizeof_ofp_header. replace (blen part <? 8) with false by lia.
    rewrite (data_bytes_ok b part f 8 H) by lia. bind_ok. rewrite initialized_bytes. bind_ok.
    change (Z.to_nat 8) with 8%nat. rewrite Hty, Hv. bind_ok. rewrite Hok. cbn [negb]. rewrite Hlen. bind_ok.
    by replace (blen part <? len) with true by lia.
Qed.

Lemma receive_loop_ok ms fuel r b part f total l :
  Forall wire_message ms -> incomplete part -> fragment b (concat ms ++ part) f -> queued r l ->
  (List.length ms < fuel)%nat ->
  exists r' b', receive_loop fuel r b total = Ok (Some (total + blen (concat ms)), r', b') /\
    fragment b' part (f + blen (concat ms)) /\ queued r' (l ++ ms).
Proof.
  intros Hms Hp. revert fuel r b f total l. induction Hms as [| m ms Hm _ IH]; intros fuel r b f total l H Hq Hf.
  - destruct fuel as [| fuel]; [cbn in Hf; lia |]. exists r, b. cbn [concat app] in *. rewrite blen_nil, !Z.add_0_r, app_nil_r.
    by rewrite (receive_loop_part fuel r b part f total).
  - destruct fuel as [| fuel]; [lia |]. cbn [concat] in *. rewrite <- app_assoc in H.
    destruct Hm as (version & type & Hh & Hok). destruct (header_take m (concat ms ++ part) _ _ _ Hh) as (H8 & Hty & Hv & Hlen).
    assert (Hm8 : 8 <= blen m) by apply Hh. cbn [receive_loop].
    rewrite (fragment_length _ _ _ H). unfold sizeof_ofp_header. replace (blen _ <? 8) with false by lia.
    rewrite (data_bytes_ok b _ f 8 H) by lia. bind_ok. rewrite initialized_bytes. bind_ok.
    change (Z.to_nat 8) with 8%nat. rewrite Hty, Hv. bind_ok. rewrite Hok. cbn [negb]. rewrite Hlen. bind_ok.
    assert (Hle : blen m <= blen (m ++ concat ms ++ part)) by (rewrite blen_app; pose proof (blen_nonneg (concat ms ++ part)); lia).
    replace (blen (m ++ concat ms ++ part) <? blen m) with false by lia.
    rewrite (data_bytes_ok b _ f (blen m) H) by lia. bind_ok.
    assert (Ht : take (Z.to_nat (blen m)) (m ++ concat ms ++ part) = m) by (unfold blen; by rewrite Nat2Z.id, take_app_length).
    rewrite Ht. pose proof (fragment_fits _ _ _ H) as Hfit. unfold RECEIVE_BUFFFER_SIZE, UINT16_MAX in Hfit.
    rewrite new_message_ok by lia. bind_ok.
    destruct (fragment_remove_front b m _ f H) as (p & b1 & -> & H1); [lia |]. bind_ok.
    destruct Hq as (q & Hq & Hrep). rewrite Hq. destruct (enqueue_ok _ q l _ m Hrep) as (q1 & h1 & -> & Hrep1). bind_ok.
    destruct (IH fuel (Receiver h1 (Some q1) (fragment_buf r)) b1 (f + blen m) (total + blen m) (l ++ [m]) H1) as (r2 & b2 & -> & H2 & Hq2);
      [by exists q1 | cbn in Hf; lia |].
    exists r2, b2. rewrite blen_app, !Z.add_assoc. split_and!; [done | done |]. by rewrite <- app_assoc in Hq2.
Qed.

(** What has been received of a stream of messages is some of them and an
    incomplete one. *)
Lemma received_messages msgs s rest :
  Forall wire_message msgs -> s ++ rest = concat msgs ->
  exists k part, s = concat (take k msgs) ++ part /\ incomplete part /\ part ++ rest = concat (drop k msgs).
Proof.
  intros Hms. revert s. induction Hms as [| m msgs Hm Hms IH]; intros s E.
  - cbn in E. apply app_eq_nil in E as [-> ->]. exists 0%nat, []. by split_and!; [| left |].
  - destruct (decide (List.length m <= List.length s)%nat) as [Hle | Hlt].
    + cbn [concat] in E. assert (Es : s = m ++ drop (List.length m) s).
      { rewrite <- (take_drop (List.length m) s) at 1. f_equal.
        rewrite <- (take_app_le s rest) by done. by rewrite E, take_app_length. }
      rewrite Es, <- app_assoc in E. apply app_inv_head in E. destruct (IH _ E) as (k & part & Hk & Hp & Hr).
      exists (S k), part. cbn [take drop concat]. split_and!; [| done | done]. by rewrite Es, Hk, app_assoc.
    + exists 0%nat, s. cbn [take drop]. split_and!; [done | | done]. destruct Hm as (version & type & (H8 & Hty & Hv & Hlen) & Hok).
      destruct (decide (blen s < 8)) as [| H8s]; [by left |]. right. exists version, type, (blen m).
      assert (Et : take 8 s = take 8 m).
      { rewrite <- (take_app_le s rest) by (unfold blen in *; lia). rewrite E. cbn [concat].
        rewrite take_app_le by (unfold blen in *; lia). done. }
      unfold header_of. rewrite Et. split_and!; try done; unfold blen in *; lia.
Qed.

(** ** One read *)

Lemma incomplete_short part : incomplete part -> blen part < 2 ^ 16.
Proof.
  intros [H | (version & type & len & (_ & _ & _ & Hlen) & _ & Hlt)]; [lia |].
  apply ld_ntoh_bound in Hlen. lia.
Qed.

(** Between reads the queue is empty and the fragment buffer holds [part]. *)
Definition holding r part : Prop :=
  queued r [] /\ incomplete part /\
  match fragment_buf r with Some b => fragment b part 0 | None => part = [] end.

Lemma new_fragment : exists b, alloc_buffer_with_length RECEIVE_BUFFFER_SIZE = Ok b /\ fragment b [] 0.
Proof.
  unfold alloc_buffer_with_length. replace (RECEIVE_BUFFFER_SIZE =? 0) with false by done.
  unfold Prelude.assert. cbn [negb]. bind_ok. eexists. split; [done |].
  pose proof (length_xmalloc RECEIVE_BUFFFER_SIZE) as Hx. unfold RECEIVE_BUFFFER_SIZE, UINT16_MAX in *.
  split; [split; cbn [front data_length real_length top]; lia | done | done | done].
Qed.

Lemma recv_ok {W} (read_fd : Z -> W -> read_result * W) r (w w' : W) part bs ms part' :
  holding r part -> read_fd (RECEIVE_BUFFFER_SIZE - blen part) w = (Received bs, w') ->
  0 < blen bs <= RECEIVE_BUFFFER_SIZE - blen part ->
  part ++ bs = concat ms ++ part' -> Forall wire_message ms -> incomplete part' ->
  exists r', recv_from_secure_channel read_fd r w = Ok (0, r', None, w') /\ queued r' ms /\
    exists b, fragment_buf r' = Some b /\ fragment b part' 0.
Proof.
  intros ((q & Hq & Hrep) & Hinc & Hf) Hread Hbs E Hms Hinc'. unfold recv_from_secure_channel. rewrite Hq.
  assert (Hl : length q = 0) by (destruct Hrep as (gs & d & ns & H); by apply H).
  rewrite Hl. cbn [Z.ltb Z.compare].
  assert (Hb : exists b, match fragment_buf r with Some b => Ok b | None => alloc_buffer_with_length RECEIVE_BUFFFER_SIZE end = Ok b
    /\ fragment b part 0).
  { destruct (fragment_buf r) as [b |]; [by exists b |]. subst part. apply new_fragment. }
  destruct Hb as (b & -> & Hb). bind_ok. rewrite (fragment_length _ _ _ Hb), Hread.
  replace (blen bs =? 0) with false by lia. pose proof (blen_nonneg part).
  destruct (fragment_append b part 0 bs Hb) as (mem & mem' & -> & Hw & Hb'); [lia |]. bind_ok.
  rewrite (fragment_length _ _ _ Hb) in Hw, Hb'. rewrite Hw. bind_ok. cbn [data_length].
  rewrite E in Hb'. set (b1 := PrivateBuffer _ _ _ _ _ _) in *.
  assert (Hlen : (List.length ms <= Z.to_nat (blen part + blen bs))%nat).
  { rewrite <- blen_app, E, blen_app. unfold blen. rewrite Z2Nat.inj_add, !Nat2Z.id by lia.
    clear -Hms. induction Hms as [| m ms (v & ty & (H8 & _) & _) _ IH]; [cbn; lia |]. cbn [concat List.length].
    rewrite length_app. unfold blen in H8. lia. }
  destruct (receive_loop_ok ms (S (Z.to_nat (blen part + blen bs))) (Receiver (recv_heap r) (Some q) (Some b)) b1 part' 0 0 []
    Hms Hinc' Hb') as (r2 & b2 & -> & H2 & Hq2); [by exists q | lia |]. bind_ok. rewrite Z.add_0_l in *.
  destruct (remove_headroom_ok b2 part' _ H2) as (b3 & -> & H3). bind_ok.
  eexists. split; [done |]. split; [exact Hq2 |]. by exists b3.
Qed.

(** ** Handling *)

Section Handling.
Context {S : Type} (handler : bytes -> S -> S).

(** The messages are handled in order, each once. *)
Lemma handle_loop_ok fuel r ms st :
  queued r ms -> (List.length ms < fuel)%nat ->
  exists r', handle_loop (fun m st => Ok (0, handler m st)) fuel r st 0 = Ok (0, r', foldl (fun st m => handler m st) st ms) /\
    queued r' [] /\ fragment_buf r' = fragment_buf r.
Proof.
  revert fuel r st. induction ms as [| m ms IH]; intros fuel r st (q & Hq & Hrep) Hf;
    (destruct fuel as [| fuel]; [cbn in Hf; lia |]); cbn [handle_loop]; rewrite Hq;
    destruct (dequeue_ok _ q _ _ Hrep) as (q' & h' & -> & Hrep'); bind_ok; cbn [hd_error].
  - eexists. split; [done |]. split; [| done]. by exists q'.
  - bind_ok. cbn [Z.ltb Z.compare foldl List.tl] in *. cbn [List.length] in Hf.
    destruct (IH fuel (Receiver h' (Some q') (fragment_buf r)) (handler m st)) as (r2 & -> & H2 & Hf2); [by exists q' | lia |].
    by exists r2.
Qed.

Lemma queue_fits r ms : queued r ms -> (List.length ms < fuel_of (recv_heap r))%nat.
Proof.
  intros (q & _ & gs & d & ns & Hn & Hm & _). pose proof (nodes_size _ _ _ Hn) as Hs. unfold messages in Hm.
  rewrite length_app in Hs. cbn in Hs. apply (f_equal (@List.length _)) in Hm. rewrite !length_fmap in Hm. unfold fuel_of. lia.
Qed.

Lemma secure_channel_read_ok {W} (read_fd : Z -> W -> read_result * W) r st (w w' : W) part bs ms part' :
  holding r part -> read_fd (RECEIVE_BUFFFER_SIZE - blen part) w = (Received bs, w') ->
  0 < blen bs <= RECEIVE_BUFFFER_SIZE - blen part ->
  part ++ bs = concat ms ++ part' -> Forall wire_message ms -> incomplete part' ->
  Z.of_nat (List.length ms) < 2 ^ 32 ->
  exists r', secure_channel_read (fun m st => Ok (0, handler m st)) read_fd r st w =
      Ok (Continue, r', foldl (fun st m => handler m st) st ms, w') /\ holding r' part'.
Proof.
  intros Hh Hread Hbs E Hms Hinc Hlen. destruct (recv_ok read_fd r w w' part bs ms part' Hh Hread Hbs E Hms Hinc)
    as (r1 & Hr & Hq1 & b & Hb & Hfb). unfold secure_channel_read. rewrite Hr. bind_ok. cbn [Z.ltb Z.compare].
  destruct Hq1 as (q & Hq & Hrep). rewrite Hq.
  assert (Hl : length q = Z.of_nat (List.length ms)).
  { destruct Hrep as (gs & d & ns & H). rewrite (proj2 (proj2 (proj2 (proj2 (proj2 (proj2 H)))))). apply Z.mod_small. lia. }
  rewrite Hl. destruct ms as [| m ms].
  - exists r1. cbn. split; [done |]. split; [by exists q |]. split; [done |]. by rewrite Hb.
  - assert ((0 <? Z.of_nat (List.length (m :: ms))) = true) as -> by (apply Z.ltb_lt; rewrite length_cons; lia).
    unfold handle_messages_from_secure_channel. rewrite Hq.
    destruct (handle_loop_ok (fuel_of (recv_heap r1)) r1 (m :: ms) st) as (r2 & -> & H2 & Hf2);
      [by exists q | apply queue_fits; by exists q |]. bind_ok. cbn [Z.eqb Z.ltb Z.compare].
    exists r2. split; [done |]. split; [done |]. split; [done |]. by rewrite Hf2, Hb.
Qed.

(** ** Any number of reads *)

(** A socket with the bytes [sock] to read gives at least one of them, [want]
    if it has them and the caller has room for them; without any, it says to
    try again. *)
Definition socket_read (want remaining : Z) (sock : bytes) : read_result * bytes :=
  if blen sock =? 0 then (ReadError true, sock)
  else
    let n := Z.to_nat (Z.min (Z.max 1 want) remaining) in
    (Received (take n sock), drop n sock).

Fixpoint run_reads r (st : S) (sock : bytes) (wants : list Z) : res (read_outcome * receiver * S * bytes) :=
  match wants with
  | [] => Ok (Continue, r, st, sock)
  | want :: wants =>
    let* (outcome, r, st, sock) := secure_channel_read (fun m st => Ok (0, handler m st)) (socket_read want) r st sock in
    match outcome with
    | Continue => run_reads r st sock wants
    | _ => Ok (outcome, r, st, sock)
    end
  end.

Lemma secure_channel_read_again r st part want :
  holding r part ->
  exists r', secure_channel_read (fun m st => Ok (0, handler m st)) (socket_read want) r st [] = Ok (Continue, r', st, []) /\
    holding r' part.
Proof.
  intros ((q & Hq & Hrep) & Hinc & Hf). unfold secure_channel_read, recv_from_secure_channel. rewrite Hq.
  assert (Hl : length q = 0) by (destruct Hrep as (gs & d & ns & H); by apply H).
  assert (Hs : forall x, socket_read want x [] = (ReadError true, [])) by done.
  rewrite Hl. cbn [Z.ltb Z.compare].
  destruct (fragment_buf r) as [b |] eqn:E.
  - bind_ok. rewrite Hs. bind_ok. cbn [Z.ltb Z.compare recv_queue]. rewrite Hl. cbn [Z.ltb Z.compare].
    eexists. split; [done |]. split; [by exists q |]. by split.
  - destruct new_fragment as (b & -> & Hb). bind_ok. rewrite Hs. bind_ok. cbn [Z.ltb Z.compare recv_queue].
    rewrite Hl. cbn [Z.ltb Z.compare]. eexists. split; [done |].
    split; [by exists q |]. split; [done |]. cbn. by subst.
Qed.

Lemma socket_read_some want part sock :
  blen part < 2 ^ 16 -> sock <> [] ->
  exists bs sock', socket_read want (RECEIVE_BUFFFER_SIZE - blen part) sock = (Received bs, sock') /\
    sock = bs ++ sock' /\ 0 < blen bs <= RECEIVE_BUFFFER_SIZE - blen part.
Proof.
  intros Hp Hs. unfold socket_read. pose proof (blen_nonneg part). destruct sock as [| c sock]; [done |].
  replace (blen (c :: sock) =? 0) with false by (rewrite blen_cons; pose proof (blen_nonneg sock); lia).
  eexists _, _. split; [done |]. rewrite take_drop. split; [done |].
  unfold RECEIVE_BUFFFER_SIZE, UINT16_MAX in *. unfold blen at 1 3. rewrite length_take. cbn [List.length]. lia.
Qed.

Lemma wire_messages_length ms : Forall wire_message ms -> 8 * Z.of_nat (List.length ms) <= blen (concat ms).
Proof.
  induction 1 as [| m ms (v & ty & (H8 & _) & _) _ IH]; [done |]. cbn [concat]. rewrite blen_app, length_cons. lia.
Qed.

Lemma run_reads_ok wants r st part sock msgs :
  holding r part -> Forall wire_message msgs -> part ++ sock = concat msgs ->
  exists r' k part' sock', run_reads r st sock wants =
      Ok (Continue, r', foldl (fun st m => handler m st) st (take k msgs), sock') /\
    holding r' part' /\ part' ++ sock' = concat (drop k msgs) /\
    (blen sock <= Z.of_nat (List.length wants) -> sock' = []).
Proof.
  revert r st part sock msgs. induction wants as [| want wants IH]; intros r st part sock msgs Hh Hms E; cbn [run_reads].
  - exists r, 0%nat, part, sock. split_and!; [done | done | done |]. intros H. cbn in H.
    destruct sock; [done |]. rewrite blen_cons in H. pose proof (blen_nonneg sock). lia.
  - pose proof Hh as (_ & Hinc & _). pose proof (incomplete_short _ Hinc) as Hsh.
    destruct (decide (sock = [])) as [-> | Hs].
    + destruct (secure_channel_read_again r st part want Hh) as (r1 & -> & H1). bind_ok.
      destruct (IH r1 st part [] msgs H1 Hms E) as (r2 & k & part2 & sock2 & -> & H2 & E2 & Hl). exists r2, k, part2, sock2.
      split_and!; [done | done | done |]. intros _. apply Hl. rewrite blen_nil. lia.
    + destruct (socket_read_some want part sock Hsh Hs) as (bs & sock1 & Hread & -> & Hbs).
      rewrite app_assoc in E. destruct (received_messages msgs _ _ Hms E) as (k & part1 & E1 & Hinc1 & Er).
      assert (Hk : Forall wire_message (take k msgs)) by by apply Forall_take.
      destruct (secure_channel_read_ok (socket_read want) r st _ sock1 part bs (take k msgs) part1 Hh Hread Hbs E1 Hk Hinc1) as (r1 & -> & H1).
      { pose proof (wire_messages_length _ Hk) as H8. apply (f_equal blen) in E1. rewrite !blen_app in E1.
        pose proof (blen_nonneg part1). unfold RECEIVE_BUFFFER_SIZE, UINT16_MAX in Hbs. lia. }
      bind_ok. destruct (IH r1 (foldl (fun st m => handler m st) st (take k msgs)) part1 sock1 (drop k msgs) H1) as (r2 & k2 & part2 & sock2 & -> & H2 & E2 & Hl);
        [by apply Forall_drop | done |].
      exists r2, (k + k2)%nat, part2, sock2. rewrite drop_drop in E2. split_and!; [| done | done |].
      * do 3 f_equal. rewrite <- (take_take_drop msgs k k2), foldl_app. done.
      * intros H. apply Hl. rewrite blen_app, length_cons in H. lia.
Qed.
End Handling.

Definition init_receiver : receiver := let '(q, h) := create_message_queue ∅ in Receiver h (Some q) None.

Lemma init_holding : holding init_receiver [].
Proof.
  pose proof (create_queue_ok (M := bytes) ∅) as H. unfold init_receiver. destruct (create_message_queue ∅) as [q h].
  split; [by exists q |]. split; [by left | done].
Qed.

Lemma concat_incomplete msgs : Forall wire_message msgs -> incomplete (concat msgs) -> msgs = [].
Proof.
  intros [| m ms (v & ty & (H8 & Hty & Hv & Hlen) & Hok) _]; [done |]. cbn [concat].
  assert (Et : take 8 (m ++ concat ms) = take 8 m) by (apply take_app_le; unfold blen in H8; lia).
  pose proof (blen_nonneg (concat ms)). intros [Hlt | (v' & ty' & len & (_ & _ & _ & Hlen') & _ & Hlt)]; rewrite blen_app in Hlt; [lia |].
  rewrite Et, Hlen in Hlen'. injection Hlen' as <-. lia.
Qed.

(** * Property of the receiver *)

(** C38. However the socket splits the stream of the messages [msgs] into reads,
    the daemon handles these messages, whole, once and in order: no read
    fails or closes the channel for lack of room, after any reads it has
    handled all the complete messages received and keeps the bytes of the
    incomplete one, and when as many reads as bytes have been made all the
    messages are handled. *)
Theorem reads_deliver_messages {S : Type} (handler : bytes -> S -> S) st msgs wants :
  Forall wire_message msgs ->
  exists r k part sock, run_reads handler init_receiver st (concat msgs) wants =
      Ok (Continue, r, foldl (fun st m => handler m st) st (take k msgs), sock) /\
    holding r part /\ part ++ sock = concat (drop k msgs) /\
    (blen (concat msgs) <= Z.of_nat (List.length wants) -> take k msgs = msgs).
Proof.
  intros Hms. destruct (run_reads_ok handler wants init_receiver st [] (concat msgs) msgs init_holding Hms eq_refl)
    as (r & k & part & sock & Hr & Hh & E & Hl). exists r, k, part, sock. split_and!; [done | done | done |].
  intros H. rewrite (Hl H), app_nil_r in E. pose proof Hh as (_ & Hinc & _). rewrite E in Hinc.
  apply concat_incomplete in Hinc; [| by apply Forall_drop].
  by rewrite <- (take_drop k msgs) at 2; rewrite Hinc, app_nil_r.
Qed.
End ReceiverProofs.

(** ** Examples and witness *)

Definition sample_stream : list bytes :=
  [map byte.of_Z [1; 0; 0; 8; 0; 0; 0; 1]; map byte.of_Z [1; 2; 0; 10; 0; 0; 0; 2; 7; 7]; map byte.of_Z [1; 19; 0; 8; 0; 0; 0; 3]].

Lemma sample_stream_ok : Forall (wire_message (host := LittleEndian)) sample_stream.
Proof.
  assert (Hh : forall (m : bytes) v t, blen m <? 8 = false -> ld (host := LittleEndian) 1 (take 8 m) 1 = Ok t ->
    ld (host := LittleEndian) 1 (take 8 m) 0 = Ok v -> ld_ntoh (host := LittleEndian) 2 (take 8 m) 2 = Ok (blen m) ->
    valid_message_version t v = true -> wire_message (host := LittleEndian) m).
  { intros m v t H8 Ht Hv Hl Hok. exists v, t. split; [| done]. split; [lia | done]. }
  repeat constructor.
  - by apply (Hh _ 1 0).
  - by apply (Hh _ 1 2).
  - by apply (Hh _ 1 19).
Qed.

Lemma reads_deliver_messages_witness :
  exists r k part sock, run_reads (host := LittleEndian) (fun m log => log ++ [m]) init_receiver [] (concat sample_stream) [3; 20; 1; 5] =
      Ok (Continue, r, foldl (fun log m => log ++ [m]) [] (take k sample_stream), sock) /\
    holding (host := LittleEndian) r part /\ part ++ sock = concat (drop k sample_stream) /\
    (blen (concat sample_stream) <= Z.of_nat (List.length [3; 20; 1; 5]) -> take k sample_stream = sample_stream).
Proof. apply (reads_deliver_messages (host := LittleEndian)). exact sample_stream_ok. Defined.

(** Three bytes, then the rest of the first message and the second. *)
Example two_reads :
  match run_reads (host := LittleEndian) (fun m log => log ++ [m]) init_receiver [] (concat sample_stream) [3; 15] with
  | Ok (Continue, _, log, sock) => log = take 2 sample_stream /\ sock = concat (drop 2 sample_stream)
  | _ => False
  end.
Proof. vm_compute. done. Qed.

(** A message of length 0 makes the daemon fail an assertion: [new_message]
    allocates a buffer of that length. *)
Example zero_length_aborts :
  secure_channel_read (host := LittleEndian) (fun m st => Ok (0, st)) (socket_read 8) init_receiver tt
    (map byte.of_Z [1; 2; 0; 0; 0; 0; 0; 1]) = Fault AssertFailed.
Proof. vm_compute. done. Qed.

(** * The sender *)

Section Sender.
(** limits.h *)
Context (IOV_MAX : Z).

(** The fields of [switch_info] that the sender uses, the buffers of the
    messages in [send_queue], and whether the event handler waits for the
    socket to be writable. *)
Record sender : Type := Sender {
  send_heap : queue_heap positive;
  send_queue : option message_queue;
  send_bufs : gmap positive bytes;
  secure_channel_fd : Z;
  writable : bool
}.

Implicit Types (t : sender) (buf : bytes).

Definition set_writable t (w : bool) : sender :=
  Sender (send_heap t) (send_queue t) (send_bufs t) (secure_channel_fd t) w.

Definition load_buf (bufs : gmap positive bytes) (a : positive) : res bytes :=
  match bufs !! a with Some b => Ok b | None => Fault OutOfBounds end.

Definition send_to_secure_channel t buf : res (Z * sender) :=
  let* _ := assert (0 <? blen buf) in
  match send_queue t with
  | None => Ok (-1, t)
  | Some q =>
    let a := fresh (dom (send_bufs t)) in
    let* (ret, q, h) := enqueue_message (send_heap t) (Some q) (Some a) in
    let t := Sender h (Some q) (<[a := buf]> (send_bufs t)) (secure_channel_fd t) (writable t) in
    Ok (if ret : bool then (0, set_writable t true) else (-1, t))
  end.

(** The entries of [args->iov] are the bytes they point to; the array has room
    for [capacity]. *)
Definition append_to_writev_args (capacity : Z) (bufs : gmap positive bytes) (message : positive)
    (args : res (list bytes)) : bool * res (list bytes) :=
  let args :=
    let* iov := args in
    let* b := load_buf bufs message in
    if Z.of_nat (List.length iov) <? capacity then Ok (iov ++ [b]) else Fault OutOfBounds in
  match args with
  | Ok iov => (negb (IOV_MAX <=? Z.of_nat (List.length iov)), Ok iov)
  | Fault f => (false, Fault f)
  end.

(** What [writev] returns: an error, with whether [errno] says to try again, or
    the number of bytes written. *)
Inductive write_result : Type :=
| WriteError (again : bool)
| Wrote (write_length : Z).

Fixpoint flush_loop (fuel : nat) t (write_length : Z) : res (Z * sender) :=
  match fuel with
  | O => Fault OutOfFuel
  | S fuel =>
    let* message := peek_message (send_heap t) (send_queue t) in
    match message with
    | None => Ok (0, t)
    | Some a =>
      if write_length =? 0 then Ok (0, set_writable t true)
      else
        let* buf := load_buf (send_bufs t) a in
        if write_length <? blen buf then
          let bufs := <[a := drop (Z.to_nat write_length) buf]> (send_bufs t) in
          Ok (0, set_writable (Sender (send_heap t) (send_queue t) bufs (secure_channel_fd t) (writable t)) true)
        else
          let write_length := write_length - blen buf in
          let* (message, q, h) := dequeue_message (send_heap t) (send_queue t) in
          let bufs := match message with Some a => delete a (send_bufs t) | None => send_bufs t end in
          flush_loop fuel (Sender h (Some q) bufs (secure_channel_fd t) (writable t)) write_length
    end
  end.

(** [write_fd] is given the buffers of the vector. *)
Definition flush_secure_channel {W : Type} (write_fd : list bytes -> W -> write_result * W) t (w : W) : res (Z * sender * W) :=
  match send_queue t with
  | None => Fault AssertFailed
  | Some q =>
    let* _ := assert (0 <=? secure_channel_fd t) in
    if length q =? 0 then Ok (0, t, w)
    else
      let t := set_writable t false in
      let* iov := foreach_message_queue (send_heap t) (Some q) (append_to_writev_args (length q) (send_bufs t)) (Ok []) in
      let* iov := iov in
      if Z.of_nat (List.length iov) =? 0 then Ok (0, t, w)
      else
        let '(result, w) := write_fd iov w in
        match result with
        | WriteError again => if again then Ok (0, set_writable t true, w) else Ok (-1, t, w)
        | Wrote write_length =>
          if write_length =? 0 then Ok (0, t, w)
          else
            let* (ret, t) := flush_loop (fuel_of (send_heap t)) t write_length in
            Ok (ret, t, w)
        end
  end.

(** ** What waits to be sent *)

(** The queue holds the buffers [l], distinct, not empty, and the only ones. *)
Record sending t (l : list (positive * bytes)) : Prop := {
  sending_queue : exists q, send_queue t = Some q /\ queue_rep (send_heap t) q l.*1 ∅;
  sending_nodup : NoDup l.*1;
  sending_bufs : send_bufs t = list_to_map l;
  sending_nonempty : Forall (fun n => 0 < blen n.2) l;
  sending_fd : 0 <= secure_channel_fd t
}.

Definition pending (l : list (positive * bytes)) : bytes := concat l.*2.

Lemma sending_load t l a b : sending t l -> (a, b) ∈ l -> load_buf (send_bufs t) a = Ok b.
Proof. intros [_ Hn Hb _ _] Hin. unfold load_buf. by rewrite Hb, (elem_of_list_to_map_1 _ _ _ Hn Hin). Qed.

Lemma send_ok t l buf :
  sending t l -> 0 < blen buf ->
  exists t' a, send_to_secure_channel t buf = Ok (0, t') /\ sending t' (l ++ [(a, buf)]) /\ writable t' = true.
Proof.
  intros [(q & Hq & Hrep) Hn Hb Hne Hfd] Hbuf. unfold send_to_secure_channel.
  replace (0 <? blen buf) with true by lia. unfold assert. bind_ok. rewrite Hq.
  destruct (enqueue_ok _ q _ _ (fresh (dom (send_bufs t))) Hrep) as (q' & h' & -> & Hrep'). bind_ok.
  eexists _, (fresh (dom (send_bufs t))). split; [done |]. split; [| done].
  assert (Hfr : fresh (dom (send_bufs t)) ∉ l.*1).
  { intros Hin. apply (is_fresh (dom (send_bufs t))). rewrite Hb at 2. rewrite dom_list_to_map. by apply elem_of_list_to_set. }
  split; cbn [send_queue send_heap send_bufs secure_channel_fd set_writable]; [| | | |done].
  - exists q'. split; [done |]. by rewrite fmap_app.
  - rewrite fmap_app. apply NoDup_app. split_and!; [done | | apply NoDup_singleton]. intros x Hx ->%list_elem_of_singleton. done.
  - rewrite list_to_map_snoc by done. by rewrite Hb.
  - apply Forall_app. by split; [| constructor].
Qed.

(** The vector points to the first messages. *)
Lemma append_all t l (iov : list bytes) capacity :
  sending t l -> forall suf pre, l = pre ++ suf -> Z.of_nat (List.length iov) + Z.of_nat (List.length suf) <= capacity ->
  exists k, foreach_in (append_to_writev_args capacity (send_bufs t)) suf.*1 (Ok iov) = Ok (iov ++ take k suf.*2) /\
    (suf <> [] -> 0 < Z.of_nat (List.length iov + k) /\ (0 < k)%nat).
Proof.
  intros H suf. revert iov. induction suf as [| [a b] suf IH]; intros iov pre E Hc.
  - exists 0%nat. cbn. by rewrite app_nil_r.
  - cbn [fmap list_fmap foreach_in fst snd]. unfold append_to_writev_args at 1.
    rewrite (sending_load t l a b) by (try done; rewrite E; set_solver). bind_ok. rewrite length_cons in Hc.
    replace (Z.of_nat (List.length iov) <? capacity) with true by lia.
    destruct (IOV_MAX <=? _); cbn [negb].
    + exists 1%nat. cbn [take]. split; [done |]. intros _. lia.
    + destruct (IH (iov ++ [b]) (pre ++ [(a, b)])) as (k & -> & _); [by rewrite <- app_assoc | rewrite length_app; cbn [List.length]; lia |].
      exists (S k). cbn [take]. rewrite <- app_assoc. split; [done |]. intros _. lia.
Qed.

(** The bytes written are removed from the front. *)
Lemma flush_loop_ok fuel t l n :
  sending t l -> 0 <= n <= blen (pending l) -> (List.length l < fuel)%nat ->
  exists t' l', flush_loop fuel t n = Ok (0, t') /\ sending t' l' /\ pending l' = drop (Z.to_nat n) (pending l) /\
    (l' <> [] -> writable t' = true) /\ (List.length l' <= List.length l)%nat.
Proof.
  revert t l n. induction fuel as [| fuel IH]; intros t l n H Hn Hf; [lia |]. cbn [flush_loop].
  pose proof H as [(q & Hq & Hrep) Hnd Hb Hne Hfd]. rewrite Hq, (peek_ok _ q _ _ Hrep). bind_ok.
  destruct l as [| [a b] l]; cbn [fmap list_fmap fst hd_error].
  - exists t, []. unfold pending. cbn. by rewrite drop_nil.
  - destruct (Z.eqb_spec n 0) as [-> | Hn0].
    { exists (set_writable t true), ((a, b) :: l). split_and!; try done. split; try done. by exists q. }
    rewrite (sending_load t ((a, b) :: l) a b H) by by left. bind_ok. unfold pending in *. cbn [fmap list_fmap snd concat] in *.
    cbn in Hnd. apply NoDup_cons in Hnd as [Ha Hnd]. inversion Hne as [| ? ? Hb0 Hne']; subst. cbn in Hb0.
    destruct (Z.ltb_spec n (blen b)) as [Hlt | Hge].
    + eexists _, ((a, drop (Z.to_nat n) b) :: l). split; [done |]. split_and!; [| | done | done].
      * split; cbn [send_queue send_heap send_bufs secure_channel_fd set_writable]; [by exists q | by constructor | | | done].
        -- rewrite Hb. cbn. by rewrite insert_insert_eq.
        -- constructor; [| done]. cbn. unfold blen in *. rewrite length_drop. lia.
      * cbn [fmap list_fmap snd concat]. rewrite drop_app_le by (unfold blen in *; lia). done.
    + destruct (dequeue_ok _ q _ _ Hrep) as (q' & h' & -> & Hrep'). bind_ok. cbn [fmap list_fmap fst hd_error List.tl] in *.
      rewrite blen_app in Hn.
      match goal with |- context [flush_loop fuel ?u _] => destruct (IH u l (n - blen b)) as (t' & l' & -> & H' & Hp & Hw & Hl') end.
      { split; cbn [send_queue send_heap send_bufs secure_channel_fd]; [by exists q' | done | | done | done].
        rewrite Hb. cbn. rewrite delete_insert_id; [done |]. by apply not_elem_of_list_to_map_1. }
      { lia. } { cbn in Hf. lia. }
      exists t', l'. split_and!; [done | done | | done | cbn; lia]. rewrite Hp.
      rewrite drop_app_ge by (unfold blen in *; lia). f_equal. unfold blen in *. lia.
Qed.

(** ** Any sends and writes *)

(** A socket whose written bytes are [w] writes at least one byte of those
    offered, [want] if there are so many; or it says to try again. *)
Definition socket_write (want : option Z) (iov : list bytes) (w : bytes) : write_result * bytes :=
  match want with
  | None => (WriteError true, w)
  | Some want =>
    let n := Z.min (Z.max 1 want) (blen (concat iov)) in
    (Wrote n, w ++ take (Z.to_nat n) (concat iov))
  end.

Inductive sender_event : Type :=
| Send buf
| Flush (want : option Z).

Definition run_event t (w : bytes) (e : sender_event) : res (Z * sender * bytes) :=
  match e with
  | Send buf => let* (ret, t) := send_to_secure_channel t buf in Ok (ret, t, w)
  | Flush want => flush_secure_channel (socket_write want) t w
  end.

Fixpoint run_events t (w : bytes) (es : list sender_event) : res (list Z * sender * bytes) :=
  match es with
  | [] => Ok ([], t, w)
  | e :: es =>
    let* (ret, t, w) := run_event t w e in
    let* (rets, t, w) := run_events t w es in
    Ok (ret :: rets, t, w)
  end.

Definition sent (es : list sender_event) : list bytes := omap (fun e => match e with Send buf => Some buf | _ => None end) es.

Lemma concat_take_prefix (ls : list bytes) k : concat ls = concat (take k ls) ++ concat (drop k ls).
Proof. rewrite <- concat_app. by rewrite take_drop. Qed.

Lemma flush_ok t l w want :
  sending t l -> Z.of_nat (List.length l) < 2 ^ 32 -> (l <> [] -> writable t = true) ->
  exists t' l' w', flush_secure_channel (socket_write want) t w = Ok (0, t', w') /\ sending t' l' /\
    w' ++ pending l' = w ++ pending l /\ (l' <> [] -> writable t' = true) /\ (List.length l' <= List.length l)%nat /\
    (is_Some want -> l <> [] -> blen (pending l') < blen (pending l)).
Proof.
  intros H Hlen Hw. pose proof H as [(q & Hq & Hrep) Hnd Hb Hne Hfd]. unfold flush_secure_channel. rewrite Hq.
  replace (0 <=? secure_channel_fd t) with true by lia. unfold assert. bind_ok.
  assert (Hl : length q = Z.of_nat (List.length l)).
  { destruct Hrep as (gs & d & ns & Hr). rewrite (proj2 (proj2 (proj2 (proj2 (proj2 (proj2 Hr)))))), length_fmap. apply Z.mod_small. lia. }
  rewrite Hl. destruct l as [| n l].
  { cbn. exists t, [], w. by split_and!. }
  assert ((Z.of_nat (List.length (n :: l)) =? 0) = false) as -> by (apply Z.eqb_neq; rewrite length_cons; lia).
  cbn [send_heap send_bufs set_writable]. rewrite (foreach_ok _ q _ ∅ _ _ Hrep). bind_ok.
  destruct (append_all t (n :: l) [] (Z.of_nat (List.length (n :: l))) H (n :: l) []) as (k & Hk & Hk0); [done | cbn [List.length]; lia |].
  rewrite Hk. bind_ok. cbn [app]. destruct (Hk0 ltac:(done)) as [_ Hk1].
  assert (Hiov : take k (n :: l).*2 <> []) by by destruct k; [lia |].
  assert ((Z.of_nat (List.length (take k (n :: l).*2)) =? 0) = false) as ->.
  { apply Z.eqb_neq. destruct (take k (n :: l).*2); [done |]. rewrite length_cons. lia. }
  destruct want as [want |]; cbn [socket_write].
  2: { eexists (set_writable t true), (n :: l), w. split; [done |]. split_and!; try done.
       split; try done. by exists q. }
  assert (Hpos : 0 < blen (concat (take k (n :: l).*2))).
  { destruct k as [| k]; [lia |]. cbn [fmap list_fmap take concat]. rewrite blen_app. pose proof (blen_nonneg (concat (take k (l.*2)))).
    inversion Hne; subst. lia. }
  set (m := Z.min (Z.max 1 want) _). pose proof (concat_take_prefix (n :: l).*2 k) as Hpre.
  assert (Hm : 0 < m <= blen (pending (n :: l))).
  { unfold pending. rewrite Hpre, blen_app. pose proof (blen_nonneg (concat (drop k (n :: l).*2))). lia. }
  replace (m =? 0) with false by lia.
  destruct (flush_loop_ok (fuel_of (send_heap t)) (set_writable t false) (n :: l) m) as (t' & l' & -> & H' & Hp' & Hw' & Hl').
  { split; try done. by exists q. } { lia. }
  { destruct Hrep as (gs & d & ns & Hn & Hms & _). pose proof (nodes_size _ _ _ Hn) as Hs. unfold messages in Hms.
    rewrite length_app in Hs. cbn [List.length] in Hs. apply (f_equal (@List.length _)) in Hms. rewrite !length_fmap in Hms. unfold fuel_of. lia. }
  bind_ok. exists t', l', (w ++ take (Z.to_nat m) (concat (take k (n :: l).*2))). split; [done |]. split_and!; [done | | done | done |].
  - rewrite <- app_assoc, Hp'. f_equal. rewrite <- (take_drop (Z.to_nat m) (pending (n :: l))) at 2. f_equal.
    unfold pending. rewrite Hpre, take_app_le; [done |]. unfold blen in m. lia.
  - intros _ _. rewrite Hp'. unfold blen at 1. rewrite length_drop. unfold blen in *. lia.
Qed.

Lemma run_events_ok es t l w :
  sending t l -> (l <> [] -> writable t = true) -> Forall (fun buf => 0 < blen buf) (sent es) ->
  Z.of_nat (List.length l) + Z.of_nat (List.length (sent es)) < 2 ^ 32 ->
  exists rets t' l' w', run_events t w es = Ok (rets, t', w') /\ Forall (eq 0) rets /\ sending t' l' /\
    w' ++ pending l' = w ++ pending l ++ concat (sent es) /\ (l' <> [] -> writable t' = true) /\
    Z.of_nat (List.length l') <= Z.of_nat (List.length l) + Z.of_nat (List.length (sent es)).
Proof.
  revert t l w. induction es as [| e es IH]; intros t l w H Hw Hs Hl; cbn [run_events].
  - exists [], t, l, w. cbn. rewrite app_nil_r. split_and!; try done. lia.
  - assert (He : exists t1 l1 w1, run_event t w e = Ok (0, t1, w1) /\ sending t1 l1 /\ (l1 <> [] -> writable t1 = true) /\
      w1 ++ pending l1 ++ concat (sent es) = w ++ pending l ++ concat (sent (e :: es)) /\
      Z.of_nat (List.length l1) + Z.of_nat (List.length (sent es)) <= Z.of_nat (List.length l) + Z.of_nat (List.length (sent (e :: es)))).
    { destruct e as [buf | want]; cbn [run_event].
      - change (sent (Send buf :: es)) with (buf :: sent es) in *. rewrite length_cons in *.
        inversion Hs; subst. destruct (send_ok t l buf H) as (t1 & a & -> & H1 & Hw1); [done |]. bind_ok.
        exists t1, (l ++ [(a, buf)]), w. split_and!; [done | done | done | | rewrite length_app; cbn [List.length]; lia].
        unfold pending. rewrite fmap_app, concat_app. cbn. by rewrite app_nil_r, <- !app_assoc.
      - change (sent (Flush want :: es)) with (sent es) in *. destruct (flush_ok t l w want H) as (t1 & l1 & w1 & -> & H1 & E1 & Hw1 & Hl1 & _); [lia | done |].
        exists t1, l1, w1. split_and!; [done | done | done | by rewrite app_assoc, E1, <- app_assoc | lia]. }
    destruct He as (t1 & l1 & w1 & -> & H1 & Hw1 & E1 & Hl1). bind_ok.
    assert (Hs1 : Forall (fun buf => 0 < blen buf) (sent es)) by (destruct e; cbn in Hs; [by inversion Hs | done]).
    destruct (IH t1 l1 w1 H1 Hw1 Hs1) as (rets & t2 & l2 & w2 & -> & Hr & H2 & E2 & Hw2 & Hl2); [lia |]. bind_ok.
    exists (0 :: rets), t2, l2, w2. split_and!; [done | by constructor | done | by rewrite E2 | done | lia].
Qed.

Lemma flush_all wants t l w :
  sending t l -> (l <> [] -> writable t = true) -> Z.of_nat (List.length l) < 2 ^ 32 ->
  blen (pending l) <= Z.of_nat (List.length wants) ->
  exists rets t', run_events t w (map (fun want => Flush (Some want)) wants) = Ok (rets, t', w ++ pending l) /\ sending t' [].
Proof.
  revert t l w. induction wants as [| want wants IH]; intros t l w H Hw Hl Hb; cbn [map run_events].
  - exists [], t. assert (l = []) as ->; [| by rewrite app_nil_r]. destruct l as [| [a b] l]; [done |].
    destruct H as [_ _ _ Hne _]. inversion Hne as [| ? ? Hb0]; subst. unfold pending in Hb. cbn [fmap list_fmap snd concat] in *.
    rewrite blen_app in Hb. pose proof (blen_nonneg (concat l.*2)). cbn in Hb, Hb0. lia.
  - cbn [run_event]. destruct (flush_ok t l w (Some want) H Hl Hw) as (t1 & l1 & w1 & -> & H1 & E1 & Hw1 & Hl1 & Hp). bind_ok.
    rewrite length_cons in Hb. destruct (IH t1 l1 w1 H1 Hw1) as (rets & t2 & -> & H2); [lia | | bind_ok; exists (0 :: rets), t2; by rewrite E1].
    destruct (decide (l = [])) as [-> |]; [| specialize (Hp (ex_intro _ want eq_refl) ltac:(done)); lia].
    destruct l1 as [|]; [| cbn in Hl1; lia]. change (blen (pending [])) with 0. lia.
Qed.

Definition init_sender (fd : Z) : sender :=
  let '(q, h) := create_message_queue ∅ in Sender h (Some q) ∅ fd false.

Lemma init_sending fd : 0 <= fd -> sending (init_sender fd) [].
Proof.
  intros Hfd. pose proof (create_queue_ok (M := positive) ∅) as H. unfold init_sender.
  destruct (create_message_queue ∅) as [q h]. split; [by exists q | constructor | done | done | done].
Qed.

(** * Property of the sender *)

(** C39. Whatever the socket takes at each write, the daemon writes the messages
    that it sends, whole, once and in order: what has been written and what
    waits in the queue are together the messages sent, while something waits
    the event handler is told to wait for the socket, and as many successful
    writes as bytes that wait write them all. *)
Theorem sent_messages_written fd es :
  0 <= fd -> Forall (fun buf => 0 < blen buf) (sent es) -> Z.of_nat (List.length (sent es)) < 2 ^ 32 ->
  exists rets t l w, run_events (init_sender fd) [] es = Ok (rets, t, w) /\ Forall (eq 0) rets /\
    sending t l /\ w ++ pending l = concat (sent es) /\ (l <> [] -> writable t = true) /\
    forall wants, blen (pending l) <= Z.of_nat (List.length wants) -> exists rets' t',
      run_events t w (map (fun want => Flush (Some want)) wants) = Ok (rets', t', concat (sent es)) /\ sending t' [].
Proof.
  intros Hfd Hs Hl. pose proof (init_sending fd Hfd) as H.
  destruct (run_events_ok es (init_sender fd) [] [] H) as (rets & t & l & w & Hr & H0 & Ht & E & Hw & Hl'); try done.
  cbn [app pending fmap list_fmap concat List.length] in *. exists rets, t, l, w. split_and!; try done.
  intros wants Hb. destruct (flush_all wants t l w Ht Hw) as (rets' & t' & Hr' & Ht'); [lia | done |].
  exists rets', t'. by rewrite Hr', E.
Qed.
End Sender.

Lemma sent_messages_written_witness :
  let es := [Send [Byte.x01; Byte.x02]; Flush (Some 1); Send [Byte.x03]; Flush None] in
  0 <= 5 /\ exists rets t l w, run_events 1024 (init_sender 5) [] es = Ok (rets, t, w) /\ Forall (eq 0) rets /\
    sending t l /\ w ++ pending l = concat (sent es) /\ (l <> [] -> writable t = true) /\
    forall wants, blen (pending l) <= Z.of_nat (List.length wants) -> exists rets' t',
      run_events 1024 t w (map (fun want => Flush (Some want)) wants) = Ok (rets', t', concat (sent es)) /\ sending t' [].
Proof.
  intros es. split; [lia |]. apply (sent_messages_written 1024 5 es); [lia | repeat constructor | reflexivity].
Defined.

Example partial_write :
  match run_events 1024 (init_sender 5) [] [Send [Byte.x01; Byte.x02]; Send [Byte.x03; Byte.x04]; Flush (Some 3)] with
  | Ok (_, t, w) => w = [Byte.x01; Byte.x02; Byte.x03] /\ writable t = true /\ (map_to_list (send_bufs t)).*2 = [[Byte.x04]]
  | Fault _ => False
  end.
Proof. vm_compute. done. Qed.
