(* ===== verification/CookieTable.v ===== *)
(** cookie_table.c of the switch daemon: cookies of the flows that applications
    make.

    A flow gets a cookie of the daemon for the cookie and the name of its
    application.  An entry is counted once for each flow, found by its cookie
    and by its application, and aged out.  Both hash tables hold pointers to
    entries of a heap.  [time( NULL )] is an argument. *)

From Stdlib Require Import ZArith Lia Bool.
From stdpp Require Import base list gmap fin_maps.
From S2P Require Import Prelude Memory HashTable Utility.

(** [service_name] is the string in the array. *)
Record application_entry : Type := ApplicationEntry {
  app_cookie : Z;
  service_name : bytes;
  flags : Z
}.

Record cookie_entry : Type := CookieEntry {
  cookie : Z;
  application : application_entry;
  reference_count : Z;
  expire_at : Z
}.

Abbreviation cookie_heap := (gmap positive cookie_entry).

(** [cookie_table], the static [cookie_dough] and the memory of the entries. *)
Record cookie_table : Type := CookieTable {
  cookie_dough : Z;
  entry_heap : cookie_heap;
  global : hash_table Z (option positive);
  by_application : hash_table application_entry (option positive)
}.

Implicit Types (t : cookie_table) (h : cookie_heap) (e : cookie_entry) (a : positive) (c : Z).

Definition RESERVED_COOKIE : Z := 0.
Definition INVALID_COOKIE : Z := 2 ^ 64 - 1.
Definition COOKIE_ENTRY_LIFETIME : Z := 86400 * 30.
Definition BUCKETS_SIZE : Z := 131063.
Definition MESSENGER_SERVICE_NAME_LENGTH : Z := 32.
Definition INT_MAX : Z := 2 ^ 31 - 1.

Section CookieTable.
Context {host : Host}.

Definition compare_cookie (x y : Z) : bool := x =? y.
Definition hash_cookie_entry (key : Z) : Z := hash_core (host_encode 8 key).

Definition compare_application (x y : application_entry) : bool :=
  if negb (app_cookie x =? app_cookie y) then false
  else if negb (bool_decide (service_name x = service_name y)) then false
  else true.

(** The first 8 bytes of an [application_entry]. *)
Definition hash_application (key : application_entry) : Z := hash_core (host_encode 8 (app_cookie key)).

Definition cookie_key : HashKey Z := {| compare := compare_cookie; hash := hash_cookie_entry |}.
Definition application_key : HashKey application_entry :=
  {| compare := compare_application; hash := hash_application |}.

(** [strncpy] into the array, and the terminator after it. *)
Definition copy_service_name (name : bytes) : bytes :=
  take (Z.to_nat (MESSENGER_SERVICE_NAME_LENGTH - 1)) (c_string name).

Definition load h a : res cookie_entry := match h !! a with Some e => Ok e | None => Fault OutOfBounds end.

Definition set_dough t c : cookie_table := CookieTable c (entry_heap t) (global t) (by_application t).
Definition set_heap t h : cookie_table := CookieTable (cookie_dough t) h (global t) (by_application t).
Definition set_tables t g ap : cookie_table := CookieTable (cookie_dough t) (entry_heap t) g ap.

Definition lookup_cookie_entry_by_cookie t c : res (option positive) :=
  lookup_hash_entry (H := cookie_key) None (global t) c.

Definition lookup_cookie_entry_by_application t c (name : bytes) : res (option positive) :=
  lookup_hash_entry (H := application_key) None (by_application t) (ApplicationEntry c (copy_service_name name) 0).

(** The loop of [generate_cookie]; each turn finds another entry. *)
Fixpoint generate_cookie_loop (fuel : nat) t (initial_value : Z) : res cookie_table :=
  match fuel with
  | O => Fault OutOfFuel
  | S fuel =>
    let* entry := lookup_cookie_entry_by_cookie t (cookie_dough t) in
    match entry with
    | None => Ok t
    | Some _ =>
      let t := set_dough t (if negb (cookie_dough t =? INVALID_COOKIE - 1) then cookie_dough t + 1 else 1) in
      if initial_value =? cookie_dough t then Ok (set_dough t RESERVED_COOKIE)
      else generate_cookie_loop fuel t initial_value
    end
  end.

Definition generate_cookie t : res (Z * cookie_table) :=
  let initial_value := if negb (cookie_dough t =? INVALID_COOKIE - 1) then cookie_dough t + 1 else 1 in
  let t := set_dough t initial_value in
  let* t := generate_cookie_loop (S (size (entry_heap t))) t initial_value in
  Ok (cookie_dough t, t).

Definition allocate_cookie_entry t (original_cookie : Z) (name : bytes) (fl now : Z) : res (positive * cookie_table) :=
  let* (c, t) := generate_cookie t in
  let a := fresh (dom (entry_heap t)) in
  let e := CookieEntry c (ApplicationEntry original_cookie (copy_service_name name) fl) 1 (now + COOKIE_ENTRY_LIFETIME) in
  Ok (a, set_heap t (<[a := e]> (entry_heap t))).

Definition free_cookie_entry t a : cookie_table := set_heap t (delete a (entry_heap t)).

Definition init_cookie_table (dough : Z) : cookie_table :=
  CookieTable dough ∅ (create_hash_with_size BUCKETS_SIZE) (create_hash_with_size BUCKETS_SIZE).

Definition free_cookie_table_walker (key : Z) (value : option positive) h : cookie_heap :=
  match value with Some a => delete a h | None => h end.

Definition finalize_cookie_table t : res cookie_table :=
  let* h := foreach_hash (global t) free_cookie_table_walker (entry_heap t) in
  let* g := delete_hash (global t) in
  let* ap := delete_hash (by_application t) in
  Ok (set_tables (set_heap t h) g ap).

(** Both tables forget the entry. *)
Definition remove_cookie_entry t e : res cookie_table :=
  let* (_, g) := delete_hash_entry (H := cookie_key) None (global t) (cookie e) in
  let* (_, ap) := delete_hash_entry (H := application_key) None (by_application t) (application e) in
  Ok (set_tables t g ap).

Definition delete_cookie_entry t a : res cookie_table :=
  let* e := load (entry_heap t) a in
  if 1 <? reference_count e then
    Ok (set_heap t (<[a := CookieEntry (cookie e) (application e) (reference_count e - 1) (expire_at e)]> (entry_heap t)))
  else
    let* t := remove_cookie_entry t e in
    Ok (free_cookie_entry t a).

(** One more flow of an application that has an entry. *)
Definition count_flow e (fl now : Z) : cookie_entry :=
  let ap := application e in
  CookieEntry (cookie e) (ApplicationEntry (app_cookie ap) (service_name ap) (Z.lor (flags ap) fl))
    (reference_count e + 1) (now + COOKIE_ENTRY_LIFETIME).

(** Returns the cookie that the pointer returned points to. *)
Definition insert_cookie_entry t (original_cookie : Z) (name : bytes) (fl now : Z) : res (Z * cookie_table) :=
  let* p := lookup_cookie_entry_by_application t original_cookie name in
  match p with
  | Some a =>
    let* e := load (entry_heap t) a in
    if reference_count e =? INT_MAX then Fault SignedOverflow
    else Ok (cookie e, set_heap t (<[a := count_flow e fl now]> (entry_heap t)))
  | None =>
    let* (a, t) := allocate_cookie_entry t original_cookie name fl now in
    let* e := load (entry_heap t) a in
    let* conflict := lookup_cookie_entry_by_cookie t (cookie e) in
    let* t := match conflict with Some b => delete_cookie_entry t b | None => Ok t end in
    let* (_, g) := insert_hash_entry (H := cookie_key) None (global t) (cookie e) (Some a) in
    let* (_, ap) := insert_hash_entry (H := application_key) None (by_application t) (application e) (Some a) in
    Ok (cookie e, set_tables t g ap)
  end.

Definition age_cookie_entry t a (now : Z) : res cookie_table :=
  let* e := load (entry_heap t) a in
  if expire_at e <? now then
    let* t := remove_cookie_entry t e in
    Ok (free_cookie_entry t a)
  else Ok t.

(** Entries are deleted while the table is iterated. *)
Fixpoint age_loop (fuel : nat) t (iter : hash_iterator) (now : Z) : res cookie_table :=
  match fuel with
  | O => Fault OutOfFuel
  | S fuel =>
    let* (e, iter) := iterate_hash_next (global t) iter in
    match e with
    | None => Ok t
    | Some e =>
      let* t := match value e with Some a => age_cookie_entry t a now | None => Fault NullPointer end in
      age_loop fuel t iter now
    end
  end.

Definition age_cookie_table t (now : Z) : res cookie_table :=
  let* iter := init_hash_iterator (global t) in
  age_loop (S (size (entry_heap t))) t iter now.

(** * Specification: a map from cookies to entries *)

Definition app_id (ap : application_entry) : Z * bytes := (app_cookie ap, service_name ap).

Definition for_application c (name : bytes) e : Prop := app_id (application e) = (c, copy_service_name name).

Inductive cookie_call : Type :=
| Insert c (name : bytes) (fl now : Z)
| Delete c
| LookupCookie c
| LookupApplication c (name : bytes)
| Age (now : Z).

Inductive cookie_result : Type :=
| Cookie c
| Entry (e : option cookie_entry)
| Done.

Definition new_entry (x : Z) c (name : bytes) (fl now : Z) : cookie_entry :=
  CookieEntry x (ApplicationEntry c (copy_service_name name) fl) 1 (now + COOKIE_ENTRY_LIFETIME).

Definition uncount_flow e : cookie_entry :=
  CookieEntry (cookie e) (application e) (reference_count e - 1) (expire_at e).

Implicit Types (m : gmap Z cookie_entry).

(** A new application gets any cookie that no other has. *)
Inductive spec_step m : cookie_call -> cookie_result -> gmap Z cookie_entry -> Prop :=
| spec_insert_known c name fl now e :
    m !! cookie e = Some e -> for_application c name e ->
    spec_step m (Insert c name fl now) (Cookie (cookie e)) (<[cookie e := count_flow e fl now]> m)
| spec_insert_new c name fl now x :
    (forall k e, m !! k = Some e -> ~ for_application c name e) -> m !! x = None -> 0 < x < INVALID_COOKIE ->
    spec_step m (Insert c name fl now) (Cookie x) (<[x := new_entry x c name fl now]> m)
| spec_delete c :
    spec_step m (Delete c) (Entry (m !! c))
      (match m !! c with
       | Some e => if 1 <? reference_count e then <[c := uncount_flow e]> m else delete c m
       | None => m
       end)
| spec_lookup_cookie c : spec_step m (LookupCookie c) (Entry (m !! c)) m
| spec_lookup_application c name e :
    m !! cookie e = Some e -> for_application c name e -> spec_step m (LookupApplication c name) (Entry (Some e)) m
| spec_lookup_no_application c name :
    (forall k e, m !! k = Some e -> ~ for_application c name e) -> spec_step m (LookupApplication c name) (Entry None) m
| spec_age now : spec_step m (Age now) Done (filter (fun p => now <= expire_at p.2) m).

Inductive spec_steps m : list cookie_call -> list cookie_result -> gmap Z cookie_entry -> Prop :=
| spec_done : spec_steps m [] [] m
| spec_more call r m1 cs rs m2 :
    spec_step m call r m1 -> spec_steps m1 cs rs m2 -> spec_steps m (call :: cs) (r :: rs) m2.

(** The calls of the daemon. *)
Definition entry_of t (p : option positive) : res (option cookie_entry) :=
  match p with None => Ok None | Some a => let* e := load (entry_heap t) a in Ok (Some e) end.

Definition run_call t (call : cookie_call) : res (cookie_result * cookie_table) :=
  match call with
  | Insert c name fl now => let* (x, t) := insert_cookie_entry t c name fl now in Ok (Cookie x, t)
  | Delete c =>
    let* p := lookup_cookie_entry_by_cookie t c in
    let* entry := entry_of t p in
    let* t := match p with Some a => delete_cookie_entry t a | None => Ok t end in
    Ok (Entry entry, t)
  | LookupCookie c =>
    let* p := lookup_cookie_entry_by_cookie t c in
    let* entry := entry_of t p in
    Ok (Entry entry, t)
  | LookupApplication c name =>
    let* p := lookup_cookie_entry_by_application t c name in
    let* entry := entry_of t p in
    Ok (Entry entry, t)
  | Age now => let* t := age_cookie_table t now in Ok (Done, t)
  end.

Fixpoint run_calls t (cs : list cookie_call) : res (list cookie_result * cookie_table) :=
  match cs with
  | [] => Ok ([], t)
  | call :: cs =>
    let* (r, t) := run_call t call in
    let* (rs, t) := run_calls t cs in
    Ok (r :: rs, t)
  end.

(** * Invariant *)

Lemma compare_application_id x y : compare_application x y = bool_decide (app_id x = app_id y).
Proof.
  unfold compare_application, app_id. destruct (Z.eqb_spec (app_cookie x) (app_cookie y)) as [-> | Hc]; cbn [negb].
  - destruct (bool_decide_reflect (service_name x = service_name y)) as [-> | Hs]; cbn [negb]; symmetry.
    + by apply bool_decide_eq_true_2.
    + apply bool_decide_eq_false_2. congruence.
  - symmetry. apply bool_decide_eq_false_2. congruence.
Qed.

Lemma cookie_key_ok : @HashKeyOk Z cookie_key (fun _ => True).
Proof.
  apply (projection_key_ok (H := cookie_key) (fun x => x) hash_cookie_entry); [by intros; apply eqb_bool_decide | done |].
  intros k. apply hash_core_range.
Qed.

Lemma application_key_ok : @HashKeyOk application_entry application_key (fun _ => True).
Proof.
  apply (projection_key_ok (H := application_key) app_id (fun p => hash_core (host_encode 8 p.1)));
    [apply compare_application_id | done |].
  intros k. apply hash_core_range.
Qed.

#[local] Existing Instance cookie_key.
#[local] Existing Instance cookie_key_ok.
#[local] Existing Instance application_key.
#[local] Existing Instance application_key_ok.

Abbreviation wf_hash := (wf_table (ok := fun _ => True)).

(** The table holds [m]; at most [n] flows have been counted. *)
Record rep t m (n : Z) : Prop := {
  r_dough : 0 <= cookie_dough t < INVALID_COOKIE;
  r_map c e : m !! c = Some e <-> exists a, entry_heap t !! a = Some e /\ cookie e = c;
  r_cookie_inj a b e f : entry_heap t !! a = Some e -> entry_heap t !! b = Some f -> cookie e = cookie f -> a = b;
  r_app_inj a b e f : entry_heap t !! a = Some e -> entry_heap t !! b = Some f ->
    app_id (application e) = app_id (application f) -> a = b;
  r_global : wf_hash (global t);
  r_global_map c v : table_map (global t) c = Some v <->
    exists a e, v = Some a /\ entry_heap t !! a = Some e /\ cookie e = c;
  r_application : wf_hash (by_application t);
  r_application_map k v : table_map (by_application t) k = Some v <->
    exists a e, v = Some a /\ entry_heap t !! a = Some e /\ app_id (application e) = app_id k;
  r_count a e : entry_heap t !! a = Some e -> 1 <= reference_count e <= n;
  r_size : Z.of_nat (size (entry_heap t)) <= n
}.

Section Rep.
Context {t : cookie_table} {m : gmap Z cookie_entry} {n : Z} (H : rep t m n).

Lemma rep_lookup a e : entry_heap t !! a = Some e -> m !! cookie e = Some e.
Proof. intros Ha. apply (r_map _ _ _ H). by exists a. Qed.

Lemma rep_cookie c e : m !! c = Some e -> cookie e = c.
Proof. intros (a & _ & Hc)%(r_map _ _ _ H). done. Qed.

Lemma lookup_cookie_ok c :
  exists p, lookup_cookie_entry_by_cookie t c = Ok p /\
    match p with Some a => exists e, entry_heap t !! a = Some e /\ cookie e = c /\ m !! c = Some e | None => m !! c = None end.
Proof.
  unfold lookup_cookie_entry_by_cookie. rewrite (lookup_ok (ok := fun _ => True)) by apply (r_global _ _ _ H).
  destruct (table_map (global t) c) as [v |] eqn:E; cbn [default from_option].
  - apply (r_global_map _ _ _ H) in E as (a & e & -> & Ha & Hc). exists (Some a). split; [done |]. exists e.
    split_and!; [done | done |]. apply (r_map _ _ _ H). by exists a.
  - exists None. split; [done |]. destruct (m !! c) as [e |] eqn:F; [| done]. apply (r_map _ _ _ H) in F as (a & Ha & Hc).
    assert (table_map (global t) c = Some (Some a)); [| congruence]. apply (r_global_map _ _ _ H). by exists a, e.
Qed.

Lemma lookup_application_ok c name :
  exists p, lookup_cookie_entry_by_application t c name = Ok p /\
    match p with
    | Some a => exists e, entry_heap t !! a = Some e /\ for_application c name e
    | None => forall k e, m !! k = Some e -> ~ for_application c name e
    end.
Proof.
  unfold lookup_cookie_entry_by_application. rewrite (lookup_ok (ok := fun _ => True)) by apply (r_application _ _ _ H).
  set (k := ApplicationEntry c (copy_service_name name) 0).
  destruct (table_map (by_application t) k) as [v |] eqn:E; cbn [default from_option].
  - apply (r_application_map _ _ _ H) in E as (a & e & -> & Ha & Hc). exists (Some a). split; [done |]. by exists e.
  - exists None. split; [done |]. intros x e (a & Ha & _)%(r_map _ _ _ H) Hf.
    assert (table_map (by_application t) k = Some (Some a)); [| congruence]. apply (r_application_map _ _ _ H). by exists a, e.
Qed.

(** An entry keeps its cookie and its application. *)
Lemma update_rep a e e' n' :
  entry_heap t !! a = Some e -> cookie e' = cookie e -> app_id (application e') = app_id (application e) ->
  1 <= reference_count e' <= n' -> n <= n' ->
  rep (set_heap t (<[a := e']> (entry_heap t))) (<[cookie e := e']> m) n'.
Proof.
  intros Ha Hc Hap Hn Hn'.
  assert (G : forall b f, <[a := e']> (entry_heap t) !! b = Some f ->
    exists f', entry_heap t !! b = Some f' /\ cookie f' = cookie f /\ app_id (application f') = app_id (application f)).
  { intros b f [[<- <-] | [Hb Hf]]%lookup_insert_Some; [by exists e | by exists f]. }
  assert (G' : forall b f, entry_heap t !! b = Some f ->
    exists f', <[a := e']> (entry_heap t) !! b = Some f' /\ cookie f' = cookie f /\ app_id (application f') = app_id (application f)).
  { intros b f Hf. destruct (decide (a = b)) as [<- |].
    - exists e'. rewrite lookup_insert_eq. by replace f with e by congruence.
    - exists f. by rewrite lookup_insert_ne. }
  split; cbn [set_heap cookie_dough entry_heap global by_application]; try apply H.
  - intros c f. rewrite lookup_insert_Some. split.
    + intros [[<- <-] | [Hne (b & Hb & Hcb)%(r_map _ _ _ H)]].
      * exists a. by rewrite lookup_insert_eq.
      * exists b. rewrite lookup_insert_ne; [done |]. intros <-. congruence.
    + intros (b & [[<- <-] | [Hb Hf]]%lookup_insert_Some & <-); [by left |]. right. split; [| by apply (rep_lookup b)].
      intros E. apply Hb. by apply (r_cookie_inj _ _ _ H a b e f).
  - intros b1 b2 f1 f2 (g1 & H1 & E1 & _)%G (g2 & H2 & E2 & _)%G E. apply (r_cookie_inj _ _ _ H b1 b2 g1 g2); congruence.
  - intros b1 b2 f1 f2 (g1 & H1 & _ & E1)%G (g2 & H2 & _ & E2)%G E. apply (r_app_inj _ _ _ H b1 b2 g1 g2); congruence.
  - intros c v. rewrite (r_global_map _ _ _ H). split; intros (b & f & -> & Hf & Ef); exists b.
    + destruct (G' b f Hf) as (f' & ? & ? & _). exists f'. split_and!; congruence.
    + destruct (G b f Hf) as (f' & ? & ? & _). exists f'. split_and!; congruence.
  - intros c v. rewrite (r_application_map _ _ _ H). split; intros (b & f & -> & Hf & Ef); exists b.
    + destruct (G' b f Hf) as (f' & ? & _ & ?). exists f'. split_and!; congruence.
    + destruct (G b f Hf) as (f' & ? & _ & ?). exists f'. split_and!; congruence.
  - intros b f [[<- <-] | [Hb Hf]]%lookup_insert_Some; [done |]. pose proof (r_count _ _ _ H b f Hf). lia.
  - rewrite map_size_insert_Some by (by rewrite Ha). pose proof (r_size _ _ _ H). lia.
Qed.

(** Both tables forget an entry, and it is freed. *)
Lemma remove_rep a e :
  entry_heap t !! a = Some e ->
  exists t' v, remove_cookie_entry t e = Ok t' /\ entry_heap t' = entry_heap t /\
    delete_hash_entry None (global t) (cookie e) = Ok (v, global t') /\
    rep (free_cookie_entry t' a) (delete (cookie e) m) n.
Proof.
  intros Ha. unfold remove_cookie_entry.
  destruct (delete_ok (ok := fun _ => True) None (global t) (cookie e) (r_global _ _ _ H) I) as (g & Hg & Hwg & _ & Hmg).
  destruct (delete_ok (ok := fun _ => True) None (by_application t) (application e) (r_application _ _ _ H) I) as (ap & Hap & Hwa & _ & Hma).
  rewrite Hg. bind_ok. rewrite Hap. bind_ok. eexists _, _. split; [done |]. split; [done |]. split; [reflexivity |].
  split; cbn [free_cookie_entry set_heap set_tables cookie_dough entry_heap global by_application]; try done; try apply H.
  - intros c f. rewrite lookup_delete_Some, (r_map _ _ _ H). split.
    + intros [Hne (b & Hb & Hc)]. exists b. split; [| done]. apply lookup_delete_Some. split; [| done]. intros <-. congruence.
    + intros (b & [Hne Hb]%lookup_delete_Some & Hc). split; [| by exists b]. intros E. apply Hne.
      by apply (r_cookie_inj _ _ _ H a b e f); congruence.
  - intros b1 b2 f1 f2 [_ H1]%lookup_delete_Some [_ H2]%lookup_delete_Some. by apply (r_cookie_inj _ _ _ H).
  - intros b1 b2 f1 f2 [_ H1]%lookup_delete_Some [_ H2]%lookup_delete_Some. by apply (r_app_inj _ _ _ H).
  - intros c v. rewrite Hmg. cbn [compare cookie_key]. unfold compare_cookie. destruct (Z.eqb_spec c (cookie e)) as [-> | Hc].
    + split; [done |]. intros (b & f & _ & [Hne Hb]%lookup_delete_Some & Ef). by destruct (Hne (r_cookie_inj _ _ _ H a b e f Ha Hb (eq_sym Ef))).
    + rewrite (r_global_map _ _ _ H). split; intros (b & f & -> & Hf & Ef); exists b, f; (split_and!; [done | | done]).
      * apply lookup_delete_Some. split; [| done]. intros <-. congruence.
      * by apply lookup_delete_Some in Hf as [_ Hf].
  - intros k v. rewrite Hma. cbn [compare application_key]. rewrite compare_application_id.
    destruct (bool_decide_reflect (app_id k = app_id (application e))) as [-> | Hk].
    + split; [done |]. intros (b & f & _ & [Hne Hb]%lookup_delete_Some & Ef). by destruct (Hne (r_app_inj _ _ _ H a b e f Ha Hb (eq_sym Ef))).
    + rewrite (r_application_map _ _ _ H). split; intros (b & f & -> & Hf & Ef); exists b, f; (split_and!; [done | | done]).
      * apply lookup_delete_Some. split; [| done]. intros <-. congruence.
      * by apply lookup_delete_Some in Hf as [_ Hf].
  - intros b f [_ Hf]%lookup_delete_Some. by apply (r_count _ _ _ H b).
  - rewrite map_size_delete_Some by (by rewrite Ha). pose proof (r_size _ _ _ H). lia.
Qed.
End Rep.

(** ** A cookie that is free *)

Definition cookies_count : Z := INVALID_COOKIE - 1.

(** The [k]-th cookie from [c] on; the last is followed by 1. *)
Definition candidate c (k : nat) : Z := (c - 1 + Z.of_nat k) mod cookies_count + 1.

Lemma candidate_range c k : 0 < candidate c k < INVALID_COOKIE.
Proof.
  unfold candidate. pose proof (Z.mod_pos_bound (c - 1 + Z.of_nat k) cookies_count eq_refl). unfold cookies_count in *. lia.
Qed.

Lemma candidate_next c k :
  (if negb (candidate c k =? INVALID_COOKIE - 1) then candidate c k + 1 else 1) = candidate c (S k).
Proof.
  unfold candidate. set (x := c - 1 + Z.of_nat k). replace (c - 1 + Z.of_nat (S k)) with (x + 1) by lia.
  pose proof (Z.mod_pos_bound x cookies_count eq_refl) as Hx. fold cookies_count. rewrite if_negb.
  assert (E : (x + 1) mod cookies_count = (x mod cookies_count + 1) mod cookies_count) by by rewrite Zplus_mod_idemp_l.
  rewrite E. destruct (Z.eqb_spec (x mod cookies_count + 1) cookies_count) as [-> | Hne].
  - by rewrite Z.mod_same.
  - rewrite (Z.mod_small (x mod cookies_count + 1)) by lia. done.
Qed.

Lemma cookie_candidate_0 c : 0 < c < INVALID_COOKIE -> candidate c 0 = c.
Proof. intros Hc. unfold candidate. rewrite Z.add_0_r, Z.mod_small by (unfold cookies_count; lia). lia. Qed.

Lemma cookie_candidate_inj c i j :
  Z.of_nat i < cookies_count -> Z.of_nat j < cookies_count -> candidate c i = candidate c j -> i = j.
Proof.
  intros Hi Hj E. unfold candidate in E.
  assert (E1 : Z.of_nat i mod cookies_count = Z.of_nat j mod cookies_count).
  { replace (Z.of_nat i) with (c - 1 + Z.of_nat i - (c - 1)) by lia. replace (Z.of_nat j) with (c - 1 + Z.of_nat j - (c - 1)) by lia.
    rewrite (Zminus_mod (c - 1 + Z.of_nat i)), (Zminus_mod (c - 1 + Z.of_nat j)).
    by replace ((c - 1 + Z.of_nat i) mod cookies_count) with ((c - 1 + Z.of_nat j) mod cookies_count) by lia. }
  rewrite !Z.mod_small in E1 by lia. lia.
Qed.

Section Generate.
Context {t : cookie_table} {m : gmap Z cookie_entry} {n : Z} (H : rep t m n).

Lemma generate_cookie_loop_ok fuel c0 k :
  0 < c0 < INVALID_COOKIE -> Z.of_nat k + Z.of_nat fuel < cookies_count ->
  (exists x, generate_cookie_loop fuel (set_dough t (candidate c0 k)) c0 = Ok (set_dough t x) /\ m !! x = None /\ 0 < x < INVALID_COOKIE) \/
  (forall j, (k <= j < k + fuel)%nat -> is_Some (m !! candidate c0 j)).
Proof.
  intros Hc0. revert k. induction fuel as [| fuel IH]; intros k Hk; [right; lia |]. cbn [generate_cookie_loop].
  destruct (lookup_cookie_ok H (candidate c0 k)) as (p & Hl & Hp).
  change (lookup_cookie_entry_by_cookie (set_dough t (candidate c0 k)) (cookie_dough (set_dough t (candidate c0 k))))
    with (lookup_cookie_entry_by_cookie t (candidate c0 k)). rewrite Hl. bind_ok.
  change (cookie_dough (set_dough t (candidate c0 k))) with (candidate c0 k).
  destruct p as [a |]; [| left; exists (candidate c0 k); split_and!; [done | done | apply candidate_range ..]].
  rewrite candidate_next. destruct Hp as (e & _ & _ & He).
  change (set_dough (set_dough t (candidate c0 k)) (candidate c0 (S k))) with (set_dough t (candidate c0 (S k))).
  change (cookie_dough (set_dough t (candidate c0 (S k)))) with (candidate c0 (S k)).
  destruct (Z.eqb_spec c0 (candidate c0 (S k))) as [E |].
  - rewrite <- (cookie_candidate_0 c0 Hc0) in E at 1. apply cookie_candidate_inj in E; lia.
  - destruct (IH (S k)) as [? | Hall]; [lia | by left |]. right. intros j Hj.
    destruct (decide (j = k)) as [-> |]; [by exists e | apply Hall; lia].
Qed.

Lemma generate_cookie_ok :
  n < cookies_count - 1 ->
  exists x, generate_cookie t = Ok (x, set_dough t x) /\ m !! x = None /\ 0 < x < INVALID_COOKIE.
Proof.
  intros Hn. pose proof (r_dough _ _ _ H) as Hd. pose proof (r_size _ _ _ H) as Hs. unfold generate_cookie. rewrite if_negb.
  set (c0 := if cookie_dough t =? INVALID_COOKIE - 1 then 1 else cookie_dough t + 1).
  assert (Hc0 : 0 < c0 < INVALID_COOKIE).
  { unfold c0. destruct (Z.eqb_spec (cookie_dough t) (INVALID_COOKIE - 1)); [done | lia]. }
  destruct (generate_cookie_loop_ok (S (size (entry_heap t))) c0 0 Hc0) as [(x & Hx & Hm) | Hall]; [lia | |].
  - rewrite (cookie_candidate_0 c0 Hc0) in Hx. cbn [entry_heap set_dough]. rewrite Hx. bind_ok. by exists x.
  - exfalso. set (ids := map (candidate c0) (seq 0 (S (size (entry_heap t))))).
    set (used := map (fun p => cookie p.2) (map_to_list (entry_heap t))).
    assert (Hnd : NoDup ids).
    { unfold ids. apply NoDup_fmap_2_strong; [| apply NoDup_seq]. intros i j Hi Hj. apply elem_of_seq in Hi, Hj.
      apply cookie_candidate_inj; lia. }
    assert (Hin : forall x, x ∈ ids -> x ∈ used).
    { intros x (k & -> & Hk%elem_of_seq)%list_elem_of_fmap. destruct (Hall k ltac:(lia)) as [e He].
      apply (r_map _ _ _ H) in He as (a & Ha & Hc). apply list_elem_of_fmap. exists (a, e). split; [done |].
      by apply elem_of_map_to_list. }
    pose proof (submseteq_length _ _ (NoDup_submseteq _ _ Hnd Hin)) as Hle. unfold ids, used in Hle.
    rewrite !length_map, length_seq, length_map_to_list in Hle. lia.
Qed.

Lemma dough_rep x : 0 <= x < INVALID_COOKIE -> rep (set_dough t x) m n.
Proof. intros Hx. destruct H. by split. Qed.
End Generate.

(** A new entry, in both tables. *)
Lemma put_rep t m n a x c name fl now :
  rep t m n -> entry_heap t !! a = None -> m !! x = None -> 0 < x < INVALID_COOKIE ->
  (forall k e, m !! k = Some e -> ~ for_application c name e) ->
  let e := new_entry x c name fl now in
  exists v1 g v2 ap, insert_hash_entry None (global t) x (Some a) = Ok (v1, g) /\
    insert_hash_entry None (by_application t) (application e) (Some a) = Ok (v2, ap) /\
    rep (set_tables (set_heap t (<[a := e]> (entry_heap t))) g ap) (<[x := e]> m) (n + 1).
Proof.
  intros H Ha Hx Hrx Hap e.
  destruct (insert_ok (ok := fun _ => True) None (global t) x (Some a) (r_global _ _ _ H) I) as (g & Hg & Hwg & _ & Hmg).
  destruct (insert_ok (ok := fun _ => True) None (by_application t) (application e) (Some a) (r_application _ _ _ H) I) as (ap & Hpa & Hwa & _ & Hma).
  assert (Hnc : forall b f, entry_heap t !! b = Some f -> cookie f <> x).
  { intros b f Hb E. pose proof (rep_lookup H b f Hb). congruence. }
  assert (Hna : forall b f, entry_heap t !! b = Some f -> app_id (application f) <> app_id (application e)).
  { intros b f Hb E. apply (Hap (cookie f) f); [by apply (rep_lookup H b) | exact E]. }
  assert (Hn : forall b f, entry_heap t !! b = Some f -> b <> a) by (intros b f Hb ->; congruence).
  eexists _, g, _, ap. split; [exact Hg |]. split; [exact Hpa |].
  split; cbn [set_heap set_tables cookie_dough entry_heap global by_application]; try done; try apply H.
  - intros k f. rewrite lookup_insert_Some, (r_map _ _ _ H). split.
    + intros [[<- <-] | [Hne (b & Hb & Hc)]]; [exists a; by rewrite lookup_insert_eq |]. exists b.
      rewrite lookup_insert_ne by (intros <-; by apply (Hn a f)). done.
    + intros (b & [[<- <-] | [Hb Hf]]%lookup_insert_Some & <-); [by left |]. right. split; [| by exists b].
      intros E. by apply (Hnc b f).
  - intros b1 b2 f1 f2 [[<- <-] | [Hb1 H1]]%lookup_insert_Some [[<- <-] | [Hb2 H2]]%lookup_insert_Some E; try done.
    + by destruct (Hnc b2 f2).
    + by destruct (Hnc b1 f1).
    + by apply (r_cookie_inj _ _ _ H b1 b2 f1 f2).
  - intros b1 b2 f1 f2 [[<- <-] | [Hb1 H1]]%lookup_insert_Some [[<- <-] | [Hb2 H2]]%lookup_insert_Some E; try done.
    + by destruct (Hna b2 f2).
    + by destruct (Hna b1 f1).
    + by apply (r_app_inj _ _ _ H b1 b2 f1 f2).
  - intros k v. rewrite Hmg. cbn [compare cookie_key]. unfold compare_cookie. destruct (Z.eqb_spec k x) as [-> | Hk].
    + split.
      * intros [= <-]. exists a, e. by rewrite lookup_insert_eq.
      * intros (b & f & -> & [[<- <-] | [Hb Hf]]%lookup_insert_Some & Ef); [done |]. by destruct (Hnc b f).
    + rewrite (r_global_map _ _ _ H). split; intros (b & f & -> & Hf & Ef); exists b, f; (split_and!; [done | | done]).
      * rewrite lookup_insert_ne; [done |]. intros <-. by apply (Hn a f).
      * apply lookup_insert_Some in Hf as [[<- <-] | [_ Hf]]; [by cbn in Ef | done].
  - intros k v. rewrite Hma. cbn [compare application_key]. rewrite compare_application_id.
    destruct (bool_decide_reflect (app_id k = app_id (application e))) as [Ek | Hk].
    + split.
      * intros [= <-]. exists a, e. by rewrite lookup_insert_eq.
      * intros (b & f & -> & [[<- <-] | [Hb Hf]]%lookup_insert_Some & Ef); [done |]. destruct (Hna b f Hf). congruence.
    + rewrite (r_application_map _ _ _ H). split; intros (b & f & -> & Hf & Ef); exists b, f; (split_and!; [done | | done]).
      * rewrite lookup_insert_ne; [done |]. intros <-. by apply (Hn a f).
      * apply lookup_insert_Some in Hf as [[<- <-] | [_ Hf]]; [by rewrite Ef in Hk | done].
  - intros b f [[<- <-] | [Hb Hf]]%lookup_insert_Some.
    + cbn. pose proof (r_size _ _ _ H). lia.
    + pose proof (r_count _ _ _ H b f Hf). lia.
  - rewrite map_size_insert_None by done. pose proof (r_size _ _ _ H). lia.
Qed.

Lemma rep_weaken t m n n' : rep t m n -> n <= n' -> rep t m n'.
Proof.
  intros H Hn. destruct H. split; try done; [| lia]. intros a e Ha. pose proof (r_count0 a e Ha). lia.
Qed.

(** ** Operations *)

Lemma load_entry_ok h a e : h !! a = Some e -> load h a = Ok e.
Proof. intros Ha. unfold load. by rewrite Ha. Qed.

Lemma insert_step t m n c name fl now :
  rep t m n -> n < INT_MAX ->
  exists x t' m', insert_cookie_entry t c name fl now = Ok (x, t') /\
    spec_step m (Insert c name fl now) (Cookie x) m' /\ rep t' m' (n + 1).
Proof.
  intros H Hn. unfold insert_cookie_entry. destruct (lookup_application_ok H c name) as (p & -> & Hp). bind_ok. destruct p as [a |].
  - destruct Hp as (e & Ha & Hf). rewrite (load_entry_ok _ _ _ Ha). bind_ok. pose proof (r_count _ _ _ H a e Ha) as Hc.
    replace (reference_count e =? INT_MAX) with false by lia. eexists _, _, _. split; [done |]. split.
    + apply spec_insert_known; [by apply (rep_lookup H a) | done].
    + apply (update_rep H a e); [done | done | done | cbn; lia | lia].
  - unfold allocate_cookie_entry. destruct (generate_cookie_ok H) as (x & -> & Hm & Hx); [unfold INT_MAX, cookies_count, INVALID_COOKIE in *; lia |].
    bind_ok. pose proof (dough_rep H x ltac:(lia)) as H1. cbn [set_heap entry_heap set_dough].
    set (a := fresh (dom (entry_heap t))).
    assert (Ha : entry_heap t !! a = None) by (apply not_elem_of_dom, is_fresh).
    rewrite (load_entry_ok _ a (new_entry x c name fl now)) by apply lookup_insert_eq. bind_ok.
    destruct (lookup_cookie_ok H1 x) as (p & Hl & Hp1). cbn [cookie new_entry].
    match goal with |- context [lookup_cookie_entry_by_cookie ?u x] => change (lookup_cookie_entry_by_cookie u x) with (lookup_cookie_entry_by_cookie (set_dough t x) x) end.
    rewrite Hl. bind_ok. destruct p as [b |]; [destruct Hp1 as (? & _ & _ & ?); congruence |]. bind_ok.
    destruct (put_rep (set_dough t x) m n a x c name fl now H1 Ha Hm Hx Hp) as (v1 & g & v2 & ap & Hg & Hap & H2).
    cbn [global by_application set_dough set_heap application new_entry cookie] in *. rewrite Hg. bind_ok. rewrite Hap. bind_ok.
    eexists _, _, _. split; [done |]. split; [by apply spec_insert_new | exact H2].
Qed.

Lemma delete_step t m n a e :
  rep t m n -> entry_heap t !! a = Some e ->
  exists t', delete_cookie_entry t a = Ok t' /\
    rep t' (if 1 <? reference_count e then <[cookie e := uncount_flow e]> m else delete (cookie e) m) n.
Proof.
  intros H Ha. unfold delete_cookie_entry. rewrite (load_entry_ok _ _ _ Ha). bind_ok. pose proof (r_count _ _ _ H a e Ha) as Hc.
  destruct (Z.ltb_spec 1 (reference_count e)).
  - eexists. split; [done |]. apply (update_rep H a e); [done | done | done | cbn; lia | lia].
  - destruct (remove_rep H a e Ha) as (t' & v & -> & _ & _ & H'). bind_ok. by exists (free_cookie_entry t' a).
Qed.

(** *** Aging *)

Definition held t (he : hash_entry Z (option positive)) : Prop :=
  exists a e, value he = Some a /\ entry_heap t !! a = Some e /\ cookie e = key he.

Lemma held_visited t m n : rep t m n -> Forall (held t) (visited (global t)).
Proof.
  intros H. apply Forall_forall. intros he Hin.
  assert (Hm : table_map (global t) (key he) = Some (value he)).
  { apply (visited_map (ok := fun _ => True) _ _ _ (r_global _ _ _ H) I). exists he. split; [done |]. split; [| done].
    apply Z.eqb_refl. }
  apply (r_global_map _ _ _ H) in Hm as (a & e & Hv & Ha & Hc). by exists a, e.
Qed.

Lemma distinct_nodup (l : list (hash_entry Z (option positive))) : distinct l -> NoDup (key <$> l).
Proof.
  induction l as [| he l IH]; [intros _; apply NoDup_nil_2 |]. intros [Hd Hl]. cbn [fmap list_fmap]. apply NoDup_cons.
  split; [| by apply IH]. intros (he' & E & Hin)%list_elem_of_fmap. rewrite Forall_forall in Hd.
  apply Hd in Hin. cbn in Hin. unfold compare_cookie in Hin. by rewrite E, Z.eqb_refl in Hin.
Qed.

Lemma visited_fits t m n : rep t m n -> (List.length (visited (global t)) <= size (entry_heap t))%nat.
Proof.
  intros H. pose proof (distinct_nodup _ (visited_distinct (ok := fun _ => True) _ (r_global _ _ _ H))) as Hnd.
  pose proof (held_visited t m n H) as Hh. rewrite Forall_forall in Hh.
  set (used := map (fun p => cookie p.2) (map_to_list (entry_heap t))).
  assert (Hin : forall x, x ∈ key <$> visited (global t) -> x ∈ used).
  { intros x (he & -> & Hin)%list_elem_of_fmap. destruct (Hh he Hin) as (a & e & _ & Ha & <-).
    apply list_elem_of_fmap. exists (a, e). split; [done |]. by apply elem_of_map_to_list. }
  pose proof (submseteq_length _ _ (NoDup_submseteq _ _ Hnd Hin)) as Hle. unfold used in Hle.
  by rewrite length_fmap, length_map, length_map_to_list in Hle.
Qed.

Lemma age_loop_ok fuel t m n iter now l :
  rep t m n -> iterating (ok := fun _ => True) (global t) iter -> remaining (global t) iter = l ->
  Forall (held t) l -> NoDup (key <$> l) -> (List.length l < fuel)%nat ->
  exists t' m', age_loop fuel t iter now = Ok t' /\ rep t' m' n /\
    forall c e, m' !! c = Some e <-> m !! c = Some e /\ (c ∈ key <$> l -> now <= expire_at e).
Proof.
  revert t m iter l. induction fuel as [| fuel IH]; intros t m iter l H Hit Hr Hl Hnd Hf; [lia |]. cbn [age_loop].
  destruct (iterate_next_ok (global t) iter (r_global _ _ _ H) Hit) as (he & iter' & -> & Hit' & Hhe). bind_ok.
  destruct he as [he |].
  2: { rewrite <- Hr. exists t, m. split_and!; [done | done |]. intros c e. rewrite Hhe.
       split; [| by intros [? _]]. intros Hm. split; [done |]. by intros ?%not_elem_of_nil. }
  destruct Hhe as (Hr' & _ & p & Hp & Hs). rewrite Hr in Hr'. subst l. rewrite Hr' in Hl, Hnd, Hf |- *.
  apply Forall_cons in Hl as [(a & e & Hv & Ha & Hc) Hl]. cbn [fmap list_fmap] in Hnd. apply NoDup_cons in Hnd as [Hni Hnd].
  cbn [List.length] in Hf. rewrite Hv. unfold age_cookie_entry. rewrite (load_entry_ok _ _ _ Ha). bind_ok.
  pose proof (rep_lookup H a e Ha) as Hme. rewrite Hc in Hme.
  destruct (Z.ltb_spec (expire_at e) now) as [Hexp | Hexp].
  - destruct (remove_rep H a e Ha) as (t1 & v & -> & Hheap & Hdel & H1). bind_ok. rewrite Hc in *.
    destruct (delete_iterating (ok := fun _ => True) None (global t) (key he) v (global t1) iter' p
      (r_global _ _ _ H) (r_global _ _ _ H1) Hit' Hp Hs Hdel) as [Hit1 Hr1].
    destruct (IH (free_cookie_entry t1 a) (delete (key he) m) iter' (remaining (global t) iter') H1 Hit1 Hr1) as (t2 & m2 & -> & H2 & Hm2).
    + rewrite Forall_forall in Hl |- *. intros he' Hin. destruct (Hl he' Hin) as (b & f & Hvb & Hb & Hcb). exists b, f.
      split_and!; [done | | done]. cbn [free_cookie_entry set_heap entry_heap]. rewrite Hheap. apply lookup_delete_Some. split; [| done].
      intros <-. apply Hni. replace (key he) with (key he') by congruence. by apply list_elem_of_fmap_2.
    + done.
    + lia.
    + exists t2, m2. split_and!; [done | done |]. intros c f. rewrite Hm2, lookup_delete_Some. cbn [fmap list_fmap].
      rewrite elem_of_cons. split.
      * intros [[Hne Hf'] Hk]. split; [done |]. intros [-> | Hin]; [done | by apply Hk].
      * intros [Hf' Hk]. assert (key he <> c); [| split_and!; [done | done | tauto]]. intros <-.
        assert (f = e) as -> by congruence. specialize (Hk (or_introl eq_refl)). lia.
  - bind_ok. destruct (IH t m iter' (remaining (global t) iter') H Hit' eq_refl Hl Hnd) as (t2 & m2 & -> & H2 & Hm2); [lia |].
    exists t2, m2. split_and!; [done | done |]. intros c f. rewrite Hm2. cbn [fmap list_fmap]. rewrite elem_of_cons. split.
    + intros [Hf' Hk]. split; [done |]. intros [-> | Hin]; [| by apply Hk]. assert (f = e) as -> by congruence. lia.
    + intros [Hf' Hk]. split; [done | tauto].
Qed.

Lemma age_step t m n now :
  rep t m n -> exists t', age_cookie_table t now = Ok t' /\ rep t' (filter (fun p => now <= expire_at p.2) m) n.
Proof.
  intros H. unfold age_cookie_table.
  destruct (init_iterating (ok := fun _ => True) (global t) (r_global _ _ _ H)) as (iter & -> & Hit & Hr). bind_ok.
  pose proof (visited_fits t m n H) as Hfit.
  destruct (age_loop_ok (S (size (entry_heap t))) t m n iter now _ H Hit Hr (held_visited t m n H)) as (t' & m' & -> & H' & Hm').
  - apply distinct_nodup, (visited_distinct (ok := fun _ => True)), (r_global _ _ _ H).
  - lia.
  - exists t'. split; [done |]. assert (m' = filter (fun p => now <= expire_at p.2) m) as <-; [| done].
    apply map_eq. intros c. apply option_eq. intros e. rewrite Hm', map_lookup_filter_Some. cbn [snd].
    split; intros [Hc Hk]; (split; [done |]).
    + apply Hk. apply (r_map _ _ _ H) in Hc as (a & Ha & Hca).
      assert (Ht : table_map (global t) c = Some (Some a)) by (apply (r_global_map _ _ _ H); by exists a, e).
      apply (visited_map (ok := fun _ => True) _ _ _ (r_global _ _ _ H) I) in Ht as (he & Hin & E & _).
      cbn in E. unfold compare_cookie in E. apply Z.eqb_eq in E as ->. by apply list_elem_of_fmap_2.
    + done.
Qed.

(** ** Calls *)

Definition is_insert (call : cookie_call) : bool := match call with Insert _ _ _ _ => true | _ => false end.
Definition inserts (cs : list cookie_call) : Z := Z.of_nat (List.length (List.filter is_insert cs)).

Lemma cookie_inserts_cons call cs : inserts (call :: cs) = inserts [call] + inserts cs.
Proof. unfold inserts. cbn. destruct (is_insert call); cbn [List.length]; lia. Qed.

Lemma run_cookie_call_ok t m n call :
  rep t m n -> n + inserts [call] <= INT_MAX ->
  exists r t' m', run_call t call = Ok (r, t') /\ spec_step m call r m' /\ rep t' m' (n + inserts [call]).
Proof.
  intros H Hn. destruct call as [c name fl now | c | c | c name | now]; cbn [run_call].
  - destruct (insert_step t m n c name fl now H) as (x & t' & m' & -> & Hs & H'); [change (inserts [Insert c name fl now]) with 1 in Hn; lia |]. bind_ok.
    eexists _, _, _. split; [done |]. by split.
  - destruct (lookup_cookie_ok H c) as (p & -> & Hp). bind_ok. rewrite Z.add_0_r. pose proof (spec_delete m c) as Hs. destruct p as [a |]; cbn [entry_of].
    + destruct Hp as (e & Ha & Hc & Hm). rewrite (load_entry_ok _ _ _ Ha). bind_ok. destruct (delete_step t m n a e H Ha) as (t' & -> & H'). bind_ok.
      rewrite Hm in Hs. rewrite Hc in H'. eexists _, _, _. split; [done |]. by split.
    + bind_ok. rewrite Hp in Hs. eexists _, _, _. split; [done |]. by split.
  - destruct (lookup_cookie_ok H c) as (p & -> & Hp). bind_ok. rewrite Z.add_0_r. pose proof (spec_lookup_cookie m c) as Hs. destruct p as [a |]; cbn [entry_of].
    + destruct Hp as (e & Ha & Hc & Hm). rewrite (load_entry_ok _ _ _ Ha). bind_ok. rewrite Hm in Hs. eexists _, _, _. split; [done |]. by split.
    + bind_ok. rewrite Hp in Hs. eexists _, _, _. split; [done |]. by split.
  - destruct (lookup_application_ok H c name) as (p & -> & Hp). bind_ok. rewrite Z.add_0_r. destruct p as [a |]; cbn [entry_of].
    + destruct Hp as (e & Ha & Hf). rewrite (load_entry_ok _ _ _ Ha). bind_ok. eexists _, _, _. split; [done |]. split; [| done].
      apply spec_lookup_application; [by apply (rep_lookup H a) | done].
    + bind_ok. eexists _, _, _. split; [done |]. split; [| done]. by apply spec_lookup_no_application.
  - destruct (age_step t m n now H) as (t' & -> & H'). bind_ok. rewrite Z.add_0_r. eexists _, _, _. split; [done |]. split; [apply spec_age | done].
Qed.

Lemma run_cookie_calls_ok t m n cs :
  rep t m n -> n + inserts cs <= INT_MAX ->
  exists rs t' m', run_calls t cs = Ok (rs, t') /\ spec_steps m cs rs m' /\ rep t' m' (n + inserts cs).
Proof.
  revert t m n. induction cs as [| call cs IH]; intros t m n H Hn; cbn [run_calls].
  - exists [], t, m. rewrite Z.add_0_r. split_and!; [done | constructor | done].
  - rewrite cookie_inserts_cons, Z.add_assoc in *. assert (0 <= inserts cs) by (unfold inserts; lia).
    destruct (run_cookie_call_ok t m n call H) as (r & t1 & m1 & -> & Hs & H1); [lia |]. bind_ok.
    destruct (IH t1 m1 _ H1 Hn) as (rs & t2 & m2 & -> & Hs2 & H2). bind_ok.
    eexists _, _, _. split; [done |]. split; [by econstructor | done].
Qed.

Lemma init_rep dough : 0 <= dough < INVALID_COOKIE -> rep (init_cookie_table dough) ∅ 0.
Proof.
  intros Hd. unfold init_cookie_table.
  destruct (create_ok (K := Z) (V := option positive) (ok := fun _ => True) BUCKETS_SIZE eq_refl) as [Hg Hgm].
  destruct (create_ok (K := application_entry) (V := option positive) (ok := fun _ => True) BUCKETS_SIZE eq_refl) as [Ha Ham].
  revert Hg Hgm Ha Ham. generalize (create_hash_with_size (K := Z) (V := option positive) BUCKETS_SIZE),
    (create_hash_with_size (K := application_entry) (V := option positive) BUCKETS_SIZE).
  intros g ap Hg Hgm Ha Ham. split; cbn [cookie_dough entry_heap global by_application]; try done.
  - intros c e. split; [done |]. by intros (a & ? & _).
  - intros c v. rewrite Hgm. split; [done |]. by intros (a & e & _ & ? & _).
  - intros c v. rewrite Ham. split; [done |]. by intros (a & e & _ & ? & _).
Qed.

Lemma run_cookie_calls_app t cs ds :
  run_calls t (cs ++ ds) = let* (rs, t) := run_calls t cs in let* (ss, t) := run_calls t ds in Ok (rs ++ ss, t).
Proof.
  revert t. induction cs as [| call cs IH]; intros t; cbn [run_calls app].
  - bind_ok. by destruct (run_calls t ds) as [[] |].
  - destruct (run_call t call) as [[r t1] |]; [| done]. cbn [bind]. rewrite IH.
    destruct (run_calls t1 cs) as [[rs t2] |]; [| done]. cbn [bind].
    by destruct (run_calls t2 ds) as [[ss t3] |].
Qed.

Lemma inserts_app cs ds : inserts (cs ++ ds) = inserts cs + inserts ds.
Proof. induction cs as [| call cs IH]; [done |]. cbn [app]. rewrite cookie_inserts_cons, IH, (cookie_inserts_cons call cs). lia. Qed.

(** ** Finalization *)

Lemma finalize_cookies_ok t m n :
  rep t m n -> exists t', finalize_cookie_table t = Ok t' /\ entry_heap t' = ∅ /\
    nonempty_bucket_index (global t') = [] /\ nonempty_bucket_index (by_application t') = [].
Proof.
  intros H. unfold finalize_cookie_table, foreach_hash.
  rewrite (HashTable.foreach_loop_ok (ok := fun _ => True)); [| apply (r_global _ _ _ H) | apply Forall_forall; tauto]. bind_ok.
  destruct (delete_hash_ok (global t)) as (g & -> & Hg & _); [apply (r_global _ _ _ H) |]. bind_ok.
  destruct (delete_hash_ok (by_application t)) as (ap & -> & Ha & _); [apply (r_application _ _ _ H) |]. bind_ok.
  eexists. split; [done |]. cbn [set_tables set_heap entry_heap global by_application]. split_and!; [| done | done].
  fold (visited (global t)). apply map_empty. intros a.
  assert (G : forall (l : list (hash_entry Z (option positive))) h e, foldl (fun s he => free_cookie_table_walker (key he) (value he) s) h l !! a = Some e ->
    h !! a = Some e /\ forall he, he ∈ l -> value he <> Some a).
  { induction l as [| he l IH]; intros h e Hl; cbn [foldl] in Hl; [split; [done | by intros he ?%not_elem_of_nil] |].
    apply IH in Hl as [Hh Hne]. unfold free_cookie_table_walker in Hh. split.
    - destruct (value he); [by apply lookup_delete_Some in Hh as [_ ?] | done].
    - intros he' [-> | Hin]%elem_of_cons; [| by apply Hne]. intros E. rewrite E in Hh. by rewrite lookup_delete_eq in Hh. }
  match goal with |- ?x = None => destruct x as [e |] eqn:E; [| done] end. apply G in E as [Ha' Hne]. exfalso.
  assert (Ht : table_map (global t) (cookie e) = Some (Some a)) by (apply (r_global_map _ _ _ H); by exists a, e).
  apply (visited_map (ok := fun _ => True) _ _ _ (r_global _ _ _ H) I) in Ht as (he & Hin & _ & Ev). by apply (Hne he).
Qed.

(** ** An entry lasts *)

(** The entry of a flow of the application, made at [now] with the flags [fl]. *)
Definition serves c (name : bytes) (fl now : Z) e : Prop :=
  for_application c name e /\ Z.land (flags (application e)) fl = fl /\ now + COOKIE_ENTRY_LIFETIME <= expire_at e.

(** A call that leaves the entry of [x], made at [now], in the table. *)
Definition harmless (x now : Z) (call : cookie_call) : Prop :=
  match call with
  | Delete c => c <> x
  | Age now' => now' <= now + COOKIE_ENTRY_LIFETIME
  | Insert _ _ _ now' => now <= now'
  | _ => True
  end.

Lemma land_lor_keep (x y f : Z) : Z.land x f = f -> Z.land (Z.lor x y) f = f.
Proof.
  intros E. apply Z.bits_inj'. intros k Hk. apply (f_equal (fun z => Z.testbit z k)) in E.
  rewrite Z.land_spec in *. rewrite Z.lor_spec. destruct (Z.testbit x k), (Z.testbit f k); done || by rewrite andb_false_r.
Qed.

Lemma step_serves m call r m' x c name fl now e :
  spec_step m call r m' -> harmless x now call -> m !! x = Some e -> serves c name fl now e ->
  exists e', m' !! x = Some e' /\ serves c name fl now e'.
Proof.
  intros Hs Hh Hm (Hf & Hfl & Hx). destruct Hs as [c1 n1 f1 now1 e1 He1 Hf1 | c1 n1 f1 now1 x1 _ Hx1 _ | c1 | c1 | c1 n1 e1 _ _ | c1 n1 _ | now1];
    cbn [harmless] in Hh; try (by exists e).
  - destruct (decide (cookie e1 = x)) as [Ec | Hne]; [| exists e; by rewrite lookup_insert_ne].
    exists (count_flow e1 f1 now1). rewrite Ec, lookup_insert_eq. rewrite Ec, Hm in He1. injection He1 as <-. split; [done |].
    split_and!; [done | | cbn; lia]. by apply land_lor_keep.
  - exists e. rewrite lookup_insert_ne; [done |]. congruence.
  - exists e. destruct (m !! c1) as [e1 |]; [| done]. destruct (1 <? reference_count e1).
    + by rewrite lookup_insert_ne.
    + by rewrite lookup_delete_ne.
  - exists e. split; [| done]. apply map_lookup_filter_Some. split; [done |]. cbn. lia.
Qed.

Lemma steps_serve m cs rs m' x c name fl now e :
  spec_steps m cs rs m' -> Forall (harmless x now) cs -> m !! x = Some e -> serves c name fl now e ->
  exists e', m' !! x = Some e' /\ serves c name fl now e'.
Proof.
  intros Hs. revert e. induction Hs as [| m call r m1 cs rs m2 Hs _ IH]; intros e Hh Hm He; [by exists e |].
  apply Forall_cons in Hh as [Hh1 Hh]. destruct (step_serves _ _ _ _ _ _ _ _ _ _ Hs Hh1 Hm He) as (e1 & Hm1 & He1). by apply (IH e1).
Qed.

Lemma insert_serves m c name fl now x m' :
  spec_step m (Insert c name fl now) (Cookie x) m' -> exists e, m' !! x = Some e /\ serves c name fl now e.
Proof.
  intros Hs. remember (Insert c name fl now) as call eqn:Ec. remember (Cookie x) as r eqn:Er. destruct Hs; try done.
  - injection Ec as -> -> -> ->. injection Er as <-. eexists. rewrite lookup_insert_eq. split; [done |].
    split_and!; [done | | cbn; lia]. cbn. rewrite Z.lor_comm. apply land_lor_keep, Z.land_diag.
  - injection Ec as -> -> -> ->. injection Er as ->. eexists. rewrite lookup_insert_eq. split; [done |].
    split_and!; [done | | cbn; lia]. cbn. apply Z.land_diag.
Qed.

(** * Properties *)

(** C40. The cookie table is a map from cookies to entries: calls on a fresh
    table, at most [INT_MAX] insertions among them, never fail and return what
    the specification allows, whatever the hash tables do; aging deletes
    exactly the expired entries although it iterates the table it deletes
    from; finalization frees every entry. *)
Theorem cookie_table_refines dough cs :
  0 <= dough < INVALID_COOKIE -> inserts cs <= INT_MAX ->
  exists rs t m t', run_calls (init_cookie_table dough) cs = Ok (rs, t) /\ spec_steps ∅ cs rs m /\
    finalize_cookie_table t = Ok t' /\ entry_heap t' = ∅.
Proof.
  intros Hd Hn. destruct (run_cookie_calls_ok _ ∅ 0 cs (init_rep dough Hd)) as (rs & t & m & Hr & Hs & H); [lia |].
  destruct (finalize_cookies_ok t m _ H) as (t' & Hf & He & _). by exists rs, t, m, t'.
Qed.

(** The translation of cookies goes back: the cookie that a flow of an
    application gets finds, after any calls that neither delete it nor age it
    out, an entry with the cookie and the name of that application and the
    flags of that flow. *)
Theorem cookie_finds_application dough before c name fl now :
  0 <= dough < INVALID_COOKIE -> inserts before < INT_MAX ->
  exists rs x t, run_calls (init_cookie_table dough) (before ++ [Insert c name fl now]) = Ok (rs ++ [Cookie x], t) /\
    forall after, inserts before + 1 + inserts after <= INT_MAX -> Forall (harmless x now) after -> exists rs' t' e,
      run_calls t (after ++ [LookupCookie x]) = Ok (rs' ++ [Entry (Some e)], t') /\ serves c name fl now e.
Proof.
  intros Hd Hn. destruct (run_cookie_calls_ok _ ∅ 0 before (init_rep dough Hd)) as (rs & t & m & Hr & _ & H); [lia |].
  destruct (insert_step t m _ c name fl now H) as (x & t1 & m1 & Hi & Hs & H1); [lia |].
  exists rs, x, t1. rewrite run_cookie_calls_app, Hr. bind_ok. cbn [run_calls run_call]. rewrite Hi. bind_ok. split; [done |].
  intros after Ha Hh.
  pose proof (insert_serves _ _ _ _ _ _ _ Hs) as He.
  destruct He as (e & Hm1 & He). rewrite run_cookie_calls_app.
  destruct (run_cookie_calls_ok t1 m1 _ after H1) as (rs' & t2 & m2 & -> & Hs2 & H2); [lia |]. bind_ok.
  destruct (steps_serve _ _ _ _ _ _ _ _ _ _ Hs2 Hh Hm1 He) as (e2 & Hm2 & He2). cbn [run_calls run_call].
  destruct (lookup_cookie_ok H2 x) as (p & -> & Hp). bind_ok. destruct p as [a |]; [| congruence]. destruct Hp as (e3 & Ha3 & _ & Hm3).
  cbn [entry_of]. rewrite (load_entry_ok _ _ _ Ha3). bind_ok. eexists _, _, _. split; [done |]. by replace e3 with e2 by congruence.
Qed.
End CookieTable.

(** ** Witnesses *)

Definition sample_calls : list cookie_call :=
  [Insert 7 [Byte.x61] 1 100; Insert 7 [Byte.x61] 0 200; Insert 7 [Byte.x62] 0 300; Delete 1; LookupCookie 1; Age 2592250].

Lemma cookie_table_refines_witness :
  exists rs t m t', run_calls (host := LittleEndian) (init_cookie_table 0) sample_calls = Ok (rs, t) /\ spec_steps ∅ sample_calls rs m /\
    finalize_cookie_table t = Ok t' /\ entry_heap t' = ∅.
Proof.
  apply (cookie_table_refines (host := LittleEndian) 0 sample_calls); [unfold INVALID_COOKIE; lia | vm_compute; discriminate].
Defined.

Lemma cookie_finds_application_witness :
  exists rs x t, run_calls (host := LittleEndian) (init_cookie_table 41) ([Insert 3 [Byte.x61] 0 10] ++ [Insert 7 [Byte.x62] 1 20]) = Ok (rs ++ [Cookie x], t) /\
    forall after, inserts [Insert 3 [Byte.x61] 0 10] + 1 + inserts after <= INT_MAX -> Forall (harmless x 20) after -> exists rs' t' e,
      run_calls (host := LittleEndian) t (after ++ [LookupCookie x]) = Ok (rs' ++ [Entry (Some e)], t') /\ serves 7 [Byte.x62] 1 20 e.
Proof.
  apply (cookie_finds_application (host := LittleEndian) 41 [Insert 3 [Byte.x61] 0 10] 7 [Byte.x62] 1 20);
    [unfold INVALID_COOKIE; lia | vm_compute; reflexivity].
Defined.

(** The calls, evaluated: two flows share a cookie, and aging deletes it. *)
Example sample_cookie_calls :
  match run_calls (host := LittleEndian) (init_cookie_table 0) sample_calls with
  | Ok (rs, t) => take 3 rs = [Cookie 1; Cookie 1; Cookie 2] /\ size (entry_heap t) = 1%nat
  | Fault _ => False
  end.
Proof. vm_compute. done. Qed.
