(* ===== verification/Create.v ===== *)
(** openflow_message.c: construction of OpenFlow messages ([create_*]).

    A constructor returns the bytes of the buffer it allocates.  The buffer
    has [length] bytes, zeroed by [create_header]; a store outside them is
    [Fault OutOfBounds], also where the allocator rounds sizes up.  A
    [list_element *] argument is the list of what the elements point to, NULL
    the empty list; fixed structures are given as records in host byte order,
    variable-length ones as their bytes in memory.  [debug] output is not
    modelled. *)

From Stdlib Require Import ZArith Lia Bool.
From coqutil Require Import Byte.
From stdpp Require Import base list.
From S2P Require Import Prelude Memory OpenFlow Codes ByteOrder Actions.

Section Create.
Context {host : Host}.
Implicit Types m : bytes.

(** * The header *)

Definition create_header (transaction_id type length : Z) : res bytes :=
  let* _ := assert (sizeof_ofp_header <=? length) in
  let header := zeros (Z.to_nat length) in
  let* m := st8 header 0 OFP_VERSION in
  let* m := st8 m 1 type in
  let* m := st_hton 2 m 2 length in
  st_hton 4 m 4 transaction_id.

(** [data_len] is 16 bits wide, but the whole of [data] is copied. *)
Definition create_error (transaction_id type code : Z) (data : option bytes) : res bytes :=
  let data_len := length16 data in
  let length := u16 (sizeof_ofp_error_msg + data_len) in
  let* m := create_header transaction_id OFPT_ERROR length in
  let* m := st_hton 2 m 8 type in
  let* m := st_hton 2 m 10 code in
  if 0 <? data_len then
    match data with
    | None => Fault NullPointer
    | Some d => st_bytes m 12 d
    end
  else Ok m.

Definition create_hello (transaction_id : Z) : res bytes :=
  create_header transaction_id OFPT_HELLO sizeof_ofp_header.

Definition create_echo_request (transaction_id : Z) (body : option bytes) : res bytes :=
  let data_length := length16 body in
  let* m := create_header transaction_id OFPT_ECHO_REQUEST (u16 (sizeof_ofp_header + data_length)) in
  copy_data m sizeof_ofp_header body data_length.

Definition create_echo_reply (transaction_id : Z) (body : option bytes) : res bytes :=
  let data_length := length16 body in
  let* m := create_header transaction_id OFPT_ECHO_REPLY (u16 (sizeof_ofp_header + data_length)) in
  copy_data m sizeof_ofp_header body data_length.

Definition create_vendor (transaction_id vendor : Z) (data : option bytes) : res bytes :=
  let data_length := length16 data in
  let length := u16 (sizeof_ofp_vendor_header + data_length) in
  let* m := create_header transaction_id OFPT_VENDOR length in
  let* m := st_hton 4 m 8 vendor in
  copy_data m sizeof_ofp_vendor_header data data_length.

Definition create_features_request (transaction_id : Z) : res bytes :=
  create_header transaction_id OFPT_FEATURES_REQUEST sizeof_ofp_header.

(** [while ( e != NULL ) { hton( p, e->data ); e = e->next; p++; }] for
    structures of [size] bytes. *)
Fixpoint store_each {A} (st : bytes -> Z -> A -> res bytes) (hton : A -> A) (size : Z)
    m (p : Z) (l : list A) : res bytes :=
  match l with
  | [] => Ok m
  | x :: l =>
    let* m := st m p (hton x) in
    store_each st hton size m (p + size) l
  end.

Definition create_features_reply (transaction_id datapath_id n_buffers n_tables capabilities
    actions : Z) (ports : list ofp_phy_port) : res bytes :=
  let n_ports := u16 (Z.of_nat (length ports)) in
  let* m := create_header transaction_id OFPT_FEATURES_REPLY
    (u16 (sizeof_ofp_switch_features + sizeof_ofp_phy_port * n_ports)) in
  let* m := st_hton 8 m 8 datapath_id in
  let* m := st_hton 4 m 16 n_buffers in
  let* m := st8 m 20 n_tables in
  let* m := st_bytes m 21 (zeros 3) in
  let* m := st_hton 4 m 24 capabilities in
  let* m := st_hton 4 m 28 actions in
  if truth n_ports
  then store_each st_phy_port hton_phy_port sizeof_ofp_phy_port m 32 ports
  else Ok m.

Definition create_get_config_request (transaction_id : Z) : res bytes :=
  create_header transaction_id OFPT_GET_CONFIG_REQUEST sizeof_ofp_header.

Definition create_get_config_reply (transaction_id flags miss_send_len : Z) : res bytes :=
  let* m := create_header transaction_id OFPT_GET_CONFIG_REPLY sizeof_ofp_switch_config in
  let* m := st_hton 2 m 8 flags in
  st_hton 2 m 10 miss_send_len.

Definition create_set_config (transaction_id flags miss_send_len : Z) : res bytes :=
  let* m := create_header transaction_id OFPT_SET_CONFIG sizeof_ofp_switch_config in
  let* m := st_hton 2 m 8 flags in
  st_hton 2 m 10 miss_send_len.

Definition create_packet_in (transaction_id buffer_id total_len in_port reason : Z)
    (data : option bytes) : res bytes :=
  let data_length := length16 data in
  let* m := create_header transaction_id OFPT_PACKET_IN (u16 (offsetof_packet_in_data + data_length)) in
  let* m := st_hton 4 m 8 buffer_id in
  let* m := st_hton 2 m 12 total_len in
  let* m := st_hton 2 m 14 in_port in
  let* m := st8 m 16 reason in
  let* m := st8 m 17 0 in
  copy_data m offsetof_packet_in_data data data_length.

Definition create_flow_removed (transaction_id : Z) (match_ : ofp_match) (cookie priority reason
    duration_sec duration_nsec idle_timeout packet_count byte_count : Z) : res bytes :=
  let* m := create_header transaction_id OFPT_FLOW_REMOVED sizeof_ofp_flow_removed in
  let* m := st_match m 8 (hton_match match_) in
  let* m := st_hton 8 m 48 cookie in
  let* m := st_hton 2 m 56 priority in
  let* m := st8 m 58 reason in
  let* m := st_bytes m 59 (zeros 1) in
  let* m := st_hton 4 m 60 duration_sec in
  let* m := st_hton 4 m 64 duration_nsec in
  let* m := st_hton 2 m 68 idle_timeout in
  let* m := st_bytes m 70 (zeros 2) in
  let* m := st_hton 8 m 72 packet_count in
  st_hton 8 m 80 byte_count.

Definition create_port_status (transaction_id reason : Z) (desc : ofp_phy_port) : res bytes :=
  let* m := create_header transaction_id OFPT_PORT_STATUS sizeof_ofp_port_status in
  let* m := st8 m 8 reason in
  let* m := st_bytes m 9 (zeros 7) in
  st_phy_port m 16 (hton_phy_port desc).

(** * Messages with actions *)

Fixpoint sum_actions_length (actions_length : Z) (l : list bytes) : res Z :=
  match l with
  | [] => Ok actions_length
  | action_header :: l =>
    let* type := ld16 action_header 0 in
    let* _ := assert ((type <=? OFPAT_ENQUEUE) || (type =? OFPAT_VENDOR)) in
    let* len := ld16 action_header 2 in
    sum_actions_length (actions_length + len) l
  end.

Definition get_actions_length (actions : openflow_actions) : res Z :=
  let* actions_length := sum_actions_length 0 (actions_list actions) in
  let* _ := assert (actions_length <=? UINT16_MAX) in
  Ok (u16 actions_length).

(** The loop that converts the actions to [a] and the following bytes. *)
Fixpoint store_actions m (a : Z) (l : list bytes) : res bytes :=
  match l with
  | [] => Ok m
  | action_header :: l =>
    let* action_length := ld16 action_header 2 in
    let* m := hton_action m a action_header 0 in
    store_actions m (a + action_length) l
  end.

Definition ETH_FCS_LENGTH := 4.
Definition ETH_MINIMUM_LENGTH := 64.

Definition create_packet_out (transaction_id buffer_id in_port : Z)
    (actions : option openflow_actions) (data : option bytes) : res bytes :=
  let data_length := length16 data in
  let* _ :=
    if buffer_id =? UINT32_MAX then
      match data with
      | None => Fault Died
      | Some d => if blen d + ETH_FCS_LENGTH <? ETH_MINIMUM_LENGTH then Fault Died else Ok tt
      end
    else Ok tt in
  let* actions_length :=
    match actions with Some actions => get_actions_length actions | None => Ok 0 end in
  let length := u16 (offsetof_packet_out_actions + actions_length + data_length) in
  let* m := create_header transaction_id OFPT_PACKET_OUT length in
  let* m := st_hton 4 m 8 buffer_id in
  let* m := st_hton 2 m 12 in_port in
  let* m := st_hton 2 m 14 actions_length in
  let* m :=
    if 0 <? actions_length then
      match actions with
      | None => Fault NullPointer
      | Some actions => store_actions m offsetof_packet_out_actions (actions_list actions)
      end
    else Ok m in
  copy_data m (offsetof_packet_out_actions + actions_length) data data_length.

Definition create_flow_mod (transaction_id : Z) (match_ : ofp_match) (cookie command idle_timeout
    hard_timeout priority buffer_id out_port flags : Z) (actions : option openflow_actions)
    : res bytes :=
  let* actions_length :=
    match actions with Some actions => get_actions_length actions | None => Ok 0 end in
  let length := u16 (offsetof_flow_mod_actions + actions_length) in
  let* m := create_header transaction_id OFPT_FLOW_MOD length in
  let* m := st_match m 8 (hton_match match_) in
  let* m := st_hton 8 m 48 cookie in
  let* m := st_hton 2 m 56 command in
  let* m := st_hton 2 m 58 idle_timeout in
  let* m := st_hton 2 m 60 hard_timeout in
  let* m := st_hton 2 m 62 priority in
  let* m := st_hton 4 m 64 buffer_id in
  let* m := st_hton 2 m 68 out_port in
  let* m := st_hton 2 m 70 flags in
  if 0 <? actions_length then
    match actions with
    | None => Fault NullPointer
    | Some actions => store_actions m offsetof_flow_mod_actions (actions_list actions)
    end
  else Ok m.

Definition create_port_mod (transaction_id port_no : Z) (hw_addr : bytes)
    (config mask advertise : Z) : res bytes :=
  let* m := create_header transaction_id OFPT_PORT_MOD sizeof_ofp_port_mod in
  let* m := st_hton 2 m 8 port_no in
  let* hw_addr := ld_bytes hw_addr 0 OFP_ETH_ALEN in
  let* m := st_bytes m 10 hw_addr in
  let* m := st_hton 4 m 16 config in
  let* m := st_hton 4 m 20 mask in
  let* m := st_hton 4 m 24 advertise in
  st_bytes m 28 (zeros 4).

(** * Statistics *)

Definition create_stats_request (transaction_id type length flags : Z) : res bytes :=
  let* m := create_header transaction_id OFPT_STATS_REQUEST length in
  let* m := st_hton 2 m 8 type in
  st_hton 2 m 10 flags.

Definition create_desc_stats_request (transaction_id flags : Z) : res bytes :=
  create_stats_request transaction_id OFPST_DESC sizeof_ofp_stats_request flags.

Definition create_flow_stats_request (transaction_id flags : Z) (match_ : ofp_match)
    (table_id out_port : Z) : res bytes :=
  let length := u16 (offsetof_stats_request_body + sizeof_ofp_flow_stats_request) in
  let* m := create_stats_request transaction_id OFPST_FLOW length flags in
  let* m := st_match m 12 (hton_match match_) in
  let* m := st8 m 52 table_id in
  let* m := st8 m 53 0 in
  st_hton 2 m 54 out_port.

Definition create_aggregate_stats_request (transaction_id flags : Z) (match_ : ofp_match)
    (table_id out_port : Z) : res bytes :=
  let length := u16 (offsetof_stats_request_body + sizeof_ofp_aggregate_stats_request) in
  let* m := create_stats_request transaction_id OFPST_AGGREGATE length flags in
  let* m := st_match m 12 (hton_match match_) in
  let* m := st8 m 52 table_id in
  let* m := st8 m 53 0 in
  st_hton 2 m 54 out_port.

Definition create_table_stats_request (transaction_id flags : Z) : res bytes :=
  create_stats_request transaction_id OFPST_TABLE sizeof_ofp_stats_request flags.

Definition create_port_stats_request (transaction_id flags port_no : Z) : res bytes :=
  let length := u16 (offsetof_stats_request_body + sizeof_ofp_port_stats_request) in
  let* m := create_stats_request transaction_id OFPST_PORT length flags in
  let* m := st_hton 2 m 12 port_no in
  st_bytes m 14 (zeros 6).

Definition create_queue_stats_request (transaction_id flags port_no queue_id : Z) : res bytes :=
  let length := u16 (offsetof_stats_request_body + sizeof_ofp_queue_stats_request) in
  let* m := create_stats_request transaction_id OFPST_QUEUE length flags in
  let* m := st_hton 2 m 12 port_no in
  let* m := st_bytes m 14 (zeros 2) in
  st_hton 4 m 16 queue_id.

Definition create_vendor_stats_request (transaction_id flags vendor : Z) (body : option bytes)
    : res bytes :=
  let data_length := length16 body in
  let length := u16 (offsetof_stats_request_body + 4 + data_length) in
  let* m := create_stats_request transaction_id OFPST_VENDOR length flags in
  let* m := st_hton 4 m 12 vendor in
  copy_data m 16 body data_length.

Definition create_stats_reply (transaction_id type length flags : Z) : res bytes :=
  let* m := create_header transaction_id OFPT_STATS_REPLY length in
  let* m := st_hton 2 m 8 type in
  st_hton 2 m 10 flags.

(** [serial_num] is an array of [SERIAL_NUM_LEN] bytes; the code copies
    [DESC_STR_LEN] bytes from it. *)
Definition create_desc_stats_reply (transaction_id flags : Z)
    (mfr_desc hw_desc sw_desc serial_num dp_desc : bytes) : res bytes :=
  let length := u16 (offsetof_stats_reply_body + sizeof_ofp_desc_stats) in
  let* m := create_stats_reply transaction_id OFPST_DESC length flags in
  let* d := ld_bytes mfr_desc 0 DESC_STR_LEN in
  let* m := st_bytes m 12 d in
  let* d := ld_bytes hw_desc 0 DESC_STR_LEN in
  let* m := st_bytes m (12 + 256) d in
  let* d := ld_bytes sw_desc 0 DESC_STR_LEN in
  let* m := st_bytes m (12 + 512) d in
  let* d := ld_bytes serial_num 0 DESC_STR_LEN in
  let* m := st_bytes m (12 + 768) d in
  let* d := ld_bytes dp_desc 0 DESC_STR_LEN in
  st_bytes m (12 + 800) d.

Fixpoint sum_flow_lengths (length : Z) (l : list bytes) : res Z :=
  match l with
  | [] => Ok length
  | flow_stats :: l =>
    let* n := ld16 flow_stats 0 in
    sum_flow_lengths (u16 (length + n)) l
  end.

Fixpoint store_flow_stats m (flow_stats : Z) (l : list bytes) : res bytes :=
  match l with
  | [] => Ok m
  | fs :: l =>
    let* m := hton_flow_stats m flow_stats fs 0 in
    let* length := ld16 fs 0 in
    store_flow_stats m (flow_stats + length) l
  end.

Definition create_flow_stats_reply (transaction_id flags : Z) (flows : list bytes) : res bytes :=
  let* length := sum_flow_lengths 0 flows in
  let length := u16 (offsetof_stats_reply_body + length) in
  let* m := create_stats_reply transaction_id OFPST_FLOW length flags in
  store_flow_stats m offsetof_stats_reply_body flows.

Definition create_aggregate_stats_reply (transaction_id flags packet_count byte_count flow_count : Z)
    : res bytes :=
  let length := u16 (offsetof_stats_reply_body + sizeof_ofp_aggregate_stats_reply) in
  let* m := create_stats_reply transaction_id OFPST_AGGREGATE length flags in
  let* m := st_hton 8 m 12 packet_count in
  let* m := st_hton 8 m 20 byte_count in
  let* m := st_hton 4 m 28 flow_count in
  st_bytes m 32 (zeros 4).

(** The replies that are arrays of fixed structures: [n] is a [uint16_t], the
    loop goes through the whole list. *)
Definition create_stats_array {A} (transaction_id type flags size : Z)
    (st : bytes -> Z -> A -> res bytes) (hton : A -> A) (l : list A) : res bytes :=
  let n := u16 (Z.of_nat (length l)) in
  let length := u16 (offsetof_stats_reply_body + size * n) in
  let* m := create_stats_reply transaction_id type length flags in
  store_each st hton size m offsetof_stats_reply_body l.

Definition create_table_stats_reply (transaction_id flags : Z) (l : list ofp_table_stats) :=
  create_stats_array transaction_id OFPST_TABLE flags sizeof_ofp_table_stats
    st_table_stats hton_table_stats l.

Definition create_port_stats_reply (transaction_id flags : Z) (l : list ofp_port_stats) :=
  create_stats_array transaction_id OFPST_PORT flags sizeof_ofp_port_stats
    st_port_stats hton_port_stats l.

Definition create_queue_stats_reply (transaction_id flags : Z) (l : list ofp_queue_stats) :=
  create_stats_array transaction_id OFPST_QUEUE flags sizeof_ofp_queue_stats
    st_queue_stats hton_queue_stats l.

Definition create_vendor_stats_reply (transaction_id flags vendor : Z) (body : option bytes)
    : res bytes :=
  let data_length := length16 body in
  let length := u16 (offsetof_stats_reply_body + 4 + data_length) in
  let* m := create_stats_reply transaction_id OFPST_VENDOR length flags in
  let* m := st_hton 4 m 12 vendor in
  copy_data m 16 body data_length.

(** * Barriers and queues *)

Definition create_barrier_request (transaction_id : Z) : res bytes :=
  create_header transaction_id OFPT_BARRIER_REQUEST sizeof_ofp_header.

Definition create_barrier_reply (transaction_id : Z) : res bytes :=
  create_header transaction_id OFPT_BARRIER_REPLY sizeof_ofp_header.

Definition create_queue_get_config_request (transaction_id port : Z) : res bytes :=
  let* m := create_header transaction_id OFPT_QUEUE_GET_CONFIG_REQUEST
    sizeof_ofp_queue_get_config_request in
  let* m := st_hton 2 m 8 port in
  st_bytes m 10 (zeros 2).

Fixpoint sum_queue_lengths (queues_length : Z) (l : list bytes) : res Z :=
  match l with
  | [] => Ok queues_length
  | packet_queue :: l =>
    let* len := ld16 packet_queue 4 in
    sum_queue_lengths (u16 (queues_length + len)) l
  end.

Fixpoint store_packet_queues m (packet_queue : Z) (l : list bytes) : res bytes :=
  match l with
  | [] => Ok m
  | pq :: l =>
    let* m := hton_packet_queue m packet_queue pq 0 in
    let* len := ld16 pq 4 in
    store_packet_queues m (packet_queue + len) l
  end.

(** [queues] must not be NULL. *)
Definition create_queue_get_config_reply (transaction_id port : Z) (queues : list bytes) : res bytes :=
  let* _ := assert (negb (bool_decide (queues = []))) in
  let n_queues := u16 (Z.of_nat (length queues)) in
  let* queues_length := sum_queue_lengths 0 queues in
  let length := u16 (offsetof_queue_get_config_reply_queues + queues_length) in
  let* m := create_header transaction_id OFPT_QUEUE_GET_CONFIG_REPLY length in
  let* m := st_hton 2 m 8 port in
  let* m := st_bytes m 10 (zeros 6) in
  if truth n_queues
  then store_packet_queues m offsetof_queue_get_config_reply_queues queues
  else Ok m.
End Create.

(** * The reference: messages as values *)

Inductive message : Type :=
| Hello
| Error (type code : Z) (data : bytes)
| EchoRequest (body : bytes)
| EchoReply (body : bytes)
| VendorMessage (vendor : Z) (data : bytes)
| FeaturesRequest
| FeaturesReply (datapath_id n_buffers n_tables capabilities actions : Z) (ports : list ofp_phy_port)
| GetConfigRequest
| GetConfigReply (flags miss_send_len : Z)
| SetConfig (flags miss_send_len : Z)
| PacketIn (buffer_id total_len in_port reason : Z) (data : bytes)
| FlowRemoved (match_ : ofp_match) (cookie priority reason duration_sec duration_nsec idle_timeout
    packet_count byte_count : Z)
| PortStatus (reason : Z) (desc : ofp_phy_port)
| PacketOut (buffer_id in_port : Z) (actions : list action) (data : bytes)
| FlowMod (match_ : ofp_match) (cookie command idle_timeout hard_timeout priority buffer_id
    out_port flags : Z) (actions : list action)
| PortMod (port_no : Z) (hw_addr : bytes) (config mask advertise : Z)
| DescStatsRequest (flags : Z)
| FlowStatsRequest (flags : Z) (match_ : ofp_match) (table_id out_port : Z)
| AggregateStatsRequest (flags : Z) (match_ : ofp_match) (table_id out_port : Z)
| TableStatsRequest (flags : Z)
| PortStatsRequest (flags port_no : Z)
| QueueStatsRequest (flags port_no queue_id : Z)
| VendorStatsRequest (flags vendor : Z) (body : bytes)
| AggregateStatsReply (flags packet_count byte_count flow_count : Z)
| TableStatsReply (flags : Z) (tables : list ofp_table_stats)
| PortStatsReply (flags : Z) (ports : list ofp_port_stats)
| QueueStatsReply (flags : Z) (queues : list ofp_queue_stats)
| VendorStatsReply (flags vendor : Z) (body : bytes)
| BarrierRequest
| BarrierReply
| QueueGetConfigRequest (port : Z).

Section Reference.
Context {host : Host}.

Definition message_type (x : message) : Z :=
  match x with
  | Hello => OFPT_HELLO | Error _ _ _ => OFPT_ERROR
  | EchoRequest _ => OFPT_ECHO_REQUEST | EchoReply _ => OFPT_ECHO_REPLY
  | VendorMessage _ _ => OFPT_VENDOR
  | FeaturesRequest => OFPT_FEATURES_REQUEST | FeaturesReply _ _ _ _ _ _ => OFPT_FEATURES_REPLY
  | GetConfigRequest => OFPT_GET_CONFIG_REQUEST | GetConfigReply _ _ => OFPT_GET_CONFIG_REPLY
  | SetConfig _ _ => OFPT_SET_CONFIG | PacketIn _ _ _ _ _ => OFPT_PACKET_IN
  | FlowRemoved _ _ _ _ _ _ _ _ _ => OFPT_FLOW_REMOVED | PortStatus _ _ => OFPT_PORT_STATUS
  | PacketOut _ _ _ _ => OFPT_PACKET_OUT | FlowMod _ _ _ _ _ _ _ _ _ _ => OFPT_FLOW_MOD
  | PortMod _ _ _ _ _ => OFPT_PORT_MOD
  | DescStatsRequest _ | FlowStatsRequest _ _ _ _ | AggregateStatsRequest _ _ _ _
  | TableStatsRequest _ | PortStatsRequest _ _ | QueueStatsRequest _ _ _
  | VendorStatsRequest _ _ _ => OFPT_STATS_REQUEST
  | AggregateStatsReply _ _ _ _ | TableStatsReply _ _ | PortStatsReply _ _ | QueueStatsReply _ _
  | VendorStatsReply _ _ _ => OFPT_STATS_REPLY
  | BarrierRequest => OFPT_BARRIER_REQUEST | BarrierReply => OFPT_BARRIER_REPLY
  | QueueGetConfigRequest _ => OFPT_QUEUE_GET_CONFIG_REQUEST
  end.

Definition wire_array {A} `{WireStruct A} (l : list A) : bytes := concat (map ws_wire l).

(** The type and flags every statistics message starts with. *)
Definition wire_stats (type flags : Z) : bytes := be_encode 2 type ++ be_encode 2 flags.

(** The bytes after the header. *)
Definition wire_body (x : message) : bytes :=
  match x with
  | Hello | FeaturesRequest | GetConfigRequest | BarrierRequest | BarrierReply => []
  | Error type code data => be_encode 2 type ++ be_encode 2 code ++ data
  | EchoRequest body | EchoReply body => body
  | VendorMessage vendor data => be_encode 4 vendor ++ data
  | FeaturesReply datapath_id n_buffers n_tables capabilities actions ports =>
      be_encode 8 datapath_id ++ be_encode 4 n_buffers ++ be_encode 1 n_tables ++ zeros 3 ++
      be_encode 4 capabilities ++ be_encode 4 actions ++ wire_array ports
  | GetConfigReply flags miss_send_len | SetConfig flags miss_send_len =>
      be_encode 2 flags ++ be_encode 2 miss_send_len
  | PacketIn buffer_id total_len in_port reason data =>
      be_encode 4 buffer_id ++ be_encode 2 total_len ++ be_encode 2 in_port ++
      be_encode 1 reason ++ zeros 1 ++ data
  | FlowRemoved match_ cookie priority reason duration_sec duration_nsec idle_timeout
      packet_count byte_count =>
      wire_match match_ ++ be_encode 8 cookie ++ be_encode 2 priority ++ be_encode 1 reason ++
      zeros 1 ++ be_encode 4 duration_sec ++ be_encode 4 duration_nsec ++
      be_encode 2 idle_timeout ++ zeros 2 ++ be_encode 8 packet_count ++ be_encode 8 byte_count
  | PortStatus reason desc => be_encode 1 reason ++ zeros 7 ++ wire_phy_port desc
  | PacketOut buffer_id in_port actions data =>
      be_encode 4 buffer_id ++ be_encode 2 in_port ++ be_encode 2 (actions_len actions) ++
      wire_actions actions ++ data
  | FlowMod match_ cookie command idle_timeout hard_timeout priority buffer_id out_port flags
      actions =>
      wire_match match_ ++ be_encode 8 cookie ++ be_encode 2 command ++
      be_encode 2 idle_timeout ++ be_encode 2 hard_timeout ++ be_encode 2 priority ++
      be_encode 4 buffer_id ++ be_encode 2 out_port ++ be_encode 2 flags ++ wire_actions actions
  | PortMod port_no hw_addr config mask advertise =>
      be_encode 2 port_no ++ hw_addr ++ be_encode 4 config ++ be_encode 4 mask ++
      be_encode 4 advertise ++ zeros 4
  | DescStatsRequest flags => wire_stats OFPST_DESC flags
  | FlowStatsRequest flags match_ table_id out_port =>
      wire_stats OFPST_FLOW flags ++ wire_match match_ ++ be_encode 1 table_id ++ zeros 1 ++
      be_encode 2 out_port
  | AggregateStatsRequest flags match_ table_id out_port =>
      wire_stats OFPST_AGGREGATE flags ++ wire_match match_ ++ be_encode 1 table_id ++ zeros 1 ++
      be_encode 2 out_port
  | TableStatsRequest flags => wire_stats OFPST_TABLE flags
  | PortStatsRequest flags port_no => wire_stats OFPST_PORT flags ++ be_encode 2 port_no ++ zeros 6
  | QueueStatsRequest flags port_no queue_id =>
      wire_stats OFPST_QUEUE flags ++ be_encode 2 port_no ++ zeros 2 ++ be_encode 4 queue_id
  | VendorStatsRequest flags vendor body | VendorStatsReply flags vendor body =>
      wire_stats OFPST_VENDOR flags ++ be_encode 4 vendor ++ body
  | AggregateStatsReply flags packet_count byte_count flow_count =>
      wire_stats OFPST_AGGREGATE flags ++ be_encode 8 packet_count ++ be_encode 8 byte_count ++
      be_encode 4 flow_count ++ zeros 4
  | TableStatsReply flags tables => wire_stats OFPST_TABLE flags ++ wire_array tables
  | PortStatsReply flags ports => wire_stats OFPST_PORT flags ++ wire_array ports
  | QueueStatsReply flags queues => wire_stats OFPST_QUEUE flags ++ wire_array queues
  | QueueGetConfigRequest port => be_encode 2 port ++ zeros 2
  end.

Definition wire_header (type length transaction_id : Z) : bytes :=
  be_encode 1 OFP_VERSION ++ be_encode 1 type ++ be_encode 2 length ++ be_encode 4 transaction_id.

Definition message_length (x : message) : Z := 8 + blen (wire_body x).

Definition wire_message (transaction_id : Z) (x : message) : bytes :=
  wire_header (message_type x) (message_length x) transaction_id ++ wire_body x.

(** The structures an argument holds are well formed, and the message fits
    its 16-bit length field. *)
Definition wf_args (x : message) : Prop :=
  match x with
  | FeaturesReply _ _ _ _ _ ports => Forall wf_phy_port ports
  | FlowRemoved match_ _ _ _ _ _ _ _ _ => wf_match match_
  | PortStatus _ desc => wf_phy_port desc
  | PacketOut buffer_id _ actions data =>
      Forall wf_action actions /\ (buffer_id = UINT32_MAX -> 60 <= blen data)
  | FlowMod match_ _ _ _ _ _ _ _ _ actions => wf_match match_ /\ Forall wf_action actions
  | PortMod _ hw_addr _ _ _ => length hw_addr = 6%nat
  | FlowStatsRequest _ match_ _ _ | AggregateStatsRequest _ match_ _ _ => wf_match match_
  | TableStatsReply _ tables => Forall wf_table_stats tables
  | PortStatsReply _ ports => Forall wf_port_stats ports
  | QueueStatsReply _ queues => Forall wf_queue_stats queues
  | _ => True
  end.

Definition wf_message (x : message) : Prop := wf_args x /\ message_length x < 2 ^ 16.

(** The constructor of each kind of message. *)
Definition create_message (xid : Z) (x : message) : res bytes :=
  match x with
  | Hello => create_hello xid
  | Error type code data => create_error xid type code (Some data)
  | EchoRequest body => create_echo_request xid (Some body)
  | EchoReply body => create_echo_reply xid (Some body)
  | VendorMessage vendor data => create_vendor xid vendor (Some data)
  | FeaturesRequest => create_features_request xid
  | FeaturesReply d b t c a ports => create_features_reply xid d b t c a ports
  | GetConfigRequest => create_get_config_request xid
  | GetConfigReply flags len => create_get_config_reply xid flags len
  | SetConfig flags len => create_set_config xid flags len
  | PacketIn b t p r data => create_packet_in xid b t p r (Some data)
  | FlowRemoved m c p r s n i pc bc => create_flow_removed xid m c p r s n i pc bc
  | PortStatus reason desc => create_port_status xid reason desc
  | PacketOut b p actions data => create_packet_out xid b p (Some (host_actions actions)) (Some data)
  | FlowMod m c cmd i h p b o f actions =>
      create_flow_mod xid m c cmd i h p b o f (Some (host_actions actions))
  | PortMod p hw c m a => create_port_mod xid p hw c m a
  | DescStatsRequest flags => create_desc_stats_request xid flags
  | FlowStatsRequest flags m t o => create_flow_stats_request xid flags m t o
  | AggregateStatsRequest flags m t o => create_aggregate_stats_request xid flags m t o
  | TableStatsRequest flags => create_table_stats_request xid flags
  | PortStatsRequest flags p => create_port_stats_request xid flags p
  | QueueStatsRequest flags p q => create_queue_stats_request xid flags p q
  | VendorStatsRequest flags v body => create_vendor_stats_request xid flags v (Some body)
  | AggregateStatsReply flags p b f => create_aggregate_stats_reply xid flags p b f
  | TableStatsReply flags l => create_table_stats_reply xid flags l
  | PortStatsReply flags l => create_port_stats_reply xid flags l
  | QueueStatsReply flags l => create_queue_stats_reply xid flags l
  | VendorStatsReply flags v body => create_vendor_stats_reply xid flags v (Some body)
  | BarrierRequest => create_barrier_request xid
  | BarrierReply => create_barrier_reply xid
  | QueueGetConfigRequest port => create_queue_get_config_request xid port
  end.
End Reference.

#[global] Arguments wire_array : simpl never.
#[global] Arguments wire_header : simpl never.
#[global] Arguments wire_stats : simpl never.
#[global] Arguments wire_actions : simpl never.
#[global] Arguments actions_len : simpl never.
#[global] Arguments u16 : simpl never.

Section CreateLemmas.
Context {host : Host}.
Implicit Types P : bytes.

Lemma blen_wire_header t l x : blen (wire_header t l x) = 8.
Proof. unfold wire_header. len. Qed.

Lemma create_header_ok xid type n :
  8 <= n < 2 ^ 16 ->
  create_header xid type n = Ok (wire_header type n xid ++ zeros (Z.to_nat n - 8)).
Proof.
  intros Hn. unfold create_header, sizeof_ofp_header, wire_header. replace (8 <=? n) with true by lia.
  bind_ok; cbn [assert]; bind_ok. pose proof (st8_zeros [] OFP_VERSION (Z.to_nat n) 0 eq_refl) as E.
  cbn [app] in E. rewrite E by lia. bind_ok. clear E. wr.
Qed.

Lemma u16_small x : 0 <= x < 2 ^ 16 -> u16 x = x.
Proof. apply Z.mod_small. Qed.

Lemma full_message P Q k : k = 0%nat -> P = Q -> Ok (P ++ zeros k) = Ok Q.
Proof. intros -> ->. by rewrite app_nil_r. Qed.

Lemma blen_wire_stats t f : blen (wire_stats t f) = 4.
Proof. unfold wire_stats. len. Qed.

Lemma blen_ws_wire {A} `{WireStructOk A} (x : A) : ws_wf x -> blen (ws_wire x) = Z.of_nat ws_size.
Proof. intros Hx. unfold blen. by rewrite ws_length. Qed.
End CreateLemmas.

#[export] Hint Rewrite @blen_wire_header @blen_wire_stats : len.

(** The constants of the layouts, for [lia]. *)
Create HintDb layout.
#[export] Hint Unfold sizeof_ofp_header sizeof_ofp_error_msg sizeof_ofp_vendor_header
  sizeof_ofp_switch_config sizeof_ofp_switch_features sizeof_ofp_phy_port offsetof_packet_in_data
  sizeof_ofp_flow_removed sizeof_ofp_port_status offsetof_packet_out_actions
  offsetof_flow_mod_actions sizeof_ofp_port_mod sizeof_ofp_stats_request
  offsetof_stats_request_body offsetof_stats_reply_body sizeof_ofp_flow_stats_request
  sizeof_ofp_aggregate_stats_request sizeof_ofp_port_stats_request sizeof_ofp_queue_stats_request
  sizeof_ofp_aggregate_stats_reply sizeof_ofp_table_stats sizeof_ofp_port_stats
  sizeof_ofp_queue_stats sizeof_ofp_queue_get_config_request sizeof_ofp_desc_stats : layout.

Create HintDb create.
#[export] Hint Unfold create_error create_hello create_echo_request create_echo_reply create_vendor
  create_features_request create_features_reply create_get_config_request create_get_config_reply
  create_set_config create_packet_in create_flow_removed create_port_status create_packet_out
  create_flow_mod create_port_mod create_stats_request create_desc_stats_request
  create_flow_stats_request create_aggregate_stats_request create_table_stats_request
  create_port_stats_request create_queue_stats_request create_vendor_stats_request
  create_stats_reply create_aggregate_stats_reply create_stats_array create_table_stats_reply
  create_port_stats_reply create_queue_stats_reply create_vendor_stats_reply
  create_barrier_request create_barrier_reply create_queue_get_config_request : create.

(** Fold the operations on the structures of the context, and note their
    sizes. *)
Ltac fold_structs :=
  unfold hton_match, hton_phy_port; fold_ws ofp_match; fold_ws ofp_phy_port.
Ltac size_structs :=
  repeat match goal with
  | H : wf_match ?m |- _ =>
    lazymatch goal with _ : blen (ws_wire m) = _ |- _ => fail | _ => idtac end;
    pose proof (blen_ws_wire m H : blen (ws_wire m) = 40)
  | H : wf_phy_port ?m |- _ =>
    lazymatch goal with _ : blen (ws_wire m) = _ |- _ => fail | _ => idtac end;
    pose proof (blen_ws_wire m H : blen (ws_wire m) = 48)
  end.

Section CreateMessages.
Context {host : Host}.

(** Evaluate the length and the header of a constructor. *)
Ltac create_start :=
  intros [Hw Hl]; unfold message_length in Hl; cbn [wire_body] in Hl; cbn in Hw;
  autorewrite with len in Hl;
  repeat match type of Hl with
  | context [blen ?d] =>
    lazymatch goal with H : 0 <= blen d |- _ => fail | _ => pose proof (blen_nonneg d) end
  end;
  cbn [create_message]; autounfold with create; autounfold with layout;
  rewrite ?length16_small by lia; rewrite ?u16_small by lia.

Ltac create_header :=
  rewrite create_header_ok by lia; bind_ok.

(** A store of a structure or of the data of a buffer. *)
Ltac wr1' :=
  first
    [ wr1
    | rewrite ws_st_zeros by first [eassumption | len | (cbn; len)];
      bind_ok; cbn [ws_size ws_match ws_phy_port]; bind_ok
    | rewrite copy_data_ok by wire_side; bind_ok
    | rewrite ld_bytes_whole by done; bind_ok ].

(** Finish: the segments written are those of the reference, and fill the
    message. *)
Ltac create_done :=
  apply full_message; [unfold blen in *; autorewrite with len in *; lia |];
  unfold wire_message;
  match goal with |- ?L = wire_header _ (message_length ?x) _ ++ _ =>
    match L with context [wire_header ?t ?n _] =>
      replace (message_length x) with n
        by (unfold message_length; cbn [wire_body]; fold_structs; len)
    end
  end;
  cbn [wire_body message_type]; unfold wire_stats; fold_structs; rewrite <- ?app_assoc; try reflexivity.

Ltac create_solve := create_start; create_header; fold_structs; size_structs; repeat wr1'; create_done.

Lemma create_error_ok xid t c d :
  wf_message (Error t c d) ->
  create_message xid (Error t c d) = Ok (wire_message xid (Error t c d)).
Proof.
  create_start. create_header. repeat wr1. destruct (0 <? blen d) eqn:E; [create_done |].
  assert (d = []) as -> by (destruct d; [done | cbn in E; discriminate]). create_done.
Qed.

Lemma create_hello_ok xid :
  wf_message Hello -> create_message xid Hello = Ok (wire_message xid Hello).
Proof. create_solve. Qed.

Lemma create_echo_request_ok xid body :
  wf_message (EchoRequest body) -> create_message xid (EchoRequest body) = Ok (wire_message xid (EchoRequest body)).
Proof. create_solve. Qed.

Lemma create_echo_reply_ok xid body :
  wf_message (EchoReply body) -> create_message xid (EchoReply body) = Ok (wire_message xid (EchoReply body)).
Proof. create_solve. Qed.

Lemma create_vendor_ok xid vendor data :
  wf_message (VendorMessage vendor data) -> create_message xid (VendorMessage vendor data) = Ok (wire_message xid (VendorMessage vendor data)).
Proof. create_solve. Qed.

Lemma create_features_request_ok xid :
  wf_message FeaturesRequest -> create_message xid FeaturesRequest = Ok (wire_message xid FeaturesRequest).
Proof. create_solve. Qed.

Lemma create_get_config_request_ok xid :
  wf_message GetConfigRequest -> create_message xid GetConfigRequest = Ok (wire_message xid GetConfigRequest).
Proof. create_solve. Qed.

Lemma create_get_config_reply_ok xid flags n :
  wf_message (GetConfigReply flags n) -> create_message xid (GetConfigReply flags n) = Ok (wire_message xid (GetConfigReply flags n)).
Proof. create_solve. Qed.

Lemma create_set_config_ok xid flags n :
  wf_message (SetConfig flags n) -> create_message xid (SetConfig flags n) = Ok (wire_message xid (SetConfig flags n)).
Proof. create_solve. Qed.

Lemma create_packet_in_ok xid b t p r data :
  wf_message (PacketIn b t p r data) -> create_message xid (PacketIn b t p r data) = Ok (wire_message xid (PacketIn b t p r data)).
Proof. create_solve. Qed.

Lemma create_flow_removed_ok xid m c p r s n i pc bc :
  wf_message (FlowRemoved m c p r s n i pc bc) -> create_message xid (FlowRemoved m c p r s n i pc bc) = Ok (wire_message xid (FlowRemoved m c p r s n i pc bc)).
Proof. create_solve. Qed.

Lemma create_port_status_ok xid r desc :
  wf_message (PortStatus r desc) -> create_message xid (PortStatus r desc) = Ok (wire_message xid (PortStatus r desc)).
Proof. create_solve. Qed.

Lemma create_port_mod_ok xid p hw c m a :
  wf_message (PortMod p hw c m a) -> create_message xid (PortMod p hw c m a) = Ok (wire_message xid (PortMod p hw c m a)).
Proof. create_solve. Qed.

Lemma create_desc_stats_request_ok xid flags :
  wf_message (DescStatsRequest flags) -> create_message xid (DescStatsRequest flags) = Ok (wire_message xid (DescStatsRequest flags)).
Proof. create_solve. Qed.

Lemma create_flow_stats_request_ok xid flags m t o :
  wf_message (FlowStatsRequest flags m t o) -> create_message xid (FlowStatsRequest flags m t o) = Ok (wire_message xid (FlowStatsRequest flags m t o)).
Proof. create_solve. Qed.

Lemma create_aggregate_stats_request_ok xid flags m t o :
  wf_message (AggregateStatsRequest flags m t o) -> create_message xid (AggregateStatsRequest flags m t o) = Ok (wire_message xid (AggregateStatsRequest flags m t o)).
Proof. create_solve. Qed.

Lemma create_table_stats_request_ok xid flags :
  wf_message (TableStatsRequest flags) -> create_message xid (TableStatsRequest flags) = Ok (wire_message xid (TableStatsRequest flags)).
Proof. create_solve. Qed.

Lemma create_port_stats_request_ok xid flags p :
  wf_message (PortStatsRequest flags p) -> create_message xid (PortStatsRequest flags p) = Ok (wire_message xid (PortStatsRequest flags p)).
Proof. create_solve. Qed.

Lemma create_queue_stats_request_ok xid flags p q :
  wf_message (QueueStatsRequest flags p q) -> create_message xid (QueueStatsRequest flags p q) = Ok (wire_message xid (QueueStatsRequest flags p q)).
Proof. create_solve. Qed.

Lemma create_vendor_stats_request_ok xid flags v body :
  wf_message (VendorStatsRequest flags v body) -> create_message xid (VendorStatsRequest flags v body) = Ok (wire_message xid (VendorStatsRequest flags v body)).
Proof. create_solve. Qed.

Lemma create_aggregate_stats_reply_ok xid flags p b f :
  wf_message (AggregateStatsReply flags p b f) -> create_message xid (AggregateStatsReply flags p b f) = Ok (wire_message xid (AggregateStatsReply flags p b f)).
Proof. create_solve. Qed.

Lemma create_vendor_stats_reply_ok xid flags v body :
  wf_message (VendorStatsReply flags v body) -> create_message xid (VendorStatsReply flags v body) = Ok (wire_message xid (VendorStatsReply flags v body)).
Proof. create_solve. Qed.

Lemma create_barrier_request_ok xid :
  wf_message BarrierRequest -> create_message xid BarrierRequest = Ok (wire_message xid BarrierRequest).
Proof. create_solve. Qed.

Lemma create_barrier_reply_ok xid :
  wf_message BarrierReply -> create_message xid BarrierReply = Ok (wire_message xid BarrierReply).
Proof. create_solve. Qed.

Lemma create_queue_get_config_request_ok xid port :
  wf_message (QueueGetConfigRequest port) -> create_message xid (QueueGetConfigRequest port) = Ok (wire_message xid (QueueGetConfigRequest port)).
Proof. create_solve. Qed.

(** ** Arrays of structures and lists of actions *)

Lemma wire_array_cons {A} `{WireStruct A} (x : A) l : wire_array (x :: l) = ws_wire x ++ wire_array l.
Proof. done. Qed.

Lemma blen_wire_array {A} `{WireStructOk A} (l : list A) :
  Forall ws_wf l -> blen (wire_array l) = Z.of_nat ws_size * Z.of_nat (length l).
Proof.
  induction 1 as [| x l Hx _ IH]; [cbn [length]; rewrite Z.mul_0_r; done |].
  rewrite wire_array_cons, blen_app, blen_ws_wire, IH by done. cbn [length]. lia.
Qed.

Lemma store_each_ok {A} `{WireStructOk A} (l : list A) P k p size :
  Forall ws_wf l -> size = Z.of_nat ws_size -> p = blen P -> (ws_size * length l <= k)%nat ->
  store_each ws_st ws_ntoh size (P ++ zeros k) p l
  = Ok ((P ++ wire_array l) ++ zeros (k - ws_size * length l)).
Proof.
  intros Hl -> -> Hk. revert P k Hk. induction Hl as [| x l Hx Hl IH]; intros P k Hk.
  - cbn [store_each]. cbn. rewrite Nat.mul_0_r, Nat.sub_0_r. by rewrite app_nil_r.
  - cbn [store_each length] in *. rewrite ws_st_zeros by first [done | lia]. bind_ok.
    replace (blen P + Z.of_nat ws_size) with (blen (P ++ ws_wire x))
      by by rewrite blen_app, blen_ws_wire.
    rewrite IH by lia. rewrite wire_array_cons, <- !app_assoc. do 5 f_equal. lia.
Qed.

Lemma action_alone a :
  wf_action a ->
  ld16 (host_action a) 0 = Ok (action_type a) /\ ld16 (host_action a) 2 = Ok (action_len a).
Proof.
  intros Ha. pose proof (ld_type_host a [] [] 0 eq_refl) as Ht.
  pose proof (ld_len_host a Ha [] [] 2 eq_refl) as Hl. by rewrite app_nil_r in Ht, Hl.
Qed.

Lemma get_actions_length_ok l :
  Forall wf_action l -> actions_len l <= UINT16_MAX ->
  get_actions_length (host_actions l) = Ok (actions_len l).
Proof.
  intros Hl Hm. unfold get_actions_length. cbn [actions_list host_actions].
  enough (E : forall n, sum_actions_length n (map host_action l) = Ok (n + actions_len l)).
  { rewrite E, Z.add_0_l. bind_ok. replace (actions_len l <=? UINT16_MAX) with true by lia.
    bind_ok; cbn [assert]; bind_ok. rewrite u16_small; [done |].
    pose proof (actions_len_nonneg l Hl). unfold UINT16_MAX in Hm. lia. }
  clear Hm. induction Hl as [| a l Ha Hl IH]; intros n.
  - cbn. by rewrite Z.add_0_r.
  - cbn [sum_actions_length map]. destruct (action_alone a Ha) as [-> ->]. bind_ok.
    replace ((action_type a <=? OFPAT_ENQUEUE) || (action_type a =? OFPAT_VENDOR)) with true
      by by destruct a.
    bind_ok; cbn [assert]; bind_ok. rewrite IH, actions_len_cons. f_equal. lia.
Qed.

Lemma store_actions_ok l P k p :
  Forall wf_action l -> p = blen P -> actions_len l <= Z.of_nat k ->
  store_actions (P ++ zeros k) p (map host_action l)
  = Ok ((P ++ wire_actions l) ++ zeros (k - Z.to_nat (actions_len l))).
Proof.
  intros Hl ->. revert P k. induction Hl as [| a l Ha Hl IH]; intros P k Hk.
  - cbn. by rewrite app_nil_r, Nat.sub_0_r.
  - cbn [store_actions map]. destruct (action_alone a Ha) as [_ ->]. bind_ok.
    rewrite actions_len_cons in *.
    pose proof (actions_len_nonneg l Hl). pose proof (wf_action_len a Ha).
    pose proof (hton_action_ok a P k [] [] (blen P) 0) as E. rewrite app_nil_r in E. cbn [app] in E.
    rewrite E by first [done | lia]. bind_ok.
    replace (blen P + action_len a) with (blen (P ++ wire_action a))
      by by rewrite blen_app, length_wire_action.
    rewrite IH by lia. rewrite wire_actions_cons, <- !app_assoc. do 5 f_equal. lia.
Qed.

Lemma store_actions_if l P k p :
  Forall wf_action l -> p = blen P -> actions_len l <= Z.of_nat k ->
  (if 0 <? actions_len l then store_actions (P ++ zeros k) p (map host_action l)
   else Ok (P ++ zeros k))
  = Ok ((P ++ wire_actions l) ++ zeros (k - Z.to_nat (actions_len l))).
Proof.
  intros Hl Hp Hk. destruct (0 <? actions_len l) eqn:E; [by apply store_actions_ok |].
  pose proof (length_le_actions_len l Hl). destruct l; [| cbn [length] in *; lia].
  by rewrite app_nil_r, Nat.sub_0_r.
Qed.

Ltac actions_start l Ha Hl :=
  pose proof (blen_wire_actions l Ha); pose proof (actions_len_nonneg l Ha);
  unfold message_length in Hl; cbn [wire_body] in Hl; autorewrite with len in Hl.

Lemma create_flow_mod_ok xid m c cmd i h p b o f l :
  wf_message (FlowMod m c cmd i h p b o f l) ->
  create_message xid (FlowMod m c cmd i h p b o f l)
  = Ok (wire_message xid (FlowMod m c cmd i h p b o f l)).
Proof.
  intros [[Hm Ha] Hl]. actions_start l Ha Hl. revert Hl. fold_structs. size_structs. intros Hl.
  cbn [create_message]. unfold create_flow_mod.
  rewrite get_actions_length_ok by first [done | unfold UINT16_MAX; lia]. bind_ok.
  autounfold with layout. rewrite u16_small by lia. create_header. fold_structs.
  repeat wr1'. cbn [actions_list host_actions]. rewrite store_actions_if by first [done | len].
  create_done.
Qed.

Lemma create_packet_out_ok xid b p l d :
  wf_message (PacketOut b p l d) ->
  create_message xid (PacketOut b p l d) = Ok (wire_message xid (PacketOut b p l d)).
Proof.
  intros [[Ha Hb] Hl]. actions_start l Ha Hl. pose proof (blen_nonneg d).
  cbn [create_message]. unfold create_packet_out.
  assert ((if b =? UINT32_MAX
           then if blen d + ETH_FCS_LENGTH <? ETH_MINIMUM_LENGTH then Fault Died else Ok tt
           else Ok tt) = Ok tt) as ->.
  { unfold ETH_FCS_LENGTH, ETH_MINIMUM_LENGTH. destruct (b =? UINT32_MAX) eqn:E; [| done].
    by replace (blen d + 4 <? 64) with false by lia. }
  bind_ok. rewrite get_actions_length_ok by first [done | unfold UINT16_MAX; lia]. bind_ok.
  autounfold with layout. rewrite length16_small, u16_small by lia. create_header.
  repeat wr1'. cbn [actions_list host_actions]. rewrite store_actions_if by first [done | len].
  bind_ok. repeat wr1'. create_done.
Qed.

(** The count and the length of an array of structures. *)
Ltac array_start A l Hw Hl :=
  intros [Hw Hl]; cbn [wf_args] in Hw; change (Forall (ws_wf (A := A)) l) in Hw; pose proof (blen_wire_array _ Hw) as Hb;
  cbn [ws_size ws_phy_port ws_table_stats ws_port_stats ws_queue_stats] in Hb;
  unfold message_length in Hl; cbn [wire_body] in Hl; autorewrite with len in Hl;
  cbn [create_message]; autounfold with create; autounfold with layout;
  repeat (rewrite (u16_small (Z.of_nat _)) by lia); rewrite ?u16_small by lia; create_header;
  unfold hton_phy_port, hton_table_stats, hton_port_stats, hton_queue_stats;
  fold_ws ofp_phy_port; fold_ws ofp_table_stats; fold_ws ofp_port_stats; fold_ws ofp_queue_stats;
  repeat wr1'.
Ltac array_done :=
  first [ rewrite store_each_ok by first [done | len | (cbn; len)] ];
  cbn [ws_size ws_phy_port ws_table_stats ws_port_stats ws_queue_stats]; create_done.

Lemma create_table_stats_reply_ok xid flags l :
  wf_message (TableStatsReply flags l) ->
  create_message xid (TableStatsReply flags l) = Ok (wire_message xid (TableStatsReply flags l)).
Proof. array_start ofp_table_stats l Hw Hl. array_done. Qed.

Lemma create_port_stats_reply_ok xid flags l :
  wf_message (PortStatsReply flags l) ->
  create_message xid (PortStatsReply flags l) = Ok (wire_message xid (PortStatsReply flags l)).
Proof. array_start ofp_port_stats l Hw Hl. array_done. Qed.

Lemma create_queue_stats_reply_ok xid flags l :
  wf_message (QueueStatsReply flags l) ->
  create_message xid (QueueStatsReply flags l) = Ok (wire_message xid (QueueStatsReply flags l)).
Proof. array_start ofp_queue_stats l Hw Hl. array_done. Qed.

Lemma create_features_reply_ok xid d b t c a l :
  wf_message (FeaturesReply d b t c a l) ->
  create_message xid (FeaturesReply d b t c a l) = Ok (wire_message xid (FeaturesReply d b t c a l)).
Proof.
  array_start ofp_phy_port l Hw Hl. destruct l as [| x l]; cbn [truth length Z.of_nat Z.eqb negb].
  - create_done.
  - cbn [Z.of_nat truth]. array_done.
Qed.
End CreateMessages.

(** * Every constructor writes the layout of the protocol *)

Section CreateAll.
Context {host : Host}.

Lemma create_message_wire xid x :
  wf_message x -> create_message xid x = Ok (wire_message xid x).
Proof.
  destruct x;
    eauto using create_error_ok, create_hello_ok, create_echo_request_ok, create_echo_reply_ok,
      create_vendor_ok, create_features_request_ok, create_features_reply_ok,
      create_get_config_request_ok, create_get_config_reply_ok, create_set_config_ok,
      create_packet_in_ok, create_flow_removed_ok, create_port_status_ok, create_packet_out_ok,
      create_flow_mod_ok, create_port_mod_ok, create_desc_stats_request_ok,
      create_flow_stats_request_ok, create_aggregate_stats_request_ok,
      create_table_stats_request_ok, create_port_stats_request_ok, create_queue_stats_request_ok,
      create_vendor_stats_request_ok, create_aggregate_stats_reply_ok, create_table_stats_reply_ok,
      create_port_stats_reply_ok, create_queue_stats_reply_ok, create_vendor_stats_reply_ok,
      create_barrier_request_ok, create_barrier_reply_ok, create_queue_get_config_request_ok.
Qed.

(** C2. For every kind of message with a fixed layout, an array or a list of
    actions: the constructor returns, without a fault, exactly the bytes that
    the OpenFlow 1.0 structures prescribe for its arguments, in network byte
    order whatever the order of the host, provided the structures it is given
    are well formed and the message fits in the 16-bit length. *)
Theorem create_message_ok xid x :
  wf_message x -> create_message xid x = Ok (wire_message xid x).
Proof. apply create_message_wire. Qed.

(** [create_error] keeps the low 16 bits of the length of the data but
    copies all of them: data of 65536 bytes or more overrun the message, when
    the low bits are not 0 and the message still fits its length field. *)
Theorem create_error_overruns xid t c d :
  2 ^ 16 <= blen d -> 1 <= blen d mod 2 ^ 16 <= 65523 ->
  create_error xid t c (Some d) = Fault OutOfBounds.
Proof.
  intros Hd Hm. unfold create_error, length16. replace (0 <? blen d) with true by lia.
  unfold sizeof_ofp_error_msg. change (u16 (blen d)) with (blen d mod 2 ^ 16).
  cbv zeta. rewrite u16_small by lia. rewrite create_header_ok by lia. bind_ok. repeat wr1.
  replace (0 <? blen d mod 2 ^ 16) with true by lia.
  unfold st_bytes. rewrite !blen_app, blen_zeros. 
  match goal with |- context [12 + blen d <=? ?x] => replace (12 + blen d <=? x) with false end.
  - by rewrite andb_false_r.
  - symmetry. apply Z.leb_gt. autorewrite with len. lia.
Qed.
End CreateAll.

Section CreateWitnesses.
Let host : Host := LittleEndian.
#[local] Existing Instance host.

Definition sample_packet_out : message := PacketOut 256 OFPP_NONE sample_actions (zeros 60).

Lemma create_message_ok_witness :
  wf_message sample_packet_out /\
  create_message 7 sample_packet_out = Ok (wire_message 7 sample_packet_out).
Proof.
  assert (H : wf_message sample_packet_out).
  { split; [| by vm_compute]. split; [exact sample_actions_wf | done]. }
  split; [exact H | exact (create_message_ok 7 sample_packet_out H)].
Defined.

Lemma create_error_overruns_witness :
  2 ^ 16 <= blen (zeros (Z.to_nat 65544)) /\
  create_error 7 1 2 (Some (zeros (Z.to_nat 65544))) = Fault OutOfBounds.
Proof.
  assert (E : blen (zeros (Z.to_nat 65544)) = 65544) by (rewrite blen_zeros; lia).
  assert (H1 : 2 ^ 16 <= blen (zeros (Z.to_nat 65544))) by (rewrite E; lia).
  assert (H2 : 1 <= blen (zeros (Z.to_nat 65544)) mod 2 ^ 16 <= 65523) by (rewrite E; vm_compute; by split).
  split; [exact H1 | exact (create_error_overruns 7 1 2 _ H1 H2)].
Defined.
End CreateWitnesses.
