(* ===== verification/Roundtrip.v ===== *)
(** Constructors against validators (openflow_message.c): what [create_*]
    writes for valid arguments, [validate_openflow_message] accepts.

    [valid_message] says which arguments are valid, in terms of the values and
    not of the bytes. *)

From Stdlib Require Import ZArith Lia Bool.
From coqutil Require Import Byte.
From stdpp Require Import base list.
From S2P Require Import Prelude Memory OpenFlow Codes ByteOrder Actions Validate Create.

(** * Valid arguments *)

(** Only bits of [mask] are set in [x]. *)
Definition within (x mask : Z) : Prop := Z.ldiff x mask = 0.

Definition valid_port_no (p : Z) : Prop :=
  1 <= p <= OFPP_MAX \/ OFPP_IN_PORT <= p <= UINT16_MAX.

Record valid_match (m : ofp_match) : Prop := {
  valid_match_wf : wf_match m;
  valid_match_wildcards : within (wildcards m) OFPFW_ALL;
  valid_match_dl_vlan : dl_vlan m = UINT16_MAX \/ within (dl_vlan m) VLAN_VID_MASK;
  valid_match_dl_vlan_pcp : within (dl_vlan_pcp m) VLAN_PCP_MASK;
  valid_match_nw_tos : within (nw_tos m) NW_TOS_MASK
}.

(** A flow without wildcards has the highest priority. *)
Definition valid_priority (m : ofp_match) (priority : Z) : Prop :=
  fits 2 priority /\ (wildcards m = 0 -> priority = UINT16_MAX).

Record valid_port (p : ofp_phy_port) : Prop := {
  valid_port_wf : wf_phy_port p;
  valid_port_port_no : valid_port_no (pp_port_no p);
  valid_port_config : within (pp_config p) PORT_CONFIG;
  valid_port_state : within (pp_state p) PORT_STATE;
  valid_port_curr : within (pp_curr p) PORT_FEATURES;
  valid_port_advertised : within (pp_advertised p) PORT_FEATURES;
  valid_port_supported : within (pp_supported p) PORT_FEATURES;
  valid_port_peer : within (pp_peer p) PORT_FEATURES
}.

Section ValidMessages.
Context {host : Host}.

Definition valid_action (a : action) : Prop := wf_action a /\ action_error a = 0.

Definition valid_args (x : message) : Prop :=
  match x with
  | FeaturesReply _ _ n_tables _ _ ports => 0 < n_tables < 2 ^ 8 /\ Forall valid_port ports
  | GetConfigReply flags _ | SetConfig flags _ => 0 <= flags <= OFPC_FRAG_MASK
  | PacketIn _ _ in_port reason _ => valid_port_no in_port /\ 0 <= reason <= OFPR_ACTION
  | FlowRemoved m _ priority reason _ _ _ _ _ =>
      valid_match m /\ valid_priority m priority /\ 0 <= reason <= OFPRR_DELETE
  | PortStatus reason desc => 0 <= reason <= OFPPR_MODIFY /\ valid_port desc
  | PacketOut buffer_id in_port l data =>
      valid_port_no in_port /\ Forall valid_action l /\ (buffer_id = UINT32_MAX -> 60 <= blen data)
  | FlowMod m _ command _ _ priority _ out_port flags l =>
      valid_match m /\ valid_priority m priority /\ 0 <= command <= OFPFC_DELETE_STRICT /\
      fits 2 out_port /\ (OFPFC_DELETE <= command -> valid_port_no out_port) /\
      0 <= flags /\ within flags FLOW_MOD_FLAGS /\ Forall valid_action l
  | PortMod port_no hw_addr config mask advertise =>
      valid_port_no port_no /\ (port_no <= OFPP_MAX \/ port_no = OFPP_LOCAL) /\
      length hw_addr = 6%nat /\ fits 4 config /\ fits 4 mask /\ fits 4 advertise /\
      within config PORT_CONFIG /\ within mask PORT_CONFIG /\ within advertise PORT_FEATURES
  | DescStatsRequest flags | TableStatsRequest flags => flags = 0
  | FlowStatsRequest flags m _ out_port | AggregateStatsRequest flags m _ out_port =>
      flags = 0 /\ valid_match m /\ valid_port_no out_port
  | PortStatsRequest flags port_no =>
      flags = 0 /\ valid_port_no port_no /\
      (port_no <= OFPP_MAX \/ port_no = OFPP_NONE \/ port_no = OFPP_LOCAL)
  | QueueStatsRequest flags port_no _ => flags = 0 /\ valid_port_no port_no
  | VendorStatsRequest flags _ _ | AggregateStatsReply flags _ _ _ => flags = 0
  | TableStatsReply flags l =>
      0 <= flags <= 1 /\ Forall (fun t => wf_table_stats t /\ within (ts_wildcards t) OFPFW_ALL) l
  | PortStatsReply flags l =>
      0 <= flags <= 1 /\ Forall (fun p => wf_port_stats p /\ valid_port_no (ps_port_no p)) l
  | QueueStatsReply flags l =>
      0 <= flags <= 1 /\ Forall (fun q => wf_queue_stats q /\ valid_port_no (qs_port_no q)) l
  | VendorStatsReply flags _ _ => 0 <= flags <= 1
  | QueueGetConfigRequest port => valid_port_no port
  | _ => True
  end.

Definition valid_message (x : message) : Prop := valid_args x /\ message_length x < 2 ^ 16.

Lemma Forall_fst {A} (P Q : A -> Prop) l : Forall (fun x => P x /\ Q x) l -> Forall P l.
Proof. intros H. eapply Forall_impl; [exact H |]. cbn. tauto. Qed.

Lemma valid_action_wf l : Forall valid_action l -> Forall wf_action l.
Proof. intros H. eapply Forall_impl; [exact H |]. by intros a []. Qed.

Lemma valid_message_wf x : valid_message x -> wf_message x.
Proof.
  intros [H Hl]. split; [| done]. destruct x; cbn in *; try done; try (by destruct H as [? []]).
  - destruct H as [_ H]. eapply Forall_impl; [exact H |]. by intros p [].
  - by destruct H as [[] _].
  - destruct H as (_ & H%valid_action_wf & ?). done.
  - destruct H as ([] & _ & _ & _ & _ & _ & _ & H%valid_action_wf). done.
  - tauto.
  - by destruct H as (_ & [] & _).
  - by destruct H as (_ & [] & _).
  - destruct H as [_ H]. by apply Forall_fst in H.
  - destruct H as [_ H]. by apply Forall_fst in H.
  - destruct H as [_ H]. by apply Forall_fst in H.
Qed.
End ValidMessages.

(** * Masks *)

Lemma land_lnot_within x mask : within x mask -> Z.land x (Z.lnot mask) = 0.
Proof. intros H. by rewrite <- Z.ldiff_land. Qed.

(** [x & ( uint32_t ) ~mask] for a 32-bit [x]. *)
Lemma land_not32 x mask : fits 4 x -> Z.land x (not32 mask) = Z.ldiff x mask.
Proof.
  intros Hx. unfold not32, u32. rewrite <- Z.land_ones, (Z.land_comm (Z.lnot mask)), Z.land_assoc by lia.
  rewrite (Z.land_ones x) by lia. unfold fits in Hx. cbn in Hx.
  rewrite Z.mod_small by lia. symmetry. apply Z.ldiff_land.
Qed.

Lemma land_not32_within x mask : fits 4 x -> within x mask -> Z.land x (not32 mask) = 0.
Proof. intros Hx H. by rewrite land_not32. Qed.

Lemma validate_phy_port_no_ok p : valid_port_no p -> validate_phy_port_no p = 0.
Proof.
  unfold valid_port_no, validate_phy_port_no, OFPP_MAX, OFPP_IN_PORT, UINT16_MAX. intros H.
  replace (p =? 0) with false by lia. cbn [orb].
  by replace ((65280 <? p) && (p <? 65528)) with false by lia.
Qed.

Lemma validate_wildcards_ok w : fits 4 w -> within w OFPFW_ALL -> validate_wildcards w = 0.
Proof. intros Hw H. unfold validate_wildcards. by rewrite land_not32_within. Qed.

Lemma validate_match_ok m : valid_match m -> validate_match m = 0.
Proof.
  intros [Hwf Hw Hv Hp Ht]. unfold validate_match.
  rewrite validate_wildcards_ok by first [done | by destruct Hwf]. cbn.
  unfold validate_vlan_vid. destruct Hv as [-> | Hv]; [cbn | rewrite land_lnot_within, andb_false_r by done; cbn];
    unfold validate_vlan_pcp, validate_nw_tos; rewrite !land_lnot_within by done; done.
Qed.

(** A flow whose priority passes the check of [validate_flow_mod]. *)
Lemma priority_check m p :
  within (wildcards m) OFPFW_ALL -> valid_priority m p ->
  (Z.land (wildcards m) OFPFW_ALL =? 0) && negb (p =? UINT16_MAX) = false.
Proof.
  intros Hw [_ Hp]. destruct (Z.land (wildcards m) OFPFW_ALL =? 0) eqn:E; [| done].
  apply Z.eqb_eq in E. pose proof (Z.lor_ldiff_and (wildcards m) OFPFW_ALL) as H.
  unfold within in Hw. rewrite Hw, E in H. rewrite Hp by done. by rewrite Z.eqb_refl.
Qed.

Lemma validate_phy_port_ok {host : Host} p P r off :
  valid_port p -> off = blen P -> validate_phy_port (P ++ wire_phy_port p ++ r) off = Ok 0.
Proof.
  intros [Hwf Hn Hc Hs H1 H2 H3 H4] ->. unfold validate_phy_port. fold_ws ofp_phy_port.
  rewrite ws_ld_at by done. bind_ok. rewrite (ws_ntoh_ntoh p) by done. cbn [ws_norm ws_phy_port].
  rewrite validate_phy_port_no_ok by done. cbn [Z.ltb Z.compare]. destruct Hwf.
  by rewrite !land_not32_within.
Qed.

(** * Reading a message of the reference *)

Section Read.
Context {host : Host} (xid : Z) (x : message) (Hl : message_length x < 2 ^ 16).

Lemma fits_message_type : fits 1 (message_type x).
Proof. by destruct x. Qed.

Lemma fits_message_length : fits 2 (message_length x).
Proof. unfold fits, message_length in *. pose proof (blen_nonneg (wire_body x)). cbn. lia. Qed.

Lemma blen_wire_message : blen (wire_message xid x) = message_length x.
Proof. unfold wire_message, message_length. rewrite blen_app, blen_wire_header. lia. Qed.

Lemma ld_version : ld8 (wire_message xid x) 0 = Ok OFP_VERSION.
Proof. unfold wire_message, wire_header. rewrite <- !app_assoc. assert (fits 1 OFP_VERSION) by done. by rd. Qed.

Lemma ld_type : ld8 (wire_message xid x) 1 = Ok (message_type x).
Proof. unfold wire_message, wire_header. rewrite <- !app_assoc. pose proof fits_message_type. by rd. Qed.

Lemma ld_length : ld_ntoh 2 (wire_message xid x) 2 = Ok (message_length x).
Proof. unfold wire_message, wire_header. rewrite <- !app_assoc. pose proof fits_message_length. by rd. Qed.

Lemma ld_xid_ok : exists y, ld_ntoh 4 (wire_message xid x) 4 = Ok y.
Proof.
  unfold ld_ntoh. rewrite ld_in; [eexists; reflexivity | lia |].
  rewrite blen_wire_message. unfold message_length. pose proof (blen_nonneg (wire_body x)). lia.
Qed.

(** Loads beyond the header. *)
Lemma ld_body n off : 8 <= off -> ld n (wire_message xid x) off = ld n (wire_body x) (off - 8).
Proof. intros H. unfold wire_message. by rewrite ld_skip; rewrite blen_wire_header. Qed.

Lemma ld_ntoh_body n off :
  8 <= off -> ld_ntoh n (wire_message xid x) off = ld_ntoh n (wire_body x) (off - 8).
Proof. intros H. unfold ld_ntoh. by rewrite ld_body. Qed.

Lemma ws_ld_body {A} `{WireStructOk A} off :
  8 <= off -> ws_ld (wire_message xid x) off = ws_ld (wire_body x) (off - 8).
Proof. intros H8. unfold wire_message. by rewrite ws_ld_skip; rewrite blen_wire_header. Qed.

Lemma validate_header_ok type min_length max_length :
  type = message_type x -> min_length <= message_length x <= max_length ->
  validate_header (wire_message xid x) type min_length max_length = Ok 0.
Proof.
  intros -> Hb. unfold validate_header. rewrite blen_wire_message, ld_version, ld_type. bind_ok.
  rewrite ld_length. bind_ok. unfold sizeof_ofp_header.
  assert (8 <= message_length x) by (unfold message_length; pose proof (blen_nonneg (wire_body x)); lia).
  replace (message_length x <? 8) with false by lia.
  replace (valid_message_version (message_type x) OFP_VERSION) with true by by destruct x.
  replace (OFPT_QUEUE_GET_CONFIG_REPLY <? message_type x) with false by by destruct x.
  rewrite Z.eqb_refl. cbn [negb].
  replace (max_length <? message_length x) with false by lia.
  replace (message_length x <? min_length) with false by lia.
  by rewrite Z.ltb_irrefl.
Qed.
End Read.

(** Evaluate the loads of a body against its segments. *)
Ltac rd_struct :=
  match goal with
  | |- context [@ws_ld ?A _ (wire_message _ _) _] => rewrite (ws_ld_body _ _ (A := A)) by lia
  | |- context [@ws_ld ?A _ (ws_wire _ ++ _) _] => rewrite (ws_ld_wire (A := A)) by wire_side
  | |- context [@ws_ld ?A _ (_ ++ _) _] => rewrite (ws_ld_skip (A := A)) by wire_side
  end.
Ltac rdb :=
  repeat first
    [ rewrite ld_body by lia | rewrite ld_ntoh_body by lia
    | progress cbn [wire_body]; unfold wire_stats; fold_structs; rewrite <- ?app_assoc
    | rd1 | rd_struct ];
  bind_ok.

Create HintDb validate.
#[export] Hint Unfold validate_hello validate_error validate_echo_request validate_echo_reply
  validate_vendor validate_features_request validate_features_reply validate_get_config_request
  validate_switch_config validate_get_config_reply validate_set_config validate_packet_in
  validate_flow_removed validate_port_status validate_packet_out validate_flow_mod
  validate_port_mod validate_stats_request_header validate_desc_stats_request
  validate_flow_stats_request validate_aggregate_stats_request validate_table_stats_request
  validate_port_stats_request validate_queue_stats_request validate_vendor_stats_request
  validate_stats_request validate_stats_reply_header validate_aggregate_stats_reply
  validate_stats_array validate_table_stats_reply validate_port_stats_reply
  validate_queue_stats_reply validate_vendor_stats_reply validate_stats_reply
  validate_barrier_request validate_barrier_reply validate_queue_get_config_request : validate.

(** Select the validator of the message, and check its header. *)
Ltac dispatch :=
  unfold validate_openflow_message; rewrite ld_version, ld_type by assumption; bind_ok;
  rewrite ld_length by assumption; bind_ok;
  match goal with |- context [ld_ntoh 4 (wire_message ?xid ?x) 4] =>
    let y := fresh "y" in let Hy := fresh "Hy" in destruct (ld_xid_ok xid x) as [y Hy];
    rewrite Hy; bind_ok; cbn [message_type]; bind_ok; clear y Hy end;
  select_type.

Ltac lengths Hl :=
  unfold message_length in Hl; cbn [wire_body] in Hl; unfold wire_stats in Hl;
  revert Hl; fold_structs; size_structs; intros Hl; autorewrite with len in Hl;
  repeat match type of Hl with
  | context [blen ?d] =>
    lazymatch goal with H : 0 <= blen d |- _ => fail | _ => pose proof (blen_nonneg d) end
  end.

Ltac header_ok Hl :=
  autounfold with validate; autounfold with layout; select_type; bind_ok; cbn [assert]; bind_ok;
  rewrite validate_header_ok; [bind_ok; cbn [Z.ltb Z.compare]; bind_ok | exact Hl | done |
    unfold message_length, UINT16_MAX; cbn [wire_body]; unfold wire_stats; fold_structs;
    autorewrite with len; lia].

Ltac port_no := rewrite validate_phy_port_no_ok by done; bind_ok; cbn [Z.ltb Z.compare]; bind_ok.
Ltac fits_port H :=
  match type of H with valid_port_no ?p =>
    assert (fits 2 p) by (destruct H; unfold fits, OFPP_MAX, OFPP_IN_PORT, UINT16_MAX in *; cbn; lia)
  end.
Ltac match_ok H :=
  fold_structs; rdb; bind_ok; rewrite ws_ntoh_ntoh by done;
  change (validate_match (ws_norm ?m)) with (validate_match m);
  rewrite validate_match_ok by done; bind_ok; cbn [Z.ltb Z.compare]; bind_ok.

(** The type is read, the header checked, then the type and the flags. *)
Ltac request Hl :=
  dispatch; let Hl' := fresh "Hl" in pose proof Hl as Hl'; lengths Hl';
  autounfold with validate; rdb; select_type; header_ok Hl; rdb; select_type; cbn [negb]; rdb;
  bind_ok; cbn [Z.eqb negb Z.ltb Z.compare]; bind_ok.

Section Accept.
Context {host : Host}.

Section Simple.
Context (xid : Z) (x : message) (Hx : valid_message x).

Lemma accept_simple :
  match x with
  | Hello | Error _ _ _ | EchoRequest _ | EchoReply _ | VendorMessage _ _ | FeaturesRequest
  | GetConfigRequest | BarrierRequest | BarrierReply =>
    validate_openflow_message (wire_message xid x) = Ok 0
  | _ => True
  end.
Proof.
  destruct Hx as [_ Hl]. destruct x; try done; dispatch; pose proof Hl as Hl'; lengths Hl';
    header_ok Hl; try reflexivity;
    rewrite ld_length by done; bind_ok; by rewrite blen_wire_message, Z.eqb_refl.
Qed.

Lemma accept_switch_config :
  match x with
  | GetConfigReply _ _ | SetConfig _ _ => validate_openflow_message (wire_message xid x) = Ok 0
  | _ => True
  end.
Proof.
  destruct Hx as [Hv Hl]. destruct x; try done; cbn in Hv; dispatch; pose proof Hl as Hl'; lengths Hl';
    header_ok Hl; (assert (fits 2 flags) by (unfold fits, OFPC_FRAG_MASK in *; lia)); rdb;
    by replace (OFPC_FRAG_MASK <? flags) with false by lia.
Qed.

Lemma accept_ports :
  match x with
  | PacketIn _ _ _ _ _ | PortStatus _ _ | QueueGetConfigRequest _ =>
    validate_openflow_message (wire_message xid x) = Ok 0
  | _ => True
  end.
Proof.
  destruct Hx as [Hv Hl]. destruct x; try done; cbn in Hv.
  - destruct Hv as [Hp Hr]. dispatch; pose proof Hl as Hl'; lengths Hl'; header_ok Hl.
    fits_port Hp. rdb. port_no.
    assert (fits 1 reason) by (unfold fits, OFPR_ACTION in *; cbn; lia). rdb.
    by replace (OFPR_ACTION <? reason) with false by lia.
  - destruct Hv as [Hr Hp]. pose proof Hp as [Hw _ _ _ _ _ _ _].
    dispatch; pose proof Hl as Hl'; lengths Hl'; header_ok Hl.
    assert (fits 1 reason) by (unfold fits, OFPPR_MODIFY in *; cbn; lia). rdb.
    replace (OFPPR_MODIFY <? reason) with false by lia.
    unfold wire_message. cbn [wire_body].
    pose proof (validate_phy_port_ok desc (wire_header (message_type (PortStatus reason desc))
      (message_length (PortStatus reason desc)) xid ++ be_encode 1 reason ++ zeros 7) [] 16 Hp) as E.
    rewrite app_nil_r, <- !app_assoc in E. rewrite E by len. done.
  - dispatch; pose proof Hl as Hl'; lengths Hl'; header_ok Hl. fits_port Hv. rdb. by port_no.
Qed.

Lemma accept_port_mod :
  match x with
  | PortMod _ _ _ _ _ => validate_openflow_message (wire_message xid x) = Ok 0
  | _ => True
  end.
Proof.
  destruct Hx as [Hv Hl]. destruct x; try done; cbn in Hv.
  destruct Hv as (Hp & Hr & Hh & Hc & Hm & Ha & Wc & Wm & Wa).
  assert (blen hw_addr = 6) by (unfold blen; lia). dispatch; pose proof Hl as Hl'; lengths Hl'; header_ok Hl. fits_port Hp. rdb. port_no.
  replace ((OFPP_MAX <? port_no) && negb (port_no =? OFPP_LOCAL)) with false
    by (unfold OFPP_LOCAL in *; lia).
  rdb. rewrite (land_not32_within _ PORT_CONFIG) by done. cbn [Z.eqb negb].
  rdb. rewrite (land_not32_within _ PORT_CONFIG) by done. cbn [Z.eqb negb].
  rdb. by rewrite (land_not32_within _ PORT_FEATURES) by done.
Qed.

Lemma accept_flow_removed :
  match x with
  | FlowRemoved _ _ _ _ _ _ _ _ _ => validate_openflow_message (wire_message xid x) = Ok 0
  | _ => True
  end.
Proof.
  destruct Hx as [Hv Hl]. destruct x; try done; cbn in Hv.
  destruct Hv as (Hm & Hp & Hr). pose proof Hm as [Hw Hwc _ _ _]. pose proof Hp as [Hf _].
  dispatch; pose proof Hl as Hl'; lengths Hl'; header_ok Hl. match_ok Hm. rdb.
  change (wildcards (ws_norm match_)) with (wildcards match_).
  rewrite priority_check by done. bind_ok.
  assert (fits 1 reason) by (unfold fits, OFPRR_DELETE in *; cbn; lia). rdb.
  by replace (OFPRR_DELETE <? reason) with false by lia.
Qed.

Lemma accept_requests :
  match x with
  | DescStatsRequest _ | FlowStatsRequest _ _ _ _ | AggregateStatsRequest _ _ _ _
  | TableStatsRequest _ | PortStatsRequest _ _ | QueueStatsRequest _ _ _
  | VendorStatsRequest _ _ _ => validate_openflow_message (wire_message xid x) = Ok 0
  | _ => True
  end.
Proof.
  assert (fits 2 0) as Hz by done.
  assert (fits 2 OFPST_DESC /\ fits 2 OFPST_FLOW /\ fits 2 OFPST_AGGREGATE /\ fits 2 OFPST_TABLE /\
    fits 2 OFPST_PORT /\ fits 2 OFPST_QUEUE /\ fits 2 OFPST_VENDOR) as (? & ? & ? & ? & ? & ? & ?)
    by done.
  destruct Hx as [Hv Hl]. destruct x; try done; cbn in Hv.
  - subst flags. request Hl. by rdb.
  - destruct Hv as (-> & Hm & Hp). pose proof Hm as [Hw _ _ _ _]. fits_port Hp. request Hl.
    match_ok Hm. rdb. by port_no.
  - destruct Hv as (-> & Hm & Hp). pose proof Hm as [Hw _ _ _ _]. fits_port Hp. request Hl.
    match_ok Hm. rdb. by port_no.
  - subst flags. by request Hl.
  - destruct Hv as (-> & Hp & Hr). fits_port Hp. request Hl. rdb. port_no.
    by replace ((OFPP_MAX <? port_no) && negb (port_no =? OFPP_NONE) && negb (port_no =? OFPP_LOCAL))
      with false by (unfold OFPP_LOCAL, OFPP_NONE in *; lia).
  - destruct Hv as (-> & Hp). fits_port Hp. request Hl. rdb. by port_no.
  - subst flags. by request Hl.
Qed.
End Simple.

(** ** Arrays and lists of actions *)

Lemma validate_each_ok {A} `{WireStructOk A} (f : bytes -> Z -> res Z) (Q : A -> Prop) l P r p size :
  (forall x P r, ws_wf x -> Q x -> f (P ++ ws_wire x ++ r) (blen P) = Ok 0) ->
  Forall (fun x => ws_wf x /\ Q x) l -> p = blen P -> size = Z.of_nat ws_size ->
  validate_each f size (length l) (P ++ wire_array l ++ r) p = Ok 0.
Proof.
  intros Hf Hl -> ->. revert P. induction Hl as [| x l [Hx HQ] Hl IH]; intros P; [done |].
  cbn [validate_each length]. rewrite wire_array_cons, <- app_assoc, Hf by done.
  bind_ok; cbn [Z.ltb Z.compare]; bind_ok. specialize (IH (P ++ ws_wire x)).
  rewrite <- app_assoc, blen_app, blen_ws_wire in IH by done. exact IH.
Qed.

(** An element of an array is checked through one member. *)
Lemma element_ok {A} `{WireStructOk A} (n : nat) (k : Z) (get : A -> Z) (check : Z -> Z) x P r :
  (forall r, ld_ntoh n (ws_wire x ++ r) k = Ok (get x)) -> 0 <= k -> check (get x) = 0 ->
  (let* y := ld_ntoh n (P ++ ws_wire x ++ r) (blen P + k) in Ok (check y)) = Ok 0.
Proof.
  intros Hg Hk Hc. rewrite ld_ntoh_skip by lia.
  replace (blen P + k - blen P) with k by lia. rewrite Hg. bind_ok. by rewrite Hc.
Qed.

Ltac element Hx :=
  intros; cbn; destruct Hx; autounfold with wire; rewrite <- ?app_assoc; by rd.

Lemma flags_ok flags : 0 <= flags <= 1 -> fits 2 flags /\ Z.land flags (Z.lnot OFPSF_REPLY_MORE) = 0.
Proof. intros H. assert (flags = 0 \/ flags = 1) as [-> | ->] by lia; done. Qed.

(** The array of a statistics reply. *)
Lemma validate_stats_array_ok {A} `{WireStructOk A} xid x t flags (l : list A) f Q :
  wire_body x = wire_stats t flags ++ wire_array l -> message_type x = OFPT_STATS_REPLY ->
  message_length x < 2 ^ 16 -> 0 <= flags <= 1 -> (0 < ws_size)%nat ->
  (forall x P r, ws_wf x -> Q x -> f (P ++ ws_wire x ++ r) (blen P) = Ok 0) ->
  Forall (fun x => ws_wf x /\ Q x) l ->
  validate_stats_array (wire_message xid x) (Z.of_nat ws_size) f = Ok 0.
Proof.
  intros Hb Ht Hl [Hf0 Hf1]%flags_ok Hs Hf HQ.
  pose proof (blen_wire_array l (Forall_fst _ _ _ HQ)) as Ha.
  assert (Hlen : message_length x = 12 + Z.of_nat ws_size * Z.of_nat (length l)).
  { unfold message_length. rewrite Hb, blen_app, Ha. len. }
  unfold validate_stats_array, validate_stats_reply_header, offsetof_stats_reply_body.
  rewrite validate_header_ok by first [done | unfold UINT16_MAX; lia]. bind_ok; cbn [Z.ltb Z.compare]; bind_ok.
  rewrite ld_ntoh_body by lia. rewrite Hb. unfold wire_stats. rewrite <- app_assoc. rd.
  rewrite Hf1. bind_ok; cbn [Z.eqb negb Z.ltb Z.compare]; bind_ok. rewrite ld_length by done. bind_ok.
  rewrite Hlen, u16_small by lia.
  replace (12 + Z.of_nat ws_size * Z.of_nat (length l) - 12)
    with (Z.of_nat (length l) * Z.of_nat ws_size) by lia.
  rewrite Z.mod_mul, Z.div_mul, Nat2Z.id by lia. cbn [Z.eqb negb].
  unfold wire_message. rewrite Hb, app_assoc, <- (app_nil_r (wire_array l)).
  apply (validate_each_ok f Q); [done | done | len | done].
Qed.

Section Replies.
Context (xid : Z) (x : message) (Hx : valid_message x).

(** The type of a statistics reply selects its validator. *)
Ltac reply :=
  dispatch; unfold validate_stats_reply; rdb; select_type.

Lemma table_stats_ok flags l :
  valid_message (TableStatsReply flags l) ->
  validate_openflow_message (wire_message xid (TableStatsReply flags l)) = Ok 0.
Proof.
  intros [[Hf HQ] Hl]. assert (fits 2 OFPST_TABLE) by done. reply.
  refine (validate_stats_array_ok (A := ofp_table_stats) xid (TableStatsReply flags l) OFPST_TABLE flags l _
    (fun t => within (ts_wildcards t) OFPFW_ALL) eq_refl eq_refl Hl Hf _ _ HQ); [cbn; lia |].
  intros t P r Hw Hq. apply (element_ok 4 36 ts_wildcards validate_wildcards t); [| lia |].
  - element Hw.
  - by apply validate_wildcards_ok; [destruct Hw |].
Qed.

Lemma port_stats_ok flags l :
  valid_message (PortStatsReply flags l) ->
  validate_openflow_message (wire_message xid (PortStatsReply flags l)) = Ok 0.
Proof.
  intros [[Hf HQ] Hl]. assert (fits 2 OFPST_PORT) by done. reply.
  refine (validate_stats_array_ok (A := ofp_port_stats) xid (PortStatsReply flags l) OFPST_PORT flags l _
    (fun p => valid_port_no (ps_port_no p)) eq_refl eq_refl Hl Hf _ _ HQ); [cbn; lia |].
  intros t P r Hw Hq.
  pose proof (element_ok 2 0 ps_port_no validate_phy_port_no t P r) as E. rewrite Z.add_0_r in E.
  apply E; [| lia | by apply validate_phy_port_no_ok]. element Hw.
Qed.

Lemma queue_stats_ok flags l :
  valid_message (QueueStatsReply flags l) ->
  validate_openflow_message (wire_message xid (QueueStatsReply flags l)) = Ok 0.
Proof.
  intros [[Hf HQ] Hl]. assert (fits 2 OFPST_QUEUE) by done. reply.
  refine (validate_stats_array_ok (A := ofp_queue_stats) xid (QueueStatsReply flags l) OFPST_QUEUE flags l _
    (fun q => valid_port_no (qs_port_no q)) eq_refl eq_refl Hl Hf _ _ HQ); [cbn; lia |].
  intros t P r Hw Hq.
  pose proof (element_ok 2 0 qs_port_no validate_phy_port_no t P r) as E. rewrite Z.add_0_r in E.
  apply E; [| lia | by apply validate_phy_port_no_ok]. element Hw.
Qed.

Lemma accept_replies :
  match x with
  | AggregateStatsReply _ _ _ _ | VendorStatsReply _ _ _ =>
    validate_openflow_message (wire_message xid x) = Ok 0
  | _ => True
  end.
Proof.
  assert (fits 2 OFPST_AGGREGATE /\ fits 2 OFPST_VENDOR /\ fits 2 0) as (? & ? & ?) by done.
  destruct Hx as [Hv Hl]. destruct x; try done; cbn in Hv.
  - subst flags. reply. pose proof Hl as Hl'; lengths Hl'. header_ok Hl. rdb. done.
  - pose proof (flags_ok _ Hv) as [? Hr]. reply. pose proof Hl as Hl'; lengths Hl'. header_ok Hl.
    rdb. by rewrite Hr.
Qed.

Lemma features_reply_ok d b t c a l :
  valid_message (FeaturesReply d b t c a l) ->
  validate_openflow_message (wire_message xid (FeaturesReply d b t c a l)) = Ok 0.
Proof.
  intros [[Ht HQ] Hl].
  assert (Hw : Forall (ws_wf (A := ofp_phy_port)) l).
  { eapply Forall_impl; [exact HQ |]. by intros p []. }
  pose proof (blen_wire_array l Hw) as Ha. cbn [ws_size ws_phy_port] in Ha.
  assert (Hlen : message_length (FeaturesReply d b t c a l) = 32 + 48 * Z.of_nat (length l)).
  { unfold message_length. cbn [wire_body]. len. }
  dispatch. unfold validate_features_reply. autounfold with layout.
  rewrite validate_header_ok by first [done | unfold UINT16_MAX; lia]. bind_ok; cbn [Z.ltb Z.compare]; bind_ok.
  assert (fits 1 t) by (unfold fits; cbn; lia). rdb. replace (t =? 0) with false by lia.
  rewrite ld_length by done. bind_ok. rewrite Hlen, u16_small by lia.
  replace (32 + 48 * Z.of_nat (length l) - 32) with (Z.of_nat (length l) * 48) by lia.
  rewrite Z.mod_mul by lia. cbn [Z.eqb negb]. destruct l as [| p l]; [done |].
  rewrite (proj2 (Z.ltb_lt 0 (Z.of_nat (length (p :: l)) * 48))) by (cbn [length]; lia).
  rewrite Z.div_mul by lia. unfold validate_phy_ports.
  rewrite (proj2 (Z.eqb_neq (Z.of_nat (length (p :: l))) 0)) by (cbn [length]; lia).
  bind_ok; cbn [negb assert]; bind_ok. rewrite Nat2Z.id. unfold wire_message. cbn [wire_body].
  rewrite !app_assoc. rewrite <- (app_nil_r (wire_array (p :: l))).
  rewrite (validate_each_ok (A := ofp_phy_port) validate_phy_port valid_port); try done.
  - intros q P' r Hq HQ'. by apply validate_phy_port_ok.
  - eapply Forall_impl; [exact HQ |]. intros q Hq. by destruct Hq.
Qed.
End Replies.
End Accept.
