(* ===== verification/Accept.v ===== *)
(** The messages with actions, and acceptance of every message of the
    reference. *)

From Stdlib Require Import ZArith Lia Bool.
From coqutil Require Import Byte.
From stdpp Require Import base list.
From S2P Require Import Prelude Memory OpenFlow Codes ByteOrder Actions Validate Create Roundtrip.

Section AcceptActions.
Context {host : Host} (xid : Z) (x : message) (Hx : valid_message x).

Lemma valid_actions_error l : Forall valid_action l -> actions_error l = 0.
Proof. induction 1 as [| a l [_ Ha] _ IH]; [done |]. cbn. by rewrite Ha, IH. Qed.

Lemma accept_packet_out :
  match x with
  | PacketOut _ _ _ _ => validate_openflow_message (wire_message xid x) = Ok 0
  | _ => True
  end.
Proof.
  destruct Hx as [Hv Hl]. destruct x; try done; cbn in Hv.
  destruct Hv as (Hp & Ha & _). pose proof (valid_action_wf _ Ha) as Hw.
  pose proof (actions_len_nonneg _ Hw). pose proof (blen_wire_actions _ Hw).
  dispatch; pose proof Hl as Hl'; lengths Hl'; header_ok Hl. fits_port Hp. rdb. port_no.
  assert (fits 2 (actions_len actions)) by (unfold fits; cbn; lia). rdb.
  destruct (0 <? actions_len actions); [| done].
  unfold wire_message. cbn [wire_body]. rewrite !app_assoc, <- app_assoc.
  rewrite validate_actions_ok; [by rewrite valid_actions_error | done | len | done | lia].
Qed.

Lemma out_port_check command out_port :
  0 <= command <= OFPFC_DELETE_STRICT -> (OFPFC_DELETE <= command -> valid_port_no out_port) ->
  (if (command =? OFPFC_DELETE) || (command =? OFPFC_DELETE_STRICT) then
     if negb (out_port =? OFPP_NONE) then Ok (validate_phy_port_no out_port) else Ok 0
   else Ok 0) = Ok 0.
Proof.
  unfold OFPFC_DELETE, OFPFC_DELETE_STRICT. intros Hc Ho.
  destruct ((command =? 3) || (command =? 4)) eqn:E; [| done].
  destruct (negb _); [| done]. by rewrite validate_phy_port_no_ok by (apply Ho; lia).
Qed.

Lemma flow_mod_flags_fits flags : 0 <= flags -> within flags FLOW_MOD_FLAGS -> fits 2 flags.
Proof.
  intros Hf Hw. pose proof (Z.lor_ldiff_and flags FLOW_MOD_FLAGS) as E. rewrite Hw, Z.lor_0_l in E.
  change FLOW_MOD_FLAGS with (Z.ones 3) in E. rewrite Z.land_ones in E by lia.
  pose proof (Z.mod_pos_bound flags (2 ^ 3) ltac:(lia)). unfold fits. change (2 ^ 3) with 8 in *. change (2 ^ (8 * Z.of_nat 2)) with 65536. lia.
Qed.

Lemma accept_flow_mod :
  match x with
  | FlowMod _ _ _ _ _ _ _ _ _ _ => validate_openflow_message (wire_message xid x) = Ok 0
  | _ => True
  end.
Proof.
  destruct Hx as [Hv Hl]. destruct x; try done; cbn in Hv.
  destruct Hv as (Hm & Hp & Hc & Hof & Ho & Hf & Hfl & Ha).
  pose proof (valid_action_wf _ Ha) as Hw. pose proof Hm as [Hmw Hwc _ _ _]. pose proof Hp as [Hpf _].
  pose proof (actions_len_nonneg _ Hw). pose proof (blen_wire_actions _ Hw).
  dispatch; pose proof Hl as Hl'; lengths Hl'; header_ok Hl. match_ok Hm.
  assert (fits 2 command) by (unfold fits, OFPFC_DELETE_STRICT in *; cbn; lia). rdb.
  replace (OFPFC_DELETE_STRICT <? command) with false by lia. rdb.
  change (wildcards (ws_norm match_)) with (wildcards match_).
  rewrite priority_check by done. rdb.
  replace (if (command =? OFPFC_DELETE) || (command =? OFPFC_DELETE_STRICT) then _ else Ok 0) with (Ok 0)
    by exact (eq_sym (out_port_check command out_port Hc Ho)).
  cbn [bind Z.ltb Z.compare]. assert (fits 2 flags) by by apply flow_mod_flags_fits. rdb.
  rewrite land_lnot_within by done. cbn [Z.eqb negb]. rewrite ld_length by done. cbn [bind].
  assert (Hlen : message_length (FlowMod match_ cookie command idle_timeout hard_timeout priority
    buffer_id out_port flags actions) = 72 + actions_len actions).
  { unfold message_length. cbn [wire_body]. fold_structs. len. }
  rewrite Hlen in Hl |- *. replace (72 + actions_len actions - 72) with (actions_len actions) by lia.
  rewrite u16_small by lia. destruct (0 <? actions_len actions); [| done].
  unfold wire_message. cbn [wire_body]. rewrite !app_assoc, <- (app_nil_r (wire_actions actions)).
  rewrite validate_actions_ok; [by rewrite valid_actions_error | done | | done | lia].
  fold_structs. len.
Qed.

Lemma accept_valid : validate_openflow_message (wire_message xid x) = Ok 0.
Proof.
  pose proof (accept_simple xid x Hx). pose proof (accept_switch_config xid x Hx).
  pose proof (accept_ports xid x Hx). pose proof (accept_port_mod xid x Hx).
  pose proof (accept_flow_removed xid x Hx). pose proof (accept_requests xid x Hx).
  pose proof (accept_replies xid x Hx). pose proof accept_packet_out. pose proof accept_flow_mod.
  revert Hx. destruct x; intros Hv; try assumption.
  - exact (features_reply_ok xid _ _ _ _ _ _ Hv).
  - exact (table_stats_ok xid _ _ Hv).
  - exact (port_stats_ok xid _ _ Hv).
  - exact (queue_stats_ok xid _ _ Hv).
Qed.
End AcceptActions.

Section AcceptAll.
Context {host : Host}.

(** C1. For every kind of message and valid arguments, the constructor returns
    a message without a fault, and [validate_openflow_message] accepts it. *)
Theorem created_message_accepted xid x :
  valid_message x ->
  exists m, create_message xid x = Ok m /\ validate_openflow_message m = Ok 0.
Proof.
  intros H. exists (wire_message xid x). split; [| by apply accept_valid].
  by apply create_message_wire, valid_message_wf.
Qed.

(** C27. [ERROR_UNDEFINED_FLOW_MOD_COMMAND] is 0, the value of [SUCCESS]: a flow
    modification whose command is not one of the protocol is accepted whatever
    its priority, output port, flags and actions. *)
Theorem undefined_command_accepted xid m c command i h p b o f l :
  let x := FlowMod m c command i h p b o f l in
  valid_match m -> Forall wf_action l -> OFPFC_DELETE_STRICT < command < 2 ^ 16 ->
  message_length x < 2 ^ 16 ->
  validate_openflow_message (wire_message xid x) = Ok SUCCESS.
Proof.
  intros x Hm Hw Hc Hl. unfold x in *. pose proof Hm as [Hmw _ _ _ _].
  pose proof (actions_len_nonneg _ Hw). pose proof (blen_wire_actions _ Hw).
  dispatch; pose proof Hl as Hl'; lengths Hl'; header_ok Hl. match_ok Hm.
  assert (fits 2 command) by (unfold fits, OFPFC_DELETE_STRICT in *; cbn; lia). rdb.
  by replace (OFPFC_DELETE_STRICT <? command) with true by lia.
Qed.
End AcceptAll.

Section AcceptWitnesses.
Let host : Host := LittleEndian.
#[local] Existing Instance host.

Definition sample_match : ofp_match :=
  Build_ofp_match OFPFW_ALL 1 (zeros 6) (zeros 6) 0 0 (zeros 1) 0 0 0 (zeros 2) 0 0 0 0.

Definition sample_flow_mod (command : Z) : message :=
  FlowMod sample_match 1 command 60 0 100 UINT32_MAX OFPP_NONE 1 sample_actions.

Lemma sample_match_valid : valid_match sample_match.
Proof. repeat split; try done. by right. Qed.

Lemma sample_flow_mod_valid : valid_message (sample_flow_mod OFPFC_ADD).
Proof.
  split; [| by vm_compute]. pose proof sample_match_valid. pose proof sample_actions_wf as Hw.
  split; [done | split; [done |]]. repeat (split; [done |]). apply Forall_forall. intros a Ha.
  split; [by eapply Forall_forall in Hw |]. repeat (apply elem_of_cons in Ha as [-> | Ha]; [done |]). by inversion Ha.
Qed.

Lemma created_message_accepted_witness :
  valid_message (sample_flow_mod OFPFC_ADD) /\
  exists m, create_message 7 (sample_flow_mod OFPFC_ADD) = Ok m /\ validate_openflow_message m = Ok 0.
Proof. split; [exact sample_flow_mod_valid | exact (created_message_accepted 7 _ sample_flow_mod_valid)]. Defined.

Lemma undefined_command_accepted_witness :
  valid_match sample_match /\ OFPFC_DELETE_STRICT < 77 < 2 ^ 16 /\
  validate_openflow_message (wire_message 7 (sample_flow_mod 77)) = Ok SUCCESS.
Proof.
  split; [exact sample_match_valid | split; [done |]].
  exact (undefined_command_accepted 7 sample_match 1 77 60 0 100 UINT32_MAX OFPP_NONE 1
    sample_actions sample_match_valid sample_actions_wf ltac:(done) ltac:(done)).
Defined.
End AcceptWitnesses.
