(* ===== verification/SwitchInfo.v ===== *)
(** switchinfo.h: the state of the daemon of one switch, and its effects.

    [switch_info] is the global variable of that name with the static variables of switch.c,
    the tables of xid_table.c and cookie_table.c and what the daemon has asked of the
    messenger, of the event handler and of the rest of the process.  Lists of
    service names are lists of strings. *)

From Stdlib Require Import ZArith Lia Bool.
From coqutil Require Import Byte.
From stdpp Require Import base list gmap.
From S2P Require Import Prelude Memory Buffer MessageQueue SecureChannel XidTable CookieTable.

Inductive switch_state : Type :=
| SWITCH_STATE_CONNECTED
| SWITCH_STATE_WAIT_HELLO
| SWITCH_STATE_WAIT_FEATURES_REPLY
| SWITCH_STATE_COMPLETED
| SWITCH_STATE_DISCONNECTED.

#[export] Instance switch_state_eq_dec : EqDecision switch_state.
Proof. solve_decision. Defined.

(** The callbacks given to the timers of the event handler; the last one is
    [age_cookie_table] of cookie_table.c. *)
Inductive timer_callback : Type :=
| switch_event_timeout_hello
| switch_event_timeout_features_reply
| echo_reply_timeout
| echo_request_interval
| cookie_table_aging.

#[export] Instance timer_callback_eq_dec : EqDecision timer_callback.
Proof. solve_decision. Defined.

(** What the daemon asks of the rest of the system, in order. *)
Inductive effect : Type :=
| SendMessage (service_name : bytes) (tag : Z) (data : bytes)
| TerminateProcess (pid : Z)
| RenameService (new_service_name : bytes)
| SwitchListRequest
| CloseChannel (fd : Z)
| FlushMessenger
| SendManagementReply (data : bytes)
| StopTrema
| StopEventHandler
| StopMessenger.

(** The options of the command line and the default configuration. *)
Record switch_options : Type := SwitchOptions {
  flow_cleanup : bool;
  cookie_translation : bool;
  deny_packet_in_on_startup : bool;
  config_flags : Z;
  miss_send_len : Z
}.

Record service_lists : Type := ServiceLists {
  vendor_service_name_list : list bytes;
  packetin_service_name_list : list bytes;
  portstatus_service_name_list : list bytes;
  state_service_name_list : list bytes
}.

(** [clock] is what [time( NULL )] returns and the seconds and nanoseconds of
    [clock_gettime]; [timers] are the callbacks registered with the event
    handler. *)
Record switch_info : Type := SwitchInfo {
  options : switch_options;
  services : service_lists;
  state : switch_state;
  datapath_id : Z;
  rx : receiver;
  tx : sender;
  running_timer : bool;
  echo_request_xid : Z;
  age_cookie_table_enabled : bool;
  xids : xid_table;
  cookies : cookie_table;
  clock : Z * (Z * Z);
  timers : list timer_callback;
  effects : list effect
}.

Implicit Types (sw : switch_info).

Definition set_state sw st : switch_info :=
  SwitchInfo (options sw) (services sw) st (datapath_id sw) (rx sw) (tx sw) (running_timer sw)
    (echo_request_xid sw) (age_cookie_table_enabled sw) (xids sw) (cookies sw) (clock sw) (timers sw) (effects sw).
Definition set_services sw l : switch_info :=
  SwitchInfo (options sw) l (state sw) (datapath_id sw) (rx sw) (tx sw) (running_timer sw)
    (echo_request_xid sw) (age_cookie_table_enabled sw) (xids sw) (cookies sw) (clock sw) (timers sw) (effects sw).
Definition set_datapath_id sw (dpid : Z) : switch_info :=
  SwitchInfo (options sw) (services sw) (state sw) dpid (rx sw) (tx sw) (running_timer sw)
    (echo_request_xid sw) (age_cookie_table_enabled sw) (xids sw) (cookies sw) (clock sw) (timers sw) (effects sw).
Definition set_rx sw r : switch_info :=
  SwitchInfo (options sw) (services sw) (state sw) (datapath_id sw) r (tx sw) (running_timer sw)
    (echo_request_xid sw) (age_cookie_table_enabled sw) (xids sw) (cookies sw) (clock sw) (timers sw) (effects sw).
Definition set_tx sw t : switch_info :=
  SwitchInfo (options sw) (services sw) (state sw) (datapath_id sw) (rx sw) t (running_timer sw)
    (echo_request_xid sw) (age_cookie_table_enabled sw) (xids sw) (cookies sw) (clock sw) (timers sw) (effects sw).
Definition set_running_timer sw (b : bool) : switch_info :=
  SwitchInfo (options sw) (services sw) (state sw) (datapath_id sw) (rx sw) (tx sw) b
    (echo_request_xid sw) (age_cookie_table_enabled sw) (xids sw) (cookies sw) (clock sw) (timers sw) (effects sw).
Definition set_echo_request_xid sw (xid : Z) : switch_info :=
  SwitchInfo (options sw) (services sw) (state sw) (datapath_id sw) (rx sw) (tx sw) (running_timer sw)
    xid (age_cookie_table_enabled sw) (xids sw) (cookies sw) (clock sw) (timers sw) (effects sw).
Definition set_age_cookie_table_enabled sw (b : bool) : switch_info :=
  SwitchInfo (options sw) (services sw) (state sw) (datapath_id sw) (rx sw) (tx sw) (running_timer sw)
    (echo_request_xid sw) b (xids sw) (cookies sw) (clock sw) (timers sw) (effects sw).
Definition set_xids sw t : switch_info :=
  SwitchInfo (options sw) (services sw) (state sw) (datapath_id sw) (rx sw) (tx sw) (running_timer sw)
    (echo_request_xid sw) (age_cookie_table_enabled sw) t (cookies sw) (clock sw) (timers sw) (effects sw).
Definition set_cookies sw t : switch_info :=
  SwitchInfo (options sw) (services sw) (state sw) (datapath_id sw) (rx sw) (tx sw) (running_timer sw)
    (echo_request_xid sw) (age_cookie_table_enabled sw) (xids sw) t (clock sw) (timers sw) (effects sw).
Definition set_clock sw (now : Z * (Z * Z)) : switch_info :=
  SwitchInfo (options sw) (services sw) (state sw) (datapath_id sw) (rx sw) (tx sw) (running_timer sw)
    (echo_request_xid sw) (age_cookie_table_enabled sw) (xids sw) (cookies sw) now (timers sw) (effects sw).
Definition set_timers sw l : switch_info :=
  SwitchInfo (options sw) (services sw) (state sw) (datapath_id sw) (rx sw) (tx sw) (running_timer sw)
    (echo_request_xid sw) (age_cookie_table_enabled sw) (xids sw) (cookies sw) (clock sw) l (effects sw).
Definition emit sw (l : list effect) : switch_info :=
  SwitchInfo (options sw) (services sw) (state sw) (datapath_id sw) (rx sw) (tx sw) (running_timer sw)
    (echo_request_xid sw) (age_cookie_table_enabled sw) (xids sw) (cookies sw) (clock sw) (timers sw) (effects sw ++ l).
