(* ===== verification/OfpMsgSend.v ===== *)
(** ofpmsg_send.c, and the sending half of service_interface.c: messages from
    the daemon to its switch and to the applications. *)

From Stdlib Require Import ZArith Lia Bool.
From coqutil Require Import Byte.
From stdpp Require Import base list gmap.
From S2P Require Import Prelude Memory OpenFlow Codes ByteOrder Actions Create Buffer MessageQueue SecureChannel XidTable CookieTable SwitchInfo.

Section OfpMsgSend.
Context {host : Host}.
Implicit Types (sw : switch_info) (buf : bytes).

(** * To applications *)

Definition MESSENGER_OPENFLOW_MESSAGE : Z := 1.
Definition MESSENGER_OPENFLOW_CONNECTED : Z := 2.
Definition MESSENGER_OPENFLOW_READY : Z := 3.
Definition MESSENGER_OPENFLOW_DISCONNECTED : Z := 4.
Definition MESSENGER_OPENFLOW_DISCONNECT_REQUEST : Z := 5.
Definition MESSENGER_OPENFLOW_FAILD_TO_CONNECT : Z := 6.

Definition sizeof_openflow_service_header : Z := 10.

(** The header, [datapath_id] and a [service_name_length] of 0, and the data. *)
Definition create_openflow_application_message (datapath_id : option Z) (data : option bytes) : bytes :=
  let header :=
    match datapath_id with
    | None => host_encode 8 UINT32_MAX
    | Some dpid => host_encode 8 (htonll dpid)
    end in
  header ++ host_encode 2 (htons 0) ++ default [] data.

Definition service_send_to_reply (service_name : bytes) (message_type : Z) (datapath_id : option Z) (data : option bytes) sw
    : switch_info :=
  emit sw [SendMessage service_name message_type (create_openflow_application_message datapath_id data)].

(** Each [send_message] is tried, whatever the others return. *)
Definition service_send_to_application (service_name_list : list bytes) (message_type : Z) (datapath_id : option Z)
    (data : option bytes) sw : switch_info :=
  match service_name_list with
  | [] => sw
  | _ :: _ =>
    let buf := create_openflow_application_message datapath_id data in
    emit sw (map (fun service_name => SendMessage service_name message_type buf) service_name_list)
  end.

(** * To the switch *)

(** [generate_xid] and [send_to_secure_channel] on the state of the daemon. *)
Definition generate_xid sw : res (Z * switch_info) :=
  let* (x, t) := XidTable.generate_xid (xids sw) in Ok (x, set_xids sw t).

Definition send_to_secure_channel sw buf : res (Z * switch_info) :=
  let* (ret, t) := SecureChannel.send_to_secure_channel (tx sw) buf in Ok (ret, set_tx sw t).

Definition ofpmsg_send_hello sw : res (Z * switch_info) :=
  let* (xid, sw) := generate_xid sw in
  let* buf := create_hello xid in
  send_to_secure_channel sw buf.

Definition ofpmsg_send_echorequest sw (xid : Z) (body : bytes) : res (Z * switch_info) :=
  let* buf := create_echo_request xid (Some body) in
  send_to_secure_channel sw buf.

Definition ofpmsg_send_echoreply sw (xid : Z) (body : bytes) : res (Z * switch_info) :=
  let* buf := create_echo_reply xid (Some body) in
  send_to_secure_channel sw buf.

Definition ofpmsg_send_featuresrequest sw : res (Z * switch_info) :=
  let* (xid, sw) := generate_xid sw in
  let* buf := create_features_request xid in
  send_to_secure_channel sw buf.

Definition ofpmsg_send_setconfig sw : res (Z * switch_info) :=
  let* (xid, sw) := generate_xid sw in
  let* buf := create_set_config xid (config_flags (options sw)) (miss_send_len (options sw)) in
  send_to_secure_channel sw buf.

Definition OFP_ERROR_MSG_MAX_DATA : Z := 64.

Definition ofpmsg_send_error_msg sw (type code : Z) (data : bytes) : res (Z * switch_info) :=
  let data := if OFP_ERROR_MSG_MAX_DATA <? blen data then take (Z.to_nat OFP_ERROR_MSG_MAX_DATA) data else data in
  let* (xid, sw) := generate_xid sw in
  let* buf := create_error xid type code (Some data) in
  send_to_secure_channel sw buf.

Definition OFPFC_MODIFY : Z := 1.
Definition OFPFC_MODIFY_STRICT : Z := 2.
Definition OFPFF_SEND_FLOW_REM : Z := 1.

(** The fields of [ofp_flow_mod]: [cookie] at 48, [command] at 56, [flags] at 70. *)
Definition update_flowmod_cookie sw buf (service_name : bytes) : res (Z * bytes * switch_info) :=
  let* command := ld_ntoh 2 buf 56 in
  let* flags := ld_ntoh 2 buf 70 in
  let* cookie := ld_ntoh 8 buf 48 in
  let set_cookie_and_flags (c : Z) :=
    let* buf := st_hton 8 buf 48 c in
    st_hton 2 buf 70 (Z.lor flags OFPFF_SEND_FLOW_REM) in
  if command =? OFPFC_ADD then
    let* (new_cookie, t) := insert_cookie_entry (cookies sw) cookie service_name flags (clock sw).1 in
    let* buf := set_cookie_and_flags new_cookie in
    Ok (0, buf, set_cookies sw t)
  else if (command =? OFPFC_MODIFY) || (command =? OFPFC_MODIFY_STRICT) then
    let* p := lookup_cookie_entry_by_application (cookies sw) cookie service_name in
    match p with
    | Some a =>
      let* e := CookieTable.load (CookieTable.entry_heap (cookies sw)) a in
      let* buf := set_cookie_and_flags (CookieTable.cookie e) in
      Ok (0, buf, sw)
    | None =>
      let* (new_cookie, t) := insert_cookie_entry (cookies sw) cookie service_name flags (clock sw).1 in
      let* buf := set_cookie_and_flags new_cookie in
      Ok (0, buf, set_cookies sw t)
    end
  else if (command =? OFPFC_DELETE) || (command =? OFPFC_DELETE_STRICT) then
    let* p := lookup_cookie_entry_by_application (cookies sw) cookie service_name in
    match p with
    | Some a =>
      let* e := CookieTable.load (CookieTable.entry_heap (cookies sw)) a in
      let* buf := set_cookie_and_flags (CookieTable.cookie e) in
      Ok (0, buf, sw)
    | None =>
      let* buf := set_cookie_and_flags RESERVED_COOKIE in
      Ok (0, buf, sw)
    end
  else Ok (-1, buf, sw).

Definition ofpmsg_send sw buf (service_name : bytes) : res (Z * switch_info) :=
  let* original_xid := ld_ntoh 4 buf 4 in
  let* (new_xid, t) := insert_xid_entry (xids sw) original_xid service_name in
  let sw := set_xids sw t in
  let* buf := st_hton 4 buf 4 new_xid in
  let* type := ld8 buf 1 in
  let* (ret, buf, sw) :=
    if (type =? OFPT_FLOW_MOD) && cookie_translation (options sw) then update_flowmod_cookie sw buf service_name
    else Ok (0, buf, sw) in
  if ret <? 0 then Ok (ret, sw) else send_to_secure_channel sw buf.

(** A match of every packet. *)
Definition match_all : ofp_match :=
  Build_ofp_match OFPFW_ALL 0 (zeros 6) (zeros 6) 0 0 (zeros 1) 0 0 0 (zeros 2) 0 0 0 0.

Definition ofpmsg_send_delete_all_flows sw : res (Z * switch_info) :=
  let* (xid, sw) := generate_xid sw in
  let* buf := create_flow_mod xid match_all RESERVED_COOKIE OFPFC_DELETE 0 0 0 UINT32_MAX OFPP_NONE 0 None in
  send_to_secure_channel sw buf.

Definition ofpmsg_send_deny_all sw : res (Z * switch_info) :=
  let timeout := 10 in
  let* (xid, sw) := generate_xid sw in
  let* buf := create_flow_mod xid match_all RESERVED_COOKIE OFPFC_ADD 0 timeout UINT16_MAX UINT32_MAX OFPP_NONE 0 None in
  send_to_secure_channel sw buf.
End OfpMsgSend.
