(* ===== verification/Switch.v ===== *)
(** switch.c: the connection of the daemon to its switch, as a state machine.

    A timer is registered with the event handler, which is the list of the
    callbacks registered; what the daemon asks of other processes and of the
    network is logged as [effects].  The functions of other components that it
    calls are fields of [environment]. *)

From Stdlib Require Import ZArith Lia Bool.
From coqutil Require Import Byte.
From stdpp Require Import base list gmap.
From S2P Require Import Prelude Memory OpenFlow Codes ByteOrder Actions Create Utility Buffer LinkedList MessageQueue SecureChannel XidTable CookieTable SwitchInfo OfpMsgSend.

(** [get_pid_by_trema_name] and [terminate_trema_process] of process
    management, [send_efi_switch_list_request] of the event forwarding
    interface. *)
Record environment : Type := Environment {
  get_pid_by_trema_name : bytes -> Z;
  terminate_trema_process : Z -> bool;
  send_efi_switch_list_request : bool
}.

Section Switch.
Context {host : Host} (env : environment).
Implicit Types (sw : switch_info) (buf : bytes).

Definition service_send_state sw (dpid tag : Z) : switch_info :=
  service_send_to_application (state_service_name_list (services sw)) tag (Some dpid) None sw.

(** * Timers *)

Definition add_timer_event sw (callback : timer_callback) : switch_info := set_timers sw (timers sw ++ [callback]).

Fixpoint remove_timer (callback : timer_callback) (l : list timer_callback) : list timer_callback :=
  match l with
  | [] => []
  | c :: l => if decide (c = callback) then l else c :: remove_timer callback l
  end.

Definition delete_timer_event sw (callback : timer_callback) : switch_info :=
  set_timers sw (remove_timer callback (timers sw)).

Definition switch_set_timeout sw (callback : timer_callback) : switch_info :=
  set_running_timer (add_timer_event sw callback) true.

Definition switch_unset_timeout sw (callback : timer_callback) : switch_info :=
  if running_timer sw then delete_timer_event (set_running_timer sw false) callback else sw.

(** * Disconnection *)

(** The queue of messages to send is deleted with its messages. *)
Definition delete_send_queue (t : sender) : res sender :=
  match send_queue t with
  | None => Ok t
  | Some q =>
    let* (_, freed, h) := delete_message_queue (send_heap t) (Some q) in
    Ok (Sender h None (foldl (fun bufs a => delete a bufs) (send_bufs t) freed) (secure_channel_fd t) (writable t))
  end.

Definition delete_recv_queue (r : receiver) : res receiver :=
  match recv_queue r with
  | None => Ok (Receiver (recv_heap r) None None)
  | Some q =>
    let* (_, _, h) := delete_message_queue (recv_heap r) (Some q) in
    Ok (Receiver h None None)
  end.

Definition close_channel sw : switch_info :=
  let t := tx sw in
  if 0 <=? secure_channel_fd t then
    emit (set_tx sw (Sender (send_heap t) (send_queue t) (send_bufs t) (-1) false)) [CloseChannel (secure_channel_fd t)]
  else sw.

Definition switch_event_disconnected sw : res switch_info :=
  let old_state := state sw in
  let sw := set_state sw SWITCH_STATE_DISCONNECTED in
  let sw := if decide (old_state = SWITCH_STATE_COMPLETED) then delete_timer_event sw echo_request_interval else sw in
  let* t := delete_send_queue (tx sw) in
  let* r := delete_recv_queue (rx sw) in
  let sw := close_channel (set_rx (set_tx sw t) r) in
  let sw := service_send_state sw (datapath_id sw)
    (if decide (old_state = SWITCH_STATE_COMPLETED) then MESSENGER_OPENFLOW_DISCONNECTED else MESSENGER_OPENFLOW_FAILD_TO_CONNECT) in
  Ok (emit (set_services sw (ServiceLists [] [] [] [])) [FlushMessenger; StopTrema]).

(** * Connection *)

Definition switch_event_connected sw : res (Z * switch_info) :=
  let sw := service_send_state sw (datapath_id sw) MESSENGER_OPENFLOW_CONNECTED in
  let* (ret, sw) := ofpmsg_send_hello sw in
  if ret <? 0 then Ok (ret, sw)
  else Ok (0, switch_set_timeout (set_state sw SWITCH_STATE_WAIT_HELLO) switch_event_timeout_hello).

Definition switch_event_recv_hello sw : res (Z * switch_info) :=
  if decide (state sw = SWITCH_STATE_WAIT_HELLO) then
    let sw := switch_unset_timeout sw switch_event_timeout_hello in
    let* (ret, sw) := if deny_packet_in_on_startup (options sw) then ofpmsg_send_deny_all sw else Ok (0, sw) in
    if ret <? 0 then Ok (ret, sw)
    else
      let* (ret, sw) := ofpmsg_send_featuresrequest sw in
      if ret <? 0 then Ok (ret, sw)
      else Ok (0, switch_set_timeout (set_state sw SWITCH_STATE_WAIT_FEATURES_REPLY) switch_event_timeout_features_reply)
  else Ok (0, sw).

(** A [switch_event_timeout_*] callback of the state [expected]. *)
Definition switch_event_timeout sw (expected : switch_state) : res switch_info :=
  if decide (state sw = expected) then switch_event_disconnected (set_running_timer sw false) else Ok sw.

(** ** Names of services *)

Definition SWITCH_MANAGER_PREFIX : bytes := map byte.of_Z [115; 119; 105; 116; 99; 104; 46].
Definition SWITCH_MANAGER : bytes := map byte.of_Z [115; 119; 105; 116; 99; 104; 95; 109; 97; 110; 97; 103; 101; 114].

(** The array holds 26 bytes, the terminator among them. *)
Definition new_service_name (dpid : Z) : bytes := take 25 (SWITCH_MANAGER_PREFIX ++ print_hex dpid).

(** ** The features reply *)

(** [init_event_forward_interface], called before the features are used, only sets
    up the client side of the event forwarding interface; it is left out. *)
Definition switch_event_recv_featuresreply sw (dpid : Z) : res (Z * switch_info) :=
  match state sw with
  | SWITCH_STATE_WAIT_FEATURES_REPLY =>
    let sw := set_state (set_datapath_id sw dpid) SWITCH_STATE_COMPLETED in
    let sw := switch_unset_timeout sw switch_event_timeout_features_reply in
    let name := new_service_name (datapath_id sw) in
    let pid := get_pid_by_trema_name env name in
    let '(terminated, sw) :=
      if 0 <? pid then (terminate_trema_process env pid, emit sw [TerminateProcess pid]) else (true, sw) in
    if negb terminated then Ok (-1, sw)
    else
      let sw := emit sw [RenameService name] in
      let* (ret, sw) := ofpmsg_send_setconfig sw in
      if ret <? 0 then Ok (ret, sw)
      else
        let* (ret, sw) := if flow_cleanup (options sw) then ofpmsg_send_delete_all_flows sw else Ok (0, sw) in
        if ret <? 0 then Ok (ret, sw)
        else
          let sw := service_send_to_application [SWITCH_MANAGER] MESSENGER_OPENFLOW_READY (Some (datapath_id sw)) None sw in
          if send_efi_switch_list_request env then Ok (0, emit sw [SwitchListRequest]) else Ok (-1, sw)
  | SWITCH_STATE_COMPLETED => Ok (0, sw)
  | _ => Ok (-1, sw)
  end.

Definition notify_state_to_controllers sw : switch_info :=
  add_timer_event (service_send_state sw (datapath_id sw) MESSENGER_OPENFLOW_READY) echo_request_interval.

(** The callback of the request of the list of switches. *)
Definition confirm_self_dpid_is_registerd sw (dpids : list Z) : switch_info :=
  if existsb (fun dpid => datapath_id sw =? dpid) dpids then notify_state_to_controllers sw
  else if send_efi_switch_list_request env then emit sw [SwitchListRequest] else sw.

(** * Echoes *)

Definition sizeof_echo_body : Z := 16.

Definition switch_event_recv_echoreply sw buf : res (Z * switch_info) :=
  if negb (blen buf =? sizeof_ofp_header + sizeof_echo_body) then Ok (0, sw)
  else
    let* xid := ld_ntoh 4 buf 4 in
    if negb (xid =? echo_request_xid sw) then Ok (0, sw)
    else
      let* dpid := ld_ntoh 8 buf 8 in
      if negb (dpid =? datapath_id sw) then Ok (0, sw)
      else Ok (0, switch_unset_timeout sw echo_reply_timeout).

(** [echo_request_interval] and [echo_reply_timeout], the callbacks. *)
Definition send_echo_request sw : res switch_info :=
  let body := host_encode 8 (htonll (datapath_id sw)) ++ host_encode 4 (htonl (u32 (clock sw).2.1)) ++ host_encode 4 (htonl (u32 (clock sw).2.2)) in
  let* (xid, sw) := generate_xid sw in
  let sw := set_echo_request_xid sw xid in
  let* (err, sw) := ofpmsg_send_echorequest sw (echo_request_xid sw) body in
  if err <? 0 then switch_event_disconnected sw else Ok (switch_set_timeout sw echo_reply_timeout).

Definition run_timer sw (callback : timer_callback) : res switch_info :=
  match callback with
  | switch_event_timeout_hello => switch_event_timeout sw SWITCH_STATE_WAIT_HELLO
  | switch_event_timeout_features_reply => switch_event_timeout sw SWITCH_STATE_WAIT_FEATURES_REPLY
  | echo_reply_timeout => switch_event_disconnected sw
  | echo_request_interval => send_echo_request sw
  | cookie_table_aging => let* t := age_cookie_table (cookies sw) (clock sw).1 in Ok (set_cookies sw t)
  end.

(** * Events of applications *)

Definition switch_event_recv_from_application sw (dpid : Z) (application_service_name buf : bytes) : res (Z * switch_info) :=
  if negb (dpid =? datapath_id sw) then Ok (-1, sw) else ofpmsg_send sw buf application_service_name.

Definition switch_event_disconnect_request sw (dpid : Z) : res (Z * switch_info) :=
  if negb (dpid =? datapath_id sw) then Ok (-1, sw)
  else let* sw := switch_event_disconnected sw in Ok (0, sw).

Definition switch_event_recv_error sw : Z := if decide (state sw = SWITCH_STATE_COMPLETED) then 0 else -1.
End Switch.
