(* ===== verification/OfpMsgRecv.v ===== *)
(** ofpmsg_recv.c: what the daemon does with the messages of its switch.

    A message is its bytes, in network byte order; a handler that changes
    fields of the message stores them in place before it sends it on. *)

From Stdlib Require Import ZArith Lia Bool.
From coqutil Require Import Byte.
From stdpp Require Import base list gmap.
From S2P Require Import Prelude Memory OpenFlow Codes ByteOrder Actions Validate Create ErrorMap Buffer MessageQueue SecureChannel XidTable CookieTable SwitchInfo OfpMsgSend Switch.

Section OfpMsgRecv.
Context {host : Host} (env : environment).
Implicit Types (sw : switch_info) (buf : bytes).

(** [switch_info] with the result of a lookup in its tables, which do not
    change. *)
Definition lookup_xid sw (xid : Z) : res (option (positive * xid_entry)) :=
  let* p := lookup_xid_entry (xids sw) xid in
  match p with
  | None => Ok None
  | Some a => let* e := XidTable.load (XidTable.entry_heap (xids sw)) a in Ok (Some (a, e))
  end.

Definition lookup_cookie sw (cookie : Z) : res (option (positive * cookie_entry)) :=
  let* p := lookup_cookie_entry_by_cookie (cookies sw) cookie in
  match p with
  | None => Ok None
  | Some a => let* e := CookieTable.load (CookieTable.entry_heap (cookies sw)) a in Ok (Some (a, e))
  end.

Definition delete_xid sw (a : positive) : res switch_info :=
  let* t := delete_xid_entry (xids sw) a in Ok (set_xids sw t).

Definition delete_cookie sw (a : positive) : res switch_info :=
  let* t := delete_cookie_entry (cookies sw) a in Ok (set_cookies sw t).

Definition send_transaction_reply sw buf : res (Z * switch_info) :=
  let* xid := ld_ntoh 4 buf 4 in
  let* xid_entry := lookup_xid sw xid in
  match xid_entry with
  | None => Ok (-1, sw)
  | Some (a, e) =>
    let* buf := st_hton 4 buf 4 (original_xid e) in
    let sw := service_send_to_reply (XidTable.service_name e) MESSENGER_OPENFLOW_MESSAGE (Some (datapath_id sw)) (Some buf) sw in
    let* sw := delete_xid sw a in
    Ok (0, sw)
  end.

(** The handlers that only answer the application: the result of
    [send_transaction_reply] is dropped. *)
Definition answer sw buf : res (Z * switch_info) :=
  let* (_, sw) := send_transaction_reply sw buf in Ok (0, sw).

Definition ofpmsg_recv_hello sw : res (Z * switch_info) := switch_event_recv_hello sw.

Definition offsetof_ofp_error_msg_data : Z := 12.
Definition offsetof_ofp_flow_mod_command : Z := 56.
Definition offsetof_ofp_flow_mod_idle_timeout : Z := 58.
Definition offsetof_ofp_flow_mod_actions : Z := 72.

(** The flow_mod that an error quotes starts at 12: its [header.xid] is at
    12 + 4, [cookie] at 12 + 48, [command] at 12 + 56, [flags] at 12 + 70. *)
Definition ofpmsg_recv_error sw buf : res (Z * switch_info) :=
  let* type := ld_ntoh 2 buf 8 in
  let ret := switch_event_recv_error sw in
  if ret <? 0 then Ok (ret, sw)
  else
    let* header_length := ld_ntoh 2 buf 2 in
    let length := u64 (header_length - offsetof_ofp_error_msg_data) in
    if (type =? OFPET_FLOW_MOD_FAILED) && (offsetof_ofp_flow_mod_command <=? length) then
      let* xid := ld_ntoh 4 buf 16 in
      let* xid_entry := lookup_xid sw xid in
      let* buf := match xid_entry with Some (_, e) => st_hton 4 buf 16 (original_xid e) | None => Ok buf end in
      let* cookie := ld_ntoh 8 buf 60 in
      if cookie =? RESERVED_COOKIE then Ok (0, sw)
      else if cookie_translation (options sw) then
        let* entry := lookup_cookie sw cookie in
        let* buf :=
          match entry with
          | Some (_, e) =>
            let* buf := st_hton 8 buf 60 (app_cookie (application e)) in
            if offsetof_ofp_flow_mod_actions <=? length then st_hton 2 buf 82 (flags (application e)) else Ok buf
          | None => Ok buf
          end in
        let* sw :=
          if offsetof_ofp_flow_mod_idle_timeout <=? length then
            let* command := ld_ntoh 2 buf 68 in
            if command =? OFPFC_ADD then
              match entry with Some (a, _) => delete_cookie sw a | None => Ok sw end
            else Ok sw
          else Ok sw in
        answer sw buf
      else answer sw buf
    else answer sw buf.

(** The header is removed, and read once more. *)
Definition ofpmsg_recv_echorequest sw buf : res (Z * switch_info) :=
  let* _ := assert (sizeof_ofp_header <=? blen buf) in
  let* xid := ld_ntoh 4 buf 4 in
  ofpmsg_send_echoreply sw xid (drop (Z.to_nat sizeof_ofp_header) buf).

Definition ofpmsg_recv_echoreply sw buf : res (Z * switch_info) :=
  let* (ret, sw) := switch_event_recv_echoreply sw buf in
  if ret <? 0 then Ok (ret, sw) else answer sw buf.

Definition ofpmsg_recv_vendor sw buf : res (Z * switch_info) :=
  Ok (0, service_send_to_application (vendor_service_name_list (services sw)) MESSENGER_OPENFLOW_MESSAGE
           (Some (datapath_id sw)) (Some buf) sw).

Definition ofpmsg_recv_featuresreply sw buf : res (Z * switch_info) :=
  let* datapath_id := ld_ntoh 8 buf 8 in
  let* (ret, sw) := switch_event_recv_featuresreply env sw datapath_id in
  if ret <? 0 then Ok (ret, sw) else answer sw buf.

Definition ofpmsg_recv_getconfigreply sw buf : res (Z * switch_info) := answer sw buf.

Definition ofpmsg_recv_packetin sw buf : res (Z * switch_info) :=
  Ok (0, service_send_to_application (packetin_service_name_list (services sw)) MESSENGER_OPENFLOW_MESSAGE
           (Some (datapath_id sw)) (Some buf) sw).

Definition ofpmsg_recv_flowremoved sw buf : res (Z * switch_info) :=
  let* cookie := ld_ntoh 8 buf 48 in
  if cookie =? RESERVED_COOKIE then Ok (0, sw)
  else if negb (cookie_translation (options sw)) then
    Ok (0, service_send_to_application (state_service_name_list (services sw)) MESSENGER_OPENFLOW_MESSAGE
             (Some (datapath_id sw)) (Some buf) sw)
  else
    let* entry := lookup_cookie sw cookie in
    match entry with
    | None => Ok (0, sw)
    | Some (a, e) =>
      let* sw :=
        if truth (Z.land (flags (application e)) OFPFF_SEND_FLOW_REM) then
          let* buf := st_hton 8 buf 48 (app_cookie (application e)) in
          Ok (service_send_to_reply (service_name (application e)) MESSENGER_OPENFLOW_MESSAGE
                (Some (datapath_id sw)) (Some buf) sw)
        else Ok sw in
      let* sw := delete_cookie sw a in
      Ok (0, sw)
    end.

Definition ofpmsg_recv_portstatus sw buf : res (Z * switch_info) :=
  Ok (0, service_send_to_application (portstatus_service_name_list (services sw)) MESSENGER_OPENFLOW_MESSAGE
           (Some (datapath_id sw)) (Some buf) sw).

(** The cookies of the flows at [flow_stats], while [body_length] is positive;
    the cookie of a flow is at 64 of its [ofp_flow_stats].  A flow has at least
    one byte of length in a message that the validator accepts. *)
Fixpoint translate_flow_stats (fuel : nat) sw buf (flow_stats body_length : Z) : res bytes :=
  match fuel with
  | O => Fault OutOfFuel
  | S fuel =>
    if 0 <? body_length then
      let* cookie := ld_ntoh 8 buf (flow_stats + 64) in
      let* entry := lookup_cookie sw cookie in
      let* buf :=
        match entry with
        | Some (_, e) => st_hton 8 buf (flow_stats + 64) (app_cookie (application e))
        | None => Ok buf
        end in
      let* length := ld_ntoh 2 buf flow_stats in
      translate_flow_stats fuel sw buf (flow_stats + length) (body_length - length)
    else Ok buf
  end.

Definition OFPSF_REPLY_MORE : Z := 1.

Definition ofpmsg_recv_statsreply sw buf : res (Z * switch_info) :=
  let* type := ld_ntoh 2 buf 8 in
  let* buf :=
    if (type =? OFPST_FLOW) && cookie_translation (options sw) then
      let* header_length := ld_ntoh 2 buf 2 in
      let body_length := header_length - offsetof_stats_reply_body in
      translate_flow_stats (S (Z.to_nat body_length)) sw buf offsetof_stats_reply_body body_length
    else Ok buf in
  let* xid := ld_ntoh 4 buf 4 in
  let* xid_entry := lookup_xid sw xid in
  match xid_entry with
  | None => Ok (-1, sw)
  | Some (a, e) =>
    let* buf := st_hton 4 buf 4 (original_xid e) in
    let sw := service_send_to_reply (XidTable.service_name e) MESSENGER_OPENFLOW_MESSAGE (Some (datapath_id sw)) (Some buf) sw in
    let* flags := ld_ntoh 2 buf 10 in
    let* sw := if Z.land flags OFPSF_REPLY_MORE =? 0 then delete_xid sw a else Ok sw in
    Ok (0, sw)
  end.

Definition ofpmsg_recv_barrierreply sw buf : res (Z * switch_info) := answer sw buf.

Definition ofpmsg_recv_queue_getconfigreply sw buf : res (Z * switch_info) := answer sw buf.

(** The result of [ofpmsg_send_error_msg] is dropped. *)
Definition ofpmsg_recv buf sw : res (Z * switch_info) :=
  let* ret := validate_openflow_message buf in
  let* type := ld8 buf 1 in
  if negb (ret =? 0) then
    let* error := get_error_type_and_code type ret in
    let '(error_type, error_code) := default (OFPET_BAD_REQUEST, OFPBRC_BAD_TYPE) error in
    let* (_, sw) := ofpmsg_send_error_msg sw error_type error_code buf in
    Ok (-1, sw)
  else if type =? OFPT_HELLO then ofpmsg_recv_hello sw
  else if type =? OFPT_ERROR then ofpmsg_recv_error sw buf
  else if type =? OFPT_ECHO_REQUEST then ofpmsg_recv_echorequest sw buf
  else if type =? OFPT_ECHO_REPLY then ofpmsg_recv_echoreply sw buf
  else if type =? OFPT_VENDOR then ofpmsg_recv_vendor sw buf
  else if type =? OFPT_FEATURES_REPLY then ofpmsg_recv_featuresreply sw buf
  else if type =? OFPT_GET_CONFIG_REPLY then ofpmsg_recv_getconfigreply sw buf
  else if type =? OFPT_PACKET_IN then ofpmsg_recv_packetin sw buf
  else if type =? OFPT_FLOW_REMOVED then ofpmsg_recv_flowremoved sw buf
  else if type =? OFPT_PORT_STATUS then ofpmsg_recv_portstatus sw buf
  else if type =? OFPT_STATS_REPLY then ofpmsg_recv_statsreply sw buf
  else if type =? OFPT_BARRIER_REPLY then ofpmsg_recv_barrierreply sw buf
  else if type =? OFPT_QUEUE_GET_CONFIG_REPLY then ofpmsg_recv_queue_getconfigreply sw buf
  else Fault AssertFailed.
End OfpMsgRecv.
