(* ===== verification/EventForward.v ===== *)
(** event_forward_entry_manipulation.c, and the messages of
    event_forward_interface.c: which applications get the events of a switch.

    A list of service names is the list of its strings, without their
    terminators; LinkedList.v has the functions on its nodes.  A request or a
    reply is its bytes. *)

From Stdlib Require Import ZArith Lia Bool.
From coqutil Require Import Byte.
From stdpp Require Import base list.
From S2P Require Import Prelude Memory Utility.

Section EventForward.
Context {host : Host}.
Implicit Types (service_list names : list bytes) (request name : bytes).

Definition EVENT_FORWARD_ENTRY_ADD : Z := 3.
Definition EVENT_FORWARD_ENTRY_DELETE : Z := 4.
Definition EVENT_FORWARD_ENTRY_DUMP : Z := 5.
Definition EVENT_FORWARD_ENTRY_SET : Z := 6.
Definition EVENT_FORWARD_TYPE_VENDOR : Z := 0.
Definition EVENT_FORWARD_TYPE_PACKET_IN : Z := 1.
Definition EVENT_FORWARD_TYPE_PORT_STATUS : Z := 2.
Definition EVENT_FORWARD_TYPE_STATE_NOTIFY : Z := 3.
Definition EFI_OPERATION_SUCCEEDED : Z := 0.
Definition EFI_OPERATION_FAILED : Z := 1.

(** The size of both [event_forward_operation_request] and
    [event_forward_operation_reply]: [service_list] is at its end. *)
Definition sizeof_event_forward_operation : Z := 8.

(** * Messages *)

Definition append_service_names (service_list : list bytes) : bytes :=
  concat (map (fun name => c_string name ++ [zero]) service_list).

Definition create_event_forward_operation_request (type : Z) service_list : bytes :=
  host_encode 1 type ++ zeros 3 ++ host_encode 4 (htonl (Z.of_nat (length service_list))) ++ append_service_names service_list.

Definition create_event_forward_operation_reply (type result : Z) service_list : bytes :=
  host_encode 1 type ++ host_encode 1 result ++ zeros 2 ++ host_encode 4 (htonl (Z.of_nat (length service_list)))
    ++ append_service_names service_list.

(** * Operations

    [n_services] is in the byte order of the host: [management_recv] has
    converted it in place. *)

(** [find_list_custom] with [string_equal]: the empty list is NULL. *)
Definition find_service service_list name : res bool :=
  match service_list with
  | [] => Fault Died
  | _ :: _ => Ok (existsb (compare_string name) service_list)
  end.

(** [delete_element] of the string found. *)
Fixpoint delete_service service_list name : list bytes :=
  match service_list with
  | [] => []
  | s :: service_list => if compare_string name s then service_list else s :: delete_service service_list name
  end.

(** The length of the names, and the string that [strncpy] leaves. *)
Definition service_name_len request : Z := u64 (blen request - sizeof_event_forward_operation).
Definition request_service request : bytes :=
  c_string (take (Z.to_nat (service_name_len request)) (drop (Z.to_nat sizeof_event_forward_operation) request)).

Definition management_event_forward_entry_add service_list request : res (list bytes) :=
  let* n_services := ld32 request 4 in
  if n_services =? 0 then Ok service_list
  else if service_name_len request =? 0 then Ok service_list
  else
    let name := request_service request in
    let* found := find_service service_list name in
    Ok (if found : bool then service_list else service_list ++ [name]).

Definition management_event_forward_entry_delete service_list request : res (list bytes) :=
  let* n_services := ld32 request 4 in
  if n_services =? 0 then Ok service_list
  else if service_name_len request =? 0 then Ok service_list
  else
    let name := request_service request in
    let* found := find_service service_list name in
    Ok (if found : bool then delete_service service_list name else service_list).

(** The strings of [bytes] that end in a terminator, up to [n_services] of
    them; [name] is what was read since [name_begin].  The array has
    [n_services] entries. *)
Fixpoint split_services (n_services : Z) (bs name : bytes) names : res (list bytes) :=
  match bs with
  | [] => Ok names
  | b :: bs =>
    if decide (b = zero) then
      if Z.of_nat (length names) <? n_services then
        let names := names ++ [name] in
        if Z.of_nat (length names) =? n_services then Ok names else split_services n_services bs [] names
      else Fault OutOfBounds
    else split_services n_services bs (name ++ [b]) names
  end.

(** The list before is freed. *)
Definition management_event_forward_entries_set service_list request : res (list bytes) :=
  let* n_services := ld32 request 4 in
  let bs := take (Z.to_nat (service_name_len request)) (drop (Z.to_nat sizeof_event_forward_operation) request) in
  let* names := split_services n_services bs [] [] in
  Ok (List.filter (fun name => negb (blen name =? 0)) names).

(** [management_recv] converts the number of services in place. *)
Definition ntoh_request request : res bytes :=
  let* n_services := ld_ntoh 4 request 4 in st32 request 4 n_services.
End EventForward.

(** * The lists of services follow the requests *)

Section Requests.
Context {host : Host}.
Implicit Types (l names : list bytes) (name : bytes).

(** The names that a request can carry: not empty, without a terminator. *)
Definition service_ok name : Prop := name <> [] /\ zero ∉ name.

Lemma c_string_ok name : zero ∉ name -> c_string name = name.
Proof.
  induction name as [| b name IH]; [done |]. intros [Hb Hn]%not_elem_of_cons. cbn [c_string].
  destruct (decide (b = zero)) as [-> |]; [done |]. by rewrite IH.
Qed.

Lemma c_string_terminated name s : zero ∉ name -> c_string (name ++ zero :: s) = name.
Proof.
  induction name as [| b name IH]; [done |]. intros [Hb Hn]%not_elem_of_cons. cbn [c_string app].
  destruct (decide (b = zero)) as [-> |]; [done |]. by rewrite IH.
Qed.

Lemma names_cons name names : service_ok name ->
  append_service_names (name :: names) = name ++ zero :: append_service_names names.
Proof. intros [_ H]. unfold append_service_names. cbn [map concat]. by rewrite c_string_ok, <- app_assoc. Qed.

(** The strings of a request are split where they were joined. *)
Lemma split_names n bs name acc : zero ∉ name -> Z.of_nat (length acc) < n ->
  split_services n (name ++ zero :: bs) [] acc =
    if Z.of_nat (length (acc ++ [name])) =? n then Ok (acc ++ [name]) else split_services n bs [] (acc ++ [name]).
Proof.
  intros Hz Hn. enough (H : forall pre, split_services n (name ++ zero :: bs) pre acc =
    if Z.of_nat (length (acc ++ [pre ++ name])) =? n then Ok (acc ++ [pre ++ name]) else split_services n bs [] (acc ++ [pre ++ name]))
    by apply (H []).
  induction name as [| b name IH]; intros pre; cbn [app split_services].
  - destruct (decide (zero = zero)); [| done]. rewrite (proj2 (Z.ltb_lt _ _) Hn). by rewrite app_nil_r.
  - apply not_elem_of_cons in Hz as [Hb Hz]. destruct (decide (b = zero)) as [-> |]; [done |].
    rewrite IH by done. by rewrite <- app_assoc.
Qed.

Lemma split_all names acc : Forall service_ok names ->
  split_services (Z.of_nat (length acc + length names)) (append_service_names names) [] acc = Ok (acc ++ names).
Proof.
  revert acc. induction names as [| name names IH]; intros acc; [by rewrite app_nil_r |]. intros [Hn Hall]%Forall_cons.
  rewrite names_cons by done. destruct Hn as [_ Hz]. rewrite split_names by (done || (cbn [length]; lia)).
  destruct (Z.eqb_spec (Z.of_nat (length (acc ++ [name]))) (Z.of_nat (length acc + length (name :: names)))) as [E | E].
  - destruct names as [| x names]; [done |]. rewrite length_app in E. cbn [length] in E. lia.
  - replace (length acc + length (name :: names))%nat with (length (acc ++ [name]) + length names)%nat
      by (rewrite length_app; cbn [length]; lia).
    rewrite IH by done. by rewrite <- app_assoc.
Qed.

(** A request as [management_recv] gets it, and its fields. *)
Lemma request_received type l : fits 1 type -> Z.of_nat (length l) < 2 ^ 32 ->
  exists request, ntoh_request (create_event_forward_operation_request type l) = Ok request /\
    ld8 request 0 = Ok type /\ ld32 request 4 = Ok (Z.of_nat (length l)) /\
    drop (Z.to_nat sizeof_event_forward_operation) request = append_service_names l /\
    blen request = sizeof_event_forward_operation + blen (append_service_names l).
Proof.
  intros Ht Hl. unfold ntoh_request, create_event_forward_operation_request, htonl. rewrite host_encode_hton.
  set (names := append_service_names l). set (n := Z.of_nat (length l)) in *.
  assert (Hn : fits 4 n) by (unfold fits; subst n; lia). rewrite host_encode_1.
  rewrite !app_assoc, <- (app_assoc _ _ names). set (P := be_encode 1 type ++ zeros 3).
  assert (HP : blen P = 4) by done.
  assert (E : ld_ntoh 4 (P ++ be_encode 4 n ++ names) 4 = Ok n).
  { rewrite ld_ntoh_skip, HP by (by rewrite HP). by apply ld_ntoh_wire. }
  rewrite E. bind_ok. exists (P ++ host_encode 4 n ++ names). split_and!.
  - unfold st. apply (st_bytes_middle P (be_encode 4 n)); [by rewrite length_be_encode, length_host_encode | done].
  - unfold P. rewrite <- app_assoc. by apply ld8_wire.
  - unfold ld. rewrite ld_bytes_skip, HP by (by rewrite HP). rewrite ld_bytes_here by apply length_host_encode. bind_ok.
    rewrite host_decode_encode. by rewrite Z.mod_small by apply Hn.
  - rewrite app_assoc, drop_app_length'; [done |]. rewrite length_app, length_host_encode. done.
  - rewrite !blen_app, HP, blen_host_encode. unfold sizeof_event_forward_operation. lia.
Qed.

(** What [request_len] leaves for the names. *)
Lemma request_names request (s : bytes) : drop (Z.to_nat sizeof_event_forward_operation) request = s ->
  blen request = sizeof_event_forward_operation + blen s -> blen s < 2 ^ 64 ->
  service_name_len request = blen s /\
  take (Z.to_nat (service_name_len request)) (drop (Z.to_nat sizeof_event_forward_operation) request) = s.
Proof.
  intros Hd Hb Hn. pose proof (blen_nonneg s). assert (E : service_name_len request = blen s).
  { unfold service_name_len, u64. rewrite Hb. replace (_ - _) with (blen s) by lia. by apply Z.mod_small. }
  split; [done |]. rewrite E, Hd. unfold blen. rewrite Nat2Z.id. by apply take_ge.
Qed.

Lemma set_received type l names : fits 1 type -> Forall service_ok names -> Z.of_nat (length names) < 2 ^ 32 ->
  blen (append_service_names names) < 2 ^ 64 ->
  exists request, ntoh_request (create_event_forward_operation_request type names) = Ok request /\
    ld8 request 0 = Ok type /\ management_event_forward_entries_set l request = Ok names.
Proof.
  intros Ht Hall Hn Hb. destruct (request_received type names Ht Hn) as (request & Hr & Htype & Hk & Hd & Hlen).
  exists request. split; [done |]. split; [done |]. unfold management_event_forward_entries_set. rewrite Hk. bind_ok.
  destruct (request_names _ _ Hd Hlen Hb) as [_ ->]. pose proof (split_all names [] Hall) as Hs. cbn [app length Nat.add] in Hs.
  rewrite Hs. bind_ok. f_equal. clear -Hall. induction Hall as [| name names [Hne _] _ IH]; [done |]. cbn [List.filter].
  destruct name; [done |]. by rewrite IH.
Qed.

Lemma name_received type name : fits 1 type -> service_ok name -> blen name + 1 < 2 ^ 64 ->
  exists request, ntoh_request (create_event_forward_operation_request type [name]) = Ok request /\
    ld8 request 0 = Ok type /\ ld32 request 4 = Ok 1 /\ service_name_len request <> 0 /\ request_service request = name.
Proof.
  intros Ht Hok Hb. destruct (request_received type [name] Ht ltac:(done)) as (request & Hr & Htype & Hk & Hd & Hlen).
  exists request. split; [done |]. split; [done |]. split; [done |]. destruct (request_names _ _ Hd Hlen) as [El Es].
  { rewrite names_cons, blen_app, blen_cons by done. change (blen (append_service_names [])) with 0. lia. }
  split.
  - rewrite El, names_cons, blen_app, blen_cons by done. pose proof (blen_nonneg name). change (blen (append_service_names [])) with 0. lia.
  - unfold request_service. rewrite Es, names_cons by done. apply c_string_terminated. apply Hok.
Qed.

Lemma found_in_list l name : Forall service_ok l -> service_ok name -> existsb (compare_string name) l = bool_decide (name ∈ l).
Proof.
  intros Hall [_ Hz]. induction Hall as [| s l [_ Hs] _ IH]; [done |]. cbn [existsb]. rewrite IH. unfold compare_string.
  rewrite !c_string_ok by done. rewrite (bool_decide_ext (name ∈ s :: l) (name = s \/ name ∈ l)) by apply elem_of_cons.
  by rewrite bool_decide_or.
Qed.

(** The list without the first occurrence of a name. *)
Lemma deleted_from_list l name : Forall service_ok l -> service_ok name -> NoDup l ->
  delete_service l name = List.filter (fun s => negb (bool_decide (s = name))) l.
Proof.
  intros Hall [Hne Hz] Hnd. induction Hall as [| s l [_ Hs] _ IH]; [done |]. apply NoDup_cons in Hnd as [Hnin Hnd].
  cbn [delete_service List.filter]. unfold compare_string. rewrite !c_string_ok by done.
  destruct (decide (name = s)) as [<- | Hd].
  - rewrite !bool_decide_eq_true_2 by done. cbn [negb]. clear -Hnin. induction l as [| x l IHl]; [done |].
    apply not_elem_of_cons in Hnin as [Hx Hnin]. cbn [List.filter]. rewrite bool_decide_eq_false_2 by congruence. by rewrite <- IHl.
  - rewrite !bool_decide_eq_false_2 by congruence. cbn [negb]. by rewrite IH.
Qed.

(** Adding a name, and deleting one; a list that is empty is NULL. *)
Lemma entry_added l request name : ld32 request 4 = Ok 1 -> service_name_len request <> 0 -> request_service request = name ->
  Forall service_ok l -> service_ok name ->
  management_event_forward_entry_add l request = if decide (l = []) then Fault Died else Ok (if decide (name ∈ l) then l else l ++ [name]).
Proof.
  intros Hk Hlen Hs Hl Hname. unfold management_event_forward_entry_add, find_service. rewrite Hk, Hs. bind_ok. cbn [Z.eqb]. rewrite (proj2 (Z.eqb_neq _ _) Hlen).
  destruct l as [| s l]; [done |]. bind_ok. rewrite found_in_list by done. destruct (decide (s :: l = [])); [done |]. f_equal.
  by destruct (decide (name ∈ s :: l)); [rewrite bool_decide_eq_true_2 | rewrite bool_decide_eq_false_2].
Qed.

Lemma entry_deleted l request name : ld32 request 4 = Ok 1 -> service_name_len request <> 0 -> request_service request = name ->
  Forall service_ok l -> service_ok name -> NoDup l ->
  management_event_forward_entry_delete l request = if decide (l = []) then Fault Died else Ok (List.filter (fun s => negb (bool_decide (s = name))) l).
Proof.
  intros Hk Hlen Hs Hl Hname Hnd. unfold management_event_forward_entry_delete, find_service. rewrite Hk, Hs. bind_ok. cbn [Z.eqb]. rewrite (proj2 (Z.eqb_neq _ _) Hlen).
  destruct l as [| s l]; [done |]. bind_ok. rewrite found_in_list by done. destruct (decide (s :: l = [])); [done |]. f_equal.
  rewrite deleted_from_list by done. case_bool_decide as Hin; [done |].
  symmetry. clear -Hin. induction (s :: l) as [| x m IH]; [done |]. apply not_elem_of_cons in Hin as [Hx Hin].
  cbn [List.filter]. rewrite bool_decide_eq_false_2 by congruence. cbn [negb]. by rewrite IH.
Qed.
End Requests.

(** * Property *)

(** The requests about the services of a switch. A request made of names and
    received by the daemon: to set the list, it replaces it by these names, in
    order; to add a name, it adds it at the end of a list that does not have it
    and leaves another as it is; to delete a name, it takes it out of the list;
    but a request to add to an empty list, or to delete from one, stops the
    process, whatever the name. *)
Theorem service_requests {host : Host} type l names name :
  fits 1 type -> Forall service_ok l -> NoDup l -> Forall service_ok names -> service_ok name ->
  Z.of_nat (length names) < 2 ^ 32 -> blen (append_service_names names) < 2 ^ 64 -> blen name + 1 < 2 ^ 64 ->
  exists set_request name_request,
    ntoh_request (create_event_forward_operation_request type names) = Ok set_request /\
    ntoh_request (create_event_forward_operation_request type [name]) = Ok name_request /\
    ld8 set_request 0 = Ok type /\ ld8 name_request 0 = Ok type /\
    management_event_forward_entries_set l set_request = Ok names /\
    management_event_forward_entry_add l name_request =
      (if decide (l = []) then Fault Died else Ok (if decide (name ∈ l) then l else l ++ [name])) /\
    management_event_forward_entry_delete l name_request =
      (if decide (l = []) then Fault Died else Ok (List.filter (fun s => negb (bool_decide (s = name))) l)).
Proof.
  intros Ht Hl Hnd Hnames Hname Hn Hb Hbn. destruct (set_received type l names Ht Hnames Hn Hb) as (sr & Hsr & Hst & Hset).
  destruct (name_received type name Ht Hname Hbn) as (nr & Hnr & Hnt & Hk & Hlen & Hs).
  exists sr, nr. split_and!; [done.. | |].
  - by apply entry_added.
  - by apply entry_deleted.
Qed.

(** * Witness *)

Lemma service_requests_witness :
  exists set_request name_request,
    ntoh_request (host := LittleEndian) (create_event_forward_operation_request (host := LittleEndian) 1 [[Byte.x62]; [Byte.x63]]) = Ok set_request /\
    ntoh_request (host := LittleEndian) (create_event_forward_operation_request (host := LittleEndian) 1 [[Byte.x62]]) = Ok name_request /\
    ld (host := LittleEndian) 1 set_request 0 = Ok 1 /\ ld (host := LittleEndian) 1 name_request 0 = Ok 1 /\
    management_event_forward_entries_set (host := LittleEndian) [[Byte.x61]] set_request = Ok [[Byte.x62]; [Byte.x63]] /\
    management_event_forward_entry_add (host := LittleEndian) [[Byte.x61]] name_request = Ok [[Byte.x61]; [Byte.x62]] /\
    management_event_forward_entry_delete (host := LittleEndian) [[Byte.x61]] name_request = Ok [[Byte.x61]].
Proof.
  apply (service_requests (host := LittleEndian) 1 [[Byte.x61]] [[Byte.x62]; [Byte.x63]] [Byte.x62]);
    try (vm_compute; reflexivity).
  - split; [discriminate | reflexivity].
  - repeat constructor; vm_compute; congruence || (intros H; by inversion H as [| ? ? ? H1]; inversion H1).
  - apply NoDup_singleton.
  - repeat constructor; try discriminate; by rewrite list_elem_of_singleton.
  - split; [discriminate |]. by rewrite list_elem_of_singleton.
Defined.
