(* ===== verification/Daemon.v ===== *)
(** service_interface.c, and the event handlers of switch.c: the daemon of one
    switch.

    The daemon runs one handler at a time: the socket of the switch is readable
    or writable, a timer expires, a message of an application or of the
    management comes, the list of switches comes, or a signal.  [step] is the
    handler of an event; it is [None] when the event handler has no callback
    registered for the event. *)

From Stdlib Require Import ZArith Lia Bool.
From coqutil Require Import Byte.
From stdpp Require Import base list gmap.
From S2P Require Import Prelude Memory OpenFlow Codes ByteOrder Actions Validate Utility Management Buffer LinkedList MessageQueue SecureChannel XidTable CookieTable EventForward SwitchInfo OfpMsgSend Switch OfpMsgRecv.

Section Daemon.
Context {host : Host} (IOV_MAX : Z) (env : environment).
Implicit Types (sw : switch_info) (buf : bytes).

(** * Messages of applications *)

Definition handle_openflow_message sw (datapath_id : Z) (service_name buf : bytes) : res switch_info :=
  let* ret := validate_openflow_message buf in
  if negb (ret =? 0) then Ok sw
  else let* (_, sw) := switch_event_recv_from_application sw datapath_id service_name buf in Ok sw.

Definition handle_openflow_disconnect_request sw (datapath_id : Z) : res switch_info :=
  let* (_, sw) := switch_event_disconnect_request sw datapath_id in Ok sw.

(** The name stays in the memory of the message. *)
Definition service_recv_from_application sw (message_type : Z) buf : res switch_info :=
  if blen buf <? sizeof_openflow_service_header then Ok sw
  else
    let* datapath_id := ld_ntoh 8 buf 0 in
    let* service_name_length := ld_ntoh 2 buf 8 in
    let* buf := remove_front buf sizeof_openflow_service_header in
    if service_name_length <? 1 then Ok sw
    else
      let* last := ld8 buf (service_name_length - 1) in
      if negb (last =? 0) then Ok sw
      else
        let service_name := c_string buf in
        let* buf := remove_front buf service_name_length in
        if message_type =? MESSENGER_OPENFLOW_MESSAGE then handle_openflow_message sw datapath_id service_name buf
        else if message_type =? MESSENGER_OPENFLOW_DISCONNECT_REQUEST then handle_openflow_disconnect_request sw datapath_id
        else Ok sw.

(** [alloc_buffer_with_length] does not take an empty message. *)
Definition service_recv sw (message_type : Z) (data : bytes) : res switch_info :=
  let* _ := assert (negb (blen data =? 0)) in
  service_recv_from_application sw message_type data.

(** * The socket of the switch *)

Definition secure_channel_read {W : Type} (read_fd : Z -> W -> read_result * W) sw (w : W) : res (switch_info * W) :=
  let* (outcome, r, sw, w) := SecureChannel.secure_channel_read (ofpmsg_recv env) read_fd (rx sw) sw w in
  let sw := set_rx sw r in
  match outcome with
  | Continue => Ok (sw, w)
  | Disconnect error_data =>
    let* sw :=
      match error_data with
      | Some data =>
        let* (_, sw) := ofpmsg_send_error_msg sw OFPET_BAD_REQUEST OFPBRC_BAD_VERSION data in Ok sw
      | None => Ok sw
      end in
    let* sw := switch_event_disconnected sw in
    Ok (sw, w)
  | Stop => Ok (emit sw [StopEventHandler; StopMessenger], w)
  end.

Definition flush_secure_channel {W : Type} (write_fd : list bytes -> W -> write_result * W) sw (w : W)
    : res (Z * switch_info * W) :=
  let* (ret, t, w) := SecureChannel.flush_secure_channel IOV_MAX write_fd (tx sw) w in
  Ok (ret, set_tx sw t, w).

Definition secure_channel_write {W : Type} (write_fd : list bytes -> W -> write_result * W) sw (w : W)
    : res (switch_info * W) :=
  let* (ret, sw, w) := flush_secure_channel write_fd sw w in
  if ret <? 0 then let* sw := switch_event_disconnected sw in Ok (sw, w) else Ok (sw, w).

(** * Management *)

Definition DUMP_XID_TABLE : Z := 0.
Definition DUMP_COOKIE_TABLE : Z := 1.
Definition TOGGLE_COOKIE_AGING : Z := 2.

Definition management_reply sw (status command : Z) (data : option bytes) : switch_info :=
  emit sw [SendManagementReply (create_management_application_reply status command data)].

(** [*subject], and an assignment to it. *)
Definition subject (type : Z) (l : service_lists) : option (list bytes * (list bytes -> service_lists)) :=
  let '(ServiceLists vendor packetin portstatus state) := l in
  if type =? EVENT_FORWARD_TYPE_VENDOR then Some (vendor, fun l => ServiceLists l packetin portstatus state)
  else if type =? EVENT_FORWARD_TYPE_PACKET_IN then Some (packetin, fun l => ServiceLists vendor l portstatus state)
  else if type =? EVENT_FORWARD_TYPE_PORT_STATUS then Some (portstatus, fun l => ServiceLists vendor packetin l state)
  else if type =? EVENT_FORWARD_TYPE_STATE_NOTIFY then Some (state, fun l => ServiceLists vendor packetin portstatus l)
  else None.

Definition management_event_forward_entry_operation sw (command : Z) (req : bytes) : res switch_info :=
  let* type := ld8 req 0 in
  match subject type (services sw) with
  | None =>
    let res := host_encode 1 type ++ host_encode 1 EFI_OPERATION_FAILED ++ zeros 6 in
    Ok (management_reply sw MANAGEMENT_REQUEST_FAILED command (Some res))
  | Some (service_list, assign) =>
    let* service_list :=
      if command =? EVENT_FORWARD_ENTRY_ADD then management_event_forward_entry_add service_list req
      else if command =? EVENT_FORWARD_ENTRY_DELETE then management_event_forward_entry_delete service_list req
      else if command =? EVENT_FORWARD_ENTRY_SET then management_event_forward_entries_set service_list req
      else Ok service_list in
    let sw := set_services sw (assign service_list) in
    let buf := create_event_forward_operation_reply type EFI_OPERATION_SUCCEEDED service_list in
    Ok (management_reply sw MANAGEMENT_REQUEST_SUCCEEDED command (Some buf))
  end.

(** [data] is NULL when the request has none. *)
Definition management_recv sw (command : Z) (data : option bytes) : res switch_info :=
  if (command =? DUMP_XID_TABLE) || (command =? DUMP_COOKIE_TABLE) then
    Ok (management_reply sw MANAGEMENT_REQUEST_SUCCEEDED command None)
  else if command =? TOGGLE_COOKIE_AGING then
    let sw :=
      if negb (cookie_translation (options sw)) then sw
      else if age_cookie_table_enabled sw then
        set_age_cookie_table_enabled (delete_timer_event sw cookie_table_aging) false
      else set_age_cookie_table_enabled (add_timer_event sw cookie_table_aging) true in
    Ok (management_reply sw MANAGEMENT_REQUEST_SUCCEEDED command None)
  else if (EVENT_FORWARD_ENTRY_ADD <=? command) && (command <=? EVENT_FORWARD_ENTRY_SET) then
    match data with
    | None => Fault NullPointer
    | Some req => let* req := ntoh_request req in management_event_forward_entry_operation sw command req
    end
  else Ok (management_reply sw MANAGEMENT_REQUEST_FAILED command None).

(** * Events *)

(** [Readable] and [Writable] carry what [read] and [writev] do, [Reply] what
    the switch manager answers to the request of the list of switches. *)
Inductive event : Type :=
| Readable (result : Z -> read_result)
| Writable (result : list bytes -> write_result)
| Timer (callback : timer_callback)
| FromApplication (message_type : Z) (data : bytes)
| Management (command : Z) (data : option bytes)
| SwitchList (dpids : list Z)
| Terminate.

(** The timers that run once are removed when they expire. *)
Definition periodic (callback : timer_callback) : bool :=
  match callback with echo_request_interval | cookie_table_aging => true | _ => false end.

Definition expire sw (callback : timer_callback) : switch_info :=
  if periodic callback then sw else delete_timer_event sw callback.

(** Time goes on between the events. *)
Definition handle_event sw (now : Z * (Z * Z)) (e : event) : res switch_info :=
  let sw := set_clock sw now in
  match e with
  | Readable result => let* (sw, _) := secure_channel_read (fun n w => (result n, w)) sw tt in Ok sw
  | Writable result => let* (sw, _) := secure_channel_write (fun iov w => (result iov, w)) sw tt in Ok sw
  | Timer callback => run_timer (expire sw callback) callback
  | FromApplication message_type data => service_recv sw message_type data
  | Management command data => management_recv sw command data
  | SwitchList dpids => Ok (confirm_self_dpid_is_registerd env sw dpids)
  | Terminate => switch_event_disconnected sw
  end.

(** The daemon reads and writes while it has a socket; the switch manager
    answers the requests of the list once. *)
Definition requests_of (l : list effect) : nat := List.length (List.filter (fun e => match e with SwitchListRequest => true | _ => false end) l).

Definition enabled sw (answered : nat) (e : event) : bool :=
  match e with
  | Readable _ => 0 <=? secure_channel_fd (tx sw)
  | Writable _ => (0 <=? secure_channel_fd (tx sw)) && writable (tx sw)
  | Timer callback => bool_decide (callback ∈ timers sw)
  | SwitchList _ => Nat.ltb answered (requests_of (effects sw))
  | _ => true
  end.

Definition answers (e : event) : nat := match e with SwitchList _ => 1 | _ => 0 end.

(** * Start *)

Definition OFPC_FRAG_NORMAL : Z := 0.

(** The names of the services that [main] takes from its arguments. *)
Definition VENDOR_PREFIX : bytes := map byte.of_Z [118; 101; 110; 100; 111; 114; 58; 58].
Definition PACKET_IN_PREFIX : bytes := map byte.of_Z [112; 97; 99; 107; 101; 116; 95; 105; 110; 58; 58].
Definition PORTSTATUS_PREFIX : bytes := map byte.of_Z [112; 111; 114; 116; 95; 115; 116; 97; 116; 117; 115; 58; 58].
Definition STATE_PREFIX : bytes := map byte.of_Z [115; 116; 97; 116; 101; 95; 110; 111; 116; 105; 102; 121; 58; 58].

(** [strncmp( arg, prefix, strlen( prefix ) ) == 0], and what follows the prefix. *)
Definition strip_prefix (prefix arg : bytes) : option bytes :=
  if decide (take (List.length prefix) arg = prefix) then Some (drop (List.length prefix) arg) else None.

Definition add_service (l : service_lists) (arg : bytes) : service_lists :=
  let '(ServiceLists vendor packetin portstatus state) := l in
  match strip_prefix VENDOR_PREFIX arg, strip_prefix PACKET_IN_PREFIX arg, strip_prefix PORTSTATUS_PREFIX arg,
        strip_prefix STATE_PREFIX arg with
  | Some name, _, _, _ => ServiceLists (vendor ++ [name]) packetin portstatus state
  | None, Some name, _, _ => ServiceLists vendor (packetin ++ [name]) portstatus state
  | None, None, Some name, _ => ServiceLists vendor packetin (portstatus ++ [name]) state
  | None, None, None, Some name => ServiceLists vendor packetin portstatus (state ++ [name])
  | None, None, None, None => l
  end.

(** The variables that [main] initialises; [id] and [dough] are random. *)
Definition init_switch_info (flow_cleanup cookie_translation deny_packet_in : bool) (args : list bytes) (fd id dough : Z)
    (now : Z * (Z * Z)) : switch_info :=
  SwitchInfo (SwitchOptions flow_cleanup cookie_translation deny_packet_in OFPC_FRAG_NORMAL UINT16_MAX)
    (foldl add_service (ServiceLists [] [] [] []) args) SWITCH_STATE_CONNECTED 0 init_receiver (init_sender fd)
    false 0 false (init_xid_table id) (init_cookie_table dough) now [] [].

(** From there to the event loop. *)
Definition start (write_fd : list bytes -> write_result) sw : res (Z * switch_info) :=
  let* (ret, sw) := switch_event_connected sw in
  if ret <? 0 then Ok (-1, sw)
  else
    let* (ret, sw, _) := flush_secure_channel (fun iov w => (write_fd iov, w)) sw tt in
    Ok (if ret <? 0 then -1 else 0, sw).
End Daemon.

(** A step of the daemon that has got [n] lists of switches; the environment
    may answer otherwise at each. *)
Section Steps.
Context {host : Host} (IOV_MAX : Z).

Inductive step : switch_info * nat -> event -> switch_info * nat -> Prop :=
| step_event env sw n now e sw' :
    enabled sw n e = true -> handle_event IOV_MAX env sw now e = Ok sw' -> step (sw, n) e (sw', n + answers e)%nat.

Inductive steps : switch_info * nat -> list event -> switch_info * nat -> Prop :=
| steps_none s : steps s [] s
| steps_more s e s1 es s2 : step s e s1 -> steps s1 es s2 -> steps s (e :: es) s2.
End Steps.
