(* ===== verification/Evolution.v ===== *)
(** What the handlers of the daemon do to its two tables: each one runs calls
    on the table of transaction ids and on the table of cookies, and only calls
    of the kinds that its messages ask for. *)

From Stdlib Require Import ZArith Lia Bool.
From coqutil Require Import Byte.
From stdpp Require Import base list gmap.
From S2P Require Import Prelude Memory OpenFlow Codes ByteOrder Actions Validate Create ErrorMap Buffer LinkedList MessageQueue SecureChannel XidTable CookieTable EventForward SwitchInfo OfpMsgSend Switch OfpMsgRecv Daemon.

(** Run a function backwards: what its parts returned, and on which branch. *)
Ltac inv_run H :=
  repeat match type of H with
  | bind _ _ = Ok _ => let a := fresh "a" in let Ha := fresh "Ha" in apply bind_inv in H as (a & Ha & H);
      repeat match goal with p : _ * _ |- _ => destruct p end; cbv beta iota in H
  | (let '(_, _) := ?p in _) = Ok _ => let E := fresh "E" in destruct p eqn:E
  | (if ?b then _ else _) = Ok _ => let E := fresh "E" in destruct b eqn:E
  | match ?o with _ => _ end = Ok _ => let E := fresh "E" in destruct o eqn:E
  | Ok _ = Ok _ => injection H; clear H; intros; subst
  | Fault _ = Ok _ => discriminate H
  end.

(** [buf] is the last reply to the message with id [x]: not a part of a
    statistics reply that others follow. *)
Definition answers_id {host : Host} (x : Z) (buf : bytes) : Prop :=
  ld_ntoh 4 buf 4 = Ok x /\
  ~ (exists flags, ld8 buf 1 = Ok OFPT_STATS_REPLY /\ ld_ntoh 2 buf 10 = Ok flags /\ Z.land flags OFPSF_REPLY_MORE <> 0).

(** [buf] says that a flow with cookie [c] is gone, or was not made. *)
Definition releases {host : Host} (c : Z) (buf : bytes) : Prop :=
  (ld8 buf 1 = Ok OFPT_FLOW_REMOVED /\ ld_ntoh 8 buf 48 = Ok c) \/
  (ld8 buf 1 = Ok OFPT_ERROR /\ ld_ntoh 2 buf 8 = Ok OFPET_FLOW_MOD_FAILED /\ ld_ntoh 8 buf 60 = Ok c).

Section Evolution.
Context {host : Host}.
Implicit Types (sw : switch_info) (buf name : bytes).

(** The calls of the tables; those of [A] and of [B] are allowed. *)
Context (A : xid_call -> Prop) (B : cookie_call -> Prop).
Context (A_generate : A Generate) (A_lookup : forall x, A (XidTable.Lookup x)).
Context (B_cookie : forall c, B (LookupCookie c)) (B_application : forall c name, B (LookupApplication c name)).

(** At most [n] insertions of ids and [m] of cookies. *)
Record evolves (n m : Z) sw sw' : Prop := {
  ev_xids : exists cs rs, run_xid_calls (xids sw) cs = Ok (rs, xids sw') /\ Forall A cs /\ XidTable.inserts cs <= n;
  ev_cookies : exists cs rs, CookieTable.run_calls (cookies sw) cs = Ok (rs, cookies sw') /\ Forall B cs /\ CookieTable.inserts cs <= m;
  ev_options : options sw' = options sw
}.

Lemma xid_inserts_app cs ds : XidTable.inserts (cs ++ ds) = XidTable.inserts cs + XidTable.inserts ds.
Proof. induction cs as [| c cs IH]; [done |]. cbn [app]. rewrite XidTable.inserts_cons, IH, (XidTable.inserts_cons c cs). lia. Qed.

Lemma evolves_trans n m n' m' sw sw1 sw2 : evolves n m sw sw1 -> evolves n' m' sw1 sw2 -> evolves (n + n') (m + m') sw sw2.
Proof.
  intros [(cs & rs & Hx & Ha & Hn) (ds & ss & Hc & Hb & Hm) Ho] [(cs' & rs' & Hx' & Ha' & Hn') (ds' & ss' & Hc' & Hb' & Hm') Ho'].
  split; [| | congruence].
  - exists (cs ++ cs'), (rs ++ rs'). rewrite run_xid_calls_app, Hx. bind_ok. rewrite Hx'. bind_ok.
    split_and!; [done | by apply Forall_app | rewrite xid_inserts_app; lia].
  - exists (ds ++ ds'), (ss ++ ss'). rewrite run_cookie_calls_app, Hc. bind_ok. rewrite Hc'. bind_ok.
    split_and!; [done | by apply Forall_app | rewrite CookieTable.inserts_app; lia].
Qed.

Lemma evolves_le n m n' m' sw sw' : evolves n m sw sw' -> n <= n' -> m <= m' -> evolves n' m' sw sw'.
Proof.
  intros [(cs & rs & Hx & Ha & Hn) (ds & ss & Hc & Hb & Hm) Ho] Hle Hle'.
  split; [exists cs, rs | exists ds, ss | done]; split_and!; (done || lia).
Qed.

Lemma evolves_nil n m sw : 0 <= n -> 0 <= m -> evolves n m sw sw.
Proof. intros Hn Hm. split; [exists [], [] | exists [], [] | done]; by split_and!. Qed.

(** The last part of a chain, and setters of other fields after a state. *)
Lemma evolves_last n' m' n m sw sw1 sw2 : evolves n' m' sw1 sw2 -> evolves (n - n') (m - m') sw sw1 -> evolves n m sw sw2.
Proof.
  intros H2 H1. apply (evolves_le (n - n' + n') (m - m' + m')); [by apply (evolves_trans _ _ _ _ _ sw1) | lia | lia].
Qed.

Lemma evolves_set sw1 n m sw sw2 :
  xids sw2 = xids sw1 -> cookies sw2 = cookies sw1 -> options sw2 = options sw1 -> evolves n m sw sw1 -> evolves n m sw sw2.
Proof. intros Hx Hc Ho [He1 He2 He3]. split; [by rewrite Hx | by rewrite Hc | by rewrite Ho]. Qed.

(** One call of a table. *)
Lemma evolves_xid c r sw t :
  XidTable.run_call (xids sw) c = Ok (r, t) -> A c -> evolves (XidTable.inserts [c]) 0 sw (set_xids sw t).
Proof.
  intros Hr Ha. split; [| by exists [], [] | done].
  exists [c], [r]. cbn [run_xid_calls]. rewrite Hr. bind_ok. split_and!; [done | by constructor | lia].
Qed.

Lemma evolves_cookie c r sw t :
  CookieTable.run_call (cookies sw) c = Ok (r, t) -> B c -> evolves 0 (CookieTable.inserts [c]) sw (set_cookies sw t).
Proof.
  intros Hr Hb. split; [by exists [], [] | | done].
  exists [c], [r]. cbn [CookieTable.run_calls]. rewrite Hr. bind_ok. split_and!; [done | by constructor | lia].
Qed.

(** ** Chains *)

(** The state under setters of other fields, and that nothing else differs. *)
Ltac base t :=
  lazymatch t with
  | emit ?s _ => base s | set_tx ?s _ => base s | set_rx ?s _ => base s | set_state ?s _ => base s
  | set_services ?s _ => base s | set_datapath_id ?s _ => base s | set_echo_request_xid ?s _ => base s
  | set_clock ?s _ => base s | set_running_timer ?s _ => base s | set_timers ?s _ => base s
  | set_age_cookie_table_enabled ?s _ => base s
  | add_timer_event ?s _ => base s | delete_timer_event ?s _ => base s
  | switch_set_timeout ?s _ => base s | switch_unset_timeout ?s _ => base s
  | service_send_to_reply _ _ _ _ ?s => base s | service_send_to_application _ _ _ _ ?s => base s
  | service_send_state ?s _ _ => base s | notify_state_to_controllers ?s => base s
  | close_channel ?s => base s | management_reply ?s _ _ _ => base s | expire ?s _ => base s
  | _ => t
  end.

Ltac untouched :=
  unfold notify_state_to_controllers, service_send_state, service_send_to_application, service_send_to_reply,
    switch_unset_timeout, switch_set_timeout, add_timer_event, delete_timer_event, close_channel, management_reply, expire;
  repeat case_match; reflexivity.

(** [evolves n sw sw'] from the parts of the run in the hypotheses. *)
Ltac evolve :=
  lazymatch goal with
  | |- evolves ?n ?m ?s ?t =>
    let b := base t in
    tryif constr_eq b t then
      first [ apply evolves_nil; [lia | lia]
            | match goal with H : evolves _ _ ?a t |- _ => apply (evolves_last _ _ n m s a t H); clear H; evolve end ]
    else (apply (evolves_set b); [untouched | untouched | untouched | evolve])
  end.

Lemma confirm_evolves env sw dpids : evolves 0 0 sw (confirm_self_dpid_is_registerd env sw dpids).
Proof. unfold confirm_self_dpid_is_registerd. repeat case_match; evolve. Qed.

(** ** Messages to the switch *)

Lemma generate_evolves sw x sw' : OfpMsgSend.generate_xid sw = Ok (x, sw') -> evolves 0 0 sw sw'.
Proof.
  unfold OfpMsgSend.generate_xid. intros H. inv_run H.
  match goal with Hg : XidTable.generate_xid _ = Ok (?x, _) |- _ => apply (evolves_xid Generate (NewXid x)); [| done];
    cbn [XidTable.run_call]; by rewrite Hg end.
Qed.

Lemma channel_evolves sw buf ret sw' : OfpMsgSend.send_to_secure_channel sw buf = Ok (ret, sw') -> evolves 0 0 sw sw'.
Proof. unfold OfpMsgSend.send_to_secure_channel. intros H. inv_run H. evolve. Qed.

Lemma insert_xid_evolves sw original name x t :
  insert_xid_entry (xids sw) original name = Ok (x, t) -> A (XidTable.Insert original name) -> evolves 1 0 sw (set_xids sw t).
Proof.
  intros H Ha. apply (evolves_xid (XidTable.Insert original name) (NewXid x)); [| done]. cbn. by rewrite H.
Qed.

Ltac send := intros H; inv_run H; repeat match goal with
  | Hg : OfpMsgSend.generate_xid _ = Ok _ |- _ => apply generate_evolves in Hg
  | Hc : OfpMsgSend.send_to_secure_channel _ _ = Ok _ |- _ => apply channel_evolves in Hc
  end; evolve.

Lemma send_hello_evolves sw ret sw' : ofpmsg_send_hello sw = Ok (ret, sw') -> evolves 0 0 sw sw'.
Proof. unfold ofpmsg_send_hello. send. Qed.
Lemma send_echorequest_evolves sw x body ret sw' : ofpmsg_send_echorequest sw x body = Ok (ret, sw') -> evolves 0 0 sw sw'.
Proof. unfold ofpmsg_send_echorequest. send. Qed.
Lemma send_echoreply_evolves sw x body ret sw' : ofpmsg_send_echoreply sw x body = Ok (ret, sw') -> evolves 0 0 sw sw'.
Proof. unfold ofpmsg_send_echoreply. send. Qed.
Lemma send_featuresrequest_evolves sw ret sw' : ofpmsg_send_featuresrequest sw = Ok (ret, sw') -> evolves 0 0 sw sw'.
Proof. unfold ofpmsg_send_featuresrequest. send. Qed.
Lemma send_setconfig_evolves sw ret sw' : ofpmsg_send_setconfig sw = Ok (ret, sw') -> evolves 0 0 sw sw'.
Proof. unfold ofpmsg_send_setconfig. send. Qed.
Lemma send_error_evolves sw type code data ret sw' : ofpmsg_send_error_msg sw type code data = Ok (ret, sw') -> evolves 0 0 sw sw'.
Proof. unfold ofpmsg_send_error_msg. send. Qed.
Lemma send_delete_all_evolves sw ret sw' : ofpmsg_send_delete_all_flows sw = Ok (ret, sw') -> evolves 0 0 sw sw'.
Proof. unfold ofpmsg_send_delete_all_flows. send. Qed.
Lemma send_deny_all_evolves sw ret sw' : ofpmsg_send_deny_all sw = Ok (ret, sw') -> evolves 0 0 sw sw'.
Proof. unfold ofpmsg_send_deny_all. send. Qed.

(** ** Messages of applications *)

Lemma insert_cookie_evolves sw c name fl now x t :
  insert_cookie_entry (cookies sw) c name fl now = Ok (x, t) -> B (CookieTable.Insert c name fl now) -> evolves 0 1 sw (set_cookies sw t).
Proof. intros H Hb. apply (evolves_cookie (CookieTable.Insert c name fl now) (Cookie x)); [| done]. cbn. by rewrite H. Qed.

(** What a message of an application may do at [now]. *)
Definition inserts_allowed (now : Z) : Prop :=
  (forall original name, A (XidTable.Insert original name)) /\ (forall c name fl, B (CookieTable.Insert c name fl now)).

Lemma update_cookie_evolves sw buf name ret buf' sw' :
  inserts_allowed (clock sw).1 -> update_flowmod_cookie sw buf name = Ok (ret, buf', sw') -> evolves 0 1 sw sw'.
Proof.
  intros [_ Hb]. unfold update_flowmod_cookie. intros H. inv_run H; try (apply evolves_nil; lia);
    eapply insert_cookie_evolves; eauto.
Qed.

Lemma send_message_evolves sw buf name ret sw' :
  inserts_allowed (clock sw).1 -> ofpmsg_send sw buf name = Ok (ret, sw') -> evolves 1 1 sw sw'.
Proof.
  intros Hallow. unfold ofpmsg_send. intros H. apply bind_inv in H as (original & _ & H).
  apply bind_inv in H as ([x t] & Hi & H). apply bind_inv in H as (buf1 & _ & H). apply bind_inv in H as (type & _ & H).
  apply bind_inv in H as ([[ret1 buf2] sw1] & Hu & H).
  assert (H1 : evolves 0 1 (set_xids sw t) sw1).
  { destruct (_ && _); [by eapply update_cookie_evolves | injection Hu as <- <- <-; apply evolves_nil; lia]. }
  apply insert_xid_evolves in Hi; [| apply Hallow].
  destruct (ret1 <? 0); [injection H as <- <- | apply channel_evolves in H]; evolve.
Qed.

(** ** The connection *)

(** Turn the runs of the functions above into chains. *)
Ltac chain :=
  repeat match goal with
  | H : OfpMsgSend.generate_xid _ = Ok _ |- _ => apply generate_evolves in H
  | H : OfpMsgSend.send_to_secure_channel _ _ = Ok _ |- _ => apply channel_evolves in H
  | H : ofpmsg_send_hello _ = Ok _ |- _ => apply send_hello_evolves in H
  | H : ofpmsg_send_echorequest _ _ _ = Ok _ |- _ => apply send_echorequest_evolves in H
  | H : ofpmsg_send_echoreply _ _ _ = Ok _ |- _ => apply send_echoreply_evolves in H
  | H : ofpmsg_send_featuresrequest _ = Ok _ |- _ => apply send_featuresrequest_evolves in H
  | H : ofpmsg_send_setconfig _ = Ok _ |- _ => apply send_setconfig_evolves in H
  | H : ofpmsg_send_error_msg _ _ _ _ = Ok _ |- _ => apply send_error_evolves in H
  | H : ofpmsg_send_delete_all_flows _ = Ok _ |- _ => apply send_delete_all_evolves in H
  | H : ofpmsg_send_deny_all _ = Ok _ |- _ => apply send_deny_all_evolves in H
  | H : Ok _ = Ok _ |- _ => injection H; clear H; intros; subst
  | H : (_, _) = (_, _) |- _ => injection H; clear H; intros; subst
  | H : (if ?b then _ else _) = _ |- _ => destruct b
  end.

Lemma disconnected_evolves sw sw' : switch_event_disconnected sw = Ok sw' -> evolves 0 0 sw sw'.
Proof.
  unfold switch_event_disconnected. destruct (decide (state sw = SWITCH_STATE_COMPLETED)); intros H; inv_run H; evolve.
Qed.

Lemma connected_evolves sw ret sw' : switch_event_connected sw = Ok (ret, sw') -> evolves 0 0 sw sw'.
Proof. unfold switch_event_connected. intros H. inv_run H; chain; evolve. Qed.

Lemma recv_hello_evolves sw ret sw' : switch_event_recv_hello sw = Ok (ret, sw') -> evolves 0 0 sw sw'.
Proof.
  unfold switch_event_recv_hello. destruct (decide _); [| intros H; inv_run H; evolve].
  intros H; inv_run H; chain; evolve.
Qed.

Lemma timeout_evolves sw expected sw' : switch_event_timeout sw expected = Ok sw' -> evolves 0 0 sw sw'.
Proof.
  unfold switch_event_timeout. destruct (decide _); intros H; [apply disconnected_evolves in H | injection H as <-]; evolve.
Qed.

Lemma recv_featuresreply_evolves env sw dpid ret sw' :
  switch_event_recv_featuresreply env sw dpid = Ok (ret, sw') -> evolves 0 0 sw sw'.
Proof.
  unfold switch_event_recv_featuresreply. intros H. inv_run H; try evolve; cbn [datapath_id] in *.
  all: chain; evolve.
Qed.

Lemma send_echo_evolves sw sw' : send_echo_request sw = Ok sw' -> evolves 0 0 sw sw'.
Proof.
  unfold send_echo_request. intros H. inv_run H; chain; try (apply disconnected_evolves in H); evolve.
Qed.

Lemma recv_echoreply_evolves sw buf ret sw' : switch_event_recv_echoreply sw buf = Ok (ret, sw') -> evolves 0 0 sw sw'.
Proof. unfold switch_event_recv_echoreply. intros H. inv_run H; evolve. Qed.

(** ** Messages of the switch *)

Lemma lookup_xid_inv sw x a e : lookup_xid sw x = Ok (Some (a, e)) ->
  lookup_xid_entry (xids sw) x = Ok (Some a) /\ XidTable.load (XidTable.entry_heap (xids sw)) a = Ok e.
Proof. unfold lookup_xid. intros H. by inv_run H. Qed.

Lemma lookup_cookie_inv sw c a e : lookup_cookie sw c = Ok (Some (a, e)) ->
  lookup_cookie_entry_by_cookie (cookies sw) c = Ok (Some a) /\ CookieTable.load (CookieTable.entry_heap (cookies sw)) a = Ok e.
Proof. unfold lookup_cookie. intros H. by inv_run H. Qed.

Lemma delete_xid_evolves sw sw1 x a e sw' :
  xids sw1 = xids sw -> lookup_xid sw x = Ok (Some (a, e)) -> A (XidTable.Reply x) -> delete_xid sw1 a = Ok sw' -> evolves 0 0 sw1 sw'.
Proof.
  intros Hx (Hl & He)%lookup_xid_inv Ha H. unfold delete_xid in H. inv_run H.
  apply (evolves_xid (XidTable.Reply x) (Found (Some (origin e)))); [| done]. cbn [XidTable.run_call].
  rewrite Hx, Hl. bind_ok. rewrite He. bind_ok. rewrite <- Hx. by match goal with Hd : delete_xid_entry _ _ = _ |- _ => rewrite Hd end.
Qed.

Lemma delete_cookie_evolves sw sw1 c a e sw' :
  cookies sw1 = cookies sw -> lookup_cookie sw c = Ok (Some (a, e)) -> B (CookieTable.Delete c) -> delete_cookie sw1 a = Ok sw' ->
  evolves 0 0 sw1 sw'.
Proof.
  intros Hx (Hl & He)%lookup_cookie_inv Hb H. unfold delete_cookie in H. inv_run H.
  apply (evolves_cookie (CookieTable.Delete c) (Entry (Some e))); [| done]. cbn [CookieTable.run_call].
  rewrite Hx, Hl. bind_ok. cbn [entry_of]. rewrite He. bind_ok. rewrite <- Hx.
  by match goal with Hd : delete_cookie_entry _ _ = _ |- _ => rewrite Hd end.
Qed.

Lemma answer_evolves sw buf ret sw' :
  (forall x, ld_ntoh 4 buf 4 = Ok x -> A (XidTable.Reply x)) -> answer sw buf = Ok (ret, sw') -> evolves 0 0 sw sw'.
Proof.
  intros Ha. unfold answer, send_transaction_reply. intros H. inv_run H.
  match goal with Hs : bind _ _ = Ok _ |- _ => inv_run Hs end; [| evolve].
  match goal with Hl : lookup_xid sw ?x = _, Hd : delete_xid ?s _ = _ |- _ =>
    apply (delete_xid_evolves sw s x _ _ _ eq_refl Hl) in Hd; [evolve | by apply Ha] end.
Qed.

(** The parts of [answers_id] and [releases] that each type of message meets. *)
Lemma answers_other x buf t : ld8 buf 1 = Ok t -> t <> OFPT_STATS_REPLY -> ld_ntoh 4 buf 4 = Ok x -> answers_id x buf.
Proof. intros Ht Hne Hx. split; [done |]. intros (f & Ht' & _). congruence. Qed.

Lemma recv_error_evolves sw buf ret sw' :
  ld8 buf 1 = Ok OFPT_ERROR -> (forall x, answers_id x buf -> A (XidTable.Reply x)) ->
  (forall c, releases c buf -> B (CookieTable.Delete c)) -> ofpmsg_recv_error sw buf = Ok (ret, sw') -> evolves 0 0 sw sw'.
Proof.
  intros Ht Ha Hb. unfold ofpmsg_recv_error. intros H.
  assert (Hreply : forall m x, ld_ntoh 4 m 4 = ld_ntoh 4 buf 4 -> ld_ntoh 4 m 4 = Ok x -> A (XidTable.Reply x)).
  { intros m x -> Hx. by apply Ha, (answers_other x buf OFPT_ERROR). }
  assert (Hquote : forall (e : option (positive * xid_entry)) m,
    match e with Some (_, e) => st_hton 4 buf 16 (original_xid e) | None => Ok buf end = Ok m ->
    ld_ntoh 4 m 4 = ld_ntoh 4 buf 4 /\ ld_ntoh 8 m 60 = ld_ntoh 8 buf 60).
  { intros [[a e] |] m Hm; [split; eapply ld_ntoh_st_other; eauto; lia | by injection Hm as <-]. }
  inv_run H; try evolve; [| | by apply answer_evolves in H; [| intros x; apply Hreply]].
  2: { apply answer_evolves in H; [done | intros x]. apply Hreply. by eapply Hquote. }
  match goal with Hm : _ = Ok ?m, Hq : ld_ntoh 8 ?m 60 = Ok _ |- _ => apply Hquote in Hm as [Hx Hc] end.
  match goal with Hl : lookup_cookie sw ?c = Ok ?e, Hm : _ = Ok ?m, Hs : _ = Ok ?s, Hr : answer ?s ?m = _ |- _ =>
    assert (E4 : ld_ntoh 4 m 4 = ld_ntoh 4 buf 4)
      by (rewrite <- Hx; destruct e as [[]|]; [| by injection Hm as <-]; inv_run Hm;
          repeat (erewrite ld_ntoh_st_other; [| eassumption | lia]); done);
    assert (Hev : evolves 0 0 sw s)
  end.
  { match goal with Hs : _ = Ok ?s |- evolves _ _ _ ?s => inv_run Hs end; try evolve.
    eapply (delete_cookie_evolves sw sw); [done | eassumption | | eassumption]. apply Hb. right. split_and!; [done | | congruence].
    match goal with Ht2 : ld_ntoh 2 buf 8 = Ok ?t |- _ => rewrite Ht2; f_equal; lia end. }
  apply answer_evolves in H; [evolve | intros x; by apply Hreply].
Qed.

Lemma recv_flowremoved_evolves sw buf ret sw' :
  ld8 buf 1 = Ok OFPT_FLOW_REMOVED -> (forall c, releases c buf -> B (CookieTable.Delete c)) ->
  ofpmsg_recv_flowremoved sw buf = Ok (ret, sw') -> evolves 0 0 sw sw'.
Proof.
  intros Ht Hb. unfold ofpmsg_recv_flowremoved. intros H. inv_run H; try evolve.
  match goal with Hq : ld_ntoh 8 buf 48 = Ok ?c, Hl : lookup_cookie sw ?c = Ok _, Hs : _ = Ok ?s, Hd : delete_cookie ?s _ = _ |- _ =>
    assert (evolves 0 0 sw s /\ cookies s = cookies sw) as [He Hc] by (inv_run Hs; (split; [evolve | done]));
    apply (delete_cookie_evolves sw s c _ _ _ Hc Hl) in Hd; [evolve | apply Hb; by left] end.
Qed.

Lemma translate_flow_stats_other fuel sw buf flow_stats len buf' k off :
  translate_flow_stats fuel sw buf flow_stats len = Ok buf' -> 0 <= off -> off + Z.of_nat k <= flow_stats ->
  ld_ntoh k buf' off = ld_ntoh k buf off.
Proof.
  revert buf flow_stats len. induction fuel as [| fuel IH]; intros buf flow_stats len H Ho Hk; [done |].
  cbn [translate_flow_stats] in H. inv_run H; [| done].
  match goal with Hm : _ = Ok ?m, Hl : ld_ntoh 2 ?m flow_stats = Ok ?l |- _ =>
    assert (Hf : 0 <= l) by (apply ld_ntoh_fits in Hl; unfold fits in Hl; lia); rewrite (IH _ _ _ H) by lia; clear Hl; inv_run Hm; [| done];
    eapply ld_ntoh_st_other; eauto; lia end.
Qed.

Lemma recv_statsreply_evolves sw buf ret sw' :
  ld8 buf 1 = Ok OFPT_STATS_REPLY -> (forall x, answers_id x buf -> A (XidTable.Reply x)) ->
  ofpmsg_recv_statsreply sw buf = Ok (ret, sw') -> evolves 0 0 sw sw'.
Proof.
  intros Ht Ha. unfold ofpmsg_recv_statsreply. intros H.
  inv_run H; try evolve.
  match goal with Hm : _ = Ok ?m, Hx : ld_ntoh 4 ?m 4 = Ok ?x, Hst : st_hton 4 ?m 4 _ = Ok ?m', Hf : ld_ntoh 2 ?m' 10 = Ok ?f |- _ =>
    assert (ld_ntoh 4 m 4 = ld_ntoh 4 buf 4 /\ ld_ntoh 2 m 10 = ld_ntoh 2 buf 10) as [E4 E10];
    [| rewrite (ld_ntoh_st_other 4 m 4 _ m') in Hf by (done || lia); rewrite E10 in Hf; rewrite E4 in Hx;
       assert (Hlast : Z.land f OFPSF_REPLY_MORE = 0 -> A (XidTable.Reply x))
         by (intros Hz; apply Ha; split; [done | intros (f' & _ & Hf' & Hn); rewrite Hf in Hf'; congruence]) ]
  end.
  { match goal with Hm : (if ?c then _ else _) = Ok ?m, Hx : ld_ntoh 4 ?m 4 = Ok ?x |- _ => destruct c; [| by injection Hm as <-]; inv_run Hm;
      split; (eapply translate_flow_stats_other; [eassumption | lia | unfold offsetof_stats_reply_body; lia]) end. }
  match goal with Hd : (if ?c then _ else _) = Ok sw' |- _ => destruct (Z.eqb_spec (Z.land a4 OFPSF_REPLY_MORE) 0); [| injection Hd as <-; evolve] end.
  match goal with Hl : lookup_xid sw ?x = _, Hd : delete_xid ?s _ = _ |- _ =>
    apply (delete_xid_evolves sw s x _ _ _ eq_refl Hl) in Hd; [evolve | by apply Hlast] end.
Qed.

Lemma recv_evolves env sw buf ret sw' :
  (forall x, answers_id x buf -> A (XidTable.Reply x)) -> (forall c, releases c buf -> B (CookieTable.Delete c)) ->
  ofpmsg_recv env buf sw = Ok (ret, sw') -> evolves 0 0 sw sw'.
Proof.
  intros Ha Hb. unfold ofpmsg_recv. intros H. apply bind_inv in H as (err & _ & H). apply bind_inv in H as (type & Ht & H).
  destruct (negb (err =? 0)); [inv_run H; chain; evolve |].
  assert (Hans : type <> OFPT_STATS_REPLY -> forall sw sw' ret, answer sw buf = Ok (ret, sw') -> evolves 0 0 sw sw').
  { intros Hne s s' r. apply answer_evolves. intros x Hx. by apply Ha, (answers_other x buf type). }
  repeat match type of H with
  | (if ?t =? ?c then _ else _) = _ => destruct (Z.eqb_spec t c) as [-> | ?]
  end; try discriminate H.
  - by apply recv_hello_evolves in H.
  - by eapply recv_error_evolves.
  - unfold ofpmsg_recv_echorequest in H. inv_run H. chain. evolve.
  - unfold ofpmsg_recv_echoreply in H. inv_run H;
      match goal with Hr : switch_event_recv_echoreply _ _ = _ |- _ => apply recv_echoreply_evolves in Hr end; [evolve |].
    apply Hans in H; [evolve | done].
  - injection H as <- <-. evolve.
  - unfold ofpmsg_recv_featuresreply in H. inv_run H;
      match goal with Hr : switch_event_recv_featuresreply _ _ _ = _ |- _ => apply recv_featuresreply_evolves in Hr end; [evolve |].
    apply Hans in H; [evolve | done].
  - by apply Hans in H.
  - injection H as <- <-. evolve.
  - by eapply recv_flowremoved_evolves.
  - injection H as <- <-. evolve.
  - by eapply recv_statsreply_evolves.
  - by apply Hans in H.
  - by apply Hans in H.
Qed.
(** ** Events *)

Lemma from_application_evolves sw dpid name buf ret sw' :
  inserts_allowed (clock sw).1 -> switch_event_recv_from_application sw dpid name buf = Ok (ret, sw') -> evolves 1 1 sw sw'.
Proof.
  intros Hallow. unfold switch_event_recv_from_application. intros H. inv_run H; [evolve |]. by eapply send_message_evolves.
Qed.

Lemma service_recv_evolves sw tag data sw' :
  inserts_allowed (clock sw).1 -> service_recv sw tag data = Ok sw' -> evolves 1 1 sw sw'.
Proof.
  intros Hallow. unfold service_recv, service_recv_from_application. intros H. inv_run H; try evolve.
  - unfold handle_openflow_message in H. inv_run H; [evolve |].
    match goal with Hr : switch_event_recv_from_application _ _ _ _ = _ |- _ => by apply from_application_evolves in Hr end.
  - unfold handle_openflow_disconnect_request, switch_event_disconnect_request in H. inv_run H.
    match goal with Hr : _ = Ok (_, sw') |- _ => inv_run Hr; [evolve |] end.
    match goal with Hr : switch_event_disconnected _ = _ |- _ => apply disconnected_evolves in Hr end. evolve.
Qed.

Lemma secure_channel_write_evolves {W} IOV_MAX (write_fd : list bytes -> W -> write_result * W) sw w sw' w' :
  secure_channel_write IOV_MAX write_fd sw w = Ok (sw', w') -> evolves 0 0 sw sw'.
Proof.
  unfold secure_channel_write, flush_secure_channel. intros H. inv_run H;
    match goal with Hf : bind _ _ = Ok _ |- _ => inv_run Hf end; [| evolve].
  match goal with Hr : switch_event_disconnected _ = _ |- _ => apply disconnected_evolves in Hr end. evolve.
Qed.

Lemma management_evolves sw command data sw' : management_recv sw command data = Ok sw' -> evolves 0 0 sw sw'.
Proof.
  unfold management_recv. intros H. inv_run H; try evolve.
  - destruct (negb _); [evolve | destruct (age_cookie_table_enabled sw); evolve].
  - unfold management_event_forward_entry_operation in H. inv_run H; evolve.
Qed.

Lemma run_timer_evolves sw callback sw' :
  (callback = cookie_table_aging -> B (CookieTable.Age (clock sw).1)) -> run_timer sw callback = Ok sw' -> evolves 0 0 sw sw'.
Proof.
  intros Hb. destruct callback; cbn [run_timer]; intros H.
  - by apply timeout_evolves in H.
  - by apply timeout_evolves in H.
  - by apply disconnected_evolves in H.
  - by apply send_echo_evolves in H.
  - inv_run H. apply (evolves_cookie (CookieTable.Age (clock sw).1) Done); [| by apply Hb]. cbn [CookieTable.run_call].
    by match goal with Hr : age_cookie_table _ _ = _ |- _ => rewrite Hr end.
Qed.

(** The event is not that of the socket of the switch, and may do what it does
    to the tables. *)
Definition event_allowed (now : Z * (Z * Z)) (e : event) : Prop :=
  match e with
  | Readable _ => False
  | FromApplication _ _ => inserts_allowed now.1
  | Timer cookie_table_aging => B (CookieTable.Age now.1)
  | _ => True
  end.

Lemma handle_event_evolves IOV_MAX env sw now e sw' :
  event_allowed now e -> handle_event IOV_MAX env sw now e = Ok sw' ->
  evolves (match e with FromApplication _ _ => 1 | _ => 0 end) (match e with FromApplication _ _ => 1 | _ => 0 end) sw sw'.
Proof.
  intros Hallow. unfold handle_event. destruct e as [result | result | callback | tag data | command data | dpids |]; intros H.
  - done.
  - inv_run H.
    match goal with Hr : secure_channel_write _ _ _ _ = _ |- _ => apply secure_channel_write_evolves in Hr end. evolve.
  - apply run_timer_evolves in H; [evolve |]. intros ->. exact Hallow.
  - apply service_recv_evolves in H; [evolve | done].
  - apply management_evolves in H. evolve.
  - injection H as <-. match goal with |- evolves _ _ _ ?s => pose proof (confirm_evolves env (set_clock sw now) dpids) end. evolve.
  - apply disconnected_evolves in H. evolve.
Qed.

(** ** Traffic *)

End Evolution.
