(* ===== verification/Transactions.v ===== *)
(** Messages of applications and their answers, through the whole daemon: the
    id of a request, and the cookie of a flow, lead back to the application
    whatever happens in between. *)

From Stdlib Require Import ZArith Lia Bool.
From coqutil Require Import Byte.
From stdpp Require Import base list gmap.
From S2P Require Import Prelude Memory OpenFlow Codes ByteOrder Actions Validate Create ErrorMap Utility Buffer LinkedList MessageQueue SecureChannel XidTable CookieTable EventForward SwitchInfo OfpMsgSend Switch OfpMsgRecv Daemon Evolution.

(** * Traffic

    The messages of the switch, as the receiver queues them (SecureChannel.v
    shows that they are those on the wire, in order), and the other events. *)

Inductive traffic : Type :=
| FromSwitch (env : environment) (buf : bytes)
| Event (env : environment) (now : Z * (Z * Z)) (e : event).

Section Traffic.
Context {host : Host} (IOV_MAX : Z).
Implicit Types (sw : switch_info) (buf name : bytes) (item : traffic).

Definition run_traffic sw item : res switch_info :=
  match item with
  | FromSwitch env buf => let* (_, sw) := ofpmsg_recv env buf sw in Ok sw
  | Event env now e => handle_event IOV_MAX env sw now e
  end.

Fixpoint run_all sw (items : list traffic) : res switch_info :=
  match items with
  | [] => Ok sw
  | item :: items => let* sw := run_traffic sw item in run_all sw items
  end.

Definition from_application item : Z := match item with Event _ _ (FromApplication _ _) => 1 | _ => 0 end.
Definition from_applications (items : list traffic) : Z := foldr (fun item n => from_application item + n) 0 items.

Definition item_allowed (A : xid_call -> Prop) (B : cookie_call -> Prop) item : Prop :=
  match item with
  | FromSwitch _ buf => (forall x, answers_id x buf -> A (XidTable.Reply x)) /\ (forall c, releases c buf -> B (CookieTable.Delete c))
  | Event _ now e => event_allowed A B now e
  end.

(** The events of the socket come as [FromSwitch]. *)
Definition ordinary item : Prop := match item with Event _ _ (Readable _) => False | _ => True end.

Section Allowed.
Context (A : xid_call -> Prop) (B : cookie_call -> Prop).
Context (A_generate : A Generate) (A_lookup : forall x, A (XidTable.Lookup x)).
Context (B_cookie : forall c, B (LookupCookie c)) (B_application : forall c name, B (LookupApplication c name)).

Lemma run_all_evolves items sw sw' :
  Forall (item_allowed A B) items -> run_all sw items = Ok sw' ->
  evolves A B (from_applications items) (from_applications items) sw sw'.
Proof.
  revert sw. induction items as [| item items IH]; intros sw; cbn [run_all from_applications foldr].
  - intros _ [= ->]. by apply evolves_nil.
  - intros [Ha Hall]%Forall_cons H. apply bind_inv in H as (sw1 & H1 & H). apply (IH sw1 Hall) in H.
    fold (from_applications items). eapply evolves_trans; [| exact H].
    destruct item as [env buf | env now e]; cbn [run_traffic item_allowed from_application] in *.
    + apply bind_inv in H1 as ([ret s] & H1 & [= <-]). destruct Ha as [Hx Hc]. by eapply recv_evolves.
    + eapply handle_event_evolves in H1; [| done..]. by destruct e.
Qed.
End Allowed.

Definition any_xid (c : xid_call) : Prop := True.
Definition any_cookie (c : cookie_call) : Prop := True.

Lemma ordinary_allowed items : Forall ordinary items -> Forall (item_allowed any_xid any_cookie) items.
Proof.
  intros H. eapply Forall_impl; [exact H |]. intros [env buf | env now e]; [done |]. by destruct e as [| | [] | | | |].
Qed.

Lemma evolves_wf A B n m sw sw' : evolves A B n m sw sw' -> wf_xid_table (xids sw) -> wf_xid_table (xids sw').
Proof.
  intros [(cs & rs & Hr & _) _ _] Hw. destruct (run_xid_calls_ok (xids sw) cs Hw) as (t & Ht & Hw' & _).
  rewrite Hr in Ht. by injection Ht as _ ->.
Qed.

Lemma evolves_rep A B n m sw sw' k mp : evolves A B n m sw sw' -> rep (cookies sw) mp k -> k + m <= INT_MAX ->
  exists cs rs mp', spec_steps mp cs rs mp' /\ Forall B cs /\ rep (cookies sw') mp' (k + m).
Proof.
  intros [_ (cs & rs & Hr & Hb & Hn) _] H Hk. destruct (run_cookie_calls_ok (cookies sw) mp k cs H) as (rs' & t & mp' & Ht & Hs & H'); [lia |].
  rewrite Hr in Ht. injection Ht as <- <-. exists cs, rs, mp'. split_and!; [done | done |]. by apply (rep_weaken _ _ _ _ H'); lia.
Qed.

(** The daemon after [main] has started it. *)
Definition boot (write_fd : list bytes -> write_result) sw : res switch_info := let* (_, sw) := start IOV_MAX write_fd sw in Ok sw.

Lemma boot_evolves write_fd sw sw' : boot write_fd sw = Ok sw' -> evolves any_xid any_cookie 0 0 sw sw'.
Proof.
  unfold boot, start, flush_secure_channel. intros H. inv_run H.
  match goal with Hs : _ = Ok (_, sw') |- _ => inv_run Hs end;
    match goal with Hc : switch_event_connected _ = _ |- _ => apply (connected_evolves any_xid any_cookie) in Hc; [| done..] end.
  - done.
  - match goal with Hf : bind _ _ = _ |- _ => inv_run Hf end.
    match goal with Hc : evolves _ _ _ _ _ ?s |- _ => by apply (evolves_set _ _ s) end.
Qed.
Lemma reached_wf flow_cleanup translation deny args fd id dough now write_fd sw0 before sw :
  0 <= id < 2 ^ 32 ->
  boot write_fd (init_switch_info flow_cleanup translation deny args fd id dough now) = Ok sw0 ->
  Forall ordinary before -> run_all sw0 before = Ok sw -> wf_xid_table (xids sw).
Proof.
  intros Hid Hboot Hord Hrun. apply boot_evolves in Hboot. eapply evolves_wf; [| eapply evolves_wf; [exact Hboot |]].
  - by eapply (run_all_evolves any_xid any_cookie); [.. | apply ordinary_allowed | exact Hrun].
  - by apply init_wf.
Qed.

(** * Requests and replies *)

Lemma update_cookie_inv sw buf name ret buf' sw' : update_flowmod_cookie sw buf name = Ok (ret, buf', sw') ->
  xids sw' = xids sw /\ tx sw' = tx sw /\ ld_ntoh 4 buf' 4 = ld_ntoh 4 buf 4.
Proof.
  unfold update_flowmod_cookie. intros H. inv_run H; try done.
  all: match goal with Hs : bind _ _ = Ok ?b |- _ => inv_run Hs; split_and!; [done | done |] end.
  all: repeat (erewrite ld_ntoh_st_other; [| eassumption | lia]); done.
Qed.

Lemma send_inv sw buf name sw1 : wf_xid_table (xids sw) -> ofpmsg_send sw buf name = Ok (0, sw1) ->
  exists original x msg, ld_ntoh 4 buf 4 = Ok original /\ insert_xid_entry (xids sw) original name = Ok (x, xids sw1) /\
    x = transaction_id (xids sw1) /\ ld_ntoh 4 msg 4 = Ok x /\ SecureChannel.send_to_secure_channel (tx sw) msg = Ok (0, tx sw1).
Proof.
  intros Hw. unfold ofpmsg_send, OfpMsgSend.send_to_secure_channel. intros H. apply bind_inv in H as (original & Ho & H).
  apply bind_inv in H as ([x t] & Hi & H). apply bind_inv in H as (buf1 & Hst & H). apply bind_inv in H as (type & _ & H).
  apply bind_inv in H as ([[ret msg] sw2] & Hu & H). exists original, x, msg.
  assert (Hx : x = transaction_id t /\ fits 4 x).
  { destruct (insert_xid_ok (xids sw) original name Hw) as (t' & Hi' & Hw' & Ha). rewrite Hi in Hi'. injection Hi' as Hx ->.
    pose proof (w_id t' Hw') as Hid. assert (Et : transaction_id t' = x) by (change (transaction_id t') with (sp_id (abs t')); by rewrite Ha, Hx).
    rewrite Et in Hid. by split. }
  destruct Hx as [Ex0 Hx].
  assert (E : xids sw2 = t /\ tx sw2 = tx sw /\ ld_ntoh 4 msg 4 = ld_ntoh 4 buf1 4).
  { destruct (_ && _); [by apply update_cookie_inv in Hu | by injection Hu as <- <- <-]. }
  destruct E as (Ex & Et & Em). destruct (ret <? 0) eqn:Er; [injection H as -> _; lia |]. inv_run H.
  rewrite Em, <- Et. cbn [xids tx set_tx]. split_and!; try congruence. by apply (ld_ntoh_st_same 4 buf 4).
Qed.

(** The entry that the last slot keeps. *)
Definition remembers (t : xid_table) x original name : Prop :=
  exists i, sp_slots (abs t) !! i = Some (Some (XidEntry x original name (Z.of_nat i))).

Lemma request_remembered sw original name x sw1 items sw2 :
  wf_xid_table (xids sw) -> insert_xid_entry (xids sw) original name = Ok (x, xids sw1) -> x <> 0 ->
  Forall (item_allowed (fun c => c <> XidTable.Reply x) any_cookie) items -> from_applications items < XID_MAX_ENTRIES ->
  run_all sw1 items = Ok sw2 -> wf_xid_table (xids sw2) /\ remembers (xids sw2) x original name.
Proof.
  intros Hw Hi H0 Hall Hn Hrun. destruct (insert_puts _ _ _ _ _ Hw Hi) as [Hs Hnx].
  assert (Hw1 : wf_xid_table (xids sw1)).
  { destruct (insert_xid_ok _ original name Hw) as (t & Hi' & Hw' & _). rewrite Hi in Hi'. by injection Hi' as _ ->. }
  assert (Hev : evolves (fun c => c <> XidTable.Reply x) any_cookie (from_applications items) (from_applications items) sw1 sw2)
    by (eapply run_all_evolves; [done.. | exact Hall | exact Hrun]).
  destruct Hev as [(cs & rs & Hr & Ha & Hm) _ _].
  pose proof (Z.mod_pos_bound (sp_next (abs (xids sw))) XID_MAX_ENTRIES eq_refl).
  destruct (calls_keep cs (xids sw1) _ _ Hw1 Hs H0) with (m := 0) as (ss & t & Ht & Hwt & Hk);
    [| lia | by rewrite Z.add_0_r | lia | lia |].
  - intros Hin. rewrite Forall_forall in Ha. by apply (Ha _ Hin).
  - rewrite Hr in Ht. injection Ht as _ ->. split; [done |]. by eexists.
Qed.

Lemma lookup_remembered sw x original name : wf_xid_table (xids sw) -> remembers (xids sw) x original name ->
  exists a e, lookup_xid sw x = Ok (Some (a, e)) /\ origin e = (original, name) /\
    exists t, delete_xid_entry (xids sw) a = Ok t.
Proof.
  intros Hw (i & Hi). apply abs_entry in Hi as (a & _ & Ha).
  pose proof (proj2 (find_id_spec _ Hw x _) (ex_intro _ a (conj Ha eq_refl))) as Hf.
  destruct (lookup_xid_ok _ Hw x) as ([b |] & Hl & Hb & Hh); [| by rewrite Hf in Hb].
  destruct (Hh b eq_refl) as [e He]. rewrite Hf in Hb. cbn [mbind option_bind] in Hb. rewrite He in Hb. injection Hb as ->.
  unfold lookup_xid. rewrite Hl. bind_ok. unfold XidTable.load. rewrite He. bind_ok.
  destruct (delete_xid_ok _ Hw b _ He) as (t & Hd & _). eexists b, _.
  split; [done |]. split; [done | by exists t].
Qed.
(** What the application gets: the message, from the switch it talks to. *)
Definition delivered sw name (tag : Z) buf : effect :=
  SendMessage name tag (create_openflow_application_message (Some (datapath_id sw)) (Some buf)).

Lemma reply_rewritten reply x original : ld_ntoh 4 reply 4 = Ok x -> exists reply', st_hton 4 reply 4 original = Ok reply'.
Proof.
  intros Hx. apply ld_ntoh_range in Hx. destruct (st_hton_ok 4 reply 4 original) as (reply' & Hs & _); [lia | lia |]. by exists reply'.
Qed.

Lemma answer_sends sw reply x original name :
  wf_xid_table (xids sw) -> remembers (xids sw) x original name -> ld_ntoh 4 reply 4 = Ok x ->
  exists reply' sw', st_hton 4 reply 4 original = Ok reply' /\ answer sw reply = Ok (0, sw') /\
    effects sw' = effects sw ++ [delivered sw name MESSENGER_OPENFLOW_MESSAGE reply'].
Proof.
  intros Hw Hrem Hx. destruct (reply_rewritten reply x original Hx) as [reply' Hs].
  destruct (lookup_remembered sw x original name Hw Hrem) as (a & e & Hl & He & t & Hd).
  exists reply'. eexists. split; [done |]. unfold answer, send_transaction_reply. rewrite Hx. bind_ok. rewrite Hl. bind_ok.
  unfold origin in He. injection He as -> ->. rewrite Hs. bind_ok. unfold delete_xid. cbn [xids service_send_to_reply emit].
  rewrite Hd. bind_ok. by split.
Qed.

(** An error about another message than a flow modification, or one that quotes
    less of it than the command. *)
Definition plain_error reply : Prop := exists type length,
  ld_ntoh 2 reply 8 = Ok type /\ ld_ntoh 2 reply 2 = Ok length /\
  (type <> OFPET_FLOW_MOD_FAILED \/ offsetof_ofp_error_msg_data <= length < offsetof_ofp_error_msg_data + offsetof_ofp_flow_mod_command).

(** The replies that go back to the application as they are but for the id. *)
Definition plain_reply sw reply : Prop :=
  validate_openflow_message reply = Ok 0 /\
  (ld8 reply 1 = Ok OFPT_GET_CONFIG_REPLY \/ ld8 reply 1 = Ok OFPT_BARRIER_REPLY \/ ld8 reply 1 = Ok OFPT_QUEUE_GET_CONFIG_REPLY \/
   ld8 reply 1 = Ok OFPT_ERROR /\ state sw = SWITCH_STATE_COMPLETED /\ plain_error reply \/
   ld8 reply 1 = Ok OFPT_STATS_REPLY /\ 12 <= blen reply /\
   (cookie_translation (options sw) = false \/ exists type, ld_ntoh 2 reply 8 = Ok type /\ type <> OFPST_FLOW)).

Lemma ld_ntoh_ok n m off : 0 <= off -> off + Z.of_nat n <= blen m -> exists x, ld_ntoh n m off = Ok x.
Proof. intros Ho Hb. rewrite ld_ntoh_bytes, ld_bytes_in by done. by eexists. Qed.

Lemma plain_stats_sends sw reply x original name :
  wf_xid_table (xids sw) -> remembers (xids sw) x original name -> ld_ntoh 4 reply 4 = Ok x -> 12 <= blen reply ->
  cookie_translation (options sw) = false \/ (exists type, ld_ntoh 2 reply 8 = Ok type /\ type <> OFPST_FLOW) ->
  exists reply' sw', st_hton 4 reply 4 original = Ok reply' /\ ofpmsg_recv_statsreply sw reply = Ok (0, sw') /\
    effects sw' = effects sw ++ [delivered sw name MESSENGER_OPENFLOW_MESSAGE reply'].
Proof.
  intros Hw Hrem Hx Hlen Htr. destruct (reply_rewritten reply x original Hx) as [reply' Hs].
  destruct (lookup_remembered sw x original name Hw Hrem) as (a & e & Hl & He & t & Hd). injection He as Ho Hn.
  destruct (ld_ntoh_ok 2 reply 8) as [type Htype]; [lia | lia |]. destruct (ld_ntoh_ok 2 reply 10) as [flags Hflags]; [lia | lia |].
  assert (Hf : (type =? OFPST_FLOW) && cookie_translation (options sw) = false).
  { destruct Htr as [-> | (type' & Ht & Hne)]; [by rewrite andb_false_r |]. rewrite Htype in Ht. injection Ht as <-.
    by destruct (Z.eqb_spec type OFPST_FLOW). }
  exists reply'. unfold ofpmsg_recv_statsreply. rewrite Htype. bind_ok. rewrite Hf. bind_ok. rewrite Hx. bind_ok. rewrite Hl. bind_ok.
  rewrite Ho, Hs, Hn. bind_ok. rewrite (ld_ntoh_st_other 4 reply 4 original reply' 2 10 Hs), Hflags by lia. bind_ok.
  unfold delete_xid. cbn [xids service_send_to_reply emit]. rewrite Hd. bind_ok.
  destruct (Z.land flags OFPSF_REPLY_MORE =? 0); bind_ok; by eexists.
Qed.

Lemma plain_error_answers sw reply : state sw = SWITCH_STATE_COMPLETED -> plain_error reply -> ofpmsg_recv_error sw reply = answer sw reply.
Proof.
  intros Hst (type & length & Ht & Hl & Hp). unfold ofpmsg_recv_error, switch_event_recv_error. rewrite Ht. bind_ok. rewrite decide_True by done.
  change (0 <? 0) with false. cbv iota. rewrite Hl. bind_ok. replace (_ && _) with false; [done |]. symmetry. apply andb_false_iff.
  destruct Hp as [Hne | Hr]; [left; by apply Z.eqb_neq | right]. unfold offsetof_ofp_error_msg_data, offsetof_ofp_flow_mod_command in *.
  unfold u64. rewrite Z.mod_small by lia. by apply Z.leb_gt; lia.
Qed.

Lemma plain_reply_sends env sw reply x original name :
  wf_xid_table (xids sw) -> remembers (xids sw) x original name -> plain_reply sw reply -> ld_ntoh 4 reply 4 = Ok x ->
  exists reply' sw', st_hton 4 reply 4 original = Ok reply' /\ ofpmsg_recv env reply sw = Ok (0, sw') /\
    effects sw' = effects sw ++ [delivered sw name MESSENGER_OPENFLOW_MESSAGE reply'].
Proof.
  intros Hw Hrem [Hv Ht] Hx. unfold ofpmsg_recv. rewrite Hv. bind_ok.
  destruct Ht as [-> | [-> | [-> | [(-> & Hst & He) | (-> & Hlen & Htr)]]]]; bind_ok; cbn [negb Z.eqb]; try by apply (answer_sends sw reply x).
  - cbn. rewrite plain_error_answers by done. by apply (answer_sends sw reply x).
  - by apply (plain_stats_sends sw reply x).
Qed.

(** C4. A reply finds its application. After [main] has started the daemon and
    any events, an application sends a message to the switch: the daemon sends
    it with an id of its own. Whatever happens then, short of 4096 further
    messages of applications and of a last reply to the message, a reply of the
    switch with that id (unless it is 0, the id used when the counter has gone
    round) goes to that application and to no other, with the id the application
    gave and otherwise as it is, as a message of this switch. The replies are
    those of [plain_reply]: get-config, barrier and queue-config replies,
    statistics (those of flows only when cookies are not translated), and errors
    of a completed connection that are not about a flow modification, or quote
    no more than 55 bytes of it. The flow statistics and errors in which the
    daemon changes cookies are not covered, nor is the error about a flow
    modification with the reserved cookie, which the daemon drops. *)
Theorem reply_reaches_application flow_cleanup translation deny args fd id dough now write_fd sw0 before sw name buf sw1 :
  0 <= id < 2 ^ 32 ->
  boot write_fd (init_switch_info flow_cleanup translation deny args fd id dough now) = Ok sw0 ->
  Forall ordinary before -> run_all sw0 before = Ok sw -> ofpmsg_send sw buf name = Ok (0, sw1) ->
  let x := transaction_id (xids sw1) in
  exists original msg,
    ld_ntoh 4 buf 4 = Ok original /\ ld_ntoh 4 msg 4 = Ok x /\
    SecureChannel.send_to_secure_channel (tx sw) msg = Ok (0, tx sw1) /\
    forall after sw2 env reply,
      x <> 0 -> Forall ordinary after -> from_applications after < XID_MAX_ENTRIES ->
      Forall (fun item => match item with FromSwitch _ m => ~ answers_id x m | _ => True end) after ->
      run_all sw1 after = Ok sw2 -> plain_reply sw2 reply -> ld_ntoh 4 reply 4 = Ok x ->
      exists reply' sw3, st_hton 4 reply 4 original = Ok reply' /\ ofpmsg_recv env reply sw2 = Ok (0, sw3) /\
        effects sw3 = effects sw2 ++ [delivered sw2 name MESSENGER_OPENFLOW_MESSAGE reply'].
Proof.
  intros Hid Hboot Hbefore Hrun Hsend x. assert (Hw : wf_xid_table (xids sw)) by (by eapply reached_wf).
  destruct (send_inv sw buf name sw1 Hw Hsend) as (original & x' & msg & Ho & Hi & -> & Hx & Hs).
  fold x in Hi, Hx. exists original, msg. split_and!; [done | done | done |]. intros after sw2 env reply H0 Hord Hn Hno Hafter Hplain Hrx.
  destruct (request_remembered sw original name x sw1 after sw2) as [Hw2 Hrem]; try done.
  - apply Forall_forall. intros item Hin. rewrite Forall_forall in Hord, Hno. specialize (Hord _ Hin). specialize (Hno _ Hin).
    destruct item as [e m | e t ev]; [split; [| done] | by destruct ev as [| | [] | | | |]].
    intros y Hy [= ->]. done.
  - by apply (plain_reply_sends env sw2 reply x).
Qed.
(** What the library of an application sends to the daemon of a switch. *)
Definition application_message (dpid : Z) name buf : bytes :=
  be_encode 8 dpid ++ be_encode 2 (blen name + 1) ++ (name ++ [zero]) ++ buf.

Lemma c_string_app name rest : zero ∉ name -> c_string (name ++ zero :: rest) = name.
Proof.
  induction name as [| b name IH]; [done |]. intros [Hb Hn]%not_elem_of_cons. cbn.
  destruct (decide (b = zero)) as [-> | _]; [done |]. by rewrite IH.
Qed.

(** [service_recv] takes such a message apart. *)
Lemma service_recv_sends sw dpid name buf :
  fits 8 dpid -> zero ∉ name -> fits 2 (blen name + 1) -> validate_openflow_message buf = Ok 0 -> dpid = datapath_id sw ->
  service_recv sw MESSENGER_OPENFLOW_MESSAGE (application_message dpid name buf) =
    let* (_, sw) := ofpmsg_send sw buf name in Ok sw.
Proof.
  intros Hd Hz Hn Hv Hdp. unfold service_recv, service_recv_from_application, application_message.
  pose proof (blen_nonneg name). pose proof (blen_nonneg buf).
  assert (Hl : blen (be_encode 8 dpid ++ be_encode 2 (blen name + 1) ++ (name ++ [zero]) ++ buf) = 11 + blen name + blen buf).
  { rewrite !blen_app, !blen_be_encode, blen_cons, blen_nil. lia. }
  rewrite Hl. replace (11 + blen name + blen buf =? 0) with false by lia. unfold assert at 1. cbn [negb]. bind_ok.
  unfold sizeof_openflow_service_header. replace (11 + blen name + blen buf <? 10) with false by lia.
  rd. unfold remove_front at 1. rewrite Hl. change (10 =? 0) with false. replace (10 <=? 11 + blen name + blen buf) with true by lia.
  cbn [negb assert]. unfold assert. bind_ok.
  replace (drop (Z.to_nat 10) (be_encode 8 dpid ++ be_encode 2 (blen name + 1) ++ (name ++ [zero]) ++ buf)) with ((name ++ [zero]) ++ buf).
  2: { rewrite (app_assoc (be_encode 8 dpid)), drop_app_length'; [done |]. by rewrite length_app, !length_be_encode. }
  replace (blen name + 1 <? 1) with false by lia. replace (blen name + 1 - 1) with (blen name) by lia.
  assert (Hlast : ld8 ((name ++ [zero]) ++ buf) (blen name) = Ok 0).
  { rewrite <- app_assoc, ld_skip, Z.sub_diag by lia. unfold ld. rewrite ld_bytes_here by done. bind_ok. f_equal. by destruct host. }
  rewrite Hlast. bind_ok. change (0 =? 0) with true. cbn [negb].
  rewrite <- app_assoc. cbn [app]. rewrite c_string_app by done. unfold remove_front. rewrite blen_app, blen_cons.
  replace (blen name + 1 =? 0) with false by lia. replace (blen name + 1 <=? blen name + (1 + blen buf)) with true by lia.
  cbn [negb]. unfold assert. bind_ok. change (MESSENGER_OPENFLOW_MESSAGE =? MESSENGER_OPENFLOW_MESSAGE) with true. cbv iota.
  replace (drop (Z.to_nat (blen name + 1)) (name ++ zero :: buf)) with buf.
  2: { change (zero :: buf) with ([zero] ++ buf). rewrite app_assoc, drop_app_length'; [done |]. rewrite length_app. unfold blen. cbn. lia. }
  unfold handle_openflow_message. rewrite Hv. bind_ok. cbn [negb Z.eqb]. unfold switch_event_recv_from_application. rewrite Hdp, Z.eqb_refl.
  done.
Qed.

(** * Flows and their removal *)

Definition valid_keys (mp : gmap Z cookie_entry) : Prop := forall k e, mp !! k = Some e -> 0 < k < INVALID_COOKIE.

Lemma steps_valid_keys mp cs rs mp' : spec_steps mp cs rs mp' -> valid_keys mp -> valid_keys mp'.
Proof.
  induction 1 as [| mp call r mp1 cs rs mp2 Hs _ IH]; [done |]. intros Hp. apply IH. clear IH.
  destruct Hs; try done; intros k f Hk.
  - apply lookup_insert_Some in Hk as [[<- _] | [_ Hk]]; [by eapply Hp | by eapply Hp].
  - apply lookup_insert_Some in Hk as [[<- _] | [_ Hk]]; [done | by eapply Hp].
  - destruct (mp !! c) as [e |] eqn:E; [| by eapply Hp]. destruct (1 <? reference_count e).
    + apply lookup_insert_Some in Hk as [[<- _] | [_ Hk]]; by eapply Hp.
    + apply lookup_delete_Some in Hk as [_ Hk]. by eapply Hp.
  - apply map_lookup_filter_Some in Hk as [Hk _]. by eapply Hp.
Qed.

(** The table of cookies of the running daemon, with at most [n] flows. *)
Definition cookies_ok (n : Z) sw : Prop := exists mp, rep (cookies sw) mp n /\ valid_keys mp.

Lemma evolves_cookies_ok A B n m k sw sw' : evolves A B n m sw sw' -> cookies_ok k sw -> k + m <= INT_MAX -> cookies_ok (k + m) sw'.
Proof.
  intros He (mp & H & Hp) Hk. destruct (evolves_rep _ _ _ _ _ _ _ _ He H Hk) as (cs & rs & mp' & Hs & _ & H').
  exists mp'. split; [done |]. by eapply steps_valid_keys.
Qed.

Lemma reached_cookies flow_cleanup translation deny args fd id dough now write_fd sw0 before sw :
  0 <= dough < INVALID_COOKIE -> from_applications before <= INT_MAX ->
  boot write_fd (init_switch_info flow_cleanup translation deny args fd id dough now) = Ok sw0 ->
  Forall ordinary before -> run_all sw0 before = Ok sw ->
  cookies_ok (from_applications before) sw /\ cookie_translation (options sw) = translation.
Proof.
  intros Hd Hn Hboot Hord Hrun. apply boot_evolves in Hboot.
  assert (Hev : evolves any_xid any_cookie (from_applications before) (from_applications before) sw0 sw)
    by (by eapply (run_all_evolves any_xid any_cookie); [.. | apply ordinary_allowed | exact Hrun]).
  split.
  - rewrite <- (Z.add_0_l (from_applications before)). eapply evolves_cookies_ok; [exact Hev | | lia].
    rewrite <- (Z.add_0_l 0). eapply evolves_cookies_ok; [exact Hboot | | unfold INT_MAX; lia].
    exists ∅. split; [by apply init_rep | by intros k e Hk].
  - by rewrite (ev_options _ _ _ _ _ _ Hev), (ev_options _ _ _ _ _ _ Hboot).
Qed.

(** A flow modification of an application that adds a flow. *)
Definition adds_flow buf (c fl : Z) : Prop :=
  ld8 buf 1 = Ok OFPT_FLOW_MOD /\ ld_ntoh 2 buf 56 = Ok OFPFC_ADD /\ ld_ntoh 8 buf 48 = Ok c /\ ld_ntoh 2 buf 70 = Ok fl.

Lemma send_flow_inv sw buf c fl name sw1 :
  cookie_translation (options sw) = true -> adds_flow buf c fl -> ofpmsg_send sw buf name = Ok (0, sw1) ->
  exists k msg, insert_cookie_entry (cookies sw) c name fl (clock sw).1 = Ok (k, cookies sw1) /\
    (fits 8 k -> ld_ntoh 8 msg 48 = Ok k) /\ ld_ntoh 2 msg 70 = Ok (Z.lor fl OFPFF_SEND_FLOW_REM) /\
    SecureChannel.send_to_secure_channel (tx sw) msg = Ok (0, tx sw1).
Proof.
  intros Htr (Ht & Hcmd & Hc & Hfl). unfold ofpmsg_send, OfpMsgSend.send_to_secure_channel. intros H.
  apply bind_inv in H as (original & _ & H). apply bind_inv in H as ([x t] & _ & H). apply bind_inv in H as (buf1 & Hst & H).
  apply bind_inv in H as (type & Hty & H). rewrite (ld_st_hton_other 4 buf 4 x buf1 1 1 Hst), Ht in Hty by lia. injection Hty as <-.
  cbn [options set_xids] in H. rewrite Htr in H. cbn [Z.eqb andb] in H. change (OFPT_FLOW_MOD =? OFPT_FLOW_MOD) with true in H. cbn [andb] in H.
  apply bind_inv in H as ([[ret msg] sw2] & Hu & H). unfold update_flowmod_cookie in Hu.
  rewrite !(fun k o => ld_ntoh_st_other 4 buf 4 x buf1 k o Hst) in Hu by lia. rewrite Hcmd, Hfl, Hc in Hu.
  repeat rewrite bind_Ok in Hu. change (OFPFC_ADD =? OFPFC_ADD) with true in Hu. cbn [cookies clock set_xids] in Hu. inv_run Hu.
  change (0 <? 0) with false in H. cbv iota in H. inv_run H. match goal with Hi : insert_cookie_entry _ _ _ _ _ = Ok (?k, _), Hb : bind _ _ = Ok msg |- _ =>
    exists k, msg; inv_run Hb end.
  split_and!; [done | | | done].
  - intros Hk. erewrite ld_ntoh_st_other; [| eassumption | lia]. by eapply ld_ntoh_st_same.
  - eapply ld_ntoh_st_same; [eassumption |]. apply ld_ntoh_fits in Hfl. by apply fits_lor.
Qed.

Lemma lookup_cookie_some sw k mp n e : rep (cookies sw) mp n -> mp !! k = Some e ->
  exists a t, lookup_cookie sw k = Ok (Some (a, e)) /\ delete_cookie_entry (cookies sw) a = Ok t.
Proof.
  intros H Hk. destruct (lookup_cookie_ok H k) as ([a |] & Hl & Hp); [| congruence]. destruct Hp as (e' & Ha & Hc & Hm).
  assert (e' = e) as -> by congruence. destruct (delete_step _ _ _ a e H Ha) as (t & Hd & _).
  exists a, t. unfold lookup_cookie. rewrite Hl. bind_ok. rewrite (load_entry_ok _ _ _ Ha). bind_ok. by split.
Qed.

(** The entry of the flow, after traffic that does not release it. *)
Lemma flow_remembered sw c name fl k sw1 items sw2 n :
  cookies_ok n sw -> n + 1 + from_applications items <= INT_MAX ->
  insert_cookie_entry (cookies sw) c name fl (clock sw).1 = Ok (k, cookies sw1) ->
  Forall (item_allowed any_xid (harmless k (clock sw).1)) items -> run_all sw1 items = Ok sw2 ->
  0 < k < INVALID_COOKIE /\ options sw2 = options sw1 /\
  exists mp e, rep (cookies sw2) mp (n + 1 + from_applications items) /\ mp !! k = Some e /\ serves c name fl (clock sw).1 e.
Proof.
  intros (mp & H & Hp) Hn Hi Hall Hrun.
  assert (0 <= from_applications items).
  { clear. induction items as [| [] items IH]; cbn [from_applications foldr from_application]; [lia | exact IH |].
    fold (from_applications items). destruct e; lia. }
  destruct (insert_step _ mp n c name fl (clock sw).1 H) as (k' & t & mp1 & Hi' & Hs & H1); [lia |].
  rewrite Hi in Hi'. injection Hi' as <- <-. destruct (insert_serves _ _ _ _ _ _ _ Hs) as (e & He & Hserves).
  assert (Hk : 0 < k < INVALID_COOKIE).
  { assert (Hp1 : valid_keys mp1) by (eapply (steps_valid_keys mp [_] [_]); [econstructor; [exact Hs | constructor] | exact Hp]).
    by eapply Hp1. }
  assert (Hev : evolves any_xid (harmless k (clock sw).1) (from_applications items) (from_applications items) sw1 sw2).
  { eapply run_all_evolves; [done.. | exact Hall | exact Hrun]. }
  destruct (evolves_rep _ _ _ _ _ _ _ _ Hev H1 Hn) as (cs & rs & mp2 & Hs2 & Hh & H2).
  destruct (steps_serve _ _ _ _ _ _ _ _ _ _ Hs2 Hh He Hserves) as (e2 & He2 & Hserves2).
  split; [done |]. split; [by apply (ev_options _ _ _ _ _ _ Hev) |]. by exists mp2, e2.
Qed.

Lemma flow_removed_sends env sw removed k mp n e :
  rep (cookies sw) mp n -> mp !! k = Some e -> 0 < k < INVALID_COOKIE ->
  Z.land (flags (application e)) OFPFF_SEND_FLOW_REM = OFPFF_SEND_FLOW_REM -> cookie_translation (options sw) = true ->
  validate_openflow_message removed = Ok 0 -> ld8 removed 1 = Ok OFPT_FLOW_REMOVED -> ld_ntoh 8 removed 48 = Ok k ->
  exists removed' sw', st_hton 8 removed 48 (app_cookie (application e)) = Ok removed' /\ ofpmsg_recv env removed sw = Ok (0, sw') /\
    effects sw' = effects sw ++ [delivered sw (service_name (application e)) MESSENGER_OPENFLOW_MESSAGE removed'].
Proof.
  intros H He Hk Hf Htr Hv Ht Hc. destruct (lookup_cookie_some sw k mp n e H He) as (a & t & Hl & Hd).
  assert (exists removed', st_hton 8 removed 48 (app_cookie (application e)) = Ok removed') as [removed' Hst].
  { apply ld_ntoh_range in Hc. destruct (st_hton_ok 8 removed 48 (app_cookie (application e))) as (m & Hm & _); [lia | lia | by exists m]. }
  exists removed'. eexists. split; [done |].
  unfold ofpmsg_recv. rewrite Hv, Ht. bind_ok. cbn [negb Z.eqb].
  match goal with |- ?r = _ /\ _ => change r with (ofpmsg_recv_flowremoved sw removed) end.
  unfold ofpmsg_recv_flowremoved. rewrite Hc. bind_ok. replace (k =? RESERVED_COOKIE) with false by (unfold RESERVED_COOKIE; lia).
  rewrite Htr. cbn [negb]. rewrite Hl. bind_ok. rewrite Hf. change (truth OFPFF_SEND_FLOW_REM) with true. cbv iota. rewrite Hst. bind_ok.
  unfold delete_cookie. cbn [cookies service_send_to_reply emit]. rewrite Hd. bind_ok. by split.
Qed.

(** C5. The removal of a flow finds its application. After [main] has started
    the daemon with the translation of cookies and any events, an application
    adds a flow: the daemon sends it with a cookie of its own and always asks
    for the report. If the application asked for it too, then when the switch
    reports that the flow of that cookie is gone, after whatever else happens in
    the lifetime of the entry short of another release of the cookie, the report
    goes to that application and to no other, with the cookie the application
    gave. *)
Theorem flow_removed_reaches_application flow_cleanup deny args fd id dough now write_fd sw0 before sw name buf c fl sw1 :
  0 <= dough < INVALID_COOKIE ->
  boot write_fd (init_switch_info flow_cleanup true deny args fd id dough now) = Ok sw0 ->
  Forall ordinary before -> run_all sw0 before = Ok sw ->
  adds_flow buf c fl -> ofpmsg_send sw buf name = Ok (0, sw1) -> from_applications before < INT_MAX ->
  exists k msg,
    insert_cookie_entry (cookies sw) c name fl (clock sw).1 = Ok (k, cookies sw1) /\
    ld_ntoh 8 msg 48 = Ok k /\ ld_ntoh 2 msg 70 = Ok (Z.lor fl OFPFF_SEND_FLOW_REM) /\
    SecureChannel.send_to_secure_channel (tx sw) msg = Ok (0, tx sw1) /\
    forall after sw2 env removed,
      Z.land fl OFPFF_SEND_FLOW_REM = OFPFF_SEND_FLOW_REM -> from_applications before + 1 + from_applications after <= INT_MAX ->
      Forall (fun item => ordinary item /\ match item with
        | FromSwitch _ m => ~ releases k m
        | Event _ t _ => (clock sw).1 <= t.1 <= (clock sw).1 + COOKIE_ENTRY_LIFETIME
        end) after ->
      run_all sw1 after = Ok sw2 ->
      validate_openflow_message removed = Ok 0 -> ld8 removed 1 = Ok OFPT_FLOW_REMOVED -> ld_ntoh 8 removed 48 = Ok k ->
      exists removed' sw3, st_hton 8 removed 48 c = Ok removed' /\ ofpmsg_recv env removed sw2 = Ok (0, sw3) /\
        effects sw3 = effects sw2 ++ [delivered sw2 (copy_service_name name) MESSENGER_OPENFLOW_MESSAGE removed'].
Proof.
  intros Hd Hboot Hbefore Hrun Hadd Hsend Hn.
  destruct (reached_cookies flow_cleanup true deny args fd id dough now write_fd sw0 before sw Hd (Z.lt_le_incl _ _ Hn) Hboot Hbefore Hrun) as [Hc Htr].
  destruct (send_flow_inv sw buf c fl name sw1 Htr Hadd Hsend) as (k & msg & Hi & Hk & Hf & Hs). exists k, msg.
  assert (Hopt : cookie_translation (options sw1) = true).
  { assert (Hev : evolves any_xid any_cookie 1 1 sw sw1) by (by eapply (send_message_evolves any_xid any_cookie); [.. | exact Hsend]).
    by rewrite (ev_options _ _ _ _ _ _ Hev). }
  destruct (flow_remembered sw c name fl k sw1 [] sw1 (from_applications before) Hc) as (Hrange & _); [cbn; lia | done | by constructor | done |].
  split_and!; [done | apply Hk; unfold fits; unfold INVALID_COOKIE in Hrange; lia | done | done |].
  intros after sw2 env removed Hrem Hmax Hall Hafter Hv Ht Hck.
  destruct (flow_remembered sw c name fl k sw1 after sw2 (from_applications before) Hc) as (_ & Ho & mp & e & Hr & He & Happ & Hflags & _);
    [lia | done | | done |].
  { eapply Forall_impl; [exact Hall |]. intros [ev m | ev t e] [Hord Hok].
    - split; [done |]. intros y Hy ->. by apply Hok.
    - destruct e as [| | [] | | | |]; try done; cbn; [lia | split; [done | intros; cbn; lia]]. }
  injection Happ as <- <-. apply (flow_removed_sends env sw2 removed k mp _ e Hr He); try done; [| by rewrite Ho].
  rewrite <- Hrem at 1. by rewrite Z.land_assoc, Hflags.
Qed.
End Traffic.

(** * Witnesses *)

Definition sample_name : bytes := [Byte.x61].
Definition sample_start : res switch_info :=
  boot (host := LittleEndian) 1024 (fun _ => Wrote 8) (init_switch_info true true false [] 3 0 0 (100, (0, 0))).

(** A barrier request with id 7, and the reply of the switch. *)
Definition barrier_request : bytes := map byte.of_Z [1; 18; 0; 8; 0; 0; 0; 7].
Definition barrier_reply (x : Z) : bytes := map byte.of_Z [1; 19; 0; 8; 0; 0; 0; x].
Definition sample_environment : environment := Environment (fun _ => 0) (fun _ => true) true.

Definition send_result (sw0 : switch_info) (buf : bytes) (P : switch_info -> bool) : bool :=
  is_okb (ofpmsg_send (host := LittleEndian) sw0 buf sample_name) (fun p => (p.1 =? 0) && P p.2).

Lemma reply_reaches_application_witness :
  exists sw0 sw1, sample_start = Ok sw0 /\ ofpmsg_send (host := LittleEndian) sw0 barrier_request sample_name = Ok (0, sw1) /\
    transaction_id (xids sw1) = 2 /\
    exists sw2, ofpmsg_recv (host := LittleEndian) sample_environment (barrier_reply 2) sw1 = Ok (0, sw2) /\
      effects sw2 = effects sw1 ++ [delivered (host := LittleEndian) sw1 sample_name MESSENGER_OPENFLOW_MESSAGE (barrier_reply 7)].
Proof.
  assert (Hrun : is_okb sample_start (fun sw0 => send_result sw0 barrier_request (fun sw1 => transaction_id (xids sw1) =? 2)) = true)
    by (vm_compute; reflexivity).
  apply is_okb_ok in Hrun as (sw0 & H0 & Hrun). apply is_okb_ok in Hrun as ([ret sw1] & H1 & Hrun).
  apply andb_prop in Hrun as [Hret Hx]. apply Z.eqb_eq in Hret, Hx. cbn in Hret. subst ret. cbn [snd] in Hx.
  exists sw0, sw1. split; [exact H0 |]. split; [exact H1 |]. split; [exact Hx |].
  destruct (reply_reaches_application (host := LittleEndian) 1024 true true false [] 3 0 0 (100, (0, 0)) (fun _ => Wrote 8) sw0 []
    sw0 sample_name barrier_request sw1) as (original & msg & Ho & _ & _ & H).
  - split; [discriminate | reflexivity].
  - exact H0.
  - constructor.
  - reflexivity.
  - exact H1.
  - assert (original = 7) as -> by (vm_compute in Ho; congruence). rewrite Hx in H.
    destruct (H [] sw1 sample_environment (barrier_reply 2)) as (reply' & sw2 & Hr & Hs & He).
    + discriminate.
    + constructor.
    + reflexivity.
    + constructor.
    + reflexivity.
    + split; [vm_compute; reflexivity |]. right. left. vm_compute. reflexivity.
    + vm_compute. reflexivity.
    + exists sw2. split; [exact Hs |]. rewrite He.
      assert (reply' = barrier_reply 7) as -> by (vm_compute in Hr; injection Hr as <-; vm_compute; reflexivity). reflexivity.
Defined.

(** The addition of a flow with cookie 5, to be reported, and the report. *)
Definition add_flow : bytes :=
  map byte.of_Z [1; 14; 0; 72; 0; 0; 0; 7] ++ zeros 40 ++ be_encode 8 5 ++ be_encode 2 0 ++ zeros 12 ++ be_encode 2 1.
Definition flow_removed (cookie : Z) : bytes :=
  map byte.of_Z [1; 11; 0; 88; 0; 0; 0; 0] ++ be_encode 4 OFPFW_ALL ++ zeros 36 ++ be_encode 8 cookie ++ zeros 32.

Lemma flow_removed_reaches_application_witness :
  exists sw0 sw1, sample_start = Ok sw0 /\ ofpmsg_send (host := LittleEndian) sw0 add_flow sample_name = Ok (0, sw1) /\
    exists sw2, ofpmsg_recv (host := LittleEndian) sample_environment (flow_removed 1) sw1 = Ok (0, sw2) /\
      effects sw2 = effects sw1 ++ [delivered (host := LittleEndian) sw1 sample_name MESSENGER_OPENFLOW_MESSAGE (flow_removed 5)].
Proof.
  assert (Hrun : is_okb sample_start (fun sw0 => send_result sw0 add_flow (fun sw1 => true) &&
    is_okb (insert_cookie_entry (host := LittleEndian) (cookies sw0) 5 sample_name 1 (clock sw0).1) (fun p => p.1 =? 1)) = true)
    by (vm_compute; reflexivity).
  apply is_okb_ok in Hrun as (sw0 & H0 & Hrun). apply andb_prop in Hrun as [Hrun Hcookie].
  apply is_okb_ok in Hrun as ([ret sw1] & H1 & Hrun).
  apply andb_prop in Hrun as [Hret _]. apply Z.eqb_eq in Hret. cbn in Hret. subst ret.
  exists sw0, sw1. split; [exact H0 |]. split; [exact H1 |].
  destruct (flow_removed_reaches_application (host := LittleEndian) 1024 true false [] 3 0 0 (100, (0, 0)) (fun _ => Wrote 8) sw0 []
    sw0 sample_name add_flow 5 1 sw1) as (k & msg & Hi & _ & _ & _ & H).
  - split; [discriminate | reflexivity].
  - exact H0.
  - constructor.
  - reflexivity.
  - split_and!; vm_compute; reflexivity.
  - exact H1.
  - reflexivity.
  - assert (k = 1) as -> by (rewrite Hi in Hcookie; cbn in Hcookie; by apply Z.eqb_eq).
    destruct (H [] sw1 sample_environment (flow_removed 1)) as (removed' & sw2 & Hr & Hs & He).
    + reflexivity.
    + vm_compute. discriminate.
    + constructor.
    + reflexivity.
    + vm_compute. reflexivity.
    + vm_compute. reflexivity.
    + vm_compute. reflexivity.
    + exists sw2. split; [exact Hs |]. rewrite He.
      assert (removed' = flow_removed 5) as -> by (vm_compute in Hr; injection Hr as <-; vm_compute; reflexivity). reflexivity.
Defined.
