(* ===== verification/States.v ===== *)
(** The states of the connection, and what the applications are told of them.

    [phase] says where the connection is and which notifications the
    applications have had; every event of the daemon keeps it. *)

From Stdlib Require Import ZArith Lia Bool.
From coqutil Require Import Byte.
From stdpp Require Import base list gmap.
From S2P Require Import Prelude Memory OpenFlow Codes ByteOrder Actions Validate Create ErrorMap Utility Buffer LinkedList MessageQueue SecureChannel XidTable CookieTable EventForward SwitchInfo OfpMsgSend Switch OfpMsgRecv Daemon Evolution.

(** The notifications of states that the service [name] has got. *)
Definition is_state_tag (tag : Z) : bool :=
  (tag =? MESSENGER_OPENFLOW_CONNECTED) || (tag =? MESSENGER_OPENFLOW_READY) || (tag =? MESSENGER_OPENFLOW_DISCONNECTED)
  || (tag =? MESSENGER_OPENFLOW_FAILD_TO_CONNECT).

Definition state_tag (name : bytes) (e : effect) : option Z :=
  match e with
  | SendMessage n tag _ => if decide (n = name) then if is_state_tag tag then Some tag else None else None
  | _ => None
  end.

Definition notifications (name : bytes) (l : list effect) : list Z := omap (state_tag name) l.

Section States.
Context {host : Host} (IOV_MAX : Z) (name : bytes) (name_ok : name <> SWITCH_MANAGER).
Implicit Types (sw : switch_info) (buf : bytes) (l : list effect).

Lemma notifications_app l m : notifications name (l ++ m) = notifications name l ++ notifications name m.
Proof. apply omap_app. Qed.

Lemma requests_app l m : requests_of (l ++ m) = (requests_of l + requests_of m)%nat.
Proof. unfold requests_of. by rewrite List.filter_app, length_app. Qed.

(** ** Handlers that say nothing of the state *)

Definition quiet_effect (e : effect) : Prop :=
  match e with
  | SendMessage n tag _ => n = name -> is_state_tag tag = false
  | SwitchListRequest => False
  | _ => True
  end.

Record quiet sw sw' : Prop := {
  q_state : state sw' = state sw;
  q_services : services sw' = services sw;
  q_effects : exists l, effects sw' = effects sw ++ l /\ Forall quiet_effect l
}.

Lemma quiet_notifications l : Forall quiet_effect l -> notifications name l = [] /\ requests_of l = 0%nat.
Proof.
  induction 1 as [| e l He _ [IH1 IH2]]; [done |]. unfold requests_of in *. cbn.
  destruct e as [n tag data | | | | | | | | |]; cbn in *; try done. destruct (decide (n = name)) as [-> | Hne]; [| by split].
  rewrite He by done. by split.
Qed.

Lemma quiet_refl sw : quiet sw sw.
Proof. split; [done | done |]. exists []. by rewrite app_nil_r. Qed.

Lemma quiet_trans sw sw1 sw2 : quiet sw sw1 -> quiet sw1 sw2 -> quiet sw sw2.
Proof.
  intros [Hs Hv (l & He & Hl)] [Hs' Hv' (m & He' & Hm)]. split; [congruence | congruence |].
  exists (l ++ m). rewrite He', He, app_assoc. split; [done | by apply Forall_app].
Qed.

Lemma quiet_set sw1 sw sw2 :
  state sw2 = state sw1 -> services sw2 = services sw1 -> effects sw2 = effects sw1 -> quiet sw sw1 -> quiet sw sw2.
Proof. intros Hs Hv He [Hs1 Hv1 He1]. split; [by rewrite Hs | by rewrite Hv | by rewrite He]. Qed.

Lemma quiet_emit sw sw1 l : Forall quiet_effect l -> quiet sw sw1 -> quiet sw (emit sw1 l).
Proof.
  intros Hl [Hs Hv (m & He & Hm)]. split; [done | done |]. exists (m ++ l). cbn. rewrite He, app_assoc.
  split; [done | by apply Forall_app].
Qed.

Lemma quiet_reply sw sw1 n dpid data : quiet sw sw1 -> quiet sw (service_send_to_reply n MESSENGER_OPENFLOW_MESSAGE dpid data sw1).
Proof. apply quiet_emit. repeat constructor. Qed.

Lemma quiet_application sw sw1 names dpid data :
  quiet sw sw1 -> quiet sw (service_send_to_application names MESSENGER_OPENFLOW_MESSAGE dpid data sw1).
Proof.
  intros H. destruct names as [| n names]; [done |]. apply quiet_emit; [| done].
  apply Forall_forall. by intros e (m & -> & _)%list_elem_of_fmap.
Qed.

Ltac unchanged :=
  unfold switch_unset_timeout, switch_set_timeout, add_timer_event, delete_timer_event, expire; repeat case_match; reflexivity.

(** [quiet sw sw'] from the parts of the run in the hypotheses. *)
Ltac hush :=
  lazymatch goal with
  | |- quiet ?s ?s => apply quiet_refl
  | |- quiet ?s (emit ?t _) =>
    apply quiet_emit; [first [by repeat constructor | constructor; [intros E; by rewrite E in name_ok | constructor]] | hush]
  | |- quiet ?s (service_send_to_reply _ _ _ _ ?t) => apply quiet_reply; hush
  | |- quiet ?s (service_send_to_application _ _ _ _ ?t) => apply quiet_application; hush
  | |- quiet ?s (set_tx ?t _) => apply (quiet_set t); [done.. | hush]
  | |- quiet ?s (set_rx ?t _) => apply (quiet_set t); [done.. | hush]
  | |- quiet ?s (set_xids ?t _) => apply (quiet_set t); [done.. | hush]
  | |- quiet ?s (set_cookies ?t _) => apply (quiet_set t); [done.. | hush]
  | |- quiet ?s (set_clock ?t _) => apply (quiet_set t); [done.. | hush]
  | |- quiet ?s (set_timers ?t _) => apply (quiet_set t); [done.. | hush]
  | |- quiet ?s (set_datapath_id ?t _) => apply (quiet_set t); [done.. | hush]
  | |- quiet ?s (set_echo_request_xid ?t _) => apply (quiet_set t); [done.. | hush]
  | |- quiet ?s (set_age_cookie_table_enabled ?t _) => apply (quiet_set t); [done.. | hush]
  | |- quiet ?s (switch_set_timeout ?t _) => apply (quiet_set t); [unchanged.. | hush]
  | |- quiet ?s (switch_unset_timeout ?t _) => apply (quiet_set t); [unchanged.. | hush]
  | |- quiet ?s (add_timer_event ?t _) => apply (quiet_set t); [unchanged.. | hush]
  | |- quiet ?s (delete_timer_event ?t _) => apply (quiet_set t); [unchanged.. | hush]
  | |- quiet ?s (expire ?t _) => apply (quiet_set t); [unchanged.. | hush]
  | |- quiet ?s ?t =>
    first [ apply quiet_refl
          | match goal with H : quiet ?a t |- _ => apply (quiet_trans s a t); [clear H; hush | exact H] end ]
  end.

Lemma generate_quiet sw x sw' : OfpMsgSend.generate_xid sw = Ok (x, sw') -> quiet sw sw'.
Proof. unfold OfpMsgSend.generate_xid. intros H. inv_run H. hush. Qed.

Lemma channel_quiet sw buf ret sw' : OfpMsgSend.send_to_secure_channel sw buf = Ok (ret, sw') -> quiet sw sw'.
Proof. unfold OfpMsgSend.send_to_secure_channel. intros H. inv_run H. hush. Qed.

Ltac send := intros H; inv_run H; repeat match goal with
  | Hg : OfpMsgSend.generate_xid _ = Ok _ |- _ => apply generate_quiet in Hg
  | Hc : OfpMsgSend.send_to_secure_channel _ _ = Ok _ |- _ => apply channel_quiet in Hc
  end; hush.

Lemma send_hello_quiet sw ret sw' : ofpmsg_send_hello sw = Ok (ret, sw') -> quiet sw sw'.
Proof. unfold ofpmsg_send_hello. send. Qed.
Lemma send_echorequest_quiet sw x body ret sw' : ofpmsg_send_echorequest sw x body = Ok (ret, sw') -> quiet sw sw'.
Proof. unfold ofpmsg_send_echorequest. send. Qed.
Lemma send_echoreply_quiet sw x body ret sw' : ofpmsg_send_echoreply sw x body = Ok (ret, sw') -> quiet sw sw'.
Proof. unfold ofpmsg_send_echoreply. send. Qed.
Lemma send_featuresrequest_quiet sw ret sw' : ofpmsg_send_featuresrequest sw = Ok (ret, sw') -> quiet sw sw'.
Proof. unfold ofpmsg_send_featuresrequest. send. Qed.
Lemma send_setconfig_quiet sw ret sw' : ofpmsg_send_setconfig sw = Ok (ret, sw') -> quiet sw sw'.
Proof. unfold ofpmsg_send_setconfig. send. Qed.
Lemma send_error_quiet sw type code data ret sw' : ofpmsg_send_error_msg sw type code data = Ok (ret, sw') -> quiet sw sw'.
Proof. unfold ofpmsg_send_error_msg. send. Qed.
Lemma send_delete_all_quiet sw ret sw' : ofpmsg_send_delete_all_flows sw = Ok (ret, sw') -> quiet sw sw'.
Proof. unfold ofpmsg_send_delete_all_flows. send. Qed.
Lemma send_deny_all_quiet sw ret sw' : ofpmsg_send_deny_all sw = Ok (ret, sw') -> quiet sw sw'.
Proof. unfold ofpmsg_send_deny_all. send. Qed.

Ltac calm :=
  repeat match goal with
  | H : OfpMsgSend.generate_xid _ = Ok _ |- _ => apply generate_quiet in H
  | H : OfpMsgSend.send_to_secure_channel _ _ = Ok _ |- _ => apply channel_quiet in H
  | H : ofpmsg_send_hello _ = Ok _ |- _ => apply send_hello_quiet in H
  | H : ofpmsg_send_echorequest _ _ _ = Ok _ |- _ => apply send_echorequest_quiet in H
  | H : ofpmsg_send_echoreply _ _ _ = Ok _ |- _ => apply send_echoreply_quiet in H
  | H : ofpmsg_send_featuresrequest _ = Ok _ |- _ => apply send_featuresrequest_quiet in H
  | H : ofpmsg_send_setconfig _ = Ok _ |- _ => apply send_setconfig_quiet in H
  | H : ofpmsg_send_error_msg _ _ _ _ = Ok _ |- _ => apply send_error_quiet in H
  | H : ofpmsg_send_delete_all_flows _ = Ok _ |- _ => apply send_delete_all_quiet in H
  | H : ofpmsg_send_deny_all _ = Ok _ |- _ => apply send_deny_all_quiet in H
  | H : Ok _ = Ok _ |- _ => injection H; clear H; intros; subst
  | H : (_, _) = (_, _) |- _ => injection H; clear H; intros; subst
  | H : (if ?b then _ else _) = _ |- _ => destruct b
  end.

Lemma update_cookie_quiet sw buf n ret buf' sw' : update_flowmod_cookie sw buf n = Ok (ret, buf', sw') -> quiet sw sw'.
Proof. unfold update_flowmod_cookie. intros H. inv_run H; hush. Qed.

Lemma send_message_quiet sw buf n ret sw' : ofpmsg_send sw buf n = Ok (ret, sw') -> quiet sw sw'.
Proof.
  unfold ofpmsg_send. intros H. inv_run H; calm;
    try match goal with Hu : update_flowmod_cookie _ _ _ = _ |- _ => apply update_cookie_quiet in Hu end; hush.
Qed.

(** ** Messages of the switch that keep the state *)

Lemma delete_xid_quiet sw a sw' : delete_xid sw a = Ok sw' -> quiet sw sw'.
Proof. unfold delete_xid. intros H. inv_run H. hush. Qed.

Lemma delete_cookie_quiet sw a sw' : delete_cookie sw a = Ok sw' -> quiet sw sw'.
Proof. unfold delete_cookie. intros H. inv_run H. hush. Qed.

Lemma answer_quiet sw buf ret sw' : answer sw buf = Ok (ret, sw') -> quiet sw sw'.
Proof.
  unfold answer, send_transaction_reply. intros H. inv_run H. match goal with Hs : bind _ _ = Ok _ |- _ => inv_run Hs end; [| hush].
  match goal with Hd : delete_xid _ _ = _ |- _ => apply delete_xid_quiet in Hd end. hush.
Qed.

Lemma recv_error_quiet sw buf ret sw' : ofpmsg_recv_error sw buf = Ok (ret, sw') -> quiet sw sw'.
Proof.
  unfold ofpmsg_recv_error. intros H. inv_run H; try hush; try (apply answer_quiet in H; exact H).
  apply answer_quiet in H. match goal with Hs : (if _ then _ else _) = Ok ?s |- _ => inv_run Hs end; calm; try hush.
  match goal with Hd : delete_cookie _ _ = _ |- _ => apply delete_cookie_quiet in Hd end. hush.
Qed.

Lemma recv_flowremoved_quiet sw buf ret sw' : ofpmsg_recv_flowremoved sw buf = Ok (ret, sw') -> quiet sw sw'.
Proof.
  unfold ofpmsg_recv_flowremoved. intros H. inv_run H; try hush.
  match goal with Hd : delete_cookie _ _ = _ |- _ => apply delete_cookie_quiet in Hd end.
  match goal with Hs : (if _ then _ else _) = Ok ?s |- _ => inv_run Hs end; hush.
Qed.

Lemma echoreply_quiet sw buf ret sw' : switch_event_recv_echoreply sw buf = Ok (ret, sw') -> quiet sw sw'.
Proof. unfold switch_event_recv_echoreply. intros H. inv_run H; hush. Qed.

Lemma recv_statsreply_quiet sw buf ret sw' : ofpmsg_recv_statsreply sw buf = Ok (ret, sw') -> quiet sw sw'.
Proof.
  unfold ofpmsg_recv_statsreply. intros H. inv_run H; [| hush].
  match goal with Hs : _ = Ok sw' |- _ => inv_run Hs; [apply delete_xid_quiet in Hs | calm]; hush end.
Qed.
(** ** The phases of a connection *)

Context (svc : service_lists) (name_once : List.filter (fun s => bool_decide (s = name)) (state_service_name_list svc) = [name]).

Definition closed_services : service_lists := ServiceLists [] [] [] [].

(** [n] lists of switches have come. *)
Inductive phase : switch_info -> nat -> Prop :=
| opening sw n :
    state sw = SWITCH_STATE_WAIT_HELLO \/ state sw = SWITCH_STATE_WAIT_FEATURES_REPLY -> services sw = svc ->
    notifications name (effects sw) = [MESSENGER_OPENFLOW_CONNECTED] -> requests_of (effects sw) = n -> phase sw n
| completed sw n :
    state sw = SWITCH_STATE_COMPLETED -> services sw = svc ->
    notifications name (effects sw) = [MESSENGER_OPENFLOW_CONNECTED] -> (requests_of (effects sw) <= n + 1)%nat -> phase sw n
| ready sw n :
    state sw = SWITCH_STATE_COMPLETED -> services sw = svc ->
    notifications name (effects sw) = [MESSENGER_OPENFLOW_CONNECTED; MESSENGER_OPENFLOW_READY] ->
    (requests_of (effects sw) <= n)%nat -> phase sw n
| closed sw n :
    state sw = SWITCH_STATE_DISCONNECTED -> services sw = closed_services ->
    notifications name (effects sw) ∈ [
      [MESSENGER_OPENFLOW_CONNECTED; MESSENGER_OPENFLOW_FAILD_TO_CONNECT];
      [MESSENGER_OPENFLOW_CONNECTED; MESSENGER_OPENFLOW_DISCONNECTED];
      [MESSENGER_OPENFLOW_CONNECTED; MESSENGER_OPENFLOW_READY; MESSENGER_OPENFLOW_DISCONNECTED] ] -> phase sw n.

Lemma quiet_same sw sw' : quiet sw sw' ->
  notifications name (effects sw') = notifications name (effects sw) /\ requests_of (effects sw') = requests_of (effects sw).
Proof.
  intros [_ _ (l & He & Hl)]. destruct (quiet_notifications l Hl) as [Hn Hr]. rewrite He, notifications_app, requests_app, Hn, Hr.
  split; [apply app_nil_r | lia].
Qed.

Lemma quiet_phase sw sw' n : quiet sw sw' -> phase sw n -> phase sw' n.
Proof.
  intros Hq Hp. destruct (quiet_same sw sw' Hq) as [En Er]. destruct Hq as [Hs Hv _].
  destruct Hp; [apply opening | apply completed | apply ready | apply closed]; rewrite ?Hs, ?Hv, ?En, ?Er; done.
Qed.

Lemma omap_none {A} (f : A -> option Z) (l : list A) : Forall (fun a => f a = None) l -> omap f l = [].
Proof. induction 1 as [| a l Ha _ IH]; [done |]. cbn. by rewrite Ha. Qed.

Lemma send_state_same sw dpid tag :
  state (service_send_state sw dpid tag) = state sw /\ services (service_send_state sw dpid tag) = services sw.
Proof. unfold service_send_state, service_send_to_application. by destruct (state_service_name_list (services sw)). Qed.

(** A notification goes to each service of the list once. *)
Lemma notifications_sent sw dpid tag :
  is_state_tag tag = true -> services sw = svc ->
  notifications name (effects (service_send_state sw dpid tag)) = notifications name (effects sw) ++ [tag] /\
  requests_of (effects (service_send_state sw dpid tag)) = requests_of (effects sw).
Proof.
  intros Ht Hv. unfold service_send_state, service_send_to_application. rewrite Hv.
  destruct (state_service_name_list svc) as [| s0 names] eqn:E; [done |]. rewrite <- E in *. clear E.
  cbn [effects emit]. rewrite notifications_app, requests_app. split.
  - f_equal. generalize (create_openflow_application_message (Some dpid) None). intros data. clear -Ht name_once.
    assert (G : forall ns, notifications name (map (fun n => SendMessage n tag data) ns) =
      map (fun _ => tag) (List.filter (fun s => bool_decide (s = name)) ns)).
    { induction ns as [| n ns IH]; [done |]. cbn. unfold notifications in IH. rewrite IH.
      destruct (decide (n = name)) as [-> | Hne].
      - by rewrite Ht, bool_decide_true.
      - by rewrite bool_decide_false. }
    by rewrite G, name_once.
  - clear. induction (state_service_name_list svc) as [| n ns IH]; [cbn; lia |]. exact IH.
Qed.

Lemma disconnected_inv sw sw' : switch_event_disconnected sw = Ok sw' ->
  exists sw1, state sw1 = SWITCH_STATE_DISCONNECTED /\ services sw1 = services sw /\
    notifications name (effects sw1) = notifications name (effects sw) /\
    sw' = emit (set_services (service_send_state sw1 (datapath_id sw1)
      (if decide (state sw = SWITCH_STATE_COMPLETED) then MESSENGER_OPENFLOW_DISCONNECTED else MESSENGER_OPENFLOW_FAILD_TO_CONNECT))
      closed_services) [FlushMessenger; StopTrema].
Proof.
  unfold switch_event_disconnected. intros H. apply bind_inv in H as (t & _ & H). apply bind_inv in H as (r & _ & [= <-]).
  eexists. split; [| split; [| split; [| reflexivity]]]; unfold close_channel.
  - by destruct (0 <=? _), (decide _).
  - by destruct (0 <=? _), (decide _).
  - destruct (0 <=? _); [cbn [effects emit]; rewrite notifications_app; cbn [notifications omap list_omap state_tag]; rewrite app_nil_r |];
      by destruct (decide _).
Qed.

Lemma disconnected_phase sw sw' n : switch_event_disconnected sw = Ok sw' -> phase sw n -> phase sw' n.
Proof.
  intros (sw1 & Hst & Hv & Hn & ->)%disconnected_inv Hp. apply closed; [by rewrite <- Hst; apply send_state_same | done |].
  assert (Hsend : forall tag, services sw = svc -> is_state_tag tag = true ->
    notifications name (effects (service_send_state sw1 (datapath_id sw1) tag)) = notifications name (effects sw) ++ [tag]).
  { intros tag Hs Ht. rewrite <- Hn. by apply notifications_sent; [| rewrite Hv]. }
  match goal with |- context [emit (set_services ?s _) _] =>
    change (notifications name (effects (emit (set_services s closed_services) [FlushMessenger; StopTrema])))
      with (notifications name (effects s ++ [FlushMessenger; StopTrema])) end.
  rewrite notifications_app. cbn [notifications omap list_omap state_tag]. rewrite app_nil_r.
  destruct Hp as [sw n Hs Hsv Hnot _ | sw n Hs Hsv Hnot _ | sw n Hs Hsv Hnot _ | sw n Hs Hsv Hnot].
  - rewrite decide_False by (destruct Hs; congruence). rewrite Hsend, Hnot by done. set_solver.
  - rewrite decide_True by done. rewrite Hsend, Hnot by done. set_solver.
  - rewrite decide_True by done. rewrite Hsend, Hnot by done. set_solver.
  - rewrite decide_False by congruence. unfold service_send_state, service_send_to_application.
    rewrite Hv, Hsv. unfold closed_services. cbn [state_service_name_list]. by rewrite Hn.
Qed.

(** A handler that is quiet up to a new state. *)
Lemma next_state_phase sw sw1 st n :
  phase sw n -> quiet sw sw1 -> st = SWITCH_STATE_WAIT_FEATURES_REPLY /\ state sw = SWITCH_STATE_WAIT_HELLO \/
    st = SWITCH_STATE_COMPLETED /\ state sw = SWITCH_STATE_WAIT_FEATURES_REPLY -> phase (set_state sw1 st) n.
Proof.
  intros Hp Hq Hst. pose proof (quiet_phase _ _ _ Hq Hp) as Hp1. pose proof (q_state _ _ Hq) as E.
  destruct Hp1 as [s n Hs Hv Hn Hr | s n Hs Hv Hn Hr | s n Hs Hv Hn Hr | s n Hs Hv Hn];
    destruct Hst as [[-> Hold] | [-> Hold]]; rewrite E in Hs; try congruence.
  - apply opening; [by right | done..].
  - apply completed; [done | done | done |]. cbn [effects set_state]. lia.
Qed.

Lemma recv_hello_phase sw ret sw' n : switch_event_recv_hello sw = Ok (ret, sw') -> phase sw n -> phase sw' n.
Proof.
  unfold switch_event_recv_hello. intros H Hp. destruct (decide (state sw = SWITCH_STATE_WAIT_HELLO)) as [Hst |]; [| by injection H as <- <-].
  inv_run H; calm; try (eapply quiet_phase; [| exact Hp]; hush; fail).
  all: match goal with |- phase (switch_set_timeout (set_state ?s ?st) _) _ =>
    apply (quiet_phase (set_state s st)); [hush |]; apply (next_state_phase sw); [done | hush | by left] end.
Qed.

Lemma request_phase sw n : phase sw n -> state sw = SWITCH_STATE_COMPLETED -> notifications name (effects sw) = [MESSENGER_OPENFLOW_CONNECTED] ->
  (requests_of (effects sw) <= n)%nat -> phase (emit sw [SwitchListRequest]) n.
Proof.
  intros Hp Hs Hn Hr. destruct Hp as [s n Hs' | s n _ Hv _ _ | s n _ _ Hn' | s n Hs']; try (destruct Hs' as [Hs' | Hs']); try congruence.
  apply completed; [done | done | |]; cbn [effects emit].
  - rewrite notifications_app, Hn. done.
  - rewrite requests_app. cbn. lia.
Qed.

Lemma recv_featuresreply_phase env sw dpid ret sw' n :
  switch_event_recv_featuresreply env sw dpid = Ok (ret, sw') -> phase sw n -> phase sw' n.
Proof.
  unfold switch_event_recv_featuresreply. intros H Hp. destruct (state sw) eqn:Est; try (by injection H as <- <-).
  set (sw1 := set_state (set_datapath_id sw dpid) SWITCH_STATE_COMPLETED) in *.
  assert (Hp1 : phase sw1 n) by (apply (next_state_phase sw); [done | hush | by right]).
  assert (Hf : notifications name (effects sw1) = [MESSENGER_OPENFLOW_CONNECTED] /\ (requests_of (effects sw1) <= n)%nat).
  { destruct Hp as [s n Hs Hv Hn Hr | | |]; try congruence. change (effects sw1) with (effects s). split; [done | lia]. }
  assert (Hquiet : forall s, quiet sw1 s -> phase s n) by (intros s Hq; by eapply quiet_phase).
  assert (Hrequest : forall s, quiet sw1 s -> phase (emit s [SwitchListRequest]) n).
  { intros s Hq. destruct (quiet_same _ _ Hq) as [En Er]. apply request_phase; rewrite ?En, ?Er; try apply Hf; [by apply Hquiet |].
    by rewrite (q_state _ _ Hq). }
  inv_run H; calm; first [apply Hrequest; hush; fail | apply Hquiet; hush].
Qed.

Lemma confirm_phase env sw dpids n : phase sw n -> (n < requests_of (effects sw))%nat ->
  phase (confirm_self_dpid_is_registerd env sw dpids) (S n).
Proof.
  intros Hp Hr. unfold confirm_self_dpid_is_registerd, notify_state_to_controllers.
  destruct Hp as [s n Hs Hv Hn Hr' | s n Hs Hv Hn Hr' | s n Hs Hv Hn Hr' | s n Hs Hv Hn]; [lia | | lia |].
  - destruct (existsb _ _).
    + apply (quiet_phase (service_send_state s (datapath_id s) MESSENGER_OPENFLOW_READY)); [hush |].
      destruct (notifications_sent s (datapath_id s) MESSENGER_OPENFLOW_READY eq_refl Hv) as [En Er].
      destruct (send_state_same s (datapath_id s) MESSENGER_OPENFLOW_READY) as [Es Ev].
      apply ready; [by rewrite Es | by rewrite Ev | by rewrite En, Hn | rewrite Er; lia].
    + destruct (send_efi_switch_list_request env); [| by apply completed; [.. | lia]].
      apply completed; [done | done | |]; cbn [effects emit]; [by rewrite notifications_app, Hn | rewrite requests_app; cbn; lia].
  - assert (Hsend : service_send_state s (datapath_id s) MESSENGER_OPENFLOW_READY = s)
      by (unfold service_send_state, service_send_to_application; by rewrite Hv).
    rewrite Hsend. repeat case_match; apply closed; cbn [effects emit set_timers add_timer_event]; try done.
    rewrite notifications_app. cbn [notifications omap list_omap state_tag]. by rewrite app_nil_r.
Qed.

(** ** Events *)

Lemma recv_phase env sw buf ret sw' n : ofpmsg_recv env buf sw = Ok (ret, sw') -> phase sw n -> phase sw' n.
Proof.
  unfold ofpmsg_recv. intros H Hp. apply bind_inv in H as (err & _ & H). apply bind_inv in H as (type & _ & H).
  assert (Hquiet : quiet sw sw' -> phase sw' n) by (intros Hq; by eapply quiet_phase).
  destruct (negb (err =? 0)); [inv_run H; calm; apply Hquiet; hush |].
  repeat match type of H with
  | (if ?t =? ?c then _ else _) = _ => destruct (t =? c)
  end; try discriminate H.
  - by eapply recv_hello_phase.
  - apply Hquiet. by eapply recv_error_quiet.
  - unfold ofpmsg_recv_echorequest in H. inv_run H. calm. apply Hquiet. hush.
  - unfold ofpmsg_recv_echoreply in H. inv_run H; match goal with Hr : switch_event_recv_echoreply _ _ = _ |- _ => apply echoreply_quiet in Hr end;
      [apply Hquiet; hush |]. apply answer_quiet in H. apply Hquiet. hush.
  - injection H as <- <-. apply Hquiet. unfold ofpmsg_recv_vendor. hush.
  - unfold ofpmsg_recv_featuresreply in H. inv_run H;
      match goal with Hr : switch_event_recv_featuresreply _ _ _ = _ |- _ => apply (recv_featuresreply_phase _ _ _ _ _ _ Hr) in Hp end; [done |].
    apply answer_quiet in H. by eapply quiet_phase.
  - apply Hquiet. by eapply answer_quiet.
  - injection H as <- <-. apply Hquiet. hush.
  - apply Hquiet. by eapply recv_flowremoved_quiet.
  - injection H as <- <-. apply Hquiet. hush.
  - apply Hquiet. by eapply recv_statsreply_quiet.
  - apply Hquiet. by eapply answer_quiet.
  - apply Hquiet. by eapply answer_quiet.
Qed.

(** What the handler of a message keeps, the loop over the queue keeps. *)
Lemma handle_loop_keeps (P : switch_info -> Prop) env fuel r sw errors e r' sw' :
  (forall buf s ret s', P s -> ofpmsg_recv env buf s = Ok (ret, s') -> P s') ->
  handle_loop (ofpmsg_recv env) fuel r sw errors = Ok (e, r', sw') -> P sw -> P sw'.
Proof.
  intros Hk. revert r sw errors. induction fuel as [| fuel IH]; intros r sw errors H Hp; [done |].
  cbn [handle_loop] in H. inv_run H; [| done]. eapply IH; [exact H |]. by eapply Hk.
Qed.

Lemma read_phase {W} env (read_fd : Z -> W -> read_result * W) sw w sw' w' n :
  Daemon.secure_channel_read env read_fd sw w = Ok (sw', w') -> phase sw n -> phase sw' n.
Proof.
  unfold Daemon.secure_channel_read. intros H Hp. apply bind_inv in H as ([[[outcome r] sw1] w1] & Hread & H).
  assert (Hp1 : phase sw1 n).
  { unfold SecureChannel.secure_channel_read in Hread. inv_run Hread; try done.
    match goal with Hh : handle_messages_from_secure_channel _ _ _ = _ |- _ => unfold handle_messages_from_secure_channel in Hh; inv_run Hh end.
    match goal with Hh : handle_loop _ _ _ _ _ = _ |- _ => eapply (handle_loop_keeps (fun s => phase s n)); [| exact Hh | exact Hp] end.
    intros buf s ret s' Hs Hr. by eapply recv_phase. }
  assert (Hp2 : phase (set_rx sw1 r) n) by (eapply quiet_phase; [| exact Hp1]; hush).
  destruct outcome as [| data |].
  - by injection H as <- <-.
  - inv_run H. match goal with Hd : switch_event_disconnected _ = _ |- _ => eapply disconnected_phase; [exact Hd |] end.
    destruct data as [data |]; [| match goal with Hs : Ok _ = Ok _ |- _ => injection Hs as <-; exact Hp2 end].
    match goal with Hs : bind _ _ = Ok _ |- _ => inv_run Hs end. calm. eapply quiet_phase; [| exact Hp2]. hush.
  - injection H as <- <-. eapply quiet_phase; [| exact Hp2]. hush.
Qed.

Lemma service_recv_phase sw tag data sw' n : service_recv sw tag data = Ok sw' -> phase sw n -> phase sw' n.
Proof.
  unfold service_recv, service_recv_from_application. intros H Hp. inv_run H; try done.
  - unfold handle_openflow_message in H. inv_run H; [done |]. match goal with Hr : _ = Ok (_, sw') |- _ =>
      unfold switch_event_recv_from_application in Hr; inv_run Hr; [done |]; apply send_message_quiet in Hr end.
    by eapply quiet_phase.
  - unfold handle_openflow_disconnect_request, switch_event_disconnect_request in H. inv_run H.
    match goal with Hr : _ = Ok (_, sw') |- _ => inv_run Hr; [done |] end. by eapply disconnected_phase.
Qed.

Lemma write_phase {W} (write_fd : list bytes -> W -> write_result * W) sw w sw' w' n :
  Daemon.secure_channel_write IOV_MAX write_fd sw w = Ok (sw', w') -> phase sw n -> phase sw' n.
Proof.
  unfold Daemon.secure_channel_write, Daemon.flush_secure_channel. intros H Hp. inv_run H;
    match goal with Hf : bind _ _ = Ok _ |- _ => inv_run Hf end.
  - match goal with Hd : switch_event_disconnected _ = _ |- _ => eapply disconnected_phase; [exact Hd |] end.
    eapply quiet_phase; [| exact Hp]. hush.
  - eapply quiet_phase; [| exact Hp]. hush.
Qed.

Lemma timer_phase sw callback sw' n : run_timer sw callback = Ok sw' -> phase sw n -> phase sw' n.
Proof.
  destruct callback; cbn [run_timer]; intros H Hp.
  1, 2: unfold switch_event_timeout in H; destruct (decide _); [| by injection H as <-];
    eapply disconnected_phase; [exact H |]; eapply quiet_phase; [| exact Hp]; by apply (quiet_set sw); [.. | apply quiet_refl].
  - by eapply disconnected_phase.
  - unfold send_echo_request in H. inv_run H; calm.
    + eapply disconnected_phase; [exact H |]. eapply quiet_phase; [| exact Hp]. hush.
    + eapply quiet_phase; [| exact Hp]. hush.
  - inv_run H. eapply quiet_phase; [| exact Hp]. hush.
Qed.

(** The requests that change the services are left aside. *)
Definition keeps_services (e : event) : Prop :=
  match e with Management command _ => command < EVENT_FORWARD_ENTRY_ADD \/ EVENT_FORWARD_ENTRY_SET < command | _ => True end.

Lemma management_quiet sw command data sw' :
  command < EVENT_FORWARD_ENTRY_ADD \/ EVENT_FORWARD_ENTRY_SET < command -> management_recv sw command data = Ok sw' -> quiet sw sw'.
Proof.
  intros Hc. unfold management_recv, management_reply. intros H.
  replace ((EVENT_FORWARD_ENTRY_ADD <=? command) && (command <=? EVENT_FORWARD_ENTRY_SET)) with false in H by lia.
  inv_run H; try hush. apply quiet_emit; [by repeat constructor |]. destruct (negb _); [hush | destruct (age_cookie_table_enabled sw); hush].
Qed.

Lemma step_phase sw n e sw' n' : step IOV_MAX (sw, n) e (sw', n') -> keeps_services e -> phase sw n -> phase sw' n'.
Proof.
  intros H Hk Hp. inversion H as [env sw0 n0 now e0 sw1 Hen Hev]; subst.
  assert (Hp1 : phase (set_clock sw now) n) by (eapply quiet_phase; [| exact Hp]; hush).
  unfold handle_event in Hev. destruct e as [result | result | callback | tag data | command data | dpids |]; cbn [answers];
    rewrite ?Nat.add_0_r.
  - inv_run Hev. by eapply read_phase.
  - inv_run Hev. by eapply write_phase.
  - eapply timer_phase; [exact Hev |]. eapply quiet_phase; [| exact Hp1]. hush.
  - by eapply service_recv_phase.
  - eapply quiet_phase; [| exact Hp1]. by eapply management_quiet.
  - injection Hev as <-. rewrite Nat.add_1_r. cbn [enabled] in Hen. apply Nat.ltb_lt in Hen. by apply confirm_phase.
  - by eapply disconnected_phase.
Qed.

Lemma steps_phase s es s' : steps IOV_MAX s es s' -> Forall keeps_services es -> phase s.1 s.2 -> phase s'.1 s'.2.
Proof.
  induction 1 as [| [sw n] e [sw1 n1] es s2 Hstep _ IH]; [done |]. intros [He Hes]%Forall_cons Hp. apply IH; [done |].
  by eapply step_phase.
Qed.

(** [main] has told the applications that the switch is connected. *)
Lemma start_phase write_fd sw0 sw : state sw0 = SWITCH_STATE_CONNECTED -> services sw0 = svc -> effects sw0 = [] ->
  start IOV_MAX write_fd sw0 = Ok (0, sw) -> phase sw 0.
Proof.
  intros Hst Hsvc Heff. unfold start. intros H. apply bind_inv in H as ([ret sw1] & Hc & H).
  destruct (Z.ltb_spec ret 0); [by injection H as |]. apply bind_inv in H as ([[ret2 sw2] u] & Hf & H).
  destruct (ret2 <? 0); [by injection H as |]. injection H as <-.
  unfold Daemon.flush_secure_channel in Hf. inv_run Hf. eapply quiet_phase; [hush |].
  unfold switch_event_connected in Hc. apply bind_inv in Hc as ([ret1 sw3] & Hhello & Hc). destruct (Z.ltb_spec ret1 0); [injection Hc as <- <-; lia |].
  injection Hc as <- <-. apply send_hello_quiet in Hhello. destruct (quiet_same _ _ Hhello) as [En Er].
  destruct (notifications_sent sw0 (datapath_id sw0) MESSENGER_OPENFLOW_CONNECTED eq_refl Hsvc) as [En0 Er0].
  eapply quiet_phase; [hush |]. apply opening; [by left | | |]; cbn [services effects set_state switch_set_timeout set_running_timer add_timer_event set_timers].
  - rewrite (q_services _ _ Hhello). by rewrite (proj2 (send_state_same _ _ _)).
  - by rewrite En, En0, Heff.
  - by rewrite Er, Er0, Heff.
Qed.
End States.

(** * Property *)

(** C3. What an application that asked for states is told of its switch. After
    [main] has started the daemon and any events, management requests that
    change the services aside, the notifications the application has got are:
    that the switch is connected, while hello and features are exchanged; then
    also, at most once and after the switch manager has listed the switch, that
    it is ready; and at the end, exactly once, that it is disconnected if the
    exchange was completed, or that it failed to connect if it was not. *)
Theorem notifications_follow_connection {host : Host} IOV_MAX flow_cleanup translation deny args fd id dough now write_fd sw0 es sw n name :
  name <> SWITCH_MANAGER ->
  let sw_init := init_switch_info flow_cleanup translation deny args fd id dough now in
  List.filter (fun s => bool_decide (s = name)) (state_service_name_list (services sw_init)) = [name] ->
  start IOV_MAX write_fd sw_init = Ok (0, sw0) -> steps IOV_MAX (sw0, 0%nat) es (sw, n) -> Forall keeps_services es ->
  match state sw with
  | SWITCH_STATE_CONNECTED => False
  | SWITCH_STATE_WAIT_HELLO | SWITCH_STATE_WAIT_FEATURES_REPLY =>
      notifications name (effects sw) = [MESSENGER_OPENFLOW_CONNECTED]
  | SWITCH_STATE_COMPLETED =>
      notifications name (effects sw) = [MESSENGER_OPENFLOW_CONNECTED] \/
      notifications name (effects sw) = [MESSENGER_OPENFLOW_CONNECTED; MESSENGER_OPENFLOW_READY]
  | SWITCH_STATE_DISCONNECTED =>
      notifications name (effects sw) = [MESSENGER_OPENFLOW_CONNECTED; MESSENGER_OPENFLOW_FAILD_TO_CONNECT] \/
      notifications name (effects sw) = [MESSENGER_OPENFLOW_CONNECTED; MESSENGER_OPENFLOW_DISCONNECTED] \/
      notifications name (effects sw) = [MESSENGER_OPENFLOW_CONNECTED; MESSENGER_OPENFLOW_READY; MESSENGER_OPENFLOW_DISCONNECTED]
  end.
Proof.
  intros Hname sw_init Honce Hstart Hsteps Hkeep.
  apply (start_phase IOV_MAX name (services sw_init) Honce) in Hstart; [| done..].
  apply (steps_phase IOV_MAX name Hname (services sw_init) Honce _ _ _ Hsteps Hkeep) in Hstart. cbn [fst snd] in Hstart.
  destruct Hstart as [sw n Hs _ Hn _ | sw n -> _ Hn _ | sw n -> _ Hn _ | sw n -> _ Hn].
  - by destruct Hs as [-> | ->].
  - by left.
  - by right.
  - rewrite !elem_of_cons in Hn. destruct Hn as [Hn | [Hn | [Hn | []%elem_of_nil]]]; [by left | by right; left | by right; right].
Qed.

(** * Witness *)

(** Run events that are enabled, in one environment. *)
Fixpoint run_steps {host : Host} IOV_MAX env now (s : switch_info * nat) (es : list event) : res (switch_info * nat) :=
  match es with
  | [] => Ok s
  | e :: es =>
    let '(sw, n) := s in
    let* _ := assert (enabled sw n e) in
    let* sw := handle_event IOV_MAX env sw now e in
    run_steps IOV_MAX env now (sw, (n + answers e)%nat) es
  end.

Lemma run_steps_steps {host : Host} IOV_MAX env now s es s' : run_steps IOV_MAX env now s es = Ok s' -> steps IOV_MAX s es s'.
Proof.
  revert s. induction es as [| e es IH]; intros [sw n] H; cbn [run_steps] in H; [injection H as <-; constructor |].
  destruct (enabled sw n e) eqn:E; [| done]. unfold assert in H. rewrite bind_Ok in H.
  apply bind_inv in H as (sw1 & Hev & H). econstructor; [by econstructor | by apply IH].
Qed.

Definition sample_service : bytes := [Byte.x61].
Definition sample_hello : bytes := map byte.of_Z [1; 0; 0; 8; 0; 0; 0; 1].
Definition sample_features : bytes :=
  map byte.of_Z [1; 6; 0; 32; 0; 0; 0; 2; 0; 0; 0; 0; 0; 0; 0; 171; 0; 0; 1; 0; 1; 0; 0; 0; 0; 0; 0; 0; 0; 0; 0; 1].
Definition sample_session : list event :=
  [Readable (fun _ => Received sample_hello); Readable (fun _ => Received sample_features); SwitchList [171];
   Timer echo_request_interval; Terminate].

Definition sample_init : switch_info := init_switch_info true true false [STATE_PREFIX ++ sample_service] 3 0 0 (100, (0, 0)).
Definition sample_started : res (Z * switch_info) := start (host := LittleEndian) 1024 (fun _ => Wrote 8) sample_init.
Definition run_session (sw : switch_info) : res (switch_info * nat) :=
  run_steps (host := LittleEndian) 1024 (Environment (fun _ => 0) (fun _ => true) true) (100, (0, 0)) (sw, 0%nat) sample_session.

Lemma notifications_follow_connection_witness :
  exists sw0 sw n, sample_started = Ok (0, sw0) /\ run_session sw0 = Ok (sw, n) /\ state sw = SWITCH_STATE_DISCONNECTED /\
    (notifications sample_service (effects sw) = [MESSENGER_OPENFLOW_CONNECTED; MESSENGER_OPENFLOW_FAILD_TO_CONNECT] \/
     notifications sample_service (effects sw) = [MESSENGER_OPENFLOW_CONNECTED; MESSENGER_OPENFLOW_DISCONNECTED] \/
     notifications sample_service (effects sw) =
       [MESSENGER_OPENFLOW_CONNECTED; MESSENGER_OPENFLOW_READY; MESSENGER_OPENFLOW_DISCONNECTED]).
Proof.
  assert (Hrun : is_okb sample_started (fun p => (p.1 =? 0) && is_okb (run_session p.2) (fun q =>
    bool_decide (state q.1 = SWITCH_STATE_DISCONNECTED))) = true) by (vm_compute; reflexivity).
  apply is_okb_ok in Hrun as ([ret sw0] & H0 & Hrun). apply andb_prop in Hrun as [Hret Hrun].
  apply Z.eqb_eq in Hret. cbn [fst] in Hret. subst ret. cbn [snd] in Hrun.
  apply is_okb_ok in Hrun as ([sw n] & H1 & Hst). apply bool_decide_eq_true_1 in Hst. cbn [fst] in Hst.
  exists sw0, sw, n. split; [exact H0 |]. split; [exact H1 |]. split; [exact Hst |].
  pose proof (notifications_follow_connection (host := LittleEndian) 1024 true true false [STATE_PREFIX ++ sample_service] 3 0 0
    (100, (0, 0)) (fun _ => Wrote 8) sw0 sample_session sw n sample_service) as H.
  rewrite Hst in H. apply H.
  - vm_compute. discriminate.
  - vm_compute. reflexivity.
  - exact H0.
  - eapply run_steps_steps. exact H1.
  - repeat constructor.
Defined.
