(* ===== verification/ApplicationInterface.v ===== *)
(** openflow_application_interface.c: what an application of the framework calls
    and what calls it.

    A message from the daemon of a switch is checked, taken apart and given to
    the handler that the application has set for it; messages to switches get
    the header that the daemons expect.

    A handler is a function of the application with its data: the calls made are
    logged with their arguments, the members of a structure or the parameters of
    a function alike.  The lists that handlers get are the lists of what the
    elements point to; a buffer is its bytes, one that is made by
    [append_back_buffer] and filled starts as zeros.  The messenger and the
    counters are an interface, [Messaging].  Logging is left out. *)

From Stdlib Require Import ZArith Lia Bool String.
From coqutil Require Import Byte.
From stdpp Require Import base list.
From S2P Require Import Prelude Memory StateMonad OpenFlow ByteOrder Utility Stat PacketInfo PacketParser Validate.

Definition MESSENGER_SERVICE_NAME_LENGTH : Z := 32.

(** * What the interface asks of the messenger and of stat.c *)

Class Messaging (W : Type) : Type := {
  get_trema_name : M (S := W) bytes;
  init_openflow_message : M (S := W) bool;
  add_message_received_callback : bytes -> M (S := W) bool;
  add_message_replied_callback : bytes -> M (S := W) bool;
  delete_message_received_callback : bytes -> M (S := W) bool;
  delete_message_replied_callback : bytes -> M (S := W) bool;
  clear_send_queue : bytes -> M (S := W) bool;
  send_message : bytes -> Z -> bytes -> M (S := W) bool;
  send_request_message : bytes -> bytes -> Z -> bytes -> Z -> M (S := W) bool;
  increment_stat : bytes -> M (S := W) unit
}.

(** * Data *)

Definition MESSENGER_OPENFLOW_MESSAGE : Z := 1.
Definition MESSENGER_OPENFLOW_CONNECTED : Z := 2.
Definition MESSENGER_OPENFLOW_READY : Z := 3.
Definition MESSENGER_OPENFLOW_DISCONNECTED : Z := 4.
Definition MESSENGER_OPENFLOW_DISCONNECT_REQUEST : Z := 5.
Definition MESSENGER_OPENFLOW_FAILD_TO_CONNECT : Z := 6.

Definition sizeof_openflow_service_header : Z := 10.

(** The members of [openflow_event_handlers_t]. *)
Inductive event : Type :=
| switch_ready | switch_disconnected | error | echo_reply | vendor | features_reply | get_config_reply | packet_in
| flow_removed | port_status | stats_reply | barrier_reply | queue_get_config_reply | list_switches_reply.

#[export] Instance event_eq_dec : EqDecision event.
Proof. solve_decision. Defined.

(** [callback], [user_data] and [simple_callback] of an event; NULL is [None].
    Only three events have simple callbacks. *)
Record handler : Type := Handler { simple : bool; callback : option Z; user_data : Z }.

Definition openflow_event_handlers_t : Type := event -> handler.
Definition no_handlers : openflow_event_handlers_t := fun _ => Handler false None 0.

(** The arguments of a handler between the datapath id and the user data. *)
Inductive arguments : Type :=
| NoArguments
| ErrorArguments (transaction_id type code : Z) (data : bytes)
| EchoArguments (transaction_id : Z) (data : option bytes)
| VendorArguments (transaction_id vendor : Z) (data : option bytes)
| FeaturesArguments (transaction_id n_buffers n_tables capabilities actions : Z) (phy_ports : list ofp_phy_port)
| ConfigArguments (transaction_id flags miss_send_len : Z)
| PacketInArguments (transaction_id buffer_id total_len in_port reason : Z) (data : option (bytes * packet_info))
| FlowRemovedArguments (transaction_id : Z) (match_ : ofp_match) (cookie priority reason duration_sec duration_nsec idle_timeout
    packet_count byte_count : Z)
| PortStatusArguments (transaction_id reason : Z) (phy_port : ofp_phy_port)
| StatsArguments (transaction_id type flags : Z) (data : option bytes)
| BarrierArguments (transaction_id : Z)
| QueuesArguments (transaction_id port : Z) (queues : list bytes).

Inductive call : Type :=
| EventCall (e : event) (function : Z) (simple : bool) (datapath_id : Z) (args : arguments) (data : Z)
| ListSwitchesCall (function : Z) (switches : list Z) (data : Z).

(** The static variables, and the log of the calls. *)
Record application : Type := Application {
  openflow_application_interface_initialized : bool;
  event_handlers : openflow_event_handlers_t;
  service_name : bytes;
  calls : list call
}.

(** The statics of a new process. *)
Definition zero_application : application := Application false no_handlers [] [].

Section Interface.
Context {host : Host} {W : Type} `{Messaging W}.
Implicit Types (app : application) (data buf : bytes) (e : event).
#[local] Abbreviation M := (M (S := application * W)).

Definition get {A} (f : application -> A) : M A := fun s => Ok (f s.1, s).
Definition put (f : application -> application) : M unit := fun s => Ok (tt, (f s.1, s.2)).
Definition ext {A} (x : StateMonad.M (S := W) A) : M A := fun s => let* (a, w) := x s.2 in Ok (a, (s.1, w)).

Definition openflow_application_interface_is_initialized : M bool := get openflow_application_interface_initialized.

Definition init_openflow_application_interface (custom_service_name : bytes) : M bool :=
  let! initialized := openflow_application_interface_is_initialized in
  if initialized : bool then ret false
  else
    let! _ := put (fun app => Application false no_handlers [] (calls app)) in
    let length := blen (c_string custom_service_name) + 1 in
    if MESSENGER_SERVICE_NAME_LENGTH <? length then ret false
    else
      let name := c_string custom_service_name in
      let! _ := put (fun app => Application false no_handlers name (calls app)) in
      let! _ := ext init_openflow_message in
      let! _ := ext (add_message_received_callback name) in
      let! _ := ext (add_message_replied_callback name) in
      let! _ := put (fun app => Application true (event_handlers app) (service_name app) (calls app)) in
      ret true.

Definition maybe_init_openflow_application_interface : M bool :=
  let! initialized := openflow_application_interface_is_initialized in
  if initialized : bool then ret true
  else let! name := ext get_trema_name in init_openflow_application_interface name.

(** [assert( openflow_application_interface_initialized )] *)
Definition assert_initialized : M unit :=
  let! initialized := openflow_application_interface_is_initialized in lift (assert initialized).

Definition finalize_openflow_application_interface : M bool :=
  let! _ := assert_initialized in
  let! name := get service_name in
  let! _ := ext (delete_message_received_callback name) in
  let! _ := ext (delete_message_replied_callback name) in
  let! _ := put (fun app => Application false no_handlers [] (calls app)) in
  ret true.

(** ** The handlers of the application *)

Definition set_openflow_event_handlers (handlers : openflow_event_handlers_t) : M bool :=
  let! _ := maybe_init_openflow_application_interface in
  let! _ := assert_initialized in
  let! _ := put (fun app => Application (openflow_application_interface_initialized app) handlers (service_name app) (calls app)) in
  ret true.

(** What the setters do. *)
Definition set_handler e (simple_callback : bool) (callback : option Z) (user_data : Z) : M bool :=
  match callback with
  | None => fault Died
  | Some _ =>
    let! _ := maybe_init_openflow_application_interface in
    let! _ := assert_initialized in
    let! _ := put (fun app => Application (openflow_application_interface_initialized app)
      (fun e' => if decide (e' = e) then Handler simple_callback callback user_data else event_handlers app e') (service_name app) (calls app)) in
    ret true
  end.

Definition _set_switch_ready_handler (simple_callback : bool) (callback : option Z) (user_data : Z) : M bool :=
  set_handler switch_ready simple_callback callback user_data.
Definition set_switch_disconnected_handler (callback : option Z) (user_data : Z) : M bool :=
  set_handler switch_disconnected false callback user_data.
Definition set_error_handler (callback : option Z) (user_data : Z) : M bool := set_handler error false callback user_data.
Definition set_echo_reply_handler (callback : option Z) (user_data : Z) : M bool := set_handler echo_reply false callback user_data.
Definition set_vendor_handler (callback : option Z) (user_data : Z) : M bool := set_handler vendor false callback user_data.
Definition set_features_reply_handler (callback : option Z) (user_data : Z) : M bool := set_handler features_reply false callback user_data.
Definition set_get_config_reply_handler (callback : option Z) (user_data : Z) : M bool := set_handler get_config_reply false callback user_data.
Definition _set_packet_in_handler (simple_callback : bool) (callback : option Z) (user_data : Z) : M bool :=
  set_handler packet_in simple_callback callback user_data.
Definition _set_flow_removed_handler (simple_callback : bool) (callback : option Z) (user_data : Z) : M bool :=
  set_handler flow_removed simple_callback callback user_data.
Definition set_port_status_handler (callback : option Z) (user_data : Z) : M bool := set_handler port_status false callback user_data.
Definition set_stats_reply_handler (callback : option Z) (user_data : Z) : M bool := set_handler stats_reply false callback user_data.
Definition set_barrier_reply_handler (callback : option Z) (user_data : Z) : M bool := set_handler barrier_reply false callback user_data.
Definition set_queue_get_config_reply_handler (callback : option Z) (user_data : Z) : M bool :=
  set_handler queue_get_config_reply false callback user_data.
(** This one has no user data: the reply brings it. *)
Definition set_list_switches_reply_handler (callback : option Z) : M bool := set_handler list_switches_reply false callback 0.

(** ** Messages of a switch *)

Definition log (c : call) : M unit :=
  put (fun app => Application (openflow_application_interface_initialized app) (event_handlers app) (service_name app) (calls app ++ [c])).

(** [if ( callback == NULL ) return; ... callback( ... )]: [make] is what is done
    in between. *)
Definition call_handler e (datapath_id : Z) (make : res arguments) : M unit :=
  let! handlers := get event_handlers in
  match callback (handlers e) with
  | None => ret tt
  | Some function =>
    let! args := lift make in
    log (EventCall e function (simple (handlers e)) datapath_id args (user_data (handlers e)))
  end.

(** [data == NULL] or of length 0. *)
Definition empty (data : option bytes) : bool := match data with None => true | Some data => blen data =? 0 end.

(** The message of a handler, checked. *)
Definition filled (data : option bytes) (f : Prelude.fault) : M bytes :=
  if empty data then fault f else match data with Some data => ret data | None => fault f end.

Definition handle_error (datapath_id : Z) (data : option bytes) : M unit :=
  let! data := filled data AssertFailed in
  let! transaction_id := lift (ld_ntoh 4 data 4) in
  let! type := lift (ld_ntoh 2 data 8) in
  let! code := lift (ld_ntoh 2 data 10) in
  let! body := lift (remove_front data 12) in
  call_handler error datapath_id (Ok (ErrorArguments transaction_id type code body)).

(** A copy of the message from [offset] on, NULL when the body is empty. *)
Definition body_from data (offset body_length : Z) : res (option bytes) :=
  if 0 <? body_length then let* body := remove_front data offset in Ok (Some body) else Ok None.

Definition handle_echo_reply (datapath_id : Z) (data : option bytes) : M unit :=
  let! data := filled data AssertFailed in
  let! transaction_id := lift (ld_ntoh 4 data 4) in
  let! length := lift (ld_ntoh 2 data 2) in
  let body_length := u16 (length - 8) in
  call_handler echo_reply datapath_id (let* body := body_from data 8 body_length in Ok (EchoArguments transaction_id body)).

Definition handle_vendor (datapath_id : Z) (data : option bytes) : M unit :=
  let! data := filled data AssertFailed in
  let! transaction_id := lift (ld_ntoh 4 data 4) in
  let! vendor_id := lift (ld_ntoh 4 data 8) in
  let! length := lift (ld_ntoh 2 data 2) in
  let body_length := u16 (length - 12) in
  call_handler vendor datapath_id (let* body := body_from data 12 body_length in Ok (VendorArguments transaction_id vendor_id body)).

Fixpoint ntoh_phy_ports (n_phy_ports : nat) data (phy_port : Z) : res (list ofp_phy_port) :=
  match n_phy_ports with
  | O => Ok []
  | S n =>
    let* p := ld_phy_port data phy_port in
    let* ports := ntoh_phy_ports n data (phy_port + 48) in
    Ok (ntoh_phy_port p :: ports)
  end.

Definition handle_features_reply (datapath_id : Z) (data : option bytes) : M unit :=
  let! data := filled data AssertFailed in
  let! transaction_id := lift (ld_ntoh 4 data 4) in
  let! n_buffers := lift (ld_ntoh 4 data 16) in
  let! n_tables := lift (ld8 data 20) in
  let! capabilities := lift (ld_ntoh 4 data 24) in
  let! actions := lift (ld_ntoh 4 data 28) in
  let! length := lift (ld_ntoh 2 data 2) in
  let phy_ports_length := u16 (length - 32) in
  let! phy_ports := lift (ntoh_phy_ports (Z.to_nat (phy_ports_length / 48)) data 32) in
  call_handler features_reply datapath_id (Ok (FeaturesArguments transaction_id n_buffers n_tables capabilities actions phy_ports)).

Definition handle_get_config_reply (datapath_id : Z) (data : option bytes) : M unit :=
  let! data := filled data AssertFailed in
  let! transaction_id := lift (ld_ntoh 4 data 4) in
  let! flags := lift (ld_ntoh 2 data 8) in
  let! miss_send_len := lift (ld_ntoh 2 data 10) in
  call_handler get_config_reply datapath_id (Ok (ConfigArguments transaction_id flags miss_send_len)).

(** [parse_packet] adds what it finds to the buffer. *)
Definition handle_packet_in (datapath_id : Z) (data : option bytes) : M unit :=
  let! data := filled data Died in
  let! transaction_id := lift (ld_ntoh 4 data 4) in
  let! buffer_id := lift (ld_ntoh 4 data 8) in
  let! total_len := lift (ld_ntoh 2 data 12) in
  let! in_port := lift (ld_ntoh 2 data 14) in
  let! reason := lift (ld8 data 16) in
  let! length := lift (ld_ntoh 2 data 2) in
  let body_length := u16 (length - 18) in
  call_handler packet_in datapath_id
    (let* body := body_from data 18 body_length in
     let* body := match body with Some body => let* info := parse_packet body in Ok (Some (body, info)) | None => Ok None end in
     Ok (PacketInArguments transaction_id buffer_id total_len in_port reason body)).

Definition handle_flow_removed (datapath_id : Z) (data : option bytes) : M unit :=
  let! data := filled data AssertFailed in
  let! transaction_id := lift (ld_ntoh 4 data 4) in
  let! match_ := lift (ld_match data 8) in
  let! cookie := lift (ld_ntoh 8 data 48) in
  let! priority := lift (ld_ntoh 2 data 56) in
  let! reason := lift (ld8 data 58) in
  let! duration_sec := lift (ld_ntoh 4 data 60) in
  let! duration_nsec := lift (ld_ntoh 4 data 64) in
  let! idle_timeout := lift (ld_ntoh 2 data 68) in
  let! packet_count := lift (ld_ntoh 8 data 72) in
  let! byte_count := lift (ld_ntoh 8 data 80) in
  call_handler flow_removed datapath_id (Ok (FlowRemovedArguments transaction_id (ntoh_match match_) cookie priority reason
    duration_sec duration_nsec idle_timeout packet_count byte_count)).

Definition handle_port_status (datapath_id : Z) (data : option bytes) : M unit :=
  let! data := filled data AssertFailed in
  let! transaction_id := lift (ld_ntoh 4 data 4) in
  let! reason := lift (ld8 data 8) in
  let! desc := lift (ld_phy_port data 16) in
  call_handler port_status datapath_id (Ok (PortStatusArguments transaction_id reason (ntoh_phy_port desc))).

(** *** Statistics *)

(** [while ( body_length > 0 )]: a structure of length 0 keeps the loop going
    until [ntoh_flow_stats] fails. *)
Fixpoint ntoh_flow_stats_loop (fuel : nat) (body_length : Z) (dst : bytes) (src : bytes) (off : Z) : res bytes :=
  match fuel with
  | O => Fault OutOfFuel
  | S fuel =>
    if 0 <? body_length then
      let* dst := ntoh_flow_stats dst off src off in
      let* length := ld 2 dst off in
      ntoh_flow_stats_loop fuel (u16 (body_length - length)) dst src (off + length)
    else Ok dst
  end.

(** The same for structures of [size] bytes. *)
Fixpoint ntoh_stats_loop {A} (ld : bytes -> Z -> res A) (st : bytes -> Z -> A -> res bytes) (ntoh : A -> A) (size : Z)
    (fuel : nat) (body_length : Z) (dst : bytes) (src : bytes) (off : Z) : res bytes :=
  match fuel with
  | O => Fault OutOfFuel
  | S fuel =>
    if 0 <? body_length then
      let* x := ld src off in
      let* dst := st dst off (ntoh x) in
      ntoh_stats_loop ld st ntoh size fuel (u16 (body_length - size)) dst src (off + size)
    else Ok dst
  end.

(** [body_h], in the byte order of the host. *)
Definition stats_body (type body_length : Z) (body : bytes) : res bytes :=
  let body_h := zeros (Z.to_nat body_length) in
  let fuel := S (Z.to_nat body_length) in
  if type =? OFPST_DESC then Ok body
  else if type =? OFPST_FLOW then ntoh_flow_stats_loop fuel body_length body_h body 0
  else if type =? OFPST_AGGREGATE then
    let* x := ld_aggregate_stats body 0 in st_aggregate_stats body_h 0 (ntoh_aggregate_stats x)
  else if type =? OFPST_TABLE then ntoh_stats_loop ld_table_stats st_table_stats ntoh_table_stats 64 fuel body_length body_h body 0
  else if type =? OFPST_PORT then ntoh_stats_loop ld_port_stats st_port_stats ntoh_port_stats 104 fuel body_length body_h body 0
  else if type =? OFPST_QUEUE then ntoh_stats_loop ld_queue_stats st_queue_stats ntoh_queue_stats 32 fuel body_length body_h body 0
  else if type =? OFPST_VENDOR then
    let* copy := ld_range body 0 body_length in
    let* vendor_id := ld_ntoh 4 copy 0 in
    st 4 copy 0 vendor_id
  else Fault AssertFailed.

Definition handle_stats_reply (datapath_id : Z) (data : option bytes) : M unit :=
  let! data := filled data AssertFailed in
  let! transaction_id := lift (ld_ntoh 4 data 4) in
  let! type := lift (ld_ntoh 2 data 8) in
  let! flags := lift (ld_ntoh 2 data 10) in
  let! length := lift (ld_ntoh 2 data 2) in
  let body_length := u16 (length - 12) in
  call_handler stats_reply datapath_id
    (let* body := body_from data 12 body_length in
     let* body_h := match body with Some body => let* b := stats_body type body_length body in Ok (Some b) | None => Ok None end in
     Ok (StatsArguments transaction_id type flags body_h)).

Definition handle_barrier_reply (datapath_id : Z) (data : option bytes) : M unit :=
  let! data := filled data AssertFailed in
  let! transaction_id := lift (ld_ntoh 4 data 4) in
  call_handler barrier_reply datapath_id (Ok (BarrierArguments transaction_id)).

(** Each queue gets memory of its length. *)
Fixpoint ntoh_packet_queues (fuel : nat) (queues_length : Z) data (packet_queue : Z) : res (list bytes) :=
  match fuel with
  | O => Fault OutOfFuel
  | S fuel =>
    if 0 <? queues_length then
      let* len := ld_ntoh 2 data (packet_queue + 4) in
      let* pq := ntoh_packet_queue (zeros (Z.to_nat len)) 0 data packet_queue in
      let* len := ld 2 pq 4 in
      let* queues := ntoh_packet_queues fuel (u16 (queues_length - len)) data (packet_queue + len) in
      Ok (pq :: queues)
    else Ok []
  end.

Definition handle_queue_get_config_reply (datapath_id : Z) (data : option bytes) : M unit :=
  let! data := filled data AssertFailed in
  let! transaction_id := lift (ld_ntoh 4 data 4) in
  let! port := lift (ld_ntoh 2 data 8) in
  let! length := lift (ld_ntoh 2 data 2) in
  let queues_length := u16 (length - 16) in
  call_handler queue_get_config_reply datapath_id
    (let* _ := assert (0 <? queues_length) in
     let* queues := ntoh_packet_queues (S (Z.to_nat queues_length)) queues_length data 16 in
     Ok (QueuesArguments transaction_id port queues)).

(** *** Counters *)

Inductive direction : Type := OPENFLOW_MESSAGE_SEND | OPENFLOW_MESSAGE_RECEIVE.

Definition str (s : string) : bytes := list_byte_of_string s.

Definition stat_key (name : string) (send_receive : direction) (result : bool) : bytes :=
  let suffix := str (if result then "_succeeded" else "_failed") in
  let direction := str (match send_receive with OPENFLOW_MESSAGE_SEND => "_send" | OPENFLOW_MESSAGE_RECEIVE => "_receive" end) in
  take (Z.to_nat (STAT_KEY_LENGTH - 1)) (str "openflow_application_interface." ++ str name ++ direction ++ suffix).

Definition switch_event_name (type : Z) : string :=
  if type =? MESSENGER_OPENFLOW_CONNECTED then "switch_connected"
  else if type =? MESSENGER_OPENFLOW_READY then "switch_ready"
  else if type =? MESSENGER_OPENFLOW_DISCONNECTED then "switch_disconnected"
  else if type =? MESSENGER_OPENFLOW_FAILD_TO_CONNECT then "switch_failed_to_connect"
  else "undefined_switch_event".

Definition update_switch_event_stats (type : Z) (send_receive : direction) (result : bool) : M unit :=
  ext (increment_stat (stat_key (switch_event_name type) send_receive result)).

Definition openflow_name (type : Z) : string :=
  if type =? OFPT_HELLO then "hello" else if type =? OFPT_ERROR then "error"
  else if type =? OFPT_ECHO_REQUEST then "echo_request" else if type =? OFPT_ECHO_REPLY then "echo_reply"
  else if type =? OFPT_VENDOR then "vendor" else if type =? OFPT_FEATURES_REQUEST then "features_request"
  else if type =? OFPT_FEATURES_REPLY then "features_reply" else if type =? OFPT_GET_CONFIG_REQUEST then "get_config_request"
  else if type =? OFPT_GET_CONFIG_REPLY then "get_config_reply" else if type =? OFPT_SET_CONFIG then "set_config"
  else if type =? OFPT_PACKET_IN then "packet_in" else if type =? OFPT_FLOW_REMOVED then "flow_removed"
  else if type =? OFPT_PORT_STATUS then "port_status" else if type =? OFPT_PACKET_OUT then "packet_out"
  else if type =? OFPT_FLOW_MOD then "flow_mod" else if type =? OFPT_PORT_MOD then "port_mod"
  else if type =? OFPT_STATS_REQUEST then "stats_request" else if type =? OFPT_STATS_REPLY then "stats_reply"
  else if type =? OFPT_BARRIER_REQUEST then "barrier_request" else if type =? OFPT_BARRIER_REPLY then "barrier_reply"
  else if type =? OFPT_QUEUE_GET_CONFIG_REQUEST then "queue_get_config_request"
  else if type =? OFPT_QUEUE_GET_CONFIG_REPLY then "queue_get_config_reply"
  else "undefined_message_type".

Definition update_openflow_stats (type : Z) (send_receive : direction) (result : bool) : M unit :=
  ext (increment_stat (stat_key (openflow_name type) send_receive result)).

(** *** Dispatch *)

Definition remote_service_name (datapath_id : Z) : bytes :=
  take (Z.to_nat (MESSENGER_SERVICE_NAME_LENGTH - 1)) (str "switch." ++ print_hex datapath_id).

Definition delete_openflow_messages (datapath_id : Z) : M bool := ext (clear_send_queue (remote_service_name datapath_id)).

Definition handle_switch_ready (datapath_id : Z) : M unit := call_handler switch_ready datapath_id (Ok NoArguments).

Definition handle_messenger_openflow_disconnected (datapath_id : Z) : M unit :=
  let! _ := call_handler switch_disconnected datapath_id (Ok NoArguments) in
  let! _ := delete_openflow_messages datapath_id in
  ret tt.

Definition handle_switch_events (type : Z) data : M unit :=
  let! _ := lift (assert (blen data =? sizeof_openflow_service_header)) in
  let! datapath_id := lift (ld_ntoh 8 data 0) in
  let! _ :=
    if type =? MESSENGER_OPENFLOW_READY then handle_switch_ready datapath_id
    else if type =? MESSENGER_OPENFLOW_DISCONNECTED then handle_messenger_openflow_disconnected datapath_id
    else ret tt in
  update_switch_event_stats type OPENFLOW_MESSAGE_RECEIVE true.

(** The handler of a message of the type. *)
Definition dispatch (type datapath_id : Z) (data : option bytes) : M unit :=
  if type =? OFPT_ERROR then handle_error datapath_id data
  else if type =? OFPT_ECHO_REPLY then handle_echo_reply datapath_id data
  else if type =? OFPT_VENDOR then handle_vendor datapath_id data
  else if type =? OFPT_FEATURES_REPLY then handle_features_reply datapath_id data
  else if type =? OFPT_GET_CONFIG_REPLY then handle_get_config_reply datapath_id data
  else if type =? OFPT_PACKET_IN then handle_packet_in datapath_id data
  else if type =? OFPT_FLOW_REMOVED then handle_flow_removed datapath_id data
  else if type =? OFPT_PORT_STATUS then handle_port_status datapath_id data
  else if type =? OFPT_STATS_REPLY then handle_stats_reply datapath_id data
  else if type =? OFPT_BARRIER_REPLY then handle_barrier_reply datapath_id data
  else if type =? OFPT_QUEUE_GET_CONFIG_REPLY then handle_queue_get_config_reply datapath_id data
  else ret tt.

Definition handle_openflow_message data : M unit :=
  let! _ := lift (assert (sizeof_openflow_service_header + sizeof_ofp_header <=? blen data)) in
  let! datapath_id := lift (ld_ntoh 8 data 0) in
  let! buffer := lift (remove_front data sizeof_openflow_service_header) in
  let! result := lift (validate_openflow_message buffer) in
  if result <? 0 then ret tt
  else
    let! type := lift (ld8 buffer 1) in
    let! _ := dispatch type datapath_id (Some buffer) in
    update_openflow_stats type OPENFLOW_MESSAGE_RECEIVE true.

Definition handle_message (type : Z) data : M unit :=
  let! _ := lift (assert (sizeof_openflow_service_header <=? blen data)) in
  if type =? MESSENGER_OPENFLOW_MESSAGE then handle_openflow_message data
  else if (type =? MESSENGER_OPENFLOW_CONNECTED) || (type =? MESSENGER_OPENFLOW_FAILD_TO_CONNECT)
    || (type =? MESSENGER_OPENFLOW_READY) || (type =? MESSENGER_OPENFLOW_DISCONNECTED) then handle_switch_events type data
  else update_switch_event_stats type OPENFLOW_MESSAGE_RECEIVE true.

(** *** The list of the switches *)

(** Before the first that is not smaller. *)
Fixpoint insert_dpid (head : list Z) (dpid : Z) : list Z :=
  match head with
  | [] => [dpid]
  | x :: l => if dpid <=? x then dpid :: x :: l else x :: insert_dpid l dpid
  end.

Fixpoint insert_dpids (num_switch : nat) data (i : Z) (switches : list Z) : res (list Z) :=
  match num_switch with
  | O => Ok switches
  | S n =>
    let* datapath_id := ld_ntoh 8 data (8 * i) in
    insert_dpids n data (i + 1) (insert_dpid switches datapath_id)
  end.

Definition handle_list_switches_reply data (user_data : Z) : M unit :=
  let num_switch := blen data / 8 in
  let! handlers := get event_handlers in
  match callback (handlers list_switches_reply) with
  | None => ret tt
  | Some function =>
    let! switches := lift (insert_dpids (Z.to_nat num_switch) data 0 []) in
    log (ListSwitchesCall function switches user_data)
  end.

(** ** Messages to a switch *)

(** The header, and the name of the service of the application. *)
Definition service_header (datapath_id : Z) (name : bytes) : bytes :=
  host_encode 8 (htonll datapath_id) ++ host_encode 2 (htons (u16 (blen name + 1))) ++ name ++ [zero].

Definition send_openflow_message (datapath_id : Z) (message : option bytes) : M bool :=
  let! _ := maybe_init_openflow_application_interface in
  let! _ := assert_initialized in
  let! message := filled message AssertFailed in
  let! name := get service_name in
  let! result := ext (send_message (remote_service_name datapath_id) MESSENGER_OPENFLOW_MESSAGE (service_header datapath_id name ++ message)) in
  let! type := lift (ld8 message 1) in
  let! _ := update_openflow_stats type OPENFLOW_MESSAGE_SEND result in
  ret result.

Definition send_list_switches_request (user_data : Z) : M bool :=
  let! _ := maybe_init_openflow_application_interface in
  let! _ := assert_initialized in
  let! name := get service_name in
  ext (send_request_message (str "switch_manager") name 0 [] user_data).

Definition disconnect_switch (datapath_id : Z) : M bool :=
  let! _ := maybe_init_openflow_application_interface in
  let! _ := assert_initialized in
  let! name := get service_name in
  ext (send_message (remote_service_name datapath_id) MESSENGER_OPENFLOW_DISCONNECT_REQUEST (service_header datapath_id name)).
End Interface.
