(* ===== verification/ApplicationMessages.v ===== *)
(** Messages of a switch in an application: what reaches the handlers
    (openflow_application_interface.c) of a message that openflow_message.c has
    made and the daemon of the switch has passed on. *)

From Stdlib Require Import ZArith Lia Bool Sorting.Sorted.
From coqutil Require Import Byte.
From stdpp Require Import base list gmap.
From S2P Require Import Prelude Memory StateMonad OpenFlow Codes ByteOrder HashTable EventHandler Actions Validate Utility Stat MessageBuffer Messenger Delivery TransactionId PacketInfo PacketParser Create Roundtrip Accept SwitchInfo OfpMsgSend ApplicationInterface.

(** * What a handler should get *)

Section Expected.
Context {host : Host}.
Implicit Types (x : message) (data : bytes).

(** NULL when there is nothing. *)
Definition non_empty data : option bytes := match data with [] => None | _ => Some data end.

(** A frame, parsed. *)
Definition parsed data : option (bytes * packet_info) :=
  match data with [] => None | _ => match parse_packet data with Ok info => Some (data, info) | Fault _ => None end end.

(** Structures in the memory of the host. *)
Definition host_array {A} `{WireStruct A} (l : list A) : bytes := concat (map ws_host l).

(** The event and the arguments that a message of a switch is for. *)
Definition expected (transaction_id : Z) x : option (event * arguments) :=
  match x with
  | Error type code data => Some (error, ErrorArguments transaction_id type code data)
  | EchoReply body => Some (echo_reply, EchoArguments transaction_id (non_empty body))
  | VendorMessage vendor_id data => Some (vendor, VendorArguments transaction_id vendor_id (non_empty data))
  | FeaturesReply _ n_buffers n_tables capabilities actions ports =>
    Some (features_reply, FeaturesArguments transaction_id n_buffers n_tables capabilities actions ports)
  | GetConfigReply flags miss_send_len => Some (get_config_reply, ConfigArguments transaction_id flags miss_send_len)
  | PacketIn buffer_id total_len in_port reason data =>
    Some (packet_in, PacketInArguments transaction_id buffer_id total_len in_port reason (parsed data))
  | FlowRemoved match_ cookie priority reason duration_sec duration_nsec idle_timeout packet_count byte_count =>
    Some (flow_removed, FlowRemovedArguments transaction_id (ws_norm match_) cookie priority reason duration_sec duration_nsec
      idle_timeout packet_count byte_count)
  | PortStatus reason desc => Some (port_status, PortStatusArguments transaction_id reason desc)
  | AggregateStatsReply flags packet_count byte_count flow_count =>
    Some (stats_reply, StatsArguments transaction_id OFPST_AGGREGATE flags
      (Some (ws_host (Build_ofp_aggregate_stats_reply packet_count byte_count flow_count))))
  | TableStatsReply flags tables => Some (stats_reply, StatsArguments transaction_id OFPST_TABLE flags (non_empty (host_array tables)))
  | PortStatsReply flags ports => Some (stats_reply, StatsArguments transaction_id OFPST_PORT flags (non_empty (host_array ports)))
  | QueueStatsReply flags queues => Some (stats_reply, StatsArguments transaction_id OFPST_QUEUE flags (non_empty (host_array queues)))
  | VendorStatsReply flags vendor_id body =>
    Some (stats_reply, StatsArguments transaction_id OFPST_VENDOR flags (Some (host_encode 4 vendor_id ++ body)))
  | BarrierReply => Some (barrier_reply, BarrierArguments transaction_id)
  | _ => None
  end.

(** Numbers that their fields hold; a frame that the parser takes. *)
Definition ranged x : Prop :=
  match x with
  | Error type code _ => fits 2 type /\ fits 2 code
  | VendorMessage vendor_id _ => fits 4 vendor_id
  | FeaturesReply _ n_buffers _ capabilities actions _ => fits 4 n_buffers /\ fits 4 capabilities /\ fits 4 actions
  | GetConfigReply _ miss_send_len => fits 2 miss_send_len
  | PacketIn buffer_id total_len _ _ data => fits 4 buffer_id /\ fits 2 total_len /\ (data = [] \/ is_ok (parse_packet data))
  | FlowRemoved _ cookie _ _ duration_sec duration_nsec idle_timeout packet_count byte_count =>
    fits 8 cookie /\ fits 4 duration_sec /\ fits 4 duration_nsec /\ fits 2 idle_timeout /\ fits 8 packet_count /\ fits 8 byte_count
  | AggregateStatsReply _ packet_count byte_count flow_count => fits 8 packet_count /\ fits 8 byte_count /\ fits 4 flow_count
  | VendorStatsReply _ vendor_id _ => fits 4 vendor_id
  | _ => True
  end.

(** The handler is called, when there is one. *)
Definition notified (app : application) (datapath_id : Z) (o : option (event * arguments)) : list call :=
  match o with
  | None => []
  | Some (e, args) =>
    match callback (event_handlers app e) with
    | None => []
    | Some function => [EventCall e function (simple (event_handlers app e)) datapath_id args (user_data (event_handlers app e))]
    end
  end.

Definition log_calls (app : application) (cs : list call) : application :=
  Application (openflow_application_interface_initialized app) (event_handlers app) (service_name app) (calls app ++ cs).
End Expected.

(** * Reading *)

Section Reading.
Context {host : Host} (xid : Z) (x : message) (Hl : message_length x < 2 ^ 16).

Lemma ld_xid : fits 4 xid -> ld_ntoh 4 (wire_message xid x) 4 = Ok xid.
Proof using. intros H. unfold wire_message, wire_header. rewrite <- !app_assoc. by rd. Qed.

Lemma wire_message_filled : empty (Some (wire_message xid x)) = false.
Proof using. cbn. rewrite blen_wire_message. unfold message_length. pose proof (blen_nonneg (wire_body x)). lia. Qed.

(** The body from [off] on. *)
Lemma remove_front_body off pre post : wire_body x = pre ++ post -> off = 8 + blen pre -> remove_front (wire_message xid x) off = Ok post.
Proof using.
  intros Hb ->. pose proof (blen_nonneg pre). pose proof (blen_nonneg post). unfold remove_front. rewrite blen_wire_message. unfold message_length. rewrite Hb, blen_app.
  unfold assert. rewrite (proj2 (Z.eqb_neq _ _)) by lia. rewrite (proj2 (Z.leb_le _ _)) by lia. cbn [negb bind]. f_equal.
  unfold wire_message. rewrite Hb, app_assoc. apply drop_app_length'. pose proof (blen_wire_header (message_type x) (message_length x) xid).
  rewrite length_app. unfold blen in *. lia.
Qed.

Lemma body_from_message off pre post n : wire_body x = pre ++ post -> off = 8 + blen pre -> n = blen post ->
  body_from (wire_message xid x) off n = Ok (non_empty post).
Proof using.
  intros Hb Ho ->. unfold body_from. destruct post as [| b post]; [done |]. rewrite blen_cons. pose proof (blen_nonneg post).
  rewrite (proj2 (Z.ltb_lt _ _)) by lia. by rewrite (remove_front_body off pre (b :: post)).
Qed.
End Reading.

Section Handlers.
Context {host : Host} {W : Type} `{Messaging W}.
Implicit Types (app : application) (w : W) (x : message).

Lemma call_handler_run e dpid make args app w : (callback (event_handlers app e) <> None -> make = Ok args) ->
  call_handler e dpid make (app, w) = Ok (tt, (log_calls app (notified app dpid (Some (e, args))), w)).
Proof.
  intros Hm. unfold call_handler, notified. rewrite (bind_run (get _) _ (app, w) (event_handlers app) (app, w)) by done.
  destruct (callback (event_handlers app e)) as [f |]; [by rewrite Hm | destruct app; unfold log_calls; cbn; by rewrite app_nil_r].
Qed.

Lemma filled_run data f (s : application * W) : empty (Some data) = false -> filled (Some data) f s = Ok (data, s).
Proof. intros E. unfold filled. by rewrite E. Qed.
End Handlers.

(** Read the message, a field after the other, and call the handler. *)
Ltac read_field := erewrite bind_run; [| apply lift_run; first [by apply ld_xid | by apply ld_length | rdb; reflexivity]].
Ltac open_message := rewrite (bind_run _ _ _ _ _ (filled_run _ _ _ (wire_message_filled _ _))); repeat read_field.

Section Decode.
Context {host : Host} {W : Type} `{Messaging W}.
Implicit Types (app : application) (w : W) (x : message).

Lemma non_empty_bodies {B} (k : option bytes -> res B) m off n pre post xid x : m = wire_message xid x -> wire_body x = pre ++ post ->
  off = 8 + blen pre -> n = blen post -> bind (body_from m off n) k = k (non_empty post).
Proof. intros -> Hb Ho Hn. by rewrite (body_from_message xid x off pre post n Hb Ho Hn). Qed.

Lemma ports_read (ports : list ofp_phy_port) P r off : Forall wf_phy_port ports -> off = blen P ->
  ntoh_phy_ports (length ports) (P ++ wire_array ports ++ r) off = Ok ports.
Proof.
  intros Hp. revert P off. induction Hp as [| p ports Hp Hps IH]; intros P off ->; [done |]. cbn [length ntoh_phy_ports]. unfold wire_array. cbn [map concat].
  fold (wire_array ports). rewrite <- (app_assoc (ws_wire p)). fold_ws ofp_phy_port. rewrite ws_ld_at by done. bind_ok.
  rewrite (app_assoc P). rewrite IH by (rewrite blen_app, (blen_ws_wire p) by done; cbn; lia). bind_ok. by rewrite ws_ntoh_ntoh.
Qed.

Lemma blen_wire_array_of {A} `{WireStructOk A} (l : list A) : Forall ws_wf l -> blen (wire_array l) = Z.of_nat ws_size * Z.of_nat (length l).
Proof.
  induction 1 as [| a l Ha _ IH]; [unfold wire_array, blen; cbn; lia |]. unfold wire_array in *. cbn [map concat]. rewrite blen_app, IH, (blen_ws_wire a) by done.
  cbn [length]. lia.
Qed.

Section Kinds.
Context (xid dpid : Z) (x : message) (Hx : valid_message x) (Hr : ranged x) (Hxid : fits 4 xid) (app : application) (w : W).

Definition handled (h : Z -> option bytes -> StateMonad.M (S := application * W) unit) : Prop :=
  h dpid (Some (wire_message xid x)) (app, w) = Ok (tt, (log_calls app (notified app dpid (expected xid x)), w)).

Lemma error_handled : match x with Error _ _ _ => handled handle_error | _ => True end.
Proof.
  destruct Hx as [Hv Hl]. unfold handled. destruct x; try done.
  destruct Hr as [Ht Hc]. unfold handle_error. open_message.
  rewrite (bind_run (lift _) _ _ data (app, w)); [by apply call_handler_run |].
  apply lift_run, (remove_front_body _ _ _ (be_encode 2 type ++ be_encode 2 code)); [by rewrite <- app_assoc | len].
Qed.

Lemma echo_handled : match x with EchoReply _ => handled handle_echo_reply | _ => True end.
Proof.
  destruct Hx as [Hv Hl]. unfold handled. destruct x; try done. unfold handle_echo_reply. open_message. apply call_handler_run. intros _.
  pose proof Hl as Hl'. lengths Hl'. rewrite u16_small by (unfold message_length; cbn [wire_body]; lia).
  by rewrite (non_empty_bodies _ _ _ _ [] body xid (EchoReply body) eq_refl) by (done || unfold message_length; cbn [wire_body]; lia).
Qed.

Lemma vendor_handled : match x with VendorMessage _ _ => handled handle_vendor | _ => True end.
Proof.
  destruct Hx as [Hv Hl]. unfold handled. destruct x as [| | | | v data | | | | | | | | | | | | | | | | | | | | | | | | | |]; try done. cbn in Hr.
  unfold handle_vendor. open_message. apply call_handler_run. intros _.
  pose proof Hl as Hl'. lengths Hl'. rewrite u16_small by (unfold message_length; cbn [wire_body]; len).
  by rewrite (non_empty_bodies _ _ _ _ (be_encode 4 v) data xid (VendorMessage v data) eq_refl) by (done || unfold message_length; cbn [wire_body]; len).
Qed.

Lemma features_handled : match x with FeaturesReply _ _ _ _ _ _ => handled handle_features_reply | _ => True end.
Proof.
  pose proof (valid_message_wf _ Hx) as [Hwf _]. destruct Hx as [Hv Hl]. unfold handled. destruct x; try done. destruct Hv as [Ht _]. destruct Hr as (Hb & Hc & Ha).
  cbn [wf_args] in Hwf. assert (Hn : fits 1 n_tables) by (unfold fits; cbn; lia). unfold handle_features_reply. open_message.
  assert (Hports : blen (wire_array ports) = 48 * Z.of_nat (length ports)) by by rewrite (blen_wire_array_of (A := ofp_phy_port)).
  assert (Elen : message_length (FeaturesReply datapath_id n_buffers n_tables capabilities actions ports) = 32 + 48 * Z.of_nat (length ports)).
  { unfold message_length. cbn [wire_body]. rewrite !blen_app, Hports. len. }
  rewrite Elen in *. rewrite u16_small by lia. replace (32 + 48 * Z.of_nat (length ports) - 32) with (Z.of_nat (length ports) * 48) by lia.
  rewrite Z.div_mul by done. rewrite Nat2Z.id. rewrite (bind_run (lift _) _ _ ports (app, w)); [by apply call_handler_run |]. apply lift_run.
  unfold wire_message. cbn [wire_body]. rewrite !app_assoc, <- (app_nil_r (wire_array ports)). apply ports_read; [done |].
  rewrite !blen_app, blen_wire_header. len.
Qed.

Lemma config_handled : match x with GetConfigReply _ _ => handled handle_get_config_reply | _ => True end.
Proof.
  destruct Hx as [Hv Hl]. unfold handled. destruct x; try done. cbn in Hr, Hv. assert (fits 2 flags) by (unfold fits, OFPC_FRAG_MASK in *; cbn; lia).
  unfold handle_get_config_reply. open_message. by apply call_handler_run.
Qed.

Lemma packet_in_handled : match x with PacketIn _ _ _ _ _ => handled handle_packet_in | _ => True end.
Proof.
  destruct Hx as [Hv Hl]. unfold handled. destruct x; try done. destruct Hr as (Hb & Ht & Hparse). destruct Hv as [Hp Hre]. fits_port Hp.
  assert (fits 1 reason) by (unfold fits, OFPR_ACTION in *; cbn; lia). unfold handle_packet_in. open_message. apply call_handler_run. intros _.
  pose proof Hl as Hl'. lengths Hl'. rewrite u16_small by (unfold message_length; cbn [wire_body]; len).
  rewrite (non_empty_bodies _ _ _ _ (be_encode 4 buffer_id ++ be_encode 2 total_len ++ be_encode 2 in_port ++ be_encode 1 reason ++ zeros 1) data xid
    (PacketIn buffer_id total_len in_port reason data) eq_refl); [| cbn [wire_body]; by rewrite <- !app_assoc | len | unfold message_length; cbn [wire_body]; len].
  unfold parsed. destruct data as [| b data]; [done |]. destruct Hparse as [? | [info Hi]]; [done |]. cbn [non_empty bind]. by rewrite Hi.
Qed.

Lemma flow_removed_handled : match x with FlowRemoved _ _ _ _ _ _ _ _ _ => handled handle_flow_removed | _ => True end.
Proof.
  destruct Hx as [Hv Hl]. unfold handled. destruct x; try done. destruct Hr as (Hc & H1 & H2 & H3 & H4 & H5). destruct Hv as ([Hm _ _ _ _] & [Hp _] & Hre).
  assert (fits 1 reason) by (unfold fits, OFPRR_DELETE in *; cbn; lia). unfold handle_flow_removed. fold_structs. size_structs. open_message.
  rewrite ws_ntoh_ntoh by done. by apply call_handler_run.
Qed.

Lemma port_status_handled : match x with PortStatus _ _ => handled handle_port_status | _ => True end.
Proof.
  destruct Hx as [Hv Hl]. unfold handled. destruct x; try done. destruct Hv as (Hre & [Hp _ _ _ _ _ _ _]).
  assert (fits 1 reason) by (unfold fits, OFPPR_MODIFY in *; cbn; lia).
  assert (Hd : ws_ld (A := ofp_phy_port) (wire_message xid (PortStatus reason desc)) 16 = Ok (ws_ntoh desc)).
  { rewrite (ws_ld_body _ _ (A := ofp_phy_port)) by lia. cbn [wire_body]. fold_structs. rewrite <- (app_nil_r (ws_wire desc)), app_assoc. apply ws_ld_at; [len | done]. }
  unfold handle_port_status. rewrite (bind_run _ _ _ _ _ (filled_run _ _ _ (wire_message_filled _ _))). do 2 read_field. fold_structs.
  rewrite (bind_run _ _ _ _ _ (lift_run _ _ _ Hd)). rewrite ws_ntoh_ntoh by done. by apply call_handler_run.
Qed.

Lemma barrier_handled : match x with BarrierReply => handled handle_barrier_reply | _ => True end.
Proof.
  destruct Hx as [Hv Hl]. unfold handled. destruct x; try done. unfold handle_barrier_reply. open_message. by apply call_handler_run.
Qed.
End Kinds.

(** ** Statistics *)

Lemma stats_loop_ok {A} `{WireStructOk A} (l : list A) P Q fuel k : Forall ws_wf l -> blen P = blen Q -> (0 < ws_size)%nat ->
  k = (ws_size * length l)%nat -> Z.of_nat k < 2 ^ 16 -> (length l < fuel)%nat ->
  ntoh_stats_loop ws_ld ws_st ws_ntoh (Z.of_nat ws_size) fuel (Z.of_nat k) (P ++ zeros k) (Q ++ wire_array l) (blen Q) = Ok (P ++ host_array l).
Proof.
  intros Hl. revert P Q fuel k. induction Hl as [| a l Ha Hl IH]; intros P Q fuel k HPQ Hsize -> Hmax Hfuel; (destruct fuel as [| fuel]; [cbn in Hfuel; lia |]); cbn [ntoh_stats_loop length].
  { rewrite Nat.mul_0_r. cbn. by rewrite !app_nil_r. }
  cbn [length] in Hmax, Hfuel. rewrite (proj2 (Z.ltb_lt _ _)) by lia. unfold wire_array. cbn [map concat]. fold (wire_array l).
  rewrite ws_ld_at by done. bind_ok. rewrite ws_st_zeros by (lia || by apply ws_wf_ntoh). bind_ok.
  rewrite u16_small by lia. rewrite app_assoc.
  replace (Z.of_nat (ws_size * S (length l)) - Z.of_nat ws_size) with (Z.of_nat (ws_size * S (length l) - ws_size)) by lia.
  pose proof (blen_ws_wire a Ha) as Hwire. pose proof (ws_host_length a Ha) as Hhost.
  replace (blen Q + Z.of_nat ws_size) with (blen (Q ++ ws_wire a)) by (rewrite blen_app; lia).
  rewrite (IH (P ++ ws_wire (ws_ntoh a)) (Q ++ ws_wire a) fuel _); [| | done | lia | lia | lia].
  - unfold host_array. cbn [map concat]. by rewrite <- app_assoc.
  - rewrite !blen_app, HPQ. unfold ws_host in Hhost. unfold blen in *. lia.
Qed.

Lemma stats_array_ok {A} `{WireStructOk A} (l : list A) fuel n : Forall ws_wf l -> (0 < ws_size)%nat -> n = blen (wire_array l) -> n < 2 ^ 16 -> (Z.to_nat n < fuel)%nat ->
  ntoh_stats_loop ws_ld ws_st ws_ntoh (Z.of_nat ws_size) fuel n (zeros (Z.to_nat n)) (wire_array l) 0 = Ok (host_array l).
Proof.
  intros Hl Hsize -> Hmax Hfuel. rewrite blen_wire_array_of in * by done.
  replace (Z.of_nat ws_size * Z.of_nat (length l)) with (Z.of_nat (ws_size * length l)) in * by lia. rewrite Nat2Z.id in *.
  change (zeros _) with ([] ++ zeros (ws_size * length l)). change (wire_array l) with ([] ++ wire_array l). change 0 with (blen []) at 1.
  rewrite (stats_loop_ok l [] []) by (done || nia). done.
Qed.

(** Nothing on the wire, nothing in memory. *)
Lemma non_empty_arrays {A} `{WireStructOk A} (l : list A) : Forall ws_wf l -> (0 < ws_size)%nat ->
  non_empty (wire_array l) = None /\ non_empty (host_array l) = None \/
  non_empty (wire_array l) = Some (wire_array l) /\ non_empty (host_array l) = Some (host_array l).
Proof.
  intros Hl Hsize. destruct Hl as [| a l Ha Hl]; [by left |]. right. unfold wire_array, host_array. cbn [map concat].
  pose proof (ws_length a Ha). pose proof (ws_host_length a Ha). destruct (ws_wire a); [cbn in *; lia |]. by destruct (ws_host a); [cbn in *; lia |].
Qed.

Section StatsKinds.
Context (xid dpid : Z) (x : message) (Hx : valid_message x) (Hr : ranged x) (Hxid : fits 4 xid) (app : application) (w : W).

Lemma stats_run type flags body args : fits 2 type -> fits 2 flags -> wire_body x = wire_stats type flags ++ body ->
  (let* body_h := match non_empty body with Some b => let* b := stats_body type (blen body) b in Ok (Some b) | None => Ok None end in
   Ok (StatsArguments xid type flags body_h)) = Ok args ->
  handle_stats_reply dpid (Some (wire_message xid x)) (app, w) = Ok (tt, (log_calls app (notified app dpid (Some (stats_reply, args))), w)).
Proof.
  destruct Hx as [_ Hl]. intros Ht Hf Hb Hargs. unfold handle_stats_reply.
  assert (Hlt : blen (wire_stats type flags) = 4) by (unfold wire_stats; len).
  assert (Et : ld_ntoh 2 (wire_message xid x) 8 = Ok type) by (rewrite ld_ntoh_body, Hb by lia; unfold wire_stats; rewrite <- app_assoc; by rd).
  assert (Ef : ld_ntoh 2 (wire_message xid x) 10 = Ok flags) by (rewrite ld_ntoh_body, Hb by lia; unfold wire_stats; rewrite <- app_assoc; by rd).
  rewrite (bind_run _ _ _ _ _ (filled_run _ _ _ (wire_message_filled _ _))). read_field.
  rewrite (bind_run _ _ _ _ _ (lift_run _ _ _ Et)), (bind_run _ _ _ _ _ (lift_run _ _ _ Ef)). read_field. apply call_handler_run. intros _.
  assert (Elen : message_length x = 12 + blen body) by (unfold message_length; rewrite Hb, blen_app, Hlt; lia).
  pose proof (blen_nonneg body). rewrite Elen in *. rewrite u16_small by lia. replace (12 + blen body - 12) with (blen body) by lia.
  by rewrite (non_empty_bodies _ _ _ _ (wire_stats type flags) body xid x eq_refl Hb) by (rewrite ?Hlt; lia).
Qed.

(** A reply that is an array of structures. *)
Lemma stats_array_run {A} `{WireStructOk A} (l : list A) type flags : fits 2 type -> fits 2 flags -> wire_body x = wire_stats type flags ++ wire_array l ->
  Forall ws_wf l -> (0 < ws_size)%nat ->
  (forall n body, stats_body type n body = ntoh_stats_loop ws_ld ws_st ws_ntoh (Z.of_nat ws_size) (S (Z.to_nat n)) n (zeros (Z.to_nat n)) body 0) ->
  handle_stats_reply dpid (Some (wire_message xid x)) (app, w)
    = Ok (tt, (log_calls app (notified app dpid (Some (stats_reply, StatsArguments xid type flags (non_empty (host_array l))))), w)).
Proof.
  intros Ht Hf Hb Hl Hsize Hbody. apply (stats_run type flags (wire_array l)); try done.
  assert (Hmax : blen (wire_array l) < 2 ^ 16).
  { destruct Hx as [_ Hmax]. unfold message_length in Hmax. rewrite Hb, blen_app in Hmax. pose proof (blen_nonneg (wire_stats type flags)). lia. }
  destruct (non_empty_arrays l Hl Hsize) as [[-> ->] | [-> ->]]; [done |]. rewrite Hbody, (stats_array_ok l) by (done || lia). done.
Qed.

End StatsKinds.

Lemma stats_handled xid dpid x app w : valid_message x -> ranged x -> fits 4 xid ->
  match x with
  | AggregateStatsReply _ _ _ _ | TableStatsReply _ _ | PortStatsReply _ _ | QueueStatsReply _ _ | VendorStatsReply _ _ _ =>
    handled xid dpid x app w handle_stats_reply
  | _ => True
  end.
Proof.
  intros Hx Hr Hxid. pose proof (valid_message_wf _ Hx) as [Hwf _]. pose proof Hx as [Hv Hl]. unfold handled. destruct x eqn:Ex; try done; cbn in Hr, Hv, Hwf; rewrite <- Ex in *.
  - destruct Hr as (H1 & H2 & H3). subst flags.
    set (a := Build_ofp_aggregate_stats_reply packet_count byte_count flow_count).
    assert (Ha : ws_wf a) by (by split). assert (Ew : wire_body x = wire_stats OFPST_AGGREGATE 0 ++ ws_wire a) by (rewrite Ex; done).
    rewrite (stats_run xid dpid x Hx Hxid app w OFPST_AGGREGATE 0 (ws_wire a) (StatsArguments xid OFPST_AGGREGATE 0 (Some (ws_host a))) ltac:(done) ltac:(done) Ew); [by rewrite Ex |].
    assert (Hne : non_empty (ws_wire a) = Some (ws_wire a)) by (pose proof (ws_length a Ha); by destruct (ws_wire a)).
    rewrite Hne. assert (Es : stats_body OFPST_AGGREGATE (blen (ws_wire a)) (ws_wire a) = Ok (ws_host a)); [| by rewrite Es].
    unfold stats_body. select_type. rewrite (blen_ws_wire a Ha). fold_ws ofp_aggregate_stats_reply.
    pose proof (ws_convert_wire a [] ws_size [] [] 0 0 Ha eq_refl ltac:(done) eq_refl eq_refl) as E. rewrite app_nil_r, Nat.sub_diag, app_nil_r in E. exact E.
  - rewrite (stats_array_run xid dpid x Hx Hxid app w tables OFPST_TABLE flags); try done; [by rewrite Ex | unfold fits; cbn; lia | by rewrite Ex | cbn; lia].
  - rewrite (stats_array_run xid dpid x Hx Hxid app w ports OFPST_PORT flags); try done; [by rewrite Ex | unfold fits; cbn; lia | by rewrite Ex | cbn; lia].
  - rewrite (stats_array_run xid dpid x Hx Hxid app w queues OFPST_QUEUE flags); try done; [by rewrite Ex | unfold fits; cbn; lia | by rewrite Ex | cbn; lia].
  - assert (Ew : wire_body x = wire_stats OFPST_VENDOR flags ++ be_encode 4 vendor ++ body) by (rewrite Ex; done).
    rewrite (stats_run xid dpid x Hx Hxid app w OFPST_VENDOR flags (be_encode 4 vendor ++ body) (StatsArguments xid OFPST_VENDOR flags (Some (host_encode 4 vendor ++ body)))
      ltac:(done) ltac:(unfold fits; cbn; lia) Ew); [by rewrite Ex |].
    assert (Hne : non_empty (be_encode 4 vendor ++ body) = Some (be_encode 4 vendor ++ body)) by (pose proof (length_be_encode 4 vendor); by destruct (be_encode 4 vendor)).
    rewrite Hne. unfold stats_body. select_type. rewrite ld_range_all by done. bind_ok. rewrite ld_ntoh_wire by done. bind_ok.
    unfold st. change (be_encode 4 vendor ++ body) with ([] ++ be_encode 4 vendor ++ body). rewrite st_bytes_middle by (rewrite ?length_be_encode, ?length_host_encode; done).
    done.
Qed.
End Decode.

(** * The counters *)

(** What is relied on: a counter whose name has room in its entry can be
    incremented. *)
Class MessagingLaws (W : Type) `{Messaging W} (ok : W -> Prop) : Prop :=
  increment_stat_runs k w : ok w -> blen (c_string k) < STAT_KEY_LENGTH -> exists w', increment_stat k w = Ok (tt, w') /\ ok w'.

(** ** messenger.c, stat.c and openflow_message.c as the implementation *)

Record framework (V : Type) : Type := Framework {
  fw_messenger : messenger;
  fw_stats : stat_state;
  fw_counters : TransactionId.counters;
  fw_world : V
}.
#[global] Arguments Framework {V}.
#[global] Arguments fw_messenger {V}.
#[global] Arguments fw_stats {V}.
#[global] Arguments fw_counters {V}.
#[global] Arguments fw_world {V}.

Section Framework.
Context {host : Host} {V : Type} `{System V}.

Definition on_messenger {A} (x : StateMonad.M (S := messenger * V) A) : StateMonad.M (S := framework V) A := fun w =>
  let* (a, s) := x (fw_messenger w, fw_world w) in
  Ok (a, Framework s.1 (fw_stats w) (fw_counters w) s.2).

(** The name and the process id of the application; who [handle_message] and
    [handle_list_switches_reply] are to the messenger. *)
Context (trema_name : bytes) (pid handle_message_function handle_list_switches_reply_function : Z).

Definition framework_messaging : Messaging (framework V) := {|
  get_trema_name := ret trema_name;
  init_openflow_message := fun w => Ok (true, Framework (fw_messenger w) (fw_stats w) (TransactionId.init_openflow_message pid) (fw_world w));
  add_message_received_callback name := on_messenger (Messenger.add_message_received_callback name handle_message_function);
  add_message_replied_callback name := on_messenger (Messenger.add_message_replied_callback name handle_list_switches_reply_function);
  delete_message_received_callback name := on_messenger (Messenger.delete_message_received_callback name handle_message_function);
  delete_message_replied_callback name := on_messenger (Messenger.delete_message_replied_callback name handle_list_switches_reply_function);
  clear_send_queue name := on_messenger (Messenger.clear_send_queue name);
  send_message name tag data := on_messenger (Messenger.send_message name tag data);
  send_request_message to from tag data user_data := on_messenger (Messenger.send_request_message to from tag data user_data);
  increment_stat key := fun w => let* st := Stat.increment_stat (fw_stats w) key in Ok (tt, Framework (fw_messenger w) st (fw_counters w) (fw_world w))
|}.

Definition counting (w : framework V) : Prop := exists m t, rep (fw_stats w) m t.

(** Once [init_stat] has run the counters are there to stay. *)
#[export] Instance framework_laws : @MessagingLaws (framework V) framework_messaging counting.
Proof.
  intros k w (m & t & Hr) Hk. destruct (increment_ok _ _ _ k Hr Hk) as (st & t' & E & Hr'). cbn. rewrite E. eexists. split; [reflexivity |]. by eexists _, _.
Qed.
End Framework.

Lemma c_string_short l : blen (c_string l) <= blen l.
Proof. induction l as [| b l IH]; [done |]. cbn [c_string]. destruct (decide (b = zero)); unfold blen in *; cbn [length] in *; lia. Qed.

Lemma stat_key_short name d r : blen (c_string (stat_key name d r)) < STAT_KEY_LENGTH.
Proof.
  eapply Z.le_lt_trans; [apply c_string_short |]. unfold stat_key, blen, STAT_KEY_LENGTH. rewrite length_take. lia.
Qed.

(** * Messages of a switch *)

Section Received.
Context {host : Host} {W : Type} `{MessagingLaws W ok}.
Implicit Types (app : application) (w : W) (x : message).

Lemma count_received type app w : ok w -> exists w', update_openflow_stats type OPENFLOW_MESSAGE_RECEIVE true (app, w) = Ok (tt, (app, w')) /\ ok w'.
Proof.
  intros Hw. destruct (increment_stat_runs _ w Hw (stat_key_short (openflow_name type) OPENFLOW_MESSAGE_RECEIVE true)) as (w' & E & Hw').
  exists w'. unfold update_openflow_stats, ext. cbn [fst snd]. by rewrite E.
Qed.

Lemma log_calls_nil app : log_calls app [] = app.
Proof. destruct app. unfold log_calls. cbn. by rewrite app_nil_r. Qed.

(** The handler of the type of the message; no handler, no call. *)
Lemma dispatched xid dpid x app w : valid_message x -> ranged x -> fits 4 xid ->
  dispatch (message_type x) dpid (Some (wire_message xid x)) (app, w) = Ok (tt, (log_calls app (notified app dpid (expected xid x)), w)).
Proof.
  intros Hx Hr Hxid. pose proof (error_handled xid dpid x Hx Hr Hxid app w). pose proof (echo_handled xid dpid x Hx Hr Hxid app w).
  pose proof (vendor_handled xid dpid x Hx Hr Hxid app w). pose proof (features_handled xid dpid x Hx Hr Hxid app w).
  pose proof (config_handled xid dpid x Hx Hr Hxid app w). pose proof (packet_in_handled xid dpid x Hx Hr Hxid app w).
  pose proof (flow_removed_handled xid dpid x Hx Hr Hxid app w). pose proof (port_status_handled xid dpid x Hx Hr Hxid app w).
  pose proof (barrier_handled xid dpid x Hx Hr Hxid app w). pose proof (stats_handled xid dpid x app w Hx Hr Hxid).
  unfold handled in *. destruct x; first [assumption | cbn [expected notified]; rewrite log_calls_nil; reflexivity].
Qed.

(** C7. What a switch says reaches the application. Every message that the
    library's constructors make from valid arguments with a parsable frame is,
    once the daemon of the switch has put its header before it, given to the
    handler that the application has set for its type, called exactly once with
    the datapath id, the transaction id and the arguments that the message was
    made from, an empty body being NULL; when no handler is set, or the type is
    not one that has handlers, nothing is called. *)
Theorem switch_message_reaches_handler xid dpid x app w :
  valid_message x -> ranged x -> fits 4 xid -> fits 8 dpid -> ok w ->
  exists m w', create_message xid x = Ok m /\
    handle_message MESSENGER_OPENFLOW_MESSAGE (OfpMsgSend.create_openflow_application_message (Some dpid) (Some m)) (app, w)
      = Ok (tt, (log_calls app (notified app dpid (expected xid x)), w')) /\ ok w'.
Proof.
  intros Hx Hr Hxid Hd Hw. destruct (count_received (message_type x) (log_calls app (notified app dpid (expected xid x))) w Hw) as (w' & Ec & Hw').
  exists (wire_message xid x), w'. split; [by apply create_message_wire, valid_message_wf |]. split; [| done].
  pose proof (proj2 Hx) as Hl. set (m := wire_message xid x). set (buf := be_encode 8 dpid ++ be_encode 2 0 ++ m).
  assert (OfpMsgSend.create_openflow_application_message (Some dpid) (Some m) = buf) as ->.
  { unfold OfpMsgSend.create_openflow_application_message, htonll, htons. by rewrite !host_encode_hton. }
  assert (Hm : blen m = message_length x) by apply blen_wire_message. assert (Hm8 : 8 <= message_length x) by (unfold message_length; pose proof (blen_nonneg (wire_body x)); lia).
  assert (Hb : blen buf = 10 + message_length x) by (unfold buf; rewrite !blen_app, !blen_be_encode, Hm; lia).
  assert (Ed : ld_ntoh 8 buf 0 = Ok dpid) by (unfold buf; by rd).
  assert (Em : remove_front buf sizeof_openflow_service_header = Ok m).
  { unfold remove_front. rewrite Hb. unfold assert, sizeof_openflow_service_header. rewrite (proj2 (Z.leb_le _ _)) by lia. cbn. f_equal. }
  unfold handle_message. rewrite Hb, (bind_run (lift _) _ _ tt (app, w)) by (unfold assert, sizeof_openflow_service_header; rewrite (proj2 (Z.leb_le _ _)) by lia; done).
  change (MESSENGER_OPENFLOW_MESSAGE =? MESSENGER_OPENFLOW_MESSAGE) with true. cbv iota. unfold handle_openflow_message.
  rewrite Hb, (bind_run (lift _) _ _ tt (app, w)) by (unfold assert, sizeof_openflow_service_header, sizeof_ofp_header; rewrite (proj2 (Z.leb_le _ _)) by lia; done).
  rewrite (bind_run _ _ _ _ _ (lift_run _ _ _ Ed)), (bind_run _ _ _ _ _ (lift_run _ _ _ Em)), (bind_run _ _ _ _ _ (lift_run _ _ _ (accept_valid xid x Hx))).
  change (0 <? 0) with false. cbv iota. rewrite (bind_run _ _ _ _ _ (lift_run _ _ _ (ld_type xid x Hl))), (bind_run _ _ _ _ _ (dispatched xid dpid x app w Hx Hr Hxid)).
  exact Ec.
Qed.
End Received.

(** * The list of the switches *)

(** The decoder keeps what it has sorted. *)
Lemma insert_dpid_perm l d : insert_dpid l d ≡ₚ d :: l.
Proof. induction l as [| x l IH]; [done |]. cbn [insert_dpid]. destruct (d <=? x); [done |]. eapply Permutation_trans; [by apply perm_skip | apply perm_swap]. Qed.

Lemma insert_dpid_sorted l d : StronglySorted Z.le l -> StronglySorted Z.le (insert_dpid l d).
Proof.
  induction 1 as [| x l Hl IH Hx]; [repeat constructor |]. cbn [insert_dpid]. destruct (d <=? x) eqn:E.
  - apply Z.leb_le in E. repeat (constructor; try done). eapply Forall_impl; [exact Hx |]. cbn. lia.
  - apply Z.leb_gt in E. constructor; [done |]. eapply Permutation_Forall; [symmetry; apply insert_dpid_perm |]. constructor; [lia | done].
Qed.

Section Switches.
Context {host : Host} {W : Type} `{Messaging W}.
Implicit Types (app : application) (w : W) (dpids : list Z).

(** The reply of the switch manager. *)
Definition switches_reply dpids : bytes := concat (map (be_encode 8) dpids).

Lemma blen_switches_reply dpids : blen (switches_reply dpids) = 8 * Z.of_nat (length dpids).
Proof.
  induction dpids as [| d dpids IH]; [done |]. unfold switches_reply in *. cbn [map concat length]. rewrite blen_app, IH, blen_be_encode. lia.
Qed.

Lemma insert_dpids_ok dpids P l : Forall (fits 8) dpids -> StronglySorted Z.le l ->
  exists l', insert_dpids (length dpids) (switches_reply P ++ switches_reply dpids) (Z.of_nat (length P)) l = Ok l' /\
    StronglySorted Z.le l' /\ l' ≡ₚ dpids ++ l.
Proof.
  intros Hd. revert P l. induction Hd as [| d dpids Hd Hds IH]; intros P l Hl; cbn [length insert_dpids]; [by exists l |].
  replace (switches_reply (d :: dpids)) with (be_encode 8 d ++ switches_reply dpids) by done.
  rewrite ld_ntoh_skip, ld_ntoh_wire by (rewrite ?blen_switches_reply; done || lia). bind_ok.
  destruct (IH (P ++ [d]) (insert_dpid l d)) as (l' & E & Hs & Hp); [by apply insert_dpid_sorted |].
  exists l'. split_and!; [| done |].
  - rewrite <- E. f_equal; [| rewrite length_app; cbn; lia]. unfold switches_reply. rewrite map_app, concat_app. cbn [map concat]. by rewrite app_nil_r, <- app_assoc.
  - eapply Permutation_trans; [exact Hp |]. eapply Permutation_trans; [apply Permutation_app_head, insert_dpid_perm |]. symmetry. apply Permutation_middle.
Qed.

(** The list of the switches that an application gets is the list in the
    reply of the switch manager, sorted, with as many occurrences of each: the
    handler is called with it once, with the data of the request. *)
Theorem list_switches_sorted dpids function user_data app w :
  Forall (fits 8) dpids -> callback (event_handlers app list_switches_reply) = Some function ->
  exists switches, StronglySorted Z.le switches /\ switches ≡ₚ dpids /\
    handle_list_switches_reply (switches_reply dpids) user_data (app, w)
      = Ok (tt, (log_calls app [ListSwitchesCall function switches user_data], w)).
Proof.
  intros Hd Hf. destruct (insert_dpids_ok dpids [] [] Hd) as (l & E & Hs & Hp); [constructor |]. exists l. rewrite app_nil_r in Hp. split_and!; [done | done |].
  unfold handle_list_switches_reply. rewrite (bind_run (get _) _ (app, w) (event_handlers app) (app, w)) by done. rewrite Hf.
  rewrite blen_switches_reply, Z.mul_comm, Z.div_mul, Nat2Z.id by done. by rewrite (bind_run _ _ _ _ _ (lift_run _ _ _ E)).
Qed.
End Switches.

(** * Witnesses *)

Section Witnesses.
Let host : Host := LittleEndian.
#[local] Existing Instance host.
#[local] Existing Instance Delivery.sample_system.

(** An application called "a" with handlers for packets and for switches. *)
Definition sample_application : application :=
  Application true (fun e => Handler false (if decide (e = packet_in) then Some 1 else if decide (e = list_switches_reply) then Some 2 else None) 9)
    [Byte.x61] [].

Definition sample_framework : framework unit :=
  Framework zero_messenger (StatState (Some create_hash) ∅) (TransactionId.Counters 0 0) tt.

#[local] Instance sample_messaging : Messaging (framework unit) := framework_messaging [Byte.x61] 4097 1 2.

Lemma sample_framework_counts : counting sample_framework.
Proof. destruct (create_rep ∅ eq_refl) as (st & E & H). injection E as <-. by exists ∅, create_hash. Qed.

(** A packet without data. *)
Definition sample_packet_in : message := PacketIn 258 64 3 0 [].

Lemma switch_message_reaches_handler_witness : valid_message sample_packet_in /\ ranged sample_packet_in /\
  exists m w', create_message 7 sample_packet_in = Ok m /\
    handle_message MESSENGER_OPENFLOW_MESSAGE (OfpMsgSend.create_openflow_application_message (Some 171) (Some m)) (sample_application, sample_framework)
      = Ok (tt, (Application true (event_handlers sample_application) [Byte.x61]
          [EventCall packet_in 1 false 171 (PacketInArguments 7 258 64 3 0 None) 9], w')) /\ counting w'.
Proof.
  assert (Hv : valid_message sample_packet_in) by (split; [split; [by left | done] | done]).
  assert (Hr : ranged sample_packet_in) by (split; [done | split; [done | by left]]).
  split; [exact Hv | split; [exact Hr |]].
  exact (switch_message_reaches_handler (ok := counting) 7 171 sample_packet_in sample_application sample_framework Hv Hr ltac:(done) ltac:(done) sample_framework_counts).
Defined.

Lemma list_switches_sorted_witness : Forall (fits 8) [3; 1; 2] /\
  exists switches, StronglySorted Z.le switches /\ switches ≡ₚ [3; 1; 2] /\
    handle_list_switches_reply (switches_reply [3; 1; 2]) 5 (sample_application, sample_framework)
      = Ok (tt, (log_calls sample_application [ListSwitchesCall 2 switches 5], sample_framework)).
Proof.
  assert (H : Forall (fits 8) [3; 1; 2]) by (repeat (apply Forall_cons_2; [done |]); apply Forall_nil_2).
  split; [exact H | exact (list_switches_sorted [3; 1; 2] 2 5 sample_application sample_framework H eq_refl)].
Defined.
End Witnesses.
