(* ===== verification/Applications.v ===== *)
(** From an application to the daemon of a switch: what
    openflow_application_interface.c sends is what switch.c takes apart, and the
    service it is sent to is the one that the daemon takes its name from. *)

From Stdlib Require Import ZArith Lia Bool String.
From coqutil Require Import Byte.
From stdpp Require Import base list gmap.
From S2P Require Import Prelude Memory StateMonad OpenFlow Codes ByteOrder HashTable Actions Validate Create Roundtrip Accept Utility Stat Messenger Delivery SwitchInfo OfpMsgSend Switch Daemon Evolution Transactions ApplicationInterface ApplicationMessages.

(** * The name of the daemon *)

Lemma length_hex_digits fuel n digits : (length (hex_digits fuel n digits) <= fuel + length digits)%nat.
Proof.
  revert n digits. induction fuel as [| fuel IH]; intros n digits; cbn [hex_digits]; [lia |]. destruct (n =? 0); [lia |].
  specialize (IH (n / 16) (hex_digit (n mod 16) :: digits)). cbn [length] in IH. lia.
Qed.

(** The two buffers are of different sizes; the name fits both. *)
Lemma remote_service_name_new dpid : remote_service_name dpid = new_service_name dpid.
Proof.
  unfold remote_service_name, new_service_name. assert (H : (length (print_hex dpid) <= 18)%nat).
  { unfold print_hex. destruct (dpid =? 0); [cbn; lia |]. rewrite length_app. pose proof (length_hex_digits 16 dpid []). cbn in *. lia. }
  replace (str "switch."%string) with SWITCH_MANAGER_PREFIX by reflexivity.
  assert (Hl : (length (SWITCH_MANAGER_PREFIX ++ print_hex dpid) <= 25)%nat) by (rewrite length_app; change (length SWITCH_MANAGER_PREFIX) with 7%nat; lia).
  change (Z.to_nat (ApplicationInterface.MESSENGER_SERVICE_NAME_LENGTH - 1)) with 31%nat. rewrite !take_ge by lia. done.
Qed.

Section Sent.
Context {host : Host} {W : Type} `{MessagingLaws W ok}.
Implicit Types (app : application) (w : W) (x : message) (sw : switch_info).

Lemma service_header_wire dpid name buf : fits 2 (blen name + 1) ->
  service_header dpid name ++ buf = application_message dpid name buf.
Proof.
  intros Hn. unfold service_header, application_message, htonll, htons. rewrite u16_small by (unfold fits in Hn; cbn in Hn; lia).
  rewrite !host_encode_hton. by rewrite <- !app_assoc.
Qed.

(** C8. What an application sends is what the daemon of the switch gets. A
    message that the constructors make from valid arguments goes, behind the
    header and the name of the application, to the service whose name the daemon
    of that switch takes when the switch has given its features; the application
    counts it and returns what [send_message] returns. The daemon, given those
    bytes, hands on the message itself, as one of that application. *)
Theorem sent_message_received sw x xid dpid app w b w1 :
  let name := service_name app in
  valid_message x -> fits 8 dpid -> datapath_id sw = dpid -> zero ∉ name -> fits 2 (blen name + 1) ->
  openflow_application_interface_initialized app = true ->
  send_message (new_service_name dpid) MESSENGER_OPENFLOW_MESSAGE (application_message dpid name (wire_message xid x)) w = Ok (b, w1) -> ok w1 ->
  exists m w', create_message xid x = Ok m /\ send_openflow_message dpid (Some m) (app, w) = Ok (b, (app, w')) /\ ok w' /\
    service_recv sw MESSENGER_OPENFLOW_MESSAGE (application_message dpid name m) = (let* (_, sw) := ofpmsg_send sw m name in Ok sw).
Proof.
  intros name Hx Hd Hdp Hz Hn Hi Hsend Hok. exists (wire_message xid x).
  destruct (increment_stat_runs _ w1 Hok (stat_key_short (openflow_name (message_type x)) OPENFLOW_MESSAGE_SEND b)) as (w' & E & Hw').
  exists w'. split; [by apply create_message_wire, valid_message_wf |]. split; [| split; [done |]].
  - unfold send_openflow_message. rewrite (bind_run maybe_init_openflow_application_interface _ (app, w) true (app, w)).
    2: { unfold maybe_init_openflow_application_interface. by rewrite (bind_run _ _ (app, w) true (app, w)) by (unfold openflow_application_interface_is_initialized, get; cbn; by rewrite Hi). }
    rewrite (bind_run assert_initialized _ (app, w) tt (app, w)).
    2: { unfold assert_initialized. rewrite (bind_run _ _ (app, w) true (app, w)) by (unfold openflow_application_interface_is_initialized, get; cbn; by rewrite Hi). done. }
    rewrite (bind_run _ _ _ _ _ (filled_run _ _ (app, w) (wire_message_filled xid x))), (bind_run (get _) _ (app, w) name (app, w)) by done.
    rewrite service_header_wire, remote_service_name_new by done.
    rewrite (bind_run (ext _) _ (app, w) b (app, w1)) by (unfold ext; cbn [fst snd]; by rewrite Hsend).
    rewrite (bind_run _ _ _ _ _ (lift_run _ _ _ (ld_type xid x (proj2 Hx)))).
    rewrite (bind_run _ _ (app, w1) tt (app, w')) by (unfold update_openflow_stats, ext; cbn [fst snd]; by rewrite E). done.
  - apply service_recv_sends; try done. by apply accept_valid.
Qed.
End Sent.

(** * Witness *)

Section Witnesses.
Let host : Host := LittleEndian.
#[local] Existing Instance host.

(** A messenger that keeps what it is given. *)
Definition outbox : Type := list (bytes * Z * bytes).

#[local] Instance outbox_messaging : Messaging outbox := {|
  get_trema_name := ret [Byte.x61];
  init_openflow_message := ret true;
  add_message_received_callback _ := ret true;
  add_message_replied_callback _ := ret true;
  delete_message_received_callback _ := ret true;
  delete_message_replied_callback _ := ret true;
  clear_send_queue _ := ret true;
  send_message name tag data := fun w => Ok (true, w ++ [(name, tag, data)]);
  send_request_message to _ tag data _ := fun w => Ok (true, w ++ [(to, tag, data)]);
  increment_stat _ := ret tt
|}.

#[local] Instance outbox_laws : MessagingLaws outbox (fun _ => True).
Proof. intros k w _ _. by exists w. Qed.

Definition sample_daemon : switch_info := set_datapath_id (init_switch_info false false false [] 5 1 0 (0, (0, 0))) 171.

Definition sample_echo : message := EchoRequest [Byte.x01; Byte.x02].

Lemma sent_message_received_witness : valid_message sample_echo /\
  exists m w', create_message 7 sample_echo = Ok m /\ send_openflow_message 171 (Some m) (sample_application, []) = Ok (true, (sample_application, w')) /\ True /\
    service_recv sample_daemon MESSENGER_OPENFLOW_MESSAGE (application_message 171 [Byte.x61] m)
      = (let* (_, sw) := ofpmsg_send sample_daemon m [Byte.x61] in Ok sw).
Proof.
  assert (H : valid_message sample_echo) by done. split; [exact H |].
  exact (sent_message_received (ok := fun _ => True) sample_daemon sample_echo 7 171 sample_application [] true _ H ltac:(done) eq_refl ltac:(set_solver)
    ltac:(done) eq_refl eq_refl I).
Defined.
End Witnesses.
