(* ===== verification/InPlace.v ===== *)
(** Structures that are converted where they are: openflow_switch_interface.c
    calls the functions of byteorder.c with one pointer for both arguments. *)

From Stdlib Require Import ZArith Lia Bool.
From coqutil Require Import Byte.
From stdpp Require Import base list.
From S2P Require Import Prelude Memory OpenFlow ByteOrder Actions.

(** * Writing over what is there *)

Section Over.
Implicit Types P d : bytes.

Lemma st_bytes_over P d bs off : off = blen P -> (length bs <= length d)%nat -> st_bytes (P ++ d) off bs = Ok ((P ++ bs) ++ drop (length bs) d).
Proof.
  intros -> Hd. unfold st_bytes. pose proof (blen_nonneg P). rewrite blen_app. replace (0 <=? blen P) with true by lia.
  replace (blen P + blen bs <=? blen P + blen d) with true by (unfold blen; lia). cbn [andb]. f_equal. unfold blen. rewrite Nat2Z.id, take_app_length, <- app_assoc. do 2 f_equal.
  rewrite drop_app_ge by lia. f_equal. lia.
Qed.

Context {host : Host}.

Lemma st_ntoh_over n P d x off : off = blen P -> (n <= length d)%nat -> st n (P ++ d) off (ntoh n x) = Ok ((P ++ be_encode n x) ++ drop n d).
Proof. intros Ho Hd. unfold st. rewrite host_encode_hton. rewrite st_bytes_over by (rewrite ?length_be_encode; done). by rewrite length_be_encode. Qed.

Lemma st8_over P d x off : off = blen P -> (1 <= length d)%nat -> st8 (P ++ d) off x = Ok ((P ++ be_encode 1 x) ++ drop 1 d).
Proof. intros Ho Hd. unfold st. rewrite host_encode_1. rewrite st_bytes_over by (rewrite ?length_be_encode; done). by rewrite length_be_encode. Qed.
End Over.

(** A converted structure written over other bytes. *)
Class WireOver (A : Type) `{WireStruct A} : Prop :=
  ws_st_over (x : A) (P d : bytes) off : off = blen P -> (ws_size <= length d)%nat -> ws_wf x -> ws_st (P ++ d) off (ws_ntoh x) = Ok ((P ++ ws_wire x) ++ drop ws_size d).

Ltac over_side := solve [assumption | rewrite ?length_drop, ?length_zeros; len].
Ltac over1 := first [rewrite st8_over by over_side | rewrite st_ntoh_over by over_side | rewrite st_bytes_over by over_side]; bind_ok.
Ltac solve_over :=
  intros x P d off -> Hd Hx; ws_open; cbn in *; autounfold with wire; cbn; repeat over1;
  repeat match goal with H : length ?b = _ |- context [length ?b] => rewrite H end; rewrite ?length_zeros, ?drop_drop, <- ?app_assoc; reflexivity.

Section Instances.
Context {host : Host}.

#[export] Instance match_over : WireOver ofp_match.
Proof. solve_over. Qed.
#[export] Instance action_output_over : WireOver ofp_action_output.
Proof. solve_over. Qed.
#[export] Instance action_vlan_vid_over : WireOver ofp_action_vlan_vid.
Proof. solve_over. Qed.
#[export] Instance action_vlan_pcp_over : WireOver ofp_action_vlan_pcp.
Proof. solve_over. Qed.
#[export] Instance action_header_over : WireOver ofp_action_header.
Proof. solve_over. Qed.
#[export] Instance action_dl_addr_over : WireOver ofp_action_dl_addr.
Proof. solve_over. Qed.
#[export] Instance action_nw_addr_over : WireOver ofp_action_nw_addr.
Proof. solve_over. Qed.
#[export] Instance action_nw_tos_over : WireOver ofp_action_nw_tos.
Proof. solve_over. Qed.
#[export] Instance action_tp_port_over : WireOver ofp_action_tp_port.
Proof. solve_over. Qed.
#[export] Instance action_enqueue_over : WireOver ofp_action_enqueue.
Proof. solve_over. Qed.
#[export] Instance action_vendor_header_over : WireOver ofp_action_vendor_header.
Proof. solve_over. Qed.
End Instances.

(** * Conversions in place *)

Section InPlace.
Context {host : Host}.
Implicit Types (P r : bytes) (a : action).

Lemma ws_convert_over {A} `{WireOver A} `{!WireStructOk A} (x : A) P r off : ws_wf x -> off = blen P ->
  (let* y := ws_ld (P ++ ws_wire x ++ r) off in ws_st (P ++ ws_wire x ++ r) off (ws_ntoh y)) = Ok (P ++ ws_host x ++ r).
Proof.
  intros Hx ->. rewrite ws_ld_at by done. bind_ok. pose proof (ws_length x Hx) as Hl.
  rewrite ws_st_over; [| done | rewrite length_app; lia | by apply ws_wf_ntoh]. rewrite <- app_assoc. by rewrite drop_app_length'.
Qed.

Ltac open_action_in_place :=
  select_type; fold_action; unfold host_action, wire_action, with_struct;
  cbn [action_type action_len] in *; rewrite ?app_nil_r;
  repeat match goal with |- context [ws_wire (ws_ntoh ?x)] => change (ws_wire (ws_ntoh x)) with (ws_host x) end.

Lemma ntoh_vendor_over v body P r off : wf_action (Vendor v body) -> off = blen P ->
  let h := vendor_header v body in
  ntoh_action_vendor (P ++ ws_wire h ++ body ++ r) off (P ++ ws_wire h ++ body ++ r) off = Ok (P ++ ws_host h ++ body ++ r).
Proof.
  intros Hw -> h. pose proof (blen_nonneg body). pose proof (blen_nonneg P). unfold ntoh_action_vendor. fold_action.
  assert (Hwf : ws_wf h) by exact Hw. pose proof (ws_length h Hwf) as Hl. pose proof (ws_host_length h Hwf) as Hlh. cbn [ws_size ws_action_vendor_header] in Hl, Hlh.
  rewrite ws_ld_at by done. bind_ok. replace (ntohs (av_len (ws_ntoh h))) with (8 + blen body).
  2: { symmetry. apply ntoh_involutive, (fits_action_len _ Hw). }
  rewrite (ws_st_over (ws_ntoh h)); [| done | rewrite length_app; cbn [ws_size ws_action_vendor_header]; lia | exact (ws_wf_ntoh h Hwf)]. bind_ok.
  change (ws_wire (ws_ntoh h)) with (ws_host h). rewrite drop_app_length' by done. rewrite (body_length_u64 v body Hw (Z.to_nat (8 + blen body))) by lia. unfold copy_action_vendor_body.
  assert (Hb8 : blen (ws_wire h) = 8 /\ blen (ws_host h) = 8) by (unfold blen; lia). destruct Hb8 as [H8 H8'].
  destruct (0 <? blen body) eqn:E; [| destruct body; [by rewrite <- app_assoc | cbn in E; done]].
  rewrite ld_range_skip, ld_range_skip, ld_range_wire by lia. bind_ok. rewrite st_bytes_over by (rewrite ?blen_app, ?length_app; lia).
  by rewrite drop_app_length, <- !app_assoc.
Qed.

Lemma ntoh_action_over a P r off : wf_action a -> off = blen P -> ntoh_action (P ++ wire_action a ++ r) off (P ++ wire_action a ++ r) off = Ok (P ++ host_action a ++ r).
Proof.
  intros Ha Ho. unfold ntoh_action. rewrite ld_type_wire by done. bind_ok. unfold convert_action. destruct a; cbn [action_type]; open_action_in_place;
    try (apply ws_convert_over; [exact Ha | exact Ho]).
  rewrite <- !app_assoc. by apply ntoh_vendor_over.
Qed.
End InPlace.
