(* ===== verification/SwitchInterface.v ===== *)
(** openflow_switch_interface.c: what a program that plays a switch calls and
    what calls it.

    Messages come from the controller, over the secure channel, or from an
    application of the same host, over the messenger.  The context of a message
    remembers for some seconds where it came from, so that what answers it goes
    back there.

    A handler is a function of the program with its data: the calls made are
    logged with their arguments.  A list of actions is the list of what its
    elements point to, NULL is [None]; a buffer is its bytes.  The secure channel,
    the timers and the messenger are interfaces.  Logging is left out. *)

From Stdlib Require Import ZArith Lia Bool String.
From coqutil Require Import Byte.
From stdpp Require Import base list.
From S2P Require Import Prelude Memory StateMonad OpenFlow ByteOrder HashTable Utility Validate Create ApplicationInterface.

(** * What the interface asks of chibach.c, secure_channel.c and timer.c

    The only timer is that of [age_contexts].  [left_in_memory] is what [xmalloc]
    leaves in so many bytes. *)
Class Chibach (W : Type) : Type := {
  init_secure_channel : Z -> Z -> M (S := W) bool;
  finalize_secure_channel : M (S := W) bool;
  send_message_to_secure_channel : bytes -> M (S := W) bool;
  get_chibach_name : M (S := W) bytes;
  add_periodic_event_callback : Z -> M (S := W) bool;
  delete_timer_event : M (S := W) bool;
  time : M (S := W) Z;
  left_in_memory : nat -> M (S := W) bytes
}.

(** * Data *)

(** The members of [openflow_event_handlers]. *)
Inductive event_handler : Type :=
| controller_connected_callback | controller_disconnected_callback | hello_callback | error_callback | echo_request_callback
| echo_reply_callback | vendor_callback | features_request_callback | get_config_request_callback | set_config_callback
| packet_out_callback | flow_mod_callback | port_mod_callback | stats_request_callback | barrier_request_callback
| queue_get_config_request_callback.

#[export] Instance event_handler_eq_dec : EqDecision event_handler.
Proof. solve_decision. Defined.

(** A function and its user data; [None] is NULL. *)
Definition openflow_event_handlers : Type := event_handler -> option (Z * Z).
Definition no_event_handlers : openflow_event_handlers := fun _ => None.

(** The arguments of a handler before the user data. *)
Inductive handler_arguments : Type :=
| Connection
| HelloArgs (transaction_id version : Z)
| ErrorArgs (transaction_id type code : Z) (data : bytes)
| EchoArgs (transaction_id : Z) (body : option bytes)
| VendorArgs (transaction_id vendor : Z) (data : option bytes)
| RequestArgs (transaction_id : Z)
| SetConfigArgs (transaction_id flags miss_send_len : Z)
| PacketOutArgs (transaction_id buffer_id in_port : Z) (actions : option (list bytes)) (data : option bytes)
| FlowModArgs (transaction_id : Z) (match_ : ofp_match) (cookie command idle_timeout hard_timeout priority buffer_id out_port flags : Z)
    (actions : option (list bytes))
| PortModArgs (transaction_id port_no : Z) (hw_addr : bytes) (config mask advertise : Z)
| StatsArgs (transaction_id type flags : Z) (body : option bytes)
| PortArgs (transaction_id port : Z).

Record handler_call : Type := HandlerCall { called_handler : event_handler; called_function : Z; call_arguments : handler_arguments; call_user_data : Z }.

(** [send_openflow_message_to_secure_channel] and [send_openflow_message_to_local] *)
Inductive message_send_handler : Type := to_secure_channel | to_local.

Record openflow_context : Type := OpenflowContext {
  transaction_id : Z;
  context_message : bytes;
  send_callback : message_send_handler;
  context_user_data : option bytes;
  created_at : Z
}.

Record openflow_switch_config : Type := OpenflowSwitchConfig { config_datapath_id : Z; controller_ip : Z; controller_port : Z }.

Definition CONTEXT_LIFETIME : Z := 5.

(** Codes of errors, from openflow.h. *)
Definition OFPHFC_EPERM : Z := 1.
Definition OFPBRC_BAD_VENDOR : Z := 3.
Definition OFPBRC_BAD_SUBTYPE : Z := 4.
Definition OFPBRC_BUFFER_EMPTY : Z := 7.
Definition OFPBRC_BUFFER_UNKNOWN : Z := 8.
Definition OFPBAC_BAD_VENDOR : Z := 2.
Definition OFPBAC_BAD_VENDOR_TYPE : Z := 3.
Definition OFPBAC_EPERM : Z := 6.
Definition OFPBAC_TOO_MANY : Z := 7.
Definition OFPBAC_BAD_QUEUE : Z := 8.
Definition OFPFMFC_ALL_TABLES_FULL : Z := 0.
Definition OFPFMFC_OVERLAP : Z := 1.
Definition OFPFMFC_BAD_EMERG_TIMEOUT : Z := 3.
Definition OFPFMFC_UNSUPPORTED : Z := 5.
Definition OFPPMFC_BAD_HW_ADDR : Z := 1.
Definition OFPQOFC_BAD_QUEUE : Z := 1.
Definition OFPQOFC_EPERM : Z := 2.

(** The keys of the table point into its contexts. *)
Definition compare_context (x y : Z) : bool := x =? y.
Definition hash_context (key : Z) : Z := u32 key.

Definition context_key : HashKey Z := {| compare := compare_context; hash := hash_context |}.

Lemma context_key_ok : @HashKeyOk Z context_key (fun _ => True).
Proof.
  split; cbn; unfold compare_context, hash_context; intros; rewrite ?Z.eqb_eq in *; try congruence; try done. unfold u32. by apply Z.mod_pos_bound.
Qed.

Abbreviation context_table := (hash_table Z (option openflow_context)).

(** The static variables, and the log of the calls. *)
Record switch_interface : Type := SwitchInterface {
  openflow_switch_interface_initialized : bool;
  event_handlers : openflow_event_handlers;
  config : openflow_switch_config;
  contexts : option context_table;
  handler_calls : list handler_call
}.

Definition zero_config : openflow_switch_config := OpenflowSwitchConfig 0 0 0.
(** The statics of a new process. *)
Definition zero_switch_interface : switch_interface := SwitchInterface false no_event_handlers zero_config None [].

(** * Contexts *)

Section Contexts.
Implicit Types (t : context_table) (c : openflow_context) (xid : Z).

Definition lookup_context t xid : res (option openflow_context) := lookup_hash_entry (H := context_key) None t xid.

Definition delete_context t xid : res context_table :=
  let* (_, t) := delete_hash_entry (H := context_key) None t xid in Ok t.

(** The loops of [age_contexts] and of [finalize_context] delete the contexts
    that they come to, some or all. *)
Fixpoint delete_contexts (expired : openflow_context -> bool) (fuel : nat) t (iter : hash_iterator) : res context_table :=
  match fuel with
  | O => Fault OutOfFuel
  | S fuel =>
    let* (e, iter) := iterate_hash_next t iter in
    match e with
    | None => Ok t
    | Some e =>
      let* t := match value e with
                | Some c => if expired c then delete_context t (transaction_id c) else Ok t
                | None => Ok t
                end in
      delete_contexts expired fuel t iter
    end
  end.

Definition age_contexts t (now : Z) : res context_table :=
  let* iter := init_hash_iterator t in
  delete_contexts (fun c => created_at c + CONTEXT_LIFETIME <=? now) (S (length (visited t))) t iter.

Definition init_context (contexts : option context_table) : res context_table :=
  let* _ := assert (match contexts with None => true | Some _ => false end) in
  Ok (create_hash_with_size 128).

Definition finalize_context t : res context_table :=
  let* iter := init_hash_iterator t in
  let* t := delete_contexts (fun _ => true) (S (length (visited t))) t iter in
  delete_hash t.
End Contexts.

(** * Actions in a message *)

Section Messages.
Context {host : Host}.
Implicit Types (data : bytes).

(** [ntoh_action( ah, ah )] of each action, and a copy of it; [actions_len] is a
    [size_t]. *)
Fixpoint ntoh_actions (fuel : nat) (actions_len : Z) data (actions_p : Z) : res (list bytes * bytes) :=
  match fuel with
  | O => Fault OutOfFuel
  | S fuel =>
    if 0 <? actions_len then
      let* data := ntoh_action data actions_p data actions_p in
      let* len := ld 2 data (actions_p + 2) in
      let* action := ld_range data actions_p len in
      let* (actions, data) := ntoh_actions fuel (u64 (actions_len - len)) data (actions_p + len) in
      Ok (action :: actions, data)
    else Ok ([], data)
  end.

(** The list is made when there are actions. *)
Definition message_actions (actions_len : Z) data (actions_p : Z) : res (option (list bytes) * bytes) :=
  if 0 <? actions_len then
    let* (actions, data) := ntoh_actions (S (Z.to_nat actions_len)) actions_len data actions_p in Ok (Some actions, data)
  else Ok (None, data).

(** The body of a request for statistics, in the byte order of the host. *)
Definition request_body (type : Z) (p : bytes) : res bytes :=
  if type =? OFPST_FLOW then
    let* m := ld_match p 0 in
    let* p := st_match p 0 (ntoh_match m) in
    let* out_port := ld_ntoh 2 p 42 in
    st 2 p 42 out_port
  else if type =? OFPST_AGGREGATE then
    let* m := ld_match p 0 in
    let* p := st_match p 0 (ntoh_match m) in
    let* out_port := ld_ntoh 2 p 42 in
    st 2 p 42 out_port
  else if type =? OFPST_PORT then
    let* port_no := ld_ntoh 2 p 0 in st 2 p 0 port_no
  else if type =? OFPST_VENDOR then
    let* vendor_id := ld_ntoh 4 p 0 in st 4 p 0 vendor_id
  else Ok p.
End Messages.

(** * The interface *)

Section Interface.
Context {host : Host} {W : Type} `{Messaging W} `{Chibach W}.
Implicit Types (data : bytes).
#[local] Abbreviation M := (M (S := switch_interface * W)).

Definition get {A} (f : switch_interface -> A) : M A := fun s => Ok (f s.1, s).
Definition put (f : switch_interface -> switch_interface) : M unit := fun s => Ok (tt, (f s.1, s.2)).
Definition ext {A} (x : StateMonad.M (S := W) A) : M A := fun s => let* (a, w) := x s.2 in Ok (a, (s.1, w)).

(** [assert( contexts != NULL )] *)
Definition the_contexts : M context_table :=
  let! t := get contexts in match t with Some t => ret t | None => fault AssertFailed end.
Definition set_contexts (t : option context_table) : M unit :=
  put (fun s => SwitchInterface (openflow_switch_interface_initialized s) (event_handlers s) (config s) t (handler_calls s)).

Definition find_context (xid : Z) : M (option openflow_context) :=
  let! t := the_contexts in lift (lookup_context t xid).

Definition save_context (xid : Z) (message : bytes) (callback : message_send_handler) (user_data : option bytes) : M bool :=
  let! context := find_context xid in
  match context with
  | Some _ => ret false
  | None =>
    let! now := ext time in
    let! t := the_contexts in
    let! (_, t) := lift (insert_hash_entry (H := context_key) None t xid (Some (OpenflowContext xid message callback user_data now))) in
    let! _ := set_contexts (Some t) in
    ret true
  end.

(** The callback of the timer. *)
Definition age_contexts_callback : M unit :=
  let! now := ext time in
  let! t := get contexts in
  match t with
  | None => fault NullPointer
  | Some t => let! t := lift (age_contexts t now) in set_contexts (Some t)
  end.

Definition openflow_switch_interface_is_initialized : M bool := get openflow_switch_interface_initialized.

(** [assert( openflow_switch_interface_initialized )] *)
Definition assert_initialized : M unit :=
  let! initialized := openflow_switch_interface_is_initialized in lift (assert initialized).

(** ** The handlers of the program *)

Definition set_handlers (handlers : openflow_event_handlers) : M unit :=
  put (fun s => SwitchInterface (openflow_switch_interface_initialized s) handlers (config s) (contexts s) (handler_calls s)).

Definition switch_set_openflow_event_handlers (handlers : openflow_event_handlers) : M bool :=
  let! _ := assert_initialized in
  let! _ := set_handlers handlers in
  ret true.

(** What the setters do. *)
Definition set_event_handler (e : event_handler) (callback : option Z) (user_data : Z) : M bool :=
  match callback with
  | None => fault AssertFailed
  | Some function =>
    let! _ := assert_initialized in
    let! handlers := get event_handlers in
    let! _ := set_handlers (fun e' => if decide (e' = e) then Some (function, user_data) else handlers e') in
    ret true
  end.

Definition set_controller_connected_handler := set_event_handler controller_connected_callback.
Definition set_controller_disconnected_handler := set_event_handler controller_disconnected_callback.
Definition set_hello_handler := set_event_handler hello_callback.
Definition switch_set_error_handler := set_event_handler error_callback.
Definition set_echo_request_handler := set_event_handler echo_request_callback.
Definition switch_set_echo_reply_handler := set_event_handler echo_reply_callback.
Definition switch_set_vendor_handler := set_event_handler vendor_callback.
Definition set_features_request_handler := set_event_handler features_request_callback.
Definition set_get_config_request_handler := set_event_handler get_config_request_callback.
Definition set_set_config_handler := set_event_handler set_config_callback.
Definition set_packet_out_handler := set_event_handler packet_out_callback.
Definition set_flow_mod_handler := set_event_handler flow_mod_callback.
Definition set_port_mod_handler := set_event_handler port_mod_callback.
Definition set_stats_request_handler := set_event_handler stats_request_callback.
Definition set_barrier_request_handler := set_event_handler barrier_request_callback.
Definition set_queue_get_config_request_handler := set_event_handler queue_get_config_request_callback.

(** ** Messages of the controller *)

(** [if ( callback == NULL ) return; ... callback( ... )]: [make] is what is done
    in between. *)
Definition call_handler (e : event_handler) (make : res handler_arguments) : M unit :=
  let! handlers := get event_handlers in
  match handlers e with
  | None => ret tt
  | Some (function, user_data) =>
    let! args := lift make in
    put (fun s => SwitchInterface (openflow_switch_interface_initialized s) (event_handlers s) (config s) (contexts s)
      (handler_calls s ++ [HandlerCall e function args user_data]))
  end.

(** [assert( empty( data ) == false )] *)
Definition not_empty data : M unit := lift (assert (negb (blen data =? 0))).

Definition handle_hello data : M unit :=
  let! _ := not_empty data in
  let! transaction_id := lift (ld_ntoh 4 data 4) in
  let! version := lift (ld8 data 0) in
  call_handler hello_callback (Ok (HelloArgs transaction_id version)).

Definition handle_error data : M unit :=
  let! _ := not_empty data in
  let! transaction_id := lift (ld_ntoh 4 data 4) in
  let! type := lift (ld_ntoh 2 data 8) in
  let! code := lift (ld_ntoh 2 data 10) in
  let! body := lift (remove_front data 12) in
  call_handler error_callback (Ok (ErrorArgs transaction_id type code body)).

(** The difference of the lengths is a [size_t]. *)
Definition handle_echo (e : event_handler) data : M unit :=
  let! _ := not_empty data in
  let! transaction_id := lift (ld_ntoh 4 data 4) in
  let! length := lift (ld_ntoh 2 data 2) in
  call_handler e (let* body := body_from data 8 (u64 (length - 8)) in Ok (EchoArgs transaction_id body)).

Definition handle_echo_request data : M unit := handle_echo echo_request_callback data.
Definition handle_echo_reply data : M unit := handle_echo echo_reply_callback data.

Definition handle_vendor data : M unit :=
  let! _ := not_empty data in
  let! transaction_id := lift (ld_ntoh 4 data 4) in
  let! vendor_id := lift (ld_ntoh 4 data 8) in
  let! length := lift (ld_ntoh 2 data 2) in
  let body_length := u16 (length - 12) in
  call_handler vendor_callback (let* body := body_from data 12 body_length in Ok (VendorArgs transaction_id vendor_id body)).

(** A request that has nothing but its id. *)
Definition handle_simple_request (e : event_handler) data : M unit :=
  let! _ := not_empty data in
  let! transaction_id := lift (ld_ntoh 4 data 4) in
  call_handler e (Ok (RequestArgs transaction_id)).

Definition handle_features_request data : M unit := handle_simple_request features_request_callback data.
Definition handle_get_config_request data : M unit := handle_simple_request get_config_request_callback data.
Definition handle_barrier_request data : M unit := handle_simple_request barrier_request_callback data.

Definition handle_set_config data : M unit :=
  let! _ := not_empty data in
  let! transaction_id := lift (ld_ntoh 4 data 4) in
  let! flags := lift (ld_ntoh 2 data 8) in
  let! miss_send_len := lift (ld_ntoh 2 data 10) in
  call_handler set_config_callback (Ok (SetConfigArgs transaction_id flags miss_send_len)).

(** [data] of [length] bytes from [offset] on, NULL when there are none. *)
Definition copy_from data (offset length : Z) : res (option bytes) :=
  if 0 <? length then let* body := ld_range data offset length in Ok (Some body) else Ok None.

Definition handle_packet_out data : M unit :=
  let! _ := not_empty data in
  let! transaction_id := lift (ld_ntoh 4 data 4) in
  let! buffer_id := lift (ld_ntoh 4 data 8) in
  let! in_port := lift (ld_ntoh 2 data 12) in
  let! actions_len := lift (ld_ntoh 2 data 14) in
  let! (actions, data) := lift (message_actions actions_len data 16) in
  let! actions_len := lift (ld_ntoh 2 data 14) in
  let! length := lift (ld_ntoh 2 data 2) in
  let frame_length := u64 (length - 16 - actions_len) in
  let! frame := lift (copy_from data (16 + actions_len) frame_length) in
  call_handler packet_out_callback (Ok (PacketOutArgs transaction_id buffer_id in_port actions frame)).

Definition handle_flow_mod data : M unit :=
  let! _ := not_empty data in
  let! transaction_id := lift (ld_ntoh 4 data 4) in
  let! match_ := lift (ld_match data 8) in
  let! cookie := lift (ld_ntoh 8 data 48) in
  let! command := lift (ld_ntoh 2 data 56) in
  let! idle_timeout := lift (ld_ntoh 2 data 58) in
  let! hard_timeout := lift (ld_ntoh 2 data 60) in
  let! priority := lift (ld_ntoh 2 data 62) in
  let! buffer_id := lift (ld_ntoh 4 data 64) in
  let! out_port := lift (ld_ntoh 2 data 68) in
  let! flags := lift (ld_ntoh 2 data 70) in
  let! length := lift (ld_ntoh 2 data 2) in
  let! (actions, _) := lift (message_actions (u64 (length - 72)) data 72) in
  call_handler flow_mod_callback (Ok (FlowModArgs transaction_id (ntoh_match match_) cookie command idle_timeout hard_timeout
    priority buffer_id out_port flags actions)).

Definition handle_port_mod data : M unit :=
  let! _ := not_empty data in
  let! transaction_id := lift (ld_ntoh 4 data 4) in
  let! port_no := lift (ld_ntoh 2 data 8) in
  let! hw_addr := lift (ld_bytes data 10 6) in
  let! config := lift (ld_ntoh 4 data 16) in
  let! mask := lift (ld_ntoh 4 data 20) in
  let! advertise := lift (ld_ntoh 4 data 24) in
  call_handler port_mod_callback (Ok (PortModArgs transaction_id port_no hw_addr config mask advertise)).

Definition handle_stats_request data : M unit :=
  let! _ := not_empty data in
  let! transaction_id := lift (ld_ntoh 4 data 4) in
  let! type := lift (ld_ntoh 2 data 8) in
  let! flags := lift (ld_ntoh 2 data 10) in
  let! length := lift (ld_ntoh 2 data 2) in
  let! body := lift (copy_from data 12 (u64 (length - 12))) in
  let! body := lift (match body with Some p => let* p := request_body type p in Ok (Some p) | None => Ok None end) in
  call_handler stats_request_callback (Ok (StatsArgs transaction_id type flags body)).

Definition handle_queue_get_config_request data : M unit :=
  let! _ := not_empty data in
  let! transaction_id := lift (ld_ntoh 4 data 4) in
  let! port := lift (ld_ntoh 2 data 8) in
  call_handler queue_get_config_request_callback (Ok (PortArgs transaction_id port)).

Definition handle_controller_connected : M unit := call_handler controller_connected_callback (Ok Connection).
Definition handle_controller_disconnected : M unit := call_handler controller_disconnected_callback (Ok Connection).

(** The handler of a message of the type. *)
Definition handler_of (type : Z) : option (bytes -> M unit) :=
  if type =? OFPT_HELLO then Some handle_hello
  else if type =? OFPT_ERROR then Some handle_error
  else if type =? OFPT_ECHO_REQUEST then Some handle_echo_request
  else if type =? OFPT_ECHO_REPLY then Some handle_echo_reply
  else if type =? OFPT_VENDOR then Some handle_vendor
  else if type =? OFPT_FEATURES_REQUEST then Some handle_features_request
  else if type =? OFPT_GET_CONFIG_REQUEST then Some handle_get_config_request
  else if type =? OFPT_SET_CONFIG then Some handle_set_config
  else if type =? OFPT_PACKET_OUT then Some handle_packet_out
  else if type =? OFPT_FLOW_MOD then Some handle_flow_mod
  else if type =? OFPT_PORT_MOD then Some handle_port_mod
  else if type =? OFPT_STATS_REQUEST then Some handle_stats_request
  else if type =? OFPT_BARRIER_REQUEST then Some handle_barrier_request
  else if type =? OFPT_QUEUE_GET_CONFIG_REQUEST then Some handle_queue_get_config_request
  else None.

Definition handle_openflow_message (message : bytes) : M bool :=
  let! _ := lift (assert (sizeof_ofp_header <=? blen message)) in
  let! result := lift (validate_openflow_message message) in
  if result <? 0 then ret false
  else
    let! type := lift (ld8 message 1) in
    match handler_of type with
    | Some handle => let! _ := handle message in ret true
    | None => ret false
    end.

(** ** Messages to the controller or to an application *)

(** The header is in memory that [append_front_buffer] makes room in: its
    [datapath_id] is not written. *)
Definition send_openflow_message_to_local (message : bytes) (user_data : option bytes) : M bool :=
  match user_data with
  | None => fault NullPointer
  | Some service_name =>
    let service_name_length := blen service_name + 1 in
    let! datapath_id := ext (left_in_memory 8) in
    ext (send_message service_name MESSENGER_OPENFLOW_MESSAGE
      (datapath_id ++ host_encode 2 (htons (u16 service_name_length)) ++ service_name ++ [zero] ++ message))
  end.

Definition send_openflow_message_to_secure_channel (message : bytes) (user_data : option bytes) : M bool :=
  let! _ := lift (assert (match user_data with None => true | Some _ => false end)) in
  ext (send_message_to_secure_channel message).

Definition switch_send_openflow_message (message : bytes) : M bool :=
  let! _ := lift (assert (sizeof_ofp_header <=? blen message)) in
  let! transaction_id := lift (ld_ntoh 4 message 4) in
  let! context := find_context transaction_id in
  match context with
  | Some c =>
    match send_callback c with
    | to_secure_channel => send_openflow_message_to_secure_channel message (context_user_data c)
    | to_local => send_openflow_message_to_local message (context_user_data c)
    end
  | None => send_openflow_message_to_secure_channel message None
  end.

(** ** Messages received *)

Definition handle_secure_channel_message (message : bytes) : M bool :=
  let! _ := lift (assert (sizeof_ofp_header <=? blen message)) in
  let! transaction_id := lift (ld_ntoh 4 message 4) in
  let! _ := save_context transaction_id message to_secure_channel None in
  handle_openflow_message message.

(** The lengths are [size_t]; [alloc_buffer_with_length] wants one that is not
    0. *)
Definition handle_local_message (tag : Z) data : M unit :=
  let! _ := lift (assert (sizeof_openflow_service_header <=? blen data)) in
  if tag =? MESSENGER_OPENFLOW_MESSAGE then
    let! service_name_length := lift (ld_ntoh 2 data 8) in
    let ofp_offset := sizeof_openflow_service_header + service_name_length in
    let ofp_length := u64 (blen data - ofp_offset) in
    let! _ := lift (assert (negb (ofp_length =? 0))) in
    let! message := lift (ld_range data ofp_offset ofp_length) in
    let service_name := c_string (take (Z.to_nat service_name_length) (drop (Z.to_nat sizeof_openflow_service_header) data)) in
    let! transaction_id := lift (ld_ntoh 4 message 4) in
    let! _ := save_context transaction_id message to_local (Some service_name) in
    let! _ := handle_openflow_message message in
    ret tt
  else ret tt.

(** ** Start and end *)

Definition init_openflow_switch_interface (datapath_id ip port : Z) : M bool :=
  let! initialized := openflow_switch_interface_is_initialized in
  if initialized : bool then ret false
  else
    let! ok := ext (init_secure_channel ip port) in
    if negb ok then ret false
    else
      let! _ := put (fun s => SwitchInterface (openflow_switch_interface_initialized s) no_event_handlers
        (OpenflowSwitchConfig datapath_id ip port) (contexts s) (handler_calls s)) in
      let! t := get contexts in
      let! t := lift (init_context t) in
      let! _ := set_contexts (Some t) in
      let! _ := ext (add_periodic_event_callback 5) in
      let! name := ext get_chibach_name in
      let! _ := ext (add_message_received_callback name) in
      let! _ := put (fun s => SwitchInterface true (event_handlers s) (config s) (contexts s) (handler_calls s)) in
      ret true.

Definition finalize_openflow_switch_interface : M bool :=
  let! initialized := openflow_switch_interface_is_initialized in
  if negb initialized then ret false
  else
    let! _ := ext finalize_secure_channel in
    let! _ := ext delete_timer_event in
    let! t := the_contexts in
    let! _ := lift (finalize_context t) in
    let! _ := set_contexts None in
    let! _ := put (fun s => SwitchInterface false (event_handlers s) (config s) (contexts s) (handler_calls s)) in
    ret true.

(** ** Errors *)

Definition get_openflow_message (xid : Z) : M (option bytes) :=
  let! context := find_context xid in
  ret (context_message <$> context).

Definition hello_failed_data (code : Z) : option bytes :=
  if code =? OFPHFC_INCOMPATIBLE then Some (str "Incompatible OpenFlow version." ++ [zero])
  else if code =? OFPHFC_EPERM then Some (str "Permissions error." ++ [zero])
  else None.

(** The codes of the types of error that the request is sent back with. *)
Definition codes_of (type : Z) : list Z :=
  if type =? OFPET_BAD_REQUEST then
    [OFPBRC_BAD_VERSION; OFPBRC_BAD_TYPE; OFPBRC_BAD_STAT; OFPBRC_BAD_VENDOR; OFPBRC_BAD_SUBTYPE; OFPBRC_EPERM; OFPBRC_BAD_LEN;
     OFPBRC_BUFFER_EMPTY; OFPBRC_BUFFER_UNKNOWN]
  else if type =? OFPET_BAD_ACTION then
    [OFPBAC_BAD_TYPE; OFPBAC_BAD_LEN; OFPBAC_BAD_VENDOR; OFPBAC_BAD_VENDOR_TYPE; OFPBAC_BAD_OUT_PORT; OFPBAC_BAD_ARGUMENT; OFPBAC_EPERM;
     OFPBAC_TOO_MANY; OFPBAC_BAD_QUEUE]
  else if type =? OFPET_FLOW_MOD_FAILED then
    [OFPFMFC_ALL_TABLES_FULL; OFPFMFC_OVERLAP; OFPFMFC_EPERM; OFPFMFC_BAD_EMERG_TIMEOUT; OFPFMFC_BAD_COMMAND; OFPFMFC_UNSUPPORTED]
  else if type =? OFPET_PORT_MOD_FAILED then [OFPPMFC_BAD_PORT; OFPPMFC_BAD_HW_ADDR]
  else if type =? OFPET_QUEUE_OP_FAILED then [OFPQOFC_BAD_PORT; OFPQOFC_BAD_QUEUE; OFPQOFC_EPERM]
  else [].

(** [None] is an undefined error; the data may be NULL. *)
Definition error_data (xid type code : Z) : M (option (option bytes)) :=
  if type =? OFPET_HELLO_FAILED then
    ret (match hello_failed_data code with Some data => Some (Some data) | None => None end)
  else if existsb (Z.eqb code) (codes_of type) then
    let! original_message := get_openflow_message xid in
    ret (Some (take 64 <$> original_message))
  else ret None.

Definition send_error_message (xid type code : Z) : M bool :=
  let! described := error_data xid type code in
  match described with
  | None => ret false
  | Some reason =>
    let! err := lift (create_error xid type code reason) in
    switch_send_openflow_message err
  end.
End Interface.
