(* ===== verification/SwitchMessages.v ===== *)
(** Messages of a controller in a program that plays a switch: what reaches the
    handlers (openflow_switch_interface.c) of a message that openflow_message.c
    has made. *)

From Stdlib Require Import ZArith Lia Bool.
From coqutil Require Import Byte.
From stdpp Require Import base list.
From S2P Require Import Prelude Memory StateMonad OpenFlow Codes ByteOrder HashTable Actions Validate Utility Create Roundtrip Accept ApplicationInterface ApplicationMessages InPlace SwitchInterface.

(** * What a handler should get *)

Section Expected.
Context {host : Host}.
Implicit Types (x : message).

(** No list for no actions. *)
Definition action_list (l : list action) : option (list bytes) := match l with [] => None | _ :: _ => Some (map host_action l) end.

(** The handler that a message of a controller is for, and its arguments: those
    that the message was made from.  Only the port and the queue of a request for
    the statistics of queues stay in network byte order. *)
Definition for_handler (xid : Z) x : option (event_handler * handler_arguments) :=
  match x with
  | Hello => Some (hello_callback, HelloArgs xid OFP_VERSION)
  | Error type code data => Some (error_callback, ErrorArgs xid type code data)
  | EchoRequest body => Some (echo_request_callback, EchoArgs xid (non_empty body))
  | EchoReply body => Some (echo_reply_callback, EchoArgs xid (non_empty body))
  | VendorMessage vendor_id data => Some (vendor_callback, VendorArgs xid vendor_id (non_empty data))
  | FeaturesRequest => Some (features_request_callback, RequestArgs xid)
  | GetConfigRequest => Some (get_config_request_callback, RequestArgs xid)
  | SetConfig flags miss_send_len => Some (set_config_callback, SetConfigArgs xid flags miss_send_len)
  | PacketOut buffer_id in_port actions data => Some (packet_out_callback, PacketOutArgs xid buffer_id in_port (action_list actions) (non_empty data))
  | FlowMod match_ cookie command idle_timeout hard_timeout priority buffer_id out_port flags actions =>
    Some (flow_mod_callback, FlowModArgs xid (ws_norm match_) cookie command idle_timeout hard_timeout priority buffer_id out_port flags (action_list actions))
  | PortMod port_no hw_addr config mask advertise => Some (port_mod_callback, PortModArgs xid port_no hw_addr config mask advertise)
  | DescStatsRequest flags => Some (stats_request_callback, StatsArgs xid OFPST_DESC flags None)
  | FlowStatsRequest flags match_ table_id out_port =>
    Some (stats_request_callback, StatsArgs xid OFPST_FLOW flags (Some (ws_host match_ ++ be_encode 1 table_id ++ zeros 1 ++ host_encode 2 out_port)))
  | AggregateStatsRequest flags match_ table_id out_port =>
    Some (stats_request_callback, StatsArgs xid OFPST_AGGREGATE flags (Some (ws_host match_ ++ be_encode 1 table_id ++ zeros 1 ++ host_encode 2 out_port)))
  | TableStatsRequest flags => Some (stats_request_callback, StatsArgs xid OFPST_TABLE flags None)
  | PortStatsRequest flags port_no => Some (stats_request_callback, StatsArgs xid OFPST_PORT flags (Some (host_encode 2 port_no ++ zeros 6)))
  | QueueStatsRequest flags port_no queue_id =>
    Some (stats_request_callback, StatsArgs xid OFPST_QUEUE flags (Some (be_encode 2 port_no ++ zeros 2 ++ be_encode 4 queue_id)))
  | VendorStatsRequest flags vendor_id body => Some (stats_request_callback, StatsArgs xid OFPST_VENDOR flags (Some (host_encode 4 vendor_id ++ body)))
  | BarrierRequest => Some (barrier_request_callback, RequestArgs xid)
  | QueueGetConfigRequest port => Some (queue_get_config_request_callback, PortArgs xid port)
  | _ => None
  end.

(** Numbers that their fields hold. *)
Definition in_range x : Prop :=
  match x with
  | Error type code _ => fits 2 type /\ fits 2 code
  | VendorMessage vendor_id _ => fits 4 vendor_id
  | SetConfig _ miss_send_len => fits 2 miss_send_len
  | PacketOut buffer_id _ _ _ => fits 4 buffer_id
  | FlowMod _ cookie _ idle_timeout hard_timeout _ buffer_id _ _ _ => fits 8 cookie /\ fits 2 idle_timeout /\ fits 2 hard_timeout /\ fits 4 buffer_id
  | VendorStatsRequest _ vendor_id _ => fits 4 vendor_id
  | _ => True
  end.

(** The handler is called, when there is one. *)
Definition called (s : switch_interface) (o : option (event_handler * handler_arguments)) : list handler_call :=
  match o with
  | None => []
  | Some (e, args) => match event_handlers s e with None => [] | Some (function, data) => [HandlerCall e function args data] end
  end.

Definition add_calls (s : switch_interface) (cs : list handler_call) : switch_interface :=
  SwitchInterface (openflow_switch_interface_initialized s) (event_handlers s) (config s) (contexts s) (handler_calls s ++ cs).
End Expected.

(** * Actions *)

Section Actions.
Context {host : Host}.

Lemma ntoh_actions_ok fuel l P r : Forall wf_action l -> (length l < fuel)%nat -> actions_len l < 2 ^ 64 ->
  ntoh_actions fuel (actions_len l) (P ++ wire_actions l ++ r) (blen P) = Ok (map host_action l, P ++ concat (map host_action l) ++ r).
Proof.
  intros Hl. revert fuel P. induction Hl as [| a l Ha Hl IH]; intros fuel P Hf Hmax; (destruct fuel as [| fuel]; [cbn in Hf; lia |]); cbn [ntoh_actions]; [done |].
  pose proof (wf_action_len _ Ha). pose proof (actions_len_nonneg _ Hl). rewrite actions_len_cons in *. cbn [length] in Hf.
  rewrite (proj2 (Z.ltb_lt _ _)) by lia. rewrite wire_actions_cons, <- app_assoc, ntoh_action_over by done. bind_ok.
  rewrite ld_len_host by done. bind_ok. rewrite ld_range_skip, ld_range_wire by (rewrite ?Z.sub_diag, ?length_host_action; lia || done). bind_ok.
  unfold u64. rewrite Z.mod_small by lia. replace (action_len a + actions_len l - action_len a) with (actions_len l) by lia.
  rewrite (app_assoc P). replace (blen P + action_len a) with (blen (P ++ host_action a)) by (rewrite blen_app, length_host_action; done).
  rewrite IH by lia. bind_ok. cbn [map concat]. by rewrite <- !app_assoc.
Qed.

Lemma message_actions_ok l P r off : Forall wf_action l -> actions_len l < 2 ^ 64 -> off = blen P ->
  exists m, message_actions (actions_len l) (P ++ wire_actions l ++ r) off = Ok (action_list l, P ++ m ++ r) /\ blen m = actions_len l.
Proof.
  intros Hl Hmax ->. unfold message_actions. destruct Hl as [| a l Ha Hl]; [by exists [] |].
  pose proof (wf_action_len _ Ha). pose proof (actions_len_nonneg _ Hl). rewrite (proj2 (Z.ltb_lt _ _)) by (rewrite actions_len_cons; lia).
  pose proof (length_le_actions_len (a :: l) ltac:(by constructor)). rewrite ntoh_actions_ok by (lia || by constructor). bind_ok.
  exists (concat (map host_action (a :: l))). split; [done |]. clear Hmax. assert (Hal : Forall wf_action (a :: l)) by by constructor.
  clear -Hal. induction Hal as [| b l' Hb _ IH]; [done |]. cbn [map concat]. rewrite blen_app, IH, actions_len_cons, length_host_action; done.
Qed.
End Actions.

(** * The handlers *)

Section Handlers.
Context {host : Host} {W : Type} `{Messaging W} `{Chibach W}.
Implicit Types (s : switch_interface) (w : W) (x : message).

Lemma handler_run e make args s w : (event_handlers s e <> None -> make = Ok args) -> call_handler e make (s, w) = Ok (tt, (add_calls s (called s (Some (e, args))), w)).
Proof.
  intros Hm. unfold call_handler, called. rewrite (bind_run (get _) _ (s, w) (event_handlers s) (s, w)) by done.
  destruct (event_handlers s e) as [[f d] |]; [by rewrite Hm | destruct s; unfold add_calls; cbn; by rewrite app_nil_r].
Qed.

Lemma not_empty_run xid x (st : switch_interface * W) : not_empty (wire_message xid x) st = Ok (tt, st).
Proof. unfold not_empty. pose proof (wire_message_filled xid x) as E. cbn in E. by rewrite E. Qed.

Lemma bodies_read {B} (k : option bytes -> res B) off n pre post xid x : wire_body x = pre ++ post ->
  off = 8 + blen pre -> n = blen post -> bind (body_from (wire_message xid x) off n) k = k (non_empty post).
Proof. intros Hb Ho Hn. by rewrite (body_from_message xid x off pre post n Hb Ho Hn). Qed.

Ltac read_message := rewrite (bind_run _ _ _ _ _ (not_empty_run _ _ _)); repeat read_field.

Section Kinds.
Context (xid : Z) (x : message) (Hx : valid_message x) (Hr : in_range x) (Hxid : fits 4 xid) (s : switch_interface) (w : W).

Definition receives (h : bytes -> StateMonad.M (S := switch_interface * W) unit) : Prop :=
  h (wire_message xid x) (s, w) = Ok (tt, (add_calls s (called s (for_handler xid x)), w)).

Lemma hello_received : match x with Hello => receives handle_hello | _ => True end.
Proof. destruct Hx as [_ Hl]. unfold receives. destruct x; try done. unfold handle_hello.
  rewrite (bind_run _ _ _ _ _ (not_empty_run _ _ _)). read_field. rewrite (bind_run _ _ _ _ _ (lift_run _ _ _ (ld_version _ _))). by apply handler_run. Qed.

Lemma simple_received e : for_handler xid x = Some (e, RequestArgs xid) -> receives (handle_simple_request e).
Proof. intros E. destruct Hx as [_ Hl]. unfold receives. rewrite E. unfold handle_simple_request. read_message. by apply handler_run. Qed.

Lemma error_received : match x with Error _ _ _ => receives SwitchInterface.handle_error | _ => True end.
Proof.
  destruct Hx as [Hv Hl]. unfold receives. destruct x; try done. destruct Hr as [Ht Hc]. unfold SwitchInterface.handle_error. read_message.
  rewrite (bind_run (lift _) _ _ data (s, w)); [by apply handler_run |].
  apply lift_run, (remove_front_body _ _ _ (be_encode 2 type ++ be_encode 2 code)); [by rewrite <- app_assoc | len].
Qed.

Lemma echo_received e body : wire_body x = body -> for_handler xid x = Some (e, EchoArgs xid (non_empty body)) -> receives (handle_echo e).
Proof.
  intros Hb E. destruct Hx as [_ Hl]. unfold receives. rewrite E. unfold handle_echo. pose proof Hl as Hl'. lengths Hl'. read_message. apply handler_run. intros _.
  assert (El : message_length x = 8 + blen body) by (unfold message_length; by rewrite Hb). rewrite El in *. pose proof (blen_nonneg body).
  unfold u64. rewrite Z.mod_small by lia. by rewrite (bodies_read _ _ _ [] body) by (done || rewrite ?blen_nil; lia).
Qed.

Lemma vendor_received : match x with VendorMessage _ _ => receives SwitchInterface.handle_vendor | _ => True end.
Proof.
  destruct Hx as [Hv Hl]. unfold receives. destruct x as [| | | | v data | | | | | | | | | | | | | | | | | | | | | | | | | |]; try done. cbn in Hr.
  unfold SwitchInterface.handle_vendor. read_message. apply handler_run. intros _.
  pose proof Hl as Hl'. lengths Hl'. rewrite u16_small by (unfold message_length; cbn [wire_body]; len).
  by rewrite (bodies_read _ _ _ (be_encode 4 v) data) by (done || unfold message_length; cbn [wire_body]; len).
Qed.

Lemma set_config_received : match x with SetConfig _ _ => receives handle_set_config | _ => True end.
Proof.
  destruct Hx as [Hv Hl]. unfold receives. destruct x; try done. cbn in Hr, Hv. assert (fits 2 flags) by (unfold fits, OFPC_FRAG_MASK in *; cbn; lia).
  unfold handle_set_config. read_message. by apply handler_run.
Qed.

Lemma port_mod_received : match x with PortMod _ _ _ _ _ => receives handle_port_mod | _ => True end.
Proof.
  destruct Hx as [Hv Hl]. unfold receives. destruct x as [| | | | | | | | | | | | | | | port_no hw_addr c k a | | | | | | | | | | | | | | |]; try done. destruct Hv as (Hp & _ & Ha & Hc & Hm & Hd & _). fits_port Hp.
  assert (Eh : ld_bytes (wire_message xid (PortMod port_no hw_addr c k a)) 10 6 = Ok hw_addr).
  { unfold wire_message. cbn [wire_body]. rewrite app_assoc. rewrite ld_bytes_skip by len. by rewrite ld_bytes_here by (len || done). }
  unfold handle_port_mod. read_message. rewrite (bind_run _ _ _ _ _ (lift_run _ _ _ Eh)). repeat read_field. by apply handler_run.
Qed.

Lemma queue_get_config_received : match x with QueueGetConfigRequest _ => receives handle_queue_get_config_request | _ => True end.
Proof.
  destruct Hx as [Hv Hl]. unfold receives. destruct x; try done. cbn in Hv. fits_port Hv. unfold handle_queue_get_config_request. read_message. by apply handler_run.
Qed.
End Kinds.

(** What comes after the fixed part of a message with actions. *)
Lemma copy_rest P m r off n : off = blen P + blen m -> n = blen r -> copy_from (P ++ m ++ r) off n = Ok (non_empty r).
Proof.
  intros -> ->. unfold copy_from. destruct r as [| b r]; [done |]. rewrite blen_cons. pose proof (blen_nonneg r). rewrite (proj2 (Z.ltb_lt _ _)) by lia.
  rewrite app_assoc, ld_range_skip by (rewrite blen_app; lia). rewrite blen_app, Z.sub_diag. by rewrite ld_range_all by (by rewrite blen_cons).
Qed.

Section WithActions.
Context (xid : Z) (Hxid : fits 4 xid) (s : switch_interface) (w : W).

Lemma packet_out_received buffer_id in_port l data : let x := PacketOut buffer_id in_port l data in
  valid_message x -> in_range x -> receives xid x s w handle_packet_out.
Proof.
  intros x [Hv Hl] Hb. destruct Hv as (Hp & Ha & _). cbn in Hb. fits_port Hp. apply valid_action_wf in Ha.
  pose proof (actions_len_nonneg l Ha) as Hn. pose proof (blen_nonneg data).
  assert (Elen : message_length x = 16 + actions_len l + blen data) by (unfold message_length, x; cbn [wire_body]; rewrite !blen_app, (blen_wire_actions l Ha); len).
  assert (Hal : fits 2 (actions_len l)) by (unfold fits; lia).
  set (P := wire_header (message_type x) (message_length x) xid ++ be_encode 4 buffer_id ++ be_encode 2 in_port ++ be_encode 2 (actions_len l)).
  assert (HP : blen P = 16) by (unfold P; len).
  assert (EP : wire_message xid x = P ++ wire_actions l ++ data) by (unfold P, wire_message, x; cbn [wire_body]; by rewrite <- !app_assoc).
  destruct (message_actions_ok l P data 16 Ha ltac:(lia) ltac:(done)) as (m & Em & Hm).
  assert (Hlf : fits 2 (message_length x)) by (unfold fits; lia).
  assert (Ea : ld_ntoh 2 (P ++ m ++ data) 14 = Ok (actions_len l)) by (unfold P, wire_header; rewrite <- !app_assoc; by rd).
  assert (Ell : ld_ntoh 2 (P ++ m ++ data) 2 = Ok (message_length x)) by (unfold P, wire_header; rewrite <- !app_assoc; by rd).
  unfold receives, handle_packet_out, x. read_message. fold x. rewrite EP.
  rewrite (bind_run _ _ _ _ _ (lift_run _ _ _ Em)). cbv beta iota. rewrite (bind_run _ _ _ _ _ (lift_run _ _ _ Ea)), (bind_run _ _ _ _ _ (lift_run _ _ _ Ell)).
  cbv zeta. rewrite (bind_run (lift _) _ _ (non_empty data) (s, w)); [by apply handler_run |]. apply lift_run, copy_rest; [lia |].
  unfold u64. rewrite Z.mod_small; lia.
Qed.

Lemma flow_mod_received match_ cookie command idle_timeout hard_timeout priority buffer_id out_port flags l :
  let x := FlowMod match_ cookie command idle_timeout hard_timeout priority buffer_id out_port flags l in
  valid_message x -> in_range x -> receives xid x s w handle_flow_mod.
Proof.
  intros x [Hv Hl] (Hc & Hi & Hh & Hb). destruct Hv as ([Hm _ _ _ _] & [Hpr _] & Hcm & Ho & _ & Hf0 & Hf & Ha). apply valid_action_wf in Ha.
  assert (Hw : ws_wf (A := ofp_match) match_) by exact Hm. assert (fits 2 command) by (unfold fits, OFPFC_DELETE_STRICT in *; cbn; lia).
  assert (fits 2 flags).
  { unfold fits. split; [done |]. destruct (Z.eq_dec flags 0) as [-> | Hne]; [done |]. unfold within in Hf. apply Z.log2_lt_pow2; [lia |].
    assert (Hland : flags = Z.land flags FLOW_MOD_FLAGS). { rewrite <- (Z.lor_ldiff_and flags FLOW_MOD_FLAGS) at 1. by rewrite Hf. }
    rewrite Hland. eapply Z.le_lt_trans; [apply Z.log2_land; unfold FLOW_MOD_FLAGS; lia |]. apply Z.min_lt_iff. right. done. }
  pose proof (actions_len_nonneg l Ha) as Hn.
  assert (Elen : message_length x = 72 + actions_len l).
  { unfold message_length, x. cbn [wire_body]. rewrite !blen_app, (blen_wire_actions l Ha). fold_structs. rewrite (blen_ws_wire (A := ofp_match) match_ Hw). cbn [ws_size ws_match]. len. }
  set (P := wire_header (message_type x) (message_length x) xid ++ wire_match match_ ++ be_encode 8 cookie ++ be_encode 2 command ++ be_encode 2 idle_timeout ++
    be_encode 2 hard_timeout ++ be_encode 2 priority ++ be_encode 4 buffer_id ++ be_encode 2 out_port ++ be_encode 2 flags).
  assert (HP : blen P = 72) by (unfold P; fold_structs; rewrite !blen_app, (blen_ws_wire (A := ofp_match) match_ Hw); cbn [ws_size ws_match]; len).
  assert (EP : wire_message xid x = P ++ wire_actions l ++ []) by (unfold P, wire_message, x; cbn [wire_body]; by rewrite <- !app_assoc, app_nil_r).
  destruct (message_actions_ok l P [] 72 Ha ltac:(lia) ltac:(done)) as (m & Em & _).
  unfold receives, handle_flow_mod, x. fold_structs. size_structs. read_message. fold_structs. rewrite ws_ntoh_ntoh by done. fold x. rewrite EP.
  rewrite (bind_run (lift _) _ _ (action_list l, P ++ m ++ []) (s, w)); [by apply handler_run |]. apply lift_run.
  rewrite Elen. unfold u64. rewrite Z.mod_small by lia. replace (72 + actions_len l - 72) with (actions_len l) by lia. exact Em.
Qed.
End WithActions.

(** ** Statistics *)

Lemma st_over n P d (y : Z) off : off = blen P -> (n <= length d)%nat -> st n (P ++ d) off y = Ok (P ++ host_encode n y ++ drop n d).
Proof. intros Ho Hd. unfold st. rewrite st_bytes_over by (rewrite ?length_host_encode; done). by rewrite length_host_encode, <- app_assoc. Qed.

Lemma ntoh_in_place n P (v : Z) r off : fits n v -> off = blen P ->
  (let* y := ld_ntoh n (P ++ be_encode n v ++ r) off in st n (P ++ be_encode n v ++ r) off y) = Ok (P ++ host_encode n v ++ r).
Proof.
  intros Hx ->. pose proof (blen_nonneg P). rewrite ld_ntoh_skip, ld_ntoh_wire by (lia || done). bind_ok.
  rewrite st_over by (rewrite ?length_app, ?length_be_encode; lia || done). by rewrite drop_app_length' by by rewrite length_be_encode.
Qed.

(** A match in place, then the port at the end. *)
Lemma flow_request_body type match_ table_id out_port : type = OFPST_FLOW \/ type = OFPST_AGGREGATE -> wf_match match_ -> fits 2 out_port ->
  request_body type (wire_match match_ ++ be_encode 1 table_id ++ zeros 1 ++ be_encode 2 out_port)
    = Ok (ws_host match_ ++ be_encode 1 table_id ++ zeros 1 ++ host_encode 2 out_port).
Proof.
  intros Ht Hm Ho. assert (Hw : ws_wf (A := ofp_match) match_) by exact Hm. set (rest := be_encode 1 table_id ++ zeros 1 ++ be_encode 2 out_port).
  assert (E : (let* m := ld_match (wire_match match_ ++ rest) 0 in let* p := st_match (wire_match match_ ++ rest) 0 (ntoh_match m) in
      let* port := ld_ntoh 2 p 42 in st 2 p 42 port) = Ok (ws_host match_ ++ be_encode 1 table_id ++ zeros 1 ++ host_encode 2 out_port)).
  { fold_structs. pose proof (ws_convert_over (A := ofp_match) match_ [] rest 0 Hw eq_refl) as Ec. cbn [app] in Ec. rewrite <- bind_bind. fold_structs. rewrite Ec. bind_ok.
    pose proof (ws_host_length (A := ofp_match) match_ Hw) as Hlen. cbn [ws_size ws_match] in Hlen. unfold rest.
    pose proof (ntoh_in_place 2 (ws_host match_ ++ be_encode 1 table_id ++ zeros 1) out_port [] 42 Ho) as E2.
    rewrite !app_nil_r, <- !app_assoc in E2. apply E2. rewrite !blen_app. unfold blen at 1. rewrite Hlen. len. }
  unfold request_body. destruct Ht as [-> | ->]; select_type; exact E.
Qed.

Lemma stats_request_run xid x type flags body (b : option bytes) s w : valid_message x -> fits 4 xid -> fits 2 type -> fits 2 flags -> wire_body x = wire_stats type flags ++ body ->
  (match non_empty body with Some p => let* p := request_body type p in Ok (Some p) | None => Ok None end) = Ok b ->
  for_handler xid x = Some (stats_request_callback, StatsArgs xid type flags b) -> receives xid x s w handle_stats_request.
Proof.
  intros [_ Hl] Hxid Ht Hf Hb Hbody Hfor. unfold receives. rewrite Hfor. unfold handle_stats_request.
  assert (Hlt : blen (wire_stats type flags) = 4) by (unfold wire_stats; len).
  assert (Et : ld_ntoh 2 (wire_message xid x) 8 = Ok type) by (rewrite ld_ntoh_body, Hb by lia; unfold wire_stats; rewrite <- app_assoc; by rd).
  assert (Ef : ld_ntoh 2 (wire_message xid x) 10 = Ok flags) by (rewrite ld_ntoh_body, Hb by lia; unfold wire_stats; rewrite <- app_assoc; by rd).
  rewrite (bind_run _ _ _ _ _ (not_empty_run _ _ _)). read_field.
  rewrite (bind_run _ _ _ _ _ (lift_run _ _ _ Et)), (bind_run _ _ _ _ _ (lift_run _ _ _ Ef)). read_field.
  assert (Elen : message_length x = 12 + blen body) by (unfold message_length; rewrite Hb, blen_app, Hlt; lia).
  pose proof (blen_nonneg body). rewrite Elen. unfold u64. rewrite Z.mod_small by lia. replace (12 + blen body - 12) with (blen body) by lia.
  assert (Ec : copy_from (wire_message xid x) 12 (blen body) = Ok (non_empty body)).
  { unfold wire_message. rewrite Hb. pose proof (copy_rest (wire_header (message_type x) (message_length x) xid) (wire_stats type flags) body 12 (blen body)) as Ec.
    apply Ec; [rewrite blen_wire_header; lia | done]. }
  rewrite (bind_run _ _ _ _ _ (lift_run _ _ _ Ec)), (bind_run _ _ _ _ _ (lift_run _ _ _ Hbody)). by apply handler_run.
Qed.

Lemma non_empty_app (a b : bytes) : a <> [] -> non_empty (a ++ b) = Some (a ++ b).
Proof. by destruct a. Qed.

Lemma be_encode_not_empty n (v : Z) : (0 < n)%nat -> be_encode n v <> [].
Proof. intros Hn E. apply (f_equal length) in E. rewrite length_be_encode in E. cbn in E. lia. Qed.

Lemma stats_received xid x s w : valid_message x -> in_range x -> fits 4 xid -> message_type x = OFPT_STATS_REQUEST -> receives xid x s w handle_stats_request.
Proof.
  intros Hx Hr Hxid Hty. pose proof Hx as [Hv Hl]. assert (F0 : fits 2 0) by done. destruct x as [| | | | | | | | | | | | | | | | flags | flags m t o | flags m t o | flags | flags p | flags p q | flags v body | | | | | | | |]; try done; cbn in Hv, Hr.
  - subst flags. by apply (stats_request_run xid _ OFPST_DESC 0 [] None).
  - destruct Hv as (-> & [Hm _ _ _ _] & Ho). fits_port Ho. assert (Hne : wire_match m <> []) by (intros E; pose proof (ws_length (A := ofp_match) m Hm) as E'; cbn in E'; by rewrite E in E').
    eapply (stats_request_run xid _ OFPST_FLOW 0 (wire_match m ++ be_encode 1 t ++ zeros 1 ++ be_encode 2 o)); try done.
    rewrite non_empty_app by done. by rewrite flow_request_body by tauto.
  - destruct Hv as (-> & [Hm _ _ _ _] & Ho). fits_port Ho. assert (Hne : wire_match m <> []) by (intros E; pose proof (ws_length (A := ofp_match) m Hm) as E'; cbn in E'; by rewrite E in E').
    eapply (stats_request_run xid _ OFPST_AGGREGATE 0 (wire_match m ++ be_encode 1 t ++ zeros 1 ++ be_encode 2 o)); try done.
    rewrite non_empty_app by done. by rewrite flow_request_body by tauto.
  - subst flags. by apply (stats_request_run xid _ OFPST_TABLE 0 [] None).
  - destruct Hv as (-> & Hp & _). fits_port Hp. eapply (stats_request_run xid _ OFPST_PORT 0 (be_encode 2 p ++ zeros 6)); try done.
    rewrite non_empty_app by (by apply be_encode_not_empty; lia). unfold request_body. select_type. pose proof (ntoh_in_place 2 [] p (zeros 6) 0 ltac:(done) eq_refl) as E. cbn [app] in E. by rewrite E.
  - destruct Hv as (-> & _). eapply (stats_request_run xid _ OFPST_QUEUE 0 (be_encode 2 p ++ zeros 2 ++ be_encode 4 q)); try done.
  - subst flags. eapply (stats_request_run xid _ OFPST_VENDOR 0 (be_encode 4 v ++ body)); try done.
    rewrite non_empty_app by (by apply be_encode_not_empty; lia). unfold request_body. select_type. pose proof (ntoh_in_place 4 [] v body 0 ltac:(done) eq_refl) as E. cbn [app] in E. by rewrite E.
Qed.

(** ** All the messages *)

Lemma add_no_calls s : add_calls s [] = s.
Proof. destruct s. unfold add_calls. cbn. by rewrite app_nil_r. Qed.

Lemma message_has_header xid x (st : switch_interface * W) : lift (assert (sizeof_ofp_header <=? blen (wire_message xid x))) st = Ok (tt, st).
Proof. apply lift_run. rewrite blen_wire_message. unfold message_length, sizeof_ofp_header. pose proof (blen_nonneg (wire_body x)). by rewrite (proj2 (Z.leb_le _ _)) by lia. Qed.

Lemma message_handled xid x s w : valid_message x -> in_range x -> fits 4 xid ->
  SwitchInterface.handle_openflow_message (wire_message xid x) (s, w)
    = Ok (match for_handler xid x with Some _ => true | None => false end, (add_calls s (called s (for_handler xid x)), w)).
Proof.
  intros Hx Hr Hxid. pose proof Hx as [_ Hl]. unfold SwitchInterface.handle_openflow_message.
  rewrite (bind_run _ _ _ _ _ (message_has_header xid x (s, w))).
  rewrite (bind_run _ _ _ _ _ (lift_run _ _ _ (accept_valid xid x Hx))). cbn [Z.ltb Z.compare].
  rewrite (bind_run _ _ _ _ _ (lift_run _ _ _ (ld_type xid x Hl))).
  assert (Hrun : forall h, handler_of (message_type x) = Some h -> receives xid x s w h -> (match for_handler xid x with Some _ => true | None => false end) = true ->
    match handler_of (message_type x) with Some handle => let! _ := handle (wire_message xid x) in ret true | None => ret false end (s, w)
      = Ok (match for_handler xid x with Some _ => true | None => false end, (add_calls s (called s (for_handler xid x)), w))).
  { intros h E Hrec Ht. rewrite E, (bind_run _ _ _ _ _ Hrec), Ht. done. }
  destruct x eqn:Ex; rewrite <- ?Ex in *;
    try (rewrite Ex; cbn [message_type for_handler called]; by rewrite add_no_calls).
  all: pose proof Hx as Hx'; rewrite Ex in Hx'.
  all: try (apply (Hrun handle_stats_request); [by rewrite Ex | apply stats_received; [exact Hx | exact Hr | exact Hxid | by rewrite Ex] | by rewrite Ex]).
  - apply (Hrun handle_hello); [by rewrite Ex | | by rewrite Ex]. pose proof (hello_received xid x Hx Hr Hxid s w) as E. by rewrite Ex in *.
  - apply (Hrun SwitchInterface.handle_error); [by rewrite Ex | | by rewrite Ex]. pose proof (error_received xid x Hx Hr Hxid s w) as E. by rewrite Ex in *.
  - apply (Hrun SwitchInterface.handle_echo_request); [by rewrite Ex | | by rewrite Ex]. apply (echo_received xid x Hx Hxid s w echo_request_callback body); by rewrite Ex.
  - apply (Hrun SwitchInterface.handle_echo_reply); [by rewrite Ex | | by rewrite Ex]. apply (echo_received xid x Hx Hxid s w echo_reply_callback body); by rewrite Ex.
  - apply (Hrun SwitchInterface.handle_vendor); [by rewrite Ex | | by rewrite Ex]. pose proof (vendor_received xid x Hx Hr Hxid s w) as E. by rewrite Ex in *.
  - apply (Hrun handle_features_request); [by rewrite Ex | | by rewrite Ex]. apply (simple_received xid x Hx Hxid s w features_request_callback). by rewrite Ex.
  - apply (Hrun handle_get_config_request); [by rewrite Ex | | by rewrite Ex]. apply (simple_received xid x Hx Hxid s w get_config_request_callback). by rewrite Ex.
  - apply (Hrun handle_set_config); [by rewrite Ex | | by rewrite Ex]. pose proof (set_config_received xid x Hx Hr Hxid s w) as E. by rewrite Ex in *.
  - apply (Hrun handle_packet_out); [by rewrite Ex | | by rewrite Ex]. rewrite Ex in *. by apply packet_out_received.
  - apply (Hrun handle_flow_mod); [by rewrite Ex | | by rewrite Ex]. rewrite Ex in *. by apply flow_mod_received.
  - apply (Hrun handle_port_mod); [by rewrite Ex | | by rewrite Ex]. pose proof (port_mod_received xid x Hx Hr Hxid s w) as E. by rewrite Ex in *.
  - apply (Hrun SwitchInterface.handle_barrier_request); [by rewrite Ex | | by rewrite Ex]. apply (simple_received xid x Hx Hxid s w barrier_request_callback). by rewrite Ex.
  - apply (Hrun handle_queue_get_config_request); [by rewrite Ex | | by rewrite Ex]. pose proof (queue_get_config_received xid x Hx Hr Hxid s w) as E. by rewrite Ex in *.
Qed.

(** C9. What a controller asks reaches the program.  A message that the
    constructors make from valid arguments is checked, and the handler that the
    program has set for its type is called once with the arguments that it was
    made from, actions and statistics requests in the byte order of the host,
    except for the port and the queue of a request for the statistics of queues.
    A message that is for a controller calls nothing, and the result says so. *)
Theorem controller_message_reaches_handler xid x s w : valid_message x -> in_range x -> fits 4 xid ->
  exists m, create_message xid x = Ok m /\
    SwitchInterface.handle_openflow_message m (s, w)
      = Ok (match for_handler xid x with Some _ => true | None => false end, (add_calls s (called s (for_handler xid x)), w)).
Proof. intros Hx Hr Hxid. exists (wire_message xid x). split; [by apply create_message_wire, valid_message_wf | by apply message_handled]. Qed.
End Handlers.

(** * Witness *)

Section Witnesses.
Let host : Host := LittleEndian.
#[local] Existing Instance host.

(** A switch with a handler for modifications of flows. *)
Definition sample_switch : switch_interface :=
  SwitchInterface true (fun e => if decide (e = flow_mod_callback) then Some (1, 9) else None) zero_config (Some (create_hash_with_size 128)) [].

Lemma controller_message_reaches_handler_witness : valid_message (sample_flow_mod OFPFC_ADD) /\
  exists m, create_message 7 (sample_flow_mod OFPFC_ADD) = Ok m /\
    SwitchInterface.handle_openflow_message m (sample_switch, tt)
      = Ok (true, (add_calls sample_switch [HandlerCall flow_mod_callback 1
          (FlowModArgs 7 (ws_norm sample_match) 1 OFPFC_ADD 60 0 100 UINT32_MAX OFPP_NONE 1 (Some (map host_action sample_actions))) 9], tt)).
Proof.
  split; [exact sample_flow_mod_valid |].
  exact (controller_message_reaches_handler 7 (sample_flow_mod OFPFC_ADD) sample_switch tt sample_flow_mod_valid ltac:(done) ltac:(done)).
Defined.
End Witnesses.
