(* ===== verification/SwitchContexts.v ===== *)
(** Where the answers of a program that plays a switch go: the contexts of
    openflow_switch_interface.c as a map, and the way back of every message.

    A request of the controller, or of an application of the same host, leaves a
    context under its transaction id, unless there is one already; the timer
    removes the contexts of five seconds and more.  What is sent under an id that
    has a context goes where the context says, and everything else to the
    controller. *)

From Stdlib Require Import ZArith Lia Bool String.
From coqutil Require Import Byte.
From stdpp Require Import base list gmap.
From S2P Require Import Prelude Memory StateMonad OpenFlow Codes ByteOrder HashTable Actions Validate Utility Create Roundtrip Accept Transactions ApplicationInterface ApplicationMessages SwitchInterface SwitchMessages.

#[local] Existing Instance context_key.
#[local] Existing Instance context_key_ok.

(** * The table of contexts is a map *)

Section Table.
Abbreviation iterating_contexts x it := (iterating (ok := fun _ : Z => True) x it).
Implicit Types (t : context_table) (m : gmap Z openflow_context) (c : openflow_context) (xid : Z).

Record holds t m : Prop := {
  h_table : wf_table (ok := fun _ : Z => True) t;
  h_map xid : table_map t xid = Some <$> m !! xid;
  h_id xid c : m !! xid = Some c -> transaction_id c = xid
}.

Lemma same_id x y : compare x y = true <-> x = y.
Proof. apply Z.eqb_eq. Qed.

Lemma holds_lookup t m xid : holds t m -> lookup_context t xid = Ok (m !! xid).
Proof.
  intros Hh. unfold lookup_context. rewrite (lookup_ok (ok := fun _ : Z => True) None t xid (h_table _ _ Hh)), (h_map _ _ Hh). by destruct (m !! xid).
Qed.

Lemma holds_insert t m xid c : holds t m -> transaction_id c = xid -> exists old t', insert_hash_entry None t xid (Some c) = Ok (old, t') /\ holds t' (<[xid := c]> m).
Proof.
  intros [Hw Hm Hi] Hc. destruct (insert_ok (ok := fun _ : Z => True) None t xid (Some c) Hw I) as (t' & E & Hw' & _ & Hm'). do 2 eexists. split; [exact E |]. split; [done | |].
  - intros x. rewrite Hm'. destruct (compare x xid) eqn:Ex; [apply same_id in Ex as ->; by rewrite lookup_insert_eq |].
    rewrite lookup_insert_ne, Hm; [done |]. intros ->. by rewrite (proj2 (same_id x x)) in Ex.
  - intros x c'. rewrite lookup_insert_Some. intros [[<- <-] | [_ Hx]]; [done | by apply Hi].
Qed.

Lemma holds_delete t m xid : holds t m -> exists v t', delete_hash_entry None t xid = Ok (v, t') /\ holds t' (delete xid m).
Proof.
  intros [Hw Hm Hi]. destruct (delete_ok (ok := fun _ : Z => True) None t xid Hw I) as (t' & E & Hw' & _ & Hm'). do 2 eexists. split; [exact E |]. split; [done | |].
  - intros x. rewrite Hm'. destruct (compare x xid) eqn:Ex; [apply same_id in Ex as ->; by rewrite lookup_delete_eq |].
    rewrite lookup_delete_ne, Hm; [done |]. intros ->. by rewrite (proj2 (same_id x x)) in Ex.
  - intros x c'. rewrite lookup_delete_Some. intros [_ Hx]. by apply Hi.
Qed.

(** An element of the table and its context. *)
Definition of_map m (he : hash_entry Z (option openflow_context)) : Prop := exists c, value he = Some c /\ m !! key he = Some c.

Lemma visited_contexts t m : holds t m -> Forall (of_map m) (visited t).
Proof.
  intros [Hw Hm _]. apply Forall_forall. intros he Hin. assert (E : table_map t (key he) = Some (value he)).
  { apply (visited_map (ok := fun _ : Z => True) _ _ _ Hw I). exists he. split_and!; [done | by apply same_id | done]. }
  rewrite Hm in E. destruct (m !! key he) as [c |] eqn:Ec; [| done]. injection E as E. by exists c.
Qed.

Lemma distinct_ids (l : list (hash_entry Z (option openflow_context))) : distinct l -> NoDup (key <$> l).
Proof.
  induction l as [| he l IH]; [intros _; apply NoDup_nil_2 |]. intros [Hd Hl]. cbn [fmap list_fmap]. apply NoDup_cons. split; [| by apply IH].
  intros (he' & E & Hin)%list_elem_of_fmap. rewrite Forall_forall in Hd. apply Hd in Hin. rewrite E in Hin. by rewrite (proj2 (same_id _ _)) in Hin.
Qed.

Lemma delete_contexts_ok expired fuel t m iter l : holds t m -> iterating_contexts t iter -> remaining t iter = l ->
  Forall (of_map m) l -> NoDup (key <$> l) -> (length l < fuel)%nat ->
  exists t' m', delete_contexts expired fuel t iter = Ok t' /\ holds t' m' /\ forall xid c, m' !! xid = Some c <-> m !! xid = Some c /\ (xid ∈ key <$> l -> expired c = false).
Proof.
  revert t m iter l. induction fuel as [| fuel IH]; intros t m iter l Hh Hit Hr Hl Hnd Hf; [lia |]. cbn [delete_contexts]. pose proof (h_table _ _ Hh) as Hw.
  destruct (iterate_next_ok t iter Hw Hit) as (he & iter' & -> & Hit' & Hhe). bind_ok. destruct he as [he |].
  2: { exists t, m. split_and!; [done | done |]. intros xid c. rewrite <- Hr, Hhe. split; [intros Hc; split; [done | by intros ?%elem_of_nil] | by intros [? _]]. }
  destruct Hhe as (Hr' & _ & p & Hp & Hs). rewrite Hr in Hr'. subst l. rewrite Hr' in Hl, Hnd, Hf |- *.
  apply Forall_cons in Hl as [(c & Hv & Hc) Hl]. cbn [fmap list_fmap] in Hnd. apply NoDup_cons in Hnd as [Hni Hnd]. cbn [length] in Hf. rewrite Hv.
  pose proof (h_id _ _ Hh _ _ Hc) as Hid. destruct (expired c) eqn:Ee.
  - unfold delete_context. rewrite Hid. destruct (holds_delete t m (key he) Hh) as (v & t1 & Ed & H1). rewrite Ed. bind_ok.
    destruct (delete_iterating (ok := fun _ : Z => True) None t (key he) v t1 iter' p Hw (h_table _ _ H1) Hit' Hp Hs Ed) as [Hit1 Hr1].
    destruct (IH t1 (delete (key he) m) iter' (remaining t iter') H1 Hit1 Hr1) as (t2 & m2 & -> & H2 & Hm2); [| done | lia |].
    + rewrite Forall_forall in Hl |- *. intros he' Hin. destruct (Hl he' Hin) as (c' & Hv' & Hc'). exists c'. split; [done |]. apply lookup_delete_Some. split; [| done].
      intros E. apply Hni. rewrite E. by apply list_elem_of_fmap_2.
    + exists t2, m2. split_and!; [done | done |]. intros xid c'. rewrite Hm2, lookup_delete_Some. cbn [fmap list_fmap]. rewrite elem_of_cons. split.
      * intros [[Hne Hc'] Hk]. split; [done |]. intros [-> | Hin]; [done | by apply Hk].
      * intros [Hc' Hk]. assert (key he <> xid); [| tauto]. intros <-. assert (c' = c) as -> by congruence. rewrite Hk in Ee by (by left). done.
  - bind_ok. destruct (IH t m iter' (remaining t iter') Hh Hit' eq_refl Hl Hnd) as (t2 & m2 & -> & H2 & Hm2); [lia |].
    exists t2, m2. split_and!; [done | done |]. intros xid c'. rewrite Hm2. cbn [fmap list_fmap]. rewrite elem_of_cons. split.
    + intros [Hc' Hk]. split; [done |]. intros [-> | Hin]; [| by apply Hk]. by assert (c' = c) as -> by congruence.
    + intros [Hc' Hk]. split; [done | tauto].
Qed.

Lemma holds_delete_contexts expired t m : holds t m ->
  exists iter t', init_hash_iterator t = Ok iter /\ delete_contexts expired (S (length (visited t))) t iter = Ok t' /\
    holds t' (filter (fun p => expired p.2 = false) m).
Proof.
  intros Hh. destruct (init_iterating (ok := fun _ : Z => True) t (h_table _ _ Hh)) as (iter & Ei & Hit & Hr).
  destruct (delete_contexts_ok expired (S (length (visited t))) t m iter _ Hh Hit Hr (visited_contexts t m Hh)) as (t' & m' & Ed & H' & Hm'); [| lia |].
  - apply distinct_ids, (visited_distinct (ok := fun _ : Z => True)), Hh.
  - exists iter, t'. split_and!; [done | done |]. assert (m' = filter (fun p => expired p.2 = false) m) as <-; [| done].
    apply map_eq. intros xid. apply option_eq. intros c. rewrite Hm', map_lookup_filter_Some. cbn [snd]. split; intros [Hc Hk]; (split; [done |]).
    + apply Hk. assert (Et : table_map t xid = Some (Some c)) by by rewrite (h_map _ _ Hh), Hc.
      apply (visited_map (ok := fun _ : Z => True) _ _ _ (h_table _ _ Hh) I) in Et as (he & Hin & E & _). apply same_id in E as ->. by apply list_elem_of_fmap_2.
    + done.
Qed.

Lemma holds_new : holds (create_hash_with_size 128) ∅.
Proof. destruct (create_ok (ok := fun _ : Z => True) (V := option openflow_context) 128 eq_refl) as [Hw Hm]. split; [done | intros xid; by rewrite Hm, lookup_empty | done]. Qed.
End Table.

(** * Routes *)

Section Routes.
Context {host : Host} {W : Type} `{Messaging W} `{Chibach W}.
Context (clock : W -> Z) (Hclock : forall w, time w = Ok (clock w, w)).
Implicit Types (s : switch_interface) (w : W) (x : message) (xid : Z) (name : bytes).

(** Where a request came from, [None] for the controller and the name of the
    service for an application; its bytes; and when. *)
Record route : Type := Route { origin : option bytes; request : bytes; since : Z }.

Implicit Types (m : gmap Z route) (r : route).

Definition context_of xid r : openflow_context :=
  OpenflowContext xid (request r) (match origin r with None => to_secure_channel | Some _ => to_local end) (origin r) (since r).

(** The contexts of the interface are the routes. *)
Definition represents s m : Prop := exists t mm, contexts s = Some t /\ holds t mm /\ forall xid, mm !! xid = context_of xid <$> m !! xid.

(** What happens to the interface.  An application writes the datapath id that it
    wants and its name before the message. *)
Inductive event : Type :=
| FromController xid x
| FromApplication (dpid : Z) name xid x
| Timer.

Definition valid_request xid x : Prop := valid_message x /\ in_range x /\ fits 4 xid.

Definition valid_event (e : event) : Prop :=
  match e with
  | FromController xid x => valid_request xid x
  | FromApplication _ name xid x => valid_request xid x /\ zero ∉ name /\ fits 2 (blen name + 1)
  | Timer => True
  end.

Definition serve_event (e : event) : StateMonad.M (S := switch_interface * W) unit :=
  match e with
  | FromController xid x => let! _ := handle_secure_channel_message (wire_message xid x) in ret tt
  | FromApplication dpid name xid x => handle_local_message MESSENGER_OPENFLOW_MESSAGE (application_message dpid name (wire_message xid x))
  | Timer => age_contexts_callback
  end.

(** A transaction id keeps its first route until it is old. *)
Definition add_route xid r m : gmap Z route := match m !! xid with Some _ => m | None => <[xid := r]> m end.

Definition follow (now : Z) (e : event) m : gmap Z route :=
  match e with
  | FromController xid x => add_route xid (Route None (wire_message xid x) now) m
  | FromApplication _ name xid x => add_route xid (Route (Some name) (wire_message xid x) now) m
  | Timer => filter (fun p => now < since p.2 + CONTEXT_LIFETIME) m
  end.

(** The calls that an event makes. *)
Definition event_calls s (e : event) : list handler_call :=
  match e with
  | FromController xid x | FromApplication _ _ xid x => called s (for_handler xid x)
  | Timer => []
  end.

(** A message for an application, with what was in the memory of its datapath
    id. *)
Definition local_message (datapath_id name message : bytes) : bytes :=
  datapath_id ++ be_encode 2 (u16 (blen name + 1)) ++ name ++ [zero] ++ message.

(** Where a message goes. *)
Definition deliver (to : option bytes) (message : bytes) : StateMonad.M (S := W) bool :=
  match to with
  | None => send_message_to_secure_channel message
  | Some name =>
    let! datapath_id := left_in_memory 8 in
    send_message name MESSENGER_OPENFLOW_MESSAGE (local_message datapath_id name message)
  end.

Definition route_to m xid : option bytes := match m !! xid with Some r => origin r | None => None end.

(** ** The operations on contexts *)

Definition with_contexts s t : switch_interface :=
  SwitchInterface (openflow_switch_interface_initialized s) (event_handlers s) (config s) (Some t) (handler_calls s).

Lemma find_context_ok s m xid w : represents s m -> find_context xid (s, w) = Ok (context_of xid <$> m !! xid, (s, w)).
Proof.
  intros (t & mm & Ht & Hh & Hm). unfold find_context, the_contexts. rewrite (bind_run _ _ (s, w) t (s, w)) by (rewrite (bind_run _ _ (s, w) (Some t) (s, w)) by (unfold get; cbn; by rewrite Ht); done).
  rewrite <- Hm. by apply lift_run, holds_lookup.
Qed.

Lemma save_context_ok s m xid message r w : represents s m -> clock w = since r -> request r = message ->
  exists b s', save_context xid message (send_callback (context_of xid r)) (origin r) (s, w) = Ok (b, (s', w)) /\ represents s' (add_route xid r m) /\
    event_handlers s' = event_handlers s /\ handler_calls s' = handler_calls s.
Proof.
  intros Hs Hc <-. unfold save_context. rewrite (bind_run _ _ _ _ _ (find_context_ok s m xid w Hs)). unfold add_route.
  destruct (m !! xid) as [r' |] eqn:Er; cbn [fmap option_fmap option_map]; [by exists false, s |]. destruct Hs as (t & mm & Ht & Hh & Hm).
  rewrite (bind_run (ext time) _ (s, w) (since r) (s, w)) by (unfold ext; cbn [fst snd]; by rewrite Hclock, <- Hc).
  rewrite (bind_run the_contexts _ (s, w) t (s, w)) by (unfold the_contexts; rewrite (bind_run _ _ (s, w) (Some t) (s, w)) by (unfold get; cbn; by rewrite Ht); done).
  destruct (holds_insert t mm xid (context_of xid r) Hh eq_refl) as (old & t' & E & Hh'). rewrite (bind_run _ _ _ _ _ (lift_run _ _ _ E)).
  exists true, (with_contexts s t'). split_and!; [done | | done | done]. exists t', (<[xid := context_of xid r]> mm). split_and!; [done | done |].
  intros xid'. destruct (decide (xid' = xid)) as [-> | Hne]; [by rewrite !lookup_insert_eq | by rewrite !lookup_insert_ne by done].
Qed.

Lemma age_contexts_callback_ok s m w : represents s m ->
  exists s', age_contexts_callback (s, w) = Ok (tt, (s', w)) /\ represents s' (follow (clock w) Timer m) /\ event_handlers s' = event_handlers s /\ handler_calls s' = handler_calls s.
Proof.
  intros (t & mm & Ht & Hh & Hm). unfold age_contexts_callback. rewrite (bind_run (ext time) _ (s, w) (clock w) (s, w)) by (unfold ext; cbn [fst snd]; by rewrite Hclock).
  rewrite (bind_run (get _) _ (s, w) (Some t) (s, w)) by (unfold get; cbn; by rewrite Ht).
  destruct (holds_delete_contexts (fun c => created_at c + CONTEXT_LIFETIME <=? clock w) t mm Hh) as (iter & t' & Ei & Ed & Hh').
  rewrite (bind_run _ _ (s, w) t' (s, w)) by (apply lift_run; unfold age_contexts; rewrite Ei; bind_ok; exact Ed).
  exists (with_contexts s t'). split_and!; [done | | done | done]. eexists t', _. split_and!; [done | exact Hh' |]. intros xid. cbn [follow].
  rewrite !map_lookup_filter, Hm. destruct (m !! xid) as [r |]; [| done]. cbn. repeat case_guard; cbn in *; done || lia.
Qed.

(** ** What an event does *)

Lemma routes_add s m cs : represents s m -> represents (add_calls s cs) m.
Proof. done. Qed.

Lemma called_same s s' o : event_handlers s' = event_handlers s -> called s' o = called s o.
Proof. intros E. unfold called. by rewrite E. Qed.

(** A message of any origin: its context is saved, and it is handled. *)
Lemma request_handled s m xid x r w : represents s m -> valid_request xid x -> clock w = since r -> request r = wire_message xid x ->
  exists saved b' s', save_context xid (wire_message xid x) (send_callback (context_of xid r)) (origin r) (s, w) = Ok (saved, (s', w)) /\
    SwitchInterface.handle_openflow_message (wire_message xid x) (s', w) = Ok (b', (add_calls s' (called s (for_handler xid x)), w)) /\
    represents s' (add_route xid r m) /\ event_handlers s' = event_handlers s /\ handler_calls s' = handler_calls s.
Proof.
  intros Hs (Hx & Hr & Hxid) Hc Hq. destruct (save_context_ok s m xid _ r w Hs Hc Hq) as (saved & s' & E & Hs' & Hh & Hl).
  do 3 eexists. split_and!; [exact E | rewrite (message_handled xid x s' w Hx Hr Hxid), (called_same s s') by done; reflexivity | done | done | done].
Qed.

Lemma application_message_parts dpid name buf : zero ∉ name -> fits 2 (blen name + 1) ->
  let data := application_message dpid name buf in
  blen data = 10 + (blen name + 1) + blen buf /\ ld_ntoh 2 data 8 = Ok (blen name + 1) /\ ld_range data (10 + (blen name + 1)) (blen buf) = Ok buf /\
  c_string (take (Z.to_nat (blen name + 1)) (drop 10 data)) = name.
Proof.
  intros Hz Hn data. assert (Hb : blen (name ++ [zero]) = blen name + 1) by (by rewrite blen_app). unfold data, application_message. split_and!.
  - rewrite !blen_app, !blen_be_encode. change (blen [zero]) with 1. lia.
  - by rd.
  - rewrite (app_assoc (be_encode 8 dpid)), ld_range_skip by (rewrite blen_app, !blen_be_encode; pose proof (blen_nonneg name); lia).
    rewrite blen_app, !blen_be_encode, ld_range_skip by lia. rewrite Hb. replace (_ - _ - _) with 0 by lia. by apply ld_range_all.
  - rewrite (app_assoc (be_encode 8 dpid)), drop_app_length' by (by rewrite length_app, !length_be_encode).
    rewrite take_app_length' by (unfold blen in *; lia). by apply c_string_app.
Qed.

Lemma event_handled s m e w : represents s m -> valid_event e ->
  exists s', serve_event e (s, w) = Ok (tt, (s', w)) /\ represents s' (follow (clock w) e m) /\
    event_handlers s' = event_handlers s /\ handler_calls s' = handler_calls s ++ event_calls s e.
Proof.
  intros Hs He. destruct e as [xid x | dpid name xid x |]; cbn [serve_event follow event_calls valid_event] in *.
  - destruct (request_handled s m xid x (Route None (wire_message xid x) (clock w)) w Hs He eq_refl eq_refl) as (saved & b & s' & E & Eh & Hs' & Hh & Hl).
    destruct He as (Hx & _ & Hxid). eexists. split_and!; [| by apply routes_add | exact Hh | cbn; by rewrite Hl].
    unfold handle_secure_channel_message. rewrite (bind_run _ _ (s, w) b (add_calls s' (called s (for_handler xid x)), w)); [done |].
    rewrite (bind_run _ _ _ _ _ (message_has_header xid x (s, w))), (bind_run _ _ _ _ _ (lift_run _ _ _ (ld_xid xid x Hxid))).
    cbn [origin] in E. by rewrite (bind_run _ _ _ _ _ E).
  - destruct He as (He & Hz & Hn).
    destruct (request_handled s m xid x (Route (Some name) (wire_message xid x) (clock w)) w Hs He eq_refl eq_refl) as (saved & b & s' & E & Eh & Hs' & Hh & Hl).
    destruct He as (Hx & _ & Hxid). eexists. split_and!; [| by apply routes_add | exact Hh | cbn; by rewrite Hl].
    destruct (application_message_parts dpid name (wire_message xid x) Hz Hn) as (Hb & El & Er & En). set (data := application_message _ _ _) in *.
    pose proof (blen_nonneg name). pose proof (blen_wire_message xid x) as Hw. pose proof (proj2 Hx) as Hmax. pose proof (blen_nonneg (wire_body x)). unfold message_length in *.
    assert (Hn' : blen name + 1 < 65536) by (unfold fits in Hn; lia).
    unfold handle_local_message. unfold sizeof_openflow_service_header. rewrite (bind_run _ _ (s, w) tt (s, w)) by (apply lift_run; by rewrite (proj2 (Z.leb_le _ _)) by lia).
    cbv iota. rewrite Z.eqb_refl, (bind_run _ _ _ _ _ (lift_run _ _ _ El)). cbv zeta. rewrite Hb. replace (u64 (_ - _)) with (blen (wire_message xid x)) by (unfold u64; rewrite Z.mod_small; lia).
    rewrite (bind_run _ _ (s, w) tt (s, w)) by (apply lift_run; by rewrite (proj2 (Z.eqb_neq _ _)) by lia).
    rewrite (bind_run _ _ _ _ _ (lift_run _ _ _ Er)), (bind_run _ _ _ _ _ (lift_run _ _ _ (ld_xid xid x Hxid))).
    change (Z.to_nat 10) with 10%nat. rewrite En. cbn [origin] in E. rewrite (bind_run _ _ _ _ _ E). by rewrite (bind_run _ _ _ _ _ Eh).
  - destruct (age_contexts_callback_ok s m w Hs) as (s' & E & Hs' & Hh & Hl). exists s'. split_and!; [done | done | done | by rewrite Hl, app_nil_r].
Qed.

(** ** Where a message goes *)

Definition sent_by (send : StateMonad.M (S := W) bool) s w : res (bool * (switch_interface * W)) := let* (b, w') := send w in Ok (b, (s, w')).

Lemma message_sent s m xid (message : bytes) w : represents s m -> sizeof_ofp_header <= blen message -> ld_ntoh 4 message 4 = Ok xid ->
  switch_send_openflow_message message (s, w) = sent_by (deliver (route_to m xid) message) s w.
Proof.
  intros Hs Hl Hxid. unfold switch_send_openflow_message, route_to. rewrite (bind_run _ _ (s, w) tt (s, w)) by (apply lift_run; by rewrite (proj2 (Z.leb_le _ _))).
  rewrite (bind_run _ _ _ _ _ (lift_run _ _ _ Hxid)), (bind_run _ _ _ _ _ (find_context_ok s m xid w Hs)).
  destruct (m !! xid) as [[[name |] q t] |]; cbn [fmap option_fmap option_map send_callback context_of origin context_user_data]; try done.
  unfold send_openflow_message_to_local, deliver, sent_by, ext, mbind. cbn [fst snd].
  destruct (left_in_memory 8 w) as [[junk w'] |]; cbn [bind]; [| done]. unfold local_message, htons. by rewrite host_encode_hton.
Qed.

(** ** Histories *)

Definition follow_all (l : list (Z * event)) m : gmap Z route := fold_left (fun m p => follow p.1 p.2 m) l m.

(** The events of the list, each at its time, one after the other; what is in
    between, other messages sent among it, is up to the rest of the program. *)
Inductive runs : list (Z * event) -> switch_interface -> switch_interface -> Prop :=
| runs_nil s : runs [] s s
| runs_cons e w w' l s s1 s2 : valid_event e -> serve_event e (s, w) = Ok (tt, (s1, w')) -> runs l s1 s2 -> runs ((clock w, e) :: l) s s2.

Lemma runs_represents l s s' m : runs l s s' -> represents s m -> represents s' (follow_all l m).
Proof.
  intros Hr. revert m. induction Hr as [| e w w' l s s1 s2 He E _ IH]; intros m Hs; [done |]. destruct (event_handled s m e w Hs He) as (s1' & E' & Hs1 & _).
  rewrite E' in E. injection E as <- _. by apply IH.
Qed.

(** The id, the origin and the bytes of what is asked. *)
Definition asks (e : event) : option (Z * option bytes * bytes) :=
  match e with
  | FromController xid x => Some (xid, None, wire_message xid x)
  | FromApplication _ name xid x => Some (xid, Some name, wire_message xid x)
  | Timer => None
  end.

Lemma follow_asks now e m xid from q : asks e = Some (xid, from, q) -> follow now e m = add_route xid (Route from q now) m.
Proof. by destruct e; intros [= <- <- <-]. Qed.

(** The timer does not find the event of [start] old. *)
Definition young (start : Z) (p : Z * event) : Prop := p.2 = Timer -> p.1 < start + CONTEXT_LIFETIME.
Definition asks_not xid (p : Z * event) : Prop := forall from q, asks p.2 <> Some (xid, from, q).

Lemma route_stays l m xid r : m !! xid = Some r -> Forall (young (since r)) l -> follow_all l m !! xid = Some r.
Proof.
  intros Hm Hl. revert m Hm. induction Hl as [| [now e] l Hy _ IH]; intros m Hm; [done |]. apply IH. cbn [fst snd]. destruct (asks e) as [[[xid' from] q] |] eqn:Ea.
  - rewrite (follow_asks _ _ _ _ _ _ Ea). unfold add_route. destruct (m !! xid') eqn:Em; [done |]. rewrite lookup_insert_ne; [done | congruence].
  - destruct e; try done. cbn [follow]. apply map_lookup_filter_Some. split; [done |]. by apply Hy.
Qed.

Lemma route_gone l m xid : m !! xid = None -> Forall (asks_not xid) l -> follow_all l m !! xid = None.
Proof.
  intros Hm Hl. revert m Hm. induction Hl as [| [now e] l Hy _ IH]; intros m Hm; [done |]. apply IH. cbn [fst snd]. destruct (asks e) as [[[xid' from] q] |] eqn:Ea.
  - rewrite (follow_asks _ _ _ _ _ _ Ea). unfold add_route. destruct (m !! xid') eqn:Em; [done |]. rewrite lookup_insert_ne; [done |].
    intros ->. by apply (Hy from q).
  - destruct e; try done. cbn [follow]. apply map_lookup_filter_None. by left.
Qed.

Lemma route_old l m xid r now : m !! xid = Some r -> Forall (asks_not xid) l -> since r + CONTEXT_LIFETIME <= now -> follow now Timer (follow_all l m) !! xid = None.
Proof.
  intros Hm Hl Hnow. assert (Hr : follow_all l m !! xid = Some r \/ follow_all l m !! xid = None).
  { revert m Hm. induction Hl as [| [t e] l Hy Hl IH]; intros m Hm; [by left |]. cbn [follow_all fold_left fst snd].
    destruct (asks e) as [[[xid' from] q] |] eqn:Ea.
    - apply IH. rewrite (follow_asks _ _ _ _ _ _ Ea). unfold add_route. destruct (m !! xid') eqn:Em; [done |]. rewrite lookup_insert_ne; [done | congruence].
    - destruct e; try done. destruct (decide (t < since r + CONTEXT_LIFETIME)) as [Hlt | Hge].
      + apply IH. cbn [follow]. by apply map_lookup_filter_Some.
      + right. apply route_gone; [| done]. cbn [follow]. apply map_lookup_filter_None. right. intros r' Er. cbn. congruence. }
  cbn [follow]. apply map_lookup_filter_None. destruct Hr as [Hr | Hr]; [right | by left]. intros r' Er. cbn. rewrite Hr in Er. injection Er as <-. lia.
Qed.

Lemma ext_inv {A} (x : StateMonad.M (S := W) A) st a st' : ext x st = Ok (a, st') -> exists w', x st.2 = Ok (a, w') /\ st' = (st.1, w').
Proof. unfold ext. destruct (x st.2) as [[a' w'] |]; [| done]. cbn. intros [= -> <-]. by exists w'. Qed.

(** A new interface has no routes. *)
Lemma init_represents datapath_id ip port s w s1 w1 : contexts s = None ->
  init_openflow_switch_interface datapath_id ip port (s, w) = Ok (true, (s1, w1)) -> represents s1 ∅.
Proof.
  intros Hn E. unfold init_openflow_switch_interface in E. apply mbind_inv in E as (initialized & st & [= <- <-] & E). cbn [fst] in E.
  destruct (openflow_switch_interface_initialized s); [done |]. apply mbind_inv in E as (ok & st & Ei & E). apply ext_inv in Ei as (w2 & _ & ->). cbn [fst snd] in E.
  destruct ok; cbn [negb] in E; [| done]. repeat (apply mbind_inv in E as (? & ? & [= <- <-] & E)). cbn [fst snd contexts] in E. rewrite Hn in E.
  apply mbind_inv in E as (t & st & [= <- <-] & E). apply mbind_inv in E as (? & st & [= _ <-] & E). cbn [fst snd] in E.
  do 3 (apply mbind_inv in E as (? & ? & (? & _ & ->)%ext_inv & E); cbn [fst snd] in E). injection E as <- _.
  do 2 eexists. split_and!; [done | exact holds_new |]. intros xid. by rewrite !lookup_empty.
Qed.

(** ** Errors *)

(** The data of an error; [None] is an error that is not defined. *)
Definition error_reason m xid (type code : Z) : option bytes :=
  if type =? OFPET_HELLO_FAILED then hello_failed_data code
  else if existsb (Z.eqb code) (codes_of type) then Some (match m !! xid with Some r => take 64 (request r) | None => [] end)
  else None.

Lemma error_data_ok s m xid type code w : represents s m ->
  exists reason, error_data xid type code (s, w) = Ok (reason, (s, w)) /\ default [] <$> reason = error_reason m xid type code.
Proof.
  intros Hs. unfold error_data, error_reason. destruct (type =? OFPET_HELLO_FAILED); [by destruct (hello_failed_data code); eexists |].
  destruct (existsb _ _); [| by eexists]. rewrite (bind_run (get_openflow_message xid) _ (s, w) (context_message <$> (context_of xid <$> m !! xid)) (s, w)).
  2: { unfold get_openflow_message. by rewrite (bind_run _ _ _ _ _ (find_context_ok s m xid w Hs)). }
  eexists. split; [done |]. by destruct (m !! xid).
Qed.

Lemma error_reason_short m xid type code d : error_reason m xid type code = Some d -> blen d <= 64.
Proof.
  unfold error_reason. destruct (type =? OFPET_HELLO_FAILED).
  - unfold hello_failed_data. destruct (code =? OFPHFC_INCOMPATIBLE); [by intros [= <-] |]. by destruct (code =? OFPHFC_EPERM); intros [= <-].
  - destruct (existsb _ _); intros [= <-]. destruct (m !! xid); [| done]. unfold blen. rewrite length_take. lia.
Qed.

Lemma create_error_data xid type code (d : option bytes) : create_error xid type code d = create_error xid type code (Some (default [] d)).
Proof. by destruct d. Qed.

Lemma blen_error xid type code d : blen (wire_message xid (Error type code d)) = 12 + blen d.
Proof. rewrite blen_wire_message. unfold message_length. cbn [wire_body]. rewrite !blen_app, !blen_be_encode. lia. Qed.

(** C12. An error goes back to who asked, with what was asked.  The message of an
    error that is defined has the type, the code and the first sixty-four bytes
    of the request that is kept under the transaction id, or a text for a failed
    hello; it is sent where the request came from.  For a code that is not
    defined nothing is sent, and the result is false. *)
Theorem error_carries_request s m xid type code w : represents s m -> fits 4 xid -> fits 2 type -> fits 2 code ->
  send_error_message xid type code (s, w) =
    match error_reason m xid type code with
    | None => Ok (false, (s, w))
    | Some data => sent_by (deliver (route_to m xid) (wire_message xid (Error type code data))) s w
    end.
Proof.
  intros Hs Hxid Ht Hc. unfold send_error_message. destruct (error_data_ok s m xid type code w Hs) as (reason & E & Er). rewrite (bind_run _ _ _ _ _ E).
  pose proof (error_reason_short m xid type code) as Hlen. rewrite <- Er in *. destruct reason as [d |]; [| done]. cbn [fmap option_fmap option_map] in *.
  specialize (Hlen _ eq_refl). set (data := default [] d) in *. pose proof (blen_error xid type code data) as Hb. pose proof (blen_nonneg data).
  assert (Ec : create_error xid type code d = Ok (wire_message xid (Error type code data))).
  { rewrite create_error_data. apply (create_message_wire xid (Error type code data)). split; [done |]. rewrite blen_wire_message in Hb. lia. }
  rewrite (bind_run _ _ _ _ _ (lift_run _ _ _ Ec)). apply (message_sent s m); [done | rewrite Hb; unfold sizeof_ofp_header; lia | by apply ld_xid].
Qed.

(** C11. A program that plays a switch follows its routes.  Whatever happens, a
    request of the controller, a request of an application, or the timer, is
    handled without a fault: the contexts stay those of the map of routes, where
    a transaction id keeps its first request until the timer finds it five
    seconds old, and the handlers called are those of the request. *)
Theorem events_follow_routes s m e w : represents s m -> valid_event e ->
  exists s', serve_event e (s, w) = Ok (tt, (s', w)) /\ represents s' (follow (clock w) e m) /\
    event_handlers s' = event_handlers s /\ handler_calls s' = handler_calls s ++ event_calls s e.
Proof. apply event_handled. Qed.

(** C10. An answer goes back to who asked.  Of an interface that has been set up,
    after any events, take a request under a transaction id that has no route:
    what is sent under the id goes to the controller or the application that
    asked, as long as the timer has not run five seconds after the request; and
    to the controller once it has, until the id is used again. *)
Theorem answers_go_back datapath_id ip port s0 w0 s1 w1 before start e after s2 xid from q y w :
  contexts s0 = None -> init_openflow_switch_interface datapath_id ip port (s0, w0) = Ok (true, (s1, w1)) ->
  runs (before ++ (start, e) :: after) s1 s2 -> asks e = Some (xid, from, q) -> follow_all before ∅ !! xid = None -> fits 4 xid ->
  (Forall (young start) after ->
     switch_send_openflow_message (wire_message xid y) (s2, w) = sent_by (deliver from (wire_message xid y)) s2 w) /\
  (forall soon now late, after = soon ++ (now, Timer) :: late -> Forall (asks_not xid) soon -> start + CONTEXT_LIFETIME <= now -> Forall (asks_not xid) late ->
     switch_send_openflow_message (wire_message xid y) (s2, w) = sent_by (deliver None (wire_message xid y)) s2 w).
Proof.
  intros Hn Hi Hr Ha Hb Hxid. pose proof (runs_represents _ _ _ _ Hr (init_represents _ _ _ _ _ _ _ Hn Hi)) as Hs.
  unfold follow_all in Hs. rewrite fold_left_app in Hs. cbn [fold_left fst snd] in Hs. fold (follow_all before ∅) in Hs. rewrite (follow_asks _ _ _ _ _ _ Ha) in Hs.
  assert (Hm : add_route xid (Route from q start) (follow_all before ∅) !! xid = Some (Route from q start)) by (unfold add_route; by rewrite Hb, lookup_insert_eq).
  set (m := add_route _ _ _) in *. fold (follow_all after m) in Hs.
  assert (Hw : sizeof_ofp_header <= blen (wire_message xid y)) by (rewrite blen_wire_message; unfold message_length, sizeof_ofp_header; pose proof (blen_nonneg (wire_body y)); lia).
  split; [intros Hy | intros soon now late -> Hsoon Hnow Hlate]; rewrite (message_sent s2 _ xid _ w Hs Hw (ld_xid xid y Hxid)); unfold route_to.
  - by rewrite (route_stays _ _ _ _ Hm Hy).
  - unfold follow_all. rewrite fold_left_app. cbn [fold_left fst snd]. fold (follow_all soon m). fold (follow_all late (follow now Timer (follow_all soon m))).
    by rewrite route_gone by (done || by eapply route_old).
Qed.
End Routes.

(** * At the application *)

(** What [handle_openflow_message] of openflow_application_interface.c finds after
    the service header is the name of the service, and not a message. *)
Section AtTheApplication.
Context {host : Host}.
Implicit Types (rest name : bytes).

Definition printable (b : byte) : Prop := 32 <= be_decode [b].

Lemma unknown_type_rejected b0 b1 rest : 6 <= blen rest -> printable b0 -> b1 = zero \/ printable b1 ->
  exists e, validate_openflow_message (b0 :: b1 :: rest) = Ok e /\ e < 0.
Proof.
  intros Hl Hb0 Hb1. unfold printable in *.
  change (b0 :: b1 :: rest) with ([b0] ++ [b1] ++ rest). set (m := _ ++ _).
  assert (E0 : ld8 m 0 = Ok (be_decode [b0])) by (unfold m; by rewrite ld8_bytes, ld_bytes_here).
  assert (E1 : ld8 m 1 = Ok (be_decode [b1])) by (unfold m; by rewrite ld8_bytes, ld_bytes_skip, ld_bytes_here).
  assert (Hb : blen m = 2 + blen rest) by (unfold m; rewrite !blen_app; done || (change (blen [b0]) with 1; change (blen [b1]) with 1; lia)).
  unfold validate_openflow_message. rewrite E0. bind_ok. rewrite E1. bind_ok. unfold ld_ntoh.
  rewrite !ld_in by lia. bind_ok. destruct Hb1 as [-> | Hb1].
  - change (be_decode [zero]) with 0 in *. change (0 =? OFPT_HELLO) with true. cbv iota. unfold validate_hello, validate_header. rewrite Hb.
    rewrite (proj2 (Z.ltb_ge _ _)) by (unfold sizeof_ofp_header; lia). rewrite E0. bind_ok. exists ERROR_UNSUPPORTED_VERSION. split; [| done].
    unfold valid_message_version. change (OFPT_HELLO =? OFPT_HELLO) with true. cbn [negb]. by rewrite (proj2 (Z.leb_gt _ 4)), andb_false_r by lia.
  - repeat match goal with |- context [be_decode [b1] =? ?t] => rewrite (proj2 (Z.eqb_neq (be_decode [b1]) t)) by (unfold t; lia) end. by eexists.
Qed.

(** An application that gets such a message drops it: no handler is called and
    nothing is counted. *)
Theorem local_message_dropped {W : Type} `{Messaging W} (client : application) (w : W) datapath_id name xid y :
  length datapath_id = 8%nat -> name <> [] -> Forall printable name ->
  ApplicationInterface.handle_message MESSENGER_OPENFLOW_MESSAGE (local_message datapath_id name (wire_message xid y)) (client, w) = Ok (tt, (client, w)).
Proof.
  intros Hd Hne Hp. set (buffer := name ++ [zero] ++ wire_message xid y).
  assert (Hw : 8 <= blen (wire_message xid y)) by (rewrite blen_wire_message; unfold message_length; pose proof (blen_nonneg (wire_body y)); lia).
  assert (Hb : blen (local_message datapath_id name (wire_message xid y)) = 10 + blen buffer).
  { unfold local_message. fold buffer. rewrite !blen_app, blen_be_encode. unfold blen at 1. rewrite Hd. lia. }
  assert (Hbb : 10 <= blen buffer).
  { unfold buffer. rewrite !blen_app. destruct name as [| b name]; [done |]. rewrite blen_cons. change (blen [zero]) with 1. pose proof (blen_nonneg name). lia. }
  assert (Hrej : exists e, validate_openflow_message buffer = Ok e /\ e < 0).
  { unfold buffer. destruct Hp as [| b0 name Hb0 Hp]; [done |]. destruct Hp as [| b1 name Hb1 Hp]; cbn [app]; apply unknown_type_rejected; rewrite ?blen_app, ?blen_cons; try tauto.
    - lia.
    - pose proof (blen_nonneg name). lia. }
  destruct Hrej as (e & Ev & He). unfold ApplicationInterface.handle_message. rewrite Hb. pose proof (blen_nonneg buffer).
  rewrite (bind_run _ _ (client, w) tt (client, w)) by (apply lift_run; by rewrite (proj2 (Z.leb_le _ _)) by (unfold sizeof_openflow_service_header; lia)).
  rewrite Z.eqb_refl. unfold ApplicationInterface.handle_openflow_message. rewrite Hb.
  rewrite (bind_run _ _ (client, w) tt (client, w)) by (apply lift_run; by rewrite (proj2 (Z.leb_le _ _)) by (unfold sizeof_openflow_service_header, sizeof_ofp_header; lia)).
  assert (El : exists d, ld_ntoh 8 (local_message datapath_id name (wire_message xid y)) 0 = Ok d) by (eexists; unfold ld_ntoh; rewrite ld_in by lia; reflexivity).
  destruct El as [d El]. rewrite (bind_run _ _ _ _ _ (lift_run _ _ _ El)).
  rewrite (bind_run _ _ (client, w) buffer (client, w)).
  2: { apply lift_run. unfold remove_front. rewrite Hb. rewrite (proj2 (Z.leb_le _ _)) by (unfold sizeof_openflow_service_header; lia). change (sizeof_openflow_service_header =? 0) with false. unfold assert. cbn [negb]. bind_ok. f_equal.
    unfold local_message. fold buffer. rewrite app_assoc. apply drop_app_length'. by rewrite length_app, Hd, length_be_encode. }
  rewrite (bind_run _ _ _ _ _ (lift_run _ _ _ Ev)). by rewrite (proj2 (Z.ltb_lt _ _)).
Qed.
End AtTheApplication.

(** * Witnesses *)

Section Witnesses.
Let host : Host := LittleEndian.
#[local] Existing Instance host.

(** The time, and what has been sent to whom. *)
Definition desk : Type := Z * list (option bytes * bytes).

#[local] Instance desk_messaging : Messaging desk := {|
  get_trema_name := ret [];
  init_openflow_message := ret true;
  add_message_received_callback _ := ret true;
  add_message_replied_callback _ := ret true;
  delete_message_received_callback _ := ret true;
  delete_message_replied_callback _ := ret true;
  clear_send_queue _ := ret true;
  send_message name _ data := fun w => Ok (true, (w.1, w.2 ++ [(Some name, data)]));
  send_request_message _ _ _ _ _ := ret true;
  increment_stat _ := ret tt
|}.

#[local] Instance desk_chibach : Chibach desk := {|
  init_secure_channel _ _ := ret true;
  finalize_secure_channel := ret true;
  send_message_to_secure_channel message := fun w => Ok (true, (w.1, w.2 ++ [(None, message)]));
  get_chibach_name := ret [];
  add_periodic_event_callback _ := ret true;
  delete_timer_event := ret true;
  time := fun w => Ok (w.1, w);
  left_in_memory n := ret (zeros n)
|}.

Lemma desk_time (w : desk) : time w = Ok (w.1, w).
Proof. done. Qed.

Definition sample_request : event := FromApplication 171 (str "a") 7 (sample_flow_mod OFPFC_ADD).

Lemma sample_request_valid : valid_event sample_request.
Proof. split; [split; [exact sample_flow_mod_valid | done] |]. split; [set_solver | done]. Qed.

Lemma sample_switch_routes : represents sample_switch ∅.
Proof. do 2 eexists. split; [done | split; [exact holds_new |]]. intros xid. by rewrite !lookup_empty. Qed.

Lemma events_follow_routes_witness : represents sample_switch ∅ /\ valid_event sample_request /\
  exists s', serve_event sample_request (sample_switch, (0, []) : desk) = Ok (tt, (s', (0, []))) /\
    represents s' (follow 0 sample_request ∅) /\ event_handlers s' = event_handlers sample_switch /\
    handler_calls s' = handler_calls sample_switch ++ event_calls sample_switch sample_request.
Proof.
  split; [exact sample_switch_routes | split; [exact sample_request_valid |]].
  exact (events_follow_routes fst desk_time sample_switch ∅ sample_request (0, []) sample_switch_routes sample_request_valid).
Defined.

(** A request of before, and an action that is not known. *)
Lemma error_carries_request_witness : exists s, represents s (follow 0 sample_request ∅) /\
  send_error_message 7 OFPET_BAD_ACTION OFPBAC_BAD_TYPE (s, (1, []) : desk)
    = Ok (true, (s, (1, [(Some (str "a"), local_message (zeros 8) (str "a")
        (wire_message 7 (Error OFPET_BAD_ACTION OFPBAC_BAD_TYPE (take 64 (wire_message 7 (sample_flow_mod OFPFC_ADD))))))]))).
Proof.
  destruct (event_handled fst desk_time sample_switch ∅ sample_request (0, []) sample_switch_routes sample_request_valid) as (s & _ & Hs & _).
  exists s. split; [exact Hs |]. exact (error_carries_request s _ 7 OFPET_BAD_ACTION OFPBAC_BAD_TYPE (1, []) Hs ltac:(done) ltac:(done) ltac:(done)).
Defined.

Definition set_up : switch_interface := SwitchInterface true no_event_handlers (OpenflowSwitchConfig 171 1 6633) (Some (create_hash_with_size 128)) [].

(** An answer three seconds later, and one ten seconds later. *)
Lemma answers_go_back_witness : exists s2 s3,
  runs fst [(0, sample_request); (3, Timer)] set_up s2 /\ runs fst [(0, sample_request); (10, Timer)] set_up s3 /\
  switch_send_openflow_message (wire_message 7 BarrierReply) (s2, (4, []) : desk)
    = Ok (true, (s2, (4, [(Some (str "a"), local_message (zeros 8) (str "a") (wire_message 7 BarrierReply))]))) /\
  switch_send_openflow_message (wire_message 7 BarrierReply) (s3, (11, []) : desk) = Ok (true, (s3, (11, [(None, wire_message 7 BarrierReply)]))).
Proof.
  assert (H7 : fits 4 7) by done.
  assert (Hi : init_openflow_switch_interface 171 1 6633 (zero_switch_interface, (0, []) : desk) = Ok (true, (set_up, (0, [])))) by reflexivity.
  pose proof (init_represents 171 1 6633 zero_switch_interface (0, []) _ _ eq_refl Hi) as H0.
  destruct (event_handled fst desk_time set_up ∅ sample_request (0, []) H0 sample_request_valid) as (s1 & E1 & H1 & _).
  destruct (event_handled fst desk_time s1 _ Timer (3, []) H1 I) as (s2 & E2 & _). destruct (event_handled fst desk_time s1 _ Timer (10, []) H1 I) as (s3 & E3 & _).
  assert (R : forall t s', serve_event Timer (s1, (t, []) : desk) = Ok (tt, (s', (t, []))) -> runs fst [(0, sample_request); (t, Timer)] set_up s').
  { intros t s' E. apply (runs_cons fst sample_request (0, []) (0, []) _ _ s1); [exact sample_request_valid | exact E1 |].
    apply (runs_cons fst Timer (t, []) (t, []) _ _ s'); [exact I | exact E | apply runs_nil]. }
  assert (A : forall t s' w, serve_event Timer (s1, (t, []) : desk) = Ok (tt, (s', (t, []))) -> _) by
    (intros t s' w E; exact (answers_go_back fst desk_time 171 1 6633 zero_switch_interface (0, []) set_up (0, []) [] 0 sample_request [(t, Timer)] s' 7
      (Some (str "a")) (wire_message 7 (sample_flow_mod OFPFC_ADD)) BarrierReply w eq_refl Hi (R t s' E) eq_refl eq_refl H7)).
  exists s2, s3. split; [by apply R | split; [by apply R |]]. split.
  - apply (proj1 (A 3 s2 (4, []) E2)). apply Forall_cons_2; [by intros _ | apply Forall_nil_2].
  - exact (proj2 (A 10 s3 (11, []) E3) [] 10 [] eq_refl ltac:(apply Forall_nil_2) ltac:(clear; unfold CONTEXT_LIFETIME; lia) ltac:(apply Forall_nil_2)).
Defined.
End Witnesses.
