(* ===== verification/EventForwardInterface.v ===== *)
(** event_forward_interface.c: what a program calls to choose the events that the
    switch manager and the daemons of the switches forward to it.

    A request goes to a daemon with the callback for its reply.  A request to all
    the switches is a transaction: first the switch manager, then the list of the
    switches, then each of them, with five seconds for its reply.

    A transaction and the record of a request of one switch live on heaps, as the
    table, the timers and the replies point to them.  A parameter that its
    callback frees is a value.  The calls of the functions of the program are
    logged; what they do in turn comes after.  The messenger and the timers are an
    interface. *)

From Stdlib Require Import ZArith Lia Bool String.
From coqutil Require Import Byte.
From stdpp Require Import base list gmap.
From S2P Require Import Prelude Memory StateMonad HashTable Utility EventForward Management.

Definition EFI_GET_SWLIST : Z := 7.

(** * Data *)

(** [event_forward_operation_to_all_request_param] *)
Record to_all_param : Type := ToAllParam {
  add : bool;
  all_type : Z;
  all_service_name : bytes;
  all_callback : option Z;
  all_user_data : Z
}.

Record txinfo : Type := TxInfo { info_dpid : Z; info_txid : Z }.

(** The functions of type [event_forward_entry_operation_callback], with their
    user data. *)
Inductive operation_callback : Type :=
| user_operation (function user_data : Z)
| switch_response_handler (txinfo : positive)
| get_switch_list_after_swm_succ (param : to_all_param).

(** The functions of type [switch_list_request_callback], with their user data. *)
Inductive list_callback : Type :=
| user_list (function user_data : Z)
| dispatch_to_all_switch (param : to_all_param).

(** The user data of a request: [event_forward_operation_request_param] and
    [sw_list_request_param].  A callback may be NULL. *)
Inductive request_param : Type :=
| operation_param (callback : option operation_callback)
| sw_list_param (callback : list_callback).

Record event_forward_operation_result : Type := OperationResult { result : Z; services : list bytes }.

(** The keys of both tables point into their values. *)
Abbreviation dpid_table := (hash_table Z (option Z)).
Abbreviation tx_table := (hash_table Z (option positive)).

Record all_sw_tx : Type := AllSwTx { tx_txid : Z; waiting_dpid : dpid_table; tx_result : Z; request_param_of : to_all_param }.

(** The calls of the functions of the program. *)
Inductive user_call : Type :=
| OperationDone (function : Z) (r : event_forward_operation_result) (user_data : Z)
| ListDone (function : Z) (dpids : option (list Z)) (user_data : Z)
| ToAllDone (function : Z) (r : Z) (user_data : Z).

(** The static variables, the two heaps, and the log. *)
Record forwarding : Type := Forwarding {
  efi_queue_name : option bytes;
  efi_tx_table : option tx_table;
  transactions : gmap positive all_sw_tx;
  txinfos : gmap positive txinfo;
  last_txid : Z;
  user_calls : list user_call
}.

Definition zero_forwarding : forwarding := Forwarding None None ∅ ∅ 0 [].

(** * What the interface asks of the messenger, the timers and trema.c

    The only timer is [_switch_response_timeout] after five seconds, once, with
    the address of a [txinfo]. *)
Class Requesting (W : Type) : Type := {
  trema_name : M (S := W) bytes;
  trema_getpid : M (S := W) Z;
  add_message_replied_callback : bytes -> M (S := W) bool;
  delete_message_replied_callback : bytes -> M (S := W) bool;
  send_request_message : bytes -> bytes -> Z -> bytes -> request_param -> M (S := W) bool;
  add_timer_event_callback : positive -> M (S := W) bool;
  delete_timer_event : positive -> M (S := W) bool
}.

(** Decimal digits of a positive [int]. *)
Fixpoint decimal_digits (fuel : nat) (n : Z) (digits : bytes) : bytes :=
  match fuel with
  | O => digits
  | S fuel => if n =? 0 then digits else decimal_digits fuel (n / 10) (byte.of_Z (48 + n mod 10) :: digits)
  end.

Definition ascii (s : string) : bytes := map (fun c => byte.of_Z (Z.of_nat (Ascii.nat_of_ascii c))) (list_ascii_of_string s).

Definition SWITCH_MANAGER_M : bytes := ascii "switch_manager.m".

(** [snprintf( switch_name, ..., "switch.%#" PRIx64 ".m", dpid )] *)
Definition switch_name (dpid : Z) : bytes :=
  take (Z.to_nat (MESSENGER_SERVICE_NAME_LENGTH - 1)) (ascii "switch." ++ print_hex dpid ++ ascii ".m").

Section Interface.
Context {host : Host} {W : Type} `{Requesting W}.
Implicit Types (data name : bytes) (service_list : list bytes) (param : to_all_param) (dpid : Z).
#[local] Abbreviation M := (M (S := forwarding * W)).

Definition get {A} (f : forwarding -> A) : M A := fun s => Ok (f s.1, s).
Definition put (f : forwarding -> forwarding) : M unit := fun s => Ok (tt, (f s.1, s.2)).
Definition ext {A} (x : StateMonad.M (S := W) A) : M A := fun s => let* (a, w) := x s.2 in Ok (a, (s.1, w)).

Definition set_queue_name (name : option bytes) : M unit :=
  put (fun f => Forwarding name (efi_tx_table f) (transactions f) (txinfos f) (last_txid f) (user_calls f)).
Definition set_tx_table (t : option tx_table) : M unit :=
  put (fun f => Forwarding (efi_queue_name f) t (transactions f) (txinfos f) (last_txid f) (user_calls f)).
Definition set_transactions (h : gmap positive all_sw_tx) : M unit :=
  put (fun f => Forwarding (efi_queue_name f) (efi_tx_table f) h (txinfos f) (last_txid f) (user_calls f)).
Definition set_txinfos (h : gmap positive txinfo) : M unit :=
  put (fun f => Forwarding (efi_queue_name f) (efi_tx_table f) (transactions f) h (last_txid f) (user_calls f)).
Definition log (c : user_call) : M unit :=
  put (fun f => Forwarding (efi_queue_name f) (efi_tx_table f) (transactions f) (txinfos f) (last_txid f) (user_calls f ++ [c])).

(** ** Transactions *)

(** A table that is NULL fails the assertion of the functions on tables. *)
Definition the_table : M tx_table :=
  let! t := get efi_tx_table in match t with Some t => ret t | None => fault AssertFailed end.

Definition load_tx (tx : positive) : M all_sw_tx :=
  let! h := get transactions in match h !! tx with Some r => ret r | None => fault UseAfterFree end.

Definition store_tx (tx : positive) (r : all_sw_tx) : M unit :=
  let! h := get transactions in
  match h !! tx with Some _ => set_transactions (<[tx := r]> h) | None => fault UseAfterFree end.

Definition load_txinfo (info : positive) : M txinfo :=
  let! h := get txinfos in match h !! info with Some r => ret r | None => fault UseAfterFree end.

Definition free_txinfo (info : positive) : M unit := let! h := get txinfos in set_txinfos (delete info h).

Definition lookup_tx (txid : Z) : M (option positive) :=
  let! t := the_table in lift (lookup_hash_entry (H := uint32_key) None t txid).

Definition delete_tx (txid : Z) : M unit :=
  let! t := the_table in
  let! (_, t) := lift (delete_hash_entry (H := uint32_key) None t txid) in
  set_tx_table (Some t).

(** [delete_hash] of what is waited for, and [xfree]. *)
Definition xfree_all_sw_tx (tx : positive) : M unit :=
  let! r := load_tx tx in
  let! _ := lift (delete_hash (waiting_dpid r)) in
  let! h := get transactions in
  set_transactions (delete tx h).

Definition remove_waiting (tx : positive) dpid : M unit :=
  let! r := load_tx tx in
  let! (_, t) := lift (delete_hash_entry (H := datapath_id_key) None (waiting_dpid r) dpid) in
  store_tx tx (AllSwTx (tx_txid r) t (tx_result r) (request_param_of r)).

Definition set_tx_result (tx : positive) (v : Z) : M unit :=
  let! r := load_tx tx in store_tx tx (AllSwTx (tx_txid r) (waiting_dpid r) v (request_param_of r)).

Definition waiting_for (tx : positive) dpid : M (option Z) :=
  let! r := load_tx tx in lift (lookup_hash_entry (H := datapath_id_key) None (waiting_dpid r) dpid).

Definition get_txid : M Z :=
  let! _ := put (fun f => Forwarding (efi_queue_name f) (efi_tx_table f) (transactions f) (txinfos f) (u32 (last_txid f + 1)) (user_calls f)) in
  get last_txid.

Definition hash_table_is_empty (t : dpid_table) : res bool :=
  let* it := init_hash_iterator t in
  let* (e, _) := iterate_hash_next t it in
  Ok (match e with None => true | Some _ => false end).

(** The function of the program for a request to all switches. *)
Definition respond param (r : Z) : M unit :=
  match all_callback param with
  | Some function => log (ToAllDone function r (all_user_data param))
  | None => ret tt
  end.

(** The callback is called, and the transaction is taken away. *)
Definition finish_tx (tx : positive) : M unit :=
  let! r := load_tx tx in
  let! _ := respond (request_param_of r) (tx_result r) in
  let! _ := delete_tx (tx_txid r) in
  xfree_all_sw_tx tx.

Definition check_tx_result_and_respond (tx : positive) : M bool :=
  let! r := load_tx tx in
  if tx_result r =? EFI_OPERATION_FAILED then let! _ := finish_tx tx in ret true else ret false.

Definition _switch_response_timeout (info : positive) : M unit :=
  let! i := load_txinfo info in
  let! tx := lookup_tx (info_txid i) in
  match tx with
  | None => ret tt
  | Some tx =>
    let! dpid_in_list := waiting_for tx (info_dpid i) in
    let! _ := match dpid_in_list with
              | Some _ => let! _ := remove_waiting tx (info_dpid i) in set_tx_result tx EFI_OPERATION_FAILED
              | None => ret tt
              end in
    let! _ := check_tx_result_and_respond tx in
    ret tt
  end.

Definition _switch_response_handler (r : event_forward_operation_result) (info : positive) : M unit :=
  let! i := load_txinfo info in
  let! _ := ext (delete_timer_event info) in
  let! _ := free_txinfo info in
  let! tx := lookup_tx (info_txid i) in
  match tx with
  | None => ret tt
  | Some tx =>
    let! dpid_in_list := waiting_for tx (info_dpid i) in
    match dpid_in_list with
    | None => ret tt
    | Some _ =>
      let! _ := remove_waiting tx (info_dpid i) in
      let! _ := if result r =? EFI_OPERATION_FAILED then set_tx_result tx EFI_OPERATION_FAILED else ret tt in
      let! tx_ended := check_tx_result_and_respond tx in
      if tx_ended : bool then ret tt
      else
        let! r := load_tx tx in
        let! is_empty := lift (hash_table_is_empty (waiting_dpid r)) in
        if is_empty : bool then finish_tx tx else ret tt
    end
  end.

Definition _insert_tx (n_dpids : Z) param : M positive :=
  let! txid := get_txid in
  let! h := get transactions in
  let tx := fresh (dom h) in
  let! _ := set_transactions (<[tx := AllSwTx txid (create_hash_with_size (u32 n_dpids)) EFI_OPERATION_SUCCEEDED param]> h) in
  let! t := the_table in
  let! (dupe_tx, t) := lift (insert_hash_entry (H := uint32_key) None t txid (Some tx)) in
  let! _ := set_tx_table (Some t) in
  let! _ := lift (assert (match dupe_tx with None => true | Some _ => false end)) in
  ret tx.

(** ** Start and end *)

Definition print_decimal (n : Z) : bytes := if n =? 0 then ascii "0" else decimal_digits 10 n [].

Definition init_event_forward_interface : M bool :=
  let! queue_name := get efi_queue_name in
  match queue_name with
  | Some _ => ret false
  | None =>
    let! trema := ext trema_name in
    let! pid := ext trema_getpid in
    let name := c_string trema ++ ascii "-efic-" ++ print_decimal pid in
    let name := if MESSENGER_SERVICE_NAME_LENGTH <=? blen name then ascii "efic-" ++ print_decimal pid else name in
    let! _ := set_queue_name (Some name) in
    let! _ := ext (add_message_replied_callback name) in
    let! _ := set_tx_table (Some create_hash) in
    ret true
  end.

Definition maybe_init_event_forward_interface : M unit :=
  let! queue_name := get efi_queue_name in
  match queue_name with
  | None => let! _ := init_event_forward_interface in ret tt
  | Some _ => ret tt
  end.

Fixpoint cleanup_loop (fuel : nat) (it : hash_iterator) : M unit :=
  match fuel with
  | O => fault OutOfFuel
  | S fuel =>
    let! t := the_table in
    let! (e, it) := lift (iterate_hash_next t it) in
    match e with
    | None => ret tt
    | Some e =>
      match value e with
      | None => fault NullPointer
      | Some tx =>
        let! r := load_tx tx in
        let! _ := delete_tx (tx_txid r) in
        let! _ := xfree_all_sw_tx tx in
        cleanup_loop fuel it
      end
    end
  end.

Definition _cleanup_tx_table : M unit :=
  let! t := the_table in
  let! it := lift (init_hash_iterator t) in
  cleanup_loop (S (length (visited t))) it.

Definition finalize_event_forward_interface : M bool :=
  let! queue_name := get efi_queue_name in
  match queue_name with
  | None => ret false
  | Some name =>
    let! _ := ext (delete_message_replied_callback name) in
    let! _ := set_queue_name None in
    let! _ := _cleanup_tx_table in
    let! t := the_table in
    let! _ := lift (delete_hash t) in
    let! _ := set_tx_table None in
    ret true
  end.

(** ** Requests *)

Definition is_efi_command (command : Z) : bool := (EVENT_FORWARD_ENTRY_ADD <=? command) && (command <=? EVENT_FORWARD_ENTRY_SET).

Definition management_application_request (command : Z) data : bytes :=
  host_encode 2 (htons MANAGEMENT_APPLICATION_REQUEST) ++ host_encode 4 (htonl (u32 (offsetof_management_application_request_data + blen data)))
    ++ host_encode 4 (htonl command) ++ data.

Definition send_to (service_name : bytes) data (p : request_param) : M bool :=
  let! queue_name := get efi_queue_name in
  match queue_name with
  | None => fault NullPointer
  | Some queue_name => ext (send_request_message service_name queue_name MESSENGER_MANAGEMENT_REQUEST data p)
  end.

Definition send_efi_event_config_request (service_name : option bytes) (command type : Z) service_list (callback : option operation_callback) : M bool :=
  let! _ := maybe_init_event_forward_interface in
  match service_name with
  | None => ret false
  | Some service_name =>
    if negb (is_efi_command command) then ret false
    else send_to service_name (management_application_request command (create_event_forward_operation_request type service_list)) (operation_param callback)
  end.

Definition set_switch_manager_event_forward_entries (type : Z) service_list (callback : option operation_callback) : M bool :=
  send_efi_event_config_request (Some SWITCH_MANAGER_M) EVENT_FORWARD_ENTRY_SET type service_list callback.
Definition add_switch_manager_event_forward_entry (type : Z) service_name (callback : option operation_callback) : M bool :=
  send_efi_event_config_request (Some SWITCH_MANAGER_M) EVENT_FORWARD_ENTRY_ADD type [c_string service_name] callback.
Definition delete_switch_manager_event_forward_entry (type : Z) service_name (callback : option operation_callback) : M bool :=
  send_efi_event_config_request (Some SWITCH_MANAGER_M) EVENT_FORWARD_ENTRY_DELETE type [c_string service_name] callback.
Definition dump_switch_manager_event_forward_entries (type : Z) (callback : option operation_callback) : M bool :=
  send_efi_event_config_request (Some SWITCH_MANAGER_M) EVENT_FORWARD_ENTRY_DUMP type [] callback.
Definition set_switch_event_forward_entries dpid (type : Z) service_list (callback : option operation_callback) : M bool :=
  send_efi_event_config_request (Some (switch_name dpid)) EVENT_FORWARD_ENTRY_SET type service_list callback.
Definition add_switch_event_forward_entry dpid (type : Z) service_name (callback : option operation_callback) : M bool :=
  send_efi_event_config_request (Some (switch_name dpid)) EVENT_FORWARD_ENTRY_ADD type [c_string service_name] callback.
Definition delete_switch_event_forward_entry dpid (type : Z) service_name (callback : option operation_callback) : M bool :=
  send_efi_event_config_request (Some (switch_name dpid)) EVENT_FORWARD_ENTRY_DELETE type [c_string service_name] callback.
Definition dump_switch_event_forward_entries dpid (type : Z) (callback : option operation_callback) : M bool :=
  send_efi_event_config_request (Some (switch_name dpid)) EVENT_FORWARD_ENTRY_DUMP type [] callback.

Definition send_efi_switch_list_request (callback : option list_callback) : M bool :=
  let! _ := maybe_init_event_forward_interface in
  match callback with
  | None => ret false
  | Some callback => send_to SWITCH_MANAGER_M (management_application_request EFI_GET_SWLIST []) (sw_list_param callback)
  end.

(** ** All the switches *)

(** The request of one switch, and its timer. *)
Definition dispatch_to (tx : positive) (txid : Z) param dpid : M unit :=
  let! r := load_tx tx in
  let! (dupe_dpid, t) := lift (insert_hash_entry (H := datapath_id_key) None (waiting_dpid r) dpid (Some dpid)) in
  let! _ := store_tx tx (AllSwTx (tx_txid r) t (tx_result r) (request_param_of r)) in
  match dupe_dpid with
  | Some _ => ret tt
  | None =>
    let! h := get txinfos in
    let info := fresh (dom h) in
    let! _ := set_txinfos (<[info := TxInfo dpid txid]> h) in
    let! send_ok :=
      if add param then add_switch_event_forward_entry dpid (all_type param) (all_service_name param) (Some (switch_response_handler info))
      else delete_switch_event_forward_entry dpid (all_type param) (all_service_name param) (Some (switch_response_handler info)) in
    if negb send_ok then
      let! _ := set_tx_result tx EFI_OPERATION_FAILED in
      let! _ := remove_waiting tx dpid in
      free_txinfo info
    else
      let! set_ok := ext (add_timer_event_callback info) in
      if negb set_ok then
        let! _ := set_tx_result tx EFI_OPERATION_FAILED in
        remove_waiting tx dpid
      else ret tt
  end.

Fixpoint dispatch_loop (tx : positive) (txid : Z) param (dpids : list Z) : M unit :=
  match dpids with
  | [] => ret tt
  | dpid :: dpids => let! _ := dispatch_to tx txid param dpid in dispatch_loop tx txid param dpids
  end.

(** [dpids] is NULL, with no elements, when the switch manager has failed. *)
Definition _dispatch_to_all_switch (dpids : option (list Z)) param : M unit :=
  let dpids := default [] dpids in
  let! tx := _insert_tx (Z.of_nat (length dpids)) param in
  let! r := load_tx tx in
  let! _ := dispatch_loop tx (tx_txid r) param dpids in
  let! r := load_tx tx in
  if (Z.of_nat (length dpids) =? 0) || (tx_result r =? EFI_OPERATION_FAILED) then finish_tx tx else ret tt.

Definition _get_switch_list_after_swm_succ (r : event_forward_operation_result) param : M unit :=
  let! success :=
    if result r =? EFI_OPERATION_SUCCEEDED then send_efi_switch_list_request (Some (dispatch_to_all_switch param)) else ret false in
  if negb success then respond param EFI_OPERATION_FAILED else ret tt.

Definition add_event_forward_entry_to_all_switches (type : Z) service_name (callback : option Z) (user_data : Z) : M bool :=
  let param := ToAllParam true type (c_string service_name) callback user_data in
  add_switch_manager_event_forward_entry type service_name (Some (get_switch_list_after_swm_succ param)).

Definition delete_event_forward_entry_to_all_switches (type : Z) service_name (callback : option Z) (user_data : Z) : M bool :=
  let param := ToAllParam false type (c_string service_name) callback user_data in
  delete_switch_manager_event_forward_entry type service_name (Some (get_switch_list_after_swm_succ param)).

(** ** Replies *)

Definition run_operation_callback (callback : option operation_callback) (r : event_forward_operation_result) : M unit :=
  match callback with
  | None => ret tt
  | Some (user_operation function user_data) => log (OperationDone function r user_data)
  | Some (switch_response_handler info) => _switch_response_handler r info
  | Some (get_switch_list_after_swm_succ param) => _get_switch_list_after_swm_succ r param
  end.

Definition run_list_callback (callback : list_callback) (dpids : option (list Z)) : M unit :=
  match callback with
  | user_list function user_data => log (ListDone function dpids user_data)
  | dispatch_to_all_switch param => _dispatch_to_all_switch dpids param
  end.

Definition sizeof_management_application_reply : Z := 12.
Definition offset_service_list : Z := sizeof_management_application_reply + sizeof_event_forward_operation.

(** The loop over the names, from [next_name] to [last]. *)
Fixpoint split_names (fuel : nat) data (next_name last n_services_expected : Z) (names : list bytes) : res (list bytes) :=
  match fuel with
  | O => Fault OutOfFuel
  | S fuel =>
    if next_name <? last then
      let name := c_string (drop (Z.to_nat next_name) data) in
      let names := if (0 <? blen name) && (Z.of_nat (length names) <? n_services_expected) then names ++ [name] else names in
      split_names fuel data (next_name + blen name + 1) last n_services_expected names
    else Ok names
  end.

(** [data] is what is behind the pointer, and [length] what was received. *)
Definition handle_event_forward_operation_reply data (length : Z) (callback : option operation_callback) : M unit :=
  let failed := OperationResult EFI_OPERATION_FAILED [] in
  let! n_services := lift (ld_ntoh 4 data 16) in
  let! data := lift (st32 data 16 n_services) in
  let! status := lift (ld8 data 2) in
  if status =? MANAGEMENT_REQUEST_FAILED then run_operation_callback callback failed
  else
    let! reply_result := lift (ld8 data 13) in
    if negb (reply_result =? EFI_OPERATION_SUCCEEDED) then run_operation_callback callback failed
    else
      let service_list_len := u64 (length - offset_service_list) in
      let! data := lift (st8 data (offset_service_list + service_list_len) 0) in
      let! n_services_expected := lift (ld32 data 16) in
      let! names := lift (split_names (S (Z.to_nat service_list_len)) data offset_service_list (offset_service_list + service_list_len) n_services_expected []) in
      run_operation_callback callback (OperationResult EFI_OPERATION_SUCCEEDED names).

Fixpoint load_dpids (n_dpids : nat) data (offset : Z) : res (list Z) :=
  match n_dpids with
  | O => Ok []
  | S n => let* dpid := ld_ntoh 8 data offset in let* dpids := load_dpids n data (offset + 8) in Ok (dpid :: dpids)
  end.

Definition handle_get_switch_list_reply data (length : Z) (callback : list_callback) : M unit :=
  let! status := lift (ld8 data 2) in
  if status =? MANAGEMENT_REQUEST_FAILED then run_list_callback callback None
  else
    let data_bytes := length - sizeof_management_application_reply in
    let! dpids := lift (load_dpids (Z.to_nat (data_bytes / 8)) data sizeof_management_application_reply) in
    run_list_callback callback (Some dpids).

(** The user data is taken for what the command says: a reply with another
    command than its request has calls a function with the wrong arguments. *)
Definition handle_efi_reply (tag : Z) (data : option bytes) (length : Z) (user_data : request_param) : M unit :=
  if negb (tag =? MESSENGER_MANAGEMENT_REPLY) then ret tt
  else
    match data with
    | None => ret tt
    | Some data =>
      if length <? sizeof_management_application_reply then ret tt
      else
        let! type := lift (ld_ntoh 2 data 0) in
        if negb (type =? MANAGEMENT_APPLICATION_REPLY) then ret tt
        else
          let! command := lift (ld_ntoh 4 data 8) in
          if is_efi_command command then
            match user_data with
            | operation_param callback => handle_event_forward_operation_reply data length callback
            | sw_list_param _ => fault OutOfBounds
            end
          else if command =? EFI_GET_SWLIST then
            match user_data with
            | sw_list_param callback => handle_get_switch_list_reply data length callback
            | operation_param _ => fault OutOfBounds
            end
          else ret tt
    end.
End Interface.
