(* ===== verification/ForwardRequests.v ===== *)
(** The requests of event_forward_interface.c, from the program that makes them
    through management_interface.c to the daemon of a switch, and the reply on the
    way back. *)

From Stdlib Require Import ZArith Lia Bool.
From coqutil Require Import Byte.
From stdpp Require Import base list gmap.
From S2P Require Import Prelude Memory StateMonad HashTable Utility Management EventForward SwitchInfo Daemon EventForwardInterface.

(** * A request through the management interface *)

Section Request.
Context {host : Host} {V : Type} `{Managed V}.
Implicit Types (data : bytes).

(** A request with its header is handed to the handler of the program, with the
    id and the data. *)
Lemma application_request_handed handle command data (m : management) (v : V) function :
  application_callback m = Some function -> fits 4 command -> offsetof_management_application_request_data + blen data < 2 ^ 32 -> data <> [] ->
  handle_request handle MESSENGER_MANAGEMENT_REQUEST (management_application_request command data) (m, v)
    = Ok (tt, (Management.Management (Management.initialized m) (application_callback m) (application_user_data m)
        (application_calls m ++ [ApplicationCall handle command (Some data) (blen data) function (application_user_data m)]), v)).
Proof.
  intros Hf Hc Hl Hne. unfold offsetof_management_application_request_data in *. pose proof (blen_nonneg data) as Hn.
  assert (Hpos : 0 < blen data) by (destruct data; [done | rewrite blen_cons; pose proof (blen_nonneg data); lia]).
  set (R := management_application_request command data).
  assert (HR : R = be_encode 2 MANAGEMENT_APPLICATION_REQUEST ++ be_encode 4 (10 + blen data) ++ be_encode 4 command ++ data).
  { unfold R, management_application_request, htons, htonl, offsetof_management_application_request_data. rewrite !host_encode_hton. unfold u32. by rewrite Z.mod_small by lia. }
  assert (Hb : blen R = 10 + blen data) by (rewrite HR, !blen_app, !blen_be_encode; lia).
  assert (Et : ld_ntoh 2 R 0 = Ok MANAGEMENT_APPLICATION_REQUEST) by (rewrite HR; by apply ld_ntoh_wire).
  assert (El : ld_ntoh 4 R 2 = Ok (10 + blen data)) by (rewrite HR; assert (fits 4 (10 + blen data)) by (unfold fits; lia); by rd).
  assert (Ei : ld_ntoh 4 R 6 = Ok command) by (rewrite HR; by rd).
  assert (Ed : ld_range R 10 (blen data) = Ok data) by (rewrite HR; rewrite !ld_range_skip by (rewrite ?blen_be_encode; lia); rewrite !blen_be_encode; by apply ld_range_all).
  unfold handle_request. change (MESSENGER_MANAGEMENT_REQUEST =? MESSENGER_MANAGEMENT_REQUEST) with true. cbv iota. rewrite Hb.
  unfold sizeof_management_request_header. rewrite (proj2 (Z.ltb_ge _ _)) by lia. unfold handle_management_request. rewrite Hb.
  rewrite (bind_run _ _ (m, v) tt (m, v)) by (apply lift_run; unfold sizeof_management_request_header; by rewrite (proj2 (Z.leb_le _ _)) by lia).
  rewrite (bind_run _ _ _ _ _ (lift_run _ _ _ El)). rewrite (bind_run _ _ (m, v) tt (m, v)) by (apply lift_run; by rewrite Z.eqb_refl).
  rewrite (bind_run _ _ _ _ _ (lift_run _ _ _ Et)). cbn [Z.eqb Pos.eqb MANAGEMENT_APPLICATION_REQUEST MANAGEMENT_ECHO_REQUEST MANAGEMENT_SET_LOGGING_LEVEL_REQUEST MANAGEMENT_SHOW_STATS_REQUEST].
  unfold offsetof_management_application_request_data. rewrite (proj2 (Z.ltb_ge _ _)) by lia. unfold handle_application_request.
  rewrite (bind_run (assert_request _ _ _) _ (m, v) tt (m, v)).
  2: { unfold assert_request. rewrite (bind_run _ _ _ _ _ (lift_run _ _ _ Et)), (bind_run _ _ (m, v) tt (m, v)) by by apply lift_run.
    rewrite (bind_run _ _ _ _ _ (lift_run _ _ _ El)). apply lift_run. unfold offsetof_management_application_request_data. by rewrite (proj2 (Z.leb_le _ _)) by lia. }
  rewrite (bind_run (Management.get _) _ (m, v) (Some function) (m, v)) by (unfold Management.get; cbn; by rewrite Hf).
  rewrite (bind_run _ _ _ _ _ (lift_run _ _ _ El)). cbv zeta. unfold offsetof_management_application_request_data. replace (10 + blen data - 10) with (blen data) by lia.
  rewrite (proj2 (Z.ltb_lt _ _)) by lia. rewrite (bind_run _ _ (m, v) (Some data) (m, v)) by (apply lift_run; by rewrite Ed).
  by rewrite (bind_run _ _ _ _ _ (lift_run _ _ _ Ei)).
Qed.
End Request.

(** * The answer of the daemon *)

Section Daemon.
Context {host : Host}.
Implicit Types (l names : list bytes) (sw : switch_info) (name : bytes).

(** What a command makes of a list of services. *)
Definition served (command : Z) l names : list bytes :=
  if command =? EVENT_FORWARD_ENTRY_SET then names
  else if command =? EVENT_FORWARD_ENTRY_DUMP then l
  else
    match names with
    | name :: _ =>
      if command =? EVENT_FORWARD_ENTRY_ADD then if decide (name ∈ l) then l else l ++ [name]
      else List.filter (fun s => negb (bool_decide (s = name))) l
    | [] => l
    end.

(** The requests that the functions of the interface make, and a list that is not
    empty for those of one name. *)
Definition can_serve (command : Z) l names : Prop :=
  command = EVENT_FORWARD_ENTRY_SET \/
  (command = EVENT_FORWARD_ENTRY_DUMP /\ names = []) \/
  ((command = EVENT_FORWARD_ENTRY_ADD \/ command = EVENT_FORWARD_ENTRY_DELETE) /\ l <> [] /\ exists name, names = [name]).

(** The size of a list in a message. *)
Definition fits_message l : Prop := blen (append_service_names l) < 2 ^ 31.

Lemma names_length l : Forall service_ok l -> Z.of_nat (length l) <= blen (append_service_names l).
Proof.
  induction 1 as [| name l Hn _ IH]; [done |]. rewrite names_cons, blen_app, blen_cons by done. cbn [length]. pose proof (blen_nonneg name). lia.
Qed.

Lemma served_ok command l names : can_serve command l names -> Forall service_ok l -> Forall service_ok names -> Forall service_ok (served command l names).
Proof.
  intros Hc Hl Hn. unfold served. destruct (_ =? _); [done |]. destruct (_ =? _); [done |]. destruct names as [| name names]; [done |]. apply Forall_cons in Hn as [Hname _].
  destruct (_ =? _); [case_decide; [done | by apply Forall_app_2; [| apply Forall_cons_2]] |].
  apply Forall_forall. intros s Hs%list_elem_of_In%filter_In. rewrite Forall_forall in Hl. apply Hl, list_elem_of_In, Hs.
Qed.

Lemma event_request_received command type l names : fits 1 type -> can_serve command l names -> Forall service_ok l -> NoDup l -> Forall service_ok names -> fits_message names ->
  exists request, ntoh_request (create_event_forward_operation_request type names) = Ok request /\ ld8 request 0 = Ok type /\
    (if command =? EVENT_FORWARD_ENTRY_ADD then management_event_forward_entry_add l request
     else if command =? EVENT_FORWARD_ENTRY_DELETE then management_event_forward_entry_delete l request
     else if command =? EVENT_FORWARD_ENTRY_SET then management_event_forward_entries_set l request
     else Ok l) = Ok (served command l names).
Proof.
  intros Ht Hc Hl Hnd Hnames Hsize. unfold fits_message in Hsize. pose proof (names_length names Hnames) as Hlen. destruct Hc as [-> | [[-> ->] | ([Hc | Hc] & Hne & name & ->)]].
  - destruct (set_received type l names Ht Hnames ltac:(lia) ltac:(lia)) as (request & Hr & Ht' & E). exists request. split_and!; [done | done | exact E].
  - destruct (request_received type [] Ht ltac:(done)) as (request & Hr & Ht' & _). exists request. split_and!; done.
  - pose proof (proj1 (Forall_singleton _ _) Hnames) as Hname. rewrite names_cons, blen_app, blen_cons in Hsize by done. pose proof (blen_nonneg (append_service_names [])).
    destruct (name_received type name Ht Hname ltac:(lia)) as (request & Hr & Ht' & Hk & Hn & Hs). exists request. split_and!; [done | done |]. subst command. cbn [Z.eqb Pos.eqb EVENT_FORWARD_ENTRY_ADD].
    rewrite (entry_added l request name) by done. by rewrite decide_False.
  - pose proof (proj1 (Forall_singleton _ _) Hnames) as Hname. rewrite names_cons, blen_app, blen_cons in Hsize by done. pose proof (blen_nonneg (append_service_names [])).
    destruct (name_received type name Ht Hname ltac:(lia)) as (request & Hr & Ht' & Hk & Hn & Hs). exists request. split_and!; [done | done |]. subst command. cbn [Z.eqb Pos.eqb EVENT_FORWARD_ENTRY_ADD EVENT_FORWARD_ENTRY_DELETE].
    rewrite (entry_deleted l request name) by done. by rewrite decide_False.
Qed.

Definition event_reply (command type : Z) l : bytes :=
  create_management_application_reply MANAGEMENT_REQUEST_SUCCEEDED command (Some (create_event_forward_operation_reply type EFI_OPERATION_SUCCEEDED l)).

Lemma can_serve_command command l names : can_serve command l names -> is_efi_command command = true.
Proof. by intros [-> | [[-> _] | [[-> | ->] _]]]. Qed.

Lemma management_served sw command type l names assign : fits 1 type -> subject type (SwitchInfo.services sw) = Some (l, assign) -> can_serve command l names ->
  Forall service_ok l -> NoDup l -> Forall service_ok names -> fits_message names ->
  management_recv sw command (Some (create_event_forward_operation_request type names))
    = Ok (emit (set_services sw (assign (served command l names))) [SendManagementReply (event_reply command type (served command l names))]).
Proof.
  intros Ht Hsub Hc Hl Hnd Hnames Hsize. destruct (event_request_received command type l names Ht Hc Hl Hnd Hnames Hsize) as (request & Hr & Hty & Hs).
  unfold management_recv. rewrite Hr. bind_ok. unfold management_event_forward_entry_operation. rewrite Hty. bind_ok. rewrite Hsub.
  pose proof (can_serve_command _ _ _ Hc) as Hcmd. unfold is_efi_command in Hcmd. rewrite Hs. bind_ok. unfold management_reply, event_reply.
  assert (Hlow : EVENT_FORWARD_ENTRY_ADD <= command) by lia. unfold EVENT_FORWARD_ENTRY_ADD in *. unfold DUMP_XID_TABLE, DUMP_COOKIE_TABLE, TOGGLE_COOKIE_AGING.
  rewrite !(proj2 (Z.eqb_neq command _)) by lia. cbn [orb]. unfold EVENT_FORWARD_ENTRY_ADD. by rewrite Hcmd.
Qed.
End Daemon.

(** * The reply *)

Section Reply.
Context {host : Host} {W : Type} `{Requesting W}.
Implicit Types (l names acc : list bytes) (P rest : bytes) (callback : option operation_callback).

Lemma split_names_read fuel P l rest n acc : Forall service_ok l -> (length l < fuel)%nat -> Z.of_nat (length acc + length l) <= n ->
  split_names fuel (P ++ append_service_names l ++ rest) (blen P) (blen P + blen (append_service_names l)) n acc = Ok (acc ++ l).
Proof.
  intros Hl. revert fuel P acc. induction Hl as [| name l Hn Hl IH]; intros fuel P acc Hf Hlen; (destruct fuel as [| fuel]; [cbn in Hf; lia |]); cbn [split_names].
  - change (blen (append_service_names [])) with 0. rewrite Z.add_0_r, Z.ltb_irrefl. by rewrite app_nil_r.
  - rewrite names_cons by done. pose proof (blen_nonneg name) as Hnn. pose proof (blen_nonneg (append_service_names l)) as Hnl. rewrite blen_app, blen_cons.
    rewrite (proj2 (Z.ltb_lt _ _)) by lia. cbn [length] in *.
    assert (Ec : c_string (drop (Z.to_nat (blen P)) (P ++ (name ++ zero :: append_service_names l) ++ rest)) = name).
    { unfold blen. rewrite Nat2Z.id, drop_app_length, <- app_assoc. cbn [app]. apply c_string_terminated, Hn. }
    rewrite Ec. assert (Hpos : 0 < blen name) by (destruct Hn as [Hne _]; destruct name; [done | rewrite blen_cons; pose proof (blen_nonneg name); lia]).
    rewrite (proj2 (Z.ltb_lt 0 _)), (proj2 (Z.ltb_lt _ n)) by lia. cbn [andb].
    assert (Hp : P ++ (name ++ zero :: append_service_names l) ++ rest = (P ++ name ++ [zero]) ++ append_service_names l ++ rest) by (rewrite <- !app_assoc; done).
    rewrite Hp. assert (Hb : blen P + blen name + 1 = blen (P ++ name ++ [zero])) by (rewrite !blen_app; change (blen [zero]) with 1; lia).
    rewrite Hb. replace (blen P + (blen name + (1 + blen (append_service_names l)))) with (blen (P ++ name ++ [zero]) + blen (append_service_names l)) by lia.
    rewrite IH by (rewrite ?length_app; cbn [length]; lia). by rewrite <- app_assoc.
Qed.

(** The reply of a daemon is in a buffer that goes on behind it. *)
Lemma event_reply_handled command type l b rest callback (s : forwarding * W) : Forall service_ok l -> fits_message l -> is_efi_command command = true -> fits 1 type ->
  handle_efi_reply MESSENGER_MANAGEMENT_REPLY (Some (event_reply command type l ++ b :: rest)) (blen (event_reply command type l)) (operation_param callback) s
    = run_operation_callback callback (OperationResult EFI_OPERATION_SUCCEEDED l) s.
Proof.
  intros Hl Hsize Hcmd Ht. unfold fits_message in Hsize. pose proof (names_length l Hl) as Hn. set (ns := append_service_names l) in *. pose proof (blen_nonneg ns) as Hns.
  assert (Hc : fits 4 command) by (unfold is_efi_command, EVENT_FORWARD_ENTRY_ADD, EVENT_FORWARD_ENTRY_SET in Hcmd; unfold fits; lia).
  set (n := Z.of_nat (length l)) in *. assert (Hfn : fits 4 n) by (unfold fits, n; lia).
  set (P := be_encode 2 MANAGEMENT_APPLICATION_REPLY ++ be_encode 1 MANAGEMENT_REQUEST_SUCCEEDED ++ zeros 1 ++ be_encode 4 (20 + blen ns) ++ be_encode 4 command ++
    be_encode 1 type ++ be_encode 1 EFI_OPERATION_SUCCEEDED ++ zeros 2).
  assert (HP : blen P = 16) by (unfold P; len).
  assert (HR : event_reply command type l = P ++ be_encode 4 n ++ ns).
  { unfold event_reply, create_management_application_reply, create_event_forward_operation_reply, htons, htonl. unfold default. cbv zeta. cbn [from_option]. unfold id. rewrite !host_encode_hton, !host_encode_1. fold ns. fold n.
    assert (Hlen : blen (be_encode 1 type ++ be_encode 1 EFI_OPERATION_SUCCEEDED ++ zeros 2 ++ be_encode 4 n ++ ns) = 8 + blen ns) by len.
    rewrite Hlen. replace (12 + (8 + blen ns)) with (20 + blen ns) by lia. unfold P. by rewrite <- !app_assoc. }
  assert (Hb : blen (event_reply command type l) = 20 + blen ns) by (rewrite HR, !blen_app, HP, blen_be_encode; lia).
  rewrite Hb, HR, <- !app_assoc. set (D := P ++ be_encode 4 n ++ ns ++ b :: rest).
  assert (H16 : fits 2 MANAGEMENT_APPLICATION_REPLY) by done. assert (Hlf : fits 4 (20 + blen ns)) by (unfold fits; lia).
  assert (Et : ld_ntoh 2 D 0 = Ok MANAGEMENT_APPLICATION_REPLY) by (unfold D, P; rewrite <- !app_assoc; by rd).
  assert (Ei : ld_ntoh 4 D 8 = Ok command) by (unfold D, P; rewrite <- !app_assoc; by rd).
  assert (En : ld_ntoh 4 D 16 = Ok n) by (unfold D; by rd).
  set (D1 := P ++ host_encode 4 n ++ ns ++ b :: rest). set (D2 := P ++ host_encode 4 n ++ ns ++ zero :: rest).
  assert (E1 : st32 D 16 n = Ok D1) by (unfold st; apply (st_bytes_middle P (be_encode 4 n)); [by rewrite length_be_encode, length_host_encode | by rewrite HP]).
  assert (Es : ld8 D1 2 = Ok MANAGEMENT_REQUEST_SUCCEEDED) by (unfold D1, P; rewrite <- !app_assoc; assert (fits 1 MANAGEMENT_REQUEST_SUCCEEDED) by done; by rd).
  assert (Er : ld8 D1 13 = Ok EFI_OPERATION_SUCCEEDED) by (unfold D1, P; rewrite <- !app_assoc; assert (fits 1 EFI_OPERATION_SUCCEEDED) by done; by rd).
  assert (E2 : st8 D1 (20 + blen ns) 0 = Ok D2).
  { unfold D1, D2. rewrite !(app_assoc P), !(app_assoc (P ++ _)). unfold st. change (b :: rest) with ([b] ++ rest). change (zero :: rest) with ([zero] ++ rest).
    change [zero] with (be_encode 1 0). rewrite host_encode_1. apply st_bytes_middle; [done |]. rewrite !blen_app, HP, blen_host_encode. lia. }
  assert (En2 : ld32 D2 16 = Ok n).
  { unfold D2, ld. rewrite ld_bytes_skip, HP by lia. rewrite ld_bytes_here by apply length_host_encode. bind_ok. rewrite host_decode_encode. by rewrite Z.mod_small. }
  assert (Enames : split_names (S (Z.to_nat (blen ns))) D2 20 (20 + blen ns) n [] = Ok l).
  { assert (Hq : blen (P ++ host_encode 4 n) = 20) by (rewrite blen_app, HP, blen_host_encode; lia).
    pose proof (split_names_read (S (Z.to_nat (blen ns))) (P ++ host_encode 4 n) l (zero :: rest) n [] Hl) as E. rewrite Hq in E. fold ns in E. rewrite <- app_assoc in E. apply E; cbn; lia. }
  unfold handle_efi_reply. change (negb (MESSENGER_MANAGEMENT_REPLY =? MESSENGER_MANAGEMENT_REPLY)) with false. cbv iota.
  rewrite (proj2 (Z.ltb_ge _ sizeof_management_application_reply)) by (unfold sizeof_management_application_reply; lia).
  rewrite (bind_run _ _ _ _ _ (lift_run _ _ _ Et)). change (negb (MANAGEMENT_APPLICATION_REPLY =? MANAGEMENT_APPLICATION_REPLY)) with false. cbv iota.
  rewrite (bind_run _ _ _ _ _ (lift_run _ _ _ Ei)), Hcmd. unfold handle_event_forward_operation_reply.
  rewrite (bind_run _ _ _ _ _ (lift_run _ _ _ En)), (bind_run _ _ _ _ _ (lift_run _ _ _ E1)), (bind_run _ _ _ _ _ (lift_run _ _ _ Es)).
  change (MANAGEMENT_REQUEST_SUCCEEDED =? MANAGEMENT_REQUEST_FAILED) with false. cbv iota. rewrite (bind_run _ _ _ _ _ (lift_run _ _ _ Er)).
  change (negb (EFI_OPERATION_SUCCEEDED =? EFI_OPERATION_SUCCEEDED)) with false. cbv iota zeta.
  unfold offset_service_list, sizeof_management_application_reply, sizeof_event_forward_operation. change (12 + 8) with 20.
  assert (Eu : u64 (20 + blen ns - 20) = blen ns) by (unfold u64; rewrite Z.mod_small; lia). rewrite Eu.
  by rewrite (bind_run _ _ _ _ _ (lift_run _ _ _ E2)), (bind_run _ _ _ _ _ (lift_run _ _ _ En2)), (bind_run _ _ _ _ _ (lift_run _ _ _ Enames)).
Qed.
End Reply.

(** * From the program to the daemon, and back *)

Section Served.
Context {host : Host} {W V : Type} `{Requesting W} `{Managed V}.

(** C17. A request about the services of a switch is served.  What the interface
    sends for a command that can be served is handed to the daemon, whose list of
    services becomes what the command says; and the daemon's reply, in whatever
    buffer it arrives, has the callback of the request called with success and
    the new list. *)
Theorem forward_request_served (f : forwarding) (w : W) queue_name service command type (names l : list bytes) callback
    (m : management) (v : V) handle function sw assign b rest :
  efi_queue_name f = Some queue_name -> fits 1 type -> can_serve command l names -> Forall service_ok names -> fits_message names ->
  application_callback m = Some function ->
  subject type (SwitchInfo.services sw) = Some (l, assign) -> Forall service_ok l -> NoDup l -> fits_message (served command l names) ->
  exists request payload reply,
    send_efi_event_config_request (Some service) command type names callback (f, w)
      = (let* (sent, w) := send_request_message service queue_name MESSENGER_MANAGEMENT_REQUEST request (operation_param callback) w in Ok (sent, (f, w))) /\
    handle_request handle MESSENGER_MANAGEMENT_REQUEST request (m, v)
      = Ok (tt, (Management.Management (Management.initialized m) (application_callback m) (application_user_data m)
          (application_calls m ++ [ApplicationCall handle command (Some payload) (blen payload) function (application_user_data m)]), v)) /\
    management_recv sw command (Some payload) = Ok (emit (set_services sw (assign (served command l names))) [SendManagementReply reply]) /\
    handle_efi_reply MESSENGER_MANAGEMENT_REPLY (Some (reply ++ b :: rest)) (blen reply) (operation_param callback) (f, w)
      = run_operation_callback callback (OperationResult EFI_OPERATION_SUCCEEDED (served command l names)) (f, w).
Proof.
  intros Hq Ht Hc Hnames Hfit Hm Hsub Hl Hnd Hfit'. pose proof (can_serve_command _ _ _ Hc) as Hcmd. set (payload := create_event_forward_operation_request type names).
  assert (Hp : blen payload = 8 + blen (append_service_names names)) by (unfold payload, create_event_forward_operation_request; rewrite !blen_app, !blen_host_encode, blen_zeros; lia).
  exists (management_application_request command payload), payload, (event_reply command type (served command l names)). split_and!.
  - unfold send_efi_event_config_request, maybe_init_event_forward_interface. rewrite (bind_run _ _ (f, w) tt (f, w)).
    2: { rewrite (bind_run (get _) _ (f, w) (Some queue_name) (f, w)) by (unfold get; cbn; by rewrite Hq). done. }
    rewrite Hcmd. cbn [negb]. unfold send_to. by rewrite (bind_run (get _) _ (f, w) (Some queue_name) (f, w)) by (unfold get; cbn; by rewrite Hq).
  - apply application_request_handed; [done | unfold is_efi_command, EVENT_FORWARD_ENTRY_ADD, EVENT_FORWARD_ENTRY_SET in Hcmd; unfold fits; lia | |].
    + unfold fits_message in Hfit. unfold offsetof_management_application_request_data. lia.
    + intros E. rewrite E in Hp. pose proof (blen_nonneg (append_service_names names)). change (blen []) with 0 in Hp. lia.
  - by apply management_served.
  - apply event_reply_handled; try done. by apply served_ok.
Qed.
End Served.

(** * Witness *)

Section Witnesses.
Let host : Host := LittleEndian.
#[local] Existing Instance host.

#[local] Instance sample_requesting : Requesting (list (bytes * bytes)) := {|
  trema_name := ret [Byte.x61];
  trema_getpid := ret 7;
  add_message_replied_callback _ := ret true;
  delete_message_replied_callback _ := ret true;
  send_request_message to _ _ data _ := fun w => Ok (true, w ++ [(to, data)]);
  add_timer_event_callback _ := ret true;
  delete_timer_event _ := ret true
|}.

#[local] Instance sample_managed : Managed unit := {|
  get_trema_name := ret [Byte.x62];
  add_message_requested_callback _ := ret true;
  delete_message_requested_callback _ := ret true;
  send_reply_message _ _ _ := ret true;
  clock_gettime := ret (Some (0, 0));
  valid_logging_level _ := ret true;
  set_logging_level _ := ret true;
  foreach_stat := ret []
|}.

Definition sample_forwarding : forwarding := Forwarding (Some [Byte.x61]) None ∅ ∅ 0 [].

(** A daemon that sends packets to the service "a". *)
Definition sample_daemon_services : switch_info := set_services (init_switch_info false false false [] 5 1 0 (0, (0, 0))) (ServiceLists [] [[Byte.x61]] [] []).

Lemma forward_request_served_witness :
  exists request payload reply,
    send_efi_event_config_request (Some (switch_name 1)) EVENT_FORWARD_ENTRY_ADD EVENT_FORWARD_TYPE_PACKET_IN [[Byte.x62]] (Some (user_operation 3 4)) (sample_forwarding, [])
      = Ok (true, (sample_forwarding, [(switch_name 1, request)])) /\
    handle_request (ContextHandle 5 [Byte.x61]) MESSENGER_MANAGEMENT_REQUEST request (Management.Management true (Some 9) 0 [], tt)
      = Ok (tt, (Management.Management true (Some 9) 0 [ApplicationCall (ContextHandle 5 [Byte.x61]) EVENT_FORWARD_ENTRY_ADD (Some payload) (blen payload) 9 0], tt)) /\
    management_recv sample_daemon_services EVENT_FORWARD_ENTRY_ADD (Some payload)
      = Ok (emit (set_services sample_daemon_services (ServiceLists [] [[Byte.x61]; [Byte.x62]] [] [])) [SendManagementReply reply]) /\
    handle_efi_reply MESSENGER_MANAGEMENT_REPLY (Some (reply ++ [Byte.xff])) (blen reply) (operation_param (Some (user_operation 3 4))) (sample_forwarding, [])
      = Ok (tt, (Forwarding (Some [Byte.x61]) None ∅ ∅ 0 [OperationDone 3 (OperationResult EFI_OPERATION_SUCCEEDED [[Byte.x61]; [Byte.x62]]) 4], [])).
Proof.
  assert (Ha : Forall service_ok [[Byte.x61]]) by (apply Forall_singleton; split; [done | by rewrite list_elem_of_singleton]).
  assert (Hb : Forall service_ok [[Byte.x62]]) by (apply Forall_singleton; split; [done | by rewrite list_elem_of_singleton]).
  assert (Hc : can_serve EVENT_FORWARD_ENTRY_ADD [[Byte.x61]] [[Byte.x62]]) by (right; right; split; [by left | split; [done | by exists [Byte.x62]]]).
  exact (forward_request_served sample_forwarding [] [Byte.x61] (switch_name 1) EVENT_FORWARD_ENTRY_ADD EVENT_FORWARD_TYPE_PACKET_IN [[Byte.x62]] [[Byte.x61]]
    (Some (user_operation 3 4)) (Management.Management true (Some 9) 0 []) tt (ContextHandle 5 [Byte.x61]) 9 sample_daemon_services _ Byte.xff []
    eq_refl ltac:(done) Hc Hb ltac:(done) eq_refl eq_refl Ha ltac:(apply NoDup_singleton) ltac:(done)).
Defined.
End Witnesses.
