(* ===== verification/ForwardTransactions.v ===== *)
(** The requests to all the switches of event_forward_interface.c as transactions:
    a map from transaction ids to the switches that have not answered, and one
    call of the function of the program for each. *)

From Stdlib Require Import ZArith Lia Bool.
From coqutil Require Import Byte.
From stdpp Require Import base list gmap.
From S2P Require Import Prelude Memory StateMonad HashTable Utility Management EventForward EventForwardInterface.

(** * Tables whose keys are numbers *)

Section Tables.
Context {X : Type} (K : HashKey Z) (HK : @HashKeyOk Z K (fun _ => True)) (Heq : forall x y : Z, compare x y = true <-> x = y).
#[local] Existing Instance K.
#[local] Existing Instance HK.
Implicit Types (t : hash_table Z (option X)) (m : gmap Z X).

(** The table is the map. *)
Record table_is t m : Prop := {
  ti_wf : wf_table (ok := fun _ : Z => True) t;
  ti_map k : table_map t k = Some <$> m !! k
}.

Lemma table_lookup t m k : table_is t m -> lookup_hash_entry None t k = Ok (m !! k).
Proof. intros [Hw Hm]. rewrite (lookup_ok (ok := fun _ : Z => True) None t k Hw), Hm. by destruct (m !! k). Qed.

Lemma compare_ne k k' : k' <> k -> compare k' k = false.
Proof. intros Hne. destruct (compare k' k) eqn:E; [by apply Heq in E | done]. Qed.

Lemma table_insert t m k x : table_is t m -> exists t', insert_hash_entry None t k (Some x) = Ok (m !! k, t') /\ table_is t' (<[k := x]> m).
Proof.
  intros [Hw Hm]. destruct (insert_ok (ok := fun _ : Z => True) None t k (Some x) Hw I) as (t' & E & Hw' & _ & Hm'). exists t'. split.
  - rewrite E, Hm. by destruct (m !! k).
  - split; [done |]. intros k'. rewrite Hm'. destruct (decide (k' = k)) as [-> | Hne]; [by rewrite (proj2 (Heq k k)), lookup_insert_eq |].
    by rewrite compare_ne, lookup_insert_ne, Hm.
Qed.

Lemma table_delete t m k : table_is t m -> exists t', delete_hash_entry None t k = Ok (m !! k, t') /\ table_is t' (delete k m).
Proof.
  intros [Hw Hm]. destruct (delete_ok (ok := fun _ : Z => True) None t k Hw I) as (t' & E & Hw' & _ & Hm'). exists t'. split.
  - rewrite E, Hm. by destruct (m !! k).
  - split; [done |]. intros k'. rewrite Hm'. destruct (decide (k' = k)) as [-> | Hne]; [by rewrite (proj2 (Heq k k)), lookup_delete_eq |].
    by rewrite compare_ne, lookup_delete_ne, Hm.
Qed.

Lemma table_new size : 0 < size -> table_is (create_hash_with_size size) ∅.
Proof. intros Hs. destruct (create_ok (ok := fun _ : Z => True) (V := option X) size Hs) as [Hw Hm]. split; [done |]. intros k. by rewrite Hm, lookup_empty. Qed.

Lemma table_freed t m : table_is t m -> exists t', delete_hash t = Ok t'.
Proof. intros [Hw _]. destruct (delete_hash_ok t (wf_index _ Hw)) as (t' & E & _). by exists t'. Qed.

Lemma table_empty t m : table_is t m -> exists b : bool,
  (let* it := init_hash_iterator t in let* (e, _) := iterate_hash_next t it in Ok (match e with None => true | Some _ => false end)) = Ok b /\ (b = true <-> m = ∅).
Proof.
  intros [Hw Hm]. destruct (init_iterating (ok := fun _ : Z => True) t Hw) as (it & -> & Hit & Hr). bind_ok.
  destruct (iterate_next_ok (ok := fun _ : Z => True) t it Hw Hit) as (e & it' & -> & _ & He). bind_ok. eexists. split; [done |]. destruct e as [e |].
  - destruct He as (He & _). rewrite Hr in He. split; [done |]. intros ->.
    assert (E : table_map t (key e) = Some (value e)).
    { apply (visited_map (ok := fun _ : Z => True) _ _ _ Hw I). exists e. split_and!; [rewrite He; by left | by apply Heq | done]. }
    by rewrite Hm, lookup_empty in E.
  - rewrite Hr in He. split; [| done]. intros _. apply map_eq. intros k. rewrite lookup_empty. destruct (m !! k) as [x |] eqn:Ek; [| done].
    assert (E : table_map t k = Some (Some x)) by by rewrite Hm, Ek.
    apply (visited_map (ok := fun _ : Z => True) _ _ _ Hw I) in E as (e & Hin & _). rewrite He in Hin. by apply elem_of_nil in Hin.
Qed.
End Tables.

Lemma uint32_compare (x y : Z) : @compare Z uint32_key x y = true <-> x = y.
Proof. apply Z.eqb_eq. Qed.

Lemma datapath_compare {host : Host} (x y : Z) : @compare Z datapath_id_key x y = true <-> x = y.
Proof. apply Z.eqb_eq. Qed.

(** * The transactions of the interface *)

Section Transactions.
Context {host : Host} {W : Type} `{Requesting W}.
Implicit Types (f : forwarding) (w : W) (p : gmap Z (gset Z * to_all_param)) (A : gmap Z positive) (q : to_all_param) (D : gset Z).

Abbreviation waiting wt m := (table_is datapath_id_key wt m).
Abbreviation indexed t A := (table_is uint32_key t A).

(** A transaction that has not failed waits for the switches of a set. *)
Definition tx_for f p (id : Z) (a : positive) : Prop :=
  exists D q wt m, p !! id = Some (D, q) /\ transactions f !! a = Some (AllSwTx id wt EFI_OPERATION_SUCCEEDED q) /\ waiting wt m /\ dom m = D /\ D <> ∅.

(** The transactions are those of the map, and no other is left on the heap. *)
Definition represents f p : Prop :=
  exists t A, efi_tx_table f = Some t /\ indexed t A /\ (forall id a, A !! id = Some a -> tx_for f p id a) /\
    (forall id, A !! id = None -> p !! id = None) /\ (forall a, is_Some (transactions f !! a) -> exists id, A !! id = Some a).

(** One of the transactions is being changed. *)
Record opened f p A (id : Z) (a : positive) (wt : dpid_table) (res : Z) q : Prop := {
  o_table : exists t, efi_tx_table f = Some t /\ indexed t A;
  o_own : A !! id = Some a;
  o_tx : transactions f !! a = Some (AllSwTx id wt res q);
  o_absent : p !! id = None;
  o_others id' a' : id' <> id -> A !! id' = Some a' -> tx_for f p id' a';
  o_none id' : A !! id' = None -> p !! id' = None;
  o_live b : is_Some (transactions f !! b) -> exists id', A !! id' = Some b
}.

Definition with_table f t : forwarding := Forwarding (efi_queue_name f) t (transactions f) (txinfos f) (last_txid f) (user_calls f).
Definition with_transactions f h : forwarding := Forwarding (efi_queue_name f) (efi_tx_table f) h (txinfos f) (last_txid f) (user_calls f).
Definition with_txinfos f h : forwarding := Forwarding (efi_queue_name f) (efi_tx_table f) (transactions f) h (last_txid f) (user_calls f).

(** What the operations on one transaction leave as it is. *)
Definition same_rest f f' : Prop :=
  efi_queue_name f' = efi_queue_name f /\ txinfos f' = txinfos f /\ last_txid f' = last_txid f /\ user_calls f' = user_calls f.

Lemma same_rest_trans f1 f2 f3 : same_rest f1 f2 -> same_rest f2 f3 -> same_rest f1 f3.
Proof. unfold same_rest. intuition congruence. Qed.

Lemma represents_txinfos f p h : represents f p -> represents (with_txinfos f h) p.
Proof. done. Qed.

Lemma opened_txinfos f p A id a wt res q h : opened f p A id a wt res q -> opened (with_txinfos f h) p A id a wt res q.
Proof. by intros []. Qed.

(** ** Opening and closing *)

Lemma open_tx f p id D q : represents f p -> p !! id = Some (D, q) ->
  exists A a wt m, opened f (delete id p) A id a wt EFI_OPERATION_SUCCEEDED q /\ waiting wt m /\ dom m = D /\ D <> ∅.
Proof.
  intros (t & A & Ht & Hi & Hf & Hn & Hl) Hp. destruct (A !! id) as [a |] eqn:Ea; [| by rewrite Hn in Hp].
  destruct (Hf id a Ea) as (D' & q' & wt & m & Hp' & Ha & Hw & Hd & Hne). rewrite Hp in Hp'. injection Hp' as <- <-. exists A, a, wt, m. split_and!; [| done..].
  split; [by exists t | done | done | apply lookup_delete_eq | | | done].
  - intros id' a' Hid Ha'. destruct (Hf id' a' Ha') as (D' & q' & wt' & m' & Hp' & ?). exists D', q', wt', m'. by rewrite lookup_delete_ne.
  - intros id' Hid'. destruct (decide (id' = id)) as [-> | Hne']; [apply lookup_delete_eq | rewrite lookup_delete_ne by done; by apply Hn].
Qed.

Lemma close_tx f p A id a wt q m : opened f p A id a wt EFI_OPERATION_SUCCEEDED q -> waiting wt m -> dom m <> ∅ -> represents f (<[id := (dom m, q)]> p).
Proof.
  intros [(t & Ht & Hi) Ho Ha _ Hf Hn Hl] Hw Hd. exists t, A. split_and!; [done | done | | | done].
  - intros id' a' Ha'. destruct (decide (id' = id)) as [-> | Hne].
    + exists (dom m), q, wt, m. rewrite lookup_insert_eq. assert (a' = a) as -> by congruence. done.
    + destruct (Hf id' a' Hne Ha') as (D' & q' & wt' & m' & Hp' & ?). exists D', q', wt', m'. by rewrite lookup_insert_ne.
  - intros id' Hid'. rewrite lookup_insert_ne by congruence. by apply Hn.
Qed.

Lemma tx_address f p A id a wt res q id' a' : opened f p A id a wt res q -> id' <> id -> A !! id' = Some a' -> a' <> a.
Proof. intros [_ _ Ha _ Hf _ _] Hne Ha' ->. destruct (Hf id' a Hne Ha') as (D & q' & wt' & m & _ & Ha2 & _). congruence. Qed.

(** ** The operations *)

Lemma load_tx_run f a r w : transactions f !! a = Some r -> load_tx a (f, w) = Ok (r, (f, w)).
Proof. intros Hr. unfold load_tx. rewrite (bind_run (get _) _ (f, w) (transactions f) (f, w)) by done. by rewrite Hr. Qed.

Lemma the_table_run f t w : efi_tx_table f = Some t -> the_table (f, w) = Ok (t, (f, w)).
Proof. intros Ht. unfold the_table. rewrite (bind_run (get _) _ (f, w) (efi_tx_table f) (f, w)) by done. by rewrite Ht. Qed.

Lemma store_tx_run f p A id a wt res q wt' res' w : opened f p A id a wt res q ->
  exists f', store_tx a (AllSwTx id wt' res' q) (f, w) = Ok (tt, (f', w)) /\ opened f' p A id a wt' res' q /\ same_rest f f'.
Proof.
  intros Ho. exists (with_transactions f (<[a := AllSwTx id wt' res' q]> (transactions f))). split; [| split; [| done]].
  - unfold store_tx. rewrite (bind_run (get _) _ (f, w) (transactions f) (f, w)) by done. by rewrite (o_tx _ _ _ _ _ _ _ _ Ho).
  - pose proof (fun id' a' => tx_address f p A id a wt res q id' a' Ho) as Hne. destruct Ho as [Ht Hown Ha Habs Hf Hn Hl]. split; try done.
    + apply lookup_insert_eq.
    + intros id' a' Hid Ha'. pose proof (Hne id' a' Hid Ha').
      destruct (Hf id' a' Hid Ha') as (D & q' & wt2 & m & ? & ? & ?). exists D, q', wt2, m. cbn. by rewrite lookup_insert_ne.
    + intros b. cbn. rewrite lookup_insert_is_Some. intros [<- | [_ Hb]]; [by exists id | by apply Hl].
Qed.

Lemma remove_waiting_run f p A id a wt res q m d w : opened f p A id a wt res q -> waiting wt m ->
  exists f' wt', remove_waiting a d (f, w) = Ok (tt, (f', w)) /\ opened f' p A id a wt' res q /\ waiting wt' (delete d m) /\ same_rest f f'.
Proof.
  intros Ho Hw. destruct (table_delete datapath_id_key datapath_id_key_ok datapath_compare wt m d Hw) as (wt' & E & Hw').
  destruct (store_tx_run f p A id a wt res q wt' res w Ho) as (f' & Es & Ho' & Hr). exists f', wt'. split_and!; [| done | done | done].
  unfold remove_waiting. rewrite (bind_run _ _ _ _ _ (load_tx_run f a _ w (o_tx _ _ _ _ _ _ _ _ Ho))). cbn [waiting_dpid]. by rewrite (bind_run _ _ _ _ _ (lift_run _ _ _ E)).
Qed.

Lemma set_tx_result_run f p A id a wt res q res' w : opened f p A id a wt res q ->
  exists f', set_tx_result a res' (f, w) = Ok (tt, (f', w)) /\ opened f' p A id a wt res' q /\ same_rest f f'.
Proof.
  intros Ho. destruct (store_tx_run f p A id a wt res q wt res' w Ho) as (f' & Es & Ho' & Hr). exists f'. split_and!; [| done | done].
  unfold set_tx_result. by rewrite (bind_run _ _ _ _ _ (load_tx_run f a _ w (o_tx _ _ _ _ _ _ _ _ Ho))).
Qed.

Lemma waiting_for_run f p A id a wt res q m d w : opened f p A id a wt res q -> waiting wt m -> waiting_for a d (f, w) = Ok (m !! d, (f, w)).
Proof.
  intros Ho Hw. unfold waiting_for. rewrite (bind_run _ _ _ _ _ (load_tx_run f a _ w (o_tx _ _ _ _ _ _ _ _ Ho))). apply lift_run.
  exact (table_lookup datapath_id_key wt m d Hw).
Qed.

(** What [respond] adds to the log. *)
Definition response q (r : Z) : list user_call := match all_callback q with Some function => [ToAllDone function r (all_user_data q)] | None => [] end.

Lemma respond_run q r f w : respond q r (f, w) = Ok (tt, (Forwarding (efi_queue_name f) (efi_tx_table f) (transactions f) (txinfos f) (last_txid f) (user_calls f ++ response q r), w)).
Proof. unfold respond, response. destruct (all_callback q); [done |]. destruct f. cbn. by rewrite app_nil_r. Qed.

Lemma finish_tx_run f p A id a wt res q w : opened f p A id a wt res q -> (exists t', delete_hash wt = Ok t') ->
  exists f', finish_tx a (f, w) = Ok (tt, (f', w)) /\ represents f' p /\
    efi_queue_name f' = efi_queue_name f /\ txinfos f' = txinfos f /\ last_txid f' = last_txid f /\ user_calls f' = user_calls f ++ response q res.
Proof.
  intros Ho [wt' Ed]. pose proof Ho as [(t & Ht & Hi) Hown Ha Habs Hf Hn Hl]. destruct (table_delete uint32_key uint32_key_ok uint32_compare t A id Hi) as (t' & E & Hi').
  eexists. split; [| split].
  - unfold finish_tx. rewrite (bind_run _ _ _ _ _ (load_tx_run f a _ w Ha)). cbn [request_param_of tx_result tx_txid].
    rewrite (bind_run _ _ _ _ _ (respond_run q res f w)). set (f1 := Forwarding _ _ _ _ _ _).
    rewrite (bind_run (delete_tx id) _ (f1, w) tt (with_table f1 (Some t'), w)).
    2: { unfold delete_tx. rewrite (bind_run _ _ _ _ _ (the_table_run f1 t w Ht)). by rewrite (bind_run _ _ _ _ _ (lift_run _ _ _ E)). }
    unfold xfree_all_sw_tx. rewrite (bind_run _ _ _ _ _ (load_tx_run (with_table f1 (Some t')) a _ w Ha)). cbn [waiting_dpid].
    rewrite (bind_run _ _ _ _ _ (lift_run _ _ _ Ed)). reflexivity.
  - exists t', (delete id A). cbn. split_and!; [done | done | | |].
    + intros id' a' [Hne Ha']%lookup_delete_Some. apply not_eq_sym in Hne. pose proof (tx_address _ _ _ _ _ _ _ _ _ _ Ho Hne Ha') as Hna.
      destruct (Hf id' a' Hne Ha') as (D & q' & wt2 & m & ? & ? & ?). exists D, q', wt2, m. cbn. by rewrite lookup_delete_ne.
    + intros id' [<- | Hid]%lookup_delete_None; [done | by apply Hn].
    + intros b [r Hb]. cbn in Hb. apply lookup_delete_Some in Hb as [Hne Hb]. destruct (Hl b) as [id' Hid']; [by exists r |]. exists id'.
      apply lookup_delete_Some. split; [| done]. intros <-. congruence.
  - by cbn.
Qed.

(** ** Answers *)

(** What an answer of a switch, or its absence ([false]), does to the map, and the
    calls that it makes. *)
Definition settle p (e : txinfo * bool) : gmap Z (gset Z * to_all_param) * list user_call :=
  let '(TxInfo d id, ok) := e in
  match p !! id with
  | Some (D, q) =>
    if decide (d ∈ D) then
      if ok : bool then
        if decide (D ∖ {[d]} = ∅) then (delete id p, response q EFI_OPERATION_SUCCEEDED) else (<[id := (D ∖ {[d]}, q)]> p, [])
      else (delete id p, response q EFI_OPERATION_FAILED)
    else (p, [])
  | None => (p, [])
  end.

Lemma lookup_tx_opened f p A id a wt res q w : opened f p A id a wt res q -> lookup_tx id (f, w) = Ok (Some a, (f, w)).
Proof.
  intros [(t & Ht & Hi) Hown _ _ _ _ _]. unfold lookup_tx. rewrite (bind_run _ _ _ _ _ (the_table_run f t w Ht)). apply lift_run.
  by rewrite (table_lookup uint32_key t A id Hi), Hown.
Qed.

Lemma lookup_tx_none f p id w : represents f p -> p !! id = None -> lookup_tx id (f, w) = Ok (None, (f, w)).
Proof.
  intros (t & A & Ht & Hi & Hf & _) Hp. unfold lookup_tx. rewrite (bind_run _ _ _ _ _ (the_table_run f t w Ht)). apply lift_run.
  rewrite (table_lookup uint32_key t A id Hi). destruct (A !! id) as [a |] eqn:Ea; [| done]. destruct (Hf id a Ea) as (D & q & wt & m & Hp' & _). congruence.
Qed.

Lemma waiting_freed (wt : dpid_table) m : waiting wt m -> exists t', delete_hash wt = Ok t'.
Proof. apply table_freed. Qed.

Lemma check_failed f p A id a wt q m w : opened f p A id a wt EFI_OPERATION_FAILED q -> waiting wt m ->
  exists f', check_tx_result_and_respond a (f, w) = Ok (true, (f', w)) /\ represents f' p /\
    efi_queue_name f' = efi_queue_name f /\ txinfos f' = txinfos f /\ last_txid f' = last_txid f /\ user_calls f' = user_calls f ++ response q EFI_OPERATION_FAILED.
Proof.
  intros Ho Hw. destruct (finish_tx_run f p A id a wt _ q w Ho (waiting_freed _ _ Hw)) as (f' & E & H'). exists f'. split; [| exact H'].
  unfold check_tx_result_and_respond. rewrite (bind_run _ _ _ _ _ (load_tx_run f a _ w (o_tx _ _ _ _ _ _ _ _ Ho))). cbn [tx_result]. rewrite Z.eqb_refl.
  by rewrite (bind_run _ _ _ _ _ E).
Qed.

Lemma check_succeeded f p A id a wt q w : opened f p A id a wt EFI_OPERATION_SUCCEEDED q -> check_tx_result_and_respond a (f, w) = Ok (false, (f, w)).
Proof. intros Ho. unfold check_tx_result_and_respond. by rewrite (bind_run _ _ _ _ _ (load_tx_run f a _ w (o_tx _ _ _ _ _ _ _ _ Ho))). Qed.

(** The transaction that is being changed, after its map has lost a switch. *)
Lemma settled_none p d id ok : p !! id = None -> settle p (TxInfo d id, ok) = (p, []).
Proof. intros Hp. unfold settle. by rewrite Hp. Qed.

Lemma timeout_settles f p info d id w : represents f p -> txinfos f !! info = Some (TxInfo d id) ->
  exists f', _switch_response_timeout info (f, w) = Ok (tt, (f', w)) /\ represents f' (settle p (TxInfo d id, false)).1 /\
    efi_queue_name f' = efi_queue_name f /\ txinfos f' = txinfos f /\ last_txid f' = last_txid f /\
    user_calls f' = user_calls f ++ (settle p (TxInfo d id, false)).2.
Proof.
  intros Hr Hinfo. unfold _switch_response_timeout. rewrite (bind_run (load_txinfo info) _ (f, w) (TxInfo d id) (f, w)).
  2: { unfold load_txinfo. rewrite (bind_run (get _) _ (f, w) (txinfos f) (f, w)) by done. by rewrite Hinfo. }
  cbn [info_txid info_dpid]. destruct (p !! id) as [[D q] |] eqn:Hp.
  2: { rewrite settled_none by done. rewrite (bind_run _ _ _ _ _ (lookup_tx_none f p id w Hr Hp)). exists f. split_and!; try done. cbn. by rewrite app_nil_r. }
  destruct (open_tx f p id D q Hr Hp) as (A & a & wt & m & Ho & Hw & <- & Hne). rewrite (bind_run _ _ _ _ _ (lookup_tx_opened _ _ _ _ _ _ _ _ w Ho)).
  rewrite (bind_run _ _ _ _ _ (waiting_for_run _ _ _ _ _ _ _ _ m d w Ho Hw)). unfold settle. rewrite Hp. destruct (m !! d) as [v |] eqn:Hd.
  - rewrite decide_True by (apply elem_of_dom; by exists v). destruct (remove_waiting_run _ _ _ _ _ _ _ _ m d w Ho Hw) as (f1 & wt1 & E1 & Ho1 & Hw1 & Hs1).
    destruct (set_tx_result_run _ _ _ _ _ _ _ _ EFI_OPERATION_FAILED w Ho1) as (f2 & E2 & Ho2 & Hs2).
    rewrite (bind_run _ _ (f, w) tt (f2, w)) by (rewrite (bind_run _ _ _ _ _ E1); exact E2).
    destruct (check_failed _ _ _ _ _ _ _ _ w Ho2 Hw1) as (f3 & E3 & Hr3 & Hq3 & Hi3 & Hl3 & Hc3). rewrite (bind_run _ _ _ _ _ E3).
    destruct (same_rest_trans _ _ _ Hs1 Hs2) as (Hq & Hi & Hl & Hc). exists f3. cbn [fst snd]. split_and!; [done | done | congruence.. |]. by rewrite Hc3, Hc.
  - rewrite decide_False by (by apply not_elem_of_dom). rewrite (bind_run (ret tt) _ (f, w) tt (f, w)) by done.
    rewrite (bind_run _ _ _ _ _ (check_succeeded _ _ _ _ _ _ _ w Ho)). exists f. split_and!; try done. cbn. by rewrite app_nil_r.
Qed.

Context (Htimer : forall info w, exists b w', delete_timer_event info w = Ok (b, w')).

Definition succeeds (r : event_forward_operation_result) : bool := negb (result r =? EFI_OPERATION_FAILED).

Lemma empty_run (wt : dpid_table) m f w : waiting wt m -> exists b : bool, lift (hash_table_is_empty wt) (f, w) = Ok (b, (f, w)) /\ (b = true <-> m = ∅).
Proof.
  intros Hw. destruct (table_empty datapath_id_key datapath_id_key_ok datapath_compare wt m Hw) as (b & E & Hb). exists b. split; [by apply lift_run | done].
Qed.

Lemma response_settles f p info d id r w : represents f p -> txinfos f !! info = Some (TxInfo d id) ->
  exists f' w', _switch_response_handler r info (f, w) = Ok (tt, (f', w')) /\ represents f' (settle p (TxInfo d id, succeeds r)).1 /\
    efi_queue_name f' = efi_queue_name f /\ txinfos f' = delete info (txinfos f) /\ last_txid f' = last_txid f /\
    user_calls f' = user_calls f ++ (settle p (TxInfo d id, succeeds r)).2.
Proof.
  intros Hr Hinfo. unfold _switch_response_handler. rewrite (bind_run (load_txinfo info) _ (f, w) (TxInfo d id) (f, w)).
  2: { unfold load_txinfo. rewrite (bind_run (get _) _ (f, w) (txinfos f) (f, w)) by done. by rewrite Hinfo. }
  destruct (Htimer info w) as (b & w' & Et). rewrite (bind_run (ext _) _ (f, w) b (f, w')) by (unfold ext; cbn [fst snd]; by rewrite Et).
  set (f0 := with_txinfos f (delete info (txinfos f))). rewrite (bind_run (free_txinfo info) _ (f, w') tt (f0, w')) by done.
  apply (represents_txinfos f p (delete info (txinfos f))) in Hr. fold f0 in Hr. cbn [info_txid info_dpid].
  enough (exists f', (let! tx := lookup_tx id in
    match tx with
    | None => ret tt
    | Some tx =>
      let! dpid_in_list := waiting_for tx d in
      match dpid_in_list with
      | None => ret tt
      | Some _ =>
        let! _ := remove_waiting tx d in
        let! _ := if result r =? EFI_OPERATION_FAILED then set_tx_result tx EFI_OPERATION_FAILED else ret tt in
        let! tx_ended := check_tx_result_and_respond tx in
        if tx_ended : bool then ret tt
        else
          let! r := load_tx tx in
          let! is_empty := lift (hash_table_is_empty (waiting_dpid r)) in
          if is_empty : bool then finish_tx tx else ret tt
      end
    end) (f0, w') = Ok (tt, (f', w')) /\ represents f' (settle p (TxInfo d id, succeeds r)).1 /\
    efi_queue_name f' = efi_queue_name f0 /\ txinfos f' = txinfos f0 /\ last_txid f' = last_txid f0 /\ user_calls f' = user_calls f0 ++ (settle p (TxInfo d id, succeeds r)).2)
    as (f' & E & Hf') by (exists f', w'; split; [exact E | exact Hf']).
  clear Et. generalize dependent f0. intros f0 Hr. destruct (p !! id) as [[D q] |] eqn:Hp.
  2: { rewrite settled_none by done. rewrite (bind_run _ _ _ _ _ (lookup_tx_none f0 p id w' Hr Hp)). exists f0. split_and!; try done. cbn. by rewrite app_nil_r. }
  destruct (open_tx f0 p id D q Hr Hp) as (A & a & wt & m & Ho & Hw & <- & Hne). rewrite (bind_run _ _ _ _ _ (lookup_tx_opened _ _ _ _ _ _ _ _ w' Ho)).
  rewrite (bind_run _ _ _ _ _ (waiting_for_run _ _ _ _ _ _ _ _ m d w' Ho Hw)). unfold settle, succeeds. rewrite Hp. destruct (m !! d) as [v |] eqn:Hd.
  2: { rewrite decide_False by (by apply not_elem_of_dom). exists f0. split_and!; try done. cbn. by rewrite app_nil_r. }
  rewrite decide_True by (apply elem_of_dom; by exists v). destruct (remove_waiting_run _ _ _ _ _ _ _ _ m d w' Ho Hw) as (f1 & wt1 & E1 & Ho1 & Hw1 & Hs1).
  rewrite (bind_run _ _ _ _ _ E1). destruct Hs1 as (Hq1 & Hi1 & Hl1 & Hc1). destruct (result r =? EFI_OPERATION_FAILED); cbn [negb].
  - destruct (set_tx_result_run _ _ _ _ _ _ _ _ EFI_OPERATION_FAILED w' Ho1) as (f2 & E2 & Ho2 & Hq2 & Hi2 & Hl2 & Hc2). rewrite (bind_run _ _ _ _ _ E2).
    destruct (check_failed _ _ _ _ _ _ _ _ w' Ho2 Hw1) as (f3 & E3 & Hr3 & Hq3 & Hi3 & Hl3 & Hc3). rewrite (bind_run _ _ _ _ _ E3).
    exists f3. cbn [fst snd]. split_and!; [done | done | congruence.. |]. by rewrite Hc3, Hc2, Hc1.
  - rewrite (bind_run (ret tt) _ (f1, w') tt (f1, w')) by done. rewrite (bind_run _ _ _ _ _ (check_succeeded _ _ _ _ _ _ _ w' Ho1)). cbv iota.
    rewrite (bind_run _ _ _ _ _ (load_tx_run f1 a _ w' (o_tx _ _ _ _ _ _ _ _ Ho1))). cbn [waiting_dpid].
    destruct (empty_run wt1 _ f1 w' Hw1) as (is_empty & Ee & Hempty). rewrite (bind_run _ _ _ _ _ Ee).
    assert (Hdom : dom (delete d m) = dom m ∖ {[d]}) by apply dom_delete_L. destruct (decide (dom m ∖ {[d]} = ∅)) as [He | He].
    + rewrite (proj2 Hempty) by (apply dom_empty_iff_L; by rewrite Hdom).
      destruct (finish_tx_run _ _ _ _ _ _ _ _ w' Ho1 (waiting_freed _ _ Hw1)) as (f2 & E2 & Hr2 & Hq2 & Hi2 & Hl2 & Hc2).
      exists f2. cbn [fst snd]. split_and!; [done | done | congruence.. |]. by rewrite Hc2, Hc1.
    + assert (is_empty = false) as -> by (apply not_true_iff_false; intros E; apply He; by rewrite <- Hdom, (proj1 Hempty E), dom_empty_L).
      exists f1. cbn [fst snd]. split_and!; [done | | congruence.. |].
      * rewrite <- Hdom. eapply close_tx in Ho1; [| exact Hw1 | by rewrite Hdom]. by rewrite insert_delete_eq in Ho1.
      * by rewrite Hc1, app_nil_r.
Qed.

(** ** Dispatching *)

(** A service takes requests or it does not; timers are set. *)
Context (accepts : bytes -> bool).
Context (Hsend : forall to from tag data param w, exists w', send_request_message to from tag data param w = Ok (accepts to, w')).
Context (Hadd : forall info w, exists w', add_timer_event_callback info w = Ok (true, w')).

Definition asked f (id d : Z) : Prop := exists info, txinfos f !! info = Some (TxInfo d id).

(** The switches that are waited for took the request. *)
Definition all_asked f (id : Z) (m : gmap Z Z) : Prop := forall d, d ∈ dom m -> accepts (switch_name d) = true /\ asked f id d.

Definition same_log f f' : Prop := efi_queue_name f' = efi_queue_name f /\ last_txid f' = last_txid f /\ user_calls f' = user_calls f.

Lemma send_request_run f name service command type l callback w : efi_queue_name f = Some name -> is_efi_command command = true ->
  exists w', send_efi_event_config_request (Some service) command type l callback (f, w) = Ok (accepts service, (f, w')).
Proof.
  intros Hn Hc. unfold send_efi_event_config_request, maybe_init_event_forward_interface. rewrite (bind_run _ _ (f, w) tt (f, w)).
  2: { rewrite (bind_run (get _) _ (f, w) (Some name) (f, w)) by (unfold get; cbn; by rewrite Hn). done. }
  rewrite Hc. cbn [negb]. unfold send_to. rewrite (bind_run (get _) _ (f, w) (Some name) (f, w)) by (unfold get; cbn; by rewrite Hn).
  set (data := management_application_request _ _). destruct (Hsend service name MESSENGER_MANAGEMENT_REQUEST data (operation_param callback) w) as (w' & E). exists w'.
  unfold ext. cbn [fst snd]. by rewrite E.
Qed.

Lemma dispatch_to_ok f p A id a wt res q m d name w : opened f p A id a wt res q -> waiting wt m -> all_asked f id m -> efi_queue_name f = Some name ->
  exists f' w' wt' m', dispatch_to a id q d (f, w) = Ok (tt, (f', w')) /\
    opened f' p A id a wt' (if accepts (switch_name d) then res else EFI_OPERATION_FAILED) q /\ waiting wt' m' /\ all_asked f' id m' /\ same_log f f' /\
    (accepts (switch_name d) = true -> dom m' = dom m ∪ {[d]}).
Proof.
  intros Ho Hw Hall Hn. unfold dispatch_to. rewrite (bind_run _ _ _ _ _ (load_tx_run f a _ w (o_tx _ _ _ _ _ _ _ _ Ho))). cbn [waiting_dpid].
  destruct (table_insert datapath_id_key datapath_id_key_ok datapath_compare wt m d d Hw) as (wt1 & E1 & Hw1). rewrite (bind_run _ _ _ _ _ (lift_run _ _ _ E1)). cbn [tx_txid tx_result request_param_of].
  destruct (store_tx_run f p A id a wt res q wt1 res w Ho) as (f1 & E2 & Ho1 & Hq1 & Hi1 & Hl1 & Hc1). rewrite (bind_run _ _ _ _ _ E2).
  destruct (m !! d) as [v |] eqn:Hd.
  - assert (Hin : d ∈ dom m) by (apply elem_of_dom; by exists v). destruct (Hall d Hin) as [Hacc _]. rewrite Hacc. exists f1, w, wt1, (<[d := d]> m).
    split_and!; [done | done | done | | done |].
    + intros d' Hd'. unfold asked. rewrite Hi1. apply Hall. rewrite dom_insert_L in Hd'. set_solver.
    + intros _. rewrite dom_insert_L. set_solver.
  - rewrite (bind_run (get _) _ (f1, w) (txinfos f1) (f1, w)) by done. set (info := fresh (dom (txinfos f1))).
    assert (Hfresh : txinfos f1 !! info = None) by (apply not_elem_of_dom, is_fresh).
    set (f2 := with_txinfos f1 (<[info := TxInfo d id]> (txinfos f1))). rewrite (bind_run (set_txinfos _) _ (f1, w) tt (f2, w)) by done.
    assert (Hrequest : exists w', (if add q then add_switch_event_forward_entry d (all_type q) (all_service_name q) (Some (switch_response_handler info))
      else delete_switch_event_forward_entry d (all_type q) (all_service_name q) (Some (switch_response_handler info))) (f2, w) = Ok (accepts (switch_name d), (f2, w'))).
    { assert (Hn2 : efi_queue_name f2 = Some name) by (cbn; congruence). destruct (add q); by apply (send_request_run f2 name). }
    destruct Hrequest as (w1 & Er). rewrite (bind_run _ _ _ _ _ Er). apply (opened_txinfos _ _ _ _ _ _ _ _ (<[info := TxInfo d id]> (txinfos f1))) in Ho1. fold f2 in Ho1.
    destruct (accepts (switch_name d)) eqn:Hacc; cbn [negb].
    + destruct (Hadd info w1) as (w2 & Ea). rewrite (bind_run (ext _) _ (f2, w1) true (f2, w2)) by (unfold ext; cbn [fst snd]; by rewrite Ea). cbn [negb].
      exists f2, w2, wt1, (<[d := d]> m). split_and!; [done | done | done | | done |].
      * intros d' Hd'. rewrite dom_insert_L, elem_of_union, elem_of_singleton in Hd'. destruct Hd' as [-> | Hd']; [split; [done |]; exists info; apply lookup_insert_eq |].
        destruct (Hall d' Hd') as [Ha (i & Hi)]. split; [done |]. exists i. cbn. rewrite lookup_insert_ne; [by rewrite Hi1 |]. intros <-. rewrite Hi1 in Hfresh. congruence.
      * intros _. rewrite dom_insert_L. set_solver.
    + destruct (set_tx_result_run _ _ _ _ _ _ _ _ EFI_OPERATION_FAILED w1 Ho1) as (f3 & E3 & Ho3 & Hq3 & Hi3 & Hl3 & Hc3). rewrite (bind_run _ _ _ _ _ E3).
      destruct (remove_waiting_run _ _ _ _ _ _ _ _ _ d w1 Ho3 Hw1) as (f4 & wt4 & E4 & Ho4 & Hw4 & Hq4 & Hi4 & Hl4 & Hc4). rewrite (bind_run _ _ _ _ _ E4).
      exists (with_txinfos f4 (delete info (txinfos f4))), w1, wt4, (delete d (<[d := d]> m)). split_and!; [done | by apply opened_txinfos | done | | | done].
      * intros d' Hd'. rewrite delete_insert_eq, dom_delete_L in Hd'. destruct (Hall d') as [Ha (i & Hi)]; [set_solver |]. split; [done |]. exists i. cbn. rewrite Hi4, Hi3. cbn.
        rewrite Hi1. rewrite lookup_delete_ne by (intros <-; rewrite Hi1 in Hfresh; congruence). rewrite lookup_insert_ne; [done |]. intros <-. rewrite Hi1 in Hfresh. congruence.
      * unfold same_log. cbn. cbn in *. split_and!; congruence.
Qed.

(** All of a list take the request. *)
Definition all_accept (dpids : list Z) : bool := forallb (fun d => accepts (switch_name d)) dpids.

Lemma same_log_trans f1 f2 f3 : same_log f1 f2 -> same_log f2 f3 -> same_log f1 f3.
Proof. unfold same_log. intuition congruence. Qed.

Lemma dispatch_loop_ok dpids f p A id a wt res q m name w : opened f p A id a wt res q -> waiting wt m -> all_asked f id m -> efi_queue_name f = Some name ->
  exists f' w' wt' m', dispatch_loop a id q dpids (f, w) = Ok (tt, (f', w')) /\
    opened f' p A id a wt' (if all_accept dpids then res else EFI_OPERATION_FAILED) q /\ waiting wt' m' /\ all_asked f' id m' /\ same_log f f' /\
    (all_accept dpids = true -> dom m' = dom m ∪ list_to_set dpids).
Proof.
  revert f wt res m w. induction dpids as [| d dpids IH]; intros f wt res m w Ho Hw Hall Hn; cbn [dispatch_loop all_accept forallb list_to_set].
  - exists f, w, wt, m. split_and!; [done.. |]. intros _. set_solver.
  - destruct (dispatch_to_ok f p A id a wt res q m d name w Ho Hw Hall Hn) as (f1 & w1 & wt1 & m1 & E1 & Ho1 & Hw1 & Hall1 & Hs1 & Hd1). rewrite (bind_run _ _ _ _ _ E1).
    destruct (IH f1 wt1 _ m1 w1 Ho1 Hw1 Hall1) as (f2 & w2 & wt2 & m2 & E2 & Ho2 & Hw2 & Hall2 & Hs2 & Hd2); [destruct Hs1 as [-> _]; done |].
    exists f2, w2, wt2, m2. split_and!; [done | | done | done | by eapply same_log_trans |].
    + fold (all_accept dpids). destruct (accepts (switch_name d)); [done |]. cbn [andb]. by destruct (all_accept dpids).
    + fold (all_accept dpids). intros [Ha Hr]%andb_true_iff. rewrite (Hd2 Hr), (Hd1 Ha). set_solver.
Qed.

(** The id of the next transaction: 32 bits. *)
Definition next_txid f : Z := u32 (last_txid f + 1).

Lemma insert_tx_run f p q (n : Z) w : represents f p -> p !! next_txid f = None -> 0 <= n < 2 ^ 32 ->
  exists f' A a, _insert_tx n q (f, w) = Ok (a, (f', w)) /\ opened f' p A (next_txid f) a (create_hash_with_size n) EFI_OPERATION_SUCCEEDED q /\
    efi_queue_name f' = efi_queue_name f /\ user_calls f' = user_calls f.
Proof.
  intros (t & A & Ht & Hi & Hf & Hn & Hl) Hp Hsize. set (id := next_txid f) in *. set (a := fresh (dom (transactions f))).
  assert (Ha : transactions f !! a = None) by (apply not_elem_of_dom, is_fresh).
  assert (HA : A !! id = None). { destruct (A !! id) as [b |] eqn:E; [| done]. destruct (Hf id b E) as (D & q' & wt & m & Hp' & _). congruence. }
  destruct (table_insert uint32_key uint32_key_ok uint32_compare t A id a Hi) as (t' & E & Hi'). rewrite HA in E.
  set (f1 := Forwarding (efi_queue_name f) (efi_tx_table f) (transactions f) (txinfos f) id (user_calls f)).
  set (h := <[a := AllSwTx id (create_hash_with_size n) EFI_OPERATION_SUCCEEDED q]> (transactions f)).
  exists (with_table (with_transactions f1 h) (Some t')), (<[id := a]> A), a. split; [| split; [| done]].
  - unfold _insert_tx. rewrite (bind_run get_txid _ (f, w) id (f1, w)) by done. rewrite (bind_run (get _) _ (f1, w) (transactions f) (f1, w)) by done. fold a.
    unfold u32 at 1. rewrite Z.mod_small by lia. fold h. rewrite (bind_run (set_transactions h) _ (f1, w) tt (with_transactions f1 h, w)) by done.
    rewrite (bind_run _ _ _ _ _ (the_table_run (with_transactions f1 h) t w Ht)), (bind_run _ _ _ _ _ (lift_run _ _ _ E)).
    rewrite (bind_run (set_tx_table _) _ _ tt (with_table (with_transactions f1 h) (Some t'), w)) by done. done.
  - split; cbn.
    + by exists t'.
    + apply lookup_insert_eq.
    + apply lookup_insert_eq.
    + done.
    + intros id' a' Hne Ha'. rewrite lookup_insert_ne in Ha' by done. destruct (Hf id' a' Ha') as (D & q' & wt & m & Hp' & Hta & Hrest). exists D, q', wt, m. split; [done |]. split; [| done].
      cbn. unfold h. rewrite lookup_insert_ne; [done | congruence].
    + intros id' [Hid Hne]%lookup_insert_None. by apply Hn.
    + intros b. unfold h. rewrite lookup_insert_is_Some. intros [<- | [_ Hb]]; [exists id; apply lookup_insert_eq |]. destruct (Hl b Hb) as [id' Hid'].
      exists id'. rewrite lookup_insert_ne; [done | congruence].
Qed.

Lemma freed_0 : delete_hash (create_hash_with_size 0 : dpid_table) = Ok (create_hash_with_size 0).
Proof. done. Qed.

(** A request to all the switches of a list: answered at once when there are none
    or one does not take it, or a transaction that waits for all of them. *)
Lemma dispatch_settles f p q dpids name w : represents f p -> p !! next_txid f = None -> Z.of_nat (length dpids) < 2 ^ 32 -> efi_queue_name f = Some name ->
  exists f' w', _dispatch_to_all_switch (Some dpids) q (f, w) = Ok (tt, (f', w')) /\
    if decide (dpids = []) then represents f' p /\ user_calls f' = user_calls f ++ response q EFI_OPERATION_SUCCEEDED
    else if all_accept dpids then
      represents f' (<[next_txid f := (list_to_set dpids, q)]> p) /\ user_calls f' = user_calls f /\ forall d, d ∈ dpids -> asked f' (next_txid f) d
    else represents f' p /\ user_calls f' = user_calls f ++ response q EFI_OPERATION_FAILED.
Proof.
  intros Hr Hp Hlen Hn. unfold _dispatch_to_all_switch. change (default [] (Some dpids)) with dpids. cbv zeta.
  destruct (insert_tx_run f p q (Z.of_nat (length dpids)) w Hr Hp ltac:(lia)) as (f1 & A & a & E1 & Ho1 & Hq1 & Hc1). rewrite (bind_run _ _ _ _ _ E1).
  rewrite (bind_run _ _ _ _ _ (load_tx_run f1 a _ w (o_tx _ _ _ _ _ _ _ _ Ho1))). cbn [tx_txid]. destruct (decide (dpids = [])) as [-> | Hne].
  - cbn [dispatch_loop]. rewrite (bind_run (ret tt) _ (f1, w) tt (f1, w)) by done. rewrite (bind_run _ _ _ _ _ (load_tx_run f1 a _ w (o_tx _ _ _ _ _ _ _ _ Ho1))).
    change (Z.of_nat (length [])) with 0 in *. cbn [orb Z.eqb].
    destruct (finish_tx_run _ _ _ _ _ _ _ _ w Ho1) as (f2 & E2 & Hr2 & _ & _ & _ & Hc2); [by eexists; apply freed_0 |]. exists f2, w. rewrite Hc2, Hc1. done.
  - assert (Hpos : 0 < Z.of_nat (length dpids)) by (destruct dpids; [done | cbn; lia]).
    assert (Hw1 : waiting (create_hash_with_size (Z.of_nat (length dpids))) (∅ : gmap Z Z)) by (by apply (table_new datapath_id_key)).
    destruct (dispatch_loop_ok dpids _ _ _ _ _ _ _ _ _ name w Ho1 Hw1) as (f2 & w2 & wt2 & m2 & E2 & Ho2 & Hw2 & Hall2 & (Hq2 & Hl2 & Hc2) & Hd2);
      [intros d Hd; set_solver | congruence |].
    rewrite (bind_run _ _ _ _ _ E2), (bind_run _ _ _ _ _ (load_tx_run f2 a _ w2 (o_tx _ _ _ _ _ _ _ _ Ho2))). cbn [tx_result]. rewrite (proj2 (Z.eqb_neq _ 0)) by lia. cbn [orb].
    destruct (all_accept dpids).
    + exists f2, w2. specialize (Hd2 eq_refl). rewrite dom_empty_L, union_empty_l_L in Hd2. split; [done |]. split; [| split].
      * rewrite <- Hd2. eapply close_tx; [exact Ho2 | exact Hw2 |]. rewrite Hd2. destruct dpids; [done | set_solver].
      * congruence.
      * intros d Hd. apply Hall2. rewrite Hd2. by apply elem_of_list_to_set.
    + change (EFI_OPERATION_FAILED =? EFI_OPERATION_FAILED) with true. cbv iota.
      destruct (finish_tx_run _ _ _ _ _ _ _ _ w2 Ho2 (waiting_freed _ _ Hw2)) as (f3 & E3 & Hr3 & _ & _ & _ & Hc3). exists f3, w2. split; [done |]. split; [done |]. congruence.
Qed.

(** ** Histories *)

(** Answers of switches and timeouts, each for a record of a request that is on the
    heap, one after the other. *)
Inductive runs : list (txinfo * bool) -> forwarding -> forwarding -> Prop :=
| runs_nil f : runs [] f f
| runs_response info i r l f w f1 w1 f2 : txinfos f !! info = Some i -> _switch_response_handler r info (f, w) = Ok (tt, (f1, w1)) ->
    runs l f1 f2 -> runs ((i, succeeds r) :: l) f f2
| runs_timeout info i l f w f1 w1 f2 : txinfos f !! info = Some i -> _switch_response_timeout info (f, w) = Ok (tt, (f1, w1)) ->
    runs l f1 f2 -> runs ((i, false) :: l) f f2.

Fixpoint settle_all p (l : list (txinfo * bool)) : gmap Z (gset Z * to_all_param) * list user_call :=
  match l with
  | [] => (p, [])
  | e :: l => let '(p, c) := settle p e in let '(p, cs) := settle_all p l in (p, c ++ cs)
  end.

Lemma runs_settle l f f' p : runs l f f' -> represents f p -> represents f' (settle_all p l).1 /\ user_calls f' = user_calls f ++ (settle_all p l).2.
Proof.
  intros Hr. revert p. induction Hr as [f | info [d id] r l f w f1 w1 f2 Hi E _ IH | info [d id] l f w f1 w1 f2 Hi E _ IH]; intros p Hf.
  - cbn. by rewrite app_nil_r.
  - destruct (response_settles f p info d id r w Hf Hi) as (f1' & w1' & E' & Hf1 & _ & _ & _ & Hc). rewrite E in E'. injection E' as <- <-.
    cbn [settle_all]. destruct (settle p (TxInfo d id, succeeds r)) as [p1 c1]. destruct (IH p1 Hf1) as [Hf2 Hc2]. destruct (settle_all p1 l) as [p2 c2].
    cbn [fst snd] in *. split; [done |]. by rewrite Hc2, Hc, <- app_assoc.
  - destruct (timeout_settles f p info d id w Hf Hi) as (f1' & E' & Hf1 & _ & _ & _ & Hc). rewrite E in E'. injection E' as <- _.
    cbn [settle_all]. destruct (settle p (TxInfo d id, false)) as [p1 c1]. destruct (IH p1 Hf1) as [Hf2 Hc2]. destruct (settle_all p1 l) as [p2 c2].
    cbn [fst snd] in *. split; [done |]. by rewrite Hc2, Hc, <- app_assoc.
Qed.

(** The result of a transaction that waits for [D]; [None] when it is open. *)
Fixpoint outcome D (id : Z) (l : list (txinfo * bool)) : option Z :=
  match l with
  | [] => None
  | (TxInfo d id', ok) :: l =>
    if decide (id' = id /\ d ∈ D) then
      if ok : bool then if decide (D ∖ {[d]} = ∅) then Some EFI_OPERATION_SUCCEEDED else outcome (D ∖ {[d]}) id l else Some EFI_OPERATION_FAILED
    else outcome D id l
  end.

(** The calls of a function with some user data. *)
Definition is_call (function user_data : Z) (c : user_call) : bool :=
  match c with ToAllDone g _ v => (g =? function) && (v =? user_data) | _ => false end.
Definition calls_of (function user_data : Z) (cs : list user_call) : list user_call := List.filter (is_call function user_data) cs.

(** No other transaction has that function and those data. *)
Definition others_differ (function user_data id : Z) p : Prop :=
  forall id' D q, id' <> id -> p !! id' = Some (D, q) -> ~ (all_callback q = Some function /\ all_user_data q = user_data).

Lemma settle_others p e id D q : (settle p e).1 !! id = Some (D, q) -> exists D', p !! id = Some (D', q).
Proof.
  destruct e as [[d id'] ok]. unfold settle. destruct (p !! id') as [[D0 q0] |] eqn:E; [| by eexists]. destruct (decide (d ∈ D0)); [| by eexists].
  destruct ok; [destruct (decide (D0 ∖ {[d]} = ∅)) |]; cbn [fst]; rewrite ?lookup_delete_Some, ?lookup_insert_Some; try (intros [_ Hp]; by eexists).
  intros [[<- [= <- <-]] | [_ Hp]]; by eexists.
Qed.

Lemma settle_differ function user_data id p e : others_differ function user_data id p -> others_differ function user_data id (settle p e).1.
Proof. intros Ho id' D q Hne (D' & Hp)%settle_others. by apply (Ho id' D' q). Qed.

Lemma response_not_mine function user_data q r : ~ (all_callback q = Some function /\ all_user_data q = user_data) -> calls_of function user_data (response q r) = [].
Proof.
  intros Hn. unfold response. destruct (all_callback q) as [g |]; [| done]. cbn. destruct (Z.eqb_spec g function) as [-> |]; [| done]. cbn [andb].
  destruct (Z.eqb_spec (all_user_data q) user_data) as [E |]; [by destruct Hn | done].
Qed.

Lemma settle_not_mine function user_data id p d id' ok : others_differ function user_data id p -> id' <> id -> calls_of function user_data (settle p (TxInfo d id', ok)).2 = [].
Proof.
  intros Ho Hne. unfold settle. destruct (p !! id') as [[D q] |] eqn:Hp; [| done]. destruct (decide (d ∈ D)); [| done]. pose proof (Ho id' D q Hne Hp).
  destruct ok; [destruct (decide (D ∖ {[d]} = ∅)) |]; cbn [snd]; try done; by apply response_not_mine.
Qed.

Lemma settle_elsewhere p d id id' ok : id' <> id -> (settle p (TxInfo d id', ok)).1 !! id = p !! id.
Proof.
  intros Hne. unfold settle. destruct (p !! id') as [[D q] |]; [| done]. destruct (decide (d ∈ D)); [| done].
  destruct ok; [destruct (decide (D ∖ {[d]} = ∅)) |]; cbn [fst]; by rewrite ?lookup_delete_ne, ?lookup_insert_ne by done.
Qed.

Lemma calls_app function user_data a b : calls_of function user_data (a ++ b) = calls_of function user_data a ++ calls_of function user_data b.
Proof. apply List.filter_app. Qed.

Lemma closed_no_calls function user_data id l p : others_differ function user_data id p -> p !! id = None -> calls_of function user_data (settle_all p l).2 = [].
Proof.
  revert p. induction l as [| [[d id'] ok] l IH]; intros p Ho Hp; [done |]. cbn [settle_all].
  pose proof (settle_differ _ _ _ p (TxInfo d id', ok) Ho) as Ho1.
  assert (H1 : calls_of function user_data (settle p (TxInfo d id', ok)).2 = [] /\ (settle p (TxInfo d id', ok)).1 !! id = None).
  { destruct (decide (id' = id)) as [-> | Hne]; [by rewrite settled_none | by rewrite settle_elsewhere, (settle_not_mine _ _ id)]. }
  destruct (settle p (TxInfo d id', ok)) as [p1 c1]. cbn [fst snd] in *. specialize (IH p1 Ho1 (proj2 H1)). destruct (settle_all p1 l) as [p2 c2]. cbn [snd] in *.
  by rewrite calls_app, IH, (proj1 H1).
Qed.

Lemma calls_outcome function user_data id l p D q : others_differ function user_data id p -> p !! id = Some (D, q) ->
  all_callback q = Some function -> all_user_data q = user_data ->
  calls_of function user_data (settle_all p l).2 = match outcome D id l with Some r => [ToAllDone function r user_data] | None => [] end.
Proof.
  intros Ho Hp Hc Hu. revert p D Ho Hp. induction l as [| [[d id'] ok] l IH]; intros p D Ho Hp; [done |]. cbn [settle_all outcome].
  pose proof (settle_differ _ _ _ p (TxInfo d id', ok) Ho) as Ho1.
  assert (Hmine : forall r, calls_of function user_data (response q r) = [ToAllDone function r user_data]).
  { intros r. unfold response, calls_of. rewrite Hc, Hu. cbn. by rewrite !Z.eqb_refl. }
  destruct (decide (id' = id /\ d ∈ D)) as [[-> Hd] | Hn].
  - unfold settle in *. rewrite Hp in *. rewrite decide_True in * by done. destruct ok; [destruct (decide (D ∖ {[d]} = ∅)) |]; cbn [fst] in Ho1.
    + pose proof (closed_no_calls function user_data id l (delete id p) Ho1 (lookup_delete_eq p id)) as E. destruct (settle_all (delete id p) l) as [p2 c2]. cbn [snd] in *.
      by rewrite calls_app, Hmine, E.
    + specialize (IH _ _ Ho1 (lookup_insert_eq p id (D ∖ {[d]}, q))). destruct (settle_all (<[id := _]> p) l) as [p2 c2]. cbn [snd] in *. by rewrite calls_app, IH.
    + pose proof (closed_no_calls function user_data id l (delete id p) Ho1 (lookup_delete_eq p id)) as E. destruct (settle_all (delete id p) l) as [p2 c2]. cbn [snd] in *.
      by rewrite calls_app, Hmine, E.
  - assert (H1 : calls_of function user_data (settle p (TxInfo d id', ok)).2 = [] /\ (settle p (TxInfo d id', ok)).1 !! id = Some (D, q)).
    { destruct (decide (id' = id)) as [-> | Hne]; [| by rewrite settle_elsewhere, (settle_not_mine _ _ id)]. unfold settle. rewrite Hp. rewrite decide_False by (intros Hd; by apply Hn). done. }
    destruct (settle p (TxInfo d id', ok)) as [p1 c1]. cbn [fst snd] in *. specialize (IH p1 D Ho1 (proj2 H1)). destruct (settle_all p1 l) as [p2 c2]. cbn [snd] in *.
    by rewrite calls_app, IH, (proj1 H1).
Qed.

Lemma outcome_answered D id l : D <> ∅ -> (forall d, d ∈ D -> exists ok, (TxInfo d id, ok) ∈ l) -> is_Some (outcome D id l).
Proof.
  revert D. induction l as [| [[d id'] ok] l IH]; intros D Hne Hall; [destruct (set_choose_L D Hne) as [d Hd]; by destruct (Hall d Hd) as [ok ?%elem_of_nil] |].
  cbn [outcome]. destruct (decide (id' = id /\ d ∈ D)) as [[-> Hd] | Hn].
  - destruct ok; [| by eexists]. destruct (decide (D ∖ {[d]} = ∅)) as [| Hne']; [by eexists |]. apply IH; [done |]. intros d' [Hd' Hnd]%elem_of_difference.
    destruct (Hall d' Hd') as [ok [[= -> ->] | Hin]%elem_of_cons]; [set_solver | by exists ok].
  - apply IH; [done |]. intros d' Hd'. destruct (Hall d' Hd') as [ok' [[= -> -> _] | Hin]%elem_of_cons]; [by destruct Hn | by exists ok'].
Qed.

Lemma outcome_succeeded D id l : outcome D id l = Some EFI_OPERATION_SUCCEEDED -> forall d, d ∈ D -> (TxInfo d id, true) ∈ l.
Proof.
  revert D. induction l as [| [[d id'] ok] l IH]; intros D; [done |]. cbn [outcome]. destruct (decide (id' = id /\ d ∈ D)) as [[-> Hd] | Hn].
  - destruct ok; [| done]. intros Hout d' Hd'. destruct (decide (d' = d)) as [-> | Hne]; [by left |]. right. destruct (decide (D ∖ {[d]} = ∅)) as [He |]; [set_solver |].
    apply (IH _ Hout). set_solver.
  - intros Hout d' Hd'. right. by apply (IH D).
Qed.

Lemma outcome_failed D id l : outcome D id l = Some EFI_OPERATION_FAILED -> exists d, d ∈ D /\ (TxInfo d id, false) ∈ l.
Proof.
  revert D. induction l as [| [[d id'] ok] l IH]; intros D; [done |]. cbn [outcome]. destruct (decide (id' = id /\ d ∈ D)) as [[-> Hd] | Hn].
  - destruct ok; [| intros _; exists d; split; [done | by left]]. destruct (decide (D ∖ {[d]} = ∅)); [done |]. intros (d' & Hd' & Hin)%IH. exists d'. split; [set_solver | by right].
  - intros (d' & Hd' & Hin)%IH. exists d'. split; [done | by right].
Qed.

Lemma outcome_result D id l r : outcome D id l = Some r -> r = EFI_OPERATION_SUCCEEDED \/ r = EFI_OPERATION_FAILED.
Proof.
  revert D. induction l as [| [[d id'] ok] l IH]; intros D; [done |]. cbn [outcome].
  destruct (decide _); [| by apply IH]. destruct ok; [destruct (decide _) |]; [intros [= <-]; by left | by apply IH | intros [= <-]; by right].
Qed.

(** An answer to a request of which there is a record, or a timeout, is handled. *)
Lemma answers_handled l f1 f2 p info i r w : represents f1 p -> runs l f1 f2 -> txinfos f2 !! info = Some i ->
  (exists f3 w3, _switch_response_handler r info (f2, w) = Ok (tt, (f3, w3))) /\ exists f3 w3, _switch_response_timeout info (f2, w) = Ok (tt, (f3, w3)).
Proof.
  intros Hr1 Hruns Hi. destruct i as [d id]. destruct (runs_settle l f1 f2 p Hruns Hr1) as [Hr2 _].
  destruct (response_settles f2 _ info d id r w Hr2 Hi) as (f3 & w3 & E3 & _). destruct (timeout_settles f2 _ info d id w Hr2 Hi) as (f4 & E4 & _).
  split; [by exists f3, w3 | by exists f4, w].
Qed.

(** C16. A request to all the switches is answered once.  When the list of the
    switches comes, each is asked; and through any answers and timeouts after that,
    each of which is handled without a fault, the function of the program is called
    at most once for the request: exactly once as soon as every switch has answered
    or timed out, with success only when all of them took the request and answered
    with success, and with failure only when one did not. *)
Theorem to_all_answered_once f p q dpids name function w :
  represents f p -> p !! next_txid f = None -> Z.of_nat (length dpids) < 2 ^ 32 -> efi_queue_name f = Some name ->
  all_callback q = Some function -> others_differ function (all_user_data q) (next_txid f) p ->
  let id := next_txid f in let called := fun r => [ToAllDone function r (all_user_data q)] in
  exists f1 w1, _dispatch_to_all_switch (Some dpids) q (f, w) = Ok (tt, (f1, w1)) /\ (all_accept dpids = true -> forall d, d ∈ dpids -> asked f1 id d) /\
    forall l f2, runs l f1 f2 -> exists new, user_calls f2 = user_calls f ++ new /\
      let calls := calls_of function (all_user_data q) new in
      (calls = [] \/ calls = called EFI_OPERATION_SUCCEEDED \/ calls = called EFI_OPERATION_FAILED) /\
      ((forall d, d ∈ dpids -> exists ok, (TxInfo d id, ok) ∈ l) -> calls <> []) /\
      (calls = called EFI_OPERATION_SUCCEEDED -> forall d, d ∈ dpids -> accepts (switch_name d) = true /\ (TxInfo d id, true) ∈ l) /\
      (calls = called EFI_OPERATION_FAILED -> exists d, d ∈ dpids /\ (accepts (switch_name d) = false \/ (TxInfo d id, false) ∈ l)) /\
      (forall info i r w2, txinfos f2 !! info = Some i ->
        (exists f3 w3, _switch_response_handler r info (f2, w2) = Ok (tt, (f3, w3))) /\ exists f3 w3, _switch_response_timeout info (f2, w2) = Ok (tt, (f3, w3))).
Proof.
  intros Hr Hp Hlen Hn Hcb Ho id called. destruct (dispatch_settles f p q dpids name w Hr Hp Hlen Hn) as (f1 & w1 & E & Hd). fold id in Hd.
  assert (Hmine : forall r, calls_of function (all_user_data q) (response q r) = called r) by (intros r; unfold response, calls_of; rewrite Hcb; cbn; by rewrite !Z.eqb_refl).
  exists f1, w1. split; [exact E |]. destruct (decide (dpids = [])) as [-> | Hne]; [| destruct (all_accept dpids) eqn:Hacc].
  - destruct Hd as [Hr1 Hc1]. split; [by intros _ d ?%elem_of_nil |]. intros l f2 Hruns. destruct (runs_settle l f1 f2 p Hruns Hr1) as [_ Hc2].
    exists (response q EFI_OPERATION_SUCCEEDED ++ (settle_all p l).2). split; [by rewrite Hc2, Hc1, app_assoc |]. cbv zeta. rewrite calls_app, Hmine, (closed_no_calls _ _ id l p Ho Hp).
    split_and!; [by right; left | done | by intros _ d ?%elem_of_nil | done | intros; by eapply answers_handled].
  - destruct Hd as (Hr1 & Hc1 & Hask). split; [done |]. intros l f2 Hruns. destruct (runs_settle l f1 f2 _ Hruns Hr1) as [_ Hc2].
    exists ((settle_all (<[id := (list_to_set dpids, q)]> p) l).2). split; [by rewrite Hc2, Hc1 |]. cbv zeta.
    rewrite (calls_outcome function (all_user_data q) id l _ (list_to_set dpids) q); [| | apply lookup_insert_eq | done | done].
    2: { intros id' D q' Hid' Hp'. rewrite lookup_insert_ne in Hp' by done. by apply (Ho id' D q'). }
    assert (Hset : (list_to_set dpids : gset Z) <> ∅) by (destruct dpids; [done | set_solver]).
    assert (Hall : forall d, d ∈ dpids -> accepts (switch_name d) = true).
    { intros d Hd. unfold all_accept in Hacc. rewrite forallb_forall in Hacc. by apply Hacc, list_elem_of_In. }
    split_and!; [| | | | intros; by eapply answers_handled].
    + destruct (outcome _ id l) as [r |] eqn:Eo; [| by left]. destruct (outcome_result _ _ _ _ Eo) as [-> | ->]; [by right; left | by right; right].
    + intros Hans. destruct (outcome_answered (list_to_set dpids) id l Hset) as [r ->]; [| done]. intros d Hd%elem_of_list_to_set. by apply Hans.
    + destruct (outcome _ id l) as [r |] eqn:Eo; [| done]. intros [= ->] d Hd. split; [by apply Hall |]. apply (outcome_succeeded _ _ _ Eo). by apply elem_of_list_to_set.
    + destruct (outcome _ id l) as [r |] eqn:Eo; [| done]. intros [= ->]. destruct (outcome_failed _ _ _ Eo) as (d & Hd%elem_of_list_to_set & Hin). exists d. split; [done | by right].
  - destruct Hd as [Hr1 Hc1]. split; [done |]. intros l f2 Hruns. destruct (runs_settle l f1 f2 p Hruns Hr1) as [_ Hc2].
    exists (response q EFI_OPERATION_FAILED ++ (settle_all p l).2). split; [by rewrite Hc2, Hc1, app_assoc |]. cbv zeta. rewrite calls_app, Hmine, (closed_no_calls _ _ id l p Ho Hp).
    split_and!; [by right; right | done | done | | intros; by eapply answers_handled].
    intros _. unfold all_accept in Hacc. apply not_true_iff_false in Hacc. rewrite forallb_forall in Hacc.
    destruct (decide (Exists (fun d => accepts (switch_name d) = false) dpids)) as [Hex | Hno].
    + apply Exists_exists in Hex as (d & Hd & Hf). exists d. split; [done | by left].
    + exfalso. apply Hacc. intros d Hd%list_elem_of_In. destruct (accepts (switch_name d)) eqn:Ea; [done |]. exfalso. apply Hno, Exists_exists. by exists d.
Qed.
End Transactions.

(** * Witness *)

Section Witnesses.
Let host : Host := LittleEndian.
#[local] Existing Instance host.

(** A messenger that takes all requests, and a number of timers. *)
#[local] Instance busy_requesting : Requesting nat := {|
  trema_name := ret [Byte.x61];
  trema_getpid := ret 7;
  add_message_replied_callback _ := ret true;
  delete_message_replied_callback _ := ret true;
  send_request_message _ _ _ _ _ := ret true;
  add_timer_event_callback _ := fun w => Ok (true, S w);
  delete_timer_event _ := fun w => Ok (true, Nat.pred w)
|}.

Definition idle_forwarding : forwarding := Forwarding (Some [Byte.x61]) (Some (create_hash_with_size 16)) ∅ ∅ 0 [].
Definition sample_param : to_all_param := ToAllParam true EVENT_FORWARD_TYPE_PACKET_IN [Byte.x61] (Some 3) 4.

Lemma idle_represents : represents idle_forwarding ∅.
Proof.
  exists (create_hash_with_size 16), ∅. split_and!; [done | by apply (table_new uint32_key) | by intros ? ? ?%lookup_empty_Some | done |].
  intros a [r Ha]. cbn in Ha. by apply lookup_empty_Some in Ha.
Qed.

(** The first switch says yes, the second times out. *)
Lemma to_all_answered_once_witness : exists f1 w1 f2 new,
  _dispatch_to_all_switch (Some [1; 2]) sample_param (idle_forwarding, O) = Ok (tt, (f1, w1)) /\ runs [(TxInfo 1 1, true); (TxInfo 2 1, false)] f1 f2 /\
  user_calls f2 = new /\ calls_of 3 4 new <> [].
Proof.
  destruct (to_all_answered_once (W := nat) ltac:(intros; by do 2 eexists) (fun _ => true) ltac:(intros; by eexists) ltac:(intros; by eexists)
    idle_forwarding ∅ sample_param [1; 2] [Byte.x61] 3 O idle_represents eq_refl ltac:(done) eq_refl eq_refl ltac:(intros ? ? ? ? ?; done)) as (f1 & w1 & E & _ & Hruns).
  vm_compute in E. injection E as <- <-.
  match type of Hruns with forall l f2, runs l ?f1 f2 -> _ => assert (R : exists f2, runs [(TxInfo 1 1, true); (TxInfo 2 1, false)] f1 f2) end.
  { eexists. eapply (runs_response xH (TxInfo 1 1) (OperationResult EFI_OPERATION_SUCCEEDED []) _ _ O); [vm_compute; reflexivity | vm_compute; reflexivity |].
    eapply (runs_timeout 2%positive (TxInfo 2 1) _ _ O); [vm_compute; reflexivity | vm_compute; reflexivity | apply runs_nil]. }
  destruct R as [f2 R]. destruct (Hruns _ _ R) as (new & Hnew & _ & Hans & _). do 4 eexists. split; [vm_compute; reflexivity |]. split; [exact R |]. split; [exact Hnew |].
  apply Hans. intros d Hd. apply elem_of_cons in Hd as [-> | Hd]; [exists true; by left |]. apply list_elem_of_singleton in Hd as ->. exists false. right. by left.
Defined.
End Witnesses.
