(* ===== verification/PacketinFilter.v ===== *)
(** packetin_filter.c: the daemon that gives packets to the applications that
    have asked for them.

    A filter is a match, a priority and the names of services; the table of
    match_table.c has the filters, its data being lists of names, where NULL is
    the empty list.  A name is a C string without its terminator.  A walker that
    deletes entries of the table runs on the table that it changes: the loops of
    [map_match_table] keep pointers to what comes next only.

    The reply of a dump is a buffer of buffer.c.  A pointer to its data is dead
    when the buffer has moved; a block has another length than the one that it
    replaces, which tells a pointer to it from the others. *)

From Stdlib Require Import ZArith Lia Bool String.
From coqutil Require Import Byte.
From stdpp Require Import base list gmap.
From S2P Require Import Prelude Memory StateMonad OpenFlow Codes ByteOrder ApplicationInterface Buffer HashTable Utility Match MatchTable PacketInfo PacketParser MatchPacket Create.

(** etherip.h *)
Definition ETHERIP_VERSION : Z := Z.shiftl 0x3 12.

Definition PACKETIN_FILTER_MANAGEMENT_SERVICE : bytes := list_byte_of_string "packetin_filter_management".

Definition MESSENGER_ADD_PACKETIN_FILTER_REQUEST : Z := 0x10.
Definition MESSENGER_ADD_PACKETIN_FILTER_REPLY : Z := 0x11.
Definition MESSENGER_DELETE_PACKETIN_FILTER_REQUEST : Z := 0x12.
Definition MESSENGER_DELETE_PACKETIN_FILTER_REPLY : Z := 0x13.
Definition MESSENGER_DUMP_PACKETIN_FILTER_REQUEST : Z := 0x14.
Definition MESSENGER_DUMP_PACKETIN_FILTER_REPLY : Z := 0x15.
Definition PACKETIN_FILTER_OPERATION_SUCCEEDED : Z := 0.
Definition PACKETIN_FILTER_OPERATION_FAILED : Z := 1.
Definition PACKETIN_FILTER_FLAG_MATCH_LOOSE : Z := 0.
Definition PACKETIN_FILTER_FLAG_MATCH_STRICT : Z := 1.

Definition sizeof_packetin_filter_entry : Z := 74.
Definition sizeof_add_packetin_filter_request : Z := 74.
Definition sizeof_delete_packetin_filter_request : Z := 75.
Definition sizeof_dump_packetin_filter_request : Z := 75.
Definition sizeof_delete_packetin_filter_reply : Z := 5.
Definition offsetof_dump_packetin_filter_reply_entries : Z := 5.
Definition offsetof_entry_priority : Z := 40.
Definition offsetof_entry_service_name : Z := 42.

(** What the daemon asks of the messenger; a handle has the transaction id and
    the name of the service that made the request. *)
Class Answering (W : Type) : Type := {
  send_reply_message : Z * bytes -> Z -> bytes -> M (S := W) bool
}.

Abbreviation filter_table := (option (match_table (list bytes))).

(** * The filters *)

Section Filters.
Implicit Types (t : filter_table) (m : ofp_match) (pr : Z) (name : bytes) (services : list bytes).

Definition init_packetin_match_table : res filter_table := init_match_table None.

(** The names are freed with the lists. *)
Definition free_user_data_entry : callback (V := list bytes) unit := fun _ _ _ u => u.

Definition finalize_packetin_match_table t : res filter_table :=
  let* _ := foreach_match_table t (Some free_user_data_entry) tt in finalize_match_table t.

Definition add_packetin_match_entry t m pr name : res (bool * filter_table) :=
  let* services := lookup_match_strict_entry [] t m pr in
  match services with
  | [] =>
    let* (_, t) := insert_match_entry t m pr [name] in Ok (true, t)
  | _ :: _ =>
    if existsb (fun service => bool_decide (service = name)) services then Ok (false, t)
    else let* (_, t) := update_match_entry t m pr (services ++ [name]) in Ok (true, t)
  end.

(** [strcmp( s, mem ) == 0], where [mem] goes on to the end of its object. *)
Fixpoint strcmp_equal (s mem : bytes) : res bool :=
  match mem with
  | [] => Fault OutOfBounds
  | c :: mem =>
    match s with
    | [] => Ok (bool_decide (c = zero))
    | b :: s => if decide (b = c) then strcmp_equal s mem else Ok false
    end
  end.

(** The services that are left, and how many are not. *)
Fixpoint delete_services services (service_name : bytes) : res (Z * list bytes) :=
  match services with
  | [] => Ok (0, [])
  | service :: services =>
    let* equal := strcmp_equal service service_name in
    let* (n_deleted, remaining) := delete_services services service_name in
    if equal : bool then Ok (n_deleted + 1, remaining) else Ok (n_deleted, service :: remaining)
  end.

Definition delete_packetin_match_entry t m pr (service_name : bytes) : res (Z * filter_table) :=
  let* (head, t) := delete_match_strict_entry [] t m pr in
  match head with
  | [] => Ok (0, t)
  | _ :: _ =>
    let* (n_deleted, remaining) := delete_services head service_name in
    match remaining with
    | [] => Ok (n_deleted, t)
    | _ :: _ => let* (_, t) := insert_match_entry t m pr remaining in Ok (n_deleted, t)
    end
  end.

(** ** The filters of the command line *)

Definition register_dl_type_filter t (dl_type_ pr : Z) name : res filter_table :=
  let m := set_dl_type (set_wildcards zero_match (Z.land OFPFW_ALL (not32 OFPFW_DL_TYPE))) dl_type_ in
  let* (_, t) := add_packetin_match_entry t m pr name in Ok t.

Definition register_any_filter t pr name : res filter_table :=
  let m := set_wildcards zero_match OFPFW_ALL in
  let* (_, t) := add_packetin_match_entry t m pr name in Ok t.

Definition match_type (type name : bytes) : option bytes :=
  if bool_decide (take (length type) name = type) then Some (drop (length type) name) else None.

Definition LLDP_PACKET_IN : bytes := list_byte_of_string "lldp::".
Definition ANY_PACKET_IN : bytes := list_byte_of_string "packet_in::".
Definition OFP_DEFAULT_PRIORITY : Z := 0x8000.

(** The arguments after the name of the program. *)
Fixpoint set_match_type t (argv : list bytes) : res (bool * filter_table) :=
  match argv with
  | [] => Ok (true, t)
  | arg :: argv =>
    match match_type LLDP_PACKET_IN arg with
    | Some service_name =>
      let* t := register_dl_type_filter t ETH_ETHTYPE_LLDP OFP_DEFAULT_PRIORITY service_name in set_match_type t argv
    | None =>
      match match_type ANY_PACKET_IN arg with
      | Some service_name => let* t := register_any_filter t 0 service_name in set_match_type t argv
      | None => Ok (false, t)
      end
    end
  end.

(** ** A walker that deletes *)

(** [reply->n_deleted] is the second part of the state. *)
Definition delete_filter_walker m pr (s : filter_table * Z) : res (filter_table * Z) :=
  let* (head, t) := delete_match_strict_entry [] s.1 m pr in
  Ok (t, fold_left (fun n_deleted _ => u32 (n_deleted + 1)) head s.2).

(** What [map_match_table] does with the entry at [a]. *)
Definition delete_at (match_ : ofp_match) (a : positive) (s : filter_table * Z) : res (filter_table * Z) :=
  match s.1 with
  | None => Fault AssertFailed
  | Some t =>
    let* entry := load (entry_heap t) a in
    if negb (compare_filter_match match_ (me_match entry)) then Ok s
    else delete_filter_walker (me_match entry) (me_priority entry) s
  end.

Fixpoint delete_exact_entries (match_ : ofp_match) (es : list (hash_entry ofp_match (option positive))) (s : filter_table * Z)
    : res (filter_table * Z) :=
  match es with
  | [] => Ok s
  | e :: es =>
    let* s := match value e with Some a => delete_at match_ a s | None => Fault AssertFailed end in
    delete_exact_entries match_ es s
  end.

(** The entries of a bucket are those it has when the loop comes to it. *)
Fixpoint delete_exact_buckets (match_ : ofp_match) (nonempty : list (positive * Z)) (s : filter_table * Z) : res (filter_table * Z) :=
  match nonempty with
  | [] => Ok s
  | (_, i) :: nonempty =>
    match s.1 with
    | None => Fault AssertFailed
    | Some t =>
      let* b := get_bucket (exact_table t) i in
      let* s := match b with Some b => delete_exact_entries match_ (entries b) s | None => Ok s end in
      delete_exact_buckets match_ nonempty s
    end
  end.

Fixpoint delete_wildcards (match_ : ofp_match) (l : list positive) (s : filter_table * Z) : res (filter_table * Z) :=
  match l with
  | [] => Ok s
  | a :: l => let* s := delete_at match_ a s in delete_wildcards match_ l s
  end.

(** [map_match_table( match, delete_filter_walker, buf )]: the list of the
    entries with wildcards is read when the others have been visited. *)
Definition delete_filters (match_ : ofp_match) t : res (filter_table * Z) :=
  match t with
  | None => Fault Died
  | Some mt =>
    let* s := delete_exact_buckets match_ (nonempty_bucket_index (exact_table mt)) (t, 0) in
    match s.1 with
    | None => Fault AssertFailed
    | Some mt => delete_wildcards match_ (wildcards_table mt) s
    end
  end.
End Filters.

(** * The reply of a dump *)

Section Dump.
Context {host : Host}.
Abbreviation reply_buffer := (private_buffer (U := unit)).
Implicit Types (b : reply_buffer) (m : ofp_match).

Definition store b (off : Z) (bs : bytes) : res reply_buffer :=
  let* cells := block b in
  let* cells := write cells off (map Some bs) in
  Ok (PrivateBuffer (Some cells) (front b) (data_length b) (real_length b) (user_data b) (user_data_free_function b)).

(** Bytes that have been written. *)
Definition fetch b (off n : Z) : res bytes :=
  let* cells := block b in
  let* cells := read cells off n in
  match mapM id cells with Some bs => Ok bs | None => Fault OutOfBounds end.

(** [reply], taken when the block had the length [reply]. *)
Definition live (reply : Z) b : res unit := if real_length b =? reply then Ok tt else Fault UseAfterFree.

Definition load_n_entries (reply : Z) b : res Z :=
  let* _ := live reply b in
  let* bs := fetch b (front b + 1) 4 in
  ld 4 bs 0.

Definition store_n_entries (reply : Z) b (n_entries : Z) : res reply_buffer :=
  let* _ := live reply b in
  store b (front b + 1) (host_encode 4 n_entries).

(** [strncpy] into an array of [n] bytes, and its last byte set to 0. *)
Definition strncpy (n : nat) (name : bytes) : bytes := take (n - 1) (name ++ replicate n zero) ++ [zero].

Definition append_entry b (match_ priority : bytes) (service : bytes) : res reply_buffer :=
  let* (entry, b) := append_back_buffer b sizeof_packetin_filter_entry in
  let* b := store b entry match_ in
  let* b := store b (entry + offsetof_entry_priority) priority in
  store b (entry + offsetof_entry_service_name) (strncpy 32 service).

Fixpoint dump_services (reply : Z) (match_ priority : bytes) (services : list bytes) b : res reply_buffer :=
  match services with
  | [] => Ok b
  | service :: services =>
    let* n_entries := load_n_entries reply b in
    let* b := store_n_entries reply b (u32 (n_entries + 1)) in
    let* b := append_entry b match_ priority service in
    dump_services reply match_ priority services b
  end.

(** The match as it is stored, in network byte order. *)
Definition match_bytes m : res bytes := st_match (zeros 40) 0 (hton_match m).

Definition dump_filter_walker : callback (V := list bytes) (res reply_buffer) := fun m pr services s =>
  let* b := s in
  let* match_ := match_bytes m in
  dump_services (real_length b) match_ (host_encode 2 (htons pr)) services b.

(** The services of a filter that are called [service_name]. *)
Fixpoint dump_strict (reply : Z) (match_ priority service_name : bytes) (services : list bytes) b : res reply_buffer :=
  match services with
  | [] => Ok b
  | service :: services =>
    let* equal := strcmp_equal service service_name in
    let* b :=
      if equal : bool then
        let* (entry, b) := append_back_buffer b sizeof_packetin_filter_entry in
        let* n_entries := load_n_entries reply b in
        let* b := store_n_entries reply b (u32 (n_entries + 1)) in
        let* b := store b entry match_ in
        let* b := store b (entry + offsetof_entry_priority) priority in
        store b (entry + offsetof_entry_service_name) (strncpy 32 service)
      else Ok b in
    dump_strict reply match_ priority service_name services b
  end.
End Dump.

(** * The daemon *)

Section Daemon.
Context {host : Host} {W : Type} `{Messaging W} `{Answering W}.
#[local] Abbreviation M := (StateMonad.M (S := filter_table * W)).

Definition the_filters : M filter_table := fun s => Ok (s.1, s).
Definition set_filters (t : filter_table) : M unit := fun s => Ok (tt, (t, s.2)).
Definition outside {A} (x : StateMonad.M (S := W) A) : M A := fun s => let* (a, w) := x s.2 in Ok (a, (s.1, w)).

(** ** Packets *)

Definition parse_etherip (data : bytes) (info : packet_info) : res (option packet_info) :=
  if negb (etherip_version (etherip info) =? ETHERIP_VERSION) then Ok None
  else if etherip_offset (etherip info) =? 0 then Ok None
  else
    let* copy := remove_front data (etherip_offset (etherip info)) in
    let* info := parse_packet copy in
    Ok (Some info).

(** The match of a frame, or of the frame in it. *)
Definition match_of_packet (in_port : Z) (data : bytes) (info : packet_info) : res ofp_match :=
  let* tunnel := packet_type_ipv4_etherip (Some (Some info)) in
  let* copy := if tunnel : bool then parse_etherip data info else Ok None in
  set_match_from_packet in_port 0 (Some (Some (default info copy))).

(** The first that cannot be sent is the last one tried. *)
Fixpoint send_to_services (services : list bytes) (message : bytes) : M unit :=
  match services with
  | [] => ret tt
  | service_name :: services =>
    let! sent := outside (send_message service_name MESSENGER_OPENFLOW_MESSAGE message) in
    if negb sent then ret tt else send_to_services services message
  end.

Definition handle_packet_in (datapath_id transaction_id buffer_id total_len in_port reason : Z)
    (data : option (bytes * packet_info)) : M unit :=
  match data with
  | None => fault NullPointer
  | Some (data, info) =>
    let! m := lift (match_of_packet in_port data info) in
    let! t := the_filters in
    let! services := lift (lookup_match_entry [] t m) in
    match services with
    | [] => ret tt
    | _ :: _ =>
      let! buf := lift (create_packet_in transaction_id buffer_id total_len in_port reason (Some data)) in
      send_to_services services (host_encode 8 (htonll datapath_id) ++ host_encode 2 (htons 0) ++ buf)
    end
  end.

(** ** Requests *)

(** [ret] is not looked at. *)
Definition reply_to (handle : Z * bytes) (tag : Z) (data : bytes) : M unit :=
  let! _ := outside (send_reply_message handle tag data) in ret tt.

Definition request_match (request : bytes) : res ofp_match :=
  let* m := ld_match request 0 in Ok (ntoh_match m).

Definition handle_add_filter_request (handle : Z * bytes) (request : bytes) : M unit :=
  let! request := lift (st8 request (offsetof_entry_service_name + 31) 0) in
  let service_name := c_string (drop (Z.to_nat offsetof_entry_service_name) request) in
  match service_name with
  | [] => ret tt
  | _ :: _ =>
    let! m := lift (request_match request) in
    let! priority := lift (ld_ntoh 2 request offsetof_entry_priority) in
    let! t := the_filters in
    let! (added, t) := lift (add_packetin_match_entry t m priority service_name) in
    let! _ := set_filters t in
    reply_to handle MESSENGER_ADD_PACKETIN_FILTER_REPLY
      (be_encode 1 (if added : bool then PACKETIN_FILTER_OPERATION_SUCCEEDED else PACKETIN_FILTER_OPERATION_FAILED))
  end.

Definition handle_delete_filter_request (handle : Z * bytes) (request : bytes) : M unit :=
  let! m := lift (request_match request) in
  let! priority := lift (ld_ntoh 2 request offsetof_entry_priority) in
  let! flags := lift (ld8 request 74) in
  let! t := the_filters in
  let! (n_deleted, t) := lift
    (if truth (Z.land flags PACKETIN_FILTER_FLAG_MATCH_STRICT) then
       let* (n, t) := delete_packetin_match_entry t m priority (drop (Z.to_nat offsetof_entry_service_name) request) in
       Ok (u32 n, t)
     else let* (t, n) := delete_filters m t in Ok (n, t)) in
  let! _ := set_filters t in
  reply_to handle MESSENGER_DELETE_PACKETIN_FILTER_REPLY
    (be_encode 1 PACKETIN_FILTER_OPERATION_SUCCEEDED ++ host_encode 4 (htonl n_deleted)).

Definition dump_reply (t : filter_table) (request : bytes) : res bytes :=
  let* b := alloc_buffer_with_length (U := unit) 2048 in
  let* (off, b) := append_back_buffer b offsetof_dump_packetin_filter_reply_entries in
  let reply := real_length b in
  let* b := store b off (be_encode 1 PACKETIN_FILTER_OPERATION_SUCCEEDED) in
  let* b := store_n_entries reply b 0 in
  let* m := request_match request in
  let* priority := ld_ntoh 2 request offsetof_entry_priority in
  let* flags := ld8 request 74 in
  let* b :=
    if truth (Z.land flags PACKETIN_FILTER_FLAG_MATCH_STRICT) then
      let* services := lookup_match_strict_entry [] t m priority in
      dump_strict reply (take 40 request) (take 2 (drop 40 request)) (drop (Z.to_nat offsetof_entry_service_name) request) services b
    else let* s := map_match_table t m (Some dump_filter_walker) (Ok b) in s in
  let* n_entries := load_n_entries reply b in
  let* b := store_n_entries reply b (htonl n_entries) in
  fetch b (front b) (data_length b).

Definition handle_dump_filter_request (handle : Z * bytes) (request : bytes) : M unit :=
  let! t := the_filters in
  let! data := lift (dump_reply t request) in
  reply_to handle MESSENGER_DUMP_PACKETIN_FILTER_REPLY data.

Definition handle_request (handle : Z * bytes) (tag : Z) (data : bytes) : M unit :=
  if tag =? MESSENGER_ADD_PACKETIN_FILTER_REQUEST then
    if negb (blen data =? sizeof_add_packetin_filter_request) then ret tt else handle_add_filter_request handle data
  else if tag =? MESSENGER_DELETE_PACKETIN_FILTER_REQUEST then
    if negb (blen data =? sizeof_delete_packetin_filter_request) then ret tt else handle_delete_filter_request handle data
  else if tag =? MESSENGER_DUMP_PACKETIN_FILTER_REQUEST then
    if negb (blen data =? sizeof_dump_packetin_filter_request) then ret tt else handle_dump_filter_request handle data
  else ret tt.
End Daemon.
