(* ===== verification/Filtering.v ===== *)
(** The filters of packetin_filter.c as a function: which services have asked
    for which packets, and what adding, deleting and dispatching make of it.

    [names m pr] are the services of the filter of the match [m] and the
    priority [pr], in the order in which they were added, none being called
    twice; there is no filter without services.  Matches that
    [compare_match_strict] takes for equal are one filter, and so are exact
    matches of any priority. *)

From Stdlib Require Import ZArith Lia Bool Sorting.Sorted.
From coqutil Require Import Byte.
From stdpp Require Import base list gmap.
From S2P Require Import Prelude Memory StateMonad OpenFlow Codes ByteOrder LinkedList Roundtrip ApplicationInterface Buffer HashTable Utility Match MatchTable PacketInfo PacketParser MatchPacket PacketFields Create PacketinFilter.

(** * Equal matches *)

Lemma land_lxor a b c : Z.land (Z.lxor a b) c = Z.lxor (Z.land a c) (Z.land b c).
Proof. apply Z.bits_inj'. intros i Hi. rewrite Z.land_spec, !Z.lxor_spec, !Z.land_spec. by destruct (Z.testbit _ i), (Z.testbit _ i), (Z.testbit _ i). Qed.

Lemma same_wild x y f : Z.land (wildcards x) OFPFW_ALL = Z.land (wildcards y) OFPFW_ALL -> wild (wildcards x) f = wild (wildcards y) f.
Proof.
  intros E. unfold wild. rewrite <- (land_ones_bit (wildcards y) 22), <- (land_ones_bit (wildcards x) 22) by (destruct f; cbn; lia).
  change (Z.ones 22) with OFPFW_ALL. by rewrite E.
Qed.

Lemma same_bits x y : Z.land (wildcards x) OFPFW_ALL = Z.land (wildcards y) OFPFW_ALL ->
  src_bits (wildcards x) = src_bits (wildcards y) /\ dst_bits (wildcards x) = dst_bits (wildcards y).
Proof. intros E. by rewrite <- (src_bits_all (wildcards x)), <- (dst_bits_all (wildcards x)), E, src_bits_all, dst_bits_all. Qed.

Lemma strict_true x y : wf_match x -> wf_match y ->
  compare_match_strict x y = true <-> Z.land (wildcards x) OFPFW_ALL = Z.land (wildcards y) OFPFW_ALL /\ covers x y.
Proof.
  intros Hx Hy. unfold compare_match_strict. rewrite andb_true_iff, Z.eqb_eq, land_lxor, Z.lxor_eq_0_iff.
  split; intros [E H]; (split; [exact E |]); destruct (same_bits _ _ E) as [Es Ed].
  - apply compare_match_true in H as (Hf & H1 & H2); try done. rewrite <- Es, Z.max_id in H1. rewrite <- Ed, Z.max_id in H2. split; [| done | done].
    intros f Hn. destruct (Hf f) as [Hf' |]; [| done]. by rewrite <- (same_wild _ _ f E), Hn in Hf'.
  - apply compare_match_true; try done. destruct H as [Hf H1 H2]. rewrite <- Es, <- Ed, !Z.max_id. split_and!; try done.
    intros f. destruct (wild (wildcards x) f) eqn:Hn; [by left | right; auto].
Qed.

Lemma strict_refl x : wf_match x -> compare_match_strict x x = true.
Proof. intros Hx. apply strict_true; try done. split; [done | apply covers_refl]. Qed.

Lemma strict_sym x y : wf_match x -> wf_match y -> compare_match_strict x y = compare_match_strict y x.
Proof.
  assert (H : forall x y, wf_match x -> wf_match y -> compare_match_strict x y = true -> compare_match_strict y x = true).
  { clear. intros x y Hx Hy. rewrite !strict_true by done. intros [E [F S D]]. split; [done |]. destruct (same_bits _ _ E) as [Es Ed].
    split; [| by unfold same_prefix; rewrite <- Es | by unfold same_prefix; rewrite <- Ed].
    intros f Hf. rewrite <- (same_wild _ _ f E) in Hf. specialize (F f Hf). by destruct f. }
  intros Hx Hy. destruct (compare_match_strict x y) eqn:E1, (compare_match_strict y x) eqn:E2; try done; [by rewrite (H x y) in E2 | by rewrite (H y x) in E1].
Qed.

Lemma strict_trans x y z : wf_match x -> wf_match y -> wf_match z ->
  compare_match_strict x y = true -> compare_match_strict y z = true -> compare_match_strict x z = true.
Proof.
  intros Hx Hy Hz. rewrite !strict_true by done. intros [E1 C1] [E2 C2]. split; [congruence |]. destruct (same_bits _ _ E1) as [Es Ed].
  apply (covers_trans x y z); try done; [| lia | lia]. intros f. by rewrite (same_wild _ _ f E1).
Qed.

Lemma strict_exact x y : compare_match_strict x y = true -> exact_match x = exact_match y.
Proof.
  unfold compare_match_strict, exact_match. intros [E%Z.eqb_eq _]%andb_true_iff. f_equal. apply Z.lxor_eq_0_iff. by rewrite <- E, land_lxor.
Qed.

(** The filter of a walker does not tell them apart. *)
Lemma filter_strict c x y : wf_match c -> wf_match x -> wf_match y -> compare_match_strict x y = true -> compare_filter_match c x = compare_filter_match c y.
Proof.
  assert (H : forall x y, wf_match c -> wf_match x -> wf_match y -> compare_match_strict x y = true -> compare_filter_match c x = true -> compare_filter_match c y = true).
  { clear. intros x y Hc Hx Hy. rewrite strict_true, !compare_filter_match_true by done. intros [E C] (Hw & Hs & Hd & Hcov). destruct (same_bits _ _ E) as [Es Ed].
    split_and!; [| lia | lia | by apply (covers_trans c x y)]. intros f. rewrite <- (same_wild _ _ f E). apply Hw. }
  intros Hc Hx Hy E. pose proof E as E'. rewrite strict_sym in E' by done.
  destruct (compare_filter_match c x) eqn:E1, (compare_filter_match c y) eqn:E2; try done; [by rewrite (H x y) in E2 | by rewrite (H y x) in E1].
Qed.

(** * Rules: the table as a function *)

Definition same_rule m (pr : Z) m' (pr' : Z) : bool := compare_match_strict m m' && (exact_match m || (pr =? pr')).

Lemma same_rule_refl m pr : wf_match m -> same_rule m pr m pr = true.
Proof. intros Hm. unfold same_rule. by rewrite strict_refl, Z.eqb_refl, orb_true_r. Qed.

Lemma same_rule_sym m pr m' pr' : wf_match m -> wf_match m' -> same_rule m pr m' pr' = same_rule m' pr' m pr.
Proof.
  intros Hm Hm'. unfold same_rule. rewrite (strict_sym m' m), Z.eqb_sym by done. destruct (compare_match_strict m m') eqn:E; [| done].
  by rewrite (strict_exact _ _ E).
Qed.

Lemma same_rule_trans m pr m' pr' k p : wf_match m -> wf_match m' -> wf_match k ->
  same_rule m pr m' pr' = true -> same_rule m' pr' k p = same_rule m pr k p.
Proof.
  intros Hm Hm' Hk [E H]%andb_true_iff. unfold same_rule. rewrite <- (strict_exact _ _ E).
  assert (compare_match_strict m' k = compare_match_strict m k) as ->.
  { destruct (compare_match_strict m' k) eqn:E1, (compare_match_strict m k) eqn:E2; try done.
    - by rewrite (strict_trans m m' k) in E2.
    - rewrite strict_sym in E by done. by rewrite (strict_trans m' m k) in E1. }
  f_equal. destruct (exact_match m); [done |]. cbn in *. by apply Z.eqb_eq in H as ->.
Qed.

Section Rules.
Abbreviation entry := (match_entry (list bytes)).
Implicit Types (sp : spec (V := list bytes)) (m k : ofp_match) (pr p : Z) (d : list bytes) (N : ofp_match -> Z -> list bytes) (e : entry) (es : list entry).

Record rules sp N : Prop := {
  ru_exact m : wf_match m -> exact_match m = true -> sp_exact sp m = match N m 0 with [] => None | _ :: _ => Some (N m 0) end;
  ru_wild e : e ∈ sp_wild sp -> wf_match (me_match e) /\ me_data e = N (me_match e) (me_priority e) /\ me_data e <> [];
  ru_all m pr : wf_match m -> exact_match m = false -> N m pr <> [] -> exists e, e ∈ sp_wild sp /\ same_entry m pr e = true;
  ru_same m pr k p : wf_match m -> wf_match k -> same_rule m pr k p = true -> N m pr = N k p;
  ru_wf : sp_wf sp
}.

Definition set_rule N m pr d : ofp_match -> Z -> list bytes := fun k p => if same_rule m pr k p then d else N k p.

Lemma same_entry_rule m pr e : wf_match m -> wf_match (me_match e) -> exact_match m = false -> same_entry m pr e = same_rule m pr (me_match e) (me_priority e).
Proof.
  intros Hm He Hx. unfold same_entry, same_rule. rewrite Hx, strict_sym, Z.eqb_sym by done. apply andb_comm.
Qed.

Lemma set_rule_same N m pr d : wf_match m ->
  (forall k p k' p', wf_match k -> wf_match k' -> same_rule k p k' p' = true -> N k p = N k' p') ->
  forall k p k' p', wf_match k -> wf_match k' -> same_rule k p k' p' = true -> set_rule N m pr d k p = set_rule N m pr d k' p'.
Proof.
  intros Hm HN k p k' p' Hk Hk' Hs. unfold set_rule. rewrite (same_rule_sym m pr k p), (same_rule_sym m pr k' p') by done.
  rewrite (same_rule_trans k p k' p' m pr) by done. rewrite (HN k p k' p') by done. done.
Qed.

Lemma exact_priority N m pr pr' sp : rules sp N -> wf_match m -> exact_match m = true -> N m pr = N m pr'.
Proof. intros H Hm Hx. apply (ru_same _ _ H); try done. unfold same_rule. by rewrite strict_refl, Hx. Qed.

Lemma exact_not_wild m pr k p : exact_match m = true -> exact_match k = false -> same_rule m pr k p = false.
Proof.
  intros Hm Hk. unfold same_rule. destruct (compare_match_strict m k) eqn:E; [| done]. apply strict_exact in E. congruence.
Qed.

Lemma wild_not_exact_rule m pr k p : exact_match m = false -> exact_match k = true -> same_rule m pr k p = false.
Proof.
  intros Hm Hk. unfold same_rule. destruct (compare_match_strict m k) eqn:E; [| done]. apply strict_exact in E. congruence.
Qed.

Lemma find_rule sp N m pr : rules sp N -> wf_match m -> exact_match m = false ->
  match List.find (same_entry m pr) (sp_wild sp) with
  | Some e => e ∈ sp_wild sp /\ same_entry m pr e = true /\ me_data e = N m pr /\ N m pr <> []
  | None => N m pr = []
  end.
Proof.
  intros H Hm Hx. destruct (List.find _ _) as [e |] eqn:E.
  - apply List.find_some in E as [Hin Hs]. apply list_elem_of_In in Hin. destruct (ru_wild _ _ H e Hin) as (He & Hd & Hne).
    rewrite same_entry_rule in Hs by done. assert (E : N m pr = N (me_match e) (me_priority e)) by (by apply (ru_same _ _ H)).
    rewrite same_entry_rule, E, <- Hd by done. done.
  - destruct (N m pr) eqn:En; [done |]. destruct (ru_all _ _ H m pr Hm Hx ltac:(by rewrite En)) as (e & Hin & Hs).
    apply list_elem_of_In in Hin. by rewrite (List.find_none _ _ E e Hin) in Hs.
Qed.

Lemma lookup_rule sp N m pr : rules sp N -> wf_match m -> (spec_call [] sp (LookupStrict m pr)) = (RData (N m pr), sp).
Proof.
  intros H Hm. cbn. do 2 f_equal. destruct (exact_match m) eqn:Hx.
  - rewrite (ru_exact _ _ H) by done. rewrite (exact_priority N m pr 0 sp) by done. by destruct (N m 0).
  - pose proof (find_rule sp N m pr H Hm Hx) as Hf. destruct (List.find _ _) as [e |]; cbn; [by destruct Hf as (_ & _ & -> & _) | done].
Qed.

Lemma elem_of_insert_sorted e e' es : e' ∈ insert_sorted e es <-> e' = e \/ e' ∈ es.
Proof.
  induction es as [| e1 es IH]; cbn [insert_sorted]; [rewrite elem_of_cons; set_solver |].
  destruct (_ <? _); rewrite !elem_of_cons; [tauto |]. rewrite IH. tauto.
Qed.

(** At most one entry is that of a rule. *)
Lemma others_differ m pr e es : wf_match m -> exact_match m = false -> (forall e', e' ∈ e :: es -> wf_match (me_match e')) ->
  StronglySorted before (e :: es) -> same_entry m pr e = true -> forall e', e' ∈ es -> same_entry m pr e' = false.
Proof.
  intros Hm Hx Hwf [_ Hb]%StronglySorted_inv [E1%Z.eqb_eq S1]%andb_true_iff e' He'. rewrite Forall_forall in Hb. destruct (Hb e' He') as [_ Hne].
  destruct (same_entry m pr e') eqn:E; [| done]. apply andb_true_iff in E as [E2%Z.eqb_eq S2].
  assert (wf_match (me_match e)) by (apply Hwf; by left). assert (wf_match (me_match e')) by (apply Hwf; by right).
  rewrite (strict_sym (me_match e') m) in S2 by done. rewrite (strict_trans _ m _) in Hne by done. by specialize (Hne ltac:(lia)).
Qed.

Lemma elem_of_update_first m pr d es e' : wf_match m -> exact_match m = false -> (forall e, e ∈ es -> wf_match (me_match e)) -> StronglySorted before es ->
  e' ∈ update_first (same_entry m pr) d es ->
  exists e, e ∈ es /\ ((e' = e /\ same_entry m pr e = false) \/ (e' = MatchEntry (me_match e) (me_priority e) d /\ same_entry m pr e = true)).
Proof.
  intros Hm Hx. induction es as [| e es IH]; intros Hwf Hs; cbn [update_first]; [by intros ?%elem_of_nil |].
  destruct (same_entry m pr e) eqn:E; intros [-> | Hin]%elem_of_cons.
  - exists e. split; [by left |]. by right.
  - exists e'. split; [by right |]. left. split; [done |]. by apply (others_differ m pr e es).
  - exists e. split; [by left |]. by left.
  - apply StronglySorted_inv in Hs as [Hs _]. destruct (IH ltac:(intros; apply Hwf; by right) Hs Hin) as (e1 & He1 & Hc). exists e1. split; [by right | done].
Qed.

Lemma update_first_has (f : entry -> bool) d es e : e ∈ es -> f e = false -> e ∈ update_first f d es.
Proof.
  induction es as [| e1 es IH]; [by intros ?%elem_of_nil |]. intros [-> | Hin]%elem_of_cons Hf; cbn [update_first].
  - rewrite Hf. by left.
  - destruct (f e1); right; [done | by apply IH].
Qed.

Lemma update_first_hit (f : entry -> bool) d es e : List.find f es = Some e -> MatchEntry (me_match e) (me_priority e) d ∈ update_first f d es.
Proof. induction es as [| e1 es IH]; cbn [List.find update_first]; [done |]. destruct (f e1); [intros [= ->]; by left | intros H; right; by apply IH]. Qed.

Lemma elem_of_delete_first m pr es e' : wf_match m -> exact_match m = false -> (forall e, e ∈ es -> wf_match (me_match e)) -> StronglySorted before es ->
  e' ∈ delete_first (same_entry m pr) es <-> e' ∈ es /\ same_entry m pr e' = false.
Proof.
  intros Hm Hx. induction es as [| e es IH]; intros Hwf Hs; cbn [delete_first]; [split; [by intros ?%elem_of_nil | by intros [?%elem_of_nil _]] |].
  destruct (same_entry m pr e) eqn:E.
  - split; [intros Hin; split; [by right | by apply (others_differ m pr e es)] | intros [[-> | ?]%elem_of_cons ?]; [congruence | done]].
  - apply StronglySorted_inv in Hs as [Hs _]. rewrite !elem_of_cons, IH by (done || intros; apply Hwf; by right). split.
    + intros [-> | []]; [split; [by left | done] | split; [by right | done]].
    + intros [[-> | ?] ?]; [by left | by right].
Qed.

(** ** Calls of the table set a rule *)

Lemma strict_key k m : compare k m = compare_match_strict k m.
Proof. done. Qed.

Lemma set_exact (sp sp' : spec (V := list bytes)) N m pr d : rules sp N -> wf_match m -> exact_match m = true -> sp_wild sp' = sp_wild sp ->
  (forall k, sp_exact sp' k = if compare k m then match d with [] => None | _ :: _ => Some d end else sp_exact sp k) -> rules sp' (set_rule N m pr d).
Proof.
  intros H Hm Hx Hw He. split.
  - intros k Hk Hkx. rewrite He, strict_key. unfold set_rule, same_rule. rewrite Hx, strict_sym by done. cbn [orb]. rewrite andb_true_r.
    destruct (compare_match_strict m k); [by destruct d |]. by apply (ru_exact _ _ H).
  - intros e Hin. rewrite Hw in Hin. destruct (ru_wild _ _ H e Hin) as (Hwf & Hd & Hne). split_and!; try done. unfold set_rule.
    rewrite exact_not_wild; [done | done |]. destruct (ru_wf _ _ H) as [_ Hi]. rewrite Forall_forall in Hi. by apply Hi.
  - intros k p Hk Hkx. unfold set_rule. rewrite exact_not_wild by done. rewrite Hw. by apply (ru_all _ _ H).
  - apply set_rule_same; [done | apply (ru_same _ _ H)].
  - destruct (ru_wf _ _ H) as [H1 H2]. by split; rewrite Hw.
Qed.

Lemma set_wild (sp sp' : spec (V := list bytes)) N m pr d : rules sp N -> wf_match m -> exact_match m = false -> (forall k, sp_exact sp' k = sp_exact sp k) -> sp_wf sp' ->
  (forall e, e ∈ sp_wild sp' -> same_entry m pr e = true -> wf_match (me_match e) /\ me_data e = d /\ d <> []) ->
  (forall e, e ∈ sp_wild sp' -> same_entry m pr e = false -> e ∈ sp_wild sp) ->
  (forall e, e ∈ sp_wild sp -> same_entry m pr e = false -> e ∈ sp_wild sp') ->
  (d <> [] -> exists e, e ∈ sp_wild sp' /\ same_entry m pr e = true) -> rules sp' (set_rule N m pr d).
Proof.
  intros H Hm Hx He Hwf Hhit Hsub Hsup Hhas. split.
  - intros k Hk Hkx. rewrite He. unfold set_rule. rewrite wild_not_exact_rule by done. by apply (ru_exact _ _ H).
  - intros e Hin. unfold set_rule. destruct (same_entry m pr e) eqn:E.
    + destruct (Hhit e Hin E) as (Hw & Hd & Hne). rewrite <- same_entry_rule by done. rewrite E, Hd. done.
    + pose proof (Hsub e Hin E) as Hin'. destruct (ru_wild _ _ H e Hin') as (Hw & Hd & Hne). rewrite <- same_entry_rule by done. by rewrite E.
  - intros k p Hk Hkx. unfold set_rule. destruct (same_rule m pr k p) eqn:E.
    + intros Hne. destruct (Hhas Hne) as (e & Hin & Es). exists e. split; [done |]. destruct (Hhit e Hin Es) as (Hw & _ & _).
      rewrite same_entry_rule in * by done. rewrite (same_rule_sym m pr) in E by done. by rewrite <- (same_rule_trans k p m pr).
    + intros Hne. destruct (ru_all _ _ H k p Hk Hkx Hne) as (e & Hin & Es). destruct (ru_wild _ _ H e Hin) as (Hw & _ & _).
      exists e. split; [| done]. apply Hsup; [done |]. rewrite same_entry_rule in * by done.
      rewrite (same_rule_sym m pr), (same_rule_trans k p), (same_rule_sym k p) by done. done.
  - apply set_rule_same; [done | apply (ru_same _ _ H)].
  - done.
Qed.

Lemma rules_wf_entries sp N e : rules sp N -> e ∈ sp_wild sp -> wf_match (me_match e).
Proof. intros H Hin. apply (ru_wild _ _ H e Hin). Qed.

Lemma no_entry sp N m pr e : rules sp N -> wf_match m -> exact_match m = false -> N m pr = [] -> e ∈ sp_wild sp -> same_entry m pr e = false.
Proof.
  intros H Hm Hx Hn Hin. destruct (same_entry m pr e) eqn:E; [| done]. destruct (ru_wild _ _ H e Hin) as (Hw & Hd & Hne).
  rewrite same_entry_rule in E by done. rewrite (ru_same _ _ H m pr (me_match e) (me_priority e)) in Hn by done. congruence.
Qed.

Lemma insert_rule sp N m pr d : rules sp N -> wf_match m -> N m pr = [] -> d <> [] ->
  exists sp', spec_call [] sp (Insert m pr d) = (RBool true, sp') /\ rules sp' (set_rule N m pr d).
Proof.
  intros H Hm Hn Hd. pose proof (spec_call_wf [] sp (Insert m pr d) (ru_wf _ _ H)) as Hwf. cbn [spec_call] in *. destruct (exact_match m) eqn:Hx.
  - rewrite (ru_exact _ _ H) in * by done. rewrite (exact_priority N m 0 pr sp), Hn by done. eexists. split; [done |].
    apply (set_exact sp); try done. intros k. cbn [sp_exact]. by destruct d.
  - assert (existsb (same_entry m pr) (sp_wild sp) = false) as Hno.
    { apply not_true_iff_false. intros (e & Hin%list_elem_of_In & E)%existsb_exists. by rewrite (no_entry sp N m pr e) in E. }
    rewrite Hno in *. eexists. split; [done |]. cbn [snd] in Hwf.
    assert (Hnew : same_entry m pr (MatchEntry m pr d) = true) by (unfold same_entry; cbn; by rewrite Z.eqb_refl, strict_refl).
    apply (set_wild sp); try done.
    + intros e [-> | Hin]%elem_of_insert_sorted E; [done |]. by rewrite (no_entry sp N m pr e) in E.
    + intros e [-> | Hin]%elem_of_insert_sorted E; [congruence | done].
    + intros e Hin _. apply elem_of_insert_sorted. by right.
    + intros _. exists (MatchEntry m pr d). split; [apply elem_of_insert_sorted; by left | done].
Qed.

Lemma update_rule sp N m pr d : rules sp N -> wf_match m -> N m pr <> [] -> d <> [] ->
  exists sp', spec_call [] sp (Update m pr d) = (RBool true, sp') /\ rules sp' (set_rule N m pr d).
Proof.
  intros H Hm Hn Hd. pose proof (spec_call_wf [] sp (Update m pr d) (ru_wf _ _ H)) as Hwf. cbn [spec_call] in *. destruct (exact_match m) eqn:Hx.
  - rewrite (ru_exact _ _ H) in * by done. rewrite (exact_priority N m 0 pr sp) in * by done. destruct (N m pr) as [| s l]; [done |]. eexists. split; [done |].
    apply (set_exact sp); try done. intros k. cbn [sp_exact]. by destruct d.
  - pose proof (find_rule sp N m pr H Hm Hx) as Hf. rewrite find_existsb in *. destruct (List.find _ _) as [e |] eqn:E; [| done]. destruct Hf as (Hin & Es & _ & _).
    eexists. split; [done |]. cbn [snd] in Hwf. destruct (ru_wf _ _ H) as [Hsort _]. pose proof (fun e => rules_wf_entries sp N e H) as Hwfe.
    apply (set_wild sp); try done.
    + intros e1 Hin1 Es1. apply elem_of_update_first in Hin1 as (e2 & Hin2 & [[-> Hf] | [-> Hs]]); try done; [congruence |]. cbn. by split; [apply Hwfe |].
    + intros e1 Hin1 Es1. apply elem_of_update_first in Hin1 as (e2 & Hin2 & [[-> Hf] | [-> Hs]]); try done. unfold same_entry in *. cbn in *. congruence.
    + intros e1 Hin1 Es1. by apply update_first_has.
    + intros _. exists (MatchEntry (me_match e) (me_priority e) d). split; [by apply update_first_hit | done].
Qed.

Lemma delete_rule sp N m pr : rules sp N -> wf_match m ->
  exists sp', spec_call [] sp (Delete m pr) = (RData (N m pr), sp') /\ rules sp' (set_rule N m pr []).
Proof.
  intros H Hm. pose proof (spec_call_wf [] sp (Delete m pr) (ru_wf _ _ H)) as Hwf. pose proof (lookup_rule sp N m pr H Hm) as Hl. cbn [spec_call] in *. destruct (exact_match m) eqn:Hx.
  - eexists. split; [by injection Hl as -> |]. by apply (set_exact sp).
  - eexists. split; [by injection Hl as -> |]. cbn [snd] in Hwf. destruct (ru_wf _ _ H) as [Hsort _]. pose proof (fun e => rules_wf_entries sp N e H) as Hwfe.
    apply (set_wild sp); try done.
    + intros e Hin E. apply elem_of_delete_first in Hin as [_ Hf]; try done. congruence.
    + intros e Hin E. by apply elem_of_delete_first in Hin as [? _].
    + intros e Hin E. by apply elem_of_delete_first.
Qed.

(** Functions that agree on the well-formed matches are the same. *)
Lemma rules_ext sp N N' : rules sp N -> (forall m pr, wf_match m -> N m pr = N' m pr) -> rules sp N'.
Proof.
  intros H E. split.
  - intros m Hm Hx. rewrite <- !E by done. by apply (ru_exact _ _ H).
  - intros e Hin. destruct (ru_wild _ _ H e Hin) as (Hw & Hd & Hne). by rewrite <- E.
  - intros m pr Hm Hx. rewrite <- E by done. by apply (ru_all _ _ H).
  - intros m pr k p Hm Hk Hs. rewrite <- !E by done. by apply (ru_same _ _ H).
  - apply (ru_wf _ _ H).
Qed.
End Rules.

(** * The table of the daemon *)

Abbreviation entries_wf t := (forall a (e : match_entry (list bytes)), entry_heap t !! a = Some e -> wf_match (me_match e)).

(** Calls with well-formed matches keep well-formed matches. *)
Lemma run_call_wf (t t' : match_table (list bytes)) c r : entries_wf t -> match c with Insert m _ _ => wf_match m | _ => True end ->
  run_call [] (Some t) c = Ok (r, Some t') -> entries_wf t'.
Proof.
  intros H Hc E. destruct t as [h x l].
  assert (Hset : forall a d h1, set_data h a d = Ok h1 -> forall b e, h1 !! b = Some e -> wf_match (me_match e)).
  { intros a d h1 (e & Ha & [= <-])%bind_inv. unfold load in Ha. destruct (h !! a) as [e1 |] eqn:Ea; [| done]. injection Ha as ->.
    intros b e' [[<- <-] | [_ Hb]]%lookup_insert_Some; [exact (H a e Ea) | by apply (H b)]. }
  destruct c as [m pr d | m pr | m | m pr d | m pr]; cbn [run_call] in E.
  - apply bind_inv in E as ([b t1] & E & [= _ ->]). unfold insert_match_entry in E. destruct (exact_match m).
    + apply bind_inv in E as ([[b1 h1] x1] & E & [= _ <-]). apply bind_inv in E as ([p |] & _ & E); [by injection E as _ <- _ |]. cbn in E.
      apply bind_inv in E as ([? ?] & _ & E). apply bind_inv in E as (_ & _ & [= _ <- _]).
      cbn. intros a e [[_ <-] | [_ Ha]]%lookup_insert_Some; [done | by apply (H a)].
    + apply bind_inv in E as ([[b1 h1] l1] & E & [= _ <-]). apply bind_inv in E as (s & _ & E). destruct s as [| element]; [by injection E as _ <- _ |]. cbn in E.
      assert (h1 = <[fresh (dom h) := MatchEntry m pr d]> h) as -> by (destruct element; [by injection E | destruct (Nat.eqb _ _); by injection E]).
      cbn. intros a e [[_ <-] | [_ Ha]]%lookup_insert_Some; [done | by apply (H a)].
  - apply bind_inv in E as (d & _ & [= _ <-]). done.
  - apply bind_inv in E as (d & _ & [= _ <-]). done.
  - apply bind_inv in E as ([b t1] & E & [= _ ->]). unfold update_match_entry in E. destruct (exact_match m); apply bind_inv in E as ([b1 h1] & E & [= _ <-]);
      apply bind_inv in E as ([p |] & _ & E); try (by injection E as _ <-); apply bind_inv in E as (h2 & E & [= _ <-]); by apply (Hset p d).
  - apply bind_inv in E as ([d t1] & E & [= _ ->]). unfold delete_match_strict_entry in E. destruct (exact_match m); apply bind_inv in E as ([[b1 h1] y] & E & [= _ <-]);
      apply bind_inv in E as ([p |] & _ & E); try (by injection E as _ <- _); apply bind_inv in E as (e & _ & E).
    + apply bind_inv in E as ([? ?] & _ & [= _ <- _]). cbn. unfold free_match_entry. intros a e1 [_ Ha]%lookup_delete_Some. by apply (H a).
    + injection E as _ <- _. cbn. unfold free_match_entry. intros a e1 [_ Ha]%lookup_delete_Some. by apply (H a).
Qed.

(** The table has the rules [N]. *)
Definition holds_rules (t : filter_table) (N : ofp_match -> Z -> list bytes) : Prop :=
  exists mt sp, t = Some mt /\ repr mt sp /\ rules sp N /\ entries_wf mt.

Section Table.
Implicit Types (t : filter_table) (m : ofp_match) (pr : Z) (name : bytes) (N : ofp_match -> Z -> list bytes) (d : list bytes).

(** A call and what it makes of the rules. *)
Lemma call_rules t N c N' r sp' mt sp : t = Some mt -> repr mt sp -> entries_wf mt -> match c with Insert m _ _ => wf_match m | _ => True end ->
  spec_call [] sp c = (r, sp') -> rules sp' N' -> exists t', run_call [] t c = Ok (r, t') /\ holds_rules t' N'.
Proof.
  intros -> Hr Hw Hc Es HN. destruct (call_ok [] mt sp c Hr) as (mt' & Ec & Hr'). rewrite Es in *. cbn [fst snd] in *. exists (Some mt'). split; [done |].
  exists mt', sp'. split_and!; try done. by apply (run_call_wf mt mt' c r).
Qed.

Lemma lookup_strict_rules t N m pr : holds_rules t N -> wf_match m -> lookup_match_strict_entry [] t m pr = Ok (N m pr).
Proof.
  intros (mt & sp & -> & Hr & HN & Hw) Hm. destruct (call_ok [] mt sp (LookupStrict m pr) Hr) as (mt' & Ec & _).
  rewrite (lookup_rule sp N) in Ec by done. cbn [run_call fst] in Ec. by apply bind_inv in Ec as (d & -> & [= <- _]).
Qed.

Lemma insert_rules t N m pr d : holds_rules t N -> wf_match m -> N m pr = [] -> d <> [] ->
  exists t', insert_match_entry t m pr d = Ok (true, t') /\ holds_rules t' (set_rule N m pr d).
Proof.
  intros (mt & sp & E & Hr & HN & Hw) Hm Hn Hd. destruct (insert_rule sp N m pr d HN Hm Hn Hd) as (sp' & Es & HN').
  destruct (call_rules t N (Insert m pr d) _ _ sp' mt sp E Hr Hw Hm Es HN') as (t' & Ec & H'). exists t'. split; [| done].
  cbn [run_call] in Ec. by apply bind_inv in Ec as ([b t1] & -> & [= -> ->]).
Qed.

Lemma update_rules t N m pr d : holds_rules t N -> wf_match m -> N m pr <> [] -> d <> [] ->
  exists t', update_match_entry t m pr d = Ok (true, t') /\ holds_rules t' (set_rule N m pr d).
Proof.
  intros (mt & sp & E & Hr & HN & Hw) Hm Hn Hd. destruct (update_rule sp N m pr d HN Hm Hn Hd) as (sp' & Es & HN').
  destruct (call_rules t N (Update m pr d) _ _ sp' mt sp E Hr Hw I Es HN') as (t' & Ec & H'). exists t'. split; [| done].
  cbn [run_call] in Ec. by apply bind_inv in Ec as ([b t1] & -> & [= -> ->]).
Qed.

Lemma delete_rules t N m pr : holds_rules t N -> wf_match m ->
  exists t', delete_match_strict_entry [] t m pr = Ok (N m pr, t') /\ holds_rules t' (set_rule N m pr []).
Proof.
  intros (mt & sp & E & Hr & HN & Hw) Hm. destruct (delete_rule sp N m pr HN Hm) as (sp' & Es & HN').
  destruct (call_rules t N (Delete m pr) _ _ sp' mt sp E Hr Hw I Es HN') as (t' & Ec & H'). exists t'. split; [| done].
  cbn [run_call] in Ec. by apply bind_inv in Ec as ([b t1] & -> & [= -> ->]).
Qed.

Lemma holds_ext t N N' : holds_rules t N -> (forall m pr, wf_match m -> N m pr = N' m pr) -> holds_rules t N'.
Proof. intros (mt & sp & E & Hr & HN & Hw) HE. exists mt, sp. split_and!; try done. by eapply rules_ext. Qed.

Lemma holds_empty : exists t, init_packetin_match_table = Ok t /\ holds_rules t (fun _ _ => []).
Proof.
  eexists. split; [done |]. eexists _, empty_spec. split; [done |]. split; [apply empty_repr |]. split; [| by intros a e; cbn; intros ?%lookup_empty_Some].
  split; try done; [by intros e ?%elem_of_nil |]. by split; constructor.
Qed.

Lemma set_rule_at N m pr d : wf_match m -> set_rule N m pr d m pr = d.
Proof. intros Hm. unfold set_rule. by rewrite same_rule_refl. Qed.

Lemma add_ok t N m pr name : holds_rules t N -> wf_match m ->
  exists t', add_packetin_match_entry t m pr name = Ok (bool_decide (name ∉ N m pr), t') /\
    holds_rules t' (if decide (name ∈ N m pr) then N else set_rule N m pr (N m pr ++ [name])).
Proof.
  intros H Hm. unfold add_packetin_match_entry. rewrite (lookup_strict_rules t N) by done. bind_ok.
  destruct (N m pr) as [| s services] eqn:En.
  { destruct (insert_rules t N m pr [name] H Hm En ltac:(done)) as (t' & -> & H'). bind_ok. exists t'. rewrite decide_False by (by apply not_elem_of_nil).
    rewrite bool_decide_eq_true_2 by (by apply not_elem_of_nil). done. }
  rewrite <- En in *. assert (Hmem : existsb (fun service => bool_decide (service = name)) (N m pr) = bool_decide (name ∈ N m pr)).
  { apply eq_true_iff_eq. rewrite existsb_exists, bool_decide_eq_true. split.
    - intros (x & Hx%list_elem_of_In & ->%bool_decide_eq_true). done.
    - intros Hin. exists name. split; [by apply list_elem_of_In | by apply bool_decide_eq_true]. }
  rewrite Hmem. destruct (decide (name ∈ N m pr)) as [Hin | Hin].
  - rewrite bool_decide_eq_true_2 by done. exists t. rewrite bool_decide_eq_false_2 by tauto. done.
  - rewrite bool_decide_eq_false_2 by done. destruct (update_rules t N m pr (N m pr ++ [name]) H Hm) as (t' & -> & H'); [by rewrite En | by destruct (N m pr) |].
    bind_ok. exists t'. by rewrite bool_decide_eq_true_2.
Qed.

(** The name of a request, with a terminator in its array. *)
Definition named (service_name name : bytes) : Prop := exists rest, service_name = name ++ zero :: rest /\ zero ∉ name.

Lemma strcmp_named s service_name name : named service_name name -> zero ∉ s -> strcmp_equal s service_name = Ok (bool_decide (s = name)).
Proof.
  intros (rest & -> & Hz). revert name Hz. induction s as [| b s IH]; intros [| c name] Hz Hs; cbn [app strcmp_equal].
  - by rewrite !bool_decide_eq_true_2.
  - apply not_elem_of_cons in Hz as [Hc _]. rewrite !bool_decide_eq_false_2 by congruence. done.
  - apply not_elem_of_cons in Hs as [Hb _]. rewrite decide_False by congruence. by rewrite bool_decide_eq_false_2.
  - apply not_elem_of_cons in Hz as [Hc Hz]. apply not_elem_of_cons in Hs as [Hb Hs]. destruct (decide (b = c)) as [-> | Hne].
    + rewrite IH by done. f_equal. apply bool_decide_ext. split; [by intros -> | by intros [= ->]].
    + rewrite bool_decide_eq_false_2 by congruence. done.
Qed.

Lemma delete_services_ok services service_name name : named service_name name -> Forall (fun s => zero ∉ s) services ->
  delete_services services service_name = Ok (Z.of_nat (length (filter (eq name) services)), filter (fun s => s <> name) services).
Proof.
  intros Hn. induction 1 as [| s services Hs _ IH]; [done |]. cbn [delete_services]. rewrite (strcmp_named _ _ _ Hn Hs). bind_ok. rewrite IH. bind_ok.
  rewrite !filter_cons. destruct (decide (s = name)) as [-> | Hne].
  - rewrite bool_decide_eq_true_2, (decide_True (P := name = name)), (decide_False (P := name <> name)) by tauto. cbn [length]. do 2 f_equal. lia.
  - rewrite bool_decide_eq_false_2, (decide_False (P := name = s)), (decide_True (P := s <> name)) by congruence. done.
Qed.

Lemma delete_entry_ok t N m pr service_name name : holds_rules t N -> wf_match m -> named service_name name -> Forall (fun s => zero ∉ s) (N m pr) ->
  exists t', delete_packetin_match_entry t m pr service_name = Ok (Z.of_nat (length (filter (eq name) (N m pr))), t') /\
    holds_rules t' (set_rule N m pr (filter (fun s => s <> name) (N m pr))).
Proof.
  intros H Hm Hn Hz. unfold delete_packetin_match_entry. destruct (delete_rules t N m pr H Hm) as (t1 & -> & H1). bind_ok.
  destruct (N m pr) as [| s services] eqn:En; [by exists t1 |]. rewrite <- En in *. rewrite (delete_services_ok _ _ name Hn Hz). bind_ok.
  destruct (filter (fun s => s <> name) (N m pr)) as [| s' remaining] eqn:Er; [by exists t1 |]. rewrite <- Er in *.
  destruct (insert_rules t1 _ m pr (filter (fun s => s <> name) (N m pr)) H1 Hm) as (t2 & -> & H2); [by rewrite set_rule_at | by rewrite Er |]. bind_ok.
  exists t2. split; [done |]. apply (holds_ext _ _ _ H2). intros k p Hk. unfold set_rule. by destruct (same_rule m pr k p).
Qed.
End Table.

(** * Registrations

    The filters as the list of what was asked for: a match, a priority and the
    name of a service. *)

Record registration : Type := Registration { r_match : ofp_match; r_priority : Z; r_name : bytes }.

Definition of_rule m (pr : Z) (r : registration) : bool := same_rule (r_match r) (r_priority r) m pr.
Definition below (c : ofp_match) (r : registration) : bool := compare_filter_match c (r_match r).
Definition names (regs : list registration) m (pr : Z) : list bytes := map r_name (List.filter (of_rule m pr) regs).

Section Registrations.
Implicit Types (regs : list registration) (r : registration) (m c : ofp_match) (pr : Z) (t : filter_table).

Definition wf_registration r : Prop := wf_match (r_match r) /\ zero ∉ r_name r.

Definition represents t regs : Prop := holds_rules t (names regs) /\ Forall wf_registration regs.

Lemma filter_filter {A} (f g : A -> bool) l : List.filter f (List.filter g l) = List.filter (fun a => g a && f a) l.
Proof. induction l as [| a l IH]; [done |]. cbn. destruct (g a); cbn; rewrite IH; by destruct (f a). Qed.

Lemma filter_false {A} (l : list A) : List.filter (fun _ => false) l = [].
Proof. by induction l. Qed.

Lemma filter_In {A} (f : A -> bool) a l : a ∈ List.filter f l <-> a ∈ l /\ f a = true.
Proof. rewrite !list_elem_of_In. apply List.filter_In. Qed.

Lemma filter_Forall {A} (P : A -> Prop) (f : A -> bool) l : Forall P l -> Forall P (List.filter f l).
Proof. rewrite !Forall_forall. intros H a [Ha _]%filter_In. by apply H. Qed.

Lemma filter_ext_wf (f g : registration -> bool) regs : Forall wf_registration regs -> (forall r, wf_match (r_match r) -> f r = g r) -> List.filter f regs = List.filter g regs.
Proof. intros H E. apply List.filter_ext_in. intros r Hr%list_elem_of_In. rewrite Forall_forall in H. by apply E, H. Qed.

Lemma names_zero regs m pr : Forall wf_registration regs -> Forall (fun s => zero ∉ s) (names regs m pr).
Proof.
  intros H. apply Forall_forall. intros s (r & <- & Hr)%list_elem_of_In%in_map_iff. apply list_elem_of_In, filter_In in Hr as [Hr _].
  rewrite Forall_forall in H. by apply H.
Qed.

Lemma names_app regs r m pr : names (regs ++ [r]) m pr = names regs m pr ++ (if of_rule m pr r then [r_name r] else []).
Proof. unfold names. rewrite List.filter_app, map_app. cbn. by destruct (of_rule m pr r). Qed.

(** A registration is of one rule. *)
Lemma other_rule m pr k p r : wf_match m -> wf_match k -> wf_match (r_match r) -> same_rule m pr k p = false -> of_rule k p r = true -> of_rule m pr r = false.
Proof.
  unfold of_rule. intros Hm Hk Hr E E1. destruct (same_rule (r_match r) (r_priority r) m pr) eqn:E2; [| done].
  rewrite (same_rule_sym (r_match r) _ m) in E2 by done. rewrite (same_rule_trans m pr (r_match r) (r_priority r) k p) in E1 by done. congruence.
Qed.

Lemma same_of_rule m pr k p r : wf_match m -> wf_match k -> wf_match (r_match r) -> same_rule m pr k p = true -> of_rule k p r = of_rule m pr r.
Proof. unfold of_rule. intros Hm Hk Hr E. rewrite (same_rule_sym (r_match r) _ k), (same_rule_sym (r_match r) _ m) by done. by apply same_rule_trans. Qed.

(** Without the registrations of a rule. *)
Lemma names_without regs m pr k p : Forall wf_registration regs -> wf_match m -> wf_match k ->
  names (List.filter (fun r => negb (of_rule m pr r)) regs) k p = set_rule (names regs) m pr [] k p.
Proof.
  intros Hr Hm Hk. unfold names, set_rule. rewrite filter_filter. destruct (same_rule m pr k p) eqn:E.
  - replace (List.filter _ regs) with (@nil registration); [done |]. symmetry. rewrite (filter_ext_wf _ (fun _ => false)); [apply filter_false | done |].
    intros r Hw. rewrite (same_of_rule m pr k p) by done. apply andb_negb_l.
  - f_equal. apply filter_ext_wf; [done |]. intros r Hw. destruct (of_rule k p r) eqn:E1; [| by rewrite andb_false_r].
    by rewrite (other_rule m pr k p).
Qed.

(** One name of a rule less. *)
Lemma names_without_name regs m pr name k p : Forall wf_registration regs -> wf_match m -> wf_match k ->
  names (List.filter (fun r => negb (of_rule m pr r && bool_decide (r_name r = name))) regs) k p
    = set_rule (names regs) m pr (filter (fun s => s <> name) (names regs m pr)) k p.
Proof.
  intros Hr Hm Hk. unfold names, set_rule. rewrite filter_filter. destruct (same_rule m pr k p) eqn:E.
  - rewrite (filter_ext_wf _ (fun r => of_rule m pr r && negb (bool_decide (r_name r = name)))); [| done |].
    + clear E. induction Hr as [| r regs Hw Hr IH]; [done |]. cbn [List.filter map]. destruct (of_rule m pr r); cbn [andb]; [| done]. cbn [map]. rewrite filter_cons.
      destruct (bool_decide_reflect (r_name r = name)); cbn [negb]; [rewrite decide_False by tauto | rewrite decide_True by done; cbn [map]; rewrite IH]; done.
    + intros r Hw. rewrite (same_of_rule m pr k p) by done. by destruct (of_rule m pr r), (bool_decide _).
  - f_equal. apply filter_ext_wf; [done |]. intros r Hw. destruct (of_rule k p r) eqn:E1; [| by rewrite andb_false_r].
    by rewrite (other_rule m pr k p).
Qed.

Lemma represents_add t regs m pr name : represents t regs -> wf_match m -> zero ∉ name ->
  exists t', add_packetin_match_entry t m pr name = Ok (bool_decide (name ∉ names regs m pr), t') /\
    represents t' (if decide (name ∈ names regs m pr) then regs else regs ++ [Registration m pr name]).
Proof.
  intros [H Hr] Hm Hn. destruct (add_ok t (names regs) m pr name H Hm) as (t' & E & H'). exists t'. split; [done |].
  destruct (decide _); [done |]. split; [| apply Forall_app; split; [done | by apply Forall_singleton]]. apply (holds_ext _ _ _ H'). intros k p Hk. rewrite names_app. unfold set_rule, of_rule. cbn [r_match r_priority r_name].
  destruct (same_rule m pr k p) eqn:E1; [| by rewrite app_nil_r]. f_equal. destruct H as (mt & sp & _ & _ & HN & _). by apply (ru_same _ _ HN).
Qed.

Lemma represents_delete_strict t regs m pr service_name name : represents t regs -> wf_match m -> named service_name name ->
  exists t', delete_packetin_match_entry t m pr service_name = Ok (Z.of_nat (length (filter (eq name) (names regs m pr))), t') /\
    represents t' (List.filter (fun r => negb (of_rule m pr r && bool_decide (r_name r = name))) regs).
Proof.
  intros [H Hr] Hm Hn. destruct (delete_entry_ok t (names regs) m pr service_name name H Hm Hn (names_zero _ _ _ Hr)) as (t' & E & H').
  exists t'. split; [done |]. split; [| by apply filter_Forall]. apply (holds_ext _ _ _ H'). intros k p Hk. by rewrite names_without_name.
Qed.

Lemma represents_delete t regs m pr : represents t regs -> wf_match m ->
  exists t', delete_match_strict_entry [] t m pr = Ok (names regs m pr, t') /\ represents t' (List.filter (fun r => negb (of_rule m pr r)) regs).
Proof.
  intros [H Hr] Hm. destruct (delete_rules t (names regs) m pr H Hm) as (t' & E & H'). exists t'. split; [done |]. split; [| by apply filter_Forall].
  apply (holds_ext _ _ _ H'). intros k p Hk. by rewrite names_without.
Qed.
End Registrations.

(** * Deleting what a match covers *)

Section Covered.
Implicit Types (mt : match_table (list bytes)) (regs : list registration) (c m : ofp_match).
Abbreviation entry := (match_entry (list bytes)).
Abbreviation element := (hash_entry ofp_match (option positive)).

Lemma wild_split mt sp a (e : entry) : repr mt sp -> entry_heap mt !! a = Some e -> a ∈ wildcards_table mt ->
  exists l1 l2 es1 es2, wildcards_table mt = l1 ++ a :: l2 /\ sp_wild sp = es1 ++ e :: es2 /\ a ∉ l1 /\ a ∉ l2 /\
    Forall2 (fun a e => entry_heap mt !! a = Some e) l1 es1 /\ Forall2 (fun a e => entry_heap mt !! a = Some e) l2 es2.
Proof.
  intros [_ _ _ Hl Hn _] Ha Hin. apply list_elem_of_split in Hin as (l1 & l2 & E). rewrite E in *. apply Forall2_app_inv_l in Hl as (es1 & es2 & H1 & H2 & Es).
  apply Forall2_cons_inv_l in H2 as (e' & es3 & He & H2 & ->). assert (e' = e) as -> by congruence. apply NoDup_app in Hn as (_ & Hd & [Hn _]%NoDup_cons).
  exists l1, l2, es1, es3. split_and!; try done. intros Hin. apply (Hd a Hin). by left.
Qed.

Lemma sorted_before (es1 : list entry) e es2 e1 : StronglySorted before (es1 ++ e :: es2) -> e1 ∈ es1 -> before e1 e.
Proof.
  induction es1 as [| e0 es1 IH]; [by intros _ ?%elem_of_nil |]. cbn. intros [Hs Hf]%StronglySorted_inv [-> | Hin]%elem_of_cons; [| by apply IH].
  rewrite Forall_forall in Hf. apply Hf. set_solver.
Qed.

Lemma delete_wild_entry mt regs a (e : entry) : represents (Some mt) regs -> entry_heap mt !! a = Some e -> a ∈ wildcards_table mt ->
  delete_match_strict_entry [] (Some mt) (me_match e) (me_priority e)
    = Ok (me_data e, Some (MatchTable (delete a (entry_heap mt)) (exact_table mt) (remove_first a (wildcards_table mt)))).
Proof.
  intros [(mt' & sp & [= <-] & Hr & HN & Hw) _] Ha Hin. destruct (wild_split mt sp a e Hr Ha Hin) as (l1 & l2 & es1 & es2 & E & Es & Ha1 & Ha2 & H1 & H2).
  pose proof (ru_wf _ _ HN) as [Hs Hx]. pose proof (fun e => rules_wf_entries sp _ e HN) as Hwf.
  assert (He : e ∈ sp_wild sp) by (rewrite Es; set_solver). assert (Hex : exact_match (me_match e) = false) by (rewrite Forall_forall in Hx; by apply Hx).
  destruct mt as [h x l]. cbn [entry_heap exact_table wildcards_table] in *. unfold delete_match_strict_entry. rewrite Hex. unfold delete_wildcards_match_strict_entry.
  rewrite E, (strict_some h l1 a l2 es1 e es2 (me_match e) (me_priority e)); try done.
  - bind_ok. rewrite (load_ok _ _ _ Ha). done.
  - rewrite <- Es. exact Hs.
  - apply Forall_forall. intros e1 He1. destruct (same_entry _ _ e1) eqn:E1; [| done]. apply andb_true_iff in E1 as [Ep%Z.eqb_eq E1].
    rewrite Es in Hs. destruct (sorted_before _ _ _ _ Hs He1) as [_ Hne]. by rewrite Hne in E1.
  - unfold same_entry. by rewrite Z.eqb_refl, strict_refl by (by apply Hwf).
Qed.

(** An element of the hash table and its entry. *)
Definition live mt (he : element) : Prop :=
  exists a e, value he = Some a /\ entry_heap mt !! a = Some e /\ exact_match (HashTable.key he) = true /\
    compare (HashTable.key he) (me_match e) = true /\ table_map (exact_table mt) (HashTable.key he) = Some (Some a).

Lemma delete_exact_entry mt sp a (e : entry) he : repr mt sp -> value he = Some a -> entry_heap mt !! a = Some e -> exact_match (HashTable.key he) = true ->
  compare (HashTable.key he) (me_match e) = true -> table_map (exact_table mt) (HashTable.key he) = Some (Some a) ->
  exists x', delete_hash_entry None (exact_table mt) (me_match e) = Ok (Some a, x') /\
    delete_match_strict_entry [] (Some mt) (me_match e) (me_priority e) = Ok (me_data e, Some (MatchTable (delete a (entry_heap mt)) x' (wildcards_table mt))).
Proof.
  intros Hr Hv Ha Hk Hc Hm. pose proof (r_hash _ _ Hr) as Hw. pose (P := fun m => exact_match m = true).
  assert (Hx : exact_match (me_match e) = true) by by rewrite <- (strict_exact _ _ Hc).
  destruct (delete_ok None (exact_table mt) (me_match e) Hw Hx) as (x' & Ed & _).
  assert (Ht : table_map (exact_table mt) (me_match e) = Some (Some a)) by by rewrite <- (table_map_cong (ok := P) _ (me_match e) (HashTable.key he)).
  rewrite Ht in Ed. cbn [default from_option id] in Ed. exists x'. split; [done |]. destruct mt as [h x l]. cbn [entry_heap exact_table wildcards_table] in *.
  unfold delete_match_strict_entry. rewrite Hx. unfold delete_exact_match_strict_entry. rewrite (lookup_ok None x (me_match e) Hw), Ht. cbn [default from_option id]. bind_ok.
  rewrite (load_ok _ _ _ Ha). bind_ok. rewrite Ed. bind_ok. done.
Qed.

(** [regs'] is [regs] without [n] registrations below [c], whole rules. *)
Record shrunk c regs regs' (n : nat) : Prop := {
  shrunk_others : List.filter (fun r => negb (below c r)) regs' = List.filter (fun r => negb (below c r)) regs;
  shrunk_count : length (List.filter (below c) regs) = (n + length (List.filter (below c) regs'))%nat;
  shrunk_empty m pr : wf_match m -> names regs m pr = [] -> names regs' m pr = []
}.

Lemma shrunk_refl c regs : shrunk c regs regs 0.
Proof. by split. Qed.

Lemma shrunk_trans c regs1 regs2 regs3 n1 n2 : shrunk c regs1 regs2 n1 -> shrunk c regs2 regs3 n2 -> shrunk c regs1 regs3 (n1 + n2).
Proof. intros [A1 B1 C1] [A2 B2 C2]. split; [by rewrite A2 | lia | auto]. Qed.

Lemma shrunk_delete c regs m pr : Forall wf_registration regs -> wf_match c -> wf_match m -> compare_filter_match c m = true ->
  shrunk c regs (List.filter (fun r => negb (of_rule m pr r)) regs) (length (names regs m pr)).
Proof.
  intros Hr Hc Hm Hf. assert (Hb : forall r, wf_match (r_match r) -> of_rule m pr r = true -> below c r = true).
  { intros r Hw [E _]%andb_true_iff. unfold below. by rewrite (filter_strict c (r_match r) m). }
  split.
  - rewrite filter_filter. apply filter_ext_wf; [done |]. intros r Hw. destruct (of_rule m pr r) eqn:E; [by rewrite (Hb r) | done].
  - unfold names. rewrite length_map, filter_filter. induction Hr as [| r regs [Hw _] Hr IH]; [done |]. cbn [List.filter]. specialize (Hb r Hw).
    destruct (of_rule m pr r); cbn [negb andb]; [rewrite Hb by done; cbn [length]; lia |]. destruct (below c r); cbn [length]; lia.
  - intros k p Hk Hn. rewrite names_without by done. unfold set_rule. by destruct (same_rule m pr k p).
Qed.

Lemma count_deleted (l : list bytes) k : fold_left (fun n _ => u32 (n + 1)) l (u32 k) = u32 (k + Z.of_nat (length l)).
Proof.
  revert k. induction l as [| b l IH]; intros k; [by rewrite Z.add_0_r |]. cbn [fold_left length].
  replace (u32 (u32 k + 1)) with (u32 (k + 1)); [rewrite IH; f_equal; lia |]. unfold u32. by rewrite Zplus_mod_idemp_l.
Qed.

Lemma represents_entry mt regs a (e : entry) : represents (Some mt) regs -> entry_heap mt !! a = Some e -> wf_match (me_match e).
Proof. intros [(mt' & sp & [= <-] & _ & _ & Hw) _]. apply Hw. Qed.

(** What one turn of the walker does, when it finds its entry. *)
Lemma delete_at_ok c mt mt' regs a (e : entry) k : represents (Some mt) regs -> wf_match c -> entry_heap mt !! a = Some e ->
  delete_match_strict_entry [] (Some mt) (me_match e) (me_priority e) = Ok (me_data e, Some mt') ->
  let below_c := compare_filter_match c (me_match e) in
  exists regs' n, delete_at c a (Some mt, u32 k) = Ok (Some (if below_c then mt' else mt), u32 (k + Z.of_nat n)) /\
    represents (Some (if below_c then mt' else mt)) regs' /\ shrunk c regs regs' n /\
    (below_c = true -> names regs' (me_match e) (me_priority e) = []) /\ (below_c = false -> regs' = regs).
Proof.
  intros H Hc Ha Ed below_c. pose proof (represents_entry _ _ _ _ H Ha) as Hm. unfold delete_at. cbn [fst]. rewrite (load_ok _ _ _ Ha). bind_ok. fold below_c.
  destruct below_c eqn:Eb; cbn [negb].
  - destruct (represents_delete _ _ (me_match e) (me_priority e) H Hm) as (t' & E & H'). rewrite Ed in E. injection E as Ee <-.
    exists (List.filter (fun r => negb (of_rule (me_match e) (me_priority e) r)) regs), (length (names regs (me_match e) (me_priority e))).
    unfold delete_filter_walker. cbn [fst snd]. rewrite Ed. bind_ok. rewrite count_deleted, Ee. destruct H as [_ Hr]. split_and!; try done.
    + by apply shrunk_delete.
    + intros _. rewrite names_without, set_rule_at by done. done.
  - exists regs, 0%nat. rewrite Z.add_0_r. split_and!; try done; apply shrunk_refl.
Qed.

Lemma remove_first_other (a b : positive) l : b ∈ l -> b <> a -> b ∈ remove_first a l.
Proof.
  induction l as [| x l IH]; [by intros ?%elem_of_nil |]. intros [-> | Hin]%elem_of_cons Hne; cbn.
  - rewrite decide_False by done. by left.
  - destruct (decide (x = a)); [done | right; by apply IH].
Qed.

Lemma delete_wildcards_ok c l mt regs k : represents (Some mt) regs -> wf_match c -> NoDup l -> Forall (fun a => a ∈ wildcards_table mt /\ is_Some (entry_heap mt !! a)) l ->
  exists mt' regs' n, delete_wildcards c l (Some mt, u32 k) = Ok (Some mt', u32 (k + Z.of_nat n)) /\ represents (Some mt') regs' /\ shrunk c regs regs' n /\
    forall a e, a ∈ l -> entry_heap mt !! a = Some e -> compare_filter_match c (me_match e) = true -> names regs' (me_match e) (me_priority e) = [].
Proof.
  intros H Hc Hn. revert mt regs k H. induction Hn as [| a l Hal Hn IH]; intros mt regs k H Hl; cbn [delete_wildcards].
  { exists mt, regs, 0%nat. rewrite Z.add_0_r. split_and!; try done; by intros a e ?%elem_of_nil. }
  apply Forall_cons in Hl as [[Hin [e Ha]] Hl].
  destruct (delete_at_ok c mt _ regs a e k H Hc Ha (delete_wild_entry mt regs a e H Ha Hin)) as (regs1 & n1 & -> & H1 & S1 & Hgone & Hkept). bind_ok.
  set (mt1 := if compare_filter_match c (me_match e) then _ else mt) in *.
  assert (Hb : forall b, b <> a -> entry_heap mt1 !! b = entry_heap mt !! b) by (intros b Hne; unfold mt1; destruct (compare_filter_match _ _); [by apply lookup_delete_ne | done]).
  destruct (IH mt1 regs1 (k + Z.of_nat n1) H1) as (mt2 & regs2 & n2 & -> & H2 & S2 & Hall).
  { rewrite Forall_forall in Hl |- *. intros b Hbl. assert (b <> a) by (by intros ->). destruct (Hl b Hbl) as [Hw He]. rewrite Hb by done. split; [| done].
    unfold mt1. destruct (compare_filter_match _ _); [by apply remove_first_other | done]. }
  exists mt2, regs2, (n1 + n2)%nat. split_and!; [do 3 f_equal; lia | done | by eapply shrunk_trans |].
  intros b e' [-> | Hbl]%elem_of_cons He' Hf.
  - assert (e' = e) as -> by congruence. apply (shrunk_empty _ _ _ _ S2); [by apply (represents_entry mt regs a) | by apply Hgone].
  - apply (Hall b); [done | | done]. rewrite Hb; [done |]. by intros ->.
Qed.

(** ** The hash table *)

Abbreviation iter := (hash_iterator (K := ofp_match) (V := option positive)).
Abbreviation iterating_exact x it := (iterating (ok := fun m => exact_match m = true) x it).

(** The entries of [hes] that are below [c] have no registrations left. *)
Definition gone c mt regs' (hes : list element) : Prop :=
  forall he a e, he ∈ hes -> value he = Some a -> entry_heap mt !! a = Some e -> compare_filter_match c (me_match e) = true -> names regs' (me_match e) (me_priority e) = [].

(** The entries of [hes] are as they were. *)
Definition kept mt mt' (hes : list element) : Prop := forall he a, he ∈ hes -> value he = Some a -> entry_heap mt' !! a = entry_heap mt !! a.

Lemma represents_repr mt regs : represents (Some mt) regs -> exists sp, repr mt sp.
Proof. intros [(mt' & sp & [= <-] & Hr & _) _]. by exists sp. Qed.

Lemma exact_compare k k' m : exact_match k = true -> exact_match k' = true -> compare k m = true -> compare k' m = true -> compare k k' = true.
Proof.
  intros Hk Hk' E E'. pose (P := fun m => exact_match m = true). assert (exact_match m = true) by by rewrite <- (strict_exact _ _ E).
  apply (compare_trans (ok := P) k m k'); [done | done | done |]. by apply (compare_sym (ok := P)).
Qed.

(** After the deletion of an entry the others live on. *)
Lemma live_others mt a (e : entry) he x' hes sp : repr mt sp -> value he = Some a -> entry_heap mt !! a = Some e -> exact_match (HashTable.key he) = true ->
  compare (HashTable.key he) (me_match e) = true -> delete_hash_entry None (exact_table mt) (me_match e) = Ok (Some a, x') ->
  Forall (fun he' => compare (HashTable.key he) (HashTable.key he') = false) hes -> Forall (live mt) hes ->
  let mt' := MatchTable (delete a (entry_heap mt)) x' (wildcards_table mt) in Forall (live mt') hes /\ kept mt mt' hes.
Proof.
  intros Hr Hv Ha Hk Hc Ed Hd Hl mt'. rewrite Forall_forall in Hd, Hl. pose (P := fun m => exact_match m = true).
  assert (Hx : exact_match (me_match e) = true) by by rewrite <- (strict_exact _ _ Hc).
  destruct (delete_ok (ok := P) None (exact_table mt) (me_match e) (r_hash _ _ Hr) Hx) as (x1 & Ed1 & _ & _ & Hmap). rewrite Ed in Ed1. injection Ed1 as _ <-.
  assert (Hother : forall he', he' ∈ hes -> forall a' e', value he' = Some a' -> entry_heap mt !! a' = Some e' -> exact_match (HashTable.key he') = true ->
    compare (HashTable.key he') (me_match e') = true -> compare (HashTable.key he') (me_match e) = false /\ a' <> a).
  { intros he' Hin a' e' _ Ha' Hk' Hc'. assert (Hne : compare (HashTable.key he') (me_match e) = false).
    { destruct (compare (HashTable.key he') (me_match e)) eqn:E; [| done]. specialize (Hd he' Hin). cbn beta in Hd. by rewrite (exact_compare _ _ (me_match e) Hk Hk' Hc E) in Hd. }
    split; [done |]. intros ->. assert (e' = e) as -> by congruence. congruence. }
  split.
  - apply Forall_forall. intros he' Hin. destruct (Hl he' Hin) as (a' & e' & Hv' & Ha' & Hk' & Hc' & Hm'). destruct (Hother he' Hin a' e' Hv' Ha' Hk' Hc') as [Hne Hna].
    exists a', e'. unfold mt'. cbn [entry_heap exact_table]. rewrite lookup_delete_ne, Hmap, Hne by done. done.
  - intros he' a1 Hin Hv1. destruct (Hl he' Hin) as (a' & e' & Hv' & Ha' & Hk' & Hc' & Hm'). assert (a1 = a') as -> by congruence.
    destruct (Hother he' Hin a' e' Hv' Ha' Hk' Hc') as [_ Hna]. by apply lookup_delete_ne.
Qed.

Lemma delete_exact_entries_ok c p ix es mt regs k : represents (Some mt) regs -> wf_match c -> iterating_exact (exact_table mt) (HashIterator (Some p) ix es) ->
  Forall (live mt) (es ++ listed (exact_table mt) ix) -> distinct (es ++ listed (exact_table mt) ix) ->
  exists mt' regs' n, delete_exact_entries c es (Some mt, u32 k) = Ok (Some mt', u32 (k + Z.of_nat n)) /\ represents (Some mt') regs' /\ shrunk c regs regs' n /\
    gone c mt regs' es /\ iterating_exact (exact_table mt') (HashIterator (Some p) ix []) /\ listed (exact_table mt') ix = listed (exact_table mt) ix /\
    Forall (live mt') (listed (exact_table mt) ix) /\ kept mt mt' (listed (exact_table mt) ix).
Proof.
  intros H Hc. revert mt regs k H. induction es as [| he es IH]; intros mt regs k H Hit Hl Hd; cbn [delete_exact_entries].
  { exists mt, regs, 0%nat. rewrite Z.add_0_r. split_and!; try done; by intros he a e ?%elem_of_nil. }
  cbn [app] in *. apply Forall_cons in Hl as [(a & e & Hv & Ha & Hk & Hcm & Hm) Hl]. destruct Hd as [Hd1 Hd]. destruct (represents_repr _ _ H) as [sp Hr].
  destruct Hit as [Hix Hnd Hcur]. destruct (Hcur p eq_refl) as [Hp Hes]. cbn [it_element it_next_bucket_index] in *. apply Forall_cons in Hes as [[_ Hslot] Hes].
  assert (Hit : iterating_exact (exact_table mt) (HashIterator (Some p) ix es)) by (split; [done | done |]; by intros q [= <-]).
  destruct (delete_exact_entry mt sp a e he Hr Hv Ha Hk Hcm Hm) as (x' & Ex & Ed).
  destruct (delete_at_ok c mt _ regs a e k H Hc Ha Ed) as (regs1 & n1 & Eat & H1 & S1 & Hgone & Hkept). rewrite Hv, Eat. bind_ok.
  set (mt1 := if compare_filter_match c (me_match e) then _ else mt) in *.
  assert (Hstep : iterating_exact (exact_table mt1) (HashIterator (Some p) ix es) /\ listed (exact_table mt1) ix = listed (exact_table mt) ix /\
    Forall (live mt1) (es ++ listed (exact_table mt) ix) /\ kept mt mt1 (es ++ listed (exact_table mt) ix)).
  { unfold mt1. destruct (compare_filter_match c (me_match e)) eqn:Eb; [| done]. destruct (represents_repr _ _ H1) as [sp1 Hr1].
    assert (Hs : slot (exact_table mt) (me_match e) = bucket_at p) by (rewrite <- Hslot; symmetry; apply (slot_eq (ok := fun m => exact_match m = true)); [| done]; by rewrite <- (strict_exact _ _ Hcm)).
    destruct (delete_iterating None _ _ _ x' _ p (r_hash _ _ Hr) (r_hash _ _ Hr1) Hit eq_refl Hs Ex) as [Hit' Hrem]. unfold remaining in Hrem. cbn in Hrem. apply app_inv_head in Hrem.
    destruct (live_others mt a e he x' _ sp Hr Hv Ha Hk Hcm Ex Hd1 Hl) as [Hl' Hk']. done. }
  destruct Hstep as (Hit1 & Hli & Hl1 & Hk1). destruct (IH mt1 regs1 (k + Z.of_nat n1) H1 Hit1) as (mt2 & regs2 & n2 & E2 & H2 & S2 & G2 & Hit2 & Hli2 & Hl2 & Hk2); [by rewrite Hli | by rewrite Hli |].
  exists mt2, regs2, (n1 + n2)%nat. rewrite E2, Hli in *. split_and!; try done; [do 3 f_equal; lia | by eapply shrunk_trans | |].
  - intros he' a' e' [-> | Hin]%elem_of_cons Hv' Ha' Hf.
    + assert (a' = a) as -> by congruence. assert (e' = e) as -> by congruence.
      apply (shrunk_empty _ _ _ _ S2); [by apply (represents_entry mt regs a) | by apply Hgone].
    + apply (G2 he' a'); try done. rewrite (Hk1 he'); [done | set_solver | done].
  - intros he' a' Hin Hv'. rewrite (Hk2 he') by done. apply (Hk1 he'); [set_solver | done].
Qed.

Lemma listed_cons (x : hash_table ofp_match (option positive)) p i ix : listed x ((p, i) :: ix) = bucket_list x (Z.to_nat i) ++ listed x ix.
Proof. done. Qed.

Lemma delete_exact_buckets_ok c ix mt regs k : represents (Some mt) regs -> wf_match c -> indexed (exact_table mt) ix -> NoDup (bucket_at <$> ix) ->
  Forall (live mt) (listed (exact_table mt) ix) -> distinct (listed (exact_table mt) ix) ->
  exists mt' regs' n, delete_exact_buckets c ix (Some mt, u32 k) = Ok (Some mt', u32 (k + Z.of_nat n)) /\ represents (Some mt') regs' /\ shrunk c regs regs' n /\
    gone c mt regs' (listed (exact_table mt) ix).
Proof.
  intros H Hc. revert mt regs k H. induction ix as [| [p i] ix IH]; intros mt regs k H Hix Hnd Hl Hd; cbn [delete_exact_buckets].
  { exists mt, regs, 0%nat. rewrite Z.add_0_r. split_and!; try done. by intros he a e ?%elem_of_nil. }
  cbn [fst]. destruct (represents_repr _ _ H) as [sp Hr]. pose proof (r_hash _ _ Hr) as Hw. apply Forall_cons in Hix as [Hin Hix].
  destruct (indexed_bucket _ _ _ Hw Hin) as (b & _ & -> & Hb & _). bind_ok. rewrite listed_cons, Hb in Hl, Hd.
  cbn [fmap list_fmap] in Hnd. apply NoDup_cons in Hnd as [Hni Hnd].
  assert (Hit : iterating_exact (exact_table mt) (HashIterator (Some (p, i)) ix (entries b))).
  { split; [done | done |]. intros q [= <-]. split; [done |]. apply Forall_forall. cbn [it_element]. intros e He. rewrite <- Hb in He. exact (bucket_slots (ok := fun m => exact_match m = true) _ p i e Hw Hin He). }
  destruct (delete_exact_entries_ok c (p, i) ix (entries b) mt regs k H Hc Hit Hl Hd) as (mt1 & regs1 & n1 & -> & H1 & S1 & G1 & [Hix1 Hnd1 _] & Hli & Hl1 & Hk1). bind_ok.
  cbn [it_next_bucket_index] in *. assert (Hd1 : distinct (listed (exact_table mt) ix)).
  { clear -Hd. induction (entries b) as [| e es IH]; [done |]. destruct Hd as [_ Hd]. by apply IH. }
  destruct (IH mt1 regs1 (k + Z.of_nat n1) H1 Hix1 Hnd1) as (mt2 & regs2 & n2 & -> & H2 & S2 & G2); [by rewrite Hli | by rewrite Hli |].
  exists mt2, regs2, (n1 + n2)%nat. split_and!; [do 3 f_equal; lia | done | by eapply shrunk_trans |].
  rewrite listed_cons, Hb. rewrite Hli in G2. intros he a e [Hhe | Hhe]%elem_of_app Hv Ha Hf.
  - apply (shrunk_empty _ _ _ _ S2); [by apply (represents_entry mt regs a) | by apply (G1 he a)].
  - apply (G2 he a); try done. by rewrite (Hk1 he).
Qed.

Lemma visited_live mt sp : repr mt sp -> Forall (live mt) (visited (exact_table mt)).
Proof.
  intros [Hw He _ _ _ _]. pose (P := fun m => exact_match m = true). apply Forall_forall. intros he Hin. pose proof Hin as (a & i & Hai & Hb)%elem_of_listed.
  destruct (indexed_entry _ _ _ _ Hw Hai Hb) as [Hk _].
  assert (Hm : table_map (exact_table mt) (HashTable.key he) = Some (value he)).
  { apply (visited_map (ok := P)); [done | done |]. exists he. split_and!; [done | | done]. by apply (compare_refl (ok := P)). }
  destruct (He _ _ Hm) as (b & e & Hv & Hb' & Hx & Hc & _). exists b, e. by rewrite Hm, Hv.
Qed.

Lemma represents_same t regs m pr k p : represents t regs -> wf_match m -> wf_match k -> same_rule m pr k p = true -> names regs m pr = names regs k p.
Proof. intros [(mt & sp & _ & _ & HN & _) _]. by apply (ru_same _ _ HN). Qed.

(** An exact match that has registrations has an entry. *)
Lemma exact_has_entry mt regs m pr : represents (Some mt) regs -> wf_match m -> exact_match m = true -> names regs m pr <> [] ->
  exists he a e, he ∈ visited (exact_table mt) /\ value he = Some a /\ entry_heap mt !! a = Some e /\ compare_match_strict m (me_match e) = true.
Proof.
  intros [(mt' & sp & [= <-] & Hr & HN & Hw) _] Hm Hx Hn. pose (P := fun m => exact_match m = true). pose proof (ru_exact _ _ HN m Hm Hx) as He.
  rewrite (exact_priority _ m 0 pr sp HN Hm Hx) in He. destruct (exact_lookup mt sp m Hr) as [[Hs _] | (a & e & _ & Ht & Ha)]; [rewrite Hs in He; by destruct (names regs m pr) |].
  apply (visited_map (ok := P) _ _ _ (r_hash _ _ Hr) Hx) in Ht as (he & Hin & Hc & Hv). exists he, a, e. split_and!; try done.
  pose proof (visited_live mt sp Hr) as Hl. rewrite Forall_forall in Hl. destruct (Hl he Hin) as (a' & e' & Hv' & Ha' & Hk & Hc' & _).
  assert (a' = a) as -> by congruence. assert (e' = e) as -> by congruence. rewrite <- strict_key. apply (compare_trans (ok := P) m (HashTable.key he) (me_match e)); [| | done | done]; unfold P;
    [done | by rewrite <- (strict_exact _ _ Hc')].
Qed.

Lemma wild_has_entry mt regs m pr : represents (Some mt) regs -> wf_match m -> exact_match m = false -> names regs m pr <> [] ->
  exists a e, a ∈ wildcards_table mt /\ entry_heap mt !! a = Some e /\ same_entry m pr e = true.
Proof.
  intros [(mt' & sp & [= <-] & Hr & HN & Hw) _] Hm Hx Hn. destruct (ru_all _ _ HN m pr Hm Hx Hn) as (e & [i Hi]%list_elem_of_lookup & Hs).
  destruct (Forall2_lookup_r _ _ _ _ _ (r_wild _ _ Hr) Hi) as (a & Ha & He). exists a, e. split_and!; try done. by apply list_elem_of_lookup_2 in Ha.
Qed.

(** What is below the match is deleted, and counted, and nothing else. *)
Lemma represents_delete_below t regs c : represents t regs -> wf_match c ->
  exists t', delete_filters c t = Ok (t', u32 (Z.of_nat (length (List.filter (below c) regs)))) /\ represents t' (List.filter (fun r => negb (below c r)) regs).
Proof.
  intros H Hc. destruct t as [mt |]; [| by destruct H as [(? & ? & ? & _) _]]. cbn [delete_filters]. destruct (represents_repr _ _ H) as [sp Hr]. pose proof (r_hash _ _ Hr) as Hw.
  assert (Hix : indexed (exact_table mt) (nonempty_bucket_index (exact_table mt))) by (apply Forall_forall; tauto).
  destruct (delete_exact_buckets_ok c _ mt regs 0 H Hc Hix (index_slots_nodup _ Hw) (visited_live _ _ Hr) (visited_distinct _ Hw)) as (mt1 & regs1 & n1 & E1 & H1 & S1 & G1).
  change (u32 0) with 0 in E1. rewrite E1. bind_ok. cbn [fst]. destruct (represents_repr _ _ H1) as [sp1 Hr1].
  destruct (delete_wildcards_ok c (wildcards_table mt1) mt1 regs1 (0 + Z.of_nat n1) H1 Hc (r_nodup _ _ Hr1)) as (mt2 & regs2 & n2 & E2 & H2 & S2 & G2).
  { apply Forall_forall. intros a Ha. split; [done |]. by apply (points_elem _ _ _ _ (r_wild _ _ Hr1)). }
  rewrite E2. pose proof (shrunk_trans _ _ _ _ _ _ S1 S2) as S.
  assert (Hnone : forall r, r ∈ regs2 -> below c r = false).
  { intros r Hin. destruct (below c r) eqn:Eb; [| done]. exfalso. assert (Hwr : wf_match (r_match r)) by (destruct H2 as [_ Hf]; rewrite Forall_forall in Hf; by apply Hf).
    assert (Hn : names regs2 (r_match r) (r_priority r) <> []).
    { assert (Hr2 : r_name r ∈ names regs2 (r_match r) (r_priority r)).
      { apply list_elem_of_In, in_map, list_elem_of_In, filter_In. split; [done |]. by apply same_rule_refl. }
      intros E. rewrite E in Hr2. by apply elem_of_nil in Hr2. }
    assert (Hn1 : names regs1 (r_match r) (r_priority r) <> []) by (intros E; apply Hn; by apply (shrunk_empty _ _ _ _ S2)).
    destruct (exact_match (r_match r)) eqn:Hx.
    - destruct (exact_has_entry mt regs (r_match r) (r_priority r) H Hwr Hx) as (he & a & e & Hhe & Hv & Ha & Hs); [intros E; apply Hn1; by apply (shrunk_empty _ _ _ _ S1) |].
      pose proof (represents_entry _ _ _ _ H Ha) as Hwe. apply Hn1. rewrite (represents_same _ _ _ _ (me_match e) (me_priority e) H1) by (done || unfold same_rule; by rewrite Hs, Hx).
      apply (G1 he a e); try done. unfold below in Eb. by rewrite <- (filter_strict c (r_match r) (me_match e)).
    - destruct (wild_has_entry mt1 regs1 (r_match r) (r_priority r) H1 Hwr Hx Hn1) as (a & e & Hin' & Ha & Hs). pose proof (represents_entry _ _ _ _ H1 Ha) as Hwe.
      rewrite same_entry_rule in Hs by done. apply Hn. rewrite (represents_same _ _ _ _ (me_match e) (me_priority e) H2) by done.
      apply (G2 a e); try done. unfold below in Eb. apply andb_true_iff in Hs as [Hs _]. by rewrite <- (filter_strict c (r_match r) (me_match e)). }
  assert (Hall : List.filter (fun r => negb (below c r)) regs2 = regs2 /\ List.filter (below c) regs2 = []).
  { clear -Hnone. induction regs2 as [| r regs2 IH]; [done |]. destruct IH as [E1 E2]; [intros; apply Hnone; by right |]. cbn. rewrite (Hnone r) by by left. cbn. by rewrite E1, E2. }
  destruct Hall as [Ea Eb]. exists (Some mt2). split.
  - do 3 f_equal. pose proof (shrunk_count _ _ _ _ S) as Hcount. rewrite Eb in Hcount. cbn in Hcount. lia.
  - rewrite <- (shrunk_others _ _ _ _ S), Ea. done.
Qed.
End Covered.

(** * Requests

    What the bytes of a request ask for, what becomes of the registrations and
    what is answered. *)

Inductive filter_request : Type :=
| AddFilter (m : ofp_match) (priority : Z) (name : bytes)
| DeleteFilter (m : ofp_match) (priority : Z) (name : bytes)
| DeleteFilters (m : ofp_match)
| NoRequest.

Definition count_reply (n : nat) : option (Z * bytes) :=
  Some (MESSENGER_DELETE_PACKETIN_FILTER_REPLY, be_encode 1 PACKETIN_FILTER_OPERATION_SUCCEEDED ++ be_encode 4 (u32 (Z.of_nat n))).

Definition apply_request (regs : list registration) (q : filter_request) : list registration * option (Z * bytes) :=
  match q with
  | AddFilter m pr name =>
    let status x := Some (MESSENGER_ADD_PACKETIN_FILTER_REPLY, be_encode 1 x) in
    if decide (name ∈ names regs m pr) then (regs, status PACKETIN_FILTER_OPERATION_FAILED)
    else (regs ++ [Registration m pr name], status PACKETIN_FILTER_OPERATION_SUCCEEDED)
  | DeleteFilter m pr name =>
    (List.filter (fun r => negb (of_rule m pr r && bool_decide (r_name r = name))) regs, count_reply (length (filter (eq name) (names regs m pr))))
  | DeleteFilters m => (List.filter (fun r => negb (below m r)) regs, count_reply (length (List.filter (below m) regs)))
  | NoRequest => (regs, None)
  end.

Fixpoint apply_requests (regs : list registration) (qs : list filter_request) : list registration :=
  match qs with [] => regs | q :: qs => apply_requests (apply_request regs q).1 qs end.

Fixpoint answers (regs : list registration) (qs : list filter_request) : list (option (Z * bytes)) :=
  match qs with [] => [] | q :: qs => (apply_request regs q).2 :: answers (apply_request regs q).1 qs end.

Section Requests.
Context {host : Host}.

(** The name in an add request, which is cut to 31 bytes. *)
Definition requested_name (data : bytes) : bytes := c_string (take 31 (drop 42 data)).

Inductive asks (tag : Z) (data : bytes) : filter_request -> Prop :=
| asks_add m pr : tag = MESSENGER_ADD_PACKETIN_FILTER_REQUEST -> blen data = 74 ->
    request_match data = Ok m -> ld_ntoh 2 data 40 = Ok pr -> requested_name data <> [] -> asks tag data (AddFilter m pr (requested_name data))
| asks_delete m pr flags name : tag = MESSENGER_DELETE_PACKETIN_FILTER_REQUEST -> blen data = 75 ->
    request_match data = Ok m -> ld_ntoh 2 data 40 = Ok pr -> ld8 data 74 = Ok flags -> truth (Z.land flags PACKETIN_FILTER_FLAG_MATCH_STRICT) = true ->
    named (drop 42 data) name -> asks tag data (DeleteFilter m pr name)
| asks_delete_all m pr flags : tag = MESSENGER_DELETE_PACKETIN_FILTER_REQUEST -> blen data = 75 ->
    request_match data = Ok m -> ld_ntoh 2 data 40 = Ok pr -> ld8 data 74 = Ok flags -> truth (Z.land flags PACKETIN_FILTER_FLAG_MATCH_STRICT) = false ->
    asks tag data (DeleteFilters m)
| asks_nameless : tag = MESSENGER_ADD_PACKETIN_FILTER_REQUEST -> blen data = 74 -> requested_name data = [] -> asks tag data NoRequest
| asks_length : (tag = MESSENGER_ADD_PACKETIN_FILTER_REQUEST /\ blen data <> 74) \/
    ((tag = MESSENGER_DELETE_PACKETIN_FILTER_REQUEST \/ tag = MESSENGER_DUMP_PACKETIN_FILTER_REQUEST) /\ blen data <> 75) -> asks tag data NoRequest
| asks_other : tag ∉ [MESSENGER_ADD_PACKETIN_FILTER_REQUEST; MESSENGER_DELETE_PACKETIN_FILTER_REQUEST; MESSENGER_DUMP_PACKETIN_FILTER_REQUEST] -> asks tag data NoRequest.

Lemma request_match_wf data m : request_match data = Ok m -> wf_match m.
Proof.
  unfold request_match. intros (x & Ex & [= <-])%bind_inv. change (ws_ld (A := ofp_match) data 0 = Ok x) in Ex. apply ws_ld_wf in Ex. exact (ws_wf_ntoh (A := ofp_match) x Ex).
Qed.

Lemma c_string_no_zero s : zero ∉ c_string s.
Proof. induction s as [| b s IH]; cbn [c_string]; [by intros ?%elem_of_nil |]. destruct (decide (b = zero)); [by intros ?%elem_of_nil |]. intros [?|?]%elem_of_cons; [by subst | done]. Qed.

Lemma c_string_cut s rest : c_string (s ++ zero :: rest) = c_string s.
Proof. induction s as [| b s IH]; cbn [c_string app]; [done |]. destruct (decide _); [done |]. by rewrite IH. Qed.

(** The terminator is the last byte of the name. *)
Lemma terminated data : blen data = 74 -> exists data', st8 data 73 0 = Ok data' /\ blen data' = 74 /\ take 73 data' = take 73 data /\
  c_string (drop 42 data') = requested_name data.
Proof.
  intros Hl. unfold blen in Hl. assert (E : data = take 73 data ++ drop 73 data) by by rewrite take_drop. destruct (drop 73 data) as [| b [|]] eqn:Ed; apply (f_equal length) in Ed; rewrite length_drop in Ed; cbn in Ed; try lia.
  set (s := take 73 data) in *. assert (Hs : length s = 73%nat) by (unfold s; rewrite length_take; lia). exists (s ++ [zero]).
  assert (Est : st8 data 73 0 = Ok (s ++ [zero])).
  { rewrite E. unfold st8, st, st_bytes. rewrite blen_app, length_host_encode. unfold blen. rewrite Hs. cbn [length]. change ((0 <=? 73) && (73 + Z.of_nat 1 <=? Z.of_nat 73 + Z.of_nat 1)) with true. cbv iota. 
    rewrite take_app_length' by (rewrite Hs; done). rewrite drop_ge by (rewrite length_app, Hs; cbn; lia). rewrite app_nil_r. do 2 f_equal. unfold host_encode. by destruct host_order. }
  split; [done |]. split; [unfold blen; rewrite length_app, Hs; done |]. split; [by rewrite take_app_length' |].
  rewrite drop_app_le by lia. rewrite c_string_cut. unfold requested_name. f_equal. rewrite E. rewrite drop_app_le, take_app_le by (rewrite ?length_drop; lia).
  rewrite take_ge; [done |]. rewrite length_drop. lia.
Qed.
End Requests.

Section Answered.
Context {host : Host}.

Lemma ld_within n s r off : off + Z.of_nat n <= blen s -> ld n (s ++ r) off = ld n s off.
Proof. intros H. unfold ld. by rewrite ld_bytes_within. Qed.

Lemma same_start s r : blen s = 73 -> request_match (s ++ r) = request_match s /\ ld_ntoh 2 (s ++ r) 40 = ld_ntoh 2 s 40.
Proof.
  intros Hs. unfold request_match, ld_match, ld_ntoh. rewrite !ld_within, !ld_bytes_within by (rewrite Hs; cbn; lia). done.
Qed.

Context {W : Type} `{Messaging W} `{Answering W} (replied : Z * bytes -> Z -> bytes -> W -> W).
(** A reply is given to the messenger, which may or may not take it. *)
Hypothesis replies : forall handle tag data w, exists b, send_reply_message handle tag data w = Ok (b, replied handle tag data w).

Implicit Types (t : filter_table) (regs : list registration) (w : W) (handle : Z * bytes).

Definition answer handle (reply : option (Z * bytes)) w : W :=
  match reply with Some (tag, data) => replied handle tag data w | None => w end.

Lemma reply_to_run handle tag data t w : reply_to handle tag data (t, w) = Ok (tt, (t, replied handle tag data w)).
Proof. unfold reply_to, outside, mbind, ret. destruct (replies handle tag data w) as [b E]. cbn [fst snd]. by rewrite E. Qed.

Lemma status_run (handle : Z * bytes) tag (b : bool) (t : filter_table) (t0 : filter_table) w :
  (let! _ := set_filters t in reply_to handle tag (be_encode 1 (if b then PACKETIN_FILTER_OPERATION_SUCCEEDED else PACKETIN_FILTER_OPERATION_FAILED))) (t0, w)
    = Ok (tt, (t, replied handle tag (be_encode 1 (if b then PACKETIN_FILTER_OPERATION_SUCCEEDED else PACKETIN_FILTER_OPERATION_FAILED)) w)).
Proof. unfold mbind at 1, set_filters. cbn [fst snd bind]. apply reply_to_run. Qed.

(** What was asked for is done, and answered. *)
Definition served handle tag data q t regs w : Prop :=
  exists t', handle_request handle tag data (t, w) = Ok (tt, (t', answer handle (apply_request regs q).2 w)) /\ represents t' (apply_request regs q).1.

Lemma add_served handle data m pr t regs w : represents t regs -> blen data = 74 -> request_match data = Ok m -> ld_ntoh 2 data 40 = Ok pr -> requested_name data <> [] ->
  served handle MESSENGER_ADD_PACKETIN_FILTER_REQUEST data (AddFilter m pr (requested_name data)) t regs w.
Proof.
  intros Hr Hl Em Ep Hn. destruct (terminated data Hl) as (data' & Est & Hl' & Etake & Ename).
  assert (Es : request_match data' = Ok m /\ ld_ntoh 2 data' 40 = Ok pr).
  { assert (Hs : blen (take 73 data) = 73) by (unfold blen in *; rewrite length_take; lia).
    destruct (same_start _ (drop 73 data) Hs) as [E1 E2]. destruct (same_start _ (drop 73 data') Hs) as [E3 E4].
    assert (Ed : data' = take 73 data ++ drop 73 data') by by rewrite <- Etake, take_drop. rewrite Ed, E3, E4, <- E1, <- E2, take_drop. done. }
  destruct Es as [Em' Ep']. pose proof (request_match_wf data m Em) as Hm. pose proof (c_string_no_zero (take 31 (drop 42 data))) as Hz.
  destruct (represents_add t regs m pr (requested_name data) Hr Hm Hz) as (t' & Ea & Hr').
  exists t'. unfold handle_request. rewrite Hl. change (negb (74 =? sizeof_add_packetin_filter_request)) with false. cbv iota. change (MESSENGER_ADD_PACKETIN_FILTER_REQUEST =? MESSENGER_ADD_PACKETIN_FILTER_REQUEST) with true. cbv iota.
  unfold handle_add_filter_request. erewrite bind_run by (apply lift_run; exact Est). change (Z.to_nat offsetof_entry_service_name) with 42%nat. rewrite Ename. cbv zeta.
  destruct (requested_name data) as [| c name] eqn:En; [done |]. erewrite bind_run by (by apply lift_run). erewrite bind_run by (by apply lift_run).
  erewrite bind_run by reflexivity. cbn [fst]. erewrite bind_run by (by apply lift_run). cbv beta iota. rewrite status_run. unfold apply_request.
  destruct (decide _) as [Hin | Hin]; (split; [| done]); [rewrite bool_decide_eq_false_2 by tauto | rewrite bool_decide_eq_true_2 by done]; done.
Qed.

Lemma delete_reply_run handle n (t t0 : filter_table) w : (let! _ := set_filters t in
    reply_to handle MESSENGER_DELETE_PACKETIN_FILTER_REPLY (be_encode 1 PACKETIN_FILTER_OPERATION_SUCCEEDED ++ host_encode 4 (htonl (u32 (Z.of_nat n))))) (t0, w)
  = Ok (tt, (t, answer handle (count_reply n) w)).
Proof. unfold mbind at 1, set_filters, htonl. cbn [fst snd bind]. rewrite host_encode_hton. apply reply_to_run. Qed.

Lemma delete_served handle data m pr flags q t regs w : represents t regs -> blen data = 75 -> request_match data = Ok m -> ld_ntoh 2 data 40 = Ok pr -> ld8 data 74 = Ok flags ->
  (if truth (Z.land flags PACKETIN_FILTER_FLAG_MATCH_STRICT) then exists name, named (drop 42 data) name /\ q = DeleteFilter m pr name else q = DeleteFilters m) ->
  served handle MESSENGER_DELETE_PACKETIN_FILTER_REQUEST data q t regs w.
Proof.
  intros Hr Hl Em Ep Ef Hq. pose proof (request_match_wf data m Em) as Hm. unfold served, handle_request. rewrite Hl.
  change (MESSENGER_DELETE_PACKETIN_FILTER_REQUEST =? MESSENGER_ADD_PACKETIN_FILTER_REQUEST) with false. cbv iota.
  change (MESSENGER_DELETE_PACKETIN_FILTER_REQUEST =? MESSENGER_DELETE_PACKETIN_FILTER_REQUEST) with true. cbv iota.
  change (negb (75 =? sizeof_delete_packetin_filter_request)) with false. cbv iota. unfold handle_delete_filter_request.
  erewrite bind_run by (by apply lift_run). erewrite bind_run by (by apply lift_run). erewrite bind_run by (by apply lift_run). erewrite bind_run by reflexivity. cbn [fst].
  change (Z.to_nat offsetof_entry_service_name) with 42%nat. destruct (truth _).
  - destruct Hq as (name & Hn & ->). destruct (represents_delete_strict t regs m pr _ name Hr Hm Hn) as (t' & E & Hr').
    exists t'. split; [| done]. erewrite bind_run by (apply lift_run; rewrite E; reflexivity). cbv beta iota. apply delete_reply_run.
  - subst q. destruct (represents_delete_below t regs m Hr Hm) as (t' & E & Hr').
    exists t'. split; [| done]. erewrite bind_run by (apply lift_run; rewrite E; reflexivity). cbv beta iota. apply delete_reply_run.
Qed.

Lemma nameless handle data t w : blen data = 74 -> requested_name data = [] -> handle_request handle MESSENGER_ADD_PACKETIN_FILTER_REQUEST data (t, w) = Ok (tt, (t, w)).
Proof.
  intros Hl Hn. destruct (terminated data Hl) as (data' & Est & _ & _ & Ename). unfold handle_request. rewrite Hl.
  change (negb (74 =? sizeof_add_packetin_filter_request)) with false. change (MESSENGER_ADD_PACKETIN_FILTER_REQUEST =? MESSENGER_ADD_PACKETIN_FILTER_REQUEST) with true. cbv iota.
  unfold handle_add_filter_request. erewrite bind_run by (apply lift_run; exact Est). change (Z.to_nat offsetof_entry_service_name) with 42%nat. by rewrite Ename, Hn.
Qed.

Lemma request_served handle tag data q t regs w : represents t regs -> asks tag data q -> served handle tag data q t regs w.
Proof.
  intros Hr [m pr -> Hl Em Ep Hn | m pr flags name -> Hl Em Ep Ef Es Hn | m pr flags -> Hl Em Ep Ef Es | -> Hl Hn | Hl | Ht].
  - by apply add_served.
  - eapply (delete_served _ _ m pr flags); try done. rewrite Es. by exists name.
  - eapply (delete_served _ _ m pr flags); try done. by rewrite Es.
  - exists t. split; [by apply nameless | done].
  - exists t. split; [| done]. unfold handle_request. destruct Hl as [[-> Hl] | [[-> | ->] Hl]].
    all: first [replace (blen data =? sizeof_add_packetin_filter_request) with false by (unfold sizeof_add_packetin_filter_request; lia)
      | replace (blen data =? sizeof_delete_packetin_filter_request) with false by (unfold sizeof_delete_packetin_filter_request; lia)];
      try done; replace (blen data =? sizeof_dump_packetin_filter_request) with false by (unfold sizeof_dump_packetin_filter_request; lia); done.
  - exists t. split; [| done]. unfold handle_request. apply not_elem_of_cons in Ht as [H1 Ht]. apply not_elem_of_cons in Ht as [H2 Ht]. apply not_elem_of_cons in Ht as [H3 _].
    apply Z.eqb_neq in H1, H2, H3. by rewrite H1, H2, H3.
Qed.

(** ** Requests in a row *)

Fixpoint handle_requests (l : list ((Z * bytes) * Z * bytes)) : M (S := filter_table * W) unit :=
  match l with
  | [] => ret tt
  | (handle, tag, data) :: l => let! _ := handle_request handle tag data in handle_requests l
  end.

Fixpoint answer_all (l : list ((Z * bytes) * Z * bytes)) (replies : list (option (Z * bytes))) w : W :=
  match l, replies with
  | (handle, _, _) :: l, reply :: replies => answer_all l replies (answer handle reply w)
  | _, _ => w
  end.

Lemma requests_served l qs t regs w : represents t regs -> Forall2 (fun r q => asks r.1.2 r.2 q) l qs ->
  exists t', handle_requests l (t, w) = Ok (tt, (t', answer_all l (answers regs qs) w)) /\ represents t' (apply_requests regs qs).
Proof.
  intros Hr Hq. revert t regs w Hr. induction Hq as [| [[handle tag] data] q l qs Ha Hq IH]; intros t regs w Hr; [by exists t |].
  cbn [handle_requests]. destruct (request_served handle tag data q t regs w Hr Ha) as (t1 & E1 & Hr1). erewrite bind_run by exact E1.
  destruct (IH t1 _ (answer handle (apply_request regs q).2 w) Hr1) as (t2 & E2 & Hr2). exists t2. by rewrite E2.
Qed.

Lemma represents_names t regs m pr : represents t regs -> wf_match m -> lookup_match_strict_entry [] t m pr = Ok (names regs m pr).
Proof. intros [Hh _] Hm. by apply lookup_strict_rules. Qed.

Lemma represents_init : exists t, init_packetin_match_table = Ok t /\ represents t [].
Proof. destruct holds_empty as (t & E & Ht). exists t. split; [done |]. split; [done | constructor]. Qed.

(** C18. The table of filters refines the list of registrations: whatever the
    requests to add and to delete filters, and those that are refused, in a
    row, each is answered as the list says, and afterwards the table has for
    every match and priority the names registered with them, in order. *)
Theorem filters_follow_requests l qs w : Forall2 (fun r q => asks r.1.2 r.2 q) l qs ->
  exists t0 t, init_packetin_match_table = Ok t0 /\
    handle_requests l (t0, w) = Ok (tt, (t, answer_all l (answers [] qs) w)) /\
    forall m pr, wf_match m -> lookup_match_strict_entry [] t m pr = Ok (names (apply_requests [] qs) m pr).
Proof.
  intros Hq. destruct represents_init as (t0 & E0 & Hi). destruct (requests_served l qs t0 [] w Hi Hq) as (t & E & Ht).
  exists t0, t. split_and!; [done | done |]. intros m pr Hm. by apply represents_names.
Qed.
End Answered.

(** * Dispatch

    The services of which registration a packet goes to. *)

Lemma match_strict x y m : wf_match x -> wf_match y -> wf_match m -> exact_match m = true -> compare_match_strict x y = true -> compare_match x m = compare_match y m.
Proof.
  assert (Hone : forall x y, wf_match x -> wf_match y -> wf_match m -> exact_match m = true -> compare_match_strict x y = true -> compare_match x m = true -> compare_match y m = true).
  { clear. intros x y Hx Hy Hm He. rewrite strict_true, !compare_match_covers by done. intros [E C] Cm. destruct (same_bits _ _ E) as [Es Ed].
    assert (C' : compare_match_strict y x = true) by (rewrite strict_sym by done; by apply strict_true).
    apply strict_true in C' as [E' C']; try done. apply (covers_trans y x m); try done; [| lia | lia]. intros f. by rewrite (same_wild _ _ f E'). }
  intros Hx Hy Hm He E. pose proof E as E'. rewrite strict_sym in E' by done.
  destruct (compare_match x m) eqn:E1, (compare_match y m) eqn:E2; try done; [by rewrite (Hone x y) in E2 | by rewrite (Hone y x) in E1].
Qed.

(** An exact match matches the packet it is equal to. *)
Lemma match_exact x m : wf_match x -> wf_match m -> exact_match x = true -> exact_match m = true -> compare_match x m = compare_match_strict x m.
Proof.
  intros Hx Hm Ex Em. unfold compare_match_strict. replace (_ =? 0) with true; [done |]. symmetry. apply Z.eqb_eq. unfold exact_match in *.
  rewrite land_lxor. by apply Z.eqb_eq in Ex as ->, Em as ->.
Qed.

(** [r'] is preferred to [r], or no worse. *)
Definition outranks (r' r : registration) : Prop :=
  exact_match (r_match r') = true \/ (exact_match (r_match r) = false /\ r_priority r <= r_priority r').

Section Dispatch.
Implicit Types (t : filter_table) (regs : list registration) (r : registration) (m : ofp_match).

Lemma named_registration regs m pr : names regs m pr <> [] -> exists r, r ∈ regs /\ of_rule m pr r = true.
Proof.
  unfold names. destruct (List.filter _ regs) as [| r l] eqn:E; [done |]. intros _. exists r. apply (filter_In (of_rule m pr)). rewrite E. by left.
Qed.

Lemma registration_named regs r m pr : r ∈ regs -> of_rule m pr r = true -> names regs m pr <> [].
Proof.
  intros Hr Ho E. assert (Hn : r_name r ∈ names regs m pr) by (apply list_elem_of_In, in_map, list_elem_of_In, filter_In; done). rewrite E in Hn. by apply elem_of_nil in Hn.
Qed.

(** The registrations whose names a lookup returns. *)
Definition chosen regs m (services : list bytes) : Prop :=
  (services = [] /\ forall r, r ∈ regs -> compare_match (r_match r) m = false) \/
  (services <> [] /\ exists r', r' ∈ regs /\ compare_match (r_match r') m = true /\ services = names regs (r_match r') (r_priority r') /\
    forall r, r ∈ regs -> compare_match (r_match r) m = true -> outranks r' r).

Lemma lookup_chosen t regs m : represents t regs -> wf_match m -> exact_match m = true ->
  exists services, lookup_match_entry [] t m = Ok services /\ chosen regs m services.
Proof.
  intros Hrep Hm Hx. pose proof Hrep as [(mt & sp & -> & Hr & HN & _) Hf]. rewrite Forall_forall in Hf. assert (Hwr : forall r, r ∈ regs -> wf_match (r_match r)) by (intros r Hin; by apply Hf).
  rewrite (lookup_match_entry_spec [] mt sp m Hr), (ru_exact _ _ HN m Hm Hx). eexists. split; [done |].
  destruct (names regs m 0) as [| s0 l0] eqn:En.
  2: { right. split; [done |]. destruct (named_registration regs m 0) as (r' & Hin & Ho); [by rewrite En |]. pose proof (Hwr r' Hin) as Hw.
    unfold of_rule, same_rule in Ho. apply andb_true_iff in Ho as [Hs Ho]. pose proof (strict_exact _ _ Hs) as Hex. rewrite Hx in Hex. exists r'.
    split_and!; [done | by rewrite match_exact | | by left].
    rewrite <- En. symmetry. apply (represents_same _ _ _ _ m 0 Hrep); [done | done |]. unfold same_rule. by rewrite Hs, Hex. }
  assert (Hwild : forall r, r ∈ regs -> compare_match (r_match r) m = true -> exact_match (r_match r) = false).
  { intros r Hin Hc. destruct (exact_match (r_match r)) eqn:Ex; [| done]. exfalso. rewrite match_exact in Hc by auto. apply (registration_named regs r m 0 Hin); [| done].
    unfold of_rule, same_rule. by rewrite Hc, Ex. }
  assert (Hentry : forall r, r ∈ regs -> compare_match (r_match r) m = true -> exists e, e ∈ sp_wild sp /\ compare_match (me_match e) m = true /\ me_priority e = r_priority r).
  { intros r Hin Hc. pose proof (Hwild r Hin Hc) as Hwx. destruct (ru_all _ _ HN (r_match r) (r_priority r) (Hwr r Hin) Hwx) as (e & He & Hs).
    { apply (registration_named regs r); [done |]. by apply same_rule_refl, Hwr. }
    pose proof (rules_wf_entries _ _ _ HN He) as Hwe. rewrite same_entry_rule in Hs by auto. unfold same_rule in Hs. rewrite Hwx in Hs. apply andb_true_iff in Hs as [Hs Hp].
    exists e. split_and!; [done | by rewrite <- (match_strict (r_match r)) by auto | by apply Z.eqb_eq in Hp]. }
  destruct (List.find (fun e => compare_match (me_match e) m) (sp_wild sp)) as [e |] eqn:Ef; cbn [data_or_null from_option].
  - right. apply List.find_some in Ef as Hfound. destruct Hfound as [He%list_elem_of_In Hc]. destruct (ru_wild _ _ HN e He) as (Hwe & Hd & Hne).
    split; [done |]. rewrite Hd in Hne. destruct (named_registration regs _ _ Hne) as (r' & Hin & Ho). unfold of_rule, same_rule in Ho. apply andb_true_iff in Ho as [Hs Ho].
    pose proof (ru_wf _ _ HN) as [Hsort Hnx]. rewrite Forall_forall in Hnx. pose proof (strict_exact _ _ Hs) as Hex. rewrite (Hnx e He) in Hex. rewrite Hex in Ho. cbn [orb] in Ho.
    assert (Hp : r_priority r' = me_priority e) by by apply Z.eqb_eq. exists r'. split_and!; [done | by rewrite (match_strict _ (me_match e)) by auto | |].
    + rewrite Hd. symmetry. apply (represents_same _ _ _ _ _ _ Hrep); auto. unfold same_rule. by rewrite Hs, Ho, orb_true_r.
    + intros r Hr' Hcr. right. split; [by apply Hwild |]. destruct (Hentry r Hr' Hcr) as (e1 & He1 & Hc1 & <-).
      destruct (find_sorted (fun e => compare_match (me_match e) m) _ e1 Hsort He1 Hc1) as (e2 & E2 & _ & _ & Hle). rewrite Ef in E2. injection E2 as <-. lia.
  - left. split; [done |]. intros r Hin. destruct (compare_match (r_match r) m) eqn:Hc; [| done]. destruct (Hentry r Hin Hc) as (e & He%list_elem_of_In & Hc' & _).
    by rewrite (List.find_none _ _ Ef e He) in Hc'.
Qed.
End Dispatch.

Section Dispatched.
Context {host : Host}.

(** The match of a packet has no wildcards. *)
Lemma match_of_packet_exact in_port data info m : wf_info info -> fits 2 in_port -> match_of_packet in_port data info = Ok m -> wf_match m /\ exact_match m = true.
Proof.
  intros Hi Hp. unfold match_of_packet. intros (tunnel & _ & Em)%bind_inv.
  assert (Hset : forall i, wf_info i -> set_match_from_packet in_port 0 (Some (Some i)) = Ok m -> wf_match m /\ exact_match m = true).
  { intros i Hwi. rewrite set_match_eq by done. intros [= <-]. split; [by apply match_of_wf | done]. }
  apply bind_inv in Em as (copy & Ec & Em). destruct tunnel; [| injection Ec as <-; by apply (Hset info)].
  unfold parse_etherip in Ec. destruct (negb _); [injection Ec as <-; by apply (Hset info) |]. destruct (_ =? 0); [injection Ec as <-; by apply (Hset info) |].
  apply bind_inv in Ec as (inner & _ & Ec). apply bind_inv in Ec as (i & Ei & [= <-]). apply (Hset i); [| done].
  pose proof (parse_packet_gives inner) as Ht. rewrite Ei in Ht. by apply typed_wf_info.
Qed.

Context {W : Type} `{Messaging W} `{Answering W} (replied : Z * bytes -> Z -> bytes -> W -> W).
Hypothesis replies : forall handle tag data w, exists b, send_reply_message handle tag data w = Ok (b, replied handle tag data w).
(** The messenger answers, and may refuse a message. *)
Context (accepts : bytes -> Z -> bytes -> W -> bool) (posted : bytes -> Z -> bytes -> W -> W).
Hypothesis sends : forall service tag data w, send_message service tag data w = Ok (accepts service tag data w, posted service tag data w).

(** A message offered to services, one after the other. *)
Definition offered message (services : list bytes) (w : W) : W :=
  foldl (fun w service => posted service MESSENGER_OPENFLOW_MESSAGE message w) w services.

(** The first [k] of the services are offered a message: every one of them
    takes it but perhaps the last, and it is offered to all of them unless that
    one refuses it. *)
Record offered_until message (services : list bytes) (k : nat) (w : W) : Prop := {
  ou_bound : (k <= length services)%nat;
  ou_taken : forall i service, services !! i = Some service -> (S i < k)%nat ->
    accepts service MESSENGER_OPENFLOW_MESSAGE message (offered message (take i services) w) = true;
  ou_end : k = length services \/ exists i service, k = S i /\ services !! i = Some service /\
    accepts service MESSENGER_OPENFLOW_MESSAGE message (offered message (take i services) w) = false
}.

Lemma send_to_services_run message services t (w : W) : exists k,
  send_to_services services message (t, w) = Ok (tt, (t, offered message (take k services) w)) /\ offered_until message services k w.
Proof.
  revert w. induction services as [| s services IH]; intros w.
  { exists 0%nat. split; [done |]. split; [done | by intros i | by left]. }
  assert (Es : outside (send_message s MESSENGER_OPENFLOW_MESSAGE message) (t, w)
    = Ok (accepts s MESSENGER_OPENFLOW_MESSAGE message w, (t, posted s MESSENGER_OPENFLOW_MESSAGE message w))).
  { unfold outside. cbn [fst snd]. by rewrite sends. }
  cbn [send_to_services]. erewrite bind_run by exact Es. destruct (accepts s _ _ w) eqn:Ea; cbn [negb].
  - destruct (IH (posted s MESSENGER_OPENFLOW_MESSAGE message w)) as (k & E & [Hk Ht He]). exists (S k). split; [exact E |]. split.
    + cbn [length]. lia.
    + intros [| i] service Hi Hl; [by injection Hi as <- |]. apply (Ht i service Hi). lia.
    + destruct He as [-> | (i & service & -> & Hi & Hr)]; [by left | right]. by exists (S i), service.
  - exists 1%nat. split; [done |]. split; [cbn [length]; lia | intros i service _ Hl; lia | right]. by exists 0%nat, s.
Qed.

Lemma handle_packet_in_chosen t regs dpid xid buffer_id total_len in_port reason data info m (w : W) :
  represents t regs -> wf_info info -> fits 2 in_port -> match_of_packet in_port data info = Ok m -> blen data < 2 ^ 16 - 18 ->
  let message := be_encode 8 dpid ++ be_encode 2 0 ++ wire_message xid (PacketIn buffer_id total_len in_port reason data) in
  exists services k, chosen regs m services /\ offered_until message services k w /\
    handle_packet_in dpid xid buffer_id total_len in_port reason (Some (data, info)) (t, w) = Ok (tt, (t, offered message (take k services) w)).
Proof.
  intros Hr Hi Hp Em Hl message. destruct (match_of_packet_exact _ _ _ _ Hi Hp Em) as [Hm Hx]. destruct (lookup_chosen t regs m Hr Hm Hx) as (services & El & Hc).
  destruct (send_to_services_run message services t w) as (k & Ek & Hk).
  exists services, k. split; [done |]. split; [done |]. rewrite <- Ek. unfold handle_packet_in. erewrite bind_run by (by apply lift_run). erewrite bind_run by reflexivity. cbn [fst].
  erewrite bind_run by (by apply lift_run). destruct services as [| s services]; [done |].
  assert (Hw : wf_message (PacketIn buffer_id total_len in_port reason data)).
  { split; [done |]. unfold message_length. cbn [wire_body]. len. }
  pose proof (create_packet_in_ok xid _ _ _ _ _ Hw) as Ec. cbn [create_message] in Ec. erewrite bind_run by (by apply lift_run).
  unfold htonll, htons. by rewrite !host_encode_hton.
Qed.

(** C19. A packet goes to who asked for it. After any requests to add and to
    delete filters in a row, a packet that a switch hands in, and that can be
    parsed, is sent, as it was and behind a header with the id of the switch, to
    the services of one registered match that the packet, or the frame that it
    tunnels, matches and that no other registered match that it matches
    outranks: one without wildcards before any other, then by priority. It is
    offered to the services of that match and priority in the order of their
    registration, to all of them when the messenger takes it for each; the first
    for which it is refused is the last that it is offered to. When the packet
    matches none it goes to no one. *)
Theorem packets_follow_requests l qs w0 t0 t w dpid xid buffer_id total_len in_port reason data info m :
  init_packetin_match_table = Ok t0 -> Forall2 (fun r q => asks r.1.2 r.2 q) l qs -> handle_requests l (t0, w0) = Ok (tt, (t, w)) ->
  parse_packet data = Ok info -> match_of_packet in_port data info = Ok m -> fits 2 in_port -> blen data < 2 ^ 16 - 18 ->
  let message := be_encode 8 dpid ++ be_encode 2 0 ++ wire_message xid (PacketIn buffer_id total_len in_port reason data) in
  exists services k, chosen (apply_requests [] qs) m services /\
    handle_packet_in dpid xid buffer_id total_len in_port reason (Some (data, info)) (t, w) = Ok (tt, (t, offered message (take k services) w)) /\
    offered_until message services k w /\
    ((forall service w, service ∈ services -> accepts service MESSENGER_OPENFLOW_MESSAGE message w = true) -> take k services = services).
Proof.
  intros E0 Hq El Ei Em Hp Hl message. destruct represents_init as (t1 & E1 & Hi). rewrite E0 in E1. injection E1 as <-.
  destruct (requests_served replied replies l qs t0 [] w0 Hi Hq) as (t2 & E2 & Hr). rewrite El in E2. injection E2 as <- _.
  destruct (handle_packet_in_chosen t (apply_requests [] qs) dpid xid buffer_id total_len in_port reason data info m w) as (services & k & Hc & Hk & E); try done.
  { pose proof (parse_packet_gives data) as Ht. rewrite Ei in Ht. by apply typed_wf_info. }
  exists services, k. split_and!; [done | done | done |]. intros Ha. destruct (ou_end _ _ _ _ Hk) as [-> | (i & service & _ & Hs & Hr')]; [by apply firstn_all |].
  rewrite Ha in Hr'; [done |]. by apply list_elem_of_lookup_2 in Hs.
Qed.
End Dispatched.

(** * Witnesses *)

Section Witnesses.
Let host : Host := LittleEndian.
#[local] Existing Instance host.

(** A messenger that keeps what it is given. *)
Definition mailbox : Type := list (bytes * Z * bytes).

#[local] Instance mailbox_messaging : Messaging mailbox := {|
  get_trema_name := ret [Byte.x61];
  init_openflow_message := ret true;
  add_message_received_callback _ := ret true;
  add_message_replied_callback _ := ret true;
  delete_message_received_callback _ := ret true;
  delete_message_replied_callback _ := ret true;
  clear_send_queue _ := ret true;
  send_message name tag data := fun w => Ok (true, w ++ [(name, tag, data)]);
  send_request_message to _ tag data _ := fun w => Ok (true, w ++ [(to, tag, data)]);
  increment_stat _ := ret tt
|}.

#[local] Instance mailbox_answering : Answering mailbox := {|
  send_reply_message handle tag data := fun w => Ok (true, w ++ [(handle.2, tag, data)])
|}.

Definition mailed (handle : Z * bytes) (tag : Z) (data : bytes) (w : mailbox) : mailbox := w ++ [(handle.2, tag, data)].

Lemma mailed_replies : forall handle tag data w, exists b, send_reply_message handle tag data w = Ok (b, mailed handle tag data w).
Proof. intros. by exists true. Qed.

Definition add_request (m : ofp_match) (pr : Z) (name : bytes) : bytes := wire_match m ++ be_encode 2 pr ++ strncpy 32 name.

Definition any_match : ofp_match := set_wildcards zero_match OFPFW_ALL.
Definition ipv4_match : ofp_match := set_dl_type (set_wildcards zero_match (Z.lxor OFPFW_ALL OFPFW_DL_TYPE)) ETH_ETHTYPE_IPV4.
Definition sample_handle : Z * bytes := (1, [Byte.x63]).

(** Two ask for IPv4, one for everything; the first takes its filter back. *)
Definition sample_requests : list ((Z * bytes) * Z * bytes) :=
  [(sample_handle, MESSENGER_ADD_PACKETIN_FILTER_REQUEST, add_request ipv4_match 10 [Byte.x61]);
   (sample_handle, MESSENGER_ADD_PACKETIN_FILTER_REQUEST, add_request ipv4_match 10 [Byte.x62]);
   (sample_handle, MESSENGER_ADD_PACKETIN_FILTER_REQUEST, add_request any_match 0 [Byte.x64]);
   (sample_handle, MESSENGER_DELETE_PACKETIN_FILTER_REQUEST, add_request ipv4_match 10 [Byte.x61] ++ be_encode 1 1)].

Definition sample_asked : list filter_request :=
  [AddFilter ipv4_match 10 [Byte.x61]; AddFilter ipv4_match 10 [Byte.x62]; AddFilter any_match 0 [Byte.x64]; DeleteFilter ipv4_match 10 [Byte.x61]].

Lemma sample_asks : Forall2 (fun r q => asks r.1.2 r.2 q) sample_requests sample_asked.
Proof.
  assert (Hadd : forall m pr name, name = requested_name (add_request m pr name) -> blen (add_request m pr name) = 74 -> request_match (add_request m pr name) = Ok m ->
    ld_ntoh 2 (add_request m pr name) 40 = Ok pr -> name <> [] -> asks MESSENGER_ADD_PACKETIN_FILTER_REQUEST (add_request m pr name) (AddFilter m pr name)).
  { intros m pr name E Hl Em Ep Hn. rewrite E at 2. apply asks_add; try done. by rewrite <- E. }
  unfold sample_requests, sample_asked. do 3 (apply Forall2_cons; split; [apply Hadd; by vm_compute |]). apply Forall2_cons; split; [| constructor].
  apply (asks_delete _ _ ipv4_match 10 1 [Byte.x61]); try (by vm_compute). exists (replicate 30 zero ++ [Byte.x01]). split; [by vm_compute | set_solver].
Qed.

Lemma filters_follow_requests_witness : Forall2 (fun r q => asks r.1.2 r.2 q) sample_requests sample_asked /\
  exists t0 t, init_packetin_match_table = Ok t0 /\
    handle_requests sample_requests (t0, []) = Ok (tt, (t, answer_all mailed sample_requests (answers [] sample_asked) [])) /\
    forall m pr, wf_match m -> lookup_match_strict_entry [] t m pr = Ok (names (apply_requests [] sample_asked) m pr).
Proof. exact (conj sample_asks (filters_follow_requests mailed mailed_replies sample_requests sample_asked [] sample_asks)). Defined.

Definition mail (service : bytes) (tag : Z) (data : bytes) (w : mailbox) : mailbox := w ++ [(service, tag, data)].

Lemma mail_sends : forall service tag data w, send_message service tag data w = Ok (true, mail service tag data w).
Proof. done. Qed.

Definition sample_bytes : bytes := wire_frame sample_frame.

Lemma packets_follow_requests_witness :
  let message := be_encode 8 171 ++ be_encode 2 0 ++ wire_message 7 (PacketIn 256 60 3 0 sample_bytes) in
  exists t0 t w m services, init_packetin_match_table = Ok t0 /\ handle_requests sample_requests (t0, []) = Ok (tt, (t, w)) /\
    match_of_packet 3 sample_bytes sample_info = Ok m /\ chosen (apply_requests [] sample_asked) m services /\
    handle_packet_in 171 7 256 60 3 0 (Some (sample_bytes, sample_info)) (t, w) = Ok (tt, (t, offered mail message services w)).
Proof.
  destruct represents_init as (t0 & E0 & Hi). destruct (requests_served mailed mailed_replies sample_requests sample_asked t0 [] [] Hi sample_asks) as (t & E & _).
  assert (Em : exists m, match_of_packet 3 sample_bytes sample_info = Ok m) by (eexists; vm_compute; reflexivity). destruct Em as [m Em].
  assert (Ep : parse_packet sample_bytes = Ok sample_info) by (vm_compute; reflexivity).
  destruct (packets_follow_requests mailed mailed_replies (fun _ _ _ _ => true) mail mail_sends sample_requests sample_asked [] t0 t _ 171 7 256 60 3 0 sample_bytes sample_info m E0 sample_asks E Ep Em
    ltac:(done) ltac:(by vm_compute)) as (services & k & Hc & Hs & _ & Hall). rewrite (Hall (fun _ _ _ => eq_refl)) in Hs.
  exists t0, t, (answer_all mailed sample_requests (answers [] sample_asked) []), m, services. exact (conj E0 (conj E (conj Em (conj Hc Hs)))).
Defined.

(** The packet is sent to the second only. *)
Lemma sample_dispatch : match init_packetin_match_table with
  | Ok t0 => match handle_requests sample_requests (t0, []) with
    | Ok (_, (t, w)) => match handle_packet_in 171 7 256 60 3 0 (Some (sample_bytes, sample_info)) (t, []) with
      | Ok (_, (_, w)) => Some (map (fun x => x.1.1) w) | Fault _ => None end
    | Fault _ => None end
  | Fault _ => None end = Some [[Byte.x62]].
Proof. vm_compute. reflexivity. Qed.
End Witnesses.
