(* ===== verification/Ether.v ===== *)
(** ether.c: short frames are padded to the minimum length of Ethernet, less the
    check sequence that the hardware adds. *)

From Stdlib Require Import ZArith Lia Bool.
From coqutil Require Import Byte.
From stdpp Require Import base list.
From S2P Require Import Prelude Memory Buffer Create.

Section Ether.
Context {U : Type}.
Implicit Types (b : private_buffer (U := U)) (s : bytes).

Definition fill_ether_padding b : res (Z * private_buffer (U := U)) :=
  if data_length b + ETH_FCS_LENGTH <? ETH_MINIMUM_LENGTH then
    let padding_length := ETH_MINIMUM_LENGTH - data_length b - ETH_FCS_LENGTH in
    let* (padding, b) := append_back_buffer b padding_length in
    let* b := store b padding (map Some (zeros (Z.to_nat padding_length))) in
    Ok (u16 padding_length, b)
  else Ok (0, b).

Definition padding_of s : bytes := zeros (Z.to_nat (60 - blen s)).

Lemma blen_padding s : blen (padding_of s) = Z.max 0 (60 - blen s).
Proof. unfold padding_of, blen, zeros. rewrite length_replicate. lia. Qed.

(** The bytes of the frame stay, zeros follow up to 60 bytes, and the result
    counts them. *)
Lemma fill_ether_padding_ok b s n : holds b s n -> n + 60 < 2 ^ 64 ->
  exists b' n', fill_ether_padding b = Ok (blen (padding_of s), b') /\ holds b' (s ++ padding_of s) n'.
Proof.
  intros H Hn. pose proof H as (Hb & Hc & _). assert (Hl : data_length b = blen s).
  { pose proof (length_contents b Hb) as Hl. rewrite Hc, length_map in Hl. by unfold blen. }
  unfold fill_ether_padding. rewrite Hl. unfold ETH_FCS_LENGTH, ETH_MINIMUM_LENGTH. pose proof (blen_nonneg s). pose proof (blen_padding s) as Hp.
  destruct (Z.ltb_spec (blen s + 4) 64) as [Hs | Hs].
  - destruct (put_back_ok b s n (padding_of s) H) as (b' & E & H'); [lia | lia |]. exists b', (n + blen (padding_of s)). split; [| done].
    unfold run_op in E. rewrite Hp in E. replace (64 - blen s - 4) with (60 - blen s) by lia. replace (Z.max 0 (60 - blen s)) with (60 - blen s) in * by lia.
    destruct (append_back_buffer b (60 - blen s)) as [[p b1] |]; [| done]. cbn [bind] in E |- *.
    fold (padding_of s). rewrite E. bind_ok. rewrite Hp. do 2 f_equal. unfold u16. apply Z.mod_small. lia.
  - exists b, n. rewrite Hp. replace (Z.max 0 (60 - blen s)) with 0 by lia. split; [done |].
    assert (E : padding_of s = []) by (unfold padding_of; by replace (Z.to_nat (60 - blen s)) with 0%nat by lia). by rewrite E, app_nil_r.
Qed.

(** Then a frame is long enough to be sent ([create_packet_out]), and is not
    padded again. *)
Lemma padded_length s : 60 <= blen (s ++ padding_of s) /\ padding_of (s ++ padding_of s) = [].
Proof.
  rewrite blen_app, blen_padding. pose proof (blen_nonneg s). split; [lia |]. unfold padding_of at 1.
  rewrite blen_app, blen_padding. by replace (Z.to_nat _) with 0%nat by lia.
Qed.
End Ether.

Example short_frame :
  match (let* b := alloc_buffer_with_length (U := unit) 14 in
         let* (_, b) := append_back_buffer b 14 in
         let* b := store b 0 (map Some (zeros 14)) in fill_ether_padding b) with
  | Ok (n, b) => n = 46 /\ contents b = map Some (zeros 60)
  | Fault _ => False
  end.
Proof. vm_compute. done. Qed.
