(* ===== verification/FilterInterface.v ===== *)
(** packetin_filter_interface.c: what a program calls to have packets sent to its
    services by the packet-in filter.

    A string is the bytes from its start to the end of its object.  The record
    with the callback of a request lives on a heap, as the reply comes with its
    address; a call of the callback is logged.  The messenger and trema.c are an
    interface. *)

From Stdlib Require Import ZArith Lia Bool String.
From coqutil Require Import Byte.
From stdpp Require Import base list gmap.
From S2P Require Import Prelude Memory StateMonad OpenFlow ByteOrder Timer Utility Management ApplicationInterface PacketinFilter EventForwardInterface Filtering.

Definition offsetof_entries : Z := offsetof_dump_packetin_filter_reply_entries.

(** * Data *)

Record handler_data : Type := HandlerData { callback : option Z; user_data : Z }.

Record packetin_filter_entry : Type := FilterEntry { fe_match : ofp_match; fe_priority : Z; fe_service_name : bytes }.

(** The calls of the functions of the program; [None] for entries that are NULL. *)
Inductive filter_call : Type :=
| AdditionDone (function status user_data : Z)
| DeletionDone (function status n_deleted user_data : Z)
| DumpDone (function status n_entries : Z) (entries : option (list packetin_filter_entry)) (user_data : Z).

(** The static variables, the heap of the records, and the log. *)
Record filter_client : Type := FilterClient {
  initialized : bool;
  client_service_name : bytes;
  handler_datas : gmap positive handler_data;
  filter_calls : list filter_call
}.

Definition zero_filter_client : filter_client := FilterClient false [] ∅ [].

(** * What the interface asks of the messenger and trema.c

    The callback for replies is [handle_reply]. *)
Class FilterMessaging (W : Type) : Type := {
  filter_getpid : StateMonad.M (S := W) Z;
  add_filter_reply_callback : bytes -> StateMonad.M (S := W) bool;
  delete_filter_reply_callback : bytes -> StateMonad.M (S := W) bool;
  send_filter_request : bytes -> bytes -> Z -> bytes -> positive -> StateMonad.M (S := W) bool
}.

Section Interface.
Context {host : Host} {W : Type} `{FilterMessaging W}.
#[local] Abbreviation M := (StateMonad.M (S := filter_client * W)).
Implicit Types (m : ofp_match) (pr : Z) (name : bytes) (service_name : option bytes).

Definition get {A} (f : filter_client -> A) : M A := fun s => Ok (f s.1, s).
Definition put (f : filter_client -> filter_client) : M unit := fun s => Ok (tt, (f s.1, s.2)).
Definition ext {A} (x : StateMonad.M (S := W) A) : M A := fun s => let* (a, w) := x s.2 in Ok (a, (s.1, w)).

Definition set_initialized (b : bool) : M unit :=
  put (fun c => FilterClient b (client_service_name c) (handler_datas c) (filter_calls c)).
Definition set_datas (h : gmap positive handler_data) : M unit :=
  put (fun c => FilterClient (initialized c) (client_service_name c) h (filter_calls c)).
Definition log_call (x : filter_call) : M unit :=
  put (fun c => FilterClient (initialized c) (client_service_name c) (handler_datas c) (filter_calls c ++ [x])).

(** ** Start and end *)

(** [snprintf( ..., "packetin_filter.%u", trema_getpid() )] *)
Definition set_client_service_name : M unit :=
  let! pid := ext filter_getpid in
  let name := take 31 (ascii "packetin_filter." ++ print_decimal (u32 pid)) in
  put (fun c => FilterClient (initialized c) name (handler_datas c) (filter_calls c)).

Definition init_packetin_filter_interface : M bool :=
  let! b := get initialized in
  if b : bool then ret false
  else
    let! _ := set_client_service_name in
    let! name := get client_service_name in
    let! _ := ext (add_filter_reply_callback name) in
    let! _ := set_initialized true in
    ret true.

Definition maybe_init_packetin_filter_interface : M unit :=
  let! b := get initialized in
  if b : bool then ret tt else let! _ := init_packetin_filter_interface in ret tt.

Definition finalize_packetin_filter_interface : M bool :=
  let! b := get initialized in
  if b : bool then
    let! name := get client_service_name in
    let! _ := ext (delete_filter_reply_callback name) in
    let! _ := set_initialized false in
    ret true
  else ret false.

(** ** Requests *)

Definition strlen (mem : bytes) : res Z := if decide (zero ∈ mem) then Ok (blen (c_string mem)) else Fault OutOfBounds.

(** [memcpy] of the array of the name. *)
Definition copy_name (mem : bytes) : res bytes :=
  if MESSENGER_SERVICE_NAME_LENGTH <=? blen mem then Ok (take (Z.to_nat MESSENGER_SERVICE_NAME_LENGTH) mem) else Fault OutOfBounds.

(** [strncpy] of at most the array, and its last byte set to 0. *)
Definition copy_string service_name : res bytes :=
  match service_name with
  | None => Ok (zeros 32)
  | Some mem =>
    if decide (zero ∈ mem) then Ok (strncpy 32 (c_string mem))
    else if MESSENGER_SERVICE_NAME_LENGTH <=? blen mem then Ok (strncpy 32 mem)
    else Fault OutOfBounds
  end.

Definition new_handler_data (f : option Z) (user_data : Z) : M positive :=
  let! h := get handler_datas in
  let a := fresh (dom h) in
  let! _ := set_datas (<[a := HandlerData f user_data]> h) in
  ret a.

(** The entry of a request, and the flags of those that have some. *)
Definition send_filter_entry (tag : Z) m pr (name : res bytes) (flags : bytes) (data : positive) : M bool :=
  let! match_ := lift (match_bytes m) in
  let! name := lift name in
  let! client := get client_service_name in
  ext (send_filter_request PACKETIN_FILTER_MANAGEMENT_SERVICE client tag (match_ ++ host_encode 2 (htons pr) ++ name ++ flags) data).

Definition add_packetin_filter m pr service_name (f : option Z) (user_data : Z) : M bool :=
  match service_name with
  | None => ret false
  | Some mem =>
    let! n := lift (strlen mem) in
    if n =? 0 then ret false
    else
      let! _ := maybe_init_packetin_filter_interface in
      let! data := new_handler_data f user_data in
      send_filter_entry MESSENGER_ADD_PACKETIN_FILTER_REQUEST m pr (copy_name mem) [] data
  end.

Definition flags_of (strict : bool) : bytes :=
  be_encode 1 (if strict then PACKETIN_FILTER_FLAG_MATCH_STRICT else PACKETIN_FILTER_FLAG_MATCH_LOOSE).

Definition delete_packetin_filter m pr service_name (strict : bool) (f : option Z) (user_data : Z) : M bool :=
  let! _ := maybe_init_packetin_filter_interface in
  let! data := new_handler_data f user_data in
  send_filter_entry MESSENGER_DELETE_PACKETIN_FILTER_REQUEST m pr (copy_string service_name) (flags_of strict) data.

Definition dump_packetin_filter m pr service_name (strict : bool) (f : option Z) (user_data : Z) : M bool :=
  let! _ := maybe_init_packetin_filter_interface in
  let! data := new_handler_data f user_data in
  send_filter_entry MESSENGER_DUMP_PACKETIN_FILTER_REQUEST m pr (copy_string service_name) (flags_of strict) data.

(** ** Replies *)

Definition load_data (a : positive) : M handler_data :=
  let! h := get handler_datas in match h !! a with Some d => ret d | None => fault UseAfterFree end.

Definition free_data (a : positive) : M unit := let! h := get handler_datas in set_datas (delete a h).

(** The callback, if there is one, and [xfree]. *)
Definition completed (a : positive) (call : Z -> Z -> filter_call) : M unit :=
  let! d := load_data a in
  let! _ := match callback d with Some f => log_call (call f (user_data d)) | None => ret tt end in
  free_data a.

Definition addition_completed (status : Z) (a : positive) : M unit := completed a (fun f u => AdditionDone f status u).
Definition deletion_completed (status n_deleted : Z) (a : positive) : M unit := completed a (fun f u => DeletionDone f status n_deleted u).
Definition dump_completed (status n_entries : Z) (entries : option (list packetin_filter_entry)) (a : positive) : M unit :=
  completed a (fun f u => DumpDone f status n_entries entries u).

Definition ntoh_packetin_filter_entry (data : bytes) (off : Z) : res packetin_filter_entry :=
  let* m := ld_match data off in
  let* priority := ld_ntoh 2 data (off + offsetof_entry_priority) in
  let* name := ld_bytes data (off + offsetof_entry_service_name) 32 in
  Ok (FilterEntry (ntoh_match m) priority name).

Fixpoint reply_entries (n : nat) (data : bytes) (off : Z) : res (list packetin_filter_entry) :=
  match n with
  | O => Ok []
  | S n =>
    let* e := ntoh_packetin_filter_entry data off in
    let* es := reply_entries n data (off + sizeof_packetin_filter_entry) in
    Ok (e :: es)
  end.

Definition handle_reply (tag : Z) (data : bytes) (a : positive) : M unit :=
  if tag =? MESSENGER_ADD_PACKETIN_FILTER_REPLY then
    if negb (blen data =? 1) then ret tt
    else let! status := lift (ld8 data 0) in addition_completed status a
  else if tag =? MESSENGER_DELETE_PACKETIN_FILTER_REPLY then
    if negb (blen data =? sizeof_delete_packetin_filter_reply) then ret tt
    else
      let! status := lift (ld8 data 0) in
      let! n_deleted := lift (ld_ntoh 4 data 1) in
      deletion_completed status (int_of n_deleted) a
  else if tag =? MESSENGER_DUMP_PACKETIN_FILTER_REPLY then
    if blen data <? offsetof_entries then ret tt
    else
      let! n := lift (ld_ntoh 4 data 1) in
      if negb (blen data =? offsetof_entries + sizeof_packetin_filter_entry * n) then ret tt
      else
        let n_entries := int_of n in
        let! entries :=
          if 0 <? n_entries then
            let! es := lift (reply_entries (Z.to_nat n_entries) data offsetof_entries) in ret (Some es)
          else ret None in
        let! status := lift (ld8 data 0) in
        dump_completed status n_entries entries a
  else ret tt.
End Interface.

(** * Requests and their replies *)

Section Served.
Context {host : Host} {W : Type} `{FilterMessaging W} (posted : bytes -> bytes -> Z -> bytes -> positive -> W -> W).
Context {W' : Type} `{Messaging W'} `{Answering W'} (replied : Z * bytes -> Z -> bytes -> W' -> W').
(** The messenger takes what it is given. *)
Hypothesis posts : forall service client tag data a w,
  send_filter_request service client tag data a w = Ok (true, posted service client tag data a w).
Hypothesis replies : forall handle tag data w, exists b, send_reply_message handle tag data w = Ok (b, replied handle tag data w).

(** The requests whose replies are counts or states. *)
Inductive client_request : Type :=
| AddCall (m : ofp_match) (pr : Z) (service_name : option bytes)
| DeleteCall (m : ofp_match) (pr : Z) (service_name : option bytes) (strict : bool).

Definition make (q : client_request) (f : option Z) (u : Z) : StateMonad.M (S := filter_client * W) bool :=
  match q with
  | AddCall m pr s => add_packetin_filter m pr s f u
  | DeleteCall m pr s strict => delete_packetin_filter m pr s strict f u
  end.

(** The match with its padding cleared, and the name as the array holds it. *)
Definition clean (m : ofp_match) : ofp_match := ws_norm m.
Definition short_name (mem : bytes) : bytes := take 31 (c_string mem).
Definition name_given (s : option bytes) : bytes := match s with Some mem => short_name mem | None => [] end.

Definition asked (q : client_request) : filter_request :=
  match q with
  | AddCall m pr s => AddFilter (clean m) pr (name_given s)
  | DeleteCall m pr s true => DeleteFilter (clean m) pr (name_given s)
  | DeleteCall m pr s false => DeleteFilters (clean m)
  end.

Definition valid_call (q : client_request) : Prop :=
  match q with AddCall m pr _ | DeleteCall m pr _ _ => wf_match m /\ fits 2 pr end.

(** The call stays in the object of the name.  To add a filter, the string has
    to end in it and, unless it is empty, the object has to be as long as the
    array that it is copied to; to delete filters one of the two will do. *)
Definition readable (mem : bytes) : Prop := zero ∈ mem \/ 32 <= blen mem.

Definition readable_call (q : client_request) : Prop :=
  match q with
  | AddCall _ _ (Some mem) => zero ∈ mem /\ (c_string mem <> [] -> 32 <= blen mem)
  | DeleteCall _ _ (Some mem) _ => readable mem
  | _ => True
  end.

(** A filter to add without a name. *)
Definition nameless (q : client_request) : Prop :=
  match q with AddCall _ _ (Some mem) => c_string mem = [] | AddCall _ _ None => True | DeleteCall _ _ _ _ => False end.

(** What the callback is called with. *)
Definition outcome (regs : list registration) (q : client_request) (f u : Z) : filter_call :=
  match q with
  | AddCall m pr s =>
    AdditionDone f (if decide (name_given s ∈ names regs (clean m) pr) then PACKETIN_FILTER_OPERATION_FAILED else PACKETIN_FILTER_OPERATION_SUCCEEDED) u
  | DeleteCall m pr s true =>
    DeletionDone f PACKETIN_FILTER_OPERATION_SUCCEEDED
      (int_of (u32 (Z.of_nat (length (filter (eq (name_given s)) (names regs (clean m) pr)))))) u
  | DeleteCall m pr s false =>
    DeletionDone f PACKETIN_FILTER_OPERATION_SUCCEEDED (int_of (u32 (Z.of_nat (length (List.filter (below (clean m)) regs))))) u
  end.

(** ** The bytes of a request *)

Lemma match_bytes_ok m : wf_match m -> match_bytes m = Ok (wire_match m).
Proof.
  intros Hm. unfold match_bytes, hton_match. pose proof (ws_st_zeros (A := ofp_match) m [] 40 0) as E. cbn [app] in E.
  change (st_match (zeros 40) 0 (ntoh_match m)) with (ws_st (zeros 40) 0 (ws_ntoh m)).
  rewrite E by (done || (cbn; lia)). cbn. by rewrite app_nil_r.
Qed.

Lemma match_length m : wf_match m -> length (wire_match m) = 40%nat.
Proof. intros Hm. exact (ws_length (A := ofp_match) m Hm). Qed.

Lemma request_match_ok m r : wf_match m -> request_match (wire_match m ++ r) = Ok (clean m).
Proof.
  intros Hm. unfold request_match. pose proof (ws_ld_wire (A := ofp_match) m r 0 eq_refl Hm) as E.
  change (ld_match (wire_match m ++ r) 0) with (ws_ld (A := ofp_match) (ws_wire m ++ r) 0). rewrite E. bind_ok.
  unfold clean. by rewrite <- (ws_ntoh_ntoh (A := ofp_match) (ws := ws_match) m Hm).
Qed.

Lemma priority_ok m pr r : wf_match m -> fits 2 pr -> ld_ntoh 2 (wire_match m ++ be_encode 2 pr ++ r) 40 = Ok pr.
Proof.
  intros Hm Hp. rewrite ld_ntoh_skip by (unfold blen; rewrite match_length by done; lia). unfold blen. rewrite match_length by done.
  apply ld_ntoh_wire; [done | done].
Qed.

Lemma name_at m pr r : wf_match m -> drop 42 (wire_match m ++ be_encode 2 pr ++ r) = r.
Proof.
  intros Hm. rewrite app_assoc. apply drop_app_length'. by rewrite length_app, match_length, length_be_encode.
Qed.

Lemma c_string_take n s : c_string (take n s) = take n (c_string s).
Proof.
  revert n. induction s as [| b s IH]; intros [| n]; cbn [take c_string]; try done.
  destruct (decide (b = zero)); [done |]. cbn [take]. by rewrite IH.
Qed.

Lemma c_string_whole s : zero ∉ s -> c_string s = s.
Proof.
  induction s as [| b s IH]; [done |]. intros [Hb Hs]%not_elem_of_cons. cbn [c_string]. rewrite decide_False by congruence. by rewrite IH.
Qed.

Lemma named_copy s r : zero ∉ s -> named (strncpy 32 s ++ r) (take 31 s).
Proof.
  intros Hs. assert (Hz : zero ∉ take 31 s) by (rewrite <- (take_drop 31 s) in Hs; by apply not_elem_of_app in Hs as [? _]).
  unfold named, strncpy. change (32 - 1)%nat with 31%nat. rewrite take_app. rewrite take_replicate.
  destruct (Nat.min (31 - length s) 32) as [| k].
  - exists r. by rewrite app_nil_r, <- app_assoc.
  - exists (replicate k zero ++ [zero] ++ r). by rewrite <- !app_assoc.
Qed.

Lemma copy_string_ok s r : match s with Some mem => readable mem | None => True end ->
  exists name, copy_string s = Ok name /\ length name = 32%nat /\ named (name ++ r) (match s with Some mem => short_name mem | None => [] end).
Proof.
  intros Hs. assert (Hlen : forall x, length (strncpy 32 x) = 32%nat).
  { intros x. unfold strncpy. rewrite length_app, length_take, length_app, length_replicate. cbn [length]. lia. }
  destruct s as [mem |]; [| by exists (zeros 32); split_and!; [| | exists (zeros 31 ++ r); split; [| by intros ?%elem_of_nil]]].
  unfold copy_string, short_name. destruct (decide (zero ∈ mem)) as [Hin | Hin].
  - exists (strncpy 32 (c_string mem)). split_and!; [done | done | apply named_copy, c_string_no_zero].
  - destruct Hs as [| Hs]; [done |]. change MESSENGER_SERVICE_NAME_LENGTH with 32. replace (32 <=? blen mem) with true by lia.
    exists (strncpy 32 mem). split_and!; [done | done |]. rewrite c_string_whole by done. by apply named_copy.
Qed.

Definition request_tag (q : client_request) : Z :=
  match q with AddCall _ _ _ => MESSENGER_ADD_PACKETIN_FILTER_REQUEST | DeleteCall _ _ _ _ => MESSENGER_DELETE_PACKETIN_FILTER_REQUEST end.

Lemma send_entry_run tag m pr name flags (a : positive) (c : filter_client) (w : W) : wf_match m ->
  send_filter_entry tag m pr (Ok name) flags a (c, w) =
    Ok (true, (c, posted PACKETIN_FILTER_MANAGEMENT_SERVICE (client_service_name c) tag (wire_match m ++ be_encode 2 pr ++ name ++ flags) a w)).
Proof.
  intros Hm. unfold send_filter_entry. erewrite bind_run by (apply lift_run; by apply match_bytes_ok). erewrite bind_run by reflexivity.
  erewrite bind_run by reflexivity. unfold ext, htons. rewrite host_encode_hton. cbn [fst snd]. by rewrite posts.
Qed.

Lemma new_data_run f u (c : filter_client) (w : W) : new_handler_data f u (c, w) =
  Ok (fresh (dom (handler_datas c)), (FilterClient (initialized c) (client_service_name c)
    (<[fresh (dom (handler_datas c)) := HandlerData f u]> (handler_datas c)) (filter_calls c), w)).
Proof. reflexivity. Qed.

Lemma strlen_positive mem : c_string mem <> [] -> (blen (c_string mem) =? 0) = false.
Proof. destruct (c_string mem) as [| b l]; [done |]. intros _. rewrite blen_cons. pose proof (blen_nonneg l). lia. Qed.

(** The request says what is asked; the record of the callback is new. *)
Lemma make_ok q f u (c : filter_client) (w : W) : valid_call q -> readable_call q -> ~ nameless q -> initialized c = true ->
  exists a data, a ∉ dom (handler_datas c) /\
    make q f u (c, w) = Ok (true, (FilterClient true (client_service_name c) (<[a := HandlerData f u]> (handler_datas c)) (filter_calls c),
      posted PACKETIN_FILTER_MANAGEMENT_SERVICE (client_service_name c) (request_tag q) data a w)) /\
    asks (request_tag q) data (asked q).
Proof.
  intros Hv Hread Hname Hi. destruct c as [b name h calls]. cbn in Hi. subst b. exists (fresh (dom h)).
  assert (Hfresh : fresh (dom h) ∉ dom h) by apply is_fresh.
  destruct q as [m pr [mem |] | m pr s strict]; cbn [make request_tag asked valid_call readable_call nameless name_given] in *;
    [| by destruct Hname |]; destruct Hv as [Hm Hp].
  - destruct Hread as [Hz Hl]. specialize (Hl Hname). exists (wire_match m ++ be_encode 2 pr ++ take 32 mem ++ []). split; [done |]. split.
    + unfold add_packetin_filter. erewrite bind_run by (apply lift_run; unfold strlen; by rewrite decide_True).
      rewrite strlen_positive by done.
      erewrite bind_run by reflexivity. erewrite bind_run by apply new_data_run. unfold copy_name. change MESSENGER_SERVICE_NAME_LENGTH with 32.
      replace (32 <=? blen mem) with true by lia. cbn [fst snd]. by rewrite send_entry_run.
    + set (data := wire_match m ++ _). assert (En : requested_name data = short_name mem).
      { unfold requested_name, data, short_name. rewrite name_at by done. rewrite app_nil_r, take_take, c_string_take. done. }
      rewrite <- En. apply asks_add; [done | | by apply request_match_ok | by apply priority_ok |].
      * unfold data, blen. rewrite !length_app, match_length, length_be_encode, length_take by done. unfold blen in Hl. cbn [length]. lia.
      * rewrite En. unfold short_name. by destruct (c_string mem).
  - assert (Hs : match s with Some mem => readable mem | None => True end) by by destruct s. destruct (copy_string_ok s (flags_of strict) Hs) as (nm & En & Hl & Hnamed).
    exists (wire_match m ++ be_encode 2 pr ++ nm ++ flags_of strict). split; [done |]. split.
    + unfold delete_packetin_filter. erewrite bind_run by reflexivity. erewrite bind_run by apply new_data_run. rewrite En. cbn [fst snd]. by rewrite send_entry_run.
    + set (data := wire_match m ++ _). assert (Hlen : blen data = 75).
      { unfold data, blen. rewrite !length_app, match_length, length_be_encode, Hl by done. unfold flags_of. rewrite length_be_encode. done. }
      assert (Ef : ld8 data 74 = Ok (if strict then 1 else 0)).
      { unfold data. rewrite !app_assoc, ld_skip by (unfold blen; rewrite !length_app, match_length, length_be_encode, Hl by done; done). unfold blen. rewrite !length_app, match_length, length_be_encode, Hl by done. apply ld8_last; [done |]. by destruct strict. }
      destruct strict.
      * apply (asks_delete _ _ _ _ 1); try done; [by apply request_match_ok | by apply priority_ok |]. unfold data. by rewrite name_at.
      * apply (asks_delete_all _ _ _ pr 0); try done; [by apply request_match_ok | by apply priority_ok].
Qed.

(** ** The reply *)

Lemma completed_run (a : positive) call f u (c : filter_client) (w : W) : handler_datas c !! a = Some (HandlerData (Some f) u) ->
  completed a call (c, w) = Ok (tt, (FilterClient (initialized c) (client_service_name c) (delete a (handler_datas c)) (filter_calls c ++ [call f u]), w)).
Proof.
  intros Ha. unfold completed. erewrite bind_run.
  2: { unfold load_data. erewrite bind_run by reflexivity. cbn [fst]. by rewrite Ha. }
  cbn [callback user_data]. by erewrite bind_run by reflexivity.
Qed.

Lemma addition_reply status (a : positive) f u (c : filter_client) (w : W) : fits 1 status -> handler_datas c !! a = Some (HandlerData (Some f) u) ->
  handle_reply MESSENGER_ADD_PACKETIN_FILTER_REPLY (be_encode 1 status) a (c, w) =
    Ok (tt, (FilterClient (initialized c) (client_service_name c) (delete a (handler_datas c)) (filter_calls c ++ [AdditionDone f status u]), w)).
Proof.
  intros Hs Ha. unfold handle_reply. change (MESSENGER_ADD_PACKETIN_FILTER_REPLY =? MESSENGER_ADD_PACKETIN_FILTER_REPLY) with true. cbv iota.
  unfold blen. rewrite length_be_encode. change (negb (Z.of_nat 1 =? 1)) with false. cbv iota.
  erewrite bind_run by (apply lift_run; by apply ld8_last). unfold addition_completed, deletion_completed. by rewrite (completed_run _ _ f u).
Qed.

Lemma deletion_reply n (a : positive) f u (c : filter_client) (w : W) : handler_datas c !! a = Some (HandlerData (Some f) u) ->
  handle_reply MESSENGER_DELETE_PACKETIN_FILTER_REPLY (be_encode 1 PACKETIN_FILTER_OPERATION_SUCCEEDED ++ be_encode 4 (u32 n)) a (c, w) =
    Ok (tt, (FilterClient (initialized c) (client_service_name c) (delete a (handler_datas c))
      (filter_calls c ++ [DeletionDone f PACKETIN_FILTER_OPERATION_SUCCEEDED (int_of (u32 n)) u]), w)).
Proof.
  intros Ha. unfold handle_reply. change (MESSENGER_DELETE_PACKETIN_FILTER_REPLY =? MESSENGER_ADD_PACKETIN_FILTER_REPLY) with false.
  change (MESSENGER_DELETE_PACKETIN_FILTER_REPLY =? MESSENGER_DELETE_PACKETIN_FILTER_REPLY) with true. cbv iota.
  assert (Hl : blen (be_encode 1 PACKETIN_FILTER_OPERATION_SUCCEEDED ++ be_encode 4 (u32 n)) = 5) by (unfold blen; by rewrite length_app, !length_be_encode).
  rewrite Hl. change (negb (5 =? sizeof_delete_packetin_filter_reply)) with false. cbv iota.
  erewrite bind_run by (apply lift_run; by apply ld8_wire). erewrite bind_run.
  2: { apply lift_run. rewrite ld_ntoh_skip by (unfold blen; rewrite length_be_encode; done). unfold blen. rewrite length_be_encode.
       apply ld_ntoh_last; [done |]. unfold fits, u32. change (Z.of_nat 4 * 8) with 32. apply Z.mod_pos_bound. lia. }
  unfold addition_completed, deletion_completed. by rewrite (completed_run _ _ f u).
Qed.

(** ** The calls that ask for nothing *)

(** A name whose object is shorter than the array is read beyond its end. *)
Lemma short_name_overread m pr mem f u (c : filter_client) (w : W) : wf_match m -> initialized c = true ->
  zero ∈ mem -> c_string mem <> [] -> blen mem < 32 -> add_packetin_filter m pr (Some mem) f u (c, w) = Fault OutOfBounds.
Proof.
  intros Hm Hi Hz Hn Hl. unfold add_packetin_filter. erewrite bind_run by (apply lift_run; unfold strlen; by rewrite decide_True).
  rewrite strlen_positive by done.
  destruct c as [b name h calls]. cbn in Hi. subst b. erewrite bind_run by reflexivity. erewrite bind_run by apply new_data_run.
  unfold send_filter_entry. erewrite bind_run by (apply lift_run; by apply match_bytes_ok). unfold copy_name. change MESSENGER_SERVICE_NAME_LENGTH with 32.
  by replace (32 <=? blen mem) with false by lia.
Qed.

Lemma make_overread q f u (c : filter_client) (w : W) : valid_call q -> ~ readable_call q -> initialized c = true ->
  make q f u (c, w) = Fault OutOfBounds.
Proof.
  intros Hv Hread Hi. destruct q as [m pr [mem |] | m pr [mem |] strict]; cbn [valid_call readable_call make] in *; try (by destruct Hread);
    destruct Hv as [Hm Hp].
  - destruct (decide (zero ∈ mem)) as [Hz | Hz].
    + destruct (decide (c_string mem = [])) as [Hn | Hn]; [by destruct Hread |]. apply short_name_overread; try done.
      destruct (Z.lt_ge_cases (blen mem) 32); [done |]. by destruct Hread.
    + unfold add_packetin_filter, mbind, lift, strlen. by rewrite decide_False.
  - unfold readable in Hread. assert (Hz : zero ∉ mem) by tauto. assert (Hl : ~ 32 <= blen mem) by tauto. destruct c as [b name h calls].
    cbn in Hi. subst b. unfold delete_packetin_filter. erewrite bind_run by reflexivity. erewrite bind_run by apply new_data_run.
    unfold send_filter_entry. erewrite bind_run by (apply lift_run; by apply match_bytes_ok). unfold copy_string. rewrite decide_False by done.
    change MESSENGER_SERVICE_NAME_LENGTH with 32. by replace (32 <=? blen mem) with false by lia.
Qed.

Lemma make_nameless q f u (c : filter_client) (w : W) : readable_call q -> nameless q -> make q f u (c, w) = Ok (false, (c, w)).
Proof.
  intros Hread Hname. destruct q as [m pr [mem |] | m pr s strict]; cbn [readable_call nameless make] in *; [| done | done].
  destruct Hread as [Hz _]. unfold add_packetin_filter. erewrite bind_run by (apply lift_run; unfold strlen; by rewrite decide_True). by rewrite Hname.
Qed.

(** C20. From the library of the client to the daemon and back: a request to add or
    to delete filters, of a client that is set up, whatever the strings it is
    made with. When the call stays in the object of the string and names a
    service to add for, it is understood by the packet-in filter as the request
    for the same match and priority and for the name cut to 31 bytes; the
    registrations of the daemon become what that request says, and the reply has
    the function of the client called once, with its data and with the state or
    the count that the registrations gave. The record of the request is freed.
    Without a name to add for, nothing is done and the result says so. Otherwise
    the call reads behind the end of the object: to delete filters when it is
    shorter than the array of 32 bytes and has no end of string, and to add one
    when it has no end of string, or holds a name and is shorter than 32 bytes,
    as an ordinary string constant is. *)
Theorem filter_call_served q f u (c : filter_client) (w : W) handle t regs (wd : W') :
  valid_call q -> initialized c = true -> represents t regs ->
  (~ readable_call q -> make q (Some f) u (c, w) = Fault OutOfBounds) /\
  (readable_call q -> nameless q -> make q (Some f) u (c, w) = Ok (false, (c, w))) /\
  (readable_call q -> ~ nameless q -> exists a data tag reply c' t',
    make q (Some f) u (c, w) = Ok (true, (c', posted PACKETIN_FILTER_MANAGEMENT_SERVICE (client_service_name c) (request_tag q) data a w)) /\
    handle_request handle (request_tag q) data (t, wd) = Ok (tt, (t', replied handle tag reply wd)) /\
    represents t' (apply_request regs (asked q)).1 /\
    forall w' : W, handle_reply tag reply a (c', w') =
      Ok (tt, (FilterClient true (client_service_name c) (handler_datas c) (filter_calls c ++ [outcome regs q f u]), w'))).
Proof.
  intros Hv Hi Hr. split; [intros Hn; by apply make_overread |]. split; [intros Hread Hn; by apply make_nameless |]. intros Hread Hn.
  destruct (make_ok q (Some f) u c w Hv Hread Hn Hi) as (a & data & Ha & Em & Hasks).
  destruct (request_served replied replies handle _ data _ t regs wd Hr Hasks) as (t' & Eh & Hr').
  set (c' := FilterClient true _ _ _) in Em.
  assert (Hc : handler_datas c' !! a = Some (HandlerData (Some f) u)) by apply lookup_insert_eq.
  assert (Hd : delete a (handler_datas c') = handler_datas c) by (apply delete_insert_id; by apply not_elem_of_dom).
  exists a, data. destruct q as [m pr s | m pr s []]; cbn [asked apply_request] in *; unfold outcome.
  - destruct (decide _); (eexists _, _, c', t'; split; [exact Em |]; split; [exact Eh |]; split; [exact Hr' |]; intros w';
      rewrite (addition_reply _ a f u) by done; by rewrite Hd).
  - eexists _, _, c', t'. split; [exact Em |]. split; [exact Eh |]. split; [exact Hr' |]. intros w'. rewrite (deletion_reply _ a f u) by done. by rewrite Hd.
  - eexists _, _, c', t'. split; [exact Em |]. split; [exact Eh |]. split; [exact Hr' |]. intros w'. rewrite (deletion_reply _ a f u) by done. by rewrite Hd.
Qed.
End Served.

(** * Witness *)

Section Witnesses.
Let host : Host := LittleEndian.
#[local] Existing Instance host.

(** What a client has posted. *)
Definition post_office : Type := list (bytes * bytes * Z * bytes * positive).

#[local] Instance post_office_messaging : FilterMessaging post_office := {
  filter_getpid w := Ok (7, w);
  add_filter_reply_callback _ w := Ok (true, w);
  delete_filter_reply_callback _ w := Ok (true, w);
  send_filter_request service client tag data a w := Ok (true, w ++ [(service, client, tag, data, a)])
}.

Definition post (service client : bytes) (tag : Z) (data : bytes) (a : positive) (w : post_office) : post_office := w ++ [(service, client, tag, data, a)].

Definition sample_client : filter_client := FilterClient true (ascii "packetin_filter.7") ∅ [].
Definition sample_array : bytes := take 32 (ascii "topology" ++ zeros 32).

Definition sample_call : client_request := AddCall ipv4_match 10 (Some sample_array).

#[local] Existing Instances mailbox_messaging mailbox_answering.

(** A name of 20 characters in an object of its size, as in the tests of the
    interface. *)
Definition short_call : client_request := AddCall ipv4_match 10 (Some (take 21 (ascii "send_message_to_here" ++ zeros 32))).

Lemma filter_call_served_witness : valid_call sample_call /\ readable_call sample_call /\ ~ nameless sample_call /\
  make short_call (Some 1) 5 (sample_client, []) = Fault OutOfBounds /\ exists t0, init_packetin_match_table = Ok t0 /\
  exists a data tag reply c' t',
    make sample_call (Some 1) 5 (sample_client, []) =
      Ok (true, (c', post PACKETIN_FILTER_MANAGEMENT_SERVICE (client_service_name sample_client) (request_tag sample_call) data a [])) /\
    handle_request sample_handle (request_tag sample_call) data (t0, []) = Ok (tt, (t', mailed sample_handle tag reply [])) /\
    represents t' (apply_request [] (asked sample_call)).1 /\
    forall w' : post_office, handle_reply tag reply a (c', w') =
      Ok (tt, (FilterClient true (client_service_name sample_client) (handler_datas sample_client)
        (filter_calls sample_client ++ [outcome [] sample_call 1 5]), w')).
Proof.
  assert (Hv : valid_call sample_call) by (split; [split; vm_compute; done | done]).
  assert (Hread : readable_call sample_call) by (split; [apply (bool_decide_unpack _) |]; by vm_compute).
  assert (Hname : ~ nameless sample_call) by by vm_compute.
  assert (Hshort : ~ readable_call short_call) by (intros [_ Hl]; specialize (Hl ltac:(by vm_compute)); vm_compute in Hl; by apply Hl).
  split; [exact Hv |]. split; [exact Hread |]. split; [exact Hname |]. destruct represents_init as (t0 & E0 & Hr).
  pose proof (fun q Hq => filter_call_served post mailed (fun _ _ _ _ _ _ => eq_refl) mailed_replies q 1 5 sample_client [] sample_handle t0 [] [] Hq eq_refl Hr) as H.
  split; [exact (proj1 (H short_call Hv) Hshort) |]. exists t0. split; [exact E0 |].
  exact (proj2 (proj2 (H sample_call Hv)) Hread Hname).
Defined.

(** Added, refused as it is there, and called back each time. *)
Example sample_added :
  match add_packetin_filter ipv4_match 10 (Some sample_array) (Some 1) 5 (zero_filter_client, []) with
  | Ok (true, (c, [(service, client, tag, data, a)])) =>
    service = PACKETIN_FILTER_MANAGEMENT_SERVICE /\ client = ascii "packetin_filter.7" /\ data = add_request ipv4_match 10 (ascii "topology") /\
    match handle_reply MESSENGER_ADD_PACKETIN_FILTER_REPLY (be_encode 1 1) a (c, [] : post_office) with
    | Ok (_, (c, _)) => filter_calls c = [AdditionDone 1 1 5] /\ handler_datas c = ∅
    | Fault _ => False
    end
  | _ => False
  end.
Proof. vm_compute. done. Qed.
End Witnesses.
