(* ===== verification/SwitchChannel.v ===== *)
(** secure_channel.c of the library: the connection of a switch to its
    controller.

    The connection is opened without blocking, tried again five seconds after a
    failure and at once when the controller closes it; messages come in and go
    out through two queues, as in the daemons of the switch manager (see
    [SecureChannel]).

    The event handler is [EventHandler], with three callbacks of this file and
    those of other descriptors; a timer is its delay, as the only function given
    to timer.c here is [reconnect].  The sockets are an interface.  What the
    functions of the client do, those for connections and
    [handle_secure_channel_message], are arguments.  The messages of [error],
    [warn] and [debug] are left out. *)

From Stdlib Require Import ZArith Lia Bool.
From coqutil Require Import Byte.
From stdpp Require Import base list gmap fin_sets.
From S2P Require Import Prelude Memory StateMonad OpenFlow ByteOrder Buffer LinkedList MessageQueue EventHandler SecureChannel.

(** * Data *)

Inductive connection_state : Type := INIT | CONNECTING | CONNECTED | DISCONNECTED.

(** The functions given to the event handler; those of other descriptors are
    [elsewhere]. *)
Inductive channel_callback : Type :=
| check_connected_callback
| recv_callback
| flush_callback
| elsewhere (function : Z).

(** The messages that wait in a queue, as in [sender]. *)
Record outgoing : Type := Outgoing {
  out_heap : queue_heap positive;
  out_queue : option message_queue;
  out_bufs : gmap positive bytes
}.

(** [connection], the other static variables, and the event handler and the
    timers of the process. *)
Record channel : Type := Channel {
  connection_ip : Z;
  connection_port : Z;
  connection_fd : Z;
  connection_status : connection_state;
  connected_function : option Z;
  disconnected_function : option Z;
  secure_channel_initialized : bool;
  sending_side : outgoing;
  receiving_side : receiver;
  events : event_handler channel_callback;
  reconnect_timers : list Z
}.

Definition zero_channel (h : event_handler channel_callback) : channel :=
  Channel 0 0 (-1) INIT None None false (Outgoing ∅ None ∅) (Receiver ∅ None None) h [].

Inductive errno : Type := EINTR | EAGAIN | ECONNREFUSED | ENETUNREACH | ETIMEDOUT | EINPROGRESS | other_errno (number : Z).

(** * What the channel asks of the system *)

Class Sockets (W : Type) : Type := {
  (** A descriptor, or a negative number. *)
  socket : W -> Z * W;
  (** [setsockopt] with TCP_NODELAY and [fcntl] with O_NONBLOCK: whether they succeed. *)
  set_nodelay : Z -> W -> bool * W;
  set_nonblocking : Z -> W -> bool * W;
  (** The error, if there is one. *)
  connect : Z -> Z -> Z -> W -> option errno * W;
  (** [getsockopt] with SO_ERROR: [None] when it fails, else the error of the
      socket, if it has one. *)
  socket_error : Z -> W -> option (option errno) * W;
  read_fd : Z -> Z -> W -> read_result * W;
  write_fd : Z -> bytes -> W -> write_result * W;
  close_fd : Z -> W -> W
}.

Section Channel.
Context {host : Host} {W : Type} `{Sockets W}.
#[local] Abbreviation M := (M (S := channel * W)).
Implicit Types (c : channel).

Definition get {A} (f : channel -> A) : M A := fun s => Ok (f s.1, s).
Definition put (f : channel -> channel) : M unit := fun s => Ok (tt, (f s.1, s.2)).
Definition os {A} (x : W -> A * W) : M A := fun s => let '(a, w) := x s.2 in Ok (a, (s.1, w)).

Definition set_connection c (fd : Z) (state : connection_state) : channel :=
  Channel (connection_ip c) (connection_port c) fd state (connected_function c) (disconnected_function c)
    (secure_channel_initialized c) (sending_side c) (receiving_side c) (events c) (reconnect_timers c).
Definition set_initialized c (b : bool) : channel :=
  Channel (connection_ip c) (connection_port c) (connection_fd c) (connection_status c) (connected_function c) (disconnected_function c)
    b (sending_side c) (receiving_side c) (events c) (reconnect_timers c).
Definition set_sending c (o : outgoing) : channel :=
  Channel (connection_ip c) (connection_port c) (connection_fd c) (connection_status c) (connected_function c) (disconnected_function c)
    (secure_channel_initialized c) o (receiving_side c) (events c) (reconnect_timers c).
Definition set_receiving c (r : receiver) : channel :=
  Channel (connection_ip c) (connection_port c) (connection_fd c) (connection_status c) (connected_function c) (disconnected_function c)
    (secure_channel_initialized c) (sending_side c) r (events c) (reconnect_timers c).
Definition set_channel_events c (h : event_handler channel_callback) : channel :=
  Channel (connection_ip c) (connection_port c) (connection_fd c) (connection_status c) (connected_function c) (disconnected_function c)
    (secure_channel_initialized c) (sending_side c) (receiving_side c) h (reconnect_timers c).
Definition set_timers c (l : list Z) : channel :=
  Channel (connection_ip c) (connection_port c) (connection_fd c) (connection_status c) (connected_function c) (disconnected_function c)
    (secure_channel_initialized c) (sending_side c) (receiving_side c) (events c) l.

(** A call of the event handler with the descriptor of the connection. *)
Definition on_events (f : event_handler channel_callback -> Z -> res (event_handler channel_callback)) : M unit :=
  let! fd := get connection_fd in
  let! h := get events in
  let! h := lift (f h fd) in
  put (fun c => set_channel_events c h).

Definition readable_again (b : bool) : M unit := on_events (fun h fd => EventHandler.set_readable h fd b).
Definition writable_again (b : bool) : M unit := on_events (fun h fd => EventHandler.set_writable h fd b).

(** * The connection *)

Definition valid_transition (from to : connection_state) : bool :=
  match from, to with
  | INIT, CONNECTING
  | CONNECTING, CONNECTED | CONNECTING, CONNECTING
  | CONNECTED, DISCONNECTED | CONNECTED, INIT
  | DISCONNECTED, CONNECTED => true
  | _, _ => false
  end.

(** A wrong transition is only reported. *)
Definition transit_state (state : connection_state) : M unit :=
  put (fun c => if valid_transition (connection_status c) state then set_connection c (connection_fd c) state else c).

Definition clear_connection : M unit :=
  let! fd := get connection_fd in
  let! _ :=
    if 0 <=? fd then
      let! _ := os (fun w => (tt, close_fd fd w)) in
      let! _ := readable_again false in
      let! _ := writable_again false in
      on_events EventHandler.delete_fd_handler
    else ret tt in
  put (fun c => set_connection c (-1) INIT).

Definition add_reconnect_timer (seconds : Z) : M unit := put (fun c => set_timers c (reconnect_timers c ++ [seconds])).

Definition backoff : M unit :=
  let! fd := get connection_fd in
  let! _ := if 0 <=? fd then os (fun w => (tt, close_fd fd w)) else ret tt in
  add_reconnect_timer 5.

(** Set to wait for the connection. *)
Definition wait_for_connection : M unit :=
  let! _ := on_events (fun h fd => EventHandler.set_fd_handler h fd None (Some check_connected_callback)) in
  writable_again true.

Definition try_connect : M bool :=
  let! status := get connection_status in
  let! _ := lift (assert (match status with CONNECTED => false | _ => true end)) in
  let! fd := os socket in
  if fd <? 0 then ret false
  else
    let! ok := os (set_nodelay fd) in
    if negb ok then ret false
    else
      let! ok := os (set_nonblocking fd) in
      if negb ok then let! _ := os (fun w => (tt, close_fd fd w)) in ret false
      else
        let! _ := put (fun c => set_connection c fd (connection_status c)) in
        let! _ := transit_state CONNECTING in
        let! ip := get connection_ip in
        let! port := get connection_port in
        let! error := os (connect fd ip port) in
        match error with
        | Some (EINTR | EAGAIN | ECONNREFUSED | ENETUNREACH | ETIMEDOUT) => let! _ := backoff in ret true
        | Some (other_errno _) => let! _ := clear_connection in ret false
        | None | Some EINPROGRESS => let! _ := wait_for_connection in ret true
        end.

Definition reconnect : M unit :=
  let! ok := try_connect in
  if ok : bool then ret tt else clear_connection.

(** * Messages *)

Definition send_message_to_secure_channel (message : bytes) : M bool :=
  let! o := get sending_side in
  match out_queue o with
  | None => fault AssertFailed
  | Some q =>
    let! _ := lift (assert (0 <? blen message)) in
    let! status := get connection_status in
    let! _ := lift (assert (match status with CONNECTED => true | _ => false end)) in
    let! fd := get connection_fd in
    let! _ := lift (assert (0 <=? fd)) in
    let! _ := if length q =? 0 then writable_again true else ret tt in
    let duplicated := fresh (dom (out_bufs o)) in
    let! (_, q, h) := lift (enqueue_message (out_heap o) (Some q) (Some duplicated)) in
    let! _ := put (fun c => set_sending c (Outgoing h (Some q) (<[duplicated := message]> (out_bufs o)))) in
    ret true
  end.

(** A complete message is moved to the queue. *)
Fixpoint split_loop (fuel : nat) (r : receiver) (b : SecureChannel.buffer) (read_total : Z) : res (Z * receiver * SecureChannel.buffer) :=
  match fuel with
  | O => Fault OutOfFuel
  | S fuel =>
    if data_length b <? sizeof_ofp_header then Ok (read_total, r, b)
    else
      let* cs := data_bytes b sizeof_ofp_header in
      let* header := initialized cs in
      let* message_length := ld_ntoh 2 header 2 in
      if data_length b <? message_length then Ok (read_total, r, b)
      else
        let* cs := data_bytes b message_length in
        let* message := new_message cs message_length in
        let* (_, b) := remove_front_buffer b message_length in
        let* (_, q, h) := enqueue_message (recv_heap r) (recv_queue r) (Some message) in
        split_loop fuel (Receiver h (Some q) (fragment_buf r)) b (read_total + message_length)
  end.

Section Client.
(** What the functions given to [init_secure_channel] do, and
    [handle_secure_channel_message]. *)
Context (client : Z -> M unit) (handle_secure_channel_message : bytes -> M bool).

Definition call_client (function : option Z) : M unit :=
  match function with Some f => client f | None => ret tt end.

Definition disconnected : M unit :=
  let! _ := transit_state DISCONNECTED in
  let! callback := get disconnected_function in
  let! _ := call_client callback in
  clear_connection.

Definition connected : M unit :=
  let! _ := transit_state CONNECTED in
  let! _ := on_events (fun h fd => EventHandler.set_fd_handler h fd (Some recv_callback) (Some flush_callback)) in
  let! _ := readable_again true in
  let! _ := writable_again false in
  let! callback := get connected_function in
  call_client callback.

Definition check_connected : M unit :=
  let! initialized := get secure_channel_initialized in
  let! _ := lift (assert initialized) in
  let! fd := get connection_fd in
  let! _ := lift (assert (0 <=? fd)) in
  let! _ := writable_again false in
  let! _ := on_events EventHandler.delete_fd_handler in
  let! result := os (socket_error fd) in
  match result with
  | None => ret tt
  | Some err =>
    match err with
    | None => connected
    | Some (EINTR | EAGAIN | ECONNREFUSED | ENETUNREACH | ETIMEDOUT) => backoff
    | Some EINPROGRESS => wait_for_connection
    | Some (other_errno _) => clear_connection
    end
  end.

Definition recv_message_from_secure_channel : M bool :=
  let! r := get receiving_side in
  match recv_queue r with
  | None => fault AssertFailed
  | Some q =>
    if length q =? 0 then ret false
    else
      let! (message, q, h) := lift (dequeue_message (recv_heap r) (Some q)) in
      let! _ := put (fun c => set_receiving c (Receiver h (Some q) (fragment_buf r))) in
      match message with
      | None => fault NullPointer
      | Some message => let! _ := handle_secure_channel_message message in ret true
      end
  end.

Fixpoint recv_messages_loop (fuel : nat) : M unit :=
  match fuel with
  | O => fault OutOfFuel
  | S fuel => let! more := recv_message_from_secure_channel in if more : bool then recv_messages_loop fuel else ret tt
  end.

(** The bytes are stored after those of the fragment, and the complete messages
    taken. *)
Definition store_received (r : receiver) (b : SecureChannel.buffer) (bs : bytes) : res receiver :=
  let* m := block b in
  let* m := write m (front b + data_length b) (map Some bs) in
  let b := PrivateBuffer (Some m) (front b) (data_length b + blen bs) (real_length b)
             (user_data b) (user_data_free_function b) in
  let* (read_total, r, b) := split_loop (S (Z.to_nat (data_length b))) r b 0 in
  let* b := remove_headroom b read_total in
  Ok (Receiver (recv_heap r) (recv_queue r) (Some b)).

Definition recv_from_secure_channel : M unit :=
  let! r := get receiving_side in
  match recv_queue r with
  | None => fault NullPointer
  | Some q =>
    if 0 <? length q then ret tt
    else
      let! b := match fragment_buf r with
                | Some b => ret b
                | None => lift (alloc_buffer_with_length RECEIVE_BUFFFER_SIZE)
                end in
      let r := Receiver (recv_heap r) (recv_queue r) (Some b) in
      let! _ := put (fun c => set_receiving c r) in
      let remaining_length := RECEIVE_BUFFFER_SIZE - data_length b in
      let! fd := get connection_fd in
      let! result := os (read_fd fd remaining_length) in
      match result with
      | ReadError _ => ret tt
      | Received bs =>
        if blen bs =? 0 then let! _ := disconnected in reconnect
        else
          let! r := lift (store_received r b bs) in
          let! _ := put (fun c => set_receiving c r) in
          recv_messages_loop (fuel_of (recv_heap r))
      end
  end.

Fixpoint flush_queue_loop (fuel : nat) : M unit :=
  match fuel with
  | O => fault OutOfFuel
  | S fuel =>
    let! o := get sending_side in
    let! message := lift (peek_message (out_heap o) (out_queue o)) in
    match message with
    | None => ret tt
    | Some a =>
      let! buf := lift (load_buf (out_bufs o) a) in
      let! fd := get connection_fd in
      let! result := os (write_fd fd buf) in
      match result with
      | WriteError again => if again then writable_again true else ret tt
      | Wrote write_length =>
        if write_length <? blen buf then
          let! _ := lift (assert (negb (write_length =? 0))) in
          let! _ := put (fun c => set_sending c (Outgoing (out_heap o) (out_queue o) (<[a := drop (Z.to_nat write_length) buf]> (out_bufs o)))) in
          writable_again true
        else
          let! (message, q, h) := lift (dequeue_message (out_heap o) (out_queue o)) in
          let bufs := match message with Some a => delete a (out_bufs o) | None => out_bufs o end in
          let! _ := put (fun c => set_sending c (Outgoing h (Some q) bufs)) in
          flush_queue_loop fuel
      end
    end
  end.

Definition flush_send_queue : M unit :=
  let! o := get sending_side in
  match out_queue o with
  | None => fault AssertFailed
  | Some q =>
    let! fd := get connection_fd in
    let! _ := lift (assert (0 <=? fd)) in
    let! _ := writable_again false in
    flush_queue_loop (fuel_of (out_heap o))
  end.

(** * Start and end *)

Definition init_secure_channel (ip port : Z) (connected_callback disconnected_callback : option Z) : M bool :=
  let! initialized := get secure_channel_initialized in
  let! _ := lift (assert (negb initialized)) in
  let! _ := put (fun c => Channel ip port (-1) (connection_status c) connected_callback disconnected_callback
    (secure_channel_initialized c) (sending_side c) (receiving_side c) (events c) (reconnect_timers c)) in
  let! ok := try_connect in
  if negb ok then let! _ := clear_connection in ret false
  else
    let! _ := put (fun c => let '(q, h) := create_message_queue (out_heap (sending_side c)) in
      set_sending c (Outgoing h (Some q) (out_bufs (sending_side c)))) in
    let! _ := put (fun c => let '(q, h) := create_message_queue (recv_heap (receiving_side c)) in
      set_receiving c (Receiver h (Some q) (fragment_buf (receiving_side c)))) in
    let! _ := put (fun c => set_initialized c true) in
    ret true.

Definition finalize_secure_channel : M bool :=
  let! initialized := get secure_channel_initialized in
  let! _ := lift (assert initialized) in
  let! _ := clear_connection in
  let! o := get sending_side in
  let! _ :=
    match out_queue o with
    | Some q =>
      let! (_, freed, h) := lift (delete_message_queue (out_heap o) (Some q)) in
      put (fun c => set_sending c (Outgoing h None (foldr delete (out_bufs o) freed)))
    | None => ret tt
    end in
  let! r := get receiving_side in
  let! _ :=
    match recv_queue r with
    | Some q =>
      let! (_, _, h) := lift (delete_message_queue (recv_heap r) (Some q)) in
      put (fun c => set_receiving c (Receiver h None (fragment_buf r)))
    | None => ret tt
    end in
  let! _ := put (fun c => set_initialized c false) in
  ret true.

(** * Events *)

Definition run_callback (callback : option channel_callback) : M unit :=
  match callback with
  | Some check_connected_callback => check_connected
  | Some recv_callback => recv_from_secure_channel
  | Some flush_callback => flush_send_queue
  | Some (elsewhere _) => ret tt
  | None => fault NullPointer
  end.

(** What happens to the channel: the descriptor of the connection is ready, a
    timer expires, the client sends a message.  The loop serves a descriptor only
    if it waits ([run_event_handler_once]). *)
Inductive channel_event : Type :=
| Expire
| ReadReady
| WriteReady
| Send_message (message : bytes).

Definition serve (e : channel_event) : M unit :=
  let! h := get events in
  let! fd := get connection_fd in
  match e with
  | Expire =>
    let! timers := get reconnect_timers in
    match timers with
    | [] => ret tt
    | _ :: timers => let! _ := put (fun c => set_timers c timers) in reconnect
    end
  | ReadReady =>
    if EventHandler.readable h fd then let! callback := lift (get_callback h fd read_callback) in run_callback callback else ret tt
  | WriteReady =>
    if EventHandler.writable h fd then let! callback := lift (get_callback h fd write_callback) in run_callback callback else ret tt
  | Send_message message => let! _ := send_message_to_secure_channel message in ret tt
  end.
End Client.
End Channel.
