(* ===== verification/ChannelPhases.v ===== *)
(** The channel of SwitchChannel as a machine of five phases on lists.

    [spec_step] says what an event does; [stands] relates the state of the code to
    a state of the machine, and [serve_ok] shows that the code serves each event
    as the machine does.  The system answers from a list of its own for each
    event, and the client sends messages that depend on its state. *)

From Stdlib Require Import ZArith Lia Bool.
From coqutil Require Import Byte.
From stdpp Require Import base list gmap fin_sets.
From S2P Require Import Prelude Memory StateMonad OpenFlow ByteOrder Buffer LinkedList MessageQueue EventHandler SecureChannel SwitchChannel.

(** * The environment and the client

    What the system answers while an event is served, and what the client does:
    a function called for a connection and the one called for a message send
    messages that depend on the state of the client. *)

Inductive write_answer : Type :=
| Refuse (again : bool)
| Take_bytes (want : Z).

Record answers : Type := Answers {
  socket_answer : Z;
  nodelay_answer : bool;
  nonblocking_answer : bool;
  connect_answer : option errno;
  error_answer : option (option errno);
  read_answer : read_result;
  write_answers : list write_answer
}.

Record system (A : Type) : Type := System {
  system_answers : answers;
  written : bytes;
  closed : list Z;
  client_state : A
}.
Arguments System {A} _ _ _ _.
Arguments system_answers {A} _.
Arguments written {A} _.
Arguments closed {A} _.
Arguments client_state {A} _.

Definition set_write_answers (a : answers) (l : list write_answer) : answers :=
  Answers (socket_answer a) (nodelay_answer a) (nonblocking_answer a) (connect_answer a) (error_answer a) (read_answer a) l.
Definition answer_with {A} (w : system A) (a : answers) : system A := System a (written w) (closed w) (client_state w).
Definition set_client_state {A} (w : system A) (x : A) : system A := System (system_answers w) (written w) (closed w) x.

(** No more than is asked for is read, no more than is offered and at least a
    byte of it written; without an answer, the socket is not ready. *)
Definition bounded_read (remaining : Z) (result : read_result) : read_result :=
  match result with
  | Received bs => Received (take (Z.to_nat remaining) bs)
  | ReadError again => ReadError again
  end.

Definition write_system {A} (buf : bytes) (w : system A) : write_result * system A :=
  let a := system_answers w in
  match write_answers a with
  | [] => (WriteError true, w)
  | Refuse again :: l => (WriteError again, answer_with w (set_write_answers a l))
  | Take_bytes want :: l =>
    let n := Z.min (Z.max 1 want) (blen buf) in
    (Wrote n, System (set_write_answers a l) (written w ++ take (Z.to_nat n) buf) (closed w) (client_state w))
  end.

#[export] Instance system_sockets {A} : Sockets (system A) := {
  socket w := (socket_answer (system_answers w), w);
  set_nodelay _ w := (nodelay_answer (system_answers w), w);
  set_nonblocking _ w := (nonblocking_answer (system_answers w), w);
  connect _ _ _ w := (connect_answer (system_answers w), w);
  socket_error _ w := (error_answer (system_answers w), w);
  read_fd _ n w := (bounded_read n (read_answer (system_answers w)), w);
  write_fd _ buf w := write_system buf w;
  close_fd fd w := System (system_answers w) (written w) (closed w ++ [fd]) (client_state w)
}.

Section Client.
Context {host : Host} {A : Type}.
Context (greet : A -> list bytes * A) (farewell : A -> A) (answer : bytes -> A -> list bytes * A).
#[local] Abbreviation M := (StateMonad.M (S := channel * system A)).

Fixpoint send_all (messages : list bytes) : M unit :=
  match messages with
  | [] => ret tt
  | m :: messages => let! _ := send_message_to_secure_channel m in send_all messages
  end.

Definition client_step (f : A -> list bytes * A) : M unit := fun s =>
  let '(messages, x) := f (client_state s.2) in send_all messages (s.1, set_client_state s.2 x).

(** The client gives function 0 for connections and 1 for their end. *)
Definition client_function (f : Z) : M unit :=
  if f =? 0 then client_step greet else client_step (fun x => ([], farewell x)).

Definition handle_with (m : bytes) : M bool := let! _ := client_step (answer m) in ret true.

Definition serve_with (e : answers * channel_event) : M unit := fun s =>
  serve client_function handle_with e.2 (s.1, answer_with s.2 e.1).

Fixpoint serve_all (es : list (answers * channel_event)) : M unit :=
  match es with
  | [] => ret tt
  | e :: es => let! _ := serve_with e in serve_all es
  end.

Definition start_channel (ip port : Z) : M bool := init_secure_channel ip port (Some 0) (Some 1).

(** * What the channel does *)

(** A connection that is opened, that the channel will open again, that nothing
    will open again although an error may be gone ([stuck]) or after an error
    that is reported ([down]); one that is open, with whether the loop waits to
    write to it. *)
Inductive phase : Type :=
| down
| opening (fd : Z)
| backing_off
| stuck
| open (fd : Z) (writes : bool).

Record spec_channel : Type := SpecChannel {
  sp_phase : phase;
  sp_part : bytes;
  sp_queue : list bytes;
  sp_client : A;
  sp_written : bytes
}.
Implicit Types (sp : spec_channel) (a : answers) (p : phase).

Definition set_phase sp p : spec_channel := SpecChannel p (sp_part sp) (sp_queue sp) (sp_client sp) (sp_written sp).
Definition set_client sp (x : A) : spec_channel := SpecChannel (sp_phase sp) (sp_part sp) (sp_queue sp) x (sp_written sp).
Definition set_part sp (part : bytes) : spec_channel := SpecChannel (sp_phase sp) part (sp_queue sp) (sp_client sp) (sp_written sp).
Definition set_queue sp p (l : list bytes) : spec_channel := SpecChannel p (sp_part sp) l (sp_client sp) (sp_written sp).

Inductive fate : Type := completed | retried | awaited | failed.

Definition fate_of (error : option errno) : fate :=
  match error with
  | None => completed
  | Some (EINTR | EAGAIN | ECONNREFUSED | ENETUNREACH | ETIMEDOUT) => retried
  | Some EINPROGRESS => awaited
  | Some (other_errno _) => failed
  end.

Definition spec_try a : phase :=
  if (socket_answer a <? 0) || negb (nodelay_answer a) || negb (nonblocking_answer a) then down
  else
    match fate_of (connect_answer a) with
    | completed | awaited => opening (socket_answer a)
    | retried => backing_off
    | failed => down
    end.

(** The queue counts its messages in 32 bits. *)
Definition spec_send sp (m : bytes) : res spec_channel :=
  match sp_phase sp with
  | open fd writes =>
    if 0 <? blen m then
      Ok (set_queue sp (open fd (writes || (u32 (Z.of_nat (List.length (sp_queue sp))) =? 0))) (sp_queue sp ++ [m]))
    else Fault AssertFailed
  | _ => Fault AssertFailed
  end.

Fixpoint spec_send_all sp (l : list bytes) : res spec_channel :=
  match l with
  | [] => Ok sp
  | m :: l => let* sp := spec_send sp m in spec_send_all sp l
  end.

Definition spec_client (f : A -> list bytes * A) sp : res spec_channel :=
  let '(l, x) := f (sp_client sp) in spec_send_all (set_client sp x) l.

(** The messages at the front of a stream and the rest; one that says it is
    empty stops the process. *)
Fixpoint frames (fuel : nat) (s : bytes) : res (list bytes * bytes) :=
  match fuel with
  | O => Fault OutOfFuel
  | S fuel =>
    if blen s <? 8 then Ok ([], s)
    else
      let* n := ld_ntoh 2 (take 8 s) 2 in
      if blen s <? n then Ok ([], s)
      else if n =? 0 then Fault AssertFailed
      else let* (ms, rest) := frames fuel (drop (Z.to_nat n) s) in Ok (take (Z.to_nat n) s :: ms, rest)
  end.

Definition frames_of (s : bytes) : res (list bytes * bytes) := frames (S (List.length s)) s.

Fixpoint spec_handle sp (ms : list bytes) : res spec_channel :=
  match ms with
  | [] => Ok sp
  | m :: ms => let* sp := spec_client (answer m) sp in spec_handle sp ms
  end.

(** What the socket takes of the messages, and whether it is to be waited for. *)
Fixpoint spec_flush (l : list write_answer) (queue : list bytes) {struct queue} : list bytes * bytes * bool :=
  match queue with
  | [] => ([], [], false)
  | m :: queue =>
    match l with
    | [] => (m :: queue, [], true)
    | Refuse again :: _ => (m :: queue, [], again)
    | Take_bytes want :: l =>
      let n := Z.to_nat (Z.max 1 want) in
      if decide (n < List.length m)%nat then (drop n m :: queue, take n m, true)
      else let '(queue, bs, writes) := spec_flush l queue in (queue, m ++ bs, writes)
    end
  end.

Definition spec_step sp (e : answers * channel_event) : res spec_channel :=
  let '(a, e) := e in
  match e, sp_phase sp with
  | Expire, backing_off => Ok (set_phase sp (spec_try a))
  | WriteReady, opening fd =>
    match error_answer a with
    | None => Ok (set_phase sp stuck)
    | Some error =>
      match fate_of error with
      | completed => spec_client greet (set_phase sp (open fd false))
      | retried => Ok (set_phase sp backing_off)
      | awaited => Ok sp
      | failed => Ok (set_phase sp down)
      end
    end
  | WriteReady, open fd true =>
    let '(queue, bs, writes) := spec_flush (write_answers a) (sp_queue sp) in
    Ok (SpecChannel (open fd writes) (sp_part sp) queue (sp_client sp) (sp_written sp ++ bs))
  | ReadReady, open fd _ =>
    match bounded_read (RECEIVE_BUFFFER_SIZE - blen (sp_part sp)) (read_answer a) with
    | ReadError _ => Ok sp
    | Received bs =>
      if blen bs =? 0 then Ok (set_client (set_phase sp (spec_try a)) (farewell (sp_client sp)))
      else
        let* (ms, rest) := frames_of (sp_part sp ++ bs) in
        spec_handle (set_part sp rest) ms
    end
  | Send_message m, _ => spec_send sp m
  | _, _ => Ok sp
  end.

Fixpoint spec_run sp (es : list (answers * channel_event)) : res spec_channel :=
  match es with
  | [] => Ok sp
  | e :: es => let* sp := spec_step sp e in spec_run sp es
  end.
End Client.

(** * Proofs *)

Abbreviation handlers := (event_handler channel_callback).

(** ** The event handler

    [beside h0 h fd] says that the entries of [h] are those of [h0] except that of
    [fd], which has none in [h0]. *)

Section Events.
Implicit Types (h : handlers) (f fd : Z).

Record beside (h0 h : handlers) fd : Prop := {
  bs_wf : wf_handler h;
  bs_free : lookup_event h0 fd = None;
  bs_lookup f : f <> fd -> lookup_event h f = lookup_event h0 f;
  bs_read f : f <> fd -> f ∈ event_read_set h <-> f ∈ event_read_set h0;
  bs_write f : f <> fd -> f ∈ event_write_set h <-> f ∈ event_write_set h0
}.

Lemma unregistered_sets h fd : wf_handler h -> lookup_event h fd = None -> fd ∉ event_read_set h /\ fd ∉ event_write_set h.
Proof.
  intros H E. split; intros Hin; [apply (wh_read _ H) in Hin | apply (wh_write _ H) in Hin]; destruct Hin as (e & He & _); congruence.
Qed.

Lemma beside_move h0 h fd fd' : wf_handler h0 -> beside h0 h fd -> lookup_event h fd = None -> lookup_event h0 fd' = None -> beside h0 h fd'.
Proof.
  intros H0 [Hw Hf Hl Hr Hwr] E E'. destruct (unregistered_sets h fd Hw E) as [Er Ew]. destruct (unregistered_sets h0 fd H0 Hf) as [Er0 Ew0].
  split; [done | done | | |]; intros f _; destruct (decide (f = fd)) as [-> |]; [by rewrite E, Hf | by apply Hl | done | by apply Hr | done | by apply Hwr].
Qed.

Lemma beside_refl h fd : wf_handler h -> lookup_event h fd = None -> beside h h fd.
Proof. by split. Qed.

Lemma registered_fd h fd e : wf_handler h -> lookup_event h fd = Some e -> valid_fd fd.
Proof.
  intros H He. unfold lookup_event in He. destruct (position _ fd) as [i |] eqn:Ei; [| done].
  by apply (position_valid _ _ _ _ (wh_indexed _ H)) in Ei.
Qed.

Lemma beside_readable h0 h fd b : beside h0 h fd ->
  exists h', EventHandler.set_readable h fd b = Ok h' /\ beside h0 h' fd /\ lookup_event h' fd = lookup_event h fd /\
    event_write_set h' = event_write_set h /\
    (is_Some (lookup_event h fd ≫= read_callback) -> fd ∈ event_read_set h' <-> b = true).
Proof.
  intros [H Hf Hl Hr Hw]. destruct (set_readable_ok h fd b H) as (h' & E & H' & _ & Hl' & Ew & Er). exists h'. split_and!; [done | | done | done |].
  - split; [done | done | | | by rewrite Ew]; intros f Hne; [rewrite Hl'; by apply Hl |]. rewrite Er, <- Hr by done.
    destruct (_ ≫= _); [| done]. destruct b; cbn; set_solver.
  - intros [x Hx]. rewrite Er, Hx. destruct b; cbn; set_solver.
Qed.

Lemma beside_writable h0 h fd b : beside h0 h fd ->
  exists h', EventHandler.set_writable h fd b = Ok h' /\ beside h0 h' fd /\ lookup_event h' fd = lookup_event h fd /\
    event_read_set h' = event_read_set h /\
    (is_Some (lookup_event h fd ≫= write_callback) -> fd ∈ event_write_set h' <-> b = true).
Proof.
  intros [H Hf Hl Hr Hw]. destruct (set_writable_ok h fd b H) as (h' & E & H' & _ & Hl' & Er & Ew). exists h'. split_and!; [done | | done | done |].
  - split; [done | done | | by rewrite Er |]; intros f Hne; [rewrite Hl'; by apply Hl |]. rewrite Ew, <- Hw by done.
    destruct (_ ≫= _); [| done]. destruct b; cbn; set_solver.
  - intros [x Hx]. rewrite Ew, Hx. destruct b; cbn; set_solver.
Qed.

Lemma beside_delete h0 h fd : beside h0 h fd ->
  exists h', EventHandler.delete_fd_handler h fd = Ok h' /\ beside h0 h' fd /\ lookup_event h' fd = None.
Proof.
  intros [H Hf Hl Hr Hw]. destruct (delete_fd_handler_ok h fd H) as (h' & E & H' & _ & Hl' & Es). exists h'. split_and!; [done | |].
  2: { rewrite Hl'. by rewrite decide_True. }
  split; [done | done | | |]; intros f Hne; [rewrite Hl', decide_False by done; by apply Hl | |]; destruct (lookup_event h fd).
  - destruct Es as (-> & _). rewrite <- Hr by done. set_solver.
  - subst h'. by apply Hr.
  - destruct Es as (_ & -> & _). rewrite <- Hw by done. set_solver.
  - subst h'. by apply Hw.
Qed.

Lemma beside_set h0 h fd r w : beside h0 h fd -> valid_fd fd -> lookup_event h fd = None ->
  exists h', EventHandler.set_fd_handler h fd r w = Ok h' /\ beside h0 h' fd /\ lookup_event h' fd = Some (EventFd fd r w).
Proof.
  intros [H Hf Hl Hr Hw] Hv Hn. destruct (set_fd_handler_ok h fd r w H Hv) as (h' & E & H' & _ & Hl' & Er & Ew & _). exists h'. split_and!; [done | |].
  - split; [done | done | | by rewrite Er | by rewrite Ew]. intros f Hne. rewrite Hl', decide_False by done. rewrite <- Hl by done. by destruct (lookup_event h f).
  - rewrite Hl', Hn. by rewrite decide_True.
Qed.
End Events.

(** ** The states of the connection *)

Section Connection.
Context {host : Host} {A : Type} (h0 : handlers) (ip port : Z).
#[local] Abbreviation M := (StateMonad.M (S := channel * system A)).
Implicit Types (c : channel) (w : system A) (h : handlers) (fd : Z) (a : answers) (p : phase).

(** The parts of [channel] that concern the connection. *)
Definition with_net c h fd (st : connection_state) (timers : list Z) : channel :=
  Channel (connection_ip c) (connection_port c) fd st (connected_function c) (disconnected_function c)
    (secure_channel_initialized c) (sending_side c) (receiving_side c) h timers.

Lemma with_net_id c : with_net c (events c) (connection_fd c) (connection_status c) (reconnect_timers c) = c.
Proof. by destruct c. Qed.

Definition same_system w w' : Prop :=
  system_answers w' = system_answers w /\ written w' = written w /\ client_state w' = client_state w.

Lemma same_refl w : same_system w w.
Proof. done. Qed.

Lemma same_trans w w1 w2 : same_system w w1 -> same_system w1 w2 -> same_system w w2.
Proof. intros (? & ? & ?) (? & ? & ?). split_and!; congruence. Qed.

Definition net h fd (st : connection_state) (timers : list Z) p : Prop :=
  beside h0 h fd /\
  match p with
  | down => st = INIT /\ fd = -1 /\ timers = [] /\ lookup_event h fd = None
  | opening g => st = CONNECTING /\ fd = g /\ valid_fd g /\ timers = [] /\
      lookup_event h g = Some (EventFd g None (Some check_connected_callback)) /\ g ∈ event_write_set h
  | backing_off => st = CONNECTING /\ valid_fd fd /\ timers = [5] /\ lookup_event h fd = None
  | stuck => st = CONNECTING /\ valid_fd fd /\ timers = [] /\ lookup_event h fd = None
  | open g writes => st = CONNECTED /\ fd = g /\ valid_fd g /\ timers = [] /\
      lookup_event h g = Some (EventFd g (Some recv_callback) (Some flush_callback)) /\
      g ∈ event_read_set h /\ (g ∈ event_write_set h <-> writes = true)
  end.

(** A socket of the system is not a descriptor that others use. *)
Definition fresh_socket a : Prop := socket_answer a < 0 \/ valid_fd (socket_answer a) /\ lookup_event h0 (socket_answer a) = None.

Hypothesis h0_wf : wf_handler h0.

Lemma no_descriptor h fd : wf_handler h -> fd < 0 -> lookup_event h fd = None.
Proof. intros H Hfd. destruct (lookup_event h fd) eqn:E; [| done]. apply registered_fd in E; [| done]. unfold valid_fd in E. lia. Qed.

Lemma on_events_run f c w h : f (events c) (connection_fd c) = Ok h -> on_events f (c, w) = Ok (tt, (set_channel_events c h, w)).
Proof. intros E. unfold on_events, mbind, get, lift. cbn. by rewrite E. Qed.

Lemma clear_ok c w : beside h0 (events c) (connection_fd c) ->
  exists h' w', clear_connection (c, w) = Ok (tt, (with_net c h' (-1) INIT (reconnect_timers c), w')) /\ same_system w w' /\
    beside h0 h' (-1) /\ lookup_event h' (-1) = None.
Proof.
  intros H. unfold clear_connection, mbind at 1, get. cbn [fst snd]. bind_ok. destruct (Z.leb_spec 0 (connection_fd c)) as [Hle | Hlt].
  - destruct (beside_readable h0 _ _ false H) as (h1 & E1 & H1 & _). destruct (beside_writable h0 h1 _ false H1) as (h2 & E2 & H2 & _).
    destruct (beside_delete h0 h2 _ H2) as (h3 & E3 & H3 & Hn).
    eexists h3, _. split; [| split; [| split]].
    + erewrite bind_run.
      2: { erewrite bind_run by reflexivity. erewrite bind_run by (by apply on_events_run).
           erewrite bind_run by (by apply on_events_run). by apply on_events_run. }
      reflexivity.
    + by split_and!.
    + apply (beside_move h0 h3 (connection_fd c)); try done.
    + done.
  - exists (events c), w. split; [done |]. split; [done |]. split; [| apply no_descriptor; [apply H | done]].
    apply (beside_move h0 _ (connection_fd c)); try done. by apply no_descriptor; [apply H |].
Qed.

Lemma close_valid c w : valid_fd (connection_fd c) ->
  exists w', backoff (c, w) = Ok (tt, (with_net c (events c) (connection_fd c) (connection_status c) (reconnect_timers c ++ [5]), w')) /\ same_system w w'.
Proof.
  intros Hv. unfold backoff, mbind at 1, get. cbn [fst snd]. bind_ok. unfold valid_fd in Hv.
  replace (0 <=? connection_fd c) with true by lia. eexists. split; [by erewrite bind_run by reflexivity | by split_and!].
Qed.

Lemma wait_ok c w : beside h0 (events c) (connection_fd c) -> valid_fd (connection_fd c) -> lookup_event (events c) (connection_fd c) = None ->
  exists h', wait_for_connection (c, w) = Ok (tt, (with_net c h' (connection_fd c) (connection_status c) (reconnect_timers c), w)) /\
    beside h0 h' (connection_fd c) /\
    lookup_event h' (connection_fd c) = Some (EventFd (connection_fd c) None (Some check_connected_callback)) /\
    connection_fd c ∈ event_write_set h'.
Proof.
  intros H Hv Hn. destruct (beside_set h0 _ _ None (Some check_connected_callback) H Hv Hn) as (h1 & E1 & H1 & L1).
  destruct (beside_writable h0 h1 _ true H1) as (h2 & E2 & H2 & L2 & _ & W2). exists h2. split_and!; [| done | by rewrite L2 |].
  - unfold wait_for_connection. erewrite bind_run by by apply on_events_run. unfold writable_again. by erewrite on_events_run.
  - apply W2; [| done]. by rewrite L1.
Qed.

Definition can_open (st : connection_state) : Prop := st = INIT \/ st = CONNECTING.

(** After a failure the caller clears the connection. *)
Lemma connection_try_ok c w : beside h0 (events c) (connection_fd c) -> lookup_event (events c) (connection_fd c) = None ->
  can_open (connection_status c) -> reconnect_timers c = [] -> fresh_socket (system_answers w) ->
  exists b h' fd' st' timers' w', try_connect (c, w) = Ok (b, (with_net c h' fd' st' timers', w')) /\ same_system w w' /\
    b = (match spec_try (system_answers w) with down => false | _ => true end) /\
    if b then net h' fd' st' timers' (spec_try (system_answers w)) else beside h0 h' fd' /\ timers' = [].
Proof.
  intros H Hn Hst Ht Hf. unfold try_connect, spec_try.
  erewrite bind_run by reflexivity. erewrite bind_run.
  2: { apply lift_run. unfold assert. cbn [fst]. by destruct Hst as [-> | ->]. }
  erewrite bind_run by reflexivity. cbn [snd fst system_sockets]. unfold fresh_socket in Hf. set (a := system_answers w) in *.
  assert (Hfail : beside h0 (events c) (connection_fd c) /\ reconnect_timers c = []) by done.
  destruct (Z.ltb_spec (socket_answer a) 0) as [| Hge].
  { exists false, (events c), (connection_fd c), (connection_status c), (reconnect_timers c), w. rewrite with_net_id. by split_and!. }
  erewrite bind_run by reflexivity. cbn [snd fst system_sockets]. fold a. destruct (nodelay_answer a); cbn [negb orb].
  2: { exists false, (events c), (connection_fd c), (connection_status c), (reconnect_timers c), w. rewrite with_net_id. by split_and!. }
  erewrite bind_run by reflexivity. cbn [snd fst system_sockets]. fold a. destruct (nonblocking_answer a); cbn [negb orb].
  2: { eexists false, (events c), (connection_fd c), (connection_status c), (reconnect_timers c), _.
       split; [erewrite bind_run by reflexivity; by rewrite with_net_id | by split_and!]. }
  destruct Hf as [Hf | [Hv Hf]]; [lia |]. set (fd := socket_answer a) in *.
  erewrite bind_run by reflexivity.
  assert (H' : beside h0 (events c) fd) by (by apply (beside_move h0 _ (connection_fd c))).
  assert (Hn' : lookup_event (events c) fd = None).
  { destruct (decide (fd = connection_fd c)) as [-> |]; [done |]. by rewrite (bs_lookup _ _ _ H). }
  erewrite (bind_run (transit_state CONNECTING)).
  2: { unfold transit_state, put. cbn [fst snd]. cbn [connection_status set_connection].
       instantiate (1 := (with_net c (events c) fd CONNECTING (reconnect_timers c), w)). by destruct Hst as [-> | ->]. }
  erewrite bind_run by reflexivity. erewrite bind_run by reflexivity. erewrite bind_run by reflexivity.
  cbn [snd fst system_sockets]. fold a. set (c1 := with_net c _ _ _ _).
  assert (Hback : exists w', (let! _ := backoff in ret true) (c1, w) = Ok (true, (with_net c (events c) fd CONNECTING [5], w')) /\ same_system w w').
  { destruct (close_valid c1 w Hv) as (w' & E & Hs). exists w'. split; [| done]. erewrite bind_run by exact E. cbn [c1 reconnect_timers with_net]. by rewrite Ht. }
  assert (Hwait : exists h', (let! _ := wait_for_connection in ret true) (c1, w) = Ok (true, (with_net c h' fd CONNECTING [], w)) /\ net h' fd CONNECTING [] (opening fd)).
  { destruct (wait_ok c1 w H' Hv Hn') as (h' & E & Hb & Hl & Hw). exists h'. split; [erewrite bind_run by exact E; cbn [c1 reconnect_timers with_net]; by rewrite Ht |].
    by split_and!. }
  destruct (connect_answer a) as [[] |]; cbn [fate_of];
    try (destruct Hback as (w' & E & Hs); exists true, (events c), fd, CONNECTING, [5], w'; by split_and!);
    try (destruct Hwait as (h' & E & Hnet); exists true, h', fd, CONNECTING, [], w; by split_and!).
  destruct (clear_ok c1 w H') as (h' & w' & E & Hs & Hb & _). exists false, h', (-1), INIT, (reconnect_timers c), w'.
  split_and!; [by erewrite bind_run by exact E | done | done | done | done].
Qed.

Lemma reconnect_ok c w : beside h0 (events c) (connection_fd c) -> lookup_event (events c) (connection_fd c) = None ->
  can_open (connection_status c) -> reconnect_timers c = [] -> fresh_socket (system_answers w) ->
  exists h' fd' st' timers' w', reconnect (c, w) = Ok (tt, (with_net c h' fd' st' timers', w')) /\ same_system w w' /\
    net h' fd' st' timers' (spec_try (system_answers w)).
Proof.
  intros H Hn Hst Ht Hf. destruct (connection_try_ok c w H Hn Hst Ht Hf) as (b & h1 & fd1 & st1 & t1 & w1 & E & Hs & Hb & Hr).
  unfold reconnect. erewrite bind_run by exact E. destruct b.
  - exists h1, fd1, st1, t1, w1. by split_and!.
  - destruct Hr as [Hr ->]. destruct (clear_ok (with_net c h1 fd1 st1 []) w1 Hr) as (h2 & w2 & E2 & Hs2 & Hb2 & Hl2).
    exists h2, (-1), INIT, [], w2. split; [exact E2 |]. split; [by eapply same_trans |]. by destruct (spec_try _).
Qed.
End Connection.

(** ** The queues *)

Section Queues.
Context {host : Host} {A : Type}.
Implicit Types (r : receiver) (b : SecureChannel.buffer) (s m part : bytes) (o : outgoing) (ms queue : list bytes).

Definition holds_out o queue : Prop :=
  exists l, sending (Sender (out_heap o) (out_queue o) (out_bufs o) 0 false) l /\ l.*2 = queue.

Lemma queue_rep_fits {X} (h : queue_heap X) q (l : list X) : queue_rep h q l ∅ -> (List.length l < fuel_of h)%nat.
Proof.
  intros (gs & d & ns & Hn & Hms & _). pose proof (nodes_size _ _ _ Hn) as Hs. unfold messages in Hms.
  rewrite length_app in Hs. cbn [List.length] in Hs. apply (f_equal (@List.length _)) in Hms. rewrite !length_fmap in Hms. unfold fuel_of. lia.
Qed.

Lemma queue_rep_length {X} (h : queue_heap X) q (l : list X) : queue_rep h q l ∅ -> length q = u32 (Z.of_nat (List.length l)).
Proof. intros (gs & d & ns & H). apply H. Qed.

Lemma holds_out_queue o queue : holds_out o queue -> exists q, out_queue o = Some q /\ length q = u32 (Z.of_nat (List.length queue)) /\
  (List.length queue < fuel_of (out_heap o))%nat.
Proof.
  intros (l & [(q & Hq & Hrep) _ _ _ _] & <-). exists q. pose proof (queue_rep_length _ _ _ Hrep) as Hl. pose proof (queue_rep_fits _ _ _ Hrep) as Hf.
  rewrite length_fmap in Hl, Hf. rewrite !length_fmap. split; [done |]. by split.
Qed.

(** What a message that is queued needs: an address of its own. *)
Lemma holds_out_enqueue o queue m q : holds_out o queue -> out_queue o = Some q -> 0 < blen m ->
  exists q' h', enqueue_message (out_heap o) (Some q) (Some (fresh (dom (out_bufs o)))) = Ok (true, q', h') /\
    holds_out (Outgoing h' (Some q') (<[fresh (dom (out_bufs o)) := m]> (out_bufs o))) (queue ++ [m]).
Proof.
  intros (l & Hs & <-) Hq Hm. destruct (send_ok _ l m Hs Hm) as (t & a & E & Ht & _).
  unfold send_to_secure_channel in E. replace (0 <? blen m) with true in E by lia. unfold assert in E. cbn [bind send_queue send_heap send_bufs] in E.
  rewrite Hq in E. destruct (enqueue_message _ _ _) as [[[ok q'] h'] |] eqn:Ee; [| done]. cbn in E. exists q', h'.
  destruct ok; [| done]. injection E as <-. split; [done |]. exists (l ++ [(a, m)]). split; [| by rewrite fmap_app].
  destruct Ht as [H1 H2 H3 H4 H5]. by split.
Qed.

Lemma holds_out_peek o queue : holds_out o queue ->
  match queue with
  | [] => peek_message (out_heap o) (out_queue o) = Ok None
  | m :: queue => 0 < blen m /\ exists a, peek_message (out_heap o) (out_queue o) = Ok (Some a) /\ load_buf (out_bufs o) a = Ok m /\
      (forall m', 0 < blen m' -> holds_out (Outgoing (out_heap o) (out_queue o) (<[a := m']> (out_bufs o))) (m' :: queue)) /\
      exists q' h', dequeue_message (out_heap o) (out_queue o) = Ok (Some a, q', h') /\ holds_out (Outgoing h' (Some q') (delete a (out_bufs o))) queue
  end.
Proof.
  intros (l & Hs & <-). pose proof Hs as [(q & Hq & Hrep) Hnd Hb Hne Hfd]. cbn in Hq, Hrep, Hb.
  rewrite Hq, (peek_ok _ q _ _ Hrep). destruct l as [| [a m] l]; [done |]. cbn [fmap list_fmap fst snd hd_error] in *.
  inversion Hne as [| ? ? Hm Hne']; subst. cbn in Hm. apply NoDup_cons in Hnd as [Ha Hnd]. split; [done |]. exists a.
  split_and!; [done | by apply (sending_load _ _ _ _ Hs); left | |].
  - intros m' Hm'. exists ((a, m') :: l). split; [| done].
    split; cbn; [by exists q | by apply NoDup_cons | rewrite Hb; cbn; by rewrite insert_insert_eq | by constructor | done].
  - destruct (dequeue_ok _ q _ _ Hrep) as (q' & h' & -> & Hrep'). exists q', h'. split; [done |]. exists l. split; [| done].
    split; cbn; [by exists q' | done | | done | done]. rewrite Hb. cbn. rewrite delete_insert_id; [done |]. by apply not_elem_of_list_to_map_1.
Qed.

(** ** Messages in a stream *)

Lemma stream_header s : 8 <= blen s -> exists n, ld_ntoh 2 (take 8 s) 2 = Ok n /\ 0 <= n < 2 ^ 16.
Proof.
  intros H. destruct (ld_ntoh 2 (take 8 s) 2) as [n | f] eqn:E.
  - exists n. split; [done |]. by apply ld_ntoh_bound in E.
  - exfalso. revert E. unfold blen in H. do 8 (destruct s as [| ? s]; [cbn in H; lia |]). cbn [take]. done.
Qed.

Lemma frames_ok fuel s ms rest : frames fuel s = Ok (ms, rest) ->
  s = concat ms ++ rest /\ Forall (fun m => 0 < blen m) ms /\ blen rest < 2 ^ 16.
Proof.
  revert s ms rest. induction fuel as [| fuel IH]; intros s ms rest; [done |]. cbn [frames].
  destruct (Z.ltb_spec (blen s) 8) as [| H8]; [intros [= <- <-]; split_and!; [done | done | lia] |].
  destruct (stream_header s H8) as (n & -> & Hn). bind_ok.
  destruct (Z.ltb_spec (blen s) n) as [| Hle]; [intros [= <- <-]; split_and!; [done | done | lia] |].
  destruct (Z.eqb_spec n 0) as [| Hn0]; [done |]. destruct (frames fuel _) as [[ms' rest'] |] eqn:E; [| done]. intros [= <- <-].
  apply IH in E as (E & Hms & Hr). split_and!; [| constructor; [| done] | done].
  - cbn [concat]. by rewrite <- app_assoc, <- E, take_drop.
  - unfold blen in *. rewrite length_take. lia.
Qed.

Lemma frames_total fuel s : (List.length s < fuel)%nat -> frames fuel s <> Fault OutOfFuel.
Proof.
  revert s. induction fuel as [| fuel IH]; intros s Hf; [lia |]. cbn [frames]. destruct (Z.ltb_spec (blen s) 8) as [| H8]; [done |].
  destruct (stream_header s H8) as (n & -> & Hn). bind_ok. destruct (Z.ltb_spec (blen s) n) as [| Hle]; [done |].
  destruct (Z.eqb_spec n 0) as [| Hn0]; [done |]. assert (E : frames fuel (drop (Z.to_nat n) s) <> Fault OutOfFuel).
  { apply IH. rewrite length_drop. unfold blen in *. lia. }
  destruct (frames fuel _) as [[ms rest] | f]; [done |]. cbn. congruence.
Qed.

Lemma split_loop_frames fuel r b s f total l : fragment b s f -> queued r l ->
  match frames fuel s with
  | Ok (ms, rest) => exists r' b', split_loop fuel r b total = Ok (total + blen (concat ms), r', b') /\
      fragment b' rest (f + blen (concat ms)) /\ queued r' (l ++ ms)
  | Fault e => split_loop fuel r b total = Fault e
  end.
Proof.
  revert r b s f total l. induction fuel as [| fuel IH]; intros r b s f total l Hb Hq; [done |]. cbn [frames split_loop].
  rewrite (fragment_length _ _ _ Hb). unfold sizeof_ofp_header.
  assert (Hend : exists r' b', Ok (total, r, b) = Ok (total + blen (concat []), r', b') /\ fragment b' s (f + blen (concat [])) /\ queued r' (l ++ [])).
  { exists r, b. cbn [concat]. rewrite blen_nil, !Z.add_0_r, app_nil_r. by split_and!. }
  destruct (Z.ltb_spec (blen s) 8) as [| H8]; [done |].
  rewrite (data_bytes_ok b s f 8 Hb) by lia. bind_ok. rewrite initialized_bytes. bind_ok. change (Z.to_nat 8) with 8%nat.
  destruct (stream_header s H8) as (n & -> & Hn). bind_ok. destruct (Z.ltb_spec (blen s) n) as [| Hle]; [done |].
  rewrite (data_bytes_ok b s f n Hb) by lia. bind_ok. destruct (Z.eqb_spec n 0) as [-> | Hn0]; [done |].
  set (m := take (Z.to_nat n) s). assert (Hm : blen m = n) by (unfold m, blen in *; rewrite length_take; lia).
  rewrite <- Hm. rewrite new_message_ok by lia. bind_ok.
  assert (Hb' : fragment b (m ++ drop (Z.to_nat n) s) f) by (unfold m; by rewrite take_drop).
  destruct (fragment_remove_front b m _ f Hb') as (p & b1 & -> & H1); [lia |]. bind_ok.
  destruct Hq as (q & Hq & Hrep). rewrite Hq. destruct (enqueue_ok _ q l _ m Hrep) as (q1 & h1 & -> & Hrep1). bind_ok. rewrite Hm.
  specialize (IH (Receiver h1 (Some q1) (fragment_buf r)) b1 _ _ (total + blen m) (l ++ [m]) H1 (ex_intro _ q1 (conj eq_refl Hrep1))).
  rewrite Hm in IH. destruct (frames fuel _) as [[ms rest] | e]; [| done]. bind_ok.
  destruct IH as (r2 & b2 & -> & H2 & Hq2). exists r2, b2. cbn [concat]. rewrite blen_app, Hm, !Z.add_assoc.
  split_and!; [done | done |]. by rewrite <- app_assoc in Hq2.
Qed.

(** Between events the fragment buffer holds [part] and the queue [ms]. *)
Definition holds_in r part ms : Prop :=
  queued r ms /\ match fragment_buf r with Some b => fragment b part 0 | None => part = [] end.

Lemma store_received_ok r b part bs : queued r [] -> fragment b part 0 -> blen part + blen bs <= RECEIVE_BUFFFER_SIZE ->
  match frames_of (part ++ bs) with
  | Ok (ms, rest) => exists r', store_received r b bs = Ok r' /\ holds_in r' rest ms
  | Fault e => store_received r b bs = Fault e
  end.
Proof.
  intros Hq Hb Hfit. unfold store_received. pose proof (blen_nonneg part). pose proof (blen_nonneg bs).
  destruct (fragment_append b part 0 bs Hb) as (mem & mem' & -> & Hw & Hb'); [lia |]. bind_ok. rewrite Hw. bind_ok.
  set (b1 := PrivateBuffer _ _ _ _ _ _) in *. assert (Ef : Z.to_nat (data_length b1) = List.length (part ++ bs)).
  { rewrite (fragment_length _ _ _ Hb'). unfold blen. by rewrite Nat2Z.id. }
  rewrite Ef.
  pose proof (split_loop_frames (S (List.length (part ++ bs))) r _ _ 0 0 [] Hb' Hq) as Hs. fold (frames_of (part ++ bs)) in Hs.
  destruct (frames_of (part ++ bs)) as [[ms rest] | e]; [| by rewrite Hs]. destruct Hs as (r1 & b1' & -> & H1 & Hq1). bind_ok.
  rewrite Z.add_0_l in *. destruct (remove_headroom_ok b1' rest _ H1) as (b2 & -> & H2). bind_ok.
  eexists. split; [done |]. by split.
Qed.
End Queues.

(** ** Events *)

Section Simulation.
Context {host : Host} {A : Type} (h0 : handlers).
Context (greet : A -> list bytes * A) (farewell : A -> A) (answer : bytes -> A -> list bytes * A).
Hypothesis h0_wf : wf_handler h0.
Abbreviation state := (channel * system A)%type.
Implicit Types (c : channel) (s : state) (sp : spec_channel (A := A)) (ms : list bytes) (a : answers).

(** The messages [ms] have been received but not handled yet. *)
Record stands ms s sp : Prop := {
  st_net : net h0 (events s.1) (connection_fd s.1) (connection_status s.1) (reconnect_timers s.1) (sp_phase sp);
  st_out : holds_out (sending_side s.1) (sp_queue sp);
  st_in : holds_in (receiving_side s.1) (sp_part sp) ms;
  st_part : blen (sp_part sp) < 2 ^ 16;
  st_client : client_state s.2 = sp_client sp;
  st_written : written s.2 = sp_written sp;
  st_init : secure_channel_initialized s.1 = true;
  st_connected : connected_function s.1 = Some 0;
  st_disconnected : disconnected_function s.1 = Some 1
}.

Definition agrees ms (s0 : state) {X} (x : X) (r : res (X * state)) (spec : res (spec_channel (A := A))) : Prop :=
  match spec with
  | Ok sp => exists s, r = Ok (x, s) /\ stands ms s sp /\ system_answers s.2 = system_answers s0.2
  | Fault f => r = Fault f
  end.

Lemma agrees_bind {X Y} ms ms' s0 (x : StateMonad.M (S := state) X) (k : X -> StateMonad.M (S := state) Y) s u v spec f :
  agrees ms s0 u (x s) spec ->
  (forall s1 sp, stands ms s1 sp -> system_answers s1.2 = system_answers s0.2 -> agrees ms' s0 v (k u s1) (f sp)) ->
  agrees ms' s0 v (mbind x k s) (let* sp := spec in f sp).
Proof.
  intros Hx Hk. unfold mbind. unfold agrees in Hx. destruct spec as [sp | e]; [| by rewrite Hx].
  destruct Hx as (s1 & -> & Hs & Ha). by apply Hk.
Qed.

Lemma agrees_answers {X} ms s s0 (x : X) r spec : system_answers s.2 = system_answers s0.2 -> agrees ms s x r spec -> agrees ms s0 x r spec.
Proof. intros E. unfold agrees. by rewrite E. Qed.

(** Only the connection changes. *)
Lemma stands_net ms c w w' h fd st timers p sp : stands ms (c, w) sp -> same_system w w' -> net h0 h fd st timers p ->
  stands ms (with_net c h fd st timers, w') (set_phase sp p).
Proof.
  intros [? ? ? ? Hc Hw ? ? ?] (_ & Ew & Ec) Hn. split; cbn in *; try done; congruence.
Qed.

Lemma phase_id sp : set_phase sp (sp_phase sp) = sp.
Proof. by destruct sp. Qed.

Lemma send_step ms s sp m : stands ms s sp -> agrees ms s true (send_message_to_secure_channel m s) (spec_send sp m).
Proof.
  intros H. destruct s as [c w]. pose proof H as [Hnet Hout _ _ _ _ _ _ _]. cbn [fst snd] in *.
  destruct (holds_out_queue _ _ Hout) as (q & Hq & Hl & _). unfold send_message_to_secure_channel, spec_send.
  erewrite bind_run by reflexivity. cbn [fst]. rewrite Hq. destruct (Z.ltb_spec 0 (blen m)) as [Hm | Hm].
  2: { by destruct (sp_phase sp). }
  erewrite bind_run by reflexivity. erewrite bind_run by reflexivity. cbn [fst].
  destruct Hnet as [Hb Hp]. destruct (sp_phase sp) as [| g | | | g writes] eqn:Ep.
  1-4: destruct Hp as (-> & _); done.
  destruct Hp as (Hst & Hfd & Hv & Ht & Hlook & Hr & Hw). rewrite Hst.
  erewrite bind_run by reflexivity. erewrite bind_run by reflexivity. cbn [fst].
  unfold valid_fd in Hv. replace (0 <=? connection_fd c) with true by lia. erewrite bind_run by reflexivity. rewrite Hl.
  set (z := u32 (Z.of_nat (List.length (sp_queue sp))) =? 0).
  assert (E : exists h', (if z then writable_again true else ret tt) (c, w) = Ok (tt, (with_net c h' g CONNECTED [], w)) /\
    net h0 h' g CONNECTED [] (open g (writes || z))).
  { subst g. destruct z.
    - destruct (beside_writable h0 _ _ true Hb) as (h' & E & H' & L' & R' & W'). exists h'. split.
      + unfold writable_again. erewrite on_events_run by exact E. unfold with_net. by rewrite <- Hst, <- Ht.
      + split; [done |]. rewrite orb_true_r, L', R'. do 6 (split; [done |]). split; [done |]. apply W'. by rewrite Hlook.
    - exists (events c). rewrite orb_false_r. split; [| by split].
      rewrite <- Hst, <- Ht, with_net_id. done. }
  destruct E as (h' & E & Hn). erewrite bind_run by exact E.
  destruct (holds_out_enqueue _ _ m q Hout Hq Hm) as (q' & h1 & Ee & Hout').
  erewrite bind_run by (apply lift_run; exact Ee). cbv beta iota. erewrite bind_run by reflexivity.
  eexists. split; [reflexivity |]. split; [| done]. destruct H as [? ? ? ? ? ? ? ? ?]. by split.
Qed.

Lemma send_all_step ms messages s sp : stands ms s sp -> agrees ms s tt (send_all messages s) (spec_send_all sp messages).
Proof.
  revert s sp. induction messages as [| m messages IH]; intros s sp H; cbn [send_all spec_send_all]; [by exists s |].
  apply (agrees_bind ms _ _ _ _ _ true); [by apply send_step |]. intros s1 sp1 H1 Ha. apply (agrees_answers _ s1); [done |]. by apply IH.
Qed.

Lemma client_step_ok ms f s sp : stands ms s sp -> agrees ms s tt (client_step f s) (spec_client f sp).
Proof.
  intros H. unfold client_step, spec_client. rewrite (st_client _ _ _ H). destruct (f (sp_client sp)) as [l x].
  apply (send_all_step ms l (s.1, set_client_state s.2 x) (set_client sp x)). destruct H. by split.
Qed.

Lemma recv_message_ok m ms s sp : stands (m :: ms) s sp -> Z.of_nat (List.length (m :: ms)) < 2 ^ 32 ->
  agrees ms s true (recv_message_from_secure_channel (handle_with answer) s) (spec_client (answer m) sp).
Proof.
  intros H Hl. destruct s as [c w]. pose proof (st_in _ _ _ H) as [(q & Hq & Hrep) Hfr]. cbn [fst] in *.
  pose proof (queue_rep_length _ _ _ Hrep) as Hlen. destruct (dequeue_ok _ q _ _ Hrep) as (q' & h' & Ed & Hrep'). cbn [hd_error List.tl] in *.
  unfold recv_message_from_secure_channel. erewrite bind_run by reflexivity. cbn [fst]. rewrite Hq.
  replace (length q =? 0) with false.
  2: { symmetry. apply Z.eqb_neq. rewrite Hlen. unfold u32. rewrite Z.mod_small by lia. rewrite length_cons. lia. }
  erewrite bind_run by (apply lift_run; exact Ed). cbv beta iota. erewrite bind_run by reflexivity. cbn [fst snd].
  set (c1 := set_receiving c (Receiver h' (Some q') (fragment_buf (receiving_side c)))).
  assert (H1 : stands ms (c1, w) sp). { destruct H. split; try done. split; [by exists q' | done]. }
  unfold handle_with. pose proof (client_step_ok ms (answer m) (c1, w) sp H1) as Hc. unfold agrees in *.
  destruct (spec_client (answer m) sp) as [sp1 | f]; [| unfold mbind; by rewrite Hc].
  destruct Hc as (s1 & Hc & Hs1 & Ha). exists s1. split; [| by split].
  rewrite (bind_run _ _ _ true s1); [done |]. by erewrite bind_run by exact Hc.
Qed.

Lemma recv_messages_ok ms fuel s sp : stands ms s sp -> (List.length ms < fuel)%nat -> Z.of_nat (List.length ms) < 2 ^ 32 ->
  agrees [] s tt (recv_messages_loop (handle_with answer) fuel s) (spec_handle answer sp ms).
Proof.
  revert fuel s sp. induction ms as [| m ms IH]; intros fuel s sp H Hf Hl; (destruct fuel as [| fuel]; [lia |]); cbn [recv_messages_loop spec_handle].
  - destruct s as [c w]. pose proof (st_in _ _ _ H) as [(q & Hq & Hrep) Hfr]. cbn [fst] in *. pose proof (queue_rep_length _ _ _ Hrep) as Hlen.
    exists (c, w). split; [| by split]. rewrite (bind_run _ _ _ false (c, w)); [done |]. unfold recv_message_from_secure_channel.
    erewrite bind_run by reflexivity. cbn [fst]. by rewrite Hq, Hlen.
  - apply (agrees_bind ms _ _ _ _ _ true); [by apply recv_message_ok |]. intros s1 sp1 H1 Ha. cbn [List.length] in Hf, Hl.
    apply (agrees_answers _ s1); [done |]. apply IH; [done | lia | lia].
Qed.

(** ** Writing *)

Lemma writable_step ms c w sp g (b : bool) : stands ms (c, w) sp -> sp_phase sp = open g false ->
  exists h', writable_again b (c, w) = Ok (tt, (with_net c h' g CONNECTED [], w)) /\
    stands ms (with_net c h' g CONNECTED [], w) (set_phase sp (open g b)).
Proof.
  intros H Ep. pose proof (st_net _ _ _ H) as [Hb Hp]. rewrite Ep in Hp. cbn [fst] in *. destruct Hp as (Hst & Hfd & Hv & Ht & Hlook & Hr & Hw).
  subst g. destruct (beside_writable h0 _ _ b Hb) as (h' & E & H' & L' & R' & W'). exists h'. split.
  - unfold writable_again. erewrite on_events_run by exact E. unfold with_net. by rewrite <- Hst, <- Ht.
  - apply (stands_net ms c w w); [done | done |]. split; [done |]. rewrite L', R'. do 6 (split; [done |]). apply W'. by rewrite Hlook.
Qed.

Lemma stands_written ms c w sp o queue bs a : stands ms (c, w) sp -> holds_out o queue ->
  stands ms (set_sending c o, System a (written w ++ bs) (closed w) (client_state w))
    (SpecChannel (sp_phase sp) (sp_part sp) queue (sp_client sp) (sp_written sp ++ bs)).
Proof. intros [] Ho. split; cbn in *; try done. congruence. Qed.

Lemma flush_queue_ok fuel c w sp g queue bs writes : stands [] (c, w) sp -> sp_phase sp = open g false ->
  (List.length (sp_queue sp) < fuel)%nat -> spec_flush (write_answers (system_answers w)) (sp_queue sp) = (queue, bs, writes) ->
  exists s, flush_queue_loop fuel (c, w) = Ok (tt, s) /\ stands [] s (SpecChannel (open g writes) (sp_part sp) queue (sp_client sp) (sp_written sp ++ bs)).
Proof.
  revert c w sp queue bs writes. induction fuel as [| fuel IH]; intros c w sp queue bs writes H Ep Hf E; [lia |]. cbn [flush_queue_loop].
  pose proof (holds_out_peek _ _ (st_out _ _ _ H)) as Hpk. cbn [fst] in Hpk. erewrite bind_run by reflexivity. cbn [fst].
  destruct (sp_queue sp) as [| m l] eqn:Eq; cbn [spec_flush] in E.
  - injection E as <- <- <-. erewrite bind_run by (apply lift_run; exact Hpk). exists (c, w). split; [done |].
    rewrite app_nil_r. destruct sp; cbn in *; by subst.
  - destruct Hpk as (Hm & a & Ek & El & Hset & q' & h' & Ed & Hrest). erewrite bind_run by (apply lift_run; exact Ek). cbv beta iota.
    erewrite bind_run by (apply lift_run; exact El). erewrite bind_run by reflexivity. cbn [fst].
    assert (Hres : forall r w', write_system m w = (r, w') -> os (write_fd (connection_fd c) m) (c, w) = Ok (r, (c, w'))).
    { intros r w' Ew. unfold os. cbn [snd fst system_sockets write_fd]. by rewrite Ew. }
    destruct (write_answers (system_answers w)) as [| [again | want] answers] eqn:Ea; cbn [spec_flush] in E.
    + injection E as <- <- <-. erewrite bind_run by (apply Hres; unfold write_system; by rewrite Ea). cbv beta iota.
      destruct (writable_step [] c w sp g true H Ep) as (h1 & E1 & H1). exists (with_net c h1 g CONNECTED [], w). split; [done |].
      rewrite app_nil_r, <- Eq. exact H1.
    + injection E as <- <- <-. erewrite bind_run by (apply Hres; unfold write_system; by rewrite Ea). cbv beta iota.
      set (w1 := answer_with w _). assert (H1 : stands [] (c, w1) sp) by (destruct H; by split).
      rewrite app_nil_r, <- Eq. destruct again.
      * destruct (writable_step [] c w1 sp g true H1 Ep) as (h1 & E1 & H2). by exists (with_net c h1 g CONNECTED [], w1).
      * exists (c, w1). split; [done |]. destruct sp; cbn in *; by subst.
    + set (n := Z.min (Z.max 1 want) (blen m)).
      erewrite bind_run by (apply Hres; unfold write_system; rewrite Ea; reflexivity). cbv beta iota. fold n.
      set (a1 := set_write_answers _ answers). set (w1 := System _ _ _ _).
      destruct (decide (Z.to_nat (Z.max 1 want) < List.length m)%nat) as [Hlt | Hge].
      * assert (En : n = Z.max 1 want) by (unfold n, blen; lia). injection E as <- <- <-.
        replace (n <? blen m) with true by (unfold blen; lia). erewrite bind_run.
        2: { apply lift_run. unfold assert. by replace (n =? 0) with false by lia. }
        erewrite bind_run by reflexivity. cbn [fst snd].
        set (o' := Outgoing _ _ _). assert (Ho : holds_out o' (drop (Z.to_nat n) m :: l)).
        { apply Hset. unfold blen. rewrite length_drop. lia. }
        pose proof (stands_written [] c w sp o' _ (take (Z.to_nat n) m) a1 H Ho) as H1. fold w1 in H1.
        destruct (writable_step [] _ _ _ g true H1 Ep) as (h1 & E1 & H2). rewrite En in *. by eexists.
      * assert (En : n = blen m) by (unfold n, blen; lia). replace (n <? blen m) with false by lia.
        destruct (spec_flush answers l) as [[queue' bs'] writes'] eqn:Es. injection E as <- <- <-.
        erewrite bind_run by (apply lift_run; exact Ed). cbv beta iota. erewrite bind_run by reflexivity. cbn [fst snd].
        pose proof (stands_written [] c w sp _ _ (take (Z.to_nat n) m) a1 H Hrest) as H1. fold w1 in H1.
        assert (Et : take (Z.to_nat n) m = m) by (rewrite En; unfold blen; rewrite Nat2Z.id; by apply take_ge).
        destruct (IH _ w1 _ queue' bs' writes' H1) as (s & Er & Hs); [done | cbn in Hf |- *; lia | done |].
        exists s. split; [exact Er |]. cbn [sp_part sp_client sp_written] in Hs. by rewrite Et, <- app_assoc in Hs.
Qed.

Lemma flush_send_queue_ok c w sp g : stands [] (c, w) sp -> sp_phase sp = open g true ->
  let '(queue, bs, writes) := spec_flush (write_answers (system_answers w)) (sp_queue sp) in
  exists s, flush_send_queue (c, w) = Ok (tt, s) /\ stands [] s (SpecChannel (open g writes) (sp_part sp) queue (sp_client sp) (sp_written sp ++ bs)).
Proof.
  intros H Ep. destruct (spec_flush _ _) as [[queue bs] writes] eqn:E. unfold flush_send_queue.
  destruct (holds_out_queue _ _ (st_out _ _ _ H)) as (q & Hq & _ & Hf). cbn [fst] in Hq, Hf.
  pose proof (st_net _ _ _ H) as [Hb Hp]. rewrite Ep in Hp. cbn [fst] in *. destruct Hp as (Hst & Hfd & Hv & Ht & Hlook & Hr & Hw).
  erewrite bind_run by reflexivity. cbn [fst]. rewrite Hq. erewrite bind_run by reflexivity. cbn [fst].
  unfold valid_fd in Hv. replace (0 <=? connection_fd c) with true by lia. erewrite bind_run by reflexivity.
  subst g. destruct (beside_writable h0 _ _ false Hb) as (h1 & E1 & H1 & L1 & R1 & W1).
  erewrite bind_run by (by apply on_events_run).
  assert (Hn : net h0 h1 (connection_fd c) (connection_status c) (reconnect_timers c) (open (connection_fd c) false)).
  { split; [done |]. rewrite L1, R1. do 6 (split; [done |]). apply W1. by rewrite Hlook. }
  pose proof (stands_net [] c w w h1 _ _ _ _ sp H (same_refl w) Hn) as Hs.
  exact (flush_queue_ok _ _ w _ _ queue bs writes Hs eq_refl Hf E).
Qed.

(** ** Connections *)

Lemma stands_answers ms c w a sp : stands ms (c, w) sp -> stands ms (c, answer_with w a) sp.
Proof. intros []. by split. Qed.

Lemma agrees_same {X} ms w w' c c' (x : X) r spec : same_system w w' -> agrees ms (c', w') x r spec -> agrees ms (c, w) x r spec.
Proof. intros (E & _). by apply agrees_answers. Qed.

Lemma connected_ok c w sp g : stands [] (c, w) sp -> beside h0 (events c) g -> lookup_event (events c) g = None ->
  connection_fd c = g -> connection_status c = CONNECTING -> reconnect_timers c = [] -> valid_fd g ->
  agrees [] (c, w) tt (connected (client_function greet farewell) (c, w)) (spec_client greet (set_phase sp (open g false))).
Proof.
  intros H Hb Hn Hfd Hst Ht Hv. subst g. unfold connected.
  destruct (beside_set h0 _ _ (Some recv_callback) (Some flush_callback) Hb Hv Hn) as (h1 & E1 & H1 & L1).
  destruct (beside_readable h0 h1 _ true H1) as (h2 & E2 & H2 & L2 & _ & R2).
  destruct (beside_writable h0 h2 _ false H2) as (h3 & E3 & H3 & L3 & R3 & W3).
  erewrite (bind_run (transit_state CONNECTED)).
  2: { unfold transit_state, put. cbn [fst snd]. by rewrite Hst. }
  erewrite bind_run by (by apply on_events_run). erewrite bind_run by (by apply on_events_run).
  erewrite bind_run by (by apply on_events_run). erewrite bind_run by reflexivity. cbn [fst snd].
  assert (Hnet : net h0 h3 (connection_fd c) CONNECTED (reconnect_timers c) (open (connection_fd c) false)).
  { split; [done |]. rewrite L3, L2, R3. do 5 (split; [done |]). split; [apply R2; [by rewrite L1 | done] | apply W3; by rewrite L2, L1]. }
  pose proof (stands_net [] c w w h3 _ _ _ _ sp H (same_refl w) Hnet) as Hs.
  pose proof (client_step_ok [] greet _ _ Hs) as Hc. change (connected_function _) with (connected_function c).
  pose proof (st_connected _ _ _ H) as Ef. cbn [fst] in Ef. rewrite Ef. exact Hc.
Qed.

Lemma spec_try_phase ms c w w' h fd st timers sp : stands ms (c, w) sp -> same_system w w' -> net h0 h fd st timers (spec_try (system_answers w)) ->
  exists s, Ok (tt, (with_net c h fd st timers, w')) = Ok (tt, s) /\ stands ms s (set_phase sp (spec_try (system_answers w))) /\
    system_answers s.2 = system_answers w.
Proof. intros H Hs Hn. eexists. split; [reflexivity |]. split; [by eapply stands_net | apply Hs]. Qed.

Lemma check_connected_ok c w sp g : stands [] (c, w) sp -> sp_phase sp = opening g ->
  agrees [] (c, w) tt (check_connected (client_function greet farewell) (c, w)) (spec_step greet farewell answer sp (system_answers w, WriteReady)).
Proof.
  intros H Ep. pose proof (st_net _ _ _ H) as [Hb Hp]. rewrite Ep in Hp. cbn [fst] in *. destruct Hp as (Hst & Hfd & Hv & Ht & Hlook & Hw). subst g.
  unfold check_connected, spec_step. rewrite Ep.
  erewrite bind_run by reflexivity. pose proof (st_init _ _ _ H) as Hi. cbn [fst] in *. rewrite Hi.
  erewrite bind_run by reflexivity. erewrite bind_run by reflexivity. cbn [fst].
  replace (0 <=? connection_fd c) with true by (unfold valid_fd in Hv; lia). erewrite bind_run by reflexivity.
  destruct (beside_writable h0 _ _ false Hb) as (h1 & E1 & H1 & L1 & _). destruct (beside_delete h0 h1 _ H1) as (h2 & E2 & H2 & N2).
  erewrite bind_run by (by apply on_events_run). erewrite bind_run by (by apply on_events_run).
  erewrite bind_run by reflexivity. cbn [fst snd system_sockets socket_error].
  set (c1 := set_channel_events _ h2).
  assert (Hnet : net h0 h2 (connection_fd c) (connection_status c) (reconnect_timers c) stuck) by by split.
  pose proof (stands_net [] c w w h2 _ _ _ _ sp H (same_refl w) Hnet) as Hs. change (with_net c h2 _ _ _) with c1 in Hs.
  destruct (error_answer (system_answers w)) as [error |]; [| by exists (c1, w)].
  assert (Hback : agrees [] (c, w) tt (backoff (c1, w)) (Ok (set_phase sp backing_off))).
  { destruct (close_valid c1 w Hv) as (w' & -> & Hw'). eexists. split; [reflexivity |]. split; [| apply Hw'].
    apply (stands_net [] c1 w w' _ _ _ _ backing_off _ Hs Hw'). split; [done |]. cbn. by rewrite Ht. }
  destruct error as [[] |]; cbn [fate_of]; try exact Hback.
  - destruct (wait_ok h0 c1 w H2 Hv N2) as (h3 & -> & H3 & L3 & W3). eexists. split; [reflexivity |]. split; [| done].
    rewrite <- (phase_id sp), Ep. by apply (stands_net [] c1 w w _ _ _ _ (opening (connection_fd c)) _ Hs).
  - destruct (clear_ok h0 h0_wf c1 w H2) as (h3 & w' & -> & Hw' & H3 & L3). eexists. split; [reflexivity |]. split; [| apply Hw'].
    apply (stands_net [] c1 w w' _ _ _ _ down _ Hs Hw'). split; [done |]. change (reconnect_timers c1) with (reconnect_timers c). by rewrite Ht.
  - apply (connected_ok c1 w _ _ Hs); done.
Qed.

Lemma disconnected_ok c w sp g writes : stands [] (c, w) sp -> sp_phase sp = open g writes ->
  exists h w', disconnected (client_function greet farewell) (c, w) = Ok (tt, (with_net c h (-1) INIT [], w')) /\
    system_answers w' = system_answers w /\ beside h0 h (-1) /\ lookup_event h (-1) = None /\
    stands [] (with_net c h (-1) INIT [], w') (set_client (set_phase sp down) (farewell (sp_client sp))).
Proof.
  intros H Ep. pose proof (st_net _ _ _ H) as [Hb Hp]. rewrite Ep in Hp. cbn [fst] in *. destruct Hp as (Hst & Hfd & Hv & Ht & _).
  unfold disconnected. erewrite (bind_run (transit_state DISCONNECTED)).
  2: { unfold transit_state, put. cbn [fst snd]. by rewrite Hst. }
  erewrite bind_run by reflexivity. cbn [fst snd]. change (disconnected_function _) with (disconnected_function c).
  pose proof (st_disconnected _ _ _ H) as Ef. cbn [fst] in Ef. rewrite Ef. erewrite bind_run by reflexivity. cbn [fst snd].
  set (w1 := set_client_state w _). set (c1 := set_connection c _ _).
  cbn [valid_transition]. destruct (clear_ok h0 h0_wf c1 w1 Hb) as (h & w' & E & Hw' & H' & L'). exists h, w'. rewrite E. cbn [c1 reconnect_timers set_connection].
  rewrite Ht. split; [done |]. split; [apply Hw' |]. split; [done |]. split; [done |].
  assert (H1 : stands [] (c, w1) (set_client sp (farewell (sp_client sp)))).
  { pose proof (st_client _ _ _ H) as Ec. cbn [snd] in Ec. destruct H. split; try done. cbn. by rewrite Ec. }
  apply (stands_net [] c w1 w' h (-1) INIT [] down _ H1 Hw'). by split.
Qed.

(** ** Reading *)

Lemma frames_few (stream : bytes) ms rest : frames_of stream = Ok (ms, rest) -> Z.of_nat (List.length ms) <= blen stream.
Proof.
  intros E. apply frames_ok in E as (-> & H & _). rewrite blen_app. pose proof (blen_nonneg rest).
  enough (Z.of_nat (List.length ms) <= blen (concat ms)) by lia.
  induction H as [| m ms Hm _ IH]; [done |]. cbn [concat List.length]. rewrite blen_app. lia.
Qed.

Lemma recv_ready_ok c w sp g writes : stands [] (c, w) sp -> sp_phase sp = open g writes -> fresh_socket h0 (system_answers w) ->
  agrees [] (c, w) tt (recv_from_secure_channel (client_function greet farewell) (handle_with answer) (c, w))
    (spec_step greet farewell answer sp (system_answers w, ReadReady)).
Proof.
  intros H Ep Hf. pose proof (st_in _ _ _ H) as [(q & Hq & Hrep) Hfr]. cbn [fst] in *. pose proof (queue_rep_length _ _ _ Hrep) as Hl.
  unfold recv_from_secure_channel, spec_step. rewrite Ep. erewrite bind_run by reflexivity. cbn [fst]. rewrite Hq, Hl. cbn [List.length Z.of_nat].
  assert (Hb : exists b, (match fragment_buf (receiving_side c) with Some b => ret b | None => lift (alloc_buffer_with_length RECEIVE_BUFFFER_SIZE) end)
    (c, w) = Ok (b, (c, w)) /\ fragment b (sp_part sp) 0).
  { destruct (fragment_buf (receiving_side c)) as [b |]; [by exists b |]. rewrite Hfr. destruct new_fragment as (b & E & Hb). exists b. split; [by apply lift_run | done]. }
  destruct Hb as (b & Eb & Hb). change (0 <? u32 (Z.of_nat 0)) with false. cbv beta iota. erewrite bind_run by exact Eb. cbv beta zeta.
  set (r := Receiver _ _ (Some b)). erewrite bind_run by reflexivity. erewrite bind_run by reflexivity. cbn [fst snd].
  set (c1 := set_receiving c r). assert (H1 : stands [] (c1, w) sp). { destruct H. split; try done. split; [by exists q | done]. }
  erewrite bind_run by reflexivity. cbn [fst snd system_sockets read_fd]. rewrite (fragment_length _ _ _ Hb).
  destruct (bounded_read _ _) as [again | bs] eqn:Er; [by exists (c1, w) |].
  destruct (Z.eqb_spec (blen bs) 0) as [H0 | H0].
  - destruct (disconnected_ok c1 w sp g writes H1 Ep) as (h & w' & E & Ea & Hbs & Hn & Hs). erewrite bind_run by exact E.
    destruct (reconnect_ok h0 h0_wf (with_net c1 h (-1) INIT []) w' Hbs Hn) as (h2 & fd2 & st2 & t2 & w2 & E2 & Hs2 & Hnet);
      [by left | done | by rewrite Ea |].
    rewrite E2. rewrite Ea in Hnet. eexists. split; [reflexivity |]. split; [| etrans; [apply Hs2 | exact Ea]].
    apply (stands_net [] _ w' w2 _ _ _ _ (spec_try (system_answers w)) _ Hs Hs2 Hnet).
  - assert (Hfit : blen (sp_part sp) + blen bs <= RECEIVE_BUFFFER_SIZE).
    { pose proof (st_part _ _ _ H) as Hp. unfold bounded_read in Er. destruct (read_answer _); [done |]. injection Er as <-.
      unfold blen at 2. rewrite length_take. unfold RECEIVE_BUFFFER_SIZE, UINT16_MAX in *. lia. }
    pose proof (store_received_ok r b (sp_part sp) bs (ex_intro _ q (conj eq_refl Hrep)) Hb Hfit) as Hst.
    destruct (frames_of (sp_part sp ++ bs)) as [[ms rest] | f] eqn:Ef; [| unfold mbind at 1, lift; by rewrite Hst].
    destruct Hst as (r' & Est & Hin). erewrite bind_run by (apply lift_run; exact Est). erewrite bind_run by reflexivity. cbn [fst snd].
    pose proof (frames_few _ _ _ Ef) as Hfew. rewrite blen_app in Hfew. apply frames_ok in Ef as (_ & _ & Hrest).
    apply (agrees_answers _ (set_receiving c1 r', w)); [done |]. apply recv_messages_ok.
    + destruct H1. by split.
    + destruct Hin as [(q' & _ & Hrep') _]. by apply (queue_rep_fits _ q').
    + unfold RECEIVE_BUFFFER_SIZE, UINT16_MAX in Hfit. lia.
Qed.

(** ** Any event *)

Definition serves (r : res (unit * state)) (spec : res (spec_channel (A := A))) : Prop :=
  match spec with Ok sp => exists s, r = Ok (tt, s) /\ stands [] s sp | Fault f => r = Fault f end.

Lemma agrees_serves s r spec : agrees [] s tt r spec -> serves r spec.
Proof. unfold agrees, serves. destruct spec; [| done]. intros (s1 & E & H & _). by exists s1. Qed.

Lemma serve_ok c w sp e : stands [] (c, w) sp -> fresh_socket h0 (system_answers w) ->
  serves (serve (client_function greet farewell) (handle_with answer) e (c, w))
    (spec_step greet farewell answer sp (system_answers w, e)).
Proof.
  intros H Hf. pose proof (st_net _ _ _ H) as [Hb Hp]. cbn [fst] in *. unfold serve.
  erewrite bind_run by reflexivity. erewrite bind_run by reflexivity. cbn [fst snd].
  assert (Hsets : forall b (x : StateMonad.M (S := state) unit), b = false ->
    serves ((if b then x else ret tt) (c, w)) (Ok sp)) by (intros b x ->; by exists (c, w)).
  assert (Hoff : lookup_event (events c) (connection_fd c) = None ->
    EventHandler.readable (events c) (connection_fd c) = false /\ EventHandler.writable (events c) (connection_fd c) = false).
  { intros E. destruct (unregistered_sets _ _ (bs_wf _ _ _ Hb) E). split; by apply bool_decide_eq_false. }
  destruct e as [| | | m].
  - erewrite bind_run by reflexivity. cbn [fst]. unfold spec_step.
    destruct (sp_phase sp) as [| g | | | g writes] eqn:Ep.
    1: destruct Hp as (_ & _ & -> & _); by exists (c, w).
    1: destruct Hp as (_ & _ & _ & -> & _); by exists (c, w).
    2: destruct Hp as (_ & _ & -> & _); by exists (c, w).
    2: destruct Hp as (_ & _ & _ & -> & _); by exists (c, w).
    destruct Hp as (Hst & Hv & -> & Hn). erewrite bind_run by reflexivity. cbn [fst snd].
    destruct (reconnect_ok h0 h0_wf (set_timers c []) w Hb Hn) as (h2 & fd2 & st2 & t2 & w2 & E2 & Hs2 & Hnet);
      [by right | done | done |].
    rewrite E2. change (with_net (set_timers c []) h2 fd2 st2 t2) with (with_net c h2 fd2 st2 t2). apply (agrees_serves (c, w)). by apply (spec_try_phase [] c w w2).
  - destruct (sp_phase sp) as [| g | | | g writes] eqn:Ep; cbn [spec_step]; rewrite ?Ep.
    1, 3, 4: by apply Hsets, Hoff, Hp.
    + destruct Hp as (_ & Hfd & _ & _ & Hlook & _). subst g. apply Hsets, bool_decide_eq_false. intros Hin.
      apply (wh_read _ (bs_wf _ _ _ Hb)) in Hin as (e & He & [x Hx]). rewrite Hlook in He. by injection He as <-.
    + pose proof Hp as (_ & Hfd & Hv & _ & Hlook & Hr & _). subst g. unfold EventHandler.readable. rewrite bool_decide_eq_true_2 by done.
      erewrite bind_run by (apply lift_run; by apply (get_callback_ok _ _ _ (bs_wf _ _ _ Hb))). rewrite Hlook. cbn [mbind option_bind read_callback run_callback].
      pose proof (recv_ready_ok c w sp _ writes H Ep Hf) as Hr'. cbn [spec_step] in Hr'. apply (agrees_serves (c, w)). by rewrite Ep in Hr'.
  - destruct (sp_phase sp) as [| g | | | g writes] eqn:Ep.
    1, 3, 4: unfold spec_step; rewrite Ep; by apply Hsets, Hoff, Hp.
    + pose proof Hp as (_ & Hfd & Hv & _ & Hlook & Hw). subst g. unfold EventHandler.writable. rewrite bool_decide_eq_true_2 by done.
      erewrite bind_run by (apply lift_run; by apply (get_callback_ok _ _ _ (bs_wf _ _ _ Hb))). rewrite Hlook.
      apply (agrees_serves (c, w)). by apply (check_connected_ok c w sp (connection_fd c)).
    + pose proof Hp as (_ & Hfd & Hv & _ & Hlook & _ & Hw). subst g. unfold EventHandler.writable.
      destruct writes.
      * rewrite bool_decide_eq_true_2 by by apply Hw.
        erewrite bind_run by (apply lift_run; by apply (get_callback_ok _ _ _ (bs_wf _ _ _ Hb))). rewrite Hlook.
        pose proof (flush_send_queue_ok c w sp _ H Ep) as Hfl. unfold spec_step. rewrite Ep. destruct (spec_flush _ _) as [[queue bs] wr].
        exact Hfl.
      * unfold spec_step. rewrite Ep. apply Hsets, bool_decide_eq_false. intros Hin. by apply Hw in Hin.
  - unfold spec_step. pose proof (send_step [] (c, w) sp m H) as Hs.
    assert (E : spec_send sp m = match sp_phase sp with _ => spec_send sp m end) by by destruct (sp_phase sp).
    destruct (sp_phase sp) eqn:Ep; unfold agrees, serves in *; destruct (spec_send sp m) as [sp1 | f]; try (unfold StateMonad.mbind; by rewrite Hs);
      destruct Hs as (s1 & Es & Hs1 & _); exists s1; (split; [by erewrite bind_run by exact Es | done]).
Qed.
End Simulation.
