(* ===== verification/ChannelRuns.v ===== *)
(** Sequences of events of the channel of SwitchChannel: the refinement of the
    machine of ChannelPhases by the code, what becomes of a message that waits
    when a connection ends, and the connection that opens again. *)

From Stdlib Require Import ZArith Lia Bool.
From coqutil Require Import Byte.
From stdpp Require Import base list gmap fin_sets.
From S2P Require Import Prelude Memory StateMonad OpenFlow ByteOrder Buffer LinkedList MessageQueue EventHandler SecureChannel SwitchChannel ChannelPhases.

(** ** Runs *)

Section Runs.
Context {host : Host} {A : Type} (h0 : handlers).
Context (greet : A -> list bytes * A) (farewell : A -> A) (answer : bytes -> A -> list bytes * A).
Hypothesis h0_wf : wf_handler h0.
Abbreviation state := (channel * system A)%type.
Abbreviation step := (spec_step greet farewell answer).
Abbreviation run := (spec_run greet farewell answer).
Abbreviation serve_events := (serve_all greet farewell answer).
Abbreviation event := (answers * channel_event)%type.
Implicit Types (s : state) (sp : spec_channel (A := A)) (w : system A) (es : list event) (a : answers).

Definition fresh_answers (e : event) : Prop := fresh_socket h0 e.1.

Lemma serve_all_ok es s sp : stands h0 [] s sp -> Forall fresh_answers es -> serves h0 (serve_events es s) (run sp es).
Proof.
  intros H Hes. revert s sp H. induction Hes as [| [a e] es He _ IH]; intros s sp H; cbn [serve_all spec_run]; [by exists s |].
  destruct s as [c w]. pose proof (serve_ok h0 greet farewell answer h0_wf c (answer_with w a) sp e (stands_answers h0 [] c w a sp H) He) as Hs.
  cbn [answer_with system_answers] in Hs. unfold serves at 1 in Hs. unfold mbind, serve_with. cbn [fst snd].
  destruct (step sp (a, e)) as [sp1 | f]; [| by rewrite Hs]. destruct Hs as (s1 & -> & H1). by apply IH.
Qed.

Lemma serves_run es s sp s' : stands h0 [] s sp -> Forall fresh_answers es -> serve_events es s = Ok (tt, s') ->
  exists sp', run sp es = Ok sp' /\ stands h0 [] s' sp'.
Proof.
  intros H Hes E. pose proof (serve_all_ok es s sp H Hes) as Hr. unfold serves in Hr. destruct (run sp es) as [sp' |]; [| congruence].
  destruct Hr as (s1 & E1 & H1). exists sp'. split; [done |]. congruence.
Qed.

Definition opened_with (w : system A) : spec_channel :=
  SpecChannel (spec_try (system_answers w)) [] [] (client_state w) (written w).

Lemma start_ok ip port w : fresh_socket h0 (system_answers w) ->
  exists ok s, start_channel ip port (zero_channel h0, w) = Ok (ok, s) /\ ok = (match spec_try (system_answers w) with down => false | _ => true end) /\
    (ok = true -> stands h0 [] s (opened_with w)).
Proof.
  intros Hf. unfold start_channel, init_secure_channel. erewrite bind_run by reflexivity. erewrite bind_run by reflexivity.
  erewrite bind_run by reflexivity. cbn [fst snd]. set (c0 := Channel ip port (-1) _ _ _ _ _ _ _ _).
  assert (Hb : beside h0 (events c0) (connection_fd c0)) by (apply beside_refl; [done | by apply no_descriptor]).
  destruct (connection_try_ok h0 h0_wf c0 w Hb) as (b & h1 & fd1 & st1 & t1 & w1 & E & Hs & -> & Hr); [by apply no_descriptor | by left | done | done |].
  erewrite bind_run by exact E. set (ok := match spec_try _ with down => false | _ => true end) in *. destruct ok; cbn [negb].
  - erewrite bind_run by reflexivity. erewrite bind_run by reflexivity. erewrite bind_run by reflexivity. cbn [fst snd].
    eexists true, _. split; [reflexivity |]. split; [done |]. intros _.
    pose proof (create_queue_ok (M := positive) ∅) as Ho. pose proof (create_queue_ok (M := bytes) ∅) as Hi.
    destruct Hs as (Ha & Hw & Hc).
    split; cbn; try done.
    + exists []. split; [| done]. split; cbn; [by eexists | constructor | done | done | done].
    + split; [by eexists | done].
  - destruct Hr as [Hr ->]. destruct (clear_ok h0 h0_wf (with_net c0 h1 fd1 st1 []) w1 Hr) as (h2 & w2 & E2 & _).
    erewrite bind_run by exact E2. by eexists false, _.
Qed.

(** *** The loops end *)

Lemma spec_send_all_fault l sp f : spec_send_all sp l = Fault f -> f = AssertFailed.
Proof.
  revert sp. induction l as [| m l IH]; intros sp; cbn [spec_send_all]; [done |]. unfold spec_send.
  destruct (sp_phase sp); try (intros [= <-]; done). destruct (0 <? blen m); [apply IH | by intros [= <-]].
Qed.

Lemma spec_handle_fault ms sp f : spec_handle answer sp ms = Fault f -> f = AssertFailed.
Proof.
  revert sp. induction ms as [| m ms IH]; intros sp; cbn [spec_handle]; [done |]. unfold spec_client. destruct (answer m _) as [l x].
  destruct (spec_send_all _ l) eqn:E; [apply IH |]. intros [= <-]. by eapply spec_send_all_fault.
Qed.

Lemma frames_fault fuel stream f : frames fuel stream = Fault f -> f = AssertFailed \/ f = OutOfFuel.
Proof.
  revert stream. induction fuel as [| fuel IH]; intros stream; cbn [frames]; [intros [= <-]; by right |].
  destruct (Z.ltb_spec (blen stream) 8) as [| H8]; [done |]. destruct (stream_header stream H8) as (n & -> & Hn). bind_ok.
  destruct (blen stream <? n); [done |]. destruct (n =? 0); [intros [= <-]; by left |].
  destruct (frames fuel _) as [[ms rest] |] eqn:E; [done |]. intros [= <-]. by apply IH in E.
Qed.

Lemma spec_step_fault sp e f : step sp e = Fault f -> f = AssertFailed.
Proof.
  destruct e as [a e]. unfold spec_step. destruct e as [| | | m].
  - by destruct (sp_phase sp).
  - destruct (sp_phase sp); try done. destruct (bounded_read _ _) as [| bs]; [done |]. destruct (blen bs =? 0); [done |].
    unfold frames_of. destruct (frames _ _) as [[ms rest] |] eqn:E; [apply spec_handle_fault |]. intros [= <-].
    pose proof E as E'. apply frames_fault in E as [-> | ->]; [done |]. by apply frames_total in E'; [| lia].
  - destruct (sp_phase sp) as [| g | | | g []]; try done.
    + destruct (error_answer a) as [error |]; [| done]. destruct (fate_of error); try done. unfold spec_client.
      destruct (greet _) as [l x]. apply spec_send_all_fault.
    + by destruct (spec_flush _ _) as [[queue bs] writes].
  - unfold spec_send. destruct (sp_phase sp); try (by intros [= <-]). destruct (0 <? blen m); [done | by intros [= <-]].
Qed.

Lemma spec_run_fault es sp f : run sp es = Fault f -> f = AssertFailed.
Proof.
  revert sp. induction es as [| e es IH]; intros sp; cbn [spec_run]; [done |].
  destruct (step sp e) eqn:E; [apply IH |]. intros [= <-]. by eapply spec_step_fault.
Qed.

(** *** A channel that writes no more *)

Lemma spec_send_all_queue l sp sp' : spec_send_all sp l = Ok sp' ->
  exists p, sp' = set_queue sp p (sp_queue sp ++ l) /\
    (sp_queue sp <> [] -> Z.of_nat (List.length (sp_queue sp ++ l)) < 2 ^ 32 -> p = sp_phase sp).
Proof.
  revert sp. induction l as [| m l IH]; intros sp; cbn [spec_send_all].
  - intros [= <-]. exists (sp_phase sp). rewrite app_nil_r. by destruct sp.
  - unfold spec_send. destruct (sp_phase sp) as [| | | | fd writes] eqn:Ep; try done. destruct (0 <? blen m); [| done]. bind_ok.
    intros E. apply IH in E as (p & -> & Hp). cbn [sp_queue set_queue sp_phase] in Hp. exists p. rewrite <- app_assoc in Hp. cbn [app] in Hp.
    split; [unfold set_queue; cbn; by rewrite <- app_assoc |]. intros Hne Hlen. rewrite Hp; [| by destruct (sp_queue sp) | done].
    f_equal. unfold u32. rewrite length_app in Hlen. cbn [List.length] in Hlen. rewrite Z.mod_small by lia.
    destruct (sp_queue sp); [done |]. cbn [List.length]. destruct writes; [done |]. cbn [orb]. apply Z.eqb_neq. lia.
Qed.

Definition mute sp : Prop := sp_queue sp <> [] /\ match sp_phase sp with open _ true => False | _ => True end.

(** More may wait, nothing is written and it stays so. *)
Definition muted sp sp' : Prop :=
  sp_written sp' = sp_written sp /\ (exists l, sp_queue sp' = sp_queue sp ++ l) /\
  (Z.of_nat (List.length (sp_queue sp')) < 2 ^ 32 -> mute sp').

Lemma muted_phase sp p x part : mute sp -> match p with open _ true => False | _ => True end ->
  muted sp (SpecChannel p part (sp_queue sp) x (sp_written sp)).
Proof. intros [Hq _] Hp. split; [done |]. split; [exists []; by rewrite app_nil_r |]. by split. Qed.

Lemma muted_client f sp sp' : mute sp -> spec_client f sp = Ok sp' -> muted sp sp'.
Proof.
  intros [Hq Hp] E. unfold spec_client in E. destruct (f (sp_client sp)) as [l x]. apply spec_send_all_queue in E as (p & -> & Hsame).
  cbn [sp_queue set_client sp_phase] in *. split; [done |]. split; [by exists l |]. cbn [set_queue sp_queue]. intros Hlen. split; cbn.
  - by destruct (sp_queue sp).
  - by rewrite (Hsame Hq Hlen).
Qed.

Lemma muted_trans sp sp1 sp2 : muted sp sp1 -> (mute sp1 -> muted sp1 sp2) -> Z.of_nat (List.length (sp_queue sp1)) < 2 ^ 32 -> muted sp sp2.
Proof.
  intros (Hw & (l & Hq) & Hm) H2 Hlen. destruct (H2 (Hm Hlen)) as (Hw2 & (l2 & Hq2) & Hm2).
  split; [congruence |]. split; [exists (l ++ l2); by rewrite Hq2, Hq, app_assoc | done].
Qed.

Lemma spec_client_queue f sp sp' : spec_client f sp = Ok sp' -> exists l, sp_queue sp' = sp_queue sp ++ l.
Proof. unfold spec_client. destruct (f (sp_client sp)) as [l x]. intros E. apply spec_send_all_queue in E as (p & -> & _). by exists l. Qed.

Lemma spec_handle_queue ms sp sp' : spec_handle answer sp ms = Ok sp' -> exists l, sp_queue sp' = sp_queue sp ++ l.
Proof.
  revert sp. induction ms as [| m ms IH]; intros sp; cbn [spec_handle]; [intros [= <-]; exists []; by rewrite app_nil_r |].
  destruct (spec_client (answer m) sp) as [sp1 |] eqn:E; [| done]. bind_ok. intros (l2 & E2)%IH. apply spec_client_queue in E as (l1 & E1).
  exists (l1 ++ l2). by rewrite E2, E1, app_assoc.
Qed.

Lemma muted_handle ms sp sp' : mute sp -> spec_handle answer sp ms = Ok sp' -> Z.of_nat (List.length (sp_queue sp')) < 2 ^ 32 -> muted sp sp'.
Proof.
  revert sp. induction ms as [| m ms IH]; intros sp Hm E Hlen; cbn [spec_handle] in E.
  - injection E as <-. pose proof (muted_phase sp (sp_phase sp) (sp_client sp) (sp_part sp) Hm) as H. destruct sp. apply H, Hm.
  - destruct (spec_client (answer m) sp) as [sp1 |] eqn:E1; [| done]. cbn [bind] in E. apply (muted_trans _ sp1); [by eapply muted_client | |].
    + intros Hm1. by apply IH.
    + apply spec_handle_queue in E as (l & El). rewrite El, length_app in Hlen. lia.
Qed.

Lemma spec_try_not_open a : match spec_try a with open _ true => False | _ => True end.
Proof. unfold spec_try. destruct (_ || _); [done |]. by destruct (fate_of _). Qed.

Lemma muted_step sp e sp' : mute sp -> step sp e = Ok sp' -> Z.of_nat (List.length (sp_queue sp')) < 2 ^ 32 -> muted sp sp'.
Proof.
  intros Hm. destruct e as [a e]. unfold spec_step.
  assert (Hsame : muted sp sp).
  { pose proof (muted_phase sp (sp_phase sp) (sp_client sp) (sp_part sp) Hm) as H. destruct sp. apply H, Hm. }
  destruct e as [| | | m].
  - destruct (sp_phase sp); intros [= <-] _; try done. apply (muted_phase sp); [done | apply spec_try_not_open].
  - destruct (sp_phase sp) as [| | | | fd writes] eqn:Ep; try by intros [= <-]. destruct (bounded_read _ _) as [| bs]; [by intros [= <-] |].
    destruct (blen bs =? 0); [intros [= <-] _; apply (muted_phase sp); [done | apply spec_try_not_open] |].
    destruct (frames_of _) as [[ms rest] |]; [| done]. bind_ok. intros E Hlen.
    assert (Hm1 : mute (set_part sp rest)) by done. destruct (muted_handle ms _ _ Hm1 E Hlen) as (H1 & H2 & H3). by split_and!.
  - pose proof Hm as [Hq Hp]. destruct (sp_phase sp) as [| g | | | g []] eqn:Ep; try done; try by intros [= <-].
    destruct (error_answer a) as [error |]; [| by intros [= <-]; intros _; apply (muted_phase sp)].
    destruct (fate_of error); try (intros [= <-] _; try done; by apply (muted_phase sp)).
    intros E _. assert (Hm1 : mute (set_phase sp (open g false))) by done. by apply (muted_client _ _ _ Hm1) in E.
  - intros E _. assert (E' : spec_send_all sp [m] = Ok sp') by (cbn [spec_send_all]; by rewrite E).
    apply spec_send_all_queue in E' as (p & -> & Hp). destruct Hm as [Hq Hph]. split; [done |]. split; [by exists [m] |].
    cbn [sp_queue set_queue]. intros Hlen. split; cbn; [by destruct (sp_queue sp) | by rewrite (Hp Hq Hlen)].
Qed.

Lemma muted_run es sp sp' : mute sp -> run sp es = Ok sp' ->
  (forall n sp1, run sp (take n es) = Ok sp1 -> Z.of_nat (List.length (sp_queue sp1)) < 2 ^ 32) -> sp_written sp' = sp_written sp.
Proof.
  revert sp. induction es as [| e es IH]; intros sp Hm E Hb; cbn [spec_run] in E; [by injection E as <- |].
  destruct (step sp e) as [sp1 |] eqn:E1; [| done]. cbn [bind] in E.
  assert (Hl : Z.of_nat (List.length (sp_queue sp1)) < 2 ^ 32) by (apply (Hb 1%nat); cbn; by rewrite E1).
  destruct (muted_step sp e sp1 Hm E1 Hl) as (Hw & _ & Hm1). rewrite <- Hw. apply IH; [by apply Hm1 | done |].
  intros n sp2 E2. apply (Hb (S n)). cbn [take spec_run]. rewrite E1. exact E2.
Qed.

(** *** A connection that is opened again *)

Definition reliable a : Prop :=
  fresh_socket h0 a /\ 0 <= socket_answer a /\ nodelay_answer a = true /\ nonblocking_answer a = true /\
  fate_of (connect_answer a) <> failed /\ exists error, error_answer a = Some error /\ fate_of error <> failed.

Definition hopeful p : Prop := match p with down | stuck => False | _ => True end.

Lemma spec_try_hopeful a : reliable a -> hopeful (spec_try a).
Proof.
  intros (_ & Hs & Hd & Hb & Hc & _). unfold spec_try. rewrite Hd, Hb. replace (socket_answer a <? 0) with false by lia. cbn [orb negb].
  by destruct (fate_of _).
Qed.

Definition is_open p : Prop := match p with open _ _ => True | _ => False end.

Lemma spec_send_all_open l sp sp' : spec_send_all sp l = Ok sp' -> sp_phase sp' = sp_phase sp \/ is_open (sp_phase sp').
Proof.
  revert sp. induction l as [| m l IH]; intros sp; cbn [spec_send_all]; [intros [= <-]; by left |]. unfold spec_send.
  destruct (sp_phase sp) eqn:Ep; try done. destruct (0 <? blen m); [| done]. bind_ok. intros [E | E]%IH; [right; by rewrite E | by right].
Qed.

Lemma spec_client_open f sp sp' : spec_client f sp = Ok sp' -> is_open (sp_phase sp) -> is_open (sp_phase sp').
Proof. unfold spec_client. destruct (f (sp_client sp)) as [l x]. intros [E | E]%spec_send_all_open; [by rewrite E | done]. Qed.

Lemma spec_handle_open ms sp sp' : spec_handle answer sp ms = Ok sp' -> is_open (sp_phase sp) -> is_open (sp_phase sp').
Proof.
  revert sp. induction ms as [| m ms IH]; intros sp; cbn [spec_handle]; [by intros [= <-] |].
  destruct (spec_client (answer m) sp) as [sp1 |] eqn:E; [| done]. bind_ok. intros E2 Ho. apply (IH sp1); [done | by eapply spec_client_open].
Qed.

Lemma hopeful_open p : is_open p -> hopeful p.
Proof. by destruct p. Qed.

Lemma hopeful_step sp a e sp' : reliable a -> hopeful (sp_phase sp) -> step sp (a, e) = Ok sp' -> hopeful (sp_phase sp').
Proof.
  intros Ha Hp. pose proof (spec_try_hopeful a Ha) as Ht. destruct Ha as (_ & _ & _ & _ & _ & error & He & Hef). unfold spec_step.
  destruct (sp_phase sp) as [| g | | | g writes] eqn:Ep; destruct e as [| | | m]; try done; try (intros [= <-]; by rewrite ?Ep);
    try (unfold spec_send; by rewrite Ep).
  - rewrite He. destruct (fate_of error); try done; try (intros [= <-]; by rewrite ?Ep).
    intros E. apply hopeful_open. by eapply spec_client_open.
  - destruct (bounded_read _ _) as [| bs]; [intros [= <-]; by rewrite Ep |]. destruct (blen bs =? 0); [by intros [= <-] |].
    destruct (frames_of _) as [[ms rest] |]; [| done]. bind_ok. intros E. apply hopeful_open. eapply spec_handle_open; [done |]. cbn. by rewrite Ep.
  - destruct writes; [| intros [= <-]; by rewrite Ep]. destruct (spec_flush _ _) as [[queue bs] wr]. by intros [= <-].
  - unfold spec_send. rewrite Ep. destruct (0 <? blen m); [| done]. by intros [= <-].
Qed.

Lemma hopeful_run es sp sp' : Forall (fun e => reliable e.1) es -> hopeful (sp_phase sp) -> run sp es = Ok sp' -> hopeful (sp_phase sp').
Proof.
  intros Hes. revert sp. induction Hes as [| [a e] es He _ IH]; intros sp Hp; cbn [spec_run]; [by intros [= <-] |].
  destruct (step sp (a, e)) as [sp1 |] eqn:E; [| done]. bind_ok. intros E2. apply (IH sp1); [by eapply hopeful_step | done].
Qed.

Definition greets_well : Prop := forall x, Forall (fun m => 0 < blen m) (greet x).1.

Lemma spec_send_all_ok l sp : is_open (sp_phase sp) -> Forall (fun m => 0 < blen m) l -> exists sp', spec_send_all sp l = Ok sp' /\ is_open (sp_phase sp').
Proof.
  intros Ho Hl. revert sp Ho. induction Hl as [| m l Hm _ IH]; intros sp Ho; cbn [spec_send_all]; [by exists sp |].
  unfold spec_send. destruct (sp_phase sp); try done. replace (0 <? blen m) with true by lia. bind_ok. by apply IH.
Qed.

Lemma opens_again sp a a' : greets_well -> hopeful (sp_phase sp) -> reliable a -> fate_of (connect_answer a) <> retried ->
  error_answer a' = Some None -> exists sp', run sp [(a, Expire); (a', WriteReady)] = Ok sp' /\ is_open (sp_phase sp').
Proof.
  intros Hg Hp Ha Hc He. cbn [spec_run].
  assert (E : exists sp1, step sp (a, Expire) = Ok sp1 /\ match sp_phase sp1 with opening _ | open _ _ => True | _ => False end).
  { unfold spec_step. destruct (sp_phase sp) as [| g | | | g wr] eqn:Ep; try done; [exists sp; by rewrite Ep | | exists sp; by rewrite Ep].
    eexists. split; [done |]. cbn. destruct Ha as (_ & Hs & Hd & Hb & Hf & _). unfold spec_try. rewrite Hd, Hb.
    replace (socket_answer a <? 0) with false by lia. cbn [orb negb]. by destruct (fate_of _). }
  destruct E as (sp1 & -> & Hp1). bind_ok. unfold spec_step. destruct (sp_phase sp1) as [| g | | | g wr] eqn:Ep; try done.
  - rewrite He. cbn [fate_of]. unfold spec_client. pose proof (Hg (sp_client (set_phase sp1 (open g false)))) as Hl. destruct (greet _) as [l x].
    destruct (spec_send_all_ok l (set_client (set_phase sp1 (open g false)) x)) as (sp2 & -> & H2); [done | done |]. by exists sp2.
  - destruct wr; [| exists sp1; by rewrite Ep]. destruct (spec_flush _ _) as [[queue bs] w]. by eexists.
Qed.

(** What the concrete state shows of a phase. *)
Lemma stands_open s sp : stands h0 [] s sp -> connection_status s.1 = CONNECTED <-> is_open (sp_phase sp).
Proof.
  intros H. pose proof (st_net _ _ _ _ H) as [_ Hp]. destruct (sp_phase sp); destruct Hp as (-> & _); done.
Qed.

Lemma stands_waiting s sp : stands h0 [] s sp -> size (out_bufs (sending_side s.1)) = List.length (sp_queue sp).
Proof.
  intros H. destruct (st_out _ _ _ _ H) as (l & [_ Hnd Hb _ _] & <-). cbn in Hb. rewrite Hb, length_fmap.
  by rewrite map_size_list_to_map.
Qed.
End Runs.

(** * Properties *)

(** The number of messages that wait to be sent. *)
Definition waiting {A} (s : channel * system A) : Z := Z.of_nat (size (out_bufs (sending_side s.1))).

(** C13. Whatever the system answers and whatever happens to the channel, from its
    start the code does what a machine on lists and five phases does. A
    connection that is refused is opened again when the timer of five seconds
    expires, one that the controller closes at once; the functions of the client
    are called when it opens and closes; the bytes read are cut into the
    messages that their headers say, handled in order; the messages sent wait in
    one list that the socket takes bytes from. The entries of other descriptors
    in the event handler are left as they were. The process stops only by an
    assertion, for an empty message or one sent without a connection, and every
    loop ends. *)
Theorem secure_channel_refines {host : Host} {A : Type} (h0 : handlers) (greet : A -> list bytes * A) (farewell : A -> A)
    (answer : bytes -> A -> list bytes * A) (w : system A) ip port es :
  wf_handler h0 -> fresh_socket h0 (system_answers w) -> Forall (fresh_answers h0) es ->
  exists ok s, start_channel ip port (zero_channel h0, w) = Ok (ok, s) /\ (ok = false <-> spec_try (system_answers w) = down) /\
    (ok = true ->
      match spec_run greet farewell answer (opened_with w) es with
      | Ok sp => exists s', serve_all greet farewell answer es s = Ok (tt, s') /\ stands h0 [] s' sp
      | Fault f => f = AssertFailed /\ serve_all greet farewell answer es s = Fault f
      end).
Proof.
  intros H0 Hf Hes. destruct (start_ok h0 H0 ip port w Hf) as (ok & s & E & Hok & Hs). exists ok, s. split; [done |]. split.
  - rewrite Hok. by destruct (spec_try _).
  - intros Ht. pose proof (serve_all_ok h0 greet farewell answer H0 es s _ (Hs Ht) Hes) as Hr. unfold serves in Hr.
    destruct (spec_run _ _ _ _ es) eqn:Er; [done |]. split; [by eapply spec_run_fault | done].
Qed.

(** C14. A message that waits when a connection ends blocks the channel for ever:
    whatever happens then, connections opened again and messages sent included,
    not a byte is written any more, as long as the 32-bit count of the queue does
    not wrap. The queue is kept, a new connection does not wait to be writable,
    and a message makes it wait only if the queue is empty. *)
Theorem waiting_message_blocks_channel {host : Host} {A : Type} (h0 : handlers) (greet : A -> list bytes * A) (farewell : A -> A)
    (answer : bytes -> A -> list bytes * A) (w : system A) ip port es es' s0 s s' :
  wf_handler h0 -> fresh_socket h0 (system_answers w) -> Forall (fresh_answers h0) (es ++ es') ->
  start_channel ip port (zero_channel h0, w) = Ok (true, s0) ->
  serve_all greet farewell answer es s0 = Ok (tt, s) -> connection_status s.1 <> CONNECTED -> 0 < waiting s ->
  serve_all greet farewell answer es' s = Ok (tt, s') ->
  (forall n s1, serve_all greet farewell answer (take n es') s = Ok (tt, s1) -> waiting s1 < 2 ^ 32) ->
  written s'.2 = written s.2.
Proof.
  intros H0 Hf [Hes Hes']%Forall_app Es Er Hc Hw Er' Hb. destruct (start_ok h0 H0 ip port w Hf) as (ok & s0' & E & _ & Hs).
  rewrite Es in E. injection E as <- <-. specialize (Hs eq_refl).
  destruct (serves_run h0 greet farewell answer H0 es s0 _ s Hs Hes Er) as (sp & _ & Hsp).
  destruct (serves_run h0 greet farewell answer H0 es' s sp s' Hsp Hes' Er') as (sp' & Ep' & Hsp').
  rewrite (st_written _ _ _ _ Hsp'), (st_written _ _ _ _ Hsp). apply (muted_run greet farewell answer es' sp sp'); [| done |].
  - pose proof (stands_waiting h0 s sp Hsp) as Hl. unfold waiting in Hw. split; [intros E; rewrite E in Hl; cbn in Hl; lia |].
    rewrite (stands_open h0 s sp Hsp) in Hc. by destruct (sp_phase sp).
  - intros n sp1 E1. pose proof (serve_all_ok h0 greet farewell answer H0 (take n es') s sp Hsp (Forall_take _ _ _ Hes')) as Hn.
    unfold serves in Hn. rewrite E1 in Hn. destruct Hn as (s1 & En & Hs1). pose proof (Hb n s1 En) as Hlt. unfold waiting in Hlt.
    by rewrite (stands_waiting h0 s1 sp1 Hs1) in Hlt.
Qed.

(** C15. The channel never gives its controller up: if sockets can be made and
    connections fail only for the reasons that the code expects, then after any
    events a connection opens as soon as the controller takes one, when the timer
    has expired, if there is one, and the socket is writable; and the loop waits
    for what comes from it. *)
Theorem connection_opened_again {host : Host} {A : Type} (h0 : handlers) (greet : A -> list bytes * A) (farewell : A -> A)
    (answer : bytes -> A -> list bytes * A) (w : system A) ip port es a a' s0 s :
  wf_handler h0 -> reliable h0 (system_answers w) -> Forall (fun e => reliable h0 e.1) es -> greets_well greet ->
  start_channel ip port (zero_channel h0, w) = Ok (true, s0) -> serve_all greet farewell answer es s0 = Ok (tt, s) ->
  reliable h0 a -> fate_of (connect_answer a) <> retried -> reliable h0 a' -> error_answer a' = Some None ->
  exists s', serve_all greet farewell answer [(a, Expire); (a', WriteReady)] s = Ok (tt, s') /\
    connection_status s'.1 = CONNECTED /\ connection_fd s'.1 ∈ event_read_set (events s'.1).
Proof.
  intros H0 Hw Hes Hg Es Er Ha Hc Ha' He. destruct (start_ok h0 H0 ip port w (proj1 Hw)) as (ok & s0' & E & _ & Hs).
  rewrite Es in E. injection E as <- <-. specialize (Hs eq_refl).
  assert (Hes' : Forall (fresh_answers h0) es) by (eapply Forall_impl; [exact Hes |]; intros e He'; apply He').
  destruct (serves_run h0 greet farewell answer H0 es s0 _ s Hs Hes' Er) as (sp & Ep & Hsp).
  assert (Hp : hopeful (sp_phase sp)).
  { eapply (hopeful_run h0 greet farewell answer es); [exact Hes | | exact Ep]. by apply (spec_try_hopeful h0). }
  destruct (opens_again h0 greet farewell answer sp a a' Hg Hp Ha Hc He) as (sp' & Ep' & Ho).
  assert (Hf2 : Forall (fresh_answers h0) [(a, Expire); (a', WriteReady)]) by (constructor; [apply Ha | constructor; [apply Ha' | constructor]]).
  pose proof (serve_all_ok h0 greet farewell answer H0 _ s sp Hsp Hf2) as Hn. unfold serves in Hn. rewrite Ep' in Hn.
  destruct Hn as (s' & En & Hs'). exists s'. split; [done |]. split; [by apply (stands_open h0 s' sp' Hs') |].
  pose proof (st_net _ _ _ _ Hs') as [_ Hnet]. destruct (sp_phase sp'); try done. destruct Hnet as (_ & -> & _ & _ & _ & Hr & _). done.
Qed.

(** * Examples and witnesses *)

Definition sample_handlers : handlers := init_event_handler zero_event_handler.

(** A client that says hello on each connection and keeps the messages that
    come. *)
Definition sample_hello : bytes := map byte.of_Z [1; 0; 0; 8; 0; 0; 0; 1].
Definition sample_greet (log : list bytes) : list bytes * list bytes := ([sample_hello], log).
Definition sample_farewell (log : list bytes) : list bytes := log ++ [[]].
Definition sample_answer (m : bytes) (log : list bytes) : list bytes * list bytes := ([m], log ++ [m]).

(** Socket 7, whose connection takes time and succeeds. *)
Definition sample_answers (result : read_result) (l : list write_answer) : answers :=
  Answers 7 true true (Some EINPROGRESS) (Some None) result l.
Definition sample_system : system (list bytes) := System (sample_answers (ReadError true) []) [] [] [].
Definition quiet : answers := sample_answers (ReadError true) [].

Definition sample_start {host : Host} : channel * system (list bytes) :=
  match start_channel 1 6633 (zero_channel sample_handlers, sample_system) with Ok (_, s) => s | Fault _ => (zero_channel sample_handlers, sample_system) end.

Definition sample_events : list (answers * channel_event) :=
  [(quiet, WriteReady); (sample_answers (Received (map byte.of_Z [1; 2; 0])) [], ReadReady);
   (sample_answers (ReadError true) [Take_bytes 3], WriteReady);
   (sample_answers (Received (map byte.of_Z [8; 0; 0; 0; 9])) [], ReadReady);
   (sample_answers (ReadError true) [Take_bytes 100; Take_bytes 100], WriteReady);
   (sample_answers (Received []) [], ReadReady)].

(** A greeting that cannot be written before the controller closes the
    connection. *)
Definition sample_broken : list (answers * channel_event) := [(quiet, WriteReady); (sample_answers (Received []) [], ReadReady)].
Definition sample_after : list (answers * channel_event) :=
  [(quiet, WriteReady); (sample_answers (ReadError true) [Take_bytes 100], WriteReady); (quiet, Send_message sample_hello);
   (sample_answers (ReadError true) [Take_bytes 100], WriteReady)].

Section Samples.
Let host : Host := LittleEndian.
#[local] Existing Instance host.

Definition sample_run (es : list (answers * channel_event)) (s : channel * system (list bytes)) : channel * system (list bytes) :=
  match serve_all sample_greet sample_farewell sample_answer es s with Ok (_, s) => s | Fault _ => s end.

Definition completes (es : list (answers * channel_event)) (s : channel * system (list bytes)) : bool :=
  match serve_all sample_greet sample_farewell sample_answer es s with Ok _ => true | Fault _ => false end.

Lemma sample_run_ok es s : completes es s = true -> serve_all sample_greet sample_farewell sample_answer es s = Ok (tt, sample_run es s).
Proof. unfold completes, sample_run. by destruct (serve_all _ _ _ es s) as [[[] s'] |]. Qed.

Lemma sample_run_inv es s s' : serve_all sample_greet sample_farewell sample_answer es s = Ok (tt, s') -> s' = sample_run es s.
Proof. unfold sample_run. by intros ->. Qed.

Lemma sample_fresh : fresh_socket sample_handlers quiet.
Proof. right. split; [unfold valid_fd, FD_SETSIZE; cbn; lia | reflexivity]. Qed.

(** Two bytes of a message are written first, then the rest and the answer. *)
Example sample_written : written (sample_run sample_events sample_start).2 = sample_hello ++ map byte.of_Z [1; 2; 0; 8; 0; 0; 0; 9].
Proof. vm_compute. done. Qed.

(** When a socket cannot be made for a connection that was refused, the
    descriptor of that one is closed again, whose it may be then. *)
Example closed_twice :
  let refused := Answers 7 true true (Some ECONNREFUSED) (Some None) (ReadError true) [] in
  match start_channel 1 6633 (zero_channel sample_handlers, System refused [] [] []) with
  | Ok (ok, s) => ok = true /\ closed (sample_run [(Answers (-1) true true None None (ReadError true) [], Expire)] s).2 = [7; 7]
  | Fault _ => False
  end.
Proof. vm_compute. done. Qed.

(** The bytes of an incomplete message of one connection are taken for the start
    of the first message of the next: the client gets a message of a byte. *)
Example stale_fragment :
  let es := [(quiet, WriteReady); (sample_answers (Received (map byte.of_Z [1; 2; 0])) [], ReadReady); (sample_answers (Received []) [], ReadReady);
             (quiet, WriteReady); (sample_answers (Received sample_hello) [], ReadReady)] in
  client_state (sample_run es sample_start).2 = [[]; [Byte.x01]].
Proof. vm_compute. done. Qed.

Lemma secure_channel_refines_witness :
  wf_handler sample_handlers /\ fresh_socket sample_handlers (system_answers sample_system) /\ Forall (fresh_answers sample_handlers) sample_events /\
  exists ok s, start_channel 1 6633 (zero_channel sample_handlers, sample_system) = Ok (ok, s) /\ (ok = false <-> spec_try (system_answers sample_system) = down) /\
    (ok = true ->
      match spec_run sample_greet sample_farewell sample_answer (opened_with sample_system) sample_events with
      | Ok sp => exists s', serve_all sample_greet sample_farewell sample_answer sample_events s = Ok (tt, s') /\ stands sample_handlers [] s' sp
      | Fault f => f = AssertFailed /\ serve_all sample_greet sample_farewell sample_answer sample_events s = Fault f
      end).
Proof.
  split; [exact init_handler_wf |]. split; [exact sample_fresh |]. split; [repeat (constructor; [exact sample_fresh |]); constructor |].
  apply secure_channel_refines; [exact init_handler_wf | exact sample_fresh | repeat (constructor; [exact sample_fresh |]); constructor].
Defined.

Lemma waiting_message_blocks_channel_witness :
  let s := sample_run sample_broken sample_start in
  0 < waiting s /\ written (sample_run sample_after s).2 = written s.2.
Proof.
  split; [vm_compute; reflexivity |].
  apply (waiting_message_blocks_channel sample_handlers sample_greet sample_farewell sample_answer sample_system 1 6633
    sample_broken sample_after sample_start (sample_run sample_broken sample_start) (sample_run sample_after (sample_run sample_broken sample_start))).
  - exact init_handler_wf.
  - exact sample_fresh.
  - repeat (constructor; [exact sample_fresh |]); constructor.
  - vm_compute. reflexivity.
  - apply sample_run_ok. vm_compute. reflexivity.
  - vm_compute. discriminate.
  - vm_compute. reflexivity.
  - apply sample_run_ok. vm_compute. reflexivity.
  - intros n s1 ->%sample_run_inv. do 4 (destruct n as [| n]; [vm_compute; reflexivity |]). rewrite take_ge by (cbn; lia). vm_compute. reflexivity.
Defined.

Lemma sample_reliable : reliable sample_handlers quiet.
Proof. split; [exact sample_fresh |]. do 4 (split; [done |]). by exists None. Qed.

Lemma connection_opened_again_witness :
  let s := sample_run sample_broken sample_start in
  exists s', serve_all sample_greet sample_farewell sample_answer [(quiet, Expire); (quiet, WriteReady)] s = Ok (tt, s') /\
    connection_status s'.1 = CONNECTED /\ connection_fd s'.1 ∈ event_read_set (events s'.1).
Proof.
  apply (connection_opened_again sample_handlers sample_greet sample_farewell sample_answer sample_system 1 6633 sample_broken quiet quiet
    sample_start (sample_run sample_broken sample_start)).
  - exact init_handler_wf.
  - exact sample_reliable.
  - repeat (constructor; [exact sample_reliable |]); constructor.
  - intros x. repeat constructor.
  - vm_compute. reflexivity.
  - apply sample_run_ok. vm_compute. reflexivity.
  - exact sample_reliable.
  - done.
  - exact sample_reliable.
  - reflexivity.
Defined.
End Samples.
